(* ===== verification/_CoqProject ===== *)
-Q . S2P
Prelude.v
CxxString.v
Types.v
Time.v
Der.v
Codec.v
Utf.v
Json.v
FileSystem.v
Paths.v
Sha256.v
Sha1.v
Jks.v
Pem.v
KeyContainers.v
Imprint.v
AsicUri.v
HttpPolicy.v
HttpClient.v
CaRegistry.v
Cryptonite.v
Fixture.v
CertResolve.v
KeyNormalize.v
X509Name.v
Chain.v
PathEngine.v
Crl.v
Ocsp.v
Revocation.v
Resolvers.v
TrustList.v
XmlDsig.v
Evidence.v
Timestamp.v
Xades.v
Validation.v
Report.v
Projection.v
ReportJson.v
PolicyCache.v
PolicyAtomic.v
TrustSync.v
Session.v
Cms.v
TokenValidator.v
Pades.v
SessionFormats.v
Asic.v
SessionPdf.v
SessionXml.v
SessionAsic.v
KeySession.v
Fetchers.v
