(* ===== verification/Prelude.v ===== *)
(** * Tamga: verification of the core of the Ukrainian qualified-signature library

    Tamga (C++17, under [src/src]) signs and verifies electronic signatures of the
    Ukrainian PKI.  A handler of the session takes a document and a signature, has the
    structure verified cryptographically (CMS, PDF, XML), has the validation engine
    decide whether to trust the result - policy, evidence, timestamp, signing time,
    certificate path, trusted list, revocation, decision - and projects the report of the
    engine onto the public one, whose summary the clients read.  Beside it stand the
    private key containers, the synchronisation of the trusted lists and the HTTP client
    that both use.  This development models these parts from the handlers down to the DER
    decoder, and proves what a verdict means.

    ** Files

    Paths are relative to [src/src/lib].  The files are listed by layer; each requires
    only files above it.

    Foundations.
    - [Prelude]: notations, bytes, machine words, record update, shared lemmas.
    - [CxxString]: [std::string] and the character functions the code uses.
    - [Types]: the enumerations and structures of [core/policy/PolicyTypes.h],
      [core/Errors.h], [core/validation/ValidationTypes.h] and [core/Session.h], field by
      field with their defaults.
    - [Time]: ISO 8601 and GeneralizedTime texts ([util/Iso8601.cpp], [ParseIso8601Time],
      [NormalizeTimestampTime]).
    - [Der]: [util/Der.cpp], with [size_t] at its width and reads outside the buffer as [UB].
    - [Codec]: [util/Base64.cpp] (Module [Base64]), [util/Hex.cpp] (Module [Hex]).
      [Utf]: the conversions between UTF-8 and UTF-16.  [Json]: [util/Json.h].
    - [FileSystem]: [util/FileSystem.cpp].  [Paths]: [std::filesystem::path].
    - [Sha256]: [core/policy/Sha256Helper.h].  [Imprint]: [core/policy/ImprintDigest.cpp].

    Private keys.
    - [Sha1], [Jks], [Pem], [KeyContainers]: the key containers of [core/KeyParsers.cpp].
    - [KeyNormalize]: [NormalizeKeyContainer], which tells the containers apart.
    - [CertResolve]: [core/cryptonite/KeyPairing.cpp], [core/net/CertificateResolver.cpp].
    - [KeySession]: [core/session/SessionLifecycle.ipp], [SessionKeyLoading.ipp].

    The network and the files of the trusted lists.
    - [HttpPolicy]: [core/net/HttpAccessPolicy.cpp], [HttpMessageSyntax.cpp].
      [HttpClient]: [core/HttpClient.cpp].  [CaRegistry]: [core/net/CaSettingsRegistry.cpp].
    - [TrustList]: [xml/XmlCore.h], [core/policy/TrustListParser.cpp],
      [core/validation/TrustServiceEvaluator.cpp].
    - [PolicyCache], [PolicyAtomic]: [core/policy/PolicyCache.cpp].  [TrustSync]:
      [core/policy/TrustListSync.cpp], [TlXmlSigCheck.cpp], [TrustListSettings.h].

    Certificates and the engine.
    - [Cryptonite]: the classes [CertApi], [CrlApi], [Clock] and the wrappers of
      [core/cryptonite].  [Fixture]: a concrete instance, for the concrete cases.
    - [X509Name]: [util/X509Name.cpp], [core/cryptonite/Names.cpp].
    - [Chain]: [core/policy/CertificateChainValidator.cpp].
      [PathEngine]: [core/validation/PathEngine.cpp].
    - [Crl]: [core/policy/CrlValidator.cpp].  [Ocsp]: [core/policy/OcspValidator.cpp].
      [Revocation]: [core/validation/RevocationEngine.cpp], against the interface
      [Validators], which [tamga_validators] discharges with [Crl] and [Ocsp].
    - [Resolvers]: [core/validation/PolicyResolver.cpp], [SigningTimeResolver.cpp].
    - [Evidence]: [core/validation/EvidenceStore.cpp].
      [Timestamp]: [core/validation/TimestampEngine.cpp].
    - [Validation]: [core/validation/ValidationEngine.cpp].

    Formats of signatures.
    - [Cms]: [core/cryptonite] ([CmsAttributeOps.cpp], [VerifyOps.cpp], [CertUtil.cpp]).
      [TokenValidator]: [core/policy/TimestampValidator.cpp]; its instances
      [tamga_timestamps] and [tamga_cms] discharge the interfaces [TimestampApi] and
      [SessionApi] of the engine and the session with this code.
    - [XmlDsig]: [xmldsig].  [Xades]: the verifier of [xades].  [Pades]: the reader and the
      verifier of [pades].  [AsicUri]: [util/AsicUri.cpp].
    - [Asic]: the ZIP archive, the manifests and the containers of [asic]
      ([AsicReader.cpp], [AsicWriter.cpp], [AsicContainers.cpp]).

    Reports and handlers.
    - [Report]: [core/session/VerifySummary.cpp], [core/session/VerifyReportCommit.cpp],
      [core/policy/VerifyChecks.cpp], [core/policy/PolicyDecision.cpp].
      [Projection]: [core/validation/ValidationReportProjection.cpp] and its adapter.
      [ReportJson]: the technical report and the report for the user.
    - [Session]: [VerifyData], [VerifyDataInternal] and their Base64 forms, and the
      ownership of the report ([core/session/VerifyReportOwnership.h]).
    - [SessionFormats]: the trust of each signer of a document.  [SessionPdf]:
      [core/session/SessionPdfOps.ipp].  [SessionXml]: [core/session/SessionXmlOps.ipp].
      [SessionAsic]: the verification of [core/session/SessionAsicOps.ipp].
    - [Fetchers]: [core/policy/CrlCache.cpp], [core/policy/AiaIssuerFetcher.cpp] and
      [EnrichWithAiaIssuersIfNeeded]; its instance [tamga_external] discharges the
      interface [ExternalApi] of [TokenValidator] with this code and [HttpClient].

    Structures are records with the source's field names behind a short prefix; a handler
    is a function that passes its state; an early return is the left summand of a sum; a
    call that can read out of bounds returns an [outcome], whose third case is undefined
    behaviour; the file system is an explicit value, since downloads change later reads.
    Where several answers of the operating system matter, the operations are written in a
    state monad over the calls ([PolicyCache]), so that a theorem can quantify over them.

    ** What the theorems show

    - End to end ([Session], [TokenValidator], [SessionPdf], [SessionXml], [SessionAsic],
      [Validation], [Projection], [Report]): a summary "valid" of a detached signature, of a
      PDF, of an XML document or of an ASiC container rests on a verified signature of every signer over exactly these octets,
      a chain to an anchor the policy admits, a conclusive revocation check of this
      certificate at the evaluation time and acceptable timestamps; that of a detached
      signature rests on timestamps that are valid in full.  The decision and the
      public report are determined exactly; where the code does less than its callers may
      think, a theorem says so ([report_is_of_first_signer],
      [document_timestamp_hides_changes], [TlSignature_ignores_content]).
    - Formats: the CMS layer gives one result per signer; an accepted XML signature is the
      only one of its document and all its digests hold; the octets a PDF signature covers
      are determined, and the comparison of revisions sees every replaced stream within
      its limits; a timestamp token is bound to the octets and to its signer; an archive
      is accepted exactly within its limits, a packed container is read back, and the
      answer true about a container means that every document of it is covered.
    - Components: the chain search is sound and complete and ends; the CRL verdict is what
      the pool of lists proves; a conclusive OCSP answer is authentic and about this
      certificate; the revocation engine answers with the first conclusive attempt; a valid
      timestamp has all its grounds; policy, signing time and trusted-list rules are exact.
    - Files and network: the cache of the trusted lists is replaced as a whole or not at
      all, whichever single call that makes, writes, moves or removes a file fails, as long as
      nothing that an earlier transaction left behind has to be removed by the call that fails
      and the questions what is there are answered (examples show what happens otherwise);
      every request goes where the access policy admits it at that
      moment; the stores hold exactly the certificates of the granted services; the search
      for issuers is bounded whatever the network answers and returns only what it received
      with success, and a verification that is offline sends nothing and writes nothing.
    - Keys: a container gives back the key it was written with; a certificate that
      resolution returns belongs to the key, while the one a container holds itself is taken
      as it is; a session never keeps half of a key, and a handler that fails changes nothing
      but the error and, for a synchronisation, its report.
    - Data: evidence is content-addressed; DER decoding stays in bounds on every width of
      [size_t] and inverts encoding; names are formatted without undefined behaviour;
      Base64, hexadecimal, UTF and JSON texts are read back; times are real instants; the
      two digests compute the standard on every length.
    - Concurrency: the epochs give each report to exactly the thread that committed it last,
      in every interleaving of fewer than 2^64 commits.

    ** Fuel

    [Chain.search] has one unit per node taken from the queue and a node is queued at most
    once per encoding, so two more than the candidates are enough ([search_exhausts]).  The
    loops of [X509Name] advance by at least two octets, so one unit per octet is enough
    ([rdn_loop_safe]); so do those that skip optional elements in [TokenValidator].
    [TrustList.walk] has one unit per node.  [Cms.walk_chain] has one unit more than the
    set has certificates, and no certificate is used twice.  The traversal of [Pades] has
    the thirteen levels that the code's own limit of depth leaves, the search for issuers
    of [Fetchers] the levels of its own [max_depth].  Theorems about
    these functions are about their results, not conditional on one.

    ** Parameters

    Code outside of the sources is a class, of which nothing is assumed unless a theorem
    names it: the vendored C library ([CertApi], [CrlApi], [OcspApi], [CmsApi], [DigestApi],
    [KeyCrypto], [KeyStoreApi]), libxml2 ([LibXml], [XmlCrypto]), qpdf and the order in which
    it and the standard library sort ([Qpdf], [FieldSort]), miniz ([Miniz], [XmlProps]),
    the decoders of extensions ([CertExtensions]), the registry of certification authorities
    as the verification asks it ([RegistryApi]), the Windows HTTP and socket
    calls ([WinHttp], [InetApi]), the wall clock ([Clock]) and the operating system
    ([StoreApi], [FileApi], [CaWorld], [SyncWorld]).  [Http] and [FetchApi] stand for the
    transport where a component is given one.  [MetadataApi] assumes that the names of a
    decoded certificate fit in the address space; [ExternalApi] is what [TokenValidator]
    leaves open and [Fetchers] closes.  Allocation does not fail.

    ** Not modelled

    The operations that create signatures (CMS signing, the PDF and XAdES builders,
    the handlers of ASiC containers) are glue around the primitives of the library, and
    the search for certificates by CMP and LDAP ([core/net/CertificateFetcher.cpp]) is a
    parameter of [CertResolve]: its results are checked where they are used.  The
    command line, the C interface and the 1C component pass arguments and results through;
    the vendored code is third-party. *)

From stdpp Require Export base list strings gmap.
From Stdlib Require Export ZArith Lia.
From Stdlib Require Export Strings.Byte.

#[export] Set Default Goal Selector "!".

(** ** Scope of the development *)

Declare Scope tamga_scope.
Delimit Scope tamga_scope with tamga.

(** [operator==] of [std::string]. *)
Infix "==s" := String.eqb (at level 70, no associativity) : tamga_scope.
(** [operator+] of [std::string]. *)
Infix "+s+" := String.append (at level 60, right associativity) : tamga_scope.

Create HintDb tamga.
Create Rewrite HintDb tamga_bool.

#[export] Hint Rewrite String.eqb_eq String.eqb_neq : tamga_bool.

(** ** Bytes

    [std::uint8_t] is [Init.Byte.byte]; [std::vector<std::uint8_t>] is
    [list byte]; [std::string] is [string], a sequence of 8-bit characters. *)

Abbreviation bytes := (list byte).

#[export] Instance byte_eq_decision : EqDecision byte := Byte.byte_eq_dec.

#[export] Program Instance byte_countable : Countable byte :=
  inj_countable Byte.to_N Byte.of_N _.
Next Obligation. exact Byte.of_to_N. Qed.

#[export] Instance byte_inhabited : Inhabited byte := populate x00.

Definition u8 (b : byte) : Z := Z.of_N (Byte.to_N b).

(** [static_cast<std::uint8_t>]: reduction modulo 256. *)
Definition to_u8 (z : Z) : byte :=
  match Byte.of_N (Z.to_N (z mod 256)) with
  | Some b => b
  | None => x00
  end.

Lemma u8_range (b : byte) : (0 <= u8 b < 256)%Z.
Proof. unfold u8. pose proof (Byte.to_N_bounded b). lia. Qed.

Lemma to_u8_u8 (b : byte) : to_u8 (u8 b) = b.
Proof.
  unfold to_u8. rewrite Z.mod_small by apply u8_range.
  unfold u8. by rewrite N2Z.id, Byte.of_to_N.
Qed.

Lemma u8_to_u8 (z : Z) : u8 (to_u8 z) = (z mod 256)%Z.
Proof.
  unfold to_u8.
  pose proof (Z.mod_pos_bound z 256 ltac:(lia)) as Hb.
  destruct (Byte.of_N (Z.to_N (z mod 256))) as [b|] eqn:E.
  - apply Byte.to_of_N in E. unfold u8. rewrite E. lia.
  - apply Byte.of_N_None_iff in E. lia.
Qed.

Lemma u8_inj (a b : byte) : u8 a = u8 b -> a = b.
Proof. intros H. by rewrite <- (to_u8_u8 a), H, to_u8_u8. Qed.

#[export] Hint Resolve u8_range : tamga.

(** ** Machine integers of a given width, kept as [Z] with wrap-around *)

Definition wrap (w : Z) (z : Z) : Z := (z mod 2 ^ w)%Z.

Lemma wrap_small (w z : Z) : (0 <= z < 2 ^ w)%Z -> wrap w z = z.
Proof. intros. unfold wrap. by apply Z.mod_small. Qed.

Lemma wrap_range (w z : Z) : (0 <= w)%Z -> (0 <= wrap w z < 2 ^ w)%Z.
Proof. intros. unfold wrap. apply Z.mod_pos_bound. by apply Z.pow_pos_nonneg. Qed.

(** Linear arithmetic with division and remainder by constants. *)
Ltac zdm := Z.to_euclidean_division_equations; lia.

(** Bits above a bound are zero. *)
Lemma testbit_small (b n i : Z) : (0 <= b < 2 ^ n)%Z -> (n <= i)%Z -> Z.testbit b i = false.
Proof.
  intros Hb Hi. destruct (Z.eq_dec b 0) as [->|Hne]; [apply Z.bits_0|].
  apply Z.bits_above_log2; [lia|].
  apply Z.lt_le_trans with n; [|lia]. apply Z.log2_lt_pow2; lia.
Qed.

(** [(a << n) | b] is an addition when [b] has at most [n] bits. *)
Lemma lor_shiftl_add (a b n : Z) :
  (0 <= n)%Z -> (0 <= b < 2 ^ n)%Z -> Z.lor (Z.shiftl a n) b = (a * 2 ^ n + b)%Z.
Proof.
  intros Hn Hb.
  assert (Z.land (Z.shiftl a n) b = 0)%Z as E.
  { apply Z.bits_inj'. intros i Hi. rewrite Z.land_spec, Z.bits_0, Z.shiftl_spec by done.
    destruct (Z_lt_le_dec i n).
    - by rewrite Z.testbit_neg_r by lia.
    - by rewrite (testbit_small b n i), andb_false_r by done. }
  rewrite <- Z.shiftl_mul_pow2 by done.
  by rewrite Z.add_nocarry_lxor, Z.lxor_lor.
Qed.

(** ** Functional record update

    [r <| f := v |>] is the record [r] with field [f] set to [v]: an assignment
    [r.f = v;] of the C++ source.  A record opts in by an [Eta] instance, its
    eta-expansion written with the field names. *)

Class Eta (R : Type) := eta_of : R -> R.

Class Setter {R T : Type} (proj : R -> T) := setter : (T -> T) -> R -> R.

Ltac solve_setter :=
  lazymatch goal with
  | |- @Setter ?R ?T ?proj =>
      let body := eval hnf in (@eta_of R _) in
      let abstracted := eval pattern proj in body in
      lazymatch abstracted with
      | ?G _ =>
          let t := eval cbv beta in (fun (f : T -> T) (r : R) => G (fun x : R => f (proj x)) r) in
          exact t
      end
  end.

#[export] Hint Extern 0 (Setter _) => solve_setter : typeclass_instances.

Notation "r <| f := v |>" := (setter (proj := f) (fun _ => v) r)
  (at level 1, f at level 9, left associativity) : tamga_scope.
Notation "r <| f ::= g |>" := (setter (proj := f) g r)
  (at level 1, f at level 9, left associativity) : tamga_scope.

(** ** Steps that may fail *)

(** A step that may fail with a message of its own. *)
Notation "'let!' p := e 'else' msg 'in' k" :=
  (match e with Some p => k | None => inl msg%string end)
  (at level 200, p pattern, e at level 200, msg at level 200, k at level 200, only parsing) : tamga_scope.

(** A step that carries its message. *)
Notation "'let?' p := e 'in' k" :=
  (match e with inr p => k | inl message => inl message end)
  (at level 200, p pattern, e at level 200, k at level 200, only parsing) : tamga_scope.

Global Open Scope tamga_scope.
