(* ===== verification/CxxString.v ===== *)
(** * CxxString: the operations of the C and C++ libraries the source calls on text

    [std::string] is [string]; the character loops of the source run over the
    list of its characters ([chars]).  Character classes are those of the "C"
    locale, on the unsigned value of a character. *)

From Stdlib Require Ascii.
From stdpp Require Export pretty.
From S2P Require Import Prelude.
Export Stdlib.Strings.Ascii (ascii(..)).
Export (notations) Stdlib.Strings.Ascii.

Local Open Scope Z_scope.

(** ** Characters *)

Abbreviation chars := String.list_ascii_of_string (only parsing).
Abbreviation of_chars := String.string_of_list_ascii (only parsing).

(** [static_cast<unsigned char>(c)] as a number. *)
Definition uc (c : ascii) : Z := Z.of_N (Ascii.N_of_ascii c).

(** [static_cast<char>(n)]: reduction modulo 256. *)
Definition to_char (z : Z) : ascii := Ascii.ascii_of_N (Z.to_N (z mod 256)).

Definition in_range (c : ascii) (lo hi : Z) : bool := (lo <=? uc c) && (uc c <=? hi).

Definition isdigit (c : ascii) : bool := in_range c 48 57.
Definition isspace (c : ascii) : bool := (uc c =? 32) || in_range c 9 13.
Definition isupper (c : ascii) : bool := in_range c 65 90.
Definition islower (c : ascii) : bool := in_range c 97 122.
Definition isalnum (c : ascii) : bool := isdigit c || isupper c || islower c.
Definition tolower (c : ascii) : ascii := if isupper c then to_char (uc c + 32) else c.

Lemma uc_range (c : ascii) : 0 <= uc c < 256.
Proof. unfold uc. pose proof (Ascii.N_ascii_bounded c). lia. Qed.

Lemma to_char_uc (c : ascii) : to_char (uc c) = c.
Proof.
  unfold to_char. rewrite Z.mod_small by apply uc_range.
  unfold uc. by rewrite N2Z.id, Ascii.ascii_N_embedding.
Qed.

Lemma uc_to_char (z : Z) : uc (to_char z) = z mod 256.
Proof.
  unfold uc, to_char. pose proof (Z.mod_pos_bound z 256 ltac:(lia)).
  rewrite Ascii.N_ascii_embedding by lia. lia.
Qed.

Lemma uc_inj (a b : ascii) : uc a = uc b -> a = b.
Proof. intros H. by rewrite <- (to_char_uc a), H, to_char_uc. Qed.

#[export] Hint Resolve uc_range : tamga.

(** ** Strings *)

Definition str_empty (s : string) : bool := match s with EmptyString => true | _ => false end.

Lemma str_empty_spec (s : string) : str_empty s = true <-> s = "".
Proof. by destruct s. Qed.

Lemma str_empty_false (s : string) : str_empty s = false <-> s <> "".
Proof. by destruct s. Qed.

(** [s.find(pat, pos)]; [None] is [npos].  Every pattern in the source is non-empty. *)
Definition str_find (s pat : string) (pos : nat) : option nat := String.index pos pat s.

Definition str_contains (s pat : string) : bool :=
  match str_find s pat 0 with Some _ => true | None => false end.

(** [s.substr(pos, count)] within range: the characters from [pos], at most [count]. *)
Definition substr (s : string) (pos count : nat) : string :=
  of_chars (take count (drop pos (chars s))).

(** [s.substr(pos)]. *)
Definition substr_from (s : string) (pos : nat) : string := of_chars (drop pos (chars s)).

(** [s.rfind(prefix, 0) == 0]. *)
Definition starts_with (s prefix : string) : bool := String.prefix prefix s.

(** The position of the first element that satisfies [f], at or after [pos]. *)
Fixpoint find_from {A} (f : A -> bool) (l : list A) (pos : nat) : option nat :=
  match l with
  | [] => None
  | c :: l' =>
      match pos with
      | O => if f c then Some O else S <$> find_from f l' O
      | S p => S <$> find_from f l' p
      end
  end.

Definition char_in (set : string) (c : ascii) : bool :=
  existsb (fun x => Ascii.eqb x c) (chars set).

(** [s.find_first_of(set, pos)]. *)
Definition find_first_of (s set : string) (pos : nat) : option nat :=
  find_from (char_in set) (chars s) pos.

(** The C string at a position of a [std::string]: up to the first NUL. *)
Fixpoint cstr (l : list ascii) : list ascii :=
  match l with
  | [] => []
  | c :: l' => if uc c =? 0 then [] else c :: cstr l'
  end.

(** [std::to_string] of an integer. *)
Definition to_string (z : Z) : string := pretty z.

Lemma chars_of_chars (l : list ascii) : chars (of_chars l) = l.
Proof. apply String.list_ascii_of_string_of_list_ascii. Qed.

Lemma of_chars_chars (s : string) : of_chars (chars s) = s.
Proof. apply String.string_of_list_ascii_of_string. Qed.

Lemma chars_app (a b : string) : chars (a +s+ b) = chars a ++ chars b.
Proof.
  induction a as [|c a IH]; [done|].
  change (chars (String c a +s+ b)) with (c :: chars (a +s+ b)). by rewrite IH.
Qed.

Lemma of_chars_app (a b : list ascii) : of_chars (a ++ b) = of_chars a +s+ of_chars b.
Proof.
  induction a as [|c a IH]; [done|].
  change (String c (of_chars (a ++ b)) = String c (of_chars a +s+ of_chars b)). by rewrite IH.
Qed.

Lemma length_chars (s : string) : length (chars s) = String.length s.
Proof. induction s as [|c s IH]; cbn; congruence. Qed.

Lemma chars_inj (a b : string) : chars a = chars b -> a = b.
Proof. intros H. by rewrite <- (of_chars_chars a), H, of_chars_chars. Qed.

(** ** [sscanf] conversions

    A conversion consumes a prefix of the input; failure is [None]. *)

Fixpoint skip_space (l : list ascii) : list ascii :=
  match l with
  | c :: l' => if isspace c then skip_space l' else l
  | [] => []
  end.

(** The digits at the front of [l], at most [width] of them, accumulated on [acc];
    the flag says whether there was one. *)
Fixpoint scan_digits (width : nat) (l : list ascii) (acc : Z) (any : bool)
    : Z * bool * list ascii :=
  match width, l with
  | S w, c :: l' =>
      if isdigit c then scan_digits w l' (acc * 10 + uc c - 48) true else (acc, any, l)
  | _, _ => (acc, any, l)
  end.

(** [%<width>d]: leading white space is skipped; a sign counts towards the width. *)
Definition scan_d (width : nat) (l : list ascii) : option (Z * list ascii) :=
  let l := skip_space l in
  let '(neg, w, l) :=
    match l with
    | c :: l' =>
        if uc c =? 45 then (true, pred width, l')
        else if uc c =? 43 then (false, pred width, l') else (false, width, l)
    | [] => (false, width, l)
    end in
  let '(v, any, rest) := scan_digits w l 0 false in
  if any then Some (if neg then - v else v, rest) else None.

(** [std::strtoll] in base ten for an integer of [bits] bits: leading white space, a sign, digits;
    [None] when there are none or the value has no representation. *)
Definition strto (bits : Z) (l : list ascii) : option (Z * list ascii) :=
  match scan_d (S (length l)) l with
  | Some (v, rest) => if (- 2 ^ (bits - 1) <=? v) && (v <? 2 ^ (bits - 1)) then Some (v, rest) else None
  | None => None
  end.

(** An ordinary character of the format. *)
Definition scan_lit (ch : ascii) (l : list ascii) : option (list ascii) :=
  match l with
  | c :: l' => if Ascii.eqb c ch then Some l' else None
  | [] => None
  end.

Lemma isdigit_spec (c : ascii) : isdigit c = true <-> 48 <= uc c <= 57.
Proof. unfold isdigit, in_range. rewrite andb_true_iff, !Z.leb_le. lia. Qed.

Lemma isdigit_not_space (c : ascii) : isdigit c = true -> isspace c = false.
Proof.
  rewrite isdigit_spec. unfold isspace, in_range. intros H.
  rewrite orb_false_iff, andb_false_iff, Z.eqb_neq, !Z.leb_gt. lia.
Qed.

Lemma scan_digits_all (ds rest : list ascii) (acc : Z) (any : bool) :
  forallb isdigit ds = true ->
  scan_digits (length ds) (ds ++ rest) acc any =
  (foldl (fun v c => v * 10 + uc c - 48) acc ds, match ds with [] => any | _ => true end, rest).
Proof.
  revert acc any. induction ds as [|d ds IH]; intros acc any H; [by destruct rest|].
  cbn in *. apply andb_true_iff in H as [Hd Hds]. rewrite Hd, IH by done. by destruct ds.
Qed.

(** A conversion whose width is exactly the run of digits reads their value. *)
Lemma scan_d_digits (ds rest : list ascii) :
  forallb isdigit ds = true -> ds <> [] ->
  scan_d (length ds) (ds ++ rest) = Some (foldl (fun v c => v * 10 + uc c - 48) 0 ds, rest).
Proof.
  intros H Hne. destruct ds as [|d ds]; [done|]. unfold scan_d.
  assert (isdigit d = true) as Hd by (cbn in H; apply andb_true_iff in H; tauto).
  cbn [app skip_space]. rewrite (isdigit_not_space d Hd).
  apply isdigit_spec in Hd.
  rewrite (proj2 (Z.eqb_neq (uc d) 45)), (proj2 (Z.eqb_neq (uc d) 43)) by lia.
  pose proof (scan_digits_all (d :: ds) rest 0 false H) as E.
  cbn [app length] in *. by rewrite E.
Qed.

(** ** Decimal numbers *)

Definition digits_value (acc : Z) (l : list ascii) : Z := foldl (fun v c => v * 10 + uc c - 48) acc l.

Lemma pretty_N_char_value (x : N) : (x < 10)%N -> uc (pretty_N_char x) = 48 + Z.of_N x /\ isdigit (pretty_N_char x) = true.
Proof.
  intros H. assert (In x [0;1;2;3;4;5;6;7;8;9]%N) as Hi.
  { destruct x as [|p]; [by left|]. right. do 4 (destruct p as [p|p|]; try (cbn; tauto)); lia. }
  cbn in Hi. repeat destruct Hi as [<-|Hi]; done.
Qed.

Lemma pretty_N_go_value (x : N) (s : string) : (0 < x)%N ->
  exists ds, chars (pretty_N_go x s) = ds ++ chars s /\ forallb isdigit ds = true /\ ds <> [] /\
    digits_value 0 ds = Z.of_N x.
Proof.
  revert s. induction (N.lt_wf_0 x) as [x _ IH]; intros s Hx.
  rewrite pretty_N_go_step by done.
  destruct (pretty_N_char_value (x `mod` 10)%N ltac:(apply N.mod_lt; lia)) as [Hv Hd].
  destruct (decide (x `div` 10 = 0)%N) as [E|E].
  - rewrite E, pretty_N_go_0. exists [pretty_N_char (x `mod` 10)%N]. split; [done|]. cbn [forallb]. rewrite Hd.
    split; [done|]. split; [done|]. unfold digits_value. cbn [foldl]. rewrite Hv.
    pose proof (N.div_mod x 10 ltac:(lia)). lia.
  - destruct (IH (x `div` 10)%N (N.div_lt x 10 Hx eq_refl) (String (pretty_N_char (x `mod` 10)%N) s) (proj1 (N.neq_0_lt_0 _) E))
      as (ds & E1 & E2 & E3 & E4).
    exists (ds ++ [pretty_N_char (x `mod` 10)%N]). split; [rewrite E1; by rewrite <- app_assoc|].
    split; [rewrite forallb_app, E2; cbn [forallb]; by rewrite Hd|]. split; [by destruct ds|].
    unfold digits_value in *. rewrite foldl_app, E4. cbn [foldl]. rewrite Hv.
    pose proof (N.div_mod x 10 ltac:(lia)). lia.
Qed.

(** The text of a positive number is its digits. *)
Lemma to_string_digits (z : Z) : 0 < z ->
  exists ds, chars (to_string z) = ds /\ forallb isdigit ds = true /\ ds <> [] /\ digits_value 0 ds = z.
Proof.
  intros Hz. destruct z as [|p|p]; [lia| |lia].
  destruct (pretty_N_go_value (Npos p) "" ltac:(lia)) as (ds & E & ?).
  exists ds. rewrite app_nil_r in E. split; [|done]. unfold to_string, pretty. cbn. unfold pretty_N. by rewrite <- E.
Qed.

Lemma scan_digits_more (k : nat) (ds rest : list ascii) (acc : Z) (any : bool) :
  forallb isdigit ds = true -> match rest with c :: _ => isdigit c = false | [] => True end ->
  scan_digits (length ds + k) (ds ++ rest) acc any =
  (digits_value acc ds, match ds with [] => any | _ => true end, rest).
Proof.
  revert acc any. induction ds as [|d ds IH]; intros acc any Hd Hr.
  - cbn. destruct k; [by destruct rest|]. destruct rest as [|c r]; [done|]. cbn. by rewrite Hr.
  - cbn in *. apply andb_true_iff in Hd as [-> Hds]. rewrite IH by done. by destruct ds.
Qed.

(** [std::to_string] and back. *)
Lemma strto_to_string (bits z : Z) (rest : list ascii) :
  0 < z < 2 ^ (bits - 1) -> match rest with c :: _ => isdigit c = false | [] => True end ->
  strto bits (chars (to_string z) ++ rest) = Some (z, rest).
Proof.
  intros Hz Hr. destruct (to_string_digits z ltac:(lia)) as (ds & -> & Hd & Hne & Hv).
  unfold strto, scan_d. destruct ds as [|d ds]; [done|].
  assert (isdigit d = true) as Hd1 by (cbn in Hd; apply andb_true_iff in Hd; tauto).
  cbn [app skip_space]. rewrite (isdigit_not_space d Hd1). apply isdigit_spec in Hd1.
  rewrite (proj2 (Z.eqb_neq (uc d) 45)), (proj2 (Z.eqb_neq (uc d) 43)) by lia.
  change (d :: ds ++ rest) with ((d :: ds) ++ rest).
  replace (S (length ((d :: ds) ++ rest))) with (length (d :: ds) + S (length rest))%nat by (rewrite length_app; lia).
  rewrite scan_digits_more, Hv by done.
  rewrite (proj2 (Z.leb_le _ _)), (proj2 (Z.ltb_lt _ _)) by lia. done.
Qed.

(** ** [operator<] of [std::string]: lexicographic on unsigned characters *)

Fixpoint lex_ltb (a b : list ascii) : bool :=
  match a, b with
  | _, [] => false
  | [], _ :: _ => true
  | x :: a, y :: b => if uc x <? uc y then true else if uc y <? uc x then false else lex_ltb a b
  end.

Definition str_ltb (a b : string) : bool := lex_ltb (chars a) (chars b).
Definition str_leb (a b : string) : bool := negb (str_ltb b a).

Lemma lex_ltb_irrefl (a : list ascii) : lex_ltb a a = false.
Proof. induction a as [|x a IH]; [done|]. cbn. by rewrite Z.ltb_irrefl. Qed.

Lemma lex_ltb_trans (a b c : list ascii) : lex_ltb a b = true -> lex_ltb b c = true -> lex_ltb a c = true.
Proof.
  revert b c. induction a as [|x a IH]; intros [|y b] [|z c]; cbn; try done.
  destruct (Z.ltb_spec (uc x) (uc y)), (Z.ltb_spec (uc y) (uc x)), (Z.ltb_spec (uc y) (uc z)),
    (Z.ltb_spec (uc z) (uc y)), (Z.ltb_spec (uc x) (uc z)), (Z.ltb_spec (uc z) (uc x));
    try done; try lia. apply IH.
Qed.

Lemma lex_ltb_total (a b : list ascii) : lex_ltb a b = false -> lex_ltb b a = false -> a = b.
Proof.
  revert b. induction a as [|x a IH]; intros [|y b]; cbn; try done.
  destruct (Z.ltb_spec (uc x) (uc y)), (Z.ltb_spec (uc y) (uc x)); try done; try lia.
  intros Ha Hb. f_equal; [apply uc_inj; lia|by apply IH].
Qed.

Lemma str_ltb_irrefl (a : string) : str_ltb a a = false.
Proof. apply lex_ltb_irrefl. Qed.

Lemma str_ltb_trans (a b c : string) : str_ltb a b = true -> str_ltb b c = true -> str_ltb a c = true.
Proof. apply lex_ltb_trans. Qed.

Lemma str_ltb_total (a b : string) : str_ltb a b = false -> str_ltb b a = false -> a = b.
Proof. intros H1 H2. apply chars_inj. by apply lex_ltb_total. Qed.

Lemma str_ltb_asym (a b : string) : str_ltb a b = true -> str_ltb b a = false.
Proof.
  intros H. destruct (str_ltb b a) eqn:E; [|done].
  pose proof (str_ltb_trans a b a H E) as F. by rewrite str_ltb_irrefl in F.
Qed.

(** [path / "name"] of [std::filesystem] with a relative right-hand side. *)
Definition path_append (p name : string) : string :=
  match last (chars p) with
  | None => name
  | Some c => if Ascii.eqb c "/"%char then p +s+ name else p +s+ "/" +s+ name
  end.
