(* ===== verification/Types.v ===== *)
(** * Types: the enumerations and structures shared by the verification pipeline

    Models [core/policy/PolicyTypes.h], [core/validation/ValidationTypes.h],
    [core/Errors.h] and the report structures of [core/Session.h].

    An [enum class] is an [Inductive] inside a module of its name, so that a
    value reads as in the source ([RevocationStatus.Good]).  A [struct] is a
    [Record] whose fields carry a short prefix naming the struct; its default
    member initialisers give the value [<Struct>_default]. *)

From S2P Require Import Prelude.

(** ** Enumerations *)

Module ChainStatus.
Inductive ChainStatus :=
| NotChecked | Trusted | Untrusted | Incomplete | Expired | InvalidSignature | SignerMissing.
Abbreviation t := ChainStatus.
#[global] Instance eq_dec : EqDecision t.
Proof. solve_decision. Defined.
End ChainStatus.

Module RevocationStatus.
Inductive RevocationStatus :=
| NotChecked | Good | Revoked | Unknown | Stale | Invalid | ResponderUnavailable.
Abbreviation t := RevocationStatus.
#[global] Instance eq_dec : EqDecision t.
Proof. solve_decision. Defined.
End RevocationStatus.

Module TimestampStatus.
Inductive TimestampStatus :=
| NotChecked | Missing | Valid | InvalidImprint | InvalidSignature | UntrustedTsa | TsaExpired
| Unsupported.
Abbreviation t := TimestampStatus.
#[global] Instance eq_dec : EqDecision t.
Proof. solve_decision. Defined.
End TimestampStatus.

Module ValidationProfile.
Inductive ValidationProfile := Strict | Compatibility | UkraineLegal | Offline | Forensic.
Abbreviation t := ValidationProfile.
#[global] Instance eq_dec : EqDecision t.
Proof. solve_decision. Defined.
End ValidationProfile.

Module ValidationLevel.
Inductive ValidationLevel := Basic | Standard | Extended | Forensic.
Abbreviation t := ValidationLevel.
#[global] Instance eq_dec : EqDecision t.
Proof. solve_decision. Defined.
(** [operator<] of the scoped enumeration: the order of declaration. *)
Definition rank (l : t) : nat :=
  match l with Basic => 0 | Standard => 1 | Extended => 2 | Forensic => 3 end.
Definition geb (a b : t) : bool := Nat.leb (rank b) (rank a).
End ValidationLevel.

Module TrustAnchorPolicy.
Inductive TrustAnchorPolicy :=
| CurrentTLOnly | HistoricalAtSigningTime | ExplicitLegacyAnchorBundle | PinnedAnchors
| CustomTrustStore | ForensicAllPossible.
Abbreviation t := TrustAnchorPolicy.
#[global] Instance eq_dec : EqDecision t.
Proof. solve_decision. Defined.
End TrustAnchorPolicy.

Module OverallStatus.
Inductive OverallStatus := Valid | IntegrityOnly | Indeterminate | Invalid.
Abbreviation t := OverallStatus.
#[global] Instance eq_dec : EqDecision t.
Proof. solve_decision. Defined.
End OverallStatus.

Module SigningTimeSource.
Inductive SigningTimeSource := Unavailable | Rfc3161Timestamp | ClaimedSigningTime | VerificationTimeFallback.
Abbreviation t := SigningTimeSource.
#[global] Instance eq_dec : EqDecision t.
Proof. solve_decision. Defined.
End SigningTimeSource.

Module SigningTimeConfidence.
Inductive SigningTimeConfidence := Trusted | Claimed | Fallback | Unavailable.
Abbreviation t := SigningTimeConfidence.
#[global] Instance eq_dec : EqDecision t.
Proof. solve_decision. Defined.
End SigningTimeConfidence.

Module ErrorCode.
Inductive ErrorCode :=
| None | NotInitialized | SettingsRequired | KeyNotLoaded | InvalidArgument | InternalError
| NotSupported | GuiNotAvailable | TrustValidationFailed | RevocationCheckFailed
| OnlineServiceUnavailable | TimestampValidationFailed | PolicyValidationFailed.
Abbreviation t := ErrorCode.
#[global] Instance eq_dec : EqDecision t.
Proof. solve_decision. Defined.
End ErrorCode.

(** [ToString(ErrorCode)]. *)
Definition ErrorCode_ToString (code : ErrorCode.t) : string :=
  match code with
  | ErrorCode.None => "OK"
  | ErrorCode.NotInitialized => "Session is not initialized"
  | ErrorCode.SettingsRequired => "Settings must be configured"
  | ErrorCode.KeyNotLoaded => "Private key is not loaded"
  | ErrorCode.InvalidArgument => "Invalid argument"
  | ErrorCode.InternalError => "Internal error"
  | ErrorCode.NotSupported => "Operation is not supported"
  | ErrorCode.GuiNotAvailable => "GUI methods are unavailable in this build"
  | ErrorCode.TrustValidationFailed => "Trust validation failed"
  | ErrorCode.RevocationCheckFailed => "Certificate revocation check failed"
  | ErrorCode.OnlineServiceUnavailable => "Online validation service is unavailable"
  | ErrorCode.TimestampValidationFailed => "Timestamp validation failed"
  | ErrorCode.PolicyValidationFailed => "Verification policy validation failed"
  end.

(** ** Structures of the validation engine ([ValidationTypes.h]) *)

Record ValidationContext := MkValidationContext {
  vc_profile : ValidationProfile.t;
  vc_level : ValidationLevel.t;
  vc_verification_time : string;
  vc_offline : bool;
  vc_work_dir : string;
  vc_cms_der : bytes;
  vc_claimed_signing_time : string;
  vc_embedded_revocation_ocsp_der : list bytes;
  vc_embedded_revocation_crl_der : list bytes;
  vc_ocsp_url : string;
  vc_signature_crypto_valid : bool
}.

#[export] Instance eta_ValidationContext : Eta ValidationContext := fun r =>
  MkValidationContext (vc_profile r) (vc_level r) (vc_verification_time r) (vc_offline r)
  (vc_work_dir r) (vc_cms_der r) (vc_claimed_signing_time r) (vc_embedded_revocation_ocsp_der r)
  (vc_embedded_revocation_crl_der r) (vc_ocsp_url r) (vc_signature_crypto_valid r).

Definition ValidationContext_default : ValidationContext :=
  MkValidationContext ValidationProfile.Strict ValidationLevel.Basic "" true "" [] "" [] [] ""
  false.

Record ValidationPolicy := MkValidationPolicy {
  vp_trust_anchor_policy : TrustAnchorPolicy.t;
  vp_revocation_hard_fail : bool;
  vp_require_trusted_signing_time : bool;
  vp_require_service_level_trust : bool;
  vp_allow_historical_trust : bool;
  vp_forensic_diagnostics : bool
}.

#[export] Instance eta_ValidationPolicy : Eta ValidationPolicy := fun r =>
  MkValidationPolicy (vp_trust_anchor_policy r) (vp_revocation_hard_fail r)
  (vp_require_trusted_signing_time r) (vp_require_service_level_trust r)
  (vp_allow_historical_trust r) (vp_forensic_diagnostics r).

Definition ValidationPolicy_default : ValidationPolicy :=
  MkValidationPolicy TrustAnchorPolicy.CurrentTLOnly false false false false false.

Record ValidationPlan := MkValidationPlan {
  pl_network_allowed : bool;
  pl_trust_store_path : string;
  pl_historical_trust_store_path : string;
  pl_selected_trust_snapshot_id : string;
  pl_timeout_ms : Z
}.

#[export] Instance eta_ValidationPlan : Eta ValidationPlan := fun r =>
  MkValidationPlan (pl_network_allowed r) (pl_trust_store_path r)
  (pl_historical_trust_store_path r) (pl_selected_trust_snapshot_id r) (pl_timeout_ms r).

Definition ValidationPlan_default : ValidationPlan :=
  MkValidationPlan false "" "" "" (10000%Z).

Record ResolvedValidationPolicy := MkResolvedValidationPolicy {
  rp_policy : ValidationPolicy;
  rp_plan : ValidationPlan
}.

#[export] Instance eta_ResolvedValidationPolicy : Eta ResolvedValidationPolicy := fun r =>
  MkResolvedValidationPolicy (rp_policy r) (rp_plan r).

Definition ResolvedValidationPolicy_default : ResolvedValidationPolicy :=
  MkResolvedValidationPolicy ValidationPolicy_default ValidationPlan_default.

Record ValidationDecision := MkValidationDecision {
  vd_overall_status : OverallStatus.t;
  vd_signature_valid : bool;
  vd_trust_valid : bool;
  vd_qualified_valid : bool;
  vd_ltv_valid : bool;
  vd_trusted_signing_time : string;
  vd_signature_evaluation_time : string;
  vd_level_reached : ValidationLevel.t;
  vd_summary : string;
  vd_trust_status : string;
  vd_trust_reason : string;
  vd_because : list string;
  vd_warnings : list string;
  vd_limitations : list string
}.

#[export] Instance eta_ValidationDecision : Eta ValidationDecision := fun r =>
  MkValidationDecision (vd_overall_status r) (vd_signature_valid r) (vd_trust_valid r)
  (vd_qualified_valid r) (vd_ltv_valid r) (vd_trusted_signing_time r)
  (vd_signature_evaluation_time r) (vd_level_reached r) (vd_summary r) (vd_trust_status r)
  (vd_trust_reason r) (vd_because r) (vd_warnings r) (vd_limitations r).

Definition ValidationDecision_default : ValidationDecision :=
  MkValidationDecision OverallStatus.Indeterminate false false false false "" ""
  ValidationLevel.Basic "not-executed" "" "" [] [] [].

Record SigningTimeCandidate := MkSigningTimeCandidate {
  tc_source : SigningTimeSource.t;
  tc_time : string;
  tc_evidence_id : string;
  tc_cryptographically_valid : bool;
  tc_trusted : bool;
  tc_warnings : list string
}.

#[export] Instance eta_SigningTimeCandidate : Eta SigningTimeCandidate := fun r =>
  MkSigningTimeCandidate (tc_source r) (tc_time r) (tc_evidence_id r)
  (tc_cryptographically_valid r) (tc_trusted r) (tc_warnings r).

Definition SigningTimeCandidate_default : SigningTimeCandidate :=
  MkSigningTimeCandidate SigningTimeSource.Unavailable "" "" false false [].

Record SigningTimeResolution := MkSigningTimeResolution {
  st_signature_evaluation_time : string;
  st_source : SigningTimeSource.t;
  st_confidence : SigningTimeConfidence.t;
  st_evidence_id : string;
  st_warnings : list string;
  st_limitations : list string;
  st_trusted_time : bool
}.

#[export] Instance eta_SigningTimeResolution : Eta SigningTimeResolution := fun r =>
  MkSigningTimeResolution (st_signature_evaluation_time r) (st_source r) (st_confidence r)
  (st_evidence_id r) (st_warnings r) (st_limitations r) (st_trusted_time r).

Definition SigningTimeResolution_default : SigningTimeResolution :=
  MkSigningTimeResolution "" SigningTimeSource.Unavailable SigningTimeConfidence.Unavailable ""
  [] [] false.

Definition IsLongTermValidationValid (trust_valid : bool)
    (signer_revocation_status : RevocationStatus.t)
    (timestamp_attempted timestamp_valid : bool) : bool :=
  trust_valid && bool_decide (signer_revocation_status = RevocationStatus.Good)
  && timestamp_attempted && timestamp_valid.

(** ** Report structures ([Session.h]) *)

Record DataObjectFormatEntry := MkDataObjectFormatEntry {
  df_object_reference : string;
  df_mime_type : string;
  df_description : string
}.

#[export] Instance eta_DataObjectFormatEntry : Eta DataObjectFormatEntry := fun r =>
  MkDataObjectFormatEntry (df_object_reference r) (df_mime_type r) (df_description r).

Definition DataObjectFormatEntry_default : DataObjectFormatEntry :=
  MkDataObjectFormatEntry "" "" "".

Record TimestampEntry := MkTimestampEntry {
  te_signature_index : Z;
  te_kind : string;
  te_signed_revision_end : Z;
  te_status : string;
  te_valid : bool;
  te_policy_acceptable : bool;
  te_crypto_valid : bool;
  te_gen_time_valid : bool;
  te_certificate_time_valid : bool;
  te_eku_valid : bool;
  te_trust_valid : bool;
  te_revocation_checked : bool;
  te_historical_trust_used : bool;
  te_ocsp_attempted : bool;
  te_crl_attempted : bool;
  te_gen_time : string;
  te_validation_time : string;
  te_reason_code : string;
  te_trust_source : string;
  te_tsa_subject : string;
  te_tsa_issuer : string;
  te_tsa_serial : string;
  te_tsa_fingerprint_sha256 : string;
  te_revocation_status : string;
  te_because : list string;
  te_warnings : list string;
  te_limitations : list string;
  te_evidence_ids : list string
}.

#[export] Instance eta_TimestampEntry : Eta TimestampEntry := fun r =>
  MkTimestampEntry (te_signature_index r) (te_kind r) (te_signed_revision_end r) (te_status r)
  (te_valid r) (te_policy_acceptable r) (te_crypto_valid r) (te_gen_time_valid r)
  (te_certificate_time_valid r) (te_eku_valid r) (te_trust_valid r) (te_revocation_checked r)
  (te_historical_trust_used r) (te_ocsp_attempted r) (te_crl_attempted r) (te_gen_time r)
  (te_validation_time r) (te_reason_code r) (te_trust_source r) (te_tsa_subject r)
  (te_tsa_issuer r) (te_tsa_serial r) (te_tsa_fingerprint_sha256 r) (te_revocation_status r)
  (te_because r) (te_warnings r) (te_limitations r) (te_evidence_ids r).

Definition TimestampEntry_default : TimestampEntry :=
  MkTimestampEntry (0%Z) "signature" (0%Z) "timestamp-not-validated" false false false false
  false false false false false false false "" "" "" "" "" "" "" "" "not-checked" [] [] [] [].

Record SignatureEntry := MkSignatureEntry {
  se_index : Z;
  se_signature_valid : bool;
  se_signer_certificate_present : bool;
  se_qualifying_properties_present : bool;
  se_signing_certificate_digest_valid : bool;
  se_format_profile : string;
  se_timestamp_checked : bool;
  se_timestamp_valid : bool;
  se_timestamp_status : string;
  se_timestamp_details : list TimestampEntry;
  se_ltv_valid : bool;
  se_ltv_evidence_bound : bool;
  se_ltv_evidence_validated : bool;
  se_certificate_time_valid : bool;
  se_validation_time_source : string;
  se_chain_checked : bool;
  se_chain_valid : bool;
  se_chain_debug : string;
  se_trust_checked : bool;
  se_trust_valid : bool;
  se_trust_status : string;
  se_trust_mode : string;
  se_trust_reason : string;
  se_historical_trust_used : bool;
  se_historical_anchor_subject : string;
  se_historical_anchor_serial : string;
  se_revocation_checked : bool;
  se_ocsp_checked : bool;
  se_revocation_status : string;
  se_error_code : ErrorCode.t;
  se_message : string;
  se_signature_policy_present : bool;
  se_signature_policy_id : string;
  se_signature_policy_hash_algo_uri : string;
  se_data_object_formats : list DataObjectFormatEntry
}.

#[export] Instance eta_SignatureEntry : Eta SignatureEntry := fun r =>
  MkSignatureEntry (se_index r) (se_signature_valid r) (se_signer_certificate_present r)
  (se_qualifying_properties_present r) (se_signing_certificate_digest_valid r)
  (se_format_profile r) (se_timestamp_checked r) (se_timestamp_valid r) (se_timestamp_status r)
  (se_timestamp_details r) (se_ltv_valid r) (se_ltv_evidence_bound r)
  (se_ltv_evidence_validated r) (se_certificate_time_valid r) (se_validation_time_source r)
  (se_chain_checked r) (se_chain_valid r) (se_chain_debug r) (se_trust_checked r)
  (se_trust_valid r) (se_trust_status r) (se_trust_mode r) (se_trust_reason r)
  (se_historical_trust_used r) (se_historical_anchor_subject r) (se_historical_anchor_serial r)
  (se_revocation_checked r) (se_ocsp_checked r) (se_revocation_status r) (se_error_code r)
  (se_message r) (se_signature_policy_present r) (se_signature_policy_id r)
  (se_signature_policy_hash_algo_uri r) (se_data_object_formats r).

Definition SignatureEntry_default : SignatureEntry :=
  MkSignatureEntry (0%Z) false false false false "" false false "timestamp-not-validated" []
  false false false false "unknown" false false "" false false "not-implemented" "strict"
  "not-evaluated" false "" "" false false "not-checked" ErrorCode.None "" false "" "" [].

Record VerifyReport := MkVerifyReport {
  vr_has_result : bool;
  vr_execution_succeeded : bool;
  vr_signature_valid : bool;
  vr_trust_valid : bool;
  vr_trust_checked : bool;
  vr_revocation_checked : bool;
  vr_ocsp_checked : bool;
  vr_revocation_evidence_present : bool;
  vr_tsp_checked : bool;
  vr_timestamp_checked : bool;
  vr_timestamp_valid : bool;
  vr_timestamp_status : string;
  vr_timestamp_details : list TimestampEntry;
  vr_signer_certificate_present : bool;
  vr_qualifying_properties_present : bool;
  vr_certificate_time_valid : bool;
  vr_validation_time_source : string;
  vr_chain_checked : bool;
  vr_chain_valid : bool;
  vr_trust_list_checked : bool;
  vr_cms_signer_count : Z;
  vr_cms_verified_signer_count : Z;
  vr_trust_list_update_succeeded : bool;
  vr_operation : string;
  vr_policy : string;
  vr_container_type : string;
  vr_signature_format : string;
  vr_format_profile : string;
  vr_validated_profile : string;
  vr_ltv_valid : bool;
  vr_ltv_evidence_bound : bool;
  vr_ltv_evidence_validated : bool;
  vr_signature_policy_present : bool;
  vr_signature_policy_id : string;
  vr_signature_policy_hash_algo_uri : string;
  vr_data_object_formats : list DataObjectFormatEntry;
  vr_container_coverage_complete : bool;
  vr_coverage_status : string;
  vr_container_malformed : bool;
  vr_signatures : list SignatureEntry;
  vr_trust_status : string;
  vr_trust_mode : string;
  vr_trust_reason : string;
  vr_historical_trust_used : bool;
  vr_historical_anchor_subject : string;
  vr_historical_anchor_serial : string;
  vr_revocation_status : string;
  vr_trust_list_source : string;
  vr_trust_list_cache_status : string;
  vr_trust_list_last_sync : string;
  vr_error_code : ErrorCode.t;
  vr_message : string;
  vr_chain_debug : string
}.

#[export] Instance eta_VerifyReport : Eta VerifyReport := fun r =>
  MkVerifyReport (vr_has_result r) (vr_execution_succeeded r) (vr_signature_valid r)
  (vr_trust_valid r) (vr_trust_checked r) (vr_revocation_checked r) (vr_ocsp_checked r)
  (vr_revocation_evidence_present r) (vr_tsp_checked r) (vr_timestamp_checked r)
  (vr_timestamp_valid r) (vr_timestamp_status r) (vr_timestamp_details r)
  (vr_signer_certificate_present r) (vr_qualifying_properties_present r)
  (vr_certificate_time_valid r) (vr_validation_time_source r) (vr_chain_checked r)
  (vr_chain_valid r) (vr_trust_list_checked r) (vr_cms_signer_count r)
  (vr_cms_verified_signer_count r) (vr_trust_list_update_succeeded r) (vr_operation r)
  (vr_policy r) (vr_container_type r) (vr_signature_format r) (vr_format_profile r)
  (vr_validated_profile r) (vr_ltv_valid r) (vr_ltv_evidence_bound r)
  (vr_ltv_evidence_validated r) (vr_signature_policy_present r) (vr_signature_policy_id r)
  (vr_signature_policy_hash_algo_uri r) (vr_data_object_formats r)
  (vr_container_coverage_complete r) (vr_coverage_status r) (vr_container_malformed r)
  (vr_signatures r) (vr_trust_status r) (vr_trust_mode r) (vr_trust_reason r)
  (vr_historical_trust_used r) (vr_historical_anchor_subject r) (vr_historical_anchor_serial r)
  (vr_revocation_status r) (vr_trust_list_source r) (vr_trust_list_cache_status r)
  (vr_trust_list_last_sync r) (vr_error_code r) (vr_message r) (vr_chain_debug r).

Definition VerifyReport_default : VerifyReport :=
  MkVerifyReport false false false false false false false false false false false
  "timestamp-not-validated" [] false false false "unknown" false false false (0%Z) (0%Z) false
  "" "crypto-integrity-only" "unknown" "CMS" "" "" false false false false "" "" [] true
  "not-applicable" false [] "not-implemented" "strict" "not-evaluated" false "" "" "not-checked"
  "https://czo.gov.ua/download/tl/TL-UA-EC.xml" "not-checked" "" ErrorCode.None "" "".
