(* ===== verification/Time.v ===== *)
(** * Time: ISO 8601 and GeneralizedTime texts

    Models [ParseIso8601Time] of [core/policy/CertificateChainValidator.cpp],
    [ParseTimestampTime] of [core/validation/TimestampEngine.cpp] and
    [FormatAsIso8601] of [util/Iso8601.cpp].  [timegm] is the POSIX function
    (the branch of non-Windows builds): it normalises out-of-range fields. *)

From S2P Require Import Prelude CxxString.

Local Open Scope Z_scope.

(** ** Calendar *)

Definition is_leap (y : Z) : bool :=
  (y mod 4 =? 0) && (negb (y mod 100 =? 0) || (y mod 400 =? 0)).

(** Leap days in the years 1 .. y. *)
Definition leap_days (y : Z) : Z := y / 4 - y / 100 + y / 400.

(** Days from 1970-01-01 to the first of January of [y]. *)
Definition days_before_year (y : Z) : Z :=
  365 * (y - 1970) + (leap_days (y - 1) - leap_days 1969).

Definition month_lengths (y : Z) : list Z :=
  [31; if is_leap y then 29 else 28; 31; 30; 31; 30; 31; 31; 30; 31; 30; 31].

Definition sum_Z (l : list Z) : Z := foldr Z.add 0 l.

(** Days of [y] before month [m] (0-based). *)
Definition days_before_month (y m : Z) : Z := sum_Z (take (Z.to_nat m) (month_lengths y)).

(** [timegm] on the broken-down time with year [y] and 0-based month [mon]. *)
Definition timegm (y mon day hour minute second : Z) : Z :=
  let y' := y + mon / 12 in
  let m' := mon mod 12 in
  (days_before_year y' + days_before_month y' m' + (day - 1)) * 86400
  + hour * 3600 + minute * 60 + second.

(** ** [ParseIso8601Time] *)

Record Fields := MkFields {
  f_year : Z; f_month : Z; f_day : Z; f_hour : Z; f_minute : Z; f_second : Z
}.

(** The [sscanf] call with six [%d] conversions and a final [%c]; [None] when fewer than six
    conversions succeed, and the last character when all seven do. *)
Definition scan_iso (l : list ascii) : option (Fields * option ascii) :=
  '(year, l) ← scan_d 4 l;
  l ← scan_lit "-"%char l;
  '(month, l) ← scan_d 2 l;
  l ← scan_lit "-"%char l;
  '(day, l) ← scan_d 2 l;
  l ← scan_lit "T"%char l;
  '(hour, l) ← scan_d 2 l;
  l ← scan_lit ":"%char l;
  '(minute, l) ← scan_d 2 l;
  l ← scan_lit ":"%char l;
  '(second, l) ← scan_d 2 l;
  Some (MkFields year month day hour minute second, head l).

(** The zone offset in seconds: [%2d:%2d] after the sign, minutes optional. *)
Definition scan_zone (l : list ascii) : option Z :=
  '(h, l) ← scan_d 2 l;
  let m := match scan_lit ":"%char l with
           | Some l => match scan_d 2 l with Some (m, _) => m | None => 0 end
           | None => 0
           end in
  Some (h * 3600 + m * 60).

(** The adjustment by a numeric zone, when the text has one. *)
Definition zone_adjust (text : string) (t : Z) : Z :=
  match str_find text "T" 0 with
  | None => t
  | Some t_pos =>
      match find_first_of text "+-" (t_pos + 1) with
      | None => t
      | Some sign_pos =>
          match scan_zone (cstr (drop (sign_pos + 1) (chars text))) with
          | None => t
          | Some offset =>
              if bool_decide (chars text !! sign_pos = Some "+"%char) then t - offset else t + offset
          end
      end
  end.

Definition ParseIso8601Time (text : string) : option Z :=
  if str_empty text then None else
  '(f, z) ← scan_iso (cstr (chars text));
  let t := timegm f.(f_year) (f.(f_month) - 1) f.(f_day) f.(f_hour) f.(f_minute) f.(f_second) in
  if t =? -1 then None else
  match z with
  | Some z =>
      if negb (Ascii.eqb z "Z"%char) && negb (Ascii.eqb z "z"%char)
      then Some (zone_adjust text t) else Some t
  | None => Some t
  end.

(** ** [FormatAsIso8601] *)

(** The fourteen leading digits laid out as [YYYY-MM-DDTHH:MM:SSZ]. *)
Definition iso_layout (s : string) : string :=
  substr s 0 4 +s+ "-" +s+ substr s 4 2 +s+ "-" +s+ substr s 6 2 +s+ "T" +s+ substr s 8 2
  +s+ ":" +s+ substr s 10 2 +s+ ":" +s+ substr s 12 2 +s+ "Z".

Definition FormatAsIso8601 (generalized_time : string) : string :=
  if (Nat.ltb (String.length generalized_time) 14) || str_contains generalized_time "-"
  then generalized_time else iso_layout generalized_time.

(** ** [ParseTimestampTime]: strict UTC GeneralizedTime *)

Definition all_digits (l : list ascii) : bool := forallb isdigit l.

(** The [number] lambda. *)
Definition number (l : list ascii) (offset count : nat) : Z :=
  foldl (fun v c => v * 10 + uc c - 48) 0 (take count (drop offset l)).

Definition timestamp_fields (raw : list ascii) : Fields :=
  MkFields (number raw 0 4) (number raw 4 2) (number raw 6 2)
           (number raw 8 2) (number raw 10 2) (number raw 12 2).

(** The shape tests: 14 digits, an optional fraction, and the final [Z]. *)
Definition timestamp_shape (raw : list ascii) : bool :=
  let n := length raw in
  (Nat.leb 15 n) && (Nat.leb n 64) && bool_decide (last raw = Some "Z"%char)
  && all_digits (take 14 raw)
  && ((Nat.eqb n 15)
      || ((Nat.leb 17 n) && bool_decide (raw !! 14%nat = Some "."%char)
          && all_digits (take (n - 16) (drop 15 raw)))).

Definition calendar_ok (f : Fields) : bool :=
  negb ((f.(f_year) <? 1970) || (f.(f_month) <? 1) || (12 <? f.(f_month))
        || (23 <? f.(f_hour)) || (59 <? f.(f_minute)) || (59 <? f.(f_second)))
  && negb ((f.(f_day) <? 1)
           || (nth (Z.to_nat (f.(f_month) - 1)) (month_lengths f.(f_year)) 0 <? f.(f_day))).

Definition ParseTimestampTime (raw : string) : option string :=
  if negb (timestamp_shape (chars raw)) then None else
  if negb (calendar_ok (timestamp_fields (chars raw))) then None else
  let normalized := iso_layout raw in
  match ParseIso8601Time normalized with
  | Some _ => Some normalized
  | None => None
  end.

Definition NormalizeTimestampTime (raw : string) : option string := ParseTimestampTime raw.

(** ** Broken-down time and its text *)

(** [gmtime_r]: the fields of a time, with the month from 1. *)
Definition year_of_days (days : Z) : Z :=
  let y := 1970 + days * 400 / 146097 in
  if days <? days_before_year y then y - 1
  else if days_before_year (y + 1) <=? days then y + 1
  else y.

Fixpoint month_of_days (lengths : list Z) (month days : Z) : Z * Z :=
  match lengths with
  | [] => (month, days)
  | n :: lengths' => if days <? n then (month, days) else month_of_days lengths' (month + 1) (days - n)
  end.

Definition gmtime (t : Z) : Fields :=
  let days := t / 86400 in
  let seconds := t mod 86400 in
  let year := year_of_days days in
  let '(month, day) := month_of_days (month_lengths year) 1 (days - days_before_year year) in
  MkFields year month (day + 1) (seconds / 3600) (seconds / 60 mod 60) (seconds mod 60).

Definition decimal (n : Z) : ascii := to_char (48 + n mod 10).
Definition two_digits (n : Z) : list ascii := [decimal (n / 10); decimal n].
Definition four_digits (n : Z) : list ascii := [decimal (n / 1000); decimal (n / 100); decimal (n / 10); decimal n].

(** The year as a decimal number, as [%Y] prints it. *)
Definition year_text (y : Z) : list ascii :=
  if (1000 <=? y) && (y <=? 9999) then four_digits y else chars (to_string y).

(** [strftime] and [put_time] with the format [%Y-%m-%dT%H:%M:%SZ]. *)
Definition iso_text (t : Z) : string :=
  let f := gmtime t in
  of_chars (year_text (f_year f) ++ ["-"%char] ++ two_digits (f_month f) ++ ["-"%char] ++ two_digits (f_day f) ++ ["T"%char]
            ++ two_digits (f_hour f) ++ [":"%char] ++ two_digits (f_minute f) ++ [":"%char] ++ two_digits (f_second f)
            ++ ["Z"%char]).

(** ** Lemmas *)

Lemma leap_days_mono (y : Z) : 1969 <= y -> leap_days 1969 <= leap_days y.
Proof.
  unfold leap_days. intros. change (1969 / 4 - 1969 / 100 + 1969 / 400) with 477.
  replace (y / 400) with (y / 4 / 25 / 4) by (rewrite !Z.div_div by lia; done).
  replace (y / 100) with (y / 4 / 25) by (rewrite Z.div_div by lia; done).
  pose proof (Z.div_le_mono 1969 y 4 ltac:(lia) ltac:(lia)) as Ha. change (1969 / 4) with 492 in Ha.
  assert (19 <= y / 4 / 25) as Hb by (apply Z.div_le_lower_bound; lia).
  assert (4 <= y / 4 / 25 / 4) by (apply Z.div_le_lower_bound; lia).
  pose proof (Z.mul_div_le (y / 4) 25 ltac:(lia)). lia.
Qed.

Lemma days_before_month_nonneg (y m : Z) : 0 <= days_before_month y m.
Proof.
  unfold days_before_month, sum_Z, month_lengths.
  remember (Z.to_nat m) as k.
  destruct (is_leap y); do 13 (destruct k as [|k]; [cbn; lia|]); cbn; lia.
Qed.

Lemma timegm_nonneg (f : Fields) :
  calendar_ok f = true -> 0 <= f.(f_hour) -> 0 <= f.(f_minute) -> 0 <= f.(f_second) ->
  0 <= timegm f.(f_year) (f.(f_month) - 1) f.(f_day) f.(f_hour) f.(f_minute) f.(f_second).
Proof.
  unfold calendar_ok, timegm. intros H ???.
  rewrite andb_true_iff, !negb_true_iff, !orb_false_iff, !Z.ltb_ge in H.
  destruct H as [[[[[[Hy Hm1] Hm2] _] _] _] [Hd _]].
  rewrite Z.div_small, Z.add_0_r by lia.
  pose proof (days_before_month_nonneg (f_year f) ((f_month f - 1) mod 12)).
  pose proof (leap_days_mono (f_year f - 1) ltac:(lia)).
  unfold days_before_year. nia.
Qed.

Lemma foldl_digits_nonneg (ds : list ascii) (acc : Z) :
  0 <= acc -> forallb isdigit ds = true ->
  0 <= foldl (fun v c => v * 10 + uc c - 48) acc ds.
Proof.
  revert acc. induction ds as [|d ds IH]; intros acc Hacc H; [done|].
  cbn in *. apply andb_true_iff in H as [Hd Hds]. apply isdigit_spec in Hd. apply IH; [lia|done].
Qed.

(** Fourteen explicit digits at the front of a well-shaped text. *)
Lemma shape_split (raw : list ascii) :
  timestamp_shape raw = true ->
  exists y1 y2 y3 y4 m1 m2 d1 d2 h1 h2 n1 n2 s1 s2 rest,
    raw = [y1; y2; y3; y4; m1; m2; d1; d2; h1; h2; n1; n2; s1; s2] ++ rest /\
    forallb isdigit [y1; y2; y3; y4; m1; m2; d1; d2; h1; h2; n1; n2; s1; s2] = true.
Proof.
  unfold timestamp_shape. rewrite !andb_true_iff. intros [[[[H _] _] Hd] _].
  apply Nat.leb_le in H.
  do 14 (destruct raw as [|? raw]; [cbn in H; lia|]).
  do 15 eexists. split; [reflexivity|exact Hd].
Qed.

Lemma cstr_no_nul (l : list ascii) : forallb (fun c => negb (uc c =? 0)) l = true -> cstr l = l.
Proof.
  induction l as [|c l IH]; [done|]. cbn. rewrite andb_true_iff, negb_true_iff.
  intros [-> H]. by rewrite IH.
Qed.

Lemma digits_no_nul (l : list ascii) :
  forallb isdigit l = true -> forallb (fun c => negb (uc c =? 0)) l = true.
Proof.
  rewrite !forallb_forall. intros H c Hc. apply H in Hc. apply isdigit_spec in Hc.
  apply negb_true_iff, Z.eqb_neq. lia.
Qed.

Definition digits_value (ds : list ascii) : Z := foldl (fun v c => v * 10 + uc c - 48) 0 ds.

Lemma scan_iso_digits (y m d h n s rest : list ascii) :
  length y = 4%nat -> length m = 2%nat -> length d = 2%nat ->
  length h = 2%nat -> length n = 2%nat -> length s = 2%nat ->
  forallb isdigit (y ++ m ++ d ++ h ++ n ++ s) = true ->
  scan_iso (y ++ ["-"%char] ++ m ++ ["-"%char] ++ d ++ ["T"%char] ++ h ++ [":"%char] ++ n
            ++ [":"%char] ++ s ++ rest) =
  Some (MkFields (digits_value y) (digits_value m) (digits_value d)
                 (digits_value h) (digits_value n) (digits_value s), head rest).
Proof.
  intros Ly Lm Ld Lh Ln Ls. rewrite !forallb_app, !andb_true_iff. intros (Hy & Hm & Hd & Hh & Hn & Hs).
  unfold scan_iso. rewrite <- Ly, (scan_d_digits y) by (done || (by intros ->)). cbn.
  rewrite <- Lm, (scan_d_digits m) by (done || (by intros ->)). cbn.
  rewrite Lm, <- Ld, (scan_d_digits d) by (done || (by intros ->)). cbn.
  rewrite Ld, <- Lh, (scan_d_digits h) by (done || (by intros ->)). cbn.
  rewrite Lh, <- Ln, (scan_d_digits n) by (done || (by intros ->)). cbn.
  rewrite Ln, <- Ls, (scan_d_digits s) by (done || (by intros ->)). done.
Qed.

(** The layout of fourteen digits is read back as their calendar fields. *)
Lemma ParseIso8601Time_layout (raw : string) (fields := timestamp_fields (chars raw)) :
  timestamp_shape (chars raw) = true -> calendar_ok fields = true ->
  ParseIso8601Time (iso_layout raw) =
  Some (timegm fields.(f_year) (fields.(f_month) - 1) fields.(f_day)
               fields.(f_hour) fields.(f_minute) fields.(f_second)).
Proof.
  intros Hshape Hcal.
  destruct (shape_split _ Hshape) as
    (y1 & y2 & y3 & y4 & m1 & m2 & d1 & d2 & h1 & h2 & n1 & n2 & s1 & s2 & rest & Hraw & Hd).
  assert (chars (iso_layout raw) =
    [y1; y2; y3; y4] ++ ["-"%char] ++ [m1; m2] ++ ["-"%char] ++ [d1; d2] ++ ["T"%char]
    ++ [h1; h2] ++ [":"%char] ++ [n1; n2] ++ [":"%char] ++ [s1; s2] ++ ["Z"%char]) as Hl.
  { unfold iso_layout, substr. rewrite !chars_app, !chars_of_chars, Hraw. reflexivity. }
  assert (str_empty (iso_layout raw) = false) as He.
  { apply str_empty_false. intros E. rewrite E in Hl. discriminate. }
  assert (0 <= f_hour fields /\ 0 <= f_minute fields /\ 0 <= f_second fields) as (Hh & Hn & Hs).
  { subst fields. unfold timestamp_fields, number. rewrite Hraw. cbn [forallb] in Hd.
    rewrite !andb_true_iff in Hd.
    split_and!; apply foldl_digits_nonneg; (done || (cbn [forallb take drop app]; 
      rewrite !andb_true_iff; tauto)). }
  pose proof (timegm_nonneg fields Hcal Hh Hn Hs) as Hpos.
  unfold ParseIso8601Time. rewrite He, Hl, cstr_no_nul.
  2: { cbn [forallb app] in Hd |- *. rewrite !andb_true_iff, !isdigit_spec in Hd.
       rewrite !andb_true_iff.
       repeat split; first [reflexivity | apply negb_true_iff, Z.eqb_neq; lia]. }
  rewrite (scan_iso_digits [y1; y2; y3; y4] [m1; m2] [d1; d2] [h1; h2] [n1; n2] [s1; s2]) by done.
  assert (fields = MkFields (digits_value [y1; y2; y3; y4]) (digits_value [m1; m2])
            (digits_value [d1; d2]) (digits_value [h1; h2]) (digits_value [n1; n2])
            (digits_value [s1; s2])) as ->.
  { subst fields. unfold timestamp_fields, number, digits_value. by rewrite Hraw. }
  cbn -[timegm digits_value] in *.
  rewrite (proj2 (Z.eqb_neq _ _)); [done|lia].
Qed.

(** The strict parser of a token's genTime accepts a text exactly when it has the shape
    [YYYYMMDDHHMMSS[.fff]Z] and names a real calendar instant from 1970 on; the ISO text it
    returns is read back as that very instant.  A validation at that time therefore never
    falls back to the current clock. *)
Theorem NormalizeTimestampTime_exact (raw : string) (f := timestamp_fields (chars raw)) :
  match NormalizeTimestampTime raw with
  | Some iso =>
      timestamp_shape (chars raw) = true /\ calendar_ok f = true /\ iso = iso_layout raw /\
      ParseIso8601Time iso =
      Some (timegm f.(f_year) (f.(f_month) - 1) f.(f_day) f.(f_hour) f.(f_minute) f.(f_second))
  | None => timestamp_shape (chars raw) = false \/ calendar_ok f = false
  end.
Proof.
  unfold NormalizeTimestampTime, ParseTimestampTime.
  destruct (timestamp_shape (chars raw)) eqn:Hs; [|by left].
  destruct (calendar_ok _) eqn:Hc; [|by right]. cbn [negb].
  pose proof (ParseIso8601Time_layout raw Hs Hc) as E. cbn zeta in E |- *. by rewrite E.
Qed.

(** ** Broken-down time *)

Lemma year_of_days_spec (days : Z) :
  0 <= days < 2932897 ->
  days_before_year (year_of_days days) <= days < days_before_year (year_of_days days + 1)
  /\ 1970 <= year_of_days days <= 9999.
Proof.
  intros Hd. assert (days_before_year (1970 + days * 400 / 146097 - 1) <= days
    < days_before_year (1970 + days * 400 / 146097 + 1 + 1) /\ 1970 <= 1970 + days * 400 / 146097 <= 9999) as [H1 H2].
  { unfold days_before_year, leap_days. zdm. }
  unfold year_of_days. destruct (days <? days_before_year _) eqn:E1; [apply Z.ltb_lt in E1|apply Z.ltb_ge in E1].
  { rewrite Z.sub_add. split; [lia|]. split; [|lia]. destruct (Z.eq_dec (days * 400 / 146097) 0) as [E|]; [|zdm].
    rewrite E in E1. change (days_before_year (1970 + 0)) with 0 in E1. lia. }
  destruct (days_before_year _ <=? days) eqn:E2; [apply Z.leb_le in E2|apply Z.leb_gt in E2; lia].
  split; [lia|]. destruct (Z.eq_dec (1970 + days * 400 / 146097) 9999) as [E|]; [|lia].
  rewrite E in E2. change (days_before_year (9999 + 1)) with 2932897 in E2. lia.
Qed.

Lemma month_of_days_spec (lengths : list Z) (month days : Z) :
  0 <= days < sum_Z lengths ->
  exists k, (k < length lengths)%nat /\
    month_of_days lengths month days = (month + Z.of_nat k, days - sum_Z (take k lengths)) /\
    0 <= days - sum_Z (take k lengths) < nth k lengths 0.
Proof.
  revert month days. induction lengths as [|n lengths IH]; intros month days Hd; cbn in Hd; [lia|].
  cbn [month_of_days]. destruct (days <? n) eqn:E; [apply Z.ltb_lt in E|apply Z.ltb_ge in E].
  - exists 0%nat. cbn. split_and!; [lia|f_equal; lia|lia|lia].
  - destruct (IH (month + 1) (days - n)) as (k & Hk & -> & Hn); [unfold sum_Z; lia|]. exists (S k).
    cbn [length take nth]. change (sum_Z (n :: take k lengths)) with (n + sum_Z (take k lengths)).
    split_and!; [lia|f_equal; lia|lia|lia].
Qed.

Lemma month_lengths_sum (y : Z) : sum_Z (month_lengths y) = days_before_year (y + 1) - days_before_year y.
Proof.
  unfold month_lengths, is_leap, days_before_year, leap_days. rewrite !Z.add_simpl_r.
  destruct (y mod 4 =? 0) eqn:E4, (y mod 100 =? 0) eqn:E100, (y mod 400 =? 0) eqn:E400;
    rewrite ?Z.eqb_eq, ?Z.eqb_neq in *; cbn; zdm.
Qed.

(** The fields of a time are a calendar instant, and [timegm] gives the time back. *)
Lemma gmtime_spec (t : Z) :
  0 <= t < 253402300800 ->
  let f := gmtime t in
  1970 <= f_year f <= 9999 /\ 1 <= f_month f <= 12 /\ 1 <= f_day f <= 31 /\
  0 <= f_hour f < 24 /\ 0 <= f_minute f < 60 /\ 0 <= f_second f < 60 /\
  timegm (f_year f) (f_month f - 1) (f_day f) (f_hour f) (f_minute f) (f_second f) = t.
Proof.
  intros Ht f. subst f. unfold gmtime.
  destruct (year_of_days_spec (t / 86400)) as [Hd Hy]; [zdm|]. set (y := year_of_days (t / 86400)) in *. clearbody y.
  destruct (month_of_days_spec (month_lengths y) 1 (t / 86400 - days_before_year y)) as (k & Hk & -> & Hn);
    [rewrite month_lengths_sum; lia|].
  cbn -[Z.div Z.modulo Z.mul Z.add Z.sub month_lengths days_before_year timegm].
  assert (length (month_lengths y) = 12%nat) as Hlen by done. rewrite Hlen in Hk.
  assert (nth k (month_lengths y) 0 <= 31) as Hmax.
  { unfold month_lengths. destruct (is_leap y); do 12 (destruct k as [|k]; [cbn; lia|]); lia. }
  split_and!; [lia|lia|lia|lia|lia|lia|zdm|zdm|zdm|zdm|zdm|zdm|]. unfold timegm, days_before_month.
  rewrite (Z.div_small (1 + Z.of_nat k - 1)), (Z.mod_small (1 + Z.of_nat k - 1)), Z.add_0_r by lia.
  replace (Z.to_nat (1 + Z.of_nat k - 1)) with k by lia. zdm.
Qed.

Lemma decimal_spec (n : Z) : isdigit (decimal n) = true /\ uc (decimal n) = 48 + n mod 10.
Proof.
  assert (0 <= n mod 10 < 10) as Hn by zdm. unfold decimal. rewrite isdigit_spec, uc_to_char, (Z.mod_small (48 + n mod 10)) by lia. lia.
Qed.

Lemma two_digits_value (n : Z) : 0 <= n < 100 -> digits_value (two_digits n) = n.
Proof.
  intros Hn. unfold digits_value, two_digits. cbn [foldl].
  rewrite !(proj2 (decimal_spec _)). zdm.
Qed.

Lemma four_digits_value (n : Z) : 0 <= n < 10000 -> digits_value (four_digits n) = n.
Proof.
  intros Hn. unfold digits_value, four_digits. cbn [foldl].
  rewrite !(proj2 (decimal_spec _)). zdm.
Qed.

(** The text of a time is read back as that time, for every time whose year has four digits. *)
Theorem iso_text_roundtrip (t : Z) : 0 <= t < 253402300800 -> ParseIso8601Time (iso_text t) = Some t.
Proof.
  intros Ht. destruct (gmtime_spec t Ht) as (Hy & Hm & Hd & Hh & Hn & Hs & Hg). unfold iso_text.
  set (f := gmtime t) in *. clearbody f. unfold year_text.
  rewrite (proj2 (Z.leb_le 1000 _)), (proj2 (Z.leb_le _ 9999)) by lia. cbn [andb].
  unfold ParseIso8601Time. rewrite chars_of_chars.
  match goal with |- context [cstr ?l] => assert (forallb (fun c => negb (uc c =? 0)) l = true) as Hnul end.
  { assert (forall n, negb (uc (decimal n) =? 0) = true) as Hz
      by (intros n; destruct (decimal_spec n) as [_ ->]; apply negb_true_iff, Z.eqb_neq; zdm).
    unfold four_digits, two_digits. cbn [app forallb]. by rewrite !Hz. }
  rewrite (cstr_no_nul _ Hnul). clear Hnul.
  change (str_empty _) with false. cbv iota.
  rewrite (scan_iso_digits (four_digits (f_year f)) (two_digits (f_month f)) (two_digits (f_day f))
    (two_digits (f_hour f)) (two_digits (f_minute f)) (two_digits (f_second f)) ["Z"%char]) by
    (done || (unfold four_digits, two_digits; cbn [app forallb]; by rewrite !(fun n => proj1 (decimal_spec n)))).
  rewrite !two_digits_value, four_digits_value by lia. cbn -[timegm]. rewrite Hg.
  rewrite (proj2 (Z.eqb_neq t (-1))) by lia. done.
Qed.

Lemma iso_text_roundtrip_witness :
  0 <= 1709164799 < 253402300800 /\ iso_text 1709164799 = "2024-02-28T23:59:59Z" /\
  ParseIso8601Time (iso_text 1709164799) = Some 1709164799.
Proof. split; [lia|]. split; [reflexivity|]. apply (iso_text_roundtrip 1709164799). lia. Defined.
