(* ===== verification/Der.v ===== *)
(** * Der: the single DER length and TLV decoder of the project

    Models [util/Der.h] and [util/Der.cpp].  Offsets and lengths are
    [std::size_t]: [Z] reduced modulo [2 ^ (8 * sizeof(std::size_t))] at every
    addition and shift, for any width of [size_t] up to eight bytes (the code
    also builds for 32-bit hosts).  A read outside the buffer is [UB]. *)

From S2P Require Import Prelude.

Local Open Scope Z_scope.

(** ** The width of [std::size_t] *)

Class Platform := {
  sizeof_size_t : Z;
  sizeof_size_t_bounds : 1 <= sizeof_size_t <= 8
}.

#[export] Program Instance lp64 : Platform := {| sizeof_size_t := 8 |}.
Next Obligation. lia. Qed.

Program Definition ilp32 : Platform := {| sizeof_size_t := 4 |}.
Next Obligation. lia. Qed.

(** ** Outcomes: the value of a [true] return, a [false] return, undefined behaviour *)

Inductive outcome (A : Type) :=
| Ret (a : A)
| Fails
| UB.
Arguments Ret {A} a.
Arguments Fails {A}.
Arguments UB {A}.

Definition read (data : bytes) (i : Z) : option byte :=
  if 0 <=? i then data !! Z.to_nat i else None.

Record TlvView := MkTlvView {
  tag : byte;
  value_offset : Z;
  value_length : Z;
  next_offset : Z
}.

Section Der.
Context `{Platform}.

Definition size_bits : Z := 8 * sizeof_size_t.
Definition SIZE_MAX : Z := 2 ^ size_bits - 1.
Definition wrap_size (z : Z) : Z := wrap size_bits z.

Definition InBounds (start len limit : Z) : bool :=
  (start <=? limit) && (len <=? wrap_size (limit - start)).

(** The loop over the [count] octets of the long form. *)
Fixpoint der_length_loop (count : nat) (data : bytes) (offset length : Z) : outcome (Z * Z) :=
  match count with
  | O => Ret (offset, length)
  | S n =>
      if Z.shiftr SIZE_MAX 8 <? length then Fails else
      match read data offset with
      | None => UB
      | Some b =>
          der_length_loop n data (wrap_size (offset + 1))
            (Z.lor (wrap_size (Z.shiftl length 8)) (u8 b))
      end
  end.

(** The pointer form; the result is the advanced [offset] and the [length]. *)
Definition ParseDerLength (data : bytes) (limit offset : Z) : outcome (Z * Z) :=
  if limit <=? offset then Fails else
  match read data offset with
  | None => UB
  | Some b =>
      let first := u8 b in
      let offset := wrap_size (offset + 1) in
      if Z.land first 128 =? 0 then
        if InBounds offset first limit then Ret (offset, first) else Fails
      else
        let count := Z.land first 127 in
        if (count =? 0) || (sizeof_size_t <? count) || negb (InBounds offset count limit) then Fails
        else
          match der_length_loop (Z.to_nat count) data offset 0 with
          | Ret (offset, length) => if InBounds offset length limit then Ret (offset, length) else Fails
          | Fails => Fails
          | UB => UB
          end
  end.

Definition ParseTlvAt (data : bytes) (offset limit : Z) : outcome TlvView :=
  if limit <=? offset then Fails else
  match read data offset with
  | None => UB
  | Some t =>
      match ParseDerLength data limit (wrap_size (offset + 1)) with
      | Ret (vo, vl) => Ret (MkTlvView t vo vl (wrap_size (vo + vl)))
      | Fails => Fails
      | UB => UB
      end
  end.

(** The [std::vector] forms clamp the limit to the buffer. *)
Definition ParseDerLength_vec (data : bytes) (limit offset : Z) : outcome (Z * Z) :=
  let size := Z.of_nat (length data) in
  ParseDerLength data (if limit <? size then limit else size) offset.

Definition ParseTlvAt_vec (data : bytes) (offset limit : Z) : outcome TlvView :=
  let size := Z.of_nat (length data) in
  ParseTlvAt data offset (if limit <? size then limit else size).

Definition ParseTlvAt_all (data : bytes) (offset : Z) : outcome TlvView :=
  ParseTlvAt data offset (Z.of_nat (length data)).

(** ** Memory safety and exactness *)

(** A buffer a program can hold: its size is a [size_t]. *)
Definition fits (data : bytes) : Prop := Z.of_nat (length data) <= SIZE_MAX.

(** The big-endian value of octets, on top of [acc]. *)
Definition be_value (acc : Z) (l : bytes) : Z := foldl (fun v b => v * 256 + u8 b) acc l.

Lemma pow_size_bits : exists k, 1 <= k /\ 2 ^ size_bits = 256 * k.
Proof.
  pose proof sizeof_size_t_bounds. exists (2 ^ (8 * (sizeof_size_t - 1))). split.
  - apply (Z.pow_le_mono_r 2 0); lia.
  - unfold size_bits. replace (8 * sizeof_size_t) with (8 + 8 * (sizeof_size_t - 1)) by lia.
    rewrite Z.pow_add_r by lia. done.
Qed.

Lemma wrap_size_small (z : Z) : 0 <= z <= SIZE_MAX -> wrap_size z = z.
Proof. intros. apply wrap_small. unfold SIZE_MAX in *. lia. Qed.

Lemma InBounds_spec (start len limit : Z) :
  0 <= start -> 0 <= limit <= SIZE_MAX ->
  InBounds start len limit = true <-> start <= limit /\ len <= limit - start.
Proof.
  intros. unfold InBounds. rewrite andb_true_iff, !Z.leb_le.
  destruct (Z_le_gt_dec start limit).
  - rewrite wrap_size_small by lia. tauto.
  - lia.
Qed.

Lemma read_Some (data : bytes) (i : Z) :
  0 <= i < Z.of_nat (length data) ->
  exists b, read data i = Some b /\ drop (Z.to_nat i) data = b :: drop (S (Z.to_nat i)) data.
Proof.
  intros Hi. unfold read. rewrite (proj2 (Z.leb_le 0 i)) by lia.
  destruct (lookup_lt_is_Some_2 data (Z.to_nat i)) as [b Hb]; [lia|].
  exists b. split; [done|]. by apply drop_S.
Qed.

(** One octet more, without losing bits. *)
Lemma length_step (l : Z) (b : byte) :
  0 <= l <= Z.shiftr SIZE_MAX 8 ->
  Z.lor (wrap_size (Z.shiftl l 8)) (u8 b) = l * 256 + u8 b /\ l * 256 + u8 b <= SIZE_MAX.
Proof.
  intros Hl. pose proof (u8_range b). destruct pow_size_bits as (k & Hk & Ek).
  rewrite Z.shiftr_div_pow2 in Hl by lia. change (2 ^ 8) with 256 in Hl.
  pose proof (Z.mul_div_le SIZE_MAX 256 ltac:(lia)). unfold SIZE_MAX in *.
  assert (l < k) by lia.
  rewrite wrap_size_small by (rewrite Z.shiftl_mul_pow2 by lia; unfold SIZE_MAX; lia).
  rewrite lor_shiftl_add by lia. change (2 ^ 8) with 256. lia.
Qed.

Lemma be_value_cons (acc : Z) (b : byte) (l : bytes) :
  be_value acc (b :: l) = be_value (acc * 256 + u8 b) l.
Proof. reflexivity. Qed.

Lemma be_value_ge (l : bytes) (acc : Z) : 0 <= acc -> acc <= be_value acc l.
Proof.
  revert acc. unfold be_value. induction l as [|b l IH]; intros acc Hacc; cbn; [lia|].
  pose proof (u8_range b). specialize (IH (acc * 256 + u8 b) ltac:(lia)). lia.
Qed.

(** The loop reads exactly the [count] octets at [offset]: the value is exact, and the only
    failure is a value no [size_t] can hold. *)
Lemma der_length_loop_spec (count : nat) (data : bytes) (offset len : Z) :
  fits data -> 0 <= offset -> offset + Z.of_nat count <= Z.of_nat (length data) ->
  0 <= len <= SIZE_MAX ->
  match der_length_loop count data offset len with
  | Ret (o, l) =>
      o = offset + Z.of_nat count /\ 0 <= l <= SIZE_MAX /\
      l = be_value len (take count (drop (Z.to_nat offset) data))
  | Fails => SIZE_MAX < be_value len (take count (drop (Z.to_nat offset) data))
  | UB => False
  end.
Proof.
  intros Hfit. revert offset len.
  induction count as [|n IH]; intros offset len Ho Hb Hl; cbn [der_length_loop].
  - rewrite take_0. cbn. lia.
  - destruct (read_Some data offset) as (b & Hr & Hd); [lia|].
    rewrite Hd. cbn [take]. rewrite be_value_cons.
    pose proof (u8_range b).
    destruct (Z.ltb_spec (Z.shiftr SIZE_MAX 8) len) as [Hov|Hok].
    + rewrite Z.shiftr_div_pow2 in Hov by lia. change (2 ^ 8) with 256 in Hov.
      pose proof (Z.mul_succ_div_gt SIZE_MAX 256 ltac:(lia)).
      pose proof (be_value_ge (take n (drop (S (Z.to_nat offset)) data)) (len * 256 + u8 b)
                    ltac:(lia)). lia.
    + rewrite Hr. destruct (length_step len b) as [-> Hle]; [lia|].
      unfold fits in Hfit. rewrite wrap_size_small by lia.
      specialize (IH (offset + 1) (len * 256 + u8 b) ltac:(lia) ltac:(lia) ltac:(lia)).
      replace (Z.to_nat (offset + 1)) with (S (Z.to_nat offset)) in IH by lia.
      destruct (der_length_loop n data (offset + 1) (len * 256 + u8 b)) as [[o l]| |]; [|done|done].
      destruct IH as (-> & ? & ->). split; [lia|done].
Qed.

(** The result of the decoder on a buffer it may read up to [limit]: no read leaves the
    buffer, no sum wraps, and the value lies inside [limit]. *)
Lemma ParseDerLength_safe (data : bytes) (limit offset : Z) :
  fits data -> 0 <= offset -> limit <= Z.of_nat (length data) ->
  match ParseDerLength data limit offset with
  | Ret (o, l) => offset < o /\ 0 <= l /\ o + l <= limit
  | Fails => True
  | UB => False
  end.
Proof.
  intros Hfit Ho Hlim. unfold fits in Hfit. unfold ParseDerLength.
  destruct (Z.leb_spec limit offset); [done|].
  destruct (read_Some data offset) as (b & -> & _); [lia|].
  pose proof (u8_range b). rewrite (wrap_size_small (offset + 1)) by lia.
  destruct (Z.land (u8 b) 128 =? 0).
  - destruct (InBounds (offset + 1) (u8 b) limit) eqn:E; [|done].
    apply InBounds_spec in E; lia.
  - destruct ((Z.land (u8 b) 127 =? 0) || (sizeof_size_t <? Z.land (u8 b) 127)
              || negb (InBounds (offset + 1) (Z.land (u8 b) 127) limit)) eqn:E; [done|].
    rewrite !orb_false_iff, negb_false_iff in E. destruct E as [[Hz _] Hin].
    apply InBounds_spec in Hin; [|lia..].
    assert (0 <= Z.land (u8 b) 127) by (apply Z.land_nonneg; lia).
    pose proof (der_length_loop_spec (Z.to_nat (Z.land (u8 b) 127)) data (offset + 1) 0) as L.
    destruct (der_length_loop _ data (offset + 1) 0) as [[o l]| |];
      [|done|apply L; unfold fits; lia].
    destruct L as (-> & ? & _); [unfold fits; lia..|].
    destruct (InBounds _ l limit) eqn:E2; [|done]. apply InBounds_spec in E2; lia.
Qed.

Lemma ParseTlvAt_safe (data : bytes) (offset limit : Z) :
  fits data -> 0 <= offset -> limit <= Z.of_nat (length data) ->
  match ParseTlvAt data offset limit with
  | Ret v =>
      offset + 1 < value_offset v /\ 0 <= value_length v /\
      next_offset v = value_offset v + value_length v /\ next_offset v <= limit
  | Fails => True
  | UB => False
  end.
Proof.
  intros Hfit Ho Hlim. unfold ParseTlvAt. unfold fits in Hfit.
  destruct (Z.leb_spec limit offset); [done|].
  destruct (read_Some data offset) as (b & -> & _); [lia|].
  rewrite (wrap_size_small (offset + 1)) by lia.
  pose proof (ParseDerLength_safe data limit (offset + 1) Hfit ltac:(lia) Hlim) as L.
  destruct (ParseDerLength data limit (offset + 1)) as [[o l]| |]; [|done|done].
  cbn. rewrite wrap_size_small by lia. lia.
Qed.

(** ** The DER encoding the decoder inverts *)

(** The minimal big-endian octets of [n], in front of [acc]; [k] octets are enough. *)
Fixpoint be_octets (k : nat) (n : Z) (acc : bytes) : bytes :=
  match k with
  | O => acc
  | S k => if n =? 0 then acc else be_octets k (n / 256) (to_u8 n :: acc)
  end.

(** X.690 8.1.3: short form below 128, otherwise the count of octets and the octets. *)
Definition der_length (n : Z) : bytes :=
  if n <? 128 then [to_u8 n]
  else let os := be_octets (Z.to_nat sizeof_size_t) n [] in
       to_u8 (128 + Z.of_nat (length os)) :: os.

Definition der_tlv (t : byte) (v : bytes) : bytes :=
  t :: der_length (Z.of_nat (length v)) ++ v.

Lemma be_octets_value (k : nat) (n : Z) (acc : bytes) :
  0 <= n < 256 ^ Z.of_nat k -> be_value 0 (be_octets k n acc) = be_value n acc.
Proof.
  revert n acc. induction k as [|k IH]; intros n acc Hn; cbn [be_octets].
  - change (256 ^ Z.of_nat 0) with 1 in Hn. by replace n with 0 by lia.
  - destruct (Z.eqb_spec n 0) as [->|Hne]; [done|].
    rewrite Nat2Z.inj_succ, Z.pow_succ_r in Hn by lia.
    rewrite IH by (split; [apply Z.div_pos|apply Z.div_lt_upper_bound]; lia).
    rewrite be_value_cons, u8_to_u8. f_equal. rewrite (Z.div_mod n 256) at 3 by lia. lia.
Qed.

Lemma be_octets_length (k : nat) (n : Z) (acc : bytes) :
  (length acc <= length (be_octets k n acc) <= k + length acc)%nat.
Proof.
  revert n acc. induction k as [|k IH]; intros n acc; cbn [be_octets]; [lia|].
  destruct (n =? 0); [lia|]. specialize (IH (n / 256) (to_u8 n :: acc)). cbn in IH. lia.
Qed.

Lemma be_octets_cons (k : nat) (n : Z) : 0 < n -> (0 < k)%nat -> be_octets k n [] <> [].
Proof.
  intros Hn Hk. destruct k as [|k]; [lia|]. cbn [be_octets].
  rewrite (proj2 (Z.eqb_neq n 0)) by lia. intros E.
  pose proof (be_octets_length k (n / 256) [to_u8 n]) as L. rewrite E in L. cbn in L. lia.
Qed.

Lemma read_app (pre : bytes) (b : byte) (post : bytes) :
  read (pre ++ b :: post) (Z.of_nat (length pre)) = Some b.
Proof.
  unfold read. rewrite (proj2 (Z.leb_le _ _)) by lia. rewrite Nat2Z.id.
  by rewrite list_lookup_middle.
Qed.

Lemma short_form_bit (n : Z) : 0 <= n < 128 -> Z.land n 128 = 0.
Proof.
  intros Hn. apply Z.bits_inj'. intros i Hi. rewrite Z.land_spec, Z.bits_0.
  destruct (Z_lt_le_dec i 7).
  - change 128 with (2 ^ 7). rewrite (Z.pow2_bits_false 7 i) by lia. by rewrite andb_false_r.
  - by rewrite (testbit_small n 7 i) by lia.
Qed.

Lemma long_form_bits (c : Z) :
  1 <= c <= 8 -> Z.land (128 + c) 128 = 128 /\ Z.land (128 + c) 127 = c.
Proof.
  intros Hc.
  assert (c = 1 \/ c = 2 \/ c = 3 \/ c = 4 \/ c = 5 \/ c = 6 \/ c = 7 \/ c = 8) as Hcs by lia.
  destruct Hcs as [->|[->|[->|[->|[->|[->|[->| ->]]]]]]]; done.
Qed.

(** The loop on the octets [os] of the long form. *)
Lemma der_length_loop_octets (pre os post : bytes) (n : Z) (data := pre ++ os ++ post) :
  fits data -> be_value 0 os = n -> 0 <= n <= SIZE_MAX ->
  der_length_loop (length os) data (Z.of_nat (length pre)) 0 =
  Ret (Z.of_nat (length pre + length os), n).
Proof.
  intros Hfit Hv Hn. unfold fits in Hfit.
  assert (length data = length pre + (length os + length post))%nat as Ld
    by (subst data; by rewrite !length_app).
  pose proof (der_length_loop_spec (length os) data (Z.of_nat (length pre)) 0) as L.
  replace (take (length os) (drop (Z.to_nat (Z.of_nat (length pre))) data)) with os in L
    by (subst data; rewrite Nat2Z.id, drop_app_length; by rewrite take_app_length).
  rewrite Hv in L.
  destruct (der_length_loop (length os) data _ 0) as [[o l]| |].
  - destruct L as (-> & ? & ->); [unfold fits; lia..|]. do 2 f_equal. lia.
  - specialize (L ltac:(unfold fits; lia) ltac:(lia) ltac:(lia) ltac:(lia)). lia.
  - exfalso. apply L; unfold fits; lia.
Qed.

(** Decoding the encoded length of [n] in front of at least [n] octets. *)
Lemma ParseDerLength_encode (pre post : bytes) (n : Z) (data := pre ++ der_length n ++ post) :
  fits data -> 0 <= n <= Z.of_nat (length post) ->
  ParseDerLength data (Z.of_nat (length data)) (Z.of_nat (length pre)) =
  Ret (Z.of_nat (length pre + length (der_length n)), n).
Proof.
  intros Hfit Hn. pose proof Hfit as Hsz. unfold fits in Hsz.
  assert (length data = length pre + (length (der_length n) + length post))%nat as Ld
    by (subst data; by rewrite !length_app).
  unfold ParseDerLength. unfold der_length in *. destruct (Z.ltb_spec n 128) as [Hs|Hl].
  - cbn [length] in *. rewrite (proj2 (Z.leb_gt _ _)) by lia.
    assert (read data (Z.of_nat (length pre)) = Some (to_u8 n)) as -> by apply read_app.
    rewrite u8_to_u8, Z.mod_small, wrap_size_small, short_form_bit by lia. cbn [Z.eqb].
    assert (InBounds (Z.of_nat (length pre) + 1) n (Z.of_nat (length data)) = true) as ->
      by (apply InBounds_spec; lia).
    do 2 f_equal. lia.
  - set (os := be_octets (Z.to_nat sizeof_size_t) n []) in *. cbn [length] in *.
    pose proof sizeof_size_t_bounds.
    pose proof (be_octets_length (Z.to_nat sizeof_size_t) n []) as Los. fold os in Los. cbn in Los.
    assert (0 < length os)%nat as Hpos.
    { pose proof (be_octets_cons (Z.to_nat sizeof_size_t) n) as Hne. fold os in Hne.
      destruct os; [exfalso; apply Hne; lia || done|cbn; lia]. }
    rewrite (proj2 (Z.leb_gt _ _)) by lia.
    assert (read data (Z.of_nat (length pre)) = Some (to_u8 (128 + Z.of_nat (length os)))) as ->
      by apply read_app.
    rewrite u8_to_u8, Z.mod_small, wrap_size_small by lia.
    destruct (long_form_bits (Z.of_nat (length os))) as [-> ->]; [lia|].
    cbn [Z.eqb Pos.eqb].
    rewrite (proj2 (Z.eqb_neq _ _)), (proj2 (Z.ltb_ge _ _)) by lia.
    assert (InBounds (Z.of_nat (length pre) + 1) (Z.of_nat (length os)) (Z.of_nat (length data))
            = true) as -> by (apply InBounds_spec; lia).
    cbn [orb negb]. rewrite Nat2Z.id.
    assert (n <= SIZE_MAX) as Hmax by lia.
    assert (be_value 0 os = n) as Ev.
    { subst os. rewrite be_octets_value; [done|]. split; [lia|].
      rewrite Z2Nat.id by lia. unfold SIZE_MAX, size_bits in Hmax.
      rewrite Z.pow_mul_r in Hmax by lia. change (2 ^ 8) with 256 in Hmax. lia. }
    pose proof (der_length_loop_octets (pre ++ [to_u8 (128 + Z.of_nat (length os))]) os post n) as L.
    rewrite length_app, <- !app_assoc in L. cbn [length app] in L.
    rewrite Nat2Z.inj_add in L. change (Z.of_nat 1) with 1 in L.
    change (pre ++ to_u8 (128 + Z.of_nat (length os)) :: os ++ post) with data in L.
    rewrite L by (done || lia).
    assert (InBounds (Z.of_nat (length pre + 1 + length os)) n (Z.of_nat (length data)) = true) as ->
      by (apply InBounds_spec; lia).
    do 2 f_equal. lia.
Qed.

(** The encoded TLV at any position of a buffer is decoded to itself. *)
Lemma ParseTlvAt_encode (pre post v : bytes) (t : byte) (data := pre ++ der_tlv t v ++ post) :
  fits data ->
  ParseTlvAt_all data (Z.of_nat (length pre)) =
  Ret (MkTlvView t
         (Z.of_nat (length pre + 1 + length (der_length (Z.of_nat (length v)))))
         (Z.of_nat (length v))
         (Z.of_nat (length pre + length (der_tlv t v)))).
Proof.
  intros Hfit. pose proof Hfit as Hsz. unfold fits in Hsz.
  assert (data = (pre ++ [t]) ++ der_length (Z.of_nat (length v)) ++ v ++ post) as Ed
    by (subst data; unfold der_tlv; cbn; by rewrite <- !app_assoc).
  assert (length data = length pre + 1 + (length (der_length (Z.of_nat (length v)))
    + (length v + length post)))%nat as Ld by (rewrite Ed, !length_app; done).
  unfold ParseTlvAt_all, ParseTlvAt. rewrite (proj2 (Z.leb_gt _ _)) by lia.
  assert (read data (Z.of_nat (length pre)) = Some t) as -> by apply read_app.
  rewrite wrap_size_small by lia.
  pose proof (ParseDerLength_encode (pre ++ [t]) (v ++ post) (Z.of_nat (length v))) as L.
  rewrite <- Ed, (length_app pre [t]) in L. cbn [length] in L. rewrite Nat2Z.inj_add in L.
  change (Z.of_nat 1) with 1 in L. rewrite L by (done || (rewrite length_app; lia)).
  unfold der_tlv. cbn [length]. rewrite length_app, wrap_size_small by lia.
  f_equal. f_equal; lia.
Qed.

(** A view that ends inside a smaller limit is read under that limit too. *)
Lemma ParseDerLength_limit (data : bytes) (limit limit' offset o l : Z) :
  fits data -> 0 <= offset -> limit <= Z.of_nat (length data) -> limit' <= limit ->
  ParseDerLength data limit offset = Ret (o, l) -> o + l <= limit' ->
  ParseDerLength data limit' offset = Ret (o, l).
Proof.
  intros Hfit Ho Hlim Hle Hr Hend.
  pose proof (ParseDerLength_safe data limit offset Hfit Ho Hlim) as S. rewrite Hr in S.
  assert (forall start len, 0 <= start -> 0 <= len -> start + len <= limit' ->
    InBounds start len limit' = true) as Hin.
  { intros start len Hs Hl Hsl. unfold fits in Hfit. apply InBounds_spec; lia. }
  revert Hr. unfold ParseDerLength. unfold fits in Hfit.
  rewrite (proj2 (Z.leb_gt limit offset)), (proj2 (Z.leb_gt limit' offset)) by lia.
  destruct (read_Some data offset) as (b & -> & _); [lia|]. pose proof (u8_range b) as Hb.
  rewrite (wrap_size_small (offset + 1)) by lia.
  destruct (Z.land (u8 b) 128 =? 0).
  - destruct (InBounds (offset + 1) (u8 b) limit); [|done]. intros [= <- <-].
    by rewrite Hin by lia.
  - set (count := Z.land (u8 b) 127). assert (0 <= count) by (apply Z.land_nonneg; lia).
    destruct ((count =? 0) || (sizeof_size_t <? count) || negb (InBounds (offset + 1) count limit)) eqn:E; [done|].
    rewrite !orb_false_iff, negb_false_iff in E. destruct E as [[Hz Hc] Hb'].
    apply InBounds_spec in Hb'; [|lia..].
    pose proof (der_length_loop_spec (Z.to_nat count) data (offset + 1) 0) as L.
    destruct (der_length_loop (Z.to_nat count) data (offset + 1) 0) as [[o' l']| |]; [|done|done].
    destruct L as (-> & Hl' & _); [unfold fits; lia..|].
    destruct (InBounds _ l' limit); [|done]. intros [= <- <-].
    rewrite Hz, Hc, !Hin by lia. done.
Qed.

Lemma ParseTlvAt_limit (data : bytes) (limit limit' offset : Z) (v : TlvView) :
  fits data -> 0 <= offset -> limit <= Z.of_nat (length data) -> limit' <= limit ->
  ParseTlvAt data offset limit = Ret v -> next_offset v <= limit' ->
  ParseTlvAt data offset limit' = Ret v.
Proof.
  intros Hfit Ho Hlim Hle Hr Hend.
  pose proof (ParseTlvAt_safe data offset limit Hfit Ho Hlim) as S. rewrite Hr in S.
  revert Hr. unfold ParseTlvAt.
  rewrite (proj2 (Z.leb_gt limit offset)), (proj2 (Z.leb_gt limit' offset)) by lia.
  destruct (read_Some data offset) as (b & -> & _); [lia|].
  unfold fits in Hfit. rewrite (wrap_size_small (offset + 1)) by lia.
  destruct (ParseDerLength data limit (offset + 1)) as [[o l]| |] eqn:E; [|done|done].
  intros [= <-]. cbn in S, Hend.
  pose proof (ParseDerLength_safe data limit (offset + 1) Hfit ltac:(lia) Hlim) as S2. rewrite E in S2.
  rewrite (wrap_size_small (o + l)) in Hend by lia.
  by rewrite (ParseDerLength_limit data limit limit' (offset + 1) o l) by (done || lia).
Qed.

(** The encoded TLV is read under every limit that contains it. *)
Lemma ParseTlvAt_vec_encode (pre post v : bytes) (t : byte) (limit : Z) (data := pre ++ der_tlv t v ++ post) :
  fits data -> Z.of_nat (length pre + length (der_tlv t v)) <= limit ->
  ParseTlvAt_vec data (Z.of_nat (length pre)) limit =
  Ret (MkTlvView t
         (Z.of_nat (length pre + 1 + length (der_length (Z.of_nat (length v)))))
         (Z.of_nat (length v))
         (Z.of_nat (length pre + length (der_tlv t v)))).
Proof.
  intros Hfit Hl. pose proof (ParseTlvAt_encode pre post v t Hfit) as E. unfold ParseTlvAt_vec.
  unfold ParseTlvAt_all in E. destruct (Z.ltb_spec limit (Z.of_nat (length data))); [|done].
  apply (ParseTlvAt_limit data (Z.of_nat (length data)) limit); [done|lia|lia|lia|exact E|done].
Qed.

(** Reading a TLV never reads outside the buffer, whatever the caller passes as offset and
    limit, on every platform: the result is a failure or a view whose value lies inside the
    buffer and inside the limit, with no wrapped offset; no declared length can escape it. *)
Theorem ParseTlvAt_in_bounds (data : bytes) (offset limit : Z) :
  fits data -> 0 <= offset <= SIZE_MAX -> 0 <= limit <= SIZE_MAX ->
  match ParseTlvAt_vec data offset limit with
  | Ret v =>
      offset + 1 < value_offset v /\ 0 <= value_length v /\
      next_offset v = value_offset v + value_length v /\
      next_offset v <= limit /\ next_offset v <= Z.of_nat (length data)
  | Fails => True
  | UB => False
  end.
Proof.
  intros Hfit Ho Hl. unfold ParseTlvAt_vec.
  destruct (Z.ltb_spec limit (Z.of_nat (length data))).
  - pose proof (ParseTlvAt_safe data offset limit Hfit ltac:(lia) ltac:(lia)) as L.
    destruct (ParseTlvAt data offset limit); [lia|done|done].
  - pose proof (ParseTlvAt_safe data offset _ Hfit ltac:(lia) (Z.le_refl _)) as L.
    destruct (ParseTlvAt data offset _); [lia|done|done].
Qed.

(** A TLV encoded with a minimal DER length, anywhere inside a buffer, is read back
    exactly: its tag, the position and the length of its value, and where the next one starts. *)
Theorem ParseTlvAt_roundtrip (pre post v : bytes) (t : byte) :
  fits (pre ++ der_tlv t v ++ post) ->
  exists view, ParseTlvAt_all (pre ++ der_tlv t v ++ post) (Z.of_nat (length pre)) = Ret view /\
    tag view = t /\
    take (Z.to_nat (value_length view))
      (drop (Z.to_nat (value_offset view)) (pre ++ der_tlv t v ++ post)) = v /\
    drop (Z.to_nat (next_offset view)) (pre ++ der_tlv t v ++ post) = post.
Proof.
  intros Hfit. eexists. split; [by apply ParseTlvAt_encode|]. split; [done|].
  cbn [value_length value_offset next_offset]. rewrite !Nat2Z.id. split.
  - assert (pre ++ der_tlv t v ++ post =
      (pre ++ [t] ++ der_length (Z.of_nat (length v))) ++ v ++ post) as ->
      by (unfold der_tlv; cbn; rewrite <- !app_assoc; done).
    rewrite drop_app_length' by (rewrite !length_app; cbn; lia).
    by rewrite take_app_length.
  - rewrite (app_assoc pre), drop_app_length' by (rewrite !length_app; lia). done.
Qed.

End Der.

(** A SEQUENCE that declares five bytes where only four are left, and one that holds two. *)
Lemma ParseTlvAt_in_bounds_witness :
  fits [x30; x05; x02; x01; x2a; x00] /\
  match ParseTlvAt_vec [x30; x05; x02; x01; x2a; x00] 2 5 with
  | Ret v => 2 + 1 < value_offset v /\ 0 <= value_length v /\
      next_offset v = value_offset v + value_length v /\ next_offset v <= 5 /\ next_offset v <= 6
  | Fails => True
  | UB => False
  end.
Proof.
  split; [by vm_compute|].
  apply (ParseTlvAt_in_bounds [x30; x05; x02; x01; x2a; x00] 2 5); vm_compute; done.
Defined.

Lemma ParseTlvAt_roundtrip_witness :
  fits ([x30] ++ der_tlv x02 [x2a; x2b] ++ [x00]) /\
  exists view, ParseTlvAt_all ([x30] ++ der_tlv x02 [x2a; x2b] ++ [x00]) 1 = Ret view /\
    tag view = x02 /\
    take (Z.to_nat (value_length view))
      (drop (Z.to_nat (value_offset view)) ([x30] ++ der_tlv x02 [x2a; x2b] ++ [x00]))
      = [x2a; x2b] /\
    drop (Z.to_nat (next_offset view)) ([x30] ++ der_tlv x02 [x2a; x2b] ++ [x00]) = [x00].
Proof.
  split; [by vm_compute|].
  apply (ParseTlvAt_roundtrip [x30] [x00] [x2a; x2b] x02). by vm_compute.
Defined.
