(* ===== verification/Codec.v ===== *)
(** * Codec: Base64, hexadecimal text and the cache fingerprint

    Models [util/Base64.cpp] and [util/Hex.cpp]. *)

From S2P Require Import Prelude CxxString.

Local Open Scope Z_scope.

(** ** Base64 *)

Module Base64.

Definition kAlphabet : list ascii :=
  chars "ABCDEFGHIJKLMNOPQRSTUVWXYZabcdefghijklmnopqrstuvwxyz0123456789+/".

Definition alphabet_at (i : Z) : ascii := nth (Z.to_nat i) kAlphabet "000"%char.

Definition DecodeChar (c : ascii) : Z :=
  if in_range c 65 90 then uc c - 65
  else if in_range c 97 122 then uc c - 97 + 26
  else if in_range c 48 57 then uc c - 48 + 52
  else if Ascii.eqb c "+"%char then 62
  else if Ascii.eqb c "/"%char then 63
  else 255.

(** The 24-bit group of three octets. *)
Definition triple_of (b0 b1 b2 : Z) : Z :=
  Z.lor (Z.lor (Z.shiftl b0 16) (Z.shiftl b1 8)) b2.

Definition sextet (triple shift : Z) : ascii := alphabet_at (Z.land (Z.shiftr triple shift) 63).

(** One iteration of the loop per case: three octets, or the one or two that are left. *)
Fixpoint encode_loop (input : bytes) : list ascii :=
  match input with
  | [] => []
  | [b0] =>
      let t := triple_of (u8 b0) 0 0 in [sextet t 18; sextet t 12; "="%char; "="%char]
  | [b0; b1] =>
      let t := triple_of (u8 b0) (u8 b1) 0 in [sextet t 18; sextet t 12; sextet t 6; "="%char]
  | b0 :: b1 :: b2 :: rest =>
      let t := triple_of (u8 b0) (u8 b1) (u8 b2) in
      sextet t 18 :: sextet t 12 :: sextet t 6 :: sextet t 0 :: encode_loop rest
  end.

Definition Base64Encode (input : bytes) : string := of_chars (encode_loop input).

Definition is_pad (c : ascii) : bool := Ascii.eqb c "="%char.

(** The octets of one quadruple, [None] on a character outside the alphabet. *)
Definition decode_quad (c0 c1 c2 c3 : ascii) : option bytes :=
  let d0 := DecodeChar c0 in
  let d1 := DecodeChar c1 in
  let d2 := if is_pad c2 then 0 else DecodeChar c2 in
  let d3 := if is_pad c3 then 0 else DecodeChar c3 in
  if (d0 =? 255) || (d1 =? 255) || (negb (is_pad c2) && (d2 =? 255))
     || (negb (is_pad c3) && (d3 =? 255)) then None
  else
    let triple := Z.lor (Z.lor (Z.lor (Z.shiftl d0 18) (Z.shiftl d1 12)) (Z.shiftl d2 6)) d3 in
    Some (to_u8 (Z.land (Z.shiftr triple 16) 255)
          :: (if is_pad c2 then [] else [to_u8 (Z.land (Z.shiftr triple 8) 255)])
          ++ (if is_pad c3 then [] else [to_u8 (Z.land triple 255)])).

Fixpoint decode_loop (l : list ascii) : option bytes :=
  match l with
  | c0 :: c1 :: c2 :: c3 :: rest =>
      o ← decode_quad c0 c1 c2 c3;
      os ← decode_loop rest;
      Some (o ++ os)
  | _ => Some []
  end.

Definition Base64Decode (input : string) : option bytes :=
  let normalized := List.filter (fun c => negb (isspace c)) (chars input) in
  if negb (Nat.eqb (length normalized mod 4) 0) then None else decode_loop normalized.

(** *** Lemmas *)

Lemma kAlphabet_index : forall i, 0 <= i < 64 ->
  DecodeChar (alphabet_at i) = i /\ is_pad (alphabet_at i) = false /\
  isspace (alphabet_at i) = false.
Proof.
  intros i Hi.
  assert (forallb (fun k => let c := alphabet_at (Z.of_nat k) in
      (DecodeChar c =? Z.of_nat k) && negb (is_pad c) && negb (isspace c)) (seq 0 64) = true) as H
    by (vm_compute; reflexivity).
  rewrite forallb_forall in H. specialize (H (Z.to_nat i)).
  rewrite Z2Nat.id, !andb_true_iff, !negb_true_iff, Z.eqb_eq in H by lia.
  destruct H as [[??]?]; [apply in_seq; lia|done].
Qed.

Lemma land_mod (a n : Z) : 0 <= n -> Z.land a (2 ^ n - 1) = a mod 2 ^ n.
Proof. intros. rewrite <- Z.land_ones by done. f_equal. rewrite Z.ones_equiv. lia. Qed.

Lemma triple_of_value (b0 b1 b2 : Z) :
  0 <= b0 < 256 -> 0 <= b1 < 256 -> 0 <= b2 < 256 ->
  triple_of b0 b1 b2 = b0 * 65536 + b1 * 256 + b2.
Proof.
  intros. unfold triple_of.
  rewrite (lor_shiftl_add b0 (Z.shiftl b1 8) 16), Z.shiftl_mul_pow2 by
    (rewrite ?Z.shiftl_mul_pow2 by lia; lia).
  replace (b0 * 2 ^ 16 + b1 * 2 ^ 8) with (Z.shiftl (b0 * 2 ^ 8 + b1) 8)
    by (rewrite Z.shiftl_mul_pow2 by lia; lia).
  rewrite lor_shiftl_add by lia. lia.
Qed.

Lemma quad_value (d0 d1 d2 d3 : Z) :
  0 <= d0 < 64 -> 0 <= d1 < 64 -> 0 <= d2 < 64 -> 0 <= d3 < 64 ->
  Z.lor (Z.lor (Z.lor (Z.shiftl d0 18) (Z.shiftl d1 12)) (Z.shiftl d2 6)) d3 =
  d0 * 262144 + d1 * 4096 + d2 * 64 + d3.
Proof.
  intros.
  rewrite (lor_shiftl_add d0 (Z.shiftl d1 12) 18), Z.shiftl_mul_pow2 by
    (rewrite ?Z.shiftl_mul_pow2 by lia; lia).
  replace (d0 * 2 ^ 18 + d1 * 2 ^ 12) with (Z.shiftl (d0 * 64 + d1) 12)
    by (rewrite Z.shiftl_mul_pow2 by lia; lia).
  rewrite (lor_shiftl_add _ (Z.shiftl d2 6) 12), Z.shiftl_mul_pow2 by
    (rewrite ?Z.shiftl_mul_pow2 by lia; lia).
  replace ((d0 * 64 + d1) * 2 ^ 12 + d2 * 2 ^ 6) with (Z.shiftl ((d0 * 64 + d1) * 64 + d2) 6)
    by (rewrite Z.shiftl_mul_pow2 by lia; lia).
  rewrite lor_shiftl_add by lia. lia.
Qed.

(** The sextets of a 24-bit group, and the group back from them. *)
Lemma sextet_value (t shift : Z) :
  0 <= shift -> exists i, sextet t shift = alphabet_at i /\ i = (t / 2 ^ shift) mod 64 /\ 0 <= i < 64.
Proof.
  intros. unfold sextet. rewrite Z.shiftr_div_pow2 by done.
  exists ((t / 2 ^ shift) mod 64). rewrite (land_mod _ 6) by lia.
  split; [done|]. split; [done|]. apply Z.mod_pos_bound. lia.
Qed.

Lemma to_u8_mod (z : Z) : to_u8 (z mod 256) = to_u8 z.
Proof. unfold to_u8. by rewrite Z.mod_mod by lia. Qed.

(** A position of a quadruple: a character of the alphabet with its value, or padding. *)
Definition quad_char (c : ascii) (d : Z) : Prop :=
  (c = "="%char /\ d = 0) \/ (c = alphabet_at d /\ 0 <= d < 64).

Lemma quad_char_decode (c : ascii) (d : Z) :
  quad_char c d ->
  (if is_pad c then 0 else DecodeChar c) = d /\ 0 <= d < 64.
Proof.
  intros [[-> ->]|[-> Hd]]; [done|].
  destruct (kAlphabet_index d Hd) as (-> & -> & _). done.
Qed.

Lemma decode_quad_value (i0 i1 d2 d3 : Z) (c2 c3 : ascii) :
  0 <= i0 < 64 -> 0 <= i1 < 64 -> quad_char c2 d2 -> quad_char c3 d3 ->
  let v := i0 * 262144 + i1 * 4096 + d2 * 64 + d3 in
  decode_quad (alphabet_at i0) (alphabet_at i1) c2 c3 =
  Some (to_u8 (v / 65536) :: (if is_pad c2 then [] else [to_u8 (v / 256)])
        ++ (if is_pad c3 then [] else [to_u8 v])).
Proof.
  intros H0 H1 H2 H3. apply quad_char_decode in H2 as [E2 H2], H3 as [E3 H3].
  unfold decode_quad. rewrite E2, E3.
  destruct (kAlphabet_index i0 H0) as (-> & _), (kAlphabet_index i1 H1) as (-> & _).
  rewrite !(proj2 (Z.eqb_neq _ 255)), !andb_false_r by lia. cbn [orb].
  rewrite quad_value by lia. rewrite !Z.shiftr_div_pow2 by lia.
  rewrite !(land_mod _ 8) by lia. rewrite !to_u8_mod. reflexivity.
Qed.

Lemma to_u8_eq (z : Z) (b : byte) : z mod 256 = u8 b -> to_u8 z = b.
Proof. intros H. by rewrite <- to_u8_mod, H, to_u8_u8. Qed.

Lemma encode_loop_ind (P : bytes -> Prop) :
  P [] -> (forall b, P [b]) -> (forall b c, P [b; c]) ->
  (forall b c d l, P l -> P (b :: c :: d :: l)) -> forall l, P l.
Proof.
  intros H0 H1 H2 H3. fix IH 1. intros [|b [|c [|d l]]]; [exact H0|apply H1|apply H2|apply H3, IH].
Qed.

(** The four sextets of three octets, and the three octets of the group. *)
Lemma sextets_of_octets (b0 b1 b2 : Z) (t := b0 * 65536 + b1 * 256 + b2) :
  0 <= b0 < 256 -> 0 <= b1 < 256 -> 0 <= b2 < 256 ->
  t / 2 ^ 18 mod 64 = b0 / 4 /\ t / 2 ^ 12 mod 64 = b0 mod 4 * 16 + b1 / 16 /\
  t / 2 ^ 6 mod 64 = b1 mod 16 * 4 + b2 / 64 /\ t / 2 ^ 0 mod 64 = b2 mod 64.
Proof.
  intros. subst t. change (2 ^ 18) with 262144. change (2 ^ 12) with 4096.
  change (2 ^ 6) with 64. change (2 ^ 0) with 1. rewrite Z.div_1_r.
  assert ((b0 * 65536 + b1 * 256 + b2) / 262144 = b0 / 4) as ->
    by (symmetry; apply Z.div_unique with (b0 mod 4 * 65536 + b1 * 256 + b2); zdm).
  assert ((b0 * 65536 + b1 * 256 + b2) / 4096 = b0 * 16 + b1 / 16) as ->
    by (symmetry; apply Z.div_unique with (b1 mod 16 * 256 + b2); zdm).
  assert ((b0 * 65536 + b1 * 256 + b2) / 64 = b0 * 1024 + b1 * 4 + b2 / 64) as ->
    by (symmetry; apply Z.div_unique with (b2 mod 64); zdm).
  split_and!.
  - apply Z.mod_small. zdm.
  - symmetry. apply Z.mod_unique with (b0 / 4); zdm.
  - symmetry. apply Z.mod_unique with (b0 * 16 + b1 / 16); zdm.
  - symmetry. apply Z.mod_unique with (b0 * 1024 + b1 * 4 + b2 / 64); zdm.
Qed.

Lemma octets_of_group (b0 b1 b2 v : Z) :
  0 <= b0 < 256 -> 0 <= b1 < 256 -> 0 <= b2 < 256 -> v = b0 * 65536 + b1 * 256 + b2 ->
  (v / 65536) mod 256 = b0 /\ (v / 256) mod 256 = b1 /\ v mod 256 = b2.
Proof.
  intros ??? ->. split_and!.
  - rewrite <- (Z.div_unique (b0 * 65536 + b1 * 256 + b2) 65536 b0 (b1 * 256 + b2)) by zdm.
    apply Z.mod_small. lia.
  - rewrite <- (Z.div_unique (b0 * 65536 + b1 * 256 + b2) 256 (b0 * 256 + b1) b2) by zdm.
    symmetry. apply Z.mod_unique with b0; zdm.
  - symmetry. apply Z.mod_unique with (b0 * 256 + b1); zdm.
Qed.

Ltac sextets t :=
  destruct (sextet_value t 18 ltac:(lia)) as (?i0 & -> & ? & ?);
  destruct (sextet_value t 12 ltac:(lia)) as (?i1 & -> & ? & ?);
  try (destruct (sextet_value t 6 ltac:(lia)) as (?i2 & -> & ? & ?));
  try (destruct (sextet_value t 0 ltac:(lia)) as (?i3 & -> & ? & ?)).

Lemma decode_encode_loop (l : bytes) : decode_loop (encode_loop l) = Some l.
Proof.
  induction l as [|b|b c|b c d l IH] using encode_loop_ind; [done|..]; cbn [encode_loop decode_loop].
  - pose proof (u8_range b) as Hb. rewrite triple_of_value by lia.
    destruct (sextets_of_octets (u8 b) 0 0) as (E0 & E1 & _); [lia..|].
    sextets (u8 b * 65536 + 0 * 256 + 0).
    rewrite (decode_quad_value i0 i1 0 0) by (done || by left). cbn.
    do 2 f_equal. apply to_u8_eq. apply (octets_of_group (u8 b) 0 0); subst; zdm.
  - pose proof (u8_range b) as Hb. pose proof (u8_range c) as Hc. rewrite triple_of_value by lia.
    destruct (sextets_of_octets (u8 b) (u8 c) 0) as (E0 & E1 & E2 & _); [lia..|].
    sextets (u8 b * 65536 + u8 c * 256 + 0).
    rewrite (decode_quad_value i0 i1 i2 0) by (done || (by left) || by right).
    destruct (kAlphabet_index i2) as (_ & -> & _); [done|]. cbn.
    destruct (octets_of_group (u8 b) (u8 c) 0 (i0 * 262144 + i1 * 4096 + i2 * 64 + 0))
      as (? & ? & _); [subst; zdm..|].
    do 2 f_equal; [|f_equal]; by apply to_u8_eq.
  - pose proof (u8_range b). pose proof (u8_range c). pose proof (u8_range d).
    rewrite triple_of_value by lia.
    destruct (sextets_of_octets (u8 b) (u8 c) (u8 d)) as (E0 & E1 & E2 & E3); [lia..|].
    sextets (u8 b * 65536 + u8 c * 256 + u8 d).
    rewrite (decode_quad_value i0 i1 i2 i3) by (done || by right).
    destruct (kAlphabet_index i2) as (_ & -> & _); [done|].
    destruct (kAlphabet_index i3) as (_ & -> & _); [done|]. cbn. rewrite IH. cbn.
    destruct (octets_of_group (u8 b) (u8 c) (u8 d) (i0 * 262144 + i1 * 4096 + i2 * 64 + i3))
      as (? & ? & ?); [subst; zdm..|].
    do 2 f_equal; [|f_equal; [|f_equal]]; by apply to_u8_eq.
Qed.

Lemma encode_loop_chars (l : bytes) :
  Forall (fun c => isspace c = false) (encode_loop l) /\ (length (encode_loop l) mod 4 = 0)%nat.
Proof.
  induction l as [|b|b c|b c d l [IH1 IH2]] using encode_loop_ind; [done|..]; cbn [encode_loop].
  - sextets (triple_of (u8 b) 0 0). split; [|done].
    repeat constructor; by apply kAlphabet_index.
  - sextets (triple_of (u8 b) (u8 c) 0). split; [|done].
    repeat constructor; by apply kAlphabet_index.
  - sextets (triple_of (u8 b) (u8 c) (u8 d)). split.
    + repeat constructor; first [by apply kAlphabet_index|done].
    + cbn [length].
      replace (S (S (S (S (length (encode_loop l)))))) with (length (encode_loop l) + 1 * 4)%nat by lia.
      by rewrite Nat.Div0.mod_add.
Qed.

(** What holds of the alphabet and the padding holds of every character of an encoding. *)
Lemma encode_loop_Forall (P : ascii -> Prop) (l : bytes) :
  (forall i, 0 <= i < 64 -> P (alphabet_at i)) -> P "="%char -> Forall P (encode_loop l).
Proof.
  intros Ha Hp.
  induction l as [|b|b c|b c d l IH] using encode_loop_ind; [done|..]; cbn [encode_loop].
  - sextets (triple_of (u8 b) 0 0). repeat constructor; auto.
  - sextets (triple_of (u8 b) (u8 c) 0). repeat constructor; auto.
  - sextets (triple_of (u8 b) (u8 c) (u8 d)). repeat constructor; auto.
Qed.

Lemma filter_id {A} (f : A -> bool) (l : list A) :
  Forall (fun c => f c = true) l -> List.filter f l = l.
Proof. induction 1 as [|x l Hx Hl IH]; [done|]. cbn. by rewrite Hx, IH. Qed.

Lemma filter_spaces_encode (l : bytes) :
  List.filter (fun c => negb (isspace c)) (encode_loop l) = encode_loop l.
Proof.
  apply filter_id. eapply Forall_impl; [apply encode_loop_chars|]. by intros c ->.
Qed.

Lemma Base64_decode_encode (v : bytes) : Base64Decode (Base64Encode v) = Some v.
Proof.
  unfold Base64Decode, Base64Encode. rewrite chars_of_chars, filter_spaces_encode.
  destruct (encode_loop_chars v) as [_ ->]. cbn. apply decode_encode_loop.
Qed.

(** Decoding inverts encoding: any text whose characters other than white space are the
    Base64 encoding of [v] (line breaks and blanks may be inserted anywhere) decodes to [v]. *)
Theorem Base64_roundtrip (v : bytes) (s : string) :
  List.filter (fun c => negb (isspace c)) (chars s) = chars (Base64Encode v) ->
  Base64Decode s = Some v.
Proof.
  intros H. unfold Base64Decode. rewrite H. unfold Base64Encode. rewrite chars_of_chars.
  destruct (encode_loop_chars v) as [_ ->]. cbn. apply decode_encode_loop.
Qed.

Lemma Base64_roundtrip_witness :
  List.filter (fun c => negb (isspace c)) (chars "UDhw PQ==") = chars (Base64Encode [x50; x38; x70; x3d])
  /\ Base64Decode "UDhw PQ==" = Some [x50; x38; x70; x3d].
Proof. split; [reflexivity|]. apply (Base64_roundtrip [x50; x38; x70; x3d]). reflexivity. Defined.

End Base64.

(** ** Hexadecimal text *)

Module Hex.

Definition kHex : list ascii := chars "0123456789abcdef".

Definition hex_digit (n : Z) : ascii := nth (Z.to_nat n) kHex "000"%char.

(** [std::hex << std::setw(2) << std::setfill('0')] of one octet. *)
Definition hex_byte (b : byte) : list ascii := [hex_digit (u8 b / 16); hex_digit (u8 b mod 16)].

Definition hex_chars (data : bytes) : list ascii := concat (map hex_byte data).

Definition HexEncode (data : bytes) : string := of_chars (hex_chars data).

(** The sixteen digits of a 64-bit value, most significant first. *)
Definition HexFromUInt64 (value : Z) : string :=
  of_chars (map (fun i => hex_digit (Z.land (Z.shiftr value ((15 - Z.of_nat i) * 4)) 15)) (seq 0 16)).

Definition StableDerHash (data : bytes) : string :=
  HexFromUInt64
    (foldl (fun hash b => wrap 64 (Z.lxor hash (u8 b) * 1099511628211)) 1469598103934665603 data).

(** *** Lemmas *)

Definition hex_value (c : ascii) : Z :=
  if in_range c 48 57 then uc c - 48 else if in_range c 97 102 then uc c - 97 + 10 else -1.

Lemma hex_value_digit (n : Z) : 0 <= n < 16 -> hex_value (hex_digit n) = n.
Proof.
  intros Hn.
  assert (forallb (fun k => hex_value (hex_digit (Z.of_nat k)) =? Z.of_nat k) (seq 0 16) = true) as H
    by (vm_compute; reflexivity).
  rewrite forallb_forall in H. specialize (H (Z.to_nat n)).
  rewrite Z2Nat.id, Z.eqb_eq in H by lia. apply H, in_seq. lia.
Qed.

Lemma hex_byte_inj (a b : byte) : hex_byte a = hex_byte b -> a = b.
Proof.
  intros H. injection H as H1 H2. apply u8_inj.
  apply (f_equal hex_value) in H1, H2.
  pose proof (u8_range a). pose proof (u8_range b).
  rewrite !hex_value_digit in H1, H2 by zdm. zdm.
Qed.

Lemma hex_chars_inj (a b : bytes) : hex_chars a = hex_chars b -> a = b.
Proof.
  revert b. induction a as [|x a IH]; intros [|y b] H; [done|discriminate..|].
  change (hex_byte x ++ hex_chars a = hex_byte y ++ hex_chars b) in H.
  apply app_inj_1 in H as [H1 H2]; [|done]. f_equal; [by apply hex_byte_inj|by apply IH].
Qed.

Lemma length_hex_chars (a : bytes) : length (hex_chars a) = (2 * length a)%nat.
Proof.
  induction a as [|x a IH]; [done|].
  change (hex_chars (x :: a)) with (hex_byte x ++ hex_chars a). rewrite length_app, IH. cbn. lia.
Qed.

Lemma HexEncode_inj (a b : bytes) : HexEncode a = HexEncode b -> a = b.
Proof.
  unfold HexEncode. intros H. apply (f_equal String.list_ascii_of_string) in H.
  rewrite !chars_of_chars in H. by apply hex_chars_inj.
Qed.

(** The FNV-1a parameters for 64 bits. *)
Definition fnv1a_64 (data : bytes) : Z :=
  foldl (fun hash b => wrap 64 (Z.lxor hash (u8 b) * 1099511628211)) 14695981039346656037 data.

(** The fingerprint documented as 64-bit FNV-1a is not FNV-1a: its offset basis lacks the
    last decimal digit of the standard's, so the two differ already on the empty input and on
    the one-octet input [61]. *)
Theorem StableDerHash_not_fnv1a :
  StableDerHash [] <> HexFromUInt64 (fnv1a_64 []) /\
  StableDerHash [x61] <> HexFromUInt64 (fnv1a_64 [x61]) /\
  HexFromUInt64 (fnv1a_64 [x61]) = "af63dc4c8601ec8c".
Proof. split_and!; vm_compute; (discriminate || reflexivity). Qed.

End Hex.
