(* ===== verification/Utf.v ===== *)
(** * Utf: the conversions between UTF-8, UTF-16 and wide strings (src/src/lib/util/Utf.cpp)

    A [std::string] is the list of its characters, a [std::u16string] the list
    of its 16-bit units and a [std::wstring] the list of its [wchar_t] units,
    both as numbers.  [sizeof(wchar_t) == sizeof(char16_t)] is a property of the
    platform: the conversions to and from wide strings take it as an argument.

    The theorems tie both directions to one abstract description: a text is a
    sequence of Unicode scalar values, with a UTF-8 and a UTF-16 form each. *)

From S2P Require Import Prelude CxxString Der.

Local Open Scope Z_scope.

(** ** Operations *)

(** [AppendUtf8CodePoint]: the bytes appended to [out], or the refusal. *)
Definition AppendUtf8CodePoint (code_point : Z) : option (list ascii) :=
  if (0x10FFFF <? code_point) || ((0xD800 <=? code_point) && (code_point <=? 0xDFFF)) then None
  else if code_point <=? 0x7F then Some [to_char code_point]
  else if code_point <=? 0x7FF then
    Some [to_char (Z.lor 0xC0 (Z.land (Z.shiftr code_point 6) 0x1F));
          to_char (Z.lor 0x80 (Z.land code_point 0x3F))]
  else if code_point <=? 0xFFFF then
    Some [to_char (Z.lor 0xE0 (Z.land (Z.shiftr code_point 12) 0x0F));
          to_char (Z.lor 0x80 (Z.land (Z.shiftr code_point 6) 0x3F));
          to_char (Z.lor 0x80 (Z.land code_point 0x3F))]
  else
    Some [to_char (Z.lor 0xF0 (Z.land (Z.shiftr code_point 18) 0x07));
          to_char (Z.lor 0x80 (Z.land (Z.shiftr code_point 12) 0x3F));
          to_char (Z.lor 0x80 (Z.land (Z.shiftr code_point 6) 0x3F));
          to_char (Z.lor 0x80 (Z.land code_point 0x3F))].

(** The lead byte: the initial [code_point] and [continuation_count]. *)
Definition utf8_lead (lead : Z) : option (Z * nat) :=
  if lead <=? 0x7F then Some (lead, 0%nat)
  else if Z.land lead 0xE0 =? 0xC0 then
    let code_point := Z.land lead 0x1F in
    if code_point =? 0 then None else Some (code_point, 1%nat)
  else if Z.land lead 0xF0 =? 0xE0 then Some (Z.land lead 0x0F, 2%nat)
  else if Z.land lead 0xF8 =? 0xF0 then Some (Z.land lead 0x07, 3%nat)
  else None.

(** The loop over the continuation bytes. *)
Fixpoint utf8_continuation (count : nat) (code_point : Z) (src : list ascii)
  : option (Z * list ascii) :=
  match count with
  | O => Some (code_point, src)
  | S count' =>
      match src with
      | [] => None
      | c :: src' =>
          if Z.land (uc c) 0xC0 =? 0x80 then
            utf8_continuation count' (Z.lor (Z.shiftl code_point 6) (Z.land (uc c) 0x3F)) src'
          else None
      end
  end.

(** The values the decoder refuses after assembling them: overlong forms, values
    beyond the last code point, surrogates. *)
Definition utf8_refused (continuation_count : nat) (code_point : Z) : bool :=
  ((continuation_count =? 1)%nat && (code_point <? 0x80))
  || ((continuation_count =? 2)%nat && (code_point <? 0x800))
  || ((continuation_count =? 3)%nat && (code_point <? 0x10000))
  || (0x10FFFF <? code_point)
  || ((0xD800 <=? code_point) && (code_point <=? 0xDFFF)).

(** The units pushed for a code point; [char16_t] keeps 16 bits. *)
Definition utf16_units (code_point : Z) : list Z :=
  if code_point <=? 0xFFFF then [wrap 16 code_point]
  else
    let adjusted := code_point - 0x10000 in
    [wrap 16 (0xD800 + Z.land (Z.shiftr adjusted 10) 0x3FF);
     wrap 16 (0xDC00 + Z.land adjusted 0x3FF)].

Fixpoint decode_utf8_loop (fuel : nat) (src : list ascii) : option (list Z) :=
  match fuel with
  | O => None
  | S fuel' =>
      match src with
      | [] => Some []
      | c :: src' =>
          match utf8_lead (uc c) with
          | None => None
          | Some (initial, continuation_count) =>
              if (length src' <? continuation_count)%nat then None
              else
                match utf8_continuation continuation_count initial src' with
                | None => None
                | Some (code_point, rest) =>
                    if utf8_refused continuation_count code_point then None
                    else app (utf16_units code_point) <$> decode_utf8_loop fuel' rest
                end
          end
      end
  end.

Definition DecodeUtf8ToUtf16 (src : list ascii) : option (list Z) :=
  decode_utf8_loop (S (length src)) src.

(** The loop consumes one unit or a surrogate pair per turn. *)
Fixpoint EncodeUtf16ToUtf8 (src : list Z) : option (list ascii) :=
  match src with
  | [] => Some []
  | unit :: src' =>
      if (0xD800 <=? unit) && (unit <=? 0xDBFF) then
        match src' with
        | [] => None
        | trail :: src'' =>
            if (trail <? 0xDC00) || (0xDFFF <? trail) then None
            else
              match AppendUtf8CodePoint
                      (0x10000 + Z.shiftl (unit - 0xD800) 10 + (trail - 0xDC00)) with
              | None => None
              | Some encoded => app encoded <$> EncodeUtf16ToUtf8 src''
              end
        end
      else if (0xDC00 <=? unit) && (unit <=? 0xDFFF) then None
      else
        match AppendUtf8CodePoint unit with
        | None => None
        | Some encoded => app encoded <$> EncodeUtf16ToUtf8 src'
        end
  end.

Definition TryDecodeUtf8ToUtf16 (src : list ascii) : option (list Z) := DecodeUtf8ToUtf16 src.
Definition TryEncodeUtf16ToUtf8 (src : list Z) : option (list ascii) := EncodeUtf16ToUtf8 src.

(** ** Wide strings *)

Fixpoint join_pairs (src : list Z) : list Z :=
  match src with
  | [] => []
  | lead :: src' =>
      if (0xD800 <=? lead) && (lead <=? 0xDBFF) then
        match src' with
        | trail :: src'' =>
            if (0xDC00 <=? trail) && (trail <=? 0xDFFF) then
              (0x10000 + Z.shiftl (lead - 0xD800) 10 + (trail - 0xDC00)) :: join_pairs src''
            else lead :: join_pairs src'
        | [] => lead :: join_pairs src'
        end
      else lead :: join_pairs src'
  end.

Definition Utf16ToWide (wchar_is_16 : bool) (src : list Z) : list Z :=
  if wchar_is_16 then src else join_pairs src.

(** [static_cast<std::uint32_t>(ch)] and back to 16-bit units. *)
Definition wide_units (ch : Z) : list Z :=
  let code_point := wrap 32 ch in
  if code_point <=? 0xFFFF then [wrap 16 code_point]
  else
    let adjusted := wrap 32 (code_point - 0x10000) in
    [wrap 16 (0xD800 + Z.land (Z.shiftr adjusted 10) 0x3FF);
     wrap 16 (0xDC00 + Z.land adjusted 0x3FF)].

Definition WideToUtf16 (wchar_is_16 : bool) (src : list Z) : list Z :=
  if wchar_is_16 then map (wrap 16) src else concat (map wide_units src).

Definition ToShortWchar (wchar_is_16 : bool) (src : list Z) : list Z := WideToUtf16 wchar_is_16 src.

(** [FromUtf8] and [ToUtf8] give an empty string for malformed text. *)
Definition FromUtf8 (wchar_is_16 : bool) (src : list ascii) : list Z :=
  match DecodeUtf8ToUtf16 src with
  | None => []
  | Some utf16 => Utf16ToWide wchar_is_16 utf16
  end.

Definition ToUtf8 (wchar_is_16 : bool) (src : list Z) : list ascii :=
  match EncodeUtf16ToUtf8 (WideToUtf16 wchar_is_16 src) with
  | None => []
  | Some out => out
  end.

(** A [const char16_t*] is a null pointer or the units readable from it; reading
    past them is undefined behaviour. *)
Definition kMaxImplicitShortWcharLength : nat := 2 ^ 20.

Fixpoint measure_short_wchar (budget : nat) (src : list Z) : outcome nat :=
  match budget with
  | O => Ret 0%nat
  | S budget' =>
      match src with
      | [] => UB
      | unit :: src' =>
          if unit =? 0 then Ret 0%nat
          else
            match measure_short_wchar budget' src' with
            | Ret len => Ret (S len)
            | Fails => Fails
            | UB => UB
            end
      end
  end.

Definition MeasureShortWchar (src : list Z) : outcome nat :=
  measure_short_wchar kMaxImplicitShortWcharLength src.

Definition FromShortWchar (wchar_is_16 : bool) (src : option (list Z)) (len : nat) : outcome (list Z) :=
  match src with
  | None => Ret []
  | Some units =>
      match (if (len =? 0)%nat then MeasureShortWchar units else Ret len) with
      | Ret n =>
          if (length units <? n)%nat then UB else Ret (Utf16ToWide wchar_is_16 (take n units))
      | Fails => Fails
      | UB => UB
      end
  end.

(** ** The abstract description: sequences of scalar values *)

Definition scalar (cp : Z) : Prop := 0 <= cp <= 0x10FFFF /\ ~ (0xD800 <= cp <= 0xDFFF).

Definition utf8_form (cp : Z) : list Z :=
  if cp <=? 0x7F then [cp]
  else if cp <=? 0x7FF then [192 + cp / 64; 128 + cp mod 64]
  else if cp <=? 0xFFFF then [224 + cp / 4096; 128 + cp / 64 mod 64; 128 + cp mod 64]
  else [240 + cp / 262144; 128 + cp / 4096 mod 64; 128 + cp / 64 mod 64; 128 + cp mod 64].

Definition utf16_form (cp : Z) : list Z :=
  if cp <=? 0xFFFF then [cp] else [0xD800 + (cp - 0x10000) / 1024; 0xDC00 + (cp - 0x10000) mod 1024].

Definition utf8_text (cps : list Z) : list ascii := concat (map (fun cp => map to_char (utf8_form cp)) cps).
Definition utf16_text (cps : list Z) : list Z := concat (map utf16_form cps).

Lemma utf8_text_cons (cp : Z) (cps : list Z) :
  utf8_text (cp :: cps) = map to_char (utf8_form cp) ++ utf8_text cps.
Proof. done. Qed.

Lemma utf16_text_cons (cp : Z) (cps : list Z) :
  utf16_text (cp :: cps) = utf16_form cp ++ utf16_text cps.
Proof. done. Qed.

(** *** Bit operations as arithmetic *)

(** A statement about every byte value holds when it evaluates to [true] on all of them. *)
Lemma forall_byte (P : Z -> bool) :
  forallb P (map Z.of_nat (seq 0 256)) = true -> forall b, 0 <= b < 256 -> P b = true.
Proof.
  intros H b Hb. rewrite forallb_forall in H. apply H.
  apply in_map_iff. exists (Z.to_nat b). split; [lia|]. apply in_seq. lia.
Qed.

Definition lead_class (lead : Z) : option (Z * nat) :=
  if lead <=? 127 then Some (lead, 0%nat)
  else if lead <=? 192 then None
  else if lead <=? 223 then Some (lead - 192, 1%nat)
  else if lead <=? 239 then Some (lead - 224, 2%nat)
  else if lead <=? 247 then Some (lead - 240, 3%nat)
  else None.

Lemma utf8_lead_class (c : ascii) : utf8_lead (uc c) = lead_class (uc c).
Proof.
  pose proof (forall_byte (fun b => bool_decide (utf8_lead b = lead_class b))
    ltac:(by vm_compute) (uc c) (uc_range c)) as H.
  by apply bool_decide_eq_true in H.
Qed.

Lemma continuation_byte (c : ascii) :
  (Z.land (uc c) 0xC0 =? 0x80) = ((128 <=? uc c) && (uc c <=? 191))
  /\ Z.land (uc c) 0x3F = uc c mod 64.
Proof.
  pose proof (forall_byte (fun b => bool_decide
    ((Z.land b 0xC0 =? 0x80) = ((128 <=? b) && (b <=? 191)) /\ Z.land b 0x3F = b mod 64))
    ltac:(by vm_compute) (uc c) (uc_range c)) as H.
  by apply bool_decide_eq_true in H.
Qed.

Lemma lor_shift6 (a b : Z) : 0 <= b < 64 -> Z.lor (Z.shiftl a 6) b = a * 64 + b.
Proof. intros. by rewrite lor_shiftl_add. Qed.

(** [mark | (cp & mask)]: the mark's bits lie above the mask. *)
Lemma lor_mark (k n b : Z) : 0 <= n -> Z.lor (k * 2 ^ n) (Z.land b (2 ^ n - 1)) = k * 2 ^ n + b mod 2 ^ n.
Proof.
  intros. rewrite <- Z.shiftl_mul_pow2 by done.
  replace (2 ^ n - 1) with (Z.ones n) by (rewrite Z.ones_equiv; lia).
  rewrite Z.land_ones by done.
  rewrite lor_shiftl_add by (auto using Z.mod_pos_bound, Z.pow_pos_nonneg with lia).
  by rewrite Z.shiftl_mul_pow2.
Qed.

Lemma AppendUtf8CodePoint_form (cp : Z) :
  scalar cp -> AppendUtf8CodePoint cp = Some (map to_char (utf8_form cp)).
Proof.
  intros [Hr Hs]. unfold AppendUtf8CodePoint, utf8_form.
  change 0xC0 with (6 * 32). change 0x80 with (2 * 64). change 0xE0 with (14 * 16).
  change 0xF0 with (30 * 8). change 0x3F with (64 - 1). change 0x1F with (32 - 1).
  change 0x0F with (16 - 1). change 0x07 with (8 - 1).
  assert (forall b, Z.lor (2 * 64) (Z.land b (64 - 1)) = 2 * 64 + b mod 64) as E6 by (intros; by apply (lor_mark 2 6)).
  assert (forall b, Z.lor (6 * 32) (Z.land b (32 - 1)) = 6 * 32 + b mod 32) as E5 by (intros; by apply (lor_mark 6 5)).
  assert (forall b, Z.lor (14 * 16) (Z.land b (16 - 1)) = 14 * 16 + b mod 16) as E4 by (intros; by apply (lor_mark 14 4)).
  assert (forall b, Z.lor (30 * 8) (Z.land b (8 - 1)) = 30 * 8 + b mod 8) as E3 by (intros; by apply (lor_mark 30 3)).
  rewrite !E6, E5, E4, E3, !Z.shiftr_div_pow2 by lia.
  change (2 ^ 6) with 64. change (2 ^ 12) with 4096. change (2 ^ 18) with 262144.
  repeat case_match; try lia; cbn [map]; repeat f_equal; try zdm.
  all: exfalso; revert H; rewrite orb_true_iff, andb_true_iff, !Z.leb_le, Z.ltb_lt; lia.
Qed.

Lemma utf16_units_form (cp : Z) : scalar cp -> utf16_units cp = utf16_form cp.
Proof.
  intros [Hr Hs]. unfold utf16_units, utf16_form. case_match; [by rewrite wrap_small by lia|].
  change 0x3FF with (Z.ones 10). rewrite !Z.land_ones, Z.shiftr_div_pow2 by lia.
  change (2 ^ 10) with 1024. rewrite !wrap_small by (change (2 ^ 16) with 65536; zdm).
  repeat f_equal. zdm.
Qed.

Lemma wide_units_form (cp : Z) : scalar cp -> wide_units cp = utf16_form cp.
Proof.
  intros Hs. rewrite <- utf16_units_form by done. destruct Hs as [Hr _].
  unfold wide_units, utf16_units. rewrite (wrap_small 32 cp) by lia.
  case_match; [done|]. by rewrite (wrap_small 32 (cp - 0x10000)) by lia.
Qed.

(** *** UTF-8 decoding *)

Lemma utf8_continuation_step (count : nat) (cp b : Z) (src : list ascii) :
  128 <= b < 192 ->
  utf8_continuation (S count) cp (to_char b :: src) = utf8_continuation count (cp * 64 + (b - 128)) src.
Proof.
  intros Hb. cbn [utf8_continuation].
  destruct (continuation_byte (to_char b)) as [-> ->]. rewrite !uc_to_char, !(Z.mod_small b 256) by lia.
  replace ((128 <=? b) && (b <=? 191)) with true by (symmetry; apply andb_true_iff; lia).
  rewrite lor_shift6 by zdm. do 2 f_equal. zdm.
Qed.

Lemma scalar_not_refused (cp : Z) (n : nat) :
  scalar cp -> length (utf8_form cp) = S n -> utf8_refused n cp = false.
Proof.
  intros [Hr Hs] Hl. apply not_true_iff_false. unfold utf8_refused.
  rewrite !orb_true_iff, !andb_true_iff, !Nat.eqb_eq, !Z.ltb_lt, !Z.leb_le.
  revert Hl. unfold utf8_form. repeat case_match; cbn [length]; lia.
Qed.

Lemma decode_utf8_scalar (fuel : nat) (cp : Z) (rest : list ascii) :
  scalar cp ->
  decode_utf8_loop (S fuel) (map to_char (utf8_form cp) ++ rest)
  = app (utf16_form cp) <$> decode_utf8_loop fuel rest.
Proof.
  intros Hs. rewrite <- utf16_units_form by done.
  pose proof (fun n => scalar_not_refused cp n Hs) as Hn. destruct Hs as [Hr Hs].
  revert Hn. unfold utf8_form.
  destruct (cp <=? 127) eqn:E1; [|destruct (cp <=? 2047) eqn:E2; [|destruct (cp <=? 65535) eqn:E3]];
    intros Hn; cbn [map app decode_utf8_loop]; rewrite utf8_lead_class, uc_to_char, Z.mod_small by zdm;
    unfold lead_class.
  - rewrite E1. cbn. by rewrite (Hn 0%nat).
  - replace (192 + cp / 64 <=? 127) with false by zdm.
    replace (192 + cp / 64 <=? 192) with false by zdm.
    replace (192 + cp / 64 <=? 223) with true by zdm.
    cbn [length Nat.ltb Nat.leb]. rewrite utf8_continuation_step by zdm. cbn [utf8_continuation].
    replace ((192 + cp / 64 - 192) * 64 + (128 + cp mod 64 - 128)) with cp by zdm.
    by rewrite (Hn 1%nat).
  - replace (224 + cp / 4096 <=? 127) with false by zdm.
    replace (224 + cp / 4096 <=? 192) with false by zdm.
    replace (224 + cp / 4096 <=? 223) with false by zdm.
    replace (224 + cp / 4096 <=? 239) with true by zdm.
    cbn [length Nat.ltb Nat.leb]. rewrite !utf8_continuation_step by zdm. cbn [utf8_continuation].
    match goal with |- context [utf8_refused _ ?v] => replace v with cp by zdm end.
    by rewrite (Hn 2%nat).
  - replace (240 + cp / 262144 <=? 127) with false by zdm.
    replace (240 + cp / 262144 <=? 192) with false by zdm.
    replace (240 + cp / 262144 <=? 223) with false by zdm.
    replace (240 + cp / 262144 <=? 239) with false by zdm.
    replace (240 + cp / 262144 <=? 247) with true by zdm.
    cbn [length Nat.ltb Nat.leb]. rewrite !utf8_continuation_step by zdm. cbn [utf8_continuation].
    match goal with |- context [utf8_refused _ ?v] => replace v with cp by zdm end.
    by rewrite (Hn 3%nat).
Qed.

Lemma length_utf8_text (cps : list Z) : (length cps <= length (utf8_text cps))%nat.
Proof.
  induction cps as [|cp cps IH]; [done|]. rewrite utf8_text_cons, length_app, length_map. cbn [length].
  assert (1 <= length (utf8_form cp))%nat by (unfold utf8_form; repeat case_match; cbn; lia). lia.
Qed.

Lemma decode_utf8_complete (cps : list Z) (fuel : nat) :
  Forall scalar cps -> (length cps < fuel)%nat ->
  decode_utf8_loop fuel (utf8_text cps) = Some (utf16_text cps).
Proof.
  intros Hc. revert fuel. induction Hc as [|cp cps Hcp Hcps IH]; intros [|fuel] Hf; cbn [length] in Hf; try lia.
  - done.
  - by rewrite utf8_text_cons, decode_utf8_scalar, IH by (done || lia).
Qed.

Lemma utf8_continuation_inv (count : nat) (cp cp' : Z) (src rest : list ascii) :
  utf8_continuation (S count) cp src = Some (cp', rest) ->
  exists b src', src = to_char b :: src' /\ 128 <= b < 192
    /\ utf8_continuation count (cp * 64 + (b - 128)) src' = Some (cp', rest).
Proof.
  intros H. destruct src as [|c src]; [done|]. assert (H0 := H). cbn [utf8_continuation] in H0.
  destruct (continuation_byte c) as [E _]. rewrite E in H0.
  destruct ((128 <=? uc c) && (uc c <=? 191)) eqn:Eb; [|done]. apply andb_true_iff in Eb.
  exists (uc c), src. rewrite to_char_uc. split_and!; [done|lia|lia|].
  by rewrite <- utf8_continuation_step, to_char_uc by lia.
Qed.

Lemma decode_utf8_inv (fuel : nat) (c : ascii) (src : list ascii) (u : list Z) :
  decode_utf8_loop (S fuel) (c :: src) = Some u ->
  exists cp rest u', scalar cp /\ c :: src = map to_char (utf8_form cp) ++ rest
    /\ decode_utf8_loop fuel rest = Some u' /\ u = utf16_form cp ++ u'.
Proof.
  cbn [decode_utf8_loop]. rewrite utf8_lead_class. pose proof (uc_range c) as Hc. intros H.
  destruct (lead_class (uc c)) as [[initial n]|] eqn:El; [|done].
  destruct (length src <? n)%nat; [done|].
  destruct (utf8_continuation n initial src) as [[cp rest]|] eqn:Ec; [|done].
  destruct (utf8_refused n cp) eqn:Er; [done|]. apply not_true_iff_false in Er.
  unfold utf8_refused in Er. rewrite !orb_true_iff, !andb_true_iff, !Nat.eqb_eq, !Z.ltb_lt, !Z.leb_le in Er.
  destruct (decode_utf8_loop fuel rest) as [u'|] eqn:Ed; [|done]. injection H as <-.
  assert (scalar cp /\ c :: src = map to_char (utf8_form cp) ++ rest) as [Hs Hf].
  2:{ exists cp, rest, u'. by rewrite utf16_units_form. }
  rewrite <- (to_char_uc c). unfold lead_class in El. unfold scalar, utf8_form.
  repeat case_match; simplify_eq;
    repeat match goal with
    | H : utf8_continuation (S _) _ _ = Some _ |- _ =>
        apply utf8_continuation_inv in H as (? & ? & -> & ? & H)
    end; cbn [utf8_continuation] in Ec; simplify_eq; try lia;
    (split; [lia|]); cbn [map app]; repeat f_equal; zdm.
Qed.

Lemma decode_utf8_sound (fuel : nat) (src : list ascii) (u : list Z) :
  decode_utf8_loop fuel src = Some u ->
  exists cps, Forall scalar cps /\ src = utf8_text cps /\ u = utf16_text cps.
Proof.
  revert src u. induction fuel as [|fuel IH]; intros src u H; [done|].
  destruct src as [|c src]; [injection H as <-; by exists []|].
  apply decode_utf8_inv in H as (cp & rest & u' & Hs & -> & H & ->).
  apply IH in H as (cps & Hcps & -> & ->). exists (cp :: cps). by split; [constructor|].
Qed.

Lemma DecodeUtf8_spec (src : list ascii) (u : list Z) :
  DecodeUtf8ToUtf16 src = Some u <->
  exists cps, Forall scalar cps /\ src = utf8_text cps /\ u = utf16_text cps.
Proof.
  split; [apply decode_utf8_sound|]. intros (cps & Hc & -> & ->).
  apply decode_utf8_complete; [done|]. pose proof (length_utf8_text cps). lia.
Qed.

(** *** UTF-16 encoding *)

Lemma encode_utf16_scalar (cp : Z) (rest : list Z) :
  scalar cp ->
  EncodeUtf16ToUtf8 (utf16_form cp ++ rest)
  = app (map to_char (utf8_form cp)) <$> EncodeUtf16ToUtf8 rest.
Proof.
  intros Hs. assert (Ha := AppendUtf8CodePoint_form cp Hs). destruct Hs as [Hr Hs].
  unfold utf16_form. destruct (cp <=? 65535) eqn:E; cbn [app EncodeUtf16ToUtf8].
  - replace ((0xD800 <=? cp) && (cp <=? 0xDBFF)) with false by (symmetry; apply andb_false_iff; lia).
    replace ((0xDC00 <=? cp) && (cp <=? 0xDFFF)) with false by (symmetry; apply andb_false_iff; lia).
    by rewrite Ha.
  - set (h := (cp - 65536) / 1024). set (l := (cp - 65536) mod 1024).
    assert (0 <= h < 1024 /\ 0 <= l < 1024 /\ cp = 0x10000 + h * 1024 + l) as (Hh & Hl & Hcp)
      by (unfold h, l; zdm).
    replace ((0xD800 <=? 0xD800 + h) && (0xD800 + h <=? 0xDBFF)) with true
      by (symmetry; apply andb_true_iff; lia).
    replace ((0xDC00 + l <? 0xDC00) || (0xDFFF <? 0xDC00 + l)) with false
      by (symmetry; apply orb_false_iff; lia).
    rewrite Z.shiftl_mul_pow2 by lia. change (2 ^ 10) with 1024.
    replace (0x10000 + (0xD800 + h - 0xD800) * 1024 + (0xDC00 + l - 0xDC00)) with cp by lia.
    by rewrite Ha.
Qed.

Lemma encode_utf16_complete (cps : list Z) :
  Forall scalar cps -> EncodeUtf16ToUtf8 (utf16_text cps) = Some (utf8_text cps).
Proof.
  induction 1 as [|cp cps Hcp _ IH]; [done|].
  by rewrite utf16_text_cons, encode_utf16_scalar, IH by done.
Qed.

Lemma encode_utf16_inv (unit : Z) (src : list Z) (out : list ascii) :
  0 <= unit < 65536 ->
  EncodeUtf16ToUtf8 (unit :: src) = Some out ->
  exists cp rest out', scalar cp /\ unit :: src = utf16_form cp ++ rest
    /\ (length rest <= length src)%nat
    /\ EncodeUtf16ToUtf8 rest = Some out' /\ out = map to_char (utf8_form cp) ++ out'.
Proof.
  intros Hu H. cbn [EncodeUtf16ToUtf8] in H.
  destruct ((0xD800 <=? unit) && (unit <=? 0xDBFF)) eqn:El.
  - destruct src as [|trail src]; [done|].
    destruct ((trail <? 0xDC00) || (0xDFFF <? trail)) eqn:Et; [done|].
    apply andb_true_iff in El. apply orb_false_iff in Et.
    rewrite Z.shiftl_mul_pow2 in H by lia. change (2 ^ 10) with 1024 in H.
    set (cp := 0x10000 + (unit - 0xD800) * 1024 + (trail - 0xDC00)) in H.
    assert (scalar cp) as Hs by (unfold scalar, cp; lia).
    rewrite AppendUtf8CodePoint_form in H by done.
    destruct (EncodeUtf16ToUtf8 src) as [out'|] eqn:Ee; [|done]. injection H as <-.
    exists cp, src, out'. split_and!; [done| |cbn; lia|done|done].
    unfold utf16_form. replace (cp <=? 0xFFFF) with false by (unfold cp; lia).
    cbn [app]. repeat f_equal; unfold cp; zdm.
  - destruct ((0xDC00 <=? unit) && (unit <=? 0xDFFF)) eqn:Et; [done|].
    apply andb_false_iff in El, Et. assert (scalar unit) as Hs by (unfold scalar; lia).
    rewrite AppendUtf8CodePoint_form in H by done.
    destruct (EncodeUtf16ToUtf8 src) as [out'|] eqn:Ee; [|done]. injection H as <-.
    exists unit, src, out'. split_and!; [done| |lia|done|done].
    unfold utf16_form. by replace (unit <=? 0xFFFF) with true by lia.
Qed.

(** A [std::u16string]: every unit has 16 bits. *)
Definition u16string (u : list Z) : Prop := Forall (fun unit => 0 <= unit < 65536) u.

Lemma encode_utf16_sound (n : nat) (u : list Z) (out : list ascii) :
  (length u <= n)%nat -> u16string u -> EncodeUtf16ToUtf8 u = Some out ->
  exists cps, Forall scalar cps /\ u = utf16_text cps /\ out = utf8_text cps.
Proof.
  revert u out. induction n as [|n IH]; intros [|unit u] out Hn Hu H; cbn [length] in Hn; try lia.
  1,2: injection H as <-; by exists [].
  assert (Hall := Hu). apply Forall_cons in Hu as [H1 _].
  apply encode_utf16_inv in H as (cp & rest & out' & Hs & Hsplit & Hl & H & ->); [|done].
  unfold u16string in Hall. rewrite Hsplit, Forall_app in Hall. destruct Hall as [_ Hrest].
  apply IH in H as (cps & Hc & -> & ->); [|lia|done].
  exists (cp :: cps). by rewrite Hsplit; split; [constructor|].
Qed.

Lemma EncodeUtf16_spec (u : list Z) (out : list ascii) :
  u16string u ->
  (EncodeUtf16ToUtf8 u = Some out <->
   exists cps, Forall scalar cps /\ u = utf16_text cps /\ out = utf8_text cps).
Proof.
  intros Hu. split; [by apply (encode_utf16_sound (length u))|].
  intros (cps & Hc & -> & ->). by apply encode_utf16_complete.
Qed.

Lemma utf16_text_units (cps : list Z) : Forall scalar cps -> u16string (utf16_text cps).
Proof.
  induction 1 as [|cp cps [Hr Hs] _ IH]; [constructor|].
  rewrite utf16_text_cons. apply Forall_app. split; [|done].
  unfold utf16_form. case_match; repeat constructor; zdm.
Qed.

(** *** Wide strings *)

Lemma join_pairs_scalar (cp : Z) (rest : list Z) :
  scalar cp -> join_pairs (utf16_form cp ++ rest) = cp :: join_pairs rest.
Proof.
  intros [Hr Hs]. unfold utf16_form. destruct (cp <=? 65535) eqn:E; cbn [app join_pairs].
  - by replace ((0xD800 <=? cp) && (cp <=? 0xDBFF)) with false by (symmetry; apply andb_false_iff; lia).
  - set (h := (cp - 65536) / 1024). set (l := (cp - 65536) mod 1024).
    assert (0 <= h < 1024 /\ 0 <= l < 1024 /\ cp = 0x10000 + h * 1024 + l) as (Hh & Hl & Hcp)
      by (unfold h, l; zdm).
    replace ((0xD800 <=? 0xD800 + h) && (0xD800 + h <=? 0xDBFF)) with true
      by (symmetry; apply andb_true_iff; lia).
    replace ((0xDC00 <=? 0xDC00 + l) && (0xDC00 + l <=? 0xDFFF)) with true
      by (symmetry; apply andb_true_iff; lia).
    rewrite Z.shiftl_mul_pow2 by lia. change (2 ^ 10) with 1024. f_equal. lia.
Qed.

Lemma Utf16ToWide_text (wchar_is_16 : bool) (cps : list Z) :
  Forall scalar cps ->
  Utf16ToWide wchar_is_16 (utf16_text cps) = (if wchar_is_16 then utf16_text cps else cps).
Proof.
  intros Hc. destruct wchar_is_16; [done|]. cbn [Utf16ToWide].
  induction Hc as [|cp cps Hcp _ IH]; [done|].
  by rewrite utf16_text_cons, join_pairs_scalar, IH by done.
Qed.

Lemma WideToUtf16_text (wchar_is_16 : bool) (cps : list Z) :
  Forall scalar cps ->
  WideToUtf16 wchar_is_16 (if wchar_is_16 then utf16_text cps else cps) = utf16_text cps.
Proof.
  intros Hc. destruct wchar_is_16; cbn [WideToUtf16].
  - apply utf16_text_units in Hc. induction Hc as [|u us Hu _ IH]; [done|].
    cbn [map]. by rewrite wrap_small, IH by lia.
  - induction Hc as [|cp cps Hcp _ IH]; [done|].
    cbn [map concat]. by rewrite wide_units_form, IH by done.
Qed.

(** ** Properties *)

(** [TryDecodeUtf8ToUtf16] and [TryEncodeUtf16ToUtf8] are inverse to each other, in both
    directions and with the same domain: a byte string decodes to a UTF-16 string exactly when that
    UTF-16 string encodes to those bytes.  So no overlong form, surrogate or truncated sequence is
    accepted, and no two inputs of either function share a result. *)
Theorem Utf_inverse (src : list ascii) (u : list Z) :
  u16string u -> (TryDecodeUtf8ToUtf16 src = Some u <-> TryEncodeUtf16ToUtf8 u = Some src).
Proof.
  intros Hu. unfold TryDecodeUtf8ToUtf16, TryEncodeUtf16ToUtf8.
  rewrite DecodeUtf8_spec, EncodeUtf16_spec by done.
  split; intros (cps & Hc & -> & ->); by exists cps.
Qed.

Definition utf_sample : list ascii := map to_char [0x41; 0xD0; 0x96; 0xE2; 0x82; 0xAC; 0xF0; 0x9F; 0x98; 0x80].
Definition utf_sample16 : list Z := [0x41; 0x416; 0x20AC; 0xD83D; 0xDE00].

Lemma Utf_inverse_witness : TryEncodeUtf16ToUtf8 utf_sample16 = Some utf_sample.
Proof. apply (Utf_inverse utf_sample utf_sample16); [repeat constructor; lia | by vm_compute]. Defined.

(** Text survives the trip through wide strings on both kinds of platform: for well-formed
    UTF-8, [ToUtf8 (FromUtf8 s)] is [s] whether [wchar_t] has 16 or 32 bits; for malformed UTF-8,
    [FromUtf8] gives the empty string. *)
Theorem Utf_wide_roundtrip (wchar_is_16 : bool) (src : list ascii) :
  match TryDecodeUtf8ToUtf16 src with
  | Some _ => ToUtf8 wchar_is_16 (FromUtf8 wchar_is_16 src) = src
  | None => FromUtf8 wchar_is_16 src = []
  end.
Proof.
  unfold TryDecodeUtf8ToUtf16, FromUtf8, ToUtf8.
  destruct (DecodeUtf8ToUtf16 src) as [u|] eqn:E; [|done].
  apply DecodeUtf8_spec in E as (cps & Hc & -> & ->).
  by rewrite Utf16ToWide_text, WideToUtf16_text, encode_utf16_complete by done.
Qed.
