(* ===== verification/Json.v ===== *)
(** * Json: the JSON reader and writer (src/src/lib/util/Json.cpp)

    The reader works with a cursor into one text; here the cursor is the rest of
    the text from it.  [true] with the cursor after the token is [Some rest],
    [false] is [None] (the callers do not use the cursor then).

    The theorems compare the reader with an abstract document ([json]) and the
    text the writers of the program produce for it ([print]). *)

From S2P Require Import Prelude CxxString Codec Utf.

Local Open Scope Z_scope.

(** ** Tokens *)

Definition kMaxJsonNestingDepth : nat := 100.

Definition quote : ascii := "034"%char.
Definition backslash : ascii := "\"%char.

Definition json_hex_digit (ch : ascii) : option Z :=
  if in_range ch 48 57 then Some (uc ch - 48)
  else if in_range ch 97 102 then Some (10 + (uc ch - 97))
  else if in_range ch 65 70 then Some (10 + (uc ch - 65))
  else None.

Fixpoint hex_quad_loop (count : nat) (value : Z) (json : list ascii) : option (Z * list ascii) :=
  match count with
  | O => Some (value, json)
  | S count' =>
      match json with
      | [] => None
      | ch :: rest =>
          match json_hex_digit ch with
          | Some digit => hex_quad_loop count' (Z.lor (wrap 32 (Z.shiftl value 4)) digit) rest
          | None => None
          end
      end
  end.

Definition ParseJsonHexQuad (json : list ascii) : option (Z * list ascii) :=
  if (length json <? 4)%nat then None else hex_quad_loop 4 0 json.

Definition SkipJsonWhitespace (json : list ascii) : list ascii := skip_space json.

(** The [\u] escape, after the letter: the code point and the rest. *)
Definition unicode_escape (json : list ascii) : option (Z * list ascii) :=
  match ParseJsonHexQuad json with
  | None => None
  | Some (code_point, rest) =>
      if (0xD800 <=? code_point) && (code_point <=? 0xDBFF) then
        if (length rest <? 6)%nat then None
        else
          match rest with
          | c0 :: c1 :: rest1 =>
              if Ascii.eqb c0 backslash && Ascii.eqb c1 "u" then
                match ParseJsonHexQuad rest1 with
                | None => None
                | Some (trail, rest2) =>
                    if (trail <? 0xDC00) || (0xDFFF <? trail) then None
                    else Some (0x10000 + Z.shiftl (code_point - 0xD800) 10 + (trail - 0xDC00), rest2)
                end
              else None
          | _ => None
          end
      else Some (code_point, rest)
  end.

(** The [switch] over the escaped character: the characters pushed and the rest. *)
Definition escape_sequence (escaped : ascii) (json : list ascii) : option (list ascii * list ascii) :=
  if Ascii.eqb escaped quote || Ascii.eqb escaped backslash || Ascii.eqb escaped "/" then
    Some ([escaped], json)
  else if Ascii.eqb escaped "b" then Some ([to_char 8], json)
  else if Ascii.eqb escaped "f" then Some ([to_char 12], json)
  else if Ascii.eqb escaped "n" then Some ([to_char 10], json)
  else if Ascii.eqb escaped "r" then Some ([to_char 13], json)
  else if Ascii.eqb escaped "t" then Some ([to_char 9], json)
  else if Ascii.eqb escaped "u" then
    match unicode_escape json with
    | None => None
    | Some (code_point, rest) =>
        match AppendUtf8CodePoint code_point with
        | None => None
        | Some encoded => Some (encoded, rest)
        end
    end
  else None.

Definition push (encoded : list ascii) (r : option (list ascii * list ascii)) :
    option (list ascii * list ascii) :=
  match r with Some (out, rest) => Some (encoded ++ out, rest) | None => None end.

Fixpoint string_loop (fuel : nat) (json : list ascii) : option (list ascii * list ascii) :=
  match fuel with
  | O => None
  | S fuel' =>
      match json with
      | [] => None
      | ch :: rest =>
          if Ascii.eqb ch quote then Some ([], rest)
          else if uc ch <? 0x20 then None
          else if negb (Ascii.eqb ch backslash) then push [ch] (string_loop fuel' rest)
          else
            match rest with
            | [] => None
            | escaped :: rest' =>
                match escape_sequence escaped rest' with
                | None => None
                | Some (encoded, rest'') => push encoded (string_loop fuel' rest'')
                end
            end
      end
  end.

Definition ParseJsonString (json : list ascii) : option (list ascii * list ascii) :=
  match json with
  | [] => None
  | ch :: rest => if negb (Ascii.eqb ch quote) then None else string_loop (S (length rest)) rest
  end.

Fixpoint skip_digits (json : list ascii) : list ascii :=
  match json with
  | ch :: rest => if isdigit ch then skip_digits rest else json
  | [] => []
  end.

(** At least one digit, then all of them. *)
Definition digits1 (json : list ascii) : option (list ascii) :=
  match json with
  | ch :: _ => if isdigit ch then Some (skip_digits json) else None
  | [] => None
  end.

Definition optional_char (set : string) (json : list ascii) : list ascii :=
  match json with
  | ch :: rest => if char_in set ch then rest else json
  | [] => []
  end.

Definition SkipJsonNumberToken (json : list ascii) : option (list ascii) :=
  let json1 := optional_char "-" json in
  match (match json1 with
         | [] => None
         | ch :: rest => if Ascii.eqb ch "0" then Some rest else digits1 json1
         end) with
  | None => None
  | Some json2 =>
      match (match json2 with
             | ch :: rest => if Ascii.eqb ch "." then digits1 rest else Some json2
             | [] => Some json2
             end) with
      | None => None
      | Some json3 =>
          match json3 with
          | ch :: rest => if char_in "eE" ch then digits1 (optional_char "+-" rest) else Some json3
          | [] => Some json3
          end
      end
  end.

(** [json.compare(offset, literal_len, literal) == 0]. *)
Fixpoint literal_at (literal json : list ascii) : option (list ascii) :=
  match literal with
  | [] => Some json
  | l :: literal' =>
      match json with
      | ch :: rest => if Ascii.eqb ch l then literal_at literal' rest else None
      | [] => None
      end
  end.

Definition SkipJsonLiteralToken (json : list ascii) (literal : string) : option (list ascii) :=
  literal_at (chars literal) json.

(** ** Values *)

(** A member's key, the colon and the white space around it. *)
Definition member_key (json : list ascii) : option (list ascii * list ascii) :=
  match ParseJsonString json with
  | None => None
  | Some (key, rest) =>
      match SkipJsonWhitespace rest with
      | ch :: rest' => if Ascii.eqb ch ":" then Some (key, SkipJsonWhitespace rest') else None
      | [] => None
      end
  end.

(** The [while] of [SkipJsonComposite]; [skip] skips one value of the composite. *)
Fixpoint composite_loop (skip : list ascii -> option (list ascii)) (fuel : nat) (open close : ascii)
    (json : list ascii) : option (list ascii) :=
  match fuel with
  | O => None
  | S fuel' =>
      match json with
      | [] => None
      | _ :: _ =>
          match (if Ascii.eqb open "{" then snd <$> member_key json else Some json) with
          | None => None
          | Some json1 =>
              match skip json1 with
              | None => None
              | Some json2 =>
                  match SkipJsonWhitespace json2 with
                  | [] => None
                  | ch :: rest =>
                      if Ascii.eqb ch close then Some rest
                      else if Ascii.eqb ch "," then
                        composite_loop skip fuel' open close (SkipJsonWhitespace rest)
                      else None
                  end
              end
          end
      end
  end.

Definition SkipJsonComposite (skip : list ascii -> option (list ascii)) (open close : ascii) (depth : nat)
    (json : list ascii) : option (list ascii) :=
  if (kMaxJsonNestingDepth <? depth)%nat then None
  else
    match json with
    | [] => None
    | ch :: rest =>
        if negb (Ascii.eqb ch open) then None
        else
          let body := SkipJsonWhitespace rest in
          match body with
          | c :: rest' =>
              if Ascii.eqb c close then Some rest'
              else composite_loop skip (S (length body)) open close body
          | [] => composite_loop skip (S (length body)) open close body
          end
    end.

(** [SkipJsonValue] and [SkipJsonComposite] call each other; [levels] bounds the calls in progress. *)
Fixpoint skip_value (levels : nat) (enclosing_depth : nat) (json : list ascii) : option (list ascii) :=
  match levels with
  | O => None
  | S levels' =>
      match SkipJsonWhitespace json with
      | [] => None
      | ch :: rest =>
          if Ascii.eqb ch quote then snd <$> ParseJsonString (ch :: rest)
          else if Ascii.eqb ch "{" then
            SkipJsonComposite (skip_value levels' (S enclosing_depth)) "{" "}" (S enclosing_depth) (ch :: rest)
          else if Ascii.eqb ch "[" then
            SkipJsonComposite (skip_value levels' (S enclosing_depth)) "[" "]" (S enclosing_depth) (ch :: rest)
          else if Ascii.eqb ch "t" then SkipJsonLiteralToken (ch :: rest) "true"
          else if Ascii.eqb ch "f" then SkipJsonLiteralToken (ch :: rest) "false"
          else if Ascii.eqb ch "n" then SkipJsonLiteralToken (ch :: rest) "null"
          else SkipJsonNumberToken (ch :: rest)
      end
  end.

Definition SkipJsonValue (enclosing_depth : nat) (json : list ascii) : option (list ascii) :=
  skip_value (S (kMaxJsonNestingDepth - enclosing_depth)) enclosing_depth json.

(** ** Members and paths *)

Definition list_ascii_eqb (a b : list ascii) : bool := bool_decide (a = b).

Fixpoint member_loop (fuel : nat) (key : list ascii) (depth : nat) (json : list ascii)
    : option (list ascii) :=
  match fuel with
  | O => None
  | S fuel' =>
      match json with
      | [] => None
      | _ :: _ =>
          match member_key json with
          | None => None
          | Some (current_key, value) =>
              if list_ascii_eqb current_key key then Some value
              else
                match SkipJsonValue depth value with
                | None => None
                | Some json2 =>
                    match SkipJsonWhitespace json2 with
                    | [] => None
                    | ch :: rest =>
                        if Ascii.eqb ch "}" then None
                        else if negb (Ascii.eqb ch ",") then None
                        else member_loop fuel' key depth (SkipJsonWhitespace rest)
                    end
                end
          end
      end
  end.

Definition FindJsonMemberValue (json key : list ascii) (depth : nat) : option (list ascii) :=
  match SkipJsonWhitespace json with
  | [] => None
  | ch :: rest =>
      if negb (Ascii.eqb ch "{") then None
      else
        let body := SkipJsonWhitespace rest in
        match body with
        | c :: _ => if Ascii.eqb c "}" then None else member_loop (S (length body)) key depth body
        | [] => member_loop (S (length body)) key depth body
        end
  end.

(** The [for] over the keys of the path; [i] is the number of keys already followed. *)
Fixpoint path_loop (json : list ascii) (path : list string) (i : nat) : option (list ascii) :=
  match path with
  | [] => Some json
  | key :: path' =>
      match FindJsonMemberValue json (chars key) (i + 1) with
      | None => None
      | Some next => path_loop next path' (S i)
      end
  end.

Definition FindJsonPathValue (json : list ascii) (path : list string) : option (list ascii) :=
  match path with [] => None | _ :: _ => path_loop json path 0 end.

Definition is_value_terminator (json : list ascii) : bool :=
  match json with
  | [] => true
  | ch :: _ => Ascii.eqb ch "," || Ascii.eqb ch "}" || Ascii.eqb ch "]" || isspace ch
  end.

Definition ReadBoolAt (json : list ascii) : option bool :=
  match literal_at (chars "true") json with
  | Some rest => if is_value_terminator rest then Some true else None
  | None =>
      match literal_at (chars "false") json with
      | Some rest => if is_value_terminator rest then Some false else None
      | None => None
      end
  end.

Definition ExtractJsonStringPath (json : string) (path : list string) : option string :=
  match FindJsonPathValue (chars json) path with
  | None => None
  | Some value =>
      match ParseJsonString value with
      | None => None
      | Some (out, _) => Some (of_chars out)
      end
  end.

Definition ExtractJsonBoolPath (json : string) (path : list string) : option bool :=
  match FindJsonPathValue (chars json) path with
  | None => None
  | Some value => ReadBoolAt value
  end.

Definition ExtractJsonString (json key : string) : option string := ExtractJsonStringPath json [key].
Definition ExtractJsonBool (json key : string) : option bool := ExtractJsonBoolPath json [key].

(** ** Writing *)

Definition escape_char (ch : ascii) : list ascii :=
  if Ascii.eqb ch backslash then [backslash; backslash]
  else if Ascii.eqb ch quote then [backslash; quote]
  else if uc ch =? 10 then [backslash; "n"%char]
  else if uc ch =? 13 then [backslash; "r"%char]
  else if uc ch =? 9 then [backslash; "t"%char]
  else if uc ch =? 8 then [backslash; "b"%char]
  else if uc ch =? 12 then [backslash; "f"%char]
  else if uc ch <? 0x20 then
    [backslash; "u"%char; "0"%char; "0"%char; Hex.hex_digit (uc ch / 16); Hex.hex_digit (uc ch mod 16)]
  else [ch].

Definition escape_chars (value : list ascii) : list ascii := concat (map escape_char value).

Definition EscapeJson (value : string) : string := of_chars (escape_chars (chars value)).

Definition BoolJson (value : bool) : string := if value then "true" else "false".

(** ** Progress: every token consumes text, so the bounds on the loops are never reached *)

Lemma skip_space_le (l : list ascii) : (length (skip_space l) <= length l)%nat.
Proof. induction l as [|c l IH]; cbn; [lia|]. case_match; cbn; lia. Qed.

Lemma hex_quad_loop_le (count : nat) (value v : Z) (json rest : list ascii) :
  hex_quad_loop count value json = Some (v, rest) -> (length rest <= length json)%nat.
Proof.
  revert value json. induction count as [|count IH]; intros value json H; cbn in H; [by simplify_eq|].
  destruct json as [|ch json]; [done|]. destruct (json_hex_digit ch); [|done].
  apply IH in H. cbn. lia.
Qed.

Lemma ParseJsonHexQuad_le (json rest : list ascii) (v : Z) :
  ParseJsonHexQuad json = Some (v, rest) -> (length rest <= length json)%nat.
Proof. unfold ParseJsonHexQuad. case_match; [done|]. apply hex_quad_loop_le. Qed.

Lemma unicode_escape_le (json rest : list ascii) (v : Z) :
  unicode_escape json = Some (v, rest) -> (length rest <= length json)%nat.
Proof.
  unfold unicode_escape. destruct (ParseJsonHexQuad json) as [[cp r]|] eqn:E; [|done].
  apply ParseJsonHexQuad_le in E. intros H.
  destruct ((0xD800 <=? cp) && (cp <=? 0xDBFF)); [|by simplify_eq].
  destruct (length r <? 6)%nat; [done|]. destruct r as [|c0 [|c1 r]]; [done..|].
  destruct (Ascii.eqb c0 backslash && Ascii.eqb c1 "u"); [|done].
  destruct (ParseJsonHexQuad r) as [[tr r2]|] eqn:E2; [|done]. apply ParseJsonHexQuad_le in E2.
  destruct ((tr <? 0xDC00) || (0xDFFF <? tr)); [done|]. simplify_eq. cbn in E. lia.
Qed.

Lemma escape_sequence_le (escaped : ascii) (json enc rest : list ascii) :
  escape_sequence escaped json = Some (enc, rest) -> (length rest <= length json)%nat.
Proof.
  unfold escape_sequence. intros H. repeat (case_match; simplify_eq; try lia; try done).
  eauto using unicode_escape_le.
Qed.

Lemma string_loop_lt (fuel : nat) (json out rest : list ascii) :
  string_loop fuel json = Some (out, rest) -> (length rest < length json)%nat.
Proof.
  revert json out rest. induction fuel as [|fuel IH]; intros json out rest H; [done|].
  cbn [string_loop] in H. destruct json as [|ch json]; [done|]. cbn [length].
  destruct (Ascii.eqb ch quote); [simplify_eq; lia|]. destruct (uc ch <? 32); [done|].
  destruct (negb (Ascii.eqb ch backslash)).
  - destruct (string_loop fuel json) as [[o r]|] eqn:E; [|done]. apply IH in E. cbn in H. simplify_eq. lia.
  - destruct json as [|e json]; [done|]. destruct (escape_sequence e json) as [[enc r]|] eqn:Ee; [|done].
    apply escape_sequence_le in Ee. destruct (string_loop fuel r) as [[o r']|] eqn:E; [|done].
    apply IH in E. cbn in H. simplify_eq. cbn. lia.
Qed.

Lemma string_loop_fuel (fuel fuel' : nat) (json : list ascii) :
  (length json < fuel)%nat -> (length json < fuel')%nat -> string_loop fuel json = string_loop fuel' json.
Proof.
  revert fuel' json. induction fuel as [|fuel IH]; intros [|fuel'] json H H'; try lia.
  cbn [string_loop]. destruct json as [|ch json]; [done|]. cbn [length] in *.
  destruct (Ascii.eqb ch quote); [done|]. destruct (uc ch <? 32); [done|].
  destruct (negb (Ascii.eqb ch backslash)); [by rewrite (IH fuel') by lia|].
  destruct json as [|e json]; [done|]. destruct (escape_sequence e json) as [[enc r]|] eqn:Ee; [|done].
  apply escape_sequence_le in Ee. cbn [length] in *. by rewrite (IH fuel') by lia.
Qed.

Lemma ParseJsonString_lt (json out rest : list ascii) :
  ParseJsonString json = Some (out, rest) -> (S (length rest) < length json)%nat.
Proof.
  unfold ParseJsonString. destruct json as [|ch json]; [done|]. case_match; [done|].
  intros Hl%string_loop_lt. cbn. lia.
Qed.

Lemma member_key_lt (json key rest : list ascii) :
  member_key json = Some (key, rest) -> (length rest < length json)%nat.
Proof.
  unfold member_key, SkipJsonWhitespace. destruct (ParseJsonString json) as [[k r]|] eqn:E; [|done].
  apply ParseJsonString_lt in E. pose proof (skip_space_le r).
  destruct (skip_space r) as [|ch r'] eqn:Er; [done|]. case_match; [|done]. intros [= <- <-].
  pose proof (skip_space_le r'). cbn in *. lia.
Qed.

Lemma skip_digits_le (l : list ascii) : (length (skip_digits l) <= length l)%nat.
Proof. induction l as [|c l IH]; cbn; [lia|]. case_match; cbn; lia. Qed.

Lemma digits1_lt (l rest : list ascii) : digits1 l = Some rest -> (length rest < length l)%nat.
Proof.
  destruct l as [|c l]; [done|]. cbn [digits1 skip_digits]. destruct (isdigit c); [|done].
  intros [= <-]. pose proof (skip_digits_le l). cbn. lia.
Qed.

Lemma optional_char_le (set : string) (l : list ascii) : (length (optional_char set l) <= length l)%nat.
Proof. destruct l as [|c l]; cbn; [lia|]. case_match; cbn; lia. Qed.

Lemma SkipJsonNumberToken_lt (json rest : list ascii) :
  SkipJsonNumberToken json = Some rest -> (length rest < length json)%nat.
Proof.
  unfold SkipJsonNumberToken. cbv zeta. pose proof (optional_char_le "-" json) as L1.
  set (j1 := optional_char "-" json) in *. clearbody j1.
  destruct (match j1 with [] => None | ch :: rest => if Ascii.eqb ch "0" then Some rest else digits1 j1 end)
    as [j2|] eqn:E2; [|done].
  assert (length j2 < length j1)%nat as L2.
  { destruct j1 as [|c j1]; [done|]. destruct (Ascii.eqb c "0"); [simplify_eq; cbn; lia|by apply digits1_lt]. }
  destruct (match j2 with ch :: rest => if Ascii.eqb ch "." then digits1 rest else Some j2 | [] => Some j2 end)
    as [j3|] eqn:E3; [|done].
  assert (length j3 <= length j2)%nat as L3.
  { destruct j2 as [|c j2]; [by simplify_eq|]. destruct (Ascii.eqb c "."); [|by simplify_eq].
    apply digits1_lt in E3. cbn. lia. }
  destruct j3 as [|c j3]; [intros [= <-]; cbn in *; lia|].
  destruct (char_in "eE" c); [|intros [= <-]; lia].
  intros H%digits1_lt. pose proof (optional_char_le "+-" j3). cbn in *. lia.
Qed.

Lemma literal_at_length (lit json rest : list ascii) :
  literal_at lit json = Some rest -> length json = (length lit + length rest)%nat.
Proof.
  revert json. induction lit as [|l lit IH]; intros json H; cbn in H; [by simplify_eq|].
  destruct json as [|c json]; [done|]. destruct (Ascii.eqb c l); [|done]. apply IH in H. cbn. lia.
Qed.

(** A skipping function makes progress when it leaves less text than it was given. *)
Definition progress (skip : list ascii -> option (list ascii)) : Prop :=
  forall json rest, skip json = Some rest -> (length rest < length json)%nat.

Lemma composite_element_le (open : ascii) (json json1 : list ascii) :
  (if Ascii.eqb open "{" then snd <$> member_key json else Some json) = Some json1 ->
  (length json1 <= length json)%nat.
Proof.
  destruct (Ascii.eqb open "{"); [|by intros [= <-]].
  destruct (member_key json) as [[k r]|] eqn:E; [|done]. intros [= <-].
  apply member_key_lt in E. cbn. lia.
Qed.

Lemma composite_loop_lt (skip : list ascii -> option (list ascii)) (fuel : nat) (open close : ascii) :
  progress skip -> progress (composite_loop skip fuel open close).
Proof.
  intros Hp. induction fuel as [|fuel IH]; intros json rest H; [done|].
  cbn [composite_loop] in H. destruct json as [|c json]; [done|].
  destruct (if Ascii.eqb open "{" then snd <$> member_key (c :: json) else Some (c :: json))
    as [j1|] eqn:E1; [|done]. apply composite_element_le in E1.
  destruct (skip j1) as [j2|] eqn:E2; [|done]. apply Hp in E2.
  unfold SkipJsonWhitespace in H. pose proof (skip_space_le j2) as L.
  destruct (skip_space j2) as [|ch j3]; [done|]. cbn [length] in L.
  destruct (Ascii.eqb ch close); [simplify_eq; lia|]. destruct (Ascii.eqb ch ","); [|done].
  apply IH in H. pose proof (skip_space_le j3). lia.
Qed.

Lemma composite_loop_fuel (skip : list ascii -> option (list ascii)) (fuel fuel' : nat) (open close : ascii)
    (json : list ascii) :
  progress skip -> (length json < fuel)%nat -> (length json < fuel')%nat ->
  composite_loop skip fuel open close json = composite_loop skip fuel' open close json.
Proof.
  intros Hp. revert fuel' json. induction fuel as [|fuel IH]; intros [|fuel'] json H H'; try lia.
  cbn [composite_loop]. destruct json as [|c json]; [done|].
  destruct (if Ascii.eqb open "{" then snd <$> member_key (c :: json) else Some (c :: json))
    as [j1|] eqn:E1; [|done]. apply composite_element_le in E1.
  destruct (skip j1) as [j2|] eqn:E2; [|done]. apply Hp in E2.
  unfold SkipJsonWhitespace. pose proof (skip_space_le j2) as L.
  destruct (skip_space j2) as [|ch j3]; [done|]. cbn [length] in L.
  destruct (Ascii.eqb ch close); [done|]. destruct (Ascii.eqb ch ","); [|done].
  pose proof (skip_space_le j3). apply IH; lia.
Qed.

Lemma SkipJsonComposite_lt (skip : list ascii -> option (list ascii)) (open close : ascii) (depth : nat) :
  progress skip -> progress (SkipJsonComposite skip open close depth).
Proof.
  intros Hp json rest. unfold SkipJsonComposite, SkipJsonWhitespace. case_match; [done|].
  destruct json as [|c json]; [done|]. case_match; [done|]. cbv zeta.
  pose proof (skip_space_le json) as L. cbn [length]. intros Hr.
  destruct (skip_space json) as [|c' r'] eqn:E; [apply composite_loop_lt in Hr; [cbn in Hr; lia|done]|].
  destruct (Ascii.eqb c' close); [simplify_eq; cbn in L; lia|].
  apply composite_loop_lt in Hr; [lia|done].
Qed.

Lemma skip_value_lt (levels depth : nat) : progress (skip_value levels depth).
Proof.
  revert depth. induction levels as [|levels IH]; intros depth json rest H; [done|].
  cbn [skip_value] in H. unfold SkipJsonWhitespace in H. pose proof (skip_space_le json) as L.
  destruct (skip_space json) as [|c r]; [done|].
  assert (length rest < length (c :: r))%nat; [|lia].
  repeat match type of H with
  | (if ?b then _ else _) = _ => destruct b
  end; try (apply literal_at_length in H; cbn [length chars] in H |- *; cbn in H; lia);
    try (by apply SkipJsonNumberToken_lt in H);
    try (by apply SkipJsonComposite_lt in H).
  destruct (ParseJsonString (c :: r)) as [[o r']|] eqn:E; [|done]. injection H as <-.
  apply ParseJsonString_lt in E. cbn [snd]. lia.
Qed.

Lemma composite_loop_ext (skip skip' : list ascii -> option (list ascii)) (fuel : nat) (open close : ascii)
    (json : list ascii) :
  (forall j, skip j = skip' j) ->
  composite_loop skip fuel open close json = composite_loop skip' fuel open close json.
Proof.
  intros E. revert json. induction fuel as [|fuel IH]; intros json; [done|].
  cbn [composite_loop]. destruct json as [|c json]; [done|].
  destruct (if Ascii.eqb open "{" then snd <$> member_key (c :: json) else Some (c :: json)); [|done].
  rewrite E. destruct (skip' l); [|done]. destruct (SkipJsonWhitespace l0); [done|].
  by repeat case_match.
Qed.

Lemma SkipJsonComposite_ext (skip skip' : list ascii -> option (list ascii)) (open close : ascii) (depth : nat)
    (json : list ascii) :
  ((depth <= kMaxJsonNestingDepth)%nat -> forall j, skip j = skip' j) ->
  SkipJsonComposite skip open close depth json = SkipJsonComposite skip' open close depth json.
Proof.
  intros E. unfold SkipJsonComposite. destruct (kMaxJsonNestingDepth <? depth)%nat eqn:Ed; [done|].
  apply Nat.ltb_ge in Ed. specialize (E Ed). destruct json as [|c json]; [done|].
  destruct (negb _); [done|]. cbv zeta. destruct (SkipJsonWhitespace json); [by apply composite_loop_ext|].
  case_match; [done|]. by apply composite_loop_ext.
Qed.

Lemma skip_value_levels (levels levels' depth : nat) (json : list ascii) :
  (kMaxJsonNestingDepth - depth < levels)%nat -> (kMaxJsonNestingDepth - depth < levels')%nat ->
  skip_value levels depth json = skip_value levels' depth json.
Proof.
  revert levels' depth json. induction levels as [|levels IH]; intros [|levels'] depth json H H'; try lia.
  cbn [skip_value]. destruct (SkipJsonWhitespace json) as [|c r]; [done|].
  case_match; [done|]. case_match; [|case_match; [|done]].
  all: apply SkipJsonComposite_ext; intros Hd j; apply IH; lia.
Qed.

(** The mutual recursion of the source, without a bound on the calls in progress. *)
Lemma SkipJsonValue_unfold (depth : nat) (json : list ascii) :
  SkipJsonValue depth json =
  match SkipJsonWhitespace json with
  | [] => None
  | ch :: rest =>
      if Ascii.eqb ch quote then snd <$> ParseJsonString (ch :: rest)
      else if Ascii.eqb ch "{" then
        SkipJsonComposite (SkipJsonValue (S depth)) "{" "}" (S depth) (ch :: rest)
      else if Ascii.eqb ch "[" then
        SkipJsonComposite (SkipJsonValue (S depth)) "[" "]" (S depth) (ch :: rest)
      else if Ascii.eqb ch "t" then SkipJsonLiteralToken (ch :: rest) "true"
      else if Ascii.eqb ch "f" then SkipJsonLiteralToken (ch :: rest) "false"
      else if Ascii.eqb ch "n" then SkipJsonLiteralToken (ch :: rest) "null"
      else SkipJsonNumberToken (ch :: rest)
  end.
Proof.
  unfold SkipJsonValue at 1. cbn [skip_value]. destruct (SkipJsonWhitespace json) as [|c r]; [done|].
  case_match; [done|]. case_match; [|case_match; [|done]].
  all: apply SkipJsonComposite_ext; intros Hd j; apply skip_value_levels; lia.
Qed.

Lemma SkipJsonValue_progress (depth : nat) : progress (SkipJsonValue depth).
Proof. apply skip_value_lt. Qed.

(** ** Escaping and reading a string *)

Lemma string_loop_escaped (fuel : nat) (ch : ascii) (rest : list ascii) :
  string_loop (S fuel) (escape_char ch ++ rest) = push [ch] (string_loop fuel rest).
Proof. destruct ch as [[] [] [] [] [] [] [] []]; reflexivity. Qed.

Lemma string_loop_escape (value rest : list ascii) (fuel : nat) :
  (length value < fuel)%nat ->
  string_loop fuel (escape_chars value ++ quote :: rest) = Some (value, rest).
Proof.
  revert fuel. induction value as [|ch value IH]; intros [|fuel] H; cbn [length] in H; try lia; [done|].
  change (escape_chars (ch :: value)) with (escape_char ch ++ escape_chars value).
  by rewrite <- app_assoc, string_loop_escaped, IH by lia.
Qed.

Lemma length_escape_chars (value : list ascii) : (length value <= length (escape_chars value))%nat.
Proof.
  induction value as [|ch value IH]; [done|].
  change (escape_chars (ch :: value)) with (escape_char ch ++ escape_chars value). rewrite length_app.
  assert (1 <= length (escape_char ch))%nat by (unfold escape_char; repeat case_match; cbn; lia).
  cbn [length]. lia.
Qed.

(** A string literal as the writers produce it. *)
Definition literal (value : list ascii) : list ascii := quote :: escape_chars value ++ [quote].

Lemma ParseJsonString_literal (value rest : list ascii) :
  ParseJsonString (literal value ++ rest) = Some (value, rest).
Proof.
  unfold literal, ParseJsonString. cbn [app]. rewrite <- app_assoc. cbn [app].
  apply string_loop_escape. rewrite length_app. pose proof (length_escape_chars value). lia.
Qed.

(** ** Numbers *)

Lemma pretty_N_char_digit (x : N) :
  isdigit (pretty_N_char x) = true /\ (x <> 0%N -> Ascii.eqb (pretty_N_char x) "0" = false).
Proof. unfold pretty_N_char. by repeat case_match. Qed.

Lemma pretty_N_go_chars (x : N) (s : string) :
  (0 < x)%N ->
  exists d ds, chars (pretty_N_go x s) = (d :: ds) ++ chars s
    /\ Forall (fun c => isdigit c = true) (d :: ds) /\ Ascii.eqb d "0" = false.
Proof.
  revert s. induction (N.lt_wf_0 x) as [x _ IH]; intros s Hx.
  rewrite pretty_N_go_step by done.
  destruct (pretty_N_char_digit (x `mod` 10)) as [Hd Hz].
  destruct (decide (x `div` 10 = 0)%N) as [E|Hq].
  - rewrite E, pretty_N_go_0. exists (pretty_N_char (x `mod` 10)), []. split_and!; [done|by constructor|].
    apply Hz. pose proof (N.div_mod x 10 ltac:(lia)). lia.
  - destruct (IH (x `div` 10)%N (N.div_lt x 10 Hx eq_refl) (String (pretty_N_char (x `mod` 10)) s)
                (proj1 (N.neq_0_lt_0 _) Hq))
      as (d & ds & -> & Hall & H0).
    exists d, (ds ++ [pretty_N_char (x `mod` 10)]). split_and!; [|by rewrite app_comm_cons, Forall_app; auto|done].
    by cbn [app]; rewrite <- app_assoc.
Qed.

(** The text after a value inside a document. *)
Definition delimited (rest : list ascii) : bool :=
  match rest with
  | [] => true
  | c :: _ => Ascii.eqb c "," || Ascii.eqb c "}" || Ascii.eqb c "]"
  end.

Lemma delimited_cases (rest : list ascii) :
  delimited rest = true ->
  rest = [] \/ exists c rest', rest = c :: rest' /\ (c = ","%char \/ c = "}"%char \/ c = "]"%char).
Proof.
  destruct rest as [|c rest]; [by left|]. cbn. rewrite !orb_true_iff, !Ascii.eqb_eq.
  right. exists c, rest. split; [done|]. tauto.
Qed.

Lemma skip_digits_all (ds rest : list ascii) :
  Forall (fun c => isdigit c = true) ds -> delimited rest = true -> skip_digits (ds ++ rest) = rest.
Proof.
  intros Hd Hr. induction Hd as [|d ds Hd _ IH]; cbn [app skip_digits].
  - by destruct (delimited_cases rest Hr) as [->|(c & r & -> & [->|[->| ->]])].
  - by rewrite Hd.
Qed.

Lemma number_token_of_digits (json2 : list ascii) : delimited json2 = true ->
  (match (match json2 with
          | ch :: rest => if Ascii.eqb ch "." then digits1 rest else Some json2
          | [] => Some json2
          end) with
   | None => None
   | Some json3 =>
       match json3 with
       | ch :: rest => if char_in "eE" ch then digits1 (optional_char "+-" rest) else Some json3
       | [] => Some json3
       end
   end) = Some json2.
Proof. intros H. by destruct (delimited_cases json2 H) as [->|(c & r & -> & [->|[->| ->]])]. Qed.

Lemma isdigit_not_dash (d : ascii) : isdigit d = true -> char_in "-" d = false.
Proof. by destruct d as [[] [] [] [] [] [] [] []]. Qed.

Lemma SkipJsonNumberToken_N (x : N) (rest : list ascii) (neg : bool) :
  delimited rest = true ->
  SkipJsonNumberToken ((if neg then chars "-" else []) ++ chars (pretty x) ++ rest) = Some rest.
Proof.
  intros Hr.
  assert (exists d ds, chars (pretty x) = d :: ds /\ Forall (fun c => isdigit c = true) (d :: ds)
            /\ (Ascii.eqb d "0" = true -> ds = [])) as (d & ds & E & Hall & H0).
  { unfold pretty, pretty_N. case_decide as Hx; [by exists "0"%char, []; repeat constructor|].
    destruct (pretty_N_go_chars x "" ltac:(lia)) as (d & ds & -> & Hall & H0).
    exists d, ds. rewrite app_nil_r. split_and!; [done|done|]. by rewrite H0. }
  apply Forall_cons in Hall as [Hd Hds].
  assert (optional_char "-" ((if neg then chars "-" else []) ++ chars (pretty x) ++ rest) = d :: ds ++ rest) as Eo.
  { rewrite E. destruct neg; cbn [app chars optional_char]; [done|]. by rewrite isdigit_not_dash. }
  unfold SkipJsonNumberToken. cbv zeta. rewrite Eo.
  destruct (Ascii.eqb d "0").
  - rewrite H0 by done. by apply number_token_of_digits.
  - cbn [digits1 skip_digits]. rewrite Hd, skip_digits_all by done. by apply number_token_of_digits.
Qed.

Lemma SkipJsonNumberToken_Z (z : Z) (rest : list ascii) :
  delimited rest = true -> SkipJsonNumberToken (chars (to_string z) ++ rest) = Some rest.
Proof.
  intros Hr. unfold to_string. destruct z as [|p|p].
  - apply (SkipJsonNumberToken_N 0 rest false Hr).
  - apply (SkipJsonNumberToken_N (Npos p) rest false Hr).
  - apply (SkipJsonNumberToken_N (Npos p) rest true Hr).
Qed.

Lemma to_string_head (z : Z) :
  exists c l, chars (to_string z) = c :: l /\ (isdigit c = true \/ c = "-"%char).
Proof.
  assert (forall x : N, exists c l, chars (pretty x) = c :: l /\ (isdigit c = true \/ c = "-"%char)) as HN.
  { intros x. unfold pretty, pretty_N. case_decide; [by exists "0"%char, []; auto|].
    destruct (pretty_N_go_chars x "" ltac:(lia)) as (d & ds & -> & Hall & _).
    apply Forall_cons in Hall as [Hd _]. by exists d, (ds ++ []); auto. }
  unfold to_string. destruct z as [|p|p]; [apply (HN 0%N)|apply (HN (Npos p))|].
  by exists "-"%char, (chars (pretty (Npos p))); auto.
Qed.

(** ** Documents *)

Inductive json :=
| JStr (value : string)
| JBool (value : bool)
| JNull
| JInt (value : Z)
| JArr (items : list json)
| JObj (members : list (string * json)).

(** The compact text of a document, as the writers of the program emit it. *)
Fixpoint print (v : json) : list ascii :=
  match v with
  | JStr s => literal (chars s)
  | JBool b => chars (BoolJson b)
  | JNull => chars "null"
  | JInt z => chars (to_string z)
  | JArr items =>
      "["%char :: (fix go (l : list json) (first : bool) : list ascii :=
        match l with
        | [] => ["]"%char]
        | v :: l' => (if first then [] else [","%char]) ++ print v ++ go l' false
        end) items true
  | JObj members =>
      "{"%char :: (fix go (l : list (string * json)) (first : bool) : list ascii :=
        match l with
        | [] => ["}"%char]
        | (k, v) :: l' =>
            (if first then [] else [","%char]) ++ literal (chars k) ++ ":"%char :: print v ++ go l' false
        end) members true
  end.

Fixpoint print_items (l : list json) (first : bool) : list ascii :=
  match l with
  | [] => ["]"%char]
  | v :: l' => (if first then [] else [","%char]) ++ print v ++ print_items l' false
  end.

Fixpoint print_members (l : list (string * json)) (first : bool) : list ascii :=
  match l with
  | [] => ["}"%char]
  | (k, v) :: l' =>
      (if first then [] else [","%char]) ++ literal (chars k) ++ ":"%char :: print v ++ print_members l' false
  end.

Lemma print_arr (items : list json) : print (JArr items) = "["%char :: print_items items true.
Proof. reflexivity. Qed.

Lemma print_obj (members : list (string * json)) : print (JObj members) = "{"%char :: print_members members true.
Proof. reflexivity. Qed.

(** The number of composites open at the deepest point of a document. *)
Fixpoint nesting (v : json) : nat :=
  match v with
  | JArr items => S (foldr (fun v n => Nat.max (nesting v) n) 0%nat items)
  | JObj members => S (foldr (fun m n => Nat.max (nesting m.2) n) 0%nat members)
  | _ => 0%nat
  end.

(** A document at [depth] open composites respects the limit. *)
Definition fits (depth : nat) (v : json) : bool :=
  (nesting v =? 0)%nat || (depth + nesting v <=? kMaxJsonNestingDepth)%nat.

Definition is_composite (v : json) : bool := match v with JArr _ | JObj _ => true | _ => false end.

Section json_ind.
Context (P : json -> Prop)
  (HStr : forall s, P (JStr s)) (HBool : forall b, P (JBool b)) (HNull : P JNull) (HInt : forall z, P (JInt z))
  (HArr : forall l, Forall P l -> P (JArr l)) (HObj : forall l, Forall (fun m => P m.2) l -> P (JObj l)).

Fixpoint json_nested_ind (v : json) : P v :=
  match v with
  | JStr s => HStr s | JBool b => HBool b | JNull => HNull | JInt z => HInt z
  | JArr l => HArr l ((fix go l : Forall P l :=
      match l with [] => Forall_nil_2 _ | x :: l' => Forall_cons_2 _ _ _ (json_nested_ind x) (go l') end) l)
  | JObj l => HObj l ((fix go l : Forall (fun m => P m.2) l :=
      match l with [] => Forall_nil_2 _ | x :: l' => Forall_cons_2 _ _ _ (json_nested_ind x.2) (go l') end) l)
  end.
End json_ind.

(** *** Skipping a printed value *)

Lemma print_head (v : json) :
  exists c l, print v = c :: l /\ isspace c = false /\ Ascii.eqb c "]" = false /\ Ascii.eqb c "}" = false.
Proof.
  destruct v as [s|[]| |z|l|l].
  1-4: by eexists _, _.
  2: by rewrite print_arr; eexists _, _.
  2: by rewrite print_obj; eexists _, _.
  destruct (to_string_head z) as (c & l & E & Hc). exists c, l. split; [done|].
  destruct Hc as [Hd| ->]; [|done]. by destruct c as [[] [] [] [] [] [] [] []].
Qed.

Lemma skip_space_print (v : json) (rest : list ascii) : skip_space (print v ++ rest) = print v ++ rest.
Proof. destruct (print_head v) as (c & l & -> & Hc & _). cbn. by rewrite Hc. Qed.

Lemma skip_space_delimited (rest : list ascii) : delimited rest = true -> skip_space rest = rest.
Proof. intros H. by destruct (delimited_cases rest H) as [->|(c & r & -> & [->|[->| ->]])]. Qed.

Lemma member_key_printed (key : string) (v : json) (rest : list ascii) :
  member_key (literal (chars key) ++ ":"%char :: print v ++ rest) = Some (chars key, print v ++ rest).
Proof.
  unfold member_key, SkipJsonWhitespace. rewrite ParseJsonString_literal. cbn [skip_space isspace].
  change (isspace ":") with false. cbv iota. change (Ascii.eqb ":" ":") with true. cbv iota.
  by rewrite skip_space_print.
Qed.

Lemma print_items_delimited (l : list json) (rest : list ascii) : delimited (print_items l false ++ rest) = true.
Proof. by destruct l. Qed.

Lemma print_members_delimited (l : list (string * json)) (rest : list ascii) :
  delimited (print_members l false ++ rest) = true.
Proof. by destruct l as [|[k v] l]. Qed.

Lemma fits_max {A} (f : A -> json) (depth : nat) (l : list A) :
  (S depth + foldr (fun x n => Nat.max (nesting (f x)) n) 0 l <=? kMaxJsonNestingDepth)%nat
  = ((S depth <=? kMaxJsonNestingDepth)%nat && forallb (fun x => fits (S depth) (f x)) l).
Proof.
  induction l as [|x l IH]; cbn [foldr forallb]; [by rewrite Nat.add_0_r, andb_true_r|].
  apply eq_iff_eq_true. apply eq_iff_eq_true in IH. revert IH.
  rewrite !andb_true_iff. unfold fits at 2. rewrite orb_true_iff, !Nat.leb_le, Nat.eqb_eq.
  generalize (forallb (fun x => fits (S depth) (f x)) l = true).
  intros P [H1 H2]. split; [intros H|intros (H & [H'|H'] & HP)].
  1: destruct (H1 ltac:(lia)); split_and!; [lia|lia|done].
  all: specialize (H2 (conj H HP)); lia.
Qed.

Lemma fits_arr (depth : nat) (l : list json) :
  fits depth (JArr l) = (S depth <=? kMaxJsonNestingDepth)%nat && forallb (fits (S depth)) l.
Proof. rewrite <- (fits_max (fun v => v)). unfold fits. cbn [nesting Nat.eqb orb]. by rewrite Nat.add_succ_r. Qed.

Lemma fits_obj (depth : nat) (l : list (string * json)) :
  fits depth (JObj l) = (S depth <=? kMaxJsonNestingDepth)%nat && forallb (fun m => fits (S depth) m.2) l.
Proof. rewrite <- (fits_max snd). unfold fits. cbn [nesting Nat.eqb orb]. by rewrite Nat.add_succ_r. Qed.

(** What the reader does on a printed value. *)
Definition skips (v : json) : Prop := forall depth rest, delimited rest = true ->
  SkipJsonValue depth (print v ++ rest) = if fits depth v then Some rest else None.

Lemma composite_loop_step (skip : list ascii -> option (list ascii)) (fuel : nat) (open close : ascii)
    (json json1 : list ascii) :
  json <> [] -> (if Ascii.eqb open "{" then snd <$> member_key json else Some json) = Some json1 ->
  composite_loop skip (S fuel) open close json =
  match skip json1 with
  | None => None
  | Some json2 =>
      match SkipJsonWhitespace json2 with
      | [] => None
      | ch :: rest =>
          if Ascii.eqb ch close then Some rest
          else if Ascii.eqb ch "," then composite_loop skip fuel open close (SkipJsonWhitespace rest)
          else None
      end
  end.
Proof. intros Hne E. cbn [composite_loop]. destruct json; [done|]. by rewrite E. Qed.

Lemma composite_loop_items (depth fuel : nat) (l : list json) (rest : list ascii) :
  l <> [] -> Forall skips l -> (length l <= fuel)%nat ->
  composite_loop (SkipJsonValue depth) fuel "[" "]" (print_items l true ++ rest)
  = if forallb (fits depth) l then Some rest else None.
Proof.
  intros Hne Hl. revert fuel. induction Hl as [|v l Hv Hl IH]; intros [|fuel] Hf; cbn [length] in Hf; try done; try lia.
  cbn [print_items app]. rewrite <- app_assoc. destruct (print_head v) as (c & t & E & Hc & _).
  erewrite composite_loop_step; [|by rewrite E|done].
  rewrite Hv by apply print_items_delimited. cbn [forallb]. destruct (fits depth v); [|done]. cbn [andb].
  unfold SkipJsonWhitespace. rewrite skip_space_delimited by apply print_items_delimited.
  destruct l as [|v' l]; [done|]. rewrite <- (IH ltac:(done) fuel) by (cbn in *; lia).
  cbn [print_items app]. change (Ascii.eqb "," "]") with false. change (Ascii.eqb "," ",") with true.
  cbv iota. by rewrite <- app_assoc, skip_space_print.
Qed.

Lemma composite_loop_members (depth fuel : nat) (l : list (string * json)) (rest : list ascii) :
  l <> [] -> Forall (fun m => skips m.2) l -> (length l <= fuel)%nat ->
  composite_loop (SkipJsonValue depth) fuel "{" "}" (print_members l true ++ rest)
  = if forallb (fun m => fits depth m.2) l then Some rest else None.
Proof.
  intros Hne Hl. revert fuel.
  induction Hl as [|[k v] l Hv Hl IH]; intros [|fuel] Hf; cbn [length] in Hf; try done; try lia.
  cbn [print_members app]. rewrite <- app_assoc. cbn [app]. rewrite <- app_assoc.
  erewrite composite_loop_step; [|done|by cbv [Ascii.eqb Bool.eqb]; rewrite member_key_printed].
  cbn [snd] in *. rewrite Hv by apply print_members_delimited. cbn [forallb snd]. destruct (fits depth v); [|done]. cbn [andb].
  unfold SkipJsonWhitespace. rewrite skip_space_delimited by apply print_members_delimited.
  destruct l as [|[k' v'] l]; [done|]. rewrite <- (IH ltac:(done) fuel) by (cbn in *; lia).
  reflexivity.
Qed.

Lemma length_print_items (l : list json) (first : bool) : (length l <= length (print_items l first))%nat.
Proof.
  revert first. induction l as [|v l IH]; intros first; [cbn; lia|]. cbn [print_items length].
  rewrite !length_app. specialize (IH false). destruct (print_head v) as (c & t & -> & _). cbn. lia.
Qed.

Lemma length_print_members (l : list (string * json)) (first : bool) :
  (length l <= length (print_members l first))%nat.
Proof.
  revert first. induction l as [|[k v] l IH]; intros first; [cbn; lia|]. cbn [print_members length].
  rewrite !length_app. cbn [length]. rewrite length_app. specialize (IH false). lia.
Qed.

Lemma print_skips (v : json) : skips v.
Proof.
  induction v as [s|b| |z|l IH|l IH] using json_nested_ind; intros depth rest Hr;
    rewrite SkipJsonValue_unfold; unfold SkipJsonWhitespace; rewrite skip_space_print.
  - cbn [print]. change (literal (chars s) ++ rest) with (quote :: (escape_chars (chars s) ++ [quote]) ++ rest).
    cbv iota. change (Ascii.eqb quote quote) with true. cbv iota.
    change (quote :: (escape_chars (chars s) ++ [quote]) ++ rest) with (literal (chars s) ++ rest).
    by rewrite ParseJsonString_literal.
  - by destruct b.
  - done.
  - cbn [print]. destruct (to_string_head z) as (c & t & E & Hc).
    rewrite <- (SkipJsonNumberToken_Z z rest Hr), E. cbn [app]. unfold fits. cbn [nesting Nat.eqb orb].
    destruct Hc as [Hd| ->]; [|done]. by destruct c as [[] [] [] [] [] [] [] []].
  - rewrite print_arr, fits_arr. cbn [app]. change (Ascii.eqb "[" quote) with false.
    change (Ascii.eqb "[" "{") with false. change (Ascii.eqb "[" "[") with true. cbv iota.
    unfold SkipJsonComposite. rewrite Nat.ltb_antisym. destruct (S depth <=? kMaxJsonNestingDepth)%nat; [|done].
    cbn [negb andb]. change (negb (Ascii.eqb "[" "[")) with false. cbv iota zeta.
    destruct l as [|v l]; [done|]. unfold SkipJsonWhitespace. cbn [print_items app].
    rewrite <- app_assoc, skip_space_print. 
    rewrite <- (composite_loop_items (S depth) (S (length (print v ++ print_items l false ++ rest)))); [|done|done|].
    2:{ rewrite !length_app. pose proof (length_print_items (v :: l) true) as L. cbn in L. rewrite length_app in L. cbn. lia. }
    cbn [print_items app]. rewrite <- app_assoc.
    destruct (print_head v) as (c & t & E & Hc & Hb & _). rewrite E. cbn [app]. by rewrite Hb.
  - rewrite print_obj, fits_obj. cbn [app]. change (Ascii.eqb "{" quote) with false.
    change (Ascii.eqb "{" "{") with true. cbv iota.
    unfold SkipJsonComposite. rewrite Nat.ltb_antisym. destruct (S depth <=? kMaxJsonNestingDepth)%nat; [|done].
    cbn [negb andb]. change (negb (Ascii.eqb "{" "{")) with false. cbv iota zeta.
    destruct l as [|[k v] l]; [done|]. unfold SkipJsonWhitespace.
    rewrite <- (composite_loop_members (S depth) (S (length (print_members ((k, v) :: l) true ++ rest)))); [done|done|done|].
    rewrite length_app. pose proof (length_print_members ((k, v) :: l) true). cbn [length] in *. lia.
Qed.

(** *** Looking a member up *)

Fixpoint assoc (key : string) (l : list (string * json)) : option json :=
  match l with
  | [] => None
  | (k, v) :: l' => if k ==s key then Some v else assoc key l'
  end.

Fixpoint json_at (v : json) (path : list string) : option json :=
  match path with
  | [] => Some v
  | key :: path' =>
      match v with
      | JObj members => match assoc key members with Some w => json_at w path' | None => None end
      | _ => None
      end
  end.

(** The reader stands at the text of [found], or failed when there is none. *)
Definition stands_at (found : option json) (cursor : option (list ascii)) : Prop :=
  match found with
  | Some v => exists tail, delimited tail = true /\ cursor = Some (print v ++ tail)
  | None => cursor = None
  end.

Lemma chars_eqb (a b : string) : list_ascii_eqb (chars a) (chars b) = (a ==s b).
Proof.
  unfold list_ascii_eqb. destruct (String.eqb_spec a b) as [->|Hne]; [by rewrite bool_decide_true|].
  rewrite bool_decide_false; [done|]. intros E. by apply Hne, chars_inj.
Qed.

Lemma member_loop_printed (key : string) (depth fuel : nat) (l : list (string * json)) (rest : list ascii) :
  l <> [] -> forallb (fun m => fits depth m.2) l = true -> (length l <= fuel)%nat ->
  stands_at (assoc key l) (member_loop fuel (chars key) depth (print_members l true ++ rest)).
Proof.
  intros Hne. revert fuel.
  induction l as [|[k v] l IH]; intros [|fuel] Hl Hf; cbn [length] in Hf; try done; try lia.
  cbn [forallb snd] in Hl. apply andb_true_iff in Hl as [Hv Hl].
  cbn [print_members app]. rewrite <- app_assoc. cbn [app]. rewrite <- app_assoc.
  assert (forall t, member_loop (S fuel) (chars key) depth (literal (chars k) ++ t) =
    match member_key (literal (chars k) ++ t) with
    | None => None
    | Some (current_key, value) =>
        if list_ascii_eqb current_key (chars key) then Some value
        else
          match SkipJsonValue depth value with
          | None => None
          | Some json2 =>
              match SkipJsonWhitespace json2 with
              | [] => None
              | ch :: rest =>
                  if Ascii.eqb ch "}" then None
                  else if negb (Ascii.eqb ch ",") then None
                  else member_loop fuel (chars key) depth (SkipJsonWhitespace rest)
              end
          end
    end) as -> by done.
  rewrite member_key_printed, chars_eqb. cbn [assoc].
  destruct (k ==s key); [eexists; split; [|done]; apply print_members_delimited|].
  rewrite print_skips, Hv by apply print_members_delimited.
  unfold SkipJsonWhitespace. rewrite skip_space_delimited by apply print_members_delimited.
  destruct l as [|[k' v'] l]; [done|]. apply (IH ltac:(done) fuel); [done|cbn in *; lia].
Qed.

Lemma FindJsonMemberValue_printed (key : string) (v : json) (depth : nat) (rest : list ascii) :
  fits depth v = true ->
  stands_at (json_at v [key]) (FindJsonMemberValue (print v ++ rest) (chars key) (S depth)).
Proof.
  intros Hv. unfold FindJsonMemberValue, SkipJsonWhitespace. rewrite skip_space_print.
  destruct v as [s|[]| |z|l|l]; [done|done|done|done| |done|].
  - cbn [print json_at stands_at]. destruct (to_string_head z) as (c & t & -> & Hc). cbn [app].
    destruct Hc as [Hd| ->]; [|done]. by destruct c as [[] [] [] [] [] [] [] []].
  - rewrite fits_obj in Hv. apply andb_true_iff in Hv as [_ Hv].
    rewrite print_obj. cbn [app json_at]. change (negb (Ascii.eqb "{" "{")) with false. cbv iota zeta.
    destruct l as [|[k v] l]; [done|].
    pose proof (member_loop_printed key (S depth) (S (length (print_members ((k, v) :: l) true ++ rest)))
      ((k, v) :: l) rest ltac:(done) Hv) as H.
    destruct (assoc key ((k, v) :: l)) as [w|]; apply H;
      rewrite length_app; pose proof (length_print_members ((k, v) :: l) true); lia.
Qed.

Lemma json_at_cons (v : json) (key : string) (path : list string) :
  json_at v (key :: path) = match json_at v [key] with Some w => json_at w path | None => None end.
Proof. destruct v; cbn; try done. by destruct (assoc key members). Qed.

Lemma json_at_fits (v w : json) (key : string) (depth : nat) :
  fits depth v = true -> json_at v [key] = Some w -> fits (S depth) w = true.
Proof.
  destruct v as [s|b| |z|l|l]; try done. rewrite fits_obj. intros [_ H]%andb_true_iff.
  assert (json_at (JObj l) [key] = assoc key l) as -> by (cbn; by destruct (assoc key l)).
  induction l as [|[k x] l IH]; cbn [assoc forallb] in *; [done|]. apply andb_true_iff in H as [Hx Hl].
  case_match; [by intros [= <-]|]. by apply IH.
Qed.

Lemma path_loop_printed (path : list string) (v : json) (i : nat) (rest : list ascii) :
  fits i v = true -> delimited rest = true ->
  stands_at (json_at v path) (path_loop (print v ++ rest) path i).
Proof.
  revert v i rest. induction path as [|key path IH]; intros v i rest Hv Hr; [by exists rest|].
  rewrite json_at_cons. cbn [path_loop]. rewrite Nat.add_1_r.
  pose proof (FindJsonMemberValue_printed key v i rest Hv) as H.
  destruct (json_at v [key]) as [w|] eqn:E; cbn [stands_at] in H.
  - destruct H as (tail & Ht & ->). apply IH; [|done]. by eapply json_at_fits.
  - by rewrite H.
Qed.

Lemma FindJsonPathValue_printed (path : list string) (v : json) :
  fits 0 v = true -> path <> [] -> stands_at (json_at v path) (FindJsonPathValue (print v) path).
Proof.
  intros Hv Hp. destruct path as [|key path]; [done|]. cbn [FindJsonPathValue].
  rewrite <- (app_nil_r (print v)). by apply path_loop_printed.
Qed.

(** *** Reading a value of a given type *)

Definition as_string (v : json) : option string := match v with JStr s => Some s | _ => None end.
Definition as_bool (v : json) : option bool := match v with JBool b => Some b | _ => None end.

Lemma ParseJsonString_printed (v : json) (tail : list ascii) :
  match ParseJsonString (print v ++ tail) with Some (out, _) => Some (of_chars out) | None => None end
  = as_string v.
Proof.
  destruct v as [s|[]| |z|l|l]; try done.
  - cbn [print]. rewrite ParseJsonString_literal. by rewrite of_chars_chars.
  - cbn [print]. destruct (to_string_head z) as (c & t & -> & Hc).
    destruct Hc as [Hd| ->]; [|done]. by destruct c as [[] [] [] [] [] [] [] []].
Qed.

Lemma ReadBoolAt_printed (v : json) (tail : list ascii) :
  delimited tail = true -> ReadBoolAt (print v ++ tail) = as_bool v.
Proof.
  intros Ht. destruct v as [s|b| |z|l|l]; try done.
  - destruct (delimited_cases tail Ht) as [->|(c & r & -> & [->|[->| ->]])]; by destruct b.
  - cbn [print]. destruct (to_string_head z) as (c & t & -> & Hc).
    destruct Hc as [Hd| ->]; [|done]. by destruct c as [[] [] [] [] [] [] [] []].
Qed.

Lemma ExtractJson_lookup (doc : json) (path : list string) :
  fits 0 doc = true -> path <> [] ->
  ExtractJsonStringPath (of_chars (print doc)) path
    = match json_at doc path with Some v => as_string v | None => None end
  /\ ExtractJsonBoolPath (of_chars (print doc)) path
    = match json_at doc path with Some v => as_bool v | None => None end.
Proof.
  intros Hd Hp. unfold ExtractJsonStringPath, ExtractJsonBoolPath. rewrite chars_of_chars.
  pose proof (FindJsonPathValue_printed path doc Hd Hp) as H.
  destruct (json_at doc path) as [v|]; cbn [stands_at] in H; [|by rewrite H].
  destruct H as (tail & Ht & ->). by rewrite ParseJsonString_printed, ReadBoolAt_printed.
Qed.

(** ** Properties *)

(** The reader inverts the writer on strings: the literal that [EscapeJson] writes between quotes
    for any sequence of bytes is read back by [ParseJsonString] as exactly these bytes, and the cursor
    is left behind the closing quote. *)
Theorem EscapeJson_roundtrip (value rest : string) :
  ParseJsonString (quote :: chars (EscapeJson value) ++ quote :: chars rest) = Some (chars value, chars rest).
Proof.
  unfold EscapeJson. rewrite chars_of_chars.
  pose proof (ParseJsonString_literal (chars value) (chars rest)) as H.
  unfold literal in H. cbn [app] in H. by rewrite <- app_assoc in H.
Qed.

(** The nesting limit, exactly: on a printed value under [depth] open composites, [SkipJsonValue]
    stops behind the value when no composite in it is deeper than one hundred levels and fails
    otherwise, whatever text follows. *)
Theorem SkipJsonValue_depth_exact (v : json) (depth : nat) (rest : list ascii) :
  delimited rest = true ->
  SkipJsonValue depth (print v ++ rest)
  = if (nesting v =? 0)%nat || (depth + nesting v <=? 100)%nat then Some rest else None.
Proof. apply print_skips. Qed.

(** Arrays nested [n] deep. *)
Fixpoint nested (n : nat) : json := match n with O => JNull | S n' => JArr [nested n'] end.

Lemma SkipJsonValue_depth_exact_witness :
  SkipJsonValue 0 (print (nested 100) ++ chars ",") = Some (chars ",")
  /\ SkipJsonValue 0 (print (nested 101) ++ chars ",") = None.
Proof.
  split.
  - rewrite (SkipJsonValue_depth_exact (nested 100) 0 (chars ",") eq_refl). by vm_compute.
  - rewrite (SkipJsonValue_depth_exact (nested 101) 0 (chars ",") eq_refl). by vm_compute.
Defined.

(** Extraction refines looking a path up in the document: on the printed text of any document
    within the nesting limit, [ExtractJsonStringPath] gives the string at the path and
    [ExtractJsonBoolPath] the boolean, the first member of a repeated key counting; both give nothing
    when a key is missing, a step is not an object or the value has another type. *)
Theorem ExtractJson_refines_lookup (doc : json) (path : list string) :
  fits 0 doc = true -> path <> [] ->
  ExtractJsonStringPath (of_chars (print doc)) path
    = match json_at doc path with Some v => as_string v | None => None end
  /\ ExtractJsonBoolPath (of_chars (print doc)) path
    = match json_at doc path with Some v => as_bool v | None => None end.
Proof. apply ExtractJson_lookup. Qed.

Definition sample_doc : json :=
  JObj [("a", JArr [JInt (-7); JNull]); ("b", JObj [("c", JStr "x"); ("d", JBool true); ("c", JStr "y")])].

Lemma ExtractJson_refines_lookup_witness :
  ExtractJsonStringPath (of_chars (print sample_doc)) ["b"; "c"] = Some "x"
  /\ ExtractJsonBoolPath (of_chars (print sample_doc)) ["b"; "d"] = Some true.
Proof.
  split.
  - apply (ExtractJson_refines_lookup sample_doc ["b"; "c"]); [by vm_compute | done].
  - apply (ExtractJson_refines_lookup sample_doc ["b"; "d"]); [by vm_compute | done].
Defined.

(** The limit concerns only what is skipped before the member: a document with a composite too deep
    behind the member is read, although the header says it is rejected as a whole. *)
Lemma deep_tail_is_read :
  ExtractJsonString (of_chars (print (JObj [("a", JStr "x"); ("b", nested 101)]))) "a" = Some "x"
  /\ ExtractJsonString (of_chars (print (JObj [("b", nested 101); ("a", JStr "x")]))) "a" = None.
Proof. by vm_compute. Qed.

(** Termination of the reader without the bounds of the model: [SkipJsonValue] satisfies the
    mutually recursive equations of the source for every text and depth, every call consumes at least
    one character, and the loop of a composite gives the same result under every bound above the
    length of its text. *)
Theorem SkipJsonValue_terminates (depth : nat) :
  (forall json, SkipJsonValue depth json =
    match SkipJsonWhitespace json with
    | [] => None
    | ch :: rest =>
        if Ascii.eqb ch quote then snd <$> ParseJsonString (ch :: rest)
        else if Ascii.eqb ch "{" then
          SkipJsonComposite (SkipJsonValue (S depth)) "{" "}" (S depth) (ch :: rest)
        else if Ascii.eqb ch "[" then
          SkipJsonComposite (SkipJsonValue (S depth)) "[" "]" (S depth) (ch :: rest)
        else if Ascii.eqb ch "t" then SkipJsonLiteralToken (ch :: rest) "true"
        else if Ascii.eqb ch "f" then SkipJsonLiteralToken (ch :: rest) "false"
        else if Ascii.eqb ch "n" then SkipJsonLiteralToken (ch :: rest) "null"
        else SkipJsonNumberToken (ch :: rest)
    end)
  /\ (forall json rest, SkipJsonValue depth json = Some rest -> (length rest < length json)%nat)
  /\ (forall fuel fuel' open close json, (length json < fuel)%nat -> (length json < fuel')%nat ->
        composite_loop (SkipJsonValue depth) fuel open close json
        = composite_loop (SkipJsonValue depth) fuel' open close json).
Proof.
  split_and!; [apply SkipJsonValue_unfold | apply SkipJsonValue_progress |].
  intros. apply composite_loop_fuel; auto using SkipJsonValue_progress.
Qed.
