(* ===== verification/FileSystem.v ===== *)
(** * FileSystem: bounded reading and atomic writing of files (src/src/lib/util/FileSystem.cpp)

    The file system is a map from paths to contents.  What the operating system
    answers to each call of an operation is an argument of it ([ReadCalls],
    [WriteCalls]): the theorems hold for every answer.  The platform branch is
    the POSIX one ([std::filesystem::rename]).

    The bytes of a file are characters: the same functions serve the binary and
    the text variants of the source, which differ in the container only. *)

From stdpp Require Import gmap.
From S2P Require Import Prelude CxxString.

Local Open Scope Z_scope.

Abbreviation content := (list ascii) (only parsing).
Abbreviation files := (gmap string (list ascii)) (only parsing).

Definition kMaxInputFileSize : Z := 64 * 1024 * 1024.
Definition kMaxCachedArtifactSize : Z := 64 * 1024 * 1024.
Definition kMaxCertificateFileSize : Z := 4 * 1024 * 1024.

(** ** Reading *)

(** The answers to one reading: the size reported by [file_size] (or its failure), whether the file
    opens, the chunks that [read] delivers until it delivers none, and [bad()] at the end. *)
Record ReadCalls := MkReadCalls {
  rc_file_size : option Z;
  rc_opens : bool;
  rc_chunks : list (list ascii);
  rc_bad : bool
}.

(** The reading loop: [None] is the refusal of a stream beyond the limit. *)
Fixpoint read_chunks (max_size : Z) (chunks : list (list ascii)) (out : list ascii) : option (list ascii) :=
  match chunks with
  | [] => Some out
  | chunk :: chunks' =>
      if (length chunk =? 0)%nat then Some out
      else if max_size <? Z.of_nat (length out) + Z.of_nat (length chunk) then None
      else read_chunks max_size chunks' (out ++ chunk)
  end.

(** The content read, or the error message. *)
Definition ReadLimited (calls : ReadCalls) (max_size : Z) : string + list ascii :=
  if match rc_file_size calls with Some size => max_size <? size | None => false end
  then inl "input exceeds the maximum supported size"
  else if negb (rc_opens calls) then inl "unable to open input file"
  else
    match read_chunks max_size (rc_chunks calls) [] with
    | None => inl "input exceeds the maximum supported size"
    | Some out => if rc_bad calls then inl "input file read failed" else inr out
    end.

(** ** Writing *)

Inductive AtomicWriteStatus := Ok | TargetUnusable | WriteFailed.

Record AtomicWriteResult := MkAtomicWriteResult { aw_status : AtomicWriteStatus; aw_message : string }.

(** The answers to one writing: the failures carry the system's message. *)
Record WriteCalls := MkWriteCalls {
  wc_create_directories : option string;  (** the message of a failure *)
  wc_temp_opens : bool;
  wc_written : nat;                       (** octets that reach the temporary file *)
  wc_good_after_write : bool;
  wc_good_after_close : bool;
  wc_rename : option string;              (** the message of a failure *)
  wc_remove : bool                        (** whether the temporary file could be removed *)
}.

(** [path.parent_path()]: what precedes the last separator. *)
Fixpoint strip_slashes (l : list ascii) : list ascii :=
  match l with
  | c :: l' => if Ascii.eqb c "/" then strip_slashes l' else l
  | [] => []
  end.

Fixpoint after_slash (l : list ascii) : option (list ascii) :=
  match l with
  | [] => None
  | c :: l' => if Ascii.eqb c "/" then Some l' else after_slash l'
  end.

Definition parent_path (path : string) : string :=
  match after_slash (rev (chars path)) with
  | None => ""
  | Some l => match strip_slashes l with [] => "/" | l' => of_chars (rev l') end
  end.

Definition PathWithSuffix (path suffix : string) : string := path +s+ suffix.

Definition MakeUniqueTempPath (final_path : string) (pid serial : Z) : string :=
  PathWithSuffix final_path (".tmp." +s+ to_string pid +s+ "." +s+ to_string serial).

(** One writing, with the states of the file system it passes through (the last one first):
    what another process, or this one after a crash, may find. *)
Definition WriteBytesAtomic (calls : WriteCalls) (pid serial : Z) (fs : files) (final_path : string)
    (data : list ascii) : AtomicWriteResult * list files :=
  if str_empty final_path then (MkAtomicWriteResult TargetUnusable "output path is empty", [fs])
  else
    let parent := parent_path final_path in
    match (if str_empty parent then None else wc_create_directories calls) with
    | Some message =>
        (MkAtomicWriteResult TargetUnusable ("unable to create output directory: " +s+ message), [fs])
    | None =>
        let temp_path := MakeUniqueTempPath final_path pid serial in
        if negb (wc_temp_opens calls) then
          (MkAtomicWriteResult TargetUnusable "unable to create temporary output file", [fs])
        else
          let opened := <[temp_path := []]> fs in
          let good := wc_good_after_write calls && wc_good_after_close calls in
          let arrived := if good then data else take (wc_written calls) data in
          let written := <[temp_path := arrived]> opened in
          let removed := if wc_remove calls then delete temp_path written else written in
          if negb good then
            (MkAtomicWriteResult WriteFailed "failed writing temporary output file", [removed; written; opened; fs])
          else
            match wc_rename calls with
            | Some message =>
                (MkAtomicWriteResult WriteFailed ("failed to replace output file: " +s+ message),
                 [removed; written; opened; fs])
            | None =>
                (MkAtomicWriteResult Ok "", [<[final_path := data]> (delete temp_path written); written; opened; fs])
            end
    end.

(** ** Lemmas *)

Lemma read_chunks_bound (max_size : Z) (chunks : list (list ascii)) (out result : list ascii) :
  Z.of_nat (length out) <= max_size ->
  read_chunks max_size chunks out = Some result ->
  Z.of_nat (length result) <= max_size.
Proof.
  revert out. induction chunks as [|chunk chunks IH]; intros out Ho H; cbn in H; [by simplify_eq|].
  destruct (length chunk =? 0)%nat; [by simplify_eq|].
  destruct (max_size <? Z.of_nat (length out) + Z.of_nat (length chunk)) eqn:E; [done|].
  apply IH in H; [done|]. rewrite length_app. lia.
Qed.

Lemma read_chunks_whole (max_size : Z) (chunks : list (list ascii)) (out : list ascii) :
  Forall (fun chunk => chunk <> []) chunks ->
  Z.of_nat (length (out ++ concat chunks)) <= max_size ->
  read_chunks max_size chunks out = Some (out ++ concat chunks).
Proof.
  intros Hc. revert out. induction Hc as [|chunk chunks Hne _ IH]; intros out Hl; cbn [read_chunks concat].
  - by rewrite app_nil_r.
  - cbn [concat] in Hl. rewrite !length_app in Hl.
    destruct chunk as [|c chunk]; [done|]. cbn [length Nat.eqb].
    cbn [length] in Hl.
    assert (Z.of_nat (length out) + Z.of_nat (S (length chunk)) <= max_size) by (clear IH Hne; lia).
    rewrite (proj2 (Z.ltb_ge _ _)) by done.
    rewrite IH; [by rewrite <- app_assoc|]. rewrite !length_app. cbn [length]. clear IH Hne. lia.
Qed.

Lemma temp_path_longer (final_path : string) (pid serial : Z) : MakeUniqueTempPath final_path pid serial <> final_path.
Proof.
  intros E. unfold MakeUniqueTempPath, PathWithSuffix in E.
  apply (f_equal (fun s => length (chars s))) in E. rewrite !chars_app, !length_app in E. cbn in E. lia.
Qed.

(** A state that differs from [fs] at most at [temp]. *)
Definition keeps (fs : files) (temp : string) (state : files) : Prop :=
  forall path, path <> temp -> state !! path = fs !! path.

Lemma keeps_refl (fs : files) (temp : string) : keeps fs temp fs.
Proof. done. Qed.

Lemma keeps_insert (fs state : files) (temp : string) (c : content) :
  keeps fs temp state -> keeps fs temp (<[temp := c]> state).
Proof. intros H path Hp. rewrite lookup_insert_ne by done. by apply H. Qed.

Lemma keeps_delete (fs state : files) (temp : string) : keeps fs temp state -> keeps fs temp (delete temp state).
Proof. intros H path Hp. rewrite lookup_delete_ne by done. by apply H. Qed.

(** ** Properties *)

(** The limit holds for the bytes delivered, not for the size announced: whatever [file_size]
    reports and whatever chunks the stream delivers (a file that grows, a pipe), a successful bounded
    read never holds more than the limit; and a stream of non-empty chunks within the limit is read
    whole. *)
Theorem ReadLimited_bounded (calls : ReadCalls) (max_size : Z) (out : list ascii) :
  0 <= max_size -> ReadLimited calls max_size = inr out ->
  Z.of_nat (length out) <= max_size
  /\ (Forall (fun chunk => chunk <> []) (rc_chunks calls) -> Z.of_nat (length (concat (rc_chunks calls))) <= max_size ->
      out = concat (rc_chunks calls)).
Proof.
  unfold ReadLimited. intros Hm H. case_match; [done|]. case_match; [done|].
  destruct (read_chunks max_size (rc_chunks calls) []) as [o|] eqn:E; [|done].
  case_match; [done|]. simplify_eq. split; [by apply read_chunks_bound in E|].
  intros Hc Hl. rewrite (read_chunks_whole max_size) in E; [by simplify_eq|done|done].
Qed.

Definition growing_file : ReadCalls := MkReadCalls (Some 1) true [["a"%char]; ["b"%char; "c"%char]] false.

Lemma ReadLimited_bounded_witness :
  ReadLimited growing_file 3 = inr ["a"%char; "b"%char; "c"%char] /\ ReadLimited growing_file 2 = inl "input exceeds the maximum supported size".
Proof.
  split; [|by vm_compute].
  destruct (ReadLimited_bounded growing_file 3 ["a"%char; "b"%char; "c"%char]) as [_ E]; [done|by vm_compute|].
  rewrite (E ltac:(by repeat constructor) ltac:(by vm_compute)). by vm_compute.
Defined.

(** Writing is atomic under every answer of the operating system: in each state the file system
    passes through, the target has either its old content or the new one in full, and the new one
    only when the operation ends in success; the new content is there at the end exactly when it
    reports success; no other file but the temporary one is touched at any point. *)
Theorem WriteBytesAtomic_atomic (calls : WriteCalls) (pid serial : Z) (fs : files) (final_path : string)
    (data : list ascii) :
  let '(result, states) := WriteBytesAtomic calls pid serial fs final_path data in
  Forall (fun state =>
    (state !! final_path = fs !! final_path \/ (state !! final_path = Some data /\ aw_status result = Ok))
    /\ forall other, other <> final_path -> other <> MakeUniqueTempPath final_path pid serial ->
       state !! other = fs !! other) states
  /\ (aw_status result = Ok -> exists state states', states = state :: states'
      /\ state !! final_path = Some data /\ state !! MakeUniqueTempPath final_path pid serial = None).
Proof.
  pose proof (temp_path_longer final_path pid serial) as Ht. unfold WriteBytesAtomic. cbv zeta.
  set (temp := MakeUniqueTempPath final_path pid serial) in *.
  assert (forall status state, keeps fs temp state ->
    (state !! final_path = fs !! final_path \/ (state !! final_path = Some data /\ status = Ok))
    /\ forall other, other <> final_path -> other <> temp -> state !! other = fs !! other) as K
    by (intros status state Hk; split; [left | intros other _ Ho]; by apply Hk).
  destruct (str_empty final_path); [split; [|done]; repeat constructor; by apply K|].
  destruct (if str_empty (parent_path final_path) then None else wc_create_directories calls);
    [split; [|done]; repeat constructor; by apply K|].
  destruct (wc_temp_opens calls); cbn [negb]; [|split; [|done]; repeat constructor; by apply K].
  destruct (wc_good_after_write calls && wc_good_after_close calls); cbn [negb].
  2:{ split; [|done]. destruct (wc_remove calls); repeat apply Forall_cons_2; try apply Forall_nil_2;
        apply K; auto using keeps_refl, keeps_insert, keeps_delete. }
  destruct (wc_rename calls).
  { split; [|done]. destruct (wc_remove calls); repeat apply Forall_cons_2; try apply Forall_nil_2;
      apply K; auto using keeps_refl, keeps_insert, keeps_delete. }
  split.
  - apply Forall_cons_2; [|repeat apply Forall_cons_2; try apply Forall_nil_2;
      apply K; auto using keeps_refl, keeps_insert, keeps_delete].
    split; [right; by rewrite lookup_insert_eq|]. intros other Hf Ho. rewrite lookup_insert_ne by done.
    apply (keeps_delete fs _ temp); [|done]. auto using keeps_refl, keeps_insert.
  - intros _. do 2 eexists. split; [done|]. split; [by rewrite lookup_insert_eq|].
    by rewrite lookup_insert_ne, lookup_delete_eq by done.
Qed.
