(* ===== verification/Paths.v ===== *)
(** * Paths: the operations of [std::filesystem::path] the program uses

    The generic format of a POSIX path, without root names: [is_absolute],
    [lexically_normal], [filename], [extension], [replace_extension] with no
    argument and [operator/]. *)

From S2P Require Import Prelude CxxString FileSystem.

Local Open Scope Z_scope.
Local Open Scope tamga_scope.

Definition slash : ascii := "/"%char.

Definition is_absolute (path : string) : bool :=
  match chars path with c :: _ => Ascii.eqb c slash | [] => false end.

(** [p / q]: an absolute right-hand side replaces the left one. *)
Definition path_join (p q : string) : string := if is_absolute q then q else path_append p q.

(** The names between separators, empty ones included. *)
Fixpoint split_slashes (l : list ascii) : list (list ascii) :=
  match l with
  | [] => [[]]
  | c :: l' =>
      if Ascii.eqb c slash then [] :: split_slashes l'
      else match split_slashes l' with
           | name :: rest => (c :: name) :: rest
           | [] => [[c]]
           end
  end.

Definition dot : list ascii := chars ".".
Definition dotdot : list ascii := chars "..".

(** One name of the path: the names kept so far, the last one first, and whether a separator is left
    behind them. *)
Definition normal_step (absolute : bool) (state : list (list ascii) * bool) (name : list ascii)
    : list (list ascii) * bool :=
  let '(kept, _) := state in
  if bool_decide (name = []) then (kept, true)
  else if bool_decide (name = dot) then (kept, true)
  else if bool_decide (name = dotdot) then
    match kept with
    | top :: below => if bool_decide (top = dotdot) then (dotdot :: kept, false) else (below, true)
    | [] => if absolute then ([], false) else ([dotdot], false)
    end
  else (name :: kept, false).

Definition join_slashes (names : list (list ascii)) : list ascii :=
  match names with
  | [] => []
  | name :: rest => name ++ concat (map (fun n => slash :: n) rest)
  end.

Definition lexically_normal (path : string) : string :=
  if str_empty path then ""
  else
    let absolute := is_absolute path in
    let '(kept, separator) := foldl (normal_step absolute) ([], false) (split_slashes (chars path)) in
    let text := (if absolute then [slash] else []) ++ join_slashes (rev kept) ++
      match kept with
      | top :: _ => if separator && negb (bool_decide (top = dotdot)) then [slash] else []
      | [] => []
      end in
    match text with [] => "." | _ => of_chars text end.

Definition filename (path : string) : string :=
  match last (split_slashes (chars path)) with Some name => of_chars name | None => "" end.

(** What follows the last dot of a name, the dot included; a leading dot does not count. *)
Fixpoint from_last_dot (l : list ascii) : option (list ascii) :=
  match l with
  | [] => None
  | c :: l' =>
      match from_last_dot l' with
      | Some ext => Some ext
      | None => if Ascii.eqb c "." then Some l else None
      end
  end.

Definition extension (path : string) : string :=
  let name := chars (filename path) in
  if bool_decide (name = dotdot) then ""
  else match name with
       | [] => ""
       | _ :: tail => match from_last_dot tail with Some ext => of_chars ext | None => "" end
       end.

Definition without_extension (path : string) : string :=
  substr path 0 (String.length path - String.length (extension path)).

(** The answers of the C++ library on the cases that differ in kind. *)
Example lexically_normal_cases :
  map lexically_normal ["a/./b//c"; "a/b/.."; "a/.."; "../a/.."; "/../x"; "a/"; "./"; "/"; "a/../../b"]
  = ["a/b/c"; "a/"; "."; ".."; "/x"; "a/"; "."; "/"; "../b"].
Proof. reflexivity. Qed.

Example extension_cases :
  map extension ["d.x/key.dat"; ".profile"; "a/.."; "key"; "a.tar.gz"; "."] = [".dat"; ""; ""; ""; ".gz"; ""] /\
  map without_extension ["d.x/key.dat"; "d.x/key"] = ["d.x/key"; "d.x/key"].
Proof. split; reflexivity. Qed.

(** ** The file system as the program sees it *)

Class FileApi := {
  Fs : Type;
  fs_read : Fs -> string -> ReadCalls;         (** the answers to [ReadLimited] on a path *)
  fs_exists : Fs -> string -> bool;
  fs_is_regular_file : Fs -> string -> bool;
  fs_is_directory : Fs -> string -> bool;
  fs_entries : Fs -> string -> list string;     (** [directory_iterator]: the paths in a directory *)
  fs_absolute : Fs -> string -> option string;
  fs_create_directories : Fs -> string -> Fs;
  fs_write : Fs -> string -> list ascii -> bool * Fs  (** [WriteBinaryFileAtomic] *)
}.

(** A file system of regular files in memory: every write succeeds. *)
Definition memory_read (fs : files) (path : string) : ReadCalls :=
  match fs !! path with
  | Some content => MkReadCalls (Some (Z.of_nat (length content))) true [content] false
  | None => MkReadCalls None false [] false
  end.

Definition memory : FileApi := {|
  Fs := files;
  fs_read := memory_read;
  fs_exists fs path := bool_decide (is_Some (fs !! path));
  fs_is_regular_file fs path := bool_decide (is_Some (fs !! path));
  fs_is_directory fs dir := existsb (fun entry => parent_path entry ==s dir) (map fst (map_to_list fs));
  fs_entries fs dir := List.filter (fun entry => parent_path entry ==s dir) (map fst (map_to_list fs));
  fs_absolute _ path := Some (path_append "/" path);
  fs_create_directories fs _ := fs;
  fs_write fs path content := (true, <[path := content]> fs)
|}.

Lemma memory_read_limited (fs : files) (path : string) (content : list ascii) (max_size : Z) :
  fs !! path = Some content -> Z.of_nat (length content) <= max_size ->
  ReadLimited (memory_read fs path) max_size = inr content.
Proof.
  intros E Hl. unfold ReadLimited, memory_read. rewrite E. cbn [rc_file_size rc_opens rc_chunks rc_bad negb].
  rewrite (proj2 (Z.ltb_ge _ _)) by done. cbn [read_chunks length Nat.add].
  destruct content as [|c content]; [done|]. cbn [length Nat.eqb]. rewrite (proj2 (Z.ltb_ge _ _)) by done.
  by rewrite app_nil_l.
Qed.
