(* ===== verification/Sha256.v ===== *)
(** * Sha256: the SHA-256 implementation that names evidence

    Models [core/policy/Sha256Helper.h]: 32-bit words are [Z] with addition
    modulo 2^32; the message schedule and the compression loop are written as
    in the source. *)

From S2P Require Import Prelude CxxString Codec.

Local Open Scope Z_scope.

Definition w32 (z : Z) : Z := wrap 32 z.

Definition RotateRight (value bits : Z) : Z :=
  Z.lor (Z.shiftr value bits) (w32 (Z.shiftl value (32 - bits))).

(** Four octets at position [i]. *)
Definition ReadBigEndian32 (data : bytes) (i : nat) : Z :=
  let at_ k := u8 (nth (i + k) data x00) in
  Z.lor (Z.lor (Z.lor (Z.shiftl (at_ 0%nat) 24) (Z.shiftl (at_ 1%nat) 16))
               (Z.shiftl (at_ 2%nat) 8)) (at_ 3%nat).

Definition WriteBigEndian64 (data : bytes) (value : Z) : bytes :=
  data ++ map (fun shift => to_u8 (Z.land (Z.shiftr value shift) 255)) [56; 48; 40; 32; 24; 16; 8; 0].

(** The four 32-bit words of a 128-bit literal. *)
Definition quad_words (v : Z) : list Z := map (fun shift => w32 (Z.shiftr v shift)) [96; 64; 32; 0].

(** The table of round constants, four to a literal, in the order of the source. *)
Definition k : list Z := Eval vm_compute in concat (map quad_words [
  0x428a2f9871374491b5c0fbcfe9b5dba5; 0x3956c25b59f111f1923f82a4ab1c5ed5;
  0xd807aa9812835b01243185be550c7dc3; 0x72be5d7480deb1fe9bdc06a7c19bf174;
  0xe49b69c1efbe47860fc19dc6240ca1cc; 0x2de92c6f4a7484aa5cb0a9dc76f988da;
  0x983e5152a831c66db00327c8bf597fc7; 0xc6e00bf3d5a7914706ca635114292967;
  0x27b70a852e1b21384d2c6dfc53380d13; 0x650a7354766a0abb81c2c92e92722c85;
  0xa2bfe8a1a81a664bc24b8b70c76c51a3; 0xd192e819d6990624f40e3585106aa070;
  0x19a4c1161e376c082748774c34b0bcb5; 0x391c0cb34ed8aa4a5b9cca4f682e6ff3;
  0x748f82ee78a5636f84c878148cc70208; 0x90befffaa4506cebbef9a3f7c67178f2]).

(** The working variables [a .. h], and the chaining values [h0 .. h7]. *)
Record Regs := MkRegs {
  ra : Z; rb : Z; rc : Z; rd : Z; re : Z; rf : Z; rg : Z; rh : Z
}.

Definition initial : Regs :=
  MkRegs 0x6a09e667 0xbb67ae85 0x3c6ef372 0xa54ff53a 0x510e527f 0x9b05688c 0x1f83d9ab 0x5be0cd19.

(** [while ((message.size() % 64U) != 56U) message.push_back(0U);] *)
Fixpoint pad_zeros (fuel : nat) (message : bytes) : bytes :=
  match fuel with
  | O => message
  | S n => if Nat.eqb (length message mod 64) 56 then message else pad_zeros n (message ++ [x00])
  end.

(** Sixty-four iterations are enough: every residue modulo 64 is met. *)
Definition padded (input : bytes) : bytes :=
  let bit_length := wrap 64 (Z.of_nat (length input) * 8) in
  WriteBigEndian64 (pad_zeros 64 (input ++ [x80])) bit_length.

Definition word (w : list Z) (i : nat) : Z := nth i w 0.

(** The word [w[i]] for [i >= 16], from the words before it. *)
Definition next_word (w : list Z) (i : nat) : Z :=
  let x := word w (i - 15) in
  let y := word w (i - 2) in
  let s0 := Z.lxor (Z.lxor (RotateRight x 7) (RotateRight x 18)) (Z.shiftr x 3) in
  let s1 := Z.lxor (Z.lxor (RotateRight y 17) (RotateRight y 19)) (Z.shiftr y 10) in
  w32 (word w (i - 16) + s0 + word w (i - 7) + s1).

Definition schedule (block : bytes) : list Z :=
  foldl (fun w i => w ++ [next_word w i])
    (map (fun i => ReadBigEndian32 block (i * 4)) (seq 0 16)) (seq 16 48).

(** One round of the compression function. *)
Definition round (w : list Z) (r : Regs) (i : nat) : Regs :=
  let e := r.(re) in
  let a := r.(ra) in
  let s1 := Z.lxor (Z.lxor (RotateRight e 6) (RotateRight e 11)) (RotateRight e 25) in
  let ch := Z.lxor (Z.land e r.(rf)) (Z.land (w32 (Z.lnot e)) r.(rg)) in
  let temp1 := w32 (r.(rh) + s1 + ch + word k i + word w i) in
  let s0 := Z.lxor (Z.lxor (RotateRight a 2) (RotateRight a 13)) (RotateRight a 22) in
  let maj := Z.lxor (Z.lxor (Z.land a r.(rb)) (Z.land a r.(rc))) (Z.land r.(rb) r.(rc)) in
  let temp2 := w32 (s0 + maj) in
  MkRegs (w32 (temp1 + temp2)) a r.(rb) r.(rc) (w32 (r.(rd) + temp1)) e r.(rf) r.(rg).

Definition compress (h : Regs) (block : bytes) : Regs :=
  let w := schedule block in
  let r := foldl (round w) h (seq 0 64) in
  MkRegs (w32 (h.(ra) + r.(ra))) (w32 (h.(rb) + r.(rb))) (w32 (h.(rc) + r.(rc)))
         (w32 (h.(rd) + r.(rd))) (w32 (h.(re) + r.(re))) (w32 (h.(rf) + r.(rf)))
         (w32 (h.(rg) + r.(rg))) (w32 (h.(rh) + r.(rh))).

(** [for (offset = 0; offset < message.size(); offset += 64U)]: [blocks] iterations. *)
Fixpoint process (blocks : nat) (message : bytes) (h : Regs) : Regs :=
  match blocks with
  | O => h
  | S n => process n (drop 64 message) (compress h (take 64 message))
  end.

Definition word_bytes (x : Z) : bytes :=
  map (fun shift => to_u8 (Z.land (Z.shiftr x shift) 255)) [24; 16; 8; 0].

Definition Sha256 (input : bytes) : bytes :=
  let message := padded input in
  let h := process (length message / 64) message initial in
  concat (map word_bytes [h.(ra); h.(rb); h.(rc); h.(rd); h.(re); h.(rf); h.(rg); h.(rh)]).

Definition LowerHex (digest : bytes) : string :=
  of_chars (concat (map (fun b => [Hex.hex_digit (Z.land (Z.shiftr (u8 b) 4) 15);
                                   Hex.hex_digit (Z.land (u8 b) 15)]) digest)).

Definition ComputeSha256Hex (data : bytes) : string :=
  match data with
  | [] => ""
  | _ => "sha256:" +s+ LowerHex (Sha256 data)
  end.

(** ** Padding *)

Lemma pad_zeros_spec (fuel : nat) (m : bytes) :
  (exists j, (j < fuel)%nat /\ (length m + j) mod 64 = 56)%nat ->
  (length (pad_zeros fuel m) mod 64 = 56)%nat /\ m `prefix_of` pad_zeros fuel m.
Proof.
  revert m. induction fuel as [|n IH]; intros m (j & Hj & Hm); [lia|]. cbn [pad_zeros].
  destruct (Nat.eqb_spec (length m mod 64) 56) as [E|E]; [done|].
  destruct (IH (m ++ [x00])) as [H1 H2].
  - destruct j as [|j]; [by rewrite Nat.add_0_r in Hm|]. exists j. split; [lia|].
    rewrite length_app. cbn. by replace (length m + 1 + j)%nat with (length m + S j)%nat by lia.
  - split; [done|]. etransitivity; [by apply prefix_app_r|done].
Qed.

Lemma residue_reached (n : nat) : exists j, (j < 64)%nat /\ ((n + j) mod 64 = 56)%nat.
Proof.
  exists ((56 + 64 - n mod 64) mod 64)%nat. split; [by apply Nat.mod_upper_bound|].
  rewrite Nat.Div0.add_mod_idemp_r.
  replace (n + (56 + 64 - n mod 64))%nat with (56 + (n / 64 + 1) * 64)%nat.
  - by rewrite Nat.Div0.mod_add.
  - pose proof (Nat.div_mod_eq n 64). pose proof (Nat.mod_upper_bound n 64). lia.
Qed.

(** Padding ends (the loop meets its exit within 64 iterations), keeps the input as a
    prefix and yields a whole number of 64-octet blocks; a digest always has 32 octets. *)
Theorem Sha256_shape (input : bytes) :
  (length (padded input) mod 64 = 0)%nat /\ input `prefix_of` padded input /\
  length (Sha256 input) = 32%nat.
Proof.
  destruct (pad_zeros_spec 64 (input ++ [x80]) (residue_reached _)) as [H1 H2].
  split_and!; [| |done].
  - unfold padded, WriteBigEndian64. rewrite length_app, <- Nat.Div0.add_mod_idemp_l, H1. done.
  - unfold padded, WriteBigEndian64. apply prefix_app_r. etransitivity; [|done].
    by apply prefix_app_r.
Qed.

(** The implementation computes SHA-256: the digests of the three FIPS 180-2 examples
    (the empty text, one block, and two blocks) are the published ones. *)
Theorem Sha256_known_answers :
  LowerHex (Sha256 []) = "e3b0c44298fc1c149afbf4c8996fb92427ae41e4649b934ca495991b7852b855" /\
  LowerHex (Sha256 (String.list_byte_of_string "abc")) =
    "ba7816bf8f01cfea414140de5dae2223b00361a396177a9cb410ff61f20015ad" /\
  LowerHex (Sha256 (String.list_byte_of_string
    "abcdbcdecdefdefgefghfghighijhijkijkljklmklmnlmnomnopnopq")) =
    "248d6a61d20638b8e5c026930c3e6039a33ce45964ff2167f6ecedd419db06c1".
Proof. split_and!; vm_compute; reflexivity. Qed.
