(* ===== verification/Sha1.v ===== *)
(** * Sha1: the SHA-1 implementation of the key store reader

    Models [Sha1Digest] of src/src/lib/core/KeyParsers.cpp.  The source hashes
    the whole blocks in place and pads only the remainder, in a buffer of one or
    two blocks; the theorem compares it with the definition of FIPS 180-4, which
    pads the message and then hashes every block of the padded message. *)

From S2P Require Import Prelude CxxString Codec Sha256.

Local Open Scope Z_scope.

Definition RotateLeft32Bits (value shift : Z) : Z :=
  Z.lor (w32 (Z.shiftl value shift)) (Z.shiftr value (32 - shift)).

(** The chaining values [h0 .. h4], and the working variables [a .. e]. *)
Record Sha1State := MkSha1State { s_a : Z; s_b : Z; s_c : Z; s_d : Z; s_e : Z }.

Definition sha1_initial : Sha1State :=
  MkSha1State 0x67452301 0xEFCDAB89 0x98BADCFE 0x10325476 0xC3D2E1F0.

Definition sha1_schedule (block : bytes) : list Z :=
  foldl (fun w i =>
      w ++ [RotateLeft32Bits
              (Z.lxor (Z.lxor (Z.lxor (word w (i - 3)) (word w (i - 8))) (word w (i - 14))) (word w (i - 16))) 1])
    (map (fun i => ReadBigEndian32 block (i * 4)) (seq 0 16)) (seq 16 64).

Definition sha1_round (schedule : list Z) (s : Sha1State) (i : nat) : Sha1State :=
  let b := s_b s in
  let c := s_c s in
  let d := s_d s in
  let '(f, k) :=
    if (i <? 20)%nat then (Z.lor (Z.land b c) (Z.land (w32 (Z.lnot b)) d), 0x5A827999)
    else if (i <? 40)%nat then (Z.lxor (Z.lxor b c) d, 0x6ED9EBA1)
    else if (i <? 60)%nat then (Z.lor (Z.lor (Z.land b c) (Z.land b d)) (Z.land c d), 0x8F1BBCDC)
    else (Z.lxor (Z.lxor b c) d, 0xCA62C1D6) in
  let temp := w32 (RotateLeft32Bits (s_a s) 5 + f + s_e s + k + word schedule i) in
  MkSha1State temp (s_a s) (RotateLeft32Bits b 30) c d.

Definition process_block (h : Sha1State) (block : bytes) : Sha1State :=
  let s := foldl (sha1_round (sha1_schedule block)) h (seq 0 80) in
  MkSha1State (w32 (s_a h + s_a s)) (w32 (s_b h + s_b s)) (w32 (s_c h + s_c s))
    (w32 (s_d h + s_d s)) (w32 (s_e h + s_e s)).

(** [count] blocks of 64 octets from the front of [data]. *)
Fixpoint process_blocks (count : nat) (data : bytes) (h : Sha1State) : Sha1State :=
  match count with
  | O => h
  | S n => process_blocks n (drop 64 data) (process_block h (take 64 data))
  end.

(** The buffer [tail], up to [total_tail]: the remainder, the marker, zeros, the length in bits. *)
Definition sha1_tail (remainder : bytes) (size : Z) : bytes :=
  let bit_length := wrap 64 (size * 8) in
  let needs_extra_block := (56 <=? length remainder)%nat in
  let total_tail := if needs_extra_block then 128%nat else 64%nat in
  let length_offset := (total_tail - 8)%nat in
  WriteBigEndian64 (remainder ++ [x80] ++ replicate (length_offset - length remainder - 1) x00) bit_length.

Definition sha1_output (h : Sha1State) : bytes :=
  concat (map word_bytes [s_a h; s_b h; s_c h; s_d h; s_e h]).

Definition Sha1Digest (data : bytes) : bytes :=
  let full_blocks := (length data / 64)%nat in
  let h := process_blocks full_blocks data sha1_initial in
  let remainder := drop (full_blocks * 64) data in
  let tail := sha1_tail remainder (Z.of_nat (length data)) in
  let h := process_block h (take 64 tail) in
  let h := if (56 <=? length remainder)%nat then process_block h (drop 64 tail) else h in
  sha1_output h.

(** ** The definition of the standard *)

(** The padded message: a marker, the least number of zeros, the length in bits. *)
Definition sha1_reference (data : bytes) : bytes :=
  let message := padded data in
  sha1_output (process_blocks (length message / 64) message sha1_initial).

(** ** Lemmas *)

Lemma process_blocks_app (n m : nat) (data : bytes) (h : Sha1State) :
  process_blocks (n + m) data h = process_blocks m (drop (n * 64) data) (process_blocks n data h).
Proof.
  revert data h. induction n as [|n IH]; intros data h; [done|].
  cbn [Nat.add process_blocks]. by rewrite IH, drop_drop.
Qed.

Lemma process_blocks_prefix (n : nat) (a b : bytes) (h : Sha1State) :
  (n * 64 <= length a)%nat -> process_blocks n (a ++ b) h = process_blocks n a h.
Proof.
  revert a h. induction n as [|n IH]; intros a h H; [done|]. cbn [process_blocks].
  rewrite take_app_le, drop_app_le by lia. apply IH. rewrite length_drop. lia.
Qed.

Lemma pad_zeros_replicate (fuel : nat) (m : bytes) (j : nat) :
  (forall i, (i < j)%nat -> (length m + i) mod 64 <> 56)%nat -> ((length m + j) mod 64 = 56)%nat -> (j < fuel)%nat ->
  pad_zeros fuel m = m ++ replicate j x00.
Proof.
  revert m j. induction fuel as [|fuel IH]; intros m j Hlt Hj Hf; [lia|]. cbn [pad_zeros].
  destruct j as [|j].
  - rewrite Nat.add_0_r in Hj. rewrite (proj2 (Nat.eqb_eq _ _) Hj). by rewrite app_nil_r.
  - pose proof (Hlt 0%nat ltac:(lia)) as H0. rewrite Nat.add_0_r in H0.
    rewrite (proj2 (Nat.eqb_neq _ _) H0). rewrite (IH _ j).
    + by rewrite <- app_assoc.
    + intros i Hi. rewrite length_app. cbn. rewrite <- Nat.add_assoc. apply Hlt. lia.
    + rewrite length_app. cbn. by rewrite <- Nat.add_assoc.
    + lia.
Qed.

(** The padded message is the whole blocks followed by the tail of the source. *)
Lemma padded_tail (data : bytes) (full := (length data / 64)%nat) :
  padded data = take (full * 64) data ++ sha1_tail (drop (full * 64) data) (Z.of_nat (length data)).
Proof.
  assert (length data = full * 64 + length data mod 64)%nat as Hd
    by (unfold full; pose proof (Nat.div_mod_eq (length data) 64); lia).
  pose proof (Nat.mod_upper_bound (length data) 64 ltac:(lia)) as Hm.
  set (r := (length data mod 64)%nat) in *.
  assert (length (drop (full * 64) data) = r) as Hr by (rewrite length_drop; lia).
  unfold padded, sha1_tail. rewrite Hr.
  set (zeros := ((if (56 <=? r)%nat then 128 else 64) - 8 - r - 1)%nat).
  assert (zeros = if (56 <=? r)%nat then 119 - r else 55 - r)%nat as Hz
    by (unfold zeros; destruct (56 <=? r)%nat; lia).
  rewrite (pad_zeros_replicate 64 _ zeros).
  - unfold WriteBigEndian64. rewrite !app_assoc. do 3 f_equal. by rewrite take_drop.
  - intros i Hi. rewrite length_app. cbn [length]. rewrite Hd.
    replace (full * 64 + r + 1 + i)%nat with (r + 1 + i + full * 64)%nat by lia.
    rewrite Nat.Div0.mod_add. destruct (Nat.leb_spec 56 r).
    + destruct (Nat.lt_ge_cases (r + 1 + i) 64); [rewrite Nat.mod_small by lia; lia|].
      replace (r + 1 + i)%nat with (r + 1 + i - 64 + 1 * 64)%nat by lia.
      rewrite Nat.Div0.mod_add, Nat.mod_small by lia. lia.
    + rewrite Nat.mod_small by lia. lia.
  - rewrite length_app. cbn [length]. rewrite Hd.
    replace (full * 64 + r + 1 + zeros)%nat with (r + 1 + zeros + full * 64)%nat by lia.
    rewrite Nat.Div0.mod_add. rewrite Hz. destruct (Nat.leb_spec 56 r).
    + by replace (r + 1 + (119 - r))%nat with (56 + 1 * 64)%nat by lia; rewrite Nat.Div0.mod_add.
    + by replace (r + 1 + (55 - r))%nat with 56%nat by lia.
  - rewrite Hz. destruct (Nat.leb_spec 56 r); lia.
Qed.

Lemma length_sha1_tail (remainder : bytes) (size : Z) :
  (length remainder < 64)%nat ->
  length (sha1_tail remainder size) = if (56 <=? length remainder)%nat then 128%nat else 64%nat.
Proof.
  intros H. unfold sha1_tail, WriteBigEndian64. rewrite !length_app, length_replicate. cbn [length map].
  destruct (Nat.leb_spec 56 (length remainder)); lia.
Qed.

Lemma length_Sha1Digest (data : bytes) : length (Sha1Digest data) = 20%nat.
Proof. done. Qed.

(** ** Properties *)

(** The digest computed block by block in place, with only the remainder padded in a buffer of
    one or two blocks, is the digest of the standard: the same blocks of the padded message, for
    messages of every length. *)
Theorem Sha1Digest_is_reference (data : bytes) : Sha1Digest data = sha1_reference data.
Proof.
  unfold Sha1Digest, sha1_reference. cbv zeta. rewrite padded_tail.
  set (full := (length data / 64)%nat). set (r := drop (full * 64) data).
  assert (length (take (full * 64) data) = full * 64)%nat as Hf.
  { rewrite length_take. unfold full. pose proof (Nat.div_mod_eq (length data) 64). lia. }
  assert (length r < 64)%nat as Hr.
  { unfold r, full. rewrite length_drop. pose proof (Nat.div_mod_eq (length data) 64).
    pose proof (Nat.mod_upper_bound (length data) 64 ltac:(lia)). lia. }
  pose proof (length_sha1_tail r (Z.of_nat (length data)) Hr) as Ht.
  set (tail := sha1_tail r (Z.of_nat (length data))) in *.
  rewrite length_app, Hf, Ht.
  replace ((full * 64 + (if (56 <=? length r)%nat then 128 else 64)) / 64)%nat
    with (full + (if (56 <=? length r)%nat then 2 else 1))%nat.
  2:{ set (t := (if (56 <=? length r)%nat then 128 else 64)%nat).
      rewrite (Nat.add_comm (full * 64) t), Nat.div_add by lia. unfold t.
      destruct (56 <=? length r)%nat; cbn; lia. }
  rewrite process_blocks_app, process_blocks_prefix by lia.
  rewrite drop_app_length' by done. f_equal.
  rewrite <- (process_blocks_prefix full (take (full * 64) data) (drop (full * 64) data)) by lia.
  rewrite take_drop. destruct (56 <=? length r)%nat eqn:E; [|done].
  cbn [process_blocks]. by rewrite (take_ge (drop 64 tail)) by (rewrite length_drop; lia).
Qed.

(** The examples of the standard. *)
Lemma Sha1_known_answers :
  LowerHex (Sha1Digest []) = "da39a3ee5e6b4b0d3255bfef95601890afd80709"
  /\ LowerHex (Sha1Digest (String.list_byte_of_string "abc")) = "a9993e364706816aba3e25717850c26c9cd0d89d"
  /\ LowerHex (Sha1Digest (String.list_byte_of_string
       "abcdbcdecdefdefgefghfghighijhijkijkljklmklmnlmnomnopnopq")) = "84983e441c3bd26ebaae4aa1f95129e5e54670f1".
Proof. split_and!; vm_compute; reflexivity. Qed.
