(* ===== verification/Jks.v ===== *)
(** * Jks: the reader of Java key stores (src/src/lib/core/KeyParsers.cpp)

    [JksKeyStoreParser::LoadPrivateKeyEntry] and what it calls: the big-endian
    readers, Java's modified UTF-8, the alias normalisation, the integrity
    trailer of the store and the recovery of a protected private key.

    The readers of the source advance an offset towards a limit; here they take
    the octets between the two and give the octets that remain.  A result is an
    error message ([inl]) or a value ([inr]). *)

From S2P Require Import Prelude CxxString Der Codec Utf Sha256 Sha1.

Local Open Scope Z_scope.

Local Open Scope tamga_scope.

(** ** Readers *)

Definition kJksMagic : Z := 0xFEEDFEED.
Definition kJksSaltLength : nat := 20.
Definition kJksDigestLength : nat := 20.
Definition kJksKeyProtectorOid : bytes := [x2b; x06; x01; x04; x01; x2a; x02; x11; x01; x01].
Definition kJksWhitener : bytes := String.list_byte_of_string "Mighty Aphrodite".

Definition ReadU16 (data : bytes) : option (Z * bytes) :=
  match data with
  | b0 :: b1 :: rest => Some (Z.lor (Z.shiftl (u8 b0) 8) (u8 b1), rest)
  | _ => None
  end.

Definition ReadU32 (data : bytes) : option (Z * bytes) :=
  match data with
  | b0 :: b1 :: b2 :: b3 :: rest =>
      Some (Z.lor (Z.lor (Z.lor (Z.shiftl (u8 b0) 24) (Z.shiftl (u8 b1) 16)) (Z.shiftl (u8 b2) 8)) (u8 b3), rest)
  | _ => None
  end.

Definition ReadU64 (data : bytes) : option (Z * bytes) :=
  if (length data <? 8)%nat then None
  else Some (foldl (fun out b => Z.lor (wrap 64 (Z.shiftl out 8)) (u8 b)) 0 (take 8 data), drop 8 data).

Definition ReadBytes (data : bytes) (len : Z) : option (bytes * bytes) :=
  if Z.of_nat (length data) <? len then None else Some (take (Z.to_nat len) data, drop (Z.to_nat len) data).

(** The loop consumes one to three octets per turn. *)
Fixpoint DecodeJavaModifiedUtf8 (data : bytes) : option (list Z) :=
  match data with
  | [] => Some []
  | b :: data' =>
      let lead := u8 b in
      if Z.land lead 0x80 =? 0 then
        if lead =? 0 then None else cons lead <$> DecodeJavaModifiedUtf8 data'
      else if Z.land lead 0xE0 =? 0xC0 then
        match data' with
        | [] => None
        | t :: data'' =>
            let trail := u8 t in
            if negb (Z.land trail 0xC0 =? 0x80) then None
            else
              let value := wrap 16 (Z.lor (Z.shiftl (Z.land lead 0x1F) 6) (Z.land trail 0x3F)) in
              if value =? 0 then cons 0 <$> DecodeJavaModifiedUtf8 data''
              else if value <? 0x80 then None
              else cons value <$> DecodeJavaModifiedUtf8 data''
        end
      else if Z.land lead 0xF0 =? 0xE0 then
        match data' with
        | t1 :: t2 :: data'' =>
            let trail1 := u8 t1 in
            let trail2 := u8 t2 in
            if negb (Z.land trail1 0xC0 =? 0x80) || negb (Z.land trail2 0xC0 =? 0x80) then None
            else
              let value := wrap 16 (Z.lor (Z.lor (Z.shiftl (Z.land lead 0x0F) 12) (Z.shiftl (Z.land trail1 0x3F) 6))
                                      (Z.land trail2 0x3F)) in
              if value <? 0x800 then None else cons value <$> DecodeJavaModifiedUtf8 data''
        | _ => None
        end
      else None
  end.

Definition ReadModifiedUtf8 (data : bytes) : option (list ascii * bytes) :=
  match ReadU16 data with
  | None => None
  | Some (len, rest) =>
      if Z.of_nat (length rest) <? len then None
      else
        match DecodeJavaModifiedUtf8 (take (Z.to_nat len) rest) with
        | None => None
        | Some decoded =>
            match TryEncodeUtf16ToUtf8 decoded with
            | None => None
            | Some out => Some (out, drop (Z.to_nat len) rest)
            end
        end
  end.

(** ** Passwords and aliases *)

Definition ToJksPasswordBytes (password : list ascii) : option bytes :=
  match password with
  | [] => Some []
  | _ =>
      match TryDecodeUtf8ToUtf16 password with
      | None => None
      | Some utf16 =>
          Some (concat (map (fun ch => [to_u8 (Z.land (Z.shiftr ch 8) 0xFF); to_u8 (Z.land ch 0xFF)]) utf16))
      end
  end.

Definition to_lower_utf16 (ch : Z) : Z :=
  if (0x41 <=? ch) && (ch <=? 0x5A) then wrap 16 (ch - 0x41 + 0x61)
  else if (0x410 <=? ch) && (ch <=? 0x42F) then wrap 16 (ch + 0x20)
  else if ch =? 0x401 then 0x451
  else if ch =? 0x404 then 0x454
  else if ch =? 0x406 then 0x456
  else if ch =? 0x407 then 0x457
  else if ch =? 0x490 then 0x491
  else ch.

Definition NormalizeJksAlias (alias : list ascii) : list ascii :=
  let ascii_lowered := map tolower alias in
  match TryDecodeUtf8ToUtf16 alias with
  | Some utf16 =>
      match TryEncodeUtf16ToUtf8 (map to_lower_utf16 utf16) with
      | Some lowered => lowered
      | None => ascii_lowered
      end
  | None => ascii_lowered
  end.

(** ** Integrity of the store *)

Definition VerifyJksIntegrity (input : bytes) (body_size : nat) (store_password : list ascii) : string + unit :=
  match store_password with
  | [] => inr tt
  | _ =>
      if (length input <? body_size + kJksDigestLength)%nat then inl "JKS integrity trailer is truncated"
      else
        let! password_bytes := ToJksPasswordBytes store_password else "JKS store password is not valid UTF-8" in
        let computed := Sha1Digest (password_bytes ++ kJksWhitener ++ take body_size input) in
        if bool_decide (computed = take 20 (drop body_size input)) then inr tt
        else inl "JKS keystore password is incorrect or the store was tampered with"
  end.

(** ** The protected private key *)

Section Recover.
Context `{HPlat : Platform}.

(** A [false] of the DER reader; it has no undefined behaviour on a whole buffer. *)
Definition tlv (data : bytes) (offset limit : Z) : option TlvView :=
  match ParseTlvAt_vec data offset limit with Ret view => Some view | _ => None end.

Definition octets (data : bytes) (from to : Z) : bytes := take (Z.to_nat (to - from)) (drop (Z.to_nat from) data).

Definition ExtractJksEncryptedPayload (protected_private_key : bytes) : string + bytes :=
  let size := Z.of_nat (length protected_private_key) in
  let! outer := tlv protected_private_key 0 size
    else "JKS private key entry is not valid EncryptedPrivateKeyInfo" in
  if negb (u8 (tag outer) =? 0x30) || negb (next_offset outer =? size)
  then inl "JKS private key entry is not valid EncryptedPrivateKeyInfo"
  else
    let! algorithm := tlv protected_private_key (value_offset outer) (next_offset outer)
      else "JKS private key entry has invalid encryption algorithm metadata" in
    if negb (u8 (tag algorithm) =? 0x30)
    then inl "JKS private key entry has invalid encryption algorithm metadata"
    else
      let! algorithm_oid := tlv protected_private_key (value_offset algorithm) (next_offset algorithm)
        else "JKS private key entry does not contain encryption OID" in
      if negb (u8 (tag algorithm_oid) =? 0x06)
      then inl "JKS private key entry does not contain encryption OID"
      else if negb (value_length algorithm_oid =? 10)
              || negb (bool_decide (take 10 (drop (Z.to_nat (value_offset algorithm_oid)) protected_private_key)
                                    = kJksKeyProtectorOid))
      then inl "JKS private key entry uses unsupported protection algorithm"
      else
        let! encrypted_data := tlv protected_private_key (next_offset algorithm) (next_offset outer)
          else "JKS private key entry has invalid encrypted payload" in
        if negb (u8 (tag encrypted_data) =? 0x04) || negb (next_offset encrypted_data =? next_offset outer)
        then inl "JKS private key entry has invalid encrypted payload"
        else inr (octets protected_private_key (value_offset encrypted_data) (next_offset encrypted_data)).

(** The key stream: digests of the password and the previous digest, until [wanted] octets are there.
    Every turn adds twenty octets or the rest, so [wanted] turns are enough. *)
Fixpoint xor_key_loop (turns : nat) (password_bytes previous_digest : bytes) (wanted : nat) (xor_key : bytes)
    : bytes :=
  match turns with
  | O => xor_key
  | S turns' =>
      if (length xor_key <? wanted)%nat then
        let digest := Sha1Digest (password_bytes ++ previous_digest) in
        let chunk := Nat.min (length digest) (wanted - length xor_key) in
        xor_key_loop turns' password_bytes digest wanted (xor_key ++ take chunk digest)
      else xor_key
  end.

Definition xor_key (password_bytes salt : bytes) (wanted : nat) : bytes :=
  xor_key_loop wanted password_bytes salt wanted [].

Definition xor_bytes (a b : bytes) : bytes := zip_with (fun x y => to_u8 (Z.lxor (u8 x) (u8 y))) a b.

(** The part of [RecoverJksPrivateKey] after the payload is extracted. *)
Definition RecoverPayload (encrypted_payload : bytes) (key_password : list ascii) : string + bytes :=
  if (length encrypted_payload <? kJksSaltLength + kJksDigestLength)%nat
  then inl "JKS private key entry payload is too short"
  else
    let encrypted_key_length := (length encrypted_payload - kJksSaltLength - kJksDigestLength)%nat in
    let! password_bytes := ToJksPasswordBytes key_password else "JKS private key password is not valid UTF-8" in
    let salt := take kJksSaltLength encrypted_payload in
    let encrypted := take encrypted_key_length (drop kJksSaltLength encrypted_payload) in
    let private_key_pkcs8 := xor_bytes encrypted (xor_key password_bytes salt encrypted_key_length) in
    let computed := Sha1Digest (password_bytes ++ private_key_pkcs8) in
    if bool_decide (computed = take 20 (drop (kJksSaltLength + encrypted_key_length) encrypted_payload))
    then inr private_key_pkcs8
    else inl "JKS private key password is incorrect".

Definition RecoverJksPrivateKey (protected_private_key : bytes) (key_password : list ascii) : string + bytes :=
  match key_password with
  | [] => inl "JKS private key entry requires non-empty key password"
  | _ =>
      let? encrypted_payload := ExtractJksEncryptedPayload protected_private_key in
      RecoverPayload encrypted_payload key_password
  end.

(** ** The store *)

Record PrivateKeyEntry := MkPrivateKeyEntry {
  pk_alias : list ascii;
  pk_private_key_pkcs8 : bytes;
  pk_certificate : bytes;
  pk_certificate_chain : list bytes
}.

(** The local variables of the loop over the entries. *)
Record Selection := MkSelection {
  sl_found_any_private_key : bool;
  sl_found_requested_alias : bool;
  sl_protected_private_key : bytes;
  sl_certificate_chain : list bytes;
  sl_alias : list ascii
}.

Definition Selection_empty : Selection := MkSelection false false [] [] [].

(** One certificate of a chain. *)
Definition read_certificate (version : Z) (data : bytes) (type_message length_message bytes_message : string)
    : string + (bytes * bytes) :=
  let? data :=
    (if version =? 2 then
       let! (_, rest) := ReadModifiedUtf8 data else type_message in inr rest
     else inr data) in
  let! (certificate_length, data) := ReadU32 data else length_message in
  let! (certificate_der, data) := ReadBytes data certificate_length else bytes_message in
  inr (certificate_der, data).

Fixpoint read_chain (count : nat) (version : Z) (data : bytes) : string + (list bytes * bytes) :=
  match count with
  | O => inr ([], data)
  | S count' =>
      let? (certificate_der, data) :=
        read_certificate version data "JKS certificate type field is invalid"
          "JKS certificate length field is invalid" "JKS certificate entry is truncated" in
      let? (chain, data) := read_chain count' version data in
      inr (certificate_der :: chain, data)
  end.

Definition kMinCertificateEntryBytes : Z := 5.

(** A private key entry after the time stamp: the key, the chain, the rest. *)
Definition read_private_key (version : Z) (data : bytes) : string + (bytes * list bytes * bytes) :=
  let! (key_length, data) := ReadU32 data else "JKS private key entry length is invalid" in
  let! (protected_private_key, data) := ReadBytes data key_length else "JKS private key entry is truncated" in
  let! (certificate_count, data) := ReadU32 data else "JKS certificate chain header is truncated" in
  if Z.of_nat (length data) / kMinCertificateEntryBytes <? certificate_count
  then inl "JKS certificate chain count exceeds the container size"
  else
    let? (chain, data) := read_chain (Z.to_nat certificate_count) version data in
    inr (protected_private_key, chain, data).

(** The choice made at a private key entry. *)
Definition select (requested_alias alias : list ascii) (key : bytes) (chain : list bytes) (s : Selection)
    : Selection :=
  let alias_matches :=
    match requested_alias with
    | [] => match sl_protected_private_key s with [] => true | _ => false end
    | _ => bool_decide (NormalizeJksAlias alias = requested_alias)
    end in
  if alias_matches then MkSelection true true key chain alias
  else MkSelection true (sl_found_requested_alias s) (sl_protected_private_key s)
         (sl_certificate_chain s) (sl_alias s).

(** The loop over the [entries] entries; every one of them takes at least fourteen octets, so as
    many turns as there are octets are enough. *)
Fixpoint entries_loop (fuel : nat) (entries : Z) (version : Z) (requested_alias : list ascii) (data : bytes)
    (s : Selection) : string + (Selection * bytes) :=
  if entries <=? 0 then inr (s, data)
  else
    match fuel with
    | O => inl "JKS entry header is truncated"
    | S fuel' =>
        let! (tag, data) := ReadU32 data else "JKS entry header is truncated" in
        let! (alias, data) := ReadModifiedUtf8 data else "JKS alias is invalid" in
        let! (_, data) := ReadU64 data else "JKS timestamp is truncated" in
        if tag =? 1 then
          let? (key, chain, data) := read_private_key version data in
          entries_loop fuel' (entries - 1) version requested_alias data (select requested_alias alias key chain s)
        else if tag =? 2 then
          let? (_, data) :=
            read_certificate version data "JKS trusted certificate type is invalid"
              "JKS trusted certificate length field is invalid" "JKS trusted certificate entry is truncated" in
          entries_loop fuel' (entries - 1) version requested_alias data s
        else inl "JKS entry tag is unsupported"
    end.

Definition LoadPrivateKeyEntry (input : bytes) (store_password key_password preferred_alias : list ascii)
    : string + PrivateKeyEntry :=
  if (length input <? 12 + kJksDigestLength)%nat then inl "JKS container is too short"
  else
    let body_size := (length input - kJksDigestLength)%nat in
    let data := take body_size input in
    let! (magic, data) := ReadU32 data else "JKS magic is invalid" in
    if negb (magic =? kJksMagic) then inl "JKS magic is invalid"
    else
      let! (version, data) := ReadU32 data else "JKS header is truncated" in
      let! (entries, data) := ReadU32 data else "JKS header is truncated" in
      if negb (version =? 1) && negb (version =? 2) then inl "JKS version is not supported"
      else
        let requested := match preferred_alias with [] => [] | _ => NormalizeJksAlias preferred_alias end in
        let? (s, data) := entries_loop (length data) entries version requested data Selection_empty in
        if negb (length data =? 0)%nat then inl "JKS container has trailing bytes before integrity trailer"
        else
          let? _ := VerifyJksIntegrity input body_size store_password in
          if negb (sl_found_any_private_key s) then inl "JKS does not contain private key entry"
          else if (match requested with [] => false | _ => true end) && negb (sl_found_requested_alias s)
          then inl "JKS does not contain requested private key alias"
          else if (length (sl_protected_private_key s) =? 0)%nat
          then inl "JKS does not contain readable private key entry"
          else
            let effective_key_password := match key_password with [] => store_password | _ => key_password end in
            let? private_key_pkcs8 := RecoverJksPrivateKey (sl_protected_private_key s) effective_key_password in
            inr (MkPrivateKeyEntry (sl_alias s) private_key_pkcs8
                   (match sl_certificate_chain s with [] => [] | c :: _ => c end) (sl_certificate_chain s)).


(** ** Progress: the bound on the loop over the entries is never reached *)

Lemma ReadU32_length (data rest : bytes) (n : Z) : ReadU32 data = Some (n, rest) -> length data = (4 + length rest)%nat.
Proof. destruct data as [|? [|? [|? [|? ?]]]]; cbn [ReadU32]; intros; by simplify_eq. Qed.

Lemma ReadBytes_length (data got rest : bytes) (len : Z) : ReadBytes data len = Some (got, rest) -> (length rest <= length data)%nat.
Proof. unfold ReadBytes. case_match; [done|]. intros [= _ <-]. rewrite length_drop. lia. Qed.

Lemma ReadModifiedUtf8_length (data rest : bytes) (s : list ascii) :
  ReadModifiedUtf8 data = Some (s, rest) -> (length rest <= length data)%nat.
Proof.
  unfold ReadModifiedUtf8. destruct (ReadU16 data) as [[len r]|] eqn:E; [|done].
  assert (length r <= length data)%nat as Hr.
  { destruct data as [|? [|? ?]]; cbn [ReadU16] in E; simplify_eq. cbn. lia. }
  repeat case_match; try done. intros [= _ <-]. rewrite length_drop. lia.
Qed.

Lemma read_certificate_length (version : Z) (data cert rest : bytes) (m1 m2 m3 : string) :
  read_certificate version data m1 m2 m3 = inr (cert, rest) -> (length rest <= length data)%nat.
Proof.
  unfold read_certificate. intros H.
  destruct (if version =? 2 then _ else _) as [|data1] eqn:E1; [done|].
  assert (length data1 <= length data)%nat as L1.
  { destruct (version =? 2); [|by simplify_eq].
    destruct (ReadModifiedUtf8 data) as [[s r]|] eqn:E; [|done]. simplify_eq. by eapply ReadModifiedUtf8_length. }
  destruct (ReadU32 data1) as [[n data2]|] eqn:E2; [|done]. apply ReadU32_length in E2.
  destruct (ReadBytes data2 n) as [[c data3]|] eqn:E3; [|done]. apply ReadBytes_length in E3.
  simplify_eq. lia.
Qed.

Lemma read_chain_length (count : nat) (version : Z) (data rest : bytes) (chain : list bytes) :
  read_chain count version data = inr (chain, rest) -> (length rest <= length data)%nat.
Proof.
  revert data chain rest. induction count as [|count IH]; intros data chain rest H; cbn [read_chain] in H; [by simplify_eq|].
  destruct (read_certificate _ _ _ _ _) as [|[c data1]] eqn:E1; [done|]. apply read_certificate_length in E1.
  destruct (read_chain count version data1) as [|[ch data2]] eqn:E2; [done|]. apply IH in E2. simplify_eq. lia.
Qed.

Lemma read_private_key_length (version : Z) (data key rest : bytes) (chain : list bytes) :
  read_private_key version data = inr (key, chain, rest) -> (length rest <= length data)%nat.
Proof.
  unfold read_private_key. intros H.
  destruct (ReadU32 data) as [[n data1]|] eqn:E1; [|done]. apply ReadU32_length in E1.
  destruct (ReadBytes data1 n) as [[k data2]|] eqn:E2; [|done]. apply ReadBytes_length in E2.
  destruct (ReadU32 data2) as [[c data3]|] eqn:E3; [|done]. apply ReadU32_length in E3.
  destruct (_ <? c); [done|].
  destruct (read_chain _ version data3) as [|[ch data4]] eqn:E4; [done|]. apply read_chain_length in E4.
  simplify_eq. lia.
Qed.

Lemma entries_loop_fuel (fuel fuel' : nat) (entries version : Z) (requested : list ascii) (data : bytes) (s : Selection) :
  (length data <= fuel)%nat -> (length data <= fuel')%nat ->
  entries_loop fuel entries version requested data s = entries_loop fuel' entries version requested data s.
Proof.
  revert fuel' entries data s. induction fuel as [|fuel IH]; intros [|fuel'] entries data s H1 H2.
  1: done.
  1,2: destruct data; [|cbn in *; lia]; by cbn [entries_loop ReadU32]; case_match.
  cbn [entries_loop]. destruct (entries <=? 0); [done|].
  destruct (ReadU32 data) as [[tg data1]|] eqn:E1; [|done]. apply ReadU32_length in E1.
  destruct (ReadModifiedUtf8 data1) as [[alias data2]|] eqn:E2; [|done]. apply ReadModifiedUtf8_length in E2.
  destruct (ReadU64 data2) as [[time data3]|] eqn:E3; [|done].
  assert (length data3 <= length data2)%nat as L3.
  { unfold ReadU64 in E3. case_match; [done|]. simplify_eq. rewrite length_drop. lia. }
  destruct (tg =? 1).
  - destruct (read_private_key version data3) as [|[[key chain] data4]] eqn:E4; [done|].
    apply read_private_key_length in E4. apply IH; lia.
  - destruct (tg =? 2); [|done].
    destruct (read_certificate _ _ _ _ _) as [|[c data4]] eqn:E4; [done|].
    apply read_certificate_length in E4. apply IH; lia.
Qed.

(** ** The format of the store, as its documentation gives it *)

Definition be16 (n : Z) : bytes := [to_u8 (n / 256); to_u8 n].

Record StoredCertificate := MkStoredCertificate { sc_type : bytes; sc_der : bytes }.

Inductive StoredEntry :=
| KeyEntry (alias time protected_key : bytes) (chain : list StoredCertificate)
| TrustedEntry (alias time : bytes) (certificate : StoredCertificate).

Definition write_text (text : bytes) : bytes := be16 (Z.of_nat (length text)) ++ text.
Definition write_block (block : bytes) : bytes := word_bytes (Z.of_nat (length block)) ++ block.

Definition write_certificate (version : Z) (c : StoredCertificate) : bytes :=
  (if version =? 2 then write_text (sc_type c) else []) ++ write_block (sc_der c).

Definition write_entry (version : Z) (e : StoredEntry) : bytes :=
  match e with
  | KeyEntry alias time key chain =>
      word_bytes 1 ++ write_text alias ++ time ++ write_block key
      ++ word_bytes (Z.of_nat (length chain)) ++ concat (map (write_certificate version) chain)
  | TrustedEntry alias time c => word_bytes 2 ++ write_text alias ++ time ++ write_certificate version c
  end.

Definition write_body (version : Z) (entries : list StoredEntry) : bytes :=
  word_bytes kJksMagic ++ word_bytes version ++ word_bytes (Z.of_nat (length entries))
  ++ concat (map (write_entry version) entries).

Definition write_store (password_bytes : bytes) (version : Z) (entries : list StoredEntry) : bytes :=
  let body := write_body version entries in body ++ Sha1Digest (password_bytes ++ kJksWhitener ++ body).

(** The text of octets in Java's encoding. *)
Definition java_text (text : bytes) : option (list ascii) :=
  match DecodeJavaModifiedUtf8 text with Some u => TryEncodeUtf16ToUtf8 u | None => None end.

Definition text_ok (text : bytes) : Prop := Z.of_nat (length text) < 2 ^ 16 /\ is_Some (java_text text).
Definition block_ok (block : bytes) : Prop := 0 < Z.of_nat (length block) < 2 ^ 32.
Definition certificate_ok (c : StoredCertificate) : Prop := text_ok (sc_type c) /\ block_ok (sc_der c).

Definition entry_ok (e : StoredEntry) : Prop :=
  match e with
  | KeyEntry alias time key chain =>
      text_ok alias /\ length time = 8%nat /\ block_ok key /\ Forall certificate_ok chain
      /\ Z.of_nat (length chain) < 2 ^ 32
  | TrustedEntry alias time c => text_ok alias /\ length time = 8%nat /\ certificate_ok c
  end.

(** *** Reading what was written *)

Lemma word_bytes_form (n : Z) :
  word_bytes n = [to_u8 (n / 2 ^ 24 mod 256); to_u8 (n / 2 ^ 16 mod 256); to_u8 (n / 2 ^ 8 mod 256); to_u8 (n mod 256)].
Proof.
  unfold word_bytes. cbn [map]. change 255 with (Z.ones 8). rewrite !Z.land_ones, !Z.shiftr_div_pow2 by lia.
  change (2 ^ 8) with 256. by rewrite Z.pow_0_r, Z.div_1_r.
Qed.

Lemma lor_octets (a b c d : Z) : 0 <= a < 256 -> 0 <= b < 256 -> 0 <= c < 256 -> 0 <= d < 256 ->
  Z.lor (Z.lor (Z.lor (Z.shiftl a 24) (Z.shiftl b 16)) (Z.shiftl c 8)) d = a * 2 ^ 24 + b * 2 ^ 16 + c * 2 ^ 8 + d.
Proof.
  intros Ha Hb Hc Hd.
  rewrite (lor_shiftl_add a (Z.shiftl b 16) 24) by (rewrite ?Z.shiftl_mul_pow2; lia).
  rewrite (Z.shiftl_mul_pow2 b) by lia.
  replace (a * 2 ^ 24 + b * 2 ^ 16) with (Z.shiftl (a * 2 ^ 8 + b) 16) by (rewrite Z.shiftl_mul_pow2; lia).
  rewrite (lor_shiftl_add _ (Z.shiftl c 8) 16) by (rewrite ?Z.shiftl_mul_pow2; lia).
  rewrite (Z.shiftl_mul_pow2 c) by lia.
  replace ((a * 2 ^ 8 + b) * 2 ^ 16 + c * 2 ^ 8) with (Z.shiftl ((a * 2 ^ 8 + b) * 2 ^ 8 + c) 8)
    by (rewrite Z.shiftl_mul_pow2; lia).
  rewrite lor_shiftl_add by lia. rewrite ?Z.shiftl_mul_pow2 by lia. lia.
Qed.

Lemma ReadU32_written (n : Z) (rest : bytes) : 0 <= n < 2 ^ 32 -> ReadU32 (word_bytes n ++ rest) = Some (n, rest).
Proof.
  intros Hn. rewrite word_bytes_form. cbn [app ReadU32]. rewrite !u8_to_u8, !Z.mod_mod by lia.
  rewrite lor_octets by (apply Z.mod_pos_bound; lia). do 2 f_equal.
  change (2 ^ 24) with 16777216. change (2 ^ 16) with 65536. change (2 ^ 8) with 256.
  change (2 ^ 32) with 4294967296 in Hn. zdm.
Qed.

Lemma ReadU16_written (n : Z) (rest : bytes) : 0 <= n < 2 ^ 16 -> ReadU16 (be16 n ++ rest) = Some (n, rest).
Proof.
  intros Hn. unfold be16. cbn [app ReadU16]. rewrite !u8_to_u8.
  change (2 ^ 16) with 65536 in Hn.
  rewrite (lor_shiftl_add _ _ 8) by (change (2 ^ 8) with 256; zdm).
  change (2 ^ 8) with 256. do 2 f_equal. zdm.
Qed.

Lemma ReadBytes_written (block rest : bytes) : ReadBytes (block ++ rest) (Z.of_nat (length block)) = Some (block, rest).
Proof.
  unfold ReadBytes. rewrite length_app, (proj2 (Z.ltb_ge _ _)) by lia.
  by rewrite Nat2Z.id, take_app_length, drop_app_length.
Qed.

Lemma ReadModifiedUtf8_written (text rest : bytes) (s : list ascii) :
  Z.of_nat (length text) < 2 ^ 16 -> java_text text = Some s ->
  ReadModifiedUtf8 (write_text text ++ rest) = Some (s, rest).
Proof.
  intros Hl Hs. unfold ReadModifiedUtf8, write_text. rewrite <- app_assoc, ReadU16_written by lia.
  rewrite length_app, (proj2 (Z.ltb_ge _ _)), Nat2Z.id, take_app_length, drop_app_length by lia.
  unfold java_text in Hs. destruct (DecodeJavaModifiedUtf8 text); [|done]. by rewrite Hs.
Qed.

Lemma ReadU64_written (time rest : bytes) : length time = 8%nat -> exists t, ReadU64 (time ++ rest) = Some (t, rest).
Proof.
  intros Ht. unfold ReadU64. rewrite length_app, Ht. cbn [Nat.add Nat.ltb Nat.leb].
  eexists. by rewrite drop_app_length'.
Qed.

Lemma read_certificate_written (version : Z) (c : StoredCertificate) (rest : bytes) (m1 m2 m3 : string) :
  certificate_ok c -> read_certificate version (write_certificate version c ++ rest) m1 m2 m3 = inr (sc_der c, rest).
Proof.
  intros [[Hl [s Hs]] Hb]. unfold read_certificate, write_certificate, write_block, block_ok in *.
  destruct (version =? 2).
  - rewrite <- !app_assoc, (ReadModifiedUtf8_written _ _ s) by done.
    by rewrite ReadU32_written, ReadBytes_written by lia.
  - cbn [app]. by rewrite <- app_assoc, ReadU32_written, ReadBytes_written by lia.
Qed.

Lemma read_chain_written (version : Z) (chain : list StoredCertificate) (rest : bytes) :
  Forall certificate_ok chain ->
  read_chain (length chain) version (concat (map (write_certificate version) chain) ++ rest)
  = inr (map sc_der chain, rest).
Proof.
  induction 1 as [|c chain Hc _ IH]; [done|]. cbn [length map concat read_chain]. rewrite <- app_assoc.
  by rewrite read_certificate_written, IH by done.
Qed.

Lemma length_write_certificate (version : Z) (c : StoredCertificate) :
  certificate_ok c -> (5 <= length (write_certificate version c))%nat.
Proof.
  intros [_ [Hb _]]. unfold write_certificate, write_block. rewrite !length_app, word_bytes_form. cbn [length]. lia.
Qed.

Lemma length_write_chain (version : Z) (chain : list StoredCertificate) :
  Forall certificate_ok chain ->
  (5 * length chain <= length (concat (map (write_certificate version) chain)))%nat.
Proof.
  induction 1 as [|c chain Hc _ IH]; [done|]. cbn [length map concat]. rewrite length_app.
  pose proof (length_write_certificate version c Hc). lia.
Qed.

Lemma read_private_key_written (version : Z) (key : bytes) (chain : list StoredCertificate) (rest : bytes) :
  block_ok key -> Forall certificate_ok chain -> Z.of_nat (length chain) < 2 ^ 32 ->
  read_private_key version (write_block key ++ word_bytes (Z.of_nat (length chain))
    ++ concat (map (write_certificate version) chain) ++ rest) = inr (key, map sc_der chain, rest).
Proof.
  intros Hk Hc Hn. unfold block_ok in Hk. unfold read_private_key, write_block. rewrite <- app_assoc.
  rewrite ReadU32_written, ReadBytes_written, ReadU32_written by lia.
  pose proof (length_write_chain version chain Hc) as L.
  rewrite (proj2 (Z.ltb_ge _ _)).
  2:{ rewrite length_app. unfold kMinCertificateEntryBytes. zdm. }
  by rewrite Nat2Z.id, read_chain_written by done.
Qed.

(** What the loop keeps of an entry. *)
Definition select_entry (requested : list ascii) (s : Selection) (e : StoredEntry) : Selection :=
  match e with
  | KeyEntry alias _ key chain => select requested (default [] (java_text alias)) key (map sc_der chain) s
  | TrustedEntry _ _ _ => s
  end.

Lemma entries_loop_written (version : Z) (requested : list ascii) (entries : list StoredEntry) (fuel : nat) (s : Selection) :
  Forall entry_ok entries -> (length entries <= fuel)%nat ->
  entries_loop fuel (Z.of_nat (length entries)) version requested (concat (map (write_entry version) entries)) s
  = inr (foldl (select_entry requested) s entries, []).
Proof.
  intros He. revert fuel s. induction He as [|e entries He _ IH]; intros fuel s Hf; [by destruct fuel|].
  destruct fuel as [|fuel]; [cbn in Hf; lia|]. cbn [length] in Hf.
  cbn [entries_loop map concat foldl]. rewrite (proj2 (Z.leb_gt _ _)) by (cbn [length]; lia).
  replace (Z.of_nat (length (e :: entries)) - 1) with (Z.of_nat (length entries)) by (cbn [length]; lia).
  destruct e as [alias time key chain|alias time c]; cbn [write_entry select_entry entry_ok] in *.
  - destruct He as ([Hl [t Ht]] & Htime & Hk & Hc & Hn). rewrite Ht. cbn [default].
    repeat rewrite <- app_assoc. rewrite ReadU32_written by lia.
    rewrite (ReadModifiedUtf8_written _ _ t) by done.
    edestruct (ReadU64_written time) as [tm ->]; [done|]. cbn [Z.eqb Pos.eqb].
    rewrite read_private_key_written by done. apply IH. lia.
  - destruct He as ([Hl [t Ht]] & Htime & Hc). repeat rewrite <- app_assoc. rewrite ReadU32_written by lia.
    rewrite (ReadModifiedUtf8_written _ _ t) by done.
    edestruct (ReadU64_written time) as [tm ->]; [done|]. cbn [Z.eqb Pos.eqb].
    rewrite read_certificate_written by done. apply IH. lia.
Qed.

(** ** Protecting and recovering a key *)

Definition protect_payload (password_bytes salt key : bytes) : bytes :=
  salt ++ xor_bytes key (xor_key password_bytes salt (length key)) ++ Sha1Digest (password_bytes ++ key).

(** [EncryptedPrivateKeyInfo] around a payload. *)
Definition protect_algorithm : bytes := der_tlv x06 kJksKeyProtectorOid ++ der_tlv x05 [].
Definition wrap_payload (payload : bytes) : bytes :=
  der_tlv x30 (der_tlv x30 protect_algorithm ++ der_tlv x04 payload).

Lemma xor_key_loop_length (turns wanted : nat) (pw prev acc : bytes) :
  (length acc <= wanted)%nat -> (wanted - length acc <= turns)%nat ->
  length (xor_key_loop turns pw prev wanted acc) = wanted.
Proof.
  revert prev acc. induction turns as [|turns IH]; intros prev acc H1 H2; cbn [xor_key_loop]; [lia|].
  destruct (Nat.ltb_spec (length acc) wanted); [|lia].
  assert (length (take (Nat.min (length (Sha1Digest (pw ++ prev))) (wanted - length acc)) (Sha1Digest (pw ++ prev)))
    = Nat.min 20 (wanted - length acc)) as L by (rewrite length_take, length_Sha1Digest; lia).
  apply IH; rewrite length_app, L; lia.
Qed.

Lemma length_xor_key (pw salt : bytes) (wanted : nat) : length (xor_key pw salt wanted) = wanted.
Proof. apply xor_key_loop_length; cbn; lia. Qed.

Lemma u8_lxor (x y : byte) : u8 (to_u8 (Z.lxor (u8 x) (u8 y))) = Z.lxor (u8 x) (u8 y).
Proof.
  rewrite u8_to_u8. change 256 with (2 ^ 8). rewrite <- Z.land_ones by lia.
  apply Z.bits_inj'. intros i Hi. rewrite Z.land_spec, Z.lxor_spec, Z.testbit_ones_nonneg by lia.
  destruct (Z.ltb_spec i 8); [by rewrite andb_true_r|].
  by rewrite !(testbit_small _ 8) by (lia || apply u8_range).
Qed.

Lemma xor_bytes_involutive (a k : bytes) : (length a <= length k)%nat -> xor_bytes (xor_bytes a k) k = a.
Proof.
  revert k. induction a as [|x a IH]; intros [|y k] H; [done|done|cbn in H; lia|].
  unfold xor_bytes in *. cbn [zip_with]. f_equal; [|apply IH; cbn in H; lia].
  rewrite u8_lxor, Z.lxor_assoc, Z.lxor_nilpotent, Z.lxor_0_r. apply to_u8_u8.
Qed.

Lemma length_xor_bytes (a k : bytes) : length (xor_bytes a k) = Nat.min (length a) (length k).
Proof. apply length_zip_with. Qed.

Lemma RecoverPayload_protected (password : list ascii) (pw salt key : bytes) :
  ToJksPasswordBytes password = Some pw -> length salt = 20%nat ->
  RecoverPayload (protect_payload pw salt key) password = inr key.
Proof.
  intros Hp Hs. unfold RecoverPayload, protect_payload.
  set (enc := xor_bytes key (xor_key pw salt (length key))).
  assert (length enc = length key) as He by (unfold enc; rewrite length_xor_bytes, length_xor_key; lia).
  rewrite !length_app, length_Sha1Digest, Hs, He. unfold kJksSaltLength, kJksDigestLength.
  rewrite (proj2 (Nat.ltb_ge _ _)) by lia. rewrite Hp. cbv zeta.
  replace (20 + (length key + 20) - 20 - 20)%nat with (length key) by lia.
  rewrite take_app_length' by done. rewrite drop_app_length' by done. rewrite take_app_length' by done.
  assert (xor_bytes enc (xor_key pw salt (length key)) = key) as ->
    by (apply xor_bytes_involutive; rewrite length_xor_key; lia).
  rewrite (app_assoc salt), drop_app_length' by (rewrite length_app; lia).
  rewrite take_ge by (rewrite length_Sha1Digest; lia). by rewrite bool_decide_true.
Qed.

Lemma Extract_wrapped (payload : bytes) :
  fits (wrap_payload payload) -> ExtractJksEncryptedPayload (wrap_payload payload) = inr payload.
Proof.
  intros Hfit. unfold ExtractJksEncryptedPayload, tlv, octets.
  set (A := protect_algorithm). set (P := der_tlv x04 payload). set (V := der_tlv x30 A ++ P).
  set (LV := der_length (Z.of_nat (length V))). set (LA := der_length (Z.of_nat (length A))).
  set (LO := der_length (Z.of_nat (length kJksKeyProtectorOid))).
  set (LP := der_length (Z.of_nat (length payload))).
  set (data := wrap_payload payload) in *.
  assert (data = [] ++ der_tlv x30 V ++ []) as E0 by (by rewrite app_nil_r).
  assert (data = (x30 :: LV) ++ der_tlv x30 A ++ P) as E1 by done.
  assert (data = (x30 :: LV ++ x30 :: LA) ++ der_tlv x06 kJksKeyProtectorOid ++ (der_tlv x05 [] ++ P)) as E2.
  { rewrite E1. unfold A, protect_algorithm, der_tlv at 1. fold protect_algorithm. fold A. fold LA.
    cbn [app]. by rewrite <- !app_assoc. }
  assert (data = (x30 :: LV ++ der_tlv x30 A) ++ der_tlv x04 payload ++ []) as E3.
  { rewrite E1, app_nil_r. cbn [app]. by rewrite <- app_assoc. }
  assert (length data = 1 + length LV + length V)%nat as Ld.
  { rewrite E1. unfold V. rewrite !length_app. cbn [length]. lia. }
  pose proof (ParseTlvAt_vec_encode [] [] V x30 (Z.of_nat (length data))) as P0. rewrite <- E0 in P0.
  cbn [length Nat.add] in P0. change (Z.of_nat 0) with 0 in P0.
  assert (length (der_tlv x30 V) = length data) as L0 by (rewrite E0; cbn [app]; by rewrite app_nil_r).
  rewrite P0 by (done || lia). clear P0. cbn [tag value_offset value_length next_offset].
  rewrite L0, Z.eqb_refl. change (u8 x30 =? 0x30) with true. cbn [negb orb].
  pose proof (ParseTlvAt_vec_encode (x30 :: LV) P A x30 (Z.of_nat (length data))) as P1. rewrite <- E1 in P1.
  cbn [length] in P1. fold LV.
  replace (Z.of_nat (0 + 1 + length LV)) with (Z.of_nat (S (length LV))) by lia.
  assert (length V = length (der_tlv x30 A) + length P)%nat as LVl by (unfold V; by rewrite length_app).
  rewrite P1 by (done || lia). clear P1. cbn [tag value_offset value_length next_offset].
  change (u8 x30 =? 0x30) with true. cbn [negb].
  assert (length (der_tlv x30 A) = 1 + length LA + length A)%nat as LAl
    by (unfold der_tlv; cbn [length]; rewrite length_app; fold LA; lia).
  assert (length A = length (der_tlv x06 kJksKeyProtectorOid) + length (der_tlv x05 []))%nat as LAl2
    by (unfold A, protect_algorithm; by rewrite length_app).
  pose proof (ParseTlvAt_vec_encode (x30 :: LV ++ x30 :: LA) (der_tlv x05 [] ++ P) kJksKeyProtectorOid x06
    (Z.of_nat (S (length LV) + length (der_tlv x30 A)))) as P2. rewrite <- E2 in P2.
  assert (length (x30 :: LV ++ x30 :: LA) = S (length LV) + 1 + length LA)%nat as L2
    by (cbn [length]; rewrite length_app; cbn [length]; lia).
  rewrite L2 in P2. fold LA. rewrite P2 by (done || lia). clear P2.
  cbn [tag value_offset value_length next_offset]. fold LO.
  change (u8 x06 =? 0x06) with true. cbn [negb].
  change (Z.of_nat (length kJksKeyProtectorOid) =? 10) with true. cbn [negb orb].
  assert (take 10 (drop (Z.to_nat (Z.of_nat (S (length LV) + 1 + length LA + 1 + length LO))) data)
          = kJksKeyProtectorOid) as ->.
  { rewrite Nat2Z.id, E2.
    assert (der_tlv x06 kJksKeyProtectorOid ++ der_tlv x05 [] ++ P
      = ([x06] ++ LO) ++ kJksKeyProtectorOid ++ der_tlv x05 [] ++ P) as ->
      by (unfold der_tlv at 1; fold LO; cbn [app]; by rewrite <- app_assoc).
    assert (forall (a b c d : bytes) n, length a = n -> drop (n + length b) (a ++ b ++ c ++ d) = c ++ d) as Hdrop.
    { intros a b c d n <-. rewrite (app_assoc a b). by rewrite drop_app_length' by (rewrite length_app; lia). }
    replace (S (length LV) + 1 + length LA + 1 + length LO)%nat
      with (S (length LV) + 1 + length LA + length ([x06] ++ LO))%nat by (rewrite length_app; cbn [length]; lia).
    rewrite Hdrop by done. by rewrite take_app_length'. }
  rewrite bool_decide_true by done. cbn [negb].
  pose proof (ParseTlvAt_vec_encode (x30 :: LV ++ der_tlv x30 A) [] payload x04 (Z.of_nat (length data))) as P3.
  rewrite <- E3 in P3.
  assert (length (x30 :: LV ++ der_tlv x30 A) = S (length LV) + length (der_tlv x30 A))%nat as L3
    by (cbn [length]; rewrite length_app; lia).
  assert (length data = S (length LV) + length (der_tlv x30 A) + length (der_tlv x04 payload))%nat as Ld3
    by (rewrite E3, !length_app, L3; cbn [length]; lia).
  rewrite L3 in P3. rewrite P3 by (done || lia). clear P3. cbn [tag value_offset value_length next_offset].
  change (u8 x04 =? 0x04) with true. rewrite Ld3, Z.eqb_refl. cbn [negb orb]. fold LP.
  f_equal. rewrite !Nat2Z.id.
  assert (length (der_tlv x04 payload) = 1 + length LP + length payload)%nat as LPl
    by (unfold der_tlv; cbn [length]; rewrite length_app; fold LP; lia).
  replace (Z.to_nat (Z.of_nat (S (length LV) + length (der_tlv x30 A) + length (der_tlv x04 payload))
    - Z.of_nat (S (length LV) + length (der_tlv x30 A) + 1 + length LP))) with (length payload) by lia.
  assert (der_tlv x04 payload = ([x04] ++ LP) ++ payload) as EP by done.
  rewrite E3, app_nil_r, EP, (app_assoc _ ([x04] ++ LP)), drop_app_length'.
  - by rewrite take_ge.
  - rewrite length_app, L3, length_app. cbn [length]. lia.
Qed.

(** ** The entry chosen *)

Definition key_of (e : StoredEntry) : option (bytes * bytes * list StoredCertificate) :=
  match e with KeyEntry alias _ key chain => Some (alias, key, chain) | TrustedEntry _ _ _ => None end.

Definition named (requested : list ascii) (k : bytes * bytes * list StoredCertificate) : bool :=
  bool_decide (NormalizeJksAlias (default [] (java_text k.1.1)) = requested).

(** Without a request the first key of the store, otherwise the last key of that name. *)
Definition chosen (requested : list ascii) (entries : list StoredEntry) : option (bytes * bytes * list StoredCertificate) :=
  let keys := omap key_of entries in
  match requested with [] => head keys | _ => last (filter (fun k => named requested k = true) keys) end.

Definition selected (k : bytes * bytes * list StoredCertificate) : Selection :=
  MkSelection true true k.1.2 (map sc_der k.2) (default [] (java_text k.1.1)).

Lemma select_first (entries : list StoredEntry) (s : Selection) :
  Forall entry_ok entries -> s = Selection_empty \/ (exists k, s = selected k /\ k.1.2 <> []) ->
  foldl (select_entry []) s entries =
  match sl_protected_private_key s, head (omap key_of entries) with
  | [], Some k => selected k
  | _, _ => s
  end.
Proof.
  intros He. revert s. induction He as [|e entries He _ IH]; intros s Hs.
  { cbn. by destruct (sl_protected_private_key s). }
  destruct e as [alias time key chain|alias time c]; cbn [foldl select_entry omap list_omap key_of];
    [|by apply IH].
  destruct He as (_ & _ & [Hk _] & _). destruct Hs as [->|(k & -> & Hne)].
  - unfold select. cbn [sl_protected_private_key Selection_empty head].
    change (MkSelection true true key (map sc_der chain) (default [] (java_text alias)))
      with (selected (alias, key, chain)).
    assert (key <> []) as Hkey by (destruct key; [cbn in Hk; lia|done]).
    rewrite IH by (right; by eexists). cbn [selected sl_protected_private_key fst snd]. by destruct key.
  - destruct k as [[a0 [|b k0]] c0]; [done|]. unfold select.
    cbn [selected sl_protected_private_key sl_found_requested_alias sl_certificate_chain sl_alias fst snd].
    change (MkSelection true true (b :: k0) (map sc_der c0) (default [] (java_text a0)))
      with (selected (a0, b :: k0, c0)).
    by rewrite IH by (right; by eexists).
Qed.

Lemma select_named (requested : list ascii) (entries : list StoredEntry) (s : Selection) (k : bytes * bytes * list StoredCertificate) :
  requested <> [] -> last (filter (fun k => named requested k = true) (omap key_of entries)) = Some k ->
  foldl (select_entry requested) s entries = selected k.
Proof.
  intros Hne. revert s. induction entries as [|e entries IH] using rev_ind; intros s H; [done|].
  rewrite foldl_snoc. destruct e as [alias time key chain|alias time c]; cbn [select_entry].
  - rewrite omap_app, filter_app in H. cbn [omap list_omap key_of] in H.
    unfold select. destruct requested as [|r0 requested]; [done|].
    destruct (bool_decide (NormalizeJksAlias (default [] (java_text alias)) = r0 :: requested)) eqn:E.
    + rewrite filter_cons_True, filter_nil, last_snoc in H by done. by simplify_eq.
    + rewrite filter_cons_False, filter_nil, app_nil_r in H by (unfold named; cbn [fst]; by rewrite E).
      rewrite (IH s H). done.
  - rewrite omap_app, app_nil_r in H. by apply IH.
Qed.

Lemma chosen_selected (requested : list ascii) (entries : list StoredEntry) (k : bytes * bytes * list StoredCertificate) :
  Forall entry_ok entries -> chosen requested entries = Some k ->
  foldl (select_entry requested) Selection_empty entries = selected k.
Proof.
  intros He Hc. destruct requested as [|r requested].
  - rewrite select_first by auto. cbn [sl_protected_private_key Selection_empty].
    unfold chosen in Hc. cbv zeta in Hc. by rewrite Hc.
  - by apply select_named.
Qed.

Lemma length_write_entries (version : Z) (entries : list StoredEntry) :
  (length entries <= length (concat (map (write_entry version) entries)))%nat.
Proof.
  induction entries as [|e entries IH]; [done|]. cbn [length map concat]. rewrite length_app.
  assert (1 <= length (write_entry version e))%nat; [|lia].
  destruct e; cbn [write_entry]; rewrite word_bytes_form; cbn [app length]; lia.
Qed.

(** ** Properties *)

Lemma VerifyJksIntegrity_ok (input : bytes) (body_size : nat) (store_password : list ascii) :
  VerifyJksIntegrity input body_size store_password = inr tt <->
  store_password = [] \/
  ((body_size + 20 <= length input)%nat /\ exists pw, ToJksPasswordBytes store_password = Some pw
    /\ Sha1Digest (pw ++ kJksWhitener ++ take body_size input) = take 20 (drop body_size input)).
Proof.
  unfold VerifyJksIntegrity, kJksDigestLength. destruct store_password as [|c p]; [split; auto|].
  destruct (Nat.ltb_spec (length input) (body_size + 20)); [split; [done|intros [?|[? _]]; [done|lia]]|].
  destruct (ToJksPasswordBytes (c :: p)) as [pw|]; [|split; [done|intros [?|(_ & ? & ? & _)]; done]].
  case_bool_decide as E; split; [eauto 10|done|done|]. intros [?|(_ & pw' & ? & ?)]; [done|simplify_eq].
Qed.

(** A key store written as its format prescribes is read back: in a store of either version, with
    any private key and trusted certificate entries, [LoadPrivateKeyEntry] finds the key protected
    with the given password (the first key of the store, or the last one of the requested alias up to
    letter case), and returns its octets, its alias and its certificate chain. *)
Theorem Jks_load_written (version : Z) (entries : list StoredEntry)
    (store_password key_password preferred_alias : list ascii) (pw kpw salt key alias : bytes)
    (chain : list StoredCertificate) :
  let requested := match preferred_alias with [] => [] | _ => NormalizeJksAlias preferred_alias end in
  let effective := match key_password with [] => store_password | _ => key_password end in
  version = 1 \/ version = 2 ->
  Forall entry_ok entries -> Z.of_nat (length entries) < 2 ^ 32 ->
  ToJksPasswordBytes store_password = Some pw ->
  effective <> [] -> ToJksPasswordBytes effective = Some kpw -> length salt = 20%nat ->
  fits (wrap_payload (protect_payload kpw salt key)) ->
  chosen requested entries = Some (alias, wrap_payload (protect_payload kpw salt key), chain) ->
  LoadPrivateKeyEntry (write_store pw version entries) store_password key_password preferred_alias
  = inr (MkPrivateKeyEntry (default [] (java_text alias)) key
           (match map sc_der chain with [] => [] | c :: _ => c end) (map sc_der chain)).
Proof.
  intros requested effective Hv He Hn Hpw Heff Hkpw Hsalt Hfit Hc.
  unfold LoadPrivateKeyEntry, write_store. cbv zeta.
  assert (12 <= length (write_body version entries))%nat as Hb
    by (unfold write_body; rewrite !length_app, !word_bytes_form; cbn [length]; lia).
  rewrite length_app, length_Sha1Digest. unfold kJksDigestLength.
  rewrite (proj2 (Nat.ltb_ge _ _)) by lia.
  replace (length (write_body version entries) + 20 - 20)%nat with (length (write_body version entries)) by lia.
  rewrite take_app_length. unfold write_body at 1.
  rewrite ReadU32_written by (unfold kJksMagic; lia). rewrite Z.eqb_refl. cbn [negb].
  rewrite ReadU32_written by (destruct Hv; lia). rewrite ReadU32_written by lia.
  replace (negb (version =? 1) && negb (version =? 2)) with false by (destruct Hv as [-> | ->]; done).
  rewrite entries_loop_written by (done || apply length_write_entries).
  cbn [length Nat.eqb negb]. fold requested. rewrite (chosen_selected requested _ _ He Hc).
  assert (VerifyJksIntegrity (write_body version entries ++ Sha1Digest (pw ++ kJksWhitener ++ write_body version entries))
    (length (write_body version entries)) store_password = inr tt) as ->.
  { apply VerifyJksIntegrity_ok. right. rewrite length_app, length_Sha1Digest. split; [lia|].
    exists pw. split; [done|]. rewrite take_app_length, drop_app_length. by rewrite take_ge. }
  cbn [selected sl_found_any_private_key sl_found_requested_alias sl_protected_private_key fst snd negb].
  rewrite andb_false_r. rewrite (proj2 (Nat.eqb_neq _ _)) by (cbn; lia).
  fold effective. unfold RecoverJksPrivateKey. destruct effective as [|e0 effective'] eqn:Ee; [done|].
  rewrite Extract_wrapped by done. by rewrite (RecoverPayload_protected _ kpw).
Qed.

(** Nothing is accepted on trust: when [LoadPrivateKeyEntry] returns a key, a given store password
    matches the digest over the whole body of the store, and the digest of the key password and the
    returned octets matches the digest stored with the key; without a key password and a store
    password no key is returned. *)
Theorem Jks_load_grounds (input : bytes) (store_password key_password preferred_alias : list ascii)
    (entry : PrivateKeyEntry) :
  LoadPrivateKeyEntry input store_password key_password preferred_alias = inr entry ->
  let body_size := (length input - 20)%nat in
  let effective := match key_password with [] => store_password | _ => key_password end in
  (store_password = [] \/ exists pw, ToJksPasswordBytes store_password = Some pw
     /\ Sha1Digest (pw ++ kJksWhitener ++ take body_size input) = drop body_size input)
  /\ effective <> []
  /\ exists protected payload kpw,
       ExtractJksEncryptedPayload protected = inr payload
       /\ ToJksPasswordBytes effective = Some kpw
       /\ Sha1Digest (kpw ++ pk_private_key_pkcs8 entry) = drop (length payload - 20) payload.
Proof.
  unfold LoadPrivateKeyEntry. unfold kJksDigestLength. intros Hl. cbv zeta in *.
  destruct (Nat.ltb_spec (length input) (12 + 20)) as [|Hlen]; [done|].
  destruct (ReadU32 _) as [[magic d1]|]; [|done]. destruct (negb (magic =? kJksMagic)); [done|].
  destruct (ReadU32 d1) as [[version d2]|]; [|done]. destruct (ReadU32 d2) as [[entries d3]|]; [|done].
  destruct (negb (version =? 1) && negb (version =? 2)); [done|].
  destruct (entries_loop _ _ _ _ _ _) as [|[s d4]]; [done|]. destruct (negb _); [done|].
  destruct (VerifyJksIntegrity _ _ _) as [|[]] eqn:Hi; [done|]. apply VerifyJksIntegrity_ok in Hi.
  destruct (negb (sl_found_any_private_key s)); [done|]. destruct (_ && _); [done|].
  destruct (length (sl_protected_private_key s) =? 0)%nat; [done|].
  set (effective := match key_password with [] => store_password | _ => key_password end) in *.
  destruct (RecoverJksPrivateKey (sl_protected_private_key s) effective) as [|key] eqn:Hr; [done|].
  injection Hl as <-. cbn [pk_private_key_pkcs8]. split.
  { destruct Hi as [Hi|(_ & pw & Hp & Hd)]; [by left|right]. exists pw. split; [done|].
    rewrite Hd. apply take_ge. rewrite length_drop. lia. }
  unfold RecoverJksPrivateKey in Hr. destruct effective as [|e0 eff]; [done|]. split; [done|].
  destruct (ExtractJksEncryptedPayload (sl_protected_private_key s)) as [|payload] eqn:Hx; [done|].
  unfold RecoverPayload, kJksSaltLength, kJksDigestLength in Hr.
  destruct (Nat.ltb_spec (length payload) (20 + 20)); [done|].
  destruct (ToJksPasswordBytes (e0 :: eff)) as [kpw|] eqn:Hk; [|done]. cbv zeta in Hr.
  case_bool_decide as Hd; [|done]. injection Hr as Hkey. rewrite Hkey in Hd.
  exists (sl_protected_private_key s), payload, kpw. split_and!; [done|done|]. rewrite Hd.
  replace (20 + (length payload - 20 - 20))%nat with (length payload - 20)%nat by lia.
  apply take_ge. rewrite length_drop. lia.
Qed.

End Recover.

(** ** A store *)

Module SampleStore.

#[local] Existing Instance lp64.

Definition ascii_bytes (s : string) : bytes := String.list_byte_of_string s.
Definition time : bytes := replicate 8 x00.
Definition salt : bytes := replicate 20 x5a.
Definition key : bytes := [x30; x03; x02; x01; x07].
Definition certificate : StoredCertificate := MkStoredCertificate (ascii_bytes "X.509") [x30; x00].
Definition password : list ascii := chars "secret".
Definition pw : bytes := default [] (ToJksPasswordBytes password).
Definition entries : list StoredEntry :=
  [TrustedEntry (ascii_bytes "root") time certificate;
   KeyEntry (ascii_bytes "Sign") time (wrap_payload (protect_payload pw salt key)) [certificate]].

Definition store : bytes := write_store pw 2 entries.
Definition entry : PrivateKeyEntry := MkPrivateKeyEntry (chars "Sign") key [x30; x00] [[x30; x00]].

Lemma entries_ok : Forall entry_ok entries.
Proof.
  repeat constructor; cbn [entry_ok]; try by vm_compute.
  all: eexists; vm_compute; reflexivity.
Qed.

Lemma Jks_load_written_witness : LoadPrivateKeyEntry store password [] (chars "SIGN") = inr entry.
Proof.
  apply (Jks_load_written 2 entries password [] (chars "SIGN") pw pw salt key (ascii_bytes "Sign") [certificate]);
    [by right | apply entries_ok | by vm_compute | by vm_compute | done | by vm_compute | done | by vm_compute
    | by vm_compute].
Defined.

Lemma Jks_load_grounds_witness :
  Sha1Digest (pw ++ kJksWhitener ++ take (length store - 20) store) = drop (length store - 20) store.
Proof.
  destruct (Jks_load_grounds store password [] (chars "SIGN") entry) as [[E|(p & Hp & E)] _]; [by vm_compute|done|].
  vm_compute in Hp. injection Hp as <-. exact E.
Defined.

End SampleStore.
