(* ===== verification/Pem.v ===== *)
(** * Pem: PEM and DER key files (src/src/lib/core/KeyParsers.cpp)

    [PemDerLoader::LoadAll] and [PemDerLoader::Load].  [text.find(pattern, pos)]
    works on the text from [pos] on: [find_text] gives the characters before
    the first occurrence and the text that starts with it. *)

From S2P Require Import Prelude CxxString Der Codec Utf Sha256 Sha1 Jks.

Local Open Scope Z_scope.
Local Open Scope tamga_scope.

Definition IsBase64Char (ch : ascii) : bool :=
  isalnum ch || Ascii.eqb ch "+" || Ascii.eqb ch "/" || Ascii.eqb ch "=".

Record PemBlock := MkPemBlock {
  pb_type : list ascii;
  pb_der_payload : bytes
}.

Fixpoint is_prefix (pattern text : list ascii) : bool :=
  match pattern, text with
  | [], _ => true
  | p :: pattern', c :: text' => Ascii.eqb p c && is_prefix pattern' text'
  | _ :: _, [] => false
  end.

Fixpoint find_text (pattern text : list ascii) : option (list ascii * list ascii) :=
  if is_prefix pattern text then Some ([], text)
  else
    match text with
    | [] => None
    | c :: text' =>
        match find_text pattern text' with
        | Some (before, at_match) => Some (c :: before, at_match)
        | None => None
        end
    end.

Definition kBegin : list ascii := chars "-----BEGIN ".
Definition kDashes : list ascii := chars "-----".
Definition newline : ascii := "010"%char.
Definition end_marker (block_type : list ascii) : list ascii := chars "-----END " ++ block_type ++ kDashes.

(** The block that starts at [after_begin], the text behind its opening marker; the rest of the text. *)
Definition read_block (after_begin : list ascii) : string + (PemBlock * list ascii) :=
  let! (block_type, at_type_end) := find_text kDashes after_begin else "PEM begin marker is invalid" in
  let! (_, at_body) := find_text [newline] at_type_end else "PEM end marker is missing" in
  let! (body, at_end) := find_text (end_marker block_type) at_body else "PEM end marker is missing" in
  match body with
  | [] => inl "PEM end marker is missing"
  | _ :: lines =>
      let payload := List.filter IsBase64Char lines in
      match payload with
      | [] => inl "PEM payload is empty"
      | _ =>
          let! decoded := Base64.Base64Decode (of_chars payload) else "PEM payload is invalid" in
          inr (MkPemBlock block_type decoded, drop (length (end_marker block_type)) at_end)
      end
  end.

(** Every block takes its markers from the text, so one turn per character is enough. *)
Fixpoint blocks_loop (fuel : nat) (text : list ascii) (blocks : list PemBlock) : string + list PemBlock :=
  match fuel with
  | O => inl "PEM end marker is missing"
  | S fuel' =>
      match find_text kBegin text with
      | None => inr blocks
      | Some (_, at_begin) =>
          let? (block, rest) := read_block (drop (length kBegin) at_begin) in
          blocks_loop fuel' rest (blocks ++ [block])
      end
  end.

Definition is_sequence (der : bytes) : bool :=
  match der with b :: _ => u8 b =? 0x30 | [] => false end.

Definition byte_char (b : byte) : ascii := Ascii.ascii_of_byte b.

Definition LoadAll (input : bytes) (strict_mode : bool) : string + list PemBlock :=
  match input with
  | [] => inl "Input key data is empty"
  | b :: _ =>
      if u8 b =? 0x30 then inr [MkPemBlock (chars "DER") input]
      else
        let text := map byte_char input in
        let? blocks := blocks_loop (S (length text)) text [] in
        match blocks with
        | [] => inl "Unsupported key container format"
        | _ =>
            if strict_mode && existsb (fun block => negb (is_sequence (pb_der_payload block))) blocks
            then inl "Strict mode expects ASN.1 DER SEQUENCE payload"
            else inr blocks
        end
  end.

Definition is_key_block (block : PemBlock) : bool :=
  match find_text (chars "PRIVATE KEY") (pb_type block) with
  | Some _ => true
  | None => bool_decide (pb_type block = chars "DER")
  end.

Definition Load (input : bytes) : string + (bytes * list ascii) :=
  let? blocks := LoadAll input false in
  let! block := List.find is_key_block blocks else "PEM/DER does not contain PRIVATE KEY block" in
  inr (pb_der_payload block, pb_type block).

(** ** The search *)

Lemma is_prefix_app (pattern rest : list ascii) : is_prefix pattern (pattern ++ rest) = true.
Proof. induction pattern as [|c pattern IH]; [done|]. cbn. by rewrite Ascii.eqb_refl. Qed.

Lemma find_text_first (c : ascii) (p before rest : list ascii) :
  c ∉ before -> find_text (c :: p) (before ++ (c :: p) ++ rest) = Some (before, (c :: p) ++ rest).
Proof.
  induction before as [|b before IH]; intros Hc.
  - cbn [app find_text]. by rewrite (is_prefix_app (c :: p) rest : is_prefix (c :: p) (c :: p ++ rest) = true).
  - apply not_elem_of_cons in Hc as [Hb Hc]. cbn [app find_text is_prefix].
    rewrite (proj2 (Ascii.eqb_neq c b)) by done. cbn [andb]. cbn [app] in IH. by rewrite IH.
Qed.

Lemma find_text_absent (c : ascii) (p text : list ascii) : c ∉ text -> find_text (c :: p) text = None.
Proof.
  induction text as [|b text IH]; intros Hc; [done|].
  apply not_elem_of_cons in Hc as [Hb Hc]. cbn. rewrite (proj2 (Ascii.eqb_neq c b)) by done. by rewrite IH.
Qed.

Lemma find_text_split (pattern text before at_match : list ascii) :
  find_text pattern text = Some (before, at_match) ->
  text = before ++ at_match /\ is_prefix pattern at_match = true.
Proof.
  revert before. induction text as [|c text IH]; intros before; cbn [find_text].
  { destruct (is_prefix pattern []) eqn:E; intros H; by simplify_eq. }
  destruct (is_prefix pattern (c :: text)) eqn:E; intros H; [by simplify_eq|].
  destruct (find_text pattern text) as [[b a]|] eqn:F; simplify_eq.
  by destruct (IH b eq_refl) as [-> ?].
Qed.

Lemma is_prefix_length (pattern text : list ascii) :
  is_prefix pattern text = true -> (length pattern <= length text)%nat.
Proof.
  revert text. induction pattern as [|p pattern IH]; intros [|c text]; cbn; try (lia || done).
  rewrite andb_true_iff. intros [_ H]. specialize (IH _ H). lia.
Qed.

Lemma read_block_shorter (text rest : list ascii) (block : PemBlock) :
  read_block text = inr (block, rest) -> (length rest <= length text)%nat.
Proof.
  unfold read_block. intros H.
  destruct (find_text kDashes text) as [[t a]|] eqn:E1; [|done].
  destruct (find_text [newline] a) as [[eol b]|] eqn:E2; [|done].
  destruct (find_text (end_marker t) b) as [[[|c body] e]|] eqn:E3; [done| |done].
  destruct (List.filter IsBase64Char body); [done|].
  destruct (Base64.Base64Decode _); simplify_eq.
  apply find_text_split in E1 as [-> _], E2 as [-> _], E3 as [-> _].
  rewrite length_drop, !length_app. lia.
Qed.

(** More turns than characters change nothing: the loop over the blocks ends by itself. *)
Lemma blocks_loop_fuel (fuel fuel' : nat) (text : list ascii) (blocks : list PemBlock) :
  (length text < fuel)%nat -> (length text < fuel')%nat ->
  blocks_loop fuel text blocks = blocks_loop fuel' text blocks.
Proof.
  revert fuel' text blocks. induction fuel as [|fuel IH]; intros fuel' text blocks H H'; [lia|].
  destruct fuel' as [|fuel']; [lia|]. cbn [blocks_loop].
  destruct (find_text kBegin text) as [[b a]|] eqn:E; [|done].
  destruct (read_block (drop (length kBegin) a)) as [|[block rest]] eqn:R; [done|].
  apply find_text_split in E as [-> P]. apply is_prefix_length in P.
  apply read_block_shorter in R. rewrite length_drop in R. rewrite length_app in H, H'.
  change (length kBegin) with 11%nat in *. apply IH; lia.
Qed.

(** ** Written blocks

    A block as a writer lays it out: free text before it, its type, the rest of
    the line of the opening marker, and lines of Base64 text. *)

Record PemText := MkPemText {
  pt_gap : list ascii;
  pt_type : list ascii;
  pt_line_end : list ascii;
  pt_lines : list ascii;
  pt_der : bytes
}.

Definition dash : ascii := "-"%char.

Definition pem_ok (b : PemText) : Prop :=
  dash ∉ pt_gap b /\ dash ∉ pt_type b /\ newline ∉ pt_line_end b /\ dash ∉ pt_lines b /\
  pt_der b <> [] /\ List.filter IsBase64Char (pt_lines b) = Base64.encode_loop (pt_der b).

Definition write_pem_block (b : PemText) : list ascii :=
  pt_gap b ++ kBegin ++ pt_type b ++ kDashes ++ pt_line_end b ++ [newline] ++ pt_lines b ++ end_marker (pt_type b).

Definition write_pem (l : list PemText) (tail : list ascii) : list ascii :=
  concat (map write_pem_block l) ++ tail.

Definition loaded (b : PemText) : PemBlock := MkPemBlock (pt_type b) (pt_der b).

(** Lines of [width] characters, each closed by a line feed. *)
Fixpoint wrap_lines (fuel width : nat) (l : list ascii) : list ascii :=
  match fuel, l with
  | S fuel', _ :: _ => take width l ++ newline :: wrap_lines fuel' width (drop width l)
  | _, _ => []
  end.

Definition pem_text (type : list ascii) (der : bytes) : PemText :=
  let body := Base64.encode_loop der in MkPemText [] type [] (wrap_lines (length body) 64 body) der.

Lemma IsBase64Char_alphabet : forall i, 0 <= i < 64 ->
  IsBase64Char (Base64.alphabet_at i) = true /\ Base64.alphabet_at i <> dash.
Proof.
  intros i Hi.
  assert (forallb (fun k => let c := Base64.alphabet_at (Z.of_nat k) in
      IsBase64Char c && negb (Ascii.eqb c dash)) (seq 0 64) = true) as H by (vm_compute; reflexivity).
  rewrite forallb_forall in H. specialize (H (Z.to_nat i)).
  rewrite Z2Nat.id, andb_true_iff, negb_true_iff, Ascii.eqb_neq in H by lia.
  apply H, in_seq. lia.
Qed.

Lemma wrap_lines_filter (fuel width : nat) (l : list ascii) :
  (0 < width)%nat -> (length l <= fuel)%nat -> Forall (fun c => IsBase64Char c = true) l ->
  List.filter IsBase64Char (wrap_lines fuel width l) = l.
Proof.
  intros Hw. revert l. induction fuel as [|fuel IH]; intros l Hl Hb; [by destruct l; cbn in *; try lia|].
  destruct l as [|c l']; [done|]. cbn [wrap_lines]. set (l := c :: l') in *.
  rewrite List.filter_app. cbn [List.filter]. change (IsBase64Char newline) with false. cbn iota.
  rewrite Base64.filter_id by (by apply Forall_take).
  rewrite IH; [by rewrite take_drop| |by apply Forall_drop].
  rewrite length_drop. unfold l in *. cbn [length] in *. lia.
Qed.

Lemma wrap_lines_Forall (P : ascii -> Prop) (fuel width : nat) (l : list ascii) :
  P newline -> Forall P l -> Forall P (wrap_lines fuel width l).
Proof.
  intros Hn. revert l. induction fuel as [|fuel IH]; intros l Hl; [done|].
  destruct l as [|c l']; [done|]. cbn [wrap_lines]. apply Forall_app. split; [by apply Forall_take|].
  constructor; [done|]. by apply IH, Forall_drop.
Qed.

(** The usual layout is one of those. *)
Lemma pem_text_ok (type : list ascii) (der : bytes) : dash ∉ type -> der <> [] -> pem_ok (pem_text type der).
Proof.
  intros Ht Hd. unfold pem_ok, pem_text. cbn.
  assert (forall l, Forall (fun c => IsBase64Char c = true /\ c <> dash) (Base64.encode_loop l)) as HF.
  { intros l. apply Base64.encode_loop_Forall; [apply IsBase64Char_alphabet|done]. }
  split_and!; try done; try apply not_elem_of_nil.
  - intros Hin. assert (Forall (fun c => c <> dash) (wrap_lines (length (Base64.encode_loop der)) 64 (Base64.encode_loop der))) as Hall.
    { apply wrap_lines_Forall; [done|]. eapply Forall_impl; [apply HF|by intros ? []]. }
    rewrite Forall_forall in Hall. by apply (Hall dash Hin).
  - apply wrap_lines_filter; [lia|done|]. eapply Forall_impl; [apply HF|by intros ? []].
Qed.

Lemma read_block_written (b : PemText) (rest : list ascii) :
  pem_ok b ->
  read_block (pt_type b ++ kDashes ++ pt_line_end b ++ [newline] ++ pt_lines b ++ end_marker (pt_type b) ++ rest)
  = inr (loaded b, rest).
Proof.
  intros (_ & Ht & Hn & Hl & Hd & Hf). unfold read_block.
  change kDashes with (dash :: chars "----"). rewrite find_text_first by done.
  change (dash :: chars "----") with kDashes. rewrite (app_assoc kDashes).
  rewrite (find_text_first newline []).
  2:{ intros [Hin|Hin]%elem_of_app; [|done]. revert Hin. unfold kDashes. cbn. set_solver. }
  cbn [app]. change (newline :: pt_lines b ++ end_marker (pt_type b) ++ rest)
    with ((newline :: pt_lines b) ++ end_marker (pt_type b) ++ rest).
  assert (end_marker (pt_type b) = dash :: (chars "----END " ++ pt_type b ++ kDashes)) as Em by done.
  rewrite Em at 1. rewrite Em at 1.
  rewrite (find_text_first dash (chars "----END " ++ pt_type b ++ kDashes) (newline :: pt_lines b) rest)
    by (apply not_elem_of_cons; by split). rewrite <- Em.
  rewrite Hf. pose proof (Base64.Base64_decode_encode (pt_der b)) as E. unfold Base64.Base64Encode in E.
  rewrite E. destruct (Base64.encode_loop (pt_der b)) eqn:En.
  { exfalso. apply Hd. cbn in E. unfold Base64.Base64Decode in E. cbn in E. by injection E. }
  by rewrite drop_app_length.
Qed.

Lemma blocks_loop_written (l : list PemText) (tail : list ascii) (fuel : nat) (blocks : list PemBlock) :
  Forall pem_ok l -> dash ∉ tail -> (length l < fuel)%nat ->
  blocks_loop fuel (write_pem l tail) blocks = inr (blocks ++ map loaded l).
Proof.
  intros Hl Ht. revert fuel blocks. induction Hl as [|b l Hb Hl IH]; intros fuel blocks Hf;
    (destruct fuel as [|fuel]; [cbn in Hf; lia|]); cbn [blocks_loop].
  - unfold write_pem. cbn [map concat app].
    change kBegin with (dash :: chars "----BEGIN "). rewrite find_text_absent by done. by rewrite app_nil_r.
  - unfold write_pem. cbn [map concat]. unfold write_pem_block at 1. rewrite <- !app_assoc.
    change kBegin with (dash :: chars "----BEGIN ").
    rewrite (find_text_first dash (chars "----BEGIN ") (pt_gap b)) by apply Hb.
    change (dash :: chars "----BEGIN ") with kBegin. rewrite drop_app_length.
    rewrite read_block_written by done.
    change (concat (map write_pem_block l) ++ tail) with (write_pem l tail). rewrite IH by (cbn in Hf; lia).
    by rewrite <- app_assoc.
Qed.

Lemma length_write_pem (l : list PemText) (tail : list ascii) : (length l <= length (write_pem l tail))%nat.
Proof.
  unfold write_pem. rewrite length_app. enough (length l <= length (concat (map write_pem_block l)))%nat by lia.
  induction l as [|b l IH]; cbn [map concat length]; [done|]. rewrite length_app.
  unfold write_pem_block at 1. rewrite !length_app. change (length kBegin) with 11%nat. lia.
Qed.

Lemma byte_char_inv (l : list ascii) : map byte_char (map Ascii.byte_of_ascii l) = l.
Proof.
  rewrite map_map. erewrite map_ext; [apply map_id|]. intros c. apply Ascii.ascii_of_byte_of_ascii.
Qed.

Lemma existsb_loaded (l : list PemText) :
  existsb (fun block => negb (is_sequence (pb_der_payload block))) (map loaded l)
  = existsb (fun b => negb (is_sequence (pt_der b))) l.
Proof. induction l as [|b l IH]; [done|]. cbn [map existsb]. by rewrite IH. Qed.

(** The first octet of a written file is not the tag of a SEQUENCE. *)
Definition not_der (text : list ascii) : Prop :=
  match text with c :: _ => c <> "0"%char | [] => False end.

(** Every PEM file is read back block by block, in order, whatever stands between the blocks, however
    the Base64 text is broken into lines, and with any line ending; under the strict mode this holds
    when every block is a DER SEQUENCE, and one block that is not makes the whole file fail. *)
Theorem Pem_load_written (l : list PemText) (tail : list ascii) (strict_mode : bool) :
  l <> [] -> Forall pem_ok l -> dash ∉ tail -> not_der (write_pem l tail) ->
  LoadAll (map Ascii.byte_of_ascii (write_pem l tail)) strict_mode
  = if strict_mode && existsb (fun b => negb (is_sequence (pt_der b))) l
    then inl "Strict mode expects ASN.1 DER SEQUENCE payload"%string
    else inr (map loaded l).
Proof.
  intros Hne Hl Ht Hd. unfold LoadAll.
  destruct (write_pem l tail) as [|c text] eqn:E; [done|]. cbn [map].
  replace (u8 (Ascii.byte_of_ascii c) =? 0x30) with false.
  2:{ symmetry. apply Z.eqb_neq. intros H. apply Hd. rewrite <- (Ascii.ascii_of_byte_of_ascii c).
      change "0"%char with (Ascii.ascii_of_byte x30). f_equal. by apply u8_inj. }
  rewrite byte_char_inv. unfold byte_char. rewrite Ascii.ascii_of_byte_of_ascii, <- E.
  rewrite blocks_loop_written; [|done..|pose proof (length_write_pem l tail); lia].
  cbn [app]. destruct l as [|b l]; [done|]. cbn [map].
  change (loaded b :: map loaded l) with (map loaded (b :: l)).
  by rewrite existsb_loaded.
Qed.

Lemma Pem_load_written_witness :
  LoadAll (map Ascii.byte_of_ascii (write_pem [pem_text (chars "CERTIFICATE") [x30; x00];
                                               pem_text (chars "PRIVATE KEY") (x30 :: x50 :: repeat x07 80)] [newline])) true
  = inr [MkPemBlock (chars "CERTIFICATE") [x30; x00]; MkPemBlock (chars "PRIVATE KEY") (x30 :: x50 :: repeat x07 80)].
Proof.
  assert (dash ∉ chars "CERTIFICATE" /\ dash ∉ chars "PRIVATE KEY") as [H1 H2]
    by (split; apply (bool_decide_unpack _); vm_compute; exact I).
  rewrite (Pem_load_written [pem_text (chars "CERTIFICATE") [x30; x00];
                             pem_text (chars "PRIVATE KEY") (x30 :: x50 :: repeat x07 80)] [newline] true).
  - reflexivity.
  - discriminate.
  - repeat constructor; apply pem_text_ok; done.
  - apply (bool_decide_unpack _). vm_compute. exact I.
  - vm_compute. discriminate.
Defined.
