(* ===== verification/KeyContainers.v ===== *)
(** * KeyContainers: the IIT and ZS2 private key containers (src/src/lib/core/KeyParsers.cpp)

    [IitKeyContainerParser] ([Key-6.dat]) and [Zs2KeyContainerParser] (PKCS#12
    with Kupyna and Kalyna): the structure of the container, the derivation of
    the key from the password, the decryption and the check that the password
    was right.  The ciphers and digests of the vendored library are the fields
    of [KeyCrypto].

    The source adds [value_offset] and [value_length] of a view for the limit of
    its parts; both lie in the buffer ([Der.ParseTlvAt_safe]), so the sum does
    not wrap. *)

From S2P Require Import Prelude CxxString Der Codec Utf Sha256 Sha1 Jks.

Local Open Scope Z_scope.
Local Open Scope tamga_scope.

(** What the parsers call of the vendored library, [None] for any return code but success. *)
Class KeyCrypto := {
  gost34_311 : bytes -> bytes -> option bytes;          (* synchronisation value, data *)
  gost28147_mac : bytes -> bytes -> option bytes;       (* key, data *)
  gost28147_ecb_decrypt : bytes -> bytes -> option bytes;
  dstu7564_kmac : bytes -> nat -> bytes -> option bytes;  (* key, length of the result, data *)
  dstu7624_cbc_decrypt : bytes -> bytes -> bytes -> option bytes  (* key, iv, data *)
}.

Section Containers.
Context `{HPlat : Platform}.

(** [ParseTlvAt] with a test of the tag behind it. *)
Definition tlv_tagged (t : byte) (data : bytes) (offset limit : Z) : option TlvView :=
  view ← tlv data offset limit;
  if u8 (tag view) =? u8 t then Some view else None.

Definition end_of (view : TlvView) : Z := value_offset view + value_length view.

Definition value_of (data : bytes) (view : TlvView) : bytes :=
  octets data (value_offset view) (value_offset view + value_length view).

Definition OidEquals (data : bytes) (view : TlvView) (expected : bytes) : bool :=
  (u8 (tag view) =? 0x06) && (value_length view =? Z.of_nat (length expected))
  && bool_decide (take (length expected) (drop (Z.to_nat (value_offset view)) data) = expected).

(** ** The IIT container *)

Definition kIitStoreOidValue : bytes := [x2b; x06; x01; x04; x01; x81; x97; x46; x01; x01; x01; x02].
Definition kIitMacLength : nat := 4.
Definition kIitBlockSize : nat := 8.
Definition kIitKeyLength : nat := 32.
Definition kIitKdfPasses : N := 10000.

Record IitContainer := MkIitContainer {
  iit_mac : bytes;
  iit_pad : bytes;
  iit_body : bytes
}.

Definition ParseIitContainer (input : bytes) : option IitContainer :=
  outer ← tlv_tagged x30 input 0 (Z.of_nat (length input));
  algorithm ← tlv_tagged x30 input (value_offset outer) (end_of outer);
  oid ← tlv input (value_offset algorithm) (end_of algorithm);
  if negb (OidEquals input oid kIitStoreOidValue) then None
  else
    params ← tlv_tagged x30 input (next_offset oid) (end_of algorithm);
    mac ← tlv_tagged x04 input (value_offset params) (end_of params);
    pad ← (if next_offset mac <? end_of params then
             view ← tlv_tagged x04 input (next_offset mac) (end_of params);
             Some (value_of input view)
           else Some []);
    body ← tlv_tagged x04 input (next_offset algorithm) (end_of outer);
    Some (MkIitContainer (value_of input mac) pad (value_of input body)).

Definition IitMatches (input : bytes) : bool :=
  match ParseIitContainer input with Some _ => true | None => false end.

Section Crypto.
Context `{KeyCrypto}.

Definition zero_sync : bytes := repeat x00 kIitKeyLength.

(** [ba_to_uint8] copies a result that is not longer than the array and leaves the rest of it. *)
Definition Gost34311Hash (sync data out : bytes) : option bytes :=
  hash ← gost34_311 sync data;
  if (length hash <=? length out)%nat then Some (hash ++ drop (length hash) out) else None.

Definition DeriveIitKey (password : bytes) : option bytes :=
  N.iter (kIitKdfPasses - 1) (fun key => key ← key; Gost34311Hash zero_sync key key)
    (Gost34311Hash zero_sync password (repeat x00 kIitKeyLength)).

(** An empty result has no buffer. *)
Definition ComputeIitMac (key plaintext : bytes) : option bytes :=
  match gost28147_mac key plaintext with
  | Some (b :: mac) => Some (b :: mac)
  | _ => None
  end.

Definition IitDecrypt (input password : bytes) : string + bytes :=
  let! container := ParseIitContainer input else "IIT key container has malformed structure" in
  if negb (length (iit_mac container) =? kIitMacLength)%nat
  then inl "IIT key container has unexpected MAC length"
  else if (kIitBlockSize <=? length (iit_pad container))%nat
  then inl "IIT key container has unexpected padding length"
  else if (length (iit_body container) =? 0)%nat
          || negb ((length (iit_body container) + length (iit_pad container)) mod kIitBlockSize =? 0)%nat
  then inl "IIT key container payload is not block aligned"
  else if (length password =? 0)%nat then inl "IIT key container requires password"
  else
    let! key := DeriveIitKey password else "IIT key derivation failed" in
    let! buffer := gost28147_ecb_decrypt key (iit_body container ++ iit_pad container)
      else "IIT key container decryption failed" in
    if (length buffer <? length (iit_body container))%nat
    then inl "IIT key container decryption produced short output"
    else
      let plaintext := take (length (iit_body container)) buffer in
      let! computed_mac := ComputeIitMac key plaintext else "IIT key container MAC computation failed" in
      if (length computed_mac <? kIitMacLength)%nat
         || negb (bool_decide (iit_mac container = take (length (iit_mac container)) computed_mac))
      then inl "IIT key container password is incorrect (MAC mismatch)"
      else inr plaintext.

End Crypto.

(** ** The ZS2 container *)

Definition kZs2KeyLength : nat := 32.
Definition kZs2BlockSize : nat := 32.
Definition kOidPkcs7Data : bytes := [x2a; x86; x48; x86; xf7; x0d; x01; x07; x01].
Definition kOidShroudedKeyBag : bytes := [x2a; x86; x48; x86; xf7; x0d; x01; x0c; x0a; x01; x02].
Definition kOidPbes2 : bytes := [x2a; x86; x48; x86; xf7; x0d; x01; x05; x0d].
Definition kOidPbkdf2 : bytes := [x2a; x86; x48; x86; xf7; x0d; x01; x05; x0c].
Definition kOidKupynaKmac256 : bytes := [x2a; x86; x24; x02; x01; x01; x01; x01; x02; x02; x04].
Definition kOidKalyna256Cbc : bytes := [x2a; x86; x24; x02; x01; x01; x01; x01; x01; x03; x05; x02].

Record Zs2Bag := MkZs2Bag {
  zs2_salt : bytes;
  zs2_iv : bytes;
  zs2_ciphertext : bytes;
  zs2_iterations : Z
}.

Definition tlv_oid (expected : bytes) (data : bytes) (offset limit : Z) : option TlvView :=
  view ← tlv data offset limit;
  if OidEquals data view expected then Some view else None.

(** Offset and length of the content, and the offset behind the structure. *)
Definition ParseDataContentInfo (data : bytes) (offset limit : Z) : option (Z * Z * Z) :=
  info ← tlv_tagged x30 data offset limit;
  oid ← tlv_oid kOidPkcs7Data data (value_offset info) (end_of info);
  explicit0 ← tlv_tagged xa0 data (next_offset oid) (end_of info);
  octets ← tlv_tagged x04 data (value_offset explicit0) (end_of explicit0);
  Some (value_offset octets, value_length octets, next_offset info).

(** [unsigned long], at most four octets. *)
Definition read_iterations (value : bytes) : Z := foldl (fun iters b => Z.lor (Z.shiftl iters 8) (u8 b)) 0 value.

Definition ParseZs2Encryption (data : bytes) (epki : TlvView) : option Zs2Bag :=
  alg ← tlv_tagged x30 data (value_offset epki) (end_of epki);
  pbes2_oid ← tlv_oid kOidPbes2 data (value_offset alg) (end_of alg);
  params ← tlv_tagged x30 data (next_offset pbes2_oid) (end_of alg);
  kdf ← tlv_tagged x30 data (value_offset params) (end_of params);
  kdf_oid ← tlv_oid kOidPbkdf2 data (value_offset kdf) (end_of kdf);
  kdf_params ← tlv_tagged x30 data (next_offset kdf_oid) (end_of kdf);
  salt ← tlv_tagged x04 data (value_offset kdf_params) (end_of kdf_params);
  iterations ← tlv_tagged x02 data (next_offset salt) (end_of kdf_params);
  if (value_length iterations =? 0) || (4 <? value_length iterations) then None
  else
    let iters := read_iterations (value_of data iterations) in
    if iters =? 0 then None
    else
      prf ← tlv_tagged x30 data (next_offset iterations) (end_of kdf_params);
      prf_oid ← tlv_oid kOidKupynaKmac256 data (value_offset prf) (end_of prf);
      enc ← tlv_tagged x30 data (next_offset kdf) (end_of params);
      enc_oid ← tlv_oid kOidKalyna256Cbc data (value_offset enc) (end_of enc);
      enc_params ← tlv_tagged x30 data (next_offset enc_oid) (end_of enc);
      iv ← tlv_tagged x04 data (value_offset enc_params) (end_of enc_params);
      if negb (value_length iv =? Z.of_nat kZs2BlockSize) then None
      else
        body ← tlv_tagged x04 data (next_offset alg) (end_of epki);
        if (value_length body =? 0) || negb (value_length body mod Z.of_nat kZs2BlockSize =? 0) then None
        else Some (MkZs2Bag (value_of data salt) (value_of data iv) (value_of data body) iters).

(** What one bag gives: a failure of the walk, the key bag, or nothing. *)
Inductive BagStep := BagFails | BagFound (bag : Zs2Bag) | BagOther.

Definition read_bag (input : bytes) (bag : TlvView) : BagStep :=
  match tlv input (value_offset bag) (end_of bag) with
  | None => BagFails
  | Some bag_id =>
      if negb (OidEquals input bag_id kOidShroudedKeyBag) then BagOther
      else
        match
          (bag_value ← tlv_tagged xa0 input (next_offset bag_id) (end_of bag);
           tlv_tagged x30 input (value_offset bag_value) (end_of bag_value))
        with
        | None => BagFails
        | Some epki =>
            match ParseZs2Encryption input epki with
            | Some out => BagFound out
            | None => BagOther
            end
        end
  end.

(** The bags of one SafeContents; [fuel] bounds the turns, each of which moves the offset on. *)
Fixpoint bags_loop (fuel : nat) (input : bytes) (bag_offset contents_limit : Z) : BagStep :=
  if contents_limit <=? bag_offset then BagOther
  else
    match fuel with
    | O => BagFails
    | S fuel' =>
        match tlv_tagged x30 input bag_offset contents_limit with
        | None => BagFails
        | Some bag =>
            match read_bag input bag with
            | BagOther => bags_loop fuel' input (next_offset bag) contents_limit
            | step => step
            end
        end
    end.

Fixpoint contents_loop (fuel : nat) (input : bytes) (offset auth_limit : Z) : BagStep :=
  if auth_limit <=? offset then BagOther
  else
    match fuel with
    | O => BagFails
    | S fuel' =>
        match ParseDataContentInfo input offset auth_limit with
        | None => BagFails
        | Some (contents_offset, contents_length, next) =>
            match tlv_tagged x30 input contents_offset (contents_offset + contents_length) with
            | None => BagFails
            | Some safe_contents =>
                match bags_loop (length input) input (value_offset safe_contents) (end_of safe_contents) with
                | BagOther => contents_loop fuel' input next auth_limit
                | step => step
                end
            end
        end
    end.

Definition ParseZs2FirstBag (input : bytes) : option Zs2Bag :=
  pfx ← tlv_tagged x30 input 0 (Z.of_nat (length input));
  version ← tlv_tagged x02 input (value_offset pfx) (end_of pfx);
  '(safe_offset, safe_length, _) ← ParseDataContentInfo input (next_offset version) (end_of pfx);
  auth_safe ← tlv_tagged x30 input safe_offset (safe_offset + safe_length);
  match contents_loop (length input) input (value_offset auth_safe) (end_of auth_safe) with
  | BagFound bag => Some bag
  | _ => None
  end.

Definition Zs2Matches (input : bytes) : bool :=
  match ParseZs2FirstBag input with Some _ => true | None => false end.

Section Crypto.
Context `{KeyCrypto}.

Definition Zs2Kmac (key data : bytes) : option bytes :=
  mac ← dstu7564_kmac key kZs2KeyLength data;
  if (length mac =? kZs2KeyLength)%nat then Some mac else None.

(** One turn of the derivation: the last block and the sum of all of them. *)
Definition kdf_step (kmac_key : bytes) (state : option (bytes * bytes)) : option (bytes * bytes) :=
  '(u, derived) ← state;
  next ← Zs2Kmac kmac_key u;
  Some (next, xor_bytes derived next).

Definition kmac_key_of (password : bytes) : bytes :=
  let copied := take (Nat.min (length password) kZs2KeyLength) password in
  copied ++ repeat x00 (kZs2KeyLength - length copied).

Definition DeriveZs2Key (password salt : bytes) (iterations : Z) : option bytes :=
  let kmac_key := kmac_key_of password in
  u ← Zs2Kmac kmac_key (salt ++ [x00; x00; x00; x01]);
  snd <$> N.iter (Z.to_N (iterations - 1)) (kdf_step kmac_key) (Some (u, u)).

Definition last_octet (l : bytes) : Z := match last l with Some b => u8 b | None => 0 end.

Definition Zs2Decrypt (input password : bytes) : string + bytes :=
  let! bag := ParseZs2FirstBag input
    else "ZS2 key container has malformed structure or unsupported algorithms" in
  if (length password =? 0)%nat then inl "ZS2 key container requires password"
  else
    let! key := DeriveZs2Key password (zs2_salt bag) (zs2_iterations bag) else "ZS2 key derivation failed" in
    let! padded := dstu7624_cbc_decrypt key (zs2_iv bag) (zs2_ciphertext bag)
      else "ZS2 key container decryption failed" in
    let pad := last_octet padded in
    let size := Z.of_nat (length padded) in
    if (pad =? 0) || (Z.of_nat kZs2BlockSize <? pad) || (size <? pad)
       || negb (forallb (fun b => u8 b =? pad) (drop (Z.to_nat (size - pad)) padded))
    then inl "ZS2 key container password is incorrect (padding mismatch)"
    else
      let pkcs8 := take (Z.to_nat (size - pad)) padded in
      match tlv pkcs8 0 (Z.of_nat (length pkcs8)) with
      | Some check =>
          if (u8 (tag check) =? 0x30) && (next_offset check =? Z.of_nat (length pkcs8)) then inr pkcs8
          else inl "ZS2 key container did not decrypt into a DER private key"
      | None => inl "ZS2 key container did not decrypt into a DER private key"
      end.

End Crypto.

(** ** Regions of a buffer

    [region data off content lim]: the octets from [off] up to [lim] are
    [content].  Reading a DER value at the start of a region gives the region of
    its contents and the region behind it. *)

Definition region (data : bytes) (off : Z) (content : bytes) (lim : Z) : Prop :=
  exists pre post, data = pre ++ content ++ post /\ off = Z.of_nat (length pre) /\
    lim = Z.of_nat (length pre + length content).

Lemma region_all (data : bytes) : region data 0 data (Z.of_nat (length data)).
Proof. exists [], []. by rewrite app_nil_r. Qed.

Lemma region_octets (data content : bytes) (off lim : Z) :
  region data off content lim -> octets data off lim = content.
Proof.
  intros (pre & post & -> & -> & ->). unfold octets. rewrite Nat2Z.id, drop_app_length.
  replace (Z.to_nat (Z.of_nat (length pre + length content) - Z.of_nat (length pre))) with (length content) by lia.
  by rewrite take_app_length.
Qed.

Lemma region_length (data content : bytes) (off lim : Z) :
  region data off content lim -> lim = off + Z.of_nat (length content).
Proof. intros (pre & post & _ & -> & ->). lia. Qed.

Record value_at (data : bytes) (view : TlvView) (t : byte) (v rest : bytes) (off lim : Z) : Prop := {
  at_tag : tag view = t;
  at_value : region data (value_offset view) v (end_of view);
  at_rest : region data (next_offset view) rest lim;
  at_next : next_offset view = off + Z.of_nat (length (der_tlv t v))
}.

Lemma region_tlv (data v rest : bytes) (t : byte) (off lim : Z) :
  fits data -> region data off (der_tlv t v ++ rest) lim ->
  exists view, tlv data off lim = Some view /\ value_at data view t v rest off lim.
Proof.
  intros Hfit (pre & post & E & -> & ->). rewrite <- app_assoc in E.
  pose proof (ParseTlvAt_vec_encode pre (rest ++ post) v t
    (Z.of_nat (length pre + length (der_tlv t v ++ rest)))) as P.
  rewrite <- E in P. unfold tlv. rewrite P by (rewrite ?length_app; (done || lia)). clear P.
  eexists. split; [reflexivity|]. unfold end_of.
  assert (length (der_tlv t v) = 1 + length (der_length (Z.of_nat (length v))) + length v)%nat as L
    by (unfold der_tlv; cbn [length]; rewrite length_app; lia).
  constructor; cbn [tag value_offset value_length next_offset]; [done| | |lia].
  - exists (pre ++ t :: der_length (Z.of_nat (length v))), (rest ++ post).
    split; [|unfold end_of; cbn [value_offset value_length]; rewrite length_app; cbn [length]; lia].
    rewrite E. unfold der_tlv. by rewrite <- !app_assoc; cbn [app]; rewrite <- !app_assoc.
  - exists (pre ++ der_tlv t v), post. rewrite <- app_assoc. split; [done|]. rewrite !length_app. lia.
Qed.

Lemma region_tagged (data v rest : bytes) (t : byte) (off lim : Z) :
  fits data -> region data off (der_tlv t v ++ rest) lim ->
  exists view, tlv_tagged t data off lim = Some view /\ value_at data view t v rest off lim.
Proof.
  intros Hfit R. destruct (region_tlv _ _ _ _ _ _ Hfit R) as (view & E & V). exists view. split; [|done].
  unfold tlv_tagged. rewrite E. cbn. by rewrite (at_tag _ _ _ _ _ _ _ V), Z.eqb_refl.
Qed.

Lemma value_of_at (data v rest : bytes) (view : TlvView) (t : byte) (off lim : Z) :
  value_at data view t v rest off lim -> value_of data view = v.
Proof. intros V. apply region_octets, (at_value _ _ _ _ _ _ _ V). Qed.

Lemma value_length_at (data v rest : bytes) (view : TlvView) (t : byte) (off lim : Z) :
  value_at data view t v rest off lim -> value_length view = Z.of_nat (length v).
Proof.
  intros V. pose proof (region_length _ _ _ _ (at_value _ _ _ _ _ _ _ V)) as H. unfold end_of in H. lia.
Qed.

Lemma OidEquals_at (data v rest expected : bytes) (view : TlvView) (t : byte) (off lim : Z) :
  value_at data view t v rest off lim ->
  OidEquals data view expected = bool_decide (t = x06 /\ v = expected).
Proof.
  intros V. unfold OidEquals. rewrite (at_tag _ _ _ _ _ _ _ V), (value_length_at _ _ _ _ _ _ _ V).
  destruct (at_value _ _ _ _ _ _ _ V) as (pre & post & E & -> & _). rewrite E, Nat2Z.id, drop_app_length.
  change 6 with (u8 x06). destruct (Z.eqb_spec (u8 t) (u8 x06)) as [Ht|Ht].
  2:{ symmetry. apply bool_decide_eq_false. intros [-> _]. done. }
  apply u8_inj in Ht as ->. cbn [andb]. destruct (Z.eqb_spec (Z.of_nat (length v)) (Z.of_nat (length expected))) as [L|L].
  - cbn [andb]. apply Nat2Z.inj in L. rewrite <- L, take_app_length. apply bool_decide_ext. naive_solver.
  - symmetry. apply bool_decide_eq_false. intros [_ ->]. done.
Qed.

Lemma region_oid (data v rest : bytes) (off lim : Z) :
  fits data -> region data off (der_tlv x06 v ++ rest) lim ->
  exists view, tlv_oid v data off lim = Some view /\ value_at data view x06 v rest off lim.
Proof.
  intros Hfit R. destruct (region_tlv _ _ _ _ _ _ Hfit R) as (view & E & V). exists view. split; [|done].
  unfold tlv_oid. rewrite E. cbn. by rewrite (OidEquals_at _ _ _ _ _ _ _ _ V), bool_decide_true.
Qed.

End Containers.

(** Reads the next value: [lemma] at region [R], the contents as [V] and what is behind as [N]. *)
Ltac enter lemma R view A V N :=
  let E := fresh in
  edestruct lemma as (view & E & A); [eassumption|exact R|];
  pose proof (at_value _ _ _ _ _ _ _ A) as V;
  pose proof (at_rest _ _ _ _ _ _ _ A) as N;
  rewrite E; cbn [mbind option_bind]; clear E.

Section Written.
Context `{HPlat : Platform}.

(** ** The IIT container read back *)

Definition write_iit (mac pad body : bytes) : bytes :=
  der_tlv x30 (der_tlv x30 (der_tlv x06 kIitStoreOidValue ++ der_tlv x30 (der_tlv x04 mac ++ der_tlv x04 pad))
               ++ der_tlv x04 body).

Lemma region_nil_r (data content : bytes) (off lim : Z) :
  region data off content lim -> region data off (content ++ []) lim.
Proof. by rewrite app_nil_r. Qed.

Lemma ParseIit_written (mac pad body : bytes) :
  fits (write_iit mac pad body) -> ParseIitContainer (write_iit mac pad body) = Some (MkIitContainer mac pad body).
Proof.
  intros Hfit. unfold ParseIitContainer. set (input := write_iit mac pad body) in *.
  pose proof (region_nil_r _ _ _ _ (region_all input)) as R. unfold input at 2, write_iit in R.
  enter region_tagged R outer A1 R1 N1.
  enter region_tagged R1 algorithm A2 R2 N2.
  enter region_tlv R2 oid A3 R3 N3.
  rewrite (OidEquals_at _ _ _ _ _ _ _ _ A3), bool_decide_true by done. cbn [negb].
  apply region_nil_r in N3. enter region_tagged N3 params A4 R4 N4.
  enter region_tagged R4 m A5 R5 N5.
  rewrite (proj2 (Z.ltb_lt _ _)).
  2:{ rewrite (region_length _ _ _ _ N5). unfold der_tlv. cbn [length]. lia. }
  apply region_nil_r in N5. enter region_tagged N5 p A6 R6 N6.
  apply region_nil_r in N2. enter region_tagged N2 b A7 R7 N7.
  by rewrite (value_of_at _ _ _ _ _ _ _ A5), (value_of_at _ _ _ _ _ _ _ A6), (value_of_at _ _ _ _ _ _ _ A7).
Qed.

(** ** The ZS2 container read back *)

Definition write_content_info (content : bytes) : bytes :=
  der_tlv x30 (der_tlv x06 kOidPkcs7Data ++ der_tlv xa0 (der_tlv x04 content)).

(** What a writer is free to choose: the octets of the iteration count, the parameters behind the
    digest and behind the initial vector. *)
Record Zs2Text := MkZs2Text {
  zt_salt : bytes;
  zt_iterations : bytes;
  zt_prf_parameters : bytes;
  zt_iv : bytes;
  zt_scheme_parameters : bytes;
  zt_ciphertext : bytes
}.

Definition zs2_ok (z : Zs2Text) : Prop :=
  (1 <= length (zt_iterations z) <= 4)%nat /\ read_iterations (zt_iterations z) <> 0 /\
  length (zt_iv z) = kZs2BlockSize /\ zt_ciphertext z <> [] /\
  Z.of_nat (length (zt_ciphertext z)) mod Z.of_nat kZs2BlockSize = 0.

Definition zs2_bag (z : Zs2Text) : Zs2Bag :=
  MkZs2Bag (zt_salt z) (zt_iv z) (zt_ciphertext z) (read_iterations (zt_iterations z)).

Definition write_kdf (z : Zs2Text) : bytes :=
  der_tlv x30 (der_tlv x06 kOidPbkdf2 ++
    der_tlv x30 (der_tlv x04 (zt_salt z) ++ der_tlv x02 (zt_iterations z) ++
                 der_tlv x30 (der_tlv x06 kOidKupynaKmac256 ++ zt_prf_parameters z))).

Definition write_scheme (z : Zs2Text) : bytes :=
  der_tlv x30 (der_tlv x06 kOidKalyna256Cbc ++ der_tlv x30 (der_tlv x04 (zt_iv z) ++ zt_scheme_parameters z)).

Definition write_epki (z : Zs2Text) : bytes :=
  der_tlv x30 (der_tlv x06 kOidPbes2 ++ der_tlv x30 (write_kdf z ++ write_scheme z)) ++ der_tlv x04 (zt_ciphertext z).

Definition write_key_bag (z : Zs2Text) (attributes : bytes) : bytes :=
  der_tlv x30 (der_tlv x06 kOidShroudedKeyBag ++ der_tlv xa0 (der_tlv x30 (write_epki z)) ++ attributes).

(** A bag of another kind: its identifier and what follows. *)
Definition write_other_bag (b : bytes * bytes) : bytes := der_tlv x30 (der_tlv x06 b.1 ++ b.2).

Definition other_ok (b : bytes * bytes) : Prop := b.1 <> kOidShroudedKeyBag.

Definition write_bags (l : list (bytes * bytes)) : bytes := concat (map write_other_bag l).

Definition write_safe (bags : bytes) : bytes := write_content_info (der_tlv x30 bags).

Definition write_pfx (safes : list (list (bytes * bytes))) (others : list (bytes * bytes)) (z : Zs2Text)
    (attributes behind more version mac_data : bytes) : bytes :=
  der_tlv x30 (der_tlv x02 version ++
    write_content_info (der_tlv x30
      (concat (map (fun bags => write_safe (write_bags bags)) safes) ++
       write_safe (write_bags others ++ write_key_bag z attributes ++ behind) ++ more)) ++ mac_data).

Lemma ParseZs2Encryption_written (data rest : bytes) (z : Zs2Text) (epki : TlvView) (off lim : Z) :
  fits data -> zs2_ok z -> value_at data epki x30 (write_epki z) rest off lim ->
  ParseZs2Encryption data epki = Some (zs2_bag z).
Proof.
  intros Hfit (Hi & Hn & Hiv & Hc & Hm) V. unfold ParseZs2Encryption.
  pose proof (at_value _ _ _ _ _ _ _ V) as R. unfold write_epki in R.
  enter region_tagged R alg A1 R1 N1.
  enter region_oid R1 pbes2_oid A2 R2 N2.
  apply region_nil_r in N2. enter region_tagged N2 params A3 R3 N3.
  unfold write_kdf in R3. enter region_tagged R3 kdf A4 R4 N4.
  enter region_oid R4 kdf_oid A5 R5 N5.
  apply region_nil_r in N5. enter region_tagged N5 kdf_params A6 R6 N6.
  enter region_tagged R6 salt A7 R7 N7.
  enter region_tagged N7 iterations A8 R8 N8.
  rewrite (value_length_at _ _ _ _ _ _ _ A8), (value_of_at _ _ _ _ _ _ _ A8).
  rewrite (proj2 (Z.eqb_neq _ _)), (proj2 (Z.ltb_ge _ _)) by lia. cbn [orb].
  rewrite (proj2 (Z.eqb_neq _ _)) by done.
  apply region_nil_r in N8. enter region_tagged N8 prf A9 R9 N9.
  enter region_oid R9 prf_oid A10 R10 N10.
  unfold write_scheme in N4. apply region_nil_r in N4. enter region_tagged N4 enc A11 R11 N11.
  enter region_oid R11 enc_oid A12 R12 N12.
  apply region_nil_r in N12. enter region_tagged N12 enc_params A13 R13 N13.
  enter region_tagged R13 iv A14 R14 N14.
  rewrite (value_length_at _ _ _ _ _ _ _ A14), Hiv, Z.eqb_refl. cbn [negb].
  apply region_nil_r in N1. enter region_tagged N1 body A15 R15 N15.
  rewrite (value_length_at _ _ _ _ _ _ _ A15), Hm, Z.eqb_refl.
  rewrite (proj2 (Z.eqb_neq _ _)) by (destruct (zt_ciphertext z); [done|cbn [length]; lia]). cbn [negb orb].
  by rewrite (value_of_at _ _ _ _ _ _ _ A7), (value_of_at _ _ _ _ _ _ _ A14), (value_of_at _ _ _ _ _ _ _ A15).
Qed.

Lemma read_bag_key (data attributes rest : bytes) (z : Zs2Text) (bag : TlvView) (off lim : Z) :
  fits data -> zs2_ok z ->
  value_at data bag x30 (der_tlv x06 kOidShroudedKeyBag ++ der_tlv xa0 (der_tlv x30 (write_epki z)) ++ attributes)
    rest off lim ->
  read_bag data bag = BagFound (zs2_bag z).
Proof.
  intros Hfit Hz V. unfold read_bag. pose proof (at_value _ _ _ _ _ _ _ V) as R.
  enter region_tlv R bag_id A1 R1 N1.
  rewrite (OidEquals_at _ _ _ _ _ _ _ _ A1), bool_decide_true by done. cbn [negb].
  enter region_tagged N1 bag_value A2 R2 N2.
  apply region_nil_r in R2. enter region_tagged R2 epki A3 R3 N3.
  by rewrite (ParseZs2Encryption_written _ _ _ _ _ _ Hfit Hz A3).
Qed.

Lemma read_bag_other (data rest : bytes) (b : bytes * bytes) (bag : TlvView) (off lim : Z) :
  fits data -> other_ok b -> value_at data bag x30 (der_tlv x06 b.1 ++ b.2) rest off lim ->
  read_bag data bag = BagOther.
Proof.
  intros Hfit Hb V. unfold read_bag. pose proof (at_value _ _ _ _ _ _ _ V) as R.
  enter region_tlv R bag_id A1 R1 N1.
  rewrite (OidEquals_at _ _ _ _ _ _ _ _ A1), bool_decide_false by (intros [_ ?]; done). done.
Qed.

Lemma length_der_tlv (t : byte) (v : bytes) : (0 < length (der_tlv t v))%nat.
Proof. unfold der_tlv. cbn [length]. lia. Qed.

Lemma bags_loop_step (fuel : nat) (data v rest : bytes) (off lim : Z) :
  fits data -> region data off (der_tlv x30 v ++ rest) lim ->
  exists bag, value_at data bag x30 v rest off lim /\
    bags_loop (S fuel) data off lim =
    match read_bag data bag with BagOther => bags_loop fuel data (next_offset bag) lim | step => step end.
Proof.
  intros Hfit R. destruct (region_tagged _ _ _ _ _ _ Hfit R) as (bag & E & A). exists bag. split; [done|].
  cbn [bags_loop]. rewrite (proj2 (Z.leb_gt _ _)), E; [done|].
  rewrite (region_length _ _ _ _ R), length_app. pose proof (length_der_tlv x30 v). lia.
Qed.

Lemma bags_loop_others (l : list (bytes * bytes)) (fuel : nat) (data rest : bytes) (off lim : Z) :
  fits data -> Forall other_ok l -> region data off (write_bags l ++ rest) lim ->
  exists off', region data off' rest lim /\
    bags_loop (length l + fuel) data off lim = bags_loop fuel data off' lim.
Proof.
  intros Hfit Hl. revert off. induction Hl as [|b l Hb Hl IH]; intros off R; [by exists off|].
  unfold write_bags in R. cbn [map concat] in R. rewrite <- app_assoc in R. unfold write_other_bag at 1 in R.
  cbn [length Nat.add]. destruct (bags_loop_step (length l + fuel) _ _ _ _ _ Hfit R) as (bag & A & ->).
  rewrite (read_bag_other _ _ _ _ _ _ Hfit Hb A). apply IH, (at_rest _ _ _ _ _ _ _ A).
Qed.

Lemma bags_loop_end (fuel : nat) (data : bytes) (off lim : Z) :
  region data off [] lim -> bags_loop fuel data off lim = BagOther.
Proof.
  intros R. apply region_length in R. destruct fuel; cbn [bags_loop];
    (rewrite (proj2 (Z.leb_le _ _)); [done|cbn in R; lia]).
Qed.

Lemma ParseDataContentInfo_written (data content rest : bytes) (off lim : Z) :
  fits data -> region data off (write_content_info content ++ rest) lim ->
  exists o next, ParseDataContentInfo data off lim = Some (o, Z.of_nat (length content), next) /\
    region data o content (o + Z.of_nat (length content)) /\ region data next rest lim.
Proof.
  intros Hfit R. unfold ParseDataContentInfo, write_content_info in *.
  enter region_tagged R info A1 R1 N1.
  enter region_oid R1 oid A2 R2 N2.
  apply region_nil_r in N2. enter region_tagged N2 explicit0 A3 R3 N3.
  apply region_nil_r in R3. enter region_tagged R3 content_octets A4 R4 N4.
  rewrite (value_length_at _ _ _ _ _ _ _ A4). eexists _, _. split; [reflexivity|].
  pose proof (region_length _ _ _ _ R4) as L. rewrite <- L. done.
Qed.

Lemma contents_loop_step (fuel : nat) (data bags rest : bytes) (off lim : Z) :
  fits data -> region data off (write_safe bags ++ rest) lim ->
  exists o l next, region data o bags l /\ region data next rest lim /\
    contents_loop (S fuel) data off lim =
    match bags_loop (length data) data o l with
    | BagOther => contents_loop fuel data next lim
    | step => step
    end.
Proof.
  intros Hfit R. assert (off < lim) as Hlt.
  { rewrite (region_length _ _ _ _ R), length_app. unfold write_safe, write_content_info.
    pose proof (length_der_tlv x30 (der_tlv x06 kOidPkcs7Data ++ der_tlv xa0 (der_tlv x04 (der_tlv x30 bags)))). lia. }
  unfold write_safe in R. destruct (ParseDataContentInfo_written _ _ _ _ _ Hfit R) as (o & next & E & Rc & Rn).
  apply region_nil_r in Rc. destruct (region_tagged _ _ _ _ _ _ Hfit Rc) as (safe & Es & As).
  exists (value_offset safe), (end_of safe), next.
  split; [apply (at_value _ _ _ _ _ _ _ As)|]. split; [done|].
  cbn [contents_loop]. by rewrite (proj2 (Z.leb_gt _ _)), E, Es by done.
Qed.

Lemma length_write_bags (l : list (bytes * bytes)) : (length l <= length (write_bags l))%nat.
Proof.
  unfold write_bags. induction l as [|b l IH]; cbn [map concat length]; [done|].
  rewrite length_app. unfold write_other_bag at 1. pose proof (length_der_tlv x30 (der_tlv x06 b.1 ++ b.2)). lia.
Qed.

Lemma region_bound (data content : bytes) (off lim : Z) :
  region data off content lim -> (length content <= length data)%nat.
Proof. intros (pre & post & -> & _). rewrite !length_app. lia. Qed.

Lemma contents_loop_found (safes : list (list (bytes * bytes))) (others : list (bytes * bytes)) (z : Zs2Text)
    (attributes behind more data : bytes) (off lim : Z) (fuel : nat) :
  fits data -> Forall (Forall other_ok) safes -> Forall other_ok others -> zs2_ok z ->
  (length safes < fuel)%nat ->
  region data off
    (concat (map (fun bags => write_safe (write_bags bags)) safes) ++
     write_safe (write_bags others ++ write_key_bag z attributes ++ behind) ++ more) lim ->
  contents_loop fuel data off lim = BagFound (zs2_bag z).
Proof.
  intros Hfit Hs Ho Hz. revert fuel off. induction Hs as [|bags safes Hb Hs IH]; intros fuel off Hf R;
    (destruct fuel as [|fuel]; [cbn in Hf; lia|]); cbn [map concat app] in R.
  - destruct (contents_loop_step fuel _ _ _ _ _ Hfit R) as (o & l & next & Rb & Rn & ->).
    assert (length others < length data)%nat as L.
    { pose proof (region_bound _ _ _ _ Rb) as B. rewrite !length_app in B. pose proof (length_write_bags others).
      unfold write_key_bag in B.
      pose proof (length_der_tlv x30 (der_tlv x06 kOidShroudedKeyBag ++ der_tlv xa0 (der_tlv x30 (write_epki z)) ++ attributes)).
      lia. }
    replace (length data) with (length others + S (length data - length others - 1))%nat by lia.
    destruct (bags_loop_others others (S (length data - length others - 1)) _ _ _ _ Hfit Ho Rb) as (o' & Ro & ->).
    unfold write_key_bag in Ro.
    destruct (bags_loop_step (length data - length others - 1) _ _ _ _ _ Hfit Ro) as (bag & A & ->).
    by rewrite (read_bag_key _ _ _ _ _ _ _ Hfit Hz A).
  - rewrite <- app_assoc in R.
    destruct (contents_loop_step fuel _ _ _ _ _ Hfit R) as (o & l & next & Rb & Rn & ->).
    assert (length bags <= length data)%nat as L.
    { pose proof (region_bound _ _ _ _ Rb). pose proof (length_write_bags bags). lia. }
    replace (length data) with (length bags + (length data - length bags))%nat by lia.
    apply region_nil_r in Rb.
    destruct (bags_loop_others bags (length data - length bags) _ _ _ _ Hfit Hb Rb) as (o' & Ro & ->).
    rewrite (bags_loop_end _ _ _ _ Ro). apply IH; [cbn in Hf; lia|done].
Qed.

Lemma ParseZs2FirstBag_written (safes : list (list (bytes * bytes))) (others : list (bytes * bytes)) (z : Zs2Text)
    (attributes behind more version mac_data : bytes)
    (data := write_pfx safes others z attributes behind more version mac_data) :
  fits data -> Forall (Forall other_ok) safes -> Forall other_ok others -> zs2_ok z ->
  ParseZs2FirstBag data = Some (zs2_bag z).
Proof.
  intros Hfit Hs Ho Hz. unfold ParseZs2FirstBag.
  pose proof (region_nil_r _ _ _ _ (region_all data)) as R. unfold data at 2, write_pfx in R.
  enter region_tagged R pfx A1 R1 N1.
  enter region_tagged R1 ver A2 R2 N2.
  destruct (ParseDataContentInfo_written _ _ _ _ _ Hfit N2) as (o & next & -> & Rc & Rn). cbn [mbind option_bind].
  apply region_nil_r in Rc. enter region_tagged Rc auth_safe A3 R3 N3.
  rewrite (contents_loop_found safes others z attributes behind more data); try done.
  pose proof (region_bound _ _ _ _ R3) as B. rewrite !length_app in B.
  assert (length safes <= length (concat (map (fun bags => write_safe (write_bags bags)) safes)))%nat as Ls.
  { clear. induction safes as [|b l IH]; cbn [map concat length]; [done|]. rewrite length_app.
    unfold write_safe at 1, write_content_info.
    pose proof (length_der_tlv x30 (der_tlv x06 kOidPkcs7Data ++ der_tlv xa0 (der_tlv x04 (der_tlv x30 (write_bags b))))). lia. }
  unfold write_safe at 2, write_content_info in B.
  match type of B with context [length (der_tlv x30 ?v)] => pose proof (length_der_tlv x30 v) end. lia.
Qed.

End Written.

(** ** The walks end

    On arbitrary octets every turn moves the offset on, so that turns beyond the
    length of the input change nothing. *)

Section Turns.
Context `{HPlat : Platform}.

Lemma tlv_moves (data : bytes) (off lim : Z) (view : TlvView) :
  fits data -> 0 <= off -> tlv data off lim = Some view -> off < next_offset view.
Proof.
  intros Hfit Ho. unfold tlv, ParseTlvAt_vec.
  set (l := if lim <? Z.of_nat (length data) then lim else Z.of_nat (length data)). assert (l <= Z.of_nat (length data)) as Hl
    by (unfold l; destruct (Z.ltb_spec lim (Z.of_nat (length data))); lia).
  pose proof (ParseTlvAt_safe data off l Hfit Ho Hl) as S.
  destruct (ParseTlvAt data off l); intros [= ->]. lia.
Qed.

Lemma tlv_tagged_moves (data : bytes) (off lim : Z) (t : byte) (view : TlvView) :
  fits data -> 0 <= off -> tlv_tagged t data off lim = Some view -> off < next_offset view.
Proof.
  unfold tlv_tagged. intros Hfit Ho E. destruct (tlv data off lim) as [v|] eqn:T; [|done]. cbn in E.
  destruct (u8 (tag v) =? u8 t); simplify_eq. by eapply tlv_moves.
Qed.

Lemma bags_loop_fuel (data : bytes) (fuel fuel' : nat) (off lim : Z) :
  fits data -> 0 <= off -> lim - off <= Z.of_nat fuel -> lim - off <= Z.of_nat fuel' ->
  bags_loop fuel data off lim = bags_loop fuel' data off lim.
Proof.
  intros Hfit. revert fuel' off. induction fuel as [|fuel IH]; intros fuel' off Ho H1 H2;
    (destruct (Z.leb_spec lim off);
     [destruct fuel'; cbn [bags_loop]; by rewrite (proj2 (Z.leb_le lim off))|]); [lia|].
  destruct fuel' as [|fuel']; [lia|]. cbn [bags_loop]. rewrite (proj2 (Z.leb_gt lim off)) by done.
  destruct (tlv_tagged x30 data off lim) as [bag|] eqn:E; [|done].
  apply tlv_tagged_moves in E; [|done..]. destruct (read_bag data bag); [done|done|]. apply IH; lia.
Qed.

Lemma contents_loop_fuel (data : bytes) (fuel fuel' : nat) (off lim : Z) :
  fits data -> 0 <= off -> lim - off <= Z.of_nat fuel -> lim - off <= Z.of_nat fuel' ->
  contents_loop fuel data off lim = contents_loop fuel' data off lim.
Proof.
  intros Hfit. revert fuel' off. induction fuel as [|fuel IH]; intros fuel' off Ho H1 H2;
    (destruct (Z.leb_spec lim off);
     [destruct fuel'; cbn [contents_loop]; by rewrite (proj2 (Z.leb_le lim off))|]); [lia|].
  destruct fuel' as [|fuel']; [lia|]. cbn [contents_loop]. rewrite (proj2 (Z.leb_gt lim off)) by done.
  destruct (ParseDataContentInfo data off lim) as [[[o l] next]|] eqn:E; [|done].
  assert (off < next) as Hn.
  { unfold ParseDataContentInfo in E. destruct (tlv_tagged x30 data off lim) as [info|] eqn:T; [|done].
    apply tlv_tagged_moves in T; [|done..]. cbn in E.
    destruct (tlv_oid _ _ _ _); [cbn in E|done]. destruct (tlv_tagged _ _ _ _); [cbn in E|done].
    destruct (tlv_tagged _ _ _ _); [cbn in E|done]. by simplify_eq. }
  destruct (tlv_tagged x30 data o (o + l)) as [safe|]; [|done].
  destruct (bags_loop _ _ _ _); [done|done|]. apply IH; lia.
Qed.

End Turns.

(** ** Correctness of the decryption *)

Section Correctness.
Context `{HPlat : Platform} `{KeyCrypto}.

(** An IIT container that holds [body] and [pad], the two parts of the cipher text of [plaintext]
    and its filling, gives back [plaintext] exactly when the stored authentication code is the one of
    [plaintext] under the key of the password, and otherwise the message of a wrong password: the
    decision rests on the code and not on what the decrypted octets look like. *)
Theorem Iit_decrypt_written (mac pad body password key plaintext filling code : bytes) :
  fits (write_iit mac pad body) ->
  length mac = kIitMacLength -> (length pad < kIitBlockSize)%nat -> body <> [] ->
  ((length body + length pad) mod kIitBlockSize = 0)%nat -> password <> [] ->
  DeriveIitKey password = Some key ->
  gost28147_ecb_decrypt key (body ++ pad) = Some (plaintext ++ filling) -> length plaintext = length body ->
  gost28147_mac key plaintext = Some code -> length code = kIitMacLength ->
  IitDecrypt (write_iit mac pad body) password
  = if bool_decide (mac = code) then inr plaintext
    else inl "IIT key container password is incorrect (MAC mismatch)"%string.
Proof.
  intros Hfit Hm Hp Hb Ha Hpw Hk Hd Hl Hc Hcl. unfold IitDecrypt.
  rewrite ParseIit_written by done. cbn [iit_mac iit_pad iit_body].
  rewrite Hm. cbn [Nat.eqb negb]. rewrite (proj2 (Nat.leb_gt _ _)) by done.
  rewrite Ha. cbn [Nat.eqb negb]. rewrite orb_false_r.
  destruct body as [|b0 body]; [done|]. destruct password as [|p0 password]; [done|].
  change (length (b0 :: body) =? 0)%nat with false. change (length (p0 :: password) =? 0)%nat with false.
  rewrite Hk, Hd. rewrite length_app, Hl. rewrite (proj2 (Nat.ltb_ge _ _)) by lia.
  rewrite <- Hl, take_app_length. unfold ComputeIitMac. rewrite Hc.
  destruct code as [|c0 code]; [done|]. rewrite Hcl. change (kIitMacLength <? kIitMacLength)%nat with false.
  rewrite take_ge by lia. cbn [orb]. by destruct (bool_decide _).
Qed.

(** A ZS2 container, with any other bags before its key bag and anything behind it, gives the private
    key it holds when the password is right: the first key bag protected with Kupyna and Kalyna is
    found, the key derived, and the padding removed. *)
Theorem Zs2_decrypt_written (safes : list (list (bytes * bytes))) (others : list (bytes * bytes)) (z : Zs2Text)
    (attributes behind more version mac_data password key contents : bytes) (pad : nat)
    (data := write_pfx safes others z attributes behind more version mac_data) :
  fits data -> Forall (Forall other_ok) safes -> Forall other_ok others -> zs2_ok z ->
  password <> [] -> fits (der_tlv x30 contents) -> (1 <= pad <= kZs2BlockSize)%nat ->
  DeriveZs2Key password (zt_salt z) (read_iterations (zt_iterations z)) = Some key ->
  dstu7624_cbc_decrypt key (zt_iv z) (zt_ciphertext z)
    = Some (der_tlv x30 contents ++ repeat (to_u8 (Z.of_nat pad)) pad) ->
  Zs2Decrypt data password = inr (der_tlv x30 contents).
Proof.
  intros Hfit Hs Ho Hz Hpw Hk Hp HD HC. unfold Zs2Decrypt, data.
  rewrite ParseZs2FirstBag_written by done. cbn [zs2_bag zs2_salt zs2_iv zs2_ciphertext zs2_iterations].
  destruct password as [|p0 password]; [done|]. change (length (p0 :: password) =? 0)%nat with false.
  rewrite HD, HC. set (pkcs8 := der_tlv x30 contents) in *. unfold kZs2BlockSize in *.
  assert (u8 (to_u8 (Z.of_nat pad)) = Z.of_nat pad) as Eu by (rewrite u8_to_u8; apply Z.mod_small; lia).
  assert (last_octet (pkcs8 ++ repeat (to_u8 (Z.of_nat pad)) pad) = Z.of_nat pad) as ->.
  { unfold last_octet. destruct pad as [|n]; [lia|].
    set (b := to_u8 (Z.of_nat (S n))) in *. cbn [repeat]. rewrite repeat_cons, app_assoc, last_snoc. done. }
  rewrite length_app, repeat_length.
  replace (Z.to_nat (Z.of_nat (length pkcs8 + pad) - Z.of_nat pad)) with (length pkcs8) by lia.
  rewrite drop_app_length, take_app_length.
  rewrite (proj2 (Z.eqb_neq _ _)), !(proj2 (Z.ltb_ge _ _)) by lia. cbn [orb].
  replace (forallb _ _) with true.
  2:{ symmetry. apply forallb_forall. intros b Hb. apply repeat_spec in Hb as ->. rewrite Eu. apply Z.eqb_refl. }
  cbn [negb].
  destruct (region_tlv pkcs8 contents [] x30 0 (Z.of_nat (length pkcs8)) Hk (region_nil_r _ _ _ _ (region_all pkcs8)))
    as (view & E & A). rewrite E, (at_tag _ _ _ _ _ _ _ A), (at_next _ _ _ _ _ _ _ A).
  change (u8 x30 =? 48) with true. by rewrite Z.eqb_refl.
Qed.

(** *** Key derivation *)

(** [U_j] of PBKDF2 with the digest [f]. *)
Definition kdf_block (f : bytes -> bytes) (first : bytes) (j : nat) : bytes := Nat.iter j f first.

Definition kdf_reference (f : bytes -> bytes) (salt : bytes) (iterations : nat) : bytes :=
  let first := f (salt ++ [x00; x00; x00; x01]) in
  foldl xor_bytes first (map (kdf_block f first) (seq 1 (iterations - 1))).

Lemma kdf_iter (f : bytes -> bytes) (kmac_key first : bytes) (n : nat) :
  (forall data, Zs2Kmac kmac_key data = Some (f data)) ->
  Nat.iter n (kdf_step kmac_key) (Some (first, first))
  = Some (kdf_block f first n, foldl xor_bytes first (map (kdf_block f first) (seq 1 n))).
Proof.
  intros Hf. induction n as [|n IH]; [done|].
  rewrite Nat.iter_succ, IH. unfold kdf_step at 1. cbn [mbind option_bind]. rewrite Hf. cbn [mbind option_bind]. do 2 f_equal.
  by rewrite (seq_S n 1), map_app, foldl_app.
Qed.

(** The key of a ZS2 container is the sum of the first [iterations] blocks of PBKDF2 with the keyed
    digest, keyed with the first 32 octets of the password filled up with zeros; so it does not depend
    on what a password has behind its 32nd octet. *)
Theorem DeriveZs2Key_is_reference (f : bytes -> bytes) (password salt : bytes) (iterations : Z) :
  1 <= iterations ->
  (forall data, dstu7564_kmac (kmac_key_of password) 32 data = Some (f data)) -> (forall data, length (f data) = 32%nat) ->
  DeriveZs2Key password salt iterations = Some (kdf_reference f salt (Z.to_nat iterations)) /\
  forall tail, length password = 32%nat -> DeriveZs2Key (password ++ tail) salt iterations = DeriveZs2Key password salt iterations.
Proof.
  intros Hi Hf Hl. assert (forall data, Zs2Kmac (kmac_key_of password) data = Some (f data)) as Hk.
  { intros data. unfold Zs2Kmac, kZs2KeyLength. rewrite Hf. cbn. by rewrite Hl. }
  split.
  - unfold DeriveZs2Key, kdf_reference. rewrite Hk. cbn.
    rewrite N2Nat.inj_iter, (kdf_iter f) by done.
    replace (N.to_nat (Z.to_N (iterations - 1))) with (Z.to_nat iterations - 1)%nat by lia. done.
  - intros tail Hpw. unfold DeriveZs2Key.
    replace (kmac_key_of (password ++ tail)) with (kmac_key_of password); [done|].
    unfold kmac_key_of, kZs2KeyLength. rewrite length_app, Hpw.
    replace (Nat.min (32 + length tail) 32) with 32%nat by lia. change (Nat.min 32 32) with 32%nat.
    by rewrite <- Hpw, take_app_length, (take_ge password) by done.
Qed.

End Correctness.

(** ** Witnesses: ciphers that add a constant *)

Module SampleContainers.

Definition mask (l : bytes) : bytes := map (fun b => to_u8 (Z.lxor (u8 b) 0x5A)) l.
Definition checksum (n : nat) (l : bytes) : bytes :=
  repeat (to_u8 (foldl (fun s b => s * 3 + u8 b) 7 l)) n.

#[local] Instance toy : KeyCrypto := {|
  gost34_311 _ data := Some (checksum 32 (take 4 data));
  gost28147_mac key data := Some (checksum 4 (take 1 key ++ data));
  gost28147_ecb_decrypt _ data := Some (mask data);
  dstu7564_kmac _ n data := Some (checksum n data);
  dstu7624_cbc_decrypt _ _ data := Some (mask data)
|}.

Definition password : bytes := [x70; x77].
Definition plain : bytes := [x30; x03; x02; x01; x05].
Definition cipher : bytes := mask (plain ++ [x01; x02; x03]).
Definition mac : bytes := match DeriveIitKey password with Some key => checksum 4 (take 1 key ++ plain) | None => [] end.

Lemma Iit_decrypt_written_witness :
  IitDecrypt (write_iit mac (drop 5 cipher) (take 5 cipher)) password = inr plain.
Proof.
  rewrite (Iit_decrypt_written mac (drop 5 cipher) (take 5 cipher) password
             (default [] (DeriveIitKey password)) plain [x01; x02; x03] mac); [by vm_compute|..];
    vm_compute; (reflexivity || discriminate || lia).
Defined.

Definition text : Zs2Text :=
  MkZs2Text [x01; x02] [x07; xd0] [] (repeat x09 32) [] (mask (plain ++ repeat (to_u8 27) 27)).

Lemma Zs2_decrypt_written_witness :
  Zs2Decrypt (write_pfx [[([x55], [])]] [([x2a], [x05; x00])] text [] [] [] [x03] []) password = inr plain.
Proof.
  apply (Zs2_decrypt_written [[([x55], [])]] [([x2a], [x05; x00])] text [] [] [] [x03] [] password
           (default [] (DeriveZs2Key password [x01; x02] 2000)) [x02; x01; x05] 27).
  - vm_compute. discriminate.
  - repeat constructor. discriminate.
  - repeat constructor. discriminate.
  - repeat split; vm_compute; (lia || discriminate || reflexivity).
  - discriminate.
  - vm_compute. discriminate.
  - unfold kZs2BlockSize. lia.
  - vm_compute. reflexivity.
  - vm_compute. reflexivity.
Defined.

Lemma DeriveZs2Key_is_reference_witness :
  DeriveZs2Key password [x01] 3 = Some (kdf_reference (checksum 32) [x01] 3).
Proof.
  apply (DeriveZs2Key_is_reference (checksum 32) password [x01] 3); [lia|done|].
  intros data. apply repeat_length.
Defined.

End SampleContainers.
