(* ===== verification/Imprint.v ===== *)
(** * Imprint: the digest of a timestamp imprint

    [core/policy/ImprintDigest.cpp] with [ResolveTspImprint] of
    [core/session/SessionHelpers.ipp].  The digests of the vendored library and
    the digest adapter of a certificate are the fields of [DigestApi]; SHA-256
    is the helper of [Sha256]. *)

From S2P Require Import Prelude CxxString Codec Sha256.

Local Open Scope Z_scope.
Local Open Scope tamga_scope.

Inductive ImprintDigest := Kupyna256 | Gost34311 | DigestSha256 | DigestSha384 | DigestSha512.

#[export] Instance ImprintDigest_eq_dec : EqDecision ImprintDigest.
Proof. solve_decision. Defined.

Record ImprintResult := MkImprintResult {
  im_digest_oid : string;
  im_hash : bytes
}.

Definition ImprintDigestOid (alg : ImprintDigest) : string :=
  match alg with
  | Kupyna256 => "1.2.804.2.1.1.1.1.2.2.1"
  | Gost34311 => "1.2.804.2.1.1.1.1.2.1"
  | DigestSha256 => "2.16.840.1.101.3.4.2.1"
  | DigestSha384 => "2.16.840.1.101.3.4.2.2"
  | DigestSha512 => "2.16.840.1.101.3.4.2.3"
  end.

Definition ShouldUseCertificateAdapter (alg : ImprintDigest) : bool :=
  match alg with Gost34311 => true | _ => false end.

Definition lower (s : string) : string := of_chars (map tolower (chars s)).

Definition listed (s : string) (names : list string) : bool := existsb (fun n => s ==s n) names.

Definition ImprintFromDigestOid (digest_oid : string) : option ImprintDigest :=
  let oid_lower := lower digest_oid in
  if listed oid_lower ["1.2.804.2.1.1.1.1.2.2.1"; "kupyna256"; "kupyna-256"; "dstu7564-256"; "dstu7564_256"; "dstu7564"]
     || starts_with oid_lower "1.2.804.2.1.1.1.1.3"
  then Some Kupyna256
  else if listed oid_lower ["1.2.804.2.1.1.1.1.2.1"; "gost34311"; "gost-34311"] then Some Gost34311
  else if listed oid_lower
         ["2.16.840.1.101.3.4.2.1"; "sha-256"; "sha256"; "1.2.840.113549.1.1.11"; "1.2.840.10045.4.3.2"]
  then Some DigestSha256
  else if listed oid_lower
         ["2.16.840.1.101.3.4.2.2"; "sha-384"; "sha384"; "1.2.840.113549.1.1.12"; "1.2.840.10045.4.3.3"]
  then Some DigestSha384
  else if listed oid_lower
         ["2.16.840.1.101.3.4.2.3"; "sha-512"; "sha512"; "1.2.840.113549.1.1.13"; "1.2.840.10045.4.3.4"]
  then Some DigestSha512
  else None.

Class DigestApi := {
  kupyna256 : bytes -> option bytes;
  gost34311 : bytes -> option bytes;
  sha384 : bytes -> option bytes;
  sha512 : bytes -> option bytes;
  (** [AssignDigestFromCertificateAdapter] up to the digest: the algorithm the certificate's adapter
      names and the digest it computes, or the error text *)
  certificate_adapter : bytes -> bytes -> string + string * (string + bytes);
  (** [CryptoniteAdapter::GetSignerDigestAlgorithmOid] *)
  signer_digest_oid : bytes -> option string
}.

Section Imprint.
Context `{DigestApi}.

Definition computed (alg : ImprintDigest) (hash : option bytes) (message : string) : string + ImprintResult :=
  match hash with
  | Some hash => inr (MkImprintResult (ImprintDigestOid alg) hash)
  | None => inl message
  end.

(** The build is the one with the vendored library. *)
Definition ComputeImprint (alg : ImprintDigest) (data : bytes) : string + ImprintResult :=
  match alg with
  | Kupyna256 => computed alg (kupyna256 data) "Помилка при обчисленні Kupyna-256 через cryptonite"
  | Gost34311 => computed alg (gost34311 data) "Помилка при обчисленні GOST 34.311 через cryptonite"
  | DigestSha256 => computed alg (Some (Sha256 data)) ""
  | DigestSha384 => computed alg (sha384 data) "Помилка при обчисленні SHA-384 через cryptonite"
  | DigestSha512 => computed alg (sha512 data) "Помилка при обчисленні SHA-512 через cryptonite"
  end.

Definition AssignDigestFromCertificateAdapter (certificate_der : bytes) (expected_alg : ImprintDigest) (data : bytes)
    : string + bytes :=
  match certificate_adapter certificate_der data with
  | inl message => inl message
  | inr (actual_oid, digest) =>
      if bool_decide (ImprintFromDigestOid actual_oid = Some expected_alg) then digest
      else inl ("Алгоритм дайджесту сертифіката (" +s+ actual_oid +s+ ") не відповідає явно оголошеному XMLDSIG алгоритму")
  end.

Definition ComputeImprintByCertificate (certificate_der : bytes) (fallback_alg : ImprintDigest) (data : bytes)
    : string + ImprintResult :=
  if negb (ShouldUseCertificateAdapter fallback_alg) || (length certificate_der =? 0)%nat
  then ComputeImprint fallback_alg data
  else
    match AssignDigestFromCertificateAdapter certificate_der fallback_alg data with
    | inr hash => inr (MkImprintResult (ImprintDigestOid fallback_alg) hash)
    | inl adapter_error =>
        inl (if str_empty adapter_error then "Не вдалося обчислити certificate-aware ГОСТ 34.311" else adapter_error)
    end.

(** The configured digest, else the one of the signer in the CMS structure, else Kupyna-256. *)
Definition ResolveTspImprint (imprint_digest_oid : string) (data_to_stamp cms_for_detect : bytes)
    : string + ImprintResult :=
  if negb (str_empty imprint_digest_oid) && negb (imprint_digest_oid ==s "auto") then
    match ImprintFromDigestOid imprint_digest_oid with
    | Some alg => ComputeImprint alg data_to_stamp
    | None =>
        inl ("ResolveTspImprint: configured imprint digest OID '" +s+ imprint_digest_oid +s+ "' is unsupported")
    end
  else
    let resolved_alg :=
      if (length cms_for_detect =? 0)%nat then Kupyna256
      else match signer_digest_oid cms_for_detect with
           | Some oid => default Kupyna256 (ImprintFromDigestOid oid)
           | None => Kupyna256
           end in
    ComputeImprint resolved_alg data_to_stamp.

Lemma ImprintFromDigestOid_own (alg : ImprintDigest) : ImprintFromDigestOid (ImprintDigestOid alg) = Some alg.
Proof. by destruct alg. Qed.

Lemma ComputeImprint_labelled (alg : ImprintDigest) (data : bytes) (result : ImprintResult) :
  ComputeImprint alg data = inr result -> im_digest_oid result = ImprintDigestOid alg.
Proof.
  assert (forall h m, computed alg h m = inr result -> im_digest_oid result = ImprintDigestOid alg) as C.
  { intros [h|] m; unfold computed; intros; by simplify_eq. }
  unfold ComputeImprint. destruct alg; apply C.
Qed.

(** Whichever way the digest is chosen, the object identifier that goes out with an imprint names the
    algorithm that computed its hash, so that a verifier who looks it up recomputes the same hash. *)
Theorem ResolveTspImprint_labelled (imprint_digest_oid : string) (data cms : bytes) (result : ImprintResult) :
  ResolveTspImprint imprint_digest_oid data cms = inr result ->
  exists alg, ImprintFromDigestOid (im_digest_oid result) = Some alg /\ ComputeImprint alg data = inr result.
Proof.
  unfold ResolveTspImprint. intros E.
  assert (exists alg, ComputeImprint alg data = inr result) as (alg & C).
  { destruct (negb (str_empty imprint_digest_oid) && _).
    - destruct (ImprintFromDigestOid imprint_digest_oid); [by eexists|done].
    - by eexists. }
  exists alg. split; [|done]. by rewrite (ComputeImprint_labelled _ _ _ C), ImprintFromDigestOid_own.
Qed.

End Imprint.
