(* ===== verification/AsicUri.v ===== *)
(** * AsicUri: names of container entries in references ([util/AsicUri.cpp])

    A reference names an entry of an ASiC container by a URI; percent escapes
    are decoded and one leading [./] is dropped, so that the reference and the
    entry can be compared.  [IsUnsafeExternalUri] is the check that
    [xmldsig/XmlReferenceResolver.cpp] applies to the decoded name. *)

From S2P Require Import Prelude CxxString.

Local Open Scope Z_scope.

Definition HexValue (ch : ascii) : Z :=
  if in_range ch 48 57 then uc ch - 48
  else if in_range ch 97 102 then uc ch - 97 + 10
  else if in_range ch 65 70 then uc ch - 65 + 10
  else -1.

Fixpoint percent_decode (uri : list ascii) : option (list ascii) :=
  match uri with
  | [] => Some []
  | ch :: rest =>
      if negb (Ascii.eqb ch "%") then cons ch <$> percent_decode rest
      else
        match rest with
        | h :: l :: rest' =>
            let hi := HexValue h in
            let lo := HexValue l in
            if (hi <? 0) || (lo <? 0) then None
            else cons (to_char (Z.lor (Z.shiftl hi 4) lo)) <$> percent_decode rest'
        | _ => None
        end
  end.

Definition strip_dot_slash (name : list ascii) : list ascii :=
  match name with
  | a :: b :: rest => if Ascii.eqb a "." && Ascii.eqb b "/" then rest else name
  | _ => name
  end.

Definition NormalizeAsicEntryUri (uri : string) : string + string :=
  match percent_decode (chars uri) with
  | Some out => inr (of_chars (strip_dot_slash out))
  | None => inl ("Некоректне percent-encoding у URI-посиланні: " +s+ uri)
  end.

Definition isalpha (c : ascii) : bool := isupper c || islower c.

Definition IsUnsafeExternalUri (uri : string) : bool :=
  match chars uri with
  | [] => false
  | first :: rest =>
      if Ascii.eqb first "#" then false
      else
        let lower := of_chars (map tolower (chars uri)) in
        starts_with lower "file://" || starts_with lower "http://" || starts_with lower "https://"
        || Ascii.eqb first "/" || Ascii.eqb first "\"
        || (isalpha first && match rest with c :: _ => Ascii.eqb c ":" | [] => false end)
        || str_contains uri ".." || str_contains uri "\"
  end.

(** ** Every spelling of a name is read as that name *)

Definition hex_of (ch : ascii) (v : Z) : Prop := HexValue ch = v /\ 0 <= v.

(** [spells uri name]: every character of the name stands for itself or is given by two hexadecimal
    digits of either case; a percent sign is always given by digits. *)
Inductive spells : list ascii -> list ascii -> Prop :=
| spells_nil : spells [] []
| spells_plain (ch : ascii) (uri name : list ascii) :
    ch <> "%"%char -> spells uri name -> spells (ch :: uri) (ch :: name)
| spells_octet (h l ch : ascii) (uri name : list ascii) :
    hex_of h (uc ch / 16) -> hex_of l (uc ch mod 16) -> spells uri name ->
    spells ("%"%char :: h :: l :: uri) (ch :: name).

Lemma HexValue_range (ch : ascii) : -1 <= HexValue ch < 16.
Proof.
  unfold HexValue, in_range. pose proof (uc_range ch).
  repeat case_match; try lia; rewrite ?andb_true_iff, ?Z.leb_le in *; lia.
Qed.

Lemma octet_of_digits (hi lo : Z) :
  0 <= hi < 16 -> 0 <= lo < 16 -> uc (to_char (Z.lor (Z.shiftl hi 4) lo)) = hi * 16 + lo.
Proof.
  intros Hhi Hlo. rewrite uc_to_char, lor_shiftl_add by lia. rewrite Z.mod_small by lia. lia.
Qed.

Lemma percent_decode_spells (uri name : list ascii) : percent_decode uri = Some name <-> spells uri name.
Proof.
  split.
  - revert name. remember (length uri) as n eqn:Hn. revert uri Hn.
    induction n as [n IH] using lt_wf_ind. intros [|ch rest] Hn name E; cbn [percent_decode] in E.
    { injection E as <-. constructor. }
    destruct (Ascii.eqb_spec ch "%") as [->|Hne]; cbn [negb] in E.
    + destruct rest as [|h [|l rest']]; try done. pose proof (HexValue_range h). pose proof (HexValue_range l).
      destruct (HexValue h <? 0) eqn:E1, (HexValue l <? 0) eqn:E2; try done. cbn [orb] in E.
      apply Z.ltb_ge in E1, E2. apply fmap_Some in E as (out & Hout & ->).
      assert (uc (to_char (Z.lor (Z.shiftl (HexValue h) 4) (HexValue l))) = HexValue h * 16 + HexValue l) as Eo
        by (apply octet_of_digits; lia).
      constructor; [split; rewrite Eo; zdm|split; rewrite Eo; zdm|].
      eapply IH; [|reflexivity|done]. subst n. cbn [length]. lia.
    + apply fmap_Some in E as (out & Hout & ->). constructor; [done|].
      eapply IH; [|reflexivity|done]. subst n. cbn [length]. lia.
  - induction 1 as [|ch uri name Hne Hs IH|h l ch uri name [Eh Hh] [El Hl] Hs IH]; [done|..]; cbn [percent_decode].
    + destruct (Ascii.eqb_spec ch "%"); [done|]. cbn [negb]. by rewrite IH.
    + rewrite Ascii.eqb_refl. cbn [negb]. rewrite Eh, El.
      replace (uc ch / 16 <? 0) with false by (symmetry; by apply Z.ltb_ge).
      replace (uc ch mod 16 <? 0) with false by (symmetry; by apply Z.ltb_ge). cbn [orb]. rewrite IH. cbn.
      do 2 f_equal. apply uc_inj. pose proof (uc_range ch). rewrite octet_of_digits by zdm. zdm.
Qed.

(** The decoder accepts exactly the spellings of names, and gives the name without one leading [./]:
    two references to the same entry are equal after decoding, however they are escaped. *)
Theorem NormalizeAsicEntryUri_decodes (uri name : string) :
  NormalizeAsicEntryUri uri = inr name <->
  exists spelled, spells (chars uri) spelled /\ name = of_chars (strip_dot_slash spelled).
Proof.
  unfold NormalizeAsicEntryUri. setoid_rewrite <- percent_decode_spells.
  destruct (percent_decode (chars uri)) as [out|]; split.
  - intros [= <-]. by exists out.
  - intros (spelled & [= ->] & ->). done.
  - done.
  - by intros (? & ? & _).
Qed.
