(* ===== verification/HttpPolicy.v ===== *)
(** * HttpPolicy: which addresses the program may contact ([core/net])

    [net/HttpAccessPolicy.cpp]: the reading of a URL, the classification of
    addresses and host names, the verdict on a destination; and
    [net/HttpMessageSyntax.cpp]: response headers and the resolution of a
    [Location] against the current URL.  [inet_pton] is the parameter
    [InetApi]; names are resolved by the function that [CheckDestination] is
    given.  The tables of the section on addresses are the ranges that the
    byte tests of the source describe; [ClassifyIpv6_table] and
    [IsBlockedIpv4_table] show that the tests decide them. *)

From S2P Require Import Prelude CxxString.

Local Open Scope Z_scope.

(** ** Limits ([net/HttpAccessPolicy.h]) *)

Definition kMaxHttpResponseSize : Z := 64 * 1024 * 1024.
Definition kMaxHttpRedirects : nat := 5.

Record DestinationUrl := MkDestinationUrl {
  du_scheme : string;
  du_host : string;
  du_valid : bool
}.

#[export] Instance eta_DestinationUrl : Eta DestinationUrl := fun r =>
  MkDestinationUrl (du_scheme r) (du_host r) (du_valid r).

Definition DestinationUrl_default : DestinationUrl :=
  MkDestinationUrl "" "" false.

Inductive IpClassification := NotAnIp | Public | Blocked.

#[export] Instance IpClassification_eq_dec : EqDecision IpClassification.
Proof. solve_decision. Defined.

(** ** Strings *)

Definition LowerAscii (value : string) : string := of_chars (map tolower (chars value)).

(** [l] begins with [pat]. *)
Fixpoint begins (pat l : list ascii) : bool :=
  match pat, l with
  | [], _ => true
  | p :: pat', c :: l' => Ascii.eqb p c && begins pat' l'
  | _ :: _, [] => false
  end.

(** [s.find(pat)]. *)
Fixpoint find_sub (pat l : list ascii) : option nat :=
  if begins pat l then Some O
  else match l with [] => None | _ :: l' => S <$> find_sub pat l' end.

(** The characters before the first one that satisfies [f], and the rest from it:
    [substr(0, find_first_of(set))] and [substr(find_first_of(set))], with [npos] for "none". *)
Fixpoint cut (f : ascii -> bool) (l : list ascii) : list ascii * list ascii :=
  match l with
  | [] => ([], [])
  | c :: l' => if f c then ([], l) else let '(a, b) := cut f l' in (c :: a, b)
  end.

Definition is_char (c : ascii) : ascii -> bool := Ascii.eqb c.

Definition has_char (c : ascii) (l : list ascii) : bool := existsb (is_char c) l.

(** [s.rfind(c)]. *)
Fixpoint rfind_char (c : ascii) (l : list ascii) : option nat :=
  match l with
  | [] => None
  | x :: l' =>
      match rfind_char c l' with
      | Some n => Some (S n)
      | None => if Ascii.eqb c x then Some O else None
      end
  end.

(** [s.find(c)]. *)
Definition find_char (c : ascii) (l : list ascii) : option nat := find_from (is_char c) l 0.

(** ** [ParseDestinationUrl] *)

(** The width of [unsigned long] in the build that links WinHTTP. *)
Definition ulong_bits : Z := 32.

(** [strtoul] in base ten of a text of digits: the value, or [None] for [ERANGE]. *)
Definition strtoul_digits (port : list ascii) : option Z :=
  let value := digits_value 0 port in
  if value <? 2 ^ ulong_bits then Some value else None.

(** The guard on the port: absent, or decimal digits with a value in [1 .. 65535]. *)
Definition port_ok (port : list ascii) : bool :=
  match port with
  | [] => true
  | _ =>
      forallb isdigit port &&
      match strtoul_digits port with
      | Some value => negb (value =? 0) && (value <=? 65535)
      | None => false
      end
  end.

(** The authority split into host and port.  [inl keep] is a refusal; the flag says whether the
    scheme already read stays in the answer ([return parsed]) or not ([return DestinationUrl{}]). *)
Definition split_authority (authority : list ascii) : bool + list ascii * list ascii :=
  match authority with
  | [] => inl true
  | first :: _ =>
      if Ascii.eqb first "[" then
        match find_char "]" authority with
        | None => inl true
        | Some close =>
            if (close =? 1)%nat then inl true else
            let host := take (close - 1) (drop 1 authority) in
            match drop (close + 1) authority with
            | [] => inr (host, [])
            | c :: port =>
                if negb (Ascii.eqb c ":") then inl false
                else match port with [] => inl false | _ => inr (host, port) end
            end
        end
      else
        match rfind_char ":" authority with
        | Some colon =>
            if negb (bool_decide (find_char ":" authority = Some colon)) then inl false
            else if (colon + 1 =? length authority)%nat then inl false
            else inr (take colon authority, drop (colon + 1) authority)
        | None => inr (authority, [])
        end
  end.

Definition drop_last_dot (host : list ascii) : list ascii :=
  match List.last host "000"%char with
  | "."%char => removelast host
  | _ => host
  end.

(** The tail of the function: the scheme is accepted, the authority is cut out. *)
Definition parse_authority (scheme : string) (authority : list ascii) : DestinationUrl :=
  let parsed := DestinationUrl_default <| du_scheme := scheme |> in
  if (match authority with [] => true | _ => false end)
     || has_char "@" authority || has_char "\" authority || has_char "%" authority
  then parsed else
  match split_authority authority with
  | inl keep => if keep then parsed else DestinationUrl_default
  | inr (host, port) =>
      match host with
      | [] => DestinationUrl_default
      | _ =>
          if negb (port_ok port) then DestinationUrl_default else
          let host := drop_last_dot (map tolower host) in
          parsed <| du_host := of_chars host |>
                 <| du_valid := match host with [] => false | _ => true end |>
      end
  end.

(** The scheme and the authority of a URL that has ["://"], and what follows the authority. *)
Definition split_url (url : list ascii) : option (list ascii * list ascii * list ascii) :=
  match find_sub (chars "://") url with
  | None => None
  | Some scheme_end =>
      let '(authority, rest) := cut (char_in "/?#") (drop (scheme_end + 3) url) in
      Some (take scheme_end url, authority, rest)
  end.

Definition ParseDestinationUrl (url : string) : DestinationUrl :=
  if str_empty url || existsb (char_in (of_chars ["013"; "010"; "009"; " "]%char)) (chars url)
  then DestinationUrl_default else
  match split_url (chars url) with
  | None => DestinationUrl_default
  | Some (scheme, authority, _) =>
      let scheme := LowerAscii (of_chars scheme) in
      if negb (scheme ==s "http") && negb (scheme ==s "https")
      then DestinationUrl_default <| du_scheme := scheme |>
      else parse_authority scheme authority
  end.

(** ** Addresses *)

Definition IsBlockedIpv4 (address : Z) : bool :=
  let first := wrap 8 (Z.shiftr address 24) in
  let second := wrap 8 (Z.shiftr address 16) in
  let third := wrap 8 (Z.shiftr address 8) in
  if (first =? 0) || (first =? 10) || (first =? 127) || (224 <=? first) then true
  else if (first =? 100) && (64 <=? second) && (second <=? 127) then true
  else if (first =? 169) && (second =? 254) then true
  else if (first =? 172) && (16 <=? second) && (second <=? 31) then true
  else if (first =? 192) && (second =? 168) then true
  else if (first =? 192) && (second =? 0) && ((third =? 0) || (third =? 2)) then true
  else if (first =? 198) && ((second =? 18) || (second =? 19)) then true
  else if (first =? 198) && (second =? 51) && (third =? 100) then true
  else if (first =? 203) && (second =? 0) && (third =? 113) then true
  else false.

(** [bytes[i]] of the sixteen bytes of an address. *)
Definition octet (bytes : list byte) (i : nat) : Z := u8 (nth i bytes x00).

Definition Ipv4FromBytes (bytes : list byte) : Z :=
  Z.lor (Z.lor (Z.lor (Z.shiftl (octet bytes 0) 24) (Z.shiftl (octet bytes 1) 16))
               (Z.shiftl (octet bytes 2) 8)) (octet bytes 3).

(** [strtoull(part, &end, 0)]: white space, a sign, an [0x] or [0] prefix, digits of the base.  The
    value (negated modulo 2^64 after a minus), the rest from [end], and whether [errno] was set. *)
Definition digit_of (base : Z) (c : ascii) : option Z :=
  let v := if in_range c 48 57 then uc c - 48
           else if in_range c 97 122 then uc c - 87
           else if in_range c 65 90 then uc c - 55 else base in
  if v <? base then Some v else None.

Fixpoint read_base (base : Z) (l : list ascii) (acc : Z) (any : bool) : Z * bool * list ascii :=
  match l with
  | [] => (acc, any, [])
  | c :: l' =>
      match digit_of base c with
      | Some v => read_base base l' (acc * base + v) true
      | None => (acc, any, l)
      end
  end.

Definition strtoull0 (text : list ascii) : Z * list ascii * bool :=
  let l := skip_space text in
  let '(neg, l) :=
    match l with
    | c :: l' => if Ascii.eqb c "-" then (true, l') else if Ascii.eqb c "+" then (false, l') else (false, l)
    | [] => (false, l)
    end in
  let '(base, digits) :=
    match l with
    | z :: x :: d :: rest =>
        if Ascii.eqb z "0" && Ascii.eqb (tolower x) "x" && bool_decide (is_Some (digit_of 16 d))
        then (16, d :: rest) else if Ascii.eqb z "0" then (8, l) else (10, l)
    | z :: _ => if Ascii.eqb z "0" then (8, l) else (10, l)
    | [] => (10, l)
    end in
  let '(value, any, rest) := read_base base digits 0 false in
  if negb any then (0, text, false)
  else if 2 ^ 64 <=? value then (2 ^ 64 - 1, rest, true)
  else (if neg then wrap 64 (- value) else value, rest, false).

(** The loop over the parts between dots; at most four are read. *)
Fixpoint legacy_parts (room : nat) (text : list ascii) : option (list Z) :=
  match room with
  | O => None
  | S room =>
      let '(part, rest) := cut (is_char ".") text in
      match part with
      | [] => None
      | _ =>
          let '(value, tail, errno) := strtoull0 (cstr part) in
          if errno || (match tail with [] => false | _ => true end) then None else
          match rest with
          | [] => Some [value]
          | _ :: text' => cons value <$> legacy_parts room text'
          end
      end
  end.

Definition ParseLegacyIpv4 (text : string) : option Z :=
  match chars text with
  | [] => None
  | front :: _ =>
      if Ascii.eqb front "+" || Ascii.eqb front "-" then None else
      match legacy_parts 4 (chars text) with
      | Some [a] => if 0xffffffff <? a then None else Some (wrap 32 a)
      | Some [a; b] =>
          if (0xff <? a) || (0xffffff <? b) then None else Some (wrap 32 (Z.lor (Z.shiftl a 24) b))
      | Some [a; b; c] =>
          if (0xff <? a) || (0xff <? b) || (0xffff <? c) then None
          else Some (wrap 32 (Z.lor (Z.lor (Z.shiftl a 24) (Z.shiftl b 16)) c))
      | Some [a; b; c; d] =>
          if (0xff <? a) || (0xff <? b) || (0xff <? c) || (0xff <? d) then None
          else Some (wrap 32 (Z.lor (Z.lor (Z.lor (Z.shiftl a 24) (Z.shiftl b 16)) (Z.shiftl c 8)) d))
      | _ => None
      end
  end.

(** [inet_pton]: the four bytes of a dotted address, the sixteen of an IPv6 address. *)
Class InetApi := {
  inet_pton4 : string -> option (list byte);
  inet_pton6 : string -> option (list byte)
}.

Definition judge_v4 (address : Z) : IpClassification :=
  if IsBlockedIpv4 address then Blocked else Public.

(** The verdict on the sixteen bytes of an IPv6 address. *)
Definition ClassifyIpv6 (bytes : list byte) : IpClassification :=
  let b := octet bytes in
  let zeros (from to : nat) := forallb (fun i => b i =? 0) (seq from (to - from)) in
  if zeros 0%nat 16%nat then Blocked
  else if zeros 0%nat 15%nat && (b 15%nat =? 1) then Blocked
  else if zeros 0%nat 10%nat && (b 10%nat =? 0xff) && (b 11%nat =? 0xff)
  then judge_v4 (Ipv4FromBytes (drop 12 bytes))
  else if (b 0%nat =? 0x00) && (b 1%nat =? 0x64) && (b 2%nat =? 0xff) && (b 3%nat =? 0x9b) then
    if negb (zeros 4%nat 12%nat) then Blocked else judge_v4 (Ipv4FromBytes (drop 12 bytes))
  else if (Z.land (b 0%nat) 0xfe =? 0xfc)
       || ((b 0%nat =? 0xfe) && (Z.land (b 1%nat) 0xc0 =? 0x80))
       || (b 0%nat =? 0xff)
       || ((b 0%nat =? 0x20) && (b 1%nat =? 0x01) && (Z.land (b 2%nat) 0xfe =? 0x00))
       || ((b 0%nat =? 0x20) && (b 1%nat =? 0x01) && (b 2%nat =? 0x0d) && (b 3%nat =? 0xb8))
       || ((b 0%nat =? 0x3f) && (Z.land (b 1%nat) 0xf0 =? 0xf0))
       || ((b 0%nat =? 0x26) && (b 1%nat =? 0x20) && (b 2%nat =? 0x00) && (b 3%nat =? 0x4f)
           && (b 4%nat =? 0x80) && (b 5%nat =? 0x00))
  then Blocked
  else if (b 0%nat =? 0x20) && (b 1%nat =? 0x02) then judge_v4 (Ipv4FromBytes (drop 2 bytes))
  else if Z.land (b 0%nat) 0xe0 =? 0x20 then Public else Blocked.

Definition IsBlockedHostname (host : string) : bool :=
  let has_suffix (suffix : string) :=
    (length (chars suffix) <=? length (chars host))%nat
    && bool_decide (drop (length (chars host) - length (chars suffix)) (chars host) = chars suffix) in
  existsb (String.eqb host)
    ["localhost"; "metadata"; "instance-data"; "metadata.google.internal"; "metadata.azure.internal"]
  || has_suffix ".localhost" || has_suffix ".local" || has_suffix ".internal"
  || has_suffix ".lan" || has_suffix ".home".

(** ** The verdict on a destination *)

Record HttpDestinationResult := MkHttpDestinationResult {
  hd_allowed : bool;
  hd_message : string;
  hd_resolved_addresses : list string
}.

#[export] Instance eta_HttpDestinationResult : Eta HttpDestinationResult := fun r =>
  MkHttpDestinationResult (hd_allowed r) (hd_message r) (hd_resolved_addresses r).

Definition HttpDestinationResult_default : HttpDestinationResult :=
  MkHttpDestinationResult false "" [].

Section Destination.
Context `{InetApi}.

Definition ClassifyIpAddress (text : string) : IpClassification :=
  let ctext := of_chars (cstr (chars text)) in
  match inet_pton4 ctext with
  | Some v4 => judge_v4 (Ipv4FromBytes v4)
  | None =>
      match ParseLegacyIpv4 text with
      | Some legacy => judge_v4 legacy
      | None =>
          match inet_pton6 ctext with
          | Some v6 => ClassifyIpv6 v6
          | None => NotAnIp
          end
      end
  end.

Definition IsAllowedPublicAddress (peer_address_text : string) : bool :=
  bool_decide (ClassifyIpAddress peer_address_text = Public).

Definition hostname_char (ch : ascii) : bool := isalnum ch || Ascii.eqb ch "." || Ascii.eqb ch "-".

(** [resolver] is the name lookup, [None] the empty [std::function]. *)
Definition CheckDestination (url : string) (resolver : option (string -> list string))
    (treat_missing_resolver_as_allowed : bool) : HttpDestinationResult :=
  let parsed := ParseDestinationUrl url in
  let result := HttpDestinationResult_default in
  if negb (du_valid parsed)
  then result <| hd_message := "network destination denied: malformed or unsupported HTTP(S) URL" |>
  else if IsBlockedHostname (du_host parsed)
  then result <| hd_message := "network destination denied: local or metadata hostname" |>
  else
    match ClassifyIpAddress (du_host parsed) with
    | Blocked => result <| hd_message := "network destination denied: non-public IP address" |>
    | Public => result <| hd_allowed := true |> <| hd_resolved_addresses := [du_host parsed] |>
    | NotAnIp =>
        if negb (forallb hostname_char (chars (du_host parsed)))
        then result <| hd_message := "network destination denied: invalid hostname" |>
        else
          match resolver, treat_missing_resolver_as_allowed with
          | None, true => result <| hd_allowed := true |>
          | _, _ =>
              let addresses := match resolver with Some r => r (du_host parsed) | None => [] end in
              let result := result <| hd_resolved_addresses := addresses |> in
              match addresses with
              | [] => result <| hd_message := "network destination denied: hostname did not resolve" |>
              | _ =>
                  if forallb IsAllowedPublicAddress addresses
                  then result <| hd_allowed := true |>
                  else result <| hd_message := "network destination denied: DNS returned a non-public address" |>
              end
          end
    end.
End Destination.

(** ** Message syntax ([net/HttpMessageSyntax.cpp]) *)

(** The lines [std::getline] gives, the last one when it is not empty. *)
Fixpoint getlines (text line : list ascii) : list (list ascii) :=
  match text with
  | [] => match line with [] => [] | _ => [line] end
  | c :: text' => if uc c =? 10 then line :: getlines text' [] else getlines text' (line ++ [c])
  end.

Fixpoint trim_end (l : list ascii) : list ascii :=
  match l with
  | [] => []
  | c :: l' => match trim_end l' with [] => if isspace c then [] else [c] | t => c :: t end
  end.

Definition drop_cr (line : list ascii) : list ascii :=
  match List.last line "000"%char with "013"%char => removelast line | _ => line end.

Fixpoint header_in (name : list ascii) (lines : list (list ascii)) : list ascii :=
  match lines with
  | [] => []
  | line :: lines' =>
      match cut (is_char ":") (drop_cr line) with
      | (field, _ :: value) =>
          if bool_decide (map tolower field = name) then trim_end (skip_space value) else header_in name lines'
      | (_, []) => header_in name lines'
      end
  end.

Definition ResponseHeaderValue (headers requested_name : string) : string :=
  of_chars (header_in (map tolower (chars requested_name)) (getlines (chars headers) [])).

(** [output.erase(output.rfind('/'))], all of it when there is no slash. *)
Definition pop_segment (output : list ascii) : list ascii :=
  match rfind_char "/" output with Some slash => take slash output | None => [] end.

(** The loop of [RemoveDotSegments]; every turn shortens [input], so its length is fuel enough. *)
Fixpoint remove_dots (fuel : nat) (input output : list ascii) : list ascii :=
  match fuel, input with
  | _, [] => output
  | O, _ => output
  | S fuel, first :: tail =>
      if begins (chars "../") input then remove_dots fuel (drop 3 input) output
      else if begins (chars "./") input then remove_dots fuel (drop 2 input) output
      else if begins (chars "/./") input then remove_dots fuel ("/"%char :: drop 3 input) output
      else if bool_decide (input = chars "/.") then remove_dots fuel (chars "/") output
      else if begins (chars "/../") input || bool_decide (input = chars "/..") then
        remove_dots fuel (if bool_decide (input = chars "/..") then chars "/" else "/"%char :: drop 4 input)
                    (pop_segment output)
      else if bool_decide (input = chars ".") || bool_decide (input = chars "..") then remove_dots fuel [] output
      else
        (* find('/', front() == '/' ? 1 : 0) *)
        let '(seg, rest) :=
          if Ascii.eqb first "/" then let '(a, b) := cut (is_char "/") tail in (first :: a, b)
          else cut (is_char "/") input in
        remove_dots fuel rest (output ++ seg)
  end.

Definition RemoveDotSegments (input : list ascii) : list ascii := remove_dots (length input) input [].

Definition SplitRefPath (ref : list ascii) : list ascii * list ascii := cut (char_in "?#") ref.

(** Path and query of the part of the base after its authority. *)
Definition base_path_query (rest : list ascii) : list ascii * list ascii :=
  let '(no_fragment, _) := cut (is_char "#") rest in
  let '(path, query) := cut (is_char "?") no_fragment in
  (match path with [] => ["/"%char] | _ => path end, query).

Definition ResolveHttpRedirectUrl (base location : string) : string :=
  match chars location with
  | [] => ""
  | front :: _ =>
      let loc := chars location in
      let lowered := map tolower loc in
      if begins (chars "http://") lowered || begins (chars "https://") lowered then location else
      match split_url (chars base) with
      | None => ""
      | Some ([], _, _) => ""
      | Some (_, [], _ :: _) => ""  (* authority_end == authority_begin *)
      | Some (scheme, authority, rest) =>
          let origin := scheme ++ chars "://" ++ authority in
          let '(base_path, base_query) := base_path_query rest in
          if begins (chars "//") loc then
            let '(path, suffix) := SplitRefPath (drop 2 loc) in
            match cut (is_char "/") path with
            | ([], _) => ""
            | (ref_authority, ref_path) =>
                of_chars (scheme ++ chars "://" ++ ref_authority ++ RemoveDotSegments ref_path ++ suffix)
            end
          else if Ascii.eqb front "#" then of_chars (origin ++ base_path ++ base_query ++ loc)
          else if Ascii.eqb front "?" then of_chars (origin ++ base_path ++ loc)
          else
            let '(ref_path, suffix) := SplitRefPath loc in
            if Ascii.eqb front "/" then of_chars (origin ++ RemoveDotSegments ref_path ++ suffix)
            else
              let directory := match rfind_char "/" base_path with
                               | None => ["/"%char]
                               | Some slash => take (slash + 1) base_path
                               end in
              of_chars (origin ++ RemoveDotSegments (directory ++ ref_path) ++ suffix)
      end
  end.

Definition IsRedirectStatus (status : Z) : bool :=
  (status =? 301) || (status =? 302) || (status =? 303) || (status =? 307) || (status =? 308).

(** ** The address ranges *)

(** [member width value (base, len)]: the first [len] of the [width] bits of [value] are those of [base]. *)
Definition member (width value : Z) (range : Z * Z) : bool :=
  let '(base, len) := range in value / 2 ^ (width - len) =? base / 2 ^ (width - len).

Definition v4 (a b c d : Z) : Z := ((a * 256 + b) * 256 + c) * 256 + d.

(** The IPv4 ranges that are not public. *)
Definition blocked_v4 : list (Z * Z) :=
  [(v4 0 0 0 0, 8); (v4 10 0 0 0, 8); (v4 127 0 0 0, 8); (v4 224 0 0 0, 3); (v4 100 64 0 0, 10);
   (v4 169 254 0 0, 16); (v4 172 16 0 0, 12); (v4 192 168 0 0, 16); (v4 192 0 0 0, 24);
   (v4 192 0 2 0, 24); (v4 198 18 0 0, 15); (v4 198 51 100 0, 24); (v4 203 0 113 0, 24)].

Lemma wrap_shiftr (a k : Z) : 0 <= k -> wrap 8 (Z.shiftr a k) = a / 2 ^ k mod 256.
Proof. intros Hk. unfold wrap. by rewrite Z.shiftr_div_pow2. Qed.

Lemma v4_digits (address : Z) : 0 <= address < 2 ^ 32 ->
  exists a b c d, address = v4 a b c d /\ 0 <= a < 256 /\ 0 <= b < 256 /\ 0 <= c < 256 /\ 0 <= d < 256.
Proof.
  intros Ha. exists (address / 2 ^ 24), (address / 2 ^ 16 mod 256), (address / 2 ^ 8 mod 256), (address mod 256).
  unfold v4. change (2 ^ 32) with 4294967296 in Ha. change (2 ^ 24) with 16777216. change (2 ^ 16) with 65536.
  change (2 ^ 8) with 256. zdm.
Qed.

(** What membership says of the bytes, for each length of prefix in the table. *)
Section MemberV4.
Context (a b c d : Z).
Context (Ra : 0 <= a < 256) (Rb : 0 <= b < 256) (Rc : 0 <= c < 256) (Rd : 0 <= d < 256).

Local Ltac member_bytes := intros; unfold member, v4; cbn -[Z.mul Z.add Z.div]; zdm.

Lemma member_8 (x : Z) : 0 <= x < 256 -> member 32 (v4 a b c d) (v4 x 0 0 0, 8) = (a =? x).
Proof. member_bytes. Qed.

Lemma member_16 (x y : Z) : 0 <= x < 256 -> 0 <= y < 256 ->
  member 32 (v4 a b c d) (v4 x y 0 0, 16) = (a =? x) && (b =? y).
Proof. member_bytes. Qed.

Lemma member_24 (x y z : Z) : 0 <= x < 256 -> 0 <= y < 256 -> 0 <= z < 256 ->
  member 32 (v4 a b c d) (v4 x y z 0, 24) = (a =? x) && (b =? y) && (c =? z).
Proof. member_bytes. Qed.

Lemma member_odd :
  member 32 (v4 a b c d) (v4 224 0 0 0, 3) = (224 <=? a) /\
  member 32 (v4 a b c d) (v4 100 64 0 0, 10) = (a =? 100) && (64 <=? b) && (b <=? 127) /\
  member 32 (v4 a b c d) (v4 172 16 0 0, 12) = (a =? 172) && (16 <=? b) && (b <=? 31) /\
  member 32 (v4 a b c d) (v4 198 18 0 0, 15) = (a =? 198) && ((b =? 18) || (b =? 19)).
Proof. repeat split; member_bytes. Qed.
End MemberV4.

Lemma if_true_orb (p q : bool) : (if p then true else q) = p || q.
Proof. done. Qed.

Lemma IsBlockedIpv4_table (address : Z) : 0 <= address < 2 ^ 32 ->
  IsBlockedIpv4 address = existsb (member 32 address) blocked_v4.
Proof.
  intros Ha. destruct (v4_digits address Ha) as (a & b & c & d & -> & Ra & Rb & Rc & Rd).
  unfold IsBlockedIpv4. rewrite !wrap_shiftr by lia.
  assert (v4 a b c d / 2 ^ 24 mod 256 = a /\ v4 a b c d / 2 ^ 16 mod 256 = b /\ v4 a b c d / 2 ^ 8 mod 256 = c)
    as (-> & -> & ->).
  { unfold v4. change (2 ^ 24) with 16777216. change (2 ^ 16) with 65536. change (2 ^ 8) with 256. zdm. }
  unfold blocked_v4. cbn [existsb]. destruct (member_odd a b c d Ra Rb Rc Rd) as (-> & -> & -> & ->).
  rewrite !member_8, !member_16, !member_24 by lia. rewrite !if_true_orb, (andb_orb_distrib_r (_ && _)).
  by rewrite orb_false_r, !orb_assoc.
Qed.

(** The big-endian value of bytes. *)
Definition be_value (bytes : list byte) : Z := foldl (fun v x => v * 256 + u8 x) 0 bytes.

Lemma be_value_app (l k : list byte) : be_value (l ++ k) = be_value l * 256 ^ Z.of_nat (length k) + be_value k.
Proof.
  unfold be_value. rewrite foldl_app. generalize (foldl (fun v x => v * 256 + u8 x) 0 l) as v.
  induction k as [|x k IH] using rev_ind; intros v; [cbn; lia|].
  rewrite !foldl_app, length_app. cbn [foldl length]. rewrite IH.
  replace (Z.of_nat (length k + 1)) with (Z.of_nat (length k) + 1) by lia.
  rewrite Z.pow_add_r by lia. lia.
Qed.

Lemma be_value_range (l : list byte) : 0 <= be_value l < 256 ^ Z.of_nat (length l).
Proof.
  induction l as [|x l IH] using rev_ind; [cbn; lia|]. rewrite be_value_app, length_app. cbn [length].
  replace (Z.of_nat (length l + 1)) with (Z.of_nat (length l) + 1) by lia.
  rewrite Z.pow_add_r by lia. pose proof (u8_range x). unfold be_value at 2 4. cbn [foldl]. nia.
Qed.

Lemma Ipv4FromBytes_value (bytes : list byte) : (4 <= length bytes)%nat ->
  Ipv4FromBytes bytes = be_value (take 4 bytes).
Proof.
  destruct bytes as [|a [|b [|c [|d bytes]]]]; cbn [length]; try lia. intros _.
  unfold Ipv4FromBytes, octet. cbn [nth take]. pose proof (u8_range a). pose proof (u8_range b).
  pose proof (u8_range c). pose proof (u8_range d).
  rewrite <- Z.lor_assoc, <- Z.lor_assoc. rewrite (lor_shiftl_add (u8 c) (u8 d) 8) by lia.
  rewrite (lor_shiftl_add (u8 b) _ 16) by lia. rewrite (lor_shiftl_add (u8 a) _ 24) by lia.
  unfold be_value. rewrite take_0. cbn [foldl]. change (2 ^ 24) with 16777216. change (2 ^ 16) with 65536.
  change (2 ^ 8) with 256. lia.
Qed.

(** The verdicts for IPv6: a range is refused, accepted, or judged by the IPv4 address that it carries
    from a given byte on. *)
Inductive verdict := Is (c : IpClassification) | Embedded (offset : nat).

(** The first range that holds the address decides; the rest is refused. *)
Definition ranges_v6 : list (Z * Z * verdict) :=
  [(0x00000000000000000000000000000000, 128, Is Blocked);      (* :: *)
   (0x00000000000000000000000000000001, 128, Is Blocked);      (* ::1 *)
   (0x00000000000000000000ffff00000000, 96, Embedded 12);      (* ::ffff:0:0/96 *)
   (0x0064ff9b000000000000000000000000, 96, Embedded 12);      (* 64:ff9b::/96 *)
   (0x0064ff9b000000000000000000000000, 32, Is Blocked);       (* 64:ff9b::/32 *)
   (0xfc000000000000000000000000000000, 7, Is Blocked);        (* fc00::/7 *)
   (0xfe800000000000000000000000000000, 10, Is Blocked);       (* fe80::/10 *)
   (0xff000000000000000000000000000000, 8, Is Blocked);        (* ff00::/8 *)
   (0x20010000000000000000000000000000, 23, Is Blocked);       (* 2001::/23 *)
   (0x20010db8000000000000000000000000, 32, Is Blocked);       (* 2001:db8::/32 *)
   (0x3ff00000000000000000000000000000, 12, Is Blocked);       (* 3ff0::/12 *)
   (0x2620004f800000000000000000000000, 48, Is Blocked);       (* 2620:4f:8000::/48 *)
   (0x20020000000000000000000000000000, 16, Embedded 2);       (* 2002::/16 *)
   (0x20000000000000000000000000000000, 3, Is Public)].        (* 2000::/3 *)

(** An IPv4 address by the table of IPv4 ranges. *)
Definition table_v4 (address : Z) : IpClassification :=
  if existsb (member 32 address) blocked_v4 then Blocked else Public.

Definition table_v6 (bytes : list byte) : IpClassification :=
  match List.find (fun '(base, len, _) => member 128 (be_value bytes) (base, len)) ranges_v6 with
  | Some (_, Is c) => c
  | Some (_, Embedded offset) => table_v4 (be_value (take 4 (drop offset bytes)))
  | None => Blocked
  end.

Lemma judge_v4_table (bytes : list byte) : (4 <= length bytes)%nat ->
  judge_v4 (Ipv4FromBytes bytes) = table_v4 (be_value (take 4 bytes)).
Proof.
  intros Hl. unfold judge_v4, table_v4. rewrite Ipv4FromBytes_value by done.
  pose proof (be_value_range (take 4 bytes)) as R. rewrite length_take, Nat.min_l in R by lia.
  by rewrite IsBlockedIpv4_table.
Qed.

(** A prefix of at most [8 * k] bits is decided by the first [k] bytes. *)
Lemma member_head (bytes : list byte) (k : nat) (base len : Z) :
  length bytes = 16%nat -> (k <= 16)%nat -> 0 <= len <= 8 * Z.of_nat k ->
  member 128 (be_value bytes) (base, len)
  = member (8 * Z.of_nat k) (be_value (take k bytes)) (base / 2 ^ (128 - 8 * Z.of_nat k), len).
Proof.
  intros Hl Hk Hlen. unfold member. set (w := 8 * Z.of_nat k) in *.
  replace (128 - len) with ((128 - w) + (w - len)) by lia. rewrite Z.pow_add_r by lia.
  rewrite <- !Z.div_div by lia. do 2 f_equal.
  rewrite <- (take_drop k bytes) at 1. rewrite be_value_app.
  pose proof (be_value_range (drop k bytes)) as R. rewrite length_drop, Hl in *.
  replace (256 ^ Z.of_nat (16 - k)) with (2 ^ (128 - w)) in *
    by (change 256 with (2 ^ 8); rewrite <- Z.pow_mul_r by lia; f_equal; lia).
  rewrite Z.div_add_l by lia. rewrite (Z.div_small _ _ R). lia.
Qed.

Lemma land_mask (x k n : Z) : 0 <= k <= n -> 0 <= x < 2 ^ n ->
  Z.land x (2 ^ n - 2 ^ k) = x / 2 ^ k * 2 ^ k.
Proof.
  intros Hk Hx. rewrite <- Z.shiftl_mul_pow2, <- Z.shiftr_div_pow2 by lia.
  apply Z.bits_inj'. intros i Hi. rewrite Z.land_spec, Z.shiftl_spec by done.
  replace (2 ^ n - 2 ^ k) with (Z.shiftl (Z.ones (n - k)) k).
  2:{ rewrite Z.shiftl_mul_pow2, Z.ones_equiv by lia. replace n with ((n - k) + k) at 2 by lia.
      rewrite Z.pow_add_r by lia. lia. }
  rewrite Z.shiftl_spec by done. destruct (Z_lt_le_dec i k).
  { rewrite !(Z.testbit_neg_r _ (i - k)) by lia. by rewrite andb_false_r. }
  rewrite Z.shiftr_spec by lia. replace (i - k + k) with i by lia.
  destruct (Z_lt_le_dec i n).
  - rewrite Z.ones_spec_low by lia. by rewrite andb_true_r.
  - by rewrite (testbit_small x n i) by lia.
Qed.

Lemma land_fe (x : Z) : 0 <= x < 256 -> Z.land x 0xfe = x / 2 * 2.
Proof. intros. by apply (land_mask x 1 8). Qed.
Lemma land_c0 (x : Z) : 0 <= x < 256 -> Z.land x 0xc0 = x / 64 * 64.
Proof. intros. by apply (land_mask x 6 8). Qed.
Lemma land_f0 (x : Z) : 0 <= x < 256 -> Z.land x 0xf0 = x / 16 * 16.
Proof. intros. by apply (land_mask x 4 8). Qed.
Lemma land_e0 (x : Z) : 0 <= x < 256 -> Z.land x 0xe0 = x / 32 * 32.
Proof. intros. by apply (land_mask x 5 8). Qed.

Fixpoint same_bytes (l k : list byte) : bool :=
  match l, k with
  | x :: l', y :: k' => (u8 x =? u8 y) && same_bytes l' k'
  | _, _ => true
  end.

Lemma be_value_eqb (l k : list byte) : length l = length k ->
  (be_value l =? be_value k) = same_bytes l k.
Proof.
  intros Hl. unfold be_value. change (same_bytes l k) with ((0 =? 0) && same_bytes l k).
  generalize 0 at 1 3 as v. generalize 0 as w. revert k Hl.
  induction l as [|x l IH]; intros [|y k] Hl w v; try done; cbn [foldl same_bytes].
  { by rewrite andb_true_r. }
  rewrite IH by (cbn in Hl; lia). rewrite andb_assoc. f_equal.
  pose proof (u8_range x). pose proof (u8_range y). lia.
Qed.

Section Sixteen.
Context (b0 b1 b2 b3 b4 b5 b6 b7 b8 b9 b10 b11 b12 b13 b14 b15 : byte).
Local Notation bytes := [b0; b1; b2; b3; b4; b5; b6; b7; b8; b9; b10; b11; b12; b13; b14; b15].

Local Ltac ranges :=
  pose proof (u8_range b0); pose proof (u8_range b1); pose proof (u8_range b2);
  pose proof (u8_range b3); pose proof (u8_range b4); pose proof (u8_range b5).

(** The prefixes that the first six bytes decide. *)
Lemma six (base len : Z) : 0 <= len <= 48 ->
  member 128 (be_value bytes) (base, len)
  = member 48 (((((u8 b0 * 256 + u8 b1) * 256 + u8 b2) * 256 + u8 b3) * 256 + u8 b4) * 256 + u8 b5)
      (base / 2 ^ 80, len).
Proof. intros Hlen. by rewrite (member_head _ 6) by (cbn; lia). Qed.

Lemma short_prefixes :
  let has := member 128 (be_value bytes) in
  has (0x0064ff9b000000000000000000000000, 32) =
    (u8 b0 =? 0x00) && (u8 b1 =? 0x64) && (u8 b2 =? 0xff) && (u8 b3 =? 0x9b) /\
  has (0xfc000000000000000000000000000000, 7) = (Z.land (u8 b0) 0xfe =? 0xfc) /\
  has (0xfe800000000000000000000000000000, 10) = (u8 b0 =? 0xfe) && (Z.land (u8 b1) 0xc0 =? 0x80) /\
  has (0xff000000000000000000000000000000, 8) = (u8 b0 =? 0xff) /\
  has (0x20010000000000000000000000000000, 23) =
    (u8 b0 =? 0x20) && (u8 b1 =? 0x01) && (Z.land (u8 b2) 0xfe =? 0x00) /\
  has (0x20010db8000000000000000000000000, 32) =
    (u8 b0 =? 0x20) && (u8 b1 =? 0x01) && (u8 b2 =? 0x0d) && (u8 b3 =? 0xb8) /\
  has (0x3ff00000000000000000000000000000, 12) = (u8 b0 =? 0x3f) && (Z.land (u8 b1) 0xf0 =? 0xf0) /\
  has (0x2620004f800000000000000000000000, 48) =
    (u8 b0 =? 0x26) && (u8 b1 =? 0x20) && (u8 b2 =? 0x00) && (u8 b3 =? 0x4f)
    && (u8 b4 =? 0x80) && (u8 b5 =? 0x00) /\
  has (0x20020000000000000000000000000000, 16) = (u8 b0 =? 0x20) && (u8 b1 =? 0x02) /\
  has (0x20000000000000000000000000000000, 3) = (Z.land (u8 b0) 0xe0 =? 0x20).
Proof.
  cbn zeta. rewrite !six by lia. ranges. unfold member.
  rewrite !land_fe, !land_c0, !land_f0, !land_e0 by lia.
  repeat split; cbn -[Z.mul Z.add Z.div Z.eqb]; zdm.
Qed.

Lemma prefix_96 (base : Z) :
  member 128 (be_value bytes) (base, 96) = (be_value [b0; b1; b2; b3; b4; b5; b6; b7; b8; b9; b10; b11] =? base / 2 ^ 32).
Proof.
  rewrite (member_head _ 12) by (cbn; lia). unfold member. change (8 * Z.of_nat 12 - 96) with 0.
  rewrite !Z.div_1_r. reflexivity.
Qed.

Lemma long_prefixes :
  let has := member 128 (be_value bytes) in
  let zeros := forallb (fun x => u8 x =? 0) in
  has (0x00000000000000000000000000000000, 128) = zeros bytes /\
  has (0x00000000000000000000000000000001, 128) = zeros (take 15 bytes) && (u8 b15 =? 1) /\
  has (0x00000000000000000000ffff00000000, 96) = zeros (take 10 bytes) && (u8 b10 =? 0xff) && (u8 b11 =? 0xff) /\
  has (0x0064ff9b000000000000000000000000, 96) =
    (u8 b0 =? 0x00) && (u8 b1 =? 0x64) && (u8 b2 =? 0xff) && (u8 b3 =? 0x9b) && zeros (take 8 (drop 4 bytes)).
Proof.
  cbn zeta. rewrite !prefix_96. unfold member. change (128 - 128) with 0. rewrite !Z.div_1_r.
  change 0x00000000000000000000000000000000 with (be_value (replicate 16 x00)) at 1.
  change 0x00000000000000000000000000000001 with (be_value (replicate 15 x00 ++ [x01])) at 1.
  change (0x00000000000000000000ffff00000000 / 2 ^ 32) with (be_value (replicate 10 x00 ++ [xff; xff])).
  change (0x0064ff9b000000000000000000000000 / 2 ^ 32)
    with (be_value ([x00; x64; xff; x9b] ++ replicate 8 x00)).
  rewrite !be_value_eqb by done. cbn [same_bytes replicate app forallb take drop].
  rewrite <- ?andb_assoc, ?andb_true_r. done.
Qed.
End Sixteen.

(** The byte tests of [ClassifyIpAddress] decide the table of address ranges, embedded IPv4 addresses
    included: for every sixteen bytes the verdict is that of the first range that holds them. *)
Theorem ClassifyIpv6_table (bytes : list byte) :
  length bytes = 16%nat -> ClassifyIpv6 bytes = table_v6 bytes.
Proof.
  intros Hl. unfold table_v6, ranges_v6, ClassifyIpv6.
  rewrite !judge_v4_table by (rewrite length_drop; lia).
  do 16 (destruct bytes as [|? bytes]; [done|]). destruct bytes; [|done]. clear Hl.
  destruct (short_prefixes b b0 b1 b2 b3 b4 b5 b6 b7 b8 b9 b10 b11 b12 b13 b14) as (S1 & S2 & S3 & S4 & S5 & S6 & S7 & S8 & S9 & S10).
  destruct (long_prefixes b b0 b1 b2 b3 b4 b5 b6 b7 b8 b9 b10 b11 b12 b13 b14) as (L1 & L2 & L3 & L4).
  cbn [List.find]. rewrite L1, L2, L3, L4, S1, S2, S3, S4, S5, S6, S7, S8, S9, S10.
  unfold octet. cbn [forallb seq Nat.sub Nat.add take drop nth].
  repeat (match goal with |- context [if ?c then _ else _] => destruct c eqn:? end; cbn [andb orb negb] in *; try done).
Qed.

(** The loopback address as an IPv4-mapped one. *)
Definition mapped_loopback : list byte := replicate 10 x00 ++ [xff; xff; x7f; x00; x00; x01].

Example ClassifyIpv6_table_witness :
  length mapped_loopback = 16%nat /\ ClassifyIpv6 mapped_loopback = table_v6 mapped_loopback
  /\ table_v6 mapped_loopback = Blocked.
Proof.
  split; [reflexivity|]. split; [apply (ClassifyIpv6_table mapped_loopback); reflexivity|vm_compute; reflexivity].
Defined.

(** ** Dot segments *)

Definition no_slash (seg : list ascii) : Prop := Forall (fun c => c <> "/"%char) seg.

(** The segments of a path, each after its slash; what precedes the first slash is the first part. *)
Fixpoint split_path (l : list ascii) : list ascii * list (list ascii) :=
  match l with
  | [] => ([], [])
  | c :: l' => let '(h, t) := split_path l' in if Ascii.eqb c "/" then ([], h :: t) else (c :: h, t)
  end.

Definition segments (path : list ascii) : list (list ascii) := snd (split_path path).

Definition render (segs : list (list ascii)) : list ascii := concat (map (cons "/"%char) segs).

Definition dot_segment (seg : list ascii) : bool :=
  bool_decide (seg = chars ".") || bool_decide (seg = chars "..").

(** The stack of RFC 3986, 5.2.4: [.] is dropped, [..] removes the segment before it, and a path that
    ends in one of them ends in a slash. *)
Fixpoint resolve_dots (out segs : list (list ascii)) : list (list ascii) :=
  match segs with
  | [] => out
  | seg :: rest =>
      let out := if bool_decide (seg = chars "..") then removelast out else out in
      if dot_segment seg then match rest with [] => out ++ [[]] | _ => resolve_dots out rest end
      else resolve_dots (out ++ [seg]) rest
  end.

Definition at_slash (l : list ascii) : Prop := l = [] \/ exists l', l = "/"%char :: l'.

Lemma at_slash_render (segs : list (list ascii)) : at_slash (render segs).
Proof. destruct segs as [|seg segs]; [by left|right; by eexists]. Qed.

Lemma split_path_spec (l : list ascii) :
  l = fst (split_path l) ++ render (snd (split_path l))
  /\ no_slash (fst (split_path l)) /\ Forall no_slash (snd (split_path l)).
Proof.
  induction l as [|c l (E & Hh & Ht)]; [by repeat split; constructor|]. cbn [split_path].
  destruct (split_path l) as [h t]. cbn [fst snd] in *.
  destruct (Ascii.eqb_spec c "/") as [->|Hc]; cbn [fst snd].
  - repeat split; [by rewrite E|constructor|by constructor].
  - repeat split; [by rewrite E|by constructor|done].
Qed.

Lemma cut_app (f : ascii -> bool) (a b : list ascii) :
  Forall (fun c => f c = false) a -> (b = [] \/ exists c b', b = c :: b' /\ f c = true) -> cut f (a ++ b) = (a, b).
Proof.
  intros Ha Hb. induction Ha as [|c a Hc Ha IH]; cbn [app cut].
  - destruct Hb as [->|(c & b' & -> & Hc)]; [done|]. cbn. by rewrite Hc.
  - by rewrite Hc, IH.
Qed.

Lemma cut_slash (seg rest : list ascii) : no_slash seg -> at_slash rest -> cut (is_char "/") (seg ++ rest) = (seg, rest).
Proof.
  intros Hs Hr. apply cut_app.
  - eapply Forall_impl; [exact Hs|]. intros c Hc. unfold is_char. destruct (Ascii.eqb_spec "/" c); congruence.
  - destruct Hr as [->|[l ->]]; [by left|right]. by eexists _, _.
Qed.

Lemma rfind_last (a s : list ascii) : no_slash s -> rfind_char "/" (a ++ "/"%char :: s) = Some (length a).
Proof.
  intros Hs. induction a as [|c a IH]; cbn [app rfind_char length].
  - assert (rfind_char "/" s = None) as ->; [|done].
    induction Hs as [|c s Hc Hs IH]; [done|]. cbn [rfind_char]. rewrite IH.
    destruct (Ascii.eqb_spec "/" c); congruence.
  - by rewrite IH.
Qed.

Lemma render_snoc (out : list (list ascii)) (seg : list ascii) : render (out ++ [seg]) = render out ++ "/"%char :: seg.
Proof. unfold render. rewrite map_app, concat_app. cbn. by rewrite app_nil_r. Qed.

Lemma pop_segment_render (out : list (list ascii)) : Forall no_slash out -> pop_segment (render out) = render (removelast out).
Proof.
  intros Ho. unfold pop_segment. destruct out as [|seg out _] using rev_ind; [done|].
  apply Forall_app in Ho as [_ Hs]. rewrite render_snoc, rfind_last by by inversion Hs.
  by rewrite removelast_last, take_app_length.
Qed.

(** No special case of the loop applies to a segment that is not a dot segment. *)
Lemma plain_segment (seg rest : list ascii) (input := "/"%char :: seg ++ rest) :
  no_slash seg -> at_slash rest -> dot_segment seg = false ->
  begins (chars "../") input = false /\ begins (chars "./") input = false /\
  begins (chars "/./") input = false /\ input <> chars "/." /\
  begins (chars "/../") input = false /\ input <> chars "/.." /\ input <> chars "." /\ input <> chars "..".
Proof.
  intros Hs Hr Hd. subst input. unfold no_slash in Hs. unfold dot_segment in Hd. apply orb_false_iff in Hd as [D1 D2].
  apply bool_decide_eq_false in D1, D2.
  repeat split; cbn -[Ascii.eqb]; try done.
  - destruct seg as [|c1 [|c2 seg]]; cbn -[Ascii.eqb].
    + by destruct Hr as [->|[l ->]].
    + destruct (Ascii.eqb_spec "." c1); [by subst|done].
    + rewrite !Forall_cons in Hs. destruct Hs as (_ & Hc & _).
      destruct (Ascii.eqb_spec "/" c2); [congruence|]. by rewrite andb_false_r.
  - intros [= E]. destruct seg as [|c1 seg]; [by destruct Hr as [->|[l ->]]|].
    injection E as -> E. apply app_eq_nil in E as [-> _]. done.
  - destruct seg as [|c1 [|c2 [|c3 seg]]]; cbn -[Ascii.eqb].
    + by destruct Hr as [->|[l ->]].
    + destruct Hr as [->|[l ->]]; by destruct (Ascii.eqb_spec "." c1).
    + destruct (Ascii.eqb_spec "." c1), (Ascii.eqb_spec "." c2); subst; done.
    + rewrite !Forall_cons in Hs. destruct Hs as (_ & _ & Hc & _).
      destruct (Ascii.eqb_spec "/" c3); [congruence|]. by rewrite !andb_false_r.
  - intros [= E]. destruct seg as [|c1 [|c2 seg]]; [by destruct Hr as [->|[l ->]]| |].
    + injection E as -> E. by destruct Hr as [->|[l ->]].
    + injection E as -> -> E. apply app_eq_nil in E as [-> _]. done.
Qed.

Lemma remove_dots_empty (fuel : nat) (output : list ascii) : remove_dots fuel [] output = output.
Proof. by destruct fuel. Qed.

Lemma remove_dots_slash (fuel : nat) (output : list ascii) :
  (1 <= fuel)%nat -> remove_dots fuel (chars "/") output = output ++ chars "/".
Proof. intros Hf. destruct fuel as [|fuel]; [lia|]. apply remove_dots_empty. Qed.

Lemma remove_dots_resolves (segs : list (list ascii)) (fuel : nat) (out : list (list ascii)) :
  Forall no_slash segs -> Forall no_slash out -> (length (render segs) <= fuel)%nat ->
  remove_dots fuel (render segs) (render out) = render (resolve_dots out segs).
Proof.
  intros Hs. revert fuel out. induction Hs as [|seg rest Hseg Hrest IH]; intros fuel out Ho Hf.
  { apply remove_dots_empty. }
  assert (render (seg :: rest) = "/"%char :: seg ++ render rest) as E by done. rewrite E in *.
  cbn [length] in Hf. rewrite length_app in Hf. destruct fuel as [|fuel]; [lia|].
  cbn [resolve_dots]. unfold dot_segment. destruct (decide (seg = chars ".")) as [->|N1].
  - change (bool_decide (chars "." = chars "..")) with false. change (bool_decide (chars "." = chars ".")) with true.
    cbn [orb]. destruct rest as [|seg' rest'].
    + change (remove_dots fuel (chars "/") (render out) = render (out ++ [[]])).
      rewrite remove_dots_slash by (cbn in Hf; lia). by rewrite render_snoc.
    + rewrite <- (IH fuel); [done|done|cbn in *; lia].
  - destruct (decide (seg = chars "..")) as [->|N2].
    + change (bool_decide (chars ".." = chars "..")) with true. cbn match. rewrite orb_true_r.
      assert (Forall no_slash (removelast out)) as Ho'.
      { destruct out as [|x out _] using rev_ind; [done|]. rewrite removelast_last. by apply Forall_app in Ho as []. }
      destruct rest as [|seg' rest'].
      * change (remove_dots fuel (chars "/") (pop_segment (render out)) = render (removelast out ++ [[]])).
        rewrite remove_dots_slash by (cbn in Hf; lia). by rewrite pop_segment_render, render_snoc.
      * rewrite <- (IH fuel); [|done|cbn in *; lia].
        change (remove_dots fuel (render (seg' :: rest')) (pop_segment (render out))
                = remove_dots fuel (render (seg' :: rest')) (render (removelast out))).
        by rewrite pop_segment_render.
    + rewrite !bool_decide_eq_false_2 by done. cbn [orb].
      destruct (plain_segment seg (render rest)) as (P1 & P2 & P3 & P4 & P5 & P6 & P7 & P8); [done|apply at_slash_render| |].
      { unfold dot_segment. by rewrite !bool_decide_eq_false_2. }
      cbn [remove_dots]. rewrite P1, P2, P3, P5, !bool_decide_eq_false_2 by done. cbn [orb].
      rewrite Ascii.eqb_refl, cut_slash by (done || apply at_slash_render).
      rewrite <- render_snoc. apply IH; [|lia]. apply Forall_app. by repeat constructor.
Qed.

Lemma resolve_dots_clean (segs out : list (list ascii)) :
  Forall (fun seg => dot_segment seg = false) out ->
  Forall (fun seg => dot_segment seg = false) (resolve_dots out segs).
Proof.
  revert out. induction segs as [|seg rest IH]; intros out Ho; [done|]. cbn [resolve_dots].
  set (out' := if bool_decide (seg = chars "..") then removelast out else out).
  assert (Forall (fun seg => dot_segment seg = false) out') as Ho'.
  { subst out'. case_match; [|done]. destruct out as [|x out _] using rev_ind; [done|].
    rewrite removelast_last. by apply Forall_app in Ho as []. }
  destruct (dot_segment seg) eqn:D.
  - destruct rest; [|by apply IH]. apply Forall_app. split; [done|]. by repeat constructor.
  - apply IH, Forall_app. by repeat constructor.
Qed.

Lemma segments_absolute (path : list ascii) :
  begins (chars "/") path = true -> path = render (segments path) /\ Forall no_slash (segments path).
Proof.
  intros Hb. destruct (split_path_spec path) as (E & _ & Hs). split; [|done]. unfold segments.
  rewrite E at 1. destruct path as [|c path]; [done|]. cbn -[Ascii.eqb] in Hb. rewrite andb_true_r in Hb.
  apply Ascii.eqb_eq in Hb as <-. cbn. by destruct (split_path path).
Qed.

Lemma RemoveDotSegments_stack (path : list ascii) :
  begins (chars "/") path = true -> RemoveDotSegments path = render (resolve_dots [] (segments path)).
Proof.
  intros Hb. destruct (segments_absolute path Hb) as [E Hs]. unfold RemoveDotSegments.
  rewrite E at 1 2. by apply (remove_dots_resolves (segments path) _ []).
Qed.

(** The loop on the text of an absolute path computes what the stack of segments gives, however many
    dot segments there are, and leaves none. *)
Theorem RemoveDotSegments_resolves (path : list ascii) :
  begins (chars "/") path = true ->
  RemoveDotSegments path = render (resolve_dots [] (segments path)) /\
  Forall (fun seg => dot_segment seg = false) (resolve_dots [] (segments path)).
Proof. intros Hb. split; [by apply RemoveDotSegments_stack|by apply resolve_dots_clean]. Qed.

Example RemoveDotSegments_resolves_witness :
  begins (chars "/") (chars "/a/b/../../../c/./d/..") = true /\
  RemoveDotSegments (chars "/a/b/../../../c/./d/..")
    = render (resolve_dots [] (segments (chars "/a/b/../../../c/./d/.."))) /\
  of_chars (RemoveDotSegments (chars "/a/b/../../../c/./d/..")) = "/c/".
Proof.
  split; [reflexivity|]. split; [|reflexivity].
  apply (RemoveDotSegments_resolves (chars "/a/b/../../../c/./d/..")). reflexivity.
Defined.

(** ** Relative redirects *)

Lemma cut_split (f : ascii -> bool) (l : list ascii) :
  l = fst (cut f l) ++ snd (cut f l) /\ Forall (fun c => f c = false) (fst (cut f l)) /\
  (snd (cut f l) = [] \/ exists c b, snd (cut f l) = c :: b /\ f c = true).
Proof.
  induction l as [|c l (E & Ha & Hb)]; [by repeat split; [constructor|left]|]. cbn [cut].
  destruct (f c) eqn:Ef; cbn [fst snd]; [by repeat split; [constructor|right; eexists _, _]|].
  destruct (cut f l) as [a b]. cbn [fst snd] in *. repeat split; [by rewrite E|by constructor|done].
Qed.

Lemma begins_true (pat l : list ascii) : begins pat l = true -> exists rest, l = pat ++ rest.
Proof.
  revert l. induction pat as [|p pat IH]; intros l Hb; [by exists l|].
  destruct l as [|c l]; [done|]. cbn -[Ascii.eqb] in Hb. apply andb_true_iff in Hb as [Hp Hb].
  apply Ascii.eqb_eq in Hp as <-. destruct (IH l Hb) as [rest ->]. by exists rest.
Qed.

Lemma begins_long (pat l k : list ascii) : (length pat <= length l)%nat -> begins pat (l ++ k) = begins pat l.
Proof.
  revert l. induction pat as [|p pat IH]; intros l Hl; [done|]. destruct l as [|c l]; [cbn in Hl; lia|].
  cbn -[Ascii.eqb] in *. rewrite IH; [done|lia].
Qed.

Lemma find_sub_begins (pat l : list ascii) : begins pat l = true -> find_sub pat l = Some O.
Proof. intros B. destruct l; simpl in *; by rewrite B. Qed.

Lemma find_sub_split (pat l : list ascii) (n : nat) : find_sub pat l = Some n ->
  l = take n l ++ pat ++ drop (n + length pat) l /\
  forall k, find_sub pat (take n l ++ pat ++ k) = Some n.
Proof.
  revert n. induction l as [|c l IH]; intros n E.
  - destruct pat as [|p pat]; [|done]. injection E as <-. split; [done|]. intros k. by destruct k.
  - cbn [find_sub] in E. destruct (begins pat (c :: l)) eqn:B.
    + injection E as <-. destruct (begins_true _ _ B) as [rest ->]. cbn [take app]. split.
      * by rewrite Nat.add_0_l, drop_app_length.
      * intros k. assert (begins pat (pat ++ k) = true) as Bk.
        { clear. induction pat as [|p pat IH]; [done|]. cbn -[Ascii.eqb]. by rewrite Ascii.eqb_refl. }
        by apply find_sub_begins.
    + apply fmap_Some in E as (m & E & ->). destruct (IH m E) as [El Hk]. split.
      * cbn [take plus drop app]. f_equal. exact El.
      * intros k. cbn [take app find_sub].
        replace (begins pat (c :: take m l ++ pat ++ k)) with false; [by rewrite Hk|]. symmetry.
        rewrite El in B. rewrite app_comm_cons, app_assoc. rewrite app_comm_cons, app_assoc in B.
        rewrite begins_long in B by (cbn [length app]; rewrite length_app; cbn; lia).
        rewrite begins_long by (cbn [length app]; rewrite length_app; cbn; lia). exact B.
Qed.

(** The authority of a URL ends where its path, query or fragment begins. *)
Definition url_tail (l : list ascii) : Prop := l = [] \/ exists c b, l = c :: b /\ char_in "/?#" c = true.

Lemma split_url_spec (url scheme authority rest : list ascii) :
  split_url url = Some (scheme, authority, rest) ->
  url = scheme ++ chars "://" ++ authority ++ rest /\ url_tail rest /\
  forall tail, url_tail tail -> split_url (scheme ++ chars "://" ++ authority ++ tail) = Some (scheme, authority, tail).
Proof.
  unfold split_url. destruct (find_sub (chars "://") url) as [n|] eqn:E; [|done].
  destruct (find_sub_split _ _ _ E) as [El Hk]. change (length (chars "://")) with 3%nat in El.
  pose proof (cut_split (char_in "/?#") (drop (n + 3) url)) as (Ec & Ha & Hb).
  destruct (cut (char_in "/?#") (drop (n + 3) url)) as [a b]. cbn [fst snd] in *.
  intros [= <- <- <-]. split; [by rewrite El, Ec at 1|]. split; [done|]. intros tail Ht.
  rewrite Hk. assert (length (take n url) = n) as Ln.
  { rewrite length_take. enough (n <= length url)%nat by lia.
    apply (f_equal length) in El. rewrite !length_app, length_take, length_drop in El. cbn in El. lia. }
  replace (drop (n + 3) (take n url ++ chars "://" ++ a ++ tail)) with (a ++ tail).
  2:{ rewrite app_assoc, drop_app_length'; [done|]. rewrite length_app, Ln. done. }
  rewrite cut_app by done. by rewrite <- Ln at 1; rewrite take_app_length.
Qed.

Definition url_space : ascii -> bool := char_in (of_chars ["013"; "010"; "009"; " "]%char).

(** What a URL says of its destination depends on its scheme and authority only. *)
Lemma ParseDestinationUrl_tail (url scheme authority rest tail : list ascii) :
  split_url url = Some (scheme, authority, rest) -> url_tail tail ->
  Forall (fun c => url_space c = false) url -> Forall (fun c => url_space c = false) tail ->
  ParseDestinationUrl (of_chars (scheme ++ chars "://" ++ authority ++ tail)) = ParseDestinationUrl (of_chars url).
Proof.
  intros Es Ht Hu Hw. destruct (split_url_spec _ _ _ _ Es) as (El & _ & Hk).
  assert (forall l s a r, split_url l = Some (s, a, r) -> Forall (fun c => url_space c = false) l ->
    ParseDestinationUrl (of_chars l) =
    let scheme := LowerAscii (of_chars s) in
    if negb (scheme ==s "http") && negb (scheme ==s "https")
    then DestinationUrl_default <| du_scheme := scheme |> else parse_authority scheme a) as Hp.
  { intros l s a r E Hl. unfold ParseDestinationUrl. rewrite chars_of_chars, E.
    replace (str_empty (of_chars l)) with false by (by destruct l).
    replace (existsb _ l) with false; [done|]. symmetry. apply not_true_is_false. intros Hx.
    apply existsb_exists in Hx as (c & Hc & Hc'). rewrite Forall_forall in Hl.
    apply list_elem_of_In in Hc. apply Hl in Hc. unfold url_space in Hc. congruence. }
  rewrite (Hp _ _ _ _ (Hk tail Ht)), (Hp _ _ _ _ Es); [done..|].
  rewrite El in Hu. apply Forall_app in Hu as [H1 Hu]. apply Forall_app in Hu as [H2 Hu].
  apply Forall_app in Hu as [H3 _]. by repeat (apply Forall_app; split).
Qed.

Section Keeps.
Context (P : ascii -> Prop) (Pslash : P "/"%char).

Lemma remove_dots_keeps (fuel : nat) (input output : list ascii) :
  Forall P input -> Forall P output -> Forall P (remove_dots fuel input output).
Proof.
  revert input output. induction fuel as [|fuel IH]; intros input output Hi Ho; [by destruct input|].
  destruct input as [|first tail]; [done|]. cbn [remove_dots].
  assert (forall n, Forall P (drop n (first :: tail))) as Hd by (intros; by apply Forall_drop).
  assert (Forall P (pop_segment output)) as Hp by (unfold pop_segment; case_match; [by apply Forall_take|done]).
  assert (forall f l, Forall P l -> Forall P (fst (cut f l)) /\ Forall P (snd (cut f l))) as Hc.
  { intros f l Hl. destruct (cut_split f l) as (E & _). by rewrite E, Forall_app in Hl. }
  assert (Forall P (chars "/")) as Hs by by repeat constructor.
  repeat (case_match; [apply IH; by repeat constructor|]).
  case_match; [by apply IH; [case_match; [|constructor]|]|].
  case_match; [by apply IH|].
  inversion Hi as [|? ? Hf Ht]; subst.
  destruct (Hc (is_char "/") tail Ht) as [K1 K2]. destruct (Hc (is_char "/") (first :: tail) Hi) as [K3 K4].
  destruct (cut (is_char "/") tail), (cut (is_char "/") (first :: tail)). cbn [fst snd] in *.
  destruct (Ascii.eqb first "/"); (apply IH; [done|]); apply Forall_app; split; try done. by constructor.
Qed.
End Keeps.

Lemma resolve_dots_last (segs out : list (list ascii)) : segs <> [] -> resolve_dots out segs <> [].
Proof.
  revert out. induction segs as [|seg rest IH]; intros out Hn; [done|]. cbn [resolve_dots].
  set (out' := if bool_decide (seg = chars "..") then removelast out else out).
  destruct (dot_segment seg), rest as [|seg' rest]; try (by apply IH); by destruct out'.
Qed.

Lemma RemoveDotSegments_slash (path : list ascii) :
  begins (chars "/") path = true -> exists l, RemoveDotSegments path = "/"%char :: l.
Proof.
  intros Hb. rewrite RemoveDotSegments_stack by done. destruct (segments_absolute path Hb) as [E _].
  pose proof (resolve_dots_last (segments path) []) as Hn.
  destruct (resolve_dots [] (segments path)) as [|seg segs]; [|by eexists].
  exfalso. apply Hn; [|done]. intros E'. rewrite E' in E. by rewrite E in Hb.
Qed.

(** A [Location] that names neither a scheme nor an authority. *)
Definition relative (location : string) : bool :=
  let lowered := map tolower (chars location) in
  negb (str_empty location) && negb (begins (chars "http://") lowered)
  && negb (begins (chars "https://") lowered) && negb (begins (chars "//") (chars location)).

Definition no_space (url : string) : Prop := Forall (fun c => url_space c = false) (chars url).

Lemma cut_keeps (P : ascii -> Prop) (f : ascii -> bool) (l : list ascii) :
  Forall P l -> Forall P (fst (cut f l)) /\ Forall P (snd (cut f l)).
Proof. intros Hl. destruct (cut_split f l) as (E & _). by rewrite E, Forall_app in Hl. Qed.

Lemma url_tail_slash (l : list ascii) : url_tail ("/"%char :: l).
Proof. right. by eexists _, _. Qed.

Lemma begins_slash (l : list ascii) : begins (chars "/") ("/"%char :: l) = true.
Proof. done. Qed.

(** The path of a base is empty or absolute. *)
Lemma base_path_absolute (rest path query : list ascii) :
  url_tail rest -> base_path_query rest = (path, query) -> begins (chars "/") path = true.
Proof.
  unfold base_path_query. intros Ht.
  destruct (cut (is_char "#") rest) as [nf fr] eqn:E1. destruct (cut (is_char "?") nf) as [p q] eqn:E2.
  intros [= <- <-]. destruct p as [|c p]; [done|].
  destruct rest as [|r rest]; [cbn in E1; injection E1 as <- <-; done|]. destruct Ht as [|(c' & b & [= <- <-] & Hc)]; [done|].
  cbn [cut] in E1. destruct (is_char "#" r) eqn:H1; [by simplify_eq|].
  destruct (cut (is_char "#") rest) as [a b]. injection E1 as <- <-. cbn [cut] in E2.
  destruct (is_char "?" r) eqn:H2; [done|]. destruct (cut (is_char "?") a) as [a' b']. injection E2 as -> _ _.
  unfold char_in, is_char in *. cbn -[Ascii.eqb] in Hc. rewrite H1, H2 in Hc.
  rewrite !orb_false_r in Hc. apply Ascii.eqb_eq in Hc as <-. done.
Qed.

Lemma directory_absolute (path : list ascii) : begins (chars "/") path = true ->
  exists l, match rfind_char "/" path with None => ["/"%char] | Some slash => take (slash + 1) path end = "/"%char :: l.
Proof.
  intros Hb. destruct (rfind_char "/" path) as [n|]; [|by eexists].
  destruct path as [|c path]; [done|]. cbn -[Ascii.eqb] in Hb. rewrite andb_true_r in Hb.
  apply Ascii.eqb_eq in Hb as <-. rewrite Nat.add_1_r. by eexists.
Qed.

(** The target of a relative reference is the origin of the base followed by an absolute path. *)
Lemma ResolveHttpRedirectUrl_relative (base location : string) (scheme authority rest : list ascii) :
  split_url (chars base) = Some (scheme, authority, rest) -> scheme <> [] -> authority <> [] ->
  relative location = true -> no_space base -> no_space location ->
  exists tail, ResolveHttpRedirectUrl base location = of_chars (scheme ++ chars "://" ++ authority ++ tail) /\
    url_tail tail /\ Forall (fun c => url_space c = false) tail.
Proof.
  intros Es Hs Ha Hr Hb Hl. unfold relative in Hr. rewrite !andb_true_iff, !negb_true_iff in Hr.
  destruct Hr as [[[Hne Habs1] Habs2] Hrel]. destruct (split_url_spec _ _ _ _ Es) as (Eb & Ht & _).
  unfold ResolveHttpRedirectUrl, no_space in *.
  destruct (chars location) as [|front loc] eqn:El; [by destruct location|].
  rewrite Habs1, Habs2. cbn [orb]. rewrite Es. destruct scheme as [|s scheme]; [done|].
  destruct authority as [|a authority]; [done|].
  destruct (base_path_query rest) as [path query] eqn:Ep. rewrite Hrel.
  pose proof (base_path_absolute _ _ _ Ht Ep) as Hp.
  assert (Forall (fun c => url_space c = false) path /\ Forall (fun c => url_space c = false) query) as [Fp Fq].
  { rewrite Eb in Hb. apply Forall_app in Hb as [_ Hb]. apply Forall_app in Hb as [_ Hb].
    apply Forall_app in Hb as [_ Hb]. unfold base_path_query in Ep.
    destruct (cut_keeps _ (is_char "#") rest Hb) as [Hn _]. destruct (cut (is_char "#") rest) as [nf fr].
    destruct (cut_keeps _ (is_char "?") nf Hn) as [K1 K2]. destruct (cut (is_char "?") nf) as [p q].
    cbn [fst snd] in *. injection Ep as <- <-. split; [|done]. destruct p; [by repeat constructor|done]. }
  destruct path as [|pc path']; [done|]. assert (pc = "/"%char) as ->.
  { cbn -[Ascii.eqb] in Hp. rewrite andb_true_r in Hp. by apply Ascii.eqb_eq in Hp. }
  destruct (Ascii.eqb front "#").
  { exists (("/"%char :: path') ++ query ++ front :: loc). rewrite <- !app_assoc. split; [done|].
    split; [apply url_tail_slash|]. by repeat (apply Forall_app; split). }
  destruct (Ascii.eqb front "?").
  { exists (("/"%char :: path') ++ front :: loc). rewrite <- !app_assoc. split; [done|].
    split; [apply url_tail_slash|]. by repeat (apply Forall_app; split). }
  unfold SplitRefPath. destruct (cut_split (char_in "?#") (front :: loc)) as (Ec & _).
  destruct (cut_keeps _ (char_in "?#") (front :: loc) Hl) as [K1 K2].
  destruct (cut (char_in "?#") (front :: loc)) as [rp suffix] eqn:Ecut. cbn [fst snd] in *.
  assert (forall p, begins (chars "/") p = true -> Forall (fun c => url_space c = false) p ->
    exists tail, of_chars (((s :: scheme) ++ chars "://" ++ a :: authority) ++ RemoveDotSegments p ++ suffix)
      = of_chars ((s :: scheme) ++ chars "://" ++ (a :: authority) ++ tail) /\
      url_tail tail /\ Forall (fun c => url_space c = false) tail) as Hfin.
  { intros p Hbp Fp'. exists (RemoveDotSegments p ++ suffix). rewrite <- !app_assoc. split; [done|].
    destruct (RemoveDotSegments_slash p Hbp) as [l E']. split; [rewrite E'; apply url_tail_slash|].
    apply Forall_app. split; [|done]. apply remove_dots_keeps; [done..|constructor]. }
  destruct (Ascii.eqb_spec front "/") as [->|Hf].
  - apply Hfin; [|done]. cbn [cut] in Ecut. change (char_in "?#" "/") with false in Ecut. cbn match in Ecut.
    destruct (cut (char_in "?#") loc). by injection Ecut as <- <-.
  - destruct (directory_absolute _ Hp) as [d Ed].
    assert (Forall (fun c => url_space c = false)
      match rfind_char "/" ("/"%char :: path') with
      | None => ["/"%char] | Some slash => take (slash + 1) ("/"%char :: path') end) as Fd.
    { destruct (rfind_char _ _); [by apply Forall_take|by repeat constructor]. }
    apply Hfin; [by rewrite Ed|]. by apply Forall_app.
Qed.

(** A relative [Location] never leaves the server it came from: the resolved URL is read as the scheme
    and host of the base, whatever dots, slashes or at signs the reference holds. *)
Theorem relative_redirect_keeps_origin (base location : string) :
  du_valid (ParseDestinationUrl base) = true -> relative location = true -> no_space location ->
  ParseDestinationUrl (ResolveHttpRedirectUrl base location) = ParseDestinationUrl base.
Proof.
  intros Hv Hr Hl.
  assert (no_space base /\ exists scheme authority rest, split_url (chars base) = Some (scheme, authority, rest)
    /\ scheme <> [] /\ authority <> []) as (Hb & scheme & authority & rest & Es & Hs & Ha).
  { unfold ParseDestinationUrl in Hv. destruct (_ || _) eqn:E0; [done|]. apply orb_false_iff in E0 as [_ E0].
    split.
    - apply Forall_forall. intros c Hc. apply not_true_is_false. intros Hx.
      apply not_true_iff_false in E0. apply E0, existsb_exists. exists c. split; [by apply list_elem_of_In|done].
    - destruct (split_url (chars base)) as [[[s a] r]|]; [|done]. exists s, a, r. split; [done|].
      destruct s as [|c s]; [done|]. split; [done|]. intros ->. by case_match. }
  destruct (ResolveHttpRedirectUrl_relative base location scheme authority rest Es Hs Ha Hr Hb Hl)
    as (tail & -> & Ht & Hw).
  rewrite (ParseDestinationUrl_tail _ _ _ _ _ Es Ht Hb Hw). by rewrite of_chars_chars.
Qed.

Example relative_redirect_keeps_origin_witness :
  let base := "https://ca.example:8443/crl/full?x=1" in
  let location := "../..//evil.example/@host" in
  ParseDestinationUrl (ResolveHttpRedirectUrl base location) = ParseDestinationUrl base /\
  ResolveHttpRedirectUrl base location = "https://ca.example:8443//evil.example/@host".
Proof.
  cbn zeta. split; [|vm_compute; reflexivity].
  apply (relative_redirect_keeps_origin "https://ca.example:8443/crl/full?x=1" "../..//evil.example/@host");
    [vm_compute; reflexivity|vm_compute; reflexivity|].
  unfold no_space. repeat constructor.
Defined.
