(* ===== verification/HttpClient.v ===== *)
(** * HttpClient: requests and their redirects ([core/HttpClient.cpp])

    The client of the build that is shipped (WinHTTP; libcurl follows
    redirects itself and is outside of the source) and the substitute transport of
    the tests.  The Windows calls are the parameter [WinHttp]: what each call
    gives for a request, depending on the requests sent before it.  The
    requests handed to the network are the history that every function
    threads, so that the theorems speak of each request that was sent. *)

From S2P Require Import Prelude CxxString HttpPolicy.

Local Open Scope Z_scope.

(** ** Messages ([HttpClient.h]) *)

Record HttpRequest := MkHttpRequest {
  rq_method : string;
  rq_url : string;
  rq_body : list byte;
  rq_content_type : string;
  rq_accept : string;
  rq_timeout_ms : Z
}.

#[export] Instance eta_HttpRequest : Eta HttpRequest := fun r =>
  MkHttpRequest (rq_method r) (rq_url r) (rq_body r) (rq_content_type r) (rq_accept r)
  (rq_timeout_ms r).

Definition HttpRequest_default : HttpRequest :=
  MkHttpRequest "" "" [] "" "" 10000.

Record HttpResponse := MkHttpResponse {
  hr_succeeded : bool;
  hr_status_code : Z;
  hr_body : list byte;
  hr_message : string;
  hr_response_headers : string
}.

#[export] Instance eta_HttpResponse : Eta HttpResponse := fun r =>
  MkHttpResponse (hr_succeeded r) (hr_status_code r) (hr_body r) (hr_message r)
  (hr_response_headers r).

Definition HttpResponse_default : HttpResponse :=
  MkHttpResponse false 0 [] "" "".

Record HttpPostResult := MkHttpPostResult {
  hp_attempted : bool;
  hp_succeeded : bool;
  hp_status_code : Z;
  hp_message : string;
  hp_response_content_type : string;
  hp_response_headers : string;
  hp_body : list byte
}.

#[export] Instance eta_HttpPostResult : Eta HttpPostResult := fun r =>
  MkHttpPostResult (hp_attempted r) (hp_succeeded r) (hp_status_code r) (hp_message r)
  (hp_response_content_type r) (hp_response_headers r) (hp_body r).

Definition HttpPostResult_default : HttpPostResult :=
  MkHttpPostResult false false 0 "" "" "" [].

Record HttpProbeResult := MkHttpProbeResult {
  pb_attempted : bool;
  pb_succeeded : bool;
  pb_status_code : Z;
  pb_message : string
}.

#[export] Instance eta_HttpProbeResult : Eta HttpProbeResult := fun r =>
  MkHttpProbeResult (pb_attempted r) (pb_succeeded r) (pb_status_code r) (pb_message r).

Definition HttpProbeResult_default : HttpProbeResult :=
  MkHttpProbeResult false false 0 "".

(** The requests sent, oldest first. *)
Definition history := list HttpRequest.

(** The substitutes of the tests; they may remember what they were asked. *)
Definition HttpTransport := history -> HttpRequest -> HttpResponse.
Definition HttpHostResolver := history -> string -> list string.

Definition ToPostResult (response : HttpResponse) : HttpPostResult :=
  HttpPostResult_default
    <| hp_attempted := true |>
    <| hp_succeeded := hr_succeeded response |>
    <| hp_status_code := hr_status_code response |>
    <| hp_message := hr_message response |>
    <| hp_response_headers := hr_response_headers response |>
    <| hp_body := hr_body response |>.

(** ** The globals of the substitutes, and the objects that set them for a scope *)

Record Mocks := MkMocks {
  mk_transport : option HttpTransport;
  mk_resolver : option HttpHostResolver
}.

#[export] Instance eta_Mocks : Eta Mocks := fun r =>
  MkMocks (mk_transport r) (mk_resolver r).

Definition Mocks_default : Mocks :=
  MkMocks None None.

Definition ScopedMockTransport_ctor (transport : option HttpTransport) (m : Mocks) : option HttpTransport * Mocks :=
  (mk_transport m, m <| mk_transport := transport |>).

Definition ScopedMockTransport_dtor (previous : option HttpTransport) (m : Mocks) : Mocks :=
  m <| mk_transport := previous |>.

Definition ScopedMockResolver_ctor (resolver : option HttpHostResolver) (m : Mocks) : option HttpHostResolver * Mocks :=
  (mk_resolver m, m <| mk_resolver := resolver |>).

Definition ScopedMockResolver_dtor (previous : option HttpHostResolver) (m : Mocks) : Mocks :=
  m <| mk_resolver := previous |>.

(** ** The Windows calls *)

Record ParsedUrl := MkParsedUrl {
  pu_is_https : bool;
  pu_host : string;
  pu_port : Z;
  pu_path : string
}.

#[export] Instance eta_ParsedUrl : Eta ParsedUrl := fun r =>
  MkParsedUrl (pu_is_https r) (pu_host r) (pu_port r) (pu_path r).

Definition ParsedUrl_default : ParsedUrl :=
  MkParsedUrl false "" 80 "".

(** What [WINHTTP_OPTION_CONNECTION_INFO] tells of the other end; an address is [None] when
    [InetNtopA] cannot format it. *)
Inductive Peer :=
| PeerUnavailable
| PeerInet (text : option string)
| PeerInet6 (text : option string)
| PeerOtherFamily.

(** One turn of the body loop: [WinHttpQueryDataAvailable] fails with a code, or gives a size and
    [WinHttpReadData] fails with a code or gives bytes.  Past the last turn no data is available. *)
Inductive ReadEvent :=
| QueryFails (code : Z)
| Chunk (bytes_available : Z) (read : Z + list byte).

(** The answers for one request: for a call that can fail, the code of its failure. *)
Record Exchange := MkExchange {
  ex_open_fails : option Z;
  ex_connect_fails : option Z;
  ex_open_request_fails : option Z;
  ex_send_fails : option Z;
  ex_peer : Peer;
  ex_receive_fails : option Z;
  ex_status : Z;
  ex_raw_headers : option string;
  ex_content_type : option string;
  ex_reads : list ReadEvent
}.

#[export] Instance eta_Exchange : Eta Exchange := fun r =>
  MkExchange (ex_open_fails r) (ex_connect_fails r) (ex_open_request_fails r) (ex_send_fails r)
  (ex_peer r) (ex_receive_fails r) (ex_status r) (ex_raw_headers r) (ex_content_type r)
  (ex_reads r).

Definition Exchange_default : Exchange :=
  MkExchange None None None None PeerUnavailable None 0 None None [].

Class WinHttp := {
  WinHttpCrackUrl : string -> option (bool * string * Z * string);
  exchange : history -> HttpRequest -> Exchange;
  ResolveSystemHost : history -> string -> list string
}.

(** The body loop. *)
Inductive BodyRead := ReadFailed (code : Z) | TooLarge | BodyComplete (body : list byte).

Fixpoint read_body (reads : list ReadEvent) (body : list byte) : BodyRead :=
  match reads with
  | [] => BodyComplete body
  | QueryFails code :: _ => ReadFailed code
  | Chunk bytes_available read :: reads' =>
      if bytes_available =? 0 then BodyComplete body
      else if kMaxHttpResponseSize <? Z.of_nat (length body) + bytes_available then TooLarge
      else match read with
           | inl code => ReadFailed code
           | inr data => read_body reads' (body ++ data)
           end
  end.

Definition is_https_url (url : string) : bool := du_scheme (ParseDestinationUrl url) ==s "https".

(** The method, body and content type of the next request: a [303], and a [301] or [302] after a
    [POST], become a [GET]. *)
Definition becomes_get (status : Z) (method : string) : bool :=
  (status =? 303) || (((status =? 301) || (status =? 302)) && (method ==s "POST")).

Definition next_request (request : HttpRequest) (status : Z) (next_url : string) : HttpRequest :=
  (if becomes_get status (rq_method request)
   then request <| rq_method := "GET" |> <| rq_body := [] |> <| rq_content_type := "" |>
   else request) <| rq_url := next_url |>.

Definition redirect_target (url : string) (result : HttpPostResult) : string :=
  ResolveHttpRedirectUrl url (ResponseHeaderValue (hp_response_headers result) "location").

(** The guard on the target: a valid URL, and [https] when the first request was [https]. *)
Definition target_denied (initial_https : bool) (next_url : string) : bool :=
  let next := ParseDestinationUrl next_url in
  negb (du_valid next) || (initial_https && negb (du_scheme next ==s "https")).

Section Client.
Context `{HInet : InetApi} `{HNet : WinHttp}.

(** The resolver that is used: the substitute, the system unless the caller lets it be skipped. *)
Definition CheckDestinationVia (m : Mocks) (h : history) (url : string)
    (treat_missing_resolver_as_allowed : bool) : HttpDestinationResult :=
  let resolver :=
    match mk_resolver m with
    | Some r => Some (r h)
    | None => if treat_missing_resolver_as_allowed then None else Some (ResolveSystemHost h)
    end in
  CheckDestination url resolver treat_missing_resolver_as_allowed.

Definition ParseUrl (url : string) : option ParsedUrl :=
  if str_empty url then None else
  match WinHttpCrackUrl url with
  | None => None
  | Some (https, host, port, path) => Some (MkParsedUrl https host port (if str_empty path then "/" else path))
  end.

(** The text of the peer, and whether its address is public. *)
Definition WinHttpPeerAddressIsPublic (peer : Peer) : string * bool :=
  match peer with
  | PeerUnavailable => ("connection info unavailable", false)
  | PeerInet None => ("IPv4 peer address could not be formatted", false)
  | PeerInet6 None => ("IPv6 peer address could not be formatted", false)
  | PeerOtherFamily => ("unknown peer address family", false)
  | PeerInet (Some text) => (text, IsAllowedPublicAddress text)
  | PeerInet6 (Some text) => (text, IsAllowedPublicAddress text)
  end.

Definition failed (what : string) (code : Z) : HttpPostResult :=
  HttpPostResult_default <| hp_attempted := true |>
    <| hp_message := "WinHTTP: " +s+ what +s+ " failed, code=" +s+ to_string code |>.

Definition WinHttpRequestOnce (h : history) (request : HttpRequest) : HttpPostResult * history :=
  let result := HttpPostResult_default <| hp_attempted := true |> in
  match ParseUrl (rq_url request) with
  | None => (result <| hp_message := "WinHTTP: failed to parse URL: " +s+ rq_url request |>, h)
  | Some _ =>
      let x := exchange h request in
      match ex_open_fails x with Some code => (failed "WinHttpOpen" code, h) | None =>
      match ex_connect_fails x with Some code => (failed "WinHttpConnect" code, h) | None =>
      match ex_open_request_fails x with Some code => (failed "WinHttpOpenRequest" code, h) | None =>
      (* WinHttpSendRequest: from here on the request has been handed over *)
      let h := h ++ [request] in
      match ex_send_fails x with Some code => (failed "WinHttpSendRequest" code, h) | None =>
      let '(peer, is_public) := WinHttpPeerAddressIsPublic (ex_peer x) in
      if negb is_public
      then (result <| hp_message := "WinHTTP: peer address did not pass destination policy (" +s+ peer
                                    +s+ "); response rejected" |>, h) else
      match ex_receive_fails x with Some code => (failed "WinHttpReceiveResponse" code, h) | None =>
      let result := result
        <| hp_status_code := ex_status x |>
        <| hp_response_headers := default "" (ex_raw_headers x) |>
        <| hp_response_content_type := default "" (ex_content_type x) |> in
      match read_body (ex_reads x) [] with
      | ReadFailed code =>
          (result <| hp_message := "WinHTTP: response body read failed, code=" +s+ to_string code |>, h)
      | TooLarge => (result <| hp_message := "WinHTTP: response exceeds the maximum allowed size" |>, h)
      | BodyComplete body =>
          let ok := (200 <=? ex_status x) && (ex_status x <? 300) in
          (result <| hp_body := body |> <| hp_succeeded := ok |>
                  <| hp_message := if ok then "ok" else "HTTP status " +s+ to_string (ex_status x) |>, h)
      end end end end end end
  end.

(** The loop over redirects; [left] turns remain, and [left = 1] is [redirect == kMaxHttpRedirects]. *)
Fixpoint winhttp_loop (left : nat) (m : Mocks) (initial_https : bool) (h : history) (request : HttpRequest)
    : HttpPostResult * history :=
  match left with
  | O => (HttpPostResult_default <| hp_message := "WinHTTP: redirect processing failed" |>, h)
  | S left' =>
      let destination := CheckDestinationVia m h (rq_url request) false in
      if negb (hd_allowed destination)
      then (HttpPostResult_default <| hp_message := hd_message destination |>, h) else
      let '(result, h) := WinHttpRequestOnce h request in
      if negb (IsRedirectStatus (hp_status_code result)) then (result, h) else
      if (left' =? 0)%nat
      then (result <| hp_succeeded := false |> <| hp_message := "WinHTTP: too many redirects" |>, h) else
      let next_url := redirect_target (rq_url request) result in
      if target_denied initial_https next_url
      then (result <| hp_succeeded := false |> <| hp_message := "WinHTTP: redirect destination denied" |>, h) else
      let next_destination := CheckDestinationVia m h next_url false in
      if negb (hd_allowed next_destination)
      then (result <| hp_succeeded := false |> <| hp_message := hd_message next_destination |>, h) else
      winhttp_loop left' m initial_https h (next_request request (hp_status_code result) next_url)
  end.

Definition WinHttpRequest (m : Mocks) (h : history) (request : HttpRequest) : HttpPostResult * history :=
  winhttp_loop (S kMaxHttpRedirects) m (is_https_url (rq_url request)) h request.

Fixpoint mock_loop (left : nat) (m : Mocks) (transport : HttpTransport) (initial_https : bool) (h : history)
    (request : HttpRequest) : HttpPostResult * history :=
  match left with
  | O => (HttpPostResult_default <| hp_message := "mock HTTP transport: redirect processing failed" |>, h)
  | S left' =>
      let destination := CheckDestinationVia m h (rq_url request) true in
      if negb (hd_allowed destination)
      then (HttpPostResult_default <| hp_message := hd_message destination |>, h) else
      let result := ToPostResult (transport h request) in
      let h := h ++ [request] in
      if negb (IsRedirectStatus (hp_status_code result)) then (result, h) else
      if (left' =? 0)%nat
      then (result <| hp_succeeded := false |> <| hp_message := "mock HTTP transport: too many redirects" |>, h) else
      let next_url := redirect_target (rq_url request) result in
      if target_denied initial_https next_url
      then (result <| hp_succeeded := false |>
                   <| hp_message := "mock HTTP transport: redirect destination denied" |>, h) else
      mock_loop left' m transport initial_https h (next_request request (hp_status_code result) next_url)
  end.

Definition ExecuteMockRequest (m : Mocks) (transport : HttpTransport) (h : history) (request : HttpRequest)
    : HttpPostResult * history :=
  mock_loop (S kMaxHttpRedirects) m transport (is_https_url (rq_url request)) h request.

(** ** The entry points *)

(** [HttpClient::Get] and [HttpClient::Post] from the point where the request is known. *)
Definition send (m : Mocks) (h : history) (request : HttpRequest) : HttpPostResult * history :=
  let destination := CheckDestinationVia m h (rq_url request) (bool_decide (is_Some (mk_transport m))) in
  if negb (hd_allowed destination)
  then (HttpPostResult_default <| hp_message := hd_message destination |>, h) else
  match mk_transport m with
  | Some transport => ExecuteMockRequest m transport h request
  | None => WinHttpRequest m h request
  end.

Definition Get (m : Mocks) (h : history) (url accept : string) (timeout_ms : Z) : HttpPostResult * history :=
  send m h (MkHttpRequest "GET" url [] "" accept timeout_ms).

Definition Post (m : Mocks) (h : history) (url : string) (request_body : list byte)
    (content_type accept : string) (timeout_ms : Z) : HttpPostResult * history :=
  send m h (MkHttpRequest "POST" url request_body content_type accept timeout_ms).

Definition Post_timestamp (m : Mocks) (h : history) (url : string) (request_body : list byte)
    (content_type : string) (timeout_ms : Z) : HttpPostResult * history :=
  Post m h url request_body content_type "application/timestamp-reply" timeout_ms.

(** [WinHttpProbe] sends an empty [POST]. *)
Definition WinHttpProbe (m : Mocks) (h : history) (url : string) (timeout_ms : Z) : HttpProbeResult * history :=
  let '(post, h) := WinHttpRequest m h
    (MkHttpRequest "POST" url [] "application/octet-stream" "application/octet-stream" timeout_ms) in
  (MkHttpProbeResult true ((200 <=? hp_status_code post) && (hp_status_code post <? 500))
     (hp_status_code post) (hp_message post), h).

Definition ProbeEndpoint (m : Mocks) (h : history) (url : string) (timeout_ms : Z) : HttpProbeResult * history :=
  let destination := CheckDestinationVia m h url false in
  if negb (hd_allowed destination)
  then (HttpProbeResult_default <| pb_message := hd_message destination |>, h)
  else WinHttpProbe m h url timeout_ms.
End Client.

(** ** What is sent *)

Section Sent.
Context `{HInet : InetApi} `{HNet : WinHttp}.

(** Each request was admitted by the destination policy when it was sent, and a first request over
    [https] is followed by [https] only. *)
Inductive admitted (m : Mocks) (initial_https : bool) : history -> list HttpRequest -> Prop :=
| admitted_nil (h : history) : admitted m initial_https h []
| admitted_cons (h : history) (request : HttpRequest) (sent : list HttpRequest) :
    hd_allowed (CheckDestinationVia m h (rq_url request) false) = true ->
    (initial_https = true -> is_https_url (rq_url request) = true) ->
    admitted m initial_https (h ++ [request]) sent ->
    admitted m initial_https h (request :: sent).

Lemma WinHttpRequestOnce_history (h : history) (request : HttpRequest) :
  snd (WinHttpRequestOnce h request) = h \/ snd (WinHttpRequestOnce h request) = h ++ [request].
Proof. unfold WinHttpRequestOnce. repeat case_match; auto. Qed.

Lemma target_denied_https (initial_https : bool) (next_url : string) :
  target_denied initial_https next_url = false -> initial_https = true -> is_https_url next_url = true.
Proof. unfold target_denied, is_https_url. intros Hd ->. cbn in Hd. by apply orb_false_iff in Hd as [_ ?%negb_false_iff]. Qed.

Lemma rq_url_next (request : HttpRequest) (status : Z) (url : string) : rq_url (next_request request status url) = url.
Proof. by unfold next_request; case_match. Qed.

Lemma winhttp_loop_admitted (left : nat) (m : Mocks) (https : bool) (h : history) (request : HttpRequest) :
  (https = true -> is_https_url (rq_url request) = true) ->
  exists sent, snd (winhttp_loop left m https h request) = h ++ sent /\ (length sent <= left)%nat /\
    admitted m https h sent.
Proof.
  revert h request. induction left as [|left IH]; intros h request Hs; cbn [winhttp_loop].
  { exists []. rewrite app_nil_r. repeat split; [cbn; lia|constructor]. }
  destruct (hd_allowed (CheckDestinationVia m h (rq_url request) false)) eqn:Ed; cbn [negb].
  2:{ exists []. rewrite app_nil_r. repeat split; [cbn; lia|constructor]. }
  destruct (WinHttpRequestOnce h request) as [result h'] eqn:Eo.
  pose proof (WinHttpRequestOnce_history h request) as Hh. rewrite Eo in Hh. cbn [snd] in Hh.
  assert (exists sent, h' = h ++ sent /\ (length sent <= 1)%nat /\
    forall more, admitted m https h' more -> admitted m https h (sent ++ more)) as (sent & -> & Hl & Ha).
  { destruct Hh as [->| ->].
    - exists []. rewrite app_nil_r. by repeat split; [cbn; lia|].
    - exists [request]. repeat split; [cbn; lia|]. intros more Hm. by constructor. }
  assert (forall r : HttpPostResult, exists sent0, snd (r, h ++ sent) = h ++ sent0 /\ (length sent0 <= S left)%nat /\
    admitted m https h sent0) as Hstop.
  { intros r. exists sent. repeat split; [lia|]. rewrite <- (app_nil_r sent). apply Ha. constructor. }
  destruct (negb (IsRedirectStatus _)); [apply Hstop|]. destruct (_ =? 0)%nat; [apply Hstop|].
  destruct (target_denied _ _) eqn:Et; [apply Hstop|]. destruct (negb _); [apply Hstop|].
  edestruct (IH (h ++ sent)) as (sent' & Es & Hl' & Ha').
  { intros Hx. rewrite rq_url_next. by eapply target_denied_https. }
  rewrite Es. exists (sent ++ sent'). rewrite app_assoc. split; [done|]. split; [rewrite length_app; lia|].
  by apply Ha.
Qed.

Lemma sent_are_admitted (m : Mocks) (h : history) (request : HttpRequest) :
  mk_transport m = None ->
  exists sent, snd (send m h request) = h ++ sent /\ (length sent <= 6)%nat /\
    admitted m (is_https_url (rq_url request)) h sent.
Proof.
  intros Hm. unfold send. rewrite Hm. destruct (negb _).
  { exists []. rewrite app_nil_r. repeat split; [cbn; lia|constructor]. }
  by apply winhttp_loop_admitted.
Qed.

(** [C15] No request leaves the program unless the policy allowed its destination at that moment; there are
    at most six of them, redirects included, and [https] is never left for [http]. *)
Theorem requests_are_admitted (m : Mocks) (h : history) (request : HttpRequest) :
  mk_transport m = None ->
  exists sent, snd (send m h request) = h ++ sent /\ (length sent <= 6)%nat /\
    admitted m (is_https_url (rq_url request)) h sent.
Proof. apply sent_are_admitted. Qed.

(** ** What is accepted *)

(** [reads] tells of a stream that ended, [body] being all of it. *)
Inductive whole_body : list ReadEvent -> list byte -> Prop :=
| whole_end : whole_body [] []
| whole_zero (read : Z + list byte) (reads : list ReadEvent) : whole_body (Chunk 0 read :: reads) []
| whole_chunk (bytes_available : Z) (data body : list byte) (reads : list ReadEvent) :
    bytes_available <> 0 -> whole_body reads body -> whole_body (Chunk bytes_available (inr data) :: reads) (data ++ body).

Lemma read_body_complete (reads : list ReadEvent) (body got : list byte) :
  read_body reads body = BodyComplete got -> exists more, got = body ++ more /\ whole_body reads more.
Proof.
  revert body. induction reads as [|[code|n read] reads IH]; intros body E; cbn [read_body] in E; [|done|].
  { injection E as <-. exists []. rewrite app_nil_r. split; [done|constructor]. }
  destruct (Z.eqb_spec n 0) as [->|Hn].
  { injection E as <-. exists []. rewrite app_nil_r. split; [done|constructor]. }
  destruct (_ <? _); [done|]. destruct read as [code|data]; [done|].
  destruct (IH _ E) as (more & -> & Hw). exists (data ++ more). rewrite app_assoc. split; [done|by constructor].
Qed.

(** [WinHttpReadData] gives at most as many bytes as it was asked for. *)
Definition reads_bounded (reads : list ReadEvent) : Prop :=
  Forall (fun e => match e with Chunk n (inr data) => Z.of_nat (length data) <= n | _ => True end) reads.

Lemma read_body_bounded (reads : list ReadEvent) (body got : list byte) :
  reads_bounded reads -> Z.of_nat (length body) <= kMaxHttpResponseSize ->
  read_body reads body = BodyComplete got -> Z.of_nat (length got) <= kMaxHttpResponseSize.
Proof.
  intros Hr. revert body. induction Hr as [|[code|n read] reads Hx Hr IH]; intros body Hb E; cbn [read_body] in E.
  { by injection E as <-. } { done. }
  destruct (n =? 0); [by injection E as <-|]. destruct (Z.ltb_spec kMaxHttpResponseSize (Z.of_nat (length body) + n)); [done|].
  destruct read as [code|data]; [done|]. eapply IH; [|done]. rewrite length_app. lia.
Qed.

Definition peer_text (peer : Peer) : option string :=
  match peer with PeerInet t | PeerInet6 t => t | _ => None end.

(** An answer that may be used: it came from a public address, with a [2xx] status, and [body] is the
    whole of what was sent, within the limit. *)
Definition sound_answer (x : Exchange) (result : HttpPostResult) : Prop :=
  (exists text, peer_text (ex_peer x) = Some text /\ ClassifyIpAddress text = Public) /\
  200 <= ex_status x < 300 /\ hp_status_code result = ex_status x /\
  whole_body (ex_reads x) (hp_body result) /\
  (reads_bounded (ex_reads x) -> Z.of_nat (length (hp_body result)) <= kMaxHttpResponseSize).

Lemma peer_public (peer : Peer) : snd (WinHttpPeerAddressIsPublic peer) = true ->
  exists text, peer_text peer = Some text /\ ClassifyIpAddress text = Public.
Proof.
  destruct peer as [|[t|]|[t|]|]; cbn; try done; unfold IsAllowedPublicAddress;
    intros Hp%bool_decide_eq_true; by eexists.
Qed.

Lemma WinHttpRequestOnce_sound (h : history) (request : HttpRequest) :
  let '(result, h') := WinHttpRequestOnce h request in
  hp_succeeded result = true -> h' = h ++ [request] /\ sound_answer (exchange h request) result.
Proof.
  unfold WinHttpRequestOnce. set (x := exchange h request). destruct (ParseUrl _); [|done].
  destruct (ex_open_fails x); [done|]. destruct (ex_connect_fails x); [done|].
  destruct (ex_open_request_fails x); [done|]. destruct (ex_send_fails x); [done|].
  pose proof (peer_public (ex_peer x)) as Hp.
  destruct (WinHttpPeerAddressIsPublic (ex_peer x)) as [peer [|]]; [|done]. cbn [negb snd] in *.
  destruct (ex_receive_fails x); [done|].
  destruct (read_body (ex_reads x) []) as [| |body] eqn:Eb; [done..|]. cbn. intros Hs.
  apply andb_true_iff in Hs as [H1%Z.leb_le H2%Z.ltb_lt]. split; [done|].
  destruct (read_body_complete _ _ _ Eb) as (more & E & Hw). cbn in E. subst more.
  repeat split; [by apply Hp|done|done|done|].
  intros Hr. eapply read_body_bounded; [done| |exact Eb]. by cbn.
Qed.

Lemma winhttp_loop_sound (left : nat) (m : Mocks) (https : bool) (h : history) (request : HttpRequest) :
  let '(result, h') := winhttp_loop left m https h request in
  hp_succeeded result = true ->
  exists before last, h' = before ++ [last] /\ sound_answer (exchange before last) result.
Proof.
  revert h request. induction left as [|left IH]; intros h request; cbn [winhttp_loop]; [done|].
  destruct (negb _); [done|]. pose proof (WinHttpRequestOnce_sound h request) as Hs.
  destruct (WinHttpRequestOnce h request) as [result h']. destruct (negb (IsRedirectStatus _)).
  { intros Hr. destruct (Hs Hr) as [-> Hx]. by exists h, request. }
  destruct (_ =? 0)%nat; [done|]. destruct (target_denied _ _); [done|]. destruct (negb _); [done|]. apply IH.
Qed.

(** [C31] A response is reported as successful only on a complete answer: the last request sent was answered
    from a public address with a [2xx] status, the stream ended without an error, nothing of it is
    missing from the body and the body is within 64 MiB. *)
Theorem success_is_sound (m : Mocks) (h : history) (request : HttpRequest) :
  mk_transport m = None -> hp_succeeded (fst (send m h request)) = true ->
  exists before last, snd (send m h request) = before ++ [last] /\
    sound_answer (exchange before last) (fst (send m h request)).
Proof.
  intros Hm. unfold send. rewrite Hm. destruct (negb _); [done|]. unfold WinHttpRequest.
  pose proof (winhttp_loop_sound (S kMaxHttpRedirects) m (is_https_url (rq_url request)) h request) as Hs.
  destruct (winhttp_loop _ _ _ _ _) as [result h']. apply Hs.
Qed.

(** ** The substitute transport *)

(** A transport that answers what the network would. *)
Definition network_transport : HttpTransport := fun h request =>
  let result := fst (WinHttpRequestOnce h request) in
  MkHttpResponse (hp_succeeded result) (hp_status_code result) (hp_body result) (hp_message result)
    (hp_response_headers result).

(** Every request with a URL reaches [WinHttpSendRequest]. *)
Definition network_up : Prop :=
  forall h request, rq_url request <> "" -> snd (WinHttpRequestOnce h request) = h ++ [request].

(** Two runs that sent the same requests and ended alike; a successful one with the same answer. *)
Definition same_run (a b : HttpPostResult * history) : Prop :=
  snd a = snd b /\ hp_succeeded (fst a) = hp_succeeded (fst b) /\
  (hp_succeeded (fst a) = true ->
   hp_status_code (fst a) = hp_status_code (fst b) /\ hp_body (fst a) = hp_body (fst b)).

Lemma CheckDestinationVia_mock (m m' : Mocks) (r : HttpHostResolver) (h : history) (url : string) :
  mk_resolver m = Some r -> mk_resolver m' = Some r ->
  hd_allowed (CheckDestinationVia m h url true) = hd_allowed (CheckDestinationVia m' h url false).
Proof. intros Hr Hr'. unfold CheckDestinationVia, CheckDestination. rewrite Hr, Hr'. by repeat case_match. Qed.

Lemma allowed_has_url (m : Mocks) (h : history) (url : string) (skip : bool) :
  hd_allowed (CheckDestinationVia m h url skip) = true -> url <> "".
Proof. by intros Ha ->. Qed.

Lemma network_transport_result (h : history) (request : HttpRequest) :
  let result := fst (WinHttpRequestOnce h request) in
  ToPostResult (network_transport h request)
  = MkHttpPostResult true (hp_succeeded result) (hp_status_code result) (hp_message result) ""
      (hp_response_headers result) (hp_body result).
Proof. done. Qed.

Lemma mock_loop_agrees (left : nat) (m m' : Mocks) (r : HttpHostResolver) (https : bool) (h : history)
    (request : HttpRequest) :
  mk_resolver m = Some r -> mk_resolver m' = Some r -> network_up ->
  same_run (mock_loop left m network_transport https h request) (winhttp_loop left m' https h request).
Proof.
  intros Hr Hr' Hup. revert h request. induction left as [|left IH]; intros h request; [by repeat split|].
  cbn [mock_loop winhttp_loop]. rewrite (CheckDestinationVia_mock m m' _ _ _ Hr Hr'). destruct (hd_allowed _) eqn:Ha; [|by repeat split].
  pose proof (Hup h request (allowed_has_url _ _ _ _ Ha)) as Hh. rewrite network_transport_result.
  destruct (WinHttpRequestOnce h request) as [result h']. cbn [fst snd] in *. subst h'. cbn [negb].
  set (mocked := MkHttpPostResult _ _ _ _ _ _ _). change (hp_status_code mocked) with (hp_status_code result).
  change (redirect_target (rq_url request) mocked) with (redirect_target (rq_url request) result).
  destruct (IsRedirectStatus _); [|by repeat split]. cbn [negb]. destruct (left =? 0)%nat; [by repeat split|].
  destruct (target_denied _ _); [by repeat split|].
  destruct (hd_allowed (CheckDestinationVia m' (h ++ [request]) _ false)) eqn:Ed; [apply IH|].
  destruct left as [|left]; [by repeat split|]. cbn [mock_loop negb].
  rewrite rq_url_next, (CheckDestinationVia_mock m m' _ _ _ Hr Hr'), Ed. by repeat split.
Qed.

(** The redirect loop of the tests is that of the shipped client: a substitute transport that answers
    as the network does, with a substitute resolver, sends the same requests in the same order and
    succeeds on the same ones, with the same status and body. *)
Theorem mock_agrees_with_network (m : Mocks) (r : HttpHostResolver) (h : history) (request : HttpRequest) :
  mk_resolver m = Some r -> network_up ->
  same_run (send (m <| mk_transport := Some network_transport |>) h request)
           (send (m <| mk_transport := None |>) h request).
Proof.
  intros Hr Hup. unfold send. set (m1 := m <| mk_transport := Some network_transport |>).
  set (m2 := m <| mk_transport := None |>). change (mk_transport m1) with (Some network_transport).
  change (mk_transport m2) with (@None HttpTransport).
  rewrite (bool_decide_eq_true_2 (is_Some (Some _))) by (by exists network_transport).
  rewrite (bool_decide_eq_false_2 (is_Some None)) by (by intros [? ?]).
  rewrite (CheckDestinationVia_mock m1 m2 r _ _ Hr Hr). destruct (hd_allowed _); [|by repeat split]. cbn [negb].
  by apply mock_loop_agrees with r.
Qed.
End Sent.

(** ** A revocation list behind a redirect *)

Module SampleRedirect.

Definition inet : InetApi := {|
  inet_pton4 text := if text ==s "93.184.216.34" then Some [x5d; xb8; xd8; x22] else None;
  inet_pton6 _ := None
|}.

Definition answer (status : Z) (headers : string) (body : list byte) : Exchange :=
  Exchange_default <| ex_peer := PeerInet (Some "93.184.216.34") |> <| ex_status := status |>
    <| ex_raw_headers := Some headers |>
    <| ex_reads := match body with [] => [] | _ => [Chunk (Z.of_nat (length body)) (inr body)] end |>.

Definition crlf : string := of_chars ["013"; "010"]%char.

Definition net : WinHttp := {|
  WinHttpCrackUrl url := Some (true, "ca.example", 443, "/");
  exchange _ request :=
    if rq_url request ==s "https://ca.example/new/full.crl" then answer 200 "HTTP/1.1 200 OK" [x30; x00]
    else answer 302 ("HTTP/1.1 302 Found" +s+ crlf +s+ "Location: ../new/full.crl" +s+ crlf) [];
  ResolveSystemHost _ _ := ["93.184.216.34"]
|}.

Definition request : HttpRequest := MkHttpRequest "GET" "https://ca.example/crl/full.crl" [] "" "*/*" 10000.
Definition moved : HttpRequest := request <| rq_url := "https://ca.example/new/full.crl" |>.
Definition mocks : Mocks := Mocks_default <| mk_resolver := Some (fun _ _ => ["93.184.216.34"]) |>.

Definition fetched : HttpPostResult * history := Eval vm_compute in send (HInet := inet) (HNet := net) Mocks_default [] request.

Lemma fetched_is : send (HInet := inet) (HNet := net) Mocks_default [] request = fetched.
Proof. vm_compute. reflexivity. Qed.

Example fetched_sent : snd fetched = [request; moved] /\ hp_body (fst fetched) = [x30; x00].
Proof. vm_compute. done. Qed.

Example requests_are_admitted_witness :
  mk_transport Mocks_default = None /\
  exists sent, snd (send (HInet := inet) (HNet := net) Mocks_default [] request) = [] ++ sent /\
    (length sent <= 6)%nat /\
    admitted (HInet := inet) (HNet := net) Mocks_default (is_https_url (rq_url request)) [] sent.
Proof.
  split; [reflexivity|].
  exact (requests_are_admitted (HInet := inet) (HNet := net) Mocks_default [] request eq_refl).
Defined.

Lemma fetched_succeeds : hp_succeeded (fst (send (HInet := inet) (HNet := net) Mocks_default [] request)) = true.
Proof. by rewrite fetched_is. Qed.

Example success_is_sound_witness :
  hp_succeeded (fst fetched) = true /\
  exists before last, snd (send (HInet := inet) (HNet := net) Mocks_default [] request) = before ++ [last] /\
    sound_answer (HInet := inet) (exchange (WinHttp := net) before last)
      (fst (send (HInet := inet) (HNet := net) Mocks_default [] request)).
Proof.
  split; [reflexivity|].
  exact (success_is_sound (HInet := inet) (HNet := net) Mocks_default [] request eq_refl fetched_succeeds).
Defined.

Lemma up : network_up (HInet := inet) (HNet := net).
Proof.
  intros h r Hr. unfold WinHttpRequestOnce, ParseUrl. apply str_empty_false in Hr. rewrite Hr.
  cbn [exchange net WinHttpCrackUrl]. by destruct (rq_url r ==s _).
Qed.

Example mock_agrees_with_network_witness :
  mk_resolver mocks = Some (fun _ _ => ["93.184.216.34"]) /\
  same_run (send (HInet := inet) (HNet := net)
              (mocks <| mk_transport := Some (network_transport (HInet := inet) (HNet := net)) |>) [] request)
           (send (HInet := inet) (HNet := net) (mocks <| mk_transport := None |>) [] request).
Proof.
  split; [reflexivity|].
  exact (mock_agrees_with_network (HInet := inet) (HNet := net) mocks _ [] request eq_refl up).
Defined.
End SampleRedirect.
