(* ===== verification/CaRegistry.v ===== *)
(** * CaRegistry: the registry of certification authorities (src/src/lib/core/net/CaSettingsRegistry.cpp)

    [ParseJson] reads the array [CAs.json] with the primitives of [Json] (a
    cursor is the rest of the text), [Load] keeps a cache of it with its source
    and age, [Find] looks an authority up.  The download, the clock and the file
    system are parameters. *)

From S2P Require Import Prelude CxxString Codec Utf Json FileSystem Paths.

Local Open Scope Z_scope.
Local Open Scope tamga_scope.

Record CaSettingsEntry := MkCaSettingsEntry {
  ca_issuer_cns : list string;
  ca_address : string;
  ca_edrpou : string;
  ca_ocsp_url : string;
  ca_cmp_url : string;
  ca_tsp_url : string;
  ca_direct_access : bool
}.

#[export] Instance eta_CaSettingsEntry : Eta CaSettingsEntry := fun r =>
  MkCaSettingsEntry (ca_issuer_cns r) (ca_address r) (ca_edrpou r) (ca_ocsp_url r)
  (ca_cmp_url r) (ca_tsp_url r) (ca_direct_access r).

Definition CaSettingsEntry_default : CaSettingsEntry :=
  MkCaSettingsEntry [] "" "" "" "" "" false.

(** What [ParseEntry] fills: the entry and the addresses its URLs are built from. *)
Record Draft := MkDraft {
  df_issuer_cns : list string;
  df_address : string;
  df_edrpou : string;
  df_direct_access : bool;
  df_ocsp_address : string;
  df_ocsp_port : string;
  df_cmp_address : string;
  df_tsp_address : string;
  df_tsp_port : string
}.

#[export] Instance eta_Draft : Eta Draft := fun r =>
  MkDraft (df_issuer_cns r) (df_address r) (df_edrpou r) (df_direct_access r)
  (df_ocsp_address r) (df_ocsp_port r) (df_cmp_address r) (df_tsp_address r) (df_tsp_port r).

Definition Draft_default : Draft :=
  MkDraft [] "" "" false "" "" "" "" "".

(** ** One entry *)

Definition kArrayElementEnclosingDepth : nat := 1.
Definition kEntryMemberEnclosingDepth : nat := 2.

Definition AtDocumentEnd (text : list ascii) : bool :=
  match SkipJsonWhitespace text with [] => true | _ => false end.

Definition head_is (c : ascii) (text : list ascii) : bool :=
  match text with ch :: _ => Ascii.eqb ch c | [] => false end.

(** A string value replaces [out]; a value of another type is skipped. *)
Definition read_string_member (text : list ascii) (out : string) : option (string * list ascii) :=
  let text := SkipJsonWhitespace text in
  if head_is quote text then
    match ParseJsonString text with Some (value, rest) => Some (of_chars value, rest) | None => None end
  else
    match SkipJsonValue kEntryMemberEnclosingDepth text with Some rest => Some (out, rest) | None => None end.

Fixpoint cns_loop (fuel : nat) (text : list ascii) (cns : list string) : option (list string * list ascii) :=
  match fuel with
  | O => None
  | S fuel' =>
      match ParseJsonString text with
      | None => None
      | Some (cn, rest) =>
          match SkipJsonWhitespace rest with
          | ch :: rest' =>
              if Ascii.eqb ch "," then cns_loop fuel' (SkipJsonWhitespace rest') (cns ++ [of_chars cn])
              else if Ascii.eqb ch "]" then Some (cns ++ [of_chars cn], rest')
              else None
          | [] => None
          end
      end
  end.

(** The array of common names, after its bracket. *)
Definition read_issuer_cns (text : list ascii) (cns : list string) : option (list string * list ascii) :=
  let text := SkipJsonWhitespace text in
  if head_is "]" text then Some (cns, drop 1 text) else cns_loop (S (length text)) text cns.

Definition store {A} (read : option (A * list ascii)) (set : A -> Draft) : option (Draft * list ascii) :=
  match read with Some (value, rest) => Some (set value, rest) | None => None end.

Definition entry_member (key : string) (value : list ascii) (d : Draft) : option (Draft * list ascii) :=
  if (key ==s "issuerCNs") && head_is "[" value then
    store (read_issuer_cns (drop 1 value) (df_issuer_cns d)) (fun cns => d <| df_issuer_cns := cns |>)
  else if key ==s "address" then
    store (read_string_member value (df_address d)) (fun s => d <| df_address := s |>)
  else if key ==s "codeEDRPOU" then
    store (read_string_member value (df_edrpou d)) (fun s => d <| df_edrpou := s |>)
  else if key ==s "ocspAccessPointAddress" then
    store (read_string_member value (df_ocsp_address d)) (fun s => d <| df_ocsp_address := s |>)
  else if key ==s "ocspAccessPointPort" then
    store (read_string_member value (df_ocsp_port d)) (fun s => d <| df_ocsp_port := s |>)
  else if key ==s "cmpAddress" then
    store (read_string_member value (df_cmp_address d)) (fun s => d <| df_cmp_address := s |>)
  else if key ==s "tspAddress" then
    store (read_string_member value (df_tsp_address d)) (fun s => d <| df_tsp_address := s |>)
  else if key ==s "tspAddressPort" then
    store (read_string_member value (df_tsp_port d)) (fun s => d <| df_tsp_port := s |>)
  else
    let d := if key ==s "directAccess"
             then d <| df_direct_access := match literal_at (chars "true") value with Some _ => true | None => false end |>
             else d in
    match SkipJsonValue kEntryMemberEnclosingDepth value with Some rest => Some (d, rest) | None => None end.

Fixpoint entry_loop (fuel : nat) (text : list ascii) (d : Draft) : option Draft :=
  match fuel with
  | O => None
  | S fuel' =>
      match member_key text with
      | None => None
      | Some (key, value) =>
          match entry_member (of_chars key) value d with
          | None => None
          | Some (d, rest) =>
              match SkipJsonWhitespace rest with
              | ch :: rest' =>
                  if Ascii.eqb ch "," then entry_loop fuel' (SkipJsonWhitespace rest') d
                  else if Ascii.eqb ch "}" then Some d
                  else None
              | [] => None
              end
          end
      end
  end.

(** [None] is an element that is not usable. *)
Definition ParseEntry (text : list ascii) : option Draft :=
  match SkipJsonWhitespace text with
  | ch :: rest =>
      if negb (Ascii.eqb ch "{") then None
      else
        let body := SkipJsonWhitespace rest in
        if head_is "}" body then None else entry_loop (S (length body)) body Draft_default
  | [] => None
  end.

Definition ToLowerAscii (value : string) : string := of_chars (map tolower (chars value)).

Definition BuildUrl (address port default_path : string) : string :=
  if str_empty address then ""
  else if starts_with address "http://" || starts_with address "https://" then address
  else
    let '(host, path) :=
      match str_find address "/" 0 with
      | None => (address, "")
      | Some slash => (substr address 0 slash, substr_from address slash)
      end in
    let url := "http://" +s+ host in
    let url := if negb (str_empty port) && negb (port ==s "80") then url +s+ ":" +s+ port else url in
    if negb (str_empty path) then url +s+ path else url +s+ default_path.

Definition DefaultUrl : string := "https://czo.gov.ua/download/certificates/CAs.json".

Definition entry_of (d : Draft) : CaSettingsEntry :=
  MkCaSettingsEntry (df_issuer_cns d) (df_address d) (df_edrpou d)
    (BuildUrl (df_ocsp_address d) (df_ocsp_port d) "/services/ocsp/")
    (BuildUrl (df_cmp_address d) "" "/services/cmp/")
    (BuildUrl (df_tsp_address d) (df_tsp_port d) "/services/tsp/")
    (df_direct_access d).

(** ** The array *)

Definition usable (entry : option Draft) : list CaSettingsEntry :=
  match entry with
  | Some d => if str_empty (df_address d) then [] else [entry_of d]
  | None => []
  end.

(** The loop over the elements: the entries and the text after the closing bracket. *)
Fixpoint elements_loop (fuel : nat) (json : list ascii) (out : list CaSettingsEntry)
    : string + list CaSettingsEntry * list ascii :=
  match fuel with
  | O => inl "CAs.json: malformed or truncated array element"
  | S fuel' =>
      match SkipJsonValue kArrayElementEnclosingDepth json with
      | None => inl "CAs.json: malformed or truncated array element"
      | Some element_end =>
          let out := out ++ usable (ParseEntry json) in
          match SkipJsonWhitespace element_end with
          | ch :: rest =>
              if Ascii.eqb ch "," then elements_loop fuel' rest out
              else if Ascii.eqb ch "]" then inr (out, rest)
              else inl "CAs.json: unterminated top-level array"
          | [] => inl "CAs.json: unterminated top-level array"
          end
      end
  end.

Definition ParseJson (json : list ascii) : string + list CaSettingsEntry :=
  let json := SkipJsonWhitespace json in
  if negb (head_is "[" json) then inl "CAs.json: expected a top-level array"
  else
    let body := SkipJsonWhitespace (drop 1 json) in
    if head_is "]" body then
      if AtDocumentEnd (drop 1 body) then inr [] else inl "CAs.json: trailing data after the top-level array"
    else
      match elements_loop (S (length body)) body [] with
      | inl message => inl message
      | inr (out, rest) =>
          if negb (AtDocumentEnd rest) then inl "CAs.json: trailing data after the top-level array"
          else match out with [] => inl "CAs.json: no usable CA entries" | _ => inr out end
      end.

(** ** Looking an authority up *)

Definition Find (entries : list CaSettingsEntry) (hint : string) : option CaSettingsEntry :=
  if str_empty hint then None
  else
    let needle := ToLowerAscii hint in
    match List.find (fun entry => negb (str_empty (ca_edrpou entry)) && (ca_edrpou entry ==s hint)) entries with
    | Some entry => Some entry
    | None =>
        match List.find (fun entry => negb (str_empty (ca_address entry))
                                      && (ToLowerAscii (ca_address entry) ==s needle)) entries with
        | Some entry => Some entry
        | None => List.find (fun entry => existsb (fun cn => str_contains (ToLowerAscii cn) needle)
                                            (ca_issuer_cns entry)) entries
        end
    end.

(** ** The cache *)

Definition kCacheFileName : string := "CAs.json".
Definition kCacheMetaFileName : string := "CAs.source".
Definition kCacheTtlSeconds : Z := 24 * 60 * 60.

Definition CacheMetadataPath (cache : string) : string := path_append (parent_path cache) kCacheMetaFileName.

Record HttpResponse := MkHttpResponse {
  hr_succeeded : bool;
  hr_status_code : Z;
  hr_body : list ascii
}.

Class CaWorld := {
  system_now : Z;  (** seconds since the epoch *)
  HttpGet : string -> string -> Z -> HttpResponse  (** URL, Accept, timeout *)
}.

Section Cache.
Context `{FileApi} `{CaWorld}.

Definition newline : ascii := "010"%char.

Definition cache_metadata (source : string) (now : Z) : list ascii :=
  chars source ++ [newline] ++ chars (to_string now) ++ [newline].

Definition WriteCacheMetadata (fs : Fs) (meta_path source : string) : Fs :=
  snd (fs_write fs meta_path (cache_metadata source system_now)).

Fixpoint split_line (l : list ascii) : option (list ascii * list ascii) :=
  match l with
  | [] => None
  | c :: l' =>
      if Ascii.eqb c newline then Some ([], l')
      else match split_line l' with Some (line, rest) => Some (c :: line, rest) | None => None end
  end.

Definition IsCacheFresh (fs : Fs) (meta_path source : string) : bool :=
  match ReadLimited (fs_read fs meta_path) kMaxCachedArtifactSize with
  | inl _ => false
  | inr text =>
      match split_line text with
      | None => false
      | Some (line, timestamp_text) =>
          if negb (of_chars line ==s source) then false
          else
            match strto 64 (cstr timestamp_text) with
            | None => false
            | Some (written_at, _) =>
                if written_at <=? 0 then false
                else if system_now <? written_at then false
                else system_now - written_at <=? kCacheTtlSeconds
            end
      end
  end.

(** The entries of the cache file, when it can be parsed. *)
Definition cached (fs : Fs) (work_dir : string) : option (list CaSettingsEntry) :=
  if str_empty work_dir then None
  else
    match ReadLimited (fs_read fs (path_append work_dir kCacheFileName)) kMaxCachedArtifactSize with
    | inr (c :: text) => match ParseJson (c :: text) with inr entries => Some entries | inl _ => None end
    | _ => None
    end.

Definition Load (fs : Fs) (work_dir : string) (offline : bool) (url : string) (timeout_ms : Z)
    : (string + list CaSettingsEntry) * Fs :=
  let source := if str_empty url then DefaultUrl else url in
  let cache := if str_empty work_dir then "" else path_append work_dir kCacheFileName in
  let cached_entries := cached fs work_dir in
  let cache_usable :=
    match cached_entries with Some _ => IsCacheFresh fs (CacheMetadataPath cache) source | None => false end in
  if offline then
    match cached_entries with
    | Some entries => (inr entries, fs)
    | None => (inl "CA registry is not cached and offline mode forbids the download", fs)
    end
  else
    match cached_entries, cache_usable with
    | Some entries, true => (inr entries, fs)
    | _, _ =>
        let response := HttpGet source "application/json" timeout_ms in
        let http_ok := hr_succeeded response && (200 <=? hr_status_code response) && (hr_status_code response <? 300) in
        let downloaded :=
          if http_ok then ParseJson (hr_body response)
          else inl ("CA registry download failed (status " +s+ to_string (hr_status_code response) +s+ ")") in
        match downloaded with
        | inr entries =>
            if str_empty cache then (inr entries, fs)
            else
              let fs := fs_create_directories fs (parent_path cache) in
              let '(written, fs) := fs_write fs cache (hr_body response) in
              (inr entries, if written then WriteCacheMetadata fs (CacheMetadataPath cache) source else fs)
        | inl download_error =>
            match cached_entries with
            | Some entries => (inr entries, fs)
            | None => (inl download_error, fs)
            end
        end
    end.

End Cache.

(** ** What the reader makes of a document *)

Definition member_spec (d : Draft) (key : string) (v : json) : option Draft :=
  let text old := match as_string v with Some s => s | None => old end in
  match (key ==s "issuerCNs"), v with
  | true, JArr items =>
      match mapM as_string items with
      | Some cns => Some (d <| df_issuer_cns := df_issuer_cns d ++ cns |>)
      | None => None
      end
  | _, _ => Some
      (if key ==s "address" then d <| df_address := text (df_address d) |>
       else if key ==s "codeEDRPOU" then d <| df_edrpou := text (df_edrpou d) |>
       else if key ==s "ocspAccessPointAddress" then d <| df_ocsp_address := text (df_ocsp_address d) |>
       else if key ==s "ocspAccessPointPort" then d <| df_ocsp_port := text (df_ocsp_port d) |>
       else if key ==s "cmpAddress" then d <| df_cmp_address := text (df_cmp_address d) |>
       else if key ==s "tspAddress" then d <| df_tsp_address := text (df_tsp_address d) |>
       else if key ==s "tspAddressPort" then d <| df_tsp_port := text (df_tsp_port d) |>
       else if key ==s "directAccess" then d <| df_direct_access := match v with JBool b => b | _ => false end |>
       else d)
  end.

Fixpoint members_spec (d : Draft) (l : list (string * json)) : option Draft :=
  match l with
  | [] => Some d
  | (k, v) :: l' => match member_spec d k v with Some d => members_spec d l' | None => None end
  end.

Definition entry_spec (v : json) : option Draft :=
  match v with
  | JObj ((k, w) :: members) => members_spec Draft_default ((k, w) :: members)
  | _ => None
  end.

Definition registry_spec (items : list json) : string + list CaSettingsEntry :=
  match items, concat (map (fun v => usable (entry_spec v)) items) with
  | [], _ => inr []
  | _, [] => inl "CAs.json: no usable CA entries"
  | _, out => inr out
  end.

Lemma printed_head (v : json) (rest : list ascii) :
  head_is quote (print v ++ rest) = match v with JStr _ => true | _ => false end /\
  head_is "[" (print v ++ rest) = match v with JArr _ => true | _ => false end /\
  head_is "{" (print v ++ rest) = match v with JObj _ => true | _ => false end /\
  match literal_at (chars "true") (print v ++ rest) with Some _ => true | None => false end
    = match v with JBool b => b | _ => false end.
Proof.
  destruct v as [s|[]| |z|l|l]; [done..| |done|done].
  cbn [print]. destruct (to_string_head z) as (c & t & -> & Hc).
  change (chars "true") with ["t"; "r"; "u"; "e"]%char. cbn [app head_is literal_at].
  assert (forall x, In x [quote; "["; "{"; "t"]%char -> Ascii.eqb c x = false) as N.
  { intros x Hx. apply Ascii.eqb_neq. intros ->. cbn in Hx.
    destruct Hx as [<-|[<-|[<-|[<-|[]]]]]; destruct Hc as [Hc|Hc]; vm_compute in Hc; discriminate. }
  rewrite !N by (cbn; tauto). done.
Qed.

Lemma read_string_member_printed (v : json) (rest : list ascii) (old : string) :
  fits 2 v = true -> delimited rest = true ->
  read_string_member (print v ++ rest) old
  = Some (match as_string v with Some s => s | None => old end, rest).
Proof.
  intros Hf Hr. unfold read_string_member, SkipJsonWhitespace. rewrite skip_space_print.
  destruct (printed_head v rest) as (-> & _).
  pose proof (print_skips v 2%nat rest Hr) as S. rewrite Hf in S. unfold kEntryMemberEnclosingDepth.
  destruct v; try by rewrite S.
  cbn [print as_string]. by rewrite ParseJsonString_literal, of_chars_chars.
Qed.

Lemma cns_loop_printed (l : list json) (rest : list ascii) (cns : list string) (fuel : nat) :
  l <> [] -> (length l <= fuel)%nat ->
  cns_loop fuel (print_items l true ++ rest) cns
  = match mapM as_string l with Some more => Some (cns ++ more, rest) | None => None end.
Proof.
  intros Hne. revert cns fuel. induction l as [|v l IH]; intros cns fuel Hf; [done|].
  destruct fuel as [|fuel]; [cbn in Hf; lia|]. cbn [print_items cns_loop app]. rewrite <- app_assoc.
  pose proof (ParseJsonString_printed v (print_items l false ++ rest)) as E.
  destruct v as [s|b| |z|a|a].
  2-6: cbn [as_string] in *; destruct (ParseJsonString _) as [[? ?]|]; by cbn in *.
  clear E. cbn [print as_string]. rewrite ParseJsonString_literal. unfold SkipJsonWhitespace.
  rewrite skip_space_delimited by apply print_items_delimited. rewrite of_chars_chars.
  destruct l as [|w l]; [done|]. cbn [print_items app]. change (Ascii.eqb "," ",") with true. cbv iota.
  rewrite <- app_assoc, skip_space_print. cbn [length] in Hf.
  specialize (IH ltac:(done) (cns ++ [s]) fuel ltac:(cbn; lia)). cbn [print_items app] in IH.
  rewrite <- app_assoc in IH. rewrite IH.
  change (mapM as_string (JStr s :: w :: l)) with (k ← mapM as_string (w :: l); Some (s :: k)).
  destruct (mapM as_string (w :: l)) as [k|]; cbn [mbind option_bind]; [by rewrite <- app_assoc|done].
Qed.

Lemma read_issuer_cns_printed (items : list json) (rest : list ascii) (cns : list string) :
  read_issuer_cns (print_items items true ++ rest) cns
  = match mapM as_string items with Some more => Some (cns ++ more, rest) | None => None end.
Proof.
  unfold read_issuer_cns, SkipJsonWhitespace. destruct items as [|v l].
  - cbn. by rewrite app_nil_r.
  - assert (skip_space (print_items (v :: l) true ++ rest) = print_items (v :: l) true ++ rest) as E
      by (cbn [print_items app]; rewrite <- app_assoc; apply skip_space_print).
    rewrite E. destruct (print_head v) as (c & t & Ep & _ & Hc & _).
    assert (head_is "]" (print_items (v :: l) true ++ rest) = false) as ->
      by (cbn [print_items app]; by rewrite Ep).
    apply cns_loop_printed; [done|]. pose proof (length_print_items (v :: l) true). rewrite length_app. lia.
Qed.

Lemma entry_member_printed (key : string) (v : json) (rest : list ascii) (d : Draft) :
  fits 2 v = true -> delimited rest = true ->
  entry_member key (print v ++ rest) d
  = match member_spec d key v with Some d => Some (d, rest) | None => None end.
Proof.
  intros Hf Hr. unfold entry_member, member_spec.
  destruct (printed_head v rest) as (_ & Ha & _ & Hb). rewrite Ha, Hb.
  pose proof (print_skips v 2%nat rest Hr) as S. rewrite Hf in S. unfold kEntryMemberEnclosingDepth. rewrite S.
  rewrite !(read_string_member_printed v rest) by done.
  destruct (key ==s "issuerCNs"), v as [s|b| |z|l|l]; cbn [andb store as_string];
    try by repeat (case_match; try done).
  rewrite print_arr. cbn [app drop]. rewrite drop_0, read_issuer_cns_printed. by destruct (mapM as_string l).
Qed.

Lemma entry_loop_printed (members : list (string * json)) (rest : list ascii) (d : Draft) (fuel : nat) :
  members <> [] -> forallb (fun m => fits 2 m.2) members = true -> (length members <= fuel)%nat ->
  entry_loop fuel (print_members members true ++ rest) d = members_spec d members.
Proof.
  intros Hne. revert d fuel. induction members as [|[k v] l IH]; intros d fuel Hm Hf; [done|].
  destruct fuel as [|fuel]; [cbn in Hf; lia|]. cbn [forallb snd] in Hm. apply andb_true_iff in Hm as [Hv Hl].
  cbn [print_members entry_loop app members_spec].
  replace ((literal (chars k) ++ ":"%char :: print v ++ print_members l false) ++ rest)
    with (literal (chars k) ++ ":"%char :: print v ++ (print_members l false ++ rest))
    by (rewrite <- app_assoc; cbn [app]; by rewrite <- app_assoc).
  rewrite member_key_printed, of_chars_chars.
  rewrite entry_member_printed by (done || apply print_members_delimited).
  destruct (member_spec d k v) as [d'|]; [|done]. unfold SkipJsonWhitespace.
  rewrite skip_space_delimited by apply print_members_delimited.
  destruct l as [|[k' v'] l]; [done|]. cbn [print_members app]. change (Ascii.eqb "," ",") with true. cbv iota.
  assert (skip_space ((literal (chars k') ++ ":"%char :: print v' ++ print_members l false) ++ rest)
    = print_members ((k', v') :: l) true ++ rest) as -> by done.
  apply IH; [done|done|cbn in *; lia].
Qed.

Lemma ParseEntry_printed (v : json) (rest : list ascii) :
  fits 1 v = true -> ParseEntry (print v ++ rest) = entry_spec v.
Proof.
  intros Hf. unfold ParseEntry, SkipJsonWhitespace. rewrite skip_space_print.
  destruct (printed_head v rest) as (_ & _ & Hh & _).
  destruct (print_head v) as (c & t & Ep & _). destruct v as [s|b| |z|l|l];
    try by rewrite Ep in *; cbn [app head_is] in *; rewrite Hh.
  clear c t Ep. rewrite print_obj. cbn [app]. change (Ascii.eqb "{" "{") with true. cbn [negb].
  rewrite fits_obj in Hf. apply andb_true_iff in Hf as [_ Hl].
  destruct l as [|[k w] l]; [done|].
  assert (skip_space (print_members ((k, w) :: l) true ++ rest) = print_members ((k, w) :: l) true ++ rest) as E by done.
  rewrite E. assert (head_is "}" (print_members ((k, w) :: l) true ++ rest) = false) as -> by done.
  cbn [entry_spec]. apply entry_loop_printed; [done|done|].
  pose proof (length_print_members ((k, w) :: l) true). rewrite length_app. lia.
Qed.

Lemma elements_loop_printed (items : list json) (rest : list ascii) (out : list CaSettingsEntry) (fuel : nat) :
  items <> [] -> (length items <= fuel)%nat ->
  elements_loop fuel (print_items items true ++ rest) out
  = if forallb (fits 1) items then inr (out ++ concat (map (fun v => usable (entry_spec v)) items), rest)
    else inl "CAs.json: malformed or truncated array element"%string.
Proof.
  intros Hne. revert out fuel. induction items as [|v l IH]; intros out fuel Hf; [done|].
  destruct fuel as [|fuel]; [cbn in Hf; lia|]. cbn [print_items elements_loop app forallb]. rewrite <- app_assoc.
  unfold kArrayElementEnclosingDepth. rewrite print_skips by apply print_items_delimited.
  destruct (fits 1 v) eqn:Ev; [|done]. cbn [andb]. rewrite ParseEntry_printed by done. unfold SkipJsonWhitespace.
  rewrite skip_space_delimited by apply print_items_delimited. cbn [map concat].
  destruct l as [|w l]; [cbn; by rewrite app_nil_r|]. cbn [print_items app]. change (Ascii.eqb "," ",") with true. cbv iota.
  specialize (IH ltac:(done) (out ++ usable (entry_spec v)) fuel ltac:(cbn in *; lia)).
  cbn [print_items app] in IH. rewrite IH. destruct (forallb (fits 1) (w :: l)); [by rewrite <- app_assoc|done].
Qed.

(** The registry read from any well-formed document is exactly what the document says: the usable
    elements in order, each with its last string per key, its common names in order and its URLs; an
    element that is not an object, has no address or a common name that is not a string is left out;
    a document nested too deeply, or with no usable element, is refused whole. *)
Theorem ParseJson_reads_registry (items : list json) :
  ParseJson (print (JArr items))
  = if forallb (fits 1) items then registry_spec items
    else inl "CAs.json: malformed or truncated array element"%string.
Proof.
  unfold ParseJson, SkipJsonWhitespace. rewrite <- (app_nil_r (print (JArr items))), skip_space_print, app_nil_r.
  rewrite print_arr. cbn [head_is drop]. change (Ascii.eqb "[" "[") with true. cbn [negb]. rewrite drop_0.
  destruct items as [|v l]; [done|].
  rewrite <- (app_nil_r (print_items (v :: l) true)).
  assert (skip_space (print_items (v :: l) true ++ []) = print_items (v :: l) true ++ []) as ->
    by (cbn [print_items app]; rewrite <- app_assoc; apply skip_space_print).
  destruct (print_head v) as (c & t & Ep & _ & Hc & _).
  assert (head_is "]" (print_items (v :: l) true ++ []) = false) as ->
    by (cbn [print_items app]; by rewrite Ep).
  rewrite elements_loop_printed.
  2:done. 2:{ pose proof (length_print_items (v :: l) true). rewrite length_app. lia. }
  destruct (forallb (fits 1) (v :: l)); [|done]. unfold registry_spec. rewrite app_nil_l. cbn [AtDocumentEnd].
  by destruct (concat _).
Qed.

(** ** The cache *)

Lemma split_line_at (line rest : list ascii) :
  newline ∉ line -> split_line (line ++ newline :: rest) = Some (line, rest).
Proof.
  induction line as [|c line IH]; intros Hn; [done|]. apply not_elem_of_cons in Hn as [Hc Hl].
  cbn [app split_line]. rewrite (proj2 (Ascii.eqb_neq c newline)) by done. by rewrite IH.
Qed.

Lemma IsCacheFresh_written (fs : files) (world : CaWorld) (meta_path source : string) (written_at : Z) :
  newline ∉ chars source -> 0 < written_at < 2 ^ 63 ->
  Z.of_nat (length (cache_metadata source written_at)) <= kMaxCachedArtifactSize ->
  fs !! meta_path = Some (cache_metadata source written_at) ->
  IsCacheFresh (H := memory) fs meta_path source
  = (written_at <=? system_now) && (system_now - written_at <=? kCacheTtlSeconds).
Proof.
  intros Hs Hw Hl E. unfold IsCacheFresh.
  destruct (to_string_digits written_at ltac:(lia)) as (ds & Ed & Hd & Hne & Hv).
  change (@fs_read memory fs meta_path) with (memory_read fs meta_path).
  erewrite memory_read_limited; [|exact E|done]. unfold cache_metadata. cbn [app]. rewrite split_line_at by done. rewrite of_chars_chars, String.eqb_refl. cbn [negb].
  assert (cstr (chars (to_string written_at) ++ [newline]) = chars (to_string written_at) ++ [newline]) as ->.
  { rewrite Ed. clear -Hd. induction ds as [|d ds IH]; [done|]. cbn in Hd. apply andb_true_iff in Hd as [Hd Hds].
    cbn [app cstr]. rewrite IH by done. by destruct d as [[] [] [] [] [] [] [] []]. }
  rewrite strto_to_string by (try done; lia). rewrite (proj2 (Z.leb_gt _ _)) by lia.
  destruct (Z.ltb_spec system_now written_at), (Z.leb_spec written_at system_now); (lia || done).
Qed.

Lemma parent_of_appended (dir : string) :
  negb (str_empty dir) = true ->
  path_append dir kCacheFileName <> CacheMetadataPath (path_append dir kCacheFileName).
Proof.
  intros Hd E. unfold CacheMetadataPath in E. apply (f_equal (fun p => last (chars p))) in E. revert E.
  assert (forall p name c, last (chars name) = Some c -> last (chars (path_append p name)) = Some c) as L.
  { intros p name c Hn. unfold path_append. destruct (last (chars p)) as [x|]; [|done].
    destruct (Ascii.eqb x "/"); rewrite !chars_app, !last_app; by rewrite Hn. }
  rewrite (L _ kCacheFileName "n"%char), (L _ kCacheMetaFileName "e"%char) by done. done.
Qed.

(** [C40] A registry that was downloaded is served from the cache for one day: any later call with the same
    source returns the same entries and does not depend on what the network would answer, and after
    the day it does not count as fresh any more. *)
Theorem Load_serves_cache (fs fs' : files) (world world' : CaWorld) (work_dir url : string) (timeout_ms timeout' : Z)
    (entries : list CaSettingsEntry)
    (source := if str_empty url then DefaultUrl else url)
    (cache := path_append work_dir kCacheFileName)
    (response := HttpGet (CaWorld := world) source "application/json" timeout_ms) :
  str_empty work_dir = false -> newline ∉ chars source ->
  cached (H := memory) fs work_dir = None ->
  hr_succeeded response = true -> 200 <= hr_status_code response < 300 -> hr_body response <> [] ->
  Z.of_nat (length (hr_body response)) <= kMaxCachedArtifactSize ->
  Z.of_nat (length (cache_metadata source (system_now (CaWorld := world)))) <= kMaxCachedArtifactSize ->
  0 < system_now (CaWorld := world) < 2 ^ 63 -> system_now (CaWorld := world) <= system_now (CaWorld := world') ->
  Load (H := memory) (H0 := world) fs work_dir false url timeout_ms = (inr entries, fs') ->
  cached (H := memory) fs' work_dir = Some entries /\
  IsCacheFresh (H := memory) (H0 := world') fs' (CacheMetadataPath cache) source
    = (system_now (CaWorld := world') - system_now (CaWorld := world) <=? kCacheTtlSeconds) /\
  (system_now (CaWorld := world') - system_now (CaWorld := world) <= kCacheTtlSeconds ->
   Load (H := memory) (H0 := world') fs' work_dir false url timeout' = (inr entries, fs')).
Proof.
  intros Hw Hs Hc Hok Hst Hb Hl Hm Hnow Hnow' E. unfold Load in E. fold source in E.
  rewrite Hc, Hw in E. fold cache response in E. cbv zeta in E.
  rewrite Hok, (proj2 (Z.leb_le _ _)), (proj2 (Z.ltb_lt _ _)) in E by lia. cbn [andb] in E.
  destruct (ParseJson (hr_body response)) as [message|parsed] eqn:Ep; [done|].
  assert (str_empty cache = false) as Hcache.
  { unfold cache, path_append. destruct (last (chars work_dir)) as [c|] eqn:El; [|done].
    destruct (Ascii.eqb c "/"); by destruct work_dir. }
  rewrite Hcache in E. cbn in E. injection E as <- <-. unfold WriteCacheMetadata. cbn.
  set (fs'' := <[CacheMetadataPath cache := _]> _).
  assert (fs'' !! cache = Some (hr_body response)) as F1.
  { unfold fs''. rewrite lookup_insert_ne by (intros F; by eapply parent_of_appended; [by rewrite Hw|]).
    apply lookup_insert_eq. }
  assert (fs'' !! CacheMetadataPath cache = Some (cache_metadata source (system_now (CaWorld := world)))) as F2
    by apply lookup_insert_eq.
  assert (cached (H := memory) fs'' work_dir = Some parsed) as Hcached.
  { unfold cached. rewrite Hw. change (@fs_read memory fs'' (path_append work_dir kCacheFileName)) with (memory_read fs'' cache).
    rewrite (memory_read_limited fs'' cache _ _ F1 Hl). destruct (hr_body response) as [|c body]; [done|]. by rewrite Ep. }
  assert (IsCacheFresh (H := memory) (H0 := world') fs'' (CacheMetadataPath cache) source
    = (system_now (CaWorld := world') - system_now (CaWorld := world) <=? kCacheTtlSeconds)) as Hfresh.
  { rewrite (IsCacheFresh_written _ _ _ _ _ Hs Hnow Hm F2). by rewrite (proj2 (Z.leb_le _ _)). }
  split; [done|]. split; [done|]. intros Httl. unfold Load. fold source. rewrite Hw. fold cache.
  rewrite Hcached, Hfresh. by rewrite (proj2 (Z.leb_le _ _)).
Qed.

Definition sample_registry : list ascii :=
  print (JArr [JObj [("address", JStr "ca.example"); ("cmpAddress", JStr "ca.example/cmp")]]).

Definition sample_world (now : Z) (body : list ascii) : CaWorld :=
  {| system_now := now; HttpGet _ _ _ := MkHttpResponse true 200 body |}.

Definition sample_entry : CaSettingsEntry :=
  CaSettingsEntry_default <| ca_address := "ca.example" |> <| ca_cmp_url := "http://ca.example/cmp" |>.

Lemma Load_serves_cache_witness :
  let fs := snd (Load (H := memory) (H0 := sample_world 1700000000 sample_registry) (∅ : files) "/w" false "" 10000) in
  Load (H := memory) (H0 := sample_world 1700003600 (chars "[]")) fs "/w" false "" 10000 = (inr [sample_entry], fs).
Proof.
  intros fs.
  refine (proj2 (proj2 (Load_serves_cache ∅ fs (sample_world 1700000000 sample_registry)
    (sample_world 1700003600 (chars "[]")) "/w" "" 10000 10000 [sample_entry] _ _ _ _ _ _ _ _ _ _ _)) _).
  - reflexivity.
  - apply (bool_decide_unpack _). vm_compute. exact I.
  - reflexivity.
  - reflexivity.
  - vm_compute. split; [discriminate|reflexivity].
  - discriminate.
  - vm_compute. discriminate.
  - vm_compute. discriminate.
  - vm_compute. split; reflexivity.
  - vm_compute. discriminate.
  - subst fs. vm_compute. reflexivity.
  - vm_compute. discriminate.
Defined.
