(* ===== verification/Cryptonite.v ===== *)
(** * Cryptonite: the interface to the vendored crypto library, and the wrappers over it

    The class [CertApi] lists the functions of the vendored C library
    [vendor/cryptonite] that the modelled code calls on certificates, and
    [CrlApi] those on revocation lists: ASN.1 decoding, signature verification,
    extension access.  They are parameters of the development; nothing is
    assumed about them here.  On top of them the file models
    [core/cryptonite/CertUtil.cpp], [core/policy/EkuUtils.h] and
    [core/cryptonite/RevocationOps.cpp].  Allocation does not fail in the model. *)

From S2P Require Import Prelude CxxString.

Local Open Scope Z_scope.

(** ** Decoded structures the source reads field by field *)

(** [AttributeTypeAndValue_t]: the arcs of the type and the DER of the value. *)
Record AttributeTypeAndValue := MkATV { atv_type : list Z; atv_value : bytes }.

#[export] Instance AttributeTypeAndValue_eq_dec : EqDecision AttributeTypeAndValue.
Proof. solve_decision. Defined.

(** [Name_t]: [None] when the choice is not an RDN sequence. *)
Definition Name_t : Type := option (list (list AttributeTypeAndValue)).

#[export] Instance Name_t_eq_dec : EqDecision Name_t.
Proof. solve_decision. Defined.

(** [BasicConstraints_t]: [cA] and [pathLenConstraint] are optional; the inner option is the
    result of [asn_INTEGER2long]. *)
Record BasicConstraints_t := MkBasicConstraints { bc_cA : option Z; bc_pathLen : option (option Z) }.

(** [PKIXTime_t]: the [time_t] that [asn_UT2time] or [asn_GT2time] gives, [-1] on failure. *)
Inductive PKIXTime_t :=
| utcTime (t : Z)
| generalTime (t : Z)
| noTime.

(** The wall clock, [std::time(nullptr)]; one reading per run. *)
Class Clock := { std_time : Z }.

Class CertApi := {
  Certificate_t : Type;
  VerifyAdapter : Type;
  cert_decode : bytes -> option Certificate_t;
  verify_adapter_init_by_cert : Certificate_t -> option VerifyAdapter;
  cert_verify : Certificate_t -> VerifyAdapter -> bool;
  cert_check_validity_with_date : Certificate_t -> Z -> bool;
  cert_check_validity : Certificate_t -> bool;
  (** [tbsCertificate.subject] and [tbsCertificate.issuer] of the decoded structure *)
  tbs_subject : Certificate_t -> Name_t;
  tbs_issuer : Certificate_t -> Name_t;
  (** the subject and the issuer of the copy that [cert_get_tbs_cert] makes *)
  cert_get_tbs_cert : Certificate_t -> option (Name_t * Name_t);
  cert_get_sn : Certificate_t -> option bytes;
  cert_get_subj_key_id : Certificate_t -> option bytes;
  cert_get_auth_key_id : Certificate_t -> option bytes;
  cert_basic_constraints : Certificate_t -> option BasicConstraints_t;
  cert_get_key_usage : Certificate_t -> option (Z -> option bool);
  cert_ext_key_usage : Certificate_t -> option (list (list Z));
  asn_equals_name : Name_t -> Name_t -> bool
}.

Class CrlApi `{CertApi} := {
  CertificateList_t : Type;
  crl_decode : bytes -> option CertificateList_t;
  crl_issuer : CertificateList_t -> Name_t;
  crl_verify : CertificateList_t -> VerifyAdapter -> bool;
  (** the error code, or the flag *)
  crl_check_cert : CertificateList_t -> Certificate_t -> Z + bool;
  crl_get_cert_info : CertificateList_t -> Certificate_t -> option PKIXTime_t;
  (** [thisUpdate] and [nextUpdate] of the decoded list *)
  crl_get_tbs : CertificateList_t -> option (PKIXTime_t * PKIXTime_t)
}.

(** ** [CertUtil.cpp] *)

Section CertUtil.
Context `{CertApi}.

(** An empty input is never a certificate. *)
Definition DecodeCertificateDer (der : bytes) : option Certificate_t :=
  match der with
  | [] => None
  | _ => cert_decode der
  end.

Definition VerifyCertificateByIssuer (certificate issuer : Certificate_t) : bool :=
  match verify_adapter_init_by_cert issuer with
  | Some adapter => cert_verify certificate adapter
  | None => false
  end.

(** A missing keyUsage extension allows everything. *)
Definition CertificateAllowsKeyUsage (certificate : Certificate_t) (key_usage_bit : Z) : bool :=
  match cert_get_key_usage certificate with
  | None => true
  | Some usage => match usage key_usage_bit with Some bit => bit | None => false end
  end.

Definition KeyUsage_digitalSignature : Z := 0.
Definition KeyUsage_nonRepudiation : Z := 1.
Definition KeyUsage_keyCertSign : Z := 5.

Definition CertificateAllowsSigning (certificate : Certificate_t) : bool :=
  match cert_get_key_usage certificate with
  | None => true
  | Some usage =>
      let has bit := match usage bit with Some b => b | None => false end in
      has KeyUsage_digitalSignature || has KeyUsage_nonRepudiation
  end.

Definition IsCertificateSelfSigned (certificate : Certificate_t) : bool :=
  VerifyCertificateByIssuer certificate certificate.

(** ** [EkuUtils.h] *)

Definition CertificateHasExtendedKeyUsage (cert : Certificate_t) (oid : list Z) : bool :=
  match oid, cert_ext_key_usage cert with
  | [], _ => false
  | _, None => false
  | _, Some purposes => existsb (fun p => bool_decide (p = oid)) purposes
  end.

Definition HasTimestampingEku (cert : Certificate_t) : bool :=
  CertificateHasExtendedKeyUsage cert [1; 3; 6; 1; 5; 5; 7; 3; 8].

Definition HasOcspSigningEku (cert : Certificate_t) : bool :=
  CertificateHasExtendedKeyUsage cert [1; 3; 6; 1; 5; 5; 7; 3; 9].

End CertUtil.

(** ** [RevocationOps.cpp] *)

Definition PkixTimeToTimeT (t : PKIXTime_t) : Z :=
  match t with
  | utcTime t => t
  | generalTime t => t
  | noTime => -1
  end.

Definition BuildRcError (stage : string) (rc : Z) : string :=
  stage +s+ " failed (cryptonite rc=" +s+ to_string rc +s+ ")".

Record CrlCheckResult := MkCrlCheckResult {
  cc_checked : bool;
  cc_revoked : bool;
  cc_crl_valid : bool;
  cc_message : string;
  cc_revocation_time : Z
}.

#[export] Instance eta_CrlCheckResult : Eta CrlCheckResult := fun r =>
  MkCrlCheckResult (cc_checked r) (cc_revoked r) (cc_crl_valid r) (cc_message r)
    (cc_revocation_time r).

Definition CrlCheckResult_default : CrlCheckResult := MkCrlCheckResult false false false "" 0.

Section RevocationOps.
Context `{CrlApi}.

(** The signature of the list under the issuer's key; [false] without a usable issuer. *)
Definition crl_signature_valid (crl : CertificateList_t) (issuer_certificate_der : bytes) : bool :=
  match issuer_certificate_der with
  | [] => false
  | _ =>
      match cert_decode issuer_certificate_der with
      | Some issuer =>
          match verify_adapter_init_by_cert issuer with
          | Some adapter => crl_verify crl adapter
          | None => false
          end
      | None => false
      end
  end.

Definition CheckCertificateRevocation (certificate_der crl_der issuer_certificate_der : bytes)
    : CrlCheckResult :=
  let result := CrlCheckResult_default in
  match certificate_der, crl_der with
  | [], _ | _, [] => result <| cc_message := "Certificate or CRL data is empty" |>
  | _, _ =>
      match cert_decode certificate_der with
      | None => result <| cc_message := "Certificate decode failed" |>
      | Some cert =>
          match crl_decode crl_der with
          | None => result <| cc_message := "CRL decode failed" |>
          | Some crl =>
              let result := result <| cc_crl_valid := crl_signature_valid crl issuer_certificate_der |> in
              match crl_check_cert crl cert with
              | inl rc => result <| cc_message := BuildRcError "CRL certificate check" rc |>
              | inr is_revoked =>
                  let result := result <| cc_checked := true |> <| cc_revoked := is_revoked |>
                    <| cc_message := if is_revoked then "Certificate is revoked"
                                     else "Certificate is not revoked" |> in
                  if is_revoked then
                    match crl_get_cert_info crl cert with
                    | Some date => result <| cc_revocation_time := PkixTimeToTimeT date |>
                    | None => result
                    end
                  else result
              end
          end
      end
  end.

(** [thisUpdate] and [nextUpdate]; [0] stands for an absent [nextUpdate]. *)
Definition GetCrlValidityWindow (crl_der : bytes) : option (Z * Z) :=
  match crl_der with
  | [] => None
  | _ =>
      crl ← crl_decode crl_der;
      '(this_update, next_update) ← crl_get_tbs crl;
      let parsed_this := PkixTimeToTimeT this_update in
      if parsed_this =? -1 then None else
      let parsed_next := PkixTimeToTimeT next_update in
      Some (parsed_this, if parsed_next =? -1 then 0 else parsed_next)
  end.

Definition GetCrlNextUpdate (crl_der : bytes) : option Z :=
  match crl_der with
  | [] => None
  | _ =>
      crl ← crl_decode crl_der;
      '(_, next_update) ← crl_get_tbs crl;
      let parsed := PkixTimeToTimeT next_update in
      if parsed =? -1 then None else Some parsed
  end.

(** A check that reports an answer and a verified signature had a decodable certificate, list
    and issuer, and the library accepted the signature and gave that answer. *)
Lemma CheckCertificateRevocation_checked (c l i : bytes) :
  let r := CheckCertificateRevocation c l i in
  cc_checked r = true ->
  exists cert crl, cert_decode c = Some cert /\ crl_decode l = Some crl /\
    crl_check_cert crl cert = inr (cc_revoked r) /\
    cc_crl_valid r = crl_signature_valid crl i.
Proof.
  intros r. subst r. unfold CheckCertificateRevocation.
  destruct c as [|c0 c]; [done|]. destruct l as [|l0 l]; [done|].
  destruct (cert_decode (c0 :: c)) as [cert|]; [|done].
  destruct (crl_decode (l0 :: l)) as [crl|]; [|done].
  destruct (crl_check_cert crl cert) as [rc|rev] eqn:E; [done|].
  intros _. exists cert, crl. split; [done|]. split; [done|].
  by destruct rev; [destruct (crl_get_cert_info crl cert)|].
Qed.

End RevocationOps.
