(* ===== verification/Fixture.v ===== *)
(** * Fixture: a small concrete instance of the vendored library's interface

    The theorems of the development hold for every implementation of the
    interface of [Cryptonite.v].  This file gives one that can be evaluated, for
    the concrete cases: a certificate is six bytes - subject, issuer, validity
    flag, CA flag, serial number, extended key usage - and it is "signed" by the
    certificate whose subject is its issuer. *)

From S2P Require Import Prelude CxxString Cryptonite.

Local Open Scope Z_scope.

Definition toy_name (n : Z) : Name_t := Some [[MkATV [2; 5; 4; 3] [x0c; x01; to_u8 n]]].

Definition toy_field (c : bytes) (i : nat) : Z := u8 (nth i c x00).

(** Length six, as a certificate. *)
Definition toy_decode (der : bytes) : option bytes :=
  if Nat.eqb (length der) 6 then Some der else None.

Definition toy_cert_api : CertApi := {|
  Certificate_t := bytes;
  VerifyAdapter := Z;
  cert_decode := toy_decode;
  verify_adapter_init_by_cert c := Some (toy_field c 0);
  cert_verify c adapter := toy_field c 1 =? adapter;
  cert_check_validity_with_date c t := toy_field c 2 =? 1;
  cert_check_validity c := toy_field c 2 =? 1;
  tbs_subject c := toy_name (toy_field c 0);
  tbs_issuer c := toy_name (toy_field c 1);
  cert_get_tbs_cert c := Some (toy_name (toy_field c 0), toy_name (toy_field c 1));
  cert_get_sn c := Some [to_u8 (toy_field c 4)];
  cert_get_subj_key_id c := Some [to_u8 (toy_field c 0)];
  cert_get_auth_key_id c := Some [to_u8 (toy_field c 1)];
  cert_basic_constraints c := Some (MkBasicConstraints (Some (toy_field c 3)) None);
  cert_get_key_usage c := None;
  cert_ext_key_usage c := if toy_field c 5 =? 0 then None
                          else Some [[1; 3; 6; 1; 5; 5; 7; 3; toy_field c 5]];
  asn_equals_name a b := bool_decide (a = b)
|}.

(** subject, issuer, valid, CA, serial, EKU *)
Definition toy_leaf : bytes := [x03; x02; x01; x00; x2a; x00].
Definition toy_ca : bytes := [x02; x01; x01; x01; x07; x00].
Definition toy_ca_not_ca : bytes := [x02; x01; x01; x00; x07; x00].
Definition toy_ca_expired : bytes := [x02; x01; x00; x01; x07; x00].
Definition toy_root : bytes := [x01; x01; x01; x01; x01; x00].

(** A revocation list is five bytes - issuer, signature flag, [thisUpdate], [nextUpdate] (times
    ten), the one revoked serial number. *)
Definition toy_crl_api : @CrlApi toy_cert_api := {|
  CertificateList_t := bytes;
  crl_decode der := if Nat.eqb (length der) 5 then Some der else None;
  crl_issuer l := toy_name (toy_field l 0);
  crl_verify l (adapter : @VerifyAdapter toy_cert_api) := (toy_field l 1 =? 1) && (toy_field l 0 =? (adapter : Z));
  crl_check_cert l (c : @Certificate_t toy_cert_api) := inr (toy_field l 4 =? toy_field (c : bytes) 4);
  crl_get_cert_info l c := Some (utcTime 300);
  crl_get_tbs l := Some (utcTime (10 * toy_field l 2), utcTime (10 * toy_field l 3))
|}.

(** The clock reads 500. *)
Definition toy_clock : Clock := {| std_time := 500 |}.

Definition toy_crl_empty : bytes := [x02; x01; x10; x40; x00].
Definition toy_crl_with_leaf : bytes := [x02; x01; x10; x40; x2a].
Definition toy_crl_forged : bytes := [x02; x00; x10; x40; x00].
Definition toy_crl_other_issuer : bytes := [x09; x01; x10; x40; x00].
Definition toy_crl_stale : bytes := [x02; x01; x10; x20; x00].
