(* ===== verification/CertResolve.v ===== *)
(** * CertResolve: finding the certificate of a private key

    [core/cryptonite/KeyPairing.cpp] decides whether a certificate belongs to a
    key container, by comparing public keys; [core/net/CertificateResolver.cpp]
    searches for such a certificate: the one the user names, the files next to
    the key, the cache, the network.

    PKCS#12, PKCS#8 and the encoding of public keys are the fields of
    [KeyStoreApi]; the LDAP, HTTP and CMP fetchers those of [FetchApi]. *)

From S2P Require Import Prelude CxxString Types Time Der Codec Utf Json FileSystem Paths Sha256 Sha1 Jks Pem.
From S2P Require Import Cryptonite Fixture CaRegistry.

Local Open Scope Z_scope.
Local Open Scope tamga_scope.

(** ** The public keys of a container *)

Class KeyStoreApi `{CertApi} := {
  Pkcs12Ctx : Type;
  Pkcs8Ctx : Type;
  Spki_t : Type;
  pkcs12_decode : bytes -> option string -> option Pkcs12Ctx;
  (** the aliases of the keys, [None] for a key without one *)
  pkcs12_enum_keys : Pkcs12Ctx -> option (list (option string));
  (** the context with the key selected, or the return code *)
  pkcs12_select_key : Pkcs12Ctx -> option string -> option string -> Z + Pkcs12Ctx;
  (** the public key of the selected key, through its sign adapter *)
  pkcs12_public_key : Pkcs12Ctx -> Z + Spki_t;
  pkcs8_decode : bytes -> Z + Pkcs8Ctx;
  pkcs8_public_key : Pkcs8Ctx -> Z + Spki_t;
  encode_spki : Spki_t -> option bytes;
  tbs_spki : Certificate_t -> Spki_t
}.

Definition RET_INVALID_PARAM : Z := 2.

Section Pairing.
Context `{KeyStoreApi}.

Definition EncodeSpki (spki : Spki_t) : option bytes :=
  match encode_spki spki with
  | Some (b :: der) => Some (b :: der)
  | _ => None
  end.

Definition spki_or_rc (key : Z + Spki_t) : Z + bytes :=
  match key with
  | inl rc => inl rc
  | inr spki => match EncodeSpki spki with Some der => inr der | None => inl RET_INVALID_PARAM end
  end.

Definition append_selected_key_spki (pkcs12 : Pkcs12Ctx) : Z + bytes := spki_or_rc (pkcs12_public_key pkcs12).

(** The aliases without repetitions, in order. *)
Definition add_alias (aliases : list string) (alias : option string) : list string :=
  match alias with
  | None => aliases
  | Some a => if existsb (String.eqb a) aliases then aliases else aliases ++ [a]
  end.

Definition container_aliases (pkcs12 : Pkcs12Ctx) (all_keys : bool) : list string :=
  if all_keys then
    match pkcs12_enum_keys pkcs12 with
    | Some keys => foldl add_alias [] keys
    | None => []
    end
  else [].

(** The keys of the aliases that can be selected and read. *)
Fixpoint alias_keys (pkcs12 : Pkcs12Ctx) (pwd : option string) (aliases : list string) : list bytes :=
  match aliases with
  | [] => []
  | alias :: rest =>
      match pkcs12_select_key pkcs12 (Some alias) pwd with
      | inl _ => alias_keys pkcs12 pwd rest
      | inr selected =>
          match append_selected_key_spki selected with
          | inr spki => spki :: alias_keys selected pwd rest
          | inl _ => alias_keys selected pwd rest
          end
      end
  end.

(** The public keys, or the return code. *)
Definition CollectSpkiFromKeyContainer (key_material : bytes) (password : string) (all_keys : bool)
    : Z + list bytes :=
  let pwd := if str_empty password then None else Some password in
  match pkcs12_decode key_material pwd with
  | Some pkcs12 =>
      match container_aliases pkcs12 all_keys with
      | [] =>
          match pkcs12_select_key pkcs12 None pwd with
          | inl rc => inl rc
          | inr selected =>
              match append_selected_key_spki selected with
              | inr spki => inr [spki]
              | inl rc => inl rc
              end
          end
      | aliases =>
          match alias_keys pkcs12 pwd aliases with
          | [] => inl RET_INVALID_PARAM
          | keys => inr keys
          end
      end
  | None =>
      match pkcs8_decode key_material with
      | inl rc => inl rc
      | inr pkcs8 => match spki_or_rc (pkcs8_public_key pkcs8) with inr spki => inr [spki] | inl rc => inl rc end
      end
  end.

Definition ExtractSpkiFromKeyContainer (key_material : bytes) (password : string) : Z + bytes :=
  match CollectSpkiFromKeyContainer key_material password false with
  | inl rc => inl rc
  | inr [] => inl RET_INVALID_PARAM
  | inr (spki :: _) => inr spki
  end.

Definition ExtractSubjectPublicKeyInfo (key_material : bytes) (password : string) : string + bytes :=
  match key_material with
  | [] => inl "ExtractSubjectPublicKeyInfo: key material is empty"
  | _ =>
      match ExtractSpkiFromKeyContainer key_material password with
      | inl rc => inl (BuildRcError "ExtractSubjectPublicKeyInfo: private key decode" rc)
      | inr [] => inl (BuildRcError "ExtractSubjectPublicKeyInfo: private key decode" 0)
      | inr spki => inr spki
      end
  end.

Definition ExtractCertificateSubjectPublicKeyInfo (certificate_der : bytes) : option bytes :=
  match DecodeCertificateDer certificate_der with
  | None => None
  | Some cert => EncodeSpki (tbs_spki cert)
  end.

(** [ContainerPublicKeys]: the keys of a container, read once. *)
Definition ContainerPublicKeys_Load (key_material : bytes) (password : string) : string + list bytes :=
  match key_material with
  | [] => inl "ContainerPublicKeys::Load: key material is empty"
  | _ =>
      match CollectSpkiFromKeyContainer key_material password true with
      | inl rc => inl (BuildRcError "ContainerPublicKeys::Load: private key decode" rc)
      | inr [] => inl (BuildRcError "ContainerPublicKeys::Load: private key decode" 0)
      | inr spki_list => inr spki_list
      end
  end.

Definition ContainerPublicKeys_Matches (spki_list : list bytes) (certificate_der : bytes) : bool :=
  match spki_list with
  | [] => false
  | _ =>
      match ExtractCertificateSubjectPublicKeyInfo certificate_der with
      | None => false
      | Some cert_spki =>
          existsb (fun key_spki => negb (bool_decide (key_spki = [])) && bool_decide (key_spki = cert_spki)) spki_list
      end
  end.

Definition CertificateMatchesPrivateKey (key_material : bytes) (password : string) (certificate_der : bytes) : bool :=
  match key_material, certificate_der with
  | [], _ | _, [] => false
  | _, _ =>
      match ContainerPublicKeys_Load key_material password with
      | inl _ => false
      | inr keys => ContainerPublicKeys_Matches keys certificate_der
      end
  end.

Definition FindMatchingCertificate (key_material : bytes) (chain : list bytes) : option bytes :=
  match chain with
  | [] => None
  | _ =>
      match ContainerPublicKeys_Load key_material "" with
      | inl _ => None
      | inr keys => List.find (ContainerPublicKeys_Matches keys) chain
      end
  end.

(** The certificate certifies one of the keys of the container. *)
Definition belongs (key_material : bytes) (password : string) (der : bytes) : Prop :=
  exists keys cert spki, CollectSpkiFromKeyContainer key_material password true = inr keys /\
    cert_decode der = Some cert /\ EncodeSpki (tbs_spki cert) = Some spki /\ spki ∈ keys.

Lemma Matches_belongs (key_material : bytes) (password : string) (keys : list bytes) (der : bytes) :
  ContainerPublicKeys_Load key_material password = inr keys ->
  ContainerPublicKeys_Matches keys der = true -> belongs key_material password der.
Proof.
  unfold ContainerPublicKeys_Load, ContainerPublicKeys_Matches, ExtractCertificateSubjectPublicKeyInfo.
  destruct key_material as [|b km]; [done|].
  destruct (CollectSpkiFromKeyContainer (b :: km) password true) as [rc|[|k ks]] eqn:E; try done.
  intros [= <-]. destruct (DecodeCertificateDer der) as [cert|] eqn:Ed; [|done].
  destruct (EncodeSpki (tbs_spki cert)) as [spki|] eqn:Es; [|done].
  rewrite existsb_exists. intros (x & Hx & [_ Hb]%andb_true_iff). apply bool_decide_eq_true in Hb as ->.
  exists (k :: ks), cert, spki. split_and!; try done.
  - by destruct der.
  - by apply list_elem_of_In.
Qed.

Lemma FindMatching_belongs (key_material der : bytes) (chain : list bytes) :
  FindMatchingCertificate key_material chain = Some der -> der ∈ chain /\ belongs key_material "" der.
Proof.
  unfold FindMatchingCertificate. destruct chain as [|c chain]; [done|].
  destruct (ContainerPublicKeys_Load key_material "") as [|keys] eqn:E; [done|].
  intros Hf. apply find_some in Hf as [Hin Hm]. split; [by apply list_elem_of_In|]. by eapply Matches_belongs.
Qed.

End Pairing.

(** ** The search *)

Record CertificateResolveRequest := MkCertificateResolveRequest {
  rq_key_material : bytes;
  rq_password : string;
  rq_explicit_certificate_der : bytes;
  rq_explicit_certificate_path : string;
  rq_key_file_path : string;
  rq_work_dir : string;
  rq_offline_mode : bool;
  rq_network_timeout_ms : Z;
  rq_preferred_ca_hint : string;
  rq_ldap_url : string;
  rq_ldap_base_dn : string;
  rq_http_certificate_url : string;
  rq_cmp_url : string;
  rq_subject_identifier : string;
  rq_ca_registry_url : string
}.

#[export] Instance eta_CertificateResolveRequest : Eta CertificateResolveRequest := fun r =>
  MkCertificateResolveRequest (rq_key_material r) (rq_password r)
  (rq_explicit_certificate_der r) (rq_explicit_certificate_path r) (rq_key_file_path r)
  (rq_work_dir r) (rq_offline_mode r) (rq_network_timeout_ms r) (rq_preferred_ca_hint r)
  (rq_ldap_url r) (rq_ldap_base_dn r) (rq_http_certificate_url r) (rq_cmp_url r)
  (rq_subject_identifier r) (rq_ca_registry_url r).

Definition CertificateResolveRequest_default : CertificateResolveRequest :=
  MkCertificateResolveRequest [] "" [] "" "" "" true 10000 "" "" "" "" "" "" "".

Record CertificateResolveResult := MkCertificateResolveResult {
  rs_succeeded : bool;
  rs_certificate_der : bytes;
  rs_source : string;
  rs_source_detail : string;
  rs_spki_sha256 : string;
  rs_rejected_candidates : Z;
  rs_message : string
}.

#[export] Instance eta_CertificateResolveResult : Eta CertificateResolveResult := fun r =>
  MkCertificateResolveResult (rs_succeeded r) (rs_certificate_der r) (rs_source r)
  (rs_source_detail r) (rs_spki_sha256 r) (rs_rejected_candidates r) (rs_message r).

Definition CertificateResolveResult_default : CertificateResolveResult :=
  MkCertificateResolveResult false [] "" "" "" 0 "".

Record CertificateFetchRequest := MkCertificateFetchRequest {
  fq_url : string;
  fq_base_dn : string;
  fq_subject_hint : string;
  fq_timeout_ms : Z
}.

#[export] Instance eta_CertificateFetchRequest : Eta CertificateFetchRequest := fun r =>
  MkCertificateFetchRequest (fq_url r) (fq_base_dn r) (fq_subject_hint r) (fq_timeout_ms r).

Definition CertificateFetchRequest_default : CertificateFetchRequest :=
  MkCertificateFetchRequest "" "" "" 10000.

Record CertificateFetchResult := MkCertificateFetchResult {
  fr_executed : bool;
  fr_candidates : list bytes;
  fr_message : string
}.

#[export] Instance eta_CertificateFetchResult : Eta CertificateFetchResult := fun r =>
  MkCertificateFetchResult (fr_executed r) (fr_candidates r) (fr_message r).

Definition CertificateFetchResult_default : CertificateFetchResult :=
  MkCertificateFetchResult false [] "".

Class FetchApi := {
  LdapFetch : CertificateFetchRequest -> CertificateFetchResult;
  HttpFetch : CertificateFetchRequest -> CertificateFetchResult;
  CmpFetch : CertificateFetchRequest -> CertificateFetchResult
}.

Definition kCacheDirName : string := "cert-cache".
Definition kMissingCertificateMessage : string :=
  "Не знайдено відкритий сертифікат для закритого ключа. Покладіть файл сертифіката (.cer/.crt) поруч із ключем або передайте через параметр certificatePath".

Definition kExtensions : list string := [".cer"; ".crt"; ".der"; ".pem"].

Definition kMarker : list ascii := chars "-----BEGIN".
Definition kFooter : list ascii := chars "-----END".

(** DER as it is, or the first block of a PEM text. *)
Definition NormalizeCertificateBytes (raw : bytes) : option bytes :=
  match raw with
  | [] => None
  | b :: _ =>
      if u8 b =? 0x30 then Some raw
      else
        match find_text kMarker (map byte_char raw) with
        | None => None
        | Some (_, at_begin) =>
            match find_text [Pem.newline] at_begin with
            | None => None
            | Some (_, at_header_end) =>
                match find_text kFooter at_header_end with
                | None => None
                | Some (text, _) =>
                    match Base64.Base64Decode (of_chars (drop 1 text)) with
                    | Some (d :: der) => if u8 d =? 0x30 then Some (d :: der) else None
                    | _ => None
                    end
                end
            end
        end
  end.

Section Resolver.
Context `{FileApi} `{KeyStoreApi} `{CaWorld} `{FetchApi}.

Definition text_bytes (l : list ascii) : bytes := map Ascii.byte_of_ascii l.

Definition CertificateAllowsSigningUsage (der : bytes) : bool :=
  match DecodeCertificateDer der with Some cert => CertificateAllowsSigning cert | None => false end.

Definition ReadBinary (fs : Fs) (path : string) : option bytes :=
  if negb (fs_exists fs path) || negb (fs_is_regular_file fs path) then None
  else
    match ReadLimited (fs_read fs path) kMaxCertificateFileSize with
    | inr (c :: out) => Some (text_bytes (c :: out))
    | _ => None
    end.

Definition CollectSidecarCandidates (fs : Fs) (key_file_path : string) : list string :=
  if str_empty key_file_path then []
  else
    let key_path :=
      if str_empty (parent_path key_file_path) then
        match fs_absolute fs key_file_path with
        | Some absolute => if str_empty absolute then key_file_path else lexically_normal absolute
        | None => key_file_path
        end
      else key_file_path in
    let dir := parent_path key_path in
    if str_empty dir || negb (fs_is_directory fs dir) then []
    else
      let stem := without_extension key_path in
      let siblings := List.filter (fs_is_regular_file fs) (map (fun ext => stem +s+ ext) kExtensions) in
      foldl (fun candidates entry =>
               if fs_is_regular_file fs entry
                  && existsb (String.eqb (ToLowerAscii (extension entry))) kExtensions
                  && negb (existsb (String.eqb entry) candidates)
               then candidates ++ [entry] else candidates)
        siblings (fs_entries fs dir).

Definition ComputeSpkiFingerprint (key_material : bytes) (password : string) : string + string :=
  match ExtractSubjectPublicKeyInfo key_material password with
  | inl message => inl message
  | inr spki => inr (LowerHex (Sha256 spki))
  end.

(** The variables of [Resolve] that the lambda [accept] changes: the result and the flag of a
    rejection for its key usage. *)
Definition Accepting : Type := CertificateResolveResult * bool.

(** [accept]: [true] with the result of success, or [false] with the rejection counted. *)
Definition accept (keys : list bytes) (candidate : bytes) (source detail : string) (st : Accepting)
    : bool * Accepting :=
  let '(result, rejected_by_key_usage) := st in
  match NormalizeCertificateBytes candidate with
  | None => (false, st)
  | Some der =>
      if negb (ContainerPublicKeys_Matches keys der) then
        (false, (result <| rs_rejected_candidates ::= Z.succ |>, rejected_by_key_usage))
      else if negb (CertificateAllowsSigningUsage der) then
        (false, (result <| rs_rejected_candidates ::= Z.succ |>, true))
      else
        (true, (result <| rs_succeeded := true |> <| rs_certificate_der := der |> <| rs_source := source |>
                  <| rs_source_detail := detail |>, rejected_by_key_usage))
  end.

Definition write_cache (fs : Fs) (cache_file : string) (st : Accepting) : Fs :=
  if str_empty cache_file then fs
  else
    let fs := fs_create_directories fs (parent_path cache_file) in
    snd (fs_write fs cache_file (map byte_char (rs_certificate_der (fst st)))).

(** The files next to the key. *)
Fixpoint try_sidecars (fs : Fs) (keys : list bytes) (cache_file : string) (paths : list string) (st : Accepting)
    : bool * Accepting * Fs :=
  match paths with
  | [] => (false, st, fs)
  | path :: rest =>
      match ReadBinary fs path with
      | None => try_sidecars fs keys cache_file rest st
      | Some raw =>
          let '(accepted, st) := accept keys raw "sidecar" path st in
          if accepted then (true, st, write_cache fs cache_file st)
          else try_sidecars fs keys cache_file rest st
      end
  end.

(** The candidates of one network source. *)
Fixpoint try_source (fs : Fs) (keys : list bytes) (cache_file source detail : string) (candidates : list bytes)
    (st : Accepting) : bool * Accepting * Fs :=
  match candidates with
  | [] => (false, st, fs)
  | candidate :: rest =>
      let '(accepted, st) := accept keys candidate source detail st in
      if accepted then (true, st, write_cache fs cache_file st)
      else try_source fs keys cache_file source detail rest st
  end.

Definition attempt_text (name : string) (fetched : CertificateFetchResult) : string :=
  name +s+ (if fr_executed fetched
            then "no matching certificate among " +s+ to_string (Z.of_nat (length (fr_candidates fetched)))
                 +s+ " candidate(s)"
            else fr_message fetched).

(** One network source: nothing when it is not configured. *)
Definition network_step (fetch : CertificateFetchRequest -> CertificateFetchResult) (name source : string)
    (request : CertificateFetchRequest) (keys : list bytes) (cache_file : string)
    (found : bool * Accepting * Fs * list string) : bool * Accepting * Fs * list string :=
  let '(done, st, fs, attempts) := found in
  if done || str_empty (fq_url request) then found
  else
    let fetched := fetch request in
    let '(accepted, st, fs) := try_source fs keys cache_file source (fq_url request) (fr_candidates fetched) st in
    if accepted then (true, st, fs, attempts)
    else (false, st, fs, attempts ++ [attempt_text name fetched]).

Definition join_attempts (attempts : list string) : string :=
  match attempts with
  | [] => ""
  | first :: rest => foldl (fun acc a => acc +s+ "; " +s+ a) first rest
  end.

(** The address of CMP from the registry of authorities, when it is not given. *)
Definition registry_step (request : CertificateResolveRequest) (fs : Fs) : string * list string * Fs :=
  if (str_empty (rq_ldap_url request) || str_empty (rq_cmp_url request))
     && negb (str_empty (rq_preferred_ca_hint request)) then
    let '(loaded, fs) := Load fs (rq_work_dir request) (rq_offline_mode request) (rq_ca_registry_url request)
                           (rq_network_timeout_ms request) in
    match loaded with
    | inr registry =>
        match Find registry (rq_preferred_ca_hint request) with
        | Some ca => (if str_empty (rq_cmp_url request) then ca_cmp_url ca else rq_cmp_url request, [], fs)
        | None =>
            (rq_cmp_url request, ["ca-registry: no CA matches hint '" +s+ rq_preferred_ca_hint request +s+ "'"], fs)
        end
    | inl registry_error => (rq_cmp_url request, ["ca-registry: " +s+ registry_error], fs)
    end
  else (rq_cmp_url request, [], fs).

Definition no_source_text : string :=
  " (no network source configured: set ldap_url, http_certificate_url, cmp_url, or a CA hint resolvable via CAs.json)".

Definition network_stage (request : CertificateResolveRequest) (keys : list bytes) (cache_file : string)
    (st : Accepting) (fs : Fs) : CertificateResolveResult * Fs :=
  let '(cmp_url, attempts, fs) := registry_step request fs in
  let fetch url := CertificateFetchRequest_default <| fq_url := url |>
    <| fq_subject_hint := rq_subject_identifier request |> <| fq_timeout_ms := rq_network_timeout_ms request |> in
  let found := (false, st, fs, attempts) in
  let found := network_step LdapFetch "ldap: " "ldap"
    ((fetch (rq_ldap_url request)) <| fq_base_dn := rq_ldap_base_dn request |>) keys cache_file found in
  let found := network_step HttpFetch "http: " "czo-http" (fetch (rq_http_certificate_url request)) keys cache_file found in
  let '(accepted, st, fs, attempts) :=
    network_step CmpFetch "cmp: " "cmp" (fetch cmp_url) keys cache_file found in
  let result := fst st in
  if accepted then (result, fs)
  else
    (result <| rs_message := kMissingCertificateMessage +s+ " (spki=" +s+ rs_spki_sha256 result +s+ ")" +s+
                match attempts with
                | [] => no_source_text
                | _ => " (" +s+ join_attempts attempts +s+ ")"
                end |>, fs).

(** The certificate the user names: there is no other attempt. *)
Definition explicit_stage (request : CertificateResolveRequest) (keys : list bytes) (fs : Fs) (st : Accepting)
    : option CertificateResolveResult :=
  match rq_explicit_certificate_der request with
  | _ :: _ =>
      let '(accepted, (result, rejected_by_key_usage)) :=
        accept keys (rq_explicit_certificate_der request) "explicit-der" "descriptor" st in
      Some (if accepted then result
            else result <| rs_message := if rejected_by_key_usage
                   then "Сертифікат відповідає ключу, але його keyUsage не дозволяє підпис"
                   else "The supplied certificate does not match the private key in the container" |>)
  | [] =>
      let path := rq_explicit_certificate_path request in
      if str_empty path then None
      else
        match ReadBinary fs path with
        | None => Some ((fst st) <| rs_message := "Certificate file cannot be read: " +s+ path |>)
        | Some raw =>
            let '(accepted, (result, rejected_by_key_usage)) := accept keys raw "explicit-path" path st in
            Some (if accepted then result
                  else result <| rs_message := if rejected_by_key_usage
                         then "Сертифікат відповідає ключу, але його keyUsage не дозволяє підпис: " +s+ path
                         else "The certificate at " +s+ path +s+ " does not match the private key in the container" |>)
        end
  end.

Definition Resolve (request : CertificateResolveRequest) (fs : Fs) : CertificateResolveResult * Fs :=
  let result := CertificateResolveResult_default in
  match rq_key_material request with
  | [] => (result <| rs_message := "Certificate resolution requires the private key material" |>, fs)
  | _ =>
      match ComputeSpkiFingerprint (rq_key_material request) (rq_password request) with
      | inl fingerprint_error =>
          (result <| rs_message := "Unable to derive the public key from the container: " +s+ fingerprint_error |>, fs)
      | inr spki_sha256 =>
          let result := result <| rs_spki_sha256 := spki_sha256 |> in
          match ContainerPublicKeys_Load (rq_key_material request) (rq_password request) with
          | inl container_keys_error =>
              (result <| rs_message := "Unable to enumerate the container public keys: " +s+ container_keys_error |>, fs)
          | inr keys =>
              match explicit_stage request keys fs (result, false) with
              | Some result => (result, fs)
              | None =>
                  let cache_file :=
                    if str_empty (rq_work_dir request) then ""
                    else path_append (path_append (rq_work_dir request) kCacheDirName) (spki_sha256 +s+ ".cer") in
                  let '(accepted, st, fs) :=
                    try_sidecars fs keys cache_file (CollectSidecarCandidates fs (rq_key_file_path request))
                      (result, false) in
                  if accepted then (fst st, fs)
                  else
                    let '(accepted, st) :=
                      match (if str_empty cache_file then None else ReadBinary fs cache_file) with
                      | Some cached => accept keys cached "cache" cache_file st
                      | None => (false, st)
                      end in
                    if accepted then (fst st, fs)
                    else if rq_offline_mode request then
                      ((fst st) <| rs_message := kMissingCertificateMessage +s+ " (offline, spki=" +s+ spki_sha256 +s+ ")" |>, fs)
                    else network_stage request keys cache_file st fs
              end
          end
      end
  end.

End Resolver.

(** ** Nothing is returned that does not belong to the key *)

Section FailClosed.
Context `{FileApi} `{KeyStoreApi} `{CaWorld} `{FetchApi}.

Definition sound (keys : list bytes) (result : CertificateResolveResult) : Prop :=
  rs_succeeded result = true ->
  ContainerPublicKeys_Matches keys (rs_certificate_der result) = true /\
  CertificateAllowsSigningUsage (rs_certificate_der result) = true.

Lemma accept_sound (keys : list bytes) (candidate : bytes) (source detail : string) (st st' : Accepting) (b : bool) :
  accept keys candidate source detail st = (b, st') -> sound keys st.1 ->
  sound keys st'.1 /\ (b = true -> rs_succeeded st'.1 = true) /\
  (b = false -> rs_succeeded st'.1 = rs_succeeded st.1).
Proof.
  destruct st as [result flag]. unfold accept. intros E S.
  destruct (NormalizeCertificateBytes candidate) as [der|]; [|by simplify_eq].
  destruct (ContainerPublicKeys_Matches keys der) eqn:Em; cbn [negb] in E; [|by simplify_eq].
  destruct (CertificateAllowsSigningUsage der) eqn:Ea; cbn [negb] in E; simplify_eq; done.
Qed.

Lemma try_sidecars_sound (keys : list bytes) (cache_file : string) (paths : list string) (fs fs' : Fs)
    (st st' : Accepting) (b : bool) :
  try_sidecars fs keys cache_file paths st = (b, st', fs') -> sound keys st.1 ->
  sound keys st'.1 /\ (b = false -> rs_succeeded st'.1 = rs_succeeded st.1).
Proof.
  revert st. induction paths as [|path paths IH]; intros st E S; cbn [try_sidecars] in E; [by simplify_eq|].
  destruct (ReadBinary fs path) as [raw|]; [|by eapply IH].
  destruct (accept keys raw "sidecar" path st) as [a st1] eqn:Ea.
  destruct (accept_sound _ _ _ _ _ _ _ Ea S) as (S1 & _ & E1). destruct a; [by simplify_eq|].
  destruct (IH st1 E S1) as [S2 E2]. split; [done|]. intros Hb. by rewrite E2, E1.
Qed.

Lemma try_source_sound (keys : list bytes) (cache_file source detail : string) (candidates : list bytes) (fs fs' : Fs)
    (st st' : Accepting) (b : bool) :
  try_source fs keys cache_file source detail candidates st = (b, st', fs') -> sound keys st.1 -> sound keys st'.1.
Proof.
  revert st. induction candidates as [|c candidates IH]; intros st E S; cbn [try_source] in E; [by simplify_eq|].
  destruct (accept keys c source detail st) as [a st1] eqn:Ea.
  destruct (accept_sound _ _ _ _ _ _ _ Ea S) as (S1 & _). destruct a; [by simplify_eq|]. by eapply IH.
Qed.

Lemma network_step_sound (fetch : CertificateFetchRequest -> CertificateFetchResult) (name source : string)
    (request : CertificateFetchRequest) (keys : list bytes) (cache_file : string)
    (found found' : bool * Accepting * Fs * list string) :
  network_step fetch name source request keys cache_file found = found' ->
  sound keys found.1.1.2.1 -> sound keys found'.1.1.2.1.
Proof.
  destruct found as [[[d st] fs] attempts]. unfold network_step. cbn. intros <- S.
  destruct (d || str_empty (fq_url request)); [done|].
  destruct (try_source _ _ _ _ _ _ _) as [[a st1] fs1] eqn:E.
  apply try_source_sound in E; [|done]. by destruct a.
Qed.

Lemma network_stage_sound (request : CertificateResolveRequest) (keys : list bytes) (cache_file : string)
    (st : Accepting) (fs : Fs) :
  sound keys st.1 -> sound keys (network_stage request keys cache_file st fs).1.
Proof.
  intros S. unfold network_stage. destruct (registry_step request fs) as [[cmp_url attempts] fs1]. cbv zeta.
  set (f1 := network_step LdapFetch _ _ _ _ _ _). set (f2 := network_step HttpFetch _ _ _ _ _ f1).
  destruct (network_step CmpFetch _ _ _ _ _ f2) as [[[a st1] fs2] att] eqn:E.
  assert (sound keys st1.1) as S1.
  { change st1 with (a, st1, fs2, att).1.1.2. eapply network_step_sound; [exact E|].
    eapply network_step_sound; [reflexivity|]. eapply network_step_sound; [reflexivity|]. done. }
  destruct a; [done|]. intros Hs. by apply S1.
Qed.

Lemma explicit_stage_sound (request : CertificateResolveRequest) (keys : list bytes) (fs : Fs) (st : Accepting)
    (result : CertificateResolveResult) :
  explicit_stage request keys fs st = Some result -> sound keys st.1 -> sound keys result.
Proof.
  unfold explicit_stage. intros E S. destruct (rq_explicit_certificate_der request) as [|b der].
  - destruct (str_empty _); [done|]. destruct (ReadBinary fs _) as [raw|]; [|by simplify_eq].
    destruct (accept keys raw _ _ st) as [a [r f]] eqn:Ea.
    destruct (accept_sound _ _ _ _ _ _ _ Ea S) as (S1 & _). destruct a; by simplify_eq.
  - destruct (accept keys (b :: der) _ _ st) as [a [r f]] eqn:Ea.
    destruct (accept_sound _ _ _ _ _ _ _ Ea S) as (S1 & _). destruct a; by simplify_eq.
Qed.

Lemma Resolve_sound (request : CertificateResolveRequest) (fs : Fs) :
  rs_succeeded (Resolve request fs).1 = true ->
  exists keys, ContainerPublicKeys_Load (rq_key_material request) (rq_password request) = inr keys /\
    sound keys (Resolve request fs).1.
Proof.
  unfold Resolve. destruct (rq_key_material request) as [|b km]; [done|].
  destruct (ComputeSpkiFingerprint _ _) as [|fp]; [done|].
  destruct (ContainerPublicKeys_Load _ _) as [|keys] eqn:Ek; [done|]. intros Hs. exists keys. split; [done|].
  set (r0 := CertificateResolveResult_default <| rs_spki_sha256 := fp |>) in *.
  assert (sound keys (r0, false).1) as S0 by done.
  destruct (explicit_stage request keys fs (r0, false)) as [r|] eqn:Ex; [by eapply explicit_stage_sound|].
  destruct (try_sidecars _ _ _ _ _) as [[a st] fs1] eqn:Et.
  destruct (try_sidecars_sound _ _ _ _ _ _ _ _ Et S0) as [S1 E1]. destruct a; [done|].
  match goal with |- context [let '(_, _) := ?e in _] => destruct e as [a st1] eqn:Ec end.
  assert (sound keys st1.1) as S2.
  { destruct (if str_empty _ then None else _) as [c|]; [by eapply accept_sound|by simplify_eq]. }
  destruct a; [done|]. destruct (rq_offline_mode request); [|by apply network_stage_sound].
  intros H'. by apply S2.
Qed.

(** [C32] Whatever the user, the files next to the key, the cache or the network offer, a certificate that
    is returned certifies a public key of this very container and may be used for signing. *)
Theorem Resolve_fail_closed (request : CertificateResolveRequest) (fs : Fs) (result : CertificateResolveResult) (fs' : Fs) :
  Resolve request fs = (result, fs') -> rs_succeeded result = true ->
  belongs (rq_key_material request) (rq_password request) (rs_certificate_der result) /\
  CertificateAllowsSigningUsage (rs_certificate_der result) = true.
Proof.
  intros E Hs. destruct (Resolve_sound request fs) as (keys & Hk & S); [by rewrite E|]. rewrite E in S.
  destruct (S Hs) as [Hm Ha]. split; [|done]. by eapply Matches_belongs.
Qed.

End FailClosed.

(** In the offline mode the answer and the files are the same whatever the network would say. *)
Lemma Resolve_offline `{FileApi} `{KeyStoreApi} (world world' : CaWorld) (fetch fetch' : FetchApi)
    (request : CertificateResolveRequest) (fs : Fs) :
  rq_offline_mode request = true ->
  Resolve (H2 := world) (H3 := fetch) request fs = Resolve (H2 := world') (H3 := fetch') request fs.
Proof. intros Ho. unfold Resolve. by rewrite Ho. Qed.

(** ** A key with a foreign and its own certificate next to it *)

Definition toy_key_store : @KeyStoreApi toy_cert_api := {|
  Pkcs12Ctx := unit;
  Pkcs8Ctx := bytes;
  Spki_t := bytes;
  pkcs12_decode _ _ := None;
  pkcs12_enum_keys _ := None;
  pkcs12_select_key _ _ _ := inl 0;
  pkcs12_public_key _ := inl 0;
  pkcs8_decode key := inr key;
  pkcs8_public_key key := inr (take 1 key);
  encode_spki := Some;
  tbs_spki (c : @Certificate_t toy_cert_api) := take 1 (drop 4 (c : bytes))
|}.

Definition toy_fetch : FetchApi :=
  {| LdapFetch _ := CertificateFetchResult_default; HttpFetch _ := CertificateFetchResult_default;
     CmpFetch _ := CertificateFetchResult_default |}.

Definition own_certificate : bytes := [x30; x02; x01; x00; x2a; x00].
Definition foreign_certificate : bytes := [x30; x02; x01; x00; x2b; x00].

Definition key_directory : files :=
  <["/k/key.cer" := map byte_char foreign_certificate]> (<["/k/mine.crt" := map byte_char own_certificate]> ∅).

Definition sample_request : CertificateResolveRequest :=
  CertificateResolveRequest_default <| rq_key_material := [x2a; x01] |> <| rq_key_file_path := "/k/key.dat" |>
    <| rq_work_dir := "/w" |>.

Lemma Resolve_fail_closed_witness :
  let '(result, fs) := @Resolve memory toy_cert_api toy_key_store (sample_world 0 []) toy_fetch sample_request key_directory in
  rs_certificate_der result = own_certificate /\ rs_source result = "sidecar" /\ rs_rejected_candidates result = 1 /\
  @belongs toy_cert_api toy_key_store [x2a; x01] "" (rs_certificate_der result).
Proof.
  destruct (@Resolve memory toy_cert_api toy_key_store (sample_world 0 []) toy_fetch sample_request key_directory)
    as [result fs'] eqn:E.
  pose proof (@Resolve_fail_closed memory toy_cert_api toy_key_store (sample_world 0 []) toy_fetch
    sample_request key_directory result fs' E) as T.
  assert (result = (@Resolve memory toy_cert_api toy_key_store (sample_world 0 []) toy_fetch sample_request key_directory).1)
    as F by (by rewrite E).
  vm_compute in F. rewrite F in T |- *. split_and!; [reflexivity..|]. by apply T.
Defined.
