(* ===== verification/KeyNormalize.v ===== *)
(** * KeyNormalize: from the octets of a key file to a private key

    [Session::NormalizeKeyContainer] of [core/session/SessionStateAndNormalization.ipp]
    recognises the container of a private key (JKS, IIT, ZS2, PEM, DER, PKCS#12) and
    hands it to its reader; the helpers of [core/session/SessionHelpers.ipp] check and
    resolve the paths and read the files. *)

From S2P Require Import Prelude CxxString Types Time Der Codec Utf Json FileSystem Paths Sha256 Sha1 Jks Pem KeyContainers.
From S2P Require Import Cryptonite Fixture CaRegistry CertResolve.

Local Open Scope Z_scope.
Local Open Scope tamga_scope.

Module KeyFormat.
Inductive KeyFormat := Unknown | Pkcs12 | Jks | Pem | Der.
Abbreviation t := KeyFormat.

#[export] Instance KeyFormat_eq_dec : EqDecision KeyFormat.
Proof. solve_decision. Defined.
End KeyFormat.

(** ** Paths *)

(** The lead octet of a sequence: the bits it contributes and the number of octets that follow. *)
Definition path_lead (lead : Z) : option (Z * nat) :=
  if lead <? 0x80 then Some (lead, 0%nat)
  else if Z.land lead 0xE0 =? 0xC0 then Some (Z.land lead 0x1F, 1%nat)
  else if Z.land lead 0xF0 =? 0xE0 then Some (Z.land lead 0x0F, 2%nat)
  else if Z.land lead 0xF8 =? 0xF0 then Some (Z.land lead 0x07, 3%nat)
  else None.

Definition path_refused (extra : nat) (code : Z) : bool :=
  ((extra =? 1)%nat && (code <? 0x80)) || ((extra =? 2)%nat && (code <? 0x800))
  || ((extra =? 3)%nat && (code <? 0x10000)) || ((0xD800 <=? code) && (code <=? 0xDFFF)) || (0x10FFFF <? code).

Fixpoint path_continuation (extra : nat) (code : Z) (path : list ascii) : option (Z * list ascii) :=
  match extra, path with
  | O, _ => Some (code, path)
  | S extra', cont :: path' =>
      if negb (Z.land (uc cont) 0xC0 =? 0x80) then None
      else path_continuation extra' (Z.lor (Z.shiftl code 6) (Z.land (uc cont) 0x3F)) path'
  | S _, [] => None
  end.

(** Every turn takes at least the lead octet. *)
Fixpoint utf8_path_loop (fuel : nat) (path : list ascii) : bool :=
  match fuel, path with
  | _, [] => true
  | O, _ => false
  | S fuel', lead :: rest =>
      match path_lead (uc lead) with
      | None => false
      | Some (code, O) => utf8_path_loop fuel' rest
      | Some (code, extra) =>
          if (length rest <? extra)%nat then false
          else
            match path_continuation extra code rest with
            | None => false
            | Some (code, rest) => if path_refused extra code then false else utf8_path_loop fuel' rest
            end
      end
  end.

Definition IsValidUtf8Path (path : string) : bool := utf8_path_loop (String.length path) (chars path).

Record FileStoreSettings := MkFileStoreSettings { ff_base_path : string; ff_allow_overwrite : bool }.

Definition FileStoreSettings_default : FileStoreSettings := MkFileStoreSettings "" true.

Definition ResolveFilePath (path : string) (settings : FileStoreSettings) : string :=
  if str_empty path then ""
  else if negb (IsValidUtf8Path path)
          || (negb (str_empty (ff_base_path settings)) && negb (IsValidUtf8Path (ff_base_path settings))) then ""
  else if is_absolute path || str_empty (ff_base_path settings) then lexically_normal path
  else lexically_normal (path_join (ff_base_path settings) path).

Section Files.
Context `{FileApi}.

Definition ReadBinaryFile (fs : Fs) (path label : string) : string + bytes :=
  if str_empty path || negb (IsValidUtf8Path path) then inl (label +s+ " path is not valid UTF-8")
  else
    match ReadLimited (fs_read fs path) kMaxInputFileSize with
    | inl reason => inl (label +s+ ": " +s+ reason)
    | inr out => inr (text_bytes out)
    end.

End Files.

(** ** Recognising a container *)

Definition StartsWith (data prefix : bytes) : bool :=
  if (length data <? length prefix)%nat then false else bool_decide (take (length prefix) data = prefix).

Definition kPemPrefix : bytes := text_bytes (chars "-----BEGIN ").

Definition IsLikelyPem (data : bytes) : bool := StartsWith data kPemPrefix.

Section Normalize.
Context `{HPlat : Platform}.

(** [ParseTlvAt] without a limit of its own. *)
Definition tlv_all (data : bytes) (offset : Z) : option TlvView :=
  match ParseTlvAt_all data offset with Ret view => Some view | _ => None end.

Definition tagged_all (t : byte) (data : bytes) (offset : Z) : option TlvView :=
  view ← tlv_all data offset;
  if u8 (tag view) =? u8 t then Some view else None.

Definition IsPkcs12Der (der_data : bytes) : bool :=
  match (outer ← tagged_all x30 der_data 0;
         version ← tagged_all x02 der_data (value_offset outer);
         auth_safe ← tagged_all x30 der_data (next_offset version);
         tagged_all x06 der_data (value_offset auth_safe)) with
  | Some _ => true
  | None => false
  end.

Definition IsValidDerContainer (der_data : bytes) : string + unit :=
  if (length der_data <? 4)%nat || negb (is_sequence der_data) then inl "DER container must start with SEQUENCE"
  else
    match tlv_all der_data 0 with
    | None => inl "DER container has invalid ASN.1 layout"
    | Some outer =>
        if negb (u8 (tag outer) =? 0x30) || negb (next_offset outer =? Z.of_nat (length der_data))
        then inl "DER container has invalid ASN.1 layout"
        else inr tt
    end.

Record NormalizedKey := MkNormalizedKey {
  nk_normalized : bytes;
  nk_key_material : bytes;
  nk_certificate : bytes;
  nk_format : KeyFormat.t
}.

Context `{KeyStoreApi} `{KeyCrypto}.

(** The three branches on the container, in the order of the tests. *)
Definition normalize_jks (key_data : bytes) (store_password key_password jks_alias : string) : string + NormalizedKey :=
  if str_empty store_password && str_empty key_password
  then inl "JKS key store requires store password or key password"
  else
    let? jks_entry := LoadPrivateKeyEntry key_data (chars store_password) (chars key_password) (chars jks_alias) in
    let normalized := pk_private_key_pkcs8 jks_entry in
    let certificate :=
      match FindMatchingCertificate normalized (pk_certificate_chain jks_entry) with
      | Some matching_cert => matching_cert
      | None => pk_certificate jks_entry
      end in
    let? _ := IsValidDerContainer normalized in
    let? _ := match certificate with [] => inr tt | _ => IsValidDerContainer certificate end in
    inr (MkNormalizedKey normalized normalized certificate KeyFormat.Jks).

Definition container_password (store_password key_password : string) : string :=
  if str_empty store_password then key_password else store_password.

Definition normalize_iit (key_data : bytes) (store_password key_password : string) : string + NormalizedKey :=
  let iit_password := container_password store_password key_password in
  if str_empty iit_password then inl "IIT key container requires password"
  else
    let? normalized := IitDecrypt key_data (text_bytes (chars iit_password)) in
    let? _ := IsValidDerContainer normalized in
    inr (MkNormalizedKey normalized normalized [] KeyFormat.Der).

Definition normalize_zs2 (key_data : bytes) (store_password key_password : string) : string + NormalizedKey :=
  if str_empty (container_password store_password key_password) then inl "ZS2 key container requires password"
  else
    let? _ := IsValidDerContainer key_data in
    inr (MkNormalizedKey key_data key_data [] KeyFormat.Pkcs12).

Definition normalize_pem (key_data : bytes) (strict_pem : bool) : string + NormalizedKey :=
  let? blocks := LoadAll key_data strict_pem in
  let! key := List.find is_key_block blocks else "PEM/DER does not contain PRIVATE KEY block" in
  let normalized := pb_der_payload key in
  let certificate :=
    match List.find (fun block => bool_decide (pb_type block = chars "CERTIFICATE")) blocks with
    | Some cert => pb_der_payload cert
    | None => []
    end in
  let result :=
    if bool_decide (pb_type key = chars "DER") then
      if IsPkcs12Der normalized then MkNormalizedKey normalized key_data [] KeyFormat.Pkcs12
      else MkNormalizedKey normalized normalized certificate KeyFormat.Der
    else MkNormalizedKey normalized normalized certificate KeyFormat.Pem in
  let? _ := IsValidDerContainer normalized in
  inr result.

Definition NormalizeKeyContainer (key_data : bytes) (store_password key_password jks_alias : string)
    (strict_pem : bool) : string + NormalizedKey :=
  match key_data with
  | [] => inl "Key container is empty"
  | _ =>
      if StartsWith key_data [xfe; xed; xfe; xed] then normalize_jks key_data store_password key_password jks_alias
      else if IitMatches key_data then normalize_iit key_data store_password key_password
      else if Zs2Matches key_data then normalize_zs2 key_data store_password key_password
      else if IsLikelyPem key_data || is_sequence key_data then normalize_pem key_data strict_pem
      else inl "Unsupported key format"
  end.

End Normalize.

(** ** The two checks of UTF-8 *)

Lemma path_continuation_utf8 (extra : nat) (code : Z) (path : list ascii) :
  path_continuation extra code path = utf8_continuation extra code path.
Proof.
  revert code path. induction extra as [|extra IH]; intros code [|c path]; try done.
  cbn [path_continuation utf8_continuation]. destruct (_ =? 0x80); [apply IH|done].
Qed.

Lemma path_refused_utf8 (extra : nat) (code : Z) : path_refused extra code = utf8_refused extra code.
Proof.
  unfold path_refused, utf8_refused. rewrite <- !orb_assoc. do 3 f_equal. apply orb_comm.
Qed.

(** The two lead tests differ at 0xC0 only, which begins overlong forms only. *)
Lemma path_lead_utf8 (c : ascii) :
  path_lead (uc c) = utf8_lead (uc c) \/ (path_lead (uc c) = Some (0, 1%nat) /\ utf8_lead (uc c) = None).
Proof.
  pose proof (forall_byte (fun b => bool_decide
    (path_lead b = utf8_lead b \/ (path_lead b = Some (0, 1%nat) /\ utf8_lead b = None)))
    ltac:(by vm_compute) (uc c) (uc_range c)) as Hb.
  by apply bool_decide_eq_true in Hb.
Qed.

Lemma utf8_lead_single (c : ascii) (code : Z) :
  utf8_lead (uc c) = Some (code, 0%nat) -> utf8_refused 0 code = false.
Proof.
  rewrite utf8_lead_class. unfold lead_class. intros E. pose proof (uc_range c). apply not_true_iff_false.
  unfold utf8_refused. repeat case_match; simplify_eq.
  rewrite !orb_true_iff, !andb_true_iff, !Nat.eqb_eq, !Z.ltb_lt, !Z.leb_le. lia.
Qed.

Lemma overlong_refused (rest rest' : list ascii) (code : Z) :
  utf8_continuation 1 0 rest = Some (code, rest') -> utf8_refused 1 code = true.
Proof.
  intros (b & src & -> & Hb & E)%utf8_continuation_inv. cbn in E. injection E as <- <-.
  unfold utf8_refused. replace (0 * 64 + (b - 128) <? 128) with true by lia. done.
Qed.

Lemma utf8_continuation_shorter (extra : nat) (code code' : Z) (src rest : list ascii) :
  utf8_continuation extra code src = Some (code', rest) -> (length rest <= length src)%nat.
Proof.
  revert code src. induction extra as [|extra IH]; intros code [|c src] E; cbn in E; simplify_eq; try done.
  destruct (_ =? _); [|done]. apply IH in E. cbn. lia.
Qed.

Lemma decided_prefix (l : list Z) (o : option (list Z)) :
  bool_decide (is_Some o) = bool_decide (is_Some (app l <$> o)).
Proof. by destruct o. Qed.

Lemma utf8_path_loop_decodes (fuel : nat) (path : list ascii) :
  (length path <= fuel)%nat ->
  utf8_path_loop fuel path = bool_decide (is_Some (decode_utf8_loop (S fuel) path)).
Proof.
  revert path. induction fuel as [|fuel IH]; intros [|c rest] Hl; cbn [length] in Hl; [done|lia|done|].
  cbn [utf8_path_loop]. assert (forall l, (length l <= length rest)%nat ->
      utf8_path_loop fuel l = bool_decide (is_Some (decode_utf8_loop (S fuel) l))) as IH' by (intros; apply IH; lia).
  clear IH. change (decode_utf8_loop (S (S fuel)) (c :: rest)) with
    (match utf8_lead (uc c) with
     | None => None
     | Some (initial, n) =>
         if (length rest <? n)%nat then None
         else match utf8_continuation n initial rest with
              | None => None
              | Some (cp, r) => if utf8_refused n cp then None else app (utf16_units cp) <$> decode_utf8_loop (S fuel) r
              end
     end).
  destruct (path_lead_utf8 c) as [E|[E1 E2]].
  - rewrite E. destruct (utf8_lead (uc c)) as [[code [|n]]|] eqn:El; [|clear E|done].
    + cbn [Nat.ltb utf8_continuation]. rewrite (utf8_lead_single _ _ El), IH' by done. apply decided_prefix.
    + destruct (length rest <? S n)%nat; [done|]. rewrite path_continuation_utf8.
      destruct (utf8_continuation (S n) code rest) as [[code' r]|] eqn:Ec; [|done]. rewrite path_refused_utf8.
      destruct (utf8_refused (S n) code'); [done|]. apply utf8_continuation_shorter in Ec.
      rewrite IH' by done. apply decided_prefix.
  - rewrite E1, E2. destruct (length rest <? 1)%nat; [done|]. rewrite path_continuation_utf8.
    destruct (utf8_continuation 1 0 rest) as [[code' r]|] eqn:Ec; [|done].
    by rewrite path_refused_utf8, (overlong_refused _ _ _ Ec).
Qed.

(** The check of a path agrees with the decoder of UTF-8 that the rest of the program uses: a path
    passes exactly when [TryDecodeUtf8ToUtf16] decodes it, so that no path reaches
    [std::filesystem::u8path] that it cannot convert. *)
Theorem IsValidUtf8Path_decodes (path : string) :
  IsValidUtf8Path path = bool_decide (is_Some (TryDecodeUtf8ToUtf16 (chars path))).
Proof.
  unfold IsValidUtf8Path, TryDecodeUtf8ToUtf16, DecodeUtf8ToUtf16. rewrite <- length_chars.
  by apply utf8_path_loop_decodes.
Qed.

(** ** Private keys as files *)

Section Documents.
Context `{HPlat : Platform}.

(** The octets are one DER SEQUENCE and nothing else. *)
Definition whole_sequence (data : bytes) : Prop :=
  (4 <= length data)%nat /\ exists view, tlv_all data 0 = Some view /\ u8 (tag view) = 0x30 /\
    next_offset view = Z.of_nat (length data).

Lemma IsValidDerContainer_whole (data : bytes) (u : unit) :
  IsValidDerContainer data = inr u -> whole_sequence data.
Proof.
  unfold IsValidDerContainer. destruct (Nat.ltb_spec (length data) 4); [done|].
  destruct (is_sequence data); [|done]. cbn [negb orb]. destruct (tlv_all data 0) as [view|] eqn:E; [|done].
  destruct (Z.eqb_spec (u8 (tag view)) 0x30) as [Ht|], (Z.eqb_spec (next_offset view) (Z.of_nat (length data))) as [Hn|];
    cbn [negb orb]; try done. intros _. split; [done|]. by exists view.
Qed.

Lemma tlv_all_limit (data : bytes) (off : Z) : tlv_all data off = tlv data off (Z.of_nat (length data)).
Proof. unfold tlv_all, tlv, ParseTlvAt_vec, ParseTlvAt_all. by rewrite Z.ltb_irrefl. Qed.

Lemma tagged_all_limit (t : byte) (data : bytes) (off : Z) :
  tagged_all t data off = tlv_tagged t data off (Z.of_nat (length data)).
Proof. unfold tagged_all, tlv_tagged. by rewrite tlv_all_limit. Qed.

Lemma region_extend (data content : bytes) (off lim : Z) :
  region data off content lim -> exists rest, region data off (content ++ rest) (Z.of_nat (length data)).
Proof.
  intros (pre & post & E & -> & _). exists post, pre, []. rewrite app_nil_r. split_and!; [done|done|].
  rewrite E, !length_app. lia.
Qed.

Lemma region_tagged_all (data v rest : bytes) (t : byte) (off lim : Z) :
  Der.fits data -> region data off (der_tlv t v ++ rest) lim ->
  exists view more, tagged_all t data off = Some view /\
    value_at data view t v (rest ++ more) off (Z.of_nat (length data)).
Proof.
  intros Hfit R. apply region_extend in R as [more R]. rewrite <- app_assoc in R.
  destruct (region_tagged _ _ _ _ _ _ Hfit R) as (view & E & A). exists view, more.
  by rewrite tagged_all_limit.
Qed.

Lemma IsValidDerContainer_written (contents : bytes) :
  Der.fits (der_tlv x30 contents) -> (4 <= length (der_tlv x30 contents))%nat ->
  IsValidDerContainer (der_tlv x30 contents) = inr tt.
Proof.
  intros Hfit Hl. unfold IsValidDerContainer. rewrite (proj2 (Nat.ltb_ge _ _)) by done.
  change (is_sequence (der_tlv x30 contents)) with true. cbn [negb orb]. rewrite tlv_all_limit.
  destruct (region_tlv (der_tlv x30 contents) contents [] x30 0 (Z.of_nat (length (der_tlv x30 contents))))
    as (view & -> & A); [done|apply region_nil_r, region_all|].
  rewrite (at_tag _ _ _ _ _ _ _ A), (at_next _ _ _ _ _ _ _ A). change (u8 x30 =? 48) with true.
  by rewrite Z.add_0_l, Z.eqb_refl.
Qed.

(** A PrivateKeyInfo of PKCS#8: version, algorithm, and what is behind it. *)
Record Pkcs8Text := MkPkcs8Text {
  p8_version : bytes;
  p8_algorithm : bytes;    (** the octets of the OID of the algorithm *)
  p8_parameters : bytes;
  p8_rest : bytes
}.

Definition write_pkcs8 (k : Pkcs8Text) : bytes :=
  der_tlv x30 (der_tlv x02 (p8_version k) ++
               der_tlv x30 (der_tlv x06 (p8_algorithm k) ++ p8_parameters k) ++ p8_rest k).

Lemma length_der_tlv_ge (t : byte) (v : bytes) : (2 + length v <= length (der_tlv t v))%nat.
Proof. unfold der_tlv, der_length. cbn [length]. rewrite length_app. destruct (_ <? _); cbn [length]; lia. Qed.

Lemma length_write_pkcs8 (k : Pkcs8Text) : (4 <= length (write_pkcs8 k))%nat.
Proof.
  unfold write_pkcs8. etrans; [|apply length_der_tlv_ge]. rewrite length_app.
  pose proof (length_der_tlv_ge x02 (p8_version k)). lia.
Qed.

Lemma tlv_tagged_other (data v rest : bytes) (t t' : byte) (off lim : Z) :
  Der.fits data -> region data off (der_tlv t v ++ rest) lim -> t <> t' -> tlv_tagged t' data off lim = None.
Proof.
  intros Hfit R Ht. destruct (region_tlv _ _ _ _ _ _ Hfit R) as (view & E & A). unfold tlv_tagged. rewrite E. cbn.
  rewrite (at_tag _ _ _ _ _ _ _ A). destruct (Z.eqb_spec (u8 t) (u8 t')) as [Eq|]; [|done]. by apply u8_inj in Eq.
Qed.

Section Pkcs8.
Context (k : Pkcs8Text) (data := write_pkcs8 k) (Hfit : Der.fits data).

Lemma pkcs8_region : region data 0 (data ++ []) (Z.of_nat (length data)).
Proof. apply region_nil_r, region_all. Qed.

(** [IsPkcs12Der] looks at the tags of the first four values only, and these are those of a private key. *)
Lemma pkcs8_is_pkcs12 : IsPkcs12Der data = true.
Proof.
  unfold IsPkcs12Der. pose proof pkcs8_region as R. unfold data at 2, write_pkcs8 in R.
  destruct (region_tagged_all _ _ _ _ _ _ Hfit R) as (outer & m1 & -> & A1). cbn [mbind option_bind].
  pose proof (at_value _ _ _ _ _ _ _ A1) as R1.
  destruct (region_tagged_all _ _ _ _ _ _ Hfit R1) as (version & m2 & -> & A2). cbn [mbind option_bind].
  pose proof (at_rest _ _ _ _ _ _ _ A2) as R2. rewrite <- app_assoc in R2.
  destruct (region_tagged_all _ _ _ _ _ _ Hfit R2) as (auth_safe & m3 & -> & A3). cbn [mbind option_bind].
  pose proof (at_value _ _ _ _ _ _ _ A3) as R3.
  by destruct (region_tagged_all _ _ _ _ _ _ Hfit R3) as (content_type & m4 & -> & A4).
Qed.

Lemma pkcs8_not_iit : IitMatches data = false.
Proof.
  unfold IitMatches, ParseIitContainer. pose proof pkcs8_region as R. unfold data at 2, write_pkcs8 in R.
  enter region_tagged R outer A1 R1 N1. by rewrite (tlv_tagged_other _ _ _ x02 x30 _ _ Hfit R1).
Qed.

Lemma pkcs8_not_zs2 : p8_algorithm k <> kOidPkcs7Data -> Zs2Matches data = false.
Proof.
  intros Ho. unfold Zs2Matches, ParseZs2FirstBag. pose proof pkcs8_region as R. unfold data at 2, write_pkcs8 in R.
  enter region_tagged R pfx A1 R1 N1. enter region_tagged R1 version A2 R2 N2.
  unfold ParseDataContentInfo. enter region_tagged N2 info A3 R3 N3.
  destruct (region_tlv _ _ _ _ _ _ Hfit R3) as (oid & E & A4). unfold tlv_oid. rewrite E. cbn [mbind option_bind].
  rewrite (OidEquals_at _ _ _ _ _ _ _ _ A4), bool_decide_false; [done|]. naive_solver.
Qed.

End Pkcs8.

(** A container whose first octet is not the tag of a SEQUENCE is none of the DER containers. *)
Lemma not_sequence_tagged (b : byte) (data : bytes) (lim : Z) :
  b <> x30 -> tlv_tagged x30 (b :: data) 0 lim = None.
Proof.
  intros Hb. unfold tlv_tagged, tlv, ParseTlvAt_vec.
  destruct (ParseTlvAt (b :: data) 0 _) as [view| |] eqn:E; try done. cbn [mbind option_bind].
  assert (tag view = b) as ->.
  { unfold ParseTlvAt in E. destruct (_ <=? 0); [done|]. change (read (b :: data) 0) with (Some b) in E. cbn iota in E.
    destruct (ParseDerLength _ _ _) as [[vo vl]| |]; [injection E as <-; done|done|done]. }
  destruct (Z.eqb_spec (u8 b) (u8 x30)) as [Eq|]; [|done]. by apply u8_inj in Eq.
Qed.

Lemma not_sequence_containers (b : byte) (data : bytes) :
  b <> x30 -> IitMatches (b :: data) = false /\ Zs2Matches (b :: data) = false.
Proof.
  intros Hb. unfold IitMatches, Zs2Matches, ParseIitContainer, ParseZs2FirstBag.
  by rewrite !not_sequence_tagged.
Qed.

End Documents.

Section SameKey.
Context `{HPlat : Platform} `{KeyStoreApi} `{KeyCrypto}.
Context (password alias : string) (strict_pem : bool).

(** The containers that hold the private key [key] under [password], with the format the session names for each:
    a PEM file whose first key block is the key, a Java key store, and an IIT container, whose decrypted key is plain DER. *)
Inductive key_file (key : bytes) : bytes -> KeyFormat.t -> Prop :=
| pem_file first more tail b :
    pt_gap first = [] -> Forall pem_ok (first :: more) -> dash ∉ tail ->
    (strict_pem = true -> Forall (fun b => is_sequence (pt_der b) = true) (first :: more)) ->
    List.find is_key_block (map loaded (first :: more)) = Some b ->
    pb_der_payload b = key -> pb_type b <> chars "DER" ->
    key_file key (text_bytes (write_pem (first :: more) tail)) KeyFormat.Pem
| jks_file version entries pw salt name chain :
    version = 1 \/ version = 2 ->
    Forall entry_ok entries -> Z.of_nat (length entries) < 2 ^ 32 ->
    ToJksPasswordBytes (chars password) = Some pw -> length salt = 20%nat ->
    Der.fits (wrap_payload (protect_payload pw salt key)) ->
    chosen (match chars alias with [] => [] | _ => NormalizeJksAlias (chars alias) end) entries
      = Some (name, wrap_payload (protect_payload pw salt key), chain) ->
    Forall (fun c => IsValidDerContainer (sc_der c) = inr tt) chain ->
    key_file key (write_store pw version entries) KeyFormat.Jks
| iit_file mac pad body iit_key filling :
    Der.fits (write_iit mac pad body) ->
    length mac = kIitMacLength -> (length pad < kIitBlockSize)%nat -> body <> [] ->
    ((length body + length pad) mod kIitBlockSize = 0)%nat ->
    DeriveIitKey (text_bytes (chars password)) = Some iit_key ->
    gost28147_ecb_decrypt iit_key (body ++ pad) = Some (key ++ filling) -> length key = length body ->
    gost28147_mac iit_key key = Some mac ->
    key_file key (write_iit mac pad body) KeyFormat.Der.

Definition normalized_to (file key : bytes) (format : KeyFormat.t) : Prop :=
  exists certificate,
    NormalizeKeyContainer file password password alias strict_pem = inr (MkNormalizedKey key key certificate format).

Context (k : Pkcs8Text) (Hfit : Der.fits (write_pkcs8 k)) (Halg : p8_algorithm k <> kOidPkcs7Data).
Context (Hpw : str_empty password = false).

Lemma key_valid : IsValidDerContainer (write_pkcs8 k) = inr tt.
Proof. apply IsValidDerContainer_written; [done|apply length_write_pkcs8]. Qed.

Lemma chars_nonempty (s : string) : str_empty s = false -> chars s <> [].
Proof. by destruct s. Qed.

Lemma Normalize_cases (key_data : bytes) :
  key_data <> [] ->
  NormalizeKeyContainer key_data password password alias strict_pem =
  if StartsWith key_data [xfe; xed; xfe; xed] then normalize_jks key_data password password alias
  else if IitMatches key_data then normalize_iit key_data password password
  else if Zs2Matches key_data then normalize_zs2 key_data password password
  else if IsLikelyPem key_data || is_sequence key_data then normalize_pem key_data strict_pem
  else inl "Unsupported key format".
Proof. by destruct key_data. Qed.

(** A bare PKCS#8 file, by contrast, is recorded as PKCS#12: [IsPkcs12Der] looks only at four tags, which every such key has too,
    while docs/key-containers.md tells the two apart. *)
Lemma bare_key_recorded_as_pkcs12 : normalized_to (write_pkcs8 k) (write_pkcs8 k) KeyFormat.Pkcs12.
Proof.
  exists []. rewrite Normalize_cases by done.
  replace (StartsWith (write_pkcs8 k) [xfe; xed; xfe; xed]) with false.
  2:{ unfold StartsWith, write_pkcs8, der_tlv. cbn [take]. rewrite bool_decide_false by done. by destruct (_ <? _)%nat. }
  rewrite (pkcs8_not_iit k Hfit), (pkcs8_not_zs2 k Hfit Halg).
  change (is_sequence (write_pkcs8 k)) with true. rewrite orb_true_r. unfold normalize_pem.
  change (LoadAll (write_pkcs8 k) strict_pem) with (@inr string _ [MkPemBlock (chars "DER") (write_pkcs8 k)]).
  cbn [List.find]. change (is_key_block (MkPemBlock (chars "DER") (write_pkcs8 k))) with true.
  cbn [pb_der_payload pb_type]. rewrite key_valid. rewrite bool_decide_true by done. by rewrite (pkcs8_is_pkcs12 k Hfit).
Qed.

Lemma normalize_pem_file (first : PemText) (more : list PemText) (tail : list ascii) (b : PemBlock) :
  pt_gap first = [] -> Forall pem_ok (first :: more) -> dash ∉ tail ->
  (strict_pem = true -> Forall (fun b => is_sequence (pt_der b) = true) (first :: more)) ->
  List.find is_key_block (map loaded (first :: more)) = Some b ->
  pb_der_payload b = write_pkcs8 k -> pb_type b <> chars "DER" ->
  normalized_to (text_bytes (write_pem (first :: more) tail)) (write_pkcs8 k) KeyFormat.Pem.
Proof.
  intros Hg Hok Ht Hs Hf Hb Hd. eexists.
  assert (exists rest, write_pem (first :: more) tail = kBegin ++ rest) as [rest E].
  { unfold write_pem. cbn [map concat]. unfold write_pem_block at 1. rewrite Hg. cbn [app].
    rewrite <- !app_assoc. by eexists. }
  rewrite Normalize_cases by (by rewrite E).
  assert (LoadAll (text_bytes (write_pem (first :: more) tail)) strict_pem = inr (map loaded (first :: more))) as EL.
  { unfold text_bytes. rewrite Pem_load_written; [|done..|by rewrite E].
    destruct strict_pem; [|done]. cbn [andb].
    replace (existsb _ _) with false; [done|]. symmetry. apply not_true_iff_false. rewrite existsb_exists.
    intros (x & Hin & Hx). specialize (Hs eq_refl). rewrite Forall_forall in Hs.
    rewrite (Hs x) in Hx by (by apply list_elem_of_In). done. }
  replace (StartsWith _ _) with false.
  2:{ rewrite E. done. }
  destruct (not_sequence_containers (Ascii.byte_of_ascii dash) (text_bytes (drop 1 (write_pem (first :: more) tail)))) as [E1 E2].
  { done. }
  assert (Ascii.byte_of_ascii dash :: text_bytes (drop 1 (write_pem (first :: more) tail))
          = text_bytes (write_pem (first :: more) tail)) as Ec by (by rewrite E). rewrite Ec in E1, E2.
  rewrite E1, E2. replace (IsLikelyPem _) with true.
  2:{ rewrite E. unfold IsLikelyPem, StartsWith, kPemPrefix, text_bytes. rewrite map_app, length_app.
      change (chars "-----BEGIN ") with kBegin. rewrite take_app_length.
      rewrite (proj2 (Nat.ltb_ge _ _)) by lia. by rewrite bool_decide_true. }
  cbn [orb]. unfold normalize_pem. rewrite EL, Hf, Hb. rewrite key_valid. by rewrite bool_decide_false.
Qed.

Lemma normalize_jks_file (version : Z) (entries : list StoredEntry) (pw salt name : bytes) (chain : list StoredCertificate) :
  version = 1 \/ version = 2 ->
  Forall entry_ok entries -> Z.of_nat (length entries) < 2 ^ 32 ->
  ToJksPasswordBytes (chars password) = Some pw -> length salt = 20%nat ->
  Der.fits (wrap_payload (protect_payload pw salt (write_pkcs8 k))) ->
  chosen (match chars alias with [] => [] | _ => NormalizeJksAlias (chars alias) end) entries
    = Some (name, wrap_payload (protect_payload pw salt (write_pkcs8 k)), chain) ->
  Forall (fun c => IsValidDerContainer (sc_der c) = inr tt) chain ->
  normalized_to (write_store pw version entries) (write_pkcs8 k) KeyFormat.Jks.
Proof.
  intros Hv He Hn Hp Hs Hw Hc Hch. unfold normalized_to.
  assert (exists rest, write_store pw version entries = [xfe; xed; xfe; xed] ++ rest) as [rest E] by (by eexists).
  rewrite Normalize_cases by (by rewrite E).
  replace (StartsWith (write_store pw version entries) [xfe; xed; xfe; xed]) with true
    by (rewrite E; unfold StartsWith; by rewrite bool_decide_true).
  unfold normalize_jks. rewrite Hpw. cbn [andb].
  assert (match chars password with [] => chars password | _ => chars password end = chars password) as Eeff
    by (by destruct (chars password)).
  rewrite (Jks_load_written version entries _ _ _ pw pw salt (write_pkcs8 k) name chain)
    by (rewrite ?Eeff; (done || by apply chars_nonempty)).
  cbn [pk_private_key_pkcs8 pk_certificate_chain pk_certificate]. rewrite key_valid.
  set (cert := match FindMatchingCertificate _ _ with Some c => c | None => _ end).
  assert (cert = [] \/ IsValidDerContainer cert = inr tt) as Hcert.
  { assert (Forall (fun c => IsValidDerContainer c = inr tt) (map sc_der chain)) as HF by (by apply Forall_map).
    unfold cert. destruct (FindMatchingCertificate _ _) as [c|] eqn:Ef.
    - right. apply FindMatching_belongs in Ef as [Hin _]. rewrite Forall_forall in HF. by apply HF.
    - destruct HF; [by left|by right]. }
  exists cert. destruct cert as [|c0 cert']; [done|]. destruct Hcert as [Hcert|Hcert]; [done|by rewrite Hcert].
Qed.

Lemma normalize_iit_file (mac pad body iit_key filling : bytes) :
  Der.fits (write_iit mac pad body) ->
  length mac = kIitMacLength -> (length pad < kIitBlockSize)%nat -> body <> [] ->
  ((length body + length pad) mod kIitBlockSize = 0)%nat ->
  DeriveIitKey (text_bytes (chars password)) = Some iit_key ->
  gost28147_ecb_decrypt iit_key (body ++ pad) = Some (write_pkcs8 k ++ filling) -> length (write_pkcs8 k) = length body ->
  gost28147_mac iit_key (write_pkcs8 k) = Some mac ->
  normalized_to (write_iit mac pad body) (write_pkcs8 k) KeyFormat.Der.
Proof.
  intros Hf Hm Hp Hb Ha Hk Hd Hl Hc. exists []. rewrite Normalize_cases by done.
  replace (StartsWith _ _) with false.
  2:{ unfold StartsWith, write_iit, der_tlv. cbn [take]. rewrite bool_decide_false by done. by destruct (_ <? _)%nat. }
  unfold IitMatches. rewrite ParseIit_written by done. unfold normalize_iit, container_password. rewrite Hpw, Hpw.
  rewrite (Iit_decrypt_written mac pad body _ iit_key (write_pkcs8 k) filling mac) by
    (done || (destruct password; done)).
  rewrite bool_decide_true by done. by rewrite key_valid.
Qed.

(** [C33] One private key gives one result, whatever file it comes in: the key of a bare PKCS#8 file, of any
    PEM file, of any Java key store and of an IIT container under their password is read back octet for
    octet, and it is this key that the session keeps; a PEM file is recorded as [Pem], a key store as [Jks] and an
    IIT container as [Der], which the decrypted key is.  Of the format of a bare PKCS#8 file nothing is claimed, since the code
    records the wrong one ([bare_key_recorded_as_pkcs12]). *)
Theorem Normalize_same_key :
  (forall file format, key_file (write_pkcs8 k) file format -> normalized_to file (write_pkcs8 k) format) /\
  exists format, normalized_to (write_pkcs8 k) (write_pkcs8 k) format.
Proof.
  split; [|eexists; apply bare_key_recorded_as_pkcs12].
  intros file format. destruct 1; [by eapply normalize_pem_file|by eapply normalize_jks_file|by eapply normalize_iit_file].
Qed.

End SameKey.

(** ** What a normalized key is *)

Section WellFormed.
Context `{HPlat : Platform} `{KeyStoreApi} `{KeyCrypto}.

Definition well_formed (key_data : bytes) (passwords : bool) (k : NormalizedKey) : Prop :=
  whole_sequence (nk_normalized k) /\
  (nk_key_material k = nk_normalized k \/ (nk_format k = KeyFormat.Pkcs12 /\ nk_key_material k = key_data)) /\
  match nk_format k with
  | KeyFormat.Unknown => False
  | KeyFormat.Pkcs12 => nk_certificate k = []
  | KeyFormat.Jks => passwords = true /\ (nk_certificate k = [] \/ whole_sequence (nk_certificate k))
  | KeyFormat.Pem | KeyFormat.Der => True
  end.

Lemma normalize_jks_spec (key_data : bytes) (store_password key_password alias : string) (k : NormalizedKey) :
  normalize_jks key_data store_password key_password alias = inr k ->
  well_formed key_data (negb (str_empty store_password) || negb (str_empty key_password)) k.
Proof.
  unfold normalize_jks, well_formed. rewrite <- negb_andb.
  destruct (str_empty store_password && str_empty key_password); [done|].
  destruct (LoadPrivateKeyEntry _ _ _ _) as [|entry]; [done|]. cbv zeta.
  match goal with |- context [match ?c with [] => inr tt | _ => _ end] => set (cert := c) end.
  destruct (IsValidDerContainer (pk_private_key_pkcs8 entry)) as [|u] eqn:E1; [done|]. apply IsValidDerContainer_whole in E1.
  destruct cert as [|c0 cert'] eqn:Ec; [intros [= <-]; cbn; by auto|].
  destruct (IsValidDerContainer (c0 :: cert')) as [|u'] eqn:E2; [done|]. apply IsValidDerContainer_whole in E2.
  intros [= <-]. cbn. auto.
Qed.

Lemma normalize_pem_spec (key_data : bytes) (strict_pem passwords : bool) (k : NormalizedKey) :
  normalize_pem key_data strict_pem = inr k -> well_formed key_data passwords k.
Proof.
  unfold normalize_pem, well_formed. destruct (LoadAll _ _) as [|blocks]; [done|].
  destruct (List.find is_key_block blocks) as [key|]; [|done]. cbv zeta.
  destruct (IsValidDerContainer (pb_der_payload key)) as [|u] eqn:E; [done|]. apply IsValidDerContainer_whole in E.
  intros [= <-]. repeat case_bool_decide; [destruct (IsPkcs12Der _)|]; cbn; auto.
Qed.

Lemma NormalizeKeyContainer_spec (key_data : bytes) (store_password key_password alias : string) (strict_pem : bool)
    (k : NormalizedKey) :
  NormalizeKeyContainer key_data store_password key_password alias strict_pem = inr k ->
  well_formed key_data (negb (str_empty store_password) || negb (str_empty key_password)) k.
Proof.
  unfold NormalizeKeyContainer. destruct key_data as [|b0 l]; [done|]. set (key_data := b0 :: l).
  destruct (StartsWith key_data _); [apply normalize_jks_spec|].
  destruct (IitMatches key_data); [|destruct (Zs2Matches key_data); [|destruct (_ || _); [apply normalize_pem_spec|done]]].
  - unfold normalize_iit. destruct (str_empty _); [done|]. destruct (IitDecrypt _ _) as [|n]; [done|].
    destruct (IsValidDerContainer n) as [|u] eqn:E; [done|]. apply IsValidDerContainer_whole in E.
    intros [= <-]. unfold well_formed. cbn. auto.
  - unfold normalize_zs2. destruct (str_empty _); [done|].
    destruct (IsValidDerContainer key_data) as [|u] eqn:E; [done|]. apply IsValidDerContainer_whole in E.
    intros [= <-]. unfold well_formed. cbn. auto.
Qed.

(** [C38] Whatever the octets of a file are, a key that [NormalizeKeyContainer] accepts is one whole DER
    SEQUENCE with nothing behind it, in a known format; the key material is the key itself, or the
    whole file for PKCS#12; no certificate is taken from a PKCS#12 container, and one taken from a
    Java key store is DER, and such a store is opened with a password only. *)
Theorem Normalize_wellformed (key_data : bytes) (store_password key_password alias : string) (strict_pem : bool)
    (k : NormalizedKey) :
  NormalizeKeyContainer key_data store_password key_password alias strict_pem = inr k ->
  well_formed key_data (negb (str_empty store_password) || negb (str_empty key_password)) k.
Proof. apply NormalizeKeyContainer_spec. Qed.

End WellFormed.

(** ** A key in a file *)

Module SampleKey.

#[local] Existing Instance lp64.
#[local] Existing Instance toy_cert_api.
#[local] Existing Instance toy_key_store.
#[local] Existing Instance KeyContainers.SampleContainers.toy.

Definition key : Pkcs8Text := MkPkcs8Text [x00] [x2a; x86; x24] [] [x04; x01; x07].
Definition blocks : list PemText :=
  [pem_text (chars "CERTIFICATE") own_certificate; pem_text (chars "PRIVATE KEY") (write_pkcs8 key)].

Lemma Normalize_same_key_witness :
  normalized_to "pw" "" true (text_bytes (write_pem blocks [Pem.newline])) (write_pkcs8 key) KeyFormat.Pem.
Proof.
  apply (Normalize_same_key "pw" "" true key); [by vm_compute|done|done|].
  apply (pem_file "pw" "" true (write_pkcs8 key) (pem_text (chars "CERTIFICATE") own_certificate)
           [pem_text (chars "PRIVATE KEY") (write_pkcs8 key)] [Pem.newline]
           (MkPemBlock (chars "PRIVATE KEY") (write_pkcs8 key))); try done.
  - repeat constructor; apply pem_text_ok; try done; apply (bool_decide_unpack _); vm_compute; exact I.
  - apply (bool_decide_unpack _). vm_compute. exact I.
  - intros _. repeat constructor.
Defined.

Lemma Normalize_wellformed_witness :
  well_formed (write_pkcs8 key) true (MkNormalizedKey (write_pkcs8 key) (write_pkcs8 key) [] KeyFormat.Pkcs12).
Proof.
  apply (Normalize_wellformed (write_pkcs8 key) "pw" "pw" "" false). vm_compute. reflexivity.
Defined.

End SampleKey.
