(* ===== verification/X509Name.v ===== *)
(** * X509Name: distinguished names as RFC 4514 text

    Models [util/X509Name.cpp] and [core/cryptonite/Names.cpp].  The functions
    on raw DER return an [outcome]: a read outside the buffer is [UB], and so
    is a loop that uses up its fuel, so that a safety theorem excludes both.
    [unsigned long] is 64 bits wide. *)

From S2P Require Import Prelude CxxString Der Codec Cryptonite.

Local Open Scope Z_scope.

#[export] Instance outcome_bind : MBind outcome := fun A B f m =>
  match m with
  | Ret a => f a
  | Fails => Fails
  | UB => UB
  end.

(** ** Object identifiers *)

(** The loop over the octets after the first; [arc] is an [unsigned long]. *)
Fixpoint oid_arcs (data : bytes) (arc : Z) : string :=
  match data with
  | [] => ""
  | b :: rest =>
      let arc := Z.lor (wrap 64 (Z.shiftl arc 7)) (Z.land (u8 b) 127) in
      if Z.land (u8 b) 128 =? 0 then "." +s+ to_string arc +s+ oid_arcs rest 0
      else oid_arcs rest arc
  end.

Definition OidToString (data : bytes) : string :=
  match data with
  | [] => ""
  | first :: rest =>
      to_string (u8 first / 40) +s+ "." +s+ to_string (u8 first mod 40) +s+ oid_arcs rest 0
  end.

Definition kKnownOids : list (string * string) :=
  [("2.5.4.3", "CN"); ("2.5.4.4", "SN"); ("2.5.4.5", "SERIALNUMBER"); ("2.5.4.6", "C");
   ("2.5.4.7", "L"); ("2.5.4.8", "ST"); ("2.5.4.9", "STREET"); ("2.5.4.10", "O");
   ("2.5.4.11", "OU"); ("2.5.4.12", "T"); ("2.5.4.13", "description");
   ("2.5.4.15", "businessCategory"); ("2.5.4.17", "postalCode"); ("2.5.4.42", "GN");
   ("2.5.4.43", "initials"); ("2.5.4.44", "generationQualifier"); ("2.5.4.46", "dnQualifier");
   ("2.5.4.97", "OID.2.5.4.97"); ("1.2.840.113549.1.9.1", "emailAddress");
   ("0.9.2342.19200300.100.1.1", "UID"); ("0.9.2342.19200300.100.1.25", "DC");
   ("1.2.804.2.1.1.1.11.1.4", "DRFO"); ("1.2.804.2.1.1.1.11.1.5", "EDRPOU")].

Definition LookupOidShortName (dotted_oid : string) : option string :=
  snd <$> List.find (fun entry => dotted_oid ==s entry.1) kKnownOids.

(** At most sixteen arcs are printed. *)
Definition OidFromAsn1 (arcs : list Z) : string := String.concat "." (map to_string (take 16 arcs)).

(** ** RFC 4514 escaping *)

Definition BACKSLASH : ascii := to_char 92.

Definition rfc4514_special (ch : ascii) : bool :=
  existsb (Z.eqb (uc ch)) [92; 34; 43; 44; 59; 60; 62; 0].

(** The loop from index [i] of a value of [size] characters. *)
Fixpoint escape_loop (value : list ascii) (i size : nat) : list ascii :=
  match value with
  | [] => []
  | ch :: rest =>
      (if rfc4514_special ch then [BACKSLASH; ch]
       else if (uc ch =? 35) && (Nat.eqb i 0) then [BACKSLASH; ch]
       else if (uc ch =? 32) && ((Nat.eqb i 0) || (Nat.eqb i (size - 1))) then [BACKSLASH; ch]
       else [ch]) ++ escape_loop rest (S i) size
  end.

Definition EscapeRfc4514 (value : string) : string :=
  of_chars (escape_loop (chars value) 0 (String.length value)).

(** ** DER string values *)

(** The bytes [data + offset .. data + offset + len]. *)
Definition read_range (data : bytes) (offset len : Z) : outcome bytes :=
  if (0 <=? offset) && (0 <=? len) && (offset + len <=? Z.of_nat (length data))
  then Ret (take (Z.to_nat len) (drop (Z.to_nat offset) data)) else UB.

Definition chars_of_bytes (data : bytes) : list ascii := map (fun b => to_char (u8 b)) data.

Definition printable_lo (hi lo : byte) : bool := (u8 hi =? 0) && (32 <=? u8 lo) && (u8 lo <? 127).

(** A BMPString: printable Latin code units as they are, the others as [\xHHHH]. *)
Fixpoint bmp_escaped (value : bytes) : list ascii :=
  match value with
  | hi :: lo :: rest =>
      (if printable_lo hi lo then [to_char (u8 lo)]
       else [BACKSLASH; "x"%char] ++ Hex.hex_byte hi ++ Hex.hex_byte lo) ++ bmp_escaped rest
  | _ => []
  end.

Definition is_byte_string_tag (t : byte) : bool :=
  (u8 t =? 0x0C) || (u8 t =? 0x13) || (u8 t =? 0x16).

Section X509Name.
Context `{Platform}.

Definition ExtractDerStringValue (data : bytes) (offset limit : Z) : outcome string :=
  if limit <=? offset then Ret "" else
  match ParseTlvAt data offset limit with
  | Fails => Ret ""
  | UB => UB
  | Ret tlv =>
      value ← read_range data (value_offset tlv) (value_length tlv);
      if is_byte_string_tag (tag tlv) then Ret (of_chars (chars_of_bytes value))
      else if (u8 (tag tlv) =? 0x1E) && (2 <=? value_length tlv) then Ret (of_chars (bmp_escaped value))
      else Ret (Hex.HexEncode value)
  end.

(** ** [FormatRdnSequence]: a name from raw DER *)

(** Two loops of the source join parts with a separator after a non-empty prefix. *)
Definition join_parts (parts : list string) : string := String.concat "+" parts.

Definition join_reversed (rdns : list string) : string :=
  foldl (fun result s => (if str_empty result then result else result +s+ ",") +s+ s) "" (rev rdns).

(** The attribute of the SEQUENCE [seq_tlv] whose type is [oid_tlv]. *)
Definition format_attribute (data : bytes) (seq_tlv oid_tlv : TlvView) : outcome string :=
  oid ← read_range data (value_offset oid_tlv) (value_length oid_tlv);
  let dotted := OidToString oid in
  value_str ← ExtractDerStringValue data (next_offset oid_tlv) (Z.of_nat (length data));
  match LookupOidShortName dotted with
  | Some short_name => Ret (short_name +s+ "=" +s+ EscapeRfc4514 value_str)
  | None =>
      value ← read_range data (next_offset oid_tlv)
                (if next_offset oid_tlv <? next_offset seq_tlv
                 then wrap_size (next_offset seq_tlv - next_offset oid_tlv) else 0);
      Ret (dotted +s+ "=#" +s+ Hex.HexEncode value)
  end.

(** The inner loop over the attributes of one RDN. *)
Fixpoint rdn_loop (fuel : nat) (data : bytes) (inner set_end : Z) (parts : list string)
    : outcome (list string) :=
  match fuel with
  | O => UB
  | S fuel =>
      if set_end <=? inner then Ret parts else
      match ParseTlvAt_all data inner with
      | UB => UB
      | Fails => Ret parts
      | Ret seq_tlv =>
          if negb (u8 (tag seq_tlv) =? 0x30) then Ret parts else
          match ParseTlvAt_all data (value_offset seq_tlv) with
          | UB => UB
          | Fails => rdn_loop fuel data (next_offset seq_tlv) set_end parts
          | Ret oid_tlv =>
              if negb (u8 (tag oid_tlv) =? 0x06)
              then rdn_loop fuel data (next_offset seq_tlv) set_end parts
              else
                attr ← format_attribute data seq_tlv oid_tlv;
                rdn_loop fuel data (next_offset seq_tlv) set_end (parts ++ [attr])
          end
      end
  end.

Definition loop_fuel (data : bytes) : nat := S (length data).

(** The outer loop over the RDNs. *)
Fixpoint rdn_sequence_loop (fuel : nat) (data : bytes) (offset : Z) (rdns : list string)
    : outcome (list string) :=
  match fuel with
  | O => UB
  | S fuel =>
      if Z.of_nat (length data) <=? offset then Ret rdns else
      match ParseTlvAt_all data offset with
      | UB => UB
      | Fails => Ret rdns
      | Ret set_tlv =>
          if negb (u8 (tag set_tlv) =? 0x31) then Ret rdns else
          parts ← rdn_loop (loop_fuel data) data (value_offset set_tlv) (next_offset set_tlv) [];
          rdn_sequence_loop fuel data (next_offset set_tlv)
            (match parts with [] => rdns | _ => rdns ++ [join_parts parts] end)
      end
  end.

Definition FormatRdnSequence (data : bytes) : outcome string :=
  rdns ← rdn_sequence_loop (loop_fuel data) data 0 [];
  Ret (join_reversed rdns).

(** ** [Names.cpp]: a decoded name *)

Record NameAttribute := MkNameAttribute { na_oid : string; na_short_name : string; na_value : string }.

Definition name_attribute (atv : AttributeTypeAndValue) : outcome NameAttribute :=
  let oid := OidFromAsn1 (atv_type atv) in
  value ← ExtractDerStringValue (atv_value atv) 0 (Z.of_nat (length (atv_value atv)));
  Ret (MkNameAttribute oid (default oid (LookupOidShortName oid)) value).

Fixpoint sequence {A B} (f : A -> outcome B) (l : list A) : outcome (list B) :=
  match l with
  | [] => Ret []
  | a :: rest => b ← f a; bs ← sequence f rest; Ret (b :: bs)
  end.

Definition CollectNameAttributes (name : Name_t) : outcome (list NameAttribute) :=
  match name with
  | None => Ret []
  | Some rdn_seq => sequence name_attribute (concat rdn_seq)
  end.

Definition format_atv (atv : AttributeTypeAndValue) : outcome string :=
  let dotted := OidFromAsn1 (atv_type atv) in
  value ← ExtractDerStringValue (atv_value atv) 0 (Z.of_nat (length (atv_value atv)));
  match LookupOidShortName dotted with
  | Some short_name => Ret (short_name +s+ "=" +s+ EscapeRfc4514 value)
  | None => Ret (dotted +s+ "=#" +s+ Hex.HexEncode (atv_value atv))
  end.

Definition FormatNameRfc4514 (name : Name_t) : outcome string :=
  match name with
  | None => Ret ""
  | Some rdn_seq =>
      rdns ← sequence (sequence format_atv) rdn_seq;
      Ret (join_reversed (map join_parts
             (List.filter (fun parts : list string => match parts with [] => false | _ => true end) rdns)))
  end.

End X509Name.

Definition FirstNameAttributeValue (attributes : list NameAttribute) (names_or_oids : list string)
    : string :=
  default "" (head (omap (fun name_or_oid =>
    na_value <$> List.find (fun a => (na_short_name a ==s name_or_oid) || (na_oid a ==s name_or_oid))
                           attributes) names_or_oids)).

(** ** Escaping is invertible and leaves no bare separator *)

(** Reading escaped text: every character with the mark of whether it was escaped. *)
Fixpoint rfc4514_read (l : list ascii) : list (bool * ascii) :=
  match l with
  | [] => []
  | c :: l' =>
      if uc c =? 92 then match l' with d :: l'' => (true, d) :: rfc4514_read l'' | [] => [] end
      else (false, c) :: rfc4514_read l'
  end.

(** The decision of the loop at index [i]. *)
Definition is_escaped (ch : ascii) (i size : nat) : bool :=
  rfc4514_special ch || ((uc ch =? 35) && Nat.eqb i 0)
  || ((uc ch =? 32) && (Nat.eqb i 0 || Nat.eqb i (size - 1))).

Fixpoint marked (value : list ascii) (i size : nat) : list (bool * ascii) :=
  match value with
  | [] => []
  | ch :: rest => (is_escaped ch i size, ch) :: marked rest (S i) size
  end.

Lemma rfc4514_read_escape (value : list ascii) (i size : nat) :
  rfc4514_read (escape_loop value i size) = marked value i size.
Proof.
  revert i. induction value as [|ch rest IH]; intros i; [done|].
  cbn [escape_loop marked]. unfold is_escaped.
  destruct (rfc4514_special ch) eqn:Hs; [cbn; by rewrite IH|].
  destruct ((uc ch =? 35) && Nat.eqb i 0); [cbn; by rewrite IH|].
  destruct ((uc ch =? 32) && _); [cbn; by rewrite IH|].
  cbn. unfold rfc4514_special in Hs. cbn in Hs. apply orb_false_iff in Hs as [-> _].
  by rewrite IH.
Qed.

Lemma marked_lookup (value : list ascii) (i size k : nat) :
  marked value i size !! k = (fun ch => (is_escaped ch (i + k) size, ch)) <$> value !! k.
Proof.
  revert i k. induction value as [|ch rest IH]; intros i [|k]; cbn; try done.
  - by rewrite Nat.add_0_r.
  - rewrite IH. by replace (S i + k)%nat with (i + S k)%nat by lia.
Qed.

Lemma marked_values (value : list ascii) (i size : nat) : map snd (marked value i size) = value.
Proof. revert i. induction value as [|ch rest IH]; intros i; cbn; congruence. Qed.

(** Escaping an attribute value for a distinguished name is invertible, and in the escaped
    text none of the characters that have a meaning in RFC 4514 is left bare: no separator,
    quote, backslash or NUL anywhere, no leading [#] or space, no trailing space.  A value can
    therefore never forge another attribute of the name. *)
Theorem EscapeRfc4514_faithful (value : string) :
  let text := rfc4514_read (chars (EscapeRfc4514 value)) in
  map snd text = chars value /\
  (forall k ch, text !! k = Some (false, ch) ->
     rfc4514_special ch = false /\
     (k = 0%nat -> uc ch <> 35 /\ uc ch <> 32) /\
     (S k = length text -> uc ch <> 32)).
Proof.
  cbn zeta. unfold EscapeRfc4514. rewrite chars_of_chars, rfc4514_read_escape.
  split; [apply marked_values|]. intros k ch. rewrite marked_lookup. cbn [Nat.add].
  destruct (chars value !! k) as [c|] eqn:Hk; [|done]. intros [= He ->].
  assert (length (marked (chars value) 0 (String.length value)) = String.length value) as ->.
  { rewrite <- (length_map snd), marked_values. apply length_chars. }
  unfold is_escaped in He. rewrite !orb_false_iff, !andb_false_iff in He.
  destruct He as [[Hs H35] H32]. split; [done|]. split.
  - intros ->. rewrite !Z.eqb_neq in H35, H32. cbn in H35, H32.
    split; [by destruct H35|by destruct H32].
  - intros E. rewrite <- E in H32. cbn in H32.
    rewrite Nat.sub_0_r, Nat.eqb_refl, orb_true_r, Z.eqb_neq in H32. by destruct H32.
Qed.

(** ** Memory safety and termination *)

Section Safety.
Context `{Platform}.

Lemma read_range_ok (data : bytes) (offset len : Z) :
  0 <= offset -> 0 <= len -> offset + len <= Z.of_nat (length data) ->
  exists v, read_range data offset len = Ret v /\ Z.of_nat (length v) = len.
Proof.
  intros. unfold read_range.
  rewrite (proj2 (Z.leb_le 0 offset)), (proj2 (Z.leb_le 0 len)), (proj2 (Z.leb_le _ _)) by lia.
  eexists. split; [done|]. rewrite length_take, length_drop. lia.
Qed.

Lemma ParseTlvAt_all_safe (data : bytes) (offset : Z) :
  fits data -> 0 <= offset ->
  match ParseTlvAt_all data offset with
  | Ret v => offset + 1 < value_offset v /\ 0 <= value_length v /\
      next_offset v = value_offset v + value_length v /\ next_offset v <= Z.of_nat (length data)
  | Fails => True
  | UB => False
  end.
Proof. intros. by apply ParseTlvAt_safe. Qed.

Lemma ExtractDerStringValue_safe (data : bytes) (offset : Z) :
  fits data -> 0 <= offset ->
  exists s, ExtractDerStringValue data offset (Z.of_nat (length data)) = Ret s.
Proof.
  intros Hfit Ho. unfold ExtractDerStringValue. destruct (_ <=? _); [by eexists|].
  pose proof (ParseTlvAt_safe data offset _ Hfit Ho (Z.le_refl _)) as L.
  destruct (ParseTlvAt data offset _) as [v| |]; [|by eexists|done].
  destruct (read_range_ok data (value_offset v) (value_length v)) as (r & -> & _); [lia..|].
  cbn. destruct (is_byte_string_tag _); [by eexists|].
  destruct (_ && _); by eexists.
Qed.

Lemma format_attribute_safe (data : bytes) (seq_tlv oid_tlv : TlvView) :
  fits data ->
  0 <= value_offset oid_tlv -> 0 <= value_length oid_tlv ->
  next_offset oid_tlv = value_offset oid_tlv + value_length oid_tlv ->
  next_offset oid_tlv <= Z.of_nat (length data) ->
  next_offset seq_tlv <= Z.of_nat (length data) ->
  exists s, format_attribute data seq_tlv oid_tlv = Ret s.
Proof.
  intros Hfit ? ? ? ? ?. unfold format_attribute. unfold fits in *.
  destruct (read_range_ok data (value_offset oid_tlv) (value_length oid_tlv)) as (r & -> & _); [lia..|].
  destruct (ExtractDerStringValue_safe data (next_offset oid_tlv) Hfit) as [s Hs]; [lia|].
  unfold mbind, outcome_bind. rewrite Hs.
  destruct (LookupOidShortName (OidToString r)); [by eexists|].
  edestruct (read_range_ok data (next_offset oid_tlv)) as (w & E & _).
  4: { erewrite E. by eexists. }
  - lia.
  - destruct (Z.ltb_spec (next_offset oid_tlv) (next_offset seq_tlv)); [|lia].
    rewrite wrap_size_small; lia.
  - destruct (Z.ltb_spec (next_offset oid_tlv) (next_offset seq_tlv)); [|lia].
    rewrite wrap_size_small; lia.
Qed.

Lemma rdn_loop_safe (fuel : nat) (data : bytes) (inner set_end : Z) (parts : list string) :
  fits data -> 0 <= inner -> set_end <= Z.of_nat (length data) ->
  Z.of_nat (length data) - inner < Z.of_nat fuel -> (0 < fuel)%nat ->
  exists ps, rdn_loop fuel data inner set_end parts = Ret ps.
Proof.
  intros Hfit. revert inner parts. induction fuel as [|fuel IH]; intros inner parts Hi He Hf H0; [lia|].
  cbn [rdn_loop]. destruct (Z.leb_spec set_end inner); [by eexists|].
  pose proof (ParseTlvAt_all_safe data inner Hfit Hi) as L.
  destruct (ParseTlvAt_all data inner) as [seq| |]; [|by eexists|done].
  destruct (negb _); [by eexists|].
  pose proof (ParseTlvAt_all_safe data (value_offset seq) Hfit ltac:(lia)) as M.
  destruct (ParseTlvAt_all data (value_offset seq)) as [oid| |]; [|apply IH; lia|done].
  destruct (negb _); [apply IH; lia|].
  destruct (format_attribute_safe data seq oid Hfit) as [s Hs]; [lia..|].
  unfold mbind, outcome_bind. rewrite Hs. apply IH; lia.
Qed.

Lemma rdn_sequence_loop_safe (fuel : nat) (data : bytes) (offset : Z) (rdns : list string) :
  fits data -> 0 <= offset -> Z.of_nat (length data) - offset < Z.of_nat fuel -> (0 < fuel)%nat ->
  exists rs, rdn_sequence_loop fuel data offset rdns = Ret rs.
Proof.
  intros Hfit. revert offset rdns. induction fuel as [|fuel IH]; intros offset rdns Ho Hf H0; [lia|].
  cbn [rdn_sequence_loop]. destruct (Z.leb_spec (Z.of_nat (length data)) offset); [by eexists|].
  pose proof (ParseTlvAt_all_safe data offset Hfit Ho) as L.
  destruct (ParseTlvAt_all data offset) as [set| |]; [|by eexists|done].
  destruct (negb _); [by eexists|].
  destruct (rdn_loop_safe (loop_fuel data) data (value_offset set) (next_offset set) [] Hfit)
    as [ps Hps]; [unfold loop_fuel; lia..|].
  unfold mbind, outcome_bind. rewrite Hps. apply IH; lia.
Qed.

(** Formatting a name from raw certificate bytes is total on every input, however
    malformed: no read leaves the buffer and both loops end, on 32-bit and 64-bit hosts. *)
Theorem FormatRdnSequence_total (data : bytes) :
  fits data -> exists s, FormatRdnSequence data = Ret s.
Proof.
  intros Hfit. unfold FormatRdnSequence.
  destruct (rdn_sequence_loop_safe (loop_fuel data) data 0 [] Hfit) as [rs Hrs];
    [unfold loop_fuel; lia..|].
  unfold mbind, outcome_bind. rewrite Hrs. by eexists.
Qed.

End Safety.

(** A SET that promises an attribute cut off by the end of the buffer. *)
Lemma FormatRdnSequence_total_witness :
  fits [x31; x04; x30; x02; x06; x03] /\ exists s, FormatRdnSequence [x31; x04; x30; x02; x06; x03] = Ret s.
Proof.
  split; [by vm_compute|].
  apply (FormatRdnSequence_total [x31; x04; x30; x02; x06; x03]). by vm_compute.
Defined.

(** The name [CN=a\,b] from its DER. *)
Example FormatRdnSequence_cn :
  FormatRdnSequence [x31; x0c; x30; x0a; x06; x03; x55; x04; x03; x0c; x03; x61; x2c; x62]
  = Ret "CN=a\,b".
Proof. by vm_compute. Qed.
