(* ===== verification/Chain.v ===== *)
(** * Chain: building a certificate chain to a trust anchor

    Models [core/policy/CertificateChainValidator.cpp]: a breadth-first search
    from the signer's certificate through the candidate issuers (embedded,
    intermediate store, AIA; at most 256 of them) to a valid trust anchor, with
    the RFC 5280 checks on every intermediate (validity, [cA], [keyCertSign],
    [pathLenConstraint]).  The diagnostic text the code accumulates is part of
    the state.

    The loop has fuel: one step per node taken from the queue.  A node is queued
    at most once per DER encoding, so two more than the number of candidates are
    enough ([search_exhausts]). *)

From stdpp Require Import sorting.
From S2P Require Import Prelude CxxString Types Time Der Codec X509Name Cryptonite Fixture.

Local Open Scope Z_scope.

Record CertificateChainInput := MkCertificateChainInput {
  ci_signer_certificate_der : bytes;
  ci_embedded_certificates_der : list bytes;
  ci_intermediate_certificates_der : list bytes;
  ci_aia_certificates_der : list bytes;
  ci_trust_anchors_der : list bytes;
  ci_trust_anchor_source : string;
  ci_validation_time : string
}.

#[export] Instance eta_CertificateChainInput : Eta CertificateChainInput := fun r =>
  MkCertificateChainInput (ci_signer_certificate_der r) (ci_embedded_certificates_der r)
  (ci_intermediate_certificates_der r) (ci_aia_certificates_der r) (ci_trust_anchors_der r)
  (ci_trust_anchor_source r) (ci_validation_time r).

Definition CertificateChainInput_default : CertificateChainInput :=
  MkCertificateChainInput [] [] [] [] [] "trust-store" "".

Record CertificateChainResult := MkCertificateChainResult {
  cr_checked : bool;
  cr_trusted : bool;
  cr_chain_valid : bool;
  cr_status : ChainStatus.t;
  cr_signer_certificate_time_valid : bool;
  cr_issuer_certificate_der : bytes;
  cr_signer_issuer_certificate_der : bytes;
  cr_message : string;
  cr_chain_debug : string
}.

#[export] Instance eta_CertificateChainResult : Eta CertificateChainResult := fun r =>
  MkCertificateChainResult (cr_checked r) (cr_trusted r) (cr_chain_valid r) (cr_status r)
  (cr_signer_certificate_time_valid r) (cr_issuer_certificate_der r)
  (cr_signer_issuer_certificate_der r) (cr_message r) (cr_chain_debug r).

Definition CertificateChainResult_default : CertificateChainResult :=
  MkCertificateChainResult false false false ChainStatus.NotChecked false [] [] "" "".

Record IssuerBasicConstraints := MkIssuerBasicConstraints {
  ib_present : bool;
  ib_is_ca : bool;
  ib_has_path_len : bool;
  ib_path_len : Z
}.

#[export] Instance eta_IssuerBasicConstraints : Eta IssuerBasicConstraints := fun r =>
  MkIssuerBasicConstraints (ib_present r) (ib_is_ca r) (ib_has_path_len r) (ib_path_len r).

Definition IssuerBasicConstraints_default : IssuerBasicConstraints :=
  MkIssuerBasicConstraints false false false 0.

Record CertificateDebugInfo := MkCertificateDebugInfo {
  di_subject : string;
  di_issuer : string;
  di_serial : string;
  di_ski : string;
  di_aki : string;
  di_decodable : bool
}.

#[export] Instance eta_CertificateDebugInfo : Eta CertificateDebugInfo := fun r =>
  MkCertificateDebugInfo (di_subject r) (di_issuer r) (di_serial r) (di_ski r) (di_aki r)
  (di_decodable r).

Definition CertificateDebugInfo_default : CertificateDebugInfo :=
  MkCertificateDebugInfo "" "" "" "" "" false.

(** A line feed. *)
Definition LF : string := String "010" EmptyString.

Section Chain.
Context `{CertApi, Platform}.

(** ** Checks on one certificate *)

Definition VerifyByIssuer (certificate issuer : Certificate_t) : bool :=
  match verify_adapter_init_by_cert issuer with
  | Some verify_adapter => cert_verify certificate verify_adapter
  | None => false
  end.

Definition ReadIssuerBasicConstraints (cert : Certificate_t) : IssuerBasicConstraints :=
  match cert_basic_constraints cert with
  | None => IssuerBasicConstraints_default
  | Some bc =>
      let out := IssuerBasicConstraints_default <| ib_present := true |>
        <| ib_is_ca := match bc_cA bc with Some v => negb (v =? 0) | None => false end |> in
      match bc_pathLen bc with
      | Some (Some value) => out <| ib_has_path_len := true |> <| ib_path_len := value |>
      | _ => out
      end
  end.

Definition IssuerHasKeyCertSign (cert : Certificate_t) : bool :=
  CertificateAllowsKeyUsage cert KeyUsage_keyCertSign.

Definition IssuerCaRejectReason (cert : Certificate_t) (intermediates_below : Z) : string :=
  let bc := ReadIssuerBasicConstraints cert in
  if negb (ib_is_ca bc) then "non-ca-issuer"
  else if negb (IssuerHasKeyCertSign cert) then "issuer-missing-keyCertSign"
  else if ib_has_path_len bc && (ib_path_len bc <? intermediates_below) then "pathlen-exceeded"
  else "".

Definition IsValidAt (certificate : Certificate_t) (validation_time : string) : bool :=
  match ParseIso8601Time validation_time with
  | Some val_time => cert_check_validity_with_date certificate val_time
  | None => cert_check_validity certificate
  end.

Definition IsCertificateValidAt (certificate_der : bytes) (validation_time : string) : bool :=
  match certificate_der with
  | [] => false
  | _ =>
      match DecodeCertificateDer certificate_der with
      | None => false
      | Some certificate => IsValidAt certificate validation_time
      end
  end.

(** ** Diagnostics *)

(** Only the printable Latin code units of a BMPString. *)
Fixpoint bmp_printable (value : bytes) : list ascii :=
  match value with
  | hi :: lo :: rest => (if printable_lo hi lo then [to_char (u8 lo)] else []) ++ bmp_printable rest
  | _ => []
  end.

(** A view that [ParseTlvAt] returns lies inside the buffer ([ParseTlvAt_safe]), so the value is
    a slice of it and the [UB] branch is dead. *)
Definition ExtractAnyStringValue (value : bytes) : string :=
  if Nat.leb (length value) 2 then "" else
  match ParseTlvAt_all value 0 with
  | Fails | UB => Hex.HexEncode value
  | Ret tlv =>
      let v := take (Z.to_nat (value_length tlv)) (drop (Z.to_nat (value_offset tlv)) value) in
      let bmp := if (u8 (tag tlv) =? 0x1E) && (2 <=? value_length tlv)
                 then of_chars (bmp_printable v) else "" in
      if is_byte_string_tag (tag tlv) then of_chars (chars_of_bytes v)
      else if negb (str_empty bmp) then bmp
      else "#" +s+ Hex.HexEncode value
  end.

Definition format_part (atv : AttributeTypeAndValue) : string :=
  let oid := OidFromAsn1 (atv_type atv) in
  default oid (LookupOidShortName oid) +s+ "=" +s+ ExtractAnyStringValue (atv_value atv).

Definition FormatName (name : Name_t) : string :=
  match name with
  | None => ""
  | Some rdn_seq =>
      join_reversed
        (map (fun rdn => join_parts (map format_part rdn))
           (List.filter (fun rdn : list _ => match rdn with [] => false | _ => true end) rdn_seq))
  end.

Definition DescribeCertificate (certificate : Certificate_t) : CertificateDebugInfo :=
  let names := match cert_get_tbs_cert certificate with
               | Some (s, i) => (FormatName s, FormatName i)
               | None => ("", "")
               end in
  MkCertificateDebugInfo names.1 names.2
    (match cert_get_sn certificate with Some v => Hex.HexEncode v | None => "" end)
    (match cert_get_subj_key_id certificate with Some v => Hex.HexEncode v | None => "" end)
    (match cert_get_auth_key_id certificate with Some v => Hex.HexEncode v | None => "" end)
    true.

Definition OneLineCertificate (info : CertificateDebugInfo) : string :=
  "subject=" +s+ di_subject info +s+ "; issuer=" +s+ di_issuer info +s+ "; serial="
  +s+ di_serial info +s+ "; ski=" +s+ di_ski info +s+ "; aki=" +s+ di_aki info.

Definition MatchFailureReason (child issuer : CertificateDebugInfo) (signature_valid : bool) : string :=
  let reasons :=
    (if negb (str_empty (di_issuer child)) && negb (str_empty (di_subject issuer))
        && negb (di_issuer child ==s di_subject issuer) then ["subject/issuer mismatch"] else [])
    ++ (if negb (str_empty (di_aki child)) && negb (str_empty (di_ski issuer))
           && negb (di_aki child ==s di_ski issuer) then ["AKI/SKI mismatch"] else [])
    ++ (if negb signature_valid then ["signature verification failed"] else [])
    ++ (if str_empty (di_aki child)
        then ["serial mismatch not checked: AKI has no parsed authority serial"] else []) in
  String.concat "; " (match reasons with
                      | [] => ["DN and key identifiers did not explain failure"]
                      | _ => reasons
                      end).

Definition AppendCertBlock (title : string) (info : CertificateDebugInfo) : string :=
  title +s+ ":" +s+ LF +s+ "  subject=" +s+ di_subject info +s+ LF +s+ "  issuer=" +s+ di_issuer info
  +s+ LF +s+ "  serial=" +s+ di_serial info +s+ LF +s+ "  ski=" +s+ di_ski info +s+ LF
  +s+ "  aki=" +s+ di_aki info +s+ LF.

(** ** Candidates *)

Record SourceCertificate := MkSourceCertificate {
  sc_certificate : Certificate_t;
  sc_der : bytes;
  sc_source : string;
  sc_info : CertificateDebugInfo
}.

(** The certificates of one group, in order, with their index in the group. *)
Fixpoint decode_group (source : string) (i : nat) (certificates : list bytes)
    : list SourceCertificate * string :=
  match certificates with
  | [] => ([], "")
  | der :: rest =>
      let '(decoded, debug) := decode_group source (S i) rest in
      match DecodeCertificateDer der with
      | None => (decoded, "  [" +s+ to_string (Z.of_nat i) +s+ "] decode=false" +s+ LF +s+ debug)
      | Some certificate =>
          let info := DescribeCertificate certificate in
          (MkSourceCertificate certificate der source info :: decoded,
           "  [" +s+ to_string (Z.of_nat i) +s+ "] " +s+ OneLineCertificate info +s+ LF +s+ debug)
      end
  end.

Fixpoint DecodeSourceCandidates (groups : list (list bytes * string))
    : list SourceCertificate * string :=
  match groups with
  | [] => ([], "")
  | (certificates, source) :: rest =>
      let '(decoded, debug) := decode_group source 0 certificates in
      let '(others, debug') := DecodeSourceCandidates rest in
      (decoded ++ others,
       "Loaded " +s+ source +s+ " certificates=" +s+ to_string (Z.of_nat (length certificates))
       +s+ LF +s+ debug +s+ debug')
  end.

(** ** The search *)

Record ChainNode := MkChainNode {
  cn_certificate : Certificate_t;
  cn_der : bytes;
  cn_signer_issuer_der : option bytes;
  cn_info : CertificateDebugInfo;
  cn_source : string;
  cn_path : list string;
  cn_depth : nat
}.

Record Search := MkSearch {
  s_queue : list ChainNode;
  s_visited : gset bytes;
  s_debug : string;
  s_found_issuer_path : bool;
  s_found_expired_issuer_path : bool;
  s_last_path_node : ChainNode;
  s_expired_issuer_info : CertificateDebugInfo;
  s_expired_issuer_path : list string;
  s_missing_issuer_for : CertificateDebugInfo
}.

#[export] Instance eta_Search : Eta Search := fun r =>
  MkSearch (s_queue r) (s_visited r) (s_debug r) (s_found_issuer_path r)
  (s_found_expired_issuer_path r) (s_last_path_node r) (s_expired_issuer_info r)
  (s_expired_issuer_path r) (s_missing_issuer_for r).

Definition step_text (path : list string) (c : SourceCertificate) : string :=
  "Step " +s+ to_string (Z.of_nat (length path + 1)) +s+ ":" +s+ LF +s+ "  matched issuer="
  +s+ di_subject (sc_info c) +s+ LF +s+ "  source=" +s+ sc_source c +s+ LF.

Definition reject_text (title : string) (c : SourceCertificate) (reason : string) : string :=
  title +s+ ":" +s+ LF +s+ "  candidate=" +s+ di_subject (sc_info c) +s+ LF +s+ "  source="
  +s+ sc_source c +s+ LF +s+ "  reason=" +s+ reason +s+ LF.

Definition final_text (subject trusted reason : string) : string :=
  "Final:" +s+ LF +s+ "  chain terminated at=" +s+ subject +s+ LF +s+ "  trusted=" +s+ trusted
  +s+ LF +s+ "  reason=" +s+ reason +s+ LF.

(** The loop over the anchors: the first valid one that verifies the current certificate. *)
Fixpoint anchor_loop (time : string) (current : ChainNode) (anchors : list SourceCertificate)
    (debug : string) : option SourceCertificate * string :=
  match anchors with
  | [] => (None, debug)
  | anchor :: rest =>
      if negb (IsValidAt (sc_certificate anchor) time) then
        anchor_loop time current rest
          (debug +s+ reject_text "Anchor reject" anchor
             "root exists but is outside validity window; root exists but not marked trusted by current policy")
      else if VerifyByIssuer (cn_certificate current) (sc_certificate anchor) then (Some anchor, debug)
      else
        anchor_loop time current rest
          (debug +s+ reject_text "Trust anchor reject" anchor
             (MatchFailureReason (cn_info current) (sc_info anchor) false))
  end.

(** The body of the loop over the candidate issuers. *)
Definition issuer_step (time : string) (current : ChainNode) (st : Search)
    (issuer : SourceCertificate) : Search :=
  if bool_decide (sc_der issuer ∈ s_visited st) then st else
  if negb (VerifyByIssuer (cn_certificate current) (sc_certificate issuer)) then
    st <| s_debug ::= fun d => d +s+ reject_text "Issuer reject" issuer
            (MatchFailureReason (cn_info current) (sc_info issuer) false) |>
  else if negb (IsValidAt (sc_certificate issuer) time) then
    let rejected_path := cn_path current ++ [step_text (cn_path current) issuer] in
    let st := if negb (s_found_expired_issuer_path st)
              then st <| s_found_expired_issuer_path := true |>
                      <| s_expired_issuer_info := sc_info issuer |>
                      <| s_expired_issuer_path := rejected_path |>
              else st in
    st <| s_debug ::= fun d => d +s+ reject_text "Issuer reject" issuer
            "issuer certificate is outside validity window; continuing with alternative issuer candidates" |>
  else
    let ca_reject := IssuerCaRejectReason (sc_certificate issuer) (Z.of_nat (cn_depth current)) in
    if negb (str_empty ca_reject) then
      st <| s_debug ::= fun d => d +s+ reject_text "Issuer reject" issuer ca_reject |>
    else
      let next_path := cn_path current ++ [step_text (cn_path current) issuer] in
      let node := MkChainNode (sc_certificate issuer) (sc_der issuer)
                    (Some (default (sc_der issuer) (cn_signer_issuer_der current)))
                    (sc_info issuer) (sc_source issuer) next_path (S (cn_depth current)) in
      st <| s_found_issuer_path := true |>
         <| s_visited ::= fun v => {[ sc_der issuer ]} ∪ v |>
         <| s_queue ::= fun q => q ++ [node] |>.

(** The [while] loop: the trusted node and its anchor, or the state it is left with. *)
Fixpoint search (fuel : nat) (time : string) (anchors issuers : list SourceCertificate)
    (max_depth : nat) (st : Search) : (ChainNode * SourceCertificate * string) + Search :=
  match fuel, s_queue st with
  | O, _ | _, [] => inr st
  | S fuel, current :: rest =>
      let st := st <| s_queue := rest |> <| s_last_path_node := current |>
                   <| s_missing_issuer_for := cn_info current |> in
      if Nat.ltb max_depth (cn_depth current) then search fuel time anchors issuers max_depth st else
      let '(matched, debug) := anchor_loop time current anchors (s_debug st) in
      match matched with
      | Some anchor => inl (current, anchor, debug)
      | None =>
          let st := st <| s_debug := debug |> in
          if Nat.leb max_depth (cn_depth current) then search fuel time anchors issuers max_depth st else
          search fuel time anchors issuers max_depth (foldl (issuer_step time current) st issuers)
      end
  end.

Definition kMaxIssuerCandidates : nat := 256.

Definition initial_search (signer : Certificate_t) (signer_der : bytes) (signer_info : CertificateDebugInfo)
    (debug : string) : Search :=
  let node := MkChainNode signer signer_der None signer_info "signer" [] 0 in
  MkSearch [node] {[ signer_der ]} debug false false node CertificateDebugInfo_default [] signer_info.

(** The [trusted] return. *)
Definition trusted_result (result : CertificateChainResult) (current : ChainNode)
    (anchor : SourceCertificate) (debug : string) : CertificateChainResult :=
  let trusted_path := cn_path current ++ [step_text (cn_path current) anchor] in
  result <| cr_trusted := true |> <| cr_chain_valid := true |>
    <| cr_status := ChainStatus.Trusted |>
    <| cr_issuer_certificate_der := sc_der anchor |>
    <| cr_signer_issuer_certificate_der := default (sc_der anchor) (cn_signer_issuer_der current) |>
    <| cr_message := if Nat.eqb (cn_depth current) 0
         then "Signer certificate validates against trust anchor."
         else "Signer certificate validates through issuer certificates and trust anchor." |>
    <| cr_chain_debug := debug +s+ String.concat "" trusted_path +s+
         final_text (di_subject (sc_info anchor)) "true"
           "chain builder reached configured trust anchor" |>.

(** The returns after the loop. *)
Definition untrusted_result (result : CertificateChainResult) (st : Search) : CertificateChainResult :=
  if negb (s_found_issuer_path st) && s_found_expired_issuer_path st then
    result <| cr_status := ChainStatus.Expired |>
      <| cr_message := "Issuer certificate is outside its validity window." |>
      <| cr_chain_debug := s_debug st +s+ String.concat "" (s_expired_issuer_path st) +s+
           final_text (di_subject (s_expired_issuer_info st)) "false"
             "issuer certificate is outside its validity window" |>
  else
    result <| cr_status := if s_found_issuer_path st then ChainStatus.Incomplete else ChainStatus.Untrusted |>
      <| cr_message := if s_found_issuer_path st
           then "Certificate chain has issuer certificates but does not reach a configured trust anchor."
           else "Certificate chain is not trusted by configured trust anchors." |>
      <| cr_chain_debug := s_debug st +s+ String.concat "" (cn_path (s_last_path_node st)) +s+
           final_text (di_subject (cn_info (s_last_path_node st))) "false"
             (if s_found_issuer_path st
              then "chain builder stops before configured trust anchor; missing trust anchor or anchor mismatch"
              else "no issuer certificate matched signer; missing issuer")
           +s+ "  issuer searched=" +s+ di_issuer (s_missing_issuer_for st) +s+ LF
           +s+ (if s_found_issuer_path st then "  missing trust anchor=true" +s+ LF else "") |>.

(** The candidate pool and the text that reports its truncation. *)
Definition issuer_pool (input : CertificateChainInput) : list SourceCertificate * string :=
  let '(issuer_candidates, debug) :=
    DecodeSourceCandidates [(ci_embedded_certificates_der input, "embedded");
                            (ci_intermediate_certificates_der input, "intermediate-store");
                            (ci_aia_certificates_der input, "AIA")] in
  if Nat.ltb kMaxIssuerCandidates (length issuer_candidates) then
    (take kMaxIssuerCandidates issuer_candidates,
     debug +s+ "Candidate pool truncated:" +s+ LF
     +s+ "  reason=issuer candidate pool exceeds the verification budget" +s+ LF
     +s+ "  candidates=" +s+ to_string (Z.of_nat (length issuer_candidates))
     +s+ " limit=" +s+ to_string (Z.of_nat kMaxIssuerCandidates) +s+ LF)
  else (issuer_candidates, debug).

Definition anchor_pool (input : CertificateChainInput) : list SourceCertificate * string :=
  DecodeSourceCandidates
    [(ci_trust_anchors_der input,
      if str_empty (ci_trust_anchor_source input) then "trust-store" else ci_trust_anchor_source input)].

Definition Validate (input : CertificateChainInput) : CertificateChainResult :=
  let result := CertificateChainResult_default <| cr_checked := true |> in
  match ci_signer_certificate_der input with
  | [] => result <| cr_status := ChainStatus.SignerMissing |>
            <| cr_message := "Signer certificate is missing." |>
            <| cr_chain_debug := "Signer certificate is missing." +s+ LF |>
  | _ =>
  match DecodeCertificateDer (ci_signer_certificate_der input) with
  | None => result <| cr_status := ChainStatus.InvalidSignature |>
              <| cr_message := "Signer certificate DER cannot be decoded." |>
              <| cr_chain_debug := "Signer certificate DER cannot be decoded." +s+ LF |>
  | Some signer =>
  let signer_info := DescribeCertificate signer in
  let debug := AppendCertBlock "Signer" signer_info in
  if negb (IsValidAt signer (ci_validation_time input)) then
    result <| cr_status := ChainStatus.Expired |>
      <| cr_message := "Signer certificate is outside its validity window." |>
      <| cr_chain_debug := debug +s+ final_text (di_subject signer_info) "false"
           "signer certificate is outside its validity window" |>
  else
  let result := result <| cr_signer_certificate_time_valid := true |> in
  match ci_trust_anchors_der input with
  | [] => result <| cr_status := ChainStatus.Untrusted |>
            <| cr_message := "Trust store is empty." |>
            <| cr_chain_debug := debug +s+ "Loaded trust-store certificates=0" +s+ LF +s+
                 final_text (di_subject signer_info) "false"
                   "trust-store loaded incorrectly or empty; missing trust anchor" |>
  | _ =>
  let '(anchors, anchor_debug) := anchor_pool input in
  match anchors with
  | [] => result <| cr_status := ChainStatus.Untrusted |>
            <| cr_message := "Trust store does not contain decodable trust anchors." |>
            <| cr_chain_debug := debug +s+ anchor_debug +s+ final_text (di_subject signer_info) "false"
                 "trust-store loaded incorrectly: no decodable trust anchors" |>
  | _ =>
  let '(issuer_candidates, issuer_debug) := issuer_pool input in
  let max_depth := (length issuer_candidates + length anchors + 1)%nat in
  match search (length issuer_candidates + 2) (ci_validation_time input) anchors issuer_candidates
          max_depth
          (initial_search signer (ci_signer_certificate_der input) signer_info
             (debug +s+ anchor_debug +s+ issuer_debug)) with
  | inl (current, anchor, debug) => trusted_result result current anchor debug
  | inr st => untrusted_result result st
  end
  end
  end
  end
  end.

(** ** What a chain is

    The abstract specification: a certificate reached from the signer through candidates, each of
    which verifies the one below, is valid at the time and is an acceptable CA above [depth]
    intermediates. *)

Definition issues (time : string) (issuer child : Certificate_t) (depth : nat) : Prop :=
  VerifyByIssuer child issuer = true /\ IsValidAt issuer time = true /\
  IssuerCaRejectReason issuer (Z.of_nat depth) = "".

Inductive chain (time : string) (candidates : list SourceCertificate) (signer : Certificate_t)
    : Certificate_t -> nat -> Prop :=
| chain_signer : chain time candidates signer signer 0
| chain_issuer (c : Certificate_t) (depth : nat) (i : SourceCertificate) :
    chain time candidates signer c depth -> i ∈ candidates ->
    issues time (sc_certificate i) c depth ->
    chain time candidates signer (sc_certificate i) (S depth).

(** [anchor] is valid and verifies a certificate that a chain reaches. *)
Definition anchored (time : string) (anchors candidates : list SourceCertificate)
    (signer : Certificate_t) : Prop :=
  exists c depth anchor, chain time candidates signer c depth /\ anchor ∈ anchors /\
    IsValidAt (sc_certificate anchor) time = true /\
    VerifyByIssuer c (sc_certificate anchor) = true.

(** ** Candidates come from the input *)

Lemma decode_group_spec (source : string) (i : nat) (ders : list bytes) (c : SourceCertificate) :
  c ∈ (decode_group source i ders).1 ->
  sc_der c ∈ ders /\ DecodeCertificateDer (sc_der c) = Some (sc_certificate c).
Proof.
  revert i. induction ders as [|der ders IH]; intros i; cbn; [by rewrite elem_of_nil|].
  specialize (IH (S i)). destruct (decode_group source (S i) ders) as [decoded debug].
  destruct (DecodeCertificateDer der) as [cert|] eqn:E; cbn in *.
  - rewrite elem_of_cons. intros [->|Hc]; [by rewrite elem_of_cons; auto|].
    rewrite elem_of_cons. naive_solver.
  - rewrite elem_of_cons. naive_solver.
Qed.

Lemma decode_group_complete (source : string) (i : nat) (ders : list bytes) (der : bytes)
    (cert : Certificate_t) :
  der ∈ ders -> DecodeCertificateDer der = Some cert ->
  exists c, c ∈ (decode_group source i ders).1 /\ sc_der c = der /\ sc_certificate c = cert.
Proof.
  intros Hin Hd. revert i. induction ders as [|d ders IH]; intros i; [by apply elem_of_nil in Hin|].
  cbn. apply elem_of_cons in Hin as [<-|Hin].
  - destruct (decode_group source (S i) ders) as [decoded debug]. rewrite Hd. cbn.
    eexists. split; [by left|done].
  - destruct (IH Hin (S i)) as (c & Hc & ?).
    destruct (decode_group source (S i) ders) as [decoded debug]. cbn in *. exists c.
    destruct (DecodeCertificateDer d); cbn; rewrite ?elem_of_cons; auto.
Qed.

Lemma DecodeSourceCandidates_spec (groups : list (list bytes * string)) (c : SourceCertificate) :
  c ∈ (DecodeSourceCandidates groups).1 ->
  sc_der c ∈ concat (map fst groups) /\ DecodeCertificateDer (sc_der c) = Some (sc_certificate c).
Proof.
  induction groups as [|[ders source] groups IH]; cbn; [by rewrite elem_of_nil|].
  pose proof (decode_group_spec source 0 ders c) as Hg.
  destruct (decode_group source 0 ders) as [decoded debug].
  destruct (DecodeSourceCandidates groups) as [others debug']. cbn in *.
  rewrite !elem_of_app. naive_solver.
Qed.

Definition decoded_candidate (c : SourceCertificate) : Prop :=
  DecodeCertificateDer (sc_der c) = Some (sc_certificate c).

Lemma issuer_pool_decoded (input : CertificateChainInput) (c : SourceCertificate) :
  c ∈ (issuer_pool input).1 -> decoded_candidate c.
Proof.
  unfold issuer_pool. destruct (DecodeSourceCandidates _) as [cs debug] eqn:E.
  assert (forall c, c ∈ cs -> decoded_candidate c) as Hcs.
  { intros c' Hc'. pose proof (DecodeSourceCandidates_spec
      [(ci_embedded_certificates_der input, "embedded");
       (ci_intermediate_certificates_der input, "intermediate-store");
       (ci_aia_certificates_der input, "AIA")] c') as L.
    rewrite E in L. by apply L. }
  destruct (Nat.ltb _ _); cbn; [|auto].
  intros Hc. apply Hcs. by apply (elem_of_submseteq (take kMaxIssuerCandidates cs));
    [|apply sublist_submseteq, sublist_take].
Qed.

(** ** The anchor loop *)

Definition anchor_matches (time : string) (c : Certificate_t) (anchor : SourceCertificate) : Prop :=
  IsValidAt (sc_certificate anchor) time = true /\ VerifyByIssuer c (sc_certificate anchor) = true.

Lemma anchor_loop_spec (time : string) (n : ChainNode) (anchors : list SourceCertificate) (d : string) :
  match (anchor_loop time n anchors d).1 with
  | Some a => a ∈ anchors /\ anchor_matches time (cn_certificate n) a
  | None => forall a, a ∈ anchors -> ~ anchor_matches time (cn_certificate n) a
  end.
Proof.
  unfold anchor_matches. revert d. induction anchors as [|a anchors IH]; intros d; cbn.
  { by intros a Ha%elem_of_nil. }
  destruct (IsValidAt (sc_certificate a) time) eqn:Ev; cbn.
  - destruct (VerifyByIssuer _ (sc_certificate a)) eqn:E; cbn; [by split; [left|]|].
    specialize (IH (d +s+ reject_text "Trust anchor reject" a
      (MatchFailureReason (cn_info n) (sc_info a) false))).
    destruct (anchor_loop _ _ _ _).1; [by destruct IH; split; [right|]|].
    intros a' [->|Ha']%elem_of_cons; [by rewrite E; intros []|by apply IH].
  - specialize (IH (d +s+ reject_text "Anchor reject" a
      "root exists but is outside validity window; root exists but not marked trusted by current policy")).
    destruct (anchor_loop _ _ _ _).1; [by destruct IH; split; [right|]|].
    intros a' [->|Ha']%elem_of_cons; [by rewrite Ev; intros []|by apply IH].
Qed.

(** ** The invariant of the search

    [done] is the list of the nodes taken from the queue so far.  Queued nodes have depth [d]
    (the front part) or [S d]; nodes are distinct by DER; every node is the end of a chain. *)

Section Invariant.
Context (time : string) (candidates : list SourceCertificate).
Context (signer : Certificate_t) (signer_der : bytes).

Definition node_ok (n : ChainNode) : Prop :=
  chain time candidates signer (cn_certificate n) (cn_depth n) /\
  DecodeCertificateDer (cn_der n) = Some (cn_certificate n) /\
  (cn_der n = signer_der \/ cn_der n ∈ map sc_der candidates) /\
  match cn_signer_issuer_der n with
  | None => cn_depth n = 0%nat /\ cn_certificate n = signer
  | Some der => exists i, i ∈ candidates /\ sc_der i = der /\ issues time (sc_certificate i) signer 0
  end.

Definition layered (done q : list ChainNode) (d : nat) : Prop :=
  (forall n, n ∈ done -> (cn_depth n <= d)%nat) /\
  exists q1 q2, q = q1 ++ q2 /\ (forall n, n ∈ q1 -> cn_depth n = d) /\
    (forall n, n ∈ q2 -> cn_depth n = S d).

Record WF (done q : list ChainNode) (visited : gset bytes) (d : nat) : Prop := {
  wf_ok : forall n, n ∈ done ++ q -> node_ok n;
  wf_visited : visited = list_to_set (map cn_der (done ++ q));
  wf_nodup : NoDup (map cn_der (done ++ q));
  wf_depth : forall n, n ∈ done ++ q -> (cn_depth n < length (done ++ q))%nat;
  wf_layered : layered done q d
}.

(** The candidate [i] is a node already, no deeper than above [n]. *)
Definition covered (nodes : list ChainNode) (n : ChainNode) (i : SourceCertificate) : Prop :=
  issues time (sc_certificate i) (cn_certificate n) (cn_depth n) ->
  exists m, m ∈ nodes /\ cn_der m = sc_der i /\ (cn_depth m <= S (cn_depth n))%nat.

Lemma WF_visited_elem (done q : list ChainNode) (visited : gset bytes) (d : nat) (der : bytes) :
  WF done q visited d -> der ∈ visited <-> exists n, n ∈ done ++ q /\ cn_der n = der.
Proof.
  intros W. rewrite (wf_visited _ _ _ _ W), elem_of_list_to_set, list_elem_of_fmap. naive_solver.
Qed.

Lemma WF_depth_bound (done q : list ChainNode) (visited : gset bytes) (d : nat) (n : ChainNode) :
  WF done q visited d -> n ∈ done ++ q -> (cn_depth n <= S d)%nat.
Proof.
  intros W Hn. destruct (wf_layered _ _ _ _ W) as (Hd & q1 & q2 & -> & H1 & H2).
  rewrite !elem_of_app in Hn. destruct Hn as [Hn|[Hn|Hn]].
  - apply Hd in Hn. lia.
  - apply H1 in Hn. lia.
  - apply H2 in Hn. lia.
Qed.

Lemma WF_length (done q : list ChainNode) (visited : gset bytes) (d : nat) :
  WF done q visited d -> (length (done ++ q) <= S (length candidates))%nat.
Proof.
  intros W.
  assert (map cn_der (done ++ q) ⊆+ signer_der :: map sc_der candidates) as Hs.
  { apply NoDup_submseteq; [apply (wf_nodup _ _ _ _ W)|]. intros der Hder.
    apply list_elem_of_fmap in Hder as (n & -> & Hn).
    destruct (wf_ok _ _ _ _ W n Hn) as (_ & _ & [->|Hc] & _); [left|by right]. }
  apply submseteq_length in Hs. cbn in Hs. by rewrite !length_map in Hs.
Qed.

(** Taking the head of the queue. *)
Lemma WF_pop (done q : list ChainNode) (n : ChainNode) (visited : gset bytes) (d : nat) :
  WF done (n :: q) visited d -> WF (done ++ [n]) q visited (cn_depth n).
Proof.
  intros W. assert (done ++ n :: q = (done ++ [n]) ++ q) as E by by rewrite <- app_assoc.
  destruct W as [Hok Hv Hnd Hdep Hl]. rewrite E in *. split; try done.
  destruct Hl as (Hd & q1 & q2 & Eq & H1 & H2). destruct q1 as [|n' q1]; cbn in Eq.
  - assert (cn_depth n = S d) as Hn by (apply H2; rewrite <- Eq; left).
    split; [intros m; rewrite elem_of_app, list_elem_of_singleton; intros [Hm| ->];
            [apply Hd in Hm; lia|lia]|].
    exists q, []. rewrite app_nil_r. split; [done|]. split; [|by intros ? ?%elem_of_nil].
    intros m Hm. rewrite Hn. apply H2. rewrite <- Eq. by right.
  - injection Eq as <- ->. assert (cn_depth n = d) as -> by (apply H1; left).
    split; [intros m; rewrite elem_of_app, list_elem_of_singleton; intros [Hm| ->];
            [by apply Hd|by rewrite H1 by left]|].
    exists q1, q2. split; [done|]. split; [|done]. intros m Hm. apply H1. by right.
Qed.

(** Queueing an issuer of the node taken last. *)
Lemma WF_push (done q : list ChainNode) (visited : gset bytes) (n m : ChainNode) :
  WF done q visited (cn_depth n) -> n ∈ done -> node_ok m -> cn_der m ∉ visited ->
  cn_depth m = S (cn_depth n) ->
  WF done (q ++ [m]) ({[ cn_der m ]} ∪ visited) (cn_depth n).
Proof.
  intros W Hin Hm Hv Hd. destruct W as [Hok Hvis Hnd Hdep Hl].
  assert (done ++ q ++ [m] = (done ++ q) ++ [m]) as E by by rewrite app_assoc.
  split; rewrite ?E.
  - intros k. rewrite (elem_of_app (done ++ q)), list_elem_of_singleton. intros [Hk| ->]; auto.
  - rewrite map_app, list_to_set_app_L, <- Hvis. cbn. set_solver.
  - rewrite map_app. apply NoDup_app. split; [done|]. split; [|cbn; apply NoDup_singleton].
    intros der Hder. cbn. rewrite list_elem_of_singleton. intros ->. apply Hv.
    by rewrite Hvis, elem_of_list_to_set.
  - intros k. rewrite (elem_of_app (done ++ q)), list_elem_of_singleton, (length_app (done ++ q)).
    cbn. intros [Hk| ->]; [apply Hdep in Hk; lia|].
    rewrite Hd. assert (n ∈ done ++ q) as Hn by (rewrite elem_of_app; by left).
    apply Hdep in Hn. lia.
  - destruct Hl as (Hd' & q1 & q2 & -> & H1 & H2). split; [done|].
    exists q1, (q2 ++ [m]). rewrite app_assoc. split; [done|]. split; [done|].
    intros k. rewrite elem_of_app, list_elem_of_singleton. intros [Hk| ->]; auto.
Qed.

Context (candidates_decoded : forall i, i ∈ candidates -> decoded_candidate i).

(** One candidate: the invariant is kept, the queue only grows, the candidate is covered. *)
Lemma issuer_step_spec (done : list ChainNode) (st : Search) (n : ChainNode) (i : SourceCertificate) :
  WF done (s_queue st) (s_visited st) (cn_depth n) -> n ∈ done -> i ∈ candidates ->
  let st' := issuer_step time n st i in
  WF done (s_queue st') (s_visited st') (cn_depth n) /\
  (exists new, s_queue st' = s_queue st ++ new) /\ covered (done ++ s_queue st') n i.
Proof.
  intros W Hn Hi. unfold issuer_step, covered.
  assert (exists new, s_queue st = s_queue st ++ new) as Hnil by (exists []; by rewrite app_nil_r).
  case_bool_decide as Hv.
  { split; [done|]. split; [done|]. intros _.
    apply (WF_visited_elem _ _ _ _ _ W) in Hv as (m & Hm & Hder). exists m.
    split; [done|]. split; [done|]. by apply (WF_depth_bound _ _ _ _ _ W). }
  unfold issues.
  destruct (VerifyByIssuer _ _) eqn:Ever; cbn [negb]; [|by split; [|split; [|intros []]]].
  destruct (IsValidAt _ _) eqn:Eval; cbn [negb].
  2: { destruct (s_found_expired_issuer_path st); by split; [|split; [|intros (_ & ? & _)]]. }
  destruct (str_empty _) eqn:Eca; cbn [negb].
  2: { split; [done|]. split; [done|]. intros (_ & _ & Hca). by rewrite Hca in Eca. }
  apply str_empty_spec in Eca. cbn.
  set (m := MkChainNode _ _ _ _ _ _ _). split; [|split; [by exists [m]|]].
  - destruct (wf_ok _ _ _ _ W n) as (Hc & _ & _ & Hs); [rewrite elem_of_app; by left|].
    apply (WF_push done (s_queue st) (s_visited st) n m); try done.
    split; [by apply (chain_issuer _ _ _ (cn_certificate n) _ i)|].
    split; [by apply candidates_decoded|].
    split; [right; by apply list_elem_of_fmap; exists i|]. cbn.
    destruct (cn_signer_issuer_der n) as [der|]; cbn; [done|].
    destruct Hs as [Hd Hsig]. exists i. split; [done|]. split; [done|].
    unfold issues. by rewrite <- Hd, <- Hsig.
  - intros _. exists m. rewrite !elem_of_app, list_elem_of_singleton. split; [auto|done].
Qed.

Lemma covered_app (nodes more : list ChainNode) (n : ChainNode) (i : SourceCertificate) :
  covered nodes n i -> covered (nodes ++ more) n i.
Proof.
  intros C Hi. destruct (C Hi) as (m & Hm & ?). exists m. rewrite elem_of_app. auto.
Qed.

Lemma issuers_spec (done : list ChainNode) (n : ChainNode) (l : list SourceCertificate) (st : Search) :
  WF done (s_queue st) (s_visited st) (cn_depth n) -> n ∈ done -> l ⊆ candidates ->
  let st' := foldl (issuer_step time n) st l in
  WF done (s_queue st') (s_visited st') (cn_depth n) /\
  (exists new, s_queue st' = s_queue st ++ new) /\
  (forall i, i ∈ l -> covered (done ++ s_queue st') n i).
Proof.
  revert st. induction l as [|i l IH]; intros st W Hn Hl; cbn.
  { split; [done|]. split; [exists []; by rewrite app_nil_r|]. by intros i Hi%elem_of_nil. }
  destruct (issuer_step_spec done st n i W Hn) as (W1 & (new1 & E1) & C1); [apply Hl; left|].
  destruct (IH (issuer_step time n st i) W1 Hn) as (W2 & (new2 & E2) & C2); [intros x Hx; apply Hl; by right|].
  split; [done|]. split; [exists (new1 ++ new2); by rewrite E2, E1, app_assoc|].
  intros j [->|Hj]%elem_of_cons; [|by apply C2].
  rewrite E2, app_assoc. by apply covered_app.
Qed.

(** What is known of the nodes already taken from the queue. *)
Definition processed (anchors : list SourceCertificate) (done q : list ChainNode) : Prop :=
  (forall n a, n ∈ done -> a ∈ anchors -> ~ anchor_matches time (cn_certificate n) a) /\
  (forall n i, n ∈ done -> i ∈ candidates -> covered (done ++ q) n i) /\
  (exists n, n ∈ done ++ q /\ cn_certificate n = signer /\ cn_depth n = 0%nat).

Lemma processed_grow (anchors : list SourceCertificate) (done q new : list ChainNode) (n : ChainNode) :
  processed anchors done (n :: q) ->
  (forall a, a ∈ anchors -> ~ anchor_matches time (cn_certificate n) a) ->
  (forall i, i ∈ candidates -> covered ((done ++ [n]) ++ q ++ new) n i) ->
  processed anchors (done ++ [n]) (q ++ new).
Proof.
  intros (Ha & Hc & (s & Hs & ?)) Ha' Hc'.
  assert (forall q', (done ++ [n]) ++ q' = done ++ n :: q') as E by (intros; by rewrite <- app_assoc).
  split; [|split].
  - intros m a. rewrite elem_of_app, list_elem_of_singleton. intros [Hm| ->]; auto.
  - intros m i. rewrite elem_of_app, list_elem_of_singleton. intros [Hm| ->] Hi; [|auto].
    rewrite E, app_comm_cons, app_assoc. apply covered_app. auto.
  - exists s. rewrite E, app_comm_cons, app_assoc, elem_of_app. auto.
Qed.

(** With the fuel of [Validate] the search ends: it finds an anchor, or it empties the queue with
    every node processed. *)
Lemma search_exhausts (anchors : list SourceCertificate) (max_depth : nat) (fuel : nat)
    (done : list ChainNode) (d : nat) (st : Search) :
  (length candidates < max_depth)%nat ->
  WF done (s_queue st) (s_visited st) d -> processed anchors done (s_queue st) ->
  (S (length candidates) < fuel + length done)%nat ->
  match search fuel time anchors candidates max_depth st with
  | inl (n, a, _) => node_ok n /\ a ∈ anchors /\ anchor_matches time (cn_certificate n) a
  | inr st' => s_queue st' = [] /\
      exists done' d', WF done' [] (s_visited st') d' /\ processed anchors done' []
  end.
Proof.
  intros Hmax. revert done d st. induction fuel as [|fuel IH]; intros done d st W P Hf.
  { pose proof (WF_length _ _ _ _ W) as L. rewrite length_app in L. lia. }
  cbn [search]. destruct (s_queue st) as [|n q] eqn:Eq.
  { split; [done|]. by exists done, d. }
  pose proof (WF_length _ _ _ _ W) as L.
  assert (n ∈ done ++ n :: q) as Hin by (rewrite elem_of_app; right; left).
  pose proof (wf_depth _ _ _ _ W n Hin) as Ld.
  rewrite (proj2 (Nat.ltb_ge max_depth (cn_depth n))) by lia. cbn -[search foldl].
  pose proof (anchor_loop_spec time n anchors (s_debug st)) as A.
  destruct (anchor_loop time n anchors (s_debug st)) as [[a|] debug]; cbn -[search foldl] in *.
  { split; [|done]. by apply (wf_ok _ _ _ _ W). }
  rewrite (proj2 (Nat.leb_gt max_depth (cn_depth n))) by lia.
  set (st1 := setter _ _).
  destruct (issuers_spec (done ++ [n]) n candidates st1) as (W' & (new & E) & C).
  - subst st1. cbn. by apply (WF_pop done q n (s_visited st) d).
  - rewrite elem_of_app, list_elem_of_singleton. by right.
  - done.
  - eapply (IH (done ++ [n])); [exact W'| |rewrite length_app; cbn; lia].
    assert (s_queue (foldl (issuer_step time n) st1 candidates) = q ++ new) as Eq' by apply E.
    rewrite Eq' in *. by apply processed_grow.
Qed.

(** A longer chain below only makes a CA less acceptable. *)
Lemma issues_shallower (i c : Certificate_t) (d d' : nat) :
  (d' <= d)%nat -> issues time i c d -> issues time i c d'.
Proof.
  intros Hd (Hv & Ht & Hca). split; [done|]. split; [done|]. revert Hca.
  unfold IssuerCaRejectReason. destruct (negb (ib_is_ca _)); [done|].
  destruct (negb (IssuerHasKeyCertSign _)); [done|].
  destruct (ib_has_path_len _); cbn; [|done].
  destruct (Z.ltb_spec (ib_path_len (ReadIssuerBasicConstraints i)) (Z.of_nat d)); [done|].
  by rewrite (proj2 (Z.ltb_ge _ _)) by lia.
Qed.

(** Every chain is among the processed nodes. *)
Lemma processed_complete (anchors : list SourceCertificate) (done : list ChainNode)
    (visited : gset bytes) (d : nat) (c : Certificate_t) (depth : nat) :
  WF done [] visited d -> processed anchors done [] -> chain time candidates signer c depth ->
  exists n, n ∈ done /\ cn_certificate n = c /\ (cn_depth n <= depth)%nat.
Proof.
  intros W (Ha & Hc & (s & Hs & Es & Ds)) H'. rewrite app_nil_r in Hs.
  induction H' as [|c depth i Hch (n & Hn & <- & Hd) Hi Hiss]; [exists s; split_and!; [done..|lia]|].
  destruct (Hc n i Hn Hi) as (m & Hm & Hder & Hdep); [by apply (issues_shallower _ _ depth)|].
  exists m. rewrite app_nil_r in Hm. split; [done|]. split; [|lia].
  destruct (wf_ok _ _ _ _ W m) as (_ & Hdec & _); [by rewrite app_nil_r|].
  pose proof (candidates_decoded i Hi) as Hdi. unfold decoded_candidate in Hdi. congruence.
Qed.

Lemma processed_not_anchored (anchors : list SourceCertificate) (done : list ChainNode)
    (visited : gset bytes) (d : nat) :
  WF done [] visited d -> processed anchors done [] -> ~ anchored time anchors candidates signer.
Proof.
  intros W P (c & depth & a & Hc & Ha & Hv & Hver).
  destruct (processed_complete _ _ _ _ _ _ W P Hc) as (n & Hn & <- & _).
  destruct P as [P _]. by apply (P n a Hn Ha).
Qed.

Lemma WF_initial (info : CertificateDebugInfo) (debug : string) :
  DecodeCertificateDer signer_der = Some signer ->
  let st := initial_search signer signer_der info debug in
  WF [] (s_queue st) (s_visited st) 0.
Proof.
  intros Hdec. cbn. split; cbn.
  - intros n ->%list_elem_of_singleton. split; [constructor|]. cbn. auto.
  - set_solver.
  - apply NoDup_singleton.
  - intros n ->%list_elem_of_singleton. cbn. lia.
  - split; [by intros n Hn%elem_of_nil|]. eexists [_], []. split; [done|].
    split; [by intros n ->%list_elem_of_singleton|by intros n Hn%elem_of_nil].
Qed.

Lemma search_initial (anchors : list SourceCertificate) (max_depth : nat)
    (info : CertificateDebugInfo) (debug : string) :
  (length candidates < max_depth)%nat -> DecodeCertificateDer signer_der = Some signer ->
  match search (length candidates + 2) time anchors candidates max_depth
          (initial_search signer signer_der info debug) with
  | inl (n, a, _) => node_ok n /\ a ∈ anchors /\ anchor_matches time (cn_certificate n) a
  | inr st' => s_queue st' = [] /\ ~ anchored time anchors candidates signer
  end.
Proof.
  intros Hmax Hdec.
  pose proof (search_exhausts anchors max_depth (length candidates + 2) [] 0
    (initial_search signer signer_der info debug) Hmax (WF_initial info debug Hdec)) as S.
  destruct (search _ _ _ _ _ _) as [[[n a] debug']|st'].
  - apply S; [|cbn; lia]. split; [by intros ? ? ?%elem_of_nil|].
    split; [by intros ? ? ?%elem_of_nil|]. eexists. split; [by left|done].
  - destruct S as (Eq & done' & d' & W & P); [|cbn; lia|].
    { split; [by intros ? ? ?%elem_of_nil|].
      split; [by intros ? ? ?%elem_of_nil|]. eexists. split; [by left|done]. }
    split; [done|]. by apply (processed_not_anchored anchors done' (s_visited st') d').
Qed.

End Invariant.

(** ** The contract of [Validate] *)

Definition chain_to_anchor (input : CertificateChainInput) : Prop :=
  exists signer, DecodeCertificateDer (ci_signer_certificate_der input) = Some signer /\
    IsValidAt signer (ci_validation_time input) = true /\
    anchored (ci_validation_time input) (anchor_pool input).1 (issuer_pool input).1 signer.

Lemma anchor_pool_spec (input : CertificateChainInput) (c : SourceCertificate) :
  c ∈ (anchor_pool input).1 -> sc_der c ∈ ci_trust_anchors_der input /\ decoded_candidate c.
Proof.
  unfold anchor_pool. intros Hc. apply DecodeSourceCandidates_spec in Hc as [Hin Hd].
  cbn in Hin. rewrite app_nil_r in Hin. done.
Qed.

Lemma anchor_pool_complete (input : CertificateChainInput) (der : bytes) (cert : Certificate_t) :
  der ∈ ci_trust_anchors_der input -> DecodeCertificateDer der = Some cert ->
  exists c, c ∈ (anchor_pool input).1 /\ sc_der c = der /\ sc_certificate c = cert.
Proof.
  intros Hin Hd. unfold anchor_pool. cbn.
  destruct (decode_group_complete (if str_empty (ci_trust_anchor_source input)
    then "trust-store" else ci_trust_anchor_source input) 0 _ der cert Hin Hd) as (c & Hc & ?).
  exists c. destruct (decode_group _ 0 _) as [decoded debug]. cbn in *. by rewrite app_nil_r.
Qed.

Lemma issuer_pool_spec (input : CertificateChainInput) (c : SourceCertificate) :
  c ∈ (issuer_pool input).1 ->
  (sc_der c ∈ ci_embedded_certificates_der input \/ sc_der c ∈ ci_intermediate_certificates_der input
   \/ sc_der c ∈ ci_aia_certificates_der input) /\ decoded_candidate c.
Proof.
  intros Hc. split; [|by apply (issuer_pool_decoded input)]. revert Hc.
  unfold issuer_pool. destruct (DecodeSourceCandidates _) as [cs debug] eqn:E.
  assert (forall c, c ∈ cs -> sc_der c ∈ concat [ci_embedded_certificates_der input;
    ci_intermediate_certificates_der input; ci_aia_certificates_der input]) as Hcs.
  { intros c' Hc'. pose proof (DecodeSourceCandidates_spec
      [(ci_embedded_certificates_der input, "embedded");
       (ci_intermediate_certificates_der input, "intermediate-store");
       (ci_aia_certificates_der input, "AIA")] c') as L.
    rewrite E in L. by apply L. }
  cbn in Hcs. assert (forall c, c ∈ cs -> sc_der c ∈ ci_embedded_certificates_der input \/
    sc_der c ∈ ci_intermediate_certificates_der input \/ sc_der c ∈ ci_aia_certificates_der input) as Hcs'.
  { intros c' Hc'%Hcs. rewrite !elem_of_app, elem_of_nil in Hc'. tauto. }
  destruct (Nat.ltb _ _); cbn; [|by apply Hcs'].
  intros Hc. apply Hcs'. by apply (elem_of_submseteq (take kMaxIssuerCandidates cs));
    [|apply sublist_submseteq, sublist_take].
Qed.

(** The whole of [Validate]: one of the early returns, or the outcome of the search. *)
Inductive Validate_view (input : CertificateChainInput) : CertificateChainResult -> Prop :=
| view_refused (r : CertificateChainResult) :
    cr_trusted r = false -> cr_chain_valid r = false -> cr_status r <> ChainStatus.Trusted ->
    ~ chain_to_anchor input -> Validate_view input r
| view_trusted (r0 : CertificateChainResult) (signer : Certificate_t) (n : ChainNode)
    (a : SourceCertificate) (debug : string) :
    DecodeCertificateDer (ci_signer_certificate_der input) = Some signer ->
    IsValidAt signer (ci_validation_time input) = true ->
    node_ok (ci_validation_time input) (issuer_pool input).1 signer (ci_signer_certificate_der input) n ->
    a ∈ (anchor_pool input).1 ->
    anchor_matches (ci_validation_time input) (cn_certificate n) a ->
    Validate_view input (trusted_result r0 n a debug).

Lemma anchored_nil (time : string) (cs : list SourceCertificate) (signer : Certificate_t) :
  ~ anchored time [] cs signer.
Proof. by intros (? & ? & ? & _ & ?%elem_of_nil & _). Qed.

Lemma untrusted_result_status (r : CertificateChainResult) (st : Search) :
  cr_trusted r = false -> cr_chain_valid r = false ->
  cr_trusted (untrusted_result r st) = false /\ cr_chain_valid (untrusted_result r st) = false /\
  cr_status (untrusted_result r st) <> ChainStatus.Trusted.
Proof.
  intros. unfold untrusted_result.
  destruct (negb _ && _); cbn; [done|]. by destruct (s_found_issuer_path st).
Qed.

Lemma Validate_cases (input : CertificateChainInput) : Validate_view input (Validate input).
Proof.
  unfold Validate.
  destruct (ci_signer_certificate_der input) as [|b der] eqn:Eder.
  { apply view_refused; try done. intros (s & Hs & _). by rewrite Eder in Hs. }
  rewrite <- Eder. destruct (DecodeCertificateDer _) as [signer|] eqn:Edec.
  2: { apply view_refused; try done. intros (s & Hs & _). congruence. }
  destruct (IsValidAt signer _) eqn:Ev; cbn [negb].
  2: { apply view_refused; try done. intros (s & Hs & Hv & _). congruence. }
  assert (forall r, cr_trusted r = false -> cr_chain_valid r = false -> cr_status r <> ChainStatus.Trusted ->
    (anchor_pool input).1 = [] -> Validate_view input r) as Hempty.
  { intros r Hr1 Hr2 Hr3 E. apply view_refused; try done. intros (s & Hs & _ & Ha).
    rewrite E in Ha. by apply anchored_nil in Ha. }
  destruct (ci_trust_anchors_der input) as [|a0 anchors0] eqn:Eanch.
  { apply Hempty; try done. destruct (anchor_pool input).1 as [|c cs] eqn:E; [done|].
    destruct (anchor_pool_spec input c) as [Hc _]; [rewrite E; by left|].
    rewrite Eanch in Hc. by apply elem_of_nil in Hc. }
  destruct (anchor_pool input) as [anchors adebug] eqn:Ea.
  destruct anchors as [|a1 anchors]; [by apply Hempty|].
  destruct (issuer_pool input) as [cands idebug] eqn:Ei.
  pose proof (issuer_pool_decoded input) as Hdec. rewrite Ei in Hdec. cbn [fst] in Hdec.
  pose proof (search_initial (ci_validation_time input) cands signer
    (ci_signer_certificate_der input) Hdec (a1 :: anchors)
    (length cands + length (a1 :: anchors) + 1)%nat (DescribeCertificate signer)
    (AppendCertBlock "Signer" (DescribeCertificate signer) +s+ adebug +s+ idebug)
    ltac:(lia) Edec) as S.
  destruct (search _ _ _ _ _ _) as [[[n a] debug]|st'].
  - destruct S as (Hn & Ha & Hm). eapply view_trusted; rewrite ?Ea, ?Ei; done.
  - destruct S as [_ Hno].
    match goal with |- Validate_view _ (untrusted_result ?r _) =>
      destruct (untrusted_result_status r st') as (? & ? & ?); [done..|] end.
    apply view_refused; try done. intros (s & Hs & Hv & Hanch). rewrite Ea, Ei in Hanch.
    rewrite Edec in Hs. injection Hs as <-. done.
Qed.

Lemma node_chain_to_anchor (input : CertificateChainInput) (signer : Certificate_t) (n : ChainNode)
    (a : SourceCertificate) :
  DecodeCertificateDer (ci_signer_certificate_der input) = Some signer ->
  IsValidAt signer (ci_validation_time input) = true ->
  node_ok (ci_validation_time input) (issuer_pool input).1 signer (ci_signer_certificate_der input) n ->
  a ∈ (anchor_pool input).1 -> anchor_matches (ci_validation_time input) (cn_certificate n) a ->
  chain_to_anchor input.
Proof.
  intros Hd Hv (Hc & _) Ha (Hav & Hver). exists signer. split; [done|]. split; [done|].
  by exists (cn_certificate n), (cn_depth n), a.
Qed.

Lemma trusted_iff (input : CertificateChainInput) :
  cr_trusted (Validate input) = true <-> chain_to_anchor input.
Proof.
  destruct (Validate_cases input) as [r Ht _ _ Hno|r0 signer n a debug Hd Hv Hn Ha Hm].
  - rewrite Ht. split; [done|]. intros Hc. by destruct (Hno Hc).
  - split; [|done]. intros _. by apply (node_chain_to_anchor input signer n a).
Qed.

(** [C11] The chain builder is sound and complete: it reports a trusted chain exactly when the
    signer's certificate decodes, is valid at the validation time, and a chain of candidate
    issuers - each verifying the certificate below it, valid at that time, a CA with
    [keyCertSign] whose [pathLenConstraint] allows the intermediates below it - leads to a
    certificate verified by a valid trust anchor of the configured store.  In particular the
    breadth-first search with its visited set loses no chain, and it always ends. *)
Theorem Validate_trusted_iff_chain (input : CertificateChainInput) :
  cr_trusted (Validate input) = true <->
  exists signer, DecodeCertificateDer (ci_signer_certificate_der input) = Some signer /\
    IsValidAt signer (ci_validation_time input) = true /\
    exists c depth anchor,
      chain (ci_validation_time input) (issuer_pool input).1 signer c depth /\
      anchor ∈ (anchor_pool input).1 /\
      IsValidAt (sc_certificate anchor) (ci_validation_time input) = true /\
      VerifyByIssuer c (sc_certificate anchor) = true.
Proof. apply trusted_iff. Qed.

Lemma trusted_evidence (input : CertificateChainInput) (r := Validate input) :
  cr_trusted r = true ->
  cr_status r = ChainStatus.Trusted /\ cr_chain_valid r = true /\
  cr_issuer_certificate_der r ∈ ci_trust_anchors_der input /\
  exists signer issuer,
    DecodeCertificateDer (ci_signer_certificate_der input) = Some signer /\
    DecodeCertificateDer (cr_signer_issuer_certificate_der r) = Some issuer /\
    cr_signer_issuer_certificate_der r ∈
      ci_trust_anchors_der input ++ ci_embedded_certificates_der input
      ++ ci_intermediate_certificates_der input ++ ci_aia_certificates_der input /\
    VerifyByIssuer signer issuer = true /\ IsValidAt issuer (ci_validation_time input) = true.
Proof.
  subst r. destruct (Validate_cases input) as [r Ht _ _ _|r0 signer n a debug Hd Hv Hn Ha Hm];
    [by rewrite Ht|].
  intros _. destruct (anchor_pool_spec input a Ha) as [Hin Hdec]. split; [done|]. split; [done|].
  split; [done|]. exists signer. destruct Hn as (_ & _ & _ & Hs). cbn.
  destruct (cn_signer_issuer_der n) as [der|]; cbn.
  - destruct Hs as (i & Hi & <- & Hver & Hval & _). exists (sc_certificate i).
    destruct (issuer_pool_spec input i Hi) as [Hsrc Hdi]. split; [done|]. split; [done|].
    split; [|done]. rewrite !elem_of_app. tauto.
  - destruct Hs as [_ Hsig]. destruct Hm as [Hav Hver]. exists (sc_certificate a).
    split; [done|]. split; [done|]. rewrite !elem_of_app, <- Hsig. tauto.
Qed.

(** The evidence of a trusted result is real: the reported anchor is one of the configured
    trust anchors, and the reported issuer of the signer - the certificate revocation checks
    rely on - is an anchor or one of the supplied certificates, decodes, is valid at the
    validation time and verifies the signature on the signer's certificate. *)
Theorem Validate_trusted_evidence (input : CertificateChainInput) (r := Validate input) :
  cr_trusted r = true ->
  cr_status r = ChainStatus.Trusted /\ cr_chain_valid r = true /\
  cr_issuer_certificate_der r ∈ ci_trust_anchors_der input /\
  exists signer issuer,
    DecodeCertificateDer (ci_signer_certificate_der input) = Some signer /\
    DecodeCertificateDer (cr_signer_issuer_certificate_der r) = Some issuer /\
    cr_signer_issuer_certificate_der r ∈
      ci_trust_anchors_der input ++ ci_embedded_certificates_der input
      ++ ci_intermediate_certificates_der input ++ ci_aia_certificates_der input /\
    VerifyByIssuer signer issuer = true /\ IsValidAt issuer (ci_validation_time input) = true.
Proof. apply trusted_evidence. Qed.

(** The order of the trust store and additions to it never lose trust: when every anchor of
    one store is in another, a chain trusted with the first is trusted with the second.  Stores
    with the same certificates in any order give the same verdict. *)
Theorem Validate_anchors_monotone (input : CertificateChainInput) (anchors : list bytes) :
  ci_trust_anchors_der input ⊆ anchors ->
  cr_trusted (Validate input) = true ->
  cr_trusted (Validate (input <| ci_trust_anchors_der := anchors |>)) = true.
Proof.
  rewrite !trusted_iff. intros Hsub (signer & Hd & Hv & c & depth & a & Hc & Ha & Hm).
  exists signer. split; [done|]. split; [done|].
  destruct (anchor_pool_spec input a Ha) as [Hin Hdec].
  destruct (anchor_pool_complete (input <| ci_trust_anchors_der := anchors |>) (sc_der a)
    (sc_certificate a)) as (a' & Ha' & _ & Ecert); [by apply Hsub|done|].
  exists c, depth, a'. rewrite Ecert. by split; [|split].
Qed.

End Chain.

(** ** A concrete chain: leaf, intermediate and root of the toy library *)

Section Witness.
#[local] Existing Instance toy_cert_api.

Definition toy_chain_input : CertificateChainInput :=
  CertificateChainInput_default <| ci_signer_certificate_der := toy_leaf |>
    <| ci_embedded_certificates_der := [toy_leaf; toy_ca] |>
    <| ci_trust_anchors_der := [toy_root] |>.

Lemma Validate_trusted_evidence_witness :
  cr_trusted (Validate toy_chain_input) = true /\
  cr_issuer_certificate_der (Validate toy_chain_input) ∈ [toy_root].
Proof.
  assert (cr_trusted (Validate toy_chain_input) = true) as Ht by by vm_compute.
  split; [exact Ht|]. apply (Validate_trusted_evidence toy_chain_input Ht).
Defined.

Lemma Validate_anchors_monotone_witness :
  cr_trusted (Validate toy_chain_input) = true /\
  cr_trusted (Validate (toy_chain_input <| ci_trust_anchors_der := [toy_leaf; toy_root] |>)) = true.
Proof.
  assert (cr_trusted (Validate toy_chain_input) = true) as Ht by by vm_compute.
  split; [exact Ht|].
  apply (Validate_anchors_monotone toy_chain_input [toy_leaf; toy_root]); [|exact Ht].
  intros x Hx. apply list_elem_of_singleton in Hx as ->. right. left.
Defined.

(** Without the intermediate, with an intermediate that is not a CA, or with an expired one, the
    same leaf is not trusted. *)
Example toy_chain_negative :
  map (fun cas => let r := Validate (toy_chain_input <| ci_embedded_certificates_der := cas |>) in
                  (cr_trusted r, cr_status r))
    [[]; [toy_ca_not_ca]; [toy_ca_expired]]
  = [(false, ChainStatus.Untrusted); (false, ChainStatus.Untrusted); (false, ChainStatus.Expired)].
Proof. by vm_compute. Qed.

End Witness.

