(* ===== verification/PathEngine.v ===== *)
(** * PathEngine: from a trust policy to the path the decision uses

    Models [core/validation/PathEngine.cpp]: [PathBuilder] lists the trust
    stores that the policy admits, [PathValidator] runs the chain builder against
    one of them, [PathSelector] picks the authoritative result. *)

From S2P Require Import Prelude CxxString Types Time Der Cryptonite Fixture X509Name Chain.

Record PathBuilderInput := MkPathBuilderInput {
  pb_signer_certificate_der : bytes;
  pb_embedded_certificates_der : list bytes;
  pb_intermediate_store_certificates_der : list bytes;
  pb_aia_certificates_der : list bytes;
  pb_current_trust_anchors_der : list bytes;
  pb_historical_trust_anchors_der : list bytes;
  pb_custom_trust_anchors_der : list bytes;
  pb_pinned_trust_anchors_der : list bytes;
  pb_policy : ValidationPolicy;
  pb_validation_time : string
}.

#[export] Instance eta_PathBuilderInput : Eta PathBuilderInput := fun r =>
  MkPathBuilderInput (pb_signer_certificate_der r) (pb_embedded_certificates_der r)
  (pb_intermediate_store_certificates_der r) (pb_aia_certificates_der r)
  (pb_current_trust_anchors_der r) (pb_historical_trust_anchors_der r)
  (pb_custom_trust_anchors_der r) (pb_pinned_trust_anchors_der r) (pb_policy r)
  (pb_validation_time r).

Definition PathBuilderInput_default : PathBuilderInput :=
  MkPathBuilderInput [] [] [] [] [] [] [] [] ValidationPolicy_default "".

Record PathCandidate := MkPathCandidate {
  pc_candidate_id : string;
  pc_trust_anchor_source : string;
  pc_signer_certificate_der : bytes;
  pc_embedded_certificates_der : list bytes;
  pc_intermediate_certificates_der : list bytes;
  pc_aia_certificates_der : list bytes;
  pc_trust_anchors_der : list bytes;
  pc_uses_historical_trust : bool;
  pc_validation_time : string
}.

#[export] Instance eta_PathCandidate : Eta PathCandidate := fun r =>
  MkPathCandidate (pc_candidate_id r) (pc_trust_anchor_source r) (pc_signer_certificate_der r)
  (pc_embedded_certificates_der r) (pc_intermediate_certificates_der r)
  (pc_aia_certificates_der r) (pc_trust_anchors_der r) (pc_uses_historical_trust r)
  (pc_validation_time r).

Definition PathCandidate_default : PathCandidate :=
  MkPathCandidate "" "" [] [] [] [] [] false "".

Record PathValidationResult := MkPathValidationResult {
  pr_candidate_id : string;
  pr_trust_anchor_source : string;
  pr_attempted : bool;
  pr_checked : bool;
  pr_trusted : bool;
  pr_chain_valid : bool;
  pr_signer_certificate_time_valid : bool;
  pr_status : ChainStatus.t;
  pr_message : string;
  pr_chain_debug : string;
  pr_issuer_certificate_der : bytes;
  pr_signer_issuer_certificate_der : bytes;
  pr_uses_historical_trust : bool
}.

#[export] Instance eta_PathValidationResult : Eta PathValidationResult := fun r =>
  MkPathValidationResult (pr_candidate_id r) (pr_trust_anchor_source r) (pr_attempted r)
  (pr_checked r) (pr_trusted r) (pr_chain_valid r) (pr_signer_certificate_time_valid r)
  (pr_status r) (pr_message r) (pr_chain_debug r) (pr_issuer_certificate_der r)
  (pr_signer_issuer_certificate_der r) (pr_uses_historical_trust r).

Definition PathValidationResult_default : PathValidationResult :=
  MkPathValidationResult "" "" false false false false false ChainStatus.NotChecked "" "" [] []
  false.

Record PathSelection := MkPathSelection {
  ps_selected_index : option nat;
  ps_selected_result : PathValidationResult;
  ps_reason : string
}.

#[export] Instance eta_PathSelection : Eta PathSelection := fun r =>
  MkPathSelection (ps_selected_index r) (ps_selected_result r) (ps_reason r).

Definition PathSelection_default : PathSelection :=
  MkPathSelection None PathValidationResult_default "no-candidates".

Definition MakeCandidate (input : PathBuilderInput) (candidate_id trust_anchor_source : string)
    (trust_anchors : list bytes) (uses_historical_trust : bool) : PathCandidate :=
  PathCandidate_default
    <| pc_candidate_id := candidate_id |> <| pc_trust_anchor_source := trust_anchor_source |>
    <| pc_signer_certificate_der := pb_signer_certificate_der input |>
    <| pc_embedded_certificates_der := pb_embedded_certificates_der input |>
    <| pc_intermediate_certificates_der := pb_intermediate_store_certificates_der input |>
    <| pc_aia_certificates_der := pb_aia_certificates_der input |>
    <| pc_trust_anchors_der := trust_anchors |>
    <| pc_uses_historical_trust := uses_historical_trust |>
    <| pc_validation_time := pb_validation_time input |>.

Definition AddCurrentCandidate (candidates : list PathCandidate) (input : PathBuilderInput)
    (candidate_id trust_anchor_source : string) : list PathCandidate :=
  candidates ++ [MakeCandidate input candidate_id trust_anchor_source
                   (pb_current_trust_anchors_der input) false].

Definition is_empty {A} (l : list A) : bool := match l with [] => true | _ => false end.

Definition AddHistoricalCandidateIfAllowed (candidates : list PathCandidate)
    (input : PathBuilderInput) (candidate_id : string) : list PathCandidate :=
  if vp_allow_historical_trust (pb_policy input)
     && negb (is_empty (pb_historical_trust_anchors_der input))
  then candidates ++ [MakeCandidate input candidate_id "historical-tl"
                        (pb_historical_trust_anchors_der input) true]
  else candidates.

Definition IsAuthoritativeCandidateAllowed (result : PathValidationResult) (policy : ValidationPolicy)
    : bool :=
  negb (pr_uses_historical_trust result) || vp_allow_historical_trust policy.

Definition Build (input : PathBuilderInput) : list PathCandidate :=
  match vp_trust_anchor_policy (pb_policy input) with
  | TrustAnchorPolicy.CurrentTLOnly => AddCurrentCandidate [] input "current-tl" "current-tl"
  | TrustAnchorPolicy.ExplicitLegacyAnchorBundle | TrustAnchorPolicy.HistoricalAtSigningTime =>
      AddHistoricalCandidateIfAllowed (AddCurrentCandidate [] input "current-tl" "current-tl")
        input "historical-tl"
  | TrustAnchorPolicy.CustomTrustStore =>
      [MakeCandidate input "custom-trust-store" "custom-trust-store"
         (pb_custom_trust_anchors_der input) false]
  | TrustAnchorPolicy.PinnedAnchors =>
      [MakeCandidate input "pinned-anchors" "pinned-anchors" (pb_pinned_trust_anchors_der input) false]
  | TrustAnchorPolicy.ForensicAllPossible =>
      let candidates :=
        if negb (is_empty (pb_current_trust_anchors_der input))
           || is_empty (pb_historical_trust_anchors_der input)
        then AddCurrentCandidate [] input "forensic-current-tl" "current-tl" else [] in
      if negb (is_empty (pb_historical_trust_anchors_der input))
      then candidates ++ [MakeCandidate input "forensic-historical-tl" "historical-tl"
                            (pb_historical_trust_anchors_der input) true]
      else candidates
  end.

(** The position and the value of the first element that satisfies [f]. *)
Fixpoint find_index {A} (f : A -> bool) (l : list A) (i : nat) : option (nat * A) :=
  match l with
  | [] => None
  | a :: rest => if f a then Some (i, a) else find_index f rest (S i)
  end.

Definition Select (results : list PathValidationResult) (policy : ValidationPolicy) : PathSelection :=
  let selection := PathSelection_default in
  if is_empty results then selection <| ps_reason := "no-candidates" |> else
  match find_index (fun r => pr_trusted r && IsAuthoritativeCandidateAllowed r policy) results 0 with
  | Some (i, r) => MkPathSelection (Some i) r "trusted-candidate"
  | None =>
      match find_index (fun r => IsAuthoritativeCandidateAllowed r policy) results 0 with
      | Some (i, r) => MkPathSelection (Some i) r "fallback-untrusted-candidate"
      | None => selection <| ps_reason := "no-authoritative-candidate" |>
      end
  end.

Section Path.
Context `{CertApi, Platform}.

Definition chain_input (candidate : PathCandidate) : CertificateChainInput :=
  MkCertificateChainInput (pc_signer_certificate_der candidate)
    (pc_embedded_certificates_der candidate) (pc_intermediate_certificates_der candidate)
    (pc_aia_certificates_der candidate) (pc_trust_anchors_der candidate)
    (pc_trust_anchor_source candidate) (pc_validation_time candidate).

Definition PathValidator_Validate (candidate : PathCandidate) : PathValidationResult :=
  let chain := Chain.Validate (chain_input candidate) in
  MkPathValidationResult (pc_candidate_id candidate) (pc_trust_anchor_source candidate) true
    (cr_checked chain) (cr_trusted chain) (cr_chain_valid chain)
    (cr_signer_certificate_time_valid chain) (cr_status chain) (cr_message chain)
    (cr_chain_debug chain) (cr_issuer_certificate_der chain)
    (cr_signer_issuer_certificate_der chain) (pc_uses_historical_trust candidate).

(** ** Lemmas *)

Lemma find_index_Some {A} (f : A -> bool) (l : list A) (i n : nat) (a : A) :
  find_index f l i = Some (n, a) -> f a = true /\ a ∈ l.
Proof.
  revert i. induction l as [|b l IH]; intros i; cbn; [done|].
  destruct (f b) eqn:E; [intros [= <- <-]; split; [done|left]|].
  intros [Ha Hin]%IH. split; [done|by right].
Qed.

Lemma find_index_None {A} (f : A -> bool) (l : list A) (i : nat) :
  find_index f l i = None -> forall a, a ∈ l -> f a = false.
Proof.
  revert i. induction l as [|b l IH]; intros i; cbn; [by intros _ a Ha%elem_of_nil|].
  destruct (f b) eqn:E; [done|]. intros Hn a [->|Ha]%elem_of_cons; [done|by apply (IH (S i))].
Qed.

Lemma Select_trusted (results : list PathValidationResult) (policy : ValidationPolicy) :
  pr_trusted (ps_selected_result (Select results policy)) = true <->
  exists r, r ∈ results /\ pr_trusted r = true /\ IsAuthoritativeCandidateAllowed r policy = true.
Proof.
  unfold Select. destruct results as [|r0 results]; cbn [is_empty].
  { split; [done|]. by intros (r & ?%elem_of_nil & _). }
  destruct (find_index (fun r => pr_trusted r && _) _ 0) as [[i r]|] eqn:E1.
  { cbn. apply find_index_Some in E1 as [Hr Hin]. apply andb_true_iff in Hr as [Ht Ha].
    split; [|done]. intros _. by exists r. }
  assert (forall r, r ∈ r0 :: results ->
    pr_trusted r && IsAuthoritativeCandidateAllowed r policy = false) as Hno
    by by apply (find_index_None _ _ 0).
  destruct (find_index (fun r => IsAuthoritativeCandidateAllowed r policy) _ 0) as [[i r]|] eqn:E2; cbn.
  - apply find_index_Some in E2 as [Ha Hin]. pose proof (Hno r Hin) as Hr. rewrite Ha, andb_true_r in Hr.
    split; [by rewrite Hr|]. intros (r' & Hr' & Ht & Ha'). apply Hno in Hr'. by rewrite Ht, Ha' in Hr'.
  - split; [done|]. intros (r' & Hr' & Ht & Ha'). apply Hno in Hr'. by rewrite Ht, Ha' in Hr'.
Qed.

Lemma Select_in (results : list PathValidationResult) (policy : ValidationPolicy) :
  pr_trusted (ps_selected_result (Select results policy)) = true ->
  ps_selected_result (Select results policy) ∈ results /\
  IsAuthoritativeCandidateAllowed (ps_selected_result (Select results policy)) policy = true.
Proof.
  unfold Select. destruct results as [|r0 results]; cbn [is_empty]; [done|].
  destruct (find_index _ _ 0) as [[i r]|] eqn:E1.
  { apply find_index_Some in E1 as [[Ht Ha]%andb_true_iff Hin]. done. }
  destruct (find_index (fun r => IsAuthoritativeCandidateAllowed r policy) _ 0) as [[i r]|] eqn:E2; [|done].
  apply find_index_Some in E2 as [Ha Hin]. done.
Qed.

(** The certificates a policy lets a decision rest on. *)
Definition admitted_anchors (input : PathBuilderInput) : list bytes :=
  let historical := if vp_allow_historical_trust (pb_policy input)
                    then pb_historical_trust_anchors_der input else [] in
  match vp_trust_anchor_policy (pb_policy input) with
  | TrustAnchorPolicy.CurrentTLOnly => pb_current_trust_anchors_der input
  | TrustAnchorPolicy.ExplicitLegacyAnchorBundle | TrustAnchorPolicy.HistoricalAtSigningTime
  | TrustAnchorPolicy.ForensicAllPossible => pb_current_trust_anchors_der input ++ historical
  | TrustAnchorPolicy.CustomTrustStore => pb_custom_trust_anchors_der input
  | TrustAnchorPolicy.PinnedAnchors => pb_pinned_trust_anchors_der input
  end.

Definition run_paths (input : PathBuilderInput) : PathSelection :=
  Select (map PathValidator_Validate (Build input)) (pb_policy input).

Lemma Build_anchors (input : PathBuilderInput) (c : PathCandidate) :
  c ∈ Build input ->
  pc_uses_historical_trust c = false \/ vp_allow_historical_trust (pb_policy input) = true ->
  pc_trust_anchors_der c ⊆ admitted_anchors input.
Proof.
  unfold Build, admitted_anchors, AddCurrentCandidate, AddHistoricalCandidateIfAllowed.
  destruct (vp_trust_anchor_policy (pb_policy input)); cbn [app];
    repeat case_match; cbn [app]; rewrite ?elem_of_cons, ?elem_of_nil;
    intros Hc Hh; destruct_or?; subst; cbn in *; try set_solver; by destruct_and?.
Qed.

Lemma Build_signer (input : PathBuilderInput) (c : PathCandidate) :
  c ∈ Build input -> pc_signer_certificate_der c = pb_signer_certificate_der input.
Proof.
  unfold Build, AddCurrentCandidate, AddHistoricalCandidateIfAllowed.
  repeat case_match; cbn [app]; rewrite ?elem_of_cons, ?elem_of_nil; intros; destruct_or?; by subst.
Qed.

Lemma selected_anchor (input : PathBuilderInput) :
  pr_trusted (ps_selected_result (run_paths input)) = true ->
  pr_issuer_certificate_der (ps_selected_result (run_paths input)) ∈ admitted_anchors input.
Proof.
  intros Ht. destruct (Select_in _ _ Ht) as [Hin Ha]. fold (run_paths input) in *.
  apply list_elem_of_fmap in Hin as (c & Ec & Hc).
  unfold IsAuthoritativeCandidateAllowed in Ha. rewrite Ec in *. cbn in *.
  apply (Build_anchors input c Hc).
  { destruct (pc_uses_historical_trust c); [by right|by left]. }
  by destruct (trusted_evidence (chain_input c) Ht) as (_ & _ & Hanchor & _).
Qed.

(** A decision never rests on a certificate the policy does not admit: when the selected path
    is trusted, its anchor belongs to the store that the policy names - the current trust list,
    the custom store or the pinned anchors - or to the historical list, and then only if the
    policy allows historical trust.  Untrusted stores cannot be reached by any input. *)
Theorem selected_path_anchor_admitted (input : PathBuilderInput) :
  pr_trusted (ps_selected_result (run_paths input)) = true ->
  pr_issuer_certificate_der (ps_selected_result (run_paths input)) ∈ admitted_anchors input /\
  (pr_uses_historical_trust (ps_selected_result (run_paths input)) = true ->
   vp_allow_historical_trust (pb_policy input) = true).
Proof.
  intros Ht. split; [by apply selected_anchor|].
  destruct (Select_in _ _ Ht) as [_ Ha]. fold (run_paths input) in Ha.
  unfold IsAuthoritativeCandidateAllowed in Ha. intros Hh. by rewrite Hh in Ha.
Qed.

(** Selection is exact: the selected path is trusted if and only if some candidate store gives
    a trusted chain and is authoritative under the policy; a trusted candidate is never hidden by
    an untrusted one. *)
Theorem selected_path_trusted_iff (input : PathBuilderInput) :
  pr_trusted (ps_selected_result (run_paths input)) = true <->
  exists c, c ∈ Build input /\ cr_trusted (Chain.Validate (chain_input c)) = true /\
    (pc_uses_historical_trust c = true -> vp_allow_historical_trust (pb_policy input) = true).
Proof.
  unfold run_paths. rewrite Select_trusted. split.
  - intros (r & (c & -> & Hc)%list_elem_of_fmap & Ht & Ha). exists c. split; [done|].
    split; [done|]. intros Hh. unfold IsAuthoritativeCandidateAllowed in Ha. cbn in Ha.
    by rewrite Hh in Ha.
  - intros (c & Hc & Ht & Hh). exists (PathValidator_Validate c).
    split; [by apply list_elem_of_fmap_2|]. split; [done|].
    unfold IsAuthoritativeCandidateAllowed. cbn.
    destruct (pc_uses_historical_trust c); [by rewrite Hh|done].
Qed.

End Path.

Section Witness.
#[local] Existing Instance toy_cert_api.

Definition toy_path_input : PathBuilderInput :=
  PathBuilderInput_default <| pb_signer_certificate_der := toy_leaf |>
    <| pb_embedded_certificates_der := [toy_ca] |>
    <| pb_current_trust_anchors_der := [toy_root] |>.

Lemma selected_path_anchor_admitted_witness :
  pr_trusted (ps_selected_result (run_paths toy_path_input)) = true /\
  pr_issuer_certificate_der (ps_selected_result (run_paths toy_path_input))
    ∈ admitted_anchors toy_path_input.
Proof.
  assert (pr_trusted (ps_selected_result (run_paths toy_path_input)) = true) as Ht by by vm_compute.
  split; [exact Ht|]. apply (selected_path_anchor_admitted toy_path_input Ht).
Defined.

End Witness.
