(* ===== verification/Crl.v ===== *)
(** * Crl: revocation from certificate revocation lists

    Models [core/policy/CrlValidator.cpp].  The rule is deliberately asymmetric:
    "not revoked" needs a list of the right issuer, with a verified signature and
    covering the validation time; a serial number found in a list is always a
    signal. *)

From S2P Require Import Prelude CxxString Types Time Sha256 Cryptonite Fixture.

Local Open Scope Z_scope.

Record CrlValidationInput := MkCrlValidationInput {
  li_signer_certificate_der : bytes;
  li_issuer_certificate_der : bytes;
  li_crls_der : list bytes;
  li_validation_time : string
}.

#[export] Instance eta_CrlValidationInput : Eta CrlValidationInput := fun r =>
  MkCrlValidationInput (li_signer_certificate_der r) (li_issuer_certificate_der r)
  (li_crls_der r) (li_validation_time r).

Definition CrlValidationInput_default : CrlValidationInput :=
  MkCrlValidationInput [] [] [] "".

Record CrlValidationResult := MkCrlValidationResult {
  lr_checked : bool;
  lr_revoked : bool;
  lr_status : RevocationStatus.t;
  lr_message : string;
  lr_crl_evidence_id : string;
  lr_revocation_time : Z
}.

#[export] Instance eta_CrlValidationResult : Eta CrlValidationResult := fun r =>
  MkCrlValidationResult (lr_checked r) (lr_revoked r) (lr_status r) (lr_message r)
  (lr_crl_evidence_id r) (lr_revocation_time r).

Definition CrlValidationResult_default : CrlValidationResult :=
  MkCrlValidationResult false false RevocationStatus.NotChecked "" "" 0.

(** The local variables of the loop. *)
Record CrlScan := MkCrlScan {
  cs_result : CrlValidationResult;
  cs_saw_invalid : bool;
  cs_saw_unverifiable : bool;
  cs_saw_unrelated : bool;
  cs_saw_stale : bool;
  cs_stale_message : string;
  cs_good_result : CrlValidationResult
}.

#[export] Instance eta_CrlScan : Eta CrlScan := fun r =>
  MkCrlScan (cs_result r) (cs_saw_invalid r) (cs_saw_unverifiable r) (cs_saw_unrelated r)
  (cs_saw_stale r) (cs_stale_message r) (cs_good_result r).

Definition CrlScan_default : CrlScan :=
  MkCrlScan CrlValidationResult_default false false false false "" CrlValidationResult_default.

Section Crl.
Context `{Clock, CrlApi}.

Definition HasDifferentCrlIssuer (crl_der : bytes) (certificate : option Certificate_t) : bool :=
  match certificate with
  | None => false
  | Some certificate =>
      match crl_decode crl_der with
      | None => false
      | Some crl => negb (asn_equals_name (crl_issuer crl) (tbs_issuer certificate))
      end
  end.

(** The moment freshness is judged at: the validation time, or now when it cannot be read. *)
Definition validation_time_sec (validation_time : string) : Z :=
  if str_empty validation_time then std_time
  else default std_time (ParseIso8601Time validation_time).

(** [None] when the list covers the moment, else the reason it does not.  A list whose window
    cannot be read is taken as covering it. *)
Definition freshness (crl_der : bytes) (now : Z) : option string :=
  match GetCrlValidityWindow crl_der with
  | None => None
  | Some (this_update, next_update) =>
      if now <? this_update then Some "CRL is not yet valid at the validation time."
      else if negb (next_update =? 0) && (next_update <? now)
      then Some "CRL is stale: nextUpdate is earlier than the validation time."
      else None
  end.

Definition note_evidence (crl_der : bytes) (r : CrlValidationResult) : CrlValidationResult :=
  if str_empty (lr_crl_evidence_id r) then r <| lr_crl_evidence_id := ComputeSha256Hex crl_der |> else r.

(** The body of the loop: a [Revoked] result returned at once, or the next state. *)
Definition crl_step (input : CrlValidationInput) (certificate : option Certificate_t) (now : Z)
    (crl_der : bytes) (st : CrlScan) : CrlValidationResult + CrlScan :=
  if HasDifferentCrlIssuer crl_der certificate then inr (st <| cs_saw_unrelated := true |>) else
  let stale := freshness crl_der now in
  let check := CheckCertificateRevocation (li_signer_certificate_der input) crl_der
                 (li_issuer_certificate_der input) in
  let st := if negb (str_empty (cc_message check))
            then st <| cs_result ::= fun r => r <| lr_message := cc_message check |> |> else st in
  let issuer_available := match li_issuer_certificate_der input with [] => false | _ => true end in
  if negb (cc_checked check) then inr (st <| cs_saw_invalid := true |>) else
  if issuer_available && negb (cc_crl_valid check) then
    inr (st <| cs_saw_invalid := true |>
            <| cs_result ::= fun r => r <| lr_checked := true |>
                 <| lr_status := RevocationStatus.Invalid |>
                 <| lr_message := if str_empty (cc_message check)
                      then "CRL signature validation failed."
                      else "CRL signature validation failed: " +s+ cc_message check |> |>)
  else if match stale with Some _ => true | None => false end && negb (cc_revoked check) then
    inr (st <| cs_saw_stale := true |> <| cs_stale_message := default "" stale |>
            <| cs_result ::= note_evidence crl_der |>)
  else if negb issuer_available && negb (cc_revoked check) then
    inr (st <| cs_saw_unverifiable := true |> <| cs_result ::= note_evidence crl_der |>)
  else
    let candidate := MkCrlValidationResult true (cc_revoked check)
      (if cc_revoked check then RevocationStatus.Revoked else RevocationStatus.Good)
      (cc_message check) (ComputeSha256Hex crl_der) (cc_revocation_time check) in
    if cc_revoked check then inl candidate
    else inr (if negb (lr_checked (cs_good_result st)) then st <| cs_good_result := candidate |> else st).

Fixpoint crl_loop (input : CrlValidationInput) (certificate : option Certificate_t) (now : Z)
    (crls : list bytes) (st : CrlScan) : CrlValidationResult + CrlScan :=
  match crls with
  | [] => inr st
  | crl_der :: rest =>
      match crl_step input certificate now crl_der st with
      | inl r => inl r
      | inr st => crl_loop input certificate now rest st
      end
  end.

Definition crl_finish (st : CrlScan) : CrlValidationResult :=
  if lr_checked (cs_good_result st) then cs_good_result st else
  if cs_saw_invalid st then
    (cs_result st) <| lr_status := RevocationStatus.Invalid |> <| lr_checked := true |>
  else if cs_saw_stale st then
    (cs_result st) <| lr_checked := true |> <| lr_status := RevocationStatus.Stale |>
      <| lr_message := if str_empty (cs_stale_message st)
           then "CRL revocation status is unknown: the CRL is outside its validity window."
           else cs_stale_message st |>
  else if cs_saw_unverifiable st then
    (cs_result st) <| lr_checked := false |> <| lr_status := RevocationStatus.Unknown |>
      <| lr_message := "CRL revocation status is unknown: the issuer certificate is unavailable, so the CRL signature could not be verified." |>
  else if cs_saw_unrelated st then
    (cs_result st) <| lr_checked := false |> <| lr_status := RevocationStatus.Unknown |>
      <| lr_message := "No local CRL matches the certificate issuer." |>
  else cs_result st.

Definition initial_scan : CrlScan :=
  CrlScan_default <| cs_result := CrlValidationResult_default
    <| lr_status := RevocationStatus.Invalid |>
    <| lr_message := "No local CRL produced a valid revocation check." |> |>.

Definition Validate (input : CrlValidationInput) : CrlValidationResult :=
  match li_crls_der input with
  | [] => CrlValidationResult_default <| lr_status := RevocationStatus.Unknown |>
            <| lr_message := "No local CRLs are available." |>
  | _ =>
      match crl_loop input (DecodeCertificateDer (li_signer_certificate_der input))
              (validation_time_sec (li_validation_time input)) (li_crls_der input) initial_scan with
      | inl revoked => revoked
      | inr st => crl_finish st
      end
  end.

(** ** What a list says of the certificate *)

(** The list is about another issuer. *)
Definition unrelated (input : CrlValidationInput) (crl_der : bytes) : bool :=
  HasDifferentCrlIssuer crl_der (DecodeCertificateDer (li_signer_certificate_der input)).

Definition check_of (input : CrlValidationInput) (crl_der : bytes) : CrlCheckResult :=
  CheckCertificateRevocation (li_signer_certificate_der input) crl_der (li_issuer_certificate_der input).

Definition has_issuer (input : CrlValidationInput) : bool :=
  match li_issuer_certificate_der input with [] => false | _ => true end.

(** The list names the certificate as revoked; with an issuer at hand its signature verifies. *)
Definition proves_revoked (input : CrlValidationInput) (crl_der : bytes) : bool :=
  negb (unrelated input crl_der) && cc_checked (check_of input crl_der)
  && (negb (has_issuer input) || cc_crl_valid (check_of input crl_der))
  && cc_revoked (check_of input crl_der).

(** The list is of the right issuer, verified, covers the moment and does not name it. *)
Definition proves_good (input : CrlValidationInput) (crl_der : bytes) : bool :=
  negb (unrelated input crl_der) && cc_checked (check_of input crl_der)
  && has_issuer input && cc_crl_valid (check_of input crl_der)
  && match freshness crl_der (validation_time_sec (li_validation_time input)) with
     | None => true | Some _ => false end
  && negb (cc_revoked (check_of input crl_der)).

(** The effect of one step on what the result depends on. *)
Lemma crl_step_spec (input : CrlValidationInput) (crl_der : bytes) (st : CrlScan) :
  match crl_step input (DecodeCertificateDer (li_signer_certificate_der input))
          (validation_time_sec (li_validation_time input)) crl_der st with
  | inl r => proves_revoked input crl_der = true /\ lr_status r = RevocationStatus.Revoked /\
             lr_checked r = true /\ lr_revoked r = true /\
             lr_crl_evidence_id r = ComputeSha256Hex crl_der
  | inr st' => proves_revoked input crl_der = false /\
      (lr_checked (cs_good_result st') = lr_checked (cs_good_result st) || proves_good input crl_der) /\
      (cs_good_result st' = cs_good_result st \/
       (lr_checked (cs_good_result st) = false /\ proves_good input crl_der = true /\
        lr_status (cs_good_result st') = RevocationStatus.Good /\
        lr_crl_evidence_id (cs_good_result st') = ComputeSha256Hex crl_der))
  end.
Proof.
  unfold crl_step, proves_revoked, proves_good, unrelated, check_of, has_issuer.
  destruct (HasDifferentCrlIssuer _ _); cbn [negb andb].
  { rewrite orb_false_r. auto. }
  destruct (CheckCertificateRevocation _ _ _) as [checked revoked valid msg rt]; cbn.
  destruct checked, (li_issuer_certificate_der input), valid, revoked,
    (freshness crl_der _), (str_empty msg); cbn; rewrite ?orb_false_r, ?orb_true_r;
    repeat (split; [done|]); auto;
    destruct (lr_checked (cs_good_result st)) eqn:E; cbn; rewrite ?E; auto 10.
Qed.

Definition good_ok (st : CrlScan) : Prop :=
  lr_checked (cs_good_result st) = true -> lr_status (cs_good_result st) = RevocationStatus.Good.

Lemma crl_loop_spec (input : CrlValidationInput) (crls : list bytes) (st : CrlScan) :
  good_ok st ->
  match crl_loop input (DecodeCertificateDer (li_signer_certificate_der input))
          (validation_time_sec (li_validation_time input)) crls st with
  | inl r => existsb (proves_revoked input) crls = true /\ lr_status r = RevocationStatus.Revoked
  | inr st' => existsb (proves_revoked input) crls = false /\ good_ok st' /\
      lr_checked (cs_good_result st')
        = lr_checked (cs_good_result st) || existsb (proves_good input) crls
  end.
Proof.
  revert st. induction crls as [|crl crls IH]; intros st Hst; cbn [crl_loop existsb].
  { by rewrite orb_false_r. }
  pose proof (crl_step_spec input crl st) as S.
  destruct (crl_step _ _ _ crl st) as [r|st1]; [destruct S as (-> & -> & _); done|].
  destruct S as (-> & Hc & Hg).
  assert (good_ok st1) as Hst1 by (destruct Hg as [E|(_ & _ & ? & _)]; unfold good_ok; [by rewrite E|done]).
  specialize (IH st1 Hst1). destruct (crl_loop _ _ _ crls st1) as [r|st2]; [done|].
  destruct IH as (-> & Hgood & ->). by rewrite Hc, orb_assoc.
Qed.

(** Without a good result the scan ends in neither verdict. *)
Lemma crl_finish_status (st : CrlScan) :
  good_ok st -> lr_status (cs_result st) <> RevocationStatus.Good ->
  lr_status (cs_result st) <> RevocationStatus.Revoked ->
  lr_status (crl_finish st) <> RevocationStatus.Revoked /\
  (lr_status (crl_finish st) = RevocationStatus.Good <-> lr_checked (cs_good_result st) = true).
Proof.
  intros Hg Hn1 Hn2. unfold crl_finish. destruct (lr_checked (cs_good_result st)) eqn:E.
  { rewrite Hg by done. done. }
  destruct (cs_saw_invalid st); [done|]. destruct (cs_saw_stale st); [done|].
  destruct (cs_saw_unverifiable st); [done|]. by destruct (cs_saw_unrelated st).
Qed.

Definition undecided (st : CrlScan) : Prop := lr_status (cs_result st) = RevocationStatus.Invalid.

Lemma crl_step_undecided (input : CrlValidationInput) (c : option Certificate_t) (now : Z)
    (crl_der : bytes) (st st' : CrlScan) :
  undecided st -> crl_step input c now crl_der st = inr st' -> undecided st'.
Proof.
  unfold undecided, crl_step, note_evidence. intros Hu.
  destruct (HasDifferentCrlIssuer _ _); [by intros [= <-]|].
  destruct (CheckCertificateRevocation _ _ _) as [checked revoked valid msg rt]; cbn.
  destruct checked, (li_issuer_certificate_der input), valid, revoked,
    (freshness crl_der _), (str_empty msg), (lr_checked (cs_good_result st)) eqn:E; cbn;
    intros [= <-]; cbn; try done; by case_match.
Qed.

Lemma crl_loop_undecided (input : CrlValidationInput) (c : option Certificate_t) (now : Z)
    (crls : list bytes) (st st' : CrlScan) :
  undecided st -> crl_loop input c now crls st = inr st' -> undecided st'.
Proof.
  revert st. induction crls as [|crl crls IH]; intros st Hu; cbn; [by intros [= <-]|].
  destruct (crl_step _ _ _ crl st) as [r|st1] eqn:E; [done|].
  apply IH. by apply (crl_step_undecided input c now crl st).
Qed.

Lemma Validate_status (input : CrlValidationInput) :
  (lr_status (Validate input) = RevocationStatus.Revoked <->
   existsb (proves_revoked input) (li_crls_der input) = true) /\
  (lr_status (Validate input) = RevocationStatus.Good <->
   existsb (proves_revoked input) (li_crls_der input) = false /\
   existsb (proves_good input) (li_crls_der input) = true).
Proof.
  unfold Validate. destruct (li_crls_der input) as [|crl crls] eqn:Ec; [cbn; naive_solver|].
  rewrite <- Ec.
  pose proof (crl_loop_spec input (li_crls_der input) initial_scan) as S.
  destruct (crl_loop _ _ _ _ initial_scan) as [r|st] eqn:El.
  { destruct S as [-> ->]; [done|]. naive_solver. }
  apply crl_loop_undecided in El; [|done]. unfold undecided in El.
  destruct S as (-> & Hg & Hc); [done|]. cbn in Hc.
  destruct (crl_finish_status st Hg) as [Hr Hgood]; [by rewrite El..|].
  rewrite Hgood, Hc. naive_solver.
Qed.

(** Both verdicts are marked as checked. *)
Lemma Validate_good_checked (input : CrlValidationInput) :
  lr_status (Validate input) = RevocationStatus.Good -> lr_checked (Validate input) = true.
Proof.
  unfold Validate. destruct (li_crls_der input) as [|crl crls] eqn:Ec; [done|]. rewrite <- Ec.
  pose proof (crl_loop_spec input (li_crls_der input) initial_scan) as S.
  destruct (crl_loop _ _ _ _ initial_scan) as [r|st] eqn:El.
  { destruct S as [_ ->]; done. }
  apply crl_loop_undecided in El; [|done]. unfold undecided in El.
  destruct S as (_ & Hg & _); [done|].
  destruct (crl_finish_status st Hg) as [_ Hgood]; [by rewrite El..|].
  intros Hs. apply Hgood in Hs. unfold crl_finish. by rewrite Hs.
Qed.

Lemma crl_loop_revoked_checked (input : CrlValidationInput) (crls : list bytes) (st : CrlScan)
    (r : CrlValidationResult) :
  crl_loop input (DecodeCertificateDer (li_signer_certificate_der input))
    (validation_time_sec (li_validation_time input)) crls st = inl r -> lr_checked r = true.
Proof.
  revert st. induction crls as [|crl crls IH]; intros st; cbn; [done|].
  pose proof (crl_step_spec input crl st) as S.
  destruct (crl_step _ _ _ crl st) as [r1|st1]; [|apply IH]. intros [= <-].
  by destruct S as (_ & _ & ? & _).
Qed.

Lemma Validate_revoked_checked (input : CrlValidationInput) :
  lr_status (Validate input) = RevocationStatus.Revoked -> lr_checked (Validate input) = true.
Proof.
  unfold Validate. destruct (li_crls_der input) as [|crl crls] eqn:Ec; [done|]. rewrite <- Ec.
  pose proof (crl_loop_spec input (li_crls_der input) initial_scan) as S.
  destruct (crl_loop _ _ _ _ initial_scan) as [r|st] eqn:El; [by apply crl_loop_revoked_checked in El|].
  apply crl_loop_undecided in El; [|done]. unfold undecided in El.
  destruct S as (_ & Hg & _); [done|].
  destruct (crl_finish_status st Hg) as [Hr _]; [by rewrite El..|]. done.
Qed.

(** [C26] The verdict from revocation lists is decided exactly by what the lists of the pool prove.
    [Revoked] if and only if some list that is not of another issuer and could be checked names the
    certificate, with a verified signature when the issuer's certificate is at hand: the list need not
    be current (a stale list still proves a revocation), and without the issuer's certificate its
    signature is not asked for.  [Good] if and only if no list does that, the issuer's certificate is at
    hand, and some list that is not of another issuer and could be checked, with a verified signature
    and not seen to be outside its period at the validation time, does not name it; a list whose period
    cannot be read counts as current.  So the order of the pool does not matter, lists of other issuers
    never do, with the issuer's certificate at hand lists with a bad signature do not, and without it no
    list yields [Good]. *)
Theorem Crl_verdict_exact (input : CrlValidationInput) :
  (lr_status (Validate input) = RevocationStatus.Revoked <->
   exists crl_der, crl_der ∈ li_crls_der input /\ proves_revoked input crl_der = true) /\
  (lr_status (Validate input) = RevocationStatus.Good <->
   (forall crl_der, crl_der ∈ li_crls_der input -> proves_revoked input crl_der = false) /\
   exists crl_der, crl_der ∈ li_crls_der input /\ proves_good input crl_der = true) /\
  (li_issuer_certificate_der input = [] -> lr_status (Validate input) <> RevocationStatus.Good).
Proof.
  destruct (Validate_status input) as [Hr Hg]. rewrite Hr, Hg, !existsb_exists.
  assert (forall f, existsb f (li_crls_der input) = false <->
    forall c, c ∈ li_crls_der input -> f c = false) as Hf.
  { intros f. rewrite <- not_true_iff_false, existsb_exists. split.
    - intros Hn c Hc. apply not_true_iff_false. intros Ht. apply Hn. exists c.
      by rewrite <- list_elem_of_In.
    - intros Ha (c & Hc & Ht). rewrite <- list_elem_of_In in Hc. apply Ha in Hc. congruence. }
  rewrite Hf. split; [|split].
  - split; intros (c & Hc & ?); exists c; by rewrite list_elem_of_In in *.
  - split; intros [? (c & Hc & ?)]; (split; [done|]); exists c; by rewrite list_elem_of_In in *.
  - intros Hi [_ (c & _ & Hp)]. unfold proves_good, has_issuer in Hp. rewrite Hi in Hp.
    cbn in Hp. by rewrite andb_false_r in Hp.
Qed.

(** A [Good] verdict is backed by a real proof: a list in the pool decodes, its issuer is the
    issuer of the certificate, the issuer's key verifies its signature, its window covers the
    validation time, and the library does not find the certificate in it. *)
Theorem Crl_good_is_proved (input : CrlValidationInput) :
  lr_status (Validate input) = RevocationStatus.Good ->
  exists crl_der cert crl issuer adapter,
    crl_der ∈ li_crls_der input /\
    cert_decode (li_signer_certificate_der input) = Some cert /\ crl_decode crl_der = Some crl /\
    asn_equals_name (crl_issuer crl) (tbs_issuer cert) = true /\
    cert_decode (li_issuer_certificate_der input) = Some issuer /\
    verify_adapter_init_by_cert issuer = Some adapter /\ crl_verify crl adapter = true /\
    freshness crl_der (validation_time_sec (li_validation_time input)) = None /\
    crl_check_cert crl cert = inr false.
Proof.
  intros [_ Hp]%Validate_status. apply existsb_exists in Hp as (crl_der & Hin & Hp).
  rewrite <- list_elem_of_In in Hin. unfold proves_good in Hp. rewrite !andb_true_iff in Hp.
  destruct Hp as [[[[[Hu Hc] Hi] Hv] Hf] Hr].
  destruct (CheckCertificateRevocation_checked _ _ _ Hc) as (cert & crl & Ecert & Ecrl & Echk & Ev).
  apply negb_true_iff in Hr, Hu. unfold check_of in *. rewrite Hr in Echk. rewrite Hv in Ev.
  unfold crl_signature_valid in Ev.
  destruct (li_issuer_certificate_der input) as [|i0 i1] eqn:Ei; [by unfold has_issuer in Hi; rewrite Ei in Hi|].
  destruct (cert_decode (i0 :: i1)) as [issuer|] eqn:Eiss; [|done].
  destruct (verify_adapter_init_by_cert issuer) as [adapter|] eqn:Ead; [|done].
  exists crl_der, cert, crl, issuer, adapter. split_and!; try done.
  - unfold unrelated, HasDifferentCrlIssuer, DecodeCertificateDer in Hu.
    destruct (li_signer_certificate_der input) as [|s0 ss] eqn:Es.
    { by unfold CheckCertificateRevocation in Hc. }
    rewrite Ecert, Ecrl in Hu. by apply negb_false_iff in Hu.
  - by destruct (freshness _ _).
Qed.

End Crl.

Section Witness.
#[local] Existing Instance toy_cert_api.
#[local] Existing Instance toy_crl_api.
#[local] Existing Instance toy_clock.

Definition toy_crl_input (crls : list bytes) : CrlValidationInput :=
  CrlValidationInput_default <| li_signer_certificate_der := toy_leaf |>
    <| li_issuer_certificate_der := toy_ca |> <| li_crls_der := crls |>.

Lemma Crl_good_is_proved_witness :
  lr_status (Validate (toy_crl_input [toy_crl_empty])) = RevocationStatus.Good /\
  exists crl_der, crl_der ∈ [toy_crl_empty] /\ freshness crl_der 500 = None.
Proof.
  assert (lr_status (Validate (toy_crl_input [toy_crl_empty])) = RevocationStatus.Good) as E
    by by vm_compute.
  split; [exact E|].
  destruct (Crl_good_is_proved (toy_crl_input [toy_crl_empty]) E)
    as (crl_der & ? & ? & ? & ? & Hin & _ & _ & _ & _ & _ & _ & Hf & _).
  by exists crl_der.
Defined.

(** A forged list, a list of another issuer and a stale list, alone and next to a good one. *)
Example Crl_pool_examples :
  map (fun crls => lr_status (Validate (toy_crl_input crls)))
    [[toy_crl_forged]; [toy_crl_other_issuer]; [toy_crl_stale];
     [toy_crl_stale; toy_crl_empty]; [toy_crl_empty; toy_crl_with_leaf]]
  = [RevocationStatus.Invalid; RevocationStatus.Unknown; RevocationStatus.Stale;
     RevocationStatus.Good; RevocationStatus.Revoked].
Proof. by vm_compute. Qed.

End Witness.
