(* ===== verification/Ocsp.v ===== *)
(** * Ocsp: revocation from OCSP responses

    Models [core/policy/OcspValidator.cpp].  The ASN.1 codec, the request engine
    and the signature check of the vendored library are the class [OcspApi]; the
    HTTP POST is the class [Http].  The status a response gives is that of the
    requested CertID only, and only after the signature of the response has been
    verified under the issuer's key or that of a responder the issuer delegated. *)

From S2P Require Import Prelude CxxString Types Time Sha256 Cryptonite Fixture.

Local Open Scope Z_scope.

(** ** Interfaces *)

(** [CertID_t]: the two hashes and the DER of the serial number ([None]: it cannot be encoded). *)
Record CertID_t := MkCertID { id_issuerNameHash : bytes; id_issuerKeyHash : bytes;
                              id_serialNumber : option bytes }.

(** [OcspCertStatus]: serial number, status text, revocation time. *)
Record OcspCertStatus := MkOcspCertStatus { os_serial_number : option (option bytes);
                                            os_status : option string; os_revocationTime : Z }.

Class OcspApi `{CertApi} := {
  OCSPRequest_t : Type;
  OCSPResponse_t : Type;
  OcspRequestEngine : Type;
  eocspreq_generate_from_cert : Certificate_t -> Certificate_t -> option OCSPRequest_t;
  digest_adapter_init_default : bool;
  eocspreq_alloc : VerifyAdapter -> option OcspRequestEngine;
  eocspreq_add_cert : OcspRequestEngine -> Certificate_t -> option OcspRequestEngine;
  eocspreq_generate : OcspRequestEngine -> option OCSPRequest_t;
  (** [tbsRequest.requestList.list.array[0]->reqCert] *)
  ocspreq_first_cert_id : OCSPRequest_t -> option CertID_t;
  ocspreq_encode : OCSPRequest_t -> option bytes;
  ocspresp_decode : bytes -> option OCSPResponse_t;
  (** the outer option is [ocspresp_get_status], the inner [asn_INTEGER2long] *)
  ocspresp_get_status : OCSPResponse_t -> option (option Z);
  (** [None]: no [responseBytes]; [Some None]: they do not decode as a BasicOCSPResponse *)
  ocspresp_response_ids : OCSPResponse_t -> option (option (list CertID_t));
  eocspreq_validate_resp : OCSPResponse_t -> Z -> Z -> Z;
  RET_PKIX_OCSP_REQ_RESPONSE_NEXTUP_WARNING : Z;
  ocspresp_verify : OCSPResponse_t -> VerifyAdapter -> bool;
  ocspresp_get_certs : OCSPResponse_t -> option (list Certificate_t);
  ocspresp_get_certs_status : OCSPResponse_t -> option (list OcspCertStatus)
}.

Record HttpPostResult := MkHttpPostResult {
  hp_succeeded : bool; hp_status_code : Z; hp_body : bytes; hp_message : string
}.

(** [HttpClient::Post]: URL, body, content type, accepted type, timeout. *)
Class Http := { http_post : string -> bytes -> string -> string -> Z -> HttpPostResult }.

(** ** Data *)

Record OcspValidationInput := MkOcspValidationInput {
  oi_url : string;
  oi_use_nonce : bool;
  oi_timeout_ms : Z;
  oi_signer_certificate_der : bytes;
  oi_issuer_certificate_der : bytes;
  oi_validation_time : string;
  oi_response_der : bytes
}.

#[export] Instance eta_OcspValidationInput : Eta OcspValidationInput := fun r =>
  MkOcspValidationInput (oi_url r) (oi_use_nonce r) (oi_timeout_ms r)
  (oi_signer_certificate_der r) (oi_issuer_certificate_der r) (oi_validation_time r)
  (oi_response_der r).

Definition OcspValidationInput_default : OcspValidationInput :=
  MkOcspValidationInput "" true 10000 [] [] "" [].

Record OcspValidationResult := MkOcspValidationResult {
  or_checked : bool;
  or_responder_answered : bool;
  or_revoked : bool;
  or_status : RevocationStatus.t;
  or_message : string;
  or_request_evidence_id : string;
  or_response_evidence_id : string;
  or_response_der : bytes;
  or_revocation_time : Z
}.

#[export] Instance eta_OcspValidationResult : Eta OcspValidationResult := fun r =>
  MkOcspValidationResult (or_checked r) (or_responder_answered r) (or_revoked r) (or_status r)
  (or_message r) (or_request_evidence_id r) (or_response_evidence_id r) (or_response_der r)
  (or_revocation_time r).

Definition OcspValidationResult_default : OcspValidationResult :=
  MkOcspValidationResult false false false RevocationStatus.NotChecked "" "" "" [] 0.

Record OcspCertIdFields := MkOcspCertIdFields {
  issuer_name_hash : bytes; issuer_key_hash : bytes; serial_number : bytes
}.

#[export] Instance OcspCertIdFields_eq_dec : EqDecision OcspCertIdFields.
Proof. solve_decision. Defined.

Record OcspMappedCertificateStatus := MkOcspMapped {
  om_cert_id : OcspCertIdFields; om_status : string; om_revocation_time : Z
}.

(** ** The status of the requested CertID *)

Definition SameCertIdFields (left right : OcspCertIdFields) : bool :=
  bool_decide (issuer_name_hash left = issuer_name_hash right)
  && bool_decide (issuer_key_hash left = issuer_key_hash right)
  && bool_decide (serial_number left = serial_number right).

(** The status with the out-parameters [revoked], [revocation_time] and [message]; [message] keeps
    its value on the returns that do not assign it. *)
Record Mapped := MkMapped {
  mp_status : RevocationStatus.t; mp_revoked : bool; mp_revocation_time : Z; mp_message : string
}.

Fixpoint map_status_loop (requested : OcspCertIdFields) (statuses : list OcspMappedCertificateStatus)
    (message : string) : Mapped :=
  match statuses with
  | [] => MkMapped RevocationStatus.Unknown false 0
            "OCSP response does not contain status for requested certificate."
  | entry :: rest =>
      if negb (SameCertIdFields requested (om_cert_id entry)) then map_status_loop requested rest message
      else if om_status entry ==s "revoked"
      then MkMapped RevocationStatus.Revoked true (om_revocation_time entry) message
      else if om_status entry ==s "good" then MkMapped RevocationStatus.Good false 0 message
      else if om_status entry ==s "unknown" then MkMapped RevocationStatus.Unknown false 0 message
      else map_status_loop requested rest message
  end.

Definition MapOcspStatusForRequestedCertId (requested : OcspCertIdFields)
    (statuses : list OcspMappedCertificateStatus) (message : string) : Mapped :=
  match statuses with
  | [] => MkMapped RevocationStatus.Unknown false 0
            "OCSP response does not contain certificate status records."
  | _ => map_status_loop requested statuses message
  end.

(** Statuses are attached by position; records without one become [unknown]. *)
Fixpoint MergeOcspStatusesByResponseOrder (cert_ids api_statuses : list OcspMappedCertificateStatus)
    : list OcspMappedCertificateStatus :=
  match cert_ids with
  | [] => []
  | c :: cs =>
      let '(status, time, rest) :=
        match api_statuses with
        | [] => (om_status c, om_revocation_time c, [])
        | a :: r => (if str_empty (om_status a) then "unknown" else om_status a, om_revocation_time a, r)
        end in
      MkOcspMapped (om_cert_id c) (if str_empty status then "unknown" else status) time
        :: MergeOcspStatusesByResponseOrder cs rest
  end.

Section Ocsp.
Context `{Clock, Http, OcspApi}.

Definition ExtractCertIdFields (cert_id : CertID_t) : OcspCertIdFields :=
  MkOcspCertIdFields (id_issuerNameHash cert_id) (id_issuerKeyHash cert_id)
    (default [] (id_serialNumber cert_id)).

(** ** The request *)

Definition EncodeRequestAndExtractCertId (request : OCSPRequest_t)
    : string + (bytes * OcspCertIdFields) :=
  match ocspreq_first_cert_id request with
  | None => inl "Generated OCSP request does not contain CertID."
  | Some cert_id =>
      match ocspreq_encode request with
      | None => inl "Failed to encode OCSP request."
      | Some [] => inl "Generated OCSP request is empty."
      | Some request_der => inr (request_der, ExtractCertIdFields cert_id)
      end
  end.

Definition GenerateRequestWithDefaultNonce (issuer signer : Certificate_t) : string + OCSPRequest_t :=
  match eocspreq_generate_from_cert issuer signer with
  | None => inl "Failed to generate OCSP request."
  | Some request => inr request
  end.

Definition GenerateRequestWithoutNonce (issuer signer : Certificate_t) : string + OCSPRequest_t :=
  match verify_adapter_init_by_cert issuer with
  | None => inl "Failed to initialize OCSP issuer verify adapter."
  | Some issuer_adapter =>
      if negb digest_adapter_init_default then inl "Failed to initialize OCSP digest adapter." else
      match eocspreq_alloc issuer_adapter with
      | None => inl "Failed to initialize OCSP request engine."
      | Some engine =>
          match eocspreq_add_cert engine signer with
          | None => inl "Failed to add signer certificate to OCSP request."
          | Some engine =>
              match eocspreq_generate engine with
              | None => inl "Failed to generate OCSP request."
              | Some request => inr request
              end
          end
      end
  end.

Definition BuildRequestDer (input : OcspValidationInput) : string + (bytes * OcspCertIdFields) :=
  match DecodeCertificateDer (oi_signer_certificate_der input) with
  | None => inl "Failed to decode signer certificate."
  | Some signer =>
      match DecodeCertificateDer (oi_issuer_certificate_der input) with
      | None => inl "Failed to decode issuer certificate."
      | Some issuer =>
          match (if oi_use_nonce input then GenerateRequestWithDefaultNonce issuer signer
                 else GenerateRequestWithoutNonce issuer signer) with
          | inl message => inl message
          | inr request => EncodeRequestAndExtractCertId request
          end
      end
  end.

(** ** The response *)

Definition VerifiedByIssuer (certificate issuer : Certificate_t) : bool :=
  match verify_adapter_init_by_cert issuer with
  | None => false
  | Some adapter => cert_verify certificate adapter
  end.

Definition delegated_candidate (response : OCSPResponse_t) (issuer candidate : Certificate_t) : bool :=
  if negb (VerifiedByIssuer candidate issuer) || negb (HasOcspSigningEku candidate) then false else
  match verify_adapter_init_by_cert candidate with
  | None => false
  | Some adapter => ocspresp_verify response adapter
  end.

Definition VerifyResponseWithDelegatedResponder (response : OCSPResponse_t) (issuer : Certificate_t)
    : bool :=
  match ocspresp_get_certs response with
  | None => false
  | Some certs => existsb (delegated_candidate response issuer) certs
  end.

Definition ExtractResponseCertIds (response : OCSPResponse_t) : list OcspMappedCertificateStatus :=
  match ocspresp_response_ids response with
  | Some (Some ids) => map (fun id => MkOcspMapped (ExtractCertIdFields id) "" 0) ids
  | _ => []
  end.

Definition ExtractStatusesWithCryptoniteApi (response : OCSPResponse_t)
    : list OcspMappedCertificateStatus :=
  match ocspresp_get_certs_status response with
  | None => []
  | Some entries =>
      map (fun e => MkOcspMapped
             (MkOcspCertIdFields [] []
                (match os_serial_number e with Some s => default [] s | None => [] end))
             (default "unknown" (os_status e)) (os_revocationTime e)) entries
  end.

Definition ExtractResponseStatuses (response : OCSPResponse_t) : list OcspMappedCertificateStatus :=
  MergeOcspStatusesByResponseOrder (ExtractResponseCertIds response)
    (ExtractStatusesWithCryptoniteApi response).

Definition kEmbeddedEvidenceMaxAgeMinutes : Z := 366 * 24 * 60.

Definition ocsp_time (validation_time : string) : Z :=
  if str_empty validation_time then std_time
  else default std_time (ParseIso8601Time validation_time).

Definition timeout_minutes (input : OcspValidationInput) (is_embedded_response : bool) : Z :=
  if is_embedded_response then kEmbeddedEvidenceMaxAgeMinutes
  else if 0 <? oi_timeout_ms input then (oi_timeout_ms input + 59999) / 60000 else 1.

(** The checks up to the signature, in order: a failure with its status, or the response. *)
Definition check_response (input : OcspValidationInput) (response_body : bytes)
    (is_embedded_response : bool) : (RevocationStatus.t * string) + OCSPResponse_t :=
  match response_body with
  | [] => inl (RevocationStatus.Invalid, "OCSP response body is empty.")
  | _ =>
  match ocspresp_decode response_body with
  | None => inl (RevocationStatus.Invalid, "Failed to decode OCSP response.")
  | Some response =>
  match ocspresp_get_status response with
  | None => inl (RevocationStatus.Invalid, "Failed to read OCSP response status.")
  | Some None => inl (RevocationStatus.Invalid, "Failed to convert OCSP response status.")
  | Some (Some value) =>
  if negb (value =? 0)
  then inl (RevocationStatus.ResponderUnavailable, "OCSP responder returned non-success status.") else
  match ocspresp_response_ids response with
  | None => inl (RevocationStatus.Invalid, "OCSP successful response does not contain responseBytes.")
  | Some _ =>
  let validity_check := eocspreq_validate_resp response (ocsp_time (oi_validation_time input))
                          (timeout_minutes input is_embedded_response) in
  if negb (validity_check =? 0)
     && negb (validity_check =? RET_PKIX_OCSP_REQ_RESPONSE_NEXTUP_WARNING)
  then inl (RevocationStatus.Invalid, "OCSP response validity window check failed.") else
  match DecodeCertificateDer (oi_issuer_certificate_der input) with
  | None => inl (RevocationStatus.Invalid,
      "Failed to decode issuer certificate for OCSP response signature validation.")
  | Some issuer =>
  match verify_adapter_init_by_cert issuer with
  | None => inl (RevocationStatus.Invalid,
      "Failed to initialize OCSP response signature validation adapter.")
  | Some adapter =>
  if negb (ocspresp_verify response adapter)
     && negb (VerifyResponseWithDelegatedResponder response issuer)
  then inl (RevocationStatus.Invalid, "OCSP response signature validation failed.")
  else inr response
  end end end end end end.

Definition DecodeAndMapResponse (input : OcspValidationInput) (requested_cert_id : OcspCertIdFields)
    (response_body : bytes) (is_embedded_response : bool) (message : string) : Mapped :=
  match check_response input response_body is_embedded_response with
  | inl (status, message) => MkMapped status false 0 message
  | inr response =>
      MapOcspStatusForRequestedCertId requested_cert_id (ExtractResponseStatuses response) message
  end.

(** The body of the response to judge: the embedded one, or the answer of the responder. *)
Definition obtain_response (input : OcspValidationInput) (request_der : bytes)
    : HttpPostResult + bytes :=
  match oi_response_der input with
  | _ :: _ => inr (oi_response_der input)
  | [] =>
      let http := http_post (oi_url input) request_der "application/ocsp-request"
                    "application/ocsp-response" (oi_timeout_ms input) in
      if negb (hp_succeeded http) || (hp_status_code http <? 200) || (300 <=? hp_status_code http)
      then inl http else inr (hp_body http)
  end.

Definition is_embedded (input : OcspValidationInput) : bool :=
  match oi_response_der input with [] => false | _ => true end.

Definition is_conclusive (s : RevocationStatus.t) : bool :=
  bool_decide (s = RevocationStatus.Good) || bool_decide (s = RevocationStatus.Revoked).

Definition Validate (input : OcspValidationInput) : OcspValidationResult :=
  let result := OcspValidationResult_default in
  if str_empty (oi_url input) && negb (is_embedded input) then
    result <| or_message := "OCSP endpoint is not configured." |>
  else
  match BuildRequestDer input with
  | inl message => result <| or_message := message |>
  | inr (request_der, requested_cert_id) =>
      let result := result <| or_request_evidence_id := ComputeSha256Hex request_der |>
                           <| or_checked := true |> in
      match obtain_response input request_der with
      | inl http =>
          let result := result <| or_status := RevocationStatus.ResponderUnavailable |>
            <| or_message := if str_empty (hp_message http) then "OCSP responder unavailable."
                 else "OCSP responder unavailable: " +s+ hp_message http |> in
          match hp_body http with
          | [] => result
          | _ => result <| or_response_evidence_id := ComputeSha256Hex (hp_body http) |>
          end
      | inr response_body =>
          let mapped := DecodeAndMapResponse input requested_cert_id response_body (is_embedded input)
                          (or_message result) in
          let result := result <| or_responder_answered := true |>
            <| or_response_evidence_id := ComputeSha256Hex response_body |>
            <| or_status := mp_status mapped |> <| or_revoked := mp_revoked mapped |>
            <| or_revocation_time := mp_revocation_time mapped |>
            <| or_message := mp_message mapped |> in
          if is_conclusive (or_status result) then result <| or_response_der := response_body |>
          else result
      end
  end.

(** ** Lemmas *)

(** The statuses that [MapOcspStatusForRequestedCertId] reads. *)
Definition known_status (s : string) : bool := (s ==s "revoked") || (s ==s "good") || (s ==s "unknown").

(** The first record of the requested CertID with a known status. *)
Definition answer (requested : OcspCertIdFields) (statuses : list OcspMappedCertificateStatus)
    : option OcspMappedCertificateStatus :=
  List.find (fun e => bool_decide (om_cert_id e = requested) && known_status (om_status e)) statuses.

Lemma SameCertIdFields_spec (a b : OcspCertIdFields) :
  SameCertIdFields a b = bool_decide (b = a).
Proof.
  destruct a as [n k s], b as [n' k' s']. unfold SameCertIdFields. cbn.
  apply eq_true_iff_eq. rewrite !andb_true_iff, !bool_decide_eq_true. split.
  - by intros [[-> ->] ->].
  - by intros [= -> -> ->].
Qed.

Definition status_of_answer (a : option OcspMappedCertificateStatus) : RevocationStatus.t :=
  match a with
  | Some e => if om_status e ==s "revoked" then RevocationStatus.Revoked
              else if om_status e ==s "good" then RevocationStatus.Good else RevocationStatus.Unknown
  | None => RevocationStatus.Unknown
  end.

Lemma map_status_loop_answer (requested : OcspCertIdFields)
    (statuses : list OcspMappedCertificateStatus) (message : string) :
  mp_status (map_status_loop requested statuses message)
  = status_of_answer (answer requested statuses) /\
  mp_revoked (map_status_loop requested statuses message)
  = bool_decide (mp_status (map_status_loop requested statuses message) = RevocationStatus.Revoked).
Proof.
  induction statuses as [|e statuses IH]; [done|]. cbn [map_status_loop answer List.find].
  rewrite SameCertIdFields_spec. destruct (bool_decide (om_cert_id e = requested)); cbn [negb andb]; [|exact IH].
  unfold known_status. destruct (om_status e ==s "revoked") eqn:E1; cbn [orb]; [by cbn; rewrite E1|].
  destruct (om_status e ==s "good") eqn:E2; cbn [orb]; [by cbn; rewrite E1, E2|].
  destruct (om_status e ==s "unknown") eqn:E3; [by cbn; rewrite E1, E2|exact IH].
Qed.

(** The signature of the response under the issuer's key or a delegated responder's. *)
Definition authentic (response : OCSPResponse_t) (issuer : Certificate_t) : Prop :=
  (exists adapter, verify_adapter_init_by_cert issuer = Some adapter /\
     ocspresp_verify response adapter = true) \/
  (exists certs responder adapter, ocspresp_get_certs response = Some certs /\ responder ∈ certs /\
     VerifiedByIssuer responder issuer = true /\ HasOcspSigningEku responder = true /\
     verify_adapter_init_by_cert responder = Some adapter /\
     ocspresp_verify response adapter = true).

Lemma delegated_authentic (response : OCSPResponse_t) (issuer : Certificate_t) :
  VerifyResponseWithDelegatedResponder response issuer = true -> authentic response issuer.
Proof.
  unfold VerifyResponseWithDelegatedResponder. destruct (ocspresp_get_certs response) as [certs|] eqn:E;
    [|done].
  intros (responder & Hin & Hc)%existsb_exists. rewrite <- list_elem_of_In in Hin. right.
  unfold delegated_candidate in Hc.
  destruct (VerifiedByIssuer responder issuer) eqn:E1; [|done].
  destruct (HasOcspSigningEku responder) eqn:E2; [|done]. cbn in Hc.
  destruct (verify_adapter_init_by_cert responder) as [adapter|] eqn:E3; [|done].
  by exists certs, responder, adapter.
Qed.

Lemma check_response_ok (input : OcspValidationInput) (body : bytes) (embedded : bool)
    (response : OCSPResponse_t) :
  check_response input body embedded = inr response ->
  ocspresp_decode body = Some response /\ ocspresp_get_status response = Some (Some 0) /\
  (exists issuer, DecodeCertificateDer (oi_issuer_certificate_der input) = Some issuer /\
     authentic response issuer) /\
  (let rc := eocspreq_validate_resp response (ocsp_time (oi_validation_time input))
               (timeout_minutes input embedded) in
   rc = 0 \/ rc = RET_PKIX_OCSP_REQ_RESPONSE_NEXTUP_WARNING).
Proof.
  unfold check_response. destruct body as [|b body]; [done|].
  destruct (ocspresp_decode (b :: body)) as [r|]; [|done].
  destruct (ocspresp_get_status r) as [[v|]|] eqn:Es; [|done..].
  destruct (Z.eqb_spec v 0) as [->|]; [|done]. cbn [negb].
  destruct (ocspresp_response_ids r); [|done].
  destruct (negb (_ =? 0) && _) eqn:Ew; [done|].
  destruct (DecodeCertificateDer (oi_issuer_certificate_der input)) as [issuer|]; [|done].
  destruct (verify_adapter_init_by_cert issuer) as [adapter|] eqn:Ea; [|done].
  destruct (negb (ocspresp_verify r adapter) && _) eqn:Ev; [done|]. intros [= <-].
  split; [done|]. split; [done|]. split.
  - exists issuer. split; [done|]. apply andb_false_iff in Ev as [Ev|Ev]; apply negb_false_iff in Ev.
    + left. by exists adapter.
    + by apply delegated_authentic.
  - apply andb_false_iff in Ew as [Ew|Ew]; apply negb_false_iff, Z.eqb_eq in Ew; auto.
Qed.

Lemma check_response_inconclusive (input : OcspValidationInput) (body : bytes) (embedded : bool) :
  match check_response input body embedded with
  | inl (s, _) => is_conclusive s = false
  | inr _ => True
  end.
Proof.
  destruct (check_response input body embedded) as [[s m]|] eqn:E; [|done].
  revert E. unfold check_response. repeat case_match; intros; by simplify_eq.
Qed.

Lemma Validate_conclusive (input : OcspValidationInput) :
  is_conclusive (or_status (Validate input)) = true ->
  exists request_der requested body response,
    BuildRequestDer input = inr (request_der, requested) /\
    obtain_response input request_der = inr body /\
    check_response input body (is_embedded input) = inr response /\
    or_status (Validate input) = status_of_answer (answer requested (ExtractResponseStatuses response)) /\
    or_response_der (Validate input) = body /\ or_checked (Validate input) = true /\
    or_revoked (Validate input) = bool_decide (or_status (Validate input) = RevocationStatus.Revoked).
Proof.
  unfold Validate. destruct (str_empty (oi_url input) && _); [done|].
  destruct (BuildRequestDer input) as [m|[request_der requested]]; [done|].
  destruct (obtain_response input request_der) as [http|body] eqn:Eo; [by destruct (hp_body http)|].
  unfold DecodeAndMapResponse. pose proof (check_response_inconclusive input body (is_embedded input)) as Hi.
  destruct (check_response input body (is_embedded input)) as [[s m]|response] eqn:Ec.
  { cbn. rewrite Hi. cbn. by rewrite Hi. }
  destruct (ExtractResponseStatuses response) as [|e es] eqn:Es; [done|].
  unfold MapOcspStatusForRequestedCertId.
  destruct (map_status_loop_answer requested (e :: es) "") as [Hs Hr]. rewrite <- Es in *.
  cbn -[map_status_loop is_conclusive answer] in *.
  destruct (map_status_loop requested (ExtractResponseStatuses response) "") as [s rv t m]; cbn in *.
  destruct (is_conclusive s) eqn:Econ; cbn; [|by rewrite Econ].
  intros _. by exists request_der, requested, body, response.
Qed.

(** [C27] A conclusive OCSP answer is authentic and about the right certificate: the response decodes
    and is a success, its signature verifies under the issuer's key or under that of a responder certificate the issuer signed
    with the OCSPSigning extended key usage, and the status is that of the first record whose
    full CertID (both hashes and the serial number) is the one of the request for this
    certificate. *)
Theorem Ocsp_conclusive_is_authentic (input : OcspValidationInput) (r := Validate input) :
  or_status r = RevocationStatus.Good \/ or_status r = RevocationStatus.Revoked ->
  exists request_der requested response issuer,
    BuildRequestDer input = inr (request_der, requested) /\
    ocspresp_decode (or_response_der r) = Some response /\
    ocspresp_get_status response = Some (Some 0) /\
    DecodeCertificateDer (oi_issuer_certificate_der input) = Some issuer /\
    authentic response issuer /\
    or_status r = status_of_answer (answer requested (ExtractResponseStatuses response)) /\
    or_revoked r = bool_decide (or_status r = RevocationStatus.Revoked).
Proof.
  intros Hc. destruct (Validate_conclusive input)
    as (rd & rq & body & response & Hb & _ & Hk & Hs & Hbody & _ & Hr).
  { unfold is_conclusive. fold r. by destruct Hc as [-> | ->]. }
  fold r in Hs, Hbody, Hr.
  destruct (check_response_ok _ _ _ _ Hk) as (Hd & Hst & (issuer & Hi & Ha) & _).
  exists rd, rq, response, issuer. rewrite Hbody. auto 10.
Qed.

End Ocsp.

(** Attaching statuses by position never moves a status to another certificate and never
    invents one: the result has the CertIDs of the response in order, each with the status at
    its own position, and [unknown] where the library gave none or an empty one. *)
Theorem MergeOcspStatuses_positional (cert_ids api : list OcspMappedCertificateStatus) (i : nat) :
  (forall c, c ∈ cert_ids -> om_status c = "") ->
  MergeOcspStatusesByResponseOrder cert_ids api !! i =
  (fun c => MkOcspMapped (om_cert_id c)
     (match om_status <$> api !! i with
      | Some s => if str_empty s then "unknown" else s
      | None => "unknown"
      end)
     (match api !! i with Some a => om_revocation_time a | None => om_revocation_time c end))
  <$> cert_ids !! i.
Proof.
  revert api i. induction cert_ids as [|c cs IH]; intros api i He; [done|].
  assert (forall x, x ∈ cs -> om_status x = "") as He' by (intros x Hx; apply He; by right).
  assert (om_status c = "") as Hc by (apply He; left).
  destruct api as [|a api], i as [|i]; cbn; rewrite ?IH by done; try done.
  - by rewrite Hc.
  - destruct (om_status a) eqn:E; cbn; by rewrite ?E.
Qed.

Lemma MergeOcspStatuses_positional_witness :
  let ids := [MkOcspMapped (MkOcspCertIdFields [x01] [x02] [x03]) "" 0] in
  let api := [MkOcspMapped (MkOcspCertIdFields [] [] [x03]) "good" 0] in
  MergeOcspStatusesByResponseOrder ids api !! 0%nat
  = Some (MkOcspMapped (MkOcspCertIdFields [x01] [x02] [x03]) "good" 0).
Proof.
  cbn zeta. rewrite (MergeOcspStatuses_positional _ _ 0); [reflexivity|].
  intros c Hc. apply list_elem_of_singleton in Hc as ->. reflexivity.
Defined.

Section Witness.
#[local] Existing Instance toy_cert_api.
#[local] Existing Instance toy_clock.

(** A response is four bytes: status value, the signer of the response, the serial number it is
    about, and 0 for good. *)
Definition toy_ocsp_api : OcspApi := {|
  OCSPRequest_t := bytes;
  OCSPResponse_t := bytes;
  OcspRequestEngine := Z;
  eocspreq_generate_from_cert issuer signer := Some [to_u8 (toy_field signer 4)];
  digest_adapter_init_default := true;
  eocspreq_alloc adapter := Some (adapter : Z);
  eocspreq_add_cert engine signer := Some (toy_field signer 4);
  eocspreq_generate engine := Some [to_u8 engine];
  ocspreq_first_cert_id request := Some (MkCertID [] [] (Some request));
  ocspreq_encode request := Some request;
  ocspresp_decode der := if Nat.eqb (length der) 4 then Some der else None;
  ocspresp_get_status r := Some (Some (toy_field r 0));
  ocspresp_response_ids r := Some (Some [MkCertID [] [] (Some [to_u8 (toy_field r 2)])]);
  eocspreq_validate_resp r now minutes := 0;
  RET_PKIX_OCSP_REQ_RESPONSE_NEXTUP_WARNING := 27;
  ocspresp_verify r adapter := toy_field r 1 =? adapter;
  ocspresp_get_certs r := Some [];
  ocspresp_get_certs_status r :=
    Some [MkOcspCertStatus None (Some (if toy_field r 3 =? 0 then "good" else "revoked")) 400]
|}.

Definition toy_http : Http := {| http_post _ _ _ _ _ := MkHttpPostResult false 0 [] "" |}.

#[local] Existing Instance toy_ocsp_api.
#[local] Existing Instance toy_http.

Definition toy_ocsp_input (response : bytes) : OcspValidationInput :=
  OcspValidationInput_default <| oi_signer_certificate_der := toy_leaf |>
    <| oi_issuer_certificate_der := toy_ca |> <| oi_response_der := response |>.

Lemma Ocsp_conclusive_is_authentic_witness :
  or_status (Validate (toy_ocsp_input [x00; x02; x2a; x00])) = RevocationStatus.Good /\
  exists response, ocspresp_decode [x00; x02; x2a; x00] = Some response /\
    ocspresp_get_status response = Some (Some 0).
Proof.
  assert (or_status (Validate (toy_ocsp_input [x00; x02; x2a; x00])) = RevocationStatus.Good) as E
    by by vm_compute.
  split; [exact E|].
  destruct (Ocsp_conclusive_is_authentic (toy_ocsp_input [x00; x02; x2a; x00]) (or_introl E))
    as (rd & rq & response & issuer & _ & Hd & Hs & _).
  by exists response.
Defined.

(** Another signer, another serial number, an error status, a revocation. *)
Example Ocsp_examples :
  map (fun response => or_status (Validate (toy_ocsp_input response)))
    [[x00; x07; x2a; x00]; [x00; x02; x2b; x00]; [x03; x02; x2a; x00]; [x00; x02; x2a; x01]]
  = [RevocationStatus.Invalid; RevocationStatus.Unknown; RevocationStatus.ResponderUnavailable;
     RevocationStatus.Revoked].
Proof. by vm_compute. Qed.

End Witness.
