(* ===== verification/Revocation.v ===== *)
(** * Revocation: the revocation engine

    Models [core/validation/RevocationEngine.cpp]: embedded OCSP responses, then
    the local CRLs, then the network; the first conclusive answer wins, otherwise
    the most specific failure is kept.

    The engine is written against the interface [Validators] - what it relies on
    of the OCSP and CRL validators - and [tamga_validators] discharges it with the
    models of [Ocsp.v] and [Crl.v]. *)

From S2P Require Import Prelude CxxString Types Time Sha256 Cryptonite Fixture Crl Ocsp.

Local Open Scope Z_scope.

Module CertificateRole.
Inductive CertificateRole := Signer | IntermediateCa | Tsa | OcspResponder | CrlIssuer.
Abbreviation t := CertificateRole.
#[global] Instance eq_dec : EqDecision t.
Proof. solve_decision. Defined.
End CertificateRole.

Record RevocationEngineInput := MkRevocationEngineInput {
  ri_certificate_der : bytes;
  ri_issuer_certificate_der : bytes;
  ri_role : CertificateRole.t;
  ri_validation_time : string;
  ri_network_allowed : bool;
  ri_revocation_hard_fail : bool;
  ri_crls_der : list bytes;
  ri_embedded_ocsp_response : bytes;
  ri_embedded_ocsp_responses_der : list bytes;
  ri_ocsp_url : string
}.

#[export] Instance eta_RevocationEngineInput : Eta RevocationEngineInput := fun r =>
  MkRevocationEngineInput (ri_certificate_der r) (ri_issuer_certificate_der r) (ri_role r)
  (ri_validation_time r) (ri_network_allowed r) (ri_revocation_hard_fail r) (ri_crls_der r)
  (ri_embedded_ocsp_response r) (ri_embedded_ocsp_responses_der r) (ri_ocsp_url r).

Definition RevocationEngineInput_default : RevocationEngineInput :=
  MkRevocationEngineInput [] [] CertificateRole.Signer "" false false [] [] [] "".

Record RevocationEngineResult := MkRevocationEngineResult {
  rr_overall_status : OverallStatus.t;
  rr_revocation_status : RevocationStatus.t;
  rr_because : list string;
  rr_warnings : list string;
  rr_limitations : list string;
  rr_evidence_ids : list string;
  rr_revocation_time : Z;
  rr_ocsp_attempted : bool;
  rr_crl_attempted : bool
}.

#[export] Instance eta_RevocationEngineResult : Eta RevocationEngineResult := fun r =>
  MkRevocationEngineResult (rr_overall_status r) (rr_revocation_status r) (rr_because r)
  (rr_warnings r) (rr_limitations r) (rr_evidence_ids r) (rr_revocation_time r)
  (rr_ocsp_attempted r) (rr_crl_attempted r).

Definition RevocationEngineResult_default : RevocationEngineResult :=
  MkRevocationEngineResult OverallStatus.Indeterminate RevocationStatus.NotChecked [] [] [] [] 0
  false false.

Definition RoleToString (role : CertificateRole.t) : string :=
  match role with
  | CertificateRole.Signer => "Signer"
  | CertificateRole.IntermediateCa => "IntermediateCa"
  | CertificateRole.Tsa => "Tsa"
  | CertificateRole.OcspResponder => "OcspResponder"
  | CertificateRole.CrlIssuer => "CrlIssuer"
  end.

Definition DiagnosticRank (status : RevocationStatus.t) : Z :=
  match status with
  | RevocationStatus.Invalid => 4
  | RevocationStatus.Stale => 3
  | RevocationStatus.ResponderUnavailable => 2
  | RevocationStatus.Unknown => 1
  | _ => 0
  end.

(** ** What the engine relies on *)

Class Validators := {
  ocsp_validate : OcspValidationInput -> OcspValidationResult;
  crl_validate : CrlValidationInput -> CrlValidationResult;
  (** a conclusive status was checked *)
  ocsp_conclusive_checked : forall i,
    is_conclusive (or_status (ocsp_validate i)) = true -> or_checked (ocsp_validate i) = true;
  crl_conclusive_checked : forall i,
    is_conclusive (lr_status (crl_validate i)) = true -> lr_checked (crl_validate i) = true
}.

(** The local variables of the engine. *)
Record Progress := MkProgress {
  pg_result : RevocationEngineResult;
  pg_final_status : RevocationStatus.t;
  pg_final_revocation_time : Z;
  pg_detail_message : string
}.

#[export] Instance eta_Progress : Eta Progress := fun r =>
  MkProgress (pg_result r) (pg_final_status r) (pg_final_revocation_time r)
  (pg_detail_message r).

Definition KeepMoreSpecificFailure (status : RevocationStatus.t) (message : string) (p : Progress)
    : Progress :=
  if DiagnosticRank (pg_final_status p) <? DiagnosticRank status
  then p <| pg_final_status := status |> <| pg_detail_message := message |> else p.

Definition push_warning (w : string) (r : RevocationEngineResult) : RevocationEngineResult :=
  r <| rr_warnings ::= fun ws => ws ++ [w] |>.
Definition push_because (b : string) (r : RevocationEngineResult) : RevocationEngineResult :=
  r <| rr_because ::= fun bs => bs ++ [b] |>.
Definition push_evidence (id : string) (r : RevocationEngineResult) : RevocationEngineResult :=
  if str_empty id then r else r <| rr_evidence_ids ::= fun ids => ids ++ [id] |>.

Definition record_ocsp (res : OcspValidationResult) (r : RevocationEngineResult)
    : RevocationEngineResult :=
  push_evidence (or_response_evidence_id res)
    (push_evidence (or_request_evidence_id res)
       (r <| rr_ocsp_attempted ::= fun a => a || or_checked res |>)).

Definition conclude (status : RevocationStatus.t) (time : Z) (message : string) (p : Progress)
    : Progress :=
  p <| pg_final_status := status |> <| pg_final_revocation_time := time |>
    <| pg_detail_message := message |>.

(** The candidates: the single embedded response, then the list; empty ones are dropped. *)
Definition ocsp_candidates (input : RevocationEngineInput) : list bytes :=
  List.filter (fun c : bytes => match c with [] => false | _ => true end)
    (ri_embedded_ocsp_response input :: ri_embedded_ocsp_responses_der input).

Definition ocsp_input_of (input : RevocationEngineInput) (url : string) (response : bytes)
    : OcspValidationInput :=
  OcspValidationInput_default <| oi_url := url |>
    <| oi_signer_certificate_der := ri_certificate_der input |>
    <| oi_issuer_certificate_der := ri_issuer_certificate_der input |>
    <| oi_response_der := response |> <| oi_validation_time := ri_validation_time input |>.

Definition crl_input_of (input : RevocationEngineInput) : CrlValidationInput :=
  MkCrlValidationInput (ri_certificate_der input) (ri_issuer_certificate_der input)
    (ri_crls_der input) (ri_validation_time input).

Section Engine.
Context `{Clock, Validators}.

(** Stage 1: the embedded responses, up to the first conclusive one. *)
Fixpoint embedded_stage (input : RevocationEngineInput) (candidates : list bytes) (p : Progress)
    : Progress :=
  match candidates with
  | [] => p
  | response_der :: rest =>
      let ocsp_res := ocsp_validate (ocsp_input_of input "" response_der) in
      let p := p <| pg_result ::= record_ocsp ocsp_res |> in
      if or_checked ocsp_res && is_conclusive (or_status ocsp_res) then
        (conclude (or_status ocsp_res) (or_revocation_time ocsp_res) (or_message ocsp_res) p)
          <| pg_result ::= push_because "Використано вбудовану відповідь OCSP." |>
      else
        embedded_stage input rest
          ((KeepMoreSpecificFailure (or_status ocsp_res) (or_message ocsp_res) p)
             <| pg_result ::= push_warning
                  ("Вбудована відповідь OCSP не дала результату: " +s+ or_message ocsp_res) |>)
  end.

(** Stage 2: the local CRLs. *)
Definition crl_stage (input : RevocationEngineInput) (p : Progress) : Progress :=
  if is_conclusive (pg_final_status p) || match ri_crls_der input with [] => true | _ => false end
  then p else
  let crl_res := crl_validate (crl_input_of input) in
  let p := p <| pg_result ::= fun r =>
                  push_evidence (lr_crl_evidence_id crl_res)
                    (r <| rr_crl_attempted := lr_checked crl_res |>) |> in
  if lr_checked crl_res && is_conclusive (lr_status crl_res) then
    (conclude (lr_status crl_res) (lr_revocation_time crl_res) (lr_message crl_res) p)
      <| pg_result ::= push_because "Використано локальний CRL." |>
  else
    let p := KeepMoreSpecificFailure (lr_status crl_res) (lr_message crl_res) p in
    if lr_checked crl_res && (bool_decide (lr_status crl_res = RevocationStatus.Invalid)
                              || bool_decide (lr_status crl_res = RevocationStatus.Stale))
    then p <| pg_result ::= push_because
                ("Локальний CRL не дав чинного статусу: " +s+ lr_message crl_res) |>
    else p <| pg_result ::= push_warning
                ("Локальний CRL не дав результату: " +s+ lr_message crl_res) |>.

(** Stage 3: the network. *)
Definition network_stage (input : RevocationEngineInput) (p : Progress) : Progress :=
  if is_conclusive (pg_final_status p) then p else
  if ri_network_allowed input && negb (str_empty (ri_ocsp_url input)) then
    let ocsp_res := ocsp_validate (ocsp_input_of input (ri_ocsp_url input) []) in
    let p := p <| pg_result ::= record_ocsp ocsp_res |> in
    if or_checked ocsp_res && is_conclusive (or_status ocsp_res) then
      (conclude (or_status ocsp_res) (or_revocation_time ocsp_res) (or_message ocsp_res) p)
        <| pg_result ::= push_because "Отримано статус через мережевий OCSP." |>
    else
      let p := KeepMoreSpecificFailure (or_status ocsp_res) (or_message ocsp_res) p in
      p <| pg_result ::= push_warning
             ("Мережевий запит OCSP завершився статусом: " +s+ pg_detail_message p) |>
  else
    let r := pg_result p in
    let r := if negb (ri_network_allowed input)
             then push_warning "Мережевий доступ заборонено конфігурацією." r else r in
    let r := if str_empty (ri_ocsp_url input)
             then push_warning "Адресу OCSP не налаштовано." r else r in
    p <| pg_result := r |>.

(** The evaluation of the final status. *)
Definition evaluate (input : RevocationEngineInput) (validation_time_sec : Z) (p : Progress)
    : RevocationEngineResult :=
  let result := (pg_result p) <| rr_revocation_status := pg_final_status p |> in
  let t := pg_final_revocation_time p in
  let result :=
    match pg_final_status p with
    | RevocationStatus.Good =>
        push_because "Сертифікат не відкликано." (result <| rr_overall_status := OverallStatus.Valid |>)
    | RevocationStatus.Revoked =>
        if negb (t =? 0) && (validation_time_sec <? t) then
          push_warning ("Сертифікат був відкликаний у часі: " +s+ to_string t)
            (push_because "Сертифікат відкликано після моменту оцінки підпису (дійсний на момент підпису)."
               (result <| rr_overall_status := OverallStatus.Valid |>))
        else
          let result := push_because "Сертифікат відкликано до моменту оцінки підпису."
                          (result <| rr_overall_status := OverallStatus.Invalid |>) in
          if negb (t =? 0) then push_because ("Час відкликання: " +s+ to_string t) result else result
    | RevocationStatus.Invalid =>
        push_warning "revocation-check-invalid"
          (push_because ("Дані відкликання некоректні: " +s+ pg_detail_message p)
             (result <| rr_overall_status := OverallStatus.Indeterminate |>))
    | _ =>
        let result := push_because
          ("Не вдалося однозначно визначити статус відкликання: " +s+ pg_detail_message p) result in
        if ri_revocation_hard_fail input then
          push_warning "Сувора політика відкликання (hard fail): статус невизначено."
            (result <| rr_overall_status := OverallStatus.Indeterminate |>)
        else
          result <| rr_overall_status := OverallStatus.Indeterminate |>
            <| rr_limitations ::= fun l =>
                 l ++ ["М'яка політика відкликання (soft fail): статус не підтверджено."] |>
    end in
  result <| rr_revocation_time := t |>.

(** The moment of evaluation, and the warning when the text cannot be read. *)
Definition evaluation_time (input : RevocationEngineInput) (r : RevocationEngineResult)
    : Z * RevocationEngineResult :=
  if str_empty (ri_validation_time input) then (std_time, r) else
  match ParseIso8601Time (ri_validation_time input) with
  | Some t => (t, r)
  | None => (std_time, push_warning ("Не вдалося розпарсити validation_time: "
                                     +s+ ri_validation_time input) r)
  end.

Definition gather (input : RevocationEngineInput) (r : RevocationEngineResult) : Progress :=
  network_stage input (crl_stage input
    (embedded_stage input (ocsp_candidates input) (MkProgress r RevocationStatus.NotChecked 0 ""))).

Definition Validate (input : RevocationEngineInput) : RevocationEngineResult :=
  let result := push_because ("Роль сертифіката: " +s+ RoleToString (ri_role input))
                  RevocationEngineResult_default in
  match ri_certificate_der input with
  | [] => push_because "Помилка: сертифікат порожній."
            (result <| rr_overall_status := OverallStatus.Indeterminate |>
                    <| rr_revocation_status := RevocationStatus.NotChecked |>)
  | _ =>
      let '(validation_time_sec, result) := evaluation_time input result in
      evaluate input validation_time_sec (gather input result)
  end.

(** ** The sequence of attempts *)

(** The attempts the engine makes in order, with the time each reports. *)
Definition attempts (input : RevocationEngineInput) : list (RevocationStatus.t * Z) :=
  map (fun c => let r := ocsp_validate (ocsp_input_of input "" c) in
                (or_status r, or_revocation_time r)) (ocsp_candidates input)
  ++ (match ri_crls_der input with
      | [] => []
      | _ => let r := crl_validate (crl_input_of input) in [(lr_status r, lr_revocation_time r)]
      end)
  ++ (if ri_network_allowed input && negb (str_empty (ri_ocsp_url input))
      then let r := ocsp_validate (ocsp_input_of input (ri_ocsp_url input) []) in
           [(or_status r, or_revocation_time r)] else []).

Definition first_conclusive (l : list (RevocationStatus.t * Z)) : option (RevocationStatus.t * Z) :=
  List.find (fun a => is_conclusive a.1) l.

(** The most specific of the failures so far and the rest. *)
Definition most_specific (current : RevocationStatus.t) (l : list (RevocationStatus.t * Z))
    : RevocationStatus.t :=
  foldl (fun cur a => if DiagnosticRank cur <? DiagnosticRank a.1 then a.1 else cur) current l.

(** [p] is what the attempts [l] made of the status [cur]. *)
Definition outcome_of (cur : RevocationStatus.t) (l : list (RevocationStatus.t * Z)) (p : Progress) : Prop :=
  match first_conclusive l with
  | Some (s, t) => pg_final_status p = s /\ pg_final_revocation_time p = t
  | None => pg_final_status p = most_specific cur l
  end.

Lemma conclusive_checked_ocsp (i : OcspValidationInput) :
  or_checked (ocsp_validate i) && is_conclusive (or_status (ocsp_validate i))
  = is_conclusive (or_status (ocsp_validate i)).
Proof.
  destruct (is_conclusive _) eqn:E; [|by rewrite andb_false_r].
  by rewrite ocsp_conclusive_checked.
Qed.

Lemma conclusive_checked_crl (i : CrlValidationInput) :
  lr_checked (crl_validate i) && is_conclusive (lr_status (crl_validate i))
  = is_conclusive (lr_status (crl_validate i)).
Proof.
  destruct (is_conclusive _) eqn:E; [|by rewrite andb_false_r].
  by rewrite crl_conclusive_checked.
Qed.

Lemma KeepMoreSpecificFailure_status (s : RevocationStatus.t) (m : string) (p : Progress) :
  pg_final_status (KeepMoreSpecificFailure s m p)
  = if DiagnosticRank (pg_final_status p) <? DiagnosticRank s then s else pg_final_status p.
Proof. unfold KeepMoreSpecificFailure. by destruct (_ <? _). Qed.

Lemma embedded_stage_outcome (input : RevocationEngineInput) (candidates : list bytes) (p : Progress) :
  outcome_of (pg_final_status p)
    (map (fun c => let r := ocsp_validate (ocsp_input_of input "" c) in
                   (or_status r, or_revocation_time r)) candidates)
    (embedded_stage input candidates p).
Proof.
  unfold outcome_of, first_conclusive.
  revert p. induction candidates as [|c cs IH]; intros p; [done|].
  cbn [embedded_stage map List.find most_specific foldl fst]. rewrite conclusive_checked_ocsp.
  destruct (is_conclusive _); [done|].
  match goal with |- context [embedded_stage input cs ?q] => specialize (IH q) end.
  cbn [pg_final_status setter] in IH. rewrite KeepMoreSpecificFailure_status in IH. exact IH.
Qed.

Lemma most_specific_inconclusive (cur : RevocationStatus.t) (l : list (RevocationStatus.t * Z)) :
  is_conclusive cur = false -> first_conclusive l = None -> is_conclusive (most_specific cur l) = false.
Proof.
  revert cur. induction l as [|[s t] l IH]; intros cur Hc; cbn; [done|].
  destruct (is_conclusive s) eqn:Es; [done|]. intros Hl. apply IH; [|done]. by destruct (_ <? _).
Qed.

Lemma first_conclusive_some (l : list (RevocationStatus.t * Z)) (s : RevocationStatus.t) (t : Z) :
  first_conclusive l = Some (s, t) -> is_conclusive s = true /\ (s, t) ∈ l.
Proof.
  unfold first_conclusive. intros [Hin Hc]%find_some. by rewrite list_elem_of_In.
Qed.

Lemma find_app {A} (f : A -> bool) (l k : list A) :
  List.find f (l ++ k) = match List.find f l with Some a => Some a | None => List.find f k end.
Proof. induction l as [|a l IH]; cbn; [done|]. by destruct (f a). Qed.

(** Attempts in sequence. *)
Lemma outcome_app (cur : RevocationStatus.t) (l k : list (RevocationStatus.t * Z)) (p q : Progress) :
  is_conclusive cur = false ->
  outcome_of cur l p ->
  (is_conclusive (pg_final_status p) = true -> q = p) ->
  (is_conclusive (pg_final_status p) = false -> outcome_of (pg_final_status p) k q) ->
  outcome_of cur (l ++ k) q.
Proof.
  unfold outcome_of. intros Hcur Hp Hdone Hnext. unfold first_conclusive in *. rewrite find_app.
  destruct (List.find _ l) as [[s t]|] eqn:E.
  - destruct (first_conclusive_some l s t E) as [Hs _]. destruct Hp as [<- <-]. by rewrite Hdone.
  - pose proof (most_specific_inconclusive cur l Hcur E) as Hm. rewrite <- Hp in Hm.
    specialize (Hnext Hm). rewrite Hp in Hnext.
    destruct (List.find _ k) as [[s t]|]; [done|]. unfold most_specific. by rewrite foldl_app.
Qed.

Lemma crl_stage_outcome (input : RevocationEngineInput) (p : Progress) :
  is_conclusive (pg_final_status p) = false ->
  outcome_of (pg_final_status p)
    (match ri_crls_der input with
     | [] => []
     | _ => let r := crl_validate (crl_input_of input) in [(lr_status r, lr_revocation_time r)]
     end) (crl_stage input p).
Proof.
  intros Hp. unfold outcome_of, first_conclusive, crl_stage. rewrite Hp.
  destruct (ri_crls_der input) as [|c cs] eqn:Ec; cbn [orb]; [done|].
  cbn [List.find fst most_specific foldl]. rewrite conclusive_checked_crl.
  destruct (is_conclusive (lr_status _)); [done|].
  destruct (_ && (_ || _)); cbn [pg_final_status setter]; by rewrite KeepMoreSpecificFailure_status.
Qed.

Lemma network_stage_outcome (input : RevocationEngineInput) (p : Progress) :
  is_conclusive (pg_final_status p) = false ->
  outcome_of (pg_final_status p)
    (if ri_network_allowed input && negb (str_empty (ri_ocsp_url input))
      then let r := ocsp_validate (ocsp_input_of input (ri_ocsp_url input) []) in
           [(or_status r, or_revocation_time r)] else []) (network_stage input p).
Proof.
  intros Hp. unfold outcome_of, first_conclusive, network_stage. rewrite Hp.
  destruct (_ && _); [|done]. cbn [List.find fst most_specific foldl].
  rewrite conclusive_checked_ocsp. destruct (is_conclusive (or_status _)); [done|].
  cbn [pg_final_status setter]. by rewrite KeepMoreSpecificFailure_status.
Qed.

Lemma gather_outcome (input : RevocationEngineInput) (r : RevocationEngineResult) :
  outcome_of RevocationStatus.NotChecked (attempts input) (gather input r).
Proof.
  unfold gather, attempts.
  set (p1 := embedded_stage input (ocsp_candidates input) (MkProgress r RevocationStatus.NotChecked 0 "")).
  rewrite app_assoc. apply (outcome_app _ _ _ (crl_stage input p1)); [done| | |].
  - apply (outcome_app _ _ _ p1); [done| | |].
    + apply (embedded_stage_outcome input (ocsp_candidates input)
        (MkProgress r RevocationStatus.NotChecked 0 "")).
    + intros Hc. unfold crl_stage. by rewrite Hc.
    + apply crl_stage_outcome.
  - intros Hc. unfold network_stage. by rewrite Hc.
  - apply network_stage_outcome.
Qed.

Lemma evaluate_status (input : RevocationEngineInput) (now : Z) (p : Progress) :
  rr_revocation_status (evaluate input now p) = pg_final_status p /\
  rr_revocation_time (evaluate input now p) = pg_final_revocation_time p /\
  rr_overall_status (evaluate input now p) =
    match pg_final_status p with
    | RevocationStatus.Good => OverallStatus.Valid
    | RevocationStatus.Revoked =>
        if negb (pg_final_revocation_time p =? 0) && (now <? pg_final_revocation_time p)
        then OverallStatus.Valid else OverallStatus.Invalid
    | _ => OverallStatus.Indeterminate
    end.
Proof.
  unfold evaluate. destruct (pg_final_status p); cbn; repeat case_match; done.
Qed.

Lemma Validate_overall (input : RevocationEngineInput) :
  rr_overall_status (Validate input) = OverallStatus.Indeterminate \/
  exists now p, rr_overall_status (Validate input) = rr_overall_status (evaluate input now p) /\
    rr_revocation_status (Validate input) = pg_final_status p.
Proof.
  unfold Validate. destruct (ri_certificate_der input); [by left|]. right.
  destruct (evaluation_time input _) as [now r]. exists now, (gather input r). split; [done|].
  apply evaluate_status.
Qed.

(** The overall status is [Invalid] only for a revoked certificate, and never [IntegrityOnly]. *)
Lemma overall_invalid_revoked (input : RevocationEngineInput) :
  rr_overall_status (Validate input) = OverallStatus.Invalid ->
  rr_revocation_status (Validate input) = RevocationStatus.Revoked.
Proof.
  intros Hi. destruct (Validate_overall input) as [E|(now & p & E & ->)]; [congruence|].
  rewrite Hi in E. destruct (evaluate_status input now p) as (_ & _ & Ho). rewrite Ho in E.
  by destruct (pg_final_status p).
Qed.

Lemma overall_cases (input : RevocationEngineInput) :
  rr_overall_status (Validate input) = OverallStatus.Valid \/
  rr_overall_status (Validate input) = OverallStatus.Invalid \/
  rr_overall_status (Validate input) = OverallStatus.Indeterminate.
Proof.
  destruct (Validate_overall input) as [E|(now & p & -> & _)]; [auto|].
  destruct (evaluate_status input now p) as (_ & _ & ->).
  destruct (pg_final_status p); auto. destruct (_ && _); auto.
Qed.

(** A revocation that does not defeat the signature came after the moment of evaluation. *)
Lemma later_valid (input : RevocationEngineInput) :
  rr_revocation_status (Validate input) = RevocationStatus.Revoked ->
  rr_overall_status (Validate input) <> OverallStatus.Invalid ->
  rr_overall_status (Validate input) = OverallStatus.Valid.
Proof.
  unfold Validate. destruct (ri_certificate_der input); [done|].
  destruct (evaluation_time input _) as [now r].
  destruct (evaluate_status input now (gather input r)) as (-> & _ & ->). intros ->. by destruct (_ && _).
Qed.

Lemma overall_good (input : RevocationEngineInput) :
  rr_revocation_status (Validate input) = RevocationStatus.Good ->
  rr_overall_status (Validate input) = OverallStatus.Valid.
Proof.
  unfold Validate. destruct (ri_certificate_der input); [done|].
  destruct (evaluation_time input _) as [now r].
  destruct (evaluate_status input now (gather input r)) as (-> & _ & ->). by intros ->.
Qed.

(** A conclusive status comes from an attempt that is on record. *)
Definition on_record (p : Progress) : Prop :=
  is_conclusive (pg_final_status p) = true ->
  rr_ocsp_attempted (pg_result p) || rr_crl_attempted (pg_result p) = true.

Lemma push_evidence_flags (id : string) (r : RevocationEngineResult) :
  rr_ocsp_attempted (push_evidence id r) = rr_ocsp_attempted r /\
  rr_crl_attempted (push_evidence id r) = rr_crl_attempted r.
Proof. unfold push_evidence. by destruct (str_empty id). Qed.

Lemma record_ocsp_attempted (res : OcspValidationResult) (r : RevocationEngineResult) :
  or_checked res = true -> rr_ocsp_attempted (record_ocsp res r) = true.
Proof. intros Hc. unfold record_ocsp. rewrite !(proj1 (push_evidence_flags _ _)). cbn. by rewrite Hc, orb_true_r. Qed.

Lemma inconclusive_on_record (p : Progress) : is_conclusive (pg_final_status p) = false -> on_record p.
Proof. unfold on_record. congruence. Qed.

Lemma Keep_inconclusive (s : RevocationStatus.t) (m : string) (p : Progress) :
  is_conclusive s = false -> is_conclusive (pg_final_status p) = false ->
  is_conclusive (pg_final_status (KeepMoreSpecificFailure s m p)) = false.
Proof. rewrite KeepMoreSpecificFailure_status. by destruct (_ <? _). Qed.

Lemma embedded_stage_on_record (input : RevocationEngineInput) (candidates : list bytes) (p : Progress) :
  is_conclusive (pg_final_status p) = false -> on_record (embedded_stage input candidates p).
Proof.
  revert p. induction candidates as [|c cs IH]; intros p Hp; [by apply inconclusive_on_record|].
  cbn [embedded_stage]. rewrite conclusive_checked_ocsp. destruct (is_conclusive (or_status _)) eqn:E.
  - intros _. cbn [pg_result setter conclude push_because rr_ocsp_attempted].
    apply orb_true_iff. left. apply record_ocsp_attempted. by apply ocsp_conclusive_checked.
  - apply IH. by apply Keep_inconclusive.
Qed.

Lemma crl_stage_on_record (input : RevocationEngineInput) (p : Progress) :
  on_record p -> on_record (crl_stage input p).
Proof.
  intros Hp. unfold crl_stage. destruct (is_conclusive (pg_final_status p)) eqn:Ec; [done|].
  cbn [orb]. destruct (ri_crls_der input) as [|c l]; [done|].
  rewrite conclusive_checked_crl. destruct (is_conclusive (lr_status _)) eqn:E.
  - intros _. cbn [pg_result setter conclude push_because].
    apply orb_true_iff. right. cbn. rewrite (proj2 (push_evidence_flags _ _)). by apply crl_conclusive_checked.
  - apply inconclusive_on_record. destruct (_ && (_ || _)); by apply Keep_inconclusive.
Qed.

Lemma network_stage_on_record (input : RevocationEngineInput) (p : Progress) :
  on_record p -> on_record (network_stage input p).
Proof.
  intros Hp. unfold network_stage. destruct (is_conclusive (pg_final_status p)) eqn:Ec; [done|].
  destruct (_ && _); [|by apply inconclusive_on_record].
  rewrite conclusive_checked_ocsp. destruct (is_conclusive (or_status _)) eqn:E.
  - intros _. cbn [pg_result setter conclude push_because rr_ocsp_attempted].
    apply orb_true_iff. left. apply record_ocsp_attempted. by apply ocsp_conclusive_checked.
  - apply inconclusive_on_record. by apply Keep_inconclusive.
Qed.

Lemma evaluate_flags (input : RevocationEngineInput) (now : Z) (p : Progress) :
  rr_ocsp_attempted (evaluate input now p) = rr_ocsp_attempted (pg_result p) /\
  rr_crl_attempted (evaluate input now p) = rr_crl_attempted (pg_result p).
Proof. unfold evaluate. destruct (pg_final_status p); cbn; repeat case_match; done. Qed.

Lemma conclusive_attempted (input : RevocationEngineInput) :
  is_conclusive (rr_revocation_status (Validate input)) = true ->
  rr_ocsp_attempted (Validate input) || rr_crl_attempted (Validate input) = true.
Proof.
  unfold Validate. destruct (ri_certificate_der input); [done|].
  destruct (evaluation_time input _) as [now r].
  destruct (evaluate_status input now (gather input r)) as (-> & _ & _).
  destruct (evaluate_flags input now (gather input r)) as [-> ->].
  apply network_stage_on_record, crl_stage_on_record, embedded_stage_on_record. done.
Qed.

(** [C28] The revocation verdict is decided by the first conclusive attempt in a fixed order -
    embedded OCSP responses, local CRLs, network OCSP - and by nothing else: its status and time
    are reported, the overall status is [Valid] for [Good] or for a revocation after the moment
    of evaluation, [Invalid] for any other revocation; and without a conclusive attempt the
    status is the most specific failure seen and the overall status is [Indeterminate], never
    [Valid]. *)
Theorem Revocation_first_conclusive (input : RevocationEngineInput) (r := Validate input)
    (now := (evaluation_time input RevocationEngineResult_default).1) :
  ri_certificate_der input <> [] ->
  match first_conclusive (attempts input) with
  | Some (status, time) =>
      rr_revocation_status r = status /\ rr_revocation_time r = time /\
      rr_overall_status r =
        (if bool_decide (status = RevocationStatus.Good) then OverallStatus.Valid
         else if negb (time =? 0) && (now <? time) then OverallStatus.Valid
         else OverallStatus.Invalid)
  | None =>
      rr_revocation_status r = most_specific RevocationStatus.NotChecked (attempts input) /\
      rr_overall_status r = OverallStatus.Indeterminate
  end.
Proof.
  intros Hne. subst r now. unfold Validate. destruct (ri_certificate_der input); [done|].
  set (r0 := push_because _ _).
  assert ((evaluation_time input r0).1 = (evaluation_time input RevocationEngineResult_default).1) as <-.
  { unfold evaluation_time. destruct (str_empty _); [done|]. by destruct (ParseIso8601Time _). }
  destruct (evaluation_time input r0) as [now r1]. cbn [fst].
  destruct (evaluate_status input now (gather input r1)) as (-> & -> & ->).
  pose proof (gather_outcome input r1) as G. unfold outcome_of in G.
  destruct (first_conclusive (attempts input)) as [[s t]|] eqn:E.
  - destruct G as [-> ->]. destruct (first_conclusive_some _ _ _ E) as [Hc _].
    split; [done|]. split; [done|]. by destruct s.
  - rewrite G. split; [done|].
    pose proof (most_specific_inconclusive RevocationStatus.NotChecked _ eq_refl E) as Hm.
    by destruct (most_specific _ _).
Qed.

End Engine.

(** ** The validators of the project satisfy the interface *)

Section Instance_.
Context `{Clock, Http, !CertApi, !CrlApi, !OcspApi}.

Lemma Ocsp_conclusive_checked (i : OcspValidationInput) :
  is_conclusive (or_status (Ocsp.Validate i)) = true -> or_checked (Ocsp.Validate i) = true.
Proof. intros Hc. by destruct (Validate_conclusive i Hc) as (? & ? & ? & ? & _ & _ & _ & _ & _ & ? & _). Qed.

Lemma Crl_conclusive_checked (i : CrlValidationInput) :
  is_conclusive (lr_status (Crl.Validate i)) = true -> lr_checked (Crl.Validate i) = true.
Proof.
  intros [Hg|Hr]%orb_true_iff.
  - apply bool_decide_eq_true in Hg. by apply Validate_good_checked.
  - apply bool_decide_eq_true in Hr. by apply Validate_revoked_checked.
Qed.

#[global] Instance tamga_validators : Validators := {|
  ocsp_validate := Ocsp.Validate;
  crl_validate := Crl.Validate;
  ocsp_conclusive_checked := Ocsp_conclusive_checked;
  crl_conclusive_checked := Crl_conclusive_checked
|}.
End Instance_.

(** ** No network when the configuration forbids it *)

Section Offline.
Context `{Clock} (v1 v2 : Validators).
Context (same_crl : forall i, crl_validate (Validators := v1) i = crl_validate (Validators := v2) i).
Context (same_embedded : forall i, oi_response_der i <> [] ->
  ocsp_validate (Validators := v1) i = ocsp_validate (Validators := v2) i).

Lemma embedded_stage_same (input : RevocationEngineInput) (candidates : list bytes) (p : Progress) :
  (forall c, c ∈ candidates -> c <> []) ->
  embedded_stage (H0 := v1) input candidates p = embedded_stage (H0 := v2) input candidates p.
Proof.
  revert p. induction candidates as [|c cs IH]; intros p Hne; [done|]. cbn [embedded_stage].
  rewrite same_embedded by (cbn; apply Hne; left). case_match; [done|].
  apply IH. intros x Hx. apply Hne. by right.
Qed.

Lemma ocsp_candidates_nonempty (input : RevocationEngineInput) (c : bytes) :
  c ∈ ocsp_candidates input -> c <> [].
Proof.
  unfold ocsp_candidates. rewrite list_elem_of_In. intros [_ Hc]%filter_In. by destruct c.
Qed.

Lemma offline_same (input : RevocationEngineInput) :
  ri_network_allowed input = false -> Validate (H0 := v1) input = Validate (H0 := v2) input.
Proof.
  intros Hoff. unfold Validate. destruct (ri_certificate_der input); [done|].
  destruct (evaluation_time input _) as [now r]. f_equal. unfold gather.
  rewrite embedded_stage_same by apply ocsp_candidates_nonempty.
  unfold network_stage, crl_stage. by rewrite Hoff, same_crl.
Qed.
End Offline.

(** A response that is already at hand is judged without the network. *)
Lemma Ocsp_embedded_no_network `{Clock, !CertApi, !OcspApi} (h1 h2 : Http) (i : OcspValidationInput) :
  oi_response_der i <> [] -> Ocsp.Validate (H0 := h1) i = Ocsp.Validate (H0 := h2) i.
Proof.
  intros Hne. unfold Ocsp.Validate, obtain_response.
  destruct (oi_response_der i) as [|b bs] eqn:E; [done|]. reflexivity.
Qed.

(** With network access forbidden the engine consults no responder: whatever any server would
    answer, the result - verdict, reasons, warnings, evidence - is the same. *)
Theorem Revocation_offline_ignores_network `{Clock, !CertApi, !CrlApi, !OcspApi} (h1 h2 : Http)
    (input : RevocationEngineInput) :
  ri_network_allowed input = false ->
  Validate (H0 := tamga_validators (H0 := h1)) input
  = Validate (H0 := tamga_validators (H0 := h2)) input.
Proof.
  apply (offline_same (tamga_validators (H0 := h1)) (tamga_validators (H0 := h2))).
  - done.
  - intros i Hi. by apply (Ocsp_embedded_no_network h1 h2).
Qed.

Section Witness.
#[local] Existing Instance toy_clock.
#[local] Existing Instance toy_cert_api.
#[local] Existing Instance toy_crl_api.
#[local] Existing Instance toy_ocsp_api.

Definition toy_revocation_input : RevocationEngineInput :=
  RevocationEngineInput_default <| ri_certificate_der := toy_leaf |>
    <| ri_issuer_certificate_der := toy_ca |>
    <| ri_embedded_ocsp_responses_der := [[x00; x07; x2a; x00]] |>
    <| ri_crls_der := [toy_crl_empty] |> <| ri_ocsp_url := "http://ocsp" |>.

(** A forged embedded response is skipped and the list decides. *)
Lemma Revocation_first_conclusive_witness :
  ri_certificate_der toy_revocation_input <> [] /\
  rr_overall_status (Validate (H0 := tamga_validators (H0 := toy_http)) toy_revocation_input)
  = OverallStatus.Valid.
Proof.
  assert (ri_certificate_der toy_revocation_input <> []) as Hne by discriminate.
  split; [exact Hne|].
  pose proof (Revocation_first_conclusive (H0 := tamga_validators (H0 := toy_http))
    toy_revocation_input Hne) as E.
  assert (first_conclusive (attempts (H0 := tamga_validators (H0 := toy_http)) toy_revocation_input)
    = Some (RevocationStatus.Good, 0)) as F by by vm_compute.
  rewrite F in E. apply E.
Defined.

Lemma Revocation_offline_ignores_network_witness :
  let any_http := {| http_post _ _ _ _ _ := MkHttpPostResult true 200 [x00; x02; x2a; x01] "" |} in
  ri_network_allowed toy_revocation_input = false /\
  Validate (H0 := tamga_validators (H0 := toy_http)) toy_revocation_input
  = Validate (H0 := tamga_validators (H0 := any_http)) toy_revocation_input.
Proof.
  intros any_http. split; [reflexivity|].
  apply (Revocation_offline_ignores_network toy_http any_http toy_revocation_input). reflexivity.
Defined.
End Witness.
