(* ===== verification/Resolvers.v ===== *)
(** * Resolvers: the policy of a validation and the time a signature is judged at

    Models [core/validation/PolicyResolver.cpp] and
    [core/validation/SigningTimeResolver.cpp]. *)

From S2P Require Import Prelude CxxString Types.

(** ** [PolicyResolver] *)

(** Every value of the enumerations is known; a value outside them cannot be written here. *)
Definition IsKnownProfile (profile : ValidationProfile.t) : bool :=
  match profile with
  | ValidationProfile.Strict | ValidationProfile.Compatibility | ValidationProfile.UkraineLegal
  | ValidationProfile.Offline | ValidationProfile.Forensic => true
  end.

Definition IsKnownLevel (level : ValidationLevel.t) : bool :=
  match level with
  | ValidationLevel.Basic | ValidationLevel.Standard | ValidationLevel.Extended
  | ValidationLevel.Forensic => true
  end.

Definition IsStandardOrHigher (level : ValidationLevel.t) : bool :=
  bool_decide (level = ValidationLevel.Standard) || bool_decide (level = ValidationLevel.Extended)
  || bool_decide (level = ValidationLevel.Forensic).

Definition IsExtendedOrHigher (level : ValidationLevel.t) : bool :=
  bool_decide (level = ValidationLevel.Extended) || bool_decide (level = ValidationLevel.Forensic).

Definition ResolveWorkDirPaths (work_dir : string) (plan : ValidationPlan) : ValidationPlan :=
  if str_empty work_dir then plan else
  plan <| pl_trust_store_path := path_append work_dir "trust-store" |>
       <| pl_historical_trust_store_path := path_append work_dir "historical-trust-store" |>.

Definition PolicyResolver_Resolve (context : ValidationContext) : ResolvedValidationPolicy :=
  let plan := ResolveWorkDirPaths (vc_work_dir context) ValidationPlan_default in
  let policy := ValidationPolicy_default in
  let level := vc_level context in
  if negb (IsKnownProfile (vc_profile context)) || negb (IsKnownLevel level) then
    MkResolvedValidationPolicy (policy <| vp_revocation_hard_fail := true |>)
      (plan <| pl_network_allowed := false |>)
  else
  let plan := plan <| pl_network_allowed := negb (vc_offline context) |> in
  match vc_profile context with
  | ValidationProfile.Strict =>
      MkResolvedValidationPolicy
        (policy <| vp_trust_anchor_policy := TrustAnchorPolicy.CurrentTLOnly |>
                <| vp_revocation_hard_fail := IsStandardOrHigher level |>) plan
  | ValidationProfile.Compatibility =>
      MkResolvedValidationPolicy
        (policy <| vp_trust_anchor_policy := TrustAnchorPolicy.ExplicitLegacyAnchorBundle |>
                <| vp_allow_historical_trust := true |>
                <| vp_revocation_hard_fail := IsExtendedOrHigher level |>) plan
  | ValidationProfile.UkraineLegal =>
      MkResolvedValidationPolicy
        (policy <| vp_trust_anchor_policy := TrustAnchorPolicy.HistoricalAtSigningTime |>
                <| vp_allow_historical_trust := true |>
                <| vp_revocation_hard_fail := IsStandardOrHigher level |>
                <| vp_require_trusted_signing_time := IsExtendedOrHigher level |>
                <| vp_require_service_level_trust := IsExtendedOrHigher level |>) plan
  | ValidationProfile.Offline =>
      MkResolvedValidationPolicy
        (policy <| vp_trust_anchor_policy := TrustAnchorPolicy.CustomTrustStore |>
                <| vp_revocation_hard_fail := IsStandardOrHigher level |>)
        (plan <| pl_network_allowed := false |>)
  | ValidationProfile.Forensic =>
      MkResolvedValidationPolicy
        (policy <| vp_trust_anchor_policy := TrustAnchorPolicy.ForensicAllPossible |>
                <| vp_revocation_hard_fail := IsStandardOrHigher level |>
                <| vp_forensic_diagnostics := true |>) plan
  end.

(** Requirements that only ever make a verdict stricter. *)
Definition stricter_or_equal (a b : ValidationPolicy) : Prop :=
  (vp_revocation_hard_fail b = true -> vp_revocation_hard_fail a = true) /\
  (vp_require_trusted_signing_time b = true -> vp_require_trusted_signing_time a = true) /\
  (vp_require_service_level_trust b = true -> vp_require_service_level_trust a = true) /\
  vp_allow_historical_trust a = vp_allow_historical_trust b /\
  vp_trust_anchor_policy a = vp_trust_anchor_policy b.

(** Raising the validation level of a profile never relaxes its policy: no requirement is
    dropped and the trust anchors stay the same; and the network is allowed only when the caller
    did not ask for offline work and the profile is not the offline one. *)
Theorem PolicyResolver_monotone (context : ValidationContext) (level : ValidationLevel.t) :
  ValidationLevel.geb level (vc_level context) = true ->
  stricter_or_equal (rp_policy (PolicyResolver_Resolve (context <| vc_level := level |>)))
    (rp_policy (PolicyResolver_Resolve context)) /\
  (pl_network_allowed (rp_plan (PolicyResolver_Resolve context)) = true <->
   vc_offline context = false /\ vc_profile context <> ValidationProfile.Offline).
Proof.
  destruct context as [profile lv vt offline wd cms ct ocsp crl url valid].
  intros Hge. cbn in Hge. unfold PolicyResolver_Resolve, stricter_or_equal. cbn. split.
  - destruct profile, lv, level; cbn in *; by try discriminate Hge.
  - unfold ResolveWorkDirPaths. destruct profile, lv, offline, (str_empty wd); cbn; naive_solver.
Qed.

Lemma PolicyResolver_monotone_witness :
  let context := ValidationContext_default <| vc_profile := ValidationProfile.UkraineLegal |> in
  ValidationLevel.geb ValidationLevel.Extended (vc_level context) = true /\
  stricter_or_equal
    (rp_policy (PolicyResolver_Resolve (context <| vc_level := ValidationLevel.Extended |>)))
    (rp_policy (PolicyResolver_Resolve context)).
Proof.
  intros context. split; [reflexivity|].
  apply (PolicyResolver_monotone context ValidationLevel.Extended). reflexivity.
Defined.

(** ** [SigningTimeResolver] *)

Definition kRfc3161TimestampNotCryptographicallyValid : string := "rfc3161-timestamp-not-cryptographically-valid".
Definition kRfc3161TimestampNotTrusted : string := "rfc3161-timestamp-not-trusted".
Definition kRfc3161TimestampTimeUnavailable : string := "rfc3161-timestamp-time-unavailable".
Definition kClaimedSigningTimeNotCryptographicallyProven : string :=
  "claimed-signing-time-not-cryptographically-proven".
Definition kVerificationTimeFallbackUsed : string := "verification-time-fallback-used".
Definition kSigningTimeDerivedFromVerificationTime : string := "signing-time-derived-from-verification-time".
Definition kSigningTimeUnavailable : string := "signing-time-unavailable".
Definition kTrustedSigningTimeRequired : string := "trusted-signing-time-required".

Definition WithEvidenceId (code evidence_id : string) : string :=
  if str_empty evidence_id then code else code +s+ ":" +s+ evidence_id.

Definition ApplyTrustedTimeRequirement (policy : ValidationPolicy) (resolution : SigningTimeResolution)
    : SigningTimeResolution :=
  if vp_require_trusted_signing_time policy && negb (st_trusted_time resolution)
  then resolution <| st_limitations ::= fun l => l ++ [kTrustedSigningTimeRequired] |> else resolution.

(** The body of the diagnostics loop. *)
Definition collect_one (resolution : SigningTimeResolution) (candidate : SigningTimeCandidate)
    : SigningTimeResolution :=
  if negb (bool_decide (tc_source candidate = SigningTimeSource.Rfc3161Timestamp)) then resolution else
  let resolution := if negb (tc_cryptographically_valid candidate)
    then resolution <| st_warnings ::= fun w => w ++
           [WithEvidenceId kRfc3161TimestampNotCryptographicallyValid (tc_evidence_id candidate)] |>
    else resolution in
  let resolution := if negb (tc_trusted candidate)
    then resolution <| st_limitations ::= fun l => l ++
           [WithEvidenceId kRfc3161TimestampNotTrusted (tc_evidence_id candidate)] |>
    else resolution in
  let resolution := if str_empty (tc_time candidate)
    then resolution <| st_limitations ::= fun l => l ++
           [WithEvidenceId kRfc3161TimestampTimeUnavailable (tc_evidence_id candidate)] |>
    else resolution in
  resolution <| st_warnings ::= fun w => w ++ tc_warnings candidate |>.

Definition CollectSkippedRfc3161Diagnostics (candidates : list SigningTimeCandidate)
    (resolution : SigningTimeResolution) : SigningTimeResolution :=
  foldl collect_one resolution candidates.

Definition is_trusted_timestamp (candidate : SigningTimeCandidate) : bool :=
  bool_decide (tc_source candidate = SigningTimeSource.Rfc3161Timestamp)
  && tc_cryptographically_valid candidate && tc_trusted candidate
  && negb (str_empty (tc_time candidate)).

Definition is_claimed_time (candidate : SigningTimeCandidate) : bool :=
  bool_decide (tc_source candidate = SigningTimeSource.ClaimedSigningTime)
  && negb (str_empty (tc_time candidate)).

Definition SigningTimeResolver_Resolve (candidates : list SigningTimeCandidate)
    (context : ValidationContext) (policy : ValidationPolicy) : SigningTimeResolution :=
  match List.find is_trusted_timestamp candidates with
  | Some c =>
      SigningTimeResolution_default <| st_signature_evaluation_time := tc_time c |>
        <| st_source := SigningTimeSource.Rfc3161Timestamp |>
        <| st_confidence := SigningTimeConfidence.Trusted |>
        <| st_evidence_id := tc_evidence_id c |>
        <| st_warnings ::= fun w => w ++ tc_warnings c |>
        <| st_trusted_time := true |>
  | None =>
  let resolution := CollectSkippedRfc3161Diagnostics candidates SigningTimeResolution_default in
  match List.find is_claimed_time candidates with
  | Some c =>
      let resolution := resolution <| st_signature_evaluation_time := tc_time c |>
        <| st_source := SigningTimeSource.ClaimedSigningTime |>
        <| st_confidence := SigningTimeConfidence.Claimed |>
        <| st_evidence_id := tc_evidence_id c |>
        <| st_trusted_time := false |>
        <| st_warnings ::= fun w => w ++ tc_warnings c |> in
      let resolution := if negb (tc_cryptographically_valid c)
        then resolution <| st_warnings ::= fun w =>
               w ++ [kClaimedSigningTimeNotCryptographicallyProven] |>
        else resolution in
      ApplyTrustedTimeRequirement policy resolution
  | None =>
  if negb (str_empty (vc_verification_time context)) then
    ApplyTrustedTimeRequirement policy
      (resolution <| st_signature_evaluation_time := vc_verification_time context |>
         <| st_source := SigningTimeSource.VerificationTimeFallback |>
         <| st_confidence := SigningTimeConfidence.Fallback |>
         <| st_trusted_time := false |>
         <| st_warnings ::= fun w => w ++ [kVerificationTimeFallbackUsed] |>
         <| st_limitations ::= fun l => l ++ [kSigningTimeDerivedFromVerificationTime] |>)
  else
    ApplyTrustedTimeRequirement policy
      (resolution <| st_limitations ::= fun l => l ++ [kSigningTimeUnavailable] |>)
  end
  end.

Lemma collect_one_time (r : SigningTimeResolution) (c : SigningTimeCandidate) :
  st_trusted_time (collect_one r c) = st_trusted_time r /\
  st_source (collect_one r c) = st_source r /\
  st_signature_evaluation_time (collect_one r c) = st_signature_evaluation_time r.
Proof. unfold collect_one. by repeat case_match. Qed.

Lemma collect_time (candidates : list SigningTimeCandidate) (r : SigningTimeResolution) :
  st_trusted_time (CollectSkippedRfc3161Diagnostics candidates r) = st_trusted_time r /\
  st_source (CollectSkippedRfc3161Diagnostics candidates r) = st_source r /\
  st_signature_evaluation_time (CollectSkippedRfc3161Diagnostics candidates r)
  = st_signature_evaluation_time r.
Proof.
  unfold CollectSkippedRfc3161Diagnostics. revert r.
  induction candidates as [|c cs IH]; intros r; [done|]. cbn.
  destruct (IH (collect_one r c)) as (-> & -> & ->). apply collect_one_time.
Qed.

Lemma ApplyTrustedTimeRequirement_spec (policy : ValidationPolicy) (r : SigningTimeResolution) :
  st_trusted_time (ApplyTrustedTimeRequirement policy r) = st_trusted_time r /\
  st_source (ApplyTrustedTimeRequirement policy r) = st_source r /\
  st_signature_evaluation_time (ApplyTrustedTimeRequirement policy r) = st_signature_evaluation_time r /\
  (vp_require_trusted_signing_time policy = true -> st_trusted_time r = false ->
   kTrustedSigningTimeRequired ∈ st_limitations (ApplyTrustedTimeRequirement policy r)).
Proof.
  unfold ApplyTrustedTimeRequirement.
  destruct (vp_require_trusted_signing_time policy), (st_trusted_time r) eqn:E; cbn;
    split_and!; try done. intros _ _. rewrite elem_of_app, list_elem_of_singleton. by right.
Qed.

(** The time that the rules of precedence choose, with its source. *)
Definition chosen_time (candidates : list SigningTimeCandidate) (context : ValidationContext)
    : SigningTimeSource.t * string :=
  match List.find is_trusted_timestamp candidates, List.find is_claimed_time candidates with
  | Some c, _ => (SigningTimeSource.Rfc3161Timestamp, tc_time c)
  | None, Some c => (SigningTimeSource.ClaimedSigningTime, tc_time c)
  | None, None =>
      if str_empty (vc_verification_time context) then (SigningTimeSource.Unavailable, "")
      else (SigningTimeSource.VerificationTimeFallback, vc_verification_time context)
  end.

(** The time a signature is judged at follows a strict precedence - a trusted, cryptographically
    valid RFC 3161 timestamp, the claimed signing time, the verification time - and it counts as
    trusted only when such a timestamp exists: no claimed time and no untrusted or broken
    timestamp is ever promoted.  When the policy requires a trusted time and there is none, the
    limitation that says so is recorded. *)
Theorem SigningTimeResolver_precedence (candidates : list SigningTimeCandidate)
    (context : ValidationContext) (policy : ValidationPolicy)
    (r := SigningTimeResolver_Resolve candidates context policy) :
  (st_source r, st_signature_evaluation_time r) = chosen_time candidates context /\
  (st_trusted_time r = true <-> exists c, c ∈ candidates /\ is_trusted_timestamp c = true) /\
  (vp_require_trusted_signing_time policy = true -> st_trusted_time r = false ->
   kTrustedSigningTimeRequired ∈ st_limitations r).
Proof.
  subst r. unfold SigningTimeResolver_Resolve, chosen_time.
  destruct (List.find is_trusted_timestamp candidates) as [c|] eqn:Et.
  { split; [done|]. apply find_some in Et as [Hin Hc]. rewrite <- list_elem_of_In in Hin.
    split; [|done]. split; [|done]. intros _. by exists c. }
  assert (~ exists c, c ∈ candidates /\ is_trusted_timestamp c = true) as Hno.
  { intros (c & Hin & Hc). rewrite list_elem_of_In in Hin.
    pose proof (find_none _ _ Et c Hin). congruence. }
  destruct (collect_time candidates SigningTimeResolution_default) as (Ht & Hs & He).
  assert (forall r0, st_trusted_time r0 = false ->
    (st_trusted_time (ApplyTrustedTimeRequirement policy r0) = true <->
     exists c, c ∈ candidates /\ is_trusted_timestamp c = true) /\
    (vp_require_trusted_signing_time policy = true ->
     st_trusted_time (ApplyTrustedTimeRequirement policy r0) = false ->
     kTrustedSigningTimeRequired ∈ st_limitations (ApplyTrustedTimeRequirement policy r0))) as Hreq.
  { intros r0 E. destruct (ApplyTrustedTimeRequirement_spec policy r0) as (-> & _ & _ & Hl).
    rewrite E. split; [by split|]. auto. }
  destruct (List.find is_claimed_time candidates) as [c|].
  - match goal with |- context [ApplyTrustedTimeRequirement policy ?x] => set (r0 := x) end.
    destruct (ApplyTrustedTimeRequirement_spec policy r0) as (_ & -> & -> & _).
    split; [by subst r0; case_match|]. apply Hreq. subst r0. by case_match.
  - destruct (str_empty (vc_verification_time context)); cbn [negb];
      match goal with |- context [ApplyTrustedTimeRequirement policy ?x] => set (r0 := x) end;
      destruct (ApplyTrustedTimeRequirement_spec policy r0) as (_ & -> & -> & _);
      (split; [by subst r0; cbn; rewrite ?Hs, ?He|apply Hreq; by subst r0; cbn; rewrite ?Ht]).
Qed.
