(* ===== verification/TrustList.v ===== *)
(** * TrustList: the trusted list of services

    Models the helpers of [xml/XmlCore.h], [core/policy/TrustListParser.cpp] and
    [core/validation/TrustServiceEvaluator.cpp].  The XML parser itself is
    libxml2: the class [LibXml] gives the document that [xmlReadMemory] builds, as
    a tree; the directory of historical snapshots is the class [FileSystem]. *)

From S2P Require Import Prelude CxxString Codec.

(** ** Documents *)

(** An element has a local name, a namespace, attributes and children. *)
Inductive xmlNode :=
| Element (name ns : string) (attributes : list (string * string)) (children : list xmlNode)
| Text (content : string).

Record xmlDoc := MkXmlDoc { doc_has_dtd : bool; doc_root : option xmlNode }.

Class LibXml := { xmlReadMemory : string -> option xmlDoc }.

Definition children_of (n : xmlNode) : list xmlNode :=
  match n with Element _ _ _ c => c | Text _ => [] end.

Definition is_element (n : xmlNode) : bool :=
  match n with Element _ _ _ _ => true | Text _ => false end.

(** The number of nodes of a tree. *)
Fixpoint node_count (n : xmlNode) : nat :=
  match n with
  | Element _ _ _ children => S (list_sum (map node_count children))
  | Text _ => 1
  end.

Definition kMaxXmlBytes : Z := 2 ^ 26.

Section Xml.
Context `{LibXml}.

(** The root of the document, or the error text. *)
Definition ParseHardened (xml : string) : string + option xmlNode :=
  if str_empty xml then inl "XML порожній" else
  if (kMaxXmlBytes <? Z.of_nat (String.length xml))%Z then
    inl ("XML завеликий для розбору: розмір перевищує межу " +s+ to_string kMaxXmlBytes
         +s+ " байт")
  else
  match xmlReadMemory xml with
  | None => inl "Не вдалося розпарсити XML (некоректний документ або заблоковані небезпечні конструкції)"
  | Some doc => if doc_has_dtd doc then inl "XML містить DTD, що заборонено" else inr (doc_root doc)
  end.
End Xml.

(** [ns_uri] is [None] when the caller does not check the namespace. *)
Definition MatchesElement (node : xmlNode) (local_name : string) (ns_uri : option string) : bool :=
  match node with
  | Text _ => false
  | Element name ns _ _ =>
      (name ==s local_name) && match ns_uri with None => true | Some uri => ns ==s uri end
  end.

Fixpoint NodeContent (node : xmlNode) : string :=
  match node with
  | Text content => content
  | Element _ _ _ children => String.concat "" (map NodeContent children)
  end.

(** The iterative walk; the head of [pending] is the back of the vector.  Pushing the children in
    order and reversing that segment puts the first child on top. *)
Fixpoint walk (fuel : nat) (pending : list xmlNode) : list xmlNode :=
  match fuel, pending with
  | O, _ | _, [] => []
  | S fuel, node :: rest =>
      (if is_element node then [node] else [])
      ++ walk fuel (List.filter is_element (children_of node) ++ rest)
  end.

(** The elements in the order [ForEachElement] visits them. *)
Definition ForEachElement (root : xmlNode) : list xmlNode := walk (node_count root) [root].

(** ** [TrustListParser] *)

Fixpoint drop_spaces (l : list ascii) : list ascii :=
  match l with
  | c :: rest => if isspace c then drop_spaces rest else l
  | [] => []
  end.

Definition Trim (value : string) : string :=
  of_chars (rev (drop_spaces (rev (drop_spaces (chars value))))).

Definition ElementsNamed (root : xmlNode) (local_name : string) : list xmlNode :=
  List.filter (fun node => MatchesElement node local_name None) (ForEachElement root).

Definition ElementValues (root : xmlNode) (local_name : string) : list string :=
  map (fun node => Trim (NodeContent node)) (ElementsNamed root local_name).

Definition FirstElementValue (root : xmlNode) (local_name : string) : string :=
  default "" (head (ElementValues root local_name)).

Definition AppendNonEmpty (values out : list string) : list string :=
  out ++ List.filter (fun v => negb (str_empty v)) values.

Definition DecodeCertificates (root : xmlNode) : list bytes :=
  omap (fun encoded => match Base64.Base64Decode encoded with
                       | Some [] | None => None
                       | Some decoded => Some decoded
                       end) (ElementValues root "X509Certificate").

Record TrustListEndpoints := MkTrustListEndpoints {
  crl_urls : list string; ocsp_urls : list string; tsp_urls : list string
}.

Record TrustListServiceRecord := MkTrustListServiceRecord {
  sv_provider_name : string;
  sv_service_type : string;
  sv_status : string;
  sv_subject_name : string;
  sv_certificates : list bytes;
  sv_endpoints : TrustListEndpoints
}.

#[export] Instance eta_TrustListServiceRecord : Eta TrustListServiceRecord := fun r =>
  MkTrustListServiceRecord (sv_provider_name r) (sv_service_type r) (sv_status r)
  (sv_subject_name r) (sv_certificates r) (sv_endpoints r).

Record TrustListParseResult := MkTrustListParseResult {
  tl_ok : bool;
  tl_message : string;
  tl_certificates : list bytes;
  tl_endpoints : TrustListEndpoints;
  tl_services : list TrustListServiceRecord
}.

#[export] Instance eta_TrustListParseResult : Eta TrustListParseResult := fun r =>
  MkTrustListParseResult (tl_ok r) (tl_message r) (tl_certificates r) (tl_endpoints r)
  (tl_services r).

Definition TrustListParseResult_default : TrustListParseResult :=
  MkTrustListParseResult false "" [] (MkTrustListEndpoints [] [] []) [].

Definition ExtractEndpoints (root : xmlNode) : TrustListEndpoints :=
  MkTrustListEndpoints (AppendNonEmpty (ElementValues root "CRL") [])
    (AppendNonEmpty (ElementValues root "OCSP") []) (AppendNonEmpty (ElementValues root "TSP") []).

Definition BuildServiceRecord (service_node : xmlNode) (provider_name : string)
    : TrustListServiceRecord :=
  let service_type := FirstElementValue service_node "ServiceTypeIdentifier" in
  let service_type := if str_empty service_type then FirstElementValue service_node "ServiceType"
                      else service_type in
  MkTrustListServiceRecord provider_name service_type
    (FirstElementValue service_node "ServiceStatus") (FirstElementValue service_node "X509SubjectName")
    (DecodeCertificates service_node) (ExtractEndpoints service_node).

Definition null {A} (l : list A) : bool := match l with [] => true | _ => false end.

Definition CollectServices (provider_node : xmlNode) (service_local_name provider_name : string)
    (out : list TrustListServiceRecord) : list TrustListServiceRecord :=
  out ++ List.filter (fun s => negb (null (sv_certificates s)) || negb (str_empty (sv_service_type s))
                               || negb (str_empty (sv_status s)))
           (map (fun n => BuildServiceRecord n provider_name)
                (ElementsNamed provider_node service_local_name)).

Definition collect_provider (out : list TrustListServiceRecord) (provider_node : xmlNode)
    : list TrustListServiceRecord :=
  let provider_name := FirstElementValue provider_node "Name" in
  CollectServices provider_node "Service" provider_name
    (CollectServices provider_node "TSPService" provider_name out).

Section Parser.
Context `{LibXml}.

Definition Parse (xml : string) : TrustListParseResult :=
  match ParseHardened xml with
  | inl parse_error => TrustListParseResult_default <| tl_message := parse_error |>
  | inr None => TrustListParseResult_default
      <| tl_message := "Trust list XML is empty or has no root element" |>
  | inr (Some root) =>
      let certificates := DecodeCertificates root in
      let endpoints := ExtractEndpoints root in
      let services := foldl collect_provider [] (ElementsNamed root "TrustServiceProvider") in
      let ok := negb (null certificates) || negb (null (crl_urls endpoints))
                || negb (null (ocsp_urls endpoints)) || negb (null (tsp_urls endpoints))
                || negb (null services) in
      MkTrustListParseResult ok
        (if ok then "Trust list parsed" else "Trust list does not contain supported entries")
        certificates endpoints services
  end.
End Parser.

(** ** [TrustServiceEvaluator] *)

Record TrustServiceDecision := MkTrustServiceDecision {
  ts_checked : bool;
  ts_service_trusted : bool;
  ts_service_type : string;
  ts_status : string;
  ts_snapshot_evidence_id : string;
  ts_limitations : list string
}.

#[export] Instance eta_TrustServiceDecision : Eta TrustServiceDecision := fun r =>
  MkTrustServiceDecision (ts_checked r) (ts_service_trusted r) (ts_service_type r) (ts_status r)
  (ts_snapshot_evidence_id r) (ts_limitations r).

Definition TrustServiceDecision_default : TrustServiceDecision :=
  MkTrustServiceDecision false false "" "" "" [].

Definition lists_certificate (certificate_der : bytes) (service : TrustListServiceRecord) : bool :=
  existsb (fun cert => bool_decide (cert = certificate_der)) (sv_certificates service).

Definition Evaluate `{LibXml} (certificate_der : bytes) (trust_list_xml snapshot_evidence_id : string)
    : TrustServiceDecision :=
  let decision := TrustServiceDecision_default <| ts_checked := true |>
                    <| ts_snapshot_evidence_id := snapshot_evidence_id |> in
  match certificate_der with
  | [] => decision <| ts_limitations := ["empty certificate provided"] |>
  | _ =>
      let parse_result := Parse trust_list_xml in
      if negb (tl_ok parse_result) then
        decision <| ts_limitations := ["failed to parse trust list: " +s+ tl_message parse_result] |>
      else
        match List.find (lists_certificate certificate_der) (tl_services parse_result) with
        | Some service =>
            let decision := decision <| ts_service_type := sv_service_type service |>
                                     <| ts_status := sv_status service |> in
            if str_contains (sv_status service) "/granted"
            then decision <| ts_service_trusted := true |>
            else decision <| ts_limitations := ["service status is not granted: " +s+ sv_status service] |>
        | None => decision <| ts_limitations := ["service record not found in trust list"] |>
        end
  end.

(** The directory of historical lists: [None] when it is not a directory, else its entries, each
    with whether it is a regular file. *)
Class FileSystem := { list_directory : string -> option (list (string * bool)) }.

(** The month of a snapshot file name. *)
Definition snapshot_month (filename : string) : option string :=
  if (Nat.eqb (String.length filename) 20) && (substr filename 0 9 ==s "TL-UA-EC-")
     && (substr filename 16 4 ==s ".xml") then
    let file_ym := substr filename 9 7 in
    match chars file_ym with
    | [y0; y1; y2; y3; d; m0; m1] =>
        if Ascii.eqb d "-"%char && isdigit y0 && isdigit y1 && isdigit y2 && isdigit y3
           && isdigit m0 && isdigit m1 then Some file_ym else None
    | _ => None
    end
  else None.

(** The two running choices: (month, file name) of the best and of the earliest. *)
Record SnapshotScan := MkSnapshotScan { best : option (string * string); earliest : option (string * string) }.

Definition snapshot_step (ref_ym : string) (st : SnapshotScan) (entry : string * bool) : SnapshotScan :=
  let '(filename, regular) := entry in
  if negb regular then st else
  match snapshot_month filename with
  | None => st
  | Some file_ym =>
      let earliest' := match earliest st with
                       | Some (ym, _) => if str_ltb file_ym ym then Some (file_ym, filename) else earliest st
                       | None => Some (file_ym, filename)
                       end in
      let best' := if str_leb file_ym ref_ym then
                     match best st with
                     | Some (ym, _) => if str_ltb ym file_ym then Some (file_ym, filename) else best st
                     | None => Some (file_ym, filename)
                     end
                   else best st in
      MkSnapshotScan best' earliest'
  end.

Definition SelectSnapshot `{FileSystem} (work_dir trust_list_reference_time : string)
    (strict_current_tl : bool) : string :=
  let current_tl := path_append (path_append work_dir "trust-list") "TL-UA-EC.xml" in
  if str_empty trust_list_reference_time || strict_current_tl then current_tl else
  if Nat.ltb (String.length trust_list_reference_time) 7 then current_tl else
  let ref_ym := substr trust_list_reference_time 0 7 in
  let history_dir := path_append (path_append work_dir "trust-list") "history" in
  match list_directory history_dir with
  | None => current_tl
  | Some entries =>
      let st := foldl (snapshot_step ref_ym) (MkSnapshotScan None None) entries in
      match best st, earliest st with
      | Some (_, filename), _ => path_append history_dir filename
      | None, Some (_, filename) => path_append history_dir filename
      | None, None => current_tl
      end
  end.

(** ** The walk is document order *)

(** All elements of a tree in document order: the reference definition. *)
Fixpoint preorder (n : xmlNode) : list xmlNode :=
  match n with
  | Text _ => []
  | Element _ _ _ children => n :: concat (map preorder children)
  end.

Lemma preorder_text (l : list xmlNode) :
  concat (map preorder (List.filter is_element l)) = concat (map preorder l).
Proof. induction l as [|[a b c d|t] l IH]; cbn; congruence. Qed.

Lemma count_filter (l : list xmlNode) :
  (list_sum (map node_count (List.filter is_element l)) <= list_sum (map node_count l))%nat.
Proof. induction l as [|[a b c d|t] l IH]; [done| |]; simpl; lia. Qed.

Lemma walk_preorder (fuel : nat) (pending : list xmlNode) :
  (list_sum (map node_count pending) <= fuel)%nat ->
  walk fuel pending = concat (map preorder pending).
Proof.
  revert pending. induction fuel as [|fuel IH]; intros [|node rest] Hf; try done.
  { destruct node; simpl in Hf; lia. }
  cbn [walk map concat]. destruct node as [name ns attrs children|t]; simpl in Hf |- *.
  - rewrite IH.
    + by rewrite map_app, concat_app, preorder_text.
    + rewrite map_app, list_sum_app. pose proof (count_filter children). lia.
  - apply IH. lia.
Qed.

(** The iterative walk over a document - written with an explicit stack so that deep nesting
    cannot overflow the call stack - visits exactly the elements of the subtree, each once, in
    document order, and it ends. *)
Theorem ForEachElement_document_order (root : xmlNode) : ForEachElement root = preorder root.
Proof.
  unfold ForEachElement. rewrite walk_preorder by (cbn; lia). cbn. by rewrite app_nil_r.
Qed.

(** A certificate is accepted as a qualified service exactly when the list parses and the first
    service that names it - byte for byte - is granted; a certificate absent from the list, or
    first listed with another status, is never trusted. *)
Theorem Evaluate_trusted_iff `{LibXml} (certificate_der : bytes) (xml id : string) :
  ts_service_trusted (Evaluate certificate_der xml id) = true <->
  certificate_der <> [] /\ tl_ok (Parse xml) = true /\
  exists before service after,
    tl_services (Parse xml) = before ++ service :: after /\
    certificate_der ∈ sv_certificates service /\ str_contains (sv_status service) "/granted" = true /\
    forall s, s ∈ before -> certificate_der ∉ sv_certificates s.
Proof.
  assert (forall s, lists_certificate certificate_der s = true <-> certificate_der ∈ sv_certificates s) as L.
  { intros s. unfold lists_certificate. rewrite existsb_exists. setoid_rewrite bool_decide_eq_true.
    rewrite list_elem_of_In. naive_solver. }
  assert (forall l, List.find (lists_certificate certificate_der) l = None ->
    forall s, s ∈ l -> certificate_der ∉ sv_certificates s) as Fn.
  { intros l Hn s Hs Hc. apply L in Hc. rewrite list_elem_of_In in Hs.
    pose proof (find_none _ _ Hn s Hs). congruence. }
  assert (forall l s, List.find (lists_certificate certificate_der) l = Some s <->
    exists before after, l = before ++ s :: after /\ certificate_der ∈ sv_certificates s /\
      forall s', s' ∈ before -> certificate_der ∉ sv_certificates s') as Fs.
  { induction l as [|a l IH]; intros s; cbn.
    - split; [done|]. by intros ([|] & ? & ? & _).
    - destruct (lists_certificate certificate_der a) eqn:E.
      + split.
        * intros [= <-]. exists [], l. split; [done|]. split; [by apply L|]. by intros ? ?%elem_of_nil.
        * intros ([|b bs] & after & [= -> ->] & Hc & Hb); [done|]. apply L in E.
          by destruct (Hb b ltac:(left)).
      + rewrite IH. split.
        * intros (bs & after & -> & Hc & Hb). exists (a :: bs), after. split; [done|]. split; [done|].
          intros s' [->|Hs']%elem_of_cons; [rewrite <- L; congruence|auto].
        * intros ([|b bs] & after & [= -> ->] & Hc & Hb); [apply L in Hc; congruence|].
          exists bs, after. split; [done|]. split; [done|]. intros s' Hs'. apply Hb. by right. }
  unfold Evaluate. destruct certificate_der as [|b der]; [naive_solver|].
  destruct (tl_ok (Parse xml)); cbn [negb]; [|naive_solver].
  destruct (List.find _ _) as [s|] eqn:Ef.
  - pose proof (proj1 (Fs _ _) Ef) as (bs & after & Es & Hc & Hb).
    destruct (str_contains (sv_status s) "/granted") eqn:Eg; cbn; split; try done.
    + intros _. split; [done|]. split; [done|]. by exists bs, s, after.
    + intros (_ & _ & bs' & s' & after' & Es' & Hc' & Hg' & Hb').
      assert (List.find (lists_certificate (b :: der)) (tl_services (Parse xml)) = Some s') as Ef'
        by (apply Fs; by exists bs', after').
      congruence.
  - cbn. split; [done|]. intros (_ & _ & bs & s & after & Es & Hc & _).
    destruct (Fn _ Ef s); [rewrite Es, elem_of_app; right; left|done].
Qed.

(** ** The chosen snapshot *)

(** [e] is a snapshot of month [ym]. *)
Definition snapshot_of (entries : list (string * bool)) (ym filename : string) : Prop :=
  (filename, true) ∈ entries /\ snapshot_month filename = Some ym.

Definition is_best (ref_ym : string) (entries : list (string * bool)) (c : option (string * string)) : Prop :=
  match c with
  | Some (ym, f) => snapshot_of entries ym f /\ str_leb ym ref_ym = true /\
      forall ym' f', snapshot_of entries ym' f' -> str_leb ym' ref_ym = true -> str_ltb ym ym' = false
  | None => forall ym' f', snapshot_of entries ym' f' -> str_leb ym' ref_ym = false
  end.

Definition is_earliest (entries : list (string * bool)) (c : option (string * string)) : Prop :=
  match c with
  | Some (ym, f) => snapshot_of entries ym f /\
      forall ym' f', snapshot_of entries ym' f' -> str_ltb ym' ym = false
  | None => forall ym' f', ~ snapshot_of entries ym' f'
  end.

Lemma snapshot_of_snoc (entries : list (string * bool)) (e : string * bool) (ym f : string) :
  snapshot_of (entries ++ [e]) ym f <->
  snapshot_of entries ym f \/ (e = (f, true) /\ snapshot_month f = Some ym).
Proof.
  unfold snapshot_of. rewrite elem_of_app, list_elem_of_singleton. naive_solver.
Qed.

Lemma str_ltb_false_trans (a b c : string) :
  str_ltb a b = true -> str_ltb a c = false -> str_ltb b c = false.
Proof.
  intros Hab Hac. destruct (str_ltb b c) eqn:E; [|done].
  by rewrite (str_ltb_trans a b c Hab E) in Hac.
Qed.

Lemma str_ltb_false_trans' (a b c : string) :
  str_ltb a b = true -> str_ltb c b = false -> str_ltb c a = false.
Proof.
  intros Hab Hcb. destruct (str_ltb c a) eqn:E; [|done].
  by rewrite (str_ltb_trans c a b E Hab) in Hcb.
Qed.

Lemma snapshot_step_spec (ref_ym : string) (entries : list (string * bool)) (st : SnapshotScan)
    (e : string * bool) :
  is_best ref_ym entries (best st) -> is_earliest entries (earliest st) ->
  is_best ref_ym (entries ++ [e]) (best (snapshot_step ref_ym st e)) /\
  is_earliest (entries ++ [e]) (earliest (snapshot_step ref_ym st e)).
Proof.
  intros Hb He. destruct e as [f reg]. unfold snapshot_step.
  destruct reg; cbn [negb]; [destruct (snapshot_month f) as [ym|] eqn:Em|]; cbn.
  2,3: destruct (best st) as [[yb fb]|], (earliest st) as [[ye fe]|]; cbn in *;
    setoid_rewrite snapshot_of_snoc; naive_solver.
  split.
  - destruct (str_leb ym ref_ym) eqn:Er; destruct (best st) as [[yb fb]|]; cbn in *;
      try setoid_rewrite snapshot_of_snoc.
    + destruct (str_ltb yb ym) eqn:El; cbn; setoid_rewrite snapshot_of_snoc; split_and!; try naive_solver.
      intros ym' f' [Hs|[[= <-] Hs]] Hr.
      * destruct Hb as (_ & _ & Hmax). apply (str_ltb_false_trans yb ym ym' El). by apply (Hmax ym' f').
      * assert (ym' = ym) as -> by congruence. apply str_ltb_irrefl.
    + split_and!; [naive_solver|done|]. intros ym' f' [Hs|[[= <-] Hs]] Hr.
      * by rewrite (Hb ym' f' Hs) in Hr.
      * assert (ym' = ym) as -> by congruence. apply str_ltb_irrefl.
    + destruct Hb as (Hs0 & Hle & Hmax). split; [by left|]. split; [done|].
      intros ym' f' [Hs|[[= <-] Hs]] Hr; [by apply (Hmax ym' f')|].
      assert (ym' = ym) as -> by congruence. congruence.
    + intros ym' f' [Hs|[[= <-] Hs]]; [by apply (Hb ym' f')|].
      by assert (ym' = ym) as -> by congruence.
  - destruct (earliest st) as [[ye fe]|]; cbn in *; [destruct (str_ltb ym ye) eqn:El|]; cbn;
      setoid_rewrite snapshot_of_snoc; (split; [naive_solver|]); intros ym' f' [Hs|[[= <-] Hs]].
    + destruct He as [_ Hmin]. apply (str_ltb_false_trans' ym ye ym' El). by apply (Hmin ym' f').
    + assert (ym' = ym) as -> by congruence. apply str_ltb_irrefl.
    + destruct He as [_ Hmin]. by apply (Hmin ym' f').
    + by assert (ym' = ym) as -> by congruence.
    + by destruct (He ym' f').
    + assert (ym' = ym) as -> by congruence. apply str_ltb_irrefl.
Qed.

Lemma snapshot_scan_spec (ref_ym : string) (entries done : list (string * bool)) (st : SnapshotScan) :
  is_best ref_ym done (best st) -> is_earliest done (earliest st) ->
  is_best ref_ym (done ++ entries) (best (foldl (snapshot_step ref_ym) st entries)) /\
  is_earliest (done ++ entries) (earliest (foldl (snapshot_step ref_ym) st entries)).
Proof.
  revert done st. induction entries as [|e es IH]; intros done st Hb He; cbn.
  { by rewrite app_nil_r. }
  destruct (snapshot_step_spec ref_ym done st e Hb He) as [Hb' He'].
  specialize (IH (done ++ [e]) _ Hb' He'). by rewrite <- app_assoc in IH.
Qed.

(** The historical list chosen for a moment is the latest snapshot not after its month, or the
    earliest one when all are later, or the current list when there is none - whatever the order
    in which the directory is read. *)
Theorem SelectSnapshot_latest_not_after `{FileSystem} (work_dir reference : string)
    (entries : list (string * bool))
    (dir := path_append (path_append work_dir "trust-list") "history")
    (ref_ym := substr reference 0 7) :
  (7 <= String.length reference)%nat -> list_directory dir = Some entries ->
  let chosen := SelectSnapshot work_dir reference false in
  (exists ym f, snapshot_of entries ym f /\ str_leb ym ref_ym = true /\ chosen = path_append dir f /\
     forall ym' f', snapshot_of entries ym' f' -> str_leb ym' ref_ym = true -> str_leb ym' ym = true) \/
  (exists ym f, snapshot_of entries ym f /\ chosen = path_append dir f /\
     forall ym' f', snapshot_of entries ym' f' -> str_ltb ref_ym ym' = true /\ str_leb ym ym' = true) \/
  ((forall ym' f', ~ snapshot_of entries ym' f') /\
   chosen = path_append (path_append work_dir "trust-list") "TL-UA-EC.xml").
Proof.
  intros Hlen Hdir. cbn zeta. unfold SelectSnapshot.
  rewrite (proj2 (str_empty_false reference)) by (intros ->; cbn in Hlen; lia). cbn [orb].
  rewrite (proj2 (Nat.ltb_ge _ _)) by lia. fold dir ref_ym. rewrite Hdir.
  destruct (snapshot_scan_spec ref_ym entries [] (MkSnapshotScan None None)) as [Hb He].
  { by intros ? ? [?%elem_of_nil _]. }
  { by intros ? ? [?%elem_of_nil _]. }
  cbn [app] in *. destruct (best _) as [[ym f]|].
  - left. exists ym, f. destruct Hb as (Hs & Hle & Hmax). split_and!; try done.
    intros ym' f' Hs' Hle'. unfold str_leb. by rewrite (Hmax ym' f').
  - destruct (earliest _) as [[ym f]|]; [right; left|by right; right].
    exists ym, f. destruct He as [Hs Hmin]. split_and!; try done. intros ym' f' Hs'.
    specialize (Hb ym' f' Hs'). unfold str_leb in *. rewrite negb_false_iff in Hb.
    by rewrite (Hmin ym' f').
Qed.

Lemma SelectSnapshot_latest_not_after_witness :
  let fs := {| list_directory _ := Some [("TL-UA-EC-2024-05.xml", true); ("notes.txt", true);
                                         ("TL-UA-EC-2023-01.xml", true)] |} in
  @SelectSnapshot fs "w" "2023-12-31T00:00:00Z" false = "w/trust-list/history/TL-UA-EC-2023-01.xml" /\
  (7 <= String.length "2023-12-31T00:00:00Z")%nat.
Proof.
  intros fs. split; [|cbn; lia].
  destruct (@SelectSnapshot_latest_not_after fs "w" "2023-12-31T00:00:00Z"
    [("TL-UA-EC-2024-05.xml", true); ("notes.txt", true); ("TL-UA-EC-2023-01.xml", true)]
    ltac:(cbn; lia) eq_refl) as [_|[_|_]]; vm_compute; reflexivity.
Defined.
