(* ===== verification/XmlDsig.v ===== *)
(** * XmlDsig: XML signatures (src/src/lib/xmldsig)

    The search functions of [xmldsig/detail/XmlDocUtil.h], the algorithm registry,
    the digest engine, the resolver of references, the transforms and
    [XmlSignatureVerifier].  A document is the tree that libxml2 builds (class
    [LibXml]); canonicalization, XPath and serialization are libxml2's too and
    the two signature primitives are those of the cryptographic library: they
    are the fields of [XmlCrypto].  The errors of a step are values of [inl]. *)

From stdpp Require Import gmap.
From S2P Require Import Prelude CxxString Codec Sha256 Imprint AsicUri TrustList.

Local Open Scope Z_scope.
Local Open Scope tamga_scope.

(** ** Searching a tree *)

Definition DsigNamespace : string := "http://www.w3.org/2000/09/xmldsig#".

Definition IsElementNamed (node : xmlNode) (local_name : string) : bool :=
  match node with Element name _ _ _ => name ==s local_name | Text _ => false end.

Definition IsElementInNamespace (node : xmlNode) (ns_uri : string) : bool :=
  match node with Element _ ns _ _ => ns ==s ns_uri | Text _ => false end.

Definition IsDsigElementNamed (node : xmlNode) (local_name : string) : bool :=
  IsElementNamed node local_name && IsElementInNamespace node DsigNamespace.

Section Search.
Context (matches : xmlNode -> bool).

Fixpoint FindFirstElementInSubtreeBy (node : xmlNode) : option xmlNode :=
  if matches node then Some node
  else match node with
       | Text _ => None
       | Element _ _ _ children =>
           (fix siblings (nodes : list xmlNode) : option xmlNode :=
              match nodes with
              | [] => None
              | n :: nodes' => match FindFirstElementInSubtreeBy n with Some found => Some found | None => siblings nodes' end
              end) children
       end.

(** The search among the nodes of a list and below them. *)
Fixpoint FindFirstElementBy (nodes : list xmlNode) : option xmlNode :=
  match nodes with
  | [] => None
  | n :: nodes' => match FindFirstElementInSubtreeBy n with Some found => Some found | None => FindFirstElementBy nodes' end
  end.

Fixpoint CountElementsInSubtreeBy (node : xmlNode) : nat :=
  (if matches node then 1 else 0)
  + match node with
    | Text _ => 0
    | Element _ _ _ children => list_sum (map CountElementsInSubtreeBy children)
    end.

Definition CountElementsBy (nodes : list xmlNode) : nat := list_sum (map CountElementsInSubtreeBy nodes).

End Search.

Definition FindFirstElement (nodes : list xmlNode) (local_name : string) : option xmlNode :=
  FindFirstElementBy (fun node => IsElementNamed node local_name) nodes.
Definition FindFirstElementInSubtree (node : xmlNode) (local_name : string) : option xmlNode :=
  FindFirstElementInSubtreeBy (fun node => IsElementNamed node local_name) node.
Definition FindFirstDsigElement (nodes : list xmlNode) (local_name : string) : option xmlNode :=
  FindFirstElementBy (fun node => IsDsigElementNamed node local_name) nodes.
Definition FindFirstDsigElementInSubtree (node : xmlNode) (local_name : string) : option xmlNode :=
  FindFirstElementInSubtreeBy (fun node => IsDsigElementNamed node local_name) node.
Definition CountElementsByLocalName (nodes : list xmlNode) (local_name : string) : nat :=
  CountElementsBy (fun node => IsElementNamed node local_name) nodes.
Definition CountElementsInSubtree (node : xmlNode) (local_name : string) : nat :=
  CountElementsInSubtreeBy (fun node => IsElementNamed node local_name) node.

Definition attribute (node : xmlNode) (name : string) : option string :=
  match node with
  | Text _ => None
  | Element _ _ attributes _ => snd <$> List.find (fun a => fst a ==s name) attributes
  end.

Definition GetAttr (node : xmlNode) (name : string) : string := default "" (attribute node name).

Definition HasIdAttr (node : xmlNode) (value : string) : bool :=
  existsb (fun name => match attribute node name with Some v => value ==s v | None => false end) ["Id"; "ID"; "id"].

Definition FindElementById (nodes : list xmlNode) (id : string) : option xmlNode :=
  FindFirstElementBy (fun node => HasIdAttr node id) nodes.
Definition CountElementsById (nodes : list xmlNode) (id : string) : nat :=
  CountElementsBy (fun node => HasIdAttr node id) nodes.

(** The signatures that are not inside another one, in document order, and whether some signature
    holds a further element of that name. *)
Fixpoint collect_signatures (node : xmlNode) : list xmlNode * bool :=
  if IsDsigElementNamed node "Signature" then
    ([node], match FindFirstElement (children_of node) "Signature" with Some _ => true | None => false end)
  else
    match node with
    | Text _ => ([], false)
    | Element _ _ _ children =>
        let found := map collect_signatures children in (concat (map fst found), existsb snd found)
    end.

Definition CollectTopLevelSignatureNodes (nodes : list xmlNode) : list xmlNode * bool :=
  let found := map collect_signatures nodes in (concat (map fst found), existsb snd found).

Definition is_xml_space (c : ascii) : bool := char_in (of_chars [" "; "009"; "013"; "010"]%char) c.

Fixpoint drop_xml_spaces (l : list ascii) : list ascii :=
  match l with
  | c :: l' => if is_xml_space c then drop_xml_spaces l' else l
  | [] => []
  end.

Definition TrimmedText (node : xmlNode) : string :=
  of_chars (rev (drop_xml_spaces (rev (drop_xml_spaces (chars (NodeContent node)))))).

(** ** Algorithms *)

Definition UriTail (uri : string) : string :=
  let fix tail (l : list ascii) : list ascii :=
    match l with
    | [] => []
    | c :: l' => if existsb (char_in "#/:") l' then tail l' else if char_in "#/:" c then l' else l
    end in
  of_chars (tail (chars uri)).

Inductive DigestAlg := RegistrySha256 | RegistrySha384 | RegistrySha512 | RegistryGost34311 | RegistryKupyna256.

Inductive SignatureAlg :=
| RsaSha256 | EcdsaSha256 | Dstu4145WithGost34311 | Dstu4145WithKupyna
| RsaSha384 | RsaSha512 | EcdsaSha384 | EcdsaSha512.

Fixpoint by_name {A} (table : list (string * A)) (name : string) : option A :=
  match table with
  | [] => None
  | (n, a) :: table' => if n ==s name then Some a else by_name table' name
  end.

Module AlgorithmRegistry.

Definition RegistryDigestUri (uri : string) : option DigestAlg :=
  by_name [("sha256", RegistrySha256); ("sha384", RegistrySha384); ("sha512", RegistrySha512);
           ("gost34311", RegistryGost34311); ("kupyna256", RegistryKupyna256);
           ("kupyna-256", RegistryKupyna256); ("dstu7564-256", RegistryKupyna256)] (lower (UriTail uri)).

Definition MapSignatureUri (uri : string) : option SignatureAlg :=
  by_name [("rsa-sha256", RsaSha256); ("rsa-sha384", RsaSha384); ("rsa-sha512", RsaSha512);
           ("ecdsa-sha256", EcdsaSha256); ("ecdsa-sha384", EcdsaSha384); ("ecdsa-sha512", EcdsaSha512);
           ("dstu4145-dstu7564-256", Dstu4145WithKupyna); ("dstu4145-kupyna", Dstu4145WithKupyna);
           ("dstu4145-kupyna256", Dstu4145WithKupyna); ("dstu4145-kupyna-256", Dstu4145WithKupyna);
           ("dstu4145-gost34311", Dstu4145WithGost34311); ("dstu4145", Dstu4145WithGost34311)]
          (lower (UriTail uri)).

Definition MapOid (oid : string) : option DigestAlg :=
  by_name [("2.16.840.1.101.3.4.2.1", RegistrySha256); ("2.16.840.1.101.3.4.2.2", RegistrySha384);
           ("2.16.840.1.101.3.4.2.3", RegistrySha512); ("1.2.804.2.1.1.1.1.2.1", RegistryGost34311);
           ("1.2.804.2.1.1.1.1.2.2.1", RegistryKupyna256)] oid.

Definition DigestToImprint (alg : DigestAlg) : ImprintDigest :=
  match alg with
  | RegistrySha256 => DigestSha256
  | RegistrySha384 => DigestSha384
  | RegistrySha512 => DigestSha512
  | RegistryGost34311 => Gost34311
  | RegistryKupyna256 => Kupyna256
  end.

Definition SignatureToImprint (alg : SignatureAlg) : ImprintDigest :=
  match alg with
  | RsaSha256 | EcdsaSha256 => DigestSha256
  | RsaSha384 | EcdsaSha384 => DigestSha384
  | RsaSha512 | EcdsaSha512 => DigestSha512
  | Dstu4145WithGost34311 => Gost34311
  | Dstu4145WithKupyna => Kupyna256
  end.

End AlgorithmRegistry.

Definition W3cDigestUriMap : list (string * ImprintDigest) :=
  [("http://www.w3.org/2001/04/xmlenc#sha256", DigestSha256);
   ("http://www.w3.org/2001/04/xmldsig-more#sha384", DigestSha384);
   ("http://www.w3.org/2001/04/xmlenc#sha512", DigestSha512);
   ("http://www.w3.org/2001/04/xmldsig-more#gost34311", Gost34311);
   ("http://www.w3.org/2001/04/xmlenc#gost34311", Gost34311);
   ("http://www.w3.org/2001/04/xmldsig-more#kupyna256", Kupyna256);
   ("http://www.w3.org/2001/04/xmlenc#kupyna256", Kupyna256);
   ("http://www.w3.org/2001/04/xmlenc#dstu7564-256", Kupyna256);
   ("http://www.w3.org/2001/04/xmldsig-more#dstu7564-256", Kupyna256)].

Definition MapDigestUri (algo_uri : string) : option ImprintDigest :=
  match by_name W3cDigestUriMap algo_uri with
  | Some alg => Some alg
  | None => match ImprintFromDigestOid algo_uri with
            | Some direct => Some direct
            | None => ImprintFromDigestOid (UriTail algo_uri)
            end
  end.

Definition MapSignatureMethodUri (algo_uri : string) : option ImprintDigest :=
  match AlgorithmRegistry.MapSignatureUri algo_uri with
  | Some alg => Some (AlgorithmRegistry.SignatureToImprint alg)
  | None => MapDigestUri algo_uri
  end.

Inductive RsaHashAlg := RsaHashSha256 | RsaHashSha384 | RsaHashSha512.

Definition MapRsaSignatureMethod (uri : string) : option RsaHashAlg :=
  by_name [("rsa-sha256", RsaHashSha256); ("rsa-sha384", RsaHashSha384); ("rsa-sha512", RsaHashSha512)]
          (lower (UriTail uri)).

(** ** Canonicalization *)

Inductive C14nMode := XML_C14N_1_0 | XML_C14N_EXCLUSIVE_1_0.

Definition C14nUriToMode (uri : string) : option (C14nMode * bool) :=
  by_name [("http://www.w3.org/TR/2001/REC-xml-c14n-20010315", (XML_C14N_1_0, false));
           ("http://www.w3.org/TR/2001/REC-xml-c14n-20010315#WithComments", (XML_C14N_1_0, true));
           ("http://www.w3.org/2001/10/xml-exc-c14n#", (XML_C14N_EXCLUSIVE_1_0, false));
           ("http://www.w3.org/2001/10/xml-exc-c14n#WithComments", (XML_C14N_EXCLUSIVE_1_0, true))] uri.

Definition IsIdFragmentUri (uri : string) : option string :=
  match chars uri with
  | c :: ((_ :: _) as fragment) =>
      if Ascii.eqb c "#" && negb (starts_with (of_chars fragment) "xpointer") then Some (of_chars fragment) else None
  | _ => None
  end.

Definition IsCanonicalizationOnlyTransform (transforms : list string) : bool :=
  match transforms with
  | [] => true
  | [uri] => match C14nUriToMode uri with Some _ => true | None => false end
  | _ => false
  end.

Record RsaVerifyResult := MkRsaVerifyResult { rv_executed : bool; rv_valid : bool; rv_message : string }.

Class XmlCrypto := {
  (** A selection of nodes of a document. *)
  NodeSet : Type;
  (** [xmlXPathEvalExpression] on a document; [None] is an error or an empty selection. *)
  xpath_select : xmlNode -> string -> option NodeSet;
  (** [xmlC14NDocDumpMemory]: the document (which can have lost its root), the selection. *)
  c14n_dump : option xmlNode -> option NodeSet -> C14nMode -> bool -> option string;
  (** [SerializeNode]: a node of a document as a text of its own. *)
  serialize_node : xmlNode -> xmlNode -> string;
  (** The RSA primitive of the platform behind [VerifyRsaPkcs1]: certificate, digest algorithm, digest, signature. *)
  rsa_backend : bytes -> RsaHashAlg -> bytes -> bytes -> RsaVerifyResult;
  (** [CryptoniteAdapter::VerifyHash]: certificate, digest, signature; an error text or the verdict. *)
  VerifyHash : bytes -> bytes -> bytes -> string + bool * string
}.

Definition ExpectedDigestSize (alg : RsaHashAlg) : nat :=
  match alg with RsaHashSha256 => 32 | RsaHashSha384 => 48 | RsaHashSha512 => 64 end.

Definition VerifyRsaPkcs1 `{XmlCrypto} (certificate_der : bytes) (hash_alg : RsaHashAlg) (digest signature : bytes)
    : RsaVerifyResult :=
  if null certificate_der || null digest || null signature
  then MkRsaVerifyResult false false "RSA verification requires a certificate, a digest and a signature"
  else if negb (length digest =? ExpectedDigestSize hash_alg)%nat
  then MkRsaVerifyResult false false "RSA verification: digest length does not match the declared hash algorithm"
  else rsa_backend certificate_der hash_alg digest signature.

Definition xpath_of (base : string) : string :=
  "(" +s+ base +s+ " | " +s+ base +s+ "//node() | " +s+ base +s+ "//@* | " +s+ base
  +s+ "/descendant-or-self::*/namespace::*)".

Definition DsigSignatureScopeXPath (position : Z) : string :=
  "(//*[local-name()='Signature' and namespace-uri()='" +s+ DsigNamespace +s+ "'])[" +s+ to_string position +s+ "]".

(** ** What is read and what is reported *)

Record XmlReference := MkXmlReference {
  xf_id : string;
  xf_uri : string;
  xf_type : string;
  xf_emit_type_attribute : bool;
  xf_transforms : list string;
  xf_digest_method : string;
  xf_digest_value_base64 : string
}.

#[export] Instance eta_XmlReference : Eta XmlReference := fun r =>
  MkXmlReference (xf_id r) (xf_uri r) (xf_type r) (xf_emit_type_attribute r) (xf_transforms r)
  (xf_digest_method r) (xf_digest_value_base64 r).

Definition XmlReference_default : XmlReference :=
  MkXmlReference "" "" "" false [] "" "".

Record XmlReferenceVerificationDetail := MkXmlReferenceVerificationDetail {
  rd_uri : string;
  rd_type : string;
  rd_digest_method : string;
  rd_expected_base64 : string;
  rd_expected_hex : string;
  rd_computed_base64 : string;
  rd_computed_hex : string;
  rd_status : string;
  rd_error : string
}.

#[export] Instance eta_XmlReferenceVerificationDetail : Eta XmlReferenceVerificationDetail := fun r =>
  MkXmlReferenceVerificationDetail (rd_uri r) (rd_type r) (rd_digest_method r)
  (rd_expected_base64 r) (rd_expected_hex r) (rd_computed_base64 r) (rd_computed_hex r)
  (rd_status r) (rd_error r).

Definition XmlReferenceVerificationDetail_default : XmlReferenceVerificationDetail :=
  MkXmlReferenceVerificationDetail "" "" "" "" "" "" "" "" "".

Record XmlSignatureVerificationResult := MkXmlSignatureVerificationResult {
  xr_signature_valid : bool;
  xr_digest_valid : bool;
  xr_signing_cert_id : string;
  xr_reference_statuses : list string;
  xr_reference_details : list XmlReferenceVerificationDetail;
  xr_signed_info_canonicalized_length : nat;
  xr_signed_info_hash_hex : string;
  xr_signed_info_hash_base64 : string;
  xr_signed_properties_canonicalized_length : nat;
  xr_signed_properties_hash_hex : string;
  xr_signed_properties_hash_base64 : string;
  xr_signature_value_valid : bool;
  xr_signature_algorithm_unsupported : bool;
  xr_signature_value_error : string
}.

#[export] Instance eta_XmlSignatureVerificationResult : Eta XmlSignatureVerificationResult := fun r =>
  MkXmlSignatureVerificationResult (xr_signature_valid r) (xr_digest_valid r)
  (xr_signing_cert_id r) (xr_reference_statuses r) (xr_reference_details r)
  (xr_signed_info_canonicalized_length r) (xr_signed_info_hash_hex r)
  (xr_signed_info_hash_base64 r) (xr_signed_properties_canonicalized_length r)
  (xr_signed_properties_hash_hex r) (xr_signed_properties_hash_base64 r)
  (xr_signature_value_valid r) (xr_signature_algorithm_unsupported r)
  (xr_signature_value_error r).

Definition XmlSignatureVerificationResult_default : XmlSignatureVerificationResult :=
  MkXmlSignatureVerificationResult false false "" [] [] 0 "" "" 0 "" "" false false "".

Section Verifier.
Context `{Libxml : LibXml, Crypto : XmlCrypto, Digests : DigestApi}.

Definition canonicalize_selection (root : xmlNode) (xpath : string) (mode : C14nMode) (with_comments : bool)
    (not_found failed : string) : string + string :=
  let! nodes := xpath_select root xpath else not_found in
  let! out := c14n_dump (Some root) (Some nodes) mode with_comments else failed in
  inr out.

Definition CanonicalizeSubtreeWithinSignature (root : xmlNode) (position : Z) (name : string) (mode : C14nMode)
    (with_comments : bool) : string + string :=
  canonicalize_selection root
    (xpath_of (DsigSignatureScopeXPath position +s+ "//*[local-name()='" +s+ name +s+ "']")) mode with_comments
    ("Не знайдено елемент для канонікалізації в межах підпису #" +s+ to_string position +s+ ": " +s+ name)
    ("Помилка канонікалізації піддерева в межах підпису: " +s+ name).

Definition CanonicalizeSubtreeById (root : xmlNode) (id : string) (mode : C14nMode) (with_comments : bool)
    : string + string :=
  if str_empty id || str_contains id "'" then inl "Некоректний ідентифікатор для XPath-пошуку елемента"
  else
    canonicalize_selection root
      (xpath_of ("//*[@Id='" +s+ id +s+ "' or @ID='" +s+ id +s+ "' or @id='" +s+ id +s+ "']")) mode with_comments
      ("Не знайдено елемент з Id=" +s+ id +s+ " для канонікалізації")
      ("Помилка канонікалізації елемента з Id=" +s+ id).

Definition ComputeDigestByCertificate (data : bytes) (algo_uri : string) (certificate_der : bytes) : string + bytes :=
  let! alg := MapDigestUri algo_uri else ("Непідтримуваний XMLDSIG DigestMethod URI: " +s+ algo_uri) in
  let? result := ComputeImprintByCertificate certificate_der alg data in
  inr (im_hash result).

(** ** References *)

Definition reference_of (child : xmlNode) : XmlReference :=
  MkXmlReference (GetAttr child "Id") (GetAttr child "URI") (GetAttr child "Type")
    (match attribute child "Type" with Some _ => true | None => false end)
    (match FindFirstElement (children_of child) "Transforms" with
     | Some transforms =>
         map (fun t => GetAttr t "Algorithm")
             (List.filter (fun t => IsElementNamed t "Transform") (children_of transforms))
     | None => []
     end)
    (match FindFirstElement (children_of child) "DigestMethod" with
     | Some digest_method => GetAttr digest_method "Algorithm"
     | None => ""
     end)
    (match FindFirstElement (children_of child) "DigestValue" with
     | Some digest_value => TrimmedText digest_value
     | None => ""
     end).

Definition ExtractReferencesFromSignedInfoNode (signed_info : xmlNode) : string + list XmlReference :=
  match map reference_of (List.filter (fun n => IsElementNamed n "Reference") (children_of signed_info)) with
  | [] => inl "ds:SignedInfo не містить жодного ds:Reference"
  | refs => inr refs
  end.

Definition root_list (root : option xmlNode) : list xmlNode := match root with Some n => [n] | None => [] end.

Definition ExtractReferencesForSignature (signed_xml : string) (position : Z) : string + list XmlReference :=
  let? root := ParseHardened signed_xml in
  let '(signature_nodes, nested_found) := CollectTopLevelSignatureNodes (root_list root) in
  if nested_found then inl "Вкладений ds:Signature у межах іншого ds:Signature (захист від wrapping)"
  else if (position <? 1) || (Z.of_nat (length signature_nodes) <? position) then inl "Некоректний індекс підпису"
  else
    let! signature_node := signature_nodes !! Z.to_nat (position - 1) else "Некоректний індекс підпису" in
    if negb (CountElementsInSubtree signature_node "SignedInfo" =? 1)%nat
    then inl "У межах підпису має бути рівно один ds:SignedInfo (захист від wrapping)"
    else
      let! signed_info := FindFirstElementInSubtree signature_node "SignedInfo"
        else "У межах підпису не знайдено ds:SignedInfo" in
      ExtractReferencesFromSignedInfoNode signed_info.

(** A reference inside the document. *)
Definition ResolveReference_local (xml : string) (ref : XmlReference) : string + string :=
  let? parsed := ParseHardened xml in
  let! root := parsed else "Порожній XML-документ" in
  match chars (xf_uri ref) with
  | [] => inr (serialize_node root root)
  | c :: fragment =>
      if Ascii.eqb c "#" then
        if starts_with (of_chars fragment) "xpointer"
        then inl ("XPointer-посилання поки не підтримуються: " +s+ xf_uri ref)
        else
          let! target := FindElementById [root] (of_chars fragment)
            else ("Не знайдено елемент із Id=" +s+ of_chars fragment) in
          inr (serialize_node root target)
      else inl ("Зовнішні (detached) URI-посилання поки не підтримуються: " +s+ xf_uri ref)
  end.

Definition is_external (uri : string) : bool :=
  match chars uri with [] => false | c :: _ => negb (Ascii.eqb c "#") end.

Definition ResolveReference (xml : string) (ref : XmlReference) (external_references : gmap string bytes)
    : string + string :=
  if is_external (xf_uri ref) then
    let? entry_uri := NormalizeAsicEntryUri (xf_uri ref) in
    if IsUnsafeExternalUri entry_uri then inl ("Небезпечне зовнішнє URI-посилання: " +s+ xf_uri ref)
    else
      let! content := external_references !! entry_uri
        else ("Не знайдено ASiC-E entry для ds:Reference URI=" +s+ xf_uri ref) in
      inr (of_chars (map Ascii.ascii_of_byte content))
  else ResolveReference_local xml ref.

(** ** Transforms *)

Definition kEnveloped : string := "http://www.w3.org/2000/09/xmldsig#enveloped-signature".
Definition kBase64 : string := "http://www.w3.org/2000/09/xmldsig#base64".

(** The node without the signatures below it. *)
Fixpoint remove_signatures_below (node : xmlNode) : xmlNode :=
  match node with
  | Text _ => node
  | Element name ns attributes children =>
      Element name ns attributes
        (concat (map (fun n => if IsDsigElementNamed n "Signature" then [] else [remove_signatures_below n]) children))
  end.

(** [RemoveSignatures] of the root of a document. *)
Definition RemoveSignatures (root : option xmlNode) : option xmlNode :=
  match root with
  | Some n => if IsDsigElementNamed n "Signature" then None else Some (remove_signatures_below n)
  | None => None
  end.

Definition CanonicalizeDoc (root : option xmlNode) (mode : C14nMode) (comments : bool) : string + string :=
  let! out := c14n_dump root None mode comments else "Помилка канонікалізації у трансформ-пайплайні" in inr out.

(** One transform: the document and the octets so far. *)
Definition transform_step (uri : string) (root : option xmlNode) (octets : option string)
    : string + option xmlNode * option string :=
  if uri ==s kEnveloped then
    match octets with
    | Some _ => inl "enveloped-signature трансформ після канонікалізації не підтримується"
    | None => inr (RemoveSignatures root, None)
    end
  else
    match C14nUriToMode uri with
    | Some (mode, comments) =>
        match octets with
        | Some _ => inl "повторна канонікалізація над octet-stream не підтримується"
        | None => let? out := CanonicalizeDoc root mode comments in inr (root, Some out)
        end
    | None =>
        if uri ==s kBase64 then
          let? text := match octets, root with
                       | Some octets, _ => inr octets
                       | None, Some node => inr (NodeContent node)
                       | None, None => inl "base64-трансформ: порожній вхідний node-set"
                       end in
          let! decoded := Base64.Base64Decode text else "Помилка base64-декодування у трансформ-пайплайні" in
          inr (root, Some (of_chars (map Ascii.ascii_of_byte decoded)))
        else inl ("Непідтримуваний трансформ: " +s+ uri)
    end.

Fixpoint transforms_loop (uris : list string) (root : option xmlNode) (octets : option string)
    : string + option xmlNode * option string :=
  match uris with
  | [] => inr (root, octets)
  | uri :: uris' => let? (root', octets') := transform_step uri root octets in transforms_loop uris' root' octets'
  end.

Definition ApplyTransforms (xml : string) (ref : XmlReference) : string + string :=
  if is_external (xf_uri ref) && null (xf_transforms ref) then inr xml
  else
    match ParseHardened xml with
    | inl message => if null (xf_transforms ref) then inr xml else inl message
    | inr root =>
        let? (root', octets) := transforms_loop (xf_transforms ref) root None in
        match octets with
        | Some octets => inr octets
        | None => CanonicalizeDoc root' XML_C14N_1_0 false
        end
    end.

(** ** The verifier *)

Definition ExtractEmbeddedCertificate (signature_scope_node : xmlNode) : option bytes :=
  match FindFirstDsigElementInSubtree signature_scope_node "X509Certificate" with
  | Some cert_node =>
      match Base64.Base64Decode (TrimmedText cert_node) with
      | Some [] | None => None
      | Some cert_der => Some cert_der
      end
  | None => None
  end.

Definition LegacyReferenceStatus (detail : XmlReferenceVerificationDetail) : string :=
  rd_status detail
  +s+ (if str_empty (rd_uri detail) then "" else ": " +s+ rd_uri detail)
  +s+ (if str_empty (rd_error detail) then "" else " (" +s+ rd_error detail +s+ ")").

Definition FillDigestDiagnostics (detail : XmlReferenceVerificationDetail) (expected computed : bytes)
    : XmlReferenceVerificationDetail :=
  detail <| rd_expected_hex := Hex.HexEncode expected |> <| rd_computed_hex := Hex.HexEncode computed |>
         <| rd_computed_base64 := Base64.Base64Encode computed |>.

Definition IsSignedPropertiesReference (ref : XmlReference) : bool := str_contains (xf_type ref) "SignedProperties".

(** The octets a reference stands for, or the status and the error of the step that failed. *)
Definition reference_octets (signed_xml : string) (root : xmlNode) (external_references : gmap string bytes)
    (ref : XmlReference) : (string * string) + string :=
  match IsIdFragmentUri (xf_uri ref), IsCanonicalizationOnlyTransform (xf_transforms ref) with
  | Some fragment, true =>
      let '(mode, comments) := match xf_transforms ref with
                               | uri :: _ => default (XML_C14N_1_0, false) (C14nUriToMode uri)
                               | [] => (XML_C14N_1_0, false)
                               end in
      match CanonicalizeSubtreeById root fragment mode comments with
      | inl err => inl ("transform-failed", err)
      | inr octets => inr octets
      end
  | _, _ =>
      match ResolveReference signed_xml ref external_references with
      | inl err => inl ("resolve-failed", err)
      | inr resolved =>
          match ApplyTransforms resolved ref with
          | inl err => inl ("transform-failed", err)
          | inr octets => inr octets
          end
      end
  end.

Definition octets_of (text : string) : bytes := map Ascii.byte_of_ascii (chars text).

(** One reference: whether its digest is right, its detail, and the number of octets when it is the
    reference to the signed properties. *)
Definition check_reference (signed_xml : string) (root : xmlNode) (external_references : gmap string bytes)
    (cert_der : bytes) (ref : XmlReference) : bool * XmlReferenceVerificationDetail * option nat :=
  let detail := XmlReferenceVerificationDetail_default
    <| rd_uri := xf_uri ref |> <| rd_type := xf_type ref |> <| rd_digest_method := xf_digest_method ref |>
    <| rd_expected_base64 := xf_digest_value_base64 ref |> in
  match Base64.Base64Decode (xf_digest_value_base64 ref) with
  | None => (false, detail <| rd_status := "digest-failed" |> <| rd_error := "invalid DigestValue base64" |>, None)
  | Some expected =>
      let detail := detail <| rd_expected_hex := Hex.HexEncode expected |> in
      let failed (status error : string) := (false, detail <| rd_status := status |> <| rd_error := error |>, None) in
      if match IsIdFragmentUri (xf_uri ref) with
         | Some id_fragment => negb (CountElementsById [root] id_fragment =? 1)%nat
         | None => false
         end
      then failed "resolve-failed" "duplicate or missing Id for referenced fragment"
      else
        match reference_octets signed_xml root external_references ref with
        | inl (status, err) => failed status err
        | inr octets =>
            match ComputeDigestByCertificate (octets_of octets) (xf_digest_method ref) cert_der with
            | inl err => failed "digest-failed" err
            | inr digest =>
                let detail := FillDigestDiagnostics detail expected digest in
                let props := if IsSignedPropertiesReference ref then Some (length (octets_of octets)) else None in
                if bool_decide (digest = expected) then (true, detail <| rd_status := "ok" |>, props)
                else (false, detail <| rd_status := "mismatch" |>
                                    <| rd_error := "computed digest does not match DigestValue" |>, props)
            end
        end
  end.

(** The references in order, into the result. *)
Fixpoint references_loop (signed_xml : string) (root : xmlNode) (external_references : gmap string bytes)
    (cert_der : bytes) (refs : list XmlReference) (all_digests : bool) (result : XmlSignatureVerificationResult)
    : bool * XmlSignatureVerificationResult :=
  match refs with
  | [] => (all_digests, result)
  | ref :: refs' =>
      let '(ok, detail, props) := check_reference signed_xml root external_references cert_der ref in
      let result := match props with
                    | Some n => result <| xr_signed_properties_canonicalized_length := n |>
                                       <| xr_signed_properties_hash_hex := rd_computed_hex detail |>
                                       <| xr_signed_properties_hash_base64 := rd_computed_base64 detail |>
                    | None => result
                    end in
      references_loop signed_xml root external_references cert_der refs' (all_digests && ok)
        (result <| xr_reference_statuses ::= (fun l => l ++ [LegacyReferenceStatus detail]) |>
                <| xr_reference_details ::= (fun l => l ++ [detail]) |>)
  end.

(** The hash of the signed properties, for the report, when no reference has given it. *)
Definition signed_properties_diagnostics (root signature_node : xmlNode) (position : Z) (mode : C14nMode) (comments : bool)
    (sm_uri : string) (cert_der : bytes) (result : XmlSignatureVerificationResult) : XmlSignatureVerificationResult :=
  if (xr_signed_properties_canonicalized_length result =? 0)%nat
     && (CountElementsInSubtree signature_node "SignedProperties" =? 1)%nat then
    match CanonicalizeSubtreeWithinSignature root position "SignedProperties" mode comments with
    | inl _ => result
    | inr octets =>
        match ComputeDigestByCertificate (octets_of octets) sm_uri cert_der with
        | inl _ => result
        | inr hash => result <| xr_signed_properties_canonicalized_length := length (octets_of octets) |>
                             <| xr_signed_properties_hash_hex := Hex.HexEncode hash |>
                             <| xr_signed_properties_hash_base64 := Base64.Base64Encode hash |>
        end
    end
  else result.

(** The verdict of the signature primitive on a digest. *)
Definition verify_value (cert_der : bytes) (rsa_hash : option RsaHashAlg) (hash signature : bytes)
    (result : XmlSignatureVerificationResult) : XmlSignatureVerificationResult :=
  let verdict (valid : bool) (error : string) :=
    result <| xr_signature_valid := valid |> <| xr_signature_value_valid := valid |> <| xr_signature_value_error := error |> in
  match rsa_hash with
  | Some alg =>
      let rsa := VerifyRsaPkcs1 cert_der alg hash signature in
      if negb (rv_executed rsa) then
        (verdict false (if str_empty (rv_message rsa) then "RSA signature verification could not be performed" else rv_message rsa))
          <| xr_signature_algorithm_unsupported := true |>
      else
        verdict (rv_valid rsa)
          (if rv_valid rsa then "" else if str_empty (rv_message rsa) then "RSA signature does not match" else rv_message rsa)
  | None =>
      match VerifyHash cert_der hash signature with
      | inl verify_error => verdict false verify_error
      | inr (is_valid, verify_error) =>
          verdict is_valid
            (if is_valid then "" else if str_empty verify_error then "VerifyHash returned invalid signature" else verify_error)
      end
  end.

Definition VerifySignatureAtPosition (root signature_node : xmlNode) (position : Z) (signed_xml : string)
    (external_references : gmap string bytes) : string + XmlSignatureVerificationResult :=
  let embedded := ExtractEmbeddedCertificate signature_node in
  let cert_der := default [] embedded in
  let result := XmlSignatureVerificationResult_default
    <| xr_signing_cert_id := match embedded with Some _ => "embedded-x509" | None => "(no certificate in KeyInfo)" end |> in
  let? refs := ExtractReferencesForSignature signed_xml position in
  let '(all_digests, result) := references_loop signed_xml root external_references cert_der refs true result in
  let result := result <| xr_digest_valid := all_digests |> in
  match embedded with
  | None => inr (result <| xr_signature_value_error := "no certificate in KeyInfo" |>)
  | Some cert_der =>
      let! signed_info := FindFirstElementInSubtree signature_node "SignedInfo" else "Не знайдено ds:SignedInfo" in
      let '(mode, comments) := match FindFirstElement (children_of signed_info) "CanonicalizationMethod" with
                               | Some cm => default (XML_C14N_1_0, false) (C14nUriToMode (GetAttr cm "Algorithm"))
                               | None => (XML_C14N_1_0, false)
                               end in
      let? signed_info_octets := CanonicalizeSubtreeWithinSignature root position "SignedInfo" mode comments in
      let! sm := FindFirstElement (children_of signed_info) "SignatureMethod"
        else "Не знайдено ds:SignatureMethod у ds:SignedInfo" in
      let sm_uri := GetAttr sm "Algorithm" in
      let! si_alg := MapSignatureMethodUri sm_uri else ("Непідтримуваний SignatureMethod URI: " +s+ sm_uri) in
      let rsa_hash := MapRsaSignatureMethod sm_uri in
      let si_bytes := octets_of signed_info_octets in
      let? imprint := match rsa_hash with
                      | Some _ => ComputeImprint si_alg si_bytes
                      | None => ComputeImprintByCertificate cert_der si_alg si_bytes
                      end in
      let result := result <| xr_signed_info_canonicalized_length := length si_bytes |>
                           <| xr_signed_info_hash_hex := Hex.HexEncode (im_hash imprint) |>
                           <| xr_signed_info_hash_base64 := Base64.Base64Encode (im_hash imprint) |> in
      let result := signed_properties_diagnostics root signature_node position mode comments sm_uri cert_der result in
      let! signature := match FindFirstElementInSubtree signature_node "SignatureValue" with
                        | Some sv => Base64.Base64Decode (TrimmedText sv)
                        | None => None
                        end else "Відсутнє або некоректне ds:SignatureValue" in
      inr (verify_value cert_der rsa_hash (im_hash imprint) signature result)
  end.

Definition Verify (signed_xml : string) (external_references : gmap string bytes) : string + XmlSignatureVerificationResult :=
  let? parsed := ParseHardened signed_xml in
  let nodes := root_list parsed in
  let signature_count := CountElementsByLocalName nodes "Signature" in
  if (signature_count =? 0)%nat then inl "Не знайдено ds:Signature"
  else if (1 <? signature_count)%nat
  then inl "Кілька ds:Signature у документі поки не підтримуються (захист від wrapping)"
  else if negb (CountElementsByLocalName nodes "SignedInfo" =? 1)%nat
  then inl "Очікується рівно один ds:SignedInfo (захист від wrapping)"
  else if negb (CountElementsByLocalName nodes "SignatureValue" =? 1)%nat
  then inl "Очікується рівно один ds:SignatureValue (захист від wrapping)"
  else if (1 <? CountElementsByLocalName nodes "SignedProperties")%nat
  then inl "Кілька xades:SignedProperties у документі (захист від wrapping)"
  else
    match parsed, FindFirstDsigElement nodes "Signature" with
    | Some root, Some signature_node => VerifySignatureAtPosition root signature_node 1 signed_xml external_references
    | _, _ => inl "Не знайдено ds:Signature у namespace XMLDSIG"
    end.

(** One signature of several. *)
Definition verify_one (root : xmlNode) (signed_xml : string) (external_references : gmap string bytes)
    (position : Z) (signature_node : xmlNode) : string + XmlSignatureVerificationResult :=
  if negb (CountElementsInSubtree signature_node "SignedInfo" =? 1)%nat
  then inl "Очікується рівно один ds:SignedInfo у межах кожного ds:Signature (захист від wrapping)"
  else if negb (CountElementsInSubtree signature_node "SignatureValue" =? 1)%nat
  then inl "Очікується рівно один ds:SignatureValue у межах кожного ds:Signature (захист від wrapping)"
  else if (1 <? CountElementsInSubtree signature_node "SignedProperties")%nat
  then inl "Кілька xades:SignedProperties у межах одного ds:Signature (захист від wrapping)"
  else VerifySignatureAtPosition root signature_node position signed_xml external_references.

Fixpoint verify_each (root : xmlNode) (signed_xml : string) (external_references : gmap string bytes)
    (position : Z) (signature_nodes : list xmlNode) : string + list XmlSignatureVerificationResult :=
  match signature_nodes with
  | [] => inr []
  | node :: signature_nodes' =>
      let? result := verify_one root signed_xml external_references position node in
      let? results := verify_each root signed_xml external_references (position + 1) signature_nodes' in
      inr (result :: results)
  end.

Definition VerifyAll (signed_xml : string) (external_references : gmap string bytes)
    : string + list XmlSignatureVerificationResult :=
  let? parsed := ParseHardened signed_xml in
  let '(signature_nodes, nested_found) := CollectTopLevelSignatureNodes (root_list parsed) in
  if nested_found then inl "Вкладений ds:Signature у межах іншого ds:Signature (захист від wrapping)"
  else
    match parsed, signature_nodes with
    | Some root, _ :: _ => verify_each root signed_xml external_references 1 signature_nodes
    | _, _ => inl "Не знайдено ds:Signature"
    end.

End Verifier.

(** ** The searches see the elements in document order *)

Lemma xmlNode_nested_ind (P : xmlNode -> Prop) :
  (forall name ns attributes children, Forall P children -> P (Element name ns attributes children)) ->
  (forall content, P (Text content)) -> forall node, P node.
Proof.
  intros He Ht. fix IH 1. intros [name ns attributes children|content]; [|apply Ht].
  apply He. induction children as [|n children IHl]; constructor; [apply IH|done].
Qed.

Definition elements (nodes : list xmlNode) : list xmlNode := concat (map preorder nodes).

Lemma elements_cons (node : xmlNode) (nodes : list xmlNode) :
  elements (node :: nodes) = preorder node ++ elements nodes.
Proof. done. Qed.

Lemma head_app_filter {A} (f : A -> bool) (a b : list A) :
  head (List.filter f (a ++ b)) = match head (List.filter f a) with Some x => Some x | None => head (List.filter f b) end.
Proof. rewrite List.filter_app. by destruct (List.filter f a). Qed.

Section SearchSpec.
Context (matches : xmlNode -> bool) (no_text : forall content, matches (Text content) = false).

Lemma FindFirstElementInSubtreeBy_spec (node : xmlNode) :
  FindFirstElementInSubtreeBy matches node = head (List.filter matches (preorder node)).
Proof.
  induction node as [name ns attributes children IH|content] using xmlNode_nested_ind.
  - cbn [preorder List.filter]. destruct (matches (Element name ns attributes children)) eqn:Em.
    { cbn. by rewrite Em. }
    cbn. rewrite Em. clear Em. induction IH as [|n children IHn _ IHl]; [done|].
    cbn [map concat]. rewrite head_app_filter, <- IHn. by destruct (FindFirstElementInSubtreeBy matches n).
  - cbn. by rewrite no_text.
Qed.

Lemma FindFirstElementBy_spec (nodes : list xmlNode) :
  FindFirstElementBy matches nodes = head (List.filter matches (elements nodes)).
Proof.
  induction nodes as [|n nodes IH]; [done|]. cbn [FindFirstElementBy].
  rewrite elements_cons, head_app_filter, FindFirstElementInSubtreeBy_spec, IH. done.
Qed.

Lemma CountElementsInSubtreeBy_spec (node : xmlNode) :
  CountElementsInSubtreeBy matches node = length (List.filter matches (preorder node)).
Proof.
  induction node as [name ns attributes children IH|content] using xmlNode_nested_ind.
  - cbn [preorder List.filter CountElementsInSubtreeBy].
    assert (list_sum (map (CountElementsInSubtreeBy matches) children)
            = length (List.filter matches (concat (map preorder children)))) as ->.
    { induction IH as [|n children IHn _ IHl]; [done|].
      cbn [map concat list_sum foldr]. rewrite List.filter_app, length_app, <- IHn, <- IHl. done. }
    by destruct (matches (Element name ns attributes children)).
  - cbn. by rewrite no_text.
Qed.

Lemma CountElementsBy_spec (nodes : list xmlNode) :
  CountElementsBy matches nodes = length (List.filter matches (elements nodes)).
Proof.
  induction nodes as [|n nodes IH]; [done|]. unfold CountElementsBy in *. cbn [map list_sum foldr].
  rewrite elements_cons, List.filter_app, length_app, CountElementsInSubtreeBy_spec. unfold list_sum in IH. by rewrite <- IH.
Qed.

End SearchSpec.

(** The elements of a name among some nodes and below them. *)
Definition named (nodes : list xmlNode) (local_name : string) : list xmlNode :=
  List.filter (fun node => IsElementNamed node local_name) (elements nodes).

Lemma elements_single (node : xmlNode) : elements [node] = preorder node.
Proof. unfold elements. cbn. by rewrite app_nil_r. Qed.

Lemma FindFirstElement_named (nodes : list xmlNode) (local_name : string) :
  FindFirstElement nodes local_name = head (named nodes local_name).
Proof. apply FindFirstElementBy_spec. done. Qed.

Lemma FindFirstElementInSubtree_named (node : xmlNode) (local_name : string) :
  FindFirstElementInSubtree node local_name = head (named [node] local_name).
Proof. unfold named. rewrite elements_single. apply FindFirstElementInSubtreeBy_spec. done. Qed.

Lemma CountElementsByLocalName_named (nodes : list xmlNode) (local_name : string) :
  CountElementsByLocalName nodes local_name = length (named nodes local_name).
Proof. apply CountElementsBy_spec. done. Qed.

Lemma CountElementsInSubtree_named (node : xmlNode) (local_name : string) :
  CountElementsInSubtree node local_name = length (named [node] local_name).
Proof. unfold named. rewrite elements_single. apply CountElementsInSubtreeBy_spec. done. Qed.

Lemma FindFirstDsigElement_named (nodes : list xmlNode) (local_name : string) :
  FindFirstDsigElement nodes local_name
  = head (List.filter (fun node => IsElementInNamespace node DsigNamespace) (named nodes local_name)).
Proof.
  unfold FindFirstDsigElement. rewrite FindFirstElementBy_spec by done. unfold named, IsDsigElementNamed.
  f_equal. induction (elements nodes) as [|n l IH]; [done|]. cbn.
  destruct (IsElementNamed n local_name); cbn; [destruct (IsElementInNamespace n DsigNamespace)|]; by rewrite IH.
Qed.

(** ** The signatures of a document with one element of that name *)

Lemma elements_app (a b : list xmlNode) : elements (a ++ b) = elements a ++ elements b.
Proof. unfold elements. by rewrite map_app, concat_app. Qed.

Lemma named_cons (node : xmlNode) (nodes : list xmlNode) (local_name : string) :
  named (node :: nodes) local_name = named [node] local_name ++ named nodes local_name.
Proof. unfold named. change (node :: nodes) with ([node] ++ nodes). by rewrite elements_app, List.filter_app. Qed.

Lemma named_element (node : xmlNode) (local_name : string) :
  named [node] local_name
  = (if IsElementNamed node local_name then [node] else []) ++ named (children_of node) local_name.
Proof.
  unfold named. rewrite elements_single. destruct node as [name ns attributes children|content]; [|done].
  cbn [preorder List.filter children_of]. fold (elements children).
  by destruct (IsElementNamed (Element name ns attributes children) local_name).
Qed.

(** What is collected from nodes that hold at most one element [Signature]. *)
Definition one_signature (nodes : list xmlNode) : list xmlNode * bool :=
  (List.filter (fun node => IsElementInNamespace node DsigNamespace) (named nodes "Signature"), false).

Lemma collect_signatures_eq (node : xmlNode) :
  collect_signatures node
  = if IsDsigElementNamed node "Signature" then
      ([node], match named (children_of node) "Signature" with [] => false | _ => true end)
    else CollectTopLevelSignatureNodes (children_of node).
Proof.
  destruct node as [name ns attributes children|content]; [|done]. cbn [collect_signatures children_of].
  rewrite FindFirstElement_named. by destruct (named children "Signature").
Qed.

Lemma collect_each (nodes : list xmlNode) :
  Forall (fun n => (length (named [n] "Signature") <= 1)%nat -> collect_signatures n = one_signature [n]) nodes ->
  (length (named nodes "Signature") <= 1)%nat -> CollectTopLevelSignatureNodes nodes = one_signature nodes.
Proof.
  induction 1 as [|n nodes Hn _ IH]; [done|]. rewrite named_cons, length_app. intros H1.
  specialize (IH ltac:(lia)). unfold CollectTopLevelSignatureNodes, one_signature in *. cbn [map].
  rewrite Hn, (named_cons n nodes), List.filter_app by lia. cbn. injection IH as -> ->. done.
Qed.

Lemma collect_of_one (node : xmlNode) :
  (length (named [node] "Signature") <= 1)%nat -> collect_signatures node = one_signature [node].
Proof.
  induction node as [name ns attributes children IH|content] using xmlNode_nested_ind; intros H1; [|done].
  rewrite collect_signatures_eq. unfold one_signature. rewrite named_element in H1 |- *. cbn [children_of] in *.
  unfold IsDsigElementNamed. destruct (IsElementNamed _ "Signature"); cbn [andb app] in *; [|by apply collect_each].
  destruct (named children "Signature") as [|x l] eqn:Ec; [|cbn in H1; lia]. cbn [List.filter].
  destruct (IsElementInNamespace _ DsigNamespace); [done|].
  rewrite collect_each by (done || by rewrite Ec; cbn; lia). unfold one_signature. by rewrite Ec.
Qed.

Lemma Collect_one_signature (nodes : list xmlNode) :
  (length (named nodes "Signature") <= 1)%nat -> CollectTopLevelSignatureNodes nodes = one_signature nodes.
Proof. apply collect_each, Forall_forall. intros n _. apply collect_of_one. Qed.

(** ** What a valid answer rests on *)

Lemma preorder_below (node : xmlNode) (inner : xmlNode) :
  inner ∈ preorder node -> exists before after, preorder node = before ++ preorder inner ++ after.
Proof.
  induction node as [name ns attributes children IH|content] using xmlNode_nested_ind; intros Hin; cbn [preorder] in *.
  2:{ by apply elem_of_nil in Hin. }
  apply elem_of_cons in Hin as [->|Hin].
  { exists [], []. cbn [preorder app]. by rewrite app_nil_r. }
  assert (exists before after, elements children = before ++ preorder inner ++ after) as (before & after & E).
  { induction IH as [|n children IHn _ IHl]; [by apply elem_of_nil in Hin|]. cbn [map concat] in Hin.
    rewrite elements_cons. apply elem_of_app in Hin as [Hin|Hin].
    - destruct (IHn Hin) as (before & after & ->). exists before, (after ++ elements children). by rewrite !app_assoc.
    - destruct (IHl Hin) as (before & after & ->). exists (preorder n ++ before), after. by rewrite !app_assoc. }
  exists (Element name ns attributes children :: before), after. fold (elements children). by rewrite E.
Qed.

(** An element that is unique in the document and found inside a node is the same one. *)
Lemma named_unique (root node : xmlNode) (local_name : string) :
  node ∈ preorder root -> (length (named [root] local_name) <= 1)%nat -> named [node] local_name <> [] ->
  named [node] local_name = named [root] local_name.
Proof.
  intros Hin Hl Hne. destruct (preorder_below _ _ Hin) as (before & after & E).
  unfold named in *. rewrite elements_single in *. rewrite elements_single in *. rewrite E in *. rewrite !List.filter_app, !length_app in *.
  destruct (List.filter _ (preorder node)); [done|]. cbn [length] in Hl.
  destruct (List.filter _ before); [|cbn in Hl; lia]. destruct (List.filter _ after); [|cbn in Hl; lia].
  by rewrite app_nil_r.
Qed.

Lemma named_in (nodes : list xmlNode) (local_name : string) (node : xmlNode) :
  node ∈ named nodes local_name -> node ∈ elements nodes /\ IsElementNamed node local_name = true.
Proof. unfold named. rewrite !list_elem_of_In, List.filter_In. done. Qed.

Section Grounds.
Context `{Libxml : LibXml, Crypto : XmlCrypto, Digests : DigestApi}.
Context (signed_xml : string) (external_references : gmap string bytes).

(** The digest that a reference states is the digest of what it refers to, and a fragment is named by
    one element of the document only. *)
Definition reference_holds (root : xmlNode) (cert_der : bytes) (ref : XmlReference) : Prop :=
  exists octets digest,
    Base64.Base64Decode (xf_digest_value_base64 ref) = Some digest /\
    (forall id, IsIdFragmentUri (xf_uri ref) = Some id -> CountElementsById [root] id = 1%nat) /\
    reference_octets signed_xml root external_references ref = inr octets /\
    ComputeDigestByCertificate (octets_of octets) (xf_digest_method ref) cert_der = inr digest.

(** The primitive accepts a signature of a digest under a certificate. *)
Definition primitive_accepts (cert_der : bytes) (sm_uri : string) (hash signature : bytes) : Prop :=
  match MapRsaSignatureMethod sm_uri with
  | Some alg => rv_executed (VerifyRsaPkcs1 cert_der alg hash signature) = true
                /\ rv_valid (VerifyRsaPkcs1 cert_der alg hash signature) = true
  | None => exists message, VerifyHash cert_der hash signature = inr (true, message)
  end.

(** The value of the signature is one of the canonical form of [signed_info]. *)
Definition value_holds (root signature_node signed_info : xmlNode) (position : Z) (cert_der : bytes) : Prop :=
  exists mode comments octets sm alg imprint sv signature,
    CanonicalizeSubtreeWithinSignature root position "SignedInfo" mode comments = inr octets /\
    FindFirstElement (children_of signed_info) "SignatureMethod" = Some sm /\
    MapSignatureMethodUri (GetAttr sm "Algorithm") = Some alg /\
    (ComputeImprint alg (octets_of octets) = inr imprint \/
     ComputeImprintByCertificate cert_der alg (octets_of octets) = inr imprint) /\
    FindFirstElementInSubtree signature_node "SignatureValue" = Some sv /\
    Base64.Base64Decode (TrimmedText sv) = Some signature /\
    primitive_accepts cert_der (GetAttr sm "Algorithm") (im_hash imprint) signature.

Lemma check_reference_holds (root : xmlNode) (cert_der : bytes) (ref : XmlReference) :
  (check_reference signed_xml root external_references cert_der ref).1.1 = true -> reference_holds root cert_der ref.
Proof.
  unfold check_reference. intros E.
  destruct (Base64.Base64Decode (xf_digest_value_base64 ref)) as [expected|] eqn:Ed; [|done].
  destruct (match IsIdFragmentUri (xf_uri ref) with Some _ => _ | None => false end) eqn:Eid; [done|].
  destruct (reference_octets signed_xml root external_references ref) as [[status err]|octets] eqn:Eo; [done|].
  destruct (ComputeDigestByCertificate _ _ _) as [err|digest] eqn:Ec; [done|]. case_bool_decide as Hd; [|done]. subst digest.
  exists octets, expected. split_and!; try done. intros id Hid. rewrite Hid in Eid.
  by apply negb_false_iff, Nat.eqb_eq in Eid.
Qed.

Lemma references_loop_spec (root : xmlNode) (cert_der : bytes) (refs : list XmlReference) (all : bool)
    (result : XmlSignatureVerificationResult) :
  fst (references_loop signed_xml root external_references cert_der refs all result)
  = all && forallb (fun ref => (check_reference signed_xml root external_references cert_der ref).1.1) refs
  /\ xr_signature_valid (snd (references_loop signed_xml root external_references cert_der refs all result))
     = xr_signature_valid result.
Proof.
  revert all result. induction refs as [|ref refs IH]; intros all result; cbn [references_loop forallb].
  { by rewrite andb_true_r. }
  destruct (check_reference _ _ _ _ ref) as [[ok detail] props]. destruct (IH (all && ok)
    ((match props with
      | Some n => result <| xr_signed_properties_canonicalized_length := n |>
                         <| xr_signed_properties_hash_hex := rd_computed_hex detail |>
                         <| xr_signed_properties_hash_base64 := rd_computed_base64 detail |>
      | None => result
      end) <| xr_reference_statuses ::= (fun l => l ++ [LegacyReferenceStatus detail]) |>
           <| xr_reference_details ::= (fun l => l ++ [detail]) |>)) as [E1 E2].
  rewrite E1, E2. cbn [fst]. split; [by rewrite andb_assoc|by destruct props].
Qed.

Lemma verify_value_valid (cert_der : bytes) (sm_uri : string) (hash signature : bytes) (result : XmlSignatureVerificationResult) :
  xr_digest_valid (verify_value cert_der (MapRsaSignatureMethod sm_uri) hash signature result) = xr_digest_valid result /\
  (xr_signature_valid (verify_value cert_der (MapRsaSignatureMethod sm_uri) hash signature result) = true ->
   primitive_accepts cert_der sm_uri hash signature).
Proof.
  unfold verify_value, primitive_accepts. destruct (MapRsaSignatureMethod sm_uri) as [alg|].
  - destruct (rv_executed _); [|done]. by destruct (rv_valid _).
  - destruct (VerifyHash _ _ _) as [?|[[|] message]]; try done. split; [done|]. by exists message.
Qed.

Lemma diagnostics_digest_valid (root signature_node : xmlNode) (position : Z) (mode : C14nMode) (comments : bool)
    (sm_uri : string) (cert_der : bytes) (result : XmlSignatureVerificationResult) :
  xr_digest_valid (signed_properties_diagnostics root signature_node position mode comments sm_uri cert_der result)
  = xr_digest_valid result.
Proof. unfold signed_properties_diagnostics. by repeat case_match. Qed.

Lemma VerifySignatureAtPosition_valid (root signature_node : xmlNode) (position : Z) (result : XmlSignatureVerificationResult) :
  VerifySignatureAtPosition root signature_node position signed_xml external_references = inr result ->
  xr_signature_valid result = true ->
  exists cert_der refs signed_info,
    ExtractEmbeddedCertificate signature_node = Some cert_der /\
    ExtractReferencesForSignature signed_xml position = inr refs /\
    FindFirstElementInSubtree signature_node "SignedInfo" = Some signed_info /\
    value_holds root signature_node signed_info position cert_der /\
    (xr_digest_valid result = true -> Forall (reference_holds root cert_der) refs).
Proof.
  unfold VerifySignatureAtPosition. intros E Hv.
  destruct (ExtractReferencesForSignature signed_xml position) as [?|refs]; [done|].
  match type of E with context [references_loop ?a ?b ?c ?d ?e true ?f] =>
    destruct (references_loop_spec b d e true f) as [El Es]; destruct (references_loop a b c d e true f) as [all loop] end.
  cbn [fst snd] in El, Es. destruct (ExtractEmbeddedCertificate signature_node) as [cert_der|]; [|injection E as <-; cbn in Hv, Es; congruence].
  cbn [default] in El. destruct (FindFirstElementInSubtree signature_node "SignedInfo") as [signed_info|]; [|done].
  destruct (match FindFirstElement (children_of signed_info) "CanonicalizationMethod" with Some _ => _ | None => _ end) as [mode comments].
  destruct (CanonicalizeSubtreeWithinSignature root position "SignedInfo" mode comments) as [?|octets] eqn:Ec; [done|].
  destruct (FindFirstElement (children_of signed_info) "SignatureMethod") as [sm|] eqn:Em; [|done].
  destruct (MapSignatureMethodUri (GetAttr sm "Algorithm")) as [alg|] eqn:Ea; [|done].
  match type of E with match ?i with inr _ => _ | inl _ => _ end = _ => destruct i as [?|imprint] eqn:Ei end; [done|].
  destruct (FindFirstElementInSubtree signature_node "SignatureValue") as [sv|] eqn:Esv; [|done].
  destruct (Base64.Base64Decode (TrimmedText sv)) as [signature|] eqn:Esig; [|done]. injection E as <-.
  match type of Hv with context [verify_value ?c _ ?h ?s ?r] =>
    destruct (verify_value_valid c (GetAttr sm "Algorithm") h s r) as [Ed Hp] end.
  exists cert_der, refs, signed_info. split_and!; [done..| |].
  - exists mode, comments, octets, sm, alg, imprint, sv, signature. split_and!; try done; [|by apply Hp].
    by destruct (MapRsaSignatureMethod _); [left|right].
  - rewrite Ed, diagnostics_digest_valid. cbn. intros Hall. rewrite El in Hall. apply Forall_forall. intros ref Hin.
    apply check_reference_holds. apply (proj1 (forallb_forall _ _) Hall). by apply list_elem_of_In.
Qed.

(** The shape of a document that the verifier of one signature takes on. *)
Lemma Verify_shape (result : XmlSignatureVerificationResult) :
  Verify signed_xml external_references = inr result ->
  exists root signature_node,
    ParseHardened signed_xml = inr (Some root) /\ named [root] "Signature" = [signature_node] /\
    IsElementInNamespace signature_node DsigNamespace = true /\ length (named [root] "SignedInfo") = 1%nat /\
    length (named [root] "SignatureValue") = 1%nat /\ (length (named [root] "SignedProperties") <= 1)%nat /\
    VerifySignatureAtPosition root signature_node 1 signed_xml external_references = inr result.
Proof.
  unfold Verify. intros E. destruct (ParseHardened signed_xml) as [?|parsed]; [done|].
  rewrite !CountElementsByLocalName_named, FindFirstDsigElement_named in E.
  destruct (length (named (root_list parsed) "Signature") =? 0)%nat eqn:E0; [done|].
  destruct (1 <? length (named (root_list parsed) "Signature"))%nat eqn:E1; [done|].
  destruct (length (named (root_list parsed) "SignedInfo") =? 1)%nat eqn:E2; [|done].
  destruct (length (named (root_list parsed) "SignatureValue") =? 1)%nat eqn:E3; [|done].
  destruct (1 <? length (named (root_list parsed) "SignedProperties"))%nat eqn:E4; [done|]. cbn [negb] in E.
  apply Nat.eqb_neq in E0. apply Nat.ltb_ge in E1, E4. apply Nat.eqb_eq in E2, E3.
  destruct parsed as [root|]; [|done]. cbn [root_list] in *.
  destruct (named [root] "Signature") as [|signature_node [|]] eqn:En; [done| |cbn in E1; lia].
  cbn [List.filter] in E. destruct (IsElementInNamespace signature_node DsigNamespace) eqn:Ens; [|done]. cbn [head] in E.
  exists root, signature_node. split_and!; try done; lia.
Qed.

Lemma ExtractReferences_of_one (root signature_node : xmlNode) (refs : list XmlReference) :
  ParseHardened signed_xml = inr (Some root) -> named [root] "Signature" = [signature_node] ->
  IsElementInNamespace signature_node DsigNamespace = true ->
  ExtractReferencesForSignature signed_xml 1 = inr refs ->
  exists signed_info, named [signature_node] "SignedInfo" = [signed_info] /\ refs <> [] /\
    refs = map reference_of (List.filter (fun n => IsElementNamed n "Reference") (children_of signed_info)).
Proof.
  intros Ep Es Ens E. unfold ExtractReferencesForSignature in E. rewrite Ep in E. cbn [root_list] in E.
  rewrite Collect_one_signature in E by (rewrite Es; cbn; lia). unfold one_signature in E. rewrite Es in E.
  cbn [List.filter] in E. rewrite Ens in E. cbn [length] in E. change ((1 <? 1) || (Z.of_nat 1 <? 1)) with false in E.
  cbv iota in E. change ([signature_node] !! Z.to_nat (1 - 1)) with (Some signature_node) in E. cbv iota in E.
  rewrite CountElementsInSubtree_named, FindFirstElementInSubtree_named in E.
  destruct (length (named [signature_node] "SignedInfo") =? 1)%nat eqn:E1; [|done]. apply Nat.eqb_eq in E1. cbn [negb] in E.
  destruct (named [signature_node] "SignedInfo") as [|signed_info [|]]; [done| |done]. cbn [head] in E.
  exists signed_info. unfold ExtractReferencesFromSignedInfoNode in E.
  destruct (map reference_of _) as [|ref l] eqn:Er; [done|]. by injection E as <-.
Qed.

Lemma signature_in_root (root signature_node : xmlNode) :
  named [root] "Signature" = [signature_node] -> signature_node ∈ preorder root.
Proof.
  intros Es. destruct (named_in [root] "Signature" signature_node) as [Hin _]; [rewrite Es; by left|].
  by rewrite elements_single in Hin.
Qed.


(** The verifier of several signatures agrees with the verifier of one: what the latter calls valid is
    the only answer of the former. *)
Theorem VerifyAll_single (result : XmlSignatureVerificationResult) :
  Verify signed_xml external_references = inr result -> xr_signature_valid result = true ->
  VerifyAll signed_xml external_references = inr [result].
Proof.
  intros E Hv. destruct (Verify_shape _ E) as (root & sig & Ep & Es & Ens & E1 & E2 & E3 & Ev).
  destruct (VerifySignatureAtPosition_valid _ _ _ _ Ev Hv) as (cert_der & refs & signed_info & Ec & Er & Ei & Hval & Hrefs).
  destruct (ExtractReferences_of_one _ _ _ Ep Es Ens Er) as (signed_info' & Esi & _ & _).
  destruct Hval as (? & ? & ? & ? & ? & ? & sv & ? & _ & _ & _ & _ & Esv & _).
  unfold VerifyAll. rewrite Ep. cbn [root_list]. rewrite Collect_one_signature by (rewrite Es; cbn; lia).
  unfold one_signature. rewrite Es. cbn [List.filter]. rewrite Ens. cbn [verify_each]. unfold verify_one.
  rewrite !CountElementsInSubtree_named, Esi. rewrite FindFirstElementInSubtree_named in Esv.
  pose proof (signature_in_root _ _ Es) as Hroot.
  assert (named [sig] "SignatureValue" = named [root] "SignatureValue") as ->.
  { apply named_unique; [done|lia|]. intros En. by rewrite En in Esv. }
  rewrite E2. cbn [length Nat.eqb negb].
  assert ((1 <? length (named [sig] "SignedProperties"))%nat = false) as ->; [|by rewrite Ev].
  apply Nat.ltb_ge. destruct (decide (named [sig] "SignedProperties" = [])) as [->|Hne]; [cbn; lia|].
  rewrite (named_unique root sig "SignedProperties") by done. done.
Qed.

End Grounds.

(** ** A signed document *)

Module SampleSignature.

Definition ds (name : string) (attributes : list (string * string)) (children : list xmlNode) : xmlNode :=
  Element name DsigNamespace attributes children.

Definition content_of (name service : string) : string := name +s+ service.

Definition signed_info_of (digest_base64 : string) : xmlNode :=
  ds "SignedInfo" []
    [ds "SignatureMethod" [("Algorithm", "http://www.w3.org/2001/04/xmldsig-more#ecdsa-sha256")] [];
     ds "Reference" [("URI", "")]
       [ds "Transforms" [] [ds "Transform" [("Algorithm", kEnveloped)] []];
        ds "DigestMethod" [("Algorithm", "http://www.w3.org/2001/04/xmlenc#sha256")] [];
        ds "DigestValue" [] [Text digest_base64]]].

Definition genuine_digest : string :=
  Eval vm_compute in Base64.Base64Encode (Sha256 (octets_of (content_of "genuine" "CA of Alice"))).

Definition genuine_value : string := Eval vm_compute in Base64.Base64Encode (Sha256 (octets_of genuine_digest)).

Definition signature : xmlNode :=
  ds "Signature" []
    [signed_info_of genuine_digest; ds "SignatureValue" [] [Text genuine_value];
     ds "KeyInfo" [] [ds "X509Data" [] [ds "X509Certificate" [] [Text (Base64.Base64Encode [x30; x00])]]]].

Definition document (name service : string) : xmlNode :=
  Element "TrustServiceStatusList" "" []
    [Element "SchemeName" "" [] [Text name]; Element "ServiceName" "" [] [Text service]; signature].

(** Texts are read by their names; the canonical form of a selection is the content of [SignedInfo]. *)
Definition toy_xml : LibXml := {|
  xmlReadMemory text :=
    if text ==s "genuine" then Some (MkXmlDoc false (Some (document text "CA of Alice")))
    else if text ==s "altered" then Some (MkXmlDoc false (Some (document text "CA of Mallory")))
    else None
|}.

Definition toy_crypto : XmlCrypto := {|
  NodeSet := string;
  xpath_select _ xpath := Some xpath;
  c14n_dump root selection _ _ :=
    match root, selection with
    | Some root, Some _ => Some (from_option NodeContent "" (FindFirstElement [root] "SignedInfo"))
    | Some root, None => Some (NodeContent root)
    | None, _ => None
    end;
  serialize_node root _ := from_option NodeContent "" (FindFirstElement [root] "SchemeName");
  rsa_backend _ _ _ _ := MkRsaVerifyResult false false "";
  VerifyHash _ hash signature := inr (bool_decide (signature = hash), "")
|}.

Definition toy_digests : DigestApi := {|
  kupyna256 _ := None; gost34311 _ := None; sha384 _ := None; sha512 _ := None;
  certificate_adapter _ _ := inl ""; signer_digest_oid _ := None
|}.

#[local] Existing Instances toy_xml toy_crypto toy_digests.

Definition genuine_result : XmlSignatureVerificationResult :=
  Eval vm_compute in match Verify "genuine" ∅ with inr result => result | inl _ => XmlSignatureVerificationResult_default end.

Lemma genuine_verified : Verify "genuine" ∅ = inr genuine_result.
Proof. vm_compute. reflexivity. Qed.


Lemma VerifyAll_single_witness : VerifyAll "genuine" ∅ = inr [genuine_result].
Proof. exact (VerifyAll_single "genuine" ∅ genuine_result genuine_verified eq_refl). Defined.

(** The altered document: the value of the signature is still right, the digest is not. *)
Example altered_document :
  match Verify "altered" ∅ with
  | inr result => xr_signature_valid result = true /\ xr_digest_valid result = false
  | inl _ => False
  end.
Proof. vm_compute. done. Qed.

End SampleSignature.
