(* ===== verification/Evidence.v ===== *)
(** * Evidence: the content-addressed store of evidence

    Models [core/validation/EvidenceStore.cpp].  A record is stored under the
    SHA-256 of its bytes, or of the canonical JSON of its fields; [records_] is a
    finite map. *)

From stdpp Require Import sorting.
From S2P Require Import Prelude CxxString Codec Sha256.

Local Open Scope Z_scope.

Record EvidenceRecord := MkEvidenceRecord {
  er_id : string;
  er_type : string;
  er_source : string;
  er_bytes : bytes;
  er_canonical_json : string
}.

#[export] Instance eta_EvidenceRecord : Eta EvidenceRecord := fun r =>
  MkEvidenceRecord (er_id r) (er_type r) (er_source r) (er_bytes r) (er_canonical_json r).

Definition EvidenceRecord_default : EvidenceRecord :=
  MkEvidenceRecord "" "" "" [] "".

Abbreviation EvidenceStore := (gmap string EvidenceRecord).

Definition EvidenceIdForBytes (data : bytes) : string := "sha256:" +s+ LowerHex (Sha256 data).

(** ** Canonical JSON *)

Definition QUOTE : ascii := to_char 34.
Definition BACKSLASH : ascii := to_char 92.

Definition JsonUnicodeEscape (value : Z) : list ascii :=
  [BACKSLASH; "u"%char; "0"%char; "0"%char;
   Hex.hex_digit (Z.land (Z.shiftr value 4) 15); Hex.hex_digit (Z.land value 15)].

Definition escape_char (ch : ascii) : list ascii :=
  match uc ch with
  | 34 => [BACKSLASH; QUOTE]
  | 92 => [BACKSLASH; BACKSLASH]
  | 8 => [BACKSLASH; "b"%char]
  | 12 => [BACKSLASH; "f"%char]
  | 10 => [BACKSLASH; "n"%char]
  | 13 => [BACKSLASH; "r"%char]
  | 9 => [BACKSLASH; "t"%char]
  | v => if v <? 32 then JsonUnicodeEscape v else [ch]
  end.

Definition EscapeJsonString (value : list ascii) : list ascii := concat (map escape_char value).

Definition json_member (field : string * string) : list ascii :=
  [QUOTE] ++ EscapeJsonString (chars field.1) ++ [QUOTE; ":"%char; QUOTE]
  ++ EscapeJsonString (chars field.2) ++ [QUOTE].

(** The loop over the map: a comma before every member but the first. *)
Fixpoint json_members (fields : list (string * string)) : list ascii :=
  match fields with
  | [] => []
  | [f] => json_member f
  | f :: rest => json_member f ++ [","%char] ++ json_members rest
  end.

Definition BuildCanonicalJson (fields : list (string * string)) : string :=
  of_chars (["{"%char] ++ json_members fields ++ ["}"%char]).

(** ** [std::map<std::string, std::string>]: the members in the order of their keys *)

Fixpoint map_insert (k v : string) (m : list (string * string)) : list (string * string) :=
  match m with
  | [] => [(k, v)]
  | (k', v') :: rest =>
      if str_ltb k k' then (k, v) :: m else (k', v') :: map_insert k v rest
  end.

Definition has_key (k : string) (m : list (string * string)) : bool :=
  existsb (fun f => f.1 ==s k) m.

(** The loop over the fields: a reserved or repeated key makes it fail. *)
Fixpoint canonical_fields (fields : list (string * string)) (m : list (string * string))
    : option (list (string * string)) :=
  match fields with
  | [] => Some m
  | (k, v) :: rest =>
      if (k ==s "type") || has_key k m then None else canonical_fields rest (map_insert k v m)
  end.

Definition canonical_map (type : string) (fields : list (string * string))
    : option (list (string * string)) :=
  map_insert "type" type <$> canonical_fields fields [].

Definition StringBytes (value : string) : bytes := map (fun c => to_u8 (uc c)) (chars value).

(** ** The operations *)

Definition PutRawEvidence (type : string) (data : bytes) (source : string) (records : EvidenceStore)
    : string * EvidenceStore :=
  let id := EvidenceIdForBytes data in
  match records !! id with
  | Some _ => (id, records)
  | None => (id, <[id := MkEvidenceRecord id type source data ""]> records)
  end.

Definition PutDerivedEvidence (type : string) (fields : list (string * string)) (records : EvidenceStore)
    : string * EvidenceStore :=
  match canonical_map type fields with
  | None => ("", records)
  | Some m =>
      let canonical_json := BuildCanonicalJson m in
      let id := EvidenceIdForBytes (StringBytes canonical_json) in
      match records !! id with
      | Some _ => (id, records)
      | None =>
          let source := default "" (snd <$> List.find (fun f => f.1 ==s "source") m) in
          (id, <[id := MkEvidenceRecord id type source [] canonical_json]> records)
      end
  end.

Definition Resolve (id : string) (records : EvidenceStore) : option EvidenceRecord := records !! id.

(** ** The store as a state machine: any sequence of writes *)

Inductive put : EvidenceStore -> string -> EvidenceStore -> Prop :=
| put_raw type data source records :
    put records (PutRawEvidence type data source records).1 (PutRawEvidence type data source records).2
| put_derived type fields records m :
    canonical_map type fields = Some m ->
    put records (PutDerivedEvidence type fields records).1 (PutDerivedEvidence type fields records).2.

Inductive reachable : EvidenceStore -> Prop :=
| reach_empty : reachable ∅
| reach_put records id records' : reachable records -> put records id records' -> reachable records'.

(** Every record is stored under its own id, and the id is the digest of its content. *)
Definition content_addressed (records : EvidenceStore) : Prop :=
  forall id r, records !! id = Some r ->
    er_id r = id /\
    id = EvidenceIdForBytes (if str_empty (er_canonical_json r) then er_bytes r
                             else StringBytes (er_canonical_json r)).

Lemma put_content_addressed (records records' : EvidenceStore) (id : string) :
  content_addressed records -> put records id records' -> content_addressed records'.
Proof.
  intros Hc Hp. revert Hc. destruct Hp as [type data source rec|type fields rec m Hm]; intros Hc id' r.
  - unfold PutRawEvidence. destruct (rec !! _) eqn:E; cbn; [apply Hc|].
    rewrite lookup_insert_Some. intros [[<- <-]|[_ Hr]]; [done|by apply Hc].
  - unfold PutDerivedEvidence. rewrite Hm. destruct (rec !! _) eqn:E; cbn; [apply Hc|].
    rewrite lookup_insert_Some. intros [[<- <-]|[_ Hr]]; [|by apply Hc].
    done.
Qed.

Lemma put_grows (records records' : EvidenceStore) (id : string) :
  put records id records' -> records ⊆ records'.
Proof.
  intros [type data source rec|type fields rec m Hm].
  - unfold PutRawEvidence. destruct (rec !! _) eqn:E; cbn; [done|by apply insert_subseteq].
  - unfold PutDerivedEvidence. rewrite Hm. destruct (rec !! _) eqn:E; cbn; [done|by apply insert_subseteq].
Qed.

Lemma put_resolves (records records' : EvidenceStore) (id : string) :
  put records id records' -> is_Some (Resolve id records').
Proof.
  intros [type data source rec|type fields rec m Hm]; unfold Resolve.
  - unfold PutRawEvidence. destruct (rec !! EvidenceIdForBytes data) eqn:E; cbn; [by rewrite E|].
    by rewrite lookup_insert_eq.
  - unfold PutDerivedEvidence. rewrite Hm. destruct (rec !! _) as [r|] eqn:E.
    + by exists r.
    + cbn [fst snd]. by rewrite lookup_insert_eq.
Qed.

(** The evidence store is append-only and content-addressed: in every state that any sequence
    of writes reaches, each record is under its own id and that id is the SHA-256 of its content;
    a write returns an id that resolves to a record, and never changes or removes an existing
    one, so evidence once cited cannot be replaced. *)
Theorem EvidenceStore_append_only (records records' : EvidenceStore) (id : string) :
  reachable records -> put records id records' ->
  content_addressed records' /\ records ⊆ records' /\ is_Some (Resolve id records').
Proof.
  intros Hr Hp. split_and!; [|by apply (put_grows _ _ id)|by apply (put_resolves records)].
  apply (put_content_addressed records records' id); [|done].
  clear Hp. induction Hr as [|rec i rec' _ IH Hp]; [done|by apply (put_content_addressed rec rec' i)].
Qed.

Lemma EvidenceStore_append_only_witness :
  exists records', content_addressed records' /\
    is_Some (Resolve "sha256:e3b0c44298fc1c149afbf4c8996fb92427ae41e4649b934ca495991b7852b855" records').
Proof.
  set (p := PutRawEvidence "certificate" [] "cms" ∅).
  assert (p.1 = "sha256:e3b0c44298fc1c149afbf4c8996fb92427ae41e4649b934ca495991b7852b855") as E
    by by vm_compute.
  destruct (EvidenceStore_append_only ∅ p.2 p.1 reach_empty (put_raw "certificate" [] "cms" ∅))
    as (Hc & _ & Hres).
  exists p.2. rewrite E in Hres. exact (conj Hc Hres).
Defined.

(** ** Canonicalisation *)

Definition key_lt (a b : string * string) : Prop := str_ltb a.1 b.1 = true.

#[export] Instance key_lt_trans : Transitive key_lt.
Proof. intros a b c. apply str_ltb_trans. Qed.

Lemma map_insert_permutation (k v : string) (m : list (string * string)) :
  map_insert k v m ≡ₚ (k, v) :: m.
Proof.
  induction m as [|[k' v'] m IH]; [done|]. cbn. destruct (str_ltb k k'); [done|].
  rewrite IH. apply perm_swap.
Qed.

Lemma map_insert_sorted (k v : string) (m : list (string * string)) :
  StronglySorted key_lt m -> has_key k m = false -> StronglySorted key_lt (map_insert k v m).
Proof.
  induction m as [|[k' v'] m IH]; cbn; intros Hs Hk; [by repeat constructor|].
  apply orb_false_iff in Hk as [Hk' Hk]. apply String.eqb_neq in Hk'.
  inversion Hs as [|? ? Hs' Hall]; subst.
  destruct (str_ltb k k') eqn:E.
  - constructor; [done|]. constructor; [done|].
    eapply Forall_impl; [exact Hall|]. intros [k2 v2] H2. by apply (str_ltb_trans k k' k2).
  - constructor; [by apply IH|]. rewrite (map_insert_permutation k v m). constructor; [|done].
    unfold key_lt. cbn. destruct (str_ltb k' k) eqn:E'; [done|].
    by destruct Hk'; apply str_ltb_total.
Qed.

Lemma has_key_spec (k : string) (m : list (string * string)) :
  has_key k m = true <-> k ∈ map fst m.
Proof.
  unfold has_key. rewrite existsb_exists, list_elem_of_fmap. setoid_rewrite String.eqb_eq.
  split; intros (f & H1 & H2); exists f; rewrite list_elem_of_In in *; auto.
Qed.

Lemma canonical_fields_spec (fields m : list (string * string)) :
  StronglySorted key_lt m -> NoDup (map fst m) ->
  match canonical_fields fields m with
  | Some m' => m' ≡ₚ fields ++ m /\ StronglySorted key_lt m' /\
      "type" ∉ map fst fields /\ NoDup (map fst (fields ++ m))
  | None => "type" ∈ map fst fields \/ ~ NoDup (map fst (fields ++ m))
  end.
Proof.
  revert m. induction fields as [|[k v] fields IH]; intros m Hs Hn; cbn [canonical_fields].
  { cbn. split; [done|]. split; [done|]. split; [by apply not_elem_of_nil|done]. }
  destruct (k ==s "type") eqn:Et; cbn [orb].
  { apply String.eqb_eq in Et as ->. left. left. }
  apply String.eqb_neq in Et.
  destruct (has_key k m) eqn:Ek.
  { right. apply has_key_spec in Ek. cbn. rewrite NoDup_cons, map_app, elem_of_app. naive_solver. }
  assert (k ∉ map fst m) as Hk by (rewrite <- has_key_spec; congruence).
  assert (map_insert k v m ≡ₚ (k, v) :: m) as Hp by apply map_insert_permutation.
  specialize (IH (map_insert k v m) (map_insert_sorted k v m Hs Ek)).
  assert (map fst (fields ++ map_insert k v m) ≡ₚ map fst ((k, v) :: fields ++ m)) as Hperm.
  { rewrite Hp, <- Permutation_middle. done. }
  destruct (canonical_fields fields (map_insert k v m)) as [m'|].
  - destruct IH as (Hp' & Hs' & Ht & Hn').
    { rewrite Hp. cbn. by constructor. }
    split; [rewrite Hp', Hp; symmetry; apply Permutation_middle|]. split; [done|].
    split; [cbn; rewrite elem_of_cons; naive_solver|]. by rewrite <- Hperm.
  - destruct IH as [Ht|Hn']; [rewrite Hp; cbn; by constructor|left; cbn; by right|].
    right. by rewrite <- Hperm.
Qed.

Lemma sorted_unique (l k : list (string * string)) :
  StronglySorted key_lt l -> StronglySorted key_lt k -> l ≡ₚ k -> l = k.
Proof.
  apply StronglySorted_unique_strong. intros a b _ _ Hab Hba. unfold key_lt in *.
  by rewrite (str_ltb_asym _ _ Hab) in Hba.
Qed.

Lemma canonical_map_permutation (type : string) (fields fields' : list (string * string)) :
  fields ≡ₚ fields' -> canonical_map type fields = canonical_map type fields'.
Proof.
  intros Hp. unfold canonical_map.
  pose proof (canonical_fields_spec fields [] ltac:(constructor) ltac:(constructor)) as H1.
  pose proof (canonical_fields_spec fields' [] ltac:(constructor) ltac:(constructor)) as H2.
  rewrite !app_nil_r in *.
  destruct (canonical_fields fields []) as [m|], (canonical_fields fields' []) as [m'|]; cbn; [| | |done].
  - destruct H1 as (P1 & S1 & _), H2 as (P2 & S2 & _).
    by rewrite (sorted_unique m m') by (try done; by rewrite P1, P2).
  - destruct H1 as (_ & _ & T1 & N1). rewrite Hp in N1, T1. by destruct H2.
  - destruct H2 as (_ & _ & T2 & N2). rewrite <- Hp in N2, T2. by destruct H1.
Qed.

(** Derived evidence is canonical: the same fields in any order give the same id and the same
    store, and a repeated key or the reserved key [type] is refused without changing the store. *)
Theorem PutDerivedEvidence_canonical (type : string) (fields fields' : list (string * string))
    (records : EvidenceStore) :
  fields ≡ₚ fields' ->
  PutDerivedEvidence type fields records = PutDerivedEvidence type fields' records /\
  ("type" ∈ map fst fields \/ ~ NoDup (map fst fields) ->
   PutDerivedEvidence type fields records = ("", records)).
Proof.
  intros Hp. unfold PutDerivedEvidence. split; [by rewrite (canonical_map_permutation type fields fields')|].
  intros Hbad. unfold canonical_map.
  pose proof (canonical_fields_spec fields [] ltac:(constructor) ltac:(constructor)) as H1.
  rewrite app_nil_r in H1. destruct (canonical_fields fields []); [|done].
  destruct H1 as (_ & _ & T & N). by destruct Hbad.
Qed.

Lemma PutDerivedEvidence_canonical_witness :
  PutDerivedEvidence "path" [("b", "2"); ("a", "1")] ∅ = PutDerivedEvidence "path" [("a", "1"); ("b", "2")] ∅.
Proof.
  apply (PutDerivedEvidence_canonical "path" [("b", "2"); ("a", "1")] [("a", "1"); ("b", "2")] ∅).
  apply perm_swap.
Defined.
