(* ===== verification/Timestamp.v ===== *)
(** * Timestamp: trust in an RFC 3161 timestamp

    Models [core/validation/TimestampEngine.cpp].  The cryptographic check of the
    token ([TimestampValidator.cpp]), the CMS accessors, the registry of CA
    settings and the CRL cache on disk are the class [TimestampApi]; the disk is
    an explicit state, since downloading lists changes what is loaded next.

    Every early return of [Validate] is the left summand of a sum: a stage ends
    with the result to return or hands its findings to the next stage. *)

From S2P Require Import Prelude CxxString Types Time Der Cryptonite Fixture X509Name Chain PathEngine.
From S2P Require Import Crl Ocsp Revocation.

Local Open Scope Z_scope.

Record TimestampExtractionResult := MkTimestampExtractionResult {
  tx_success : bool;
  tx_failure_code : string;
  tx_token_der : bytes;
  tx_gen_time : string;
  tx_message : string
}.

#[export] Instance eta_TimestampExtractionResult : Eta TimestampExtractionResult := fun r =>
  MkTimestampExtractionResult (tx_success r) (tx_failure_code r) (tx_token_der r)
  (tx_gen_time r) (tx_message r).

Definition TimestampExtractionResult_default : TimestampExtractionResult :=
  MkTimestampExtractionResult false "" [] "" "".

Record TimestampValidationResult := MkTimestampValidationResult {
  tv_valid : bool;
  tv_failure_code : string;
  tv_gen_time : string;
  tv_tsa_certificate_der : bytes;
  tv_embedded_certificates_der : list bytes;
  tv_tsa_certificate_external : bool;
  tv_message : string
}.

#[export] Instance eta_TimestampValidationResult : Eta TimestampValidationResult := fun r =>
  MkTimestampValidationResult (tv_valid r) (tv_failure_code r) (tv_gen_time r)
  (tv_tsa_certificate_der r) (tv_embedded_certificates_der r) (tv_tsa_certificate_external r)
  (tv_message r).

Definition TimestampValidationResult_default : TimestampValidationResult :=
  MkTimestampValidationResult false "" "" [] [] false "".

Class TimestampApi `{CertApi} := {
  Disk : Type;
  ValidateTimestampToken : bytes -> bytes -> list bytes -> TimestampValidationResult;
  ExtractTimestampToken : bytes -> TimestampExtractionResult;
  (** the error text, or the signature value *)
  GetSignatureValue : bytes -> string + bytes;
  (** the authority information access: whether an entry is for OCSP, and its URI *)
  cert_aia : Certificate_t -> option (list (bool * option string));
  (** the OCSP address that the cached registry gives for the issuer *)
  registry_ocsp_url : Disk -> string -> bytes -> option string;
  LoadCrlsFromWorkDir : Disk -> string -> list bytes;
  DownloadAndCacheCrlsForCert : Disk -> bytes -> string -> Z -> Disk
}.

Record TimestampEngineInput := MkTimestampEngineInput {
  ti_cms_der : bytes;
  ti_explicit_timestamp_token_der : bytes;
  ti_explicit_timestamp_imprint_source : bytes;
  ti_validation_time : string;
  ti_policy : ValidationPolicy;
  ti_plan : ValidationPlan;
  ti_current_trust_anchors_der : list bytes;
  ti_tsa_trust_anchors_der : list bytes;
  ti_historical_trust_anchors_der : list bytes;
  ti_historical_tsa_trust_anchors_der : list bytes;
  ti_custom_trust_anchors_der : list bytes;
  ti_pinned_trust_anchors_der : list bytes;
  ti_intermediate_store_certificates_der : list bytes;
  ti_additional_tsa_candidate_certificates_der : list bytes;
  ti_embedded_crls_der : list bytes;
  ti_embedded_ocsp_responses_der : list bytes;
  ti_profile : ValidationProfile.t;
  ti_level : ValidationLevel.t
}.

#[export] Instance eta_TimestampEngineInput : Eta TimestampEngineInput := fun r =>
  MkTimestampEngineInput (ti_cms_der r) (ti_explicit_timestamp_token_der r)
  (ti_explicit_timestamp_imprint_source r) (ti_validation_time r) (ti_policy r) (ti_plan r)
  (ti_current_trust_anchors_der r) (ti_tsa_trust_anchors_der r)
  (ti_historical_trust_anchors_der r) (ti_historical_tsa_trust_anchors_der r)
  (ti_custom_trust_anchors_der r) (ti_pinned_trust_anchors_der r)
  (ti_intermediate_store_certificates_der r) (ti_additional_tsa_candidate_certificates_der r)
  (ti_embedded_crls_der r) (ti_embedded_ocsp_responses_der r) (ti_profile r) (ti_level r).

Definition TimestampEngineInput_default : TimestampEngineInput :=
  MkTimestampEngineInput [] [] [] "" ValidationPolicy_default ValidationPlan_default [] [] [] []
  [] [] [] [] [] [] ValidationProfile.Strict ValidationLevel.Basic.

Record TimestampEngineResult := MkTimestampEngineResult {
  tr_valid : bool;
  tr_policy_acceptable : bool;
  tr_crypto_valid : bool;
  tr_gen_time_valid : bool;
  tr_certificate_time_valid : bool;
  tr_eku_valid : bool;
  tr_trust_valid : bool;
  tr_historical_trust_used : bool;
  tr_revocation_checked : bool;
  tr_ocsp_attempted : bool;
  tr_crl_attempted : bool;
  tr_status : TimestampStatus.t;
  tr_revocation_status : RevocationStatus.t;
  tr_reason_code : string;
  tr_trust_source : string;
  tr_gen_time : string;
  tr_validation_time : string;
  tr_tsa_certificate_der : bytes;
  tr_tsa_issuer_certificate_der : bytes;
  tr_because : list string;
  tr_warnings : list string;
  tr_limitations : list string;
  tr_evidence_ids : list string
}.

#[export] Instance eta_TimestampEngineResult : Eta TimestampEngineResult := fun r =>
  MkTimestampEngineResult (tr_valid r) (tr_policy_acceptable r) (tr_crypto_valid r)
  (tr_gen_time_valid r) (tr_certificate_time_valid r) (tr_eku_valid r) (tr_trust_valid r)
  (tr_historical_trust_used r) (tr_revocation_checked r) (tr_ocsp_attempted r)
  (tr_crl_attempted r) (tr_status r) (tr_revocation_status r) (tr_reason_code r)
  (tr_trust_source r) (tr_gen_time r) (tr_validation_time r) (tr_tsa_certificate_der r)
  (tr_tsa_issuer_certificate_der r) (tr_because r) (tr_warnings r) (tr_limitations r)
  (tr_evidence_ids r).

Definition TimestampEngineResult_default : TimestampEngineResult :=
  MkTimestampEngineResult false false false false false false false false false false false
  TimestampStatus.NotChecked RevocationStatus.NotChecked "" "" "" "" [] [] [] [] [] [].

#[export] Instance sum_bind (E : Type) : MBind (sum E) := fun A B f m =>
  match m with
  | inl e => inl e
  | inr a => f a
  end.

(** ** Pools of certificates *)

Definition append_one (output : list bytes) (value : bytes) : list bytes :=
  match value with
  | [] => output
  | _ => if bool_decide (value ∈ output) then output else output ++ [value]
  end.

Definition AppendUnique (output values : list bytes) : list bytes := foldl append_one output values.

(** The reversed path from its last separator on. *)
Fixpoint drop_until_slash (l : list ascii) : list ascii :=
  match l with
  | [] => []
  | c :: rest => if Ascii.eqb c "/"%char then l else drop_until_slash rest
  end.

Fixpoint skip_slashes (l : list ascii) : list ascii :=
  match l with
  | c :: rest => if Ascii.eqb c "/"%char then skip_slashes rest else l
  | [] => []
  end.

(** [path.parent_path()] (POSIX): the part before the last run of separators. *)
Definition parent_path (p : string) : string :=
  match drop_until_slash (rev (chars p)) with
  | [] => ""
  | up => match skip_slashes up with
          | [] => "/"
          | dir => of_chars (rev dir)
          end
  end.

Section TimestampEngine.
Context `{Clock, !Platform, !CertApi, !Validators, !TimestampApi}.

(** The first of the candidates, among the first 512, whose subject is the issuer of the
    certificate and whose key verifies it. *)
Definition is_verified_issuer (tsa : Certificate_t) (der : bytes) : bool :=
  match DecodeCertificateDer der with
  | None => false
  | Some issuer =>
      asn_equals_name (tbs_issuer tsa) (tbs_subject issuer) && VerifyCertificateByIssuer tsa issuer
  end.

Definition FindVerifiedTsaIssuer (tsa_der : bytes) (candidates : list bytes) : bytes :=
  match DecodeCertificateDer tsa_der with
  | None => []
  | Some tsa => default [] (List.find (is_verified_issuer tsa) (take 512 candidates))
  end.

(** The first OCSP entry with an http or https address and no NUL. *)
Definition ocsp_uri (entry : bool * option string) : option string :=
  match entry with
  | (true, Some candidate) =>
      if negb (str_empty candidate) && negb (existsb (fun c => uc c =? 0) (chars candidate))
         && (starts_with candidate "http://" || starts_with candidate "https://")
      then Some candidate else None
  | _ => None
  end.

Definition ResolveTsaOcspUrl (disk : Disk) (tsa_der issuer_der : bytes) (work_dir : string) : string :=
  let aia_url := match DecodeCertificateDer tsa_der with
                 | None => None
                 | Some tsa => entries ← cert_aia tsa; head (omap ocsp_uri entries)
                 end in
  match aia_url with
  | Some url => url
  | None =>
      if negb (str_empty work_dir) && negb (is_empty issuer_der)
         && negb (is_empty (FindVerifiedTsaIssuer tsa_der [issuer_der]))
      then default "" (registry_ocsp_url disk work_dir issuer_der) else ""
  end.

Definition push (b : string) (r : TimestampEngineResult) : TimestampEngineResult :=
  r <| tr_because ::= fun bs => bs ++ [b] |>.

Definition failed (status : TimestampStatus.t) (code because : string) (r : TimestampEngineResult)
    : TimestampEngineResult :=
  push because (r <| tr_status := status |> <| tr_reason_code := code |>).

Definition certificate_candidates (input : TimestampEngineInput) : list bytes :=
  foldl AppendUnique (ti_additional_tsa_candidate_certificates_der input)
    [ti_intermediate_store_certificates_der input; ti_tsa_trust_anchors_der input;
     ti_current_trust_anchors_der input; ti_historical_tsa_trust_anchors_der input;
     ti_historical_trust_anchors_der input; ti_custom_trust_anchors_der input;
     ti_pinned_trust_anchors_der input].

(** Obtaining the token and checking it cryptographically. *)
Definition token_stage (input : TimestampEngineInput)
    : TimestampEngineResult + TimestampValidationResult :=
  let result := TimestampEngineResult_default in
  let candidates := certificate_candidates input in
  if negb (is_empty (ti_explicit_timestamp_token_der input)) then
    if is_empty (ti_explicit_timestamp_imprint_source input) then
      inl (failed TimestampStatus.Unsupported "TIMESTAMP_IMPRINT_SOURCE_MISSING"
             "Помилка: explicit timestamp imprint source порожній." result)
    else
      inr (ValidateTimestampToken (ti_explicit_timestamp_token_der input)
             (ti_explicit_timestamp_imprint_source input) candidates)
  else if is_empty (ti_cms_der input) then
    inl (failed TimestampStatus.Unsupported "TIMESTAMP_FORMAT_INVALID" "Помилка: CMS порожній." result)
  else
    match GetSignatureValue (ti_cms_der input) with
    | inl error_message =>
        inl (failed TimestampStatus.Unsupported "TIMESTAMP_SIGNATURE_VALUE_MISSING"
               ("Не вдалося вилучити значення підпису: " +s+ error_message) result)
    | inr signature_value =>
        let ext_res := ExtractTimestampToken (ti_cms_der input) in
        if negb (tx_success ext_res) then
          inl (failed (if tx_failure_code ext_res ==s "TIMESTAMP_MISSING" then TimestampStatus.Missing
                       else TimestampStatus.InvalidSignature)
                 (tx_failure_code ext_res)
                 ("Не вдалося вилучити мітку часу: " +s+ tx_message ext_res) result)
        else inr (ValidateTimestampToken (tx_token_der ext_res) signature_value candidates)
    end.

Definition failure_status (code : string) : TimestampStatus.t :=
  if code ==s "TIMESTAMP_IMPRINT_MISMATCH" then TimestampStatus.InvalidImprint
  else if (code ==s "TIMESTAMP_IMPRINT_UNSUPPORTED") || (code ==s "TIMESTAMP_UNSUPPORTED")
  then TimestampStatus.Unsupported
  else if code ==s "TSA_CERTIFICATE_MISSING" then TimestampStatus.UntrustedTsa
  else TimestampStatus.InvalidSignature.

(** The verdict on the token, its time and the validity of the TSA certificate at that time. *)
Definition time_stage (val_res : TimestampValidationResult)
    : TimestampEngineResult + TimestampEngineResult :=
  let result := TimestampEngineResult_default <| tr_gen_time := tv_gen_time val_res |> in
  if negb (tv_valid val_res) then
    inl (failed (failure_status (tv_failure_code val_res)) (tv_failure_code val_res)
           ("Криптографічна перевірка мітки часу завершилася помилкою: " +s+ tv_message val_res) result)
  else
  let result := result <| tr_crypto_valid := true |>
                       <| tr_tsa_certificate_der := tv_tsa_certificate_der val_res |> in
  match NormalizeTimestampTime (tv_gen_time val_res) with
  | None =>
      inl (failed TimestampStatus.InvalidSignature "TIMESTAMP_TIME_INVALID"
             "genTime мітки не є коректним UTC GeneralizedTime; поточний час не підставляється." result)
  | Some iso =>
      let result := result <| tr_gen_time_valid := true |> <| tr_validation_time := iso |> in
      if negb (IsCertificateValidAt (tv_tsa_certificate_der val_res) iso) then
        inl (failed TimestampStatus.TsaExpired "TSA_CERTIFICATE_TIME_INVALID"
               "Сертифікат TSA не є чинним на момент мітки часу." result)
      else inr (result <| tr_certificate_time_valid := true |>)
  end.

(** The match against the endpoint certificates of the trusted list. *)
Definition lists (anchors : list bytes) (der : bytes) : bool :=
  existsb (fun a => negb (is_empty a) && bool_decide (a = der)) anchors.

Definition direct_stage (input : TimestampEngineInput) (tsa_signer_der : bytes)
    (result : TimestampEngineResult) : bool * TimestampEngineResult :=
  let policy := ti_policy input in
  let use_tl_endpoints :=
    negb (bool_decide (vp_trust_anchor_policy policy = TrustAnchorPolicy.CustomTrustStore))
    && negb (bool_decide (vp_trust_anchor_policy policy = TrustAnchorPolicy.PinnedAnchors)) in
  let note := push "TSA сертифікат збігається з endpoint-сертифікатом у списку довіри (TL direct-match)." in
  if use_tl_endpoints && lists (ti_tsa_trust_anchors_der input) tsa_signer_der then
    (true, note (result <| tr_trust_source := "current-tl" |>))
  else if use_tl_endpoints && vp_allow_historical_trust policy
          && lists (ti_historical_tsa_trust_anchors_der input) tsa_signer_der then
    (true, note (result <| tr_trust_source := "historical-tl" |> <| tr_historical_trust_used := true |>))
  else (false, result).

Definition tsa_path_input (input : TimestampEngineInput) (val_res : TimestampValidationResult)
    (validation_time : string) : PathBuilderInput :=
  PathBuilderInput_default
    <| pb_signer_certificate_der := tv_tsa_certificate_der val_res |>
    <| pb_embedded_certificates_der := AppendUnique (tv_embedded_certificates_der val_res)
         (ti_additional_tsa_candidate_certificates_der input) |>
    <| pb_intermediate_store_certificates_der := ti_intermediate_store_certificates_der input |>
    <| pb_current_trust_anchors_der :=
         ti_tsa_trust_anchors_der input ++ ti_current_trust_anchors_der input |>
    <| pb_historical_trust_anchors_der :=
         ti_historical_tsa_trust_anchors_der input ++ ti_historical_trust_anchors_der input |>
    <| pb_custom_trust_anchors_der := ti_custom_trust_anchors_der input |>
    <| pb_pinned_trust_anchors_der := ti_pinned_trust_anchors_der input |>
    <| pb_policy := ti_policy input |> <| pb_validation_time := validation_time |>.

(** The chain of the TSA certificate, when it was not matched directly. *)
Definition trust_stage (input : TimestampEngineInput) (path_input : PathBuilderInput)
    (direct_matched : bool) (result : TimestampEngineResult)
    : TimestampEngineResult + (TimestampEngineResult * PathSelection) :=
  let candidates := Build path_input in
  if is_empty candidates && negb direct_matched then
    inl (failed TimestampStatus.UntrustedTsa "TSA_UNTRUSTED"
           "Не вдалося побудувати ланцюжок для сертифіката TSA (немає кандидатів)." result)
  else
  let selection := Select (map PathValidator_Validate candidates) (ti_policy input) in
  let selected := ps_selected_result selection in
  if negb direct_matched && bool_decide (pr_status selected = ChainStatus.Expired) then
    inl (failed TimestampStatus.TsaExpired "TSA_CHAIN_TIME_INVALID"
           "Сертифікат TSA або один із сертифікатів ланцюжка протерміновано на момент мітки часу." result)
  else if negb direct_matched
          && (match ps_selected_index selection with None => true | Some _ => false end
              || negb (pr_trusted selected)) then
    inl (if bool_decide (pr_status selected = ChainStatus.Expired) then
           failed TimestampStatus.TsaExpired "TSA_CHAIN_TIME_INVALID"
             "Сертифікат TSA або один із сертифікатів ланцюжка протерміновано." result
         else
           failed TimestampStatus.UntrustedTsa "TSA_UNTRUSTED"
             ("Сертифікат TSA не є довіреним: " +s+ pr_message selected) result)
  else
  let result := result <| tr_trust_valid := true |> in
  let result := if negb direct_matched
    then result <| tr_trust_source := pr_trust_anchor_source selected |>
                <| tr_historical_trust_used := pr_uses_historical_trust selected |>
    else result in
  let result := if tr_historical_trust_used result
    then result <| tr_warnings ::= fun w => w ++ ["TSA_HISTORICAL_TRUST_USED"] |> else result in
  inr (result, selection).

(** The right of the TSA to issue timestamps. *)
Definition has_timestamping_eku (tsa_der : bytes) : bool :=
  match cert_decode tsa_der with Some cert => HasTimestampingEku cert | None => false end.

Definition eku_stage (tsa_der : bytes) (result : TimestampEngineResult)
    : TimestampEngineResult + TimestampEngineResult :=
  if negb (has_timestamping_eku tsa_der) then
    inl (failed TimestampStatus.UntrustedTsa "TSA_EKU_INVALID"
           "Сертифікат TSA не містить розширення EKU для Timestamping (1.3.6.1.5.5.7.3.8)." result)
  else inr (result <| tr_eku_valid := true |>).

Definition soft_policy (policy : ValidationPolicy) : bool :=
  negb (vp_revocation_hard_fail policy) && negb (vp_require_trusted_signing_time policy).

(** The verified issuer of the TSA certificate. *)
Definition issuer_stage (input : TimestampEngineInput) (val_res : TimestampValidationResult)
    (selection : PathSelection) (result : TimestampEngineResult)
    : TimestampEngineResult + TimestampEngineResult :=
  let selected_issuer := pr_signer_issuer_certificate_der (ps_selected_result selection) in
  let issuer_candidates :=
    AppendUnique (AppendUnique (if is_empty selected_issuer then [] else [selected_issuer])
                    (tv_embedded_certificates_der val_res)) (certificate_candidates input) in
  let result := result <| tr_tsa_issuer_certificate_der :=
                  FindVerifiedTsaIssuer (tv_tsa_certificate_der val_res) issuer_candidates |> in
  if is_empty (tr_tsa_issuer_certificate_der result) then
    inl (push "Не знайдено криптографічно підтвердженого видавця TSA для перевірки відкликання."
           (result <| tr_status := TimestampStatus.UntrustedTsa |>
                   <| tr_reason_code := "TSA_ISSUER_MISSING" |>
                   <| tr_policy_acceptable := soft_policy (ti_policy input) |>))
  else inr result.

Definition tsa_work_dir (input : TimestampEngineInput) : string :=
  let store := pl_trust_store_path (ti_plan input) in
  if str_empty store then "" else parent_path store.

(** The first revocation input: embedded and cached evidence only. *)
Definition tsa_revocation_input (disk : Disk) (input : TimestampEngineInput)
    (val_res : TimestampValidationResult) (result : TimestampEngineResult) : RevocationEngineInput :=
  let work_dir := tsa_work_dir input in
  RevocationEngineInput_default
    <| ri_certificate_der := tv_tsa_certificate_der val_res |>
    <| ri_issuer_certificate_der := tr_tsa_issuer_certificate_der result |>
    <| ri_role := CertificateRole.Tsa |> <| ri_validation_time := tr_validation_time result |>
    <| ri_network_allowed := false |>
    <| ri_revocation_hard_fail := vp_revocation_hard_fail (ti_policy input) |>
    <| ri_crls_der := if str_empty work_dir then ti_embedded_crls_der input
         else AppendUnique (ti_embedded_crls_der input) (LoadCrlsFromWorkDir disk work_dir) |>
    <| ri_embedded_ocsp_responses_der := ti_embedded_ocsp_responses_der input |>
    <| ri_ocsp_url := ResolveTsaOcspUrl disk (tv_tsa_certificate_der val_res)
         (tr_tsa_issuer_certificate_der result) work_dir |>.

(** Local evidence first; the network only when that is not conclusive and is allowed. *)
Definition tsa_revocation (disk : Disk) (input : TimestampEngineInput)
    (val_res : TimestampValidationResult) (result : TimestampEngineResult)
    : RevocationEngineResult * Disk :=
  let work_dir := tsa_work_dir input in
  let rev_input := tsa_revocation_input disk input val_res result in
  let rev_result := Revocation.Validate rev_input in
  if bool_decide (rr_overall_status rev_result = OverallStatus.Indeterminate)
     && pl_network_allowed (ti_plan input) then
    let '(rev_input, disk) :=
      if str_empty work_dir then (rev_input, disk) else
      let disk := DownloadAndCacheCrlsForCert disk (tv_tsa_certificate_der val_res) work_dir
                    (pl_timeout_ms (ti_plan input)) in
      (rev_input <| ri_crls_der ::= fun l => AppendUnique l (LoadCrlsFromWorkDir disk work_dir) |>, disk) in
    (Revocation.Validate (rev_input <| ri_network_allowed := true |>), disk)
  else (rev_result, disk).

Definition record_revocation (rev_result : RevocationEngineResult) (result : TimestampEngineResult)
    : TimestampEngineResult :=
  result <| tr_revocation_status := rr_revocation_status rev_result |>
    <| tr_ocsp_attempted := rr_ocsp_attempted rev_result |>
    <| tr_crl_attempted := rr_crl_attempted rev_result |>
    <| tr_revocation_checked := rr_ocsp_attempted rev_result || rr_crl_attempted rev_result |>
    <| tr_because ::= fun l => l ++ rr_because rev_result |>
    <| tr_warnings ::= fun l => l ++ rr_warnings rev_result |>
    <| tr_limitations ::= fun l => l ++ rr_limitations rev_result |>
    <| tr_evidence_ids ::= fun l => l ++ rr_evidence_ids rev_result |>.

Definition revocation_reason (status : RevocationStatus.t) : string :=
  match status with
  | RevocationStatus.Stale => "TSA_REVOCATION_STALE"
  | RevocationStatus.Invalid => "TSA_REVOCATION_INVALID"
  | RevocationStatus.ResponderUnavailable => "TSA_RESPONDER_UNAVAILABLE"
  | _ => "TSA_REVOCATION_UNKNOWN"
  end.

(** The verdict from the revocation of the TSA certificate. *)
Definition final_stage (input : TimestampEngineInput) (rev_result : RevocationEngineResult)
    (result : TimestampEngineResult) : TimestampEngineResult :=
  let result := record_revocation rev_result result in
  match rr_overall_status rev_result with
  | OverallStatus.Invalid =>
      failed TimestampStatus.UntrustedTsa
        (if bool_decide (rr_revocation_status rev_result = RevocationStatus.Revoked)
         then "TSA_REVOKED" else "TSA_REVOCATION_INVALID")
        "Сертифікат TSA був відкликаний." result
  | OverallStatus.Valid =>
      push "Мітка часу RFC3161 є валідною."
        (result <| tr_valid := true |> <| tr_policy_acceptable := true |>
                <| tr_reason_code := "TIMESTAMP_VALID" |> <| tr_status := TimestampStatus.Valid |>)
  | _ =>
      push "Статус відкликання TSA не підтверджено; м'яка policy не робить час довіреним."
        (result <| tr_status := TimestampStatus.UntrustedTsa |>
                <| tr_reason_code := revocation_reason (rr_revocation_status rev_result) |>
                <| tr_policy_acceptable := soft_policy (ti_policy input) |>)
  end.

(** The stages in order. *)
Definition run (disk : Disk) (input : TimestampEngineInput)
    : TimestampEngineResult + (TimestampEngineResult * Disk) :=
  val_res ← token_stage input;
  result ← time_stage val_res;
  let tsa_der := tv_tsa_certificate_der val_res in
  let '(direct_matched, result) := direct_stage input tsa_der result in
  '(result, selection) ← trust_stage input (tsa_path_input input val_res (tr_validation_time result))
                           direct_matched result;
  result ← eku_stage tsa_der result;
  result ← issuer_stage input val_res selection result;
  let '(rev_result, disk) := tsa_revocation disk input val_res result in
  inr (final_stage input rev_result result, disk).

Definition Validate (disk : Disk) (input : TimestampEngineInput) : TimestampEngineResult * Disk :=
  match run disk input with
  | inl result => (result, disk)
  | inr r => r
  end.

(** ** Lemmas: what each stage establishes *)

Lemma time_stage_spec (val_res : TimestampValidationResult) :
  match time_stage val_res with
  | inl r => tr_valid r = false /\ tr_policy_acceptable r = false /\ tr_status r <> TimestampStatus.Valid
  | inr r => tv_valid val_res = true /\ tr_valid r = false /\ tr_policy_acceptable r = false /\
      NormalizeTimestampTime (tv_gen_time val_res) = Some (tr_validation_time r) /\
      IsCertificateValidAt (tv_tsa_certificate_der val_res) (tr_validation_time r) = true
  end.
Proof.
  unfold time_stage, failure_status. destruct (tv_valid val_res); cbn [negb].
  - destruct (NormalizeTimestampTime (tv_gen_time val_res)) as [iso|] eqn:E; [|done].
    destruct (IsCertificateValidAt _ iso) eqn:Ev; [|done]. by cbn.
  - split; [done|]. split; [done|]. cbn. by repeat case_match.
Qed.

(** The certificate is an endpoint of the list that the policy consults. *)
Definition direct_match (input : TimestampEngineInput) (der : bytes) : Prop :=
  vp_trust_anchor_policy (ti_policy input) <> TrustAnchorPolicy.CustomTrustStore /\
  vp_trust_anchor_policy (ti_policy input) <> TrustAnchorPolicy.PinnedAnchors /\
  (der ∈ ti_tsa_trust_anchors_der input \/
   (vp_allow_historical_trust (ti_policy input) = true /\ der ∈ ti_historical_tsa_trust_anchors_der input)).

Lemma lists_spec (anchors : list bytes) (der : bytes) : lists anchors der = true -> der ∈ anchors.
Proof.
  unfold lists. intros (a & Hin & [_ ->%bool_decide_eq_true]%andb_true_iff)%existsb_exists.
  by rewrite list_elem_of_In.
Qed.

Lemma direct_stage_spec (input : TimestampEngineInput) (der : bytes) (r : TimestampEngineResult) :
  let '(matched, r') := direct_stage input der r in
  (matched = true -> direct_match input der) /\ tr_valid r' = tr_valid r /\
  tr_policy_acceptable r' = tr_policy_acceptable r /\ tr_validation_time r' = tr_validation_time r.
Proof.
  unfold direct_stage, direct_match.
  destruct (negb _ && negb _) eqn:Eu; cbn [andb]; [|done].
  apply andb_true_iff in Eu as [E1%negb_true_iff%bool_decide_eq_false E2%negb_true_iff%bool_decide_eq_false].
  destruct (lists (ti_tsa_trust_anchors_der input) der) eqn:El.
  { apply lists_spec in El. auto 10. }
  destruct (vp_allow_historical_trust _); cbn [andb]; [|done].
  destruct (lists (ti_historical_tsa_trust_anchors_der input) der) eqn:Eh; [|done].
  apply lists_spec in Eh. auto 10.
Qed.

Lemma trust_stage_spec (input : TimestampEngineInput) (path_input : PathBuilderInput) (matched : bool)
    (r : TimestampEngineResult) :
  tr_valid r = false -> tr_policy_acceptable r = false -> pb_policy path_input = ti_policy input ->
  match trust_stage input path_input matched r with
  | inl r' => tr_valid r' = false /\ tr_policy_acceptable r' = false /\
              tr_status r' <> TimestampStatus.Valid
  | inr (r', selection) =>
      (matched = true \/ pr_trusted (ps_selected_result (run_paths path_input)) = true) /\
      tr_valid r' = false /\ tr_policy_acceptable r' = false /\
      tr_validation_time r' = tr_validation_time r
  end.
Proof.
  intros Hv Ha Hp. unfold trust_stage, run_paths. rewrite Hp.
  destruct (is_empty (Build path_input) && negb matched); [done|].
  set (selection := Select _ _).
  destruct matched; cbn [negb andb].
  - split; [by left|]. by destruct (tr_historical_trust_used _).
  - destruct (bool_decide (pr_status _ = ChainStatus.Expired)); [done|].
    destruct (_ || _) eqn:E; [done|]. apply orb_false_iff in E as [_ E%negb_false_iff].
    split; [by right|]. by case_match.
Qed.

Lemma eku_stage_spec (der : bytes) (r : TimestampEngineResult) :
  tr_valid r = false -> tr_policy_acceptable r = false ->
  match eku_stage der r with
  | inl r' => tr_valid r' = false /\ tr_policy_acceptable r' = false /\
              tr_status r' <> TimestampStatus.Valid
  | inr r' => has_timestamping_eku der = true /\ tr_valid r' = false /\
      tr_policy_acceptable r' = false /\ tr_validation_time r' = tr_validation_time r
  end.
Proof. intros. unfold eku_stage. by destruct (has_timestamping_eku der). Qed.

Lemma FindVerifiedTsaIssuer_spec (tsa_der : bytes) (candidates : list bytes) :
  FindVerifiedTsaIssuer tsa_der candidates <> [] ->
  exists tsa, DecodeCertificateDer tsa_der = Some tsa /\
    is_verified_issuer tsa (FindVerifiedTsaIssuer tsa_der candidates) = true.
Proof.
  unfold FindVerifiedTsaIssuer. destruct (DecodeCertificateDer tsa_der) as [tsa|]; [|done].
  destruct (List.find _ _) as [der|] eqn:E; [|done]. cbn. intros _.
  apply find_some in E as [_ Hv]. by exists tsa.
Qed.

Lemma issuer_stage_spec (input : TimestampEngineInput) (val_res : TimestampValidationResult)
    (selection : PathSelection) (r : TimestampEngineResult) :
  tr_valid r = false -> tr_policy_acceptable r = false ->
  match issuer_stage input val_res selection r with
  | inl r' => tr_valid r' = false /\ tr_policy_acceptable r' = soft_policy (ti_policy input) /\
              tr_status r' <> TimestampStatus.Valid
  | inr r' =>
      (exists tsa, DecodeCertificateDer (tv_tsa_certificate_der val_res) = Some tsa /\
         is_verified_issuer tsa (tr_tsa_issuer_certificate_der r') = true) /\
      tr_valid r' = false /\ tr_policy_acceptable r' = false /\
      tr_validation_time r' = tr_validation_time r
  end.
Proof.
  intros Hv Ha. unfold issuer_stage. cbn [tr_tsa_issuer_certificate_der setter].
  destruct (FindVerifiedTsaIssuer _ _) as [|b der] eqn:E; cbn; [done|].
  split; [|done]. rewrite <- E. apply FindVerifiedTsaIssuer_spec. by rewrite E.
Qed.

(** The revocation result comes from the engine, on the TSA certificate at the time of the token. *)
Lemma tsa_revocation_spec (disk : Disk) (input : TimestampEngineInput)
    (val_res : TimestampValidationResult) (r : TimestampEngineResult) :
  let '(rev, disk') := tsa_revocation disk input val_res r in
  (exists rev_input, rev = Revocation.Validate rev_input /\
     ri_certificate_der rev_input = tv_tsa_certificate_der val_res /\
     ri_issuer_certificate_der rev_input = tr_tsa_issuer_certificate_der r /\
     ri_validation_time rev_input = tr_validation_time r /\
     (ri_network_allowed rev_input = true -> pl_network_allowed (ti_plan input) = true)) /\
  (pl_network_allowed (ti_plan input) = false -> disk' = disk).
Proof.
  unfold tsa_revocation. set (first := tsa_revocation_input disk input val_res r).
  destruct (bool_decide _); cbn [andb]; [|split; [by exists first|done]].
  destruct (pl_network_allowed (ti_plan input)) eqn:En; [|split; [by exists first|done]].
  destruct (str_empty (tsa_work_dir input)).
  - split; [|done]. by exists (first <| ri_network_allowed := true |>).
  - split; [|done]. eexists. split; [reflexivity|]. done.
Qed.

Lemma final_stage_spec (input : TimestampEngineInput) (rev : RevocationEngineResult)
    (r : TimestampEngineResult) :
  tr_valid r = false -> tr_policy_acceptable r = false ->
  let r' := final_stage input rev r in
  (tr_valid r' = true <-> rr_overall_status rev = OverallStatus.Valid) /\
  (tr_status r' = TimestampStatus.Valid <-> tr_valid r' = true) /\
  (tr_policy_acceptable r' = true -> tr_valid r' = true \/ soft_policy (ti_policy input) = true) /\
  tr_validation_time r' = tr_validation_time r /\
  tr_tsa_issuer_certificate_der r' = tr_tsa_issuer_certificate_der r.
Proof.
  intros Hv Ha. unfold final_stage. destruct (rr_overall_status rev) eqn:E; cbn; rewrite ?Hv, ?Ha;
    split_and!; naive_solver.
Qed.

(** What a valid timestamp rests on. *)
Record Grounds (input : TimestampEngineInput) (r : TimestampEngineResult) : Prop := {
  g_token : TimestampValidationResult;
  g_token_source : token_stage input = inr g_token;
  g_crypto : tv_valid g_token = true;
  g_time : NormalizeTimestampTime (tv_gen_time g_token) = Some (tr_validation_time r);
  g_valid_at : IsCertificateValidAt (tv_tsa_certificate_der g_token) (tr_validation_time r) = true;
  g_trust : direct_match input (tv_tsa_certificate_der g_token) \/
    pr_trusted (ps_selected_result
      (run_paths (tsa_path_input input g_token (tr_validation_time r)))) = true;
  g_eku : has_timestamping_eku (tv_tsa_certificate_der g_token) = true;
  g_issuer : exists tsa, DecodeCertificateDer (tv_tsa_certificate_der g_token) = Some tsa /\
    is_verified_issuer tsa (tr_tsa_issuer_certificate_der r) = true;
  g_revocation : exists rev_input,
    rr_overall_status (Revocation.Validate rev_input) = OverallStatus.Valid /\
    ri_certificate_der rev_input = tv_tsa_certificate_der g_token /\
    ri_issuer_certificate_der rev_input = tr_tsa_issuer_certificate_der r /\
    ri_validation_time rev_input = tr_validation_time r
}.

Lemma token_stage_failed (input : TimestampEngineInput) (r : TimestampEngineResult) :
  token_stage input = inl r ->
  tr_valid r = false /\ tr_policy_acceptable r = false /\ tr_status r <> TimestampStatus.Valid.
Proof.
  unfold token_stage. destruct (negb _).
  - destruct (is_empty _); [|done]. by intros [= <-].
  - destruct (is_empty _); [by intros [= <-]|].
    destruct (GetSignatureValue _); [by intros [= <-]|].
    destruct (negb _); [|done]. intros [= <-]. cbn. by case_match.
Qed.

(** The engine, stage by stage. *)
Lemma run_spec (disk : Disk) (input : TimestampEngineInput) :
  let r := (Validate disk input).1 in
  (tr_valid r = true -> Grounds input r) /\
  (tr_status r = TimestampStatus.Valid <-> tr_valid r = true) /\
  (tr_policy_acceptable r = true -> tr_valid r = true \/ soft_policy (ti_policy input) = true) /\
  (pl_network_allowed (ti_plan input) = false -> (Validate disk input).2 = disk).
Proof.
  assert (forall r : TimestampEngineResult, tr_valid r = false ->
    (tr_policy_acceptable r = true -> soft_policy (ti_policy input) = true) ->
    tr_status r <> TimestampStatus.Valid ->
    (tr_valid r = true -> Grounds input r) /\
    (tr_status r = TimestampStatus.Valid <-> tr_valid r = true) /\
    (tr_policy_acceptable r = true -> tr_valid r = true \/ soft_policy (ti_policy input) = true) /\
    (pl_network_allowed (ti_plan input) = false -> disk = disk)) as Hfail.
  { intros r E1 E2 E3. rewrite E1. split; [done|]. split; [by split|]. auto. }
  unfold Validate, run, mbind, sum_bind.
  destruct (token_stage input) as [r|val_res] eqn:Et.
  { destruct (token_stage_failed input r Et) as (E1 & E2 & E3). apply (Hfail r); [done|by rewrite E2|done]. }
  pose proof (time_stage_spec val_res) as S1.
  destruct (time_stage val_res) as [r|r1]; [apply (Hfail r); [apply S1|by destruct S1 as (_ & -> & _)|apply S1]|].
  destruct S1 as (Hcrypto & V1 & A1 & Htime & Hat).
  pose proof (direct_stage_spec input (tv_tsa_certificate_der val_res) r1) as S2.
  destruct (direct_stage input (tv_tsa_certificate_der val_res) r1) as [matched r2].
  destruct S2 as (Hdirect & V2 & A2 & T2).
  pose proof (trust_stage_spec input (tsa_path_input input val_res (tr_validation_time r2)) matched r2
    ltac:(congruence) ltac:(congruence) eq_refl) as S3.
  destruct (trust_stage _ _ _ r2) as [r|[r3 selection]]; [apply (Hfail r); [apply S3|by destruct S3 as (_ & -> & _)|apply S3]|].
  destruct S3 as (Htrust & V3 & A3 & T3).
  pose proof (eku_stage_spec (tv_tsa_certificate_der val_res) r3 V3 A3) as S4.
  destruct (eku_stage _ r3) as [r|r4]; [apply (Hfail r); [apply S4|by destruct S4 as (_ & -> & _)|apply S4]|].
  destruct S4 as (Heku & V4 & A4 & T4).
  pose proof (issuer_stage_spec input val_res selection r4 V4 A4) as S5.
  destruct (issuer_stage _ _ _ r4) as [r|r5].
  { destruct S5 as (E1 & E2 & E3). apply (Hfail r); [done|by rewrite E2|done]. }
  destruct S5 as (Hissuer & V5 & A5 & T5).
  pose proof (tsa_revocation_spec disk input val_res r5) as S6.
  destruct (tsa_revocation disk input val_res r5) as [rev disk'].
  destruct S6 as [(rev_input & -> & Hc & Hi & Ht & _) Hdisk].
  destruct (final_stage_spec input (Revocation.Validate rev_input) r5 V5 A5) as (F1 & F2 & F3 & F4 & F5).
  cbn [fst snd]. split; [|done]. intros Hv. apply F1 in Hv.
  assert (tr_validation_time r1 = tr_validation_time r5) as Tr by congruence.
  apply (Build_Grounds _ _ val_res Et); rewrite ?F4, ?F5; try done; rewrite <- ?Tr; try done.
  - destruct Htrust as [Hm|Hp]; [left; auto|right]. by rewrite <- T2.
  - exists rev_input. rewrite Ht. auto.
Qed.

(** [C29] A timestamp is declared valid only on full grounds: the token passed the cryptographic
    check, its genTime is a real UTC instant, the TSA certificate is valid at that instant and
    trusted - listed as an endpoint the policy consults, or by a chain to an anchor the policy
    admits -, it carries the timestamping extended key usage, its issuer is found and verifies
    it, and its revocation was checked for that instant with a valid outcome. *)
Theorem Timestamp_valid_grounds (disk : Disk) (input : TimestampEngineInput) :
  tr_valid (Validate disk input).1 = true -> Grounds input (Validate disk input).1.
Proof. apply run_spec. Qed.

(** The flags of a timestamp result never contradict each other: the status is [Valid] exactly
    when the timestamp is valid; a result that is merely acceptable to the policy arises only
    from a soft policy that does not require a trusted signing time; and without network
    permission the disk is left as it was. *)
Theorem Timestamp_flags_consistent (disk : Disk) (input : TimestampEngineInput) :
  let r := (Validate disk input).1 in
  (tr_status r = TimestampStatus.Valid <-> tr_valid r = true) /\
  (tr_policy_acceptable r = true ->
   tr_valid r = true \/ (vp_revocation_hard_fail (ti_policy input) = false /\
                         vp_require_trusted_signing_time (ti_policy input) = false)) /\
  (pl_network_allowed (ti_plan input) = false -> (Validate disk input).2 = disk).
Proof.
  cbn zeta. destruct (run_spec disk input) as (_ & Hs & Ha & Hd). split; [done|]. split; [|done].
  intros [Hv|[Hh%negb_true_iff Ht%negb_true_iff]%andb_true_iff]%Ha; auto.
Qed.

End TimestampEngine.

Section Witness.
#[local] Existing Instance toy_clock.
#[local] Existing Instance toy_cert_api.
#[local] Existing Instance toy_crl_api.
#[local] Existing Instance toy_ocsp_api.
#[local] Existing Instance toy_http.

(** A TSA certificate: subject 3, issued by 2, serial 42, EKU ...3.8. *)
Definition toy_tsa : bytes := [x03; x02; x01; x00; x2a; x08].

Definition toy_timestamp_api : TimestampApi := {|
  Disk := unit;
  ValidateTimestampToken token imprint pool :=
    TimestampValidationResult_default <| tv_valid := bool_decide (token = imprint) |>
      <| tv_gen_time := "20240229120000Z" |> <| tv_tsa_certificate_der := toy_tsa |>;
  ExtractTimestampToken cms := TimestampExtractionResult_default <| tx_success := true |>
    <| tx_token_der := cms |>;
  GetSignatureValue cms := inr cms;
  cert_aia c := None;
  registry_ocsp_url _ _ _ := None;
  LoadCrlsFromWorkDir _ _ := [];
  DownloadAndCacheCrlsForCert disk _ _ _ := disk
|}.
#[local] Existing Instance toy_timestamp_api.

Definition toy_timestamp_input : TimestampEngineInput :=
  TimestampEngineInput_default <| ti_cms_der := [x01] |>
    <| ti_intermediate_store_certificates_der := [toy_ca] |>
    <| ti_current_trust_anchors_der := [toy_root] |>
    <| ti_embedded_ocsp_responses_der := [[x00; x02; x2a; x00]] |>.

Lemma Timestamp_valid_grounds_witness :
  tr_valid (Validate tt toy_timestamp_input).1 = true /\
  Grounds toy_timestamp_input (Validate tt toy_timestamp_input).1.
Proof.
  assert (tr_valid (Validate tt toy_timestamp_input).1 = true) as E by by vm_compute.
  split; [exact E|]. apply (Timestamp_valid_grounds (H3 := toy_timestamp_api) tt toy_timestamp_input E).
Defined.
End Witness.
