(* ===== verification/Xades.v ===== *)
(** * Xades: XAdES signatures (src/src/lib/xades)

    [xades/XadesVerifier.cpp], [xades/detail/XadesArchiveImprint.h] and the parts of
    [xmldsig/detail/XmlDocUtil.h] that only they use.  The verifier runs on top of the
    one of [XmlDsig]: for each signature it reads the qualifying properties inside the
    element [Signature], compares the digest of the signing certificate, checks the three
    kinds of timestamps, binds the references to the embedded evidence and names the
    profile.  The check of a timestamp token is the one of [Timestamp].  The result
    is a record passed from step to step, as the source fills it. *)

From stdpp Require Import gmap.
From S2P Require Import Prelude CxxString Codec Sha256 Imprint AsicUri Cryptonite Fixture TrustList XmlDsig Timestamp.

Local Open Scope Z_scope.
Local Open Scope tamga_scope.

(** ** Elements of XAdES *)

Definition kAllowed : list string := ["http://uri.etsi.org/01903/v1.3.2#"; "http://uri.etsi.org/01903/v1.4.1#"].

Definition IsXadesNamespaceUri (href : string) : bool := existsb (fun uri => href ==s uri) kAllowed.

Definition IsXadesElementNamed (node : xmlNode) (local_name : string) : bool :=
  IsElementNamed node local_name
  && match node with Element _ ns _ _ => IsXadesNamespaceUri ns | Text _ => false end.

Definition FindFirstXadesElement (nodes : list xmlNode) (local_name : string) : option xmlNode :=
  FindFirstElementBy (fun node => IsXadesElementNamed node local_name) nodes.
Definition FindFirstXadesElementInSubtree (node : xmlNode) (local_name : string) : option xmlNode :=
  FindFirstElementInSubtreeBy (fun node => IsXadesElementNamed node local_name) node.
Definition CountXadesElementsInSubtree (node : xmlNode) (local_name : string) : nat :=
  CountElementsInSubtreeBy (fun node => IsXadesElementNamed node local_name) node.

(** The elements of a name among some nodes and below them. *)
Fixpoint CollectElementNodes_below (local_name : string) (node : xmlNode) : list xmlNode :=
  (if IsXadesElementNamed node local_name then [node] else [])
  ++ match node with
     | Text _ => []
     | Element _ _ _ children => concat (map (CollectElementNodes_below local_name) children)
     end.

Definition CollectElementNodes (nodes : list xmlNode) (local_name : string) : list xmlNode :=
  concat (map (CollectElementNodes_below local_name) nodes).

Definition base64_value (node : xmlNode) : list bytes :=
  match Base64.Base64Decode (TrimmedText node) with
  | Some (b :: der) => [b :: der]
  | _ => []
  end.

(** The decoded values of the elements of a name; a value that is empty or not Base64 is left out. *)
Fixpoint CollectBase64Values_below (local_name : string) (node : xmlNode) : list bytes :=
  (if IsXadesElementNamed node local_name then base64_value node else [])
  ++ match node with
     | Text _ => []
     | Element _ _ _ children => concat (map (CollectBase64Values_below local_name) children)
     end.

Definition CollectBase64Values (nodes : list xmlNode) (local_name : string) : list bytes :=
  concat (map (CollectBase64Values_below local_name) nodes).

(** What [Base64Decode] leaves in an empty output, also when it fails: nothing when the length is
    wrong, else the octets up to the first character outside the alphabet. *)
Fixpoint decode_prefix (l : list ascii) : bytes :=
  match l with
  | c0 :: c1 :: c2 :: c3 :: rest =>
      match Base64.decode_quad c0 c1 c2 c3 with
      | Some octets => octets ++ decode_prefix rest
      | None => []
      end
  | _ => []
  end.

Definition Base64Decode_out (input : string) : bytes :=
  let normalized := List.filter (fun c => negb (isspace c)) (chars input) in
  if negb (Nat.eqb (length normalized mod 4) 0) then [] else decode_prefix normalized.

(** ** The result *)

Inductive XadesProfile := BES | T | C | X | X_L | A.

Record DataObjectFormat := MkDataObjectFormat {
  df_object_reference : string;
  df_mime_type : string;
  df_description : string
}.

#[export] Instance eta_DataObjectFormat : Eta DataObjectFormat := fun r =>
  MkDataObjectFormat (df_object_reference r) (df_mime_type r) (df_description r).

Definition DataObjectFormat_default : DataObjectFormat :=
  MkDataObjectFormat "" "" "".

Record XadesVerificationResult := MkXadesVerificationResult {
  xv_detected_profile : XadesProfile;
  xv_format_profile : string;
  xv_signature_valid : bool;
  xv_qualifying_properties_present : bool;
  xv_signing_certificate_digest_valid : bool;
  xv_timestamps_valid : bool;
  xv_signature_timestamp_present : bool;
  xv_signature_timestamp_checked : bool;
  xv_signature_timestamp_valid : bool;
  xv_tsp_checked : bool;
  xv_cert_refs_complete : bool;
  xv_revocation_refs_complete : bool;
  xv_certificate_values_present : bool;
  xv_revocation_values_present : bool;
  xv_ltv_data_present : bool;
  xv_ltv_valid : bool;
  xv_archive_timestamps_valid : bool;
  xv_timestamp_token_count : nat;
  xv_certificate_values_count : nat;
  xv_revocation_values_count : nat;
  xv_signing_time : string;
  xv_signer_certificate_der : bytes;
  xv_signature_timestamp_token_der : bytes;
  xv_signature_timestamp_canonicalized_data : bytes;
  xv_xml_signature : XmlSignatureVerificationResult;
  xv_notes : list string;
  xv_certificate_values_der : list bytes;
  xv_revocation_values_der : list bytes;
  xv_revocation_values_ocsp_der : list bytes;
  xv_revocation_values_crl_der : list bytes;
  xv_validated_profile : string;
  xv_ltv_evidence_bound : bool;
  xv_signature_policy_present : bool;
  xv_signature_policy_id : string;
  xv_signature_policy_hash_algo_uri : string;
  xv_signature_policy_hash_value : bytes;
  xv_data_object_formats : list DataObjectFormat
}.

#[export] Instance eta_XadesVerificationResult : Eta XadesVerificationResult := fun r =>
  MkXadesVerificationResult (xv_detected_profile r) (xv_format_profile r) (xv_signature_valid r)
  (xv_qualifying_properties_present r) (xv_signing_certificate_digest_valid r)
  (xv_timestamps_valid r) (xv_signature_timestamp_present r) (xv_signature_timestamp_checked r)
  (xv_signature_timestamp_valid r) (xv_tsp_checked r) (xv_cert_refs_complete r)
  (xv_revocation_refs_complete r) (xv_certificate_values_present r)
  (xv_revocation_values_present r) (xv_ltv_data_present r) (xv_ltv_valid r)
  (xv_archive_timestamps_valid r) (xv_timestamp_token_count r) (xv_certificate_values_count r)
  (xv_revocation_values_count r) (xv_signing_time r) (xv_signer_certificate_der r)
  (xv_signature_timestamp_token_der r) (xv_signature_timestamp_canonicalized_data r)
  (xv_xml_signature r) (xv_notes r) (xv_certificate_values_der r) (xv_revocation_values_der r)
  (xv_revocation_values_ocsp_der r) (xv_revocation_values_crl_der r) (xv_validated_profile r)
  (xv_ltv_evidence_bound r) (xv_signature_policy_present r) (xv_signature_policy_id r)
  (xv_signature_policy_hash_algo_uri r) (xv_signature_policy_hash_value r)
  (xv_data_object_formats r).

Definition XadesVerificationResult_default : XadesVerificationResult :=
  MkXadesVerificationResult BES "XAdES-BES" false false false false false false false false
  false false false false false false false 0 0 0 "" [] [] []
  XmlSignatureVerificationResult_default [] [] [] [] [] "" false false "" "" [] [].

Inductive Aggregation := All | Any.

Record XadesSignatureSet := MkXadesSignatureSet {
  xs_signatures : list XadesVerificationResult;
  xs_all_valid : bool;
  xs_aggregation : Aggregation
}.

#[export] Instance eta_XadesSignatureSet : Eta XadesSignatureSet := fun r =>
  MkXadesSignatureSet (xs_signatures r) (xs_all_valid r) (xs_aggregation r).

Definition XadesSignatureSet_default : XadesSignatureSet :=
  MkXadesSignatureSet [] false All.

Record TimestampCheck := MkTimestampCheck {
  tc_present : bool;
  tc_checked : bool;
  tc_valid : bool
}.

#[export] Instance eta_TimestampCheck : Eta TimestampCheck := fun r =>
  MkTimestampCheck (tc_present r) (tc_checked r) (tc_valid r).

Definition TimestampCheck_default : TimestampCheck :=
  MkTimestampCheck false false false.

Section Verifier.
Context `{Libxml : LibXml, Crypto : XmlCrypto, Digests : DigestApi, Certs : CertApi}.
Context {Tokens : TimestampApi}.

(** ** Canonical forms inside one signature *)

Fixpoint ConcatCanonicalWithinSignature (root : xmlNode) (position : Z) (signature_node : xmlNode)
    (local_names : list string) (mode : C14nMode) (with_comments : bool) : string + string :=
  match local_names with
  | [] => inr ""
  | name :: local_names' =>
      if (CountElementsInSubtree signature_node name =? 0)%nat
      then ConcatCanonicalWithinSignature root position signature_node local_names' mode with_comments
      else
        let? piece := CanonicalizeSubtreeWithinSignature root position name mode with_comments in
        let? rest := ConcatCanonicalWithinSignature root position signature_node local_names' mode with_comments in
        inr (piece +s+ rest)
  end.

Definition CanonicalizeNonQualifyingObjectsWithinSignature (root : xmlNode) (position : Z) (mode : C14nMode)
    (with_comments : bool) : string + string :=
  match xpath_select root (xpath_of (DsigSignatureScopeXPath position
      +s+ "/*[local-name()='Object'][not(.//*[local-name()='QualifyingProperties'])]")) with
  | None => inr ""
  | Some nodes =>
      let! out := c14n_dump (Some root) (Some nodes) mode with_comments
        else "Помилка канонікалізації ds:Object (виключаючи QualifyingProperties)" in
      inr out
  end.

(** The octets of one reference, for the imprint of an archive timestamp: [IsArchiveImprintIdFragmentUri]
    and [IsArchiveImprintCanonicalizationOnlyTransform] are the same tests as those of the verifier. *)
Definition imprint_reference (root : xmlNode) (signed_xml : string) (ref : XmlReference) : string + string :=
  match IsIdFragmentUri (xf_uri ref), IsCanonicalizationOnlyTransform (xf_transforms ref) with
  | Some fragment, true =>
      let '(ref_mode, ref_comments) := match xf_transforms ref with
                                       | uri :: _ => default (XML_C14N_1_0, false) (C14nUriToMode uri)
                                       | [] => (XML_C14N_1_0, false)
                                       end in
      CanonicalizeSubtreeById root fragment ref_mode ref_comments
  | _, _ =>
      let? resolved := ResolveReference_local signed_xml ref in
      ApplyTransforms resolved ref
  end.

Fixpoint imprint_references (root : xmlNode) (signed_xml : string) (refs : list XmlReference) : string + string :=
  match refs with
  | [] => inr ""
  | ref :: refs' =>
      let? octets := imprint_reference root signed_xml ref in
      let? rest := imprint_references root signed_xml refs' in
      inr (octets +s+ rest)
  end.

Definition BuildArchiveTimeStampImprintInput (root : xmlNode) (signed_xml : string) (position : Z)
    (signature_node : xmlNode) (unsigned_property_local_names_present : list string) (c14n_mode : C14nMode)
    (c14n_with_comments : bool) : string + string :=
  let? references := ExtractReferencesForSignature signed_xml position in
  let? octets := imprint_references root signed_xml references in
  let? core_octets := ConcatCanonicalWithinSignature root position signature_node
    ["SignedInfo"; "SignatureValue"; "KeyInfo"] c14n_mode c14n_with_comments in
  let? usp_octets := ConcatCanonicalWithinSignature root position signature_node
    unsigned_property_local_names_present c14n_mode c14n_with_comments in
  let? objects_octets := CanonicalizeNonQualifyingObjectsWithinSignature root position c14n_mode c14n_with_comments in
  inr (octets +s+ core_octets +s+ usp_octets +s+ objects_octets).

Definition ComputeDigest (data : bytes) (algo_uri : string) : string + bytes :=
  let! alg := MapDigestUri algo_uri else ("Непідтримуваний XMLDSIG DigestMethod URI: " +s+ algo_uri) in
  let? result := ComputeImprint alg data in
  inr (im_hash result).

(** ** One signature *)

(** Does the digest under [digest_node] belong to one of the candidates? *)
Definition RefDigestMatchesAny (digest_node : option xmlNode) (candidates : list bytes) (by_certificate : bool) : bool :=
  match digest_node with
  | None => false
  | Some digest_node =>
      match FindFirstDsigElement (children_of digest_node) "DigestMethod",
            FindFirstDsigElement (children_of digest_node) "DigestValue" with
      | Some dm, Some dv =>
          let algo := GetAttr dm "Algorithm" in
          match Base64.Base64Decode (TrimmedText dv) with
          | None | Some [] => false
          | Some expected =>
              existsb (fun candidate =>
                match (if by_certificate then ComputeDigestByCertificate candidate algo candidate
                       else ComputeDigest candidate algo) with
                | inr computed => bool_decide (computed = expected)
                | inl _ => false
                end) candidates
          end
      | _, _ => false
      end
  end.

Definition note (text : string) (result : XadesVerificationResult) : XadesVerificationResult :=
  result <| xv_notes ::= (fun l => l ++ [text]) |>.

(** The digest of the signing certificate against the embedded certificate. *)
Definition check_signing_certificate (signature_node signed_props : xmlNode) (result : XadesVerificationResult)
    : XadesVerificationResult :=
  let result :=
    match FindFirstXadesElement (children_of signed_props) "CertDigest",
          FindFirstDsigElementInSubtree signature_node "X509Certificate" with
    | Some cert_digest, Some x509_cert =>
        let algo := match FindFirstDsigElement (children_of cert_digest) "DigestMethod" with
                    | Some dm => GetAttr dm "Algorithm"
                    | None => ""
                    end in
        match Base64.Base64Decode (TrimmedText x509_cert),
              (dv ← FindFirstDsigElement (children_of cert_digest) "DigestValue"; Base64.Base64Decode (TrimmedText dv)) with
        | Some cert_der, Some expected =>
            let result := result <| xv_signer_certificate_der := cert_der |> in
            match ComputeDigestByCertificate cert_der algo cert_der with
            | inr computed =>
                if bool_decide (computed = expected) then result <| xv_signing_certificate_digest_valid := true |>
                else note "SigningCertificate CertDigest mismatch" result
            | inl _ => note "SigningCertificate CertDigest mismatch" result
            end
        | _, _ => result
        end
    | _, _ => note "missing CertDigest or X509Certificate" result
    end in
  result <| xv_signature_valid := xv_signature_valid result && xv_signing_certificate_digest_valid result |>.

Definition read_signature_policy (signed_props : xmlNode) (result : XadesVerificationResult) : XadesVerificationResult :=
  match FindFirstXadesElement (children_of signed_props) "SignaturePolicyIdentifier" with
  | None => result
  | Some policy_id_node =>
      let result := result <| xv_signature_policy_present := true |> in
      let result := match FindFirstXadesElement (children_of policy_id_node) "Identifier" with
                    | Some identifier => result <| xv_signature_policy_id := TrimmedText identifier |>
                    | None => result
                    end in
      match FindFirstXadesElement (children_of policy_id_node) "SigPolicyHash" with
      | None => result
      | Some sph =>
          let result := match FindFirstDsigElement (children_of sph) "DigestMethod" with
                        | Some dm => result <| xv_signature_policy_hash_algo_uri := GetAttr dm "Algorithm" |>
                        | None => result
                        end in
          match FindFirstDsigElement (children_of sph) "DigestValue" with
          | Some dv => result <| xv_signature_policy_hash_value := Base64Decode_out (TrimmedText dv) |>
          | None => result
          end
      end
  end.

Definition read_data_object_format (dof_node : xmlNode) : DataObjectFormat :=
  let text (name : string) : string :=
    from_option TrimmedText "" (FindFirstXadesElement (children_of dof_node) name) in
  MkDataObjectFormat (GetAttr dof_node "ObjectReference") (text "MimeType") (text "Description").

(** The canonicalization that a timestamp element names. *)
Definition timestamp_c14n (ts : xmlNode) : C14nMode * bool :=
  match FindFirstDsigElement (children_of ts) "CanonicalizationMethod" with
  | Some c14n => default (XML_C14N_1_0, false) (C14nUriToMode (GetAttr c14n "Algorithm"))
  | None => (XML_C14N_1_0, false)
  end.

Definition encapsulated_token (ts : xmlNode) : option bytes :=
  enc ← FindFirstXadesElement (children_of ts) "EncapsulatedTimeStamp"; Base64.Base64Decode (TrimmedText enc).

(** The check of the token and what is noted of it. *)
Definition check_token (label : string) (token tbs : bytes) (result : XadesVerificationResult)
    : TimestampCheck * XadesVerificationResult :=
  let vr := ValidateTimestampToken token tbs [] in
  (MkTimestampCheck true true (tv_valid vr),
   if tv_valid vr then result else note (label +s+ ": " +s+ tv_message vr) result).

Definition validate_ts (root signature_node : xmlNode) (position : Z) (ts_name : string) (tbs_names : list string)
    (result : XadesVerificationResult) : TimestampCheck * XadesVerificationResult :=
  match FindFirstXadesElementInSubtree signature_node ts_name with
  | None => (TimestampCheck_default, result)
  | Some ts =>
      let unchecked := MkTimestampCheck true false false in
      match encapsulated_token ts with
      | None => (unchecked, note (ts_name +s+ ": missing/invalid EncapsulatedTimeStamp") result)
      | Some token =>
          let '(mode, comments) := timestamp_c14n ts in
          match ConcatCanonicalWithinSignature root position signature_node tbs_names mode comments with
          | inl _ => (unchecked, note (ts_name +s+ ": C14N failed") result)
          | inr tbs_str =>
              let tbs := octets_of tbs_str in
              let result := if ts_name ==s "SignatureTimeStamp"
                            then result <| xv_signature_timestamp_token_der := token |>
                                        <| xv_signature_timestamp_canonicalized_data := tbs |>
                            else result in
              check_token ts_name token tbs result
          end
      end
  end.

Definition archive_property_names : list string :=
  ["SignatureTimeStamp"; "CompleteCertificateRefs"; "CompleteRevocationRefs"; "SigAndRefsTimeStamp";
   "CertificateValues"; "RevocationValues"].

Definition validate_archive_ts (root signature_node : xmlNode) (position : Z) (result : XadesVerificationResult)
    : TimestampCheck * XadesVerificationResult :=
  match FindFirstXadesElementInSubtree signature_node "ArchiveTimeStamp" with
  | None => (TimestampCheck_default, result)
  | Some arch_ts_node =>
      let unchecked := MkTimestampCheck true false false in
      match encapsulated_token arch_ts_node with
      | None => (unchecked, note "ArchiveTimeStamp: missing/invalid EncapsulatedTimeStamp" result)
      | Some token =>
          let '(mode, comments) := timestamp_c14n arch_ts_node in
          match BuildArchiveTimeStampImprintInput root (serialize_node root root) position signature_node
                  archive_property_names mode comments with
          | inl build_error => (unchecked, note ("ArchiveTimeStamp: imprint-input build failed: " +s+ build_error) result)
          | inr tbs_str => check_token "ArchiveTimeStamp" token (octets_of tbs_str) result
          end
      end
  end.

(** The three states, into the fields of the result. *)
Definition record_timestamps (signature_node : xmlNode) (sig_ts sar_ts arch_ts : TimestampCheck)
    (result : XadesVerificationResult) : XadesVerificationResult :=
  let states := List.filter tc_present [sig_ts; sar_ts; arch_ts] in
  let any_ts := negb (null states) in
  let all_ts_ok := forallb (fun s => tc_checked s && tc_valid s) states in
  result <| xv_signature_timestamp_present := tc_present sig_ts |>
         <| xv_signature_timestamp_checked := tc_present sig_ts |>
         <| xv_signature_timestamp_valid := tc_valid sig_ts |>
         <| xv_tsp_checked := tc_checked sig_ts || tc_checked sar_ts || tc_checked arch_ts |>
         <| xv_timestamps_valid := any_ts && all_ts_ok |>
         <| xv_archive_timestamps_valid := tc_valid arch_ts |>
         <| xv_timestamp_token_count := CountXadesElementsInSubtree signature_node "EncapsulatedTimeStamp" |>.

Definition has_element (signature_node : xmlNode) (name : string) : bool :=
  match FindFirstXadesElementInSubtree signature_node name with Some _ => true | None => false end.

Definition values_under (signature_node : xmlNode) (container name : string) : list bytes :=
  match FindFirstXadesElementInSubtree signature_node container with
  | Some values => CollectBase64Values (children_of values) name
  | None => []
  end.

(** The evidence that the signature carries. *)
Definition record_evidence (signature_node : xmlNode) (result : XadesVerificationResult) : XadesVerificationResult :=
  let has := has_element signature_node in
  let count := CountXadesElementsInSubtree signature_node in
  let result := result
    <| xv_certificate_values_present := has "CertificateValues" |>
    <| xv_revocation_values_present := has "RevocationValues" |>
    <| xv_certificate_values_count := count "EncapsulatedX509Certificate" |>
    <| xv_revocation_values_count := (count "EncapsulatedOCSPValue" + count "EncapsulatedCRLValue")%nat |>
    <| xv_cert_refs_complete := has "CompleteCertificateRefs" || has "CertificateValues" |>
    <| xv_revocation_refs_complete := has "CompleteRevocationRefs" || has "RevocationValues" |>
    <| xv_ltv_data_present := has "CertificateValues" && has "RevocationValues" |> in
  let result := result
    <| xv_ltv_valid := xv_signature_valid result && xv_signature_timestamp_valid result && xv_ltv_data_present result |>
    <| xv_certificate_values_der := values_under signature_node "CertificateValues" "EncapsulatedX509Certificate" |>
    <| xv_revocation_values_ocsp_der := values_under signature_node "RevocationValues" "EncapsulatedOCSPValue" |>
    <| xv_revocation_values_crl_der := values_under signature_node "RevocationValues" "EncapsulatedCRLValue" |> in
  result <| xv_revocation_values_der := xv_revocation_values_ocsp_der result ++ xv_revocation_values_crl_der result |>.

(** The references of one kind against the values: whether all are bound, with a note for each that is not. *)
Fixpoint bind_refs (refs : list xmlNode) (digest_name : string) (values : list bytes) (by_certificate : bool)
    (text : string) (bound : bool) (result : XadesVerificationResult) : bool * XadesVerificationResult :=
  match refs with
  | [] => (bound, result)
  | ref :: refs' =>
      if RefDigestMatchesAny (FindFirstXadesElement (children_of ref) digest_name) values by_certificate
      then bind_refs refs' digest_name values by_certificate text bound result
      else bind_refs refs' digest_name values by_certificate text false (note text result)
  end.

Definition bind_evidence (signature_node : xmlNode) (result : XadesVerificationResult) : XadesVerificationResult :=
  let '(cert_refs_bound, result) :=
    match FindFirstXadesElementInSubtree signature_node "CompleteCertificateRefs" with
    | None => (true, result)
    | Some cert_refs =>
        let cert_ref_nodes := CollectElementNodes (children_of cert_refs) "Cert" in
        bind_refs cert_ref_nodes "CertDigest" (xv_certificate_values_der result) true
          "CompleteCertificateRefs: cert ref not bound to CertificateValues digest" (negb (null cert_ref_nodes)) result
    end in
  let '(revocation_refs_bound, result) :=
    match FindFirstXadesElementInSubtree signature_node "CompleteRevocationRefs" with
    | None => (true, result)
    | Some rev_refs =>
        let crl_ref_nodes := CollectElementNodes (children_of rev_refs) "CRLRef" in
        let ocsp_ref_nodes := CollectElementNodes (children_of rev_refs) "OCSPRef" in
        let '(bound, result) := bind_refs crl_ref_nodes "DigestAlgAndValue" (xv_revocation_values_crl_der result) false
          "CompleteRevocationRefs: CRLRef not bound to RevocationValues digest"
          (negb (null crl_ref_nodes && null ocsp_ref_nodes)) result in
        bind_refs ocsp_ref_nodes "DigestAlgAndValue" (xv_revocation_values_ocsp_der result) false
          "CompleteRevocationRefs: OCSPRef not bound to RevocationValues digest" bound result
    end in
  result <| xv_ltv_evidence_bound := xv_ltv_data_present result && cert_refs_bound && revocation_refs_bound |>.

Definition detect_profile (signature_node : xmlNode) (sig_ts arch_ts : TimestampCheck) (result : XadesVerificationResult)
    : XadesVerificationResult :=
  let has := has_element signature_node in
  let has_legacy_xl_evidence := has "CertificateValues" || (has "CompleteCertificateRefs" && has "CompleteRevocationRefs") in
  let '(detected, format) :=
    if tc_present arch_ts && tc_valid arch_ts then (A, "XAdES-A")
    else if xv_ltv_data_present result && tc_present sig_ts then (X_L, "XAdES-B-LT")
    else if has_legacy_xl_evidence && tc_present sig_ts then (X_L, "XAdES-X-L")
    else if tc_present sig_ts then (T, "XAdES-T")
    else if has "CompleteCertificateRefs" || has "CompleteRevocationRefs" then (C, "XAdES-C")
    else (BES, "XAdES-B-B") in
  result <| xv_detected_profile := detected |> <| xv_format_profile := format |>.

(** The signed properties, into the result. *)
Definition read_signed_properties (signature_node signed_props : xmlNode) (result : XadesVerificationResult)
    : XadesVerificationResult :=
  let result := result <| xv_qualifying_properties_present := true |> in
  let result := match FindFirstXadesElement (children_of signed_props) "SigningTime" with
                | Some signing_time => result <| xv_signing_time := TrimmedText signing_time |>
                | None => result
                end in
  let result := check_signing_certificate signature_node signed_props result in
  let result := read_signature_policy signed_props result in
  result <| xv_data_object_formats :=
    map read_data_object_format (CollectElementNodes (children_of signed_props) "DataObjectFormat") |>.

(** The three timestamps: their states and the result. *)
Definition validate_timestamps (root signature_node : xmlNode) (position : Z) (result : XadesVerificationResult)
    : TimestampCheck * TimestampCheck * TimestampCheck * XadesVerificationResult :=
  let '(sig_ts, result) := validate_ts root signature_node position "SignatureTimeStamp" ["SignatureValue"] result in
  let '(sar_ts, result) := validate_ts root signature_node position "SigAndRefsTimeStamp"
    ["SignatureValue"; "SignatureTimeStamp"; "CompleteCertificateRefs"; "CompleteRevocationRefs"] result in
  let '(arch_ts, result) := validate_archive_ts root signature_node position result in
  (sig_ts, sar_ts, arch_ts, result).

(** The whole check of one signature; it has no error of its own. *)
Definition VerifyOneXadesSignature (root signature_node : xmlNode) (position : Z)
    (xml_result : XmlSignatureVerificationResult) : XadesVerificationResult :=
  let result := XadesVerificationResult_default <| xv_xml_signature := xml_result |>
    <| xv_signature_valid := xr_signature_valid xml_result && xr_digest_valid xml_result |> in
  match FindFirstXadesElementInSubtree signature_node "SignedProperties" with
  | None => note "missing xades:SignedProperties" result
  | Some signed_props =>
      let result := read_signed_properties signature_node signed_props result in
      let '(sig_ts, sar_ts, arch_ts, result) := validate_timestamps root signature_node position result in
      let result := record_timestamps signature_node sig_ts sar_ts arch_ts result in
      let result := record_evidence signature_node result in
      let result := bind_evidence signature_node result in
      detect_profile signature_node sig_ts arch_ts result
  end.

(** ** The verifier *)

Definition VerifyXades (signed_xml : string) (external_references : gmap string bytes)
    : string + XadesVerificationResult :=
  let? xml_result := Verify signed_xml external_references in
  let? parsed := ParseHardened signed_xml in
  match parsed, FindFirstDsigElement (root_list parsed) "Signature" with
  | Some root, Some signature_node => inr (VerifyOneXadesSignature root signature_node 1 xml_result)
  | _, _ => inl "Не знайдено ds:Signature"
  end.

Fixpoint verify_signatures (root : xmlNode) (position : Z) (signature_nodes : list xmlNode)
    (xml_results : list XmlSignatureVerificationResult) : list XadesVerificationResult :=
  match signature_nodes, xml_results with
  | node :: signature_nodes', xml_result :: xml_results' =>
      VerifyOneXadesSignature root node position xml_result
        :: verify_signatures root (position + 1) signature_nodes' xml_results'
  | _, _ => []
  end.

Definition VerifyAllXades (signed_xml : string) (external_references : gmap string bytes) : string + XadesSignatureSet :=
  let? xml_results := VerifyAll signed_xml external_references in
  let? parsed := ParseHardened signed_xml in
  let '(signature_nodes, nested_found) := CollectTopLevelSignatureNodes (root_list parsed) in
  if nested_found then inl "Вкладений ds:Signature у межах іншого ds:Signature (захист від wrapping)"
  else if negb (length signature_nodes =? length xml_results)%nat
  then inl "Невідповідність кількості ds:Signature між XMLDSIG- і XAdES-парсингом документа"
  else
    match parsed, signature_nodes with
    | Some root, _ :: _ =>
        let signatures := verify_signatures root 1 signature_nodes xml_results in
        inr (XadesSignatureSet_default <| xs_signatures := signatures |>
               <| xs_all_valid := forallb xv_signature_valid signatures |> <| xs_aggregation := All |>)
    | _, _ => inl "Не знайдено ds:Signature"
    end.

End Verifier.

(** ** What the steps leave alone *)

Lemma forallb_elem {A} (f : A -> bool) (l : list A) : forallb f l = true -> forall x, x ∈ l -> f x = true.
Proof. intros Hf x Hin. apply (proj1 (forallb_forall f l) Hf). by apply list_elem_of_In. Qed.

Section Kept.
Context `{Libxml : LibXml, Crypto : XmlCrypto, Digests : DigestApi, Certs : CertApi}.
Context {Tokens : TimestampApi}.

(** The fields that decide about the signature. *)
Definition verdict_of (r : XadesVerificationResult) : bool * bool * bool * bytes :=
  (xv_signature_valid r, xv_qualifying_properties_present r, xv_signing_certificate_digest_valid r, xv_signer_certificate_der r).

Lemma note_verdict (text : string) (r : XadesVerificationResult) : verdict_of (note text r) = verdict_of r.
Proof. done. Qed.

Lemma read_signature_policy_verdict (signed_props : xmlNode) (r : XadesVerificationResult) :
  verdict_of (read_signature_policy signed_props r) = verdict_of r.
Proof. unfold read_signature_policy. by repeat case_match. Qed.

(** The state of one kind of timestamp, and the note it leaves: the octets it is about are [tbs]. *)
Definition timestamp_state (ts : option xmlNode) (tbs : C14nMode * bool -> string + string) : TimestampCheck :=
  match ts with
  | None => TimestampCheck_default
  | Some ts =>
      match encapsulated_token ts, tbs (timestamp_c14n ts) with
      | Some token, inr octets => MkTimestampCheck true true (tv_valid (ValidateTimestampToken token (octets_of octets) []))
      | _, _ => MkTimestampCheck true false false
      end
  end.

Lemma check_token_spec (label : string) (token tbs : bytes) (r : XadesVerificationResult) :
  (check_token label token tbs r).1 = MkTimestampCheck true true (tv_valid (ValidateTimestampToken token tbs []))
  /\ verdict_of (check_token label token tbs r).2 = verdict_of r.
Proof. unfold check_token. by destruct (tv_valid _). Qed.

Lemma validate_ts_spec (root signature_node : xmlNode) (position : Z) (ts_name : string) (tbs_names : list string)
    (r : XadesVerificationResult) :
  (validate_ts root signature_node position ts_name tbs_names r).1
  = timestamp_state (FindFirstXadesElementInSubtree signature_node ts_name)
      (fun c => ConcatCanonicalWithinSignature root position signature_node tbs_names c.1 c.2)
  /\ verdict_of (validate_ts root signature_node position ts_name tbs_names r).2 = verdict_of r.
Proof.
  unfold validate_ts, timestamp_state. destruct (FindFirstXadesElementInSubtree _ _) as [ts|]; [|done].
  destruct (encapsulated_token ts) as [token|]; [|done]. destruct (timestamp_c14n ts) as [mode comments]. cbn [fst snd].
  destruct (ConcatCanonicalWithinSignature _ _ _ _ _ _) as [?|octets]; [done|].
  match goal with |- context [check_token ?a ?b ?c ?d] => destruct (check_token_spec a b c d) as [-> ->] end.
  by destruct (ts_name ==s "SignatureTimeStamp").
Qed.

Lemma validate_archive_ts_spec (root signature_node : xmlNode) (position : Z) (r : XadesVerificationResult) :
  (validate_archive_ts root signature_node position r).1
  = timestamp_state (FindFirstXadesElementInSubtree signature_node "ArchiveTimeStamp")
      (fun c => BuildArchiveTimeStampImprintInput root (serialize_node root root) position signature_node
                  archive_property_names c.1 c.2)
  /\ verdict_of (validate_archive_ts root signature_node position r).2 = verdict_of r.
Proof.
  unfold validate_archive_ts, timestamp_state. destruct (FindFirstXadesElementInSubtree _ _) as [ts|]; [|done].
  destruct (encapsulated_token ts) as [token|]; [|done]. destruct (timestamp_c14n ts) as [mode comments]. cbn [fst snd].
  destruct (BuildArchiveTimeStampImprintInput _ _ _ _ _ _ _) as [?|octets]; [done|]. apply check_token_spec.
Qed.

(** The fields about the timestamps and the evidence. *)
Definition time_fields (r : XadesVerificationResult) : bool * bool * bool * bool * bool :=
  (xv_signature_timestamp_valid r, xv_timestamps_valid r, xv_archive_timestamps_valid r, xv_ltv_data_present r, xv_ltv_valid r).

Definition values_of (r : XadesVerificationResult) : list bytes * list bytes * list bytes :=
  (xv_certificate_values_der r, xv_revocation_values_crl_der r, xv_revocation_values_ocsp_der r).

Lemma bind_refs_spec (refs : list xmlNode) (digest_name : string) (values : list bytes) (by_certificate : bool)
    (text : string) (bound : bool) (r : XadesVerificationResult) :
  let out := bind_refs refs digest_name values by_certificate text bound r in
  out.1 = bound && forallb (fun ref =>
    RefDigestMatchesAny (FindFirstXadesElement (children_of ref) digest_name) values by_certificate) refs /\
  verdict_of out.2 = verdict_of r /\ time_fields out.2 = time_fields r /\ values_of out.2 = values_of r.
Proof.
  cbv zeta. revert bound r. induction refs as [|ref refs IH]; intros bound r; cbn [bind_refs forallb].
  { by rewrite andb_true_r. }
  destruct (RefDigestMatchesAny _ _ _); [apply IH|]. destruct (IH false (note text r)) as (-> & -> & -> & ->).
  by rewrite andb_false_r.
Qed.

(** Every reference of the two lists is the digest of one of the values. *)
Definition refs_bound (signature_node : xmlNode) (container ref_name digest_name : string) (values : list bytes)
    (by_certificate : bool) : Prop :=
  forall refs ref, FindFirstXadesElementInSubtree signature_node container = Some refs ->
    ref ∈ CollectElementNodes (children_of refs) ref_name ->
    RefDigestMatchesAny (FindFirstXadesElement (children_of ref) digest_name) values by_certificate = true.

Lemma bind_evidence_spec (signature_node : xmlNode) (r : XadesVerificationResult) :
  let out := bind_evidence signature_node r in
  verdict_of out = verdict_of r /\ time_fields out = time_fields r /\ values_of out = values_of r /\
  (xv_ltv_evidence_bound out = true ->
    xv_ltv_data_present r = true /\
    refs_bound signature_node "CompleteCertificateRefs" "Cert" "CertDigest" (xv_certificate_values_der r) true /\
    refs_bound signature_node "CompleteRevocationRefs" "CRLRef" "DigestAlgAndValue" (xv_revocation_values_crl_der r) false /\
    refs_bound signature_node "CompleteRevocationRefs" "OCSPRef" "DigestAlgAndValue" (xv_revocation_values_ocsp_der r) false).
Proof.
  cbv zeta. unfold bind_evidence, refs_bound.
  match goal with |- context [match ?m with Some _ => _ | None => (true, r) end] => set (certs := m) end.
  match goal with |- context [let '(_, _) := ?p in _] => set (first := p) end.
  assert (verdict_of first.2 = verdict_of r /\ time_fields first.2 = time_fields r /\ values_of first.2 = values_of r /\
    (first.1 = true -> forall refs ref, certs = Some refs -> ref ∈ CollectElementNodes (children_of refs) "Cert" ->
      RefDigestMatchesAny (FindFirstXadesElement (children_of ref) "CertDigest") (xv_certificate_values_der r) true = true))
    as (Hv & Ht & Hd & Hb).
  { subst first. destruct certs as [refs|]; [|done]. destruct (bind_refs_spec (CollectElementNodes (children_of refs) "Cert")
      "CertDigest" (xv_certificate_values_der r) true "CompleteCertificateRefs: cert ref not bound to CertificateValues digest"
      (negb (null (CollectElementNodes (children_of refs) "Cert"))) r) as (E & -> & -> & ->). split_and!; try done.
    rewrite E. intros [_ Hf]%andb_true_iff refs' ref [= <-] Hin. exact (forallb_elem _ _ Hf _ Hin). }
  destruct first as [cert_bound r1]. cbn [fst snd] in *. clearbody certs.
  injection Hd as Hd1 Hd2 Hd3. injection Ht as Ht1 Ht2 Ht3 Ht4 Ht5. rewrite Hd2.
  destruct (FindFirstXadesElementInSubtree signature_node "CompleteRevocationRefs") as [revs|].
  2:{ unfold verdict_of, time_fields, values_of in *. cbn. rewrite Hd1, Hd2, Hd3, Ht1, Ht2, Ht3, Ht4, Ht5. split_and!; try done.
      intros [[Hp Hc]%andb_true_iff _]%andb_true_iff. split_and!; try done. by apply Hb. }
  match goal with |- context [bind_refs ?a ?b ?c ?d ?e ?f r1] => destruct (bind_refs_spec a b c d e f r1) as (E1 & V1 & T1 & D1);
    destruct (bind_refs a b c d e f r1) as [crl_bound r2] end. cbn [fst snd] in *.
  match goal with |- context [bind_refs ?a ?b ?c ?d ?e ?f r2] => destruct (bind_refs_spec a b c d e f r2) as (E2 & V2 & T2 & D2);
    destruct (bind_refs a b c d e f r2) as [ocsp_bound r3] end. cbn [fst snd] in *.
  assert (verdict_of r3 = verdict_of r /\ time_fields r3 = time_fields r1 /\ values_of r3 = values_of r1) as (V & T & D).
  { by rewrite V2, V1, T2, T1, D2, D1. }
  unfold verdict_of, time_fields, values_of in V, T, D |- *. cbn.
  injection V as -> -> -> ->. injection T as -> -> -> -> ->. injection D as -> -> ->.
  rewrite Hd1, Hd2, Hd3, Ht1, Ht2, Ht3, Ht4, Ht5. split_and!; try done.
  injection D1 as _ _ D1. rewrite D1, Hd3 in E2. rewrite E2, E1. intros [[Hp Hc]%andb_true_iff [[_ Hcrl]%andb_true_iff Hocsp]%andb_true_iff]%andb_true_iff.
  split_and!; [done|by apply Hb| |]; intros refs ref [= <-] Hin; [exact (forallb_elem _ _ Hcrl _ Hin)|exact (forallb_elem _ _ Hocsp _ Hin)].
Qed.

Lemma detect_profile_spec (signature_node : xmlNode) (sig_ts arch_ts : TimestampCheck) (r : XadesVerificationResult) :
  let out := detect_profile signature_node sig_ts arch_ts r in
  verdict_of out = verdict_of r /\ time_fields out = time_fields r /\ values_of out = values_of r /\
  xv_ltv_evidence_bound out = xv_ltv_evidence_bound r /\
  (xv_format_profile out = "XAdES-A" <-> tc_present arch_ts && tc_valid arch_ts = true) /\
  (xv_format_profile out = "XAdES-B-LT" -> xv_ltv_data_present r = true /\ tc_present sig_ts = true).
Proof.
  unfold detect_profile. cbv zeta. destruct (tc_present arch_ts && tc_valid arch_ts); [done|].
  destruct (xv_ltv_data_present r && tc_present sig_ts) eqn:E1; [by apply andb_true_iff in E1 as [-> ->]|].
  repeat match goal with |- context [if ?b then _ else _] => destruct b end; done.
Qed.

(** The certificate that the signature is verified with has the digest that the signed properties state. *)
Definition certificate_bound (signature_node : xmlNode) (cert_der : bytes) : Prop :=
  exists signed_props cert_digest x509_cert dm dv digest,
    FindFirstXadesElementInSubtree signature_node "SignedProperties" = Some signed_props /\
    FindFirstXadesElement (children_of signed_props) "CertDigest" = Some cert_digest /\
    FindFirstDsigElementInSubtree signature_node "X509Certificate" = Some x509_cert /\
    Base64.Base64Decode (TrimmedText x509_cert) = Some cert_der /\
    FindFirstDsigElement (children_of cert_digest) "DigestMethod" = Some dm /\
    FindFirstDsigElement (children_of cert_digest) "DigestValue" = Some dv /\
    Base64.Base64Decode (TrimmedText dv) = Some digest /\
    ComputeDigestByCertificate cert_der (GetAttr dm "Algorithm") cert_der = inr digest.

Lemma check_signing_certificate_spec (signature_node signed_props : xmlNode) (r : XadesVerificationResult) :
  FindFirstXadesElementInSubtree signature_node "SignedProperties" = Some signed_props ->
  let out := check_signing_certificate signature_node signed_props r in
  xv_signature_valid out = xv_signature_valid r && xv_signing_certificate_digest_valid out /\
  xv_qualifying_properties_present out = xv_qualifying_properties_present r /\
  (xv_signing_certificate_digest_valid r = false -> xv_signing_certificate_digest_valid out = true ->
   certificate_bound signature_node (xv_signer_certificate_der out)).
Proof.
  intros Hp. unfold check_signing_certificate. cbv zeta.
  destruct (FindFirstXadesElement (children_of signed_props) "CertDigest") as [cert_digest|] eqn:E1;
    [|cbn; by split_and!; [|done|congruence]].
  destruct (FindFirstDsigElementInSubtree signature_node "X509Certificate") as [x509|] eqn:E2;
    [|cbn; by split_and!; [|done|congruence]].
  destruct (Base64.Base64Decode (TrimmedText x509)) as [cert_der|] eqn:E3; [|cbn; by split_and!; [|done|congruence]].
  destruct (FindFirstDsigElement (children_of cert_digest) "DigestValue") as [dv|] eqn:E4;
    [|cbn; by split_and!; [|done|congruence]].
  cbn [mbind option_bind].
  destruct (Base64.Base64Decode (TrimmedText dv)) as [expected|] eqn:E5; [|cbn; by split_and!; [|done|congruence]].
  destruct (FindFirstDsigElement (children_of cert_digest) "DigestMethod") as [dm|] eqn:E6.
  - destruct (ComputeDigestByCertificate cert_der (GetAttr dm "Algorithm") cert_der) as [?|computed] eqn:E7;
      [cbn; by split_and!; [|done|congruence]|].
    case_bool_decide; [|cbn; by split_and!; [|done|congruence]]. subst computed. cbn. split_and!; [done..|].
    intros _ _. by exists signed_props, cert_digest, x509, dm, dv, expected.
  - destruct (ComputeDigestByCertificate cert_der "" cert_der) as [?|computed] eqn:E7;
      [cbn; by split_and!; [|done|congruence]|].
    unfold ComputeDigestByCertificate in E7. by vm_compute in E7.
Qed.

(** The fields that the signed properties decide. *)
Lemma read_signed_properties_spec (signature_node signed_props : xmlNode) (r : XadesVerificationResult) :
  FindFirstXadesElementInSubtree signature_node "SignedProperties" = Some signed_props ->
  xv_signing_certificate_digest_valid r = false ->
  let out := read_signed_properties signature_node signed_props r in
  xv_qualifying_properties_present out = true /\
  (xv_signature_valid out = true -> xv_signature_valid r = true /\ certificate_bound signature_node (xv_signer_certificate_der out)).
Proof.
  intros Hp Hd. unfold read_signed_properties. cbv zeta.
  match goal with |- context [check_signing_certificate _ _ ?s] => set (start := s) end.
  assert (xv_signature_valid start = xv_signature_valid r /\ xv_qualifying_properties_present start = true /\
    xv_signing_certificate_digest_valid start = false) as (<- & Hq & Hd').
  { subst start. by destruct (FindFirstXadesElement (children_of signed_props) "SigningTime"). }
  destruct (check_signing_certificate_spec signature_node signed_props start Hp) as (C1 & C2 & C3).
  clearbody start. set (r1 := check_signing_certificate signature_node signed_props start) in *. clearbody r1.
  pose proof (read_signature_policy_verdict signed_props r1) as V. set (r2 := read_signature_policy signed_props r1) in *.
  clearbody r2. injection V as V1 V2 V3 V4.
  change (xv_qualifying_properties_present r2 = true /\ (xv_signature_valid r2 = true ->
    xv_signature_valid start = true /\ certificate_bound signature_node (xv_signer_certificate_der r2))).
  rewrite V1, V2, V4, C2, C1. split; [done|]. intros [Hv Hb]%andb_true_iff. auto.
Qed.

Section Signature.
Context (root signature_node : xmlNode) (position : Z).

Definition concat_octets (names : list string) (c : C14nMode * bool) : string + string :=
  ConcatCanonicalWithinSignature root position signature_node names c.1 c.2.
Definition archive_octets (c : C14nMode * bool) : string + string :=
  BuildArchiveTimeStampImprintInput root (serialize_node root root) position signature_node archive_property_names c.1 c.2.

Definition sig_state : TimestampCheck :=
  timestamp_state (FindFirstXadesElementInSubtree signature_node "SignatureTimeStamp") (concat_octets ["SignatureValue"]).
Definition sar_state : TimestampCheck :=
  timestamp_state (FindFirstXadesElementInSubtree signature_node "SigAndRefsTimeStamp")
    (concat_octets ["SignatureValue"; "SignatureTimeStamp"; "CompleteCertificateRefs"; "CompleteRevocationRefs"]).
Definition arch_state : TimestampCheck :=
  timestamp_state (FindFirstXadesElementInSubtree signature_node "ArchiveTimeStamp") archive_octets.

Lemma validate_timestamps_spec (r : XadesVerificationResult) :
  exists out, validate_timestamps root signature_node position r = (sig_state, sar_state, arch_state, out)
    /\ verdict_of out = verdict_of r.
Proof.
  unfold validate_timestamps.
  match goal with |- context [validate_ts ?a ?b ?c ?d ?e r] => destruct (validate_ts_spec a b c d e r) as [S1 V1];
    destruct (validate_ts a b c d e r) as [st1 r1] end. cbn [fst snd] in S1, V1.
  match goal with |- context [validate_ts ?a ?b ?c ?d ?e r1] => destruct (validate_ts_spec a b c d e r1) as [S2 V2];
    destruct (validate_ts a b c d e r1) as [st2 r2] end. cbn [fst snd] in S2, V2.
  destruct (validate_archive_ts_spec root signature_node position r2) as [S3 V3].
  destruct (validate_archive_ts root signature_node position r2) as [st3 r3]. cbn [fst snd] in S3, V3.
  exists r3. rewrite V3, V2, V1. split; [|done]. by rewrite S1, S2, S3.
Qed.

Lemma record_timestamps_spec (sig_ts sar_ts arch_ts : TimestampCheck) (r : XadesVerificationResult) :
  let states := List.filter tc_present [sig_ts; sar_ts; arch_ts] in
  let out := record_timestamps signature_node sig_ts sar_ts arch_ts r in
  verdict_of out = verdict_of r /\
  (xv_signature_timestamp_valid out, xv_timestamps_valid out, xv_archive_timestamps_valid out)
  = (tc_valid sig_ts, negb (null states) && forallb (fun s => tc_checked s && tc_valid s) states, tc_valid arch_ts).
Proof. done. Qed.

Lemma record_evidence_spec (r : XadesVerificationResult) :
  let ltv := has_element signature_node "CertificateValues" && has_element signature_node "RevocationValues" in
  let out := record_evidence signature_node r in
  verdict_of out = verdict_of r /\
  time_fields out = (xv_signature_timestamp_valid r, xv_timestamps_valid r, xv_archive_timestamps_valid r, ltv,
    xv_signature_valid r && xv_signature_timestamp_valid r && ltv) /\
  values_of out = (values_under signature_node "CertificateValues" "EncapsulatedX509Certificate",
    values_under signature_node "RevocationValues" "EncapsulatedCRLValue",
    values_under signature_node "RevocationValues" "EncapsulatedOCSPValue").
Proof. done. Qed.

End Signature.

End Kept.

(** ** One signature *)

Section OneSignature.
Context `{Libxml : LibXml, Crypto : XmlCrypto, Digests : DigestApi, Certs : CertApi}.
Context {Tokens : TimestampApi}.
Context (root signature_node : xmlNode) (position : Z) (xml_result : XmlSignatureVerificationResult).

Local Abbreviation result := (VerifyOneXadesSignature root signature_node position xml_result).
Local Abbreviation has := (has_element signature_node).
Local Abbreviation sig_ts := (sig_state root signature_node position).
Local Abbreviation sar_ts := (sar_state root signature_node position).
Local Abbreviation arch_ts := (arch_state root signature_node position).

(** The result after the timestamps and the evidence are recorded: what the last two steps start from. *)
Lemma VerifyOne_evidence (signed_props : xmlNode) :
  FindFirstXadesElementInSubtree signature_node "SignedProperties" = Some signed_props ->
  exists r, result = detect_profile signature_node sig_ts arch_ts (bind_evidence signature_node r) /\
    xv_qualifying_properties_present r = true /\
    (xv_signature_valid r = true -> xr_signature_valid xml_result && xr_digest_valid xml_result = true /\
      certificate_bound signature_node (xv_signer_certificate_der r)) /\
    time_fields r = (tc_valid sig_ts,
      negb (null (List.filter tc_present [sig_ts; sar_ts; arch_ts]))
      && forallb (fun s => tc_checked s && tc_valid s) (List.filter tc_present [sig_ts; sar_ts; arch_ts]), tc_valid arch_ts,
      has "CertificateValues" && has "RevocationValues",
      xv_signature_valid r && tc_valid sig_ts && (has "CertificateValues" && has "RevocationValues")) /\
    values_of r = (values_under signature_node "CertificateValues" "EncapsulatedX509Certificate",
      values_under signature_node "RevocationValues" "EncapsulatedCRLValue",
      values_under signature_node "RevocationValues" "EncapsulatedOCSPValue").
Proof.
  intros Ep. unfold VerifyOneXadesSignature. rewrite Ep.
  match goal with |- context [read_signed_properties _ _ ?s] => set (start := s) end.
  destruct (read_signed_properties_spec signature_node signed_props start Ep eq_refl) as [Hq Hv].
  change (xv_signature_valid start) with (xr_signature_valid xml_result && xr_digest_valid xml_result) in Hv.
  clearbody start. set (r1 := read_signed_properties signature_node signed_props start) in *. clearbody r1.
  destruct (validate_timestamps_spec root signature_node position r1) as (r2 & -> & V2).
  set (r3 := record_timestamps signature_node sig_ts sar_ts arch_ts r2).
  destruct (record_timestamps_spec signature_node sig_ts sar_ts arch_ts r2) as [V3 T3]. fold r3 in V3, T3. clearbody r3.
  destruct (record_evidence_spec signature_node r3) as (V4 & T4 & D4).
  exists (record_evidence signature_node r3). set (r4 := record_evidence signature_node r3) in *. clearbody r4.
  assert (verdict_of r4 = verdict_of r1) as V by congruence. rewrite V2 in V3. injection V as V41 V42 V43 V44.
  injection V3 as V31 V32 V33 V34. injection T3 as T31 T32 T33.
  rewrite T4, D4, V42, V41, V44, V31, T31, T32, T33. done.
Qed.

(** What decides about the signature, and what the evidence and the profile rest on. *)
Lemma VerifyOne_spec :
  (xv_signature_valid result = true -> xr_signature_valid xml_result && xr_digest_valid xml_result = true) /\
  xv_qualifying_properties_present result = has "SignedProperties" /\
  (has "SignedProperties" = true ->
    (xv_signature_valid result = true -> certificate_bound signature_node (xv_signer_certificate_der result)) /\
    time_fields result = (tc_valid sig_ts,
      negb (null (List.filter tc_present [sig_ts; sar_ts; arch_ts]))
      && forallb (fun s => tc_checked s && tc_valid s) (List.filter tc_present [sig_ts; sar_ts; arch_ts]), tc_valid arch_ts,
      has "CertificateValues" && has "RevocationValues",
      xv_signature_valid result && tc_valid sig_ts && (has "CertificateValues" && has "RevocationValues")) /\
    values_of result = (values_under signature_node "CertificateValues" "EncapsulatedX509Certificate",
      values_under signature_node "RevocationValues" "EncapsulatedCRLValue",
      values_under signature_node "RevocationValues" "EncapsulatedOCSPValue") /\
    (xv_format_profile result = "XAdES-A" <-> tc_present arch_ts && tc_valid arch_ts = true) /\
    (xv_ltv_evidence_bound result = true ->
      xv_ltv_data_present result = true /\
      refs_bound signature_node "CompleteCertificateRefs" "Cert" "CertDigest" (xv_certificate_values_der result) true /\
      refs_bound signature_node "CompleteRevocationRefs" "CRLRef" "DigestAlgAndValue" (xv_revocation_values_crl_der result) false /\
      refs_bound signature_node "CompleteRevocationRefs" "OCSPRef" "DigestAlgAndValue" (xv_revocation_values_ocsp_der result) false)).
Proof.
  unfold has_element at 1 2.
  destruct (FindFirstXadesElementInSubtree signature_node "SignedProperties") as [signed_props|] eqn:Ep.
  2:{ unfold VerifyOneXadesSignature. rewrite Ep. cbn. split_and!; done. }
  destruct (VerifyOne_evidence signed_props Ep) as (r & -> & Hq & Hv & T & D).
  destruct (bind_evidence_spec signature_node r) as (V8 & T8 & D8 & B8).
  destruct (detect_profile_spec signature_node sig_ts arch_ts (bind_evidence signature_node r)) as (V9 & T9 & D9 & B9 & A9 & _).
  set (r9 := detect_profile signature_node sig_ts arch_ts (bind_evidence signature_node r)) in *. clearbody r9.
  set (r8 := bind_evidence signature_node r) in *. clearbody r8.
  assert (verdict_of r9 = verdict_of r) as V by congruence. injection V as V1 V2 V3 V4.
  assert (time_fields r9 = time_fields r) as T' by congruence. assert (values_of r9 = values_of r) as D' by congruence.
  rewrite V1, V2, V4, B9, T', D', T, D.
  assert (xv_ltv_data_present r9 = xv_ltv_data_present r) as -> by (injection T'; done). injection D' as -> -> ->.
  split_and!; [by intros [? _]%Hv|done|]. intros _. split_and!; try done. by intros [_ ?]%Hv.
Qed.

(** A timestamp of a name: its element holds a token that is valid for the octets. *)
Definition timestamp_holds (ts_name : string) (octets : C14nMode * bool -> string + string) : Prop :=
  exists ts token imprint,
    FindFirstXadesElementInSubtree signature_node ts_name = Some ts /\ encapsulated_token ts = Some token /\
    octets (timestamp_c14n ts) = inr imprint /\
    tv_valid (ValidateTimestampToken token (octets_of imprint) []) = true.

Lemma timestamp_state_spec (ts_name : string) (octets : C14nMode * bool -> string + string) :
  let state := timestamp_state (FindFirstXadesElementInSubtree signature_node ts_name) octets in
  tc_present state = has ts_name /\ (tc_valid state = true <-> timestamp_holds ts_name octets) /\
  (tc_valid state = true -> tc_present state = true /\ tc_checked state = true).
Proof.
  cbv zeta. unfold timestamp_holds, timestamp_state, has_element.
  destruct (FindFirstXadesElementInSubtree signature_node ts_name) as [ts|].
  2:{ cbn. split_and!; [done| |done]. split; [done|]. by intros (? & ? & ? & ? & _). }
  destruct (encapsulated_token ts) as [token|] eqn:Et.
  2:{ cbn. split_and!; [done| |done]. split; [done|]. intros (? & ? & ? & [= <-] & ? & _). congruence. }
  destruct (octets (timestamp_c14n ts)) as [?|imprint] eqn:Eo.
  { cbn. split_and!; [done| |done]. split; [done|]. intros (? & ? & ? & [= <-] & ? & ? & _). congruence. } cbn. split_and!; [done| |done].
  split; [intros Hv; by exists ts, token, imprint|]. intros (ts' & token' & imprint' & [= <-] & ? & ? & ?). congruence.
Qed.

(** The verdict on three timestamps of which a valid one has been checked. *)
Lemma three_states (a b c : TimestampCheck) :
  (tc_valid a = true -> tc_checked a = true) -> (tc_valid b = true -> tc_checked b = true) ->
  (tc_valid c = true -> tc_checked c = true) ->
  negb (null (List.filter tc_present [a; b; c]))
  && forallb (fun s => tc_checked s && tc_valid s) (List.filter tc_present [a; b; c]) = true <->
  (tc_present a = true \/ tc_present b = true \/ tc_present c = true) /\
  (tc_present a = true -> tc_valid a = true) /\ (tc_present b = true -> tc_valid b = true) /\
  (tc_present c = true -> tc_valid c = true).
Proof.
  assert (forall x, (tc_valid x = true -> tc_checked x = true) -> tc_checked x && tc_valid x = tc_valid x) as E.
  { intros x Hx. destruct (tc_valid x); [by rewrite Hx|by rewrite andb_false_r]. }
  intros Ha%E Hb%E Hc%E. clear E. cbn [List.filter].
  destruct (tc_present a), (tc_present b), (tc_present c); cbn; rewrite ?Ha, ?Hb, ?Hc, ?andb_true_r, ?andb_true_iff; intuition done.
Qed.

(** *** What a timestamp is over, element by element *)

(** The canonical forms of the elements of these names inside the signature, one after the other; a name without an element adds
    nothing. *)
Definition canonical_parts (names : list string) (c : C14nMode * bool) (octets : string) : Prop :=
  exists pieces, octets = foldr (fun piece rest => piece +s+ rest) "" pieces /\
    Forall2 (fun name piece =>
      if (CountElementsInSubtree signature_node name =? 0)%nat then piece = ""
      else CanonicalizeSubtreeWithinSignature root position name c.1 c.2 = inr piece) names pieces.

(** What the references of the signature refer to, after their transforms, in the order of its [SignedInfo]. *)
Definition reference_parts (octets : string) : Prop :=
  exists refs pieces, ExtractReferencesForSignature (serialize_node root root) position = inr refs /\
    octets = foldr (fun piece rest => piece +s+ rest) "" pieces /\
    Forall2 (fun ref piece => imprint_reference root (serialize_node root root) ref = inr piece) refs pieces.

(** The imprint of an archive timestamp: the referenced data, the three elements of the signature, six kinds of unsigned properties and
    the objects that hold no qualifying properties. *)
Definition archive_imprint (c : C14nMode * bool) (octets : string) : Prop :=
  exists references core properties objects,
    reference_parts references /\
    canonical_parts ["SignedInfo"; "SignatureValue"; "KeyInfo"] c core /\
    canonical_parts ["SignatureTimeStamp"; "CompleteCertificateRefs"; "CompleteRevocationRefs"; "SigAndRefsTimeStamp";
                     "CertificateValues"; "RevocationValues"] c properties /\
    CanonicalizeNonQualifyingObjectsWithinSignature root position c.1 c.2 = inr objects /\
    octets = references +s+ core +s+ properties +s+ objects.

(** The element of a timestamp holds a token that is valid for an imprint, canonicalised the way the element says. *)
Definition timestamp_over (ts_name : string) (imprint : C14nMode * bool -> string -> Prop) : Prop :=
  exists ts token octets,
    FindFirstXadesElementInSubtree signature_node ts_name = Some ts /\ encapsulated_token ts = Some token /\
    imprint (timestamp_c14n ts) octets /\ tv_valid (ValidateTimestampToken token (octets_of octets) []) = true.

Lemma concat_octets_iff (names : list string) (c : C14nMode * bool) (octets : string) :
  concat_octets root signature_node position names c = inr octets <-> canonical_parts names c octets.
Proof.
  unfold concat_octets, canonical_parts. revert octets. induction names as [|name names IH]; intros octets; cbn [ConcatCanonicalWithinSignature].
  { split; [intros [= <-]; by exists []|]. by intros (pieces & -> & ->%Forall2_nil_inv_l). }
  split.
  - destruct (_ =? 0)%nat eqn:E0.
    + intros (pieces & -> & Hp)%IH. exists ("" :: pieces). split; [done|]. constructor; [by rewrite E0|done].
    + destruct (CanonicalizeSubtreeWithinSignature _ _ _ _ _) as [?|piece] eqn:Ep; [done|].
      destruct (ConcatCanonicalWithinSignature _ _ _ _ _ _) as [?|rest] eqn:Er; [done|]. intros [= <-].
      destruct (proj1 (IH rest) eq_refl) as (pieces & -> & Hp). exists (piece :: pieces). split; [done|].
      constructor; [by rewrite E0|done].
  - intros (pieces & -> & (piece & rest & Hpc & Hp & ->)%Forall2_cons_inv_l).
    assert (ConcatCanonicalWithinSignature root position signature_node names c.1 c.2 =
      inr (foldr (fun piece rest => piece +s+ rest) "" rest)) as Er by (apply IH; by exists rest).
    destruct (_ =? 0)%nat; [by rewrite Hpc|]. by rewrite Hpc, Er.
Qed.

Lemma imprint_references_iff (text : string) (refs : list XmlReference) (octets : string) :
  imprint_references root text refs = inr octets <->
  exists pieces, octets = foldr (fun piece rest => piece +s+ rest) "" pieces /\
    Forall2 (fun ref piece => imprint_reference root text ref = inr piece) refs pieces.
Proof.
  revert octets. induction refs as [|ref refs IH]; intros octets; cbn [imprint_references].
  { split; [intros [= <-]; by exists []|]. by intros (pieces & -> & ->%Forall2_nil_inv_l). }
  split.
  - destruct (imprint_reference root text ref) as [?|piece] eqn:Ep; [done|].
    destruct (imprint_references root text refs) as [?|rest]; [done|]. intros [= <-].
    destruct (proj1 (IH rest) eq_refl) as (pieces & -> & Hp). exists (piece :: pieces). by split; [|constructor].
  - intros (pieces & -> & (piece & rest & Hpc & Hp & ->)%Forall2_cons_inv_l). rewrite Hpc.
    by rewrite (proj2 (IH (foldr (fun piece rest => piece +s+ rest) "" rest)) ltac:(by exists rest)).
Qed.

Lemma archive_octets_iff (c : C14nMode * bool) (octets : string) :
  archive_octets root signature_node position c = inr octets <-> archive_imprint c octets.
Proof.
  unfold archive_octets, archive_imprint, reference_parts, BuildArchiveTimeStampImprintInput. split.
  - destruct (ExtractReferencesForSignature _ _) as [?|refs]; [done|].
    destruct (imprint_references _ _ refs) as [?|references] eqn:Er; [done|].
    destruct (ConcatCanonicalWithinSignature _ _ _ ["SignedInfo"; "SignatureValue"; "KeyInfo"] _ _) as [?|core] eqn:Ec; [done|].
    destruct (ConcatCanonicalWithinSignature _ _ _ archive_property_names _ _) as [?|properties] eqn:Ep; [done|].
    destruct (CanonicalizeNonQualifyingObjectsWithinSignature _ _ _ _) as [?|objects]; [done|]. intros [= <-].
    apply imprint_references_iff in Er as (pieces & Er & Hp). exists references, core, properties, objects.
    split_and!; [by exists refs, pieces|by apply concat_octets_iff|by apply concat_octets_iff|done|done].
  - intros (references & core & properties & objects & (refs & pieces & Ex & Er & Hp) & Hc%concat_octets_iff & Hq%concat_octets_iff & Ho & ->).
    rewrite Ex, (proj2 (imprint_references_iff _ refs references)) by (by exists pieces).
    unfold concat_octets in Hc, Hq. rewrite Hc. change archive_property_names with
      ["SignatureTimeStamp"; "CompleteCertificateRefs"; "CompleteRevocationRefs"; "SigAndRefsTimeStamp"; "CertificateValues"; "RevocationValues"].
    by rewrite Hq, Ho.
Qed.

Lemma timestamp_over_iff (ts_name : string) (octets : C14nMode * bool -> string + string) (imprint : C14nMode * bool -> string -> Prop) :
  (forall c o, octets c = inr o <-> imprint c o) -> timestamp_holds ts_name octets <-> timestamp_over ts_name imprint.
Proof.
  intros Ho. unfold timestamp_holds, timestamp_over. by setoid_rewrite Ho.
Qed.

(** [C30] What the three timestamps of a signature with signed properties stand for.  It is said to be of the
    archive profile exactly when its archive timestamp holds a token that is valid for the archive imprint: the
    octets of all references of the signature, the canonical [SignedInfo], [SignatureValue] and [KeyInfo],
    those of the properties [SignatureTimeStamp], [CompleteCertificateRefs], [CompleteRevocationRefs],
    [SigAndRefsTimeStamp], [CertificateValues] and [RevocationValues] that the signature has, in this order, and
    the objects without qualifying properties.  It is said to be of long-term validity exactly when it is valid,
    its timestamp is valid for the canonical value of the signature and it carries both kinds of evidence.  Its
    timestamps are said to be valid exactly when there is one and each of the three kinds that is present is
    valid, the one over the references for the value, the timestamp and both kinds of references.  (The
    comment on the builder of the imprint, xades/detail/XadesArchiveImprint.h, asks for the properties that
    precede the archive timestamp, in their order; the verifier passes these six names whatever precedes it.) *)
Theorem profile_rests_on_tokens :
  has "SignedProperties" = true ->
  let archive := timestamp_over "ArchiveTimeStamp" archive_imprint in
  let on_value := timestamp_over "SignatureTimeStamp" (canonical_parts ["SignatureValue"]) in
  let on_refs := timestamp_over "SigAndRefsTimeStamp"
    (canonical_parts ["SignatureValue"; "SignatureTimeStamp"; "CompleteCertificateRefs"; "CompleteRevocationRefs"]) in
  (xv_format_profile result = "XAdES-A" <-> archive) /\
  (xv_archive_timestamps_valid result = true <-> archive) /\
  (xv_ltv_valid result = true <->
    xv_signature_valid result = true /\ on_value /\ has "CertificateValues" = true /\ has "RevocationValues" = true) /\
  (xv_timestamps_valid result = true <->
    (has "SignatureTimeStamp" = true \/ has "SigAndRefsTimeStamp" = true \/ has "ArchiveTimeStamp" = true) /\
    (has "SignatureTimeStamp" = true -> on_value) /\ (has "SigAndRefsTimeStamp" = true -> on_refs) /\
    (has "ArchiveTimeStamp" = true -> archive)).
Proof.
  intros Hp archive on_value on_refs. destruct VerifyOne_spec as (_ & _ & Hs). destruct (Hs Hp) as (_ & T & _ & A & _).
  destruct (timestamp_state_spec "ArchiveTimeStamp" (archive_octets root signature_node position)) as (Pa & Va & Ca).
  destruct (timestamp_state_spec "SignatureTimeStamp" (concat_octets root signature_node position ["SignatureValue"]))
    as (Ps & Vs & Cs).
  destruct (timestamp_state_spec "SigAndRefsTimeStamp" (concat_octets root signature_node position
    ["SignatureValue"; "SignatureTimeStamp"; "CompleteCertificateRefs"; "CompleteRevocationRefs"])) as (Pr & Vr & Cr).
  fold arch_ts in Pa, Va, Ca. fold sig_ts in Ps, Vs, Cs. fold sar_ts in Pr, Vr, Cr.
  rewrite (timestamp_over_iff _ _ archive_imprint archive_octets_iff) in Va.
  rewrite (timestamp_over_iff _ _ _ (concat_octets_iff ["SignatureValue"])) in Vs.
  rewrite (timestamp_over_iff _ _ _ (concat_octets_iff _)) in Vr.
  fold archive in Va. fold on_value in Vs. fold on_refs in Vr. injection T as _ T2 T3 _ T5.
  pose proof (three_states sig_ts sar_ts arch_ts (fun h => proj2 (Cs h)) (fun h => proj2 (Cr h)) (fun h => proj2 (Ca h))) as E.
  cbn [List.filter] in E. rewrite A, T2, T3, T5, E. clear E.
  rewrite !andb_true_iff, <- Pa, <- Ps, <- Pr, <- Va, <- Vs, <- Vr. split_and!; [|done| |done]; [|tauto].
  split; [tauto|]. intros Hv. split; [apply Ca|]; exact Hv.
Qed.

(** The digest that a reference to evidence states is the one of a value. *)
Definition is_digest_of (digest_node : option xmlNode) (by_certificate : bool) (value : bytes) : Prop :=
  exists node dm dv digest,
    digest_node = Some node /\ FindFirstDsigElement (children_of node) "DigestMethod" = Some dm /\
    FindFirstDsigElement (children_of node) "DigestValue" = Some dv /\
    Base64.Base64Decode (TrimmedText dv) = Some digest /\ digest <> [] /\
    (if by_certificate then ComputeDigestByCertificate value (GetAttr dm "Algorithm") value
     else ComputeDigest value (GetAttr dm "Algorithm")) = inr digest.

Lemma RefDigestMatchesAny_spec (digest_node : option xmlNode) (values : list bytes) (by_certificate : bool) :
  RefDigestMatchesAny digest_node values by_certificate = true ->
  exists value, value ∈ values /\ is_digest_of digest_node by_certificate value.
Proof.
  unfold RefDigestMatchesAny, is_digest_of. destruct digest_node as [node|]; [|done].
  destruct (FindFirstDsigElement _ "DigestMethod") as [dm|] eqn:Em; [|done].
  destruct (FindFirstDsigElement _ "DigestValue") as [dv|] eqn:Ev; [|done].
  destruct (Base64.Base64Decode (TrimmedText dv)) as [[|b digest]|] eqn:Ed; [done| |done].
  intros (value & Hin & Hm)%existsb_exists. exists value. split; [by apply list_elem_of_In|].
  destruct (if by_certificate then _ else _) as [?|computed] eqn:Ec; [done|]. apply bool_decide_eq_true in Hm. subst computed.
  by exists node, dm, dv, (b :: digest).
Qed.

(** When the evidence is said to be bound, the signature carries certificates and revocation values, and each
    reference to a certificate, a revocation list or an OCSP response that it holds is the digest of a
    certificate, a list or a response that is embedded in the same signature. *)
Theorem bound_evidence_is_embedded (container ref_name digest_name values_container value_name : string)
    (by_certificate : bool) (refs ref : xmlNode) :
  xv_ltv_evidence_bound result = true -> has "SignedProperties" = true ->
  (container, ref_name, digest_name, values_container, value_name, by_certificate) ∈
    [("CompleteCertificateRefs", "Cert", "CertDigest", "CertificateValues", "EncapsulatedX509Certificate", true);
     ("CompleteRevocationRefs", "CRLRef", "DigestAlgAndValue", "RevocationValues", "EncapsulatedCRLValue", false);
     ("CompleteRevocationRefs", "OCSPRef", "DigestAlgAndValue", "RevocationValues", "EncapsulatedOCSPValue", false)] ->
  FindFirstXadesElementInSubtree signature_node container = Some refs ->
  ref ∈ CollectElementNodes (children_of refs) ref_name ->
  has "CertificateValues" = true /\ has "RevocationValues" = true /\
  exists value, value ∈ values_under signature_node values_container value_name /\
    is_digest_of (FindFirstXadesElement (children_of ref) digest_name) by_certificate value.
Proof.
  intros Hb Hp Hk Hc Hin. destruct VerifyOne_spec as (_ & _ & Hs). destruct (Hs Hp) as (_ & T & D & _ & B).
  destruct (B Hb) as (Hd & B1 & B2 & B3). injection T as _ _ _ T4 _. injection D as D1 D2 D3.
  rewrite Hd in T4. symmetry in T4. apply andb_true_iff in T4 as [-> ->]. split_and!; [done..|].
  apply RefDigestMatchesAny_spec. rewrite !elem_of_cons, elem_of_nil in Hk. destruct_or! Hk; simplify_eq.
  - rewrite <- D1. by eapply B1.
  - rewrite <- D2. by eapply B2.
  - rewrite <- D3. by eapply B3.
Qed.

End OneSignature.

(** ** Every signature of a document *)

Section Document.
Context `{Libxml : LibXml, Crypto : XmlCrypto, Digests : DigestApi, Certs : CertApi}.
Context {Tokens : TimestampApi}.
Context (signed_xml : string) (external_references : gmap string bytes).

Lemma verify_each_spec (root : xmlNode) (position : Z) (nodes : list xmlNode) (results : list XmlSignatureVerificationResult) :
  verify_each root signed_xml external_references position nodes = inr results ->
  length results = length nodes /\
  forall i node, nodes !! i = Some node -> exists r, results !! i = Some r /\
    verify_one root signed_xml external_references (position + Z.of_nat i) node = inr r.
Proof.
  revert position results. induction nodes as [|n nodes IH]; intros position results E; cbn [verify_each] in E.
  { injection E as <-. done. }
  destruct (verify_one _ _ _ position n) as [?|r] eqn:E1; [done|].
  destruct (verify_each _ _ _ _ nodes) as [?|rs] eqn:E2; [done|]. injection E as <-.
  destruct (IH _ _ E2) as [Hl Hi]. split; [cbn; by rewrite Hl|]. intros [|i] node Hn.
  - injection Hn as <-. exists r. rewrite Z.add_0_r. done.
  - destruct (Hi i node Hn) as (r' & ? & ?). exists r'. replace (position + Z.of_nat (S i)) with (position + 1 + Z.of_nat i) by lia. done.
Qed.

Lemma verify_signatures_lookup (root : xmlNode) (position : Z) (nodes : list xmlNode)
    (results : list XmlSignatureVerificationResult) (i : nat) (node : xmlNode) (r : XmlSignatureVerificationResult) :
  nodes !! i = Some node -> results !! i = Some r ->
  verify_signatures root position nodes results !! i
  = Some (VerifyOneXadesSignature root node (position + Z.of_nat i) r).
Proof.
  revert position nodes results. induction i as [|i IH]; intros position [|n nodes] [|x results] Hn Hr; try done.
  - injection Hn as ->. injection Hr as ->. cbn. by rewrite Z.add_0_r.
  - cbn in Hn, Hr |- *. rewrite (IH _ _ _ Hn Hr). do 2 f_equal. lia.
Qed.

Lemma verify_signatures_length (root : xmlNode) (position : Z) (nodes : list xmlNode)
    (results : list XmlSignatureVerificationResult) :
  length results = length nodes -> length (verify_signatures root position nodes results) = length nodes.
Proof.
  revert position results. induction nodes as [|n nodes IH]; intros position [|r results] Hl; try done.
  cbn. f_equal. apply IH. by injection Hl.
Qed.

(** The references of the signature at a position are those of its only [SignedInfo]. *)
Lemma ExtractReferences_at (root node : xmlNode) (nodes : list xmlNode) (i : nat) (refs : list XmlReference) :
  ParseHardened signed_xml = inr (Some root) -> CollectTopLevelSignatureNodes [root] = (nodes, false) ->
  nodes !! i = Some node -> ExtractReferencesForSignature signed_xml (1 + Z.of_nat i) = inr refs ->
  exists signed_info, named [node] "SignedInfo" = [signed_info] /\ refs <> [] /\
    refs = map reference_of (List.filter (fun n => IsElementNamed n "Reference") (children_of signed_info)).
Proof.
  intros Ep Ec Hi E. unfold ExtractReferencesForSignature in E. rewrite Ep in E. cbn [root_list] in E. rewrite Ec in E.
  destruct (_ || _) in E; [done|]. replace (Z.to_nat (1 + Z.of_nat i - 1)) with i in E by lia. rewrite Hi in E.
  rewrite CountElementsInSubtree_named, FindFirstElementInSubtree_named in E.
  destruct (length (named [node] "SignedInfo") =? 1)%nat eqn:E1; [|done]. apply Nat.eqb_eq in E1. cbn [negb] in E.
  destruct (named [node] "SignedInfo") as [|signed_info [|]]; [done| |done]. cbn [head] in E. exists signed_info.
  unfold ExtractReferencesFromSignedInfoNode in E. destruct (map reference_of _) as [|ref l] eqn:Er; [done|]. by injection E as <-.
Qed.

(** What a valid XML signature at a position rests on. *)
Definition signature_holds (root node : xmlNode) (position : Z) (cert_der : bytes) : Prop :=
  exists signed_info refs,
    named [node] "SignedInfo" = [signed_info] /\ ExtractEmbeddedCertificate node = Some cert_der /\
    refs = map reference_of (List.filter (fun n => IsElementNamed n "Reference") (children_of signed_info)) /\ refs <> [] /\
    Forall (reference_holds signed_xml external_references root cert_der) refs /\
    value_holds root node signed_info position cert_der.

Lemma verify_one_holds (root node : xmlNode) (nodes : list xmlNode) (i : nat) (r : XmlSignatureVerificationResult) :
  ParseHardened signed_xml = inr (Some root) -> CollectTopLevelSignatureNodes [root] = (nodes, false) ->
  nodes !! i = Some node ->
  verify_one root signed_xml external_references (1 + Z.of_nat i) node = inr r ->
  xr_signature_valid r && xr_digest_valid r = true ->
  exists cert_der, signature_holds root node (1 + Z.of_nat i) cert_der.
Proof.
  intros Ep Ec Hi E [Hv Hd]%andb_true_iff. unfold verify_one in E. repeat (case_match; [done|]).
  destruct (VerifySignatureAtPosition_valid _ _ _ _ _ _ E Hv) as (cert_der & refs & signed_info & Hc & Hr & Hs & Hval & Hrefs).
  destruct (ExtractReferences_at _ _ _ _ _ Ep Ec Hi Hr) as (signed_info' & Hn & Hne & Eq).
  rewrite FindFirstElementInSubtree_named, Hn in Hs. injection Hs as <-.
  exists cert_der, signed_info', refs. split_and!; try done. by apply Hrefs.
Qed.

Lemma certificate_is_embedded (node : xmlNode) (cert_der cert_der' : bytes) :
  ExtractEmbeddedCertificate node = Some cert_der -> certificate_bound node cert_der' -> cert_der' = cert_der.
Proof.
  unfold ExtractEmbeddedCertificate. intros E (sp & cd & x509 & dm & dv & digest & _ & _ & Ex & Ed & _). rewrite Ex, Ed in E.
  by destruct cert_der'; [|injection E].
Qed.

(** The answer about a document: one result for each signature. *)
Lemma VerifyAllXades_shape (set : XadesSignatureSet) :
  VerifyAllXades signed_xml external_references = inr set ->
  exists root nodes results,
    ParseHardened signed_xml = inr (Some root) /\ CollectTopLevelSignatureNodes [root] = (nodes, false) /\ nodes <> [] /\
    verify_each root signed_xml external_references 1 nodes = inr results /\
    xs_signatures set = verify_signatures root 1 nodes results /\
    xs_all_valid set = forallb xv_signature_valid (verify_signatures root 1 nodes results).
Proof.
  unfold VerifyAllXades, VerifyAll. intros E. destruct (ParseHardened signed_xml) as [?|parsed]; [done|].
  destruct (CollectTopLevelSignatureNodes (root_list parsed)) as [nodes nested] eqn:Ec. destruct nested; [done|].
  destruct parsed as [root|]; [|done]. destruct nodes as [|n0 nodes]; [done|].
  destruct (verify_each _ _ _ 1 (n0 :: nodes)) as [?|results] eqn:Ev; [done|].
  destruct (verify_each_spec _ _ _ _ Ev) as [Hl _]. rewrite Hl, Nat.eqb_refl in E. injection E as <-.
  by exists root, (n0 :: nodes), results.
Qed.

Definition XadesGrounds (set : XadesSignatureSet) : Prop :=
  exists root nodes,
    ParseHardened signed_xml = inr (Some root) /\ CollectTopLevelSignatureNodes [root] = (nodes, false) /\ nodes <> [] /\
    length (xs_signatures set) = length nodes /\
    forall i node r, nodes !! i = Some node -> xs_signatures set !! i = Some r ->
      exists cert_der, signature_holds root node (1 + Z.of_nat i) cert_der /\
        (xv_qualifying_properties_present r = has_element node "SignedProperties") /\
        (has_element node "SignedProperties" = true ->
         certificate_bound node cert_der /\ xv_signer_certificate_der r = cert_der).

Lemma all_valid_grounds (set : XadesSignatureSet) :
  VerifyAllXades signed_xml external_references = inr set -> xs_all_valid set = true -> XadesGrounds set.
Proof.
  intros E Hall. destruct (VerifyAllXades_shape set E) as (root & nodes & results & Ep & Ec & Hne & Ev & Es & Ea).
  rewrite Ea in Hall. destruct (verify_each_spec _ _ _ _ Ev) as [Hl Hi]. exists root, nodes. rewrite Es.
  split_and!; try done; [by apply verify_signatures_length|].
  intros i node r Hn Hr. destruct (Hi i node Hn) as (x & Hx & Hone).
  rewrite (verify_signatures_lookup root 1 _ _ _ _ _ Hn Hx) in Hr. injection Hr as Hr.
  assert (xv_signature_valid r = true) as Hv.
  { apply (forallb_elem xv_signature_valid _ Hall). rewrite <- Hr.
    eapply list_elem_of_lookup_2. by apply verify_signatures_lookup. }
  destruct (VerifyOne_spec root node (1 + Z.of_nat i) x) as (V1 & V2 & V3). rewrite Hr in V1, V2, V3.
  destruct (verify_one_holds _ _ _ _ _ Ep Ec Hn Hone (V1 Hv)) as (cert_der & Hholds).
  exists cert_der. split; [done|]. split; [done|]. intros Hp. destruct (V3 Hp) as (Hb & _). specialize (Hb Hv).
  destruct Hholds as (signed_info & refs & _ & Hemb & _).
  by rewrite <- (certificate_is_embedded _ _ _ Hemb Hb).
Qed.

Lemma VerifyAllXades_nonempty (set : XadesSignatureSet) :
  VerifyAllXades signed_xml external_references = inr set ->
  xs_signatures set <> [] /\ xs_all_valid set = forallb xv_signature_valid (xs_signatures set).
Proof.
  intros E. destruct (VerifyAllXades_shape set E) as (root & nodes & results & _ & _ & Hne & Ev & Es & Ea).
  destruct (verify_each_spec _ _ _ _ Ev) as [Hl _]. rewrite Es. split; [|done].
  intros Hn. apply (f_equal length) in Hn. rewrite verify_signatures_length in Hn by done. by destruct nodes.
Qed.


End Document.

(** ** A signed document with properties *)

Module SampleXades.

Import SampleSignature.

#[local] Existing Instances toy_crypto toy_digests toy_cert_api toy_timestamp_api.

Definition xa (name : string) (attributes : list (string * string)) (children : list xmlNode) : xmlNode :=
  Element name "http://uri.etsi.org/01903/v1.3.2#" attributes children.

Definition sha256_of (data : bytes) : list xmlNode :=
  [ds "DigestMethod" [("Algorithm", "http://www.w3.org/2001/04/xmlenc#sha256")] [];
   ds "DigestValue" [] [Text (Base64.Base64Encode (Sha256 data))]].

Definition cert : bytes := [x30; x00].
Definition crl : bytes := [x31; x00].

Definition properties (signing_time : string) : xmlNode :=
  xa "QualifyingProperties" []
    [xa "SignedProperties" [] [xa "SigningTime" [] [Text signing_time]; xa "CertDigest" [] (sha256_of cert)];
     xa "UnsignedProperties" []
       [xa "SignatureTimeStamp" [] [xa "EncapsulatedTimeStamp" [] [Text (Base64.Base64Encode (octets_of genuine_digest))]];
        xa "CompleteCertificateRefs" [] [xa "Cert" [] [xa "CertDigest" [] (sha256_of cert)]];
        xa "CompleteRevocationRefs" [] [xa "CRLRef" [] [xa "DigestAlgAndValue" [] (sha256_of crl)]];
        xa "CertificateValues" [] [xa "EncapsulatedX509Certificate" [] [Text (Base64.Base64Encode cert)]];
        xa "RevocationValues" [] [xa "EncapsulatedCRLValue" [] [Text (Base64.Base64Encode crl)]]]].

(** The signature of [SampleSignature], to which the properties are added outside of what it signs. *)
Definition with_properties (signing_time : string) : xmlNode :=
  ds "Signature" [] (children_of signature ++ [ds "Object" [] [properties signing_time]]).

(** Every other text than the serialized content stands for the document whose properties state this time. *)
Definition sample_document (text : string) : xmlNode :=
  Element "TrustServiceStatusList" "" []
    [Element "SchemeName" "" [] [Text "genuine"]; Element "ServiceName" "" [] [Text "CA of Alice"]; with_properties text].

Definition sample_xml : LibXml := {| xmlReadMemory text := Some (MkXmlDoc false (Some (sample_document text))) |}.
#[local] Existing Instance sample_xml.

Definition morning : string := "2026-01-01T08:00:00Z".

Definition sample_result : XadesVerificationResult :=
  Eval vm_compute in match VerifyXades morning ∅ with inr r => r | inl _ => XadesVerificationResult_default end.

Definition sample_set : XadesSignatureSet :=
  Eval vm_compute in match VerifyAllXades morning ∅ with inr s => s | inl _ => XadesSignatureSet_default end.

Definition sample_xml_result : XmlSignatureVerificationResult := Eval vm_compute in xv_xml_signature sample_result.

Lemma sample_verified : VerifyAllXades morning ∅ = inr sample_set.
Proof. vm_compute. reflexivity. Qed.


Lemma profile_rests_on_tokens_witness :
  let root := sample_document morning in
  let node := with_properties morning in
  let result := VerifyOneXadesSignature root node 1 sample_xml_result in
  xv_format_profile result = "XAdES-B-LT" /\ xv_ltv_valid result = true /\
  (xv_format_profile result = "XAdES-A" <-> timestamp_over node "ArchiveTimeStamp" (archive_imprint root node 1)) /\
  timestamp_over node "SignatureTimeStamp" (canonical_parts root node 1 ["SignatureValue"]).
Proof.
  cbv zeta. split; [vm_compute; reflexivity|]. split; [vm_compute; reflexivity|].
  destruct (profile_rests_on_tokens (sample_document morning) (with_properties morning) 1 sample_xml_result
    ltac:(vm_compute; reflexivity)) as (Ha & _ & [Hl _] & _).
  split; [exact Ha|]. apply Hl. vm_compute. reflexivity.
Defined.

Definition sample_refs : xmlNode := xa "CompleteRevocationRefs" [] [xa "CRLRef" [] [xa "DigestAlgAndValue" [] (sha256_of crl)]].

Lemma bound_evidence_is_embedded_witness :
  let node := with_properties morning in
  exists value, value ∈ values_under node "RevocationValues" "EncapsulatedCRLValue" /\
    is_digest_of (Some (xa "DigestAlgAndValue" [] (sha256_of crl))) false value.
Proof.
  cbv zeta.
  destruct (bound_evidence_is_embedded (sample_document morning) (with_properties morning) 1 sample_xml_result
    "CompleteRevocationRefs" "CRLRef" "DigestAlgAndValue" "RevocationValues" "EncapsulatedCRLValue" false
    sample_refs (xa "CRLRef" [] [xa "DigestAlgAndValue" [] (sha256_of crl)])) as (_ & _ & Hv);
    [vm_compute; reflexivity|vm_compute; reflexivity|right; left|vm_compute; reflexivity|left|exact Hv].
Defined.

(** The time that the signed properties state, and the properties themselves, are not required to be
    covered by a reference of the signature: the two documents have the same [SignedInfo] and the same value
    of the signature, none of whose references is to the signed properties, and both are valid with
    the time that each states. *)
Example signing_time_is_not_required_to_be_signed :
  forall text, text ∈ [morning; "1999-12-31T23:59:59Z"] ->
  match VerifyXades text ∅ with
  | inr r => xv_signature_valid r = true /\ xv_signing_certificate_digest_valid r = true /\ xv_signing_time r = text
  | inl _ => False
  end.
Proof. intros text Hin. rewrite !elem_of_cons, elem_of_nil in Hin. destruct_or! Hin; subst; vm_compute; done. Qed.

End SampleXades.
