(* ===== verification/Validation.v ===== *)
(** * Validation: the orchestrator and the synthesis of the decision

    Models [core/validation/ValidationEngine.cpp].  [SynthesizeDecision] is the
    chain of guards that turns the results of all the stages into one decision;
    [Validate] is the whole pipeline: policy, evidence, trust stores, timestamp,
    signing time, path, trusted list, revocation, decision.

    The file system is the class [StoreApi] over the same disk state as the CRL
    cache: downloading lists changes what later steps read. *)

From S2P Require Import Prelude CxxString Types Time Der Cryptonite Fixture X509Name Chain PathEngine.
From S2P Require Import Crl Ocsp Revocation Resolvers TrustList Evidence Timestamp.

Local Open Scope Z_scope.

Record ValidationReport := MkValidationReport {
  rpt_decision : ValidationDecision;
  rpt_path_selection : PathSelection;
  rpt_trust_service : TrustServiceDecision;
  rpt_signer_revocation : RevocationEngineResult;
  rpt_timestamp : TimestampEngineResult;
  rpt_timestamp_attempted : bool;
  rpt_signing_time_resolution : SigningTimeResolution;
  rpt_evidence : EvidenceStore
}.

#[export] Instance eta_ValidationReport : Eta ValidationReport := fun r =>
  MkValidationReport (rpt_decision r) (rpt_path_selection r) (rpt_trust_service r)
  (rpt_signer_revocation r) (rpt_timestamp r) (rpt_timestamp_attempted r)
  (rpt_signing_time_resolution r) (rpt_evidence r).

Definition ValidationReport_default : ValidationReport :=
  MkValidationReport ValidationDecision_default PathSelection_default
  TrustServiceDecision_default RevocationEngineResult_default TimestampEngineResult_default
  false SigningTimeResolution_default (∅).

Definition RevocationStatusToString (status : RevocationStatus.t) : string :=
  match status with
  | RevocationStatus.Good => "good"
  | RevocationStatus.Revoked => "revoked"
  | RevocationStatus.Unknown => "unknown"
  | RevocationStatus.Invalid => "invalid"
  | RevocationStatus.Stale => "stale"
  | RevocationStatus.ResponderUnavailable => "temporarily-unavailable"
  | RevocationStatus.NotChecked => "not-checked"
  end.

(** ** [SynthesizeDecision] *)

Definition say (b : string) (d : ValidationDecision) : ValidationDecision :=
  d <| vd_because ::= fun l => l ++ [b] |>.
Definition warn (ws : list string) (d : ValidationDecision) : ValidationDecision :=
  d <| vd_warnings ::= fun l => l ++ ws |>.
Definition limit_by (ls : list string) (d : ValidationDecision) : ValidationDecision :=
  d <| vd_limitations ::= fun l => l ++ ls |>.
Definition explain (bs : list string) (d : ValidationDecision) : ValidationDecision :=
  d <| vd_because ::= fun l => l ++ bs |>.

Definition conclude_with (status : OverallStatus.t) (summary : string) (d : ValidationDecision)
    : ValidationDecision :=
  d <| vd_overall_status := status |> <| vd_summary := summary |>.

(** All the inputs of the synthesis. *)
Record Findings := MkFindings {
  fd_signature_crypto_valid : bool;
  fd_path_selection : PathSelection;
  fd_path_results : list PathValidationResult;
  fd_trust_service : TrustServiceDecision;
  fd_signer_revocation : RevocationEngineResult;
  fd_timestamp : TimestampEngineResult;
  fd_timestamp_attempted : bool;
  fd_signing_time : SigningTimeResolution;
  fd_policy : ValidationPolicy;
  fd_context : ValidationContext
}.

Definition initial_decision (f : Findings) : ValidationDecision :=
  let st := fd_signing_time f in
  ValidationDecision_default
    <| vd_signature_valid := fd_signature_crypto_valid f |>
    <| vd_trusted_signing_time := if st_trusted_time st then st_signature_evaluation_time st else "" |>
    <| vd_signature_evaluation_time := st_signature_evaluation_time st |>.

(** The guards on integrity: level Basic, a broken signature, a revoked certificate. *)
Definition integrity_stage (f : Findings) : ValidationDecision + ValidationDecision :=
  let decision := initial_decision f in
  let broken d := say "Криптографічна перевірка підпису не пройшла."
                    (conclude_with OverallStatus.Invalid "invalid" d) in
  if bool_decide (vc_level (fd_context f) = ValidationLevel.Basic) then
    let decision := decision <| vd_level_reached := ValidationLevel.Basic |> in
    inl (if negb (fd_signature_crypto_valid f) then broken decision
         else say "Рівень Basic: перевірена лише цілісність підпису."
                (conclude_with OverallStatus.IntegrityOnly "integrity-only" decision))
  else if negb (fd_signature_crypto_valid f) then inl (broken decision)
  else if bool_decide (rr_revocation_status (fd_signer_revocation f) = RevocationStatus.Revoked)
          && bool_decide (rr_overall_status (fd_signer_revocation f) = OverallStatus.Invalid) then
    inl (explain (rr_because (fd_signer_revocation f))
           (say "Сертифікат підписанта відкликано."
              (conclude_with OverallStatus.Invalid "invalid" decision)))
  else inr decision.

Definition path_trusted (f : Findings) : bool :=
  match ps_selected_index (fd_path_selection f) with
  | None => false
  | Some _ => pr_trusted (ps_selected_result (fd_path_selection f))
  end.

Definition uses_historical (f : Findings) : bool :=
  path_trusted f && pr_uses_historical_trust (ps_selected_result (fd_path_selection f)).

Definition service_level_ok (f : Findings) : bool :=
  negb (vp_require_service_level_trust (fd_policy f)) || ts_service_trusted (fd_trust_service f).

Definition has_historical_trust_match (results : list PathValidationResult) : bool :=
  existsb (fun res => (pr_candidate_id res ==s "historical-tl") && pr_trusted res) results.

(** [trust_status] and [trust_reason] of an untrusted path. *)
Definition untrusted_reason (f : Findings) : string * string :=
  let selected := ps_selected_result (fd_path_selection f) in
  if has_historical_trust_match (fd_path_results f)
  then ("legacy-anchor-not-in-current-tl", "legacy-anchor-not-in-current-tl") else
  match pr_status selected with
  | ChainStatus.Incomplete => ("certificate-chain-incomplete", "legacy-anchor-not-in-current-tl")
  | ChainStatus.Expired => ("certificate-chain-time-invalid", "expired-chain")
  | ChainStatus.InvalidSignature => ("certificate-chain-invalid", "invalid-chain-signature")
  | ChainStatus.Untrusted =>
      if str_contains (pr_message selected) "empty"
      then ("trust-store-empty", "legacy-anchor-not-in-current-tl")
      else ("untrusted-chain", "current-tl-anchor-mismatch")
  | _ => ("untrusted-chain", "no-trusted-path")
  end.

Definition trust_evaluation (f : Findings) (decision : ValidationDecision) : ValidationDecision :=
  let decision := decision <| vd_trust_valid := path_trusted f && service_level_ok f |> in
  if vd_trust_valid decision then
    decision <| vd_trust_status := "trusted-anchor-validated" |>
      <| vd_trust_reason := if uses_historical f
           then "historical-tl-anchor: "
                +s+ pr_trust_anchor_source (ps_selected_result (fd_path_selection f))
           else "current-tl-anchor" |>
  else
    let '(status, reason) := untrusted_reason f in
    decision <| vd_trust_status := status |> <| vd_trust_reason := reason |>.

(** The guards on trust under Strict, revocation under hard-fail, and the required timestamp. *)
Definition policy_stage (f : Findings) (decision : ValidationDecision)
    : ValidationDecision + ValidationDecision :=
  let st := fd_signing_time f in
  let rev := fd_signer_revocation f in
  let ts := fd_timestamp f in
  let message := pr_message (ps_selected_result (fd_path_selection f)) in
  if negb (vd_trust_valid decision)
     && bool_decide (vc_profile (fd_context f) = ValidationProfile.Strict) then
    inl (limit_by (st_limitations st) (warn (st_warnings st)
           (limit_by [if str_empty message then "no-trusted-path" else message]
              (say "Ланцюжок довіри не вдалося вибудувати до поточного кореня (Strict-профіль)."
                 (conclude_with OverallStatus.Indeterminate "indeterminate" decision)))))
  else if bool_decide (rr_overall_status rev = OverallStatus.Indeterminate)
          && vp_revocation_hard_fail (fd_policy f) then
    inl (limit_by (st_limitations st) (warn (st_warnings st)
           (limit_by (rr_limitations rev) (warn (rr_warnings rev) (explain (rr_because rev)
              (say "Статус відкликання сертифіката не встановлено (hard-fail)."
                 (conclude_with OverallStatus.Indeterminate "indeterminate" decision)))))))
  else if fd_timestamp_attempted f && negb (tr_valid ts)
          && vp_require_trusted_signing_time (fd_policy f) then
    inl (limit_by (tr_limitations ts) (warn (tr_warnings ts) (explain (tr_because ts)
           (say "Мітка часу RFC3161 не пройшла перевірку, але вимагається довірений час підпису."
              (conclude_with OverallStatus.Indeterminate "indeterminate" decision)))))
  else inr decision.

(** Levels, qualified and long-term validity, the final status. *)
Definition final_decision (f : Findings) (decision : ValidationDecision) : ValidationDecision :=
  let st := fd_signing_time f in
  let rev := fd_signer_revocation f in
  let ts := fd_timestamp f in
  let decision :=
    if st_trusted_time st then say "Довірений час підпису підтверджено RFC3161 міткою." decision
    else if negb (str_empty (st_signature_evaluation_time st))
    then warn ["Час підпису не підтверджено криптографічно — використано fallback/claimed."] decision
    else decision in
  let decision := decision <| vd_level_reached :=
    if ValidationLevel.geb (vc_level (fd_context f)) ValidationLevel.Extended
    then if vd_trust_valid decision then ValidationLevel.Extended else ValidationLevel.Standard
    else ValidationLevel.Standard |> in
  let decision := decision <| vd_qualified_valid := vd_trust_valid decision && st_trusted_time st |>
    <| vd_ltv_valid := IsLongTermValidationValid (vd_trust_valid decision) (rr_revocation_status rev)
         (fd_timestamp_attempted f) (tr_valid ts) |> in
  let decision :=
    if vd_trust_valid decision then
      let decision := conclude_with OverallStatus.Valid
        (if uses_historical f then "valid-historical-trust" else "valid") decision in
      if uses_historical f then
        warn ["historical-trust-used"]
          (say "Ланцюжок довіри вибудований через архівний список довіри (historical-tl)." decision)
      else say "Ланцюжок довіри вибудований через поточний список довіри." decision
    else
      say "Не вдалося встановити довіру до ланцюжка сертифікатів."
        (conclude_with OverallStatus.Indeterminate "indeterminate" decision) in
  let decision := limit_by (st_limitations st) (warn (st_warnings st)
    (limit_by (rr_limitations rev) (warn (rr_warnings rev) (explain (rr_because rev) decision)))) in
  if fd_timestamp_attempted f then limit_by (tr_limitations ts) (warn (tr_warnings ts) decision)
  else decision.

Definition SynthesizeDecision (f : Findings) : ValidationDecision :=
  match (decision ← integrity_stage f; policy_stage f (trust_evaluation f decision)) with
  | inl decision => decision
  | inr decision => final_decision f decision
  end.

(** ** Lemmas on the synthesis *)

Definition revoked_before (f : Findings) : bool :=
  bool_decide (rr_revocation_status (fd_signer_revocation f) = RevocationStatus.Revoked)
  && bool_decide (rr_overall_status (fd_signer_revocation f) = OverallStatus.Invalid).

Definition hard_fail_hit (f : Findings) : bool :=
  bool_decide (rr_overall_status (fd_signer_revocation f) = OverallStatus.Indeterminate)
  && vp_revocation_hard_fail (fd_policy f).

Definition timestamp_hit (f : Findings) : bool :=
  fd_timestamp_attempted f && negb (tr_valid (fd_timestamp f))
  && vp_require_trusted_signing_time (fd_policy f).

Definition is_basic (f : Findings) : bool := bool_decide (vc_level (fd_context f) = ValidationLevel.Basic).

Lemma trust_evaluation_spec (f : Findings) (d : ValidationDecision) :
  vd_trust_valid (trust_evaluation f d) = path_trusted f && service_level_ok f /\
  vd_signature_valid (trust_evaluation f d) = vd_signature_valid d /\
  vd_qualified_valid (trust_evaluation f d) = vd_qualified_valid d /\
  vd_ltv_valid (trust_evaluation f d) = vd_ltv_valid d.
Proof.
  unfold trust_evaluation. cbn [vd_trust_valid setter].
  destruct (path_trusted f && service_level_ok f); [done|]. by destruct (untrusted_reason f).
Qed.

(** What of a decision is not text. *)
Definition flags (d : ValidationDecision) : OverallStatus.t * bool * bool * bool * bool :=
  (vd_overall_status d, vd_trust_valid d, vd_signature_valid d, vd_qualified_valid d, vd_ltv_valid d).

Lemma flags_say b d : flags (say b d) = flags d.
Proof. done. Qed.
Lemma flags_warn l d : flags (warn l d) = flags d.
Proof. done. Qed.
Lemma flags_limit_by l d : flags (limit_by l d) = flags d.
Proof. done. Qed.
Lemma flags_explain l d : flags (explain l d) = flags d.
Proof. done. Qed.
Lemma flags_conclude status summary d :
  flags (conclude_with status summary d)
  = (status, vd_trust_valid d, vd_signature_valid d, vd_qualified_valid d, vd_ltv_valid d).
Proof. done. Qed.
#[local] Hint Rewrite flags_say flags_warn flags_limit_by flags_explain flags_conclude : flags.

Lemma final_decision_spec (f : Findings) (d : ValidationDecision) :
  flags (final_decision f d) =
    (if vd_trust_valid d then OverallStatus.Valid else OverallStatus.Indeterminate,
     vd_trust_valid d, vd_signature_valid d,
     vd_trust_valid d && st_trusted_time (fd_signing_time f),
     IsLongTermValidationValid (vd_trust_valid d) (rr_revocation_status (fd_signer_revocation f))
       (fd_timestamp_attempted f) (tr_valid (fd_timestamp f))).
Proof.
  unfold final_decision. cbv zeta.
  match goal with |- context [setter (proj := vd_level_reached) _ ?x] => set (d1 := x) end.
  assert (flags d1 = flags d) as [= _ Et Es _ _].
  { unfold d1. destruct (st_trusted_time _); [done|]. by destruct (str_empty _). }
  clearbody d1.
  match goal with |- context [setter (proj := vd_ltv_valid) _ ?x] =>
    set (d3 := setter (proj := vd_ltv_valid) _ x) end.
  assert (flags d3 = (vd_overall_status d1, vd_trust_valid d, vd_signature_valid d,
     vd_trust_valid d && st_trusted_time (fd_signing_time f),
     IsLongTermValidationValid (vd_trust_valid d) (rr_revocation_status (fd_signer_revocation f))
       (fd_timestamp_attempted f) (tr_valid (fd_timestamp f)))) as E3.
  { unfold flags, d3. cbn. by rewrite Et, Es. }
  clearbody d3. injection E3 as _ Et3 Es3 Eq3 El3.
  destruct (fd_timestamp_attempted f); autorewrite with flags;
    rewrite Et3; destruct (vd_trust_valid d), (uses_historical f);
    autorewrite with flags; by rewrite Et3, Es3, Eq3, El3.
Qed.

Lemma final_decision_texts (f : Findings) (d : ValidationDecision) :
  vd_trust_status (final_decision f d) = vd_trust_status d.
Proof.
  unfold final_decision. cbv zeta.
  match goal with |- context [setter (proj := vd_level_reached) _ ?x] => set (d1 := x) end.
  assert (vd_trust_status d1 = vd_trust_status d) as <-.
  { unfold d1. destruct (st_trusted_time _); [done|]. by destruct (str_empty _). }
  clearbody d1.
  match goal with |- context [setter (proj := vd_ltv_valid) ?g ?x] =>
    set (d3 := setter (proj := vd_ltv_valid) g x) end.
  assert (vd_trust_status d3 = vd_trust_status d1) as <- by done. clearbody d3.
  destruct (fd_timestamp_attempted f), (vd_trust_valid d3), (uses_historical f); done.
Qed.

(** The four ways out of the synthesis, with the flags of the decision. *)
Lemma SynthesizeDecision_cases (f : Findings) (d := SynthesizeDecision f) :
  vd_signature_valid d = fd_signature_crypto_valid f /\
  (if negb (fd_signature_crypto_valid f) then vd_overall_status d = OverallStatus.Invalid
   else if is_basic f then vd_overall_status d = OverallStatus.IntegrityOnly
   else if revoked_before f then vd_overall_status d = OverallStatus.Invalid
   else
     vd_trust_valid d = path_trusted f && service_level_ok f /\
     (if hard_fail_hit f || timestamp_hit f || negb (path_trusted f && service_level_ok f)
      then vd_overall_status d = OverallStatus.Indeterminate
      else vd_overall_status d = OverallStatus.Valid)) /\
  (vd_qualified_valid d = true ->
   vd_overall_status d = OverallStatus.Valid /\ st_trusted_time (fd_signing_time f) = true) /\
  (vd_ltv_valid d = true -> vd_overall_status d = OverallStatus.Valid /\
   rr_revocation_status (fd_signer_revocation f) = RevocationStatus.Good /\
   tr_valid (fd_timestamp f) = true).
Proof.
  subst d. unfold SynthesizeDecision, integrity_stage, mbind, sum_bind. fold (is_basic f) (revoked_before f).
  destruct (is_basic f) eqn:Eb, (fd_signature_crypto_valid f) eqn:Ec; cbn [negb]; rewrite ?Ec;
    try (cbn; rewrite ?Ec; done).
  destruct (revoked_before f) eqn:Er; [cbn; rewrite Ec; done|].
  destruct (trust_evaluation_spec f (initial_decision f)) as (Ht & Hsig & Hq & Hl).
  cbn in Hsig, Hq, Hl. rewrite Ec in Hsig.
  set (d0 := trust_evaluation f (initial_decision f)) in *. unfold policy_stage.
  fold (hard_fail_hit f) (timestamp_hit f). rewrite Ht.
  destruct (negb (path_trusted f && service_level_ok f) && _) eqn:Es.
  { apply andb_true_iff in Es as [Et%negb_true_iff _]. rewrite Et, !orb_true_r. cbn.
    rewrite Hsig, Hq, Hl, Ht. done. }
  destruct (hard_fail_hit f); [cbn; rewrite Hsig, Hq, Hl, Ht; done|].
  destruct (timestamp_hit f); [cbn; rewrite Hsig, Hq, Hl, Ht; done|]. cbn [orb].
  pose proof (final_decision_spec f d0) as [= -> -> -> -> ->]. rewrite Ht, Hsig.
  destruct (path_trusted f && service_level_ok f); cbn [negb andb]; [|done].
  split; [done|]. split; [done|]. split; [by intros ->|]. unfold IsLongTermValidationValid.
  rewrite !andb_true_iff, bool_decide_eq_true. tauto.
Qed.

(** Trust is claimed only past the guards on integrity. *)
Lemma trust_valid_exact (f : Findings) :
  vd_trust_valid (SynthesizeDecision f) =
  fd_signature_crypto_valid f && negb (is_basic f) && negb (revoked_before f)
  && (path_trusted f && service_level_ok f).
Proof.
  unfold SynthesizeDecision, integrity_stage, mbind, sum_bind. fold (is_basic f) (revoked_before f).
  destruct (is_basic f), (fd_signature_crypto_valid f); cbn [negb andb]; try done.
  destruct (revoked_before f); [done|]. cbn [negb andb].
  destruct (trust_evaluation_spec f (initial_decision f)) as (Ht & _).
  set (d0 := trust_evaluation f (initial_decision f)) in *. unfold policy_stage. rewrite <- Ht.
  fold (hard_fail_hit f) (timestamp_hit f).
  destruct (negb (vd_trust_valid d0) && _); [done|]. destruct (hard_fail_hit f); [done|].
  destruct (timestamp_hit f); [done|].
  by pose proof (final_decision_spec f d0) as [= _ -> _ _ _].
Qed.

(** A trusted path is reported as such. *)
Lemma trust_status_trusted (f : Findings) :
  vd_trust_valid (SynthesizeDecision f) = true ->
  vd_trust_status (SynthesizeDecision f) = "trusted-anchor-validated".
Proof.
  rewrite trust_valid_exact, !andb_true_iff, !negb_true_iff.
  intros [[[Hc Hb] Hr] [Hp Hs]].
  unfold SynthesizeDecision, integrity_stage, mbind, sum_bind. fold (is_basic f) (revoked_before f).
  rewrite Hb, Hc, Hr. cbn [negb].
  set (d0 := trust_evaluation f (initial_decision f)).
  assert (vd_trust_status d0 = "trusted-anchor-validated") as Hd.
  { unfold d0, trust_evaluation. cbn [vd_trust_valid setter]. by rewrite Hp, Hs. }
  clearbody d0. unfold policy_stage. fold (hard_fail_hit f) (timestamp_hit f).
  destruct (negb (vd_trust_valid d0) && _); [done|]. destruct (hard_fail_hit f); [done|].
  destruct (timestamp_hit f); [done|]. rewrite <- Hd. apply final_decision_texts.
Qed.

(** The overall status of the synthesis as one chain of conditions. *)
Definition overall_status (f : Findings) : OverallStatus.t :=
  if negb (fd_signature_crypto_valid f) then OverallStatus.Invalid
  else if is_basic f then OverallStatus.IntegrityOnly
  else if revoked_before f then OverallStatus.Invalid
  else if hard_fail_hit f || timestamp_hit f || negb (path_trusted f && service_level_ok f)
  then OverallStatus.Indeterminate else OverallStatus.Valid.

Lemma overall_status_exact (f : Findings) :
  vd_overall_status (SynthesizeDecision f) = overall_status f.
Proof.
  destruct (SynthesizeDecision_cases f) as (_ & Hc & _). unfold overall_status.
  destruct (negb (fd_signature_crypto_valid f)); [done|]. destruct (is_basic f); [done|].
  destruct (revoked_before f); [done|]. destruct Hc as [_ Hc].
  by destruct (hard_fail_hit f || timestamp_hit f || negb (path_trusted f && service_level_ok f)).
Qed.

(** [C24] The final decision is exactly determined: it is [Valid] if and only if the level is above
    Basic, the signature verified, the certificate was not revoked before the evaluation time,
    the selected path is trusted (and the service too, when the policy requires it), the
    revocation status is known when the policy is hard-fail, and no failed timestamp stands
    against a required trusted time; it is [Invalid] if and only if the signature did not verify
    or, above Basic, the certificate was revoked. *)
Theorem SynthesizeDecision_exact (f : Findings) (d := SynthesizeDecision f) :
  (vd_overall_status d = OverallStatus.Valid <->
   vc_level (fd_context f) <> ValidationLevel.Basic /\ fd_signature_crypto_valid f = true /\
   revoked_before f = false /\ path_trusted f = true /\ service_level_ok f = true /\
   hard_fail_hit f = false /\ timestamp_hit f = false) /\
  (vd_overall_status d = OverallStatus.Invalid <->
   fd_signature_crypto_valid f = false \/
   (vc_level (fd_context f) <> ValidationLevel.Basic /\ revoked_before f = true)).
Proof.
  subst d. destruct (SynthesizeDecision_cases f) as (_ & Hc & _). unfold is_basic in Hc.
  destruct (fd_signature_crypto_valid f); cbn [negb] in Hc; [|rewrite Hc; naive_solver].
  case_bool_decide as Hb; [rewrite Hc; naive_solver|].
  destruct (revoked_before f); [rewrite Hc; naive_solver|]. destruct Hc as [_ Hc].
  destruct (hard_fail_hit f), (timestamp_hit f), (path_trusted f), (service_level_ok f);
    cbn in Hc; rewrite Hc; naive_solver.
Qed.

(** The flags of a decision never overstate it: qualified validity implies the overall status
    [Valid] and a trusted signing time; long-term validity implies [Valid], a revocation status
    [Good] and a valid timestamp; and [Valid] implies the signature and trust flags. *)
Theorem SynthesizeDecision_flags (f : Findings) (d := SynthesizeDecision f) :
  (vd_qualified_valid d = true ->
   vd_overall_status d = OverallStatus.Valid /\ st_trusted_time (fd_signing_time f) = true) /\
  (vd_ltv_valid d = true ->
   vd_overall_status d = OverallStatus.Valid /\
   rr_revocation_status (fd_signer_revocation f) = RevocationStatus.Good /\
   tr_valid (fd_timestamp f) = true) /\
  (vd_overall_status d = OverallStatus.Valid ->
   vd_signature_valid d = true /\ vd_trust_valid d = true).
Proof.
  subst d. destruct (SynthesizeDecision_cases f) as (Hs & Hc & Hq & Hl). split; [done|].
  split; [done|]. intros Hv. rewrite Hs. rewrite Hv in Hc.
  destruct (fd_signature_crypto_valid f); cbn [negb] in Hc; [|done].
  destruct (is_basic f); [done|]. destruct (revoked_before f); [done|].
  destruct Hc as [-> Hc]. split; [done|].
  destruct (path_trusted f && service_level_ok f); [done|]. by rewrite orb_true_r in Hc.
Qed.

(** The requirement of a trusted signing time binds only when the signature carries a timestamp:
    without one, the overall status is the same whether or not the policy requires it, so a
    signature judged at a claimed time can be [Valid] under such a policy. *)
Theorem required_time_needs_timestamp (f : Findings) (required : bool) :
  fd_timestamp_attempted f = false ->
  let f' := MkFindings (fd_signature_crypto_valid f) (fd_path_selection f) (fd_path_results f)
              (fd_trust_service f) (fd_signer_revocation f) (fd_timestamp f) false (fd_signing_time f)
              ((fd_policy f) <| vp_require_trusted_signing_time := required |>) (fd_context f) in
  vd_overall_status (SynthesizeDecision f') = vd_overall_status (SynthesizeDecision f).
Proof.
  intros Ha f'. rewrite !overall_status_exact. unfold overall_status.
  assert (timestamp_hit f = false /\ timestamp_hit f' = false) as [-> ->].
  { unfold timestamp_hit. by rewrite Ha. }
  done.
Qed.

(** ** The pipeline *)

(** [relative(snapshot, work_dir)] of [std::filesystem] is part of the file system. *)
Class StoreApi `{TimestampApi} := {
  (** the entries of a directory: name, whether a regular file, and its content if readable
      within the limit; [None] when it is not a directory *)
  read_dir : Disk -> string -> option (list (string * bool * option bytes));
  (** the text of a file within the limit, [None] when it is missing or unreadable *)
  read_text : Disk -> string -> option string;
  fs_relative : Disk -> string -> string -> option string
}.

(** [path.extension()] of a file name: from the last dot, unless that starts the name. *)
Fixpoint split_ext (l acc : list ascii) : option (list ascii * list ascii) :=
  match l with
  | [] => None
  | c :: rest => if Ascii.eqb c "."%char then Some (rest, "."%char :: acc) else split_ext rest (c :: acc)
  end.

Definition extension (name : string) : string :=
  match split_ext (rev (chars name)) [] with
  | Some (_ :: _, ext) => of_chars ext
  | _ => ""
  end.

Section Engine.
Context `{Clock, !Platform, !CertApi, !Validators, !TimestampApi, !StoreApi, !LibXml}.

Definition load_entry (entry : string * bool * option bytes) : option bytes :=
  let '(name, regular, content) := entry in
  if negb regular then None else
  if negb ((extension name ==s ".cer") || (extension name ==s ".crt") || (extension name ==s ".der"))
  then None else
  match content with
  | Some (b :: data) => Some (b :: data)
  | _ => None
  end.

Definition LoadCertificatesFromDir (disk : Disk) (dir : string) : list bytes :=
  match read_dir disk dir with
  | None => []
  | Some entries => omap load_entry entries
  end.

Definition ReadTrustListXml (disk : Disk) (path : string) : string := default "" (read_text disk path).

Definition StableSnapshotId (disk : Disk) (snapshot_path work_dir : string) : string :=
  match fs_relative disk snapshot_path work_dir with
  | None => "unknown"
  | Some rel =>
      if str_empty rel then "unknown" else
      if starts_with rel ".." then "unknown" else
      if starts_with rel "trust-list/history/" then "history/" +s+ substr_from rel 19 else
      if starts_with rel "trust-list/" then "current" else "unknown"
  end.

Definition put_raw_if (type : string) (data : bytes) (records : EvidenceStore) : EvidenceStore :=
  match data with
  | [] => records
  | _ => (PutRawEvidence type data "cms-embedded" records).2
  end.

(** Step 2. *)
Definition register_inputs (signer : bytes) (embedded : list bytes) : EvidenceStore :=
  foldl (fun records cert => put_raw_if "embedded-certificate" cert records)
    (put_raw_if "signer-certificate" signer ∅) embedded.

(** Step 3: the stores of the working directory. *)
Record Stores := MkStores {
  current_trust_anchors : list bytes; historical_trust_anchors : list bytes;
  intermediate_store_certs : list bytes; tsa_trust_anchors : list bytes;
  historical_tsa_trust_anchors : list bytes
}.

Definition load_stores (disk : Disk) (work_dir : string) : Stores :=
  if str_empty work_dir then MkStores [] [] [] [] [] else
  let load name := LoadCertificatesFromDir disk (path_append work_dir name) in
  MkStores (load "trust-store") (load "historical-trust-store") (load "intermediate-store")
    (load "tsa-store") (load "historical-tsa-store").

(** Step 4: the candidate times that do not come from a timestamp. *)
Definition time_candidates (context : ValidationContext) : list SigningTimeCandidate :=
  (if str_empty (vc_verification_time context) then []
   else [SigningTimeCandidate_default <| tc_source := SigningTimeSource.VerificationTimeFallback |>
           <| tc_time := vc_verification_time context |>])
  ++ (if str_empty (vc_claimed_signing_time context) then []
      else [SigningTimeCandidate_default <| tc_source := SigningTimeSource.ClaimedSigningTime |>
              <| tc_time := vc_claimed_signing_time context |>]).

(** Step 5. *)
Definition timestamp_input (context : ValidationContext) (resolved : ResolvedValidationPolicy)
    (stores : Stores) (embedded : list bytes) (provisional_time : string) : TimestampEngineInput :=
  TimestampEngineInput_default <| ti_cms_der := vc_cms_der context |>
    <| ti_validation_time := provisional_time |>
    <| ti_policy := rp_policy resolved |> <| ti_plan := rp_plan resolved |>
    <| ti_current_trust_anchors_der := current_trust_anchors stores |>
    <| ti_tsa_trust_anchors_der := tsa_trust_anchors stores |>
    <| ti_historical_trust_anchors_der := historical_trust_anchors stores |>
    <| ti_historical_tsa_trust_anchors_der := historical_tsa_trust_anchors stores |>
    <| ti_intermediate_store_certificates_der := intermediate_store_certs stores |>
    <| ti_additional_tsa_candidate_certificates_der := embedded |>
    <| ti_embedded_crls_der := vc_embedded_revocation_crl_der context |>
    <| ti_embedded_ocsp_responses_der := vc_embedded_revocation_ocsp_der context |>
    <| ti_profile := vc_profile context |> <| ti_level := vc_level context |>.

(** The result, whether a timestamp was there, and the disk. *)
Definition timestamp_step (disk : Disk) (context : ValidationContext)
    (resolved : ResolvedValidationPolicy) (stores : Stores) (embedded : list bytes)
    (provisional_time : string) : TimestampEngineResult * bool * Disk :=
  match vc_cms_der context with
  | [] => (TimestampEngineResult_default, false, disk)
  | _ =>
      let '(ts, disk) := Timestamp.Validate disk
        (timestamp_input context resolved stores embedded provisional_time) in
      (ts, negb (bool_decide (tr_status ts = TimestampStatus.Missing)), disk)
  end.

(** Step 6: the timestamp as the first candidate, when it is valid. *)
Definition timestamp_candidate (ts : TimestampEngineResult) (attempted : bool)
    : list SigningTimeCandidate :=
  if attempted && tr_valid ts then
    match NormalizeTimestampTime (tr_gen_time ts) with
    | Some iso =>
        [SigningTimeCandidate_default <| tc_source := SigningTimeSource.Rfc3161Timestamp |>
           <| tc_time := iso |> <| tc_cryptographically_valid := true |> <| tc_trusted := true |>
           <| tc_evidence_id := default "" (head (tr_evidence_ids ts)) |>]
    | None => []
    end
  else [].

(** Step 7. *)
Definition path_input_of (stores : Stores) (policy : ValidationPolicy) (signer : bytes)
    (embedded : list bytes) (evaluation_time : string) : PathBuilderInput :=
  PathBuilderInput_default <| pb_signer_certificate_der := signer |>
    <| pb_embedded_certificates_der := embedded |>
    <| pb_intermediate_store_certificates_der := intermediate_store_certs stores |>
    <| pb_current_trust_anchors_der := current_trust_anchors stores |>
    <| pb_historical_trust_anchors_der := historical_trust_anchors stores |>
    <| pb_policy := policy |> <| pb_validation_time := evaluation_time |>.

Definition snapshot_fs (disk : Disk) : FileSystem :=
  {| list_directory dir := map (fun e : string * bool * option bytes => e.1) <$> read_dir disk dir |}.

(** Step 8. *)
Definition trust_service_step (disk : Disk) (context : ValidationContext) (policy : ValidationPolicy)
    (signer : bytes) (evaluation_time : string) : TrustServiceDecision :=
  let strict_current_tl := bool_decide (vp_trust_anchor_policy policy = TrustAnchorPolicy.CurrentTLOnly) in
  let snapshot_path := @SelectSnapshot (snapshot_fs disk) (vc_work_dir context) evaluation_time
                         strict_current_tl in
  let trust_list_xml := ReadTrustListXml disk snapshot_path in
  let snapshot_id := StableSnapshotId disk snapshot_path (vc_work_dir context) in
  if negb (str_empty trust_list_xml) && negb (is_empty signer)
  then Evaluate signer trust_list_xml snapshot_id else TrustServiceDecision_default.

(** Step 9: downloads when allowed, then the lists on disk and the embedded ones. *)
Definition signer_revocation_input (disk : Disk) (context : ValidationContext)
    (resolved : ResolvedValidationPolicy) (signer issuer : bytes) (evaluation_time : string)
    : RevocationEngineInput * Disk :=
  let plan := rp_plan resolved in
  let work_dir := vc_work_dir context in
  let disk :=
    if pl_network_allowed plan && negb (str_empty work_dir) then
      let disk := DownloadAndCacheCrlsForCert disk signer work_dir (pl_timeout_ms plan) in
      if negb (is_empty issuer) then DownloadAndCacheCrlsForCert disk issuer work_dir (pl_timeout_ms plan)
      else disk
    else disk in
  (RevocationEngineInput_default <| ri_certificate_der := signer |>
     <| ri_issuer_certificate_der := issuer |> <| ri_role := CertificateRole.Signer |>
     <| ri_validation_time := evaluation_time |>
     <| ri_network_allowed := pl_network_allowed plan |>
     <| ri_revocation_hard_fail := vp_revocation_hard_fail (rp_policy resolved) |>
     <| ri_crls_der := LoadCrlsFromWorkDir disk work_dir ++ vc_embedded_revocation_crl_der context |>
     <| ri_embedded_ocsp_responses_der := vc_embedded_revocation_ocsp_der context |>
     <| ri_ocsp_url := vc_ocsp_url context |>, disk).

Definition revocation_step (rev_input : RevocationEngineInput) (evidence : EvidenceStore)
    : RevocationEngineResult * EvidenceStore :=
  if is_empty (ri_certificate_der rev_input) then
    (RevocationEngineResult_default <| rr_overall_status := OverallStatus.Indeterminate |>
       <| rr_because := ["Сертифікат підписанта відсутній — перевірка відкликання неможлива."] |>,
     evidence)
  else
    let r := Revocation.Validate rev_input in
    (r, foldl (fun records eid => (PutDerivedEvidence "revocation-evidence" [("id", eid)] records).2)
          evidence (rr_evidence_ids r)).

Definition Validate (disk : Disk) (context : ValidationContext) (signer : bytes)
    (embedded : list bytes) : ValidationReport * Disk :=
  let resolved := PolicyResolver_Resolve context in
  let policy := rp_policy resolved in
  let evidence := register_inputs signer embedded in
  let stores := load_stores disk (vc_work_dir context) in
  let candidates := time_candidates context in
  let provisional := SigningTimeResolver_Resolve candidates context policy in
  let '(ts, attempted, disk) := timestamp_step disk context resolved stores embedded
                                  (st_signature_evaluation_time provisional) in
  let signing_time :=
    SigningTimeResolver_Resolve (timestamp_candidate ts attempted ++ candidates) context policy in
  let evaluation_time := st_signature_evaluation_time signing_time in
  let path_results := map PathValidator_Validate
                        (Build (path_input_of stores policy signer embedded evaluation_time)) in
  let selection := Select path_results policy in
  let trust_service := trust_service_step disk context policy signer evaluation_time in
  let issuer := match ps_selected_index selection with
                | Some _ => pr_signer_issuer_certificate_der (ps_selected_result selection)
                | None => []
                end in
  let '(rev_input, disk) := signer_revocation_input disk context resolved signer issuer evaluation_time in
  let '(revocation, evidence) := revocation_step rev_input evidence in
  let decision := SynthesizeDecision
    (MkFindings (vc_signature_crypto_valid context) selection path_results trust_service revocation
       ts attempted signing_time policy context) in
  let decision := if negb (vc_signature_crypto_valid context)
    then say "Криптографічна перевірка підпису не підтверджена викликачем (ValidationContext.signature_crypto_valid=false)." decision
    else decision in
  (MkValidationReport decision selection trust_service revocation ts attempted signing_time evidence, disk).

(** ** Lemmas on the pipeline *)

Lemma signer_revocation_fields {disk context resolved signer issuer time i disk'} :
  signer_revocation_input disk context resolved signer issuer time = (i, disk') ->
  ri_certificate_der i = signer /\ ri_validation_time i = time /\
  ri_network_allowed i = pl_network_allowed (rp_plan resolved).
Proof. unfold signer_revocation_input. by intros [= <- _]. Qed.

Lemma timestamp_step_engine {disk context resolved stores embedded time ts attempted disk'} :
  timestamp_step disk context resolved stores embedded time = (ts, attempted, disk') ->
  attempted = true ->
  exists d i, ts = (Timestamp.Validate d i).1 /\ ti_policy i = rp_policy resolved.
Proof.
  unfold timestamp_step. destruct (vc_cms_der context); [by intros [= <- <- <-]|].
  destruct (Timestamp.Validate _ _) as [r d] eqn:E. intros [= <- <- <-] _. eexists _, _. by rewrite E.
Qed.

(** The findings of a run, as [Validate] passes them to the synthesis. *)
Definition findings_of (context : ValidationContext) (path_input : PathBuilderInput)
    (report : ValidationReport) : Findings :=
  MkFindings (vc_signature_crypto_valid context) (rpt_path_selection report)
    (map PathValidator_Validate (Build path_input)) (rpt_trust_service report)
    (rpt_signer_revocation report) (rpt_timestamp report) (rpt_timestamp_attempted report)
    (rpt_signing_time_resolution report) (rp_policy (PolicyResolver_Resolve context)) context.

Lemma Validate_findings (disk : Disk) (context : ValidationContext) (signer : bytes)
    (embedded : list bytes) :
  let resolved := PolicyResolver_Resolve context in
  let report := (Validate disk context signer embedded).1 in
  let time := st_signature_evaluation_time (rpt_signing_time_resolution report) in
  let path_input := path_input_of (load_stores disk (vc_work_dir context)) (rp_policy resolved) signer
                      embedded time in
  let decision := SynthesizeDecision (findings_of context path_input report) in
  (flags (rpt_decision report) = flags decision /\
   vd_trust_status (rpt_decision report) = vd_trust_status decision) /\
  rpt_path_selection report = run_paths path_input /\
  (if is_empty signer then rr_revocation_status (rpt_signer_revocation report) = RevocationStatus.NotChecked
   else exists rev_input, rpt_signer_revocation report = Revocation.Validate rev_input /\
     ri_certificate_der rev_input = signer /\ ri_validation_time rev_input = time /\
     ri_network_allowed rev_input = pl_network_allowed (rp_plan resolved)) /\
  (rpt_timestamp_attempted report = true ->
   exists d i, rpt_timestamp report = (Timestamp.Validate d i).1 /\ ti_policy i = rp_policy resolved).
Proof.
  cbn zeta. unfold Validate.
  destruct (timestamp_step _ _ _ _ _ _) as [[ts attempted] disk1] eqn:Ets.
  pose proof (timestamp_step_engine Ets) as Hts. clear Ets.
  set (signing_time := SigningTimeResolver_Resolve (_ ++ _) _ _).
  set (selection := Select _ _).
  destruct (signer_revocation_input _ _ _ _ _ _) as [rev_input disk2] eqn:Ei.
  destruct (signer_revocation_fields Ei) as (Hc & Ht & Hn). clear Ei.
  destruct (revocation_step rev_input _) as [rev evidence] eqn:Er. unfold findings_of.
  cbn [fst rpt_decision rpt_path_selection rpt_signer_revocation rpt_timestamp rpt_timestamp_attempted
       rpt_signing_time_resolution rpt_trust_service].
  split; [by destruct (vc_signature_crypto_valid context)|]. split; [done|]. split; [|done].
  unfold revocation_step in Er. rewrite Hc in Er. destruct (is_empty signer).
  - by injection Er as <- _.
  - exists rev_input. by injection Er as <- _.
Qed.

(** A valid decision of the pipeline rests on these. *)
Record ValidGrounds (disk : Disk) (context : ValidationContext) (signer : bytes) (embedded : list bytes)
    (report : ValidationReport) : Prop := {
  vg_level : vc_level context <> ValidationLevel.Basic;
  vg_signature : vc_signature_crypto_valid context = true;
  vg_anchor : pr_issuer_certificate_der (ps_selected_result (rpt_path_selection report)) ∈
    admitted_anchors (path_input_of (load_stores disk (vc_work_dir context))
      (rp_policy (PolicyResolver_Resolve context)) signer embedded
      (st_signature_evaluation_time (rpt_signing_time_resolution report)));
  vg_revocation : exists rev_input,
    rpt_signer_revocation report = Revocation.Validate rev_input /\
    ri_certificate_der rev_input = signer /\
    ri_validation_time rev_input = st_signature_evaluation_time (rpt_signing_time_resolution report) /\
    rr_overall_status (Revocation.Validate rev_input) <> OverallStatus.Invalid /\
    (vp_revocation_hard_fail (rp_policy (PolicyResolver_Resolve context)) = true ->
     rr_overall_status (Revocation.Validate rev_input) = OverallStatus.Valid);
  vg_service : vp_require_service_level_trust (rp_policy (PolicyResolver_Resolve context)) = true ->
    ts_service_trusted (rpt_trust_service report) = true
}.

Lemma path_trusted_selected (f : Findings) :
  path_trusted f = true -> pr_trusted (ps_selected_result (fd_path_selection f)) = true.
Proof. unfold path_trusted. by destruct (ps_selected_index _). Qed.

Lemma run_paths_no_signer (input : PathBuilderInput) :
  pb_signer_certificate_der input = [] -> pr_trusted (ps_selected_result (run_paths input)) = false.
Proof.
  intros Hs. destruct (pr_trusted _) eqn:E; [|done].
  apply Select_trusted in E as (r & (c & -> & Hc)%list_elem_of_fmap & Ht & _). cbn in Ht.
  apply trusted_iff in Ht as (signer & Hd & _). cbn in Hd.
  rewrite (Build_signer input c Hc), Hs in Hd. done.
Qed.

Lemma revocation_not_invalid (i : RevocationEngineInput) (f : Findings) :
  fd_signer_revocation f = Revocation.Validate i -> revoked_before f = false ->
  rr_overall_status (Revocation.Validate i) <> OverallStatus.Invalid.
Proof.
  intros Hf Hr Hi. unfold revoked_before in Hr. rewrite Hf, Hi, (overall_invalid_revoked i Hi) in Hr. done.
Qed.

(** What the synthesis was given, for a whole run. *)
Definition run_findings (disk : Disk) (context : ValidationContext) (signer : bytes) (embedded : list bytes) : Findings :=
  let report := (Validate disk context signer embedded).1 in
  findings_of context
    (path_input_of (load_stores disk (vc_work_dir context)) (rp_policy (PolicyResolver_Resolve context)) signer embedded
       (st_signature_evaluation_time (rpt_signing_time_resolution report))) report.

(** Trust that no hard-fail policy takes away rests on these grounds. *)
Lemma trusted_grounds (disk : Disk) (context : ValidationContext) (signer : bytes) (embedded : list bytes)
    (f := run_findings disk context signer embedded) :
  vd_trust_valid (SynthesizeDecision f) = true -> hard_fail_hit f = false ->
  ValidGrounds disk context signer embedded (Validate disk context signer embedded).1.
Proof.
  destruct (Validate_findings disk context signer embedded) as (_ & Hpath & Hrev & _).
  unfold run_findings in f. set (report := (Validate disk context signer embedded).1) in *.
  rewrite trust_valid_exact, !andb_true_iff, !negb_true_iff. intros [[[Esig Eb] Er] [Ep Es]] Eh.
  apply path_trusted_selected in Ep. cbn in Ep. rewrite Hpath in Ep.
  destruct signer as [|b signer]; [by rewrite run_paths_no_signer in Ep|]. cbn [is_empty] in Hrev.
  destruct Hrev as (i & Hi & Hci & Hti & _). split.
  - unfold is_basic in Eb. by apply bool_decide_eq_false in Eb.
  - done.
  - rewrite Hpath. by apply selected_anchor.
  - exists i. split; [done|]. split; [done|]. split; [done|].
    pose proof (revocation_not_invalid i f Hi Er) as Hni. split; [done|].
    intros Hh. unfold hard_fail_hit in Eh. cbn -[bool_decide] in Eh. rewrite Hh, andb_true_r in Eh.
    apply bool_decide_eq_false in Eh. rewrite Hi in Eh.
    by destruct (overall_cases i) as [?|[?|?]].
  - intros Hreq. unfold service_level_ok in Es. cbn in Es. by rewrite Hreq in Es.
Qed.

Lemma valid_grounds (disk : Disk) (context : ValidationContext) (signer : bytes) (embedded : list bytes)
    (report := (Validate disk context signer embedded).1) :
  vd_overall_status (rpt_decision report) = OverallStatus.Valid ->
  ValidGrounds disk context signer embedded report.
Proof.
  destruct (Validate_findings disk context signer embedded) as ([[= Hov _ _ _ _] _] & _).
  fold report in Hov |- *. intros Hv. rewrite Hov in Hv.
  change (findings_of _ _ _) with (run_findings disk context signer embedded) in Hv.
  rewrite overall_status_exact in Hv. unfold overall_status in Hv.
  set (f := run_findings disk context signer embedded) in Hv.
  destruct (hard_fail_hit f) eqn:Eh; [by repeat case_match|].
  apply trusted_grounds; [|done]. rewrite trust_valid_exact. fold f.
  destruct (fd_signature_crypto_valid f); [|done]. destruct (is_basic f); [done|].
  destruct (revoked_before f); [done|]. destruct (timestamp_hit f); [done|].
  by destruct (path_trusted f && service_level_ok f).
Qed.

(** The selected path of a valid decision is a candidate of the policy from whose signer a chain of valid certificates, each issued by the
    next one, leads to a valid anchor of its store. *)
Lemma valid_chain (disk : Disk) (context : ValidationContext) (signer : bytes) (embedded : list bytes)
    (report := (Validate disk context signer embedded).1) :
  vd_overall_status (rpt_decision report) = OverallStatus.Valid ->
  exists candidate,
    candidate ∈ Build (path_input_of (load_stores disk (vc_work_dir context)) (rp_policy (PolicyResolver_Resolve context)) signer embedded
                         (st_signature_evaluation_time (rpt_signing_time_resolution report))) /\
    rpt_path_selection report = run_paths (path_input_of (load_stores disk (vc_work_dir context))
      (rp_policy (PolicyResolver_Resolve context)) signer embedded (st_signature_evaluation_time (rpt_signing_time_resolution report))) /\
    ps_selected_index (rpt_path_selection report) <> None /\
    ps_selected_result (rpt_path_selection report) = PathValidator_Validate candidate /\
    pr_trusted (ps_selected_result (rpt_path_selection report)) = true /\
    chain_to_anchor (chain_input candidate).
Proof.
  destruct (Validate_findings disk context signer embedded) as ([[= Hov _ _ _ _] _] & Hpath & _).
  fold report in Hov, Hpath |- *. intros Hv. rewrite Hov, overall_status_exact in Hv. unfold overall_status in Hv.
  assert (ps_selected_index (rpt_path_selection report) <> None /\
          pr_trusted (ps_selected_result (rpt_path_selection report)) = true) as [Hi Ht].
  { destruct (fd_signature_crypto_valid _); [|done]. destruct (is_basic _); [done|]. destruct (revoked_before _); [done|].
    destruct (path_trusted _) eqn:Ep; [|by rewrite orb_true_r in Hv].
    split; [|by apply path_trusted_selected in Ep]. unfold path_trusted in Ep. cbn in Ep. by destruct (ps_selected_index _). }
  rewrite Hpath in Hi, Ht |- *. destruct (Select_in _ _ Ht) as [(c & Ec & Hc)%list_elem_of_fmap _]. fold (run_paths (path_input_of
    (load_stores disk (vc_work_dir context)) (rp_policy (PolicyResolver_Resolve context)) signer embedded
    (st_signature_evaluation_time (rpt_signing_time_resolution report)))) in Ec.
  exists c. split_and!; try done. rewrite Ec in Ht. by apply trusted_iff in Ht.
Qed.

(** [C8] When the whole pipeline answers [Valid], the level is above Basic, the caller's signature
    check succeeded, the trust anchor at the end of the signer's chain comes from a store the
    resolved policy admits, the signer's certificate was checked for revocation at the
    evaluation time and is not revoked - with a conclusive answer when the policy is hard-fail -
    and the service is granted in the trusted list when the policy requires that. *)
Theorem Validation_valid_grounds (disk : Disk) (context : ValidationContext) (signer : bytes)
    (embedded : list bytes) :
  vd_overall_status (rpt_decision (Validate disk context signer embedded).1) = OverallStatus.Valid ->
  ValidGrounds disk context signer embedded (Validate disk context signer embedded).1.
Proof. apply valid_grounds. Qed.

(** The offline profile can never reach [Valid]: it selects the custom trust store, and the
    orchestrator passes no custom anchors to the path builder. *)
Theorem offline_profile_never_valid (disk : Disk) (context : ValidationContext) (signer : bytes)
    (embedded : list bytes) :
  vc_profile context = ValidationProfile.Offline ->
  vd_overall_status (rpt_decision (Validate disk context signer embedded).1) <> OverallStatus.Valid.
Proof.
  intros Hp Hv. destruct (valid_grounds disk context signer embedded Hv) as [_ _ Ha _ _].
  unfold admitted_anchors, PolicyResolver_Resolve in Ha. rewrite Hp in Ha.
  destruct (vc_level context); cbn in Ha; by apply elem_of_nil in Ha.
Qed.

End Engine.

Section Witness.
#[local] Existing Instance toy_clock.
#[local] Existing Instance toy_cert_api.
#[local] Existing Instance toy_crl_api.
#[local] Existing Instance toy_ocsp_api.
#[local] Existing Instance toy_http.
#[local] Existing Instance toy_timestamp_api.

(** A disk with the root in the trust store of [w]. *)
Definition toy_store_api : StoreApi := {|
  read_dir _ dir := if dir ==s "w/trust-store" then Some [("root.cer", true, Some toy_root)] else None;
  read_text _ _ := None;
  fs_relative _ _ _ := None
|}.
#[local] Existing Instance toy_store_api.
Definition toy_libxml : LibXml := {| xmlReadMemory _ := None |}.
#[local] Existing Instance toy_libxml.

Definition toy_context : ValidationContext :=
  ValidationContext_default <| vc_level := ValidationLevel.Standard |> <| vc_work_dir := "w" |>
    <| vc_verification_time := "2024-03-01T00:00:00Z" |>
    <| vc_embedded_revocation_ocsp_der := [[x00; x02; x2a; x00]] |>
    <| vc_signature_crypto_valid := true |>.

Lemma Validation_valid_grounds_witness :
  vd_overall_status (rpt_decision (Validate (H3 := toy_timestamp_api) tt toy_context toy_leaf [toy_ca]).1)
  = OverallStatus.Valid /\
  ValidGrounds (H3 := toy_timestamp_api) tt toy_context toy_leaf [toy_ca]
    (Validate (H3 := toy_timestamp_api) tt toy_context toy_leaf [toy_ca]).1.
Proof.
  assert (vd_overall_status (rpt_decision
    (Validate (H3 := toy_timestamp_api) tt toy_context toy_leaf [toy_ca]).1) = OverallStatus.Valid) as E
    by by vm_compute.
  split; [exact E|].
  apply (Validation_valid_grounds (H3 := toy_timestamp_api) tt toy_context toy_leaf [toy_ca] E).
Defined.

Lemma offline_profile_never_valid_witness :
  let context := toy_context <| vc_profile := ValidationProfile.Offline |> in
  vd_overall_status (rpt_decision (Validate (H3 := toy_timestamp_api) tt context toy_leaf [toy_ca]).1)
  <> OverallStatus.Valid.
Proof.
  apply (offline_profile_never_valid (H3 := toy_timestamp_api) tt
    (toy_context <| vc_profile := ValidationProfile.Offline |>) toy_leaf [toy_ca]).
  reflexivity.
Defined.

(** The same findings, with and without the requirement. *)
Definition toy_findings : Findings :=
  MkFindings true
    (MkPathSelection (Some 0%nat) (PathValidationResult_default <| pr_trusted := true |>) "")
    [] TrustServiceDecision_default
    (RevocationEngineResult_default <| rr_overall_status := OverallStatus.Valid |>)
    TimestampEngineResult_default false SigningTimeResolution_default ValidationPolicy_default toy_context.

Lemma required_time_needs_timestamp_witness :
  fd_timestamp_attempted toy_findings = false /\
  vd_overall_status (SynthesizeDecision
    (MkFindings true (fd_path_selection toy_findings) [] TrustServiceDecision_default
       (fd_signer_revocation toy_findings) TimestampEngineResult_default false
       SigningTimeResolution_default
       (ValidationPolicy_default <| vp_require_trusted_signing_time := true |>) toy_context))
  = OverallStatus.Valid.
Proof.
  split; [reflexivity|].
  transitivity (vd_overall_status (SynthesizeDecision toy_findings)); [|by vm_compute].
  apply (required_time_needs_timestamp toy_findings true). reflexivity.
Defined.
End Witness.
