(* ===== verification/Report.v ===== *)
(** * Report: committing a verification report and reading verdicts from it

    Models [core/session/VerifySummary.cpp], [core/session/VerifyReportCommit.cpp] (without
    the ownership epochs, which are in [Session]), [core/policy/VerifyChecks.cpp] and
    [core/policy/PolicyDecision.cpp]: pure functions over [VerifyReport]. *)

From S2P Require Import Prelude CxxString Types.

Open Scope tamga_scope.

(** [std::string] equal to one of several literals. *)
Definition one_of (s : string) (l : list string) : bool := existsb (String.eqb s) l.

Lemma one_of_spec (s : string) (l : list string) : one_of s l = true <-> s ∈ l.
Proof.
  unfold one_of. rewrite existsb_exists, list_elem_of_In. split.
  - intros (x & Hx & ->%String.eqb_eq). done.
  - intros Hs. exists s. by rewrite String.eqb_refl.
Qed.

(** ** [VerifySummary.cpp] *)

Record VerifyPolicyDecision := MkVerifyPolicyDecision {
  vpd_valid : bool;
  vpd_level : string;
  vpd_summary : string
}.

#[export] Instance eta_VerifyPolicyDecision : Eta VerifyPolicyDecision := fun r =>
  MkVerifyPolicyDecision (vpd_valid r) (vpd_level r) (vpd_summary r).

Definition VerifyPolicyDecision_default : VerifyPolicyDecision :=
  MkVerifyPolicyDecision false "integrity-only" "".

Definition CanOnlineServiceOutageOverrideTrustStatus (report : VerifyReport) (has_policy_failure : bool)
    : bool :=
  if has_policy_failure then false
  else if vr_trust_status report ==s "timestamp-not-fully-validated" then false
  else negb (vr_trust_checked report && negb (vr_trust_valid report)).

Definition TrustFailureErrorCode (report : VerifyReport) : ErrorCode.t :=
  let status := vr_trust_status report in
  if one_of status ["certificate-revoked"; "revocation-check-invalid"; "ocsp-response-invalid"]
  then ErrorCode.RevocationCheckFailed
  else if one_of status ["ocsp-responder-unavailable"; "tsp-responder-unavailable"]
  then ErrorCode.OnlineServiceUnavailable
  else if status ==s "timestamp-invalid" then ErrorCode.TimestampValidationFailed
  else ErrorCode.TrustValidationFailed.

Definition ApplyTimestampFailureToTrust (report : VerifyReport) : VerifyReport :=
  if negb (vr_trust_valid report) then report else
  report <| vr_trust_valid := false |> <| vr_trust_status := "timestamp-invalid" |>
    <| vr_error_code := ErrorCode.TimestampValidationFailed |>.

Definition revocation_good (report : VerifyReport) : bool :=
  one_of (vr_revocation_status report) ["good"; "valid"].

(** The reason given when trust was checked and denied. *)
Definition untrusted_summary (status : string) : string :=
  if status ==s "certificate-revoked" then "integrity-but-revoked"
  else if one_of status ["certificate-time-invalid"; "certificate-chain-time-invalid"]
  then "integrity-but-certificate-expired"
  else if one_of status ["certificate-chain-incomplete"; "certificate-chain-cycle";
                         "signer-certificate-missing"; "legacy-anchor-not-in-current-tl"]
  then "integrity-but-chain-incomplete"
  else if one_of status ["trust-store-empty"; "no-trust-store-configured"]
  then "integrity-without-trust-store"
  else if one_of status ["revocation-check-invalid"; "ocsp-response-invalid"]
  then "integrity-but-revocation-check-invalid"
  else "integrity-but-untrusted-chain".

Definition ComputeVerifySummary (report : VerifyReport) : string :=
  let trust := vr_trust_status report in
  let timestamp := vr_timestamp_status report in
  let trusted := vr_trust_checked report && vr_trust_valid report in
  if negb (vr_has_result report) then "not-executed"
  else if negb (vr_execution_succeeded report) then "execution-failed"
  else if vr_container_malformed report then "container-malformed"
  else if negb (vr_signature_valid report) then "integrity-failed"
  else if negb (vr_container_coverage_complete report) then "content-not-fully-signed"
  else if trusted && vr_revocation_checked report
          && (vr_revocation_status report ==s "temporarily-unavailable")
  then "integrity-but-revocation-unknown"
  else if one_of trust ["ocsp-responder-unavailable"; "tsp-responder-unavailable"]
  then "integrity-but-online-service-unavailable"
  else if (trust ==s "timestamp-not-fully-validated") || (timestamp ==s "timestamp-partial")
  then "integrity-but-timestamp-not-fully-validated"
  else if vr_signature_valid report && vr_timestamp_checked report && negb (vr_timestamp_valid report)
          && ((trust ==s "timestamp-invalid") || (timestamp ==s "timestamp-invalid"))
  then "integrity-but-timestamp-invalid"
  else if vr_signature_valid report && trusted && vr_revocation_checked report
          && (vr_revocation_status report ==s "unknown")
  then "integrity-but-revocation-unknown"
  else if vr_signature_valid report && trusted && vr_revocation_checked report && revocation_good report
          && vr_timestamp_checked report && vr_timestamp_valid report
  then "integrity-trust-revocation-and-timestamp"
  else if negb (vr_trust_checked report) then "integrity-only"
  else if negb (vr_trust_valid report) then untrusted_summary trust
  else if vr_revocation_checked report && revocation_good report
  then "integrity-trust-and-revocation"
  else "integrity-and-trust".

Definition ComputeVerifyPolicyDecision (report : VerifyReport) : VerifyPolicyDecision :=
  let summary := ComputeVerifySummary report in
  let trust := vr_trust_status report in
  let policy_base_valid :=
    vr_has_result report && vr_execution_succeeded report && vr_signature_valid report
    && vr_trust_checked report && vr_trust_valid report && vr_revocation_checked report
    && revocation_good report in
  if negb policy_base_valid || (trust ==s "timestamp-invalid")
     || (vr_timestamp_status report ==s "timestamp-invalid")
  then MkVerifyPolicyDecision false "integrity-only" summary
  else if existsb (fun detail => negb (te_valid detail) && negb (te_policy_acceptable detail))
            (vr_timestamp_details report)
          || (trust ==s "timestamp-not-fully-validated")
  then MkVerifyPolicyDecision false "integrity-only" "integrity-but-timestamp-not-fully-validated"
  else if one_of trust ["ocsp-responder-unavailable"; "tsp-responder-unavailable"]
  then MkVerifyPolicyDecision false "integrity-only" summary
  else if vr_timestamp_checked report && vr_timestamp_valid report
  then MkVerifyPolicyDecision true "cades-t" summary
  else MkVerifyPolicyDecision true "bes" summary.

(** ** [VerifyReportCommit.cpp] *)

Definition AppendVerifyReportNote (report : VerifyReport) (prefix message : string) : VerifyReport :=
  if str_empty message then report else
  report <| vr_message ::= fun m =>
    (if str_empty m then m else m +s+ "; ") +s+ prefix +s+ message |>.

Definition MakeClearedVerifyReport : VerifyReport :=
  VerifyReport_default <| vr_policy := "crypto-integrity-only" |>
    <| vr_trust_status := "not-implemented" |> <| vr_revocation_status := "not-checked" |>.

Record VerifyOutcome := MkVerifyOutcome {
  vo_operation : string;
  vo_execution_succeeded : bool;
  vo_signature_valid : bool;
  vo_error_code : ErrorCode.t;
  vo_message : string
}.

#[export] Instance eta_VerifyOutcome : Eta VerifyOutcome := fun r =>
  MkVerifyOutcome (vo_operation r) (vo_execution_succeeded r) (vo_signature_valid r)
  (vo_error_code r) (vo_message r).

Definition VerifyOutcome_default : VerifyOutcome :=
  MkVerifyOutcome "" false false ErrorCode.None "".

Definition BuildVerifyMessage (execution_succeeded signature_valid : bool) (message : string) : string :=
  if negb (str_empty message) then message
  else if execution_succeeded && signature_valid
  then "Signature integrity verified. See policyDecision for the trust verdict."
  else if execution_succeeded then "Signature integrity check completed with a negative result."
  else "".

Definition CommitVerifyOutcome (report : VerifyReport) (outcome : VerifyOutcome) : VerifyReport :=
  let report := report <| vr_has_result := true |>
    <| vr_execution_succeeded := vo_execution_succeeded outcome |>
    <| vr_signature_valid := vo_signature_valid outcome |>
    <| vr_operation := vo_operation outcome |> in
  let report := if vr_operation report ==s "VerifyFileAsicEXades"
    then report <| vr_container_type := "ASiC-E" |> <| vr_signature_format := "XAdES" |>
           <| vr_format_profile := "XAdES" |>
    else report in
  report <| vr_error_code := vo_error_code outcome |>
    <| vr_message := BuildVerifyMessage (vo_execution_succeeded outcome) (vo_signature_valid outcome)
         (vo_message outcome) |>.

(** The loop over the details: all valid, any invalid. *)
Definition details_verdict (details : list TimestampEntry) : bool * bool :=
  foldl (fun '(all_valid, any_invalid) detail =>
    (all_valid && te_valid detail && (te_status detail ==s "timestamp-valid"),
     any_invalid || (te_status detail ==s "timestamp-invalid"))) (true, false) details.

Definition ApplyTimestampDetailsVerdict (report : VerifyReport) : VerifyReport :=
  match vr_timestamp_details report with
  | [] => report
  | details =>
      let '(all_valid, any_invalid) := details_verdict details in
      let report := report <| vr_timestamp_checked := true |> <| vr_tsp_checked := true |>
        <| vr_timestamp_valid := all_valid && negb any_invalid |> in
      report <| vr_timestamp_status :=
        if any_invalid then "timestamp-invalid"
        else if vr_timestamp_valid report then "timestamp-valid" else "timestamp-partial" |>
  end.

Definition ApplyFormatTimestampVerdict (report : VerifyReport) (crypto_valid canonical_full : bool)
    : VerifyReport :=
  if negb crypto_valid then
    report <| vr_timestamp_valid := false |> <| vr_timestamp_status := "timestamp-invalid" |>
  else
  match vr_timestamp_details report with
  | _ :: _ => ApplyTimestampDetailsVerdict report
  | [] =>
      if canonical_full then
        report <| vr_timestamp_valid := true |> <| vr_timestamp_status := "timestamp-valid" |>
      else
        report <| vr_timestamp_valid := false |> <| vr_timestamp_status := "timestamp-partial" |>
  end.

Definition ApplyEntryTimestampVerdict (entry : SignatureEntry) (crypto_valid : bool) : SignatureEntry :=
  if negb crypto_valid then
    entry <| se_timestamp_valid := false |> <| se_timestamp_status := "timestamp-invalid" |>
  else entry <| se_timestamp_valid := false |> <| se_timestamp_status := "timestamp-partial" |>.

Definition AppendContainerTimestampMessage (report : VerifyReport) (message : string) : VerifyReport :=
  AppendVerifyReportNote report "ASiC container timestamp: " message.

Definition AppendXadesTimestampMessage (report : VerifyReport) (message : string) : VerifyReport :=
  AppendVerifyReportNote report "XAdES timestamp policy: " message.

(** The container type and the signature format. *)
Definition UserReportFormatForOperation (operation : string) : string * string :=
  if one_of operation ["VerifyData"; "VerifyDataBase64"; "VerifyFile"; "RawVerifyFile"]
  then ("CAdES detached", "cms-detached")
  else if one_of operation ["VerifyDataInternal"; "VerifyDataInternalBase64"; "VerifyDataInternalStr";
                            "VerifyDataInternalBase64Str"]
  then ("CAdES attached", "cms-attached")
  else if operation ==s "VerifyFileAsicS" then ("ASiC-S", "asic-s")
  else if operation ==s "VerifyFileAsicE" then ("ASiC-E", "asic-e")
  else if operation ==s "VerifyFileAsicEXades" then ("ASiC-E", "XAdES")
  else ("unknown", "unknown").

(** ** [VerifyChecks.cpp] *)

Record VerifyCheck := MkVerifyCheck { ck_status : string; ck_code : string }.

Definition EffectiveCertificateTimeValid (report : VerifyReport) : bool := vr_certificate_time_valid report.
Definition EffectiveOcspChecked (report : VerifyReport) : bool := vr_ocsp_checked report.
Definition EffectiveRevocationChecked (report : VerifyReport) : bool := vr_revocation_checked report.
Definition ValidationTimeSource (report : VerifyReport) : string := vr_validation_time_source report.

Definition HasPolicyWarning (report : VerifyReport) : bool :=
  vr_historical_trust_used report
  || (vr_timestamp_status report ==s "timestamp-partial")
  || one_of (vr_trust_status report)
       ["timestamp-not-fully-validated"; "ocsp-responder-unavailable"; "tsp-responder-unavailable"]
  || (EffectiveRevocationChecked report
      && negb (one_of (vr_revocation_status report) ["valid"; "good"; "revoked"; "invalid"])).

Definition FirstPolicyWarningCode (report : VerifyReport) : string :=
  if vr_historical_trust_used report then "HISTORICAL_TRUST_USED"
  else if (vr_trust_status report ==s "timestamp-not-fully-validated")
          || (vr_timestamp_status report ==s "timestamp-partial")
  then "TIMESTAMP_NOT_FULLY_VALIDATED"
  else if one_of (vr_trust_status report) ["ocsp-responder-unavailable"; "tsp-responder-unavailable"]
  then "ONLINE_SERVICE_UNAVAILABLE"
  else "REVOCATION_STATUS_UNKNOWN".

Definition SummaryCheck (report : VerifyReport) : VerifyCheck :=
  let decision := ComputeVerifyPolicyDecision report in
  let trust := vr_trust_status report in
  if negb (vr_has_result report) then MkVerifyCheck "skipped" "NOT_EXECUTED"
  else if negb (vr_execution_succeeded report)
  then MkVerifyCheck "invalid" "VERIFICATION_EXECUTION_FAILED"
  else if vr_container_malformed report then MkVerifyCheck "invalid" "CONTAINER_MALFORMED"
  else if negb (vr_signature_valid report) then MkVerifyCheck "invalid" "SIGNATURE_INVALID"
  else if negb (vr_container_coverage_complete report)
  then MkVerifyCheck "invalid" "CONTAINER_COVERAGE_INCOMPLETE"
  else if vpd_valid decision then
    if HasPolicyWarning report then MkVerifyCheck "warning" "SIGNATURE_VALID_WITH_WARNINGS"
    else MkVerifyCheck "valid" "SIGNATURE_VALID"
  else if (vr_revocation_status report ==s "revoked") || (trust ==s "certificate-revoked")
  then MkVerifyCheck "invalid" "CERTIFICATE_REVOKED"
  else if one_of trust ["certificate-time-invalid"; "certificate-chain-time-invalid"]
  then MkVerifyCheck "invalid" "CERTIFICATE_INVALID_AT_VALIDATION_TIME"
  else if one_of trust ["revocation-check-invalid"; "ocsp-response-invalid"]
  then MkVerifyCheck "invalid" "REVOCATION_INVALID"
  else if (trust ==s "timestamp-invalid") || (vr_timestamp_status report ==s "timestamp-invalid")
  then MkVerifyCheck "invalid" "TIMESTAMP_INVALID"
  else MkVerifyCheck "warning" "SIGNATURE_INTEGRITY_ONLY".

Definition SignatureCheck (report : VerifyReport) : VerifyCheck :=
  if negb (vr_has_result report) then MkVerifyCheck "skipped" "SIGNATURE_NOT_CHECKED"
  else if negb (vr_execution_succeeded report)
  then MkVerifyCheck "unavailable" "SIGNATURE_CHECK_UNAVAILABLE"
  else if vr_signature_valid report then MkVerifyCheck "valid" "SIGNATURE_CRYPTOGRAPHICALLY_VALID"
  else MkVerifyCheck "invalid" "SIGNATURE_CRYPTOGRAPHICALLY_INVALID".

Definition CertificateCheck (report : VerifyReport) : VerifyCheck :=
  if negb (vr_has_result report) then MkVerifyCheck "skipped" "CERTIFICATE_NOT_CHECKED"
  else if negb (vr_signer_certificate_present report)
  then MkVerifyCheck "unavailable" "SIGNER_CERTIFICATE_MISSING"
  else if EffectiveCertificateTimeValid report
  then MkVerifyCheck "valid" "CERTIFICATE_VALID_AT_VALIDATION_TIME"
  else MkVerifyCheck "invalid" "CERTIFICATE_INVALID_AT_VALIDATION_TIME".

Definition TrustCheck (report : VerifyReport) : VerifyCheck :=
  if negb (vr_trust_checked report) then MkVerifyCheck "skipped" "TRUST_NOT_CHECKED"
  else if vr_trust_valid report then
    if vr_historical_trust_used report then MkVerifyCheck "warning" "TRUST_VALID_HISTORICAL"
    else MkVerifyCheck "valid" "TRUST_VALID"
  else MkVerifyCheck "invalid" "TRUST_INVALID".

Definition RevocationCheck (report : VerifyReport) : VerifyCheck :=
  let status := vr_revocation_status report in
  if negb (EffectiveRevocationChecked report) then MkVerifyCheck "skipped" "REVOCATION_NOT_CHECKED"
  else if one_of status ["valid"; "good"] then MkVerifyCheck "valid" "REVOCATION_VALID"
  else if status ==s "revoked" then MkVerifyCheck "invalid" "CERTIFICATE_REVOKED"
  else if status ==s "invalid" then MkVerifyCheck "invalid" "REVOCATION_INVALID"
  else if status ==s "temporarily-unavailable" then MkVerifyCheck "unavailable" "REVOCATION_UNAVAILABLE"
  else MkVerifyCheck "unknown" "REVOCATION_UNKNOWN".

Definition TimestampCheck (report : VerifyReport) : VerifyCheck :=
  if negb (vr_timestamp_checked report) then MkVerifyCheck "skipped" "TIMESTAMP_NOT_CHECKED"
  else if (vr_timestamp_status report ==s "timestamp-partial")
          || (vr_trust_status report ==s "timestamp-not-fully-validated")
  then MkVerifyCheck "warning" "TIMESTAMP_NOT_FULLY_VALIDATED"
  else if vr_timestamp_valid report then MkVerifyCheck "valid" "TIMESTAMP_VALID"
  else MkVerifyCheck "invalid" "TIMESTAMP_INVALID".

Definition LtvFullyValidated (report : VerifyReport) : bool :=
  if negb (vr_ltv_evidence_validated report) || negb (vr_timestamp_valid report) then false
  else forallb se_ltv_evidence_validated (vr_signatures report).

Definition LtvCheck (report : VerifyReport) : VerifyCheck :=
  if LtvFullyValidated report then MkVerifyCheck "valid" "LTV_VALID"
  else if one_of (vr_signature_format report) ["XAdES"; "PAdES"]
  then MkVerifyCheck "unavailable" "LTV_EVIDENCE_UNAVAILABLE"
  else MkVerifyCheck "skipped" "LTV_NOT_APPLICABLE".

Definition PolicyCheck (report : VerifyReport) : VerifyCheck :=
  let decision := ComputeVerifyPolicyDecision report in
  if vpd_valid decision then
    if HasPolicyWarning report then MkVerifyCheck "warning" (FirstPolicyWarningCode report)
    else MkVerifyCheck "valid" "POLICY_VALID"
  else if vr_has_result report then MkVerifyCheck "invalid" "POLICY_INVALID"
  else MkVerifyCheck "skipped" "POLICY_NOT_EVALUATED".

(** ** [PolicyDecision.cpp] *)

Record PolicyValidationResult := MkPolicyValidationResult {
  pv_trust_checked : bool;
  pv_trust_valid : bool;
  pv_revocation_checked : bool;
  pv_ocsp_checked : bool;
  pv_tsp_checked : bool;
  pv_timestamp_checked : bool;
  pv_timestamp_valid : bool;
  pv_chain_checked : bool;
  pv_chain_valid : bool;
  pv_chain_status : ChainStatus.t;
  pv_revocation_status : RevocationStatus.t;
  pv_timestamp_status : TimestampStatus.t;
  pv_trust_status : string;
  pv_revocation_status_text : string;
  pv_policy : string;
  pv_message : string
}.

#[export] Instance eta_PolicyValidationResult : Eta PolicyValidationResult := fun r =>
  MkPolicyValidationResult (pv_trust_checked r) (pv_trust_valid r) (pv_revocation_checked r)
  (pv_ocsp_checked r) (pv_tsp_checked r) (pv_timestamp_checked r) (pv_timestamp_valid r)
  (pv_chain_checked r) (pv_chain_valid r) (pv_chain_status r) (pv_revocation_status r)
  (pv_timestamp_status r) (pv_trust_status r) (pv_revocation_status_text r) (pv_policy r)
  (pv_message r).

Definition PolicyValidationResult_default : PolicyValidationResult :=
  MkPolicyValidationResult false false false false false false false false false
  ChainStatus.NotChecked RevocationStatus.NotChecked TimestampStatus.NotChecked
  "not-implemented" "not-checked" "crypto-integrity-only" "".

Definition ApplyPolicyDecision (policy_result : PolicyValidationResult) (report : VerifyReport)
    : VerifyReport :=
  let report := report <| vr_trust_checked := pv_trust_checked policy_result |>
    <| vr_trust_valid := pv_trust_valid policy_result |>
    <| vr_revocation_checked := pv_revocation_checked policy_result |>
    <| vr_ocsp_checked := pv_ocsp_checked policy_result |>
    <| vr_tsp_checked := pv_tsp_checked policy_result |>
    <| vr_timestamp_checked := pv_timestamp_checked policy_result |>
    <| vr_timestamp_valid := pv_timestamp_valid policy_result |>
    <| vr_chain_checked := pv_chain_checked policy_result |>
    <| vr_chain_valid := pv_chain_valid policy_result |>
    <| vr_policy := pv_policy policy_result |>
    <| vr_trust_status := pv_trust_status policy_result |>
    <| vr_revocation_status := pv_revocation_status_text policy_result |> in
  if str_empty (pv_message policy_result) then report
  else report <| vr_message := pv_message policy_result |>.

(** ** What the verdicts mean *)

(** The conditions of a valid policy decision. *)
Record PolicyGrounds (r : VerifyReport) : Prop := {
  pg_executed : vr_has_result r = true /\ vr_execution_succeeded r = true;
  pg_signature : vr_signature_valid r = true;
  pg_trust : vr_trust_checked r = true /\ vr_trust_valid r = true;
  pg_revocation : vr_revocation_checked r = true /\
    (vr_revocation_status r = "good" \/ vr_revocation_status r = "valid");
  pg_timestamp : vr_timestamp_status r <> "timestamp-invalid";
  pg_details : Forall (fun d => te_valid d = true \/ te_policy_acceptable d = true) (vr_timestamp_details r);
  pg_status : vr_trust_status r ∉ ["timestamp-invalid"; "timestamp-not-fully-validated";
                                   "ocsp-responder-unavailable"; "tsp-responder-unavailable"]
}.

Lemma revocation_good_spec (r : VerifyReport) :
  revocation_good r = true <-> vr_revocation_status r = "good" \/ vr_revocation_status r = "valid".
Proof. unfold revocation_good. rewrite one_of_spec, !elem_of_cons, elem_of_nil. tauto. Qed.

Lemma details_acceptable (details : list TimestampEntry) :
  existsb (fun detail => negb (te_valid detail) && negb (te_policy_acceptable detail)) details = false <->
  Forall (fun d => te_valid d = true \/ te_policy_acceptable d = true) details.
Proof.
  induction details as [|d l IH]; cbn; [split; [by constructor|done]|].
  rewrite orb_false_iff, IH, Forall_cons.
  destruct (te_valid d), (te_policy_acceptable d); cbn; intuition congruence.
Qed.

Lemma policy_valid_iff (r : VerifyReport) :
  vpd_valid (ComputeVerifyPolicyDecision r) = true <-> PolicyGrounds r.
Proof.
  unfold ComputeVerifyPolicyDecision. split.
  - destruct (negb _ || _ || _) eqn:E1; [done|]. apply orb_false_iff in E1 as [[E1 Et]%orb_false_iff Es].
    apply negb_false_iff in E1. rewrite !andb_true_iff, revocation_good_spec in E1.
    destruct (existsb _ _ || _) eqn:E2; [done|]. apply orb_false_iff in E2 as [Ed En].
    destruct (one_of _ _) eqn:E3; [done|]. intros _. apply String.eqb_neq in Et, Es, En.
    apply not_true_iff_false in E3. rewrite one_of_spec in E3.
    destruct E1 as [[[[[[? ?] ?] ?] ?] ?] ?]. split; [done..|by apply details_acceptable|].
    set_solver.
  - intros [[-> ->] -> [-> ->] [-> Hr] Ht Hd Hs]. apply revocation_good_spec in Hr. rewrite Hr. cbn.
    apply details_acceptable in Hd. rewrite Hd. apply String.eqb_neq in Ht. rewrite Ht.
    rewrite !not_elem_of_cons in Hs. destruct Hs as (H1 & H2 & H3 & H4 & _).
    apply String.eqb_neq in H1, H2, H3, H4. rewrite H1, H2, H3, H4. cbn.
    by destruct (_ && _).
Qed.

Lemma warning_false_iff (r : VerifyReport) :
  PolicyGrounds r ->
  HasPolicyWarning r = false <->
  vr_historical_trust_used r = false /\ vr_timestamp_status r <> "timestamp-partial".
Proof.
  unfold HasPolicyWarning, EffectiveRevocationChecked. intros [_ _ _ [-> Hr] _ _ Hs].
  assert (one_of (vr_trust_status r) ["timestamp-not-fully-validated"; "ocsp-responder-unavailable";
    "tsp-responder-unavailable"] = false) as ->.
  { apply not_true_is_false. rewrite one_of_spec. set_solver. }
  assert (one_of (vr_revocation_status r) ["valid"; "good"; "revoked"; "invalid"] = true) as ->.
  { apply one_of_spec. set_solver. }
  cbn [negb andb]. rewrite !orb_false_r, orb_false_iff, String.eqb_neq. done.
Qed.

(** The summary block of a report says "valid" exactly when the check ran on an intact
    container, the signature verified and covers the whole content, trust and revocation were
    both checked and positive, the trust is current, and no timestamp is invalid, partial or
    unacceptable: nothing that was not checked is reported as valid. *)
Theorem SummaryCheck_valid_iff (r : VerifyReport) :
  ck_status (SummaryCheck r) = "valid" <->
  PolicyGrounds r /\ vr_container_malformed r = false /\ vr_container_coverage_complete r = true /\
  vr_historical_trust_used r = false /\ vr_timestamp_status r <> "timestamp-partial".
Proof.
  unfold SummaryCheck. split.
  - destruct (vr_has_result r); [|done]. destruct (vr_execution_succeeded r); [|done].
    destruct (vr_container_malformed r); [done|]. destruct (vr_signature_valid r); [|done].
    destruct (vr_container_coverage_complete r); [|done]. cbn.
    destruct (vpd_valid _) eqn:Ev; [|by repeat case_match].
    apply policy_valid_iff in Ev. destruct (HasPolicyWarning r) eqn:Ew; [done|].
    apply (warning_false_iff r Ev) in Ew. tauto.
  - intros (Hg & -> & -> & Hw). pose proof Hg as Hv. apply policy_valid_iff in Hv. rewrite Hv.
    apply (warning_false_iff r Hg) in Hw. rewrite Hw. destruct Hg as [[-> ->] -> _ _ _ _ _]. done.
Qed.

Lemma summary_valid_policy (r : VerifyReport) :
  ck_status (SummaryCheck r) = "valid" -> vpd_valid (ComputeVerifyPolicyDecision r) = true.
Proof.
  unfold SummaryCheck. destruct (vpd_valid (ComputeVerifyPolicyDecision r)); [done|].
  by repeat case_match.
Qed.

(** The summary codes that go with a valid policy decision. *)
Lemma policy_valid_summary (r : VerifyReport) :
  PolicyGrounds r -> vr_container_malformed r = false -> vr_container_coverage_complete r = true ->
  ComputeVerifySummary r =
    if vr_timestamp_status r ==s "timestamp-partial" then "integrity-but-timestamp-not-fully-validated"
    else if vr_timestamp_checked r && vr_timestamp_valid r
    then "integrity-trust-revocation-and-timestamp" else "integrity-trust-and-revocation".
Proof.
  intros [[Hh He] Hs [Hc Ht] [Hrc Hr] Hts _ Hst] Hm Hcov. unfold ComputeVerifySummary.
  rewrite Hh, He, Hs, Hc, Ht, Hrc, Hm, Hcov. cbn [negb andb].
  assert (revocation_good r = true) as -> by by apply revocation_good_spec.
  rewrite !not_elem_of_cons in Hst. destruct Hst as (H1 & H2 & H3 & H4 & _).
  apply String.eqb_neq in H1, H2, H3, H4, Hts. unfold one_of, existsb. rewrite H1, H2, H3, H4, Hts.
  assert ((vr_revocation_status r ==s "temporarily-unavailable") = false /\
          (vr_revocation_status r ==s "unknown") = false) as [-> ->] by (destruct Hr as [-> | ->]; done).
  cbn [orb]. rewrite andb_false_r. by destruct (_ ==s _).
Qed.

(** The fields of one report never contradict each other: a valid policy decision on an
    intact, fully covered container goes with one of three summary codes, exactly as the
    timestamp was partial, valid or absent; and a revoked certificate always gives the summary
    status "invalid", never a warning, whatever else the report says. *)
Theorem report_fields_agree (r : VerifyReport) :
  (vpd_valid (ComputeVerifyPolicyDecision r) = true ->
   vr_container_malformed r = false -> vr_container_coverage_complete r = true ->
   ComputeVerifySummary r =
     (if vr_timestamp_status r ==s "timestamp-partial" then "integrity-but-timestamp-not-fully-validated"
      else if vr_timestamp_checked r && vr_timestamp_valid r
      then "integrity-trust-revocation-and-timestamp" else "integrity-trust-and-revocation") /\
   ck_status (SummaryCheck r) = ck_status (PolicyCheck r)) /\
  (vr_has_result r = true -> vr_revocation_status r = "revoked" ->
   ck_status (SummaryCheck r) = "invalid" /\ ck_status (PolicyCheck r) = "invalid").
Proof.
  split.
  - intros Hv Hm Hc. pose proof (proj1 (policy_valid_iff r) Hv) as Hg.
    split; [by apply policy_valid_summary|]. unfold SummaryCheck, PolicyCheck.
    destruct Hg as [[-> ->] -> _ _ _ _ _]. rewrite Hm, Hc, Hv. by destruct (HasPolicyWarning r).
  - intros Hh Hr. unfold SummaryCheck, PolicyCheck. rewrite Hh, Hr.
    assert (vpd_valid (ComputeVerifyPolicyDecision r) = false) as ->.
    { apply not_true_is_false. intros [_ _ _ [_ [E|E]] _ _ _]%policy_valid_iff; congruence. }
    cbn. by repeat case_match.
Qed.

(** The verdict over the details is that of the whole list. *)
Lemma details_verdict_spec (details : list TimestampEntry) :
  details_verdict details =
  (forallb (fun d => te_valid d && (te_status d ==s "timestamp-valid")) details,
   existsb (fun d => te_status d ==s "timestamp-invalid") details).
Proof.
  unfold details_verdict. match goal with |- foldl ?f _ _ = _ => set (step := f) end.
  enough (forall a b, foldl step (a, b) details =
    (a && forallb (fun d => te_valid d && (te_status d ==s "timestamp-valid")) details,
     b || existsb (fun d => te_status d ==s "timestamp-invalid") details)) as -> by done.
  induction details as [|d l IH]; intros a b; cbn; [by rewrite andb_true_r, orb_false_r|].
  rewrite IH. f_equal; [by rewrite !andb_assoc|by rewrite !orb_assoc].
Qed.

(** A report with everything positive. *)
Definition toy_report : VerifyReport :=
  VerifyReport_default <| vr_has_result := true |> <| vr_execution_succeeded := true |>
    <| vr_signature_valid := true |> <| vr_trust_checked := true |> <| vr_trust_valid := true |>
    <| vr_revocation_checked := true |> <| vr_revocation_status := "valid" |>
    <| vr_trust_status := "trusted-anchor-validated" |>.

Lemma report_fields_agree_witness :
  ComputeVerifySummary toy_report = "integrity-trust-and-revocation" /\
  ck_status (SummaryCheck (toy_report <| vr_revocation_status := "revoked" |>)) = "invalid".
Proof.
  split.
  - apply (report_fields_agree toy_report); reflexivity.
  - apply (report_fields_agree (toy_report <| vr_revocation_status := "revoked" |>)); reflexivity.
Defined.
