(* ===== verification/Projection.v ===== *)
(** * Projection: from the canonical report to the public one

    Models [core/validation/ValidationReportProjection.cpp], the adapter
    [ApplyValidationEngineReport] of [core/session/SessionHelpers.ipp] and
    [ExtractCertificateMetadata] of [core/cryptonite/CertificateInfo.cpp], whose
    texts go into the entry of a timestamp. *)

From S2P Require Import Prelude CxxString Types Time Der Codec Sha256 Cryptonite Fixture X509Name Chain.
From S2P Require Import PathEngine Crl Ocsp Revocation Resolvers TrustList Evidence Timestamp Validation Report.

Local Open Scope Z_scope.

(** ** Certificate metadata *)

Record CertificateMetadata := MkCertificateMetadata {
  cm_subject : string;
  cm_issuer : string;
  cm_common_name : string;
  cm_organization : string;
  cm_country : string;
  cm_tax_id : string;
  cm_serial_number_hex : string
}.

#[export] Instance eta_CertificateMetadata : Eta CertificateMetadata := fun r =>
  MkCertificateMetadata (cm_subject r) (cm_issuer r) (cm_common_name r) (cm_organization r)
  (cm_country r) (cm_tax_id r) (cm_serial_number_hex r).

Definition CertificateMetadata_default : CertificateMetadata :=
  MkCertificateMetadata "" "" "" "" "" "" "".

(** The octets of a name that fit in the address space. *)
Definition name_fits `{Platform} (name : Name_t) : Prop :=
  match name with
  | None => True
  | Some rdns => Forall (Forall (fun atv => fits (atv_value atv))) rdns
  end.

Class MetadataApi `{CertApi, Platform} := {
  (** the octets of [tbsCertificate.serialNumber] *)
  tbs_serial_number : Certificate_t -> bytes;
  tbs_names_fit : forall cert subject issuer, cert_get_tbs_cert cert = Some (subject, issuer) ->
    name_fits subject /\ name_fits issuer
}.

Definition HasSignerCertificateEvidence (report : ValidationReport) : bool :=
  existsb (fun entry : string * EvidenceRecord => er_type entry.2 ==s "signer-certificate")
    (map_to_list (rpt_evidence report)).

Definition CanonicalRevocationStatusString (status : RevocationStatus.t) : string :=
  match status with
  | RevocationStatus.Good => "valid"
  | RevocationStatus.Revoked => "revoked"
  | RevocationStatus.Invalid => "invalid"
  | RevocationStatus.ResponderUnavailable => "temporarily-unavailable"
  | RevocationStatus.Stale => "stale"
  | RevocationStatus.NotChecked => "not-checked"
  | RevocationStatus.Unknown => "unknown"
  end.

Definition CanonicalValidationTimeSource (resolution : SigningTimeResolution)
    (signer_certificate_present : bool) : string :=
  if negb signer_certificate_present then "unknown" else
  match st_source resolution with
  | SigningTimeSource.Rfc3161Timestamp =>
      if st_trusted_time resolution then "trustedTimestamp" else "signingTime"
  | SigningTimeSource.ClaimedSigningTime => "signingTime"
  | _ => "currentTime"
  end.

Definition timestamp_entry_status (result : TimestampEngineResult) : string :=
  let status := match tr_status result with
    | TimestampStatus.Valid => "timestamp-valid"
    | TimestampStatus.Missing | TimestampStatus.NotChecked => "timestamp-not-validated"
    | TimestampStatus.InvalidImprint | TimestampStatus.InvalidSignature
    | TimestampStatus.Unsupported => "timestamp-invalid"
    | _ => "timestamp-partial"
    end in
  let status := if one_of (tr_reason_code result)
      ["TSA_REVOKED"; "TSA_EKU_INVALID"; "TIMESTAMP_TIME_INVALID"; "TSA_CERTIFICATE_TIME_INVALID";
       "TSA_CHAIN_TIME_INVALID"] then "timestamp-invalid" else status in
  if tr_reason_code result ==s "TSA_CERTIFICATE_MISSING" then "timestamp-partial" else status.

Section Projection.
Context `{Clock, Cert : CertApi, !Validators, !TimestampApi, Plat : Platform, !@MetadataApi Cert Plat}.

Definition ExtractCertificateMetadata (certificate_der : bytes) : outcome CertificateMetadata :=
  if is_empty certificate_der then Fails else
  match cert_decode certificate_der with
  | None => Fails
  | Some cert =>
      match cert_get_tbs_cert cert with
      | None => Fails
      | Some (subject, issuer) =>
          subject_text ← FormatNameRfc4514 subject;
          issuer_text ← FormatNameRfc4514 issuer;
          attributes ← CollectNameAttributes subject;
          Ret (MkCertificateMetadata subject_text issuer_text
            (FirstNameAttributeValue attributes ["CN"; "2.5.4.3"])
            (FirstNameAttributeValue attributes ["O"; "2.5.4.10"])
            (FirstNameAttributeValue attributes ["C"; "2.5.4.6"])
            (FirstNameAttributeValue attributes ["DRFO"; "EDRPOU"; "SERIALNUMBER"; "UID";
               "1.2.804.2.1.1.1.11.1.4"; "1.2.804.2.1.1.1.11.1.5"; "2.5.4.5"])
            (Hex.HexEncode (tbs_serial_number cert)))
      end
  end.

(** ** [ProjectTimestampResult] *)

Definition timestamp_entry (result : TimestampEngineResult) : TimestampEntry :=
  TimestampEntry_default <| te_valid := tr_valid result |>
    <| te_policy_acceptable := tr_policy_acceptable result |>
    <| te_crypto_valid := tr_crypto_valid result |> <| te_gen_time_valid := tr_gen_time_valid result |>
    <| te_certificate_time_valid := tr_certificate_time_valid result |>
    <| te_eku_valid := tr_eku_valid result |> <| te_trust_valid := tr_trust_valid result |>
    <| te_revocation_checked := tr_revocation_checked result |>
    <| te_historical_trust_used := tr_historical_trust_used result |>
    <| te_ocsp_attempted := tr_ocsp_attempted result |> <| te_crl_attempted := tr_crl_attempted result |>
    <| te_gen_time := tr_gen_time result |> <| te_validation_time := tr_validation_time result |>
    <| te_reason_code := tr_reason_code result |> <| te_trust_source := tr_trust_source result |>
    <| te_revocation_status := CanonicalRevocationStatusString (tr_revocation_status result) |>
    <| te_because := tr_because result |> <| te_warnings := tr_warnings result |>
    <| te_limitations := tr_limitations result |> <| te_evidence_ids := tr_evidence_ids result |>
    <| te_status := timestamp_entry_status result |>.

Definition ProjectTimestampResult (result : TimestampEngineResult) : outcome TimestampEntry :=
  let entry := timestamp_entry result in
  if is_empty (tr_tsa_certificate_der result) then Ret entry else
  let entry := entry <| te_tsa_fingerprint_sha256 := LowerHex (Sha256 (tr_tsa_certificate_der result)) |> in
  match ExtractCertificateMetadata (tr_tsa_certificate_der result) with
  | UB => UB
  | Fails => Ret entry
  | Ret metadata =>
      Ret (entry <| te_tsa_subject := cm_subject metadata |> <| te_tsa_issuer := cm_issuer metadata |>
             <| te_tsa_serial := cm_serial_number_hex metadata |>)
  end.

(** ** [ProjectVerifyReport] *)

Definition path_selected (report : ValidationReport) : bool :=
  match ps_selected_index (rpt_path_selection report) with Some _ => true | None => false end.

Definition report_path_trusted (report : ValidationReport) : bool :=
  path_selected report && pr_trusted (ps_selected_result (rpt_path_selection report)).

(** The fields on the chain, the trusted list and the revocation attempts. *)
Definition project_trust (ve_report : ValidationReport) : VerifyReport :=
  let decision := rpt_decision ve_report in
  let selected := ps_selected_result (rpt_path_selection ve_report) in
  let rev := rpt_signer_revocation ve_report in
  let signer_certificate_present := HasSignerCertificateEvidence ve_report in
  let report := VerifyReport_default
    <| vr_signature_valid := vd_signature_valid decision |>
    <| vr_signer_certificate_present := signer_certificate_present |>
    <| vr_chain_checked := path_selected ve_report |>
    <| vr_chain_valid := report_path_trusted ve_report |>
    <| vr_chain_debug := pr_chain_debug selected |>
    <| vr_certificate_time_valid := path_selected ve_report && pr_signer_certificate_time_valid selected |>
    <| vr_validation_time_source :=
         CanonicalValidationTimeSource (rpt_signing_time_resolution ve_report) signer_certificate_present |>
    <| vr_trust_checked := true |> <| vr_trust_valid := vd_trust_valid decision |>
    <| vr_revocation_checked := rr_ocsp_attempted rev || rr_crl_attempted rev |>
    <| vr_ocsp_checked := rr_ocsp_attempted rev |>
    <| vr_revocation_status := CanonicalRevocationStatusString (rr_revocation_status rev) |> in
  let uses_historical := report_path_trusted ve_report && pr_uses_historical_trust selected in
  let report := report <| vr_historical_trust_used := uses_historical |>
    <| vr_trust_mode := if uses_historical then "historical" else "strict" |> in
  let report := if uses_historical && negb (is_empty (pr_signer_issuer_certificate_der selected))
    then report <| vr_historical_anchor_subject := pr_trust_anchor_source selected |> else report in
  let report := if ts_checked (rpt_trust_service ve_report) then
      let report := report <| vr_trust_list_checked := true |>
                           <| vr_trust_list_cache_status := "snapshot" |> in
      if str_empty (ts_snapshot_evidence_id (rpt_trust_service ve_report)) then report
      else report <| vr_trust_list_source := ts_snapshot_evidence_id (rpt_trust_service ve_report) |>
    else report in
  report <| vr_trust_status := vd_trust_status decision |> <| vr_trust_reason := vd_trust_reason decision |>.

(** The effect of the revocation verdict. *)
Definition project_revocation (ve_report : ValidationReport) (report : VerifyReport) : VerifyReport :=
  let rev := rpt_signer_revocation ve_report in
  let revocation_defeats_trust := negb (bool_decide (rr_overall_status rev = OverallStatus.Valid)) in
  let revoked := bool_decide (rr_revocation_status rev = RevocationStatus.Revoked) in
  if revocation_defeats_trust && bool_decide (rr_revocation_status rev = RevocationStatus.Invalid) then
    let report := report <| vr_trust_valid := false |> <| vr_trust_status := "revocation-check-invalid" |>
      <| vr_error_code := ErrorCode.RevocationCheckFailed |> in
    match rr_because rev with
    | [] => report
    | first :: _ => report <| vr_message := first |>
    end
  else if revocation_defeats_trust && revoked then
    report <| vr_trust_valid := false |> <| vr_trust_status := "certificate-revoked" |>
      <| vr_error_code := ErrorCode.RevocationCheckFailed |>
      <| vr_message := "Certificate is revoked by CRL policy." |>
  else if revoked then
    match rr_warnings rev, rr_because rev with
    | first :: _, _ => report <| vr_message := first |>
    | [], first :: _ => report <| vr_message := first |>
    | [], [] => report
    end
  else report.

Definition project_timestamp (ve_report : ValidationReport) (report : VerifyReport)
    : outcome VerifyReport :=
  if rpt_timestamp_attempted ve_report then
    entry ← ProjectTimestampResult (rpt_timestamp ve_report);
    let report := report <| vr_timestamp_details ::= fun l => l ++ [entry] |>
      <| vr_timestamp_checked := true |> <| vr_timestamp_valid := tr_valid (rpt_timestamp ve_report) |>
      <| vr_tsp_checked := true |>
      <| vr_timestamp_status := match tr_status (rpt_timestamp ve_report) with
           | TimestampStatus.Valid => "timestamp-valid"
           | TimestampStatus.InvalidImprint | TimestampStatus.InvalidSignature
           | TimestampStatus.Unsupported => "timestamp-invalid"
           | TimestampStatus.UntrustedTsa | TimestampStatus.TsaExpired => "timestamp-partial"
           | TimestampStatus.NotChecked | TimestampStatus.Missing => "timestamp-not-validated"
           end |> in
    Ret (ApplyTimestampDetailsVerdict report)
  else Ret (report <| vr_timestamp_status := "timestamp-not-validated" |>).

Definition project_error (decision : ValidationDecision) (report : VerifyReport) : VerifyReport :=
  let unset := bool_decide (vr_error_code report = ErrorCode.None) in
  match vd_overall_status decision with
  | OverallStatus.Valid | OverallStatus.IntegrityOnly => report
  | OverallStatus.Indeterminate =>
      if negb (vd_trust_valid decision) && unset
      then report <| vr_error_code := TrustFailureErrorCode report |> else report
  | OverallStatus.Invalid =>
      if vr_revocation_status report ==s "revoked"
      then report <| vr_error_code := ErrorCode.RevocationCheckFailed |>
      else if unset then report <| vr_error_code := ErrorCode.InvalidArgument |> else report
  end.

Definition ProjectVerifyReport (ve_report : ValidationReport) : outcome VerifyReport :=
  report ← project_timestamp ve_report (project_revocation ve_report (project_trust ve_report));
  Ret (project_error (rpt_decision ve_report) report).

(** ** [ApplyValidationEngineReport] *)

Definition copy_projected (projected report : VerifyReport) : VerifyReport :=
  let report := report
    <| vr_signer_certificate_present := vr_signer_certificate_present projected |>
    <| vr_certificate_time_valid := vr_certificate_time_valid projected |>
    <| vr_validation_time_source := vr_validation_time_source projected |>
    <| vr_chain_checked := vr_chain_checked projected |> <| vr_chain_valid := vr_chain_valid projected |>
    <| vr_chain_debug := vr_chain_debug projected |>
    <| vr_trust_checked := vr_trust_checked projected |> <| vr_trust_valid := vr_trust_valid projected |>
    <| vr_trust_status := vr_trust_status projected |> <| vr_trust_reason := vr_trust_reason projected |>
    <| vr_trust_mode := vr_trust_mode projected |>
    <| vr_historical_trust_used := vr_historical_trust_used projected |>
    <| vr_historical_anchor_subject := vr_historical_anchor_subject projected |>
    <| vr_historical_anchor_serial := vr_historical_anchor_serial projected |>
    <| vr_trust_list_checked := vr_trust_list_checked projected |>
    <| vr_trust_list_cache_status := vr_trust_list_cache_status projected |>
    <| vr_trust_list_source := vr_trust_list_source projected |>
    <| vr_revocation_checked := vr_revocation_checked projected |>
    <| vr_ocsp_checked := vr_ocsp_checked projected |>
    <| vr_revocation_status := vr_revocation_status projected |>
    <| vr_timestamp_checked := vr_timestamp_checked projected |>
    <| vr_timestamp_valid := vr_timestamp_valid projected |>
    <| vr_tsp_checked := vr_tsp_checked projected |>
    <| vr_timestamp_status := vr_timestamp_status projected |>
    <| vr_timestamp_details := vr_timestamp_details projected |>
    <| vr_error_code := vr_error_code projected |> in
  if str_empty (vr_message projected) then report
  else report <| vr_message := vr_message projected |>.

Definition ApplyValidationEngineReport (ve_report : ValidationReport) (report : VerifyReport)
    : outcome VerifyReport :=
  projected ← ProjectVerifyReport ve_report;
  Ret (copy_projected projected report).

(** ** Totality *)

Lemma sequence_total {A B} (f : A -> outcome B) (l : list A) :
  Forall (fun a => exists b, f a = Ret b) l -> exists bs, sequence f l = Ret bs.
Proof.
  induction 1 as [|a l [b Hb] _ [bs Hbs]]; [by eexists|].
  cbn. unfold mbind, outcome_bind. rewrite Hb, Hbs. by eexists.
Qed.

Lemma format_atv_total (atv : AttributeTypeAndValue) :
  fits (atv_value atv) -> exists s, format_atv atv = Ret s.
Proof.
  intros Hf. unfold format_atv. destruct (ExtractDerStringValue_safe (atv_value atv) 0 Hf) as [s Hs]; [done|].
  unfold mbind, outcome_bind. rewrite Hs. destruct (LookupOidShortName _); by eexists.
Qed.

Lemma FormatNameRfc4514_total (name : Name_t) : name_fits name -> exists s, FormatNameRfc4514 name = Ret s.
Proof.
  destruct name as [rdns|]; [|by eexists]. cbn. intros Hf.
  destruct (sequence_total (sequence format_atv) rdns) as [bs Hbs].
  - eapply Forall_impl; [exact Hf|]. intros rdn Hr. apply sequence_total.
    eapply Forall_impl; [exact Hr|]. intros atv. apply format_atv_total.
  - unfold mbind, outcome_bind. rewrite Hbs. by eexists.
Qed.

Lemma CollectNameAttributes_total (name : Name_t) :
  name_fits name -> exists l, CollectNameAttributes name = Ret l.
Proof.
  destruct name as [rdns|]; [|by eexists]. cbn. intros Hf. apply sequence_total.
  apply Forall_concat. eapply Forall_impl; [exact Hf|]. intros rdn Hr.
  eapply Forall_impl; [exact Hr|]. intros atv Ha. unfold name_attribute.
  destruct (ExtractDerStringValue_safe (atv_value atv) 0 Ha) as [s Hs]; [done|].
  unfold mbind, outcome_bind. rewrite Hs. by eexists.
Qed.

Lemma ExtractCertificateMetadata_safe (der : bytes) : ExtractCertificateMetadata der <> UB.
Proof.
  unfold ExtractCertificateMetadata. destruct (is_empty der); [done|].
  destruct (cert_decode der) as [cert|]; [|done].
  destruct (cert_get_tbs_cert cert) as [[subject issuer]|] eqn:E; [|done].
  destruct (tbs_names_fit cert subject issuer E) as [Hs Hi].
  destruct (FormatNameRfc4514_total subject Hs) as [s Es].
  destruct (FormatNameRfc4514_total issuer Hi) as [t Et].
  destruct (CollectNameAttributes_total subject Hs) as [l El].
  unfold mbind, outcome_bind. by rewrite Es, Et, El.
Qed.

(** The verdict of an entry is that of the engine's result. *)
Lemma ProjectTimestampResult_spec (result : TimestampEngineResult) :
  exists e, ProjectTimestampResult result = Ret e /\ te_valid e = tr_valid result /\
    te_policy_acceptable e = tr_policy_acceptable result /\ te_status e = timestamp_entry_status result.
Proof.
  unfold ProjectTimestampResult. destruct (is_empty _); [by eexists|].
  pose proof (ExtractCertificateMetadata_safe (tr_tsa_certificate_der result)) as Hs.
  destruct (ExtractCertificateMetadata _); [by eexists..|done].
Qed.

(** ** What the projection preserves *)

(** The revocation verdict that takes trust away. *)
Definition denied_by (ve : ValidationReport) : option string :=
  let rev := rpt_signer_revocation ve in
  if bool_decide (rr_overall_status rev = OverallStatus.Valid) then None else
  match rr_revocation_status rev with
  | RevocationStatus.Invalid => Some "revocation-check-invalid"
  | RevocationStatus.Revoked => Some "certificate-revoked"
  | _ => None
  end.

(** The fields of a report that carry verdicts. *)
Definition verdict (r : VerifyReport) :=
  (vr_trust_checked r, vr_trust_valid r, vr_trust_status r, vr_revocation_checked r,
   vr_revocation_status r, vr_historical_trust_used r, vr_certificate_time_valid r).
Definition timestamp_verdict (r : VerifyReport) :=
  (vr_timestamp_details r, vr_timestamp_checked r, vr_timestamp_valid r, vr_timestamp_status r).

Lemma project_trust_verdict (ve : ValidationReport) :
  verdict (project_trust ve) =
    (true, vd_trust_valid (rpt_decision ve), vd_trust_status (rpt_decision ve),
     rr_ocsp_attempted (rpt_signer_revocation ve) || rr_crl_attempted (rpt_signer_revocation ve),
     CanonicalRevocationStatusString (rr_revocation_status (rpt_signer_revocation ve)),
     report_path_trusted ve && pr_uses_historical_trust (ps_selected_result (rpt_path_selection ve)),
     path_selected ve && pr_signer_certificate_time_valid (ps_selected_result (rpt_path_selection ve))) /\
  timestamp_verdict (project_trust ve) = ([], false, false, "timestamp-not-validated").
Proof.
  unfold project_trust. destruct (_ && negb _), (ts_checked _);
    try destruct (str_empty (ts_snapshot_evidence_id _)); done.
Qed.

Lemma project_revocation_verdict (ve : ValidationReport) (r : VerifyReport) :
  verdict (project_revocation ve r) =
    (vr_trust_checked r,
     match denied_by ve with Some _ => false | None => vr_trust_valid r end,
     match denied_by ve with Some status => status | None => vr_trust_status r end,
     vr_revocation_checked r, vr_revocation_status r, vr_historical_trust_used r,
     vr_certificate_time_valid r) /\
  timestamp_verdict (project_revocation ve r) = timestamp_verdict r.
Proof.
  unfold project_revocation, denied_by.
  destruct (bool_decide (rr_overall_status _ = _)), (rr_revocation_status _); cbn -[verdict timestamp_verdict];
    destruct (rr_because _), (rr_warnings _); done.
Qed.

Lemma project_error_verdict (d : ValidationDecision) (r : VerifyReport) :
  verdict (project_error d r) = verdict r /\ timestamp_verdict (project_error d r) = timestamp_verdict r.
Proof.
  unfold project_error. destruct (vd_overall_status d); repeat case_match; done.
Qed.

Definition timestamp_summary (result : TimestampEngineResult) : string :=
  if timestamp_entry_status result ==s "timestamp-invalid" then "timestamp-invalid"
  else if tr_valid result && (timestamp_entry_status result ==s "timestamp-valid")
  then "timestamp-valid" else "timestamp-partial".

Lemma project_timestamp_verdict (ve : ValidationReport) (r : VerifyReport) :
  vr_timestamp_details r = [] ->
  exists r', project_timestamp ve r = Ret r' /\ verdict r' = verdict r /\
    if rpt_timestamp_attempted ve then
      exists e, te_valid e = tr_valid (rpt_timestamp ve) /\
        te_policy_acceptable e = tr_policy_acceptable (rpt_timestamp ve) /\
        timestamp_verdict r' =
          ([e], true, bool_decide (timestamp_summary (rpt_timestamp ve) = "timestamp-valid"),
           timestamp_summary (rpt_timestamp ve))
    else timestamp_verdict r' =
      ([], vr_timestamp_checked r, vr_timestamp_valid r, "timestamp-not-validated").
Proof.
  intros Hd. unfold project_timestamp. destruct (rpt_timestamp_attempted ve); [|by rewrite <- Hd; eexists].
  destruct (ProjectTimestampResult_spec (rpt_timestamp ve)) as (e & He & Hv & Ha & Hs).
  unfold mbind, outcome_bind. rewrite He.
  unfold ApplyTimestampDetailsVerdict. cbn [vr_timestamp_details setter]. rewrite Hd. cbn [app].
  rewrite details_verdict_spec. cbn [forallb existsb]. rewrite Hv, Hs, andb_true_r, orb_false_r.
  eexists. split; [done|]. split; [done|]. exists e. split; [done|]. split; [done|].
  unfold timestamp_verdict, timestamp_summary. cbn [vr_timestamp_details vr_timestamp_checked
    vr_timestamp_valid vr_timestamp_status setter]. rewrite Hd.
  destruct (timestamp_entry_status _ ==s "timestamp-invalid") eqn:E1.
  - cbn. by rewrite andb_false_r.
  - destruct (tr_valid _ && _); done.
Qed.

(** The report after [ApplyValidationEngineReport]. *)
Lemma Apply_verdict (ve : ValidationReport) (base : VerifyReport) :
  exists r, ApplyValidationEngineReport ve base = Ret r /\
    (vr_has_result r = vr_has_result base /\ vr_execution_succeeded r = vr_execution_succeeded base /\
     vr_signature_valid r = vr_signature_valid base /\
     vr_container_malformed r = vr_container_malformed base /\
     vr_container_coverage_complete r = vr_container_coverage_complete base) /\
    verdict r =
      (true,
       match denied_by ve with Some _ => false | None => vd_trust_valid (rpt_decision ve) end,
       match denied_by ve with Some status => status | None => vd_trust_status (rpt_decision ve) end,
       rr_ocsp_attempted (rpt_signer_revocation ve) || rr_crl_attempted (rpt_signer_revocation ve),
       CanonicalRevocationStatusString (rr_revocation_status (rpt_signer_revocation ve)),
       report_path_trusted ve && pr_uses_historical_trust (ps_selected_result (rpt_path_selection ve)),
       path_selected ve && pr_signer_certificate_time_valid (ps_selected_result (rpt_path_selection ve))) /\
    if rpt_timestamp_attempted ve then
      exists e, te_valid e = tr_valid (rpt_timestamp ve) /\
        te_policy_acceptable e = tr_policy_acceptable (rpt_timestamp ve) /\
        timestamp_verdict r =
          ([e], true, bool_decide (timestamp_summary (rpt_timestamp ve) = "timestamp-valid"),
           timestamp_summary (rpt_timestamp ve))
    else timestamp_verdict r = ([], false, false, "timestamp-not-validated").
Proof.
  unfold ApplyValidationEngineReport, ProjectVerifyReport.
  destruct (project_trust_verdict ve) as [Ht Hts]. set (r0 := project_trust ve) in *. clearbody r0.
  destruct (project_revocation_verdict ve r0) as [Hr Hrts].
  set (r1 := project_revocation ve r0) in *. clearbody r1. rewrite Hts in Hrts.
  injection Ht as E1 E2 E3 E4 E5 E6 E7. rewrite E1, E2, E3, E4, E5, E6, E7 in Hr.
  pose proof Hrts as [= Hd Hc Hv _].
  destruct (project_timestamp_verdict ve r1 Hd) as (r2 & E & Hr2 & Ht2).
  unfold mbind, outcome_bind. rewrite E. eexists. split; [done|].
  destruct (project_error_verdict (rpt_decision ve) r2) as [Hr3 Ht3].
  set (r3 := project_error _ r2) in *. clearbody r3. unfold copy_projected.
  split; [by destruct (str_empty _)|]. rewrite <- Hr, <- Hr2, <- Hr3.
  split; [by destruct (str_empty _)|].
  rewrite <- Ht3, Hc, Hv in Ht2. destruct (rpt_timestamp_attempted ve).
  - destruct Ht2 as (e & ? & ? & Hts3). exists e. split; [done|]. split; [done|].
    rewrite <- Hts3. by destruct (str_empty _).
  - rewrite <- Ht2. by destruct (str_empty _).
Qed.
End Projection.

(** ** The public report and the decision of the engine *)

(** A report that has been executed on an intact container with a verified signature. *)
Record Committed (base : VerifyReport) : Prop := {
  cb_result : vr_has_result base = true /\ vr_execution_succeeded base = true;
  cb_signature : vr_signature_valid base = true;
  cb_container : vr_container_malformed base = false /\ vr_container_coverage_complete base = true
}.

(** What the timestamp must be for the public policy decision. *)
Definition timestamp_acceptable (ve : ValidationReport) : Prop :=
  rpt_timestamp_attempted ve = true ->
  timestamp_entry_status (rpt_timestamp ve) <> "timestamp-invalid" /\
  (tr_valid (rpt_timestamp ve) = true \/ tr_policy_acceptable (rpt_timestamp ve) = true).

Section Agreement.
Context `{Clock, !Platform, !CertApi, !Validators, !TimestampApi, !StoreApi, !LibXml, !MetadataApi}.
Context (disk : Disk) (context : ValidationContext) (signer : bytes) (embedded : list bytes).
Let ve : ValidationReport := (Validation.Validate disk context signer embedded).1.

Lemma good_revocation :
  rr_revocation_status (rpt_signer_revocation ve) = RevocationStatus.Good ->
  rr_overall_status (rpt_signer_revocation ve) = OverallStatus.Valid /\
  rr_ocsp_attempted (rpt_signer_revocation ve) || rr_crl_attempted (rpt_signer_revocation ve) = true.
Proof.
  destruct (Validate_findings disk context signer embedded) as (_ & _ & Hrev & _). fold ve in Hrev.
  intros Hg. destruct (is_empty signer); [congruence|]. destruct Hrev as (i & Hi & _). rewrite Hi in Hg |- *.
  split; [by apply overall_good|]. apply conclusive_attempted. by rewrite Hg.
Qed.

(** Trust with a good revocation status and an acceptable timestamp is the status [Valid]. *)
Lemma trust_good_valid :
  vd_trust_valid (rpt_decision ve) = true ->
  rr_revocation_status (rpt_signer_revocation ve) = RevocationStatus.Good ->
  (rpt_timestamp_attempted ve = true ->
   tr_valid (rpt_timestamp ve) = true \/ tr_policy_acceptable (rpt_timestamp ve) = true) ->
  vd_overall_status (rpt_decision ve) = OverallStatus.Valid.
Proof.
  intros Ht Hg Hts. destruct (good_revocation Hg) as [Ho _].
  destruct (Validate_findings disk context signer embedded) as ([[= Hov Htv _ _ _] _] & _ & _ & Hst).
  fold ve in Hov, Htv, Hst |- *. set (f := findings_of _ _ _) in Hov, Htv. rewrite Htv in Ht.
  rewrite trust_valid_exact, !andb_true_iff, !negb_true_iff in Ht.
  destruct Ht as [[[Hc Hb] Hr] [Hp Hs]]. rewrite Hov, overall_status_exact.
  unfold overall_status. rewrite Hc, Hb, Hr, Hp, Hs. cbn [negb andb].
  assert (hard_fail_hit f = false) as ->.
  { unfold hard_fail_hit. cbn. rewrite Ho. done. }
  assert (timestamp_hit f = false) as ->; [|done].
  unfold timestamp_hit. cbn. destruct (rpt_timestamp_attempted ve); [|done].
  destruct (Hst eq_refl) as (d & i & Ei & Ep). destruct (run_spec d i) as (_ & _ & Ha & _).
  rewrite <- Ei, Ep in Ha. destruct (tr_valid (rpt_timestamp ve)); [done|].
  destruct (Hts eq_refl) as [?|[|[_ Hq%negb_true_iff]%andb_true_iff]%Ha]; [done..|]. by rewrite Hq.
Qed.

(** A valid decision claims trust. *)
Lemma engine_valid_trust :
  vd_overall_status (rpt_decision ve) = OverallStatus.Valid ->
  vd_trust_valid (rpt_decision ve) = true /\
  vd_trust_status (rpt_decision ve) = "trusted-anchor-validated".
Proof.
  destruct (Validate_findings disk context signer embedded) as ([[= Hov Htv _ _ _] Hst] & _).
  fold ve in Hov, Htv, Hst |- *. rewrite Hov, Htv, Hst. set (f := findings_of _ _ _). intros Hv.
  assert (vd_trust_valid (SynthesizeDecision f) = true) as E; [|by split; [|apply trust_status_trusted]].
  rewrite overall_status_exact in Hv. unfold overall_status in Hv. rewrite trust_valid_exact.
  destruct (fd_signature_crypto_valid f); [|done]. destruct (is_basic f); [done|].
  destruct (revoked_before f); [done|]. cbn [negb andb] in *.
  destruct (path_trusted f && service_level_ok f); [done|]. by rewrite orb_true_r in Hv.
Qed.

Lemma revocation_text_good (s : RevocationStatus.t) :
  (CanonicalRevocationStatusString s = "good" \/ CanonicalRevocationStatusString s = "valid") <->
  s = RevocationStatus.Good.
Proof. destruct s; cbn; intuition congruence. Qed.

(** The policy decision of the public report, exactly. *)
Lemma projected_agreement (base : VerifyReport) :
  Committed base ->
  exists r, ApplyValidationEngineReport ve base = Ret r /\ vr_has_result r = true /\
    (vpd_valid (ComputeVerifyPolicyDecision r) = true <->
     vd_overall_status (rpt_decision ve) = OverallStatus.Valid /\
     rr_revocation_status (rpt_signer_revocation ve) = RevocationStatus.Good /\
     timestamp_acceptable ve).
Proof.
  intros [[Hbh Hbe] Hbs _].
  destruct (Apply_verdict ve base) as (r & Hr & (Eh & Ee & Es & _) & [= Hc Ht Hst Hrc Hrs _ _] & Hts).
  exists r. split; [done|]. split; [by rewrite Eh|]. rewrite policy_valid_iff. unfold timestamp_acceptable. split.
  - intros [_ _ [_ Htv] [_ Hrev] Htst Hd _]. rewrite Hrs, revocation_text_good in Hrev.
    destruct (good_revocation Hrev) as [Ho _]. unfold denied_by in Ht.
    rewrite Ho in Ht. cbn in Ht. rewrite Htv in Ht.
    assert (rpt_timestamp_attempted ve = true ->
      timestamp_entry_status (rpt_timestamp ve) <> "timestamp-invalid" /\
      (tr_valid (rpt_timestamp ve) = true \/ tr_policy_acceptable (rpt_timestamp ve) = true)) as Ha.
    { intros Ha. rewrite Ha in Hts. destruct Hts as (e & Hev & Hea & [= Hde _ _ Hse]).
      rewrite Hde, Forall_singleton, Hev, Hea in Hd. split; [|done].
      rewrite Hse in Htst. unfold timestamp_summary in Htst. intros E. by rewrite E in Htst. }
    split; [|done]. apply trust_good_valid; [done..|]. intros Hat. by apply Ha.
  - intros (Hv & Hg & Ha). destruct (good_revocation Hg) as [Ho Hat].
    destruct (engine_valid_trust Hv) as [Hdt Hds]. unfold denied_by in Ht, Hst.
    rewrite Ho in Ht, Hst. cbn in Ht, Hst. split.
    + by rewrite Eh, Ee.
    + by rewrite Es.
    + by rewrite Hc, Ht.
    + rewrite Hrc, Hrs. by rewrite revocation_text_good.
    + destruct (rpt_timestamp_attempted ve).
      * destruct Hts as (e & _ & _ & [= _ _ _ ->]). destruct (Ha eq_refl) as [Hne _].
        unfold timestamp_summary. apply String.eqb_neq in Hne. rewrite Hne. by destruct (_ && _).
      * by injection Hts as _ _ _ ->.
    + destruct (rpt_timestamp_attempted ve).
      * destruct Hts as (e & Hev & Hea & [= -> _ _ _]). rewrite Forall_singleton, Hev, Hea.
        by apply Ha.
      * by injection Hts as -> _ _ _.
    + rewrite Hst, Hds, !not_elem_of_cons. repeat split; [done..|]. apply not_elem_of_nil.
Qed.

(** What a summary "valid" adds to a valid policy decision: a timestamp is fully valid, and the trust is current. *)
Lemma projected_summary (base r : VerifyReport) :
  ApplyValidationEngineReport ve base = Ret r -> ck_status (SummaryCheck r) = "valid" ->
  (rpt_timestamp_attempted ve = true ->
   tr_valid (rpt_timestamp ve) = true /\ timestamp_entry_status (rpt_timestamp ve) = "timestamp-valid") /\
  (report_path_trusted ve = true -> pr_uses_historical_trust (ps_selected_result (rpt_path_selection ve)) = false).
Proof.
  intros Hr (Hg & _ & _ & Hh & Hp)%SummaryCheck_valid_iff.
  destruct (Apply_verdict ve base) as (r' & Hr' & _ & [= _ _ _ _ _ Hhist _] & Hts). rewrite Hr in Hr'. injection Hr' as <-.
  rewrite Hhist in Hh. split; [|by intros Ht; rewrite Ht in Hh]. intros Ha. rewrite Ha in Hts. destruct Hts as (e & _ & _ & [= _ _ _ Hs]).
  pose proof (pg_timestamp _ Hg) as Hinv. rewrite Hs in Hp, Hinv. unfold timestamp_summary in Hp, Hinv.
  destruct (timestamp_entry_status _ ==s "timestamp-invalid"); [done|].
  destruct (tr_valid _); [|done]. destruct (String.eqb_spec (timestamp_entry_status (rpt_timestamp ve)) "timestamp-valid"); done.
Qed.

(** [C36] The public report and the engine agree: applied to a committed report, the projection of
    a run always yields a report, and its policy decision is valid exactly when the engine's
    overall status is [Valid], the revocation status is [Good] and every timestamp is valid or
    acceptable to the policy.  The public report never accepts what the engine refused. *)
Theorem projected_policy_exact (base : VerifyReport) :
  Committed base ->
  exists r, ApplyValidationEngineReport ve base = Ret r /\
    (vpd_valid (ComputeVerifyPolicyDecision r) = true <->
     vd_overall_status (rpt_decision ve) = OverallStatus.Valid /\
     rr_revocation_status (rpt_signer_revocation ve) = RevocationStatus.Good /\
     timestamp_acceptable ve).
Proof.
  intros Hb. destruct (projected_agreement base Hb) as (r & Hr & _ & Hp). by exists r.
Qed.

(** A decision [Valid] of the engine whose revocation status is not [Good] is denied by the
    public report.  In particular a certificate revoked only after the moment of evaluation,
    which the engine accepts, is reported as an invalid signature with the code
    [CERTIFICATE_REVOKED], although the projection keeps the trust flag. *)
Theorem later_revocation_reported_invalid (base : VerifyReport) :
  Committed base ->
  vd_overall_status (rpt_decision ve) = OverallStatus.Valid ->
  rr_revocation_status (rpt_signer_revocation ve) = RevocationStatus.Revoked ->
  exists r, ApplyValidationEngineReport ve base = Ret r /\ vr_trust_valid r = true /\
    SummaryCheck r = MkVerifyCheck "invalid" "CERTIFICATE_REVOKED" /\
    ck_status (PolicyCheck r) = "invalid".
Proof.
  intros [[Hbh Hbe] Hbs [Hbm Hbc]] Hv Hrev.
  destruct (Apply_verdict ve base) as (r & Hr & (Eh & Ee & Es & Em & Ec) & [= _ Ht _ _ Hrs _ _] & _).
  exists r. split; [done|]. destruct (engine_valid_trust Hv) as [Hdt _].
  pose proof (valid_grounds disk context signer embedded Hv) as [_ _ _ (i & Hi & _ & _ & Hni & _) _].
  fold ve in Hi. assert (denied_by ve = None) as Hd.
  { unfold denied_by. rewrite Hi in Hrev |- *. by rewrite (later_valid i Hrev Hni). }
  rewrite Hd in Ht. split; [by rewrite Ht|].
  assert (vpd_valid (ComputeVerifyPolicyDecision r) = false) as Hp.
  { apply not_true_is_false. intros [_ _ _ [_ Hg] _ _ _]%policy_valid_iff.
    rewrite Hrs, revocation_text_good in Hg. congruence. }
  unfold SummaryCheck, PolicyCheck. rewrite Hp, Eh, Ee, Es, Em, Ec, Hbh, Hbe, Hbs, Hbm, Hbc, Hrs, Hrev. done.
Qed.

End Agreement.

Section Witness.
#[local] Existing Instance toy_clock.
#[local] Existing Instance toy_cert_api.
#[local] Existing Instance toy_crl_api.
#[local] Existing Instance toy_ocsp_api.
#[local] Existing Instance toy_http.
#[local] Existing Instance toy_timestamp_api.
#[local] Existing Instance toy_store_api.
#[local] Existing Instance toy_libxml.

Lemma toy_names_fit (cert : Certificate_t) (subject issuer : Name_t) :
  cert_get_tbs_cert cert = Some (subject, issuer) -> name_fits subject /\ name_fits issuer.
Proof. intros [= <- <-]. split; repeat constructor; by vm_compute. Qed.

Definition toy_metadata_api : MetadataApi :=
  {| tbs_serial_number _ := [x2a]; tbs_names_fit := toy_names_fit |}.
#[local] Existing Instance toy_metadata_api.

Definition toy_base : VerifyReport :=
  CommitVerifyOutcome MakeClearedVerifyReport (MkVerifyOutcome "VerifyData" true true ErrorCode.None "").

Lemma toy_base_committed : Committed toy_base.
Proof. by split. Defined.

(** Evaluated at 300 seconds, with a response that says "revoked at 400". *)
Definition toy_later_context : ValidationContext :=
  toy_context <| vc_verification_time := "1970-01-01T00:05:00Z" |>
    <| vc_embedded_revocation_ocsp_der := [[x00; x02; x2a; x01]] |>.

Lemma later_revocation_reported_invalid_witness :
  exists r, ApplyValidationEngineReport
      (Validation.Validate (H3 := toy_timestamp_api) tt toy_later_context toy_leaf [toy_ca]).1 toy_base = Ret r /\
    SummaryCheck r = MkVerifyCheck "invalid" "CERTIFICATE_REVOKED".
Proof.
  destruct (later_revocation_reported_invalid (H3 := toy_timestamp_api) tt toy_later_context toy_leaf [toy_ca]
    toy_base toy_base_committed) as (r & Hr & _ & Hs & _).
  - vm_compute. reflexivity.
  - vm_compute. reflexivity.
  - exists r. split; [exact Hr | exact Hs].
Defined.

Lemma projected_policy_exact_witness :
  exists r, ApplyValidationEngineReport
      (Validation.Validate (H3 := toy_timestamp_api) tt toy_context toy_leaf [toy_ca]).1 toy_base = Ret r /\
    vpd_valid (ComputeVerifyPolicyDecision r) = true.
Proof.
  destruct (projected_policy_exact (H3 := toy_timestamp_api) tt toy_context toy_leaf [toy_ca]
    toy_base toy_base_committed) as (r & Hr & Hv).
  exists r. split; [exact Hr|]. apply Hv. split; [vm_compute; reflexivity|].
  split; [vm_compute; reflexivity|]. intros Ha. vm_compute in Ha. discriminate Ha.
Defined.
End Witness.
