(* ===== verification/ReportJson.v ===== *)
(** * ReportJson: the two JSON reports of a verification

    The technical report ([Session::GetLastVerifyReport] in
    src/src/lib/core/session/SessionCertificateOps.ipp) and the user report
    ([UserReportBuilder::Build]), with the sections they share
    (src/src/lib/core/policy/VerifyReportJson.cpp).

    A writer appends to a [std::ostringstream]; here it gives the text it
    appends.  In a literal of the source written with [raw], the sign ['] stands
    for the (escaped) double quote; no literal contains the sign itself.

    The theorems give the document each report is the text of. *)

From S2P Require Import Prelude CxxString Types Json Report Projection.

Local Open Scope Z_scope.

(** ** Stream output *)

Definition raw (s : string) : list ascii :=
  map (fun c => if Ascii.eqb c "'" then quote else c) (chars s).
Definition esc (s : string) : list ascii := escape_chars (chars s).
Definition boolj (b : bool) : list ascii := chars (BoolJson b).
Definition num (z : Z) : list ascii := chars (to_string z).
Definition out (s : string) : list ascii := chars s.

(** [bool first = true; for (...) { if (!first) json << ","; first = false; ... }]. *)
Fixpoint separated {A} (write : A -> list ascii) (l : list A) (first : bool) : list ascii :=
  match l with
  | [] => []
  | x :: l' => (if first then [] else [","%char]) ++ write x ++ separated write l' false
  end.

(** ** [VerifyReportJson] *)

Inductive MessageStyle := NoMessage | Bilingual.

Record FormatFallbacks := MkFormatFallbacks { ff_signature_format : string; ff_container_type : string }.

(** Pointers to optional fields: [None] is [nullptr]. *)
Record SignatureSectionExtras := MkSignatureSectionExtras { sx_validated_profile : option string }.
Record CertificateSectionExtras := MkCertificateSectionExtras {
  cx_qualifying_properties_present : option bool;
  cx_signer_metadata : option CertificateMetadata
}.

Definition messages : list (string * (string * string)) :=
  [
   ("SIGNATURE_VALID", ("Electronic signature is valid.", "Електронний підпис дійсний."));
   ("SIGNATURE_VALID_WITH_WARNINGS", ("Electronic signature is valid with warnings.", "Електронний підпис дійсний із попередженнями."));
   ("SIGNATURE_INTEGRITY_ONLY", ("Signature integrity is confirmed, but full policy validation is incomplete.", "Цілісність підпису підтверджено, але повна перевірка політики не завершена."));
   ("SIGNATURE_CRYPTOGRAPHICALLY_VALID", ("Signature is cryptographically valid.", "Криптографічну цілісність підпису підтверджено."));
   ("SIGNATURE_CRYPTOGRAPHICALLY_INVALID", ("Signature cryptographic validation failed.", "Криптографічну перевірку підпису не пройдено."));
   ("SIGNATURE_INVALID", ("Signature cryptographic validation failed.", "Криптографічну перевірку підпису не пройдено."));
   ("CONTAINER_COVERAGE_INCOMPLETE", ("Signature does not cover the whole document: part of the content is unsigned.", "Підпис не покриває весь документ: частина вмісту не підписана."));
   ("CONTAINER_MALFORMED", ("Container structure is malformed and cannot be processed; request a new copy from the sender.", "Структура контейнера пошкоджена й не може бути опрацьована; запросіть у відправника новий примірник."));
   ("VERIFICATION_EXECUTION_FAILED", ("Signature verification could not be completed.", "Перевірку підпису не вдалося завершити."));
   ("NOT_EXECUTED", ("Signature verification has not been executed yet.", "Перевірку підпису ще не виконано."));
   ("CERTIFICATE_VALID_AT_VALIDATION_TIME", ("Signer certificate is valid at the selected validation time.", "Сертифікат підписувача дійсний на обраний час перевірки."));
   ("CERTIFICATE_INVALID_AT_VALIDATION_TIME", ("Signer certificate is not valid at the selected validation time.", "Сертифікат підписувача недійсний на обраний час перевірки."));
   ("SIGNER_CERTIFICATE_MISSING", ("Signer certificate is not available in the signature evidence.", "Сертифікат підписувача відсутній у даних підпису."));
   ("TRUST_VALID", ("Certificate chain is trusted.", "Ланцюг сертифікатів довірений."));
   ("TRUST_VALID_HISTORICAL", ("Certificate chain is trusted using historical trust evidence.", "Ланцюг сертифікатів довірений за історичними даними довіри."));
   ("TRUST_INVALID", ("Certificate chain is not trusted.", "Ланцюг сертифікатів не є довіреним."));
   ("TRUST_NOT_CHECKED", ("Trust validation was not performed.", "Перевірку довіри не виконано."));
   ("REVOCATION_VALID", ("Certificate revocation status is valid.", "Статус відкликання сертифіката підтверджено як дійсний."));
   ("CERTIFICATE_REVOKED", ("Signer certificate is revoked.", "Сертифікат підписувача відкликано."));
   ("REVOCATION_INVALID", ("Revocation data is invalid.", "Дані про відкликання некоректні."));
   ("REVOCATION_UNAVAILABLE", ("Revocation service is temporarily unavailable.", "Сервіс перевірки відкликання тимчасово недоступний."));
   ("REVOCATION_UNKNOWN", ("Certificate revocation status is unknown.", "Статус відкликання сертифіката невідомий."));
   ("TIMESTAMP_VALID", ("Trusted timestamp is valid.", "Довірена позначка часу дійсна."));
   ("TIMESTAMP_NOT_FULLY_VALIDATED", ("Timestamp evidence is present but not fully validated.", "Позначка часу наявна, але не повністю перевірена."));
   ("TIMESTAMP_INVALID", ("Timestamp validation failed.", "Перевірку позначки часу не пройдено."));
   ("TIMESTAMP_NOT_CHECKED", ("Timestamp validation was not performed.", "Перевірку позначки часу не виконано."));
   ("LTV_VALID", ("Long-term validation evidence is valid.", "Дані довготривалої перевірки дійсні."));
   ("LTV_EVIDENCE_UNAVAILABLE", ("Long-term validation evidence is unavailable or incomplete.", "Дані довготривалої перевірки недоступні або неповні."));
   ("POLICY_VALID", ("Validation policy requirements are satisfied.", "Вимоги політики перевірки виконано."));
   ("HISTORICAL_TRUST_USED", ("Historical trust evidence was used.", "Використано історичні дані довіри."));
   ("ONLINE_SERVICE_UNAVAILABLE", ("One or more online validation services are unavailable.", "Один або кілька онлайн-сервісів перевірки недоступні."));
   ("REVOCATION_STATUS_UNKNOWN", ("Revocation status could not be confirmed completely.", "Статус відкликання не вдалося підтвердити повністю."));
   ("POLICY_INVALID", ("Validation policy requirements are not satisfied.", "Вимоги політики перевірки не виконано."))].

Definition MessageForCode (code : string) : string * string :=
  match find (fun m => fst m ==s code) messages with
  | Some (_, message) => message
  | None => ("Check was not performed or is not applicable.", "Перевірку не виконано або вона не застосовується.")
  end.

Definition WriteMessage (code : string) : list ascii :=
  let message := MessageForCode code in
  raw ",'message':{'en':'" ++ esc message.1 ++ raw "','uk':'" ++ esc message.2 ++ raw "'}".

Definition WriteWarning (style : MessageStyle) (code : string) : list ascii :=
  raw "{'code':'" ++ out code ++ raw "'"
  ++ match style with Bilingual => WriteMessage code | NoMessage => [] end ++ raw "}".

Definition WriteStringOrNull (value : string) : list ascii :=
  if str_empty value then raw "null" else raw "'" ++ esc value ++ raw "'".

Definition OrFallback (value fallback : string) : string := if str_empty value then fallback else value.

Definition ErrorCodeName (code : ErrorCode.t) : string :=
  match code with
  | ErrorCode.None => "None"
  | ErrorCode.NotInitialized => "NotInitialized"
  | ErrorCode.SettingsRequired => "SettingsRequired"
  | ErrorCode.KeyNotLoaded => "KeyNotLoaded"
  | ErrorCode.InvalidArgument => "InvalidArgument"
  | ErrorCode.InternalError => "InternalError"
  | ErrorCode.NotSupported => "NotSupported"
  | ErrorCode.GuiNotAvailable => "GuiNotAvailable"
  | ErrorCode.TrustValidationFailed => "TrustValidationFailed"
  | ErrorCode.RevocationCheckFailed => "RevocationCheckFailed"
  | ErrorCode.OnlineServiceUnavailable => "OnlineServiceUnavailable"
  | ErrorCode.TimestampValidationFailed => "TimestampValidationFailed"
  | ErrorCode.PolicyValidationFailed => "PolicyValidationFailed"
  end.

Definition WriteCheckFields (check : VerifyCheck) (style : MessageStyle) : list ascii :=
  raw "'status':'" ++ out (ck_status check) ++ raw "','code':'" ++ out (ck_code check) ++ raw "'"
  ++ match style with Bilingual => WriteMessage (ck_code check) | NoMessage => [] end.

Definition WriteSummarySection (report : VerifyReport) (style : MessageStyle) : list ascii :=
  raw "'summary':{" ++ WriteCheckFields (SummaryCheck report) style
  ++ raw ",'summaryCode':'" ++ esc (ComputeVerifySummary report) ++ raw "'},".

Definition WriteSignatureSection (report : VerifyReport) (fallbacks : FormatFallbacks)
    (extras : SignatureSectionExtras) (style : MessageStyle) : list ascii :=
  raw "'signature':{" ++ WriteCheckFields (SignatureCheck report) style
  ++ raw ",'format':'" ++ esc (OrFallback (vr_signature_format report) (ff_signature_format fallbacks)) ++ raw "'"
  ++ raw ",'profile':'" ++ esc (vr_format_profile report) ++ raw "'"
  ++ match sx_validated_profile extras with
     | Some validated_profile => raw ",'validatedProfile':'" ++ esc validated_profile ++ raw "'"
     | None => []
     end
  ++ raw ",'coverageStatus':'" ++ esc (vr_coverage_status report) ++ raw "'"
  ++ raw ",'containerType':'" ++ esc (OrFallback (vr_container_type report) (ff_container_type fallbacks))
  ++ raw "'},".

Definition WriteSignerMetadata (m : CertificateMetadata) : list ascii :=
  raw ",'subject':" ++ WriteStringOrNull (cm_common_name m)
  ++ raw ",'issuer':" ++ WriteStringOrNull (cm_issuer m)
  ++ raw ",'serialNumber':" ++ WriteStringOrNull (cm_serial_number_hex m)
  ++ raw ",'organization':" ++ WriteStringOrNull (cm_organization m)
  ++ raw ",'country':" ++ WriteStringOrNull (cm_country m).

Definition WriteCertificateSection (report : VerifyReport) (extras : CertificateSectionExtras)
    (style : MessageStyle) : list ascii :=
  raw "'certificate':{" ++ WriteCheckFields (CertificateCheck report) style
  ++ raw ",'validationTimeSource':'" ++ out (ValidationTimeSource report) ++ raw "'"
  ++ raw ",'present':" ++ boolj (vr_signer_certificate_present report)
  ++ match cx_qualifying_properties_present extras with
     | Some present => raw ",'qualifyingPropertiesPresent':" ++ boolj present
     | None => []
     end
  ++ raw ",'timeValid':" ++ boolj (EffectiveCertificateTimeValid report)
  ++ raw ",'chain':{'checked':" ++ boolj (vr_chain_checked report)
  ++ raw ",'valid':" ++ boolj (vr_chain_valid report) ++ raw "}"
  ++ match cx_signer_metadata extras with Some m => WriteSignerMetadata m | None => [] end
  ++ raw "},".

Definition WriteTrustSection (report : VerifyReport) (style : MessageStyle) : list ascii :=
  raw "'trust':{" ++ WriteCheckFields (TrustCheck report) style
  ++ raw ",'checked':" ++ boolj (vr_trust_checked report)
  ++ raw ",'valid':" ++ boolj (vr_trust_valid report)
  ++ raw ",'mode':'" ++ esc (vr_trust_mode report) ++ raw "'"
  ++ raw ",'reason':'" ++ esc (vr_trust_reason report) ++ raw "'"
  ++ raw ",'trustStatus':'" ++ esc (vr_trust_status report) ++ raw "'"
  ++ raw ",'historicalTrustUsed':" ++ boolj (vr_historical_trust_used report)
  ++ raw ",'historicalAnchor':{'subject':'" ++ esc (vr_historical_anchor_subject report)
  ++ raw "','serial':'" ++ esc (vr_historical_anchor_serial report) ++ raw "'}},".

Definition WriteRevocationSection (report : VerifyReport) (style : MessageStyle) : list ascii :=
  let ocsp_checked := EffectiveOcspChecked report in
  raw "'revocation':{" ++ WriteCheckFields (RevocationCheck report) style
  ++ raw ",'checked':" ++ boolj (EffectiveRevocationChecked report)
  ++ raw ",'ocspChecked':" ++ boolj ocsp_checked
  ++ raw ",'crlChecked':" ++ boolj (vr_revocation_checked report && negb ocsp_checked)
  ++ raw ",'evidencePresent':" ++ boolj (vr_revocation_evidence_present report)
  ++ raw ",'revocationStatus':'" ++ esc (vr_revocation_status report) ++ raw "'},".

Definition write_strings (name : string) (values : list string) : list ascii :=
  raw ",'" ++ out name ++ raw "':["
  ++ separated (fun value => raw "'" ++ esc value ++ raw "'") values true ++ raw "]".

Definition timestamp_state (status : string) : string :=
  if status ==s "timestamp-valid" then "valid"
  else if status ==s "timestamp-invalid" then "invalid" else "unavailable".

Definition WriteTimestampDetail (detail : TimestampEntry) : list ascii :=
  raw "{'signatureIndex':" ++ num (te_signature_index detail)
  ++ raw ",'kind':'" ++ esc (te_kind detail) ++ raw "'"
  ++ raw ",'signedRevisionEnd':" ++ num (te_signed_revision_end detail)
  ++ raw ",'status':'" ++ out (timestamp_state (te_status detail)) ++ raw "'"
  ++ raw ",'timestampStatus':'" ++ esc (te_status detail) ++ raw "'"
  ++ raw ",'valid':" ++ boolj (te_valid detail && (te_status detail ==s "timestamp-valid"))
  ++ raw ",'policyAcceptable':" ++ boolj (te_policy_acceptable detail)
  ++ raw ",'cryptoValid':" ++ boolj (te_crypto_valid detail)
  ++ raw ",'genTimeValid':" ++ boolj (te_gen_time_valid detail)
  ++ raw ",'certificateTimeValid':" ++ boolj (te_certificate_time_valid detail)
  ++ raw ",'ekuValid':" ++ boolj (te_eku_valid detail)
  ++ raw ",'trustValid':" ++ boolj (te_trust_valid detail)
  ++ raw ",'revocationChecked':" ++ boolj (te_revocation_checked detail)
  ++ raw ",'ocspAttempted':" ++ boolj (te_ocsp_attempted detail)
  ++ raw ",'crlAttempted':" ++ boolj (te_crl_attempted detail)
  ++ raw ",'historicalTrustUsed':" ++ boolj (te_historical_trust_used detail)
  ++ raw ",'genTime':'" ++ esc (te_gen_time detail) ++ raw "'"
  ++ raw ",'validationTime':'" ++ esc (te_validation_time detail) ++ raw "'"
  ++ raw ",'reasonCode':'" ++ esc (te_reason_code detail) ++ raw "'"
  ++ raw ",'trustSource':'" ++ esc (te_trust_source detail) ++ raw "'"
  ++ raw ",'tsaSubject':'" ++ esc (te_tsa_subject detail) ++ raw "'"
  ++ raw ",'tsaIssuer':'" ++ esc (te_tsa_issuer detail) ++ raw "'"
  ++ raw ",'tsaSerial':'" ++ esc (te_tsa_serial detail) ++ raw "'"
  ++ raw ",'tsaFingerprintSha256':'" ++ esc (te_tsa_fingerprint_sha256 detail) ++ raw "'"
  ++ raw ",'revocationStatus':'" ++ esc (te_revocation_status detail) ++ raw "'"
  ++ write_strings "because" (te_because detail)
  ++ write_strings "warnings" (te_warnings detail)
  ++ write_strings "limitations" (te_limitations detail)
  ++ write_strings "evidenceIds" (te_evidence_ids detail)
  ++ raw "}".

Definition WriteTimestampDetails (details : list TimestampEntry) : list ascii :=
  raw "[" ++ separated WriteTimestampDetail details true ++ raw "]".

Definition WriteTimestampSection (report : VerifyReport) (style : MessageStyle) : list ascii :=
  raw "'timestamp':{" ++ WriteCheckFields (TimestampCheck report) style
  ++ raw ",'checked':" ++ boolj (vr_timestamp_checked report)
  ++ raw ",'tspChecked':" ++ boolj (vr_tsp_checked report)
  ++ raw ",'timestampStatus':'" ++ esc (vr_timestamp_status report) ++ raw "','details':"
  ++ WriteTimestampDetails (vr_timestamp_details report) ++ raw "},".

Definition WriteLtvSection (report : VerifyReport) (style : MessageStyle) : list ascii :=
  raw "'ltv':{" ++ WriteCheckFields (LtvCheck report) style
  ++ raw ",'valid':" ++ boolj (vr_ltv_valid report)
  ++ raw ",'evidenceBound':" ++ boolj (vr_ltv_evidence_bound report)
  ++ raw ",'evidenceValidated':" ++ boolj (vr_ltv_evidence_validated report)
  ++ raw ",'fullyValidated':" ++ boolj (LtvFullyValidated report)
  ++ raw ",'fullValidationState':'" ++ out (ck_status (LtvCheck report)) ++ raw "'},".

(** The warnings of [WritePolicySection], in the order they are written. *)
Definition policy_warnings (report : VerifyReport) : list string :=
  (if vr_historical_trust_used report then ["HISTORICAL_TRUST_USED"] else [])
  ++ (if (vr_trust_status report ==s "timestamp-not-fully-validated")
         || (vr_timestamp_status report ==s "timestamp-partial")
      then ["TIMESTAMP_NOT_FULLY_VALIDATED"] else [])
  ++ (if (vr_trust_status report ==s "ocsp-responder-unavailable")
         || (vr_trust_status report ==s "tsp-responder-unavailable")
      then ["ONLINE_SERVICE_UNAVAILABLE"] else [])
  ++ (if EffectiveRevocationChecked report && negb (vr_revocation_status report ==s "valid")
         && negb (vr_revocation_status report ==s "good") && negb (vr_revocation_status report ==s "revoked")
         && negb (vr_revocation_status report ==s "invalid")
      then ["REVOCATION_STATUS_UNKNOWN"] else []).

Definition WritePolicySection (report : VerifyReport) (style : MessageStyle) : list ascii :=
  raw "'policy':{" ++ WriteCheckFields (PolicyCheck report) style
  ++ raw ",'level':'" ++ esc (vpd_level (ComputeVerifyPolicyDecision report)) ++ raw "',"
  ++ raw "'warnings':[" ++ separated (WriteWarning style) (policy_warnings report) true ++ raw "]"
  ++ raw "},".

Definition WriteDiagnosticsPrefix (report : VerifyReport) (fallbacks : FormatFallbacks) : list ascii :=
  raw "'diagnostics':{'operation':'" ++ esc (vr_operation report) ++ raw "'"
  ++ raw ",'format':'" ++ esc (OrFallback (vr_signature_format report) (ff_signature_format fallbacks)) ++ raw "'"
  ++ raw ",'profile':'" ++ esc (vr_format_profile report) ++ raw "'"
  ++ raw ",'containerType':'" ++ esc (OrFallback (vr_container_type report) (ff_container_type fallbacks))
  ++ raw "'"
  ++ raw ",'errorCode':'" ++ esc (ErrorCodeName (vr_error_code report)) ++ raw "'".

Definition WriteDiagnosticsFlagsPrefix (report : VerifyReport) : list ascii :=
  raw "'flags':{'hasResult':" ++ boolj (vr_has_result report)
  ++ raw ",'executionSucceeded':" ++ boolj (vr_execution_succeeded report)
  ++ raw ",'signatureValid':" ++ boolj (vr_signature_valid report)
  ++ raw ",'trustChecked':" ++ boolj (vr_trust_checked report)
  ++ raw ",'trustValid':" ++ boolj (vr_trust_valid report)
  ++ raw ",'revocationChecked':" ++ boolj (EffectiveRevocationChecked report)
  ++ raw ",'ocspChecked':" ++ boolj (EffectiveOcspChecked report)
  ++ raw ",'tspChecked':" ++ boolj (vr_tsp_checked report)
  ++ raw ",'timestampChecked':" ++ boolj (vr_timestamp_checked report)
  ++ raw ",'timestampValid':" ++ boolj (vr_timestamp_valid report).

(** ** The user report *)

Record UserReportInput := MkUserReportInput {
  ui_verify_report : VerifyReport;
  ui_container_type : string;
  ui_signature_format : string;
  ui_signer_metadata : CertificateMetadata
}.

Definition Build (input : UserReportInput) : string :=
  let r := ui_verify_report input in
  let fallbacks := MkFormatFallbacks (ui_signature_format input) (ui_container_type input) in
  of_chars (raw "{'schemaVersion':'2.2',"
  ++ WriteSummarySection r Bilingual
  ++ WriteSignatureSection r fallbacks (MkSignatureSectionExtras None) Bilingual
  ++ WriteCertificateSection r (MkCertificateSectionExtras None (Some (ui_signer_metadata input))) Bilingual
  ++ WriteTrustSection r Bilingual
  ++ WriteRevocationSection r Bilingual
  ++ WriteTimestampSection r Bilingual
  ++ WriteLtvSection r Bilingual
  ++ WritePolicySection r Bilingual
  ++ WriteDiagnosticsPrefix r fallbacks
  ++ raw ","
  ++ WriteDiagnosticsFlagsPrefix r
  ++ raw ",'ltvValid':" ++ boolj (vr_ltv_valid r) ++ raw "}}"
  ++ raw "}").

(** [Session::RefreshUserReportForCurrentOperation]: the text cached for [GetUserReport]. *)
Definition RefreshUserReportForCurrentOperation (last_verify_report : VerifyReport)
    (last_signer_metadata : CertificateMetadata) : string :=
  let '(container_type, signature_format) := UserReportFormatForOperation (vr_operation last_verify_report) in
  Build (MkUserReportInput last_verify_report container_type signature_format last_signer_metadata).

(** ** The technical report *)

Record TrustListSyncReport := MkTrustListSyncReport {
  ts_checked : bool;
  ts_update_succeeded : bool;
  ts_source : string;
  ts_cache_status : string;
  ts_last_sync : string;
  ts_xml_signature_status : string
}.

Definition TrustListSyncReport_default : TrustListSyncReport :=
  MkTrustListSyncReport false false "https://czo.gov.ua/download/tl/TL-UA-EC.xml" "not-checked" "" "not-checked".

Definition WriteV2DataObjectFormats (formats : list DataObjectFormatEntry) : list ascii :=
  raw "["
  ++ separated (fun dof =>
       raw "{'objectReference':'" ++ esc (df_object_reference dof) ++ raw "'"
       ++ raw ",'mimeType':'" ++ esc (df_mime_type dof) ++ raw "'"
       ++ raw ",'description':'" ++ esc (df_description dof) ++ raw "'}") formats true
  ++ raw "]".

Definition WriteV2Signature (entry : SignatureEntry) : list ascii :=
  raw "{'index':" ++ num (se_index entry)
  ++ raw ",'signatureValid':" ++ boolj (se_signature_valid entry)
  ++ raw ",'certificatePresent':" ++ boolj (se_signer_certificate_present entry)
  ++ raw ",'qualifyingPropertiesPresent':" ++ boolj (se_qualifying_properties_present entry)
  ++ raw ",'signingCertificateDigestValid':" ++ boolj (se_signing_certificate_digest_valid entry)
  ++ raw ",'profile':'" ++ esc (se_format_profile entry) ++ raw "'"
  ++ raw ",'timestampChecked':" ++ boolj (se_timestamp_checked entry)
  ++ raw ",'timestampValid':" ++ boolj (se_timestamp_valid entry)
  ++ raw ",'timestampStatus':'" ++ esc (se_timestamp_status entry) ++ raw "'"
  ++ raw ",'timestamps':" ++ WriteTimestampDetails (se_timestamp_details entry)
  ++ raw ",'ltvValid':" ++ boolj (se_ltv_valid entry)
  ++ raw ",'ltvEvidenceBound':" ++ boolj (se_ltv_evidence_bound entry)
  ++ raw ",'ltvEvidenceValidated':" ++ boolj (se_ltv_evidence_validated entry)
  ++ raw ",'certificate':{'timeValid':" ++ boolj (se_certificate_time_valid entry)
  ++ raw ",'validationTimeSource':'" ++ esc (se_validation_time_source entry) ++ raw "'"
  ++ raw ",'chain':{'checked':" ++ boolj (se_chain_checked entry)
  ++ raw ",'valid':" ++ boolj (se_chain_valid entry) ++ raw "}}"
  ++ raw ",'trust':{'checked':" ++ boolj (se_trust_checked entry)
  ++ raw ",'valid':" ++ boolj (se_trust_valid entry)
  ++ raw ",'mode':'" ++ esc (se_trust_mode entry) ++ raw "'"
  ++ raw ",'reason':'" ++ esc (se_trust_reason entry) ++ raw "'"
  ++ raw ",'trustStatus':'" ++ esc (se_trust_status entry) ++ raw "'"
  ++ raw ",'historicalTrustUsed':" ++ boolj (se_historical_trust_used entry)
  ++ raw ",'historicalAnchor':{'subject':'" ++ esc (se_historical_anchor_subject entry)
  ++ raw "','serial':'" ++ esc (se_historical_anchor_serial entry) ++ raw "'}}"
  ++ raw ",'revocation':{'checked':" ++ boolj (se_revocation_checked entry)
  ++ raw ",'ocspChecked':" ++ boolj (se_ocsp_checked entry)
  ++ raw ",'revocationStatus':'" ++ esc (se_revocation_status entry) ++ raw "'}"
  ++ raw ",'signaturePolicyPresent':" ++ boolj (se_signature_policy_present entry)
  ++ raw ",'signaturePolicyId':'" ++ esc (se_signature_policy_id entry) ++ raw "'"
  ++ raw ",'signaturePolicyHashAlgorithmUri':'" ++ esc (se_signature_policy_hash_algo_uri entry) ++ raw "'"
  ++ raw ",'dataObjectFormats':" ++ WriteV2DataObjectFormats (se_data_object_formats entry)
  ++ raw "}".

Definition WriteV2Signatures (report : VerifyReport) : list ascii :=
  raw "'signatures':[" ++ separated WriteV2Signature (vr_signatures report) true ++ raw "]".

(** The members of [diagnostics] only the technical report has, up to its flags. *)
Definition WriteDiagnosticsDetails (r : VerifyReport) (sync : TrustListSyncReport) : list ascii :=
  raw ",'message':'" ++ esc (vr_message r) ++ raw "'"
  ++ raw ",'trustList':{'checked':" ++ boolj (vr_trust_list_checked r)
  ++ raw ",'source':'" ++ esc (vr_trust_list_source r) ++ raw "'"
  ++ raw ",'cacheStatus':'" ++ esc (vr_trust_list_cache_status r) ++ raw "'"
  ++ raw ",'lastSync':'" ++ esc (vr_trust_list_last_sync r) ++ raw "'"
  ++ raw ",'updateSucceeded':" ++ boolj (vr_trust_list_update_succeeded r)
  ++ raw "}"
  ++ raw ",'trustListSync':{'checked':" ++ boolj (ts_checked sync)
  ++ raw ",'source':'" ++ esc (ts_source sync) ++ raw "'"
  ++ raw ",'cacheStatus':'" ++ esc (ts_cache_status sync) ++ raw "'"
  ++ raw ",'lastSync':'" ++ esc (ts_last_sync sync) ++ raw "'"
  ++ raw ",'updateSucceeded':" ++ boolj (ts_update_succeeded sync)
  ++ raw ",'xmlSignatureStatus':'" ++ esc (ts_xml_signature_status sync) ++ raw "'"
  ++ raw "}"
  ++ raw ",'chainDebug':{'trace':'" ++ esc (vr_chain_debug r) ++ raw "'}"
  ++ raw ",".

Definition WriteDiagnosticsFlags (r : VerifyReport) : list ascii :=
  WriteDiagnosticsFlagsPrefix r
  ++ raw ",'cmsSignerCount':" ++ num (vr_cms_signer_count r)
  ++ raw ",'cmsVerifiedSignerCount':" ++ num (vr_cms_verified_signer_count r)
  ++ raw ",'signerCertificatePresent':" ++ boolj (vr_signer_certificate_present r)
  ++ raw ",'certificateTimeValid':" ++ boolj (EffectiveCertificateTimeValid r)
  ++ raw ",'chainChecked':" ++ boolj (vr_chain_checked r)
  ++ raw ",'chainValid':" ++ boolj (vr_chain_valid r)
  ++ raw ",'ltvValid':" ++ boolj (vr_ltv_valid r)
  ++ raw ",'containerCoverageComplete':" ++ boolj (vr_container_coverage_complete r)
  ++ raw "}},".

Definition GetLastVerifyReport (r : VerifyReport) (last_trust_list_sync_report : TrustListSyncReport) : string :=
  let no_fallbacks := MkFormatFallbacks "" "" in
  of_chars (raw "{'schemaVersion':'2.2',"
  ++ WriteSummarySection r NoMessage
  ++ WriteSignatureSection r no_fallbacks (MkSignatureSectionExtras (Some (vr_validated_profile r))) NoMessage
  ++ WriteCertificateSection r
       (MkCertificateSectionExtras (Some (vr_qualifying_properties_present r)) None) NoMessage
  ++ WriteTrustSection r NoMessage
  ++ WriteRevocationSection r NoMessage
  ++ WriteTimestampSection r NoMessage
  ++ WriteLtvSection r NoMessage
  ++ raw "'signaturePolicy':{'present':" ++ boolj (vr_signature_policy_present r)
  ++ raw ",'id':'" ++ esc (vr_signature_policy_id r) ++ raw "'"
  ++ raw ",'hashAlgorithmUri':'" ++ esc (vr_signature_policy_hash_algo_uri r) ++ raw "'},"
  ++ raw "'dataObjectFormats':" ++ WriteV2DataObjectFormats (vr_data_object_formats r) ++ raw ","
  ++ WritePolicySection r NoMessage
  ++ WriteDiagnosticsPrefix r no_fallbacks
  ++ WriteDiagnosticsDetails r last_trust_list_sync_report
  ++ WriteDiagnosticsFlags r
  ++ WriteV2Signatures r
  ++ raw "}").

(** ** The documents *)

(** A string that the writers may put between quotes without escaping it. *)
Definition plain (s : string) : Prop := esc s = chars s.

#[export] Instance plain_dec (s : string) : Decision (plain s).
Proof. unfold plain. apply _. Defined.

Definition strings (l : list string) : json := JArr (map JStr l).

Definition message_member (style : MessageStyle) (code : string) : list (string * json) :=
  match style with
  | Bilingual => [("message", JObj [("en", JStr (MessageForCode code).1); ("uk", JStr (MessageForCode code).2)])]
  | NoMessage => []
  end.

Definition check_members (check : VerifyCheck) (style : MessageStyle) : list (string * json) :=
  [("status", JStr (ck_status check)); ("code", JStr (ck_code check))] ++ message_member style (ck_code check).

Definition summary_doc (r : VerifyReport) (style : MessageStyle) : json :=
  JObj (check_members (SummaryCheck r) style ++ [("summaryCode", JStr (ComputeVerifySummary r))]).

Definition signature_doc (r : VerifyReport) (f : FormatFallbacks) (x : SignatureSectionExtras) (style : MessageStyle) : json :=
  JObj (check_members (SignatureCheck r) style
    ++ [("format", JStr (OrFallback (vr_signature_format r) (ff_signature_format f)));
        ("profile", JStr (vr_format_profile r))]
    ++ match sx_validated_profile x with Some p => [("validatedProfile", JStr p)] | None => [] end
    ++ [("coverageStatus", JStr (vr_coverage_status r));
        ("containerType", JStr (OrFallback (vr_container_type r) (ff_container_type f)))]).

Definition string_or_null (s : string) : json := if str_empty s then JNull else JStr s.

Definition metadata_members (m : CertificateMetadata) : list (string * json) :=
  [("subject", string_or_null (cm_common_name m)); ("issuer", string_or_null (cm_issuer m));
   ("serialNumber", string_or_null (cm_serial_number_hex m));
   ("organization", string_or_null (cm_organization m)); ("country", string_or_null (cm_country m))].

Definition certificate_doc (r : VerifyReport) (x : CertificateSectionExtras) (style : MessageStyle) : json :=
  JObj (check_members (CertificateCheck r) style
    ++ [("validationTimeSource", JStr (ValidationTimeSource r)); ("present", JBool (vr_signer_certificate_present r))]
    ++ match cx_qualifying_properties_present x with
       | Some b => [("qualifyingPropertiesPresent", JBool b)]
       | None => []
       end
    ++ [("timeValid", JBool (EffectiveCertificateTimeValid r));
        ("chain", JObj [("checked", JBool (vr_chain_checked r)); ("valid", JBool (vr_chain_valid r))])]
    ++ match cx_signer_metadata x with Some m => metadata_members m | None => [] end).

Definition trust_doc (r : VerifyReport) (style : MessageStyle) : json :=
  JObj (check_members (TrustCheck r) style
    ++ [("checked", JBool (vr_trust_checked r)); ("valid", JBool (vr_trust_valid r));
        ("mode", JStr (vr_trust_mode r)); ("reason", JStr (vr_trust_reason r));
        ("trustStatus", JStr (vr_trust_status r)); ("historicalTrustUsed", JBool (vr_historical_trust_used r));
        ("historicalAnchor", JObj [("subject", JStr (vr_historical_anchor_subject r));
                                   ("serial", JStr (vr_historical_anchor_serial r))])]).

Definition revocation_doc (r : VerifyReport) (style : MessageStyle) : json :=
  JObj (check_members (RevocationCheck r) style
    ++ [("checked", JBool (vr_revocation_checked r)); ("ocspChecked", JBool (vr_ocsp_checked r));
        ("crlChecked", JBool (vr_revocation_checked r && negb (vr_ocsp_checked r)));
        ("evidencePresent", JBool (vr_revocation_evidence_present r));
        ("revocationStatus", JStr (vr_revocation_status r))]).

Definition timestamp_detail_doc (d : TimestampEntry) : json :=
  JObj [("signatureIndex", JInt (te_signature_index d)); ("kind", JStr (te_kind d));
        ("signedRevisionEnd", JInt (te_signed_revision_end d));
        ("status", JStr (timestamp_state (te_status d))); ("timestampStatus", JStr (te_status d));
        ("valid", JBool (te_valid d && (te_status d ==s "timestamp-valid")));
        ("policyAcceptable", JBool (te_policy_acceptable d)); ("cryptoValid", JBool (te_crypto_valid d));
        ("genTimeValid", JBool (te_gen_time_valid d));
        ("certificateTimeValid", JBool (te_certificate_time_valid d)); ("ekuValid", JBool (te_eku_valid d));
        ("trustValid", JBool (te_trust_valid d)); ("revocationChecked", JBool (te_revocation_checked d));
        ("ocspAttempted", JBool (te_ocsp_attempted d)); ("crlAttempted", JBool (te_crl_attempted d));
        ("historicalTrustUsed", JBool (te_historical_trust_used d)); ("genTime", JStr (te_gen_time d));
        ("validationTime", JStr (te_validation_time d)); ("reasonCode", JStr (te_reason_code d));
        ("trustSource", JStr (te_trust_source d)); ("tsaSubject", JStr (te_tsa_subject d));
        ("tsaIssuer", JStr (te_tsa_issuer d)); ("tsaSerial", JStr (te_tsa_serial d));
        ("tsaFingerprintSha256", JStr (te_tsa_fingerprint_sha256 d));
        ("revocationStatus", JStr (te_revocation_status d)); ("because", strings (te_because d));
        ("warnings", strings (te_warnings d)); ("limitations", strings (te_limitations d));
        ("evidenceIds", strings (te_evidence_ids d))].

Definition timestamp_doc (r : VerifyReport) (style : MessageStyle) : json :=
  JObj (check_members (TimestampCheck r) style
    ++ [("checked", JBool (vr_timestamp_checked r)); ("tspChecked", JBool (vr_tsp_checked r));
        ("timestampStatus", JStr (vr_timestamp_status r));
        ("details", JArr (map timestamp_detail_doc (vr_timestamp_details r)))]).

Definition ltv_doc (r : VerifyReport) (style : MessageStyle) : json :=
  JObj (check_members (LtvCheck r) style
    ++ [("valid", JBool (vr_ltv_valid r)); ("evidenceBound", JBool (vr_ltv_evidence_bound r));
        ("evidenceValidated", JBool (vr_ltv_evidence_validated r));
        ("fullyValidated", JBool (LtvFullyValidated r));
        ("fullValidationState", JStr (ck_status (LtvCheck r)))]).

Definition warning_doc (style : MessageStyle) (code : string) : json :=
  JObj (("code", JStr code) :: message_member style code).

Definition policy_doc (r : VerifyReport) (style : MessageStyle) : json :=
  JObj (check_members (PolicyCheck r) style
    ++ [("level", JStr (vpd_level (ComputeVerifyPolicyDecision r)));
        ("warnings", JArr (map (warning_doc style) (policy_warnings r)))]).

Definition diagnostics_members (r : VerifyReport) (f : FormatFallbacks) : list (string * json) :=
  [("operation", JStr (vr_operation r));
   ("format", JStr (OrFallback (vr_signature_format r) (ff_signature_format f)));
   ("profile", JStr (vr_format_profile r));
   ("containerType", JStr (OrFallback (vr_container_type r) (ff_container_type f)));
   ("errorCode", JStr (ErrorCodeName (vr_error_code r)))].

Definition flag_members (r : VerifyReport) : list (string * json) :=
  [("hasResult", JBool (vr_has_result r)); ("executionSucceeded", JBool (vr_execution_succeeded r));
   ("signatureValid", JBool (vr_signature_valid r)); ("trustChecked", JBool (vr_trust_checked r));
   ("trustValid", JBool (vr_trust_valid r)); ("revocationChecked", JBool (vr_revocation_checked r));
   ("ocspChecked", JBool (vr_ocsp_checked r)); ("tspChecked", JBool (vr_tsp_checked r));
   ("timestampChecked", JBool (vr_timestamp_checked r)); ("timestampValid", JBool (vr_timestamp_valid r))].

Definition user_report_doc (input : UserReportInput) : json :=
  let r := ui_verify_report input in
  let f := MkFormatFallbacks (ui_signature_format input) (ui_container_type input) in
  JObj [("schemaVersion", JStr "2.2");
        ("summary", summary_doc r Bilingual);
        ("signature", signature_doc r f (MkSignatureSectionExtras None) Bilingual);
        ("certificate", certificate_doc r (MkCertificateSectionExtras None (Some (ui_signer_metadata input))) Bilingual);
        ("trust", trust_doc r Bilingual);
        ("revocation", revocation_doc r Bilingual);
        ("timestamp", timestamp_doc r Bilingual);
        ("ltv", ltv_doc r Bilingual);
        ("policy", policy_doc r Bilingual);
        ("diagnostics", JObj (diagnostics_members r f
          ++ [("flags", JObj (flag_members r ++ [("ltvValid", JBool (vr_ltv_valid r))]))]))].

Definition format_doc (dof : DataObjectFormatEntry) : json :=
  JObj [("objectReference", JStr (df_object_reference dof)); ("mimeType", JStr (df_mime_type dof));
        ("description", JStr (df_description dof))].

Definition signature_entry_doc (e : SignatureEntry) : json :=
  JObj [("index", JInt (se_index e)); ("signatureValid", JBool (se_signature_valid e));
        ("certificatePresent", JBool (se_signer_certificate_present e));
        ("qualifyingPropertiesPresent", JBool (se_qualifying_properties_present e));
        ("signingCertificateDigestValid", JBool (se_signing_certificate_digest_valid e));
        ("profile", JStr (se_format_profile e)); ("timestampChecked", JBool (se_timestamp_checked e));
        ("timestampValid", JBool (se_timestamp_valid e)); ("timestampStatus", JStr (se_timestamp_status e));
        ("timestamps", JArr (map timestamp_detail_doc (se_timestamp_details e)));
        ("ltvValid", JBool (se_ltv_valid e)); ("ltvEvidenceBound", JBool (se_ltv_evidence_bound e));
        ("ltvEvidenceValidated", JBool (se_ltv_evidence_validated e));
        ("certificate", JObj [("timeValid", JBool (se_certificate_time_valid e));
           ("validationTimeSource", JStr (se_validation_time_source e));
           ("chain", JObj [("checked", JBool (se_chain_checked e)); ("valid", JBool (se_chain_valid e))])]);
        ("trust", JObj [("checked", JBool (se_trust_checked e)); ("valid", JBool (se_trust_valid e));
           ("mode", JStr (se_trust_mode e)); ("reason", JStr (se_trust_reason e));
           ("trustStatus", JStr (se_trust_status e)); ("historicalTrustUsed", JBool (se_historical_trust_used e));
           ("historicalAnchor", JObj [("subject", JStr (se_historical_anchor_subject e));
                                      ("serial", JStr (se_historical_anchor_serial e))])]);
        ("revocation", JObj [("checked", JBool (se_revocation_checked e)); ("ocspChecked", JBool (se_ocsp_checked e));
           ("revocationStatus", JStr (se_revocation_status e))]);
        ("signaturePolicyPresent", JBool (se_signature_policy_present e));
        ("signaturePolicyId", JStr (se_signature_policy_id e));
        ("signaturePolicyHashAlgorithmUri", JStr (se_signature_policy_hash_algo_uri e));
        ("dataObjectFormats", JArr (map format_doc (se_data_object_formats e)))].

Definition detail_members (r : VerifyReport) (sync : TrustListSyncReport) : list (string * json) :=
  [("message", JStr (vr_message r));
   ("trustList", JObj [("checked", JBool (vr_trust_list_checked r)); ("source", JStr (vr_trust_list_source r));
      ("cacheStatus", JStr (vr_trust_list_cache_status r)); ("lastSync", JStr (vr_trust_list_last_sync r));
      ("updateSucceeded", JBool (vr_trust_list_update_succeeded r))]);
   ("trustListSync", JObj [("checked", JBool (ts_checked sync)); ("source", JStr (ts_source sync));
      ("cacheStatus", JStr (ts_cache_status sync)); ("lastSync", JStr (ts_last_sync sync));
      ("updateSucceeded", JBool (ts_update_succeeded sync));
      ("xmlSignatureStatus", JStr (ts_xml_signature_status sync))]);
   ("chainDebug", JObj [("trace", JStr (vr_chain_debug r))])].

Definition technical_flags (r : VerifyReport) : list (string * json) :=
  [("cmsSignerCount", JInt (vr_cms_signer_count r)); ("cmsVerifiedSignerCount", JInt (vr_cms_verified_signer_count r));
   ("signerCertificatePresent", JBool (vr_signer_certificate_present r));
   ("certificateTimeValid", JBool (vr_certificate_time_valid r)); ("chainChecked", JBool (vr_chain_checked r));
   ("chainValid", JBool (vr_chain_valid r)); ("ltvValid", JBool (vr_ltv_valid r));
   ("containerCoverageComplete", JBool (vr_container_coverage_complete r))].

Definition technical_report_doc (r : VerifyReport) (sync : TrustListSyncReport) : json :=
  let f := MkFormatFallbacks "" "" in
  JObj [("schemaVersion", JStr "2.2");
        ("summary", summary_doc r NoMessage);
        ("signature", signature_doc r f (MkSignatureSectionExtras (Some (vr_validated_profile r))) NoMessage);
        ("certificate", certificate_doc r
           (MkCertificateSectionExtras (Some (vr_qualifying_properties_present r)) None) NoMessage);
        ("trust", trust_doc r NoMessage);
        ("revocation", revocation_doc r NoMessage);
        ("timestamp", timestamp_doc r NoMessage);
        ("ltv", ltv_doc r NoMessage);
        ("signaturePolicy", JObj [("present", JBool (vr_signature_policy_present r));
           ("id", JStr (vr_signature_policy_id r)); ("hashAlgorithmUri", JStr (vr_signature_policy_hash_algo_uri r))]);
        ("dataObjectFormats", JArr (map format_doc (vr_data_object_formats r)));
        ("policy", policy_doc r NoMessage);
        ("diagnostics", JObj (diagnostics_members r f ++ detail_members r sync
          ++ [("flags", JObj (flag_members r ++ technical_flags r))]));
        ("signatures", JArr (map signature_entry_doc (vr_signatures r)))].

(** ** The writers emit the text of the documents *)

(** The members of an object without the closing brace. *)
Fixpoint fields (l : list (string * json)) (first : bool) : list ascii :=
  match l with
  | [] => []
  | (k, v) :: l' =>
      (if first then [] else [","%char]) ++ literal (chars k) ++ ":"%char :: print v ++ fields l' false
  end.

Lemma print_members_fields (l : list (string * json)) (first : bool) :
  print_members l first = fields l first ++ ["}"%char].
Proof.
  revert first. induction l as [|[k v] l IH]; intros first; [done|].
  cbn [print_members fields]. rewrite IH, <- !app_assoc. cbn [app]. by rewrite <- app_assoc.
Qed.

Lemma fields_app (a b : list (string * json)) (first : bool) :
  fields (a ++ b) first = fields a first ++ fields b (match a with [] => first | _ => false end).
Proof.
  revert first. induction a as [|[k v] a IH]; intros first; [done|].
  cbn [fields app]. rewrite IH, <- !app_assoc. cbn [app]. rewrite <- app_assoc. by destruct a.
Qed.

Lemma print_obj_fields (l : list (string * json)) : print (JObj l) = "{"%char :: fields l true ++ ["}"%char].
Proof. rewrite print_obj. by rewrite print_members_fields. Qed.

Lemma print_arr_separated {A} (write : A -> list ascii) (doc : A -> json) (l : list A) :
  (forall x, x ∈ l -> write x = print (doc x)) ->
  print (JArr (map doc l)) = raw "[" ++ separated write l true ++ raw "]".
Proof.
  intros H. rewrite print_arr. change (raw "[") with ["["%char]. cbn [app]. f_equal.
  assert (forall first, print_items (map doc l) first = separated write l first ++ raw "]") as E; [|apply E].
  induction l as [|x l IH]; intros first; [done|].
  cbn [map print_items separated]. rewrite IH, (H x), <- !app_assoc; [done|by constructor|].
  intros y Hy. apply H. by constructor.
Qed.

(** Every writer is a concatenation; both sides are brought to the same bracketing. *)
Ltac same_text :=
  cbn [fields app print]; unfold literal, esc, boolj, num, out;
  repeat (progress (rewrite <- ?app_assoc; cbn [app])); rewrite ?app_nil_r; reflexivity.

Lemma WriteMessage_fields (code : string) : WriteMessage code = fields (message_member Bilingual code) false.
Proof. unfold WriteMessage, message_member. same_text. Qed.

Lemma WriteCheckFields_fields (check : VerifyCheck) (style : MessageStyle) :
  plain (ck_status check) -> plain (ck_code check) ->
  WriteCheckFields check style = fields (check_members check style) true.
Proof.
  intros H1 H2. unfold WriteCheckFields, check_members. rewrite fields_app.
  unfold out. rewrite <- H1, <- H2. destruct style; [|rewrite WriteMessage_fields]; same_text.
Qed.

Definition plain_check (check : VerifyCheck) : Prop := plain (ck_status check) /\ plain (ck_code check).

Lemma WriteStringOrNull_print (value : string) : WriteStringOrNull value = print (string_or_null value).
Proof. unfold WriteStringOrNull, string_or_null. case_match; [done|]. same_text. Qed.

(** The checks of a report carry fixed codes. *)
Lemma checks_plain (r : VerifyReport) :
  plain_check (SummaryCheck r) /\ plain_check (SignatureCheck r) /\ plain_check (CertificateCheck r)
  /\ plain_check (TrustCheck r) /\ plain_check (RevocationCheck r) /\ plain_check (TimestampCheck r)
  /\ plain_check (LtvCheck r) /\ plain_check (PolicyCheck r).
Proof.
  split_and!.
  - unfold SummaryCheck. cbv zeta. repeat case_match; by split; vm_compute.
  - unfold SignatureCheck. repeat case_match; by split; vm_compute.
  - unfold CertificateCheck. repeat case_match; by split; vm_compute.
  - unfold TrustCheck. repeat case_match; by split; vm_compute.
  - unfold RevocationCheck. cbv zeta. repeat case_match; by split; vm_compute.
  - unfold TimestampCheck. repeat case_match; by split; vm_compute.
  - unfold LtvCheck. repeat case_match; by split; vm_compute.
  - unfold PolicyCheck, FirstPolicyWarningCode. cbv zeta. repeat case_match; by split; vm_compute.
Qed.

(** The common part of the section lemmas: the fields of the check [H] come first. *)
Ltac section_text H :=
  rewrite WriteCheckFields_fields by apply H; rewrite print_obj_fields, fields_app;
  match goal with |- context [fields (check_members ?c ?s) true] =>
    let checks := fresh "checks" in
    generalize (fields (check_members c s) true) as checks; intros checks
  end; cbn [check_members app].

Lemma WriteSummarySection_print (r : VerifyReport) (style : MessageStyle) :
  WriteSummarySection r style = raw "'summary':" ++ print (summary_doc r style) ++ raw ",".
Proof.
  destruct (checks_plain r) as (H & _). unfold WriteSummarySection, summary_doc. section_text H. same_text.
Qed.

Lemma WriteSignatureSection_print (r : VerifyReport) (f : FormatFallbacks) (x : SignatureSectionExtras)
    (style : MessageStyle) :
  WriteSignatureSection r f x style = raw "'signature':" ++ print (signature_doc r f x style) ++ raw ",".
Proof.
  destruct (checks_plain r) as (_ & H & _). unfold WriteSignatureSection, signature_doc. section_text H.
  destruct x as [[p|]]; cbn [sx_validated_profile]; same_text.
Qed.

Lemma WriteSignerMetadata_fields (m : CertificateMetadata) :
  WriteSignerMetadata m = fields (metadata_members m) false.
Proof. unfold WriteSignerMetadata, metadata_members. rewrite !WriteStringOrNull_print. same_text. Qed.

Lemma WriteCertificateSection_print (r : VerifyReport) (x : CertificateSectionExtras) (style : MessageStyle) :
  plain (ValidationTimeSource r) ->
  WriteCertificateSection r x style = raw "'certificate':" ++ print (certificate_doc r x style) ++ raw ",".
Proof.
  intros Hv. destruct (checks_plain r) as (_ & _ & H & _). unfold WriteCertificateSection, certificate_doc.
  unfold out. rewrite <- Hv. section_text H.
  destruct x as [[q|] [m|]]; cbn [cx_qualifying_properties_present cx_signer_metadata];
    rewrite ?WriteSignerMetadata_fields, ?fields_app; same_text.
Qed.

Lemma WriteTrustSection_print (r : VerifyReport) (style : MessageStyle) :
  WriteTrustSection r style = raw "'trust':" ++ print (trust_doc r style) ++ raw ",".
Proof.
  destruct (checks_plain r) as (_ & _ & _ & H & _). unfold WriteTrustSection, trust_doc.
  section_text H. same_text.
Qed.

Lemma WriteRevocationSection_print (r : VerifyReport) (style : MessageStyle) :
  WriteRevocationSection r style = raw "'revocation':" ++ print (revocation_doc r style) ++ raw ",".
Proof.
  destruct (checks_plain r) as (_ & _ & _ & _ & H & _). unfold WriteRevocationSection, revocation_doc.
  unfold EffectiveRevocationChecked, EffectiveOcspChecked. cbv zeta. section_text H. same_text.
Qed.

Lemma separated_strings (l : list string) :
  raw "[" ++ separated (fun value => raw "'" ++ esc value ++ raw "'") l true ++ raw "]" = print (strings l).
Proof. symmetry. apply print_arr_separated. intros s _. same_text. Qed.

Lemma write_strings_field (name : string) (values : list string) :
  plain name -> write_strings name values = fields [(name, strings values)] false.
Proof.
  intros Hn. unfold write_strings, out. cbn [fields]. rewrite <- (separated_strings values).
  unfold literal. change (escape_chars (chars name)) with (esc name). rewrite Hn. same_text.
Qed.

Lemma WriteTimestampDetail_print (d : TimestampEntry) : WriteTimestampDetail d = print (timestamp_detail_doc d).
Proof.
  unfold WriteTimestampDetail, timestamp_detail_doc. rewrite print_obj_fields.
  rewrite !write_strings_field by by vm_compute.
  assert (plain (timestamp_state (te_status d))) as Hs
    by (unfold timestamp_state; repeat case_match; by vm_compute).
  unfold out. rewrite <- Hs. generalize (timestamp_state (te_status d)). intros state.
  generalize (strings (te_because d)), (strings (te_warnings d)), (strings (te_limitations d)), (strings (te_evidence_ids d)).
  intros because warnings limitations ids. same_text.
Qed.

Lemma WriteTimestampDetails_print (l : list TimestampEntry) :
  WriteTimestampDetails l = print (JArr (map timestamp_detail_doc l)).
Proof. symmetry. apply print_arr_separated. intros d _. apply WriteTimestampDetail_print. Qed.

Lemma WriteTimestampSection_print (r : VerifyReport) (style : MessageStyle) :
  WriteTimestampSection r style = raw "'timestamp':" ++ print (timestamp_doc r style) ++ raw ",".
Proof.
  destruct (checks_plain r) as (_ & _ & _ & _ & _ & H & _). unfold WriteTimestampSection, timestamp_doc.
  rewrite WriteTimestampDetails_print. generalize (JArr (map timestamp_detail_doc (vr_timestamp_details r))).
  intros details. section_text H. same_text.
Qed.

Lemma WriteLtvSection_print (r : VerifyReport) (style : MessageStyle) :
  WriteLtvSection r style = raw "'ltv':" ++ print (ltv_doc r style) ++ raw ",".
Proof.
  destruct (checks_plain r) as (_ & _ & _ & _ & _ & _ & H & _). unfold WriteLtvSection, ltv_doc.
  unfold out. rewrite <- (proj1 H). section_text H. same_text.
Qed.

Lemma WriteWarning_print (style : MessageStyle) (code : string) :
  plain code -> WriteWarning style code = print (warning_doc style code).
Proof.
  intros Hc. unfold WriteWarning, warning_doc, out. rewrite <- Hc.
  rewrite print_obj_fields. destruct style; [same_text|]. rewrite WriteMessage_fields. same_text.
Qed.

Lemma policy_warnings_plain (r : VerifyReport) (code : string) : code ∈ policy_warnings r -> plain code.
Proof.
  unfold policy_warnings. rewrite !elem_of_app.
  intros [H|[H|[H|H]]]; case_match; first [by apply elem_of_nil in H | apply list_elem_of_singleton in H as ->; by vm_compute].
Qed.

Lemma WritePolicySection_print (r : VerifyReport) (style : MessageStyle) :
  WritePolicySection r style = raw "'policy':" ++ print (policy_doc r style) ++ raw ",".
Proof.
  destruct (checks_plain r) as (_ & _ & _ & _ & _ & _ & _ & H). unfold WritePolicySection, policy_doc.
  section_text H. cbn [fields app].
  rewrite (print_arr_separated (WriteWarning style)) by (intros; apply WriteWarning_print; eauto using policy_warnings_plain).
  same_text.
Qed.

Lemma WriteV2DataObjectFormats_print (l : list DataObjectFormatEntry) :
  WriteV2DataObjectFormats l = print (JArr (map format_doc l)).
Proof.
  unfold WriteV2DataObjectFormats. symmetry. apply print_arr_separated. intros dof _.
  unfold format_doc. rewrite print_obj_fields. same_text.
Qed.

Lemma WriteV2Signature_print (e : SignatureEntry) : WriteV2Signature e = print (signature_entry_doc e).
Proof.
  unfold WriteV2Signature, signature_entry_doc.
  rewrite WriteTimestampDetails_print, WriteV2DataObjectFormats_print, print_obj_fields.
  generalize (JArr (map timestamp_detail_doc (se_timestamp_details e))),
    (JArr (map format_doc (se_data_object_formats e))). intros details formats. same_text.
Qed.

Lemma WriteV2Signatures_print (r : VerifyReport) :
  WriteV2Signatures r = raw "'signatures':" ++ print (JArr (map signature_entry_doc (vr_signatures r))).
Proof.
  unfold WriteV2Signatures. rewrite (print_arr_separated WriteV2Signature); [done|].
  intros e _. apply WriteV2Signature_print.
Qed.

Lemma WriteDiagnosticsPrefix_fields (r : VerifyReport) (f : FormatFallbacks) :
  WriteDiagnosticsPrefix r f = raw "'diagnostics':{" ++ fields (diagnostics_members r f) true.
Proof. unfold WriteDiagnosticsPrefix, diagnostics_members. same_text. Qed.

Lemma WriteDiagnosticsFlagsPrefix_fields (r : VerifyReport) :
  WriteDiagnosticsFlagsPrefix r = raw "'flags':{" ++ fields (flag_members r) true.
Proof.
  unfold WriteDiagnosticsFlagsPrefix, flag_members, EffectiveRevocationChecked, EffectiveOcspChecked. same_text.
Qed.

Lemma WriteDiagnosticsDetails_fields (r : VerifyReport) (sync : TrustListSyncReport) :
  WriteDiagnosticsDetails r sync = fields (detail_members r sync) false ++ raw ",".
Proof. unfold WriteDiagnosticsDetails, detail_members. same_text. Qed.

Lemma WriteDiagnosticsFlags_print (r : VerifyReport) :
  WriteDiagnosticsFlags r = raw "'flags':" ++ print (JObj (flag_members r ++ technical_flags r)) ++ raw "},".
Proof.
  unfold WriteDiagnosticsFlags, EffectiveCertificateTimeValid. rewrite WriteDiagnosticsFlagsPrefix_fields.
  rewrite print_obj_fields, fields_app. unfold technical_flags.
  generalize (fields (flag_members r) true). intros flags. cbn [flag_members]. same_text.
Qed.

(** *** The whole reports *)

Lemma Build_print (input : UserReportInput) :
  plain (ValidationTimeSource (ui_verify_report input)) ->
  Build input = of_chars (print (user_report_doc input)).
Proof.
  intros Hv. unfold Build, user_report_doc. cbv zeta. f_equal.
  rewrite WriteSummarySection_print, WriteSignatureSection_print, WriteCertificateSection_print, WriteTrustSection_print,
    WriteRevocationSection_print, WriteTimestampSection_print, WriteLtvSection_print, WritePolicySection_print,
    WriteDiagnosticsPrefix_fields, WriteDiagnosticsFlagsPrefix_fields by done.
  rewrite print_obj_fields. cbn [fields]. rewrite (print_obj_fields (_ ++ _)), fields_app. cbn [fields].
  rewrite (print_obj_fields (_ ++ _)), fields_app.
  change (match diagnostics_members _ _ with [] => true | _ => false end) with false.
  set (summary := print (summary_doc _ _)). set (signature := print (signature_doc _ _ _ _)).
  set (certificate := print (certificate_doc _ _ _)). set (trust := print (trust_doc _ _)).
  set (revocation := print (revocation_doc _ _)). set (timestamp := print (timestamp_doc _ _)).
  set (ltv := print (ltv_doc _ _)). set (pol := print (policy_doc _ _)).
  set (diagnostics := fields (diagnostics_members _ _) true). set (flags := fields (flag_members _) true).
  clearbody summary signature certificate trust revocation timestamp ltv pol diagnostics flags. same_text.
Qed.

Lemma GetLastVerifyReport_print (r : VerifyReport) (sync : TrustListSyncReport) :
  plain (ValidationTimeSource r) ->
  GetLastVerifyReport r sync = of_chars (print (technical_report_doc r sync)).
Proof.
  intros Hv. unfold GetLastVerifyReport, technical_report_doc. cbv zeta. f_equal.
  rewrite WriteSummarySection_print, WriteSignatureSection_print, WriteCertificateSection_print, WriteTrustSection_print,
    WriteRevocationSection_print, WriteTimestampSection_print, WriteLtvSection_print, WritePolicySection_print,
    WriteDiagnosticsPrefix_fields, WriteDiagnosticsDetails_fields, WriteDiagnosticsFlags_print,
    WriteV2DataObjectFormats_print, WriteV2Signatures_print by done.
  match goal with |- _ = print (JObj ?l) => rewrite (print_obj_fields l) end. cbn [fields].
  rewrite (print_obj_fields (diagnostics_members _ _ ++ _)), fields_app.
  rewrite fields_app. cbn [fields].
  set (summary := print (summary_doc _ _)). set (signature := print (signature_doc _ _ _ _)).
  set (certificate := print (certificate_doc _ _ _)). set (trust := print (trust_doc _ _)).
  set (revocation := print (revocation_doc _ _)). set (timestamp := print (timestamp_doc _ _)).
  set (ltv := print (ltv_doc _ _)). set (pol := print (policy_doc _ _)).
  set (diagnostics := fields (diagnostics_members _ _) true).
  set (flags := print (JObj (flag_members _ ++ _))). set (formats := print (JArr (map format_doc _))).
  set (entries := print (JArr (map signature_entry_doc _))).
  set (details := fields (detail_members _ _) _).
  clearbody summary signature certificate trust revocation timestamp ltv pol diagnostics flags formats entries details.
  same_text.
Qed.

(** *** Both documents are within the nesting limit of the reader *)

Lemma fits_map {A} (doc : A -> json) (depth : nat) (l : list A) :
  (S depth <=? kMaxJsonNestingDepth)%nat = true -> (forall x, fits (S depth) (doc x) = true) ->
  fits depth (JArr (map doc l)) = true.
Proof.
  intros Hd H. rewrite fits_arr, Hd. cbn [andb]. apply forallb_forall. intros x Hx.
  apply in_map_iff in Hx as (y & <- & _). apply H.
Qed.

Lemma fits_members (depth : nat) (l : list (string * json)) :
  (S depth <=? kMaxJsonNestingDepth)%nat = true -> Forall (fun m => fits (S depth) m.2 = true) l ->
  fits depth (JObj l) = true.
Proof.
  intros Hd H. rewrite fits_obj, Hd. cbn [andb]. apply forallb_forall. by rewrite <- List.Forall_forall.
Qed.

Lemma fits_strings (depth : nat) (l : list string) :
  (S depth <=? kMaxJsonNestingDepth)%nat = true -> fits depth (strings l) = true.
Proof. intros Hd. by apply fits_map. Qed.

Lemma timestamp_detail_fits (d : TimestampEntry) (depth : nat) :
  (depth <=? 10)%nat = true -> fits depth (timestamp_detail_doc d) = true.
Proof.
  intros Hd. apply Nat.leb_le in Hd. unfold timestamp_detail_doc.
  apply fits_members; [apply Nat.leb_le; unfold kMaxJsonNestingDepth; lia|].
  repeat first [apply Forall_nil_2 | apply Forall_cons_2; [first [done | apply fits_strings; apply Nat.leb_le; unfold kMaxJsonNestingDepth; lia]|]].
Qed.

Lemma timestamp_details_fit (l : list TimestampEntry) (depth : nat) :
  (depth <=? 9)%nat = true -> fits depth (JArr (map timestamp_detail_doc l)) = true.
Proof.
  intros Hd. apply Nat.leb_le in Hd.
  apply fits_map; [apply Nat.leb_le; unfold kMaxJsonNestingDepth; lia|].
  intros d. apply timestamp_detail_fits, Nat.leb_le. lia.
Qed.

Lemma formats_fit (l : list DataObjectFormatEntry) (depth : nat) :
  (depth <=? 9)%nat = true -> fits depth (JArr (map format_doc l)) = true.
Proof.
  intros Hd. apply Nat.leb_le in Hd. apply fits_map; [apply Nat.leb_le; unfold kMaxJsonNestingDepth; lia|].
  intros d. apply orb_true_iff. right. apply Nat.leb_le. unfold kMaxJsonNestingDepth. cbn. lia.
Qed.

Lemma warnings_fit (style : MessageStyle) (l : list string) (depth : nat) :
  (depth <=? 9)%nat = true -> fits depth (JArr (map (warning_doc style) l)) = true.
Proof.
  intros Hd. apply Nat.leb_le in Hd. apply fits_map; [apply Nat.leb_le; unfold kMaxJsonNestingDepth; lia|].
  intros d. apply orb_true_iff. right. apply Nat.leb_le. unfold kMaxJsonNestingDepth. destruct style; cbn; lia.
Qed.

Lemma signature_entry_fits (e : SignatureEntry) : fits 2 (signature_entry_doc e) = true.
Proof.
  unfold signature_entry_doc. apply fits_members; [done|].
  repeat first [apply Forall_nil_2 | apply Forall_cons_2;
    [first [by apply timestamp_details_fit | by apply formats_fit | done]|]].
Qed.

Ltac fit_members :=
  apply fits_members; [done|]; repeat first
    [ apply Forall_nil_2 | apply Forall_app_2 | apply Forall_cons_2;
      [first [by apply timestamp_details_fit | by apply formats_fit | by apply warnings_fit | done]|] ].

Lemma check_members_fit (check : VerifyCheck) (style : MessageStyle) :
  Forall (fun m => fits 2 m.2 = true) (check_members check style).
Proof. by destruct style; repeat apply Forall_cons_2. Qed.

Lemma sections_fit (r : VerifyReport) (f : FormatFallbacks) (sx : SignatureSectionExtras)
    (cx : CertificateSectionExtras) (style : MessageStyle) :
  Forall (fun d => fits 1 d = true)
    [summary_doc r style; signature_doc r f sx style; certificate_doc r cx style; trust_doc r style;
     revocation_doc r style; timestamp_doc r style; ltv_doc r style; policy_doc r style].
Proof.
  repeat apply Forall_cons_2; try apply Forall_nil_2;
    (apply fits_members; [done|]; apply Forall_app_2; [apply check_members_fit|]).
  - by repeat constructor.
  - destruct sx as [[p|]]; by repeat constructor.
  - destruct cx as [[q|] [m|]]; cbn [cx_qualifying_properties_present cx_signer_metadata app];
      repeat (apply Forall_cons_2; [done|]); try apply Forall_nil_2;
      unfold metadata_members, string_or_null;
      repeat (apply Forall_cons_2; [cbn [snd]; by case_match|]); apply Forall_nil_2.
  - by repeat constructor.
  - by repeat constructor.
  - repeat (apply Forall_cons_2; [first [by apply timestamp_details_fit | done]|]). apply Forall_nil_2.
  - by repeat constructor.
  - repeat (apply Forall_cons_2; [first [by apply warnings_fit | done]|]). apply Forall_nil_2.
Qed.

Lemma technical_report_fits (r : VerifyReport) (sync : TrustListSyncReport) :
  fits 0 (technical_report_doc r sync) = true.
Proof.
  pose proof (sections_fit r (MkFormatFallbacks "" "") (MkSignatureSectionExtras (Some (vr_validated_profile r)))
    (MkCertificateSectionExtras (Some (vr_qualifying_properties_present r)) None) NoMessage) as H.
  rewrite !Forall_cons in H. destruct H as (H1 & H2 & H3 & H4 & H5 & H6 & H7 & H8 & _).
  unfold technical_report_doc. apply fits_members; [done|].
  repeat (apply Forall_cons_2; [first [done | by apply formats_fit | by apply fits_map; [|apply signature_entry_fits]]|]).
  apply Forall_nil_2.
Qed.

Lemma user_report_fits (input : UserReportInput) : fits 0 (user_report_doc input) = true.
Proof.
  pose proof (sections_fit (ui_verify_report input)
    (MkFormatFallbacks (ui_signature_format input) (ui_container_type input)) (MkSignatureSectionExtras None)
    (MkCertificateSectionExtras None (Some (ui_signer_metadata input))) Bilingual) as H.
  rewrite !Forall_cons in H. destruct H as (H1 & H2 & H3 & H4 & H5 & H6 & H7 & H8 & _).
  unfold user_report_doc. apply fits_members; [done|].
  repeat (apply Forall_cons_2; [done|]). apply Forall_nil_2.
Qed.

Lemma technical_report_lookup (r : VerifyReport) (sync : TrustListSyncReport) (path : list string) :
  plain (ValidationTimeSource r) -> path <> [] ->
  ExtractJsonStringPath (GetLastVerifyReport r sync) path
    = match json_at (technical_report_doc r sync) path with Some v => as_string v | None => None end
  /\ ExtractJsonBoolPath (GetLastVerifyReport r sync) path
    = match json_at (technical_report_doc r sync) path with Some v => as_bool v | None => None end.
Proof.
  intros Hv Hp. rewrite GetLastVerifyReport_print by done.
  apply ExtractJson_lookup; [apply technical_report_fits|done].
Qed.

(** ** Properties *)

(** [C39] The technical report of every verification is a JSON document that says what the report
    record says: whatever text the certificate names, messages and policy identifiers contain,
    reading any path of [GetLastVerifyReport]'s output with the program's own reader gives the value
    the record has there (the source of the validation time, the one field written without escaping,
    being free of quotes, backslashes and control characters). *)
Theorem GetLastVerifyReport_reads_back (r : VerifyReport) (sync : TrustListSyncReport) (path : list string) :
  plain (ValidationTimeSource r) -> path <> [] ->
  ExtractJsonStringPath (GetLastVerifyReport r sync) path
    = match json_at (technical_report_doc r sync) path with Some v => as_string v | None => None end
  /\ ExtractJsonBoolPath (GetLastVerifyReport r sync) path
    = match json_at (technical_report_doc r sync) path with Some v => as_bool v | None => None end.
Proof. apply technical_report_lookup. Qed.

Definition hostile_text : string := of_chars [quote; backslash; ","%char; to_char 10; "}"%char].

Lemma GetLastVerifyReport_reads_back_witness :
  ExtractJsonStringPath
    (GetLastVerifyReport (toy_report <| vr_trust_reason := hostile_text |>) TrustListSyncReport_default) ["trust"; "reason"]
  = Some hostile_text.
Proof.
  destruct (GetLastVerifyReport_reads_back (toy_report <| vr_trust_reason := hostile_text |>)
    TrustListSyncReport_default ["trust"; "reason"]) as [E _]; [by vm_compute | done |].
  etransitivity; [exact E | by vm_compute].
Defined.

(** The user report and the technical report give one verdict: in each of the eight sections,
    the [status] and the [code] read from the text the user is shown are those read from the text
    programs consume, and both texts have them. *)
Theorem reports_agree (r : VerifyReport) (metadata : CertificateMetadata) (sync : TrustListSyncReport)
    (section name : string) :
  plain (ValidationTimeSource r) ->
  section ∈ ["summary"; "signature"; "certificate"; "trust"; "revocation"; "timestamp"; "ltv"; "policy"] ->
  name ∈ ["status"; "code"] ->
  ExtractJsonStringPath (RefreshUserReportForCurrentOperation r metadata) [section; name]
  = ExtractJsonStringPath (GetLastVerifyReport r sync) [section; name]
  /\ ExtractJsonStringPath (GetLastVerifyReport r sync) [section; name] <> None.
Proof.
  intros Hv Hs Hn. destruct (technical_report_lookup r sync [section; name] Hv ltac:(done)) as [-> _].
  unfold RefreshUserReportForCurrentOperation.
  destruct (UserReportFormatForOperation (vr_operation r)) as [ct sf].
  rewrite Build_print by done.
  destruct (ExtractJson_lookup (user_report_doc (MkUserReportInput r ct sf metadata)) [section; name]
    (user_report_fits _) ltac:(done)) as [-> _].
  repeat (apply elem_of_cons in Hs as [->|Hs]); try by apply elem_of_nil in Hs.
  all: repeat (apply elem_of_cons in Hn as [->|Hn]); try by apply elem_of_nil in Hn.
  all: done.
Qed.

Lemma reports_agree_witness :
  ExtractJsonStringPath (RefreshUserReportForCurrentOperation toy_report CertificateMetadata_default) ["trust"; "code"]
  = ExtractJsonStringPath (GetLastVerifyReport toy_report TrustListSyncReport_default) ["trust"; "code"].
Proof.
  apply (reports_agree toy_report CertificateMetadata_default TrustListSyncReport_default "trust" "code");
    [by vm_compute | by vm_compute; repeat constructor | by vm_compute; repeat constructor].
Defined.
