(* ===== verification/PolicyCache.v ===== *)
(** * PolicyCache: the trusted lists on disk (src/src/lib/core/policy/PolicyCache.cpp)

    The cache keeps the XML of every list, the certificates of their services as
    files of four stores, a description of these certificates and the state of the
    last synchronisation.  [WriteTrustListsMaterialized] replaces all of it in one
    transaction: the new files are staged beside the old ones, the old ones are
    moved away, the new ones moved in, and any failure on the way is undone.

    The file system maps paths to files and to directories of files.  What the
    operating system will say to each call is part of the disk: the calls that the
    program tests for failure, the questions whether a file or a directory is there
    (a failure reads as absent) and the removals, whose failure the program ignores,
    each have a list of answers of their own. *)

From stdpp Require Import gmap.
From S2P Require Import Prelude CxxString Types Time Der Codec Utf Json FileSystem Paths Sha256 Sha1 Jks Pem.
From S2P Require Import Cryptonite Fixture X509Name TrustList Evidence Report Projection ReportJson.

Local Open Scope Z_scope.
Local Open Scope tamga_scope.

Record PolicyCacheState := MkPolicyCacheState {
  pc_source_url : string;
  pc_cache_status : string;
  pc_last_sync : string;
  pc_update_succeeded : bool;
  pc_etag : string;
  pc_last_modified : string
}.

#[export] Instance eta_PolicyCacheState : Eta PolicyCacheState := fun r =>
  MkPolicyCacheState (pc_source_url r) (pc_cache_status r) (pc_last_sync r)
  (pc_update_succeeded r) (pc_etag r) (pc_last_modified r).

Definition PolicyCacheState_default : PolicyCacheState :=
  MkPolicyCacheState "" "not-checked" "" false "" "".

Record PolicyCacheEntry := MkPolicyCacheEntry {
  ce_filename : string;
  ce_xml : list ascii;
  ce_parsed : TrustListParseResult;
  ce_is_historical : bool
}.

(** ** Which certificates become trust anchors *)

Definition IsGrantedService (service : TrustListServiceRecord) : bool :=
  one_of (sv_status service)
    ["http://czo.gov.ua/TrstSvc/TrustedList/Svcstatus/granted";
     "http://uri.etsi.org/TrstSvc/TrustedList/Svcstatus/granted";
     "http://czo.gov.ua/TrstSvc/TrustedList/Svcstatus/recognisedatnationallevel";
     "http://uri.etsi.org/TrstSvc/TrustedList/Svcstatus/recognisedatnationallevel"].

Record CertificateMaterializationDecision := MkCertificateMaterializationDecision {
  md_granted : bool;
  md_is_ca : bool;
  md_key_cert_sign : bool;
  md_materialize : bool;
  md_target : string;
  md_reason : string
}.

#[export] Instance eta_CertificateMaterializationDecision : Eta CertificateMaterializationDecision := fun r =>
  MkCertificateMaterializationDecision (md_granted r) (md_is_ca r) (md_key_cert_sign r)
  (md_materialize r) (md_target r) (md_reason r).

Definition CertificateMaterializationDecision_default : CertificateMaterializationDecision :=
  MkCertificateMaterializationDecision false false false false "skip" "not evaluated".

Section Classify.
Context `{CertApi}.

Definition DecodeCertificateForPolicy (der : bytes) : option Certificate_t := DecodeCertificateDer der.

Definition CertificateHasCaBasicConstraint (cert : Certificate_t) : bool :=
  match cert_basic_constraints cert with
  | Some bc => match bc_cA bc with Some v => negb (v =? 0) | None => false end
  | None => false
  end.

Definition CertificateHasKeyCertSign (cert : Certificate_t) : bool :=
  CertificateAllowsKeyUsage cert KeyUsage_keyCertSign.

Definition is_tsa_service (service_type : string) : bool :=
  one_of service_type ["http://czo.gov.ua/TrstSvc/Svctype/MR-TSA/QTST";
                       "http://czo.gov.ua/TrstSvc/Svctype/National-TSA/QTST"].

Definition is_ca_service (service_type : string) : bool :=
  one_of service_type ["http://czo.gov.ua/TrstSvc/Svctype/CA/QC";
                       "http://czo.gov.ua/TrstSvc/Svctype/MR-CA/QC";
                       "http://czo.gov.ua/TrstSvc/Svctype/NationalRootCA-QC"].

Definition ClassifyMaterializationCandidate (service : TrustListServiceRecord) (certificate : bytes)
    (is_historical : bool) : CertificateMaterializationDecision :=
  let decision := CertificateMaterializationDecision_default <| md_granted := IsGrantedService service |> in
  if negb (md_granted decision) then decision <| md_reason := "service status is not granted" |>
  else
    match DecodeCertificateForPolicy certificate with
    | None => decision <| md_reason := "certificate cannot be decoded" |>
    | Some cert =>
        let decision := decision <| md_is_ca := CertificateHasCaBasicConstraint cert |>
                                 <| md_key_cert_sign := CertificateHasKeyCertSign cert |> in
        if is_tsa_service (sv_service_type service) then
          decision <| md_materialize := true |>
            <| md_target := if is_historical then "historical-tsa-store" else "tsa-store" |>
            <| md_reason := "granted TSA endpoint certificate from trust list" |>
        else if negb (md_is_ca decision) then
          decision <| md_reason := "basicConstraints CA is false or missing" |>
        else if negb (md_key_cert_sign decision) && negb (is_ca_service (sv_service_type service)) then
          decision <| md_reason := "keyUsage keyCertSign is false or missing" |>
        else
          decision <| md_materialize := true |>
            <| md_target := if is_historical then "historical-trust-store" else "trust-store" |>
            <| md_reason :=
                 if negb (md_key_cert_sign decision)
                 then "granted CA certificate from trust list (keyCertSign is 0/missing but service type is CA)"
                 else "granted CA certificate with keyCertSign" |>
    end.

End Classify.

(** ** The description of the stores *)

Definition SanitizeToken (value : string) : string :=
  of_chars (List.filter (fun ch => isalnum ch || Ascii.eqb ch "-" || Ascii.eqb ch "_") (chars value)).

(** The search for a free name; among as many candidates as there are used names plus one, one is free. *)
Fixpoint unique_name (fuel : nat) (base_name candidate : string) (index : nat) (used_names : gset string) : string :=
  match fuel with
  | O => candidate
  | S fuel' =>
      if bool_decide (candidate ∈ used_names)
      then unique_name fuel' base_name (base_name +s+ "-" +s+ to_string (Z.of_nat index) +s+ ".cer") (S index) used_names
      else candidate
  end.

Definition UniqueFileName (base_name : string) (used_names : gset string) : string * gset string :=
  let candidate := unique_name (S (size used_names)) base_name (base_name +s+ ".cer") 2 used_names in
  (candidate, {[candidate]} ∪ used_names).

Record TrustStoreMetadataRecord := MkTrustStoreMetadataRecord {
  tm_provider_name : string;
  tm_service_type : string;
  tm_status : string;
  tm_xml_subject_name : string;
  tm_file_name : string;
  tm_subject : string;
  tm_issuer : string;
  tm_serial : string;
  tm_metadata_error : string;
  tm_materialized_trust_anchor : bool;
  tm_granted : bool;
  tm_is_ca : bool;
  tm_key_cert_sign : bool;
  tm_target : string;
  tm_materialization_reason : string;
  tm_source_tl : string;
  tm_endpoints : TrustListEndpoints
}.

#[export] Instance eta_TrustStoreMetadataRecord : Eta TrustStoreMetadataRecord := fun r =>
  MkTrustStoreMetadataRecord (tm_provider_name r) (tm_service_type r) (tm_status r)
  (tm_xml_subject_name r) (tm_file_name r) (tm_subject r) (tm_issuer r) (tm_serial r)
  (tm_metadata_error r) (tm_materialized_trust_anchor r) (tm_granted r) (tm_is_ca r)
  (tm_key_cert_sign r) (tm_target r) (tm_materialization_reason r) (tm_source_tl r)
  (tm_endpoints r).

Definition TrustStoreMetadataRecord_default : TrustStoreMetadataRecord :=
  MkTrustStoreMetadataRecord "" "" "" "" "" "" "" "" "" false false false false "skip" "" ""
  ((MkTrustListEndpoints [] [] [])).

Section Records.
Context `{Cert : CertApi, Plat : Platform, !@MetadataApi Cert Plat}.
Context (metadata_error_text : bytes -> string).  (** what the reader of metadata says of a certificate it refuses *)

(** The sets of names in use, of the active and of the historical store. *)
Definition UsedNames : Type := gset string * gset string.

Definition take_name (is_historical : bool) (base_token : string) (used : UsedNames) : string * UsedNames :=
  let '(active, historical) := used in
  if is_historical then let '(name, historical) := UniqueFileName base_token historical in (name, (active, historical))
  else let '(name, active) := UniqueFileName base_token active in (name, (active, historical)).

(** The record of a certificate without the name of its file. *)
Definition describe (entry : PolicyCacheEntry) (service : TrustListServiceRecord) (certificate : bytes)
    (decision : CertificateMaterializationDecision) : TrustStoreMetadataRecord :=
  let record := TrustStoreMetadataRecord_default
    <| tm_provider_name := sv_provider_name service |> <| tm_service_type := sv_service_type service |>
    <| tm_status := sv_status service |> <| tm_xml_subject_name := sv_subject_name service |>
    <| tm_materialized_trust_anchor := md_materialize decision |> <| tm_granted := md_granted decision |>
    <| tm_is_ca := md_is_ca decision |> <| tm_key_cert_sign := md_key_cert_sign decision |>
    <| tm_target := md_target decision |> <| tm_materialization_reason := md_reason decision |>
    <| tm_source_tl := ce_filename entry |> <| tm_endpoints := sv_endpoints service |> in
  match ExtractCertificateMetadata certificate with
  | Ret metadata => record <| tm_subject := cm_subject metadata |> <| tm_issuer := cm_issuer metadata |>
                           <| tm_serial := cm_serial_number_hex metadata |>
  | _ => record <| tm_subject := sv_subject_name service |>
                <| tm_metadata_error := metadata_error_text certificate |>
  end.

Definition metadata_record (entry : PolicyCacheEntry) (service : TrustListServiceRecord) (certificate : bytes)
    (used : UsedNames) : TrustStoreMetadataRecord * UsedNames :=
  let decision := ClassifyMaterializationCandidate service certificate (ce_is_historical entry) in
  let record := describe entry service certificate decision in
  if md_materialize decision then
    let base_token :=
      if negb (str_empty (tm_serial record)) then "serial-" +s+ SanitizeToken (tm_serial record)
      else "hash-" +s+ Hex.StableDerHash certificate in
    let '(name, used) := take_name (ce_is_historical entry) base_token used in
    (record <| tm_file_name := name |>, used)
  else (record, used).

(** The certificates of all services in the order of the three loops. *)
Definition candidates (entries : list PolicyCacheEntry) : list (PolicyCacheEntry * TrustListServiceRecord * bytes) :=
  concat (map (fun entry =>
    concat (map (fun service => map (fun certificate => (entry, service, certificate)) (sv_certificates service))
                (tl_services (ce_parsed entry)))) entries).

Fixpoint records_loop (l : list (PolicyCacheEntry * TrustListServiceRecord * bytes)) (used : UsedNames)
    : list TrustStoreMetadataRecord :=
  match l with
  | [] => []
  | (entry, service, certificate) :: l' =>
      let '(record, used) := metadata_record entry service certificate used in
      record :: records_loop l' used
  end.

Definition BuildTrustStoreMetadataRecords (entries : list PolicyCacheEntry) : list TrustStoreMetadataRecord :=
  records_loop (candidates entries) (∅, ∅).

End Records.

(** ** The texts *)

Definition JsonEscape (value : string) : list ascii :=
  concat (map (fun ch =>
    if Ascii.eqb ch backslash then [backslash; backslash]
    else if Ascii.eqb ch quote then [backslash; quote]
    else if uc ch =? 8 then [backslash; "b"%char]
    else if uc ch =? 12 then [backslash; "f"%char]
    else if uc ch =? 10 then [backslash; "n"%char]
    else if uc ch =? 13 then [backslash; "r"%char]
    else if uc ch =? 9 then [backslash; "t"%char]
    else if uc ch <? 0x20 then
      [backslash; "u"%char; "0"%char; "0"%char;
       Hex.hex_digit (Z.land (Z.shiftr (uc ch) 4) 0x0F); Hex.hex_digit (Z.land (uc ch) 0x0F)]
    else [ch]) (chars value)).

Definition BuildStateJson (state : PolicyCacheState) : list ascii :=
  raw "{'sourceUrl':'" ++ JsonEscape (pc_source_url state) ++ raw "','cacheStatus':'" ++ JsonEscape (pc_cache_status state)
  ++ raw "','lastSync':'" ++ JsonEscape (pc_last_sync state) ++ raw "','etag':'" ++ JsonEscape (pc_etag state)
  ++ raw "','lastModified':'" ++ JsonEscape (pc_last_modified state)
  ++ raw "','updateSucceeded':" ++ boolj (pc_update_succeeded state) ++ raw "}" ++ ["010"%char].

Definition WriteJsonStringArray (values : list string) : list ascii :=
  raw "[" ++ separated (fun value => raw "'" ++ JsonEscape value ++ raw "'") values true ++ raw "]".

Definition WriteMetadataRecord (record : TrustStoreMetadataRecord) : list ascii :=
  raw "{'providerName':'" ++ JsonEscape (tm_provider_name record) ++ raw "','serviceType':'" ++ JsonEscape (tm_service_type record)
  ++ raw "','status':'" ++ JsonEscape (tm_status record) ++ raw "','sourceTl':'" ++ JsonEscape (tm_source_tl record)
  ++ raw "','materializedTrustAnchor':" ++ boolj (tm_materialized_trust_anchor record)
  ++ raw ",'granted':" ++ boolj (tm_granted record) ++ raw ",'isCa':" ++ boolj (tm_is_ca record)
  ++ raw ",'keyCertSign':" ++ boolj (tm_key_cert_sign record)
  ++ raw ",'target':'" ++ JsonEscape (tm_target record)
  ++ raw "','materializationReason':'" ++ JsonEscape (tm_materialization_reason record)
  ++ raw "','fileName':'" ++ JsonEscape (tm_file_name record) ++ raw "','issuer':'" ++ JsonEscape (tm_issuer record)
  ++ raw "','subject':'" ++ JsonEscape (if str_empty (tm_subject record) then tm_xml_subject_name record else tm_subject record)
  ++ raw "','serial':'" ++ JsonEscape (tm_serial record) ++ raw "','metadataError':'" ++ JsonEscape (tm_metadata_error record)
  ++ raw "','crlUrls':" ++ WriteJsonStringArray (crl_urls (tm_endpoints record))
  ++ raw ",'ocspUrls':" ++ WriteJsonStringArray (ocsp_urls (tm_endpoints record))
  ++ raw ",'tspUrls':" ++ WriteJsonStringArray (tsp_urls (tm_endpoints record)) ++ raw "}".

Definition BuildTrustStoreMetadataJson (state : PolicyCacheState) (service_count : nat)
    (records : list TrustStoreMetadataRecord) : list ascii :=
  raw "{'sourceUrl':'" ++ JsonEscape (pc_source_url state) ++ raw "','lastSync':'" ++ JsonEscape (pc_last_sync state)
  ++ raw "','serviceCount':" ++ num (Z.of_nat service_count) ++ raw ",'records':["
  ++ separated WriteMetadataRecord records true ++ raw "]}" ++ ["010"%char].

(** ** The readers of arrays *)

(** The text behind the first occurrence of the key with an array. *)
Definition after_marker (json : list ascii) (key : string) : option (list ascii) :=
  let marker := quote :: chars key ++ quote :: chars ":[" in
  match find_text marker json with
  | None => None
  | Some (_, at_match) => Some (drop (length marker) at_match)
  end.

(** The scan of one object: its characters, and the text behind it; [None] when the text ends inside it. *)
Fixpoint scan_object (depth : Z) (in_string escaped : bool) (json : list ascii) : option (list ascii * list ascii) :=
  match json with
  | [] => None
  | ch :: rest =>
      let go depth in_string escaped :=
        match scan_object depth in_string escaped rest with
        | Some (object, behind) => Some (ch :: object, behind)
        | None => None
        end in
      if in_string then
        if escaped then go depth true false
        else if Ascii.eqb ch backslash then go depth true true
        else if Ascii.eqb ch quote then go depth false false
        else go depth true false
      else if Ascii.eqb ch quote then go depth true false
      else if Ascii.eqb ch "{" then go (depth + 1) false false
      else if Ascii.eqb ch "}" then
        if depth - 1 =? 0 then Some ([ch], rest) else go (depth - 1) false false
      else go depth false false
  end.

(** The loop over the elements: every turn takes a comma or an object. *)
Fixpoint objects_loop (fuel : nat) (json : list ascii) : list (list ascii) :=
  match fuel with
  | O => []
  | S fuel' =>
      match skip_space json with
      | [] => []
      | c :: rest =>
          if Ascii.eqb c "," then objects_loop fuel' rest
          else if negb (Ascii.eqb c "{") then []
          else
            match scan_object 0 false false (c :: rest) with
            | None => []
            | Some (object, behind) => object :: objects_loop fuel' behind
            end
      end
  end.

Definition ExtractJsonObjectArray (json : list ascii) (key : string) : list (list ascii) :=
  match after_marker json key with
  | None => []
  | Some text => objects_loop (S (length text)) text
  end.

Definition unescape (ch : ascii) : ascii :=
  if Ascii.eqb ch "b" then to_char 8
  else if Ascii.eqb ch "f" then to_char 12
  else if Ascii.eqb ch "n" then to_char 10
  else if Ascii.eqb ch "r" then to_char 13
  else if Ascii.eqb ch "t" then to_char 9
  else ch.

(** The scan of one string behind its opening quote; at the end of the text the value so far counts. *)
Fixpoint scan_string (escaped : bool) (json : list ascii) : list ascii * list ascii :=
  match json with
  | [] => ([], [])
  | ch :: rest =>
      if escaped then let '(value, behind) := scan_string false rest in (unescape ch :: value, behind)
      else if Ascii.eqb ch backslash then scan_string true rest
      else if Ascii.eqb ch quote then ([], rest)
      else let '(value, behind) := scan_string false rest in (ch :: value, behind)
  end.

Fixpoint strings_loop (fuel : nat) (json : list ascii) : list (list ascii) :=
  match fuel with
  | O => []
  | S fuel' =>
      match skip_space json with
      | [] => []
      | c :: rest =>
          if Ascii.eqb c "," then strings_loop fuel' rest
          else if negb (Ascii.eqb c quote) then []
          else let '(value, behind) := scan_string false rest in value :: strings_loop fuel' behind
      end
  end.

Definition ExtractJsonStringArray (json : list ascii) (key : string) : list (list ascii) :=
  match after_marker json key with
  | None => []
  | Some text => strings_loop (S (length text)) text
  end.

(** ** Paths *)

Section Layout.
Context (work_dir : string).

Definition TrustListPath (filename : string) : string := path_append (path_append work_dir "trust-list") filename.
Definition StatePath : string := path_append (path_append work_dir "trust-list") "state.json".
Definition PolicyDir : string := path_append work_dir "policy".
Definition TrustStoreMetadataPath : string := path_append PolicyDir "trust-store-metadata.json".
Definition TrustStoreDir : string := path_append work_dir "trust-store".
Definition HistoricalTrustStoreDir : string := path_append work_dir "historical-trust-store".
Definition TsaStoreDir : string := path_append work_dir "tsa-store".
Definition HistoricalTsaStoreDir : string := path_append work_dir "historical-tsa-store".
Definition IntermediateStoreDir : string := path_append work_dir "intermediate-store".
Definition CrlStoreDir : string := path_append work_dir "crl-store".

End Layout.

Definition TempPathFor (path : string) : string := PathWithSuffix path ".tmp".
Definition BackupPathFor (path : string) : string := PathWithSuffix path ".bak".

(** ** The file system of the cache *)

Inductive node := File (content : list ascii) | Dir (files : gmap string (list ascii)).

(** A file or a store, with its kind. *)
Record Target := MkTarget { tg_path : string; tg_store : bool }.

#[export] Instance Target_eq_dec : EqDecision Target.
Proof. solve_decision. Defined.

(** The disk, and what the operating system will say: to the calls that change the disk and are tested, to the questions whether
    something is there, and to the removals, whose failure nobody looks at. *)
Record Disk := MkDisk {
  dk_nodes : gmap string node;
  dk_answers : list bool;
  dk_queries : list bool;
  dk_removals : list bool
}.

(** Programs over the disk. *)
Definition Os (A : Type) : Type := Disk -> A * Disk.

Definition ret {A} (x : A) : Os A := fun d => (x, d).
Definition bind {A B} (m : Os A) (f : A -> Os B) : Os B := fun d => let '(x, d') := m d in f x d'.

Notation "'let*' x := m 'in' k" := (bind m (fun x => k))
  (at level 200, x pattern, m at level 100, k at level 200, right associativity) : tamga_scope.

Definition get_node (path : string) : Os (option node) := fun d => (dk_nodes d !! path, d).

Definition set_nodes (nodes : gmap string node) (d : Disk) : Disk := MkDisk nodes (dk_answers d) (dk_queries d) (dk_removals d).

Definition put_node (path : string) (n : node) : Os unit := fun d => (tt, set_nodes (<[path := n]> (dk_nodes d)) d).
Definition drop_node (path : string) : Os unit := fun d => (tt, set_nodes (delete path (dk_nodes d)) d).

(** What the system says next; the calls beyond a list succeed. *)
Definition next (l : list bool) : bool * list bool := match l with [] => (true, []) | a :: l' => (a, l') end.

Definition answer : Os bool :=
  fun d => let '(a, l) := next (dk_answers d) in (a, MkDisk (dk_nodes d) l (dk_queries d) (dk_removals d)).
Definition query : Os bool :=
  fun d => let '(a, l) := next (dk_queries d) in (a, MkDisk (dk_nodes d) (dk_answers d) l (dk_removals d)).
Definition removal : Os bool :=
  fun d => let '(a, l) := next (dk_removals d) in (a, MkDisk (dk_nodes d) (dk_answers d) (dk_queries d) l).

(** [remove]: a file or an empty directory, unless the system refuses. *)
Definition remove (path : string) : Os unit :=
  let* n := get_node path in let* ok := removal in
  match n with
  | Some (File _) => if ok then drop_node path else ret tt
  | Some (Dir files) => if ok && bool_decide (files = ∅) then drop_node path else ret tt
  | None => ret tt
  end.

(** The files of a directory one after the other, up to the first that cannot be removed. *)
Fixpoint remove_files (names : list string) (files : gmap string (list ascii)) : Os (gmap string (list ascii)) :=
  match names with
  | [] => ret files
  | name :: names' => let* ok := removal in if ok then remove_files names' (delete name files) else ret files
  end.

(** [remove_all]: what it could not remove stays. *)
Definition remove_all (path : string) : Os unit :=
  let* n := get_node path in
  match n with
  | Some (Dir files) =>
      let* kept := remove_files (map fst (map_to_list files)) files in
      let* _ := put_node path (Dir kept) in
      if bool_decide (kept = ∅) then remove path else ret tt
  | _ => remove path
  end.

Definition remove_target (t : Target) : Os unit := if tg_store t then remove_all (tg_path t) else remove (tg_path t).

Fixpoint remove_each (targets : list Target) : Os unit :=
  match targets with [] => ret tt | t :: targets' => let* _ := remove_target t in remove_each targets' end.

Definition file_at (path : string) : Target := MkTarget path false.

(** [rename]: a file replaces a file, a directory an empty directory. *)
Definition replaces (n : node) (there : option node) : bool :=
  match n, there with
  | _, None => true
  | File _, Some (File _) => true
  | Dir _, Some (Dir files) => bool_decide (files = ∅)
  | _, _ => false
  end.

Definition MoveFilePath (from to : string) : Os bool :=
  let* n := get_node from in let* there := get_node to in let* ok := answer in
  match n with
  | Some n => if ok && replaces n there then let* _ := put_node to n in let* _ := drop_node from in ret true else ret false
  | None => ret false
  end.

Definition ReplaceFileWithTemp (temp_path final_path : string) : Os bool := MoveFilePath temp_path final_path.

(** Opening and writing; a write that fails leaves a file without the data.  After a failure the file is removed. *)
Definition StageBinaryFile (temp_path : string) (data : list ascii) : Os bool :=
  let* _ := remove temp_path in
  let* n := get_node temp_path in let* opened := answer in
  let is_directory := match n with Some (Dir _) => true | _ => false end in
  if negb opened || is_directory then let* _ := remove temp_path in ret false
  else
    let* written := answer in
    let* _ := put_node temp_path (File (if written then data else [])) in
    if written then ret true else let* _ := remove temp_path in ret false.

(** The same for a file of a directory; without the directory it cannot be opened. *)
Definition remove_in (store name : string) : Os unit :=
  let* n := get_node store in let* ok := removal in
  match n with
  | Some (Dir files) => if ok then put_node store (Dir (delete name files)) else ret tt
  | _ => ret tt
  end.

Definition StageInStore (store name : string) (data : list ascii) : Os bool :=
  let* _ := remove_in store name in
  let* n := get_node store in let* opened := answer in
  match n with
  | Some (Dir files) =>
      if opened then
        let* written := answer in
        let* _ := put_node store (Dir (<[name := if written then data else []]> files)) in
        if written then ret true else let* _ := remove_in store name in ret false
      else let* _ := remove_in store name in ret false
  | _ => let* _ := remove_in store name in ret false
  end.

Definition create_directories (path : string) : Os bool :=
  let* n := get_node path in let* ok := answer in
  match n with
  | Some (Dir _) => ret ok
  | Some (File _) => ret false
  | None => if ok then let* _ := put_node path (Dir ∅) in ret true else ret false
  end.

(** [is_regular_file] and [file_size]; either may fail, and nothing tells a failure from an absent file. *)
Definition ExistingFileHasContent (path : string) : Os bool :=
  let* n := get_node path in let* ok := query in
  match n with
  | Some (File content) => if ok then let* sized := query in ret (sized && (0 <? length content)%nat) else ret false
  | _ => ret false
  end.

Definition ExistingDirectory (path : string) : Os bool :=
  let* n := get_node path in let* ok := query in ret (match n with Some (Dir _) => ok | _ => false end).

Fixpoint create_each (dirs : list string) : Os bool :=
  match dirs with
  | [] => ret true
  | dir :: dirs' => let* ok := create_directories dir in if ok then create_each dirs' else ret false
  end.

Definition EnsureLayout (work_dir : string) : Os bool :=
  create_each [parent_path (TrustListPath work_dir "TL-UA-EC.xml"); TrustStoreDir work_dir; HistoricalTrustStoreDir work_dir;
               IntermediateStoreDir work_dir; CrlStoreDir work_dir; PolicyDir work_dir].

(** ** Two files at once *)

Definition WriteTrustList (work_dir : string) (xml : list ascii) (state : PolicyCacheState) : Os bool :=
  let* layout := EnsureLayout work_dir in
  if negb layout then ret false else
  let xml_path := TrustListPath work_dir "TL-UA-EC.xml" in
  let state_path := StatePath work_dir in
  let temps := map file_at [TempPathFor xml_path; TempPathFor state_path] in
  let* _ := remove_each (map file_at [BackupPathFor xml_path; BackupPathFor state_path]) in
  let* staged :=
    (let* staged := StageBinaryFile (TempPathFor xml_path) xml in
     if staged then StageBinaryFile (TempPathFor state_path) (BuildStateJson state) else ret false) in
  if negb staged then let* _ := remove_each temps in ret false else
  let* had_xml := ExistingFileHasContent xml_path in
  let* had_state := ExistingFileHasContent state_path in
  let* moved := (if had_xml then MoveFilePath xml_path (BackupPathFor xml_path) else ret true) in
  if negb moved then let* _ := remove_each temps in ret false else
  let* moved := (if had_state then MoveFilePath state_path (BackupPathFor state_path) else ret true) in
  if negb moved then
    let* _ := (if had_xml then MoveFilePath (BackupPathFor xml_path) xml_path else ret true) in
    let* _ := remove_each temps in ret false
  else
  let* ok :=
    (let* ok := ReplaceFileWithTemp (TempPathFor xml_path) xml_path in
     if ok then ReplaceFileWithTemp (TempPathFor state_path) state_path else ret false) in
  if negb ok then
    let* _ := remove_each (map file_at [xml_path; state_path]) in
    let* _ := (if had_xml then MoveFilePath (BackupPathFor xml_path) xml_path else ret true) in
    let* _ := (if had_state then MoveFilePath (BackupPathFor state_path) state_path else ret true) in
    let* _ := remove_each temps in ret false
  else
  let* _ := remove_each (map file_at [BackupPathFor xml_path; BackupPathFor state_path]) in
  ret true.

(** ** The transaction *)

Definition present (t : Target) : Os bool :=
  if tg_store t then ExistingDirectory (tg_path t) else ExistingFileHasContent (tg_path t).

(** Moving the old files away: the ones moved, and whether all could be. *)
Fixpoint backup_loop (targets backed : list Target) : Os (list Target * bool * list Target) :=
  match targets with
  | [] => ret (backed, true, [])
  | t :: targets' =>
      let* there := present t in
      if there then
        let* moved := MoveFilePath (tg_path t) (BackupPathFor (tg_path t)) in
        if moved then backup_loop targets' (backed ++ [t]) else ret (backed, false, t :: targets')
      else backup_loop targets' backed
  end.

Fixpoint restore_each (backed : list Target) : Os unit :=
  match backed with
  | [] => ret tt
  | t :: backed' => let* _ := MoveFilePath (BackupPathFor (tg_path t)) (tg_path t) in restore_each backed'
  end.

(** Moving the new files in, up to the first failure. *)
Fixpoint move_in (targets : list Target) : Os bool :=
  match targets with
  | [] => ret true
  | t :: targets' =>
      let* moved := ReplaceFileWithTemp (TempPathFor (tg_path t)) (tg_path t) in
      if moved then move_in targets' else ret false
  end.

Fixpoint stage_files (files : list (string * list ascii)) : Os bool :=
  match files with
  | [] => ret true
  | (path, data) :: files' =>
      let* staged := StageBinaryFile (TempPathFor path) data in
      if staged then stage_files files' else ret false
  end.

Definition paths_of (targets : list Target) : list string := map tg_path targets.
Definition temp_of (t : Target) : Target := MkTarget (TempPathFor (tg_path t)) (tg_store t).
Definition backup_of (t : Target) : Target := MkTarget (BackupPathFor (tg_path t)) (tg_store t).
Definition temps_of (targets : list Target) : list Target := map temp_of targets.
Definition backups_of (targets : list Target) : list Target := map backup_of targets.

Section Transaction.
Context (xmls : list Target) (state metadata : Target) (trust_stores tsa_stores : list Target).

Definition others : list Target := [state; metadata] ++ trust_stores ++ tsa_stores.

Definition clean : Os unit :=
  remove_each (backups_of others ++ temps_of others
               ++ concat (map (fun t => [backup_of t; temp_of t]) xmls)).

(** The removal of what was staged; the early exits leave the staged stores of timestamping authorities. *)
Definition drop_temps (with_tsa : bool) : Os unit :=
  remove_each (temps_of xmls ++ temps_of ([state; metadata] ++ trust_stores) ++ (if with_tsa then temps_of tsa_stores else [])).

(** Moving all old files away; on a failure what was moved is put back. *)
Definition backup : Os (option (list Target * list Target)) :=
  let* first := backup_loop xmls [] in
  let '(backed_xmls, ok, _) := first in
  if negb ok then let* _ := restore_each backed_xmls in let* _ := drop_temps false in ret None
  else
    let* second := backup_loop others [] in
    let '(backed, ok, not_moved) := second in
    if negb ok then
      let* _ := restore_each (rev backed) in
      let* _ := restore_each backed_xmls in
      let* _ := drop_temps (length not_moved <=? length tsa_stores)%nat in
      ret None
    else ret (Some (backed_xmls, backed)).

Definition commit : Os bool :=
  let* saved := backup in
  match saved with
  | None => ret false
  | Some (backed_xmls, backed) =>
      let* ok := move_in (xmls ++ others) in
      if negb ok then
        let* _ := remove_each (others ++ xmls) in
        let* _ := restore_each (rev backed) in
        let* _ := restore_each backed_xmls in
        let* _ := drop_temps true in
        ret false
      else
        let* _ := remove_each (concat (map (fun t => [backup_of t; temp_of t]) xmls)
                               ++ backups_of others ++ temps_of others) in
        ret true
  end.

End Transaction.

Section Materialize.
Context `{Cert : CertApi, Plat : Platform, !@MetadataApi Cert Plat}.
Context (metadata_error_text : bytes -> string) (work_dir : string).

Definition xml_targets (entries : list PolicyCacheEntry) : list Target :=
  map (fun entry => MkTarget (TrustListPath work_dir (ce_filename entry)) false) entries.
Definition state_target : Target := MkTarget (StatePath work_dir) false.
Definition metadata_target : Target := MkTarget (TrustStoreMetadataPath work_dir) false.
Definition trust_store_targets : list Target :=
  [MkTarget (TrustStoreDir work_dir) true; MkTarget (HistoricalTrustStoreDir work_dir) true].
Definition tsa_store_targets : list Target :=
  [MkTarget (TsaStoreDir work_dir) true; MkTarget (HistoricalTsaStoreDir work_dir) true].

Definition store_of (target : string) : option string :=
  if target ==s "trust-store" then Some (TrustStoreDir work_dir)
  else if target ==s "historical-trust-store" then Some (HistoricalTrustStoreDir work_dir)
  else if target ==s "tsa-store" then Some (TsaStoreDir work_dir)
  else if target ==s "historical-tsa-store" then Some (HistoricalTsaStoreDir work_dir)
  else None.

(** The store, the name and the octets of the file of a record. *)
Definition placed (certificate : bytes) (record : TrustStoreMetadataRecord) : option (string * string * list ascii) :=
  if negb (tm_materialized_trust_anchor record) || str_empty (tm_file_name record) then None
  else match store_of (tm_target record) with
       | Some store => Some (store, tm_file_name record, map byte_char certificate)
       | None => None
       end.

Fixpoint stage_certificates (files : list (string * string * list ascii)) : Os bool :=
  match files with
  | [] => ret true
  | (store, name, data) :: files' =>
      let* staged := StageInStore (TempPathFor store) name data in
      if staged then stage_certificates files' else ret false
  end.

Definition certificate_files (entries : list PolicyCacheEntry) (records : list TrustStoreMetadataRecord)
    : list (string * string * list ascii) :=
  omap (fun '(certificate, record) => placed certificate record) (zip (map snd (candidates entries)) records).

(** The four directories, of which only the last one is tested. *)
Definition create_stores : Os bool :=
  let* _ := create_directories (TempPathFor (TrustStoreDir work_dir)) in
  let* _ := create_directories (TempPathFor (HistoricalTrustStoreDir work_dir)) in
  let* _ := create_directories (TempPathFor (TsaStoreDir work_dir)) in
  create_directories (TempPathFor (HistoricalTsaStoreDir work_dir)).

Definition stage (entries : list PolicyCacheEntry) (state : PolicyCacheState) : Os bool :=
  let records := BuildTrustStoreMetadataRecords metadata_error_text entries in
  let service_count := list_sum (map (fun entry => length (tl_services (ce_parsed entry))) entries) in
  let xmls := xml_targets entries in
  let drop_all := drop_temps xmls state_target metadata_target trust_store_targets tsa_store_targets true in
  let* staged := stage_files (zip (paths_of xmls) (map ce_xml entries)) in
  if negb staged then let* _ := remove_each (temps_of xmls) in ret false else
  let* staged := stage_files [(StatePath work_dir, BuildStateJson state);
                              (TrustStoreMetadataPath work_dir, BuildTrustStoreMetadataJson state service_count records)] in
  if negb staged then let* _ := remove_each (temps_of (xmls ++ [state_target; metadata_target])) in ret false else
  let* created := create_stores in
  if negb created then let* _ := drop_all in ret false else
  let* staged := stage_certificates (certificate_files entries records) in
  if negb staged then let* _ := drop_all in ret false else ret true.

Definition WriteTrustListsMaterialized (entries : list PolicyCacheEntry) (state : PolicyCacheState) : Os bool :=
  let* layout := EnsureLayout work_dir in
  if negb layout then ret false else
  let xmls := xml_targets entries in
  let* _ := clean xmls state_target metadata_target trust_store_targets tsa_store_targets in
  let* staged := stage entries state in
  if negb staged then ret false
  else commit xmls state_target metadata_target trust_store_targets tsa_store_targets.

Definition WriteTrustListMaterialized (xml : list ascii) (state : PolicyCacheState) (parsed : TrustListParseResult) : Os bool :=
  WriteTrustListsMaterialized [MkPolicyCacheEntry "TL-UA-EC.xml" xml parsed false] state.

End Materialize.

(** ** Reading the cache *)

(** The text of a file of at most [kMaxCachedArtifactSize] octets, when it can be read. *)
Definition ReadTextFileLimited (path : string) : Os (option (list ascii)) :=
  let* n := get_node path in let* ok := query in
  ret (match n with
       | Some (File text) => if negb ok || (kMaxCachedArtifactSize <? Z.of_nat (length text)) then None else Some text
       | _ => None
       end).

Definition ReadState (work_dir : string) : Os (option PolicyCacheState) :=
  let* text := ReadTextFileLimited (StatePath work_dir) in
  match text with
  | None => ret None
  | Some json =>
      let json := of_chars json in
      let* has_list := ExistingFileHasContent (TrustListPath work_dir "TL-UA-EC.xml") in
      ret (match ExtractJsonString json "sourceUrl", ExtractJsonString json "cacheStatus",
                 ExtractJsonString json "lastSync", ExtractJsonBool json "updateSucceeded" with
           | Some source_url, Some cache_status, Some last_sync, Some update_succeeded =>
               if str_empty cache_status || str_empty last_sync || negb has_list then None
               else Some (MkPolicyCacheState source_url cache_status last_sync update_succeeded
                            (default "" (ExtractJsonString json "etag")) (default "" (ExtractJsonString json "lastModified")))
           | _, _, _, _ => None
           end)
  end.

(** The first TSP address of a granted timestamping service. *)
Definition granted_tsp_url (record : list ascii) : option (list ascii) :=
  match ExtractJsonString (of_chars record) "serviceType" with
  | Some service_type =>
      if negb (is_tsa_service service_type) then None
      else
        match ExtractJsonBool (of_chars record) "granted" with
        | Some true =>
            match ExtractJsonStringArray record "tspUrls" with
            | (c :: url) :: _ => Some (c :: url)
            | _ => None
            end
        | _ => None
        end
  | None => None
  end.

Definition first_some {A B} (f : A -> option B) (l : list A) : option B := head (omap f l).

Definition ResolveGrantedTspUrl (work_dir : string) : Os string :=
  let* text := ReadTextFileLimited (TrustStoreMetadataPath work_dir) in
  ret (match text with
       | None => ""
       | Some json => of_chars (default [] (first_some granted_tsp_url (ExtractJsonObjectArray json "records")))
       end).

(** ** What becomes a trust anchor *)

(** A certificate is put into a store exactly when its service is granted, it can be decoded, and it is
    the certificate of a timestamping service, or one of a CA that may sign certificates or belongs to
    a CA service. *)
Lemma Classify_materialize_iff `{CertApi} (service : TrustListServiceRecord) (certificate : bytes) (is_historical : bool) :
  md_materialize (ClassifyMaterializationCandidate service certificate is_historical) = true <->
  IsGrantedService service = true /\ exists cert, DecodeCertificateDer certificate = Some cert /\
    (is_tsa_service (sv_service_type service) = true \/
     (CertificateHasCaBasicConstraint cert = true /\
      (CertificateHasKeyCertSign cert = true \/ is_ca_service (sv_service_type service) = true))).
Proof.
  unfold ClassifyMaterializationCandidate, DecodeCertificateForPolicy.
  generalize (IsGrantedService service) (is_tsa_service (sv_service_type service)) (is_ca_service (sv_service_type service)).
  intros granted tsa ca. destruct (DecodeCertificateDer certificate) as [cert|].
  2:{ destruct granted; cbn; (split; [done|]); by intros [_ (? & ? & _)]. }
  destruct granted, tsa, ca, (CertificateHasCaBasicConstraint cert) eqn:E1, (CertificateHasKeyCertSign cert) eqn:E2;
    cbn; rewrite ?E1, ?E2; cbn; (split; [intros ?; try done; eauto 10|]); intros [? (c & [= <-] & ?)]; intuition congruence.
Qed.

(** ** File names are not used twice *)

Definition numbered (base_name : string) (index : nat) : string :=
  base_name +s+ "-" +s+ to_string (Z.of_nat index) +s+ ".cer".

Lemma numbered_inj (base_name : string) (i j : nat) : numbered base_name i = numbered base_name j -> i = j.
Proof.
  unfold numbered. intros E. apply (f_equal chars) in E. rewrite !chars_app in E.
  apply (app_inv_head (chars base_name)) in E. apply (app_inv_head (chars "-")) in E.
  apply (app_inv_tail (chars ".cer")) in E. apply chars_inj in E. unfold to_string in E.
  apply (inj (pretty : Z -> string)) in E. lia.
Qed.

Lemma numbered_longer (base_name : string) (i : nat) : numbered base_name i <> base_name +s+ ".cer".
Proof.
  unfold numbered. intros E. apply (f_equal chars) in E. rewrite !chars_app in E. apply app_inv_head in E.
  apply (f_equal length) in E. rewrite !length_app in E. cbn in E. lia.
Qed.

Lemma unique_name_tried (fuel : nat) (base_name candidate : string) (index : nat) (used : gset string) :
  unique_name fuel base_name candidate index used ∈ used ->
  Forall (.∈ used) (take fuel (candidate :: map (numbered base_name) (seq index fuel))).
Proof.
  revert candidate index. induction fuel as [|fuel IH]; intros candidate index H; [constructor|].
  cbn [unique_name] in H. case_bool_decide as Hc; [|done]. apply IH in H.
  cbn [take seq map]. by constructor.
Qed.

Lemma UniqueFileName_fresh (base_name : string) (used : gset string) :
  (UniqueFileName base_name used).1 ∉ used.
Proof.
  unfold UniqueFileName. cbn [fst]. intros H. apply unique_name_tried in H.
  set (l := take _ _) in H. assert (NoDup l) as Hnd.
  { eapply sublist_NoDup; [|apply sublist_take]. apply NoDup_cons. split.
    - intros (i & E & _)%list_elem_of_fmap. by apply (numbered_longer base_name i).
    - apply NoDup_fmap_2_strong; [intros i j _ _; apply numbered_inj|]. apply NoDup_ListNoDup, seq_NoDup. }
  assert (length l = S (size used)) as Hl.
  { unfold l. rewrite length_take. cbn [length]. rewrite length_map, length_seq. lia. }
  assert ((list_to_set l : gset string) ⊆ used) as Hs.
  { intros x Hx%elem_of_list_to_set. rewrite Forall_forall in H. by apply H. }
  apply subseteq_size in Hs. rewrite size_list_to_set in Hs by done. lia.
Qed.

(** The files of a store after those of [l]. *)
Definition files_in (store : string) (l : list (string * string * list ascii)) (files : gmap string (list ascii))
    : gmap string (list ascii) :=
  foldl (fun files '(s, name, data) => if bool_decide (s = store) then <[name := data]> files else files) files l.

(** ** What the stores hold *)

Lemma unique_name_shape (fuel : nat) (base_name candidate : string) (index : nat) (used : gset string) :
  candidate <> "" -> unique_name fuel base_name candidate index used <> "".
Proof.
  revert candidate index. induction fuel as [|fuel IH]; intros candidate index H; cbn [unique_name]; [done|].
  case_bool_decide; [|done]. apply IH. by destruct base_name.
Qed.

Lemma UniqueFileName_nonempty (base_name : string) (used : gset string) : str_empty (UniqueFileName base_name used).1 = false.
Proof. apply str_empty_false, unique_name_shape. by destruct base_name. Qed.

Section Stores.
Context `{Cert : CertApi, Plat : Platform, !@MetadataApi Cert Plat}.
Context (metadata_error_text : bytes -> string) (work_dir : string).

Notation candidate := (PolicyCacheEntry * TrustListServiceRecord * bytes)%type.
Notation decision c := (ClassifyMaterializationCandidate c.1.2 c.2 (ce_is_historical c.1.1)).

(** The files that the records of [l] place. *)
Definition files_of (l : list candidate) (used : UsedNames) : list (string * string * list ascii) :=
  omap (fun '(certificate, record) => placed work_dir certificate record)
    (zip (map snd l) (records_loop metadata_error_text l used)).

Definition store_for (tsa is_historical : bool) : string :=
  match tsa, is_historical with
  | false, false => TrustStoreDir work_dir
  | false, true => HistoricalTrustStoreDir work_dir
  | true, false => TsaStoreDir work_dir
  | true, true => HistoricalTsaStoreDir work_dir
  end.

Definition store_of_candidate (c : candidate) : string :=
  store_for (is_tsa_service (sv_service_type c.1.2)) (ce_is_historical c.1.1).

Lemma store_of_target (c : candidate) :
  md_materialize (decision c) = true -> store_of work_dir (md_target (decision c)) = Some (store_of_candidate c).
Proof.
  unfold store_of_candidate, ClassifyMaterializationCandidate.
  generalize (IsGrantedService c.1.2) (is_tsa_service (sv_service_type c.1.2)) (is_ca_service (sv_service_type c.1.2)).
  intros granted tsa ca. destruct (DecodeCertificateForPolicy c.2) as [cert|]; [|by destruct granted].
  destruct granted, tsa, ca, (CertificateHasCaBasicConstraint cert) eqn:E1, (CertificateHasKeyCertSign cert) eqn:E2,
    (ce_is_historical c.1.1); cbn; rewrite ?E1, ?E2; cbn; done.
Qed.

Lemma placed_named (certificate : bytes) (record : TrustStoreMetadataRecord) (name : string) :
  placed work_dir certificate (record <| tm_file_name := name |>) =
  if negb (tm_materialized_trust_anchor record) || str_empty name then None
  else match store_of work_dir (tm_target record) with
       | Some store => Some (store, name, map byte_char certificate)
       | None => None
       end.
Proof. done. Qed.

(** The names in use in one of the two groups of stores. *)
Definition used_for (is_historical : bool) (used : UsedNames) : gset string := if is_historical then used.2 else used.1.

Lemma files_of_cons (c : candidate) (l : list candidate) (used : UsedNames) :
  if md_materialize (decision c) then
    exists name used', files_of (c :: l) used = (store_of_candidate c, name, map byte_char c.2) :: files_of l used' /\
      name ∉ used_for (ce_is_historical c.1.1) used /\
      used_for (ce_is_historical c.1.1) used' = {[name]} ∪ used_for (ce_is_historical c.1.1) used /\
      used_for (negb (ce_is_historical c.1.1)) used' = used_for (negb (ce_is_historical c.1.1)) used
  else files_of (c :: l) used = files_of l used.
Proof.
  destruct c as [[entry service] certificate], used as [active historical]. cbn [fst snd] in *.
  pose proof (store_of_target (entry, service, certificate)) as Hst. cbn [fst snd] in Hst.
  unfold files_of. cbn [map snd records_loop]. unfold metadata_record.
  set (dec := ClassifyMaterializationCandidate service certificate (ce_is_historical entry)) in *.
  set (record := describe metadata_error_text entry service certificate dec).
  assert (tm_materialized_trust_anchor record = md_materialize dec /\ tm_target record = md_target dec) as [Em Et]
    by (unfold record, describe; by destruct (ExtractCertificateMetadata certificate)).
  destruct (md_materialize dec) eqn:Hm.
  2:{ cbn [zip_with omap list_omap]. unfold placed. by rewrite Em. }
  set (base := if negb (str_empty (tm_serial record)) then _ else _).
  unfold take_name. destruct (ce_is_historical entry) eqn:Hh.
  - pose proof (UniqueFileName_fresh base historical) as Hf. pose proof (UniqueFileName_nonempty base historical) as Hne.
    destruct (UniqueFileName base historical) as [name used'] eqn:Eu. cbn [fst] in Hf, Hne.
    exists name, (active, used'). cbn [zip_with omap list_omap]. rewrite placed_named, Em, Hne. cbn [negb orb]. rewrite Et, Hst by done.
    unfold store_of_candidate. cbn [fst snd]. split_and!; [done|done| |done]. cbn. unfold UniqueFileName in Eu. by injection Eu as -> <-.
  - pose proof (UniqueFileName_fresh base active) as Hf. pose proof (UniqueFileName_nonempty base active) as Hne.
    destruct (UniqueFileName base active) as [name used'] eqn:Eu. cbn [fst] in Hf, Hne.
    exists name, (used', historical). cbn [zip_with omap list_omap]. rewrite placed_named, Em, Hne. cbn [negb orb]. rewrite Et, Hst by done.
    unfold store_of_candidate. cbn [fst snd]. split_and!; [done|done| |done]. cbn. unfold UniqueFileName in Eu. by injection Eu as -> <-.
Qed.

Lemma store_for_inj (tsa tsa' h h' : bool) : store_for tsa h = store_for tsa' h' -> tsa = tsa' /\ h = h'.
Proof.
  unfold store_for, TrustStoreDir, HistoricalTrustStoreDir, TsaStoreDir, HistoricalTsaStoreDir, path_append.
  intros E. apply (f_equal chars) in E. revert E.
  destruct (last (chars work_dir)) as [c|]; [destruct (Ascii.eqb c "/")|];
    destruct tsa, h, tsa', h'; try (by intros _); rewrite ?chars_app; intros E; exfalso;
    repeat apply app_inv_head in E; vm_compute in E; discriminate.
Qed.

Lemma files_of_spec (l : list candidate) (used : UsedNames) :
  (forall s n d, (s, n, d) ∈ files_of l used -> exists c, c ∈ l /\ md_materialize (decision c) = true /\
     s = store_of_candidate c /\ d = map byte_char c.2 /\ n ∉ used_for (ce_is_historical c.1.1) used) /\
  (forall c, c ∈ l -> md_materialize (decision c) = true ->
     exists n, (store_of_candidate c, n, map byte_char c.2) ∈ files_of l used) /\
  NoDup (map fst (files_of l used)).
Proof.
  revert used. induction l as [|c l IH]; intros used.
  { split_and!; [intros s n d Hin; by apply elem_of_nil in Hin|intros c Hin; by apply elem_of_nil in Hin|constructor]. }
  pose proof (files_of_cons c l used) as Hc. destruct (md_materialize (decision c)) eqn:Hm.
  - destruct Hc as (name & used' & -> & Hfresh & Hu1 & Hu2). destruct (IH used') as (I1 & I2 & I3).
    assert (forall h, used_for h used ⊆ used_for h used') as Hgrow.
    { intros h. destruct (decide (h = ce_is_historical c.1.1)) as [->|Hh]; [rewrite Hu1; set_solver|].
      replace h with (negb (ce_is_historical c.1.1)) by (by destruct h, (ce_is_historical c.1.1)). by rewrite Hu2. }
    split_and!.
    + intros s n d [[= -> -> ->]|Hin]%elem_of_cons.
      * exists c. split_and!; [by left|done..].
      * destruct (I1 _ _ _ Hin) as (c' & Hc' & Hm' & -> & -> & Hn). exists c'. split_and!; [by right|done|done|done|].
        intros Hin'. by apply Hn, Hgrow.
    + intros c' [->|Hc']%elem_of_cons Hm'; [exists name; by left|].
      destruct (I2 c' Hc' Hm') as [n Hn]. exists n. by right.
    + cbn [map fst]. apply NoDup_cons. split; [|done]. intros ([[s n] d] & [= <- <-] & Hin)%list_elem_of_fmap.
      destruct (I1 _ _ _ Hin) as (c' & _ & _ & Es & _ & Hn). apply store_for_inj in Es as [_ Eh]. rewrite <- Eh, Hu1 in Hn. set_solver.
  - rewrite Hc. destruct (IH used) as (I1 & I2 & I3). split_and!; [| |done].
    + intros s n d Hin. destruct (I1 _ _ _ Hin) as (c' & Hc' & ?). exists c'. split; [by right|done].
    + intros c' [->|Hc']%elem_of_cons Hm'; [congruence|by apply I2].
Qed.

Lemma files_in_lookup (store name : string) (data : list ascii) (l : list (string * string * list ascii))
    (files : gmap string (list ascii)) :
  NoDup (map fst l) -> (forall x, (store, x) ∈ map fst l -> files !! x = None) ->
  files_in store l files !! name = Some data <-> (store, name, data) ∈ l \/ files !! name = Some data.
Proof.
  revert files. induction l as [|[[s n] d] l IH]; intros files Hnd Hf; unfold files_in; cbn [foldl map fst].
  { rewrite elem_of_nil. naive_solver. }
  cbn [map fst] in Hnd. apply NoDup_cons in Hnd as [Hn Hnd]. change (foldl _ ?f l) with (files_in store l f).
  case_bool_decide as Hs.
  - subst s. rewrite IH; [|done|].
    + rewrite elem_of_cons. destruct (decide (n = name)) as [->|Hne].
      * rewrite lookup_insert_eq. rewrite (Hf name) by (by left). naive_solver.
      * rewrite lookup_insert_ne by done. naive_solver.
    + intros x Hx. rewrite lookup_insert_ne by (intros ->; done). apply Hf. by right.
  - rewrite IH; [|done|intros x Hx; apply Hf; by right]. rewrite elem_of_cons. naive_solver.
Qed.

(** [C37] The stores hold exactly the certificates that deserve it: the contents of the files of a store are
    the certificates of the granted services of the lists that belong into it - of timestamping services
    on one side, of CAs that may sign certificates or belong to a CA service on the other, of historical
    lists apart from current ones - and none of them is lost to a clash of file names. *)
Theorem stores_exact (entries : list PolicyCacheEntry) (tsa is_historical : bool) (data : list ascii) :
  (exists name, files_in (store_for tsa is_historical)
     (certificate_files work_dir entries (BuildTrustStoreMetadataRecords metadata_error_text entries)) ∅ !! name = Some data) <->
  exists entry service certificate cert, entry ∈ entries /\ service ∈ tl_services (ce_parsed entry) /\
    certificate ∈ sv_certificates service /\ data = map byte_char certificate /\
    ce_is_historical entry = is_historical /\ is_tsa_service (sv_service_type service) = tsa /\
    IsGrantedService service = true /\ DecodeCertificateDer certificate = Some cert /\
    (tsa = true \/ (CertificateHasCaBasicConstraint cert = true /\
       (CertificateHasKeyCertSign cert = true \/ is_ca_service (sv_service_type service) = true))).
Proof.
  destruct (files_of_spec (candidates entries) (∅, ∅)) as (S1 & S2 & S3).
  change (certificate_files _ _ _) with (files_of (candidates entries) (∅, ∅)).
  setoid_rewrite files_in_lookup; [|done|done].
  assert (forall entry service certificate, (entry, service, certificate) ∈ candidates entries <->
    entry ∈ entries /\ service ∈ tl_services (ce_parsed entry) /\ certificate ∈ sv_certificates service) as Hcand.
  { intros entry service certificate. unfold candidates.
    rewrite list_elem_of_In, in_concat. setoid_rewrite in_map_iff. split.
    - intros (x & (e & <- & He) & Hx). apply in_concat in Hx as (y & Hy & Hc). apply in_map_iff in Hy as (sv & <- & Hsv).
      apply in_map_iff in Hc as (c & [= <- <- <-] & Hc). by rewrite !list_elem_of_In.
    - rewrite !list_elem_of_In. intros (He & Hs & Hc). eexists. split; [by exists entry|]. apply in_concat.
      eexists. split; [apply in_map_iff; by exists service|]. apply in_map_iff. by exists certificate. }
  split.
  - intros [name [Hin|Hin]]; [|done]. destruct (S1 _ _ _ Hin) as ([[entry service] certificate] & Hc & Hm & Es & -> & _).
    apply store_for_inj in Es as [Et Eh]. cbn [fst snd] in *. apply Hcand in Hc as (? & ? & ?).
    apply Classify_materialize_iff in Hm as (Hg & cert & Hd & Hcase). exists entry, service, certificate, cert.
    split_and!; try done. by rewrite Et.
  - intros (entry & service & certificate & cert & He & Hs & Hc & -> & Eh & Et & Hg & Hd & Hcase).
    destruct (S2 (entry, service, certificate)) as [name Hn]; [by apply Hcand| |].
    + apply Classify_materialize_iff. cbn [fst snd]. split; [done|]. exists cert. by rewrite Et.
    + exists name. left. unfold store_of_candidate in Hn. cbn [fst snd] in Hn. by rewrite Et, Eh in Hn.
Qed.

End Stores.
