(* ===== verification/PolicyAtomic.v ===== *)
(** * PolicyAtomic: replacing the cache of trusted lists is atomic

    [PolicyCache::WriteTrustListsMaterialized] replaces the lists, the stores and
    their descriptions together.  The theorem of this file is about what is found
    on disk afterwards, when at most one call of the operating system that changes
    the disk failed at any point: all new files or all old ones.  Queries are asked
    to be answered, and a removal may fail only where nothing filled is left over
    from an earlier transaction; two examples show that both are needed. *)

From stdpp Require Import gmap.
From S2P Require Import Prelude CxxString Types Time Der Codec Utf Json FileSystem Paths Sha256 Sha1 Jks Pem.
From S2P Require Import Cryptonite Fixture X509Name TrustList Evidence Report Projection ReportJson PolicyCache.

Local Open Scope Z_scope.
Local Open Scope tamga_scope.

(** ** Faults *)

(** The calls that will fail: those that are tested, and the removals. *)
Definition stuck (d : Disk) : nat := length (List.filter negb (dk_removals d)).
Definition faults (d : Disk) : nat := (length (List.filter negb (dk_answers d)) + stuck d)%nat.

(** Every question whether something is there is answered. *)
Definition answered (d : Disk) : Prop := Forall (fun a => a = true) (dk_queries d).

(** [d'] comes after [d]: no fault was added. *)
Record later (d d' : Disk) : Prop := {
  later_faults : (faults d' <= faults d)%nat;
  later_stuck : (stuck d' <= stuck d)%nat;
  later_answered : answered d -> answered d'
}.

#[export] Instance later_preorder : PreOrder later.
Proof.
  split; [intros d; by constructor|]. intros d1 d2 d3 [] []. constructor; [lia|lia|auto].
Qed.

Lemma next_spec (l : list bool) :
  exists a l', next l = (a, l') /\ (length (List.filter negb l) = (if a then 0 else 1) + length (List.filter negb l'))%nat /\
    (Forall (fun a => a = true) l -> a = true /\ Forall (fun a => a = true) l').
Proof.
  destruct l as [|a l]; cbn [next]; eexists _, _; (split; [done|]); (split; [by try destruct a|]); [done|].
  by intros [??]%Forall_cons.
Qed.

Lemma answer_spec (d : Disk) :
  exists a d', answer d = (a, d') /\ dk_nodes d' = dk_nodes d /\ later d d' /\
    (if a then faults d' <= faults d else S (faults d') <= faults d)%nat.
Proof.
  unfold answer. destruct (next_spec (dk_answers d)) as (a & l & -> & Hl & _). eexists a, _. split; [done|]. split; [done|].
  unfold faults, stuck. cbn. rewrite Hl. split; [constructor; unfold faults, stuck; cbn; try done; destruct a; lia|]. destruct a; lia.
Qed.

Lemma query_spec (d : Disk) :
  exists a d', query d = (a, d') /\ dk_nodes d' = dk_nodes d /\ later d d' /\ (answered d -> a = true).
Proof.
  unfold query. destruct (next_spec (dk_queries d)) as (a & l & -> & _ & Ha). eexists a, _. split; [done|]. split; [done|].
  split; [constructor; [done|done|]|]; intros Hq; by apply Ha.
Qed.

Lemma removal_spec (d : Disk) :
  exists a d', removal d = (a, d') /\ dk_nodes d' = dk_nodes d /\ later d d' /\ (stuck d = 0%nat -> a = true).
Proof.
  unfold removal. destruct (next_spec (dk_removals d)) as (a & l & -> & Hl & _). eexists a, _. split; [done|]. split; [done|].
  unfold stuck. cbn. rewrite Hl. split; [constructor; unfold faults, stuck; cbn; try done; lia|]. destruct a; [done|lia].
Qed.

Lemma later_set (nodes : gmap string node) (d d' : Disk) : later d d' -> later d (set_nodes nodes d').
Proof. intros [H1 H2 H3]. by constructor. Qed.

(** *** Removing *)

(** What may be left at a path. *)
Definition shrunk (after before : option node) : Prop :=
  match after, before with
  | None, _ => True
  | Some (File c'), Some (File c) => c' = c
  | Some (Dir files'), Some (Dir files) => files' ⊆ files
  | _, _ => False
  end.

#[export] Instance shrunk_preorder : PreOrder shrunk.
Proof.
  split; [intros [[|]|]; cbn; reflexivity || done|]. intros [[|]|] [[|]|] [[|]|]; cbn; try done; [congruence|].
  intros H1 H2. by etransitivity.
Qed.

(** [m] changes nothing but the path, where it removes. *)
Definition removes (path : string) (fits : node -> Prop) (m : Os unit) : Prop :=
  forall d, later d (m d).2 /\ (forall p, p <> path -> dk_nodes (m d).2 !! p = dk_nodes d !! p) /\
    shrunk (dk_nodes (m d).2 !! path) (dk_nodes d !! path) /\
    (stuck d = 0%nat -> (forall n, dk_nodes d !! path = Some n -> fits n) -> dk_nodes (m d).2 !! path = None).

Lemma drop_spec (path : string) (d0 d : Disk) :
  later d0 d -> dk_nodes d = dk_nodes d0 ->
  later d0 (drop_node path d).2 /\ (forall p, p <> path -> dk_nodes (drop_node path d).2 !! p = dk_nodes d0 !! p) /\
  dk_nodes (drop_node path d).2 !! path = None.
Proof.
  intros Hl Hn. cbn. split; [by apply later_set|]. rewrite <- Hn. split; [intros p Hp; by apply lookup_delete_ne|apply lookup_delete_eq].
Qed.

(** What can be removed without looking inside. *)
Definition is_bare (n : node) : Prop := match n with File _ => True | Dir files => files = ∅ end.

Lemma remove_removes (path : string) : removes path is_bare (remove path).
Proof.
  intros d. unfold remove, bind, get_node. destruct (removal_spec d) as (a & d1 & -> & Hn & Hl & Ha).
  pose proof (drop_spec path d d1 Hl Hn) as (D1 & D2 & D3).
  assert (forall P : Prop, (dk_nodes d !! path = None \/ ~ P) ->
    later d d1 /\ (forall p, p <> path -> dk_nodes d1 !! p = dk_nodes d !! p) /\
    shrunk (dk_nodes d1 !! path) (dk_nodes d !! path) /\ (P -> dk_nodes d1 !! path = None)) as Hkeep.
  { intros P HP. rewrite Hn. split_and!; [done|done|done|]. intros p. destruct HP; [done|by exfalso]. }
  destruct (dk_nodes d !! path) as [[c|files]|] eqn:E.
  - destruct a; cbn [snd ret].
    + split_and!; [done|done|by rewrite D3|done].
    + destruct (Hkeep (stuck d = 0%nat)) as (? & ? & ? & H); [right; intros Hs; by specialize (Ha Hs)|].
      split_and!; [done|done|done|]. intros Hs _. by apply H.
  - case_bool_decide as He; [destruct a|rewrite andb_false_r]; cbn [snd ret andb].
    + split_and!; [done|done|by rewrite D3|done].
    + destruct (Hkeep (stuck d = 0%nat)) as (? & ? & ? & H); [right; intros Hs; by specialize (Ha Hs)|].
      split_and!; [done|done|done|]. intros Hs _. by apply H.
    + destruct (Hkeep False) as (? & ? & ? & H); [right; tauto|].
      split_and!; [done|done|done|]. intros _ Hb. by specialize (Hb _ eq_refl).
  - cbn. rewrite Hn, E. by split_and!.
Qed.

Lemma remove_files_spec (names : list string) (files : gmap string (list ascii)) (d : Disk) :
  exists rest d', remove_files names files d = (rest, d') /\ later d d' /\ dk_nodes d' = dk_nodes d /\ rest ⊆ files /\
    (stuck d = 0%nat -> forall name, name ∈ names -> rest !! name = None).
Proof.
  revert files d. induction names as [|name names IH]; intros files d; cbn [remove_files].
  { exists files, d. split_and!; [done..|]. by intros _ ? ?%elem_of_nil. }
  unfold bind. destruct (removal_spec d) as (a & d1 & -> & Hn & Hl & Ha). destruct a.
  - destruct (IH (delete name files) d1) as (rest & d' & -> & Hl' & Hn' & Hs & Hg).
    exists rest, d'. split_and!; [done|by etransitivity|congruence|etransitivity; [done|apply delete_subseteq]|].
    intros Hz x [->|Hx]%elem_of_cons; [|apply Hg; [pose proof (later_stuck _ _ Hl); lia|done]].
    destruct (rest !! name) as [c|] eqn:E; [|done]. eapply lookup_weaken in E; [|exact Hs]. by rewrite lookup_delete_eq in E.
  - exists files, d1. split_and!; [done|done|done|done|]. intros Hz. by specialize (Ha Hz).
Qed.

Lemma remove_all_removes (path : string) : removes path (fun _ => True) (remove_all path).
Proof.
  intros d. unfold remove_all, bind, get_node. pose proof (remove_removes path) as Hr.
  destruct (dk_nodes d !! path) as [[c|files]|] eqn:E.
  1,3: destruct (Hr d) as (R1 & R2 & R3 & R4); rewrite E in *; split_and!; [done|done|done|]; intros Hs _; apply R4; [done|]; by intros n [= <-].
  destruct (remove_files_spec (map fst (map_to_list files)) files d) as (rest & d1 & -> & Hl & Hn & Hsub & Hg).
  cbn [put_node]. set (d2 := set_nodes _ d1). assert (later d d2) as Hl2 by by apply later_set.
  assert (forall p, p <> path -> dk_nodes d2 !! p = dk_nodes d !! p) as F2
    by (intros p Hp; unfold d2; cbn; rewrite lookup_insert_ne, Hn by done; done).
  assert (dk_nodes d2 !! path = Some (Dir rest)) as P2 by (unfold d2; cbn; by rewrite lookup_insert_eq).
  assert (stuck d = 0%nat -> rest = ∅) as Hempty.
  { intros Hs. apply map_empty. intros name. destruct (rest !! name) as [x|] eqn:Ex; [|done].
    pose proof (lookup_weaken _ _ _ _ Ex Hsub) as Hf. rewrite <- Ex. apply (Hg Hs), list_elem_of_fmap.
    exists (name, x). split; [done|]. by apply elem_of_map_to_list. }
  case_bool_decide as He.
  - destruct (Hr d2) as (R1 & R2 & R3 & R4). split_and!; [by etransitivity|by intros p Hp; rewrite R2, F2| |].
    + etransitivity; [exact R3|]. by rewrite P2.
    + intros Hs _. apply R4; [pose proof (later_stuck _ _ Hl2); lia|]. rewrite P2. by intros n [= <-].
  - cbn [ret snd]. split_and!; [done|done|by rewrite P2|]. intros Hs _. by rewrite (Hempty Hs) in He.
Qed.

(** A node of the kind that the target asks for. *)
Definition fitting (t : Target) (n : node) : Prop :=
  match n with File _ => tg_store t = false | Dir _ => tg_store t = true end.

Lemma remove_target_removes (t : Target) : removes (tg_path t) (fitting t) (remove_target t).
Proof.
  intros d. unfold remove_target. destruct (tg_store t) eqn:Et.
  - destruct (remove_all_removes (tg_path t) d) as (H1 & H2 & H3 & H4). split_and!; auto.
  - destruct (remove_removes (tg_path t) d) as (H1 & H2 & H3 & H4). split_and!; [done|done|done|].
    intros Hs Hf. apply H4; [done|]. intros [c|files] Hn; [done|]. specialize (Hf _ Hn). cbn in Hf. congruence.
Qed.

Lemma shrunk_fitting (t : Target) (after before : option node) :
  shrunk after before -> (forall n, before = Some n -> fitting t n) -> forall n, after = Some n -> fitting t n.
Proof. intros Hs Hb n ->. destruct n, before as [[|]|]; try done; by apply (Hb _ eq_refl). Qed.

Lemma remove_each_spec (l : list Target) (d : Disk) :
  exists d', remove_each l d = (tt, d') /\ later d d' /\
    (forall p, p ∉ map tg_path l -> dk_nodes d' !! p = dk_nodes d !! p) /\
    (forall p, shrunk (dk_nodes d' !! p) (dk_nodes d !! p)) /\
    (stuck d = 0%nat -> forall t, t ∈ l -> (forall n, dk_nodes d !! tg_path t = Some n -> fitting t n) ->
       dk_nodes d' !! tg_path t = None).
Proof.
  revert d. induction l as [|t l IH]; intros d; cbn [remove_each map].
  { exists d. split_and!; [done|done|done|done|]. by intros _ ? ?%elem_of_nil. }
  unfold bind. destruct (remove_target_removes t d) as (R1 & R2 & R3 & R4). destruct (remove_target t d) as [[] d1]. cbn [snd] in *.
  assert (forall p, shrunk (dk_nodes d1 !! p) (dk_nodes d !! p)) as R5.
  { intros p. destruct (decide (p = tg_path t)) as [->|Hp]; [done|]. by rewrite R2. }
  destruct (IH d1) as (d' & -> & H1 & H2 & H3 & H4). exists d'. split_and!; [done|by etransitivity| | |].
  - intros p [Hp Hl]%not_elem_of_cons. by rewrite H2, R2.
  - intros p. etransitivity; [apply H3|apply R5].
  - intros Hs u [->|Hu]%elem_of_cons Hf.
    + specialize (H3 (tg_path t)). rewrite (R4 Hs Hf) in H3. revert H3. by destruct (dk_nodes d' !! tg_path t) as [[]|].
    + apply H4; [pose proof (later_stuck _ _ R1); lia|done|]. by eapply shrunk_fitting; [apply R5|].
Qed.

(** What a move does: it moves, or it changes nothing and, when nothing stands in its way, a fault was used up. *)
Lemma MoveFilePath_spec (from to : string) (d : Disk) :
  from <> to ->
  exists moved d', MoveFilePath from to d = (moved, d') /\ later d d' /\
    if moved
    then exists n, dk_nodes d !! from = Some n /\ dk_nodes d' = delete from (<[to := n]> (dk_nodes d))
    else dk_nodes d' = dk_nodes d /\
         (forall n, dk_nodes d !! from = Some n -> replaces n (dk_nodes d !! to) = true ->
            (S (faults d') <= faults d)%nat).
Proof.
  intros Hne. unfold MoveFilePath, bind, get_node.
  destruct (answer_spec d) as (a & d1 & -> & Hn & Hl & Hf).
  destruct (dk_nodes d !! from) as [n|] eqn:E.
  2:{ exists false, d1. by split_and!. }
  destruct a; cbn [andb].
  - destruct (replaces n (dk_nodes d !! to)) eqn:Er.
    + eexists true, _. split; [unfold put_node, drop_node, ret; reflexivity|]. cbn [dk_nodes set_nodes].
      split; [by do 2 apply later_set|]. exists n. by rewrite Hn.
    + exists false, d1. split_and!; [done|done|done|]. intros n' [= <-]. by rewrite Er.
  - exists false, d1. split_and!; [done|done|done|]. done.
Qed.

(** ** Undoing *)

Section Atomic.
Context (targets : list Target).

Notation P t := (tg_path t).
Notation T t := (TempPathFor (tg_path t)).
Notation B t := (BackupPathFor (tg_path t)).

(** The paths of the transaction do not meet. *)
Record separate : Prop := {
  sep_inj : forall t u, t ∈ targets -> u ∈ targets -> P t = P u -> t = u;
  sep_pb : forall t u, t ∈ targets -> u ∈ targets -> P t <> B u;
  sep_pt : forall t u, t ∈ targets -> u ∈ targets -> P t <> T u;
  sep_tb : forall t u, t ∈ targets -> u ∈ targets -> T t <> B u
}.

Context (Hsep : separate).

Lemma append_inj_l (a b s : string) : a +s+ s = b +s+ s -> a = b.
Proof.
  intros E. apply (f_equal chars) in E. rewrite !chars_app in E. apply app_inv_tail in E. by apply chars_inj.
Qed.

Lemma backup_inj (t u : Target) : t ∈ targets -> u ∈ targets -> B t = B u -> t = u.
Proof. intros Ht Hu E. apply append_inj_l in E. by apply (sep_inj Hsep). Qed.

Lemma temp_inj (t u : Target) : t ∈ targets -> u ∈ targets -> T t = T u -> t = u.
Proof. intros Ht Hu E. apply append_inj_l in E. by apply (sep_inj Hsep). Qed.

(** Putting back what was moved away, without a fault. *)
Lemma restore_each_spec (l : list Target) (d : Disk) (old : Target -> node) :
  faults d = 0%nat -> NoDup l -> l ⊆ targets ->
  (forall t, t ∈ l -> dk_nodes d !! P t = None /\ dk_nodes d !! B t = Some (old t)) ->
  exists d', restore_each l d = (tt, d') /\ faults d' = 0%nat /\
    (forall t, t ∈ l -> dk_nodes d' !! P t = Some (old t)) /\
    (forall p, (forall t, t ∈ l -> p <> P t /\ p <> B t) -> dk_nodes d' !! p = dk_nodes d !! p).
Proof.
  revert d. induction l as [|t l IH]; intros d Hf Hnd Hsub Hold; cbn [restore_each].
  { exists d. split_and!; [done|done|set_solver|done]. }
  apply NoDup_cons in Hnd as [Hnt Hnd]. assert (t ∈ targets) as Ht by set_solver.
  unfold bind. destruct (MoveFilePath_spec (B t) (P t) d) as (moved & d1 & -> & [Hf1 _ _] & Hm).
  { intros E. by apply (sep_pb Hsep t t). }
  destruct (Hold t) as [Hp Hb]; [set_solver|].
  destruct moved.
  2:{ destruct Hm as [_ Hm]. specialize (Hm _ Hb). rewrite Hp in Hm. specialize (Hm ltac:(by destruct (old t))). lia. }
  destruct Hm as (n & Hn & Hd1). rewrite Hb in Hn. injection Hn as <-.
  destruct (IH d1) as (d' & -> & Hf' & Hl & Hp'); [lia|done|set_solver| |].
  { intros u Hu. assert (u ∈ targets) as Hut by set_solver. assert (t <> u) by (intros ->; done).
    rewrite Hd1. destruct (Hold u) as [Hpu Hbu]; [set_solver|].
    assert (P t <> P u) by (intros E; by apply (sep_inj Hsep) in E).
    assert (B t <> B u) by (intros E; by apply backup_inj in E).
    pose proof (sep_pb Hsep t u Ht Hut). pose proof (sep_pb Hsep u t Hut Ht).
    by rewrite !lookup_delete_ne, !lookup_insert_ne by done. }
  exists d'. split_and!; [done|done| |].
  - intros u [->|Hu]%elem_of_cons; [|by apply Hl]. rewrite Hp'.
    + rewrite Hd1. rewrite lookup_delete_ne by (intros E; by apply (sep_pb Hsep t t)). by rewrite lookup_insert_eq.
    + intros u Hu. assert (u ∈ targets) as Hut by set_solver. split; [|by apply (sep_pb Hsep)].
      intros E. apply (sep_inj Hsep) in E; [by subst|done..].
  - intros p Hpu. rewrite Hp' by (intros u Hu; apply Hpu; set_solver).
    rewrite Hd1. destruct (Hpu t) as [H1 H2]; [set_solver|]. by rewrite lookup_delete_ne, lookup_insert_ne by done.
Qed.

Lemma restore_each_app (l1 l2 : list Target) (d : Disk) :
  restore_each (l1 ++ l2) d = (let* _ := restore_each l1 in restore_each l2) d.
Proof.
  revert d. induction l1 as [|t l1 IH]; intros d; [done|]. cbn [restore_each app]. unfold bind in *.
  destruct (MoveFilePath _ _ d) as [moved d1]. apply IH.
Qed.

(** *** Moving away *)

Definition present_node (t : Target) (n : option node) : bool :=
  match tg_store t, n with
  | true, Some (Dir _) => true
  | false, Some (File (_ :: _)) => true
  | _, _ => false
  end.

Lemma present_spec (t : Target) (d : Disk) :
  exists there d', present t d = (there, d') /\ dk_nodes d' = dk_nodes d /\ later d d' /\
    (answered d -> there = present_node t (dk_nodes d !! P t)).
Proof.
  unfold present, present_node, ExistingDirectory, ExistingFileHasContent, bind, get_node, ret.
  destruct (query_spec d) as (a & d1 & Eq & Hn & Hl & Ha).
  destruct (tg_store t), (dk_nodes d !! P t) as [[l|]|]; rewrite Eq; try (by eexists _, d1; split_and!).
  destruct a; [|by eexists _, d1; split_and!; try done; intros H; specialize (Ha H)].
  destruct (query_spec d1) as (b & d2 & -> & Hn2 & Hl2 & Hb). eexists _, d2. split; [done|]. split; [congruence|].
  split; [by etransitivity|]. intros H. rewrite (Hb (later_answered _ _ Hl H)). by destruct l.
Qed.

(** Nothing, or something that a file or a store can be moved onto. *)
Definition cleared (t : Target) (n : option node) : Prop :=
  match n with
  | None => True
  | Some (File _) => tg_store t = false
  | Some (Dir files) => tg_store t = true /\ files = ∅
  end.

Lemma cleared_shrunk (t : Target) (after before : option node) : shrunk after before -> cleared t before -> cleared t after.
Proof.
  destruct after as [[|fs]|], before as [[|fs']|]; cbn; try done. intros Hs [Ht ->]. split; [done|].
  apply map_empty. intros x. destruct (fs !! x) as [y|] eqn:E; [|done]. eapply lookup_weaken in E; [|done]. done.
Qed.

Lemma cleared_replaces (t : Target) (n : node) (there : option node) : fitting t n -> cleared t there -> replaces n there = true.
Proof.
  destruct n, there as [[|]|]; cbn; try done; try congruence; [intros H [H' _]; congruence|].
  intros _ [_ ->]. by apply bool_decide_eq_true.
Qed.

Lemma present_fitting (t : Target) (n : node) : present_node t (Some n) = true -> fitting t n.
Proof. unfold present_node, fitting. by destruct (tg_store t), n as [[]|]. Qed.

Lemma present_some (t : Target) (n : option node) : present_node t n = true -> is_Some n.
Proof. unfold present_node. by destruct (tg_store t), n. Qed.

(** [saved n l n']: the nodes [n'] are [n] with the targets [l] moved away. *)
Definition saved (n : gmap string node) (l : list Target) (n' : gmap string node) : Prop :=
  (forall t, t ∈ l -> present_node t (n !! P t) = true /\ n' !! P t = None /\ n' !! B t = n !! P t) /\
  (forall p, (forall t, t ∈ l -> p <> P t /\ p <> B t) -> n' !! p = n !! p).

Lemma saved_nil (n : gmap string node) : saved n [] n.
Proof. split; [set_solver|done]. Qed.

Lemma saved_snoc (n n1 n2 : gmap string node) (l : list Target) (t : Target) :
  l ⊆ targets -> t ∈ targets -> t ∉ l -> saved n l n1 ->
  present_node t (n1 !! P t) = true -> n2 = delete (P t) (<[B t := default (File []) (n1 !! P t)]> n1) ->
  saved n (l ++ [t]) n2.
Proof.
  intros Hl Ht Hn [S1 S2] Hp ->.
  assert (n1 !! P t = n !! P t) as Et.
  { apply S2. intros u Hu. split; [|apply (sep_pb Hsep); set_solver].
    intros E. apply (sep_inj Hsep) in E; [by subst|set_solver..]. }
  split.
  - intros u [Hu| ->%list_elem_of_singleton]%elem_of_app.
    + assert (u ∈ targets) as Hut by set_solver. destruct (S1 u Hu) as (Hpu & Hpn & Hb). split; [done|].
      assert (t <> u) by (intros ->; done).
      assert (P t <> P u) by (intros E; by apply (sep_inj Hsep) in E).
      assert (B t <> B u) by (intros E; by apply backup_inj in E).
      pose proof (sep_pb Hsep t u Ht Hut). pose proof (sep_pb Hsep u t Hut Ht).
      by rewrite !lookup_delete_ne, !lookup_insert_ne by done.
    + rewrite Et in Hp. split; [done|]. rewrite lookup_delete_eq. split; [done|].
      rewrite lookup_delete_ne by (by apply (sep_pb Hsep)). rewrite lookup_insert_eq, Et.
      destruct (present_some _ _ Hp) as [x Hx]. by rewrite Hx.
  - intros p Hpu. destruct (Hpu t) as [H1 H2]; [set_solver|].
    rewrite lookup_delete_ne, lookup_insert_ne by done. apply S2. intros u Hu. apply Hpu. set_solver.
Qed.

Lemma backup_loop_spec (ts backed : list Target) (n : gmap string node) (d : Disk) :
  answered d -> ts ⊆ targets -> backed ⊆ targets -> NoDup (backed ++ ts) -> saved n backed (dk_nodes d) ->
  (forall t, t ∈ ts -> cleared t (n !! B t)) ->
  exists new ok rest d', backup_loop ts backed d = (backed ++ new, ok, rest, d') /\
    new ⊆ ts /\ NoDup (backed ++ new) /\ saved n (backed ++ new) (dk_nodes d') /\
    later d d' /\ (if ok then faults d' <= faults d else S (faults d') <= faults d)%nat /\
    (ok = true -> forall t, t ∈ ts -> t ∉ new -> present_node t (n !! P t) = false).
Proof.
  revert backed d. induction ts as [|t ts IH]; intros backed d Hq Hts Hb Hnd Hs Hn; cbn [backup_loop].
  { exists [], true, [], d. rewrite app_nil_r in *. split_and!; [done|done|done|done|done|done|set_solver]. }
  assert (t ∈ targets) as Ht by set_solver.
  assert (t ∉ backed /\ t ∉ ts) as [Htb Htt].
  { apply NoDup_app in Hnd as (_ & Hd & Hnd). apply NoDup_cons in Hnd as [? _]. split; [|done]. intros Hin. by apply (Hd t); set_solver. }
  assert (forall u, u ∈ backed -> P t <> P u) as Hpp.
  { intros u Hu E. apply (sep_inj Hsep) in E; [by subst|set_solver..]. }
  assert (dk_nodes d !! P t = n !! P t) as Et.
  { apply Hs. intros u Hu. split; [by apply Hpp|]. apply (sep_pb Hsep); set_solver. }
  assert (cleared t (dk_nodes d !! B t)) as Ebt.
  { rewrite (proj2 Hs); [apply Hn; set_solver|]. intros u Hu. split.
    - intros E. symmetry in E. by apply (sep_pb Hsep) in E; [|set_solver..].
    - intros E. apply backup_inj in E; [by subst|set_solver..]. }
  unfold bind. destruct (present_spec t d) as (there & d0 & -> & Hd0 & L0 & ->%(fun f => f Hq)).
  pose proof (later_answered _ _ L0 Hq) as Hq0. pose proof (later_faults _ _ L0) as Hf0.
  destruct (present_node t (dk_nodes d !! P t)) eqn:Ep.
  - destruct (MoveFilePath_spec (P t) (B t) d0) as (moved & d1 & -> & L1 & Hm).
    { by apply (sep_pb Hsep). }
    pose proof (later_faults _ _ L1) as Hf1. rewrite Hd0 in Hm. destruct (present_some _ _ Ep) as [x Hx]. destruct moved.
    + destruct Hm as (x' & Hx' & Hd1). rewrite Hx in Hx'. injection Hx' as <-.
      destruct (IH (backed ++ [t]) d1) as (new & ok & rest & d' & E & Hsub & Hnd' & Hs' & L & Hf & Hp);
        [by apply (later_answered _ _ L1)|set_solver|set_solver| | |set_solver|].
      { by rewrite <- app_assoc. }
      { eapply saved_snoc; [done|done|done|exact Hs|done|]. by rewrite Hd1, Hx. }
      rewrite <- app_assoc in *. exists (t :: new), ok, rest, d'.
      split_and!; [done|set_solver|done|done|by repeat (etransitivity; [eassumption|])|destruct ok; lia|].
      intros Hok u [->|Hu]%elem_of_cons Hnu; [set_solver|]. apply Hp; [done|done|set_solver].
    + destruct Hm as [Hd1 Hm]. rewrite Hx in Ep. specialize (Hm _ Hx (cleared_replaces _ _ _ (present_fitting _ _ Ep) Ebt)).
      exists [], false, (t :: ts), d1. rewrite app_nil_r.
      split_and!; [done|set_solver| |by rewrite Hd1|by etransitivity|lia|done].
      by apply NoDup_app in Hnd as (? & _).
  - destruct (IH backed d0) as (new & ok & rest & d' & E & Hsub & Hnd' & Hs' & L & Hf & Hp);
      [done|set_solver|done| |by rewrite Hd0|set_solver|].
    { apply NoDup_app in Hnd as (? & Hd & ?%NoDup_cons). apply NoDup_app. split_and!; [done|set_solver|naive_solver]. }
    exists new, ok, rest, d'. split_and!; [done|set_solver|done|done|by etransitivity|destruct ok; lia|].
    intros Hok u [->|Hu]%elem_of_cons Hnu; [by rewrite <- Et|]. by apply Hp.
Qed.

(** *** Moving in *)

Lemma move_in_spec (ts : list Target) (d : Disk) :
  ts ⊆ targets -> NoDup ts ->
  exists ok d', move_in ts d = (ok, d') /\ later d d' /\
    (forall p, (forall t, t ∈ ts -> p <> P t /\ p <> T t) -> dk_nodes d' !! p = dk_nodes d !! p) /\
    (forall t, t ∈ ts -> dk_nodes d' !! P t = dk_nodes d !! P t \/ dk_nodes d' !! P t = dk_nodes d !! T t) /\
    if ok then forall t, t ∈ ts -> is_Some (dk_nodes d !! T t) /\ dk_nodes d' !! P t = dk_nodes d !! T t
    else (forall t, t ∈ ts -> exists n, dk_nodes d !! T t = Some n /\ replaces n (dk_nodes d !! P t) = true) ->
         (S (faults d') <= faults d)%nat.
Proof.
  revert d. induction ts as [|t ts IH]; intros d Hts Hnd; cbn [move_in].
  { exists true, d. split_and!; [done|done|done|set_solver|set_solver]. }
  apply NoDup_cons in Hnd as [Hnt Hnd]. assert (t ∈ targets) as Ht by set_solver.
  unfold bind, ReplaceFileWithTemp.
  destruct (MoveFilePath_spec (T t) (P t) d) as (moved & d1 & -> & L1 & Hm).
  { intros E. symmetry in E. by apply (sep_pt Hsep) in E. }
  pose proof (later_faults _ _ L1) as Hf1. destruct moved.
  2:{ destruct Hm as [Hd1 Hm]. exists false, d1. split_and!; [done|done|by rewrite Hd1|intros u _; left; by rewrite Hd1|].
      intros Hr. destruct (Hr t) as (n & Hn & Hrn); [set_solver|]. by apply (Hm n). }
  destruct Hm as (n & Hn & Hd1).
  assert (forall u, u ∈ ts -> dk_nodes d1 !! P u = dk_nodes d !! P u /\ dk_nodes d1 !! T u = dk_nodes d !! T u) as Hother.
  { intros u Hu. assert (u ∈ targets) as Hut by set_solver. assert (t <> u) by (intros ->; done).
    assert (P t <> P u) by (intros E; by apply (sep_inj Hsep) in E).
    assert (T t <> T u) by (intros E; by apply temp_inj in E).
    pose proof (sep_pt Hsep t u Ht Hut). pose proof (sep_pt Hsep u t Hut Ht).
    rewrite Hd1, !lookup_delete_ne, !lookup_insert_ne by done. done. }
  destruct (IH d1) as (ok & d' & -> & L' & Hfr & Hone & Hok); [set_solver|done|].
  assert (dk_nodes d' !! P t = Some n) as Hpt.
  { rewrite Hfr.
    - rewrite Hd1, lookup_delete_ne by (intros E; symmetry in E; by apply (sep_pt Hsep) in E).
      by rewrite lookup_insert_eq.
    - intros u Hu. split; [|apply (sep_pt Hsep); set_solver].
      intros E. apply (sep_inj Hsep) in E; [by subst|set_solver..]. }
  exists ok, d'. split_and!; [done|by etransitivity| | |].
  - intros p Hp. rewrite Hfr by (intros u Hu; apply Hp; set_solver). destruct (Hp t) as [H1 H2]; [set_solver|].
    by rewrite Hd1, lookup_delete_ne, lookup_insert_ne by done.
  - intros u [->|Hu]%elem_of_cons; [right; by rewrite Hpt, Hn|]. destruct (Hother u Hu) as [<- <-]. by apply Hone.
  - destruct ok.
    + intros u [->|Hu]%elem_of_cons.
      * split; [by rewrite Hn|]. by rewrite Hpt, Hn.
      * destruct (Hother u Hu) as [_ <-]. by apply Hok.
    + intros Hr. enough (S (faults d') <= faults d1)%nat by lia. apply Hok. intros u Hu.
      destruct (Hother u Hu) as [-> ->]. apply Hr. set_solver.
Qed.

(** *** The transaction as a whole *)

(** What a target is after a transaction that failed: what it was, or nothing in place of an empty file. *)
Definition undone (before after : option node) : Prop :=
  after = before \/ (before = Some (File []) /\ after = None).

Lemma not_present_undone (t : Target) (n : option node) :
  (forall x, n = Some x -> fitting t x) -> present_node t n = false -> undone n None.
Proof.
  unfold present_node, fitting, undone. intros Hx Hp. destruct n as [x|]; [|by left]. specialize (Hx x eq_refl).
  destruct x as [[|c l]|files]; rewrite Hx in Hp; [by right|done|done].
Qed.

Context (xmls : list Target) (state metadata : Target) (trust_stores tsa_stores : list Target).
Context (Htargets : targets = xmls ++ others state metadata trust_stores tsa_stores) (Hnd : NoDup targets).

Notation rest := (others state metadata trust_stores tsa_stores).
Notation drops b := (drop_temps xmls state metadata trust_stores tsa_stores b).

(** Removing temporaries and backups keeps the targets. *)
Lemma removes_aside (l : list Target) (d : Disk) :
  (forall u, u ∈ l -> exists t, t ∈ targets /\ (u = temp_of t \/ u = backup_of t)) ->
  exists d', remove_each l d = (tt, d') /\ later d d' /\ (forall p, shrunk (dk_nodes d' !! p) (dk_nodes d !! p)) /\
    (stuck d = 0%nat -> forall u, u ∈ l -> (forall n, dk_nodes d !! P u = Some n -> fitting u n) -> dk_nodes d' !! P u = None) /\
    forall t, t ∈ targets -> dk_nodes d' !! P t = dk_nodes d !! P t.
Proof.
  intros Hl. destruct (remove_each_spec l d) as (d' & -> & L & Hn & Hs & Hg). exists d'. split_and!; [done..|].
  intros t Ht. apply Hn. intros (u & E & Hu)%list_elem_of_fmap. destruct (Hl u Hu) as (t' & Ht' & [->| ->]); cbn in E.
  - by apply (sep_pt Hsep) in E.
  - by apply (sep_pb Hsep) in E.
Qed.

Lemma temps_aside (l : list Target) (u : Target) :
  l ⊆ targets -> u ∈ temps_of l -> exists t, t ∈ targets /\ (u = temp_of t \/ u = backup_of t).
Proof. intros Hl (t & -> & Ht)%list_elem_of_fmap. exists t. split; [by apply Hl|by left]. Qed.

Lemma backups_aside (l : list Target) (u : Target) :
  l ⊆ targets -> u ∈ backups_of l -> exists t, t ∈ targets /\ (u = temp_of t \/ u = backup_of t).
Proof. intros Hl (t & -> & Ht)%list_elem_of_fmap. exists t. split; [by apply Hl|by right]. Qed.

Lemma pairs_aside (l : list Target) (u : Target) :
  l ⊆ targets -> u ∈ concat (map (fun t => [backup_of t; temp_of t]) l) ->
  exists t, t ∈ targets /\ (u = temp_of t \/ u = backup_of t).
Proof.
  intros Hl Hu. apply list_elem_of_In, in_concat in Hu as (q & Hq & Hin%list_elem_of_In).
  apply in_map_iff in Hq as (t & <- & Ht%list_elem_of_In). exists t. split; [by apply Hl|].
  rewrite !elem_of_cons, elem_of_nil in Hin. naive_solver.
Qed.

Lemma drops_other (b : bool) (d : Disk) :
  exists d', drops b d = (tt, d') /\ forall t, t ∈ targets -> dk_nodes d' !! P t = dk_nodes d !! P t.
Proof.
  unfold drop_temps. destruct (removes_aside (temps_of xmls ++ temps_of ([state; metadata] ++ trust_stores) ++
    (if b then temps_of tsa_stores else [])) d) as (d' & -> & _ & _ & _ & H); [|by exists d'].
  assert (xmls ⊆ targets /\ [state; metadata] ++ trust_stores ⊆ targets /\ tsa_stores ⊆ targets) as (H1 & H2 & H3)
    by (rewrite Htargets; unfold others; set_solver).
  intros u Hu. rewrite !elem_of_app in Hu. destruct Hu as [Hu|[Hu|Hu]];
    [by apply (temps_aside xmls)|by apply (temps_aside ([state; metadata] ++ trust_stores))|].
  destruct b; [by apply (temps_aside tsa_stores)|by apply elem_of_nil in Hu].
Qed.

(** After putting back, what was moved away is there again. *)
Lemma restored (n : gmap string node) (l : list Target) (d : Disk) :
  l ⊆ targets -> NoDup l -> faults d = 0%nat -> (forall t, t ∈ l -> is_Some (n !! P t)) ->
  (forall t, t ∈ l -> dk_nodes d !! P t = None /\ dk_nodes d !! B t = n !! P t) ->
  exists d', restore_each l d = (tt, d') /\
    forall t, t ∈ targets -> dk_nodes d' !! P t = if bool_decide (t ∈ l) then n !! P t else dk_nodes d !! P t.
Proof.
  intros Hl Hndl Hf Hsome Hold.
  destruct (restore_each_spec l d (fun t => default (File []) (n !! P t)) Hf Hndl Hl) as (d' & E & _ & H1 & H2).
  { intros t Ht. destruct (Hold t Ht) as [? ->]. destruct (Hsome t Ht) as [x ->]. done. }
  exists d'. split; [done|]. intros t Ht. case_bool_decide as Hin.
  - rewrite H1 by done. by destruct (Hsome t Hin) as [x ->].
  - apply H2. intros u Hu. split; [|apply (sep_pb Hsep); set_solver].
    intros Eq. apply (sep_inj Hsep) in Eq; [by subst|set_solver..].
Qed.

Lemma saved_restored (n : gmap string node) (l : list Target) (d : Disk) :
  l ⊆ targets -> NoDup l -> faults d = 0%nat -> saved n l (dk_nodes d) ->
  exists d', restore_each l d = (tt, d') /\ forall t, t ∈ targets -> dk_nodes d' !! P t = n !! P t.
Proof.
  intros Hl Hndl Hf [S1 S2]. destruct (restored n l d) as (d' & E & H); try done.
  { intros t Ht. destruct (S1 t Ht) as (Hp & _). by apply present_some in Hp. }
  { intros t Ht. by destruct (S1 t Ht) as (_ & ? & ?). }
  exists d'. split; [done|]. intros t Ht. rewrite H by done. case_bool_decide as Hin; [done|].
  apply S2. intros u Hu. split; [|apply (sep_pb Hsep); set_solver].
  intros Eq. apply (sep_inj Hsep) in Eq; [by subst|set_solver..].
Qed.

Lemma elem_of_rev (l : list Target) (t : Target) : t ∈ rev l -> t ∈ l.
Proof. rewrite !list_elem_of_In. apply in_rev. Qed.

Lemma elem_of_rev_2 (l : list Target) (t : Target) : t ∈ l -> t ∈ rev l.
Proof. rewrite !list_elem_of_In. by rewrite <- in_rev. Qed.

Lemma NoDup_rev' (l : list Target) : NoDup l -> NoDup (rev l).
Proof. rewrite !NoDup_ListNoDup. apply List.NoDup_rev. Qed.

Lemma backup_spec (d : Disk) :
  (faults d <= 1)%nat -> answered d -> (forall t, t ∈ targets -> cleared t (dk_nodes d !! B t)) ->
  exists result d', backup xmls state metadata trust_stores tsa_stores d = (result, d') /\
    match result with
    | None => forall t, t ∈ targets -> dk_nodes d' !! P t = dk_nodes d !! P t
    | Some (backed_xmls, backed) =>
        let l := rev backed ++ backed_xmls in
        l ⊆ targets /\ NoDup l /\ saved (dk_nodes d) l (dk_nodes d') /\ later d d' /\
        forall t, t ∈ targets -> t ∉ l -> present_node t (dk_nodes d !! P t) = false
    end.
Proof.
  intros Hf Hq Hb. unfold backup, bind.
  assert (xmls ⊆ targets /\ rest ⊆ targets) as [Hx Hr] by (rewrite Htargets; set_solver).
  assert (NoDup xmls /\ NoDup rest) as [Hndx Hndr] by (rewrite Htargets in Hnd; by apply NoDup_app in Hnd as (? & _ & ?)).
  destruct (backup_loop_spec xmls [] (dk_nodes d) d) as (bx & ok & left1 & d1 & -> & Hbx & Hndbx & Hs1 & L1 & Hf1 & Hp1);
    [done|done|apply list_subseteq_nil|done|apply saved_nil|intros t Ht; by apply Hb, Hx|]. cbn [app] in *.
  destruct ok; cbn [negb].
  2:{ destruct (saved_restored (dk_nodes d) bx d1) as (d2 & -> & H2); [by trans xmls|done|lia|done|].
      destruct (drops_other false d2) as (d3 & -> & H3). exists None, d3. split; [done|]. intros t Ht. by rewrite H3, H2. }
  destruct (backup_loop_spec rest [] (dk_nodes d1) d1) as (bo & ok & left2 & d2 & -> & Hbo & Hndbo & Hs2 & L2 & Hf2 & Hp2);
    [by apply (later_answered _ _ L1)|done|apply list_subseteq_nil|done|apply saved_nil| |].
  { intros t Ht. rewrite (proj2 Hs1); [by apply Hb, Hr|]. intros u Hu. split.
    - intros E. symmetry in E. apply (sep_pb Hsep) in E; [done|by apply Hx, Hbx|by apply Hr].
    - intros E. apply backup_inj in E; [|by apply Hr|by apply Hx, Hbx]. subst u. rewrite Htargets in Hnd.
      apply NoDup_app in Hnd as (_ & Hd & _). by apply (Hd t); [apply Hbx|]. }
  cbn [app] in *.
  assert (forall t u, t ∈ xmls -> u ∈ rest -> t <> u) as Hxr.
  { intros t u Ht Hu ->. rewrite Htargets in Hnd. apply NoDup_app in Hnd as (_ & Hd & _). by apply (Hd u). }
  assert (bx ⊆ targets) as Hbxt by (by trans xmls). assert (bo ⊆ targets) as Hbot by (by trans rest).
  assert (forall t u, t ∈ bx -> u ∈ bo -> P t <> P u /\ P t <> B u /\ B t <> P u /\ B t <> B u) as Hapart.
  { intros t u Ht Hu. assert (t <> u) as Hne by (apply Hxr; [by apply Hbx|by apply Hbo]).
    apply Hbxt in Ht. apply Hbot in Hu. split_and!.
    - intros E. by apply (sep_inj Hsep) in E.
    - by apply (sep_pb Hsep).
    - intros E. symmetry in E. by apply (sep_pb Hsep) in E.
    - intros E. by apply backup_inj in E. }
  set (l := rev bo ++ bx). assert (l ⊆ targets) as Hl.
  { intros t [Ht%elem_of_rev|Ht]%elem_of_app; [by apply Hbot|by apply Hbxt]. }
  assert (NoDup l) as Hndl.
  { apply NoDup_app. split_and!; [by apply NoDup_rev'| |done]. intros t Ht%elem_of_rev Hin. by apply (Hxr t t); [apply Hbx|apply Hbo|]. }
  assert (saved (dk_nodes d) l (dk_nodes d2)) as Hs.
  { destruct Hs1 as [A1 A2], Hs2 as [C1 C2]. split.
    - intros t [Ht%elem_of_rev|Ht]%elem_of_app.
      + destruct (C1 t Ht) as (H1 & H2 & H3).
        rewrite A2 in H1, H3 by (intros u Hu; destruct (Hapart u t Hu Ht) as (? & ? & ? & ?); split; congruence). done.
      + destruct (A1 t Ht) as (H1 & H2 & H3). split; [done|]. rewrite <- H2, <- H3.
        split; apply C2; intros u Hu; by destruct (Hapart t u Ht Hu) as (? & ? & ? & ?).
    - intros p Hp. rewrite C2; [apply A2|]; intros u Hu; apply Hp; apply elem_of_app; [by right|left; by apply elem_of_rev_2]. }
  destruct ok; cbn [negb].
  - exists (Some (bx, bo)), d2. split; [done|]. cbv zeta. fold l. split_and!; [done|done|done|by etransitivity|].
    intros t Ht Hnt. rewrite Htargets in Ht. apply elem_of_app in Ht as [Ht|Ht].
    + apply Hp1; [done|done|]. intros Hin. apply Hnt, elem_of_app. by right.
    + rewrite <- (Hp2 eq_refl t Ht).
      * f_equal. symmetry. apply (proj2 Hs1). intros u Hu. split; [|apply (sep_pb Hsep); [by apply Hr|by apply Hbxt]].
        intros E. apply (sep_inj Hsep) in E; [|by apply Hr|by apply Hbxt]. subst. by apply (Hxr u u); first apply Hbx.
      * intros Hin. apply Hnt, elem_of_app. left. by apply elem_of_rev_2.
  - destruct (saved_restored (dk_nodes d) l d2) as (d3 & E & H3); [done|done|lia|done|].
    unfold l in E. rewrite restore_each_app in E. unfold bind in E.
    destruct (restore_each (rev bo) d2) as [[] d2']. rewrite E.
    destruct (drops_other (length left2 <=? length tsa_stores)%nat d3) as (d4 & -> & H4).
    exists None, d4. split; [done|]. intros t Ht. by rewrite H4, H3.
Qed.

(** When at most one call fails, the transaction is carried out or leaves every target as it was. *)
Lemma commit_spec (d : Disk) :
  (faults d <= 1)%nat -> answered d -> (forall t, t ∈ targets -> cleared t (dk_nodes d !! B t)) ->
  (forall t n, t ∈ targets -> dk_nodes d !! P t = Some n -> fitting t n) ->
  (forall t n, t ∈ targets -> dk_nodes d !! T t = Some n -> fitting t n) ->
  (faults d = 0%nat \/ forall t, t ∈ targets -> is_Some (dk_nodes d !! T t)) ->
  exists ok d', commit xmls state metadata trust_stores tsa_stores d = (ok, d') /\
    if ok then forall t, t ∈ targets -> is_Some (dk_nodes d !! T t) /\ dk_nodes d' !! P t = dk_nodes d !! T t
    else forall t, t ∈ targets -> undone (dk_nodes d !! P t) (dk_nodes d' !! P t).
Proof.
  intros Hf Hq Hb Hfit Hfit' Htemps. unfold commit, bind.
  destruct (backup_spec d Hf Hq Hb) as (result & d1 & -> & Hres). destruct result as [[bx bo]|].
  2:{ exists false, d1. split; [done|]. intros t Ht. left. by apply Hres. }
  cbv zeta in Hres. set (l := rev bo ++ bx) in *. destruct Hres as (Hl & Hndl & [S1 S2] & L1 & Hrest). pose proof (later_faults _ _ L1) as Hf1.
  assert (forall t, t ∈ targets -> dk_nodes d1 !! T t = dk_nodes d !! T t) as Htemp.
  { intros t Ht. apply S2. intros u Hu. split.
    - intros E. symmetry in E. by apply (sep_pt Hsep) in E; [|apply Hl|].
    - apply (sep_tb Hsep); [done|by apply Hl]. }
  assert (forall t, t ∈ targets -> t ∉ l -> dk_nodes d1 !! P t = dk_nodes d !! P t) as Hkept.
  { intros t Ht Hn. apply S2. intros u Hu. split; [|apply (sep_pb Hsep); [done|by apply Hl]].
    intros E. apply (sep_inj Hsep) in E; [by subst|done|by apply Hl]. }
  rewrite <- Htargets.
  destruct (move_in_spec targets d1) as (ok & d2 & -> & L2 & Hfr & Hone & Hok); [done|done|].
  pose proof (later_faults _ _ L2) as Hf2. destruct ok; cbn [negb].
  - match goal with |- context [remove_each ?ps d2] => destruct (removes_aside ps d2) as (d3 & -> & _ & _ & _ & H3) end.
    { assert (xmls ⊆ targets /\ rest ⊆ targets) as [Hx Hr] by (rewrite Htargets; set_solver).
      intros u Hu. rewrite !elem_of_app in Hu. destruct Hu as [Hu|[Hu|Hu]];
        [by apply (pairs_aside xmls)|by apply (backups_aside rest)|by apply (temps_aside rest)]. }
    exists true, d3. split; [done|]. intros t Ht. destruct (Hok t Ht) as [H1 H2]. rewrite Htemp in H1, H2 by done.
    split; [done|]. by rewrite H3.
  - destruct (remove_each_spec (rest ++ xmls) d2) as (d3 & -> & L3 & H3 & _ & Hgone). set (paths := rest ++ xmls) in *.
    assert (forall t, t ∈ paths <-> t ∈ targets) as Hin by (intros t; unfold paths; rewrite Htargets; set_solver).
    assert (faults d2 = 0%nat) as Hf2'.
    { destruct Htemps as [?|Htemps]; [lia|]. enough (S (faults d2) <= faults d1)%nat by lia. apply Hok. intros t Ht.
      rewrite Htemp by done. destruct (Htemps t Ht) as [n Hn]. exists n. split; [done|].
      pose proof (Hfit' t n Ht Hn) as Hft. destruct (decide (t ∈ l)) as [Htl|Htl].
      { destruct (S1 t Htl) as (_ & -> & _). by destruct n. }
      rewrite Hkept by done. destruct (dk_nodes d !! P t) as [x|] eqn:Ex; [|by destruct n].
      pose proof (Hfit t x Ht Ex) as Hfx. pose proof (Hrest t Ht Htl) as Hpn. rewrite Ex in Hpn.
      unfold fitting, present_node in *. destruct n, x; rewrite ?Hft in *; try done. }
    assert (faults d3 = 0%nat) as Hf3 by (pose proof (later_faults _ _ L3); lia).
    assert (forall t, t ∈ targets -> dk_nodes d3 !! P t = None) as Hnone.
    { intros t Ht. apply Hgone; [unfold faults in Hf2'; lia|by apply Hin|]. intros n Hn.
      destruct (Hone t Ht) as [E|E]; rewrite E in Hn.
      - destruct (decide (t ∈ l)) as [Htl|Htl]; [destruct (S1 t Htl) as (_ & E' & _); congruence|].
        rewrite Hkept in Hn by done. by apply Hfit.
      - rewrite Htemp in Hn by done. by apply Hfit'. }
    destruct (restored (dk_nodes d) l d3) as (d4 & E & H4); [done|done|done| | |].
    { intros t Ht. destruct (S1 t Ht) as (Hp & _). by apply present_some in Hp. }
    { intros t Ht. assert (t ∈ targets) as Htt by (by apply Hl). split; [by apply Hnone|]. rewrite H3.
      - rewrite Hfr; [by destruct (S1 t Ht) as (_ & _ & ?)|]. intros u Hu. split.
        + intros Eq. symmetry in Eq. by apply (sep_pb Hsep) in Eq.
        + intros Eq. symmetry in Eq. by apply (sep_tb Hsep) in Eq.
      - intros (u & Eq & Hu%Hin)%list_elem_of_fmap. symmetry in Eq. by apply (sep_pb Hsep) in Eq. }
    unfold l in E. rewrite restore_each_app in E. unfold bind in E.
    destruct (restore_each (rev bo) d3) as [[] d3']. rewrite E.
    destruct (drops_other true d4) as (d5 & -> & H5). exists false, d5. split; [done|].
    intros t Ht. rewrite H5, H4 by done. case_bool_decide as Htl; [by left|].
    rewrite Hnone by done. apply (not_present_undone t); [intros x Hx; by apply Hfit|]. by apply Hrest.
Qed.

End Atomic.

(** ** What staging touches *)

Definition within {A} (S : string -> Prop) (m : Os A) : Prop :=
  forall d, later d (m d).2 /\ forall p, ~ S p -> dk_nodes (m d).2 !! p = dk_nodes d !! p.

Lemma within_ret {A} (S : string -> Prop) (x : A) : within S (ret x).
Proof. intros d. by split. Qed.

Lemma within_bind {A B} (S : string -> Prop) (m : Os A) (f : A -> Os B) :
  within S m -> (forall x, within S (f x)) -> within S (bind m f).
Proof.
  intros Hm Hf d. unfold bind. destruct (Hm d) as [F1 N1]. destruct (m d) as [x d1]. cbn in *.
  destruct (Hf x d1) as [F2 N2]. split; [by etransitivity|]. intros p Hp. by rewrite N2, N1.
Qed.

Lemma within_get (S : string -> Prop) (p : string) : within S (get_node p).
Proof. intros d. by split. Qed.

Lemma within_answer (S : string -> Prop) : within S answer.
Proof. intros d. destruct (answer_spec d) as (a & d' & -> & Hn & Hl & _). cbn. by rewrite Hn. Qed.

Lemma within_query (S : string -> Prop) : within S query.
Proof. intros d. destruct (query_spec d) as (a & d' & -> & Hn & Hl & _). cbn. by rewrite Hn. Qed.

Lemma within_removal (S : string -> Prop) : within S removal.
Proof. intros d. destruct (removal_spec d) as (a & d' & -> & Hn & Hl & _). cbn. by rewrite Hn. Qed.

Lemma within_put (S : string -> Prop) (p : string) (n : node) : S p -> within S (put_node p n).
Proof.
  intros HS d. split; [by apply later_set|]. intros q Hq. cbn. rewrite lookup_insert_ne; [done|]. by intros ->.
Qed.

Lemma within_removes (S : string -> Prop) (p : string) (fits : node -> Prop) (m : Os unit) :
  removes p fits m -> S p -> within S m.
Proof. intros Hm HS d. destruct (Hm d) as (Hl & Hn & _). split; [done|]. intros q Hq. apply Hn. by intros ->. Qed.

Lemma within_remove (S : string -> Prop) (p : string) : S p -> within S (remove p).
Proof. eapply within_removes, remove_removes. Qed.

Lemma within_remove_target (S : string -> Prop) (t : Target) : S (tg_path t) -> within S (remove_target t).
Proof. eapply within_removes, remove_target_removes. Qed.

Create HintDb within.
#[export] Hint Resolve within_ret within_bind within_get within_answer within_query within_removal within_put within_remove
  within_remove_target : within.

Lemma within_remove_each (S : string -> Prop) (l : list Target) : Forall (fun t => S (tg_path t)) l -> within S (remove_each l).
Proof. induction 1; cbn [remove_each]; auto with within. Qed.

Lemma within_StageBinaryFile (S : string -> Prop) (p : string) (data : list ascii) : S p -> within S (StageBinaryFile p data).
Proof.
  intros HS. unfold StageBinaryFile. apply within_bind; [auto with within|]. intros _.
  apply within_bind; [auto with within|]. intros n. apply within_bind; [auto with within|]. intros opened.
  cbv zeta. destruct (_ || _); [auto with within|]. apply within_bind; [auto with within|]. intros [|]; auto 10 with within.
Qed.

Lemma within_remove_in (S : string -> Prop) (store name : string) : S store -> within S (remove_in store name).
Proof.
  intros HS. unfold remove_in. apply within_bind; [auto with within|]. intros [[|files]|];
    (apply within_bind; [auto with within|]); intros [|]; auto with within.
Qed.

#[export] Hint Resolve within_remove_in : within.

Lemma within_StageInStore (S : string -> Prop) (store name : string) (data : list ascii) :
  S store -> within S (StageInStore store name data).
Proof.
  intros HS. unfold StageInStore. apply within_bind; [auto with within|]. intros _.
  apply within_bind; [auto with within|]. intros [[|files]|]; (apply within_bind; [auto with within|]); intros opened;
    [auto with within| |auto with within].
  destruct opened; [|auto with within]. apply within_bind; [auto with within|]. intros [|]; auto 10 with within.
Qed.

Lemma within_create_directories (S : string -> Prop) (p : string) : S p -> within S (create_directories p).
Proof.
  intros HS. unfold create_directories. apply within_bind; [auto with within|]. intros [[|files]|];
    (apply within_bind; [auto with within|]); intros [|]; auto with within.
Qed.

#[export] Hint Resolve within_remove_each within_StageBinaryFile within_StageInStore within_create_directories : within.

Lemma within_stage_files (S : string -> Prop) (files : list (string * list ascii)) :
  Forall (fun f => S (TempPathFor f.1)) files -> within S (stage_files files).
Proof.
  induction 1 as [|[p data] files Hp Hfiles IH]; cbn [stage_files]; [auto with within|].
  apply within_bind; [auto with within|]. intros [|]; auto with within.
Qed.

Lemma within_stage_certificates (S : string -> Prop) (files : list (string * string * list ascii)) :
  Forall (fun f => S (TempPathFor f.1.1)) files -> within S (stage_certificates files).
Proof.
  induction 1 as [|[[store name] data] files Hp Hfiles IH]; cbn [stage_certificates]; [auto with within|].
  apply within_bind; [auto with within|]. intros [|]; auto with within.
Qed.

Lemma within_create_each (S : string -> Prop) (dirs : list string) : Forall S dirs -> within S (create_each dirs).
Proof.
  induction 1 as [|p dirs Hp Hd IH]; cbn [create_each]; [auto with within|].
  apply within_bind; [auto with within|]. intros [|]; auto with within.
Qed.

#[export] Hint Resolve within_stage_files within_stage_certificates : within.

(** ** What staging leaves behind *)

Lemma StageBinaryFile_spec (p : string) (data : list ascii) (d d' : Disk) :
  StageBinaryFile p data d = (true, d') -> dk_nodes d' !! p = Some (File data).
Proof.
  unfold StageBinaryFile, bind, get_node, put_node, ret. destruct (remove p d) as [[] d0].
  destruct (answer_spec d0) as (a & d1 & -> & _). destruct (_ || _); [by destruct (remove p d1)|].
  destruct (answer_spec d1) as (b & d2 & -> & _). destruct b; [|by destruct (remove p _)].
  intros [= <-]. cbn. by rewrite lookup_insert_eq.
Qed.

Lemma stage_files_spec (files : list (string * list ascii)) (d d' : Disk) :
  NoDup (map fst files) -> stage_files files d = (true, d') ->
  forall p data, (p, data) ∈ files -> dk_nodes d' !! TempPathFor p = Some (File data).
Proof.
  revert d. induction files as [|[q content] files IH]; intros d Hnd E p data Hin; [set_solver|].
  cbn [stage_files map fst] in *. apply NoDup_cons in Hnd as [Hnq Hnd]. unfold bind in E.
  destruct (StageBinaryFile (TempPathFor q) content d) as [[|] d1] eqn:E1; [|done].
  apply elem_of_cons in Hin as [Hin|Hin]; [injection Hin as -> ->|by eapply IH].
  destruct (within_stage_files (fun r => r <> TempPathFor q) files) with (d := d1) as [_ Hw].
  { apply Forall_forall. intros [r x] Hr. cbn. intros Eq. apply append_inj_l in Eq. subst r.
    apply Hnq, list_elem_of_fmap. by exists (q, x). }
  rewrite E in Hw. cbn in Hw. rewrite Hw by naive_solver. by eapply StageBinaryFile_spec.
Qed.

(** A directory was made, or the call that should have made it failed. *)
Definition made (before : nat) (d : Disk) (p : string) : Prop :=
  dk_nodes d !! p = Some (Dir ∅) \/ (dk_nodes d !! p = None /\ (S (faults d) <= before)%nat).

(** Nothing, or an empty directory. *)
Definition vacant (d : Disk) (p : string) : Prop := dk_nodes d !! p = None \/ dk_nodes d !! p = Some (Dir ∅).

Lemma create_directories_spec (p : string) (d : Disk) :
  vacant d p -> exists ok d', create_directories p d = (ok, d') /\ made (faults d) d' p.
Proof.
  intros Hp. unfold create_directories, bind, get_node, made. destruct (answer_spec d) as (a & d1 & -> & Hn & _ & Hf).
  destruct Hp as [E|E]; rewrite E.
  - destruct a; eexists _, _; (split; [done|]); [left; cbn; by rewrite lookup_insert_eq|right; by rewrite Hn].
  - eexists _, _. split; [done|]. left. by rewrite Hn.
Qed.

Definition staged_store (store : string) (l : list (string * string * list ascii)) (n : option node) : option node :=
  match n with Some (Dir files) => Some (Dir (files_in store l files)) | _ => n end.

Lemma remove_in_spec (store name : string) (files : gmap string (list ascii)) (d : Disk) :
  dk_nodes d !! store = Some (Dir files) ->
  exists files' d', remove_in store name d = (tt, d') /\ dk_nodes d' !! store = Some (Dir files') /\
    forall data, <[name := data]> files' = <[name := data]> files.
Proof.
  intros E. unfold remove_in, bind, get_node. rewrite E. destruct (removal_spec d) as (a & d1 & -> & Hn & _). destruct a.
  - eexists (delete name files), _. split; [done|]. cbn. split; [by rewrite lookup_insert_eq|]. intros data. apply insert_delete_eq.
  - exists files, d1. by rewrite Hn.
Qed.

Lemma StageInStore_spec (store name : string) (data : list ascii) (d d' : Disk) :
  StageInStore store name data d = (true, d') ->
  exists files, dk_nodes d !! store = Some (Dir files) /\ dk_nodes d' !! store = Some (Dir (<[name := data]> files)) /\
    forall p, p <> store -> dk_nodes d' !! p = dk_nodes d !! p.
Proof.
  intros E. destruct (within_StageInStore (fun p => p = store) store name data eq_refl d) as [_ Hw]. rewrite E in Hw. cbn [snd] in Hw.
  revert E. unfold StageInStore, bind, get_node.
  destruct (dk_nodes d !! store) as [[c|files]|] eqn:Es.
  2:{ destruct (remove_in_spec store name files d Es) as (files' & d1 & -> & E1 & Hi). rewrite E1.
      destruct (answer_spec d1) as (a & d2 & -> & Hn2 & _). destruct a; [|by destruct (remove_in _ _ _)].
      destruct (answer_spec d2) as (b & d3 & -> & Hn3 & _). cbn [put_node]. destruct b; [|by destruct (remove_in _ _ _)].
      intros [= <-]. exists files. split; [done|]. split; [cbn; by rewrite lookup_insert_eq, Hi|done]. }
  all: unfold remove_in at 1, bind, get_node; rewrite Es; destruct (removal_spec d) as (r & d1 & -> & Hn & _); cbn [ret];
    rewrite Hn, Es; destruct (answer_spec d1) as (a & d2 & -> & _); by destruct (remove_in _ _ _).
Qed.

Lemma stage_certificates_spec (store : string) (l : list (string * string * list ascii)) (d d' : Disk) :
  stage_certificates l d = (true, d') ->
  dk_nodes d' !! TempPathFor store = staged_store store l (dk_nodes d !! TempPathFor store).
Proof.
  revert d. induction l as [|[[s name] data] l IH]; intros d E; cbn [stage_certificates] in E.
  { injection E as <-. by destruct (dk_nodes d !! TempPathFor store) as [[]|]. }
  unfold bind in E. destruct (StageInStore (TempPathFor s) name data d) as [[|] d1] eqn:E1; [|done].
  rewrite (IH d1 E). clear IH E. pose proof (StageInStore_spec _ _ _ _ _ E1) as (files & Es & E2 & Hw).
  unfold staged_store, files_in. cbn [foldl]. case_bool_decide as Hs.
  - subst s. by rewrite E2, Es.
  - rewrite Hw; [done|]. intros Eq. by apply append_inj_l in Eq.
Qed.

Lemma create_step (before : nat) (d : Disk) (p : string) (finished todo : list string) :
  (faults d <= before)%nat -> NoDup (p :: finished ++ todo) ->
  Forall (made before d) finished -> Forall (vacant d) (p :: todo) ->
  exists ok d', create_directories p d = (ok, d') /\ (faults d' <= before)%nat /\
    Forall (made before d') (p :: finished) /\ Forall (vacant d') todo.
Proof.
  intros Hf Hnd Hdone Htodo. apply NoDup_cons in Hnd as [Hp _]. apply Forall_cons in Htodo as [Hnp Htodo].
  destruct (create_directories_spec p d Hnp) as (ok & d' & E & Hok).
  destruct (within_create_directories (fun q => q = p) p eq_refl d) as [[Hf' _ _] Hw]. rewrite E in Hf', Hw. cbn in Hf', Hw.
  exists ok, d'. split_and!; [done|lia| |].
  - constructor.
    + destruct Hok as [?|[? ?]]; [by left|right]. split; [done|lia].
    + apply Forall_forall. intros q Hq. rewrite Forall_forall in Hdone. assert (q <> p) by set_solver.
      destruct (Hdone q Hq) as [?|[? ?]]; [left|right]; rewrite Hw by done; [done|]. split; [done|lia].
  - apply Forall_forall. intros q Hq. rewrite Forall_forall in Htodo. unfold vacant. rewrite Hw; [by apply Htodo|set_solver].
Qed.

(** ** The layout of the cache *)

Section Layout.
Context (work_dir : string).

(** Every path of the cache is a fixed name behind the work directory. *)
Definition prefix_of : string :=
  match last (chars work_dir) with
  | None => ""
  | Some c => if Ascii.eqb c "/"%char then work_dir else work_dir +s+ "/"
  end.

Lemma str_app_assoc (a b c : string) : (a +s+ b) +s+ c = a +s+ (b +s+ c).
Proof. apply chars_inj. by rewrite !chars_app, app_assoc. Qed.

Lemma path_append_prefix (name : string) : path_append work_dir name = prefix_of +s+ name.
Proof.
  unfold path_append, prefix_of. destruct (last (chars work_dir)); [|done].
  destruct (Ascii.eqb _ _); [done|]. by rewrite str_app_assoc.
Qed.

Lemma path_append_nested (dir name : string) (c : ascii) :
  last (chars dir) = Some c -> c <> "/"%char ->
  path_append (path_append work_dir dir) name = prefix_of +s+ dir +s+ "/" +s+ name.
Proof.
  intros Hl Hc. rewrite path_append_prefix. unfold path_append. rewrite chars_app, last_app, Hl.
  rewrite (proj2 (Ascii.eqb_neq c "/"%char)) by done. by rewrite !str_app_assoc.
Qed.

Definition list_names : list string := ["TL-UA.xml"; "TL-UA-DSTU.xml"; "TL-UA-EC.xml"].

(** The names of all targets. *)
Definition known : list Target :=
  map (fun name => MkTarget ("trust-list/" +s+ name) false) list_names ++
  [MkTarget "trust-list/state.json" false; MkTarget "policy/trust-store-metadata.json" false;
   MkTarget "trust-store" true; MkTarget "historical-trust-store" true; MkTarget "tsa-store" true;
   MkTarget "historical-tsa-store" true].

Definition placed_at (k : Target) : Target := MkTarget (prefix_of +s+ tg_path k) (tg_store k).

Context (entries : list PolicyCacheEntry) (Hnames : Forall (fun e => ce_filename e ∈ list_names) entries)
  (Hdistinct : NoDup (map ce_filename entries)).

Definition cache_targets : list Target :=
  xml_targets work_dir entries ++
  others (state_target work_dir) (metadata_target work_dir) (trust_store_targets work_dir) (tsa_store_targets work_dir).

Lemma others_known : others (state_target work_dir) (metadata_target work_dir) (trust_store_targets work_dir) (tsa_store_targets work_dir)
  = map placed_at (drop 3 known).
Proof.
  unfold others, state_target, metadata_target, trust_store_targets, tsa_store_targets, StatePath, TrustStoreMetadataPath,
    PolicyDir, TrustStoreDir, HistoricalTrustStoreDir, TsaStoreDir, HistoricalTsaStoreDir.
  rewrite (path_append_nested "trust-list" _ "t"%char), (path_append_nested "policy" _ "y"%char) by done.
  by rewrite !path_append_prefix.
Qed.

Lemma xml_known (e : PolicyCacheEntry) :
  MkTarget (TrustListPath work_dir (ce_filename e)) false = placed_at (MkTarget ("trust-list/" +s+ ce_filename e) false).
Proof. unfold TrustListPath. by rewrite (path_append_nested "trust-list" _ "t"%char). Qed.

Lemma targets_known (t : Target) : t ∈ cache_targets -> exists k, k ∈ known /\ t = placed_at k.
Proof.
  unfold cache_targets. rewrite others_known. intros [Ht|Ht]%elem_of_app.
  - apply list_elem_of_fmap in Ht as (e & -> & He). rewrite xml_known. eexists. split; [|done].
    rewrite Forall_forall in Hnames. specialize (Hnames e He). unfold known. apply elem_of_app. left.
    apply list_elem_of_fmap. by exists (ce_filename e).
  - apply list_elem_of_fmap in Ht as (k & -> & Hk). exists k. split; [|done].
    rewrite <- (take_drop 3 known). apply elem_of_app. by right.
Qed.

Lemma prefix_inj (a b : string) : prefix_of +s+ a = prefix_of +s+ b -> a = b.
Proof. intros E. apply (f_equal chars) in E. rewrite !chars_app in E. apply app_inv_head in E. by apply chars_inj. Qed.

(** A fact about two names that a computation over all pairs of names shows. *)
Lemma known_pairs (f : Target -> Target -> bool) :
  forallb (fun a => forallb (f a) known) known = true -> forall a b, a ∈ known -> b ∈ known -> f a b = true.
Proof.
  intros H a b Ha Hb. rewrite forallb_forall in H. specialize (H a (proj1 (list_elem_of_In _ _) Ha)).
  rewrite forallb_forall in H. by apply H, list_elem_of_In.
Qed.

Lemma names_apart (s s' : string) :
  forallb (fun a => forallb (fun b => negb (tg_path a +s+ s ==s tg_path b +s+ s')) known) known = true ->
  forall t u, t ∈ cache_targets -> u ∈ cache_targets -> tg_path t +s+ s <> tg_path u +s+ s'.
Proof.
  intros H t u (a & Ha & ->)%targets_known (b & Hb & ->)%targets_known E. cbn in E.
  rewrite !str_app_assoc in E. apply prefix_inj in E.
  pose proof (known_pairs (fun a b => negb (tg_path a +s+ s ==s tg_path b +s+ s')) H a b Ha Hb) as Hn.
  cbv beta in Hn. rewrite E, String.eqb_refl in Hn. done.
Qed.

Lemma str_app_nil (s : string) : s +s+ "" = s.
Proof. apply chars_inj. by rewrite chars_app, app_nil_r. Qed.

Lemma cache_separate : separate cache_targets.
Proof.
  constructor.
  - intros t u (a & Ha & ->)%targets_known (b & Hb & ->)%targets_known E. cbn in E. apply prefix_inj in E.
    pose proof (known_pairs (fun a b => negb (tg_path a ==s tg_path b) || Bool.eqb (tg_store a) (tg_store b))
      ltac:(by vm_compute) a b Ha Hb) as Hs. cbv beta in Hs. rewrite E, String.eqb_refl in Hs. cbn in Hs.
    apply Bool.eqb_prop in Hs. unfold placed_at. by rewrite E, Hs.
  - intros t u Ht Hu. rewrite <- (str_app_nil (tg_path t)). by apply names_apart; [vm_compute|..].
  - intros t u Ht Hu. rewrite <- (str_app_nil (tg_path t)). by apply names_apart; [vm_compute|..].
  - intros t u Ht Hu. by apply names_apart; [vm_compute|..].
Qed.

Lemma cache_targets_nodup : NoDup cache_targets.
Proof.
  assert (forall l, NoDup (map tg_path l) -> NoDup (map placed_at l)) as Hpl.
  { induction l as [|k l IH]; cbn; [constructor|]. rewrite !NoDup_cons. intros [Hk Hl]. split; [|by apply IH].
    intros (k' & E & Hk')%list_elem_of_fmap. injection E as E _. apply prefix_inj in E.
    apply Hk, list_elem_of_fmap. by exists k'. }
  unfold cache_targets. rewrite others_known. apply NoDup_app. split_and!.
  - clear Hnames. unfold xml_targets. induction entries as [|e l IH]; cbn in *; [constructor|].
    apply NoDup_cons in Hdistinct as [He Hl]. apply NoDup_cons. split; [|by apply IH].
    intros (e' & E & He')%list_elem_of_fmap. rewrite !xml_known in E. injection E as E. apply prefix_inj in E.
    apply He, list_elem_of_fmap. exists e'. split; [|done]. cbn in E.
    apply (f_equal chars) in E. rewrite !chars_app in E. apply app_inv_head in E. by apply chars_inj.
  - intros t (e & -> & He)%list_elem_of_fmap (k & E & Hk)%list_elem_of_fmap. rewrite xml_known in E.
    rewrite Forall_forall in Hnames. specialize (Hnames e He). injection E as E _. apply prefix_inj in E.
    assert (forallb (fun k => forallb (fun n => negb (tg_path k ==s "trust-list/" +s+ n)) list_names) (drop 3 known) = true)
      as Hc by (by vm_compute).
    rewrite forallb_forall in Hc. specialize (Hc k (proj1 (list_elem_of_In _ _) Hk)).
    rewrite forallb_forall in Hc. specialize (Hc _ (proj1 (list_elem_of_In _ _) Hnames)).
    by rewrite <- E, String.eqb_refl in Hc.
  - apply Hpl. apply (bool_decide_unpack _). by vm_compute.
Qed.

End Layout.

(** ** The theorem *)

Section Write.
Context `{Cert : CertApi, Plat : Platform, !@MetadataApi Cert Plat}.
Context (metadata_error_text : bytes -> string) (work_dir : string).
Context (entries : list PolicyCacheEntry) (state : PolicyCacheState).
Context (Hnames : Forall (fun e => ce_filename e ∈ list_names) entries) (Hdistinct : NoDup (map ce_filename entries)).

Notation targets := (cache_targets work_dir entries).
Notation records := (BuildTrustStoreMetadataRecords metadata_error_text entries).
Notation certificates := (certificate_files work_dir entries records).
Notation temp p := (exists t, t ∈ targets /\ p = TempPathFor (tg_path t)).

Definition service_total : nat := list_sum (map (fun entry => length (tl_services (ce_parsed entry))) entries).

Definition stores : list string :=
  [TrustStoreDir work_dir; HistoricalTrustStoreDir work_dir; TsaStoreDir work_dir; HistoricalTsaStoreDir work_dir].

Lemma store_target (store : string) : store ∈ stores -> MkTarget store true ∈ targets.
Proof. unfold stores, cache_targets, others, trust_store_targets, tsa_store_targets. set_solver. Qed.

Lemma certificates_stores : Forall (fun f => f.1.1 ∈ stores) certificates.
Proof.
  apply Forall_forall. intros [[s name] data] Hin. unfold certificate_files in Hin.
  apply list_elem_of_omap in Hin as ([c r] & _ & Hp). unfold placed in Hp.
  destruct (_ || _); [done|]. destruct (store_of work_dir (tm_target r)) as [s'|] eqn:Es; [|done].
  injection Hp as <- _ _. unfold store_of in Es. unfold stores. repeat case_match; simplify_eq; set_solver.
Qed.

Lemma temps_are_temp (l : list Target) : l ⊆ targets -> Forall (fun u => temp (tg_path u)) (temps_of l).
Proof.
  intros Hl. apply Forall_forall. intros u (t & -> & Ht)%list_elem_of_fmap. exists t. split; [by apply Hl|done].
Qed.

Lemma xmls_in : xml_targets work_dir entries ⊆ targets.
Proof. unfold cache_targets. set_solver. Qed.

Lemma state_in : state_target work_dir ∈ targets /\ metadata_target work_dir ∈ targets.
Proof. unfold cache_targets, others. set_solver. Qed.

Lemma stage_within : within (fun p => temp p) (stage metadata_error_text work_dir entries state).
Proof.
  pose proof xmls_in as Hx. destruct state_in as [Hs Hm].
  assert (forall s, s ∈ stores -> temp (TempPathFor s)) as Hst
    by (intros s Hin; exists (MkTarget s true); split; [by apply store_target|done]).
  assert (within (fun p => temp p) (drop_temps (xml_targets work_dir entries) (state_target work_dir) (metadata_target work_dir)
    (trust_store_targets work_dir) (tsa_store_targets work_dir) true)) as Hdrop.
  { unfold drop_temps. apply within_remove_each. unfold temps_of. rewrite <- !map_app. apply temps_are_temp.
    unfold cache_targets, others. set_solver. }
  unfold stage. apply within_bind.
  { apply within_stage_files, Forall_forall. intros [p data] Hin. cbn.
    apply elem_of_zip_l in Hin. apply list_elem_of_fmap in Hin as (t & -> & Ht). exists t. split; [by apply Hx|done]. }
  intros [|]; cbn [negb].
  2:{ apply within_bind; [apply within_remove_each, temps_are_temp; done|]. intros _. apply within_ret. }
  apply within_bind.
  { apply within_stage_files. repeat constructor; cbn; [by exists (state_target work_dir)|by exists (metadata_target work_dir)]. }
  intros [|]; cbn [negb].
  2:{ apply within_bind; [apply within_remove_each, temps_are_temp; set_solver|]. intros _. apply within_ret. }
  apply within_bind.
  { unfold create_stores. repeat (apply within_bind; [apply within_create_directories, Hst; unfold stores; set_solver|intros _]).
    apply within_create_directories, Hst. unfold stores. set_solver. }
  intros [|]; cbn [negb]; [|by apply within_bind; [|intros _; apply within_ret]].
  apply within_bind; [|intros [|]; cbn [negb]; [apply within_ret|by apply within_bind; [|intros _; apply within_ret]]].
  apply within_stage_certificates. eapply Forall_impl; [apply certificates_stores|]. intros f Hf. by apply Hst.
Qed.

Lemma create_stores_spec (d d' : Disk) (ok : bool) :
  (forall s, s ∈ stores -> vacant d (TempPathFor s)) -> create_stores work_dir d = (ok, d') ->
  Forall (made (faults d) d') (map TempPathFor stores).
Proof.
  intros Hn. unfold create_stores, bind, stores in *.
  set (s1 := TempPathFor (TrustStoreDir work_dir)). set (s2 := TempPathFor (HistoricalTrustStoreDir work_dir)).
  set (s3 := TempPathFor (TsaStoreDir work_dir)). set (s4 := TempPathFor (HistoricalTsaStoreDir work_dir)).
  assert (NoDup [s1; s2; s3; s4]) as Hnd.
  { unfold s1, s2, s3, s4, TempPathFor, PathWithSuffix, TrustStoreDir, HistoricalTrustStoreDir, TsaStoreDir, HistoricalTsaStoreDir.
    rewrite !path_append_prefix, !str_app_assoc.
    change (NoDup (map (fun s => prefix_of work_dir +s+ s) ["trust-store.tmp"; "historical-trust-store.tmp"; "tsa-store.tmp"; "historical-tsa-store.tmp"])).
    apply NoDup_fmap_2_strong; [intros x y _ _; apply prefix_inj|]. apply (bool_decide_unpack _). by vm_compute. }
  assert (Forall (vacant d) [s1; s2; s3; s4]) as H0
    by (rewrite !Forall_cons; split_and!; [apply Hn; set_solver..|constructor]).
  destruct (create_step (faults d) d s1 [] [s2; s3; s4]) as (o1 & d1 & -> & F1 & D1 & T1); [done|done|constructor|done|].
  destruct (create_step (faults d) d1 s2 [s1] [s3; s4]) as (o2 & d2 & -> & F2 & D2 & T2); [done| |done|done|].
  { eapply NoDup_Permutation_proper; [|exact Hnd]. solve_Permutation. }
  destruct (create_step (faults d) d2 s3 [s2; s1] [s4]) as (o3 & d3 & -> & F3 & D3 & T3); [done| |done|done|].
  { eapply NoDup_Permutation_proper; [|exact Hnd]. solve_Permutation. }
  destruct (create_step (faults d) d3 s4 [s3; s2; s1] []) as (o4 & d4 & -> & F4 & D4 & _); [done| |done|done|].
  { eapply NoDup_Permutation_proper; [|exact Hnd]. solve_Permutation. }
  intros [= _ <-]. rewrite !Forall_cons in *. naive_solver.
Qed.

(** What is staged. *)
Definition staged_in (d : Disk) (n0 : nat) : Prop :=
  (forall e, e ∈ entries -> dk_nodes d !! TempPathFor (TrustListPath work_dir (ce_filename e)) = Some (File (ce_xml e))) /\
  dk_nodes d !! TempPathFor (StatePath work_dir) = Some (File (BuildStateJson state)) /\
  dk_nodes d !! TempPathFor (TrustStoreMetadataPath work_dir)
    = Some (File (BuildTrustStoreMetadataJson state service_total records)) /\
  (forall s, s ∈ stores -> dk_nodes d !! TempPathFor s = Some (Dir (files_in s certificates ∅)) \/
     (dk_nodes d !! TempPathFor s = None /\ (S (faults d) <= n0)%nat)).

Lemma temp_other (t u : Target) : t ∈ targets -> u ∈ targets -> tg_path t <> tg_path u -> TempPathFor (tg_path t) <> TempPathFor (tg_path u).
Proof. intros _ _ Hne E. by apply append_inj_l in E. Qed.

(** A stage that writes other targets keeps what is staged. *)
Lemma within_keeps {A} (m : Os A) (others : list string) (d d' : Disk) (x : A) (p : string) :
  within (fun q => q ∈ map TempPathFor others) m -> m d = (x, d') -> p ∉ others ->
  dk_nodes d' !! TempPathFor p = dk_nodes d !! TempPathFor p.
Proof.
  intros Hw E Hp. destruct (Hw d) as [_ Hn]. rewrite E in Hn. apply Hn.
  intros (q & Eq & Hq)%list_elem_of_fmap. apply append_inj_l in Eq. by subst.
Qed.

Lemma path_facts :
  NoDup (map (fun e => TrustListPath work_dir (ce_filename e)) entries) /\
  (forall e, e ∈ entries -> TrustListPath work_dir (ce_filename e) ∉ [StatePath work_dir; TrustStoreMetadataPath work_dir]
     /\ TrustListPath work_dir (ce_filename e) ∉ stores) /\
  NoDup [StatePath work_dir; TrustStoreMetadataPath work_dir] /\
  (forall p, p ∈ [StatePath work_dir; TrustStoreMetadataPath work_dir] -> p ∉ stores).
Proof.
  pose proof (cache_separate work_dir entries Hnames) as Hsep.
  pose proof (cache_targets_nodup work_dir entries Hnames Hdistinct) as Hnd.
  assert (NoDup (map tg_path targets)) as Hp.
  { apply NoDup_fmap_2_strong; [|done]. intros t u Ht Hu E. by apply (sep_inj _ Hsep). }
  unfold cache_targets in Hp. rewrite map_app in Hp. unfold xml_targets in Hp. rewrite map_map in Hp. cbn [tg_path] in Hp.
  apply NoDup_app in Hp as (H1 & H2 & H3). unfold others, trust_store_targets, tsa_store_targets in H2, H3.
  change (NoDup ([StatePath work_dir; TrustStoreMetadataPath work_dir] ++ stores)) in H3.
  apply NoDup_app in H3 as (H3 & H4 & _). split_and!; [done| |done|done].
  intros e He. assert (TrustListPath work_dir (ce_filename e) ∈ map (fun e => TrustListPath work_dir (ce_filename e)) entries) as Hin
    by (apply list_elem_of_fmap; by exists e).
  specialize (H2 _ Hin). change (TrustListPath work_dir (ce_filename e) ∉ [StatePath work_dir; TrustStoreMetadataPath work_dir] ++ stores) in H2.
  by rewrite not_elem_of_app in H2.
Qed.

Lemma stage_spec (d d' : Disk) :
  (forall t, t ∈ targets -> cleared t (dk_nodes d !! TempPathFor (tg_path t))) ->
  stage metadata_error_text work_dir entries state d = (true, d') -> staged_in d' (faults d).
Proof.
  intros Hnone. destruct path_facts as (Hndx & Hxs & Hnds & Hss).
  unfold stage, bind. set (files := zip (paths_of (xml_targets work_dir entries)) (map ce_xml entries)).
  assert (map fst files = map (fun e => TrustListPath work_dir (ce_filename e)) entries) as Efst.
  { unfold files, paths_of, xml_targets. rewrite map_map. cbn. clear. induction entries as [|e l IH]; [done|]. cbn. by f_equal. }
  assert (forall e, e ∈ entries -> (TrustListPath work_dir (ce_filename e), ce_xml e) ∈ files) as Hfiles.
  { unfold files, paths_of, xml_targets. rewrite map_map. cbn. clear. induction entries as [|e l IH]; intros e' He'; [set_solver|].
    cbn. apply elem_of_cons in He' as [->|He']; [by left|right; by apply IH]. }
  assert (within (fun q => q ∈ map TempPathFor (map fst files)) (stage_files files)) as W1.
  { apply within_stage_files, Forall_forall. intros f Hf. apply list_elem_of_fmap. exists f.1. split; [done|]. apply list_elem_of_fmap. by exists f. }
  destruct (stage_files files d) as [[|] d1] eqn:E1; cbn [negb]; [|destruct (remove_each _ _); done].
  set (texts := [(StatePath work_dir, BuildStateJson state);
    (TrustStoreMetadataPath work_dir, BuildTrustStoreMetadataJson state service_total records)]).
  change (list_sum (map (fun entry => length (tl_services (ce_parsed entry))) entries)) with service_total. fold texts.
  assert (within (fun q => q ∈ map TempPathFor [StatePath work_dir; TrustStoreMetadataPath work_dir]) (stage_files texts)) as W2.
  { apply within_stage_files. unfold texts. repeat constructor; cbn; set_solver. }
  destruct (stage_files texts d1) as [[|] d2] eqn:E2; cbn [negb]; [|destruct (remove_each _ _); done].
  assert (within (fun q => q ∈ map TempPathFor stores) (create_stores work_dir)) as W3.
  { unfold create_stores, stores.
    repeat (apply within_bind; [apply within_create_directories; set_solver|intros _]). apply within_create_directories. set_solver. }
  destruct (create_stores work_dir d2) as [[|] d3] eqn:E3; cbn [negb]; [|destruct (drop_temps _ _ _ _ _ _ _); done].
  assert (within (fun q => q ∈ map TempPathFor stores) (stage_certificates certificates)) as W4.
  { apply within_stage_certificates. eapply Forall_impl; [apply certificates_stores|].
    intros f Hf. apply list_elem_of_fmap. by exists f.1.1. }
  destruct (stage_certificates certificates d3) as [[|] d4] eqn:E4; cbn [negb]; [|destruct (drop_temps _ _ _ _ _ _ _); done].
  intros [= <-].
  pose proof (W1 d) as [[F1 _ _] _]. rewrite E1 in F1. pose proof (W2 d1) as [[F2 _ _] _]. rewrite E2 in F2.
  pose proof (W4 d3) as [[F4 _ _] _]. rewrite E4 in F4. cbn [snd] in F1, F2, F4.
  assert (forall p, p ∉ stores -> dk_nodes d4 !! TempPathFor p = dk_nodes d2 !! TempPathFor p) as Hlate.
  { intros p Hp. rewrite (within_keeps _ stores _ _ _ p W4 E4 Hp). by apply (within_keeps _ stores _ _ _ p W3 E3). }
  split_and!.
  - intros e He. destruct (Hxs e He) as [Hn1 Hn2]. rewrite Hlate by done.
    rewrite (within_keeps _ _ _ _ _ _ W2 E2 Hn1). eapply stage_files_spec; [|exact E1|by apply Hfiles]. by rewrite Efst.
  - rewrite Hlate by (apply Hss; set_solver). eapply stage_files_spec; [|exact E2|set_solver]. done.
  - rewrite Hlate by (apply Hss; set_solver). eapply stage_files_spec; [|exact E2|set_solver]. done.
  - assert (Forall (made (faults d2) d3) (map TempPathFor stores)) as Hmade.
    { eapply create_stores_spec; [|exact E3]. intros s Hs. unfold vacant.
      rewrite (within_keeps _ _ _ _ _ _ W2 E2) by (intros Hin; by apply (Hss s)).
      rewrite (within_keeps _ _ _ _ _ _ W1 E1).
      - specialize (Hnone (MkTarget s true) (store_target s Hs)). cbn [tg_path] in Hnone.
        destruct (dk_nodes d !! TempPathFor s) as [[c|found]|]; cbn in Hnone; [done| |by left]. right. by destruct Hnone as [_ ->].
      - rewrite Efst. intros (e & -> & He)%list_elem_of_fmap. by apply (Hxs e He). }
    intros s Hs. rewrite Forall_forall in Hmade.
    destruct (Hmade (TempPathFor s)) as [Hm|[Hm Hf]]; [apply list_elem_of_fmap; by exists s| |].
    + left. rewrite (stage_certificates_spec s _ _ _ E4), Hm. done.
    + right. rewrite (stage_certificates_spec s _ _ _ E4), Hm. split; [done|lia].
Qed.

(** *** The directories made first *)

Lemma after_slash_app (l r : list ascii) : "/"%char ∉ l -> after_slash (l ++ "/"%char :: r) = Some r.
Proof.
  induction l as [|c l IH]; intros Hl; [done|]. apply not_elem_of_cons in Hl as [Hc Hl]. cbn [app after_slash].
  rewrite (proj2 (Ascii.eqb_neq c "/"%char)) by done. by apply IH.
Qed.

Lemma parent_path_nested (dir name : string) (c : ascii) :
  last (chars dir) = Some c -> c <> "/"%char -> "/"%char ∉ rev (chars name) ->
  parent_path (dir +s+ "/" +s+ name) = dir.
Proof.
  intros Hl Hc Hn. unfold parent_path. rewrite !chars_app, !rev_app_distr, <- app_assoc. cbn [rev chars app].
  rewrite after_slash_app by done. apply last_Some in Hl as [l Hl]. rewrite Hl, rev_app_distr. cbn [rev app strip_slashes].
  rewrite (proj2 (Ascii.eqb_neq c "/"%char)) by done. cbn [rev]. rewrite rev_involutive, <- Hl. apply of_chars_chars.
Qed.

Lemma trust_list_parent : parent_path (TrustListPath work_dir "TL-UA-EC.xml") = prefix_of work_dir +s+ "trust-list".
Proof.
  unfold TrustListPath. rewrite (path_append_nested _ "trust-list" _ "t"%char), <- str_app_assoc by done.
  apply (parent_path_nested _ _ "t"%char); [by rewrite chars_app, last_app|done|].
  apply (bool_decide_unpack _). by vm_compute.
Qed.

Lemma layout_dirs :
  [parent_path (TrustListPath work_dir "TL-UA-EC.xml"); TrustStoreDir work_dir; HistoricalTrustStoreDir work_dir;
   IntermediateStoreDir work_dir; CrlStoreDir work_dir; PolicyDir work_dir]
  = map (fun s => prefix_of work_dir +s+ s) ["trust-list"; "trust-store"; "historical-trust-store"; "intermediate-store"; "crl-store"; "policy"].
Proof.
  rewrite trust_list_parent. unfold TrustStoreDir, HistoricalTrustStoreDir, IntermediateStoreDir, CrlStoreDir, PolicyDir.
  by rewrite !path_append_prefix.
Qed.

(** Making a directory keeps what is there. *)
Lemma create_each_grows (dirs : list string) (d : Disk) (p : string) :
  dk_nodes (create_each dirs d).2 !! p = dk_nodes d !! p \/
  (dk_nodes d !! p = None /\ dk_nodes (create_each dirs d).2 !! p = Some (Dir ∅)).
Proof.
  revert d. induction dirs as [|q dirs IH]; intros d; cbn [create_each]; [by left|].
  unfold bind. destruct (create_directories q d) as [ok d1] eqn:E.
  assert (dk_nodes d1 !! p = dk_nodes d !! p \/ (dk_nodes d !! p = None /\ dk_nodes d1 !! p = Some (Dir ∅))) as H1.
  { unfold create_directories, bind, get_node in E. destruct (answer_spec d) as (a & d2 & Ea & Hn & _). rewrite Ea in E.
    destruct (dk_nodes d !! q) as [[|files]|] eqn:Eq; [injection E as _ <-; left; by rewrite Hn..|].
    destruct a; injection E as _ <-; [|left; by rewrite Hn]. cbn. destruct (decide (p = q)) as [->|Hne].
    - right. by rewrite lookup_insert_eq.
    - left. by rewrite lookup_insert_ne, Hn by done. }
  destruct ok; [|done]. destruct (IH d1) as [H2|[H2 H3]].
  - rewrite H2. done.
  - destruct H1 as [H1|[_ H1]]; rewrite H1 in H2; [right|done]. by split.
Qed.

(** What a target is after a call that failed. *)
Definition kept (before after : option node) : Prop :=
  undone before after \/ (before = None /\ after = Some (Dir ∅)).

Definition layout_names : list string :=
  ["trust-list"; "trust-store"; "historical-trust-store"; "intermediate-store"; "crl-store"; "policy"].

(** Temporaries and backups are no directories of the layout. *)
Lemma aside_not_dir (t : Target) (s suffix : string) :
  t ∈ targets -> suffix ∈ [".tmp"; ".bak"] -> s ∈ layout_names -> tg_path t +s+ suffix <> prefix_of work_dir +s+ s.
Proof.
  intros (k & Hk & ->)%(targets_known work_dir entries Hnames) Hx Hs E. cbn in E. rewrite str_app_assoc in E. apply prefix_inj in E.
  assert (forallb (fun k => forallb (fun s => forallb (fun x => negb (tg_path k +s+ x ==s s)) [".tmp"; ".bak"]) layout_names) known = true)
    as Hc by (by vm_compute).
  rewrite forallb_forall in Hc. specialize (Hc k (proj1 (list_elem_of_In _ _) Hk)).
  rewrite forallb_forall in Hc. specialize (Hc s (proj1 (list_elem_of_In _ _) Hs)).
  rewrite forallb_forall in Hc. specialize (Hc suffix (proj1 (list_elem_of_In _ _) Hx)). by rewrite E, String.eqb_refl in Hc.
Qed.

Lemma file_not_dir (t : Target) (s : string) :
  t ∈ targets -> tg_store t = false -> s ∈ layout_names -> tg_path t <> prefix_of work_dir +s+ s.
Proof.
  intros (k & Hk & ->)%(targets_known work_dir entries Hnames) Hf Hs E. apply prefix_inj in E. cbn in Hf.
  assert (forallb (fun k => tg_store k || forallb (fun s => negb (tg_path k ==s s))
    layout_names) known = true) as Hc by (by vm_compute).
  rewrite forallb_forall in Hc. specialize (Hc k (proj1 (list_elem_of_In _ _) Hk)). rewrite Hf in Hc. cbn [orb] in Hc.
  rewrite forallb_forall in Hc. specialize (Hc s (proj1 (list_elem_of_In _ _) Hs)). by rewrite E, String.eqb_refl in Hc.
Qed.

Lemma EnsureLayout_spec (d d1 : Disk) (ok : bool) :
  EnsureLayout work_dir d = (ok, d1) ->
  later d d1 /\
  (forall t, t ∈ targets -> dk_nodes d1 !! TempPathFor (tg_path t) = dk_nodes d !! TempPathFor (tg_path t) /\
     dk_nodes d1 !! BackupPathFor (tg_path t) = dk_nodes d !! BackupPathFor (tg_path t)) /\
  (forall t, t ∈ targets -> kept (dk_nodes d !! tg_path t) (dk_nodes d1 !! tg_path t)) /\
  ((forall t n, t ∈ targets -> dk_nodes d !! tg_path t = Some n -> fitting t n) ->
   (forall t n, t ∈ targets -> dk_nodes d1 !! tg_path t = Some n -> fitting t n)).
Proof.
  unfold EnsureLayout. rewrite layout_dirs. set (dirs := map _ _). intros E.
  destruct (within_create_each (fun p => p ∈ dirs) dirs) with (d := d) as [Hf Hw]; [by apply Forall_forall|].
  rewrite E in Hf, Hw. cbn [snd] in Hf, Hw. split; [done|]. split.
  { intros t Ht. split; apply Hw; unfold dirs, TempPathFor, BackupPathFor, PathWithSuffix; intros (s & Es & Hs)%list_elem_of_fmap;
      (apply (aside_not_dir t s) in Es; [done|done|set_solver|done]). }
  assert (forall p, dk_nodes d1 !! p = dk_nodes d !! p \/ (dk_nodes d !! p = None /\ dk_nodes d1 !! p = Some (Dir ∅))) as Hg.
  { intros p. pose proof (create_each_grows dirs d p) as Hg. by rewrite E in Hg. }
  split.
  - intros t Ht. destruct (Hg (tg_path t)) as [->|[H1 H2]]; [by left; left|by right].
  - intros Hfit t n Ht Hn. destruct (tg_store t) eqn:Hs.
    + destruct (Hg (tg_path t)) as [Eq|[_ Eq]]; rewrite Eq in Hn; [by apply Hfit|]. injection Hn as <-. done.
    + rewrite Hw in Hn; [by apply Hfit|]. unfold dirs. intros (s & Es & Hin)%list_elem_of_fmap. by apply (file_not_dir t s) in Es.
Qed.

Lemma kept_trans (a b c : option node) : kept a b -> undone b c -> kept a c.
Proof.
  unfold kept, undone. intros [[->|[-> ->]]|[-> ->]] [->|[Hb ->]]; try discriminate; auto.
Qed.

(** *** The stages put together *)

Lemma target_cases (t : Target) :
  t ∈ targets -> (exists e, e ∈ entries /\ t = MkTarget (TrustListPath work_dir (ce_filename e)) false) \/
    t = state_target work_dir \/ t = metadata_target work_dir \/ exists s, s ∈ stores /\ t = MkTarget s true.
Proof.
  unfold cache_targets. intros [(e & -> & He)%list_elem_of_fmap|Ht]%elem_of_app; [left; by exists e|right].
  change (t ∈ [state_target work_dir; metadata_target work_dir] ++ map (fun s => MkTarget s true) stores) in Ht.
  apply elem_of_app in Ht as [Ht|(s & -> & Hs)%list_elem_of_fmap]; [|right; right; by exists s].
  rewrite !elem_of_cons, elem_of_nil in Ht. naive_solver.
Qed.

Lemma staged_fitting (d : Disk) (n0 : nat) (t : Target) (n : node) :
  staged_in d n0 -> t ∈ targets -> dk_nodes d !! TempPathFor (tg_path t) = Some n -> fitting t n.
Proof.
  intros (S1 & S2 & S3 & S4) [(e & He & ->)|[->|[->|(s & Hs & ->)]]]%target_cases Hn; cbn in Hn.
  - rewrite S1 in Hn by done. by injection Hn as <-.
  - rewrite S2 in Hn. by injection Hn as <-.
  - rewrite S3 in Hn. by injection Hn as <-.
  - destruct (S4 s Hs) as [E|[E _]]; rewrite E in Hn; [by injection Hn as <-|done].
Qed.

Lemma staged_complete (d : Disk) (n0 : nat) :
  staged_in d n0 -> (n0 <= 1)%nat ->
  faults d = 0%nat \/ forall t, t ∈ targets -> is_Some (dk_nodes d !! TempPathFor (tg_path t)).
Proof.
  intros (S1 & S2 & S3 & S4) Hn0.
  destruct (decide (Forall (fun s => is_Some (dk_nodes d !! TempPathFor s)) stores)) as [Hall|Hnot].
  - right. rewrite Forall_forall in Hall. intros t [(e & He & ->)|[->|[->|(s & Hs & ->)]]]%target_cases; cbn;
      [rewrite S1 by done|rewrite S2|rewrite S3|by apply Hall]; by eexists.
  - left. apply not_Forall_Exists in Hnot; [|intros s; apply _]. apply Exists_exists in Hnot as (s & Hs & Hn).
    destruct (S4 s Hs) as [E|[_ ?]]; [|lia]. exfalso. apply Hn. rewrite E. by eexists.
Qed.

(** What an earlier transaction left behind: temporaries and backups of the right kind, out of the way, or not hard to remove. *)
Definition removable (d : Disk) : Prop :=
  forall t p n, t ∈ targets -> p = TempPathFor (tg_path t) \/ p = BackupPathFor (tg_path t) -> dk_nodes d !! p = Some n ->
    fitting t n /\ (stuck d = 0%nat \/ cleared t (Some n)).

(** The old temporary and backup files are removed, the targets stay. *)
Lemma clean_spec (d : Disk) :
  removable d ->
  exists d', clean (xml_targets work_dir entries) (state_target work_dir) (metadata_target work_dir)
      (trust_store_targets work_dir) (tsa_store_targets work_dir) d = (tt, d') /\ later d d' /\
    forall t, t ∈ targets -> cleared t (dk_nodes d' !! TempPathFor (tg_path t)) /\ cleared t (dk_nodes d' !! BackupPathFor (tg_path t)) /\
      dk_nodes d' !! tg_path t = dk_nodes d !! tg_path t.
Proof.
  intros Hrm. pose proof (cache_separate work_dir entries Hnames) as Hsep.
  unfold clean. set (gone := backups_of _ ++ _).
  set (xmls := xml_targets work_dir entries) in *. set (rest := others _ _ _ _) in *.
  assert (xmls ⊆ targets /\ rest ⊆ targets) as [Hx Hr] by (unfold cache_targets; fold xmls rest; set_solver).
  destruct (removes_aside targets Hsep gone d) as (d' & -> & L & Hs & Hg & Hp).
  { intros u Hu. unfold gone in Hu. rewrite !elem_of_app in Hu. destruct Hu as [Hu|[Hu|Hu]];
      [by apply (backups_aside targets rest)|by apply (temps_aside targets rest)|by apply (pairs_aside targets xmls)]. }
  exists d'. split; [done|]. split; [done|].
  assert (forall t, t ∈ targets -> temp_of t ∈ gone /\ backup_of t ∈ gone) as Hin.
  { intros t Ht. unfold gone. rewrite !elem_of_app. apply elem_of_app in Ht as [Ht|Ht]; fold xmls rest in Ht.
    - split; right; right; apply list_elem_of_In, in_concat; eexists; (split; [apply in_map_iff; exists t; by rewrite <- list_elem_of_In|]);
        apply list_elem_of_In; set_solver.
    - split; [right; left|left]; apply list_elem_of_fmap; by exists t. }
  assert (forall t u, t ∈ targets -> u ∈ gone -> tg_store u = tg_store t ->
    tg_path u = TempPathFor (tg_path t) \/ tg_path u = BackupPathFor (tg_path t) -> cleared t (dk_nodes d' !! tg_path u)) as Hc.
  { intros t u Ht Hu Es Eu. assert (forall n, fitting u n <-> fitting t n) as Hfe by (intros [|]; cbn; by rewrite Es).
    destruct (decide (stuck d = 0%nat)) as [Hz|Hz].
    { rewrite Hg; [done|done|done|]. intros n Hn. apply Hfe. by apply (Hrm t (tg_path u) n Ht Eu). }
    apply (cleared_shrunk t _ _ (Hs (tg_path u))). destruct (dk_nodes d !! tg_path u) as [n|] eqn:En; [|done].
    by destruct (Hrm t (tg_path u) n Ht Eu En) as [_ [?|?]]. }
  intros t Ht. destruct (Hin t Ht) as [H1 H2]. split; [|split; [|by apply Hp]].
  - apply (Hc t (temp_of t)); [done|done|done|by left].
  - apply (Hc t (backup_of t)); [done|done|done|by right].
Qed.

(** Replacing the cache is atomic.  Whatever the disk holds (as long as the names of the cache are files
    and directories as they should be, and so are their temporaries and backups), and whichever single
    call of the operating system that changes the disk fails - one that makes a directory, opens, writes
    or renames, or a removal, whose failure goes unnoticed - after [WriteTrustListsMaterialized] every
    file of the cache is the new one when it returns true - the lists, the state, the description and
    exactly the certificates of the granted services in the four stores - and when it returns false every
    file of the cache is the one it was before, except that an empty file may be gone and a missing store
    may have become an empty directory.  Two things are asked for: the questions whether an old file or
    store is there are answered, and a removal fails only where no filled store was left behind under a
    temporary or a backup name.  The examples below show that neither can be left out. *)
Theorem WriteTrustListsMaterialized_atomic (d : Disk) :
  (faults d <= 1)%nat -> answered d -> removable d ->
  (forall t n, t ∈ targets -> dk_nodes d !! tg_path t = Some n -> fitting t n) ->
  exists ok d', WriteTrustListsMaterialized metadata_error_text work_dir entries state d = (ok, d') /\
    if ok then
      (forall e, e ∈ entries -> dk_nodes d' !! TrustListPath work_dir (ce_filename e) = Some (File (ce_xml e))) /\
      dk_nodes d' !! StatePath work_dir = Some (File (BuildStateJson state)) /\
      dk_nodes d' !! TrustStoreMetadataPath work_dir = Some (File (BuildTrustStoreMetadataJson state service_total records)) /\
      (forall s, s ∈ stores -> dk_nodes d' !! s = Some (Dir (files_in s certificates ∅)))
    else forall t, t ∈ targets -> kept (dk_nodes d !! tg_path t) (dk_nodes d' !! tg_path t).
Proof.
  intros Hf Hq Hrm Hfit. unfold WriteTrustListsMaterialized, bind.
  destruct (EnsureLayout work_dir d) as [ok d1] eqn:E1. destruct (EnsureLayout_spec _ _ _ E1) as (L1 & Ha1 & Hk1 & Hfit1).
  specialize (Hfit1 Hfit). destruct ok; cbn [negb]; [|by exists false, d1].
  assert (removable d1) as Hrm1.
  { intros t p n Ht Hp Hn. destruct (Ha1 t Ht) as [A1 A2].
    destruct (Hrm t p n Ht Hp) as [Hr Hc]; [by destruct Hp as [-> | ->]; congruence|].
    split; [done|]. destruct Hc as [?|?]; [left; pose proof (later_stuck _ _ L1); lia|by right]. }
  pose proof (cache_separate work_dir entries Hnames) as Hsep.
  pose proof (cache_targets_nodup work_dir entries Hnames Hdistinct) as Hnd.
  destruct (clean_spec d1 Hrm1) as (d2 & -> & L2 & Hc).
  destruct (stage metadata_error_text work_dir entries state d2) as [ok d3] eqn:E3.
  destruct (stage_within d2) as [L3 Hw3]. rewrite E3 in L3, Hw3. cbn [snd] in L3, Hw3.
  assert (later d d3) as L by (repeat (etransitivity; [eassumption|]); done).
  assert (forall t, t ∈ targets -> dk_nodes d3 !! tg_path t = dk_nodes d1 !! tg_path t) as Hp3.
  { intros t Ht. rewrite Hw3; [by apply Hc|]. intros (u & Hu & E). by apply (sep_pt _ Hsep) in E. }
  destruct ok; cbn [negb].
  2:{ exists false, d3. split; [done|]. intros t Ht. rewrite Hp3 by done. by apply Hk1. }
  assert (staged_in d3 (faults d2)) as Hst by (apply stage_spec; [intros t Ht; by apply Hc|done]).
  pose proof (later_faults _ _ L1) as Hf1. pose proof (later_faults _ _ L2) as Hf2. pose proof (later_faults _ _ L3) as Hf3.
  destruct (commit_spec targets Hsep (xml_targets work_dir entries) (state_target work_dir) (metadata_target work_dir)
    (trust_store_targets work_dir) (tsa_store_targets work_dir) eq_refl Hnd d3) as (ok & d4 & -> & Hres).
  - lia.
  - by apply (later_answered _ _ L).
  - intros t Ht. rewrite Hw3; [by apply Hc|]. intros (u & Hu & E). symmetry in E. by apply (sep_tb _ Hsep) in E.
  - intros t n Ht. rewrite Hp3 by done. by apply Hfit1.
  - intros t n Ht. by eapply staged_fitting.
  - eapply staged_complete; [done|lia].
  - exists ok, d4. split; [done|]. destruct ok.
    + destruct Hst as (S1 & S2 & S3 & S4). split_and!.
      * intros e He. rewrite <- (S1 e He). apply (Hres (MkTarget (TrustListPath work_dir (ce_filename e)) false)).
        apply xmls_in, list_elem_of_fmap. by exists e.
      * rewrite <- S2. apply (Hres (state_target work_dir)), state_in.
      * rewrite <- S3. apply (Hres (metadata_target work_dir)), state_in.
      * intros s Hs. destruct (Hres (MkTarget s true) (store_target s Hs)) as [[n Hn] Hp]. cbn in Hn, Hp.
        rewrite Hp. destruct (S4 s Hs) as [E|[E _]]; [done|by rewrite E in Hn].
    + intros t Ht. specialize (Hres t Ht). rewrite Hp3 in Hres by done. by eapply kept_trans; [apply Hk1|].
Qed.

End Write.

(** ** A cache that is replaced while a call fails *)

Module SampleCache.

#[local] Existing Instance lp64.
#[local] Existing Instance toy_cert_api.
#[local] Existing Instance toy_metadata_api.

Definition new_list : PolicyCacheEntry := MkPolicyCacheEntry "TL-UA-EC.xml" (chars "<new/>") TrustListParseResult_default false.
Definition old_files : gmap string node :=
  {["w/trust-list/TL-UA-EC.xml" := File (chars "<old/>"); "w/trust-store" := Dir {["a.cer" := chars "a"]}]}.
Definition old_disk (answers : list bool) : Disk := MkDisk old_files answers [] [].

(** The twentieth call fails: it is one of those that move the new files in. *)
Definition one_fault : list bool := replicate 19 true ++ [false].

Lemma WriteTrustListsMaterialized_atomic_witness :
  exists d', WriteTrustListsMaterialized (fun _ => "") "w" [new_list] PolicyCacheState_default (old_disk one_fault) = (false, d') /\
    forall t, t ∈ cache_targets "w" [new_list] -> kept (dk_nodes (old_disk one_fault) !! tg_path t) (dk_nodes d' !! tg_path t).
Proof.
  destruct (WriteTrustListsMaterialized_atomic (fun _ => "") "w" [new_list] PolicyCacheState_default) with (d := old_disk one_fault)
    as (ok & d' & E & Hres).
  - repeat constructor.
  - apply (bool_decide_unpack _). by vm_compute.
  - vm_compute. lia.
  - constructor.
  - assert (forall t p, t ∈ cache_targets "w" [new_list] -> p = TempPathFor (tg_path t) \/ p = BackupPathFor (tg_path t) ->
      old_files !! p = None) as Hnone.
    { assert (forallb (fun t => bool_decide (old_files !! TempPathFor (tg_path t) = None) &&
        bool_decide (old_files !! BackupPathFor (tg_path t) = None)) (cache_targets "w" [new_list]) = true) as Hall by (by vm_compute).
      rewrite forallb_forall in Hall. intros u q Hu Hq. specialize (Hall u (proj1 (list_elem_of_In _ _) Hu)).
      apply andb_true_iff in Hall as [H1 H2]. apply bool_decide_eq_true in H1, H2. by destruct Hq as [-> | ->]. }
    intros t p n Ht Hp Hn. cbn in Hn. by rewrite (Hnone t p Ht Hp) in Hn.
  - intros t n Ht. assert (Forall (fun t => match dk_nodes (old_disk one_fault) !! tg_path t with Some n => fitting t n | None => True end)
      (cache_targets "w" [new_list])) as HF by (repeat constructor).
    rewrite Forall_forall in HF. specialize (HF t Ht). intros Hn. by rewrite Hn in HF.
  - assert (fst (WriteTrustListsMaterialized (fun _ => "") "w" [new_list] PolicyCacheState_default (old_disk one_fault)) = false) as Ef
      by (by vm_compute).
    rewrite E in Ef. cbn in Ef. subst ok. exists d'. by split.
Defined.

(** The state of the answer and of one store afterwards. *)
Definition store_after (store : string) (d : Disk) : bool * option node :=
  let '(ok, d') := WriteTrustListsMaterialized (fun _ => "") "w" [new_list] PolicyCacheState_default d in
  (ok, dk_nodes d' !! store).

(** A staging directory left behind with a certificate in it, and the one call that fails is the removal of that file: nobody
    notices, and the old certificate is installed with the new ones. *)
Example unremoved_leftover_is_installed :
  store_after "w/trust-store"
    (MkDisk (<["w/trust-store.tmp" := Dir {["stale.cer" := chars "s"]}]> old_files) [] [] (replicate 8 true ++ [false]))
  = (true, Some (Dir {["stale.cer" := chars "s"]})).
Proof. vm_compute. reflexivity. Qed.

(** The one call that fails is the question whether there is an old store: it is not backed up, the new one cannot be moved
    over it, and undoing that removes it. *)
Example unseen_store_is_lost :
  store_after "w/trust-store" (MkDisk old_files [] (replicate 4 true ++ [false]) []) = (false, None).
Proof. vm_compute. reflexivity. Qed.

End SampleCache.
