(* ===== verification/TrustSync.v ===== *)
(** * TrustSync: fetching the trusted lists

    [core/policy/TrustListSync.cpp] with [core/policy/TlXmlSigCheck.cpp] and
    [core/policy/TrustListSettings.h].  A synchronisation downloads every list
    with its published digest, checks the digest and the signature, parses the
    list and replaces the cache ([PolicyCache]).  The answers of the network are
    the function [http_get] of the class [SyncWorld]. *)

From stdpp Require Import gmap.
From S2P Require Import Prelude CxxString Types Time Der Codec Utf Json FileSystem Paths Sha256 Sha1 Jks Pem.
From S2P Require Import Cryptonite Fixture X509Name TrustList Evidence Report Projection ReportJson.
From S2P Require Import PolicyCache PolicyAtomic Imprint AsicUri XmlDsig.

Local Open Scope Z_scope.
Local Open Scope tamga_scope.

(** ** The time of the synchronisation *)

Section Now.
Context `{Clock}.

Definition UtcNowIsoString : string := iso_text std_time.

End Now.

(** ** Settings and results *)

Inductive XmlSignaturePolicy := PolicyDisabled | PolicyPreferAvailable | PolicyRequire.

#[export] Instance XmlSignaturePolicy_eq_dec : EqDecision XmlSignaturePolicy.
Proof. solve_decision. Defined.

Record TrustListSettings := MkTrustListSettings {
  ts_url : string;
  ts_timeout_ms : Z;
  ts_cache_ttl_hours : Z;
  ts_allow_https_bootstrap : bool;
  ts_fail_if_cache_stale : bool;
  ts_xml_signature_policy : XmlSignaturePolicy;
  ts_xml_signer_cert_der : bytes
}.

#[export] Instance eta_TrustListSettings : Eta TrustListSettings := fun r =>
  MkTrustListSettings (ts_url r) (ts_timeout_ms r) (ts_cache_ttl_hours r)
  (ts_allow_https_bootstrap r) (ts_fail_if_cache_stale r) (ts_xml_signature_policy r)
  (ts_xml_signer_cert_der r).

Definition TrustListSettings_default : TrustListSettings :=
  MkTrustListSettings "https://czo.gov.ua/download/tl/TL-UA-EC.xml" 30000 24 true false
  PolicyPreferAvailable [].

Record TlXmlSigCheckResult := MkTlXmlSigCheckResult {
  tc_succeeded : bool;
  tc_not_supported : bool;
  tc_error : string
}.

#[export] Instance eta_TlXmlSigCheckResult : Eta TlXmlSigCheckResult := fun r =>
  MkTlXmlSigCheckResult (tc_succeeded r) (tc_not_supported r) (tc_error r).

Definition TlXmlSigCheckResult_default : TlXmlSigCheckResult :=
  MkTlXmlSigCheckResult false false "".

Record TrustListSyncResult := MkTrustListSyncResult {
  sr_succeeded : bool;
  sr_used_cache : bool;
  sr_source_url : string;
  sr_cache_status : string;
  sr_last_sync : string;
  sr_message : string;
  sr_xml_signature_status : string;
  sr_parsed : TrustListParseResult
}.

#[export] Instance eta_TrustListSyncResult : Eta TrustListSyncResult := fun r =>
  MkTrustListSyncResult (sr_succeeded r) (sr_used_cache r) (sr_source_url r) (sr_cache_status r)
  (sr_last_sync r) (sr_message r) (sr_xml_signature_status r) (sr_parsed r).

Definition TrustListSyncResult_default : TrustListSyncResult :=
  MkTrustListSyncResult false false "" "not-checked" "" "" "not-checked"
  TrustListParseResult_default.

Record HttpGetResult := MkHttpGetResult {
  hg_succeeded : bool;
  hg_status_code : Z;
  hg_message : string;
  hg_response_headers : string;
  hg_body : bytes
}.

Class SyncWorld := {
  http_get : string -> string -> Z -> HttpGetResult;  (** URL, Accept, timeout *)
  xml_signatures_enabled : bool  (** built with [TAMGA_XML_SIGNATURES_ENABLED] *)
}.

Definition IsHttpSuccess (response : HttpGetResult) : bool :=
  hg_succeeded response && (200 <=? hg_status_code response) && (hg_status_code response <? 300).

(** ** Reading headers, digests and dates *)

Definition lower_text (s : string) : string := of_chars (map tolower (chars s)).

Fixpoint skip_blanks (l : list ascii) : list ascii :=
  match l with
  | c :: l' =>
      if isspace c && negb (Ascii.eqb c "013") && negb (Ascii.eqb c "010") then skip_blanks l' else l
  | [] => []
  end.

Fixpoint take_line (l : list ascii) : list ascii :=
  match l with
  | c :: l' => if Ascii.eqb c "013" || Ascii.eqb c "010" then [] else c :: take_line l'
  | [] => []
  end.

Definition ExtractHeaderValue (headers name : string) : string :=
  match str_find (lower_text headers) (lower_text name +s+ ":") 0 with
  | None => ""
  | Some pos => of_chars (take_line (skip_blanks (drop (pos + String.length name + 1) (chars headers))))
  end.

Definition isxdigit (c : ascii) : bool := isdigit c || in_range c 65 70 || in_range c 97 102.

Fixpoint sha256_loop (content hex : list ascii) : list ascii :=
  match content with
  | [] => hex
  | c :: content' =>
      if isxdigit c then sha256_loop content' (hex ++ [tolower c])
      else if (length hex =? 64)%nat then hex
      else sha256_loop content' []
  end.

Definition ExtractSha256 (sha2_content : list ascii) : string :=
  let hex := sha256_loop sha2_content [] in
  if (length hex =? 64)%nat then of_chars hex else "".

Definition ExtractListIssueDateTime (xml : string) : string :=
  match str_find xml "<ListIssueDateTime>" 0 with
  | None => ""
  | Some pos =>
      match str_find xml "</ListIssueDateTime>" pos with
      | None => ""
      | Some end_pos => let start := (pos + 19)%nat in substr xml start (end_pos - start)
      end
  end.

(** [s.rfind(pat)]. *)
Definition str_rfind (s pat : string) : option nat :=
  List.find (fun p => starts_with (substr_from s p) pat) (rev (seq 0 (S (String.length s)))).

Definition sha2_url_of (url : string) : string :=
  match str_rfind url ".xml" with
  | Some p => substr url 0 p +s+ ".sha2" +s+ substr_from url (p + 4)
  | None => url +s+ ".sha2"
  end.

(** ** Which lists *)

Record TrustListInfo := MkTrustListInfo { li_url : string; li_filename : string; li_is_historical : bool }.

Definition three_lists (base : string) : list TrustListInfo :=
  [MkTrustListInfo (base +s+ "TL-UA.xml") "TL-UA.xml" false;
   MkTrustListInfo (base +s+ "TL-UA-DSTU.xml") "TL-UA-DSTU.xml" true;
   MkTrustListInfo (base +s+ "TL-UA-EC.xml") "TL-UA-EC.xml" false].

Definition ResolveTrustLists (configured_url : string) : list TrustListInfo :=
  match str_find configured_url "TL-UA-EC.xml" 0 with
  | Some pos => three_lists (substr configured_url 0 pos)
  | None =>
      match str_find configured_url "TL-UA.xml" 0 with
      | Some pos => three_lists (substr configured_url 0 pos)
      | None =>
          match str_find configured_url "TL-UA-DSTU.xml" 0 with
          | Some pos => three_lists (substr configured_url 0 pos)
          | None => [MkTrustListInfo configured_url "TL-UA-EC.xml" false]
          end
      end
  end.

(** ** Checks of a list *)

Section Checks.
Context `{Cert : CertApi}.

Definition counts_as_tsa (service_type : string) : bool :=
  one_of service_type ["http://czo.gov.ua/TrstSvc/Svctype/TSA/QTST"; "http://czo.gov.ua/TrstSvc/Svctype/MR-TSA/QTST";
                       "http://czo.gov.ua/TrstSvc/Svctype/National-TSA/QTST"].

Definition materializable (service : TrustListServiceRecord) (certificate_der : bytes) : bool :=
  match DecodeCertificateDer certificate_der with
  | None => false
  | Some cert =>
      counts_as_tsa (sv_service_type service)
      || (CertificateHasCaBasicConstraint cert
          && (CertificateHasKeyCertSign cert || is_ca_service (sv_service_type service)))
  end.

Definition HasMaterializableTrustAnchor (parsed : TrustListParseResult) : bool :=
  existsb (fun service => IsGrantedService service && existsb (materializable service) (sv_certificates service))
          (tl_services parsed).

End Checks.

Section SignatureCheck.
Context `{Libxml : LibXml, Crypto : XmlCrypto, Digests : DigestApi, World : SyncWorld}.

Definition ExtractFirstX509CertDer (xml : string) : bytes :=
  match ParseHardened xml with
  | inr (Some root) =>
      match FindFirstElement (children_of root) "Signature" with
      | Some signature =>
          match FindFirstElementInSubtree signature "KeyInfo" with
          | Some key_info =>
              match FindFirstElementInSubtree key_info "X509Certificate" with
              | Some cert_node =>
                  default [] (Base64.Base64Decode
                    (of_chars (List.filter (fun c => negb (isspace c)) (chars (NodeContent cert_node)))))
              | None => []
              end
          | None => []
          end
      | None => []
      end
  | _ => []
  end.

Definition sig_error (message : string) : TlXmlSigCheckResult := TlXmlSigCheckResult_default <| tc_error := message |>.

Definition VerifyTlXmlSignature (xml : string) (pinned_cert_der : bytes) : TlXmlSigCheckResult :=
  if negb xml_signatures_enabled then
    (sig_error "TL XML signature verification requires TAMGA_ENABLE_XML_SIGNATURES") <| tc_not_supported := true |>
  else if str_empty xml then sig_error "TL XML is empty"
  else
    let embedded := ExtractFirstX509CertDer xml in
    if negb (null pinned_cert_der) && null embedded then sig_error "ds:KeyInfo/X509Certificate not found in TL XML"
    else if negb (null pinned_cert_der) && negb (bool_decide (embedded = pinned_cert_der))
    then sig_error "TL XML signer certificate does not match the pinned certificate"
    else
      match Verify xml ∅ with
      | inl error_message =>
          sig_error (if str_empty error_message then "TL XML signature verification error" else error_message)
      | inr verify_result =>
          if negb (xr_signature_valid verify_result) then
            (sig_error (if str_empty (xr_signature_value_error verify_result) then "TL XML signature is not valid"
                        else xr_signature_value_error verify_result))
              <| tc_not_supported := xr_signature_algorithm_unsupported verify_result |>
          else TlXmlSigCheckResult_default <| tc_succeeded := true |>
      end.

End SignatureCheck.

(** ** The synchronisation *)

Definition body_text (response : HttpGetResult) : list ascii := map byte_char (hg_body response).

Section Sync.
Context `{Cert : CertApi, Plat : Platform, !@MetadataApi Cert Plat}.
Context `{Libxml : LibXml, Crypto : XmlCrypto, Digests : DigestApi, World : SyncWorld, Now : Clock}.
Context (metadata_error_text : bytes -> string) (work_dir : string) (settings : TrustListSettings).

Definition FailureResult (base : TrustListSyncResult) (message : string) : Os TrustListSyncResult :=
  let result := base <| sr_succeeded := false |> <| sr_message := message |> in
  let* cached := ReadState work_dir in
  ret (match cached with
       | Some cached_state =>
           result <| sr_used_cache := true |>
             <| sr_cache_status := if str_empty (pc_cache_status cached_state) then "stale" else pc_cache_status cached_state |>
             <| sr_last_sync := pc_last_sync cached_state |>
       | None => result <| sr_used_cache := false |> <| sr_cache_status := "unavailable" |>
       end).

(** The signature of one list: the status to report, and whether to go on. *)
Definition signature_stage (xml : list ascii) (url : string) : string * option string :=
  match ts_xml_signature_policy settings with
  | PolicyDisabled => ("not-verified-disabled", None)
  | policy =>
      let sig_check := VerifyTlXmlSignature (of_chars xml) (ts_xml_signer_cert_der settings) in
      if tc_not_supported sig_check then
        ("not-verified-unsupported",
         if bool_decide (policy = PolicyRequire)
         then Some ("TL XML signature verification is required but this build has no XMLDSIG engine (rebuild with TAMGA_ENABLE_XML_SIGNATURES=ON, or relax xml_signature_policy): " +s+ url)
         else None)
      else if negb (tc_succeeded sig_check) then
        ("failed", Some ("TL XML signature verification failed for " +s+ url +s+ ": " +s+ tc_error sig_check))
      else (if null (ts_xml_signer_cert_der settings) then "verified-self-consistent" else "verified-pinned", None)
  end.

Definition http_failure (prefix url : string) (response : HttpGetResult) (with_message : bool) : string :=
  prefix +s+ url
  +s+ (if hg_status_code response =? 0 then "" else ": HTTP " +s+ to_string (hg_status_code response))
  +s+ (if with_message && negb (str_empty (hg_message response)) then ": " +s+ hg_message response else "").

(** One list: the result with the failure text, or with the entry for the cache and the headers. *)
Definition sync_list (info : TrustListInfo) (result : TrustListSyncResult)
    : (TrustListSyncResult * string) + TrustListSyncResult * PolicyCacheEntry * string :=
  let response := http_get (li_url info) "application/xml" (ts_timeout_ms settings) in
  if negb (IsHttpSuccess response)
  then inl (result, http_failure "Trust list download failed for " (li_url info) response true) else
  let sha2_url := sha2_url_of (li_url info) in
  let sha2_response := http_get sha2_url "text/plain" (ts_timeout_ms settings) in
  if negb (IsHttpSuccess sha2_response)
  then inl (result, http_failure "Trust list SHA-256 download failed for " sha2_url sha2_response false) else
  let computed_hash := LowerHex (Sha256 (hg_body response)) in
  let expected_hash := ExtractSha256 (body_text sha2_response) in
  if str_empty expected_hash || negb (computed_hash ==s expected_hash)
  then inl (result, "SHA-256 integrity check failed for " +s+ li_url info +s+ " (expected: " +s+ expected_hash
                    +s+ ", got: " +s+ computed_hash +s+ ")") else
  let '(status, failure) := signature_stage (body_text response) (li_url info) in
  let result := result <| sr_xml_signature_status := status |> in
  match failure with
  | Some message => inl (result, message)
  | None =>
      let parsed := Parse (of_chars (body_text response)) in
      if negb (tl_ok parsed) then inl (result, "Failed to parse trust list: " +s+ tl_message parsed)
      else if negb (HasMaterializableTrustAnchor parsed)
      then inl (result, "Trust list does not contain granted CA certificates: " +s+ li_url info)
      else inr (result, MkPolicyCacheEntry (li_filename info) (body_text response) parsed (li_is_historical info),
                hg_response_headers response)
  end.

(** All lists, with the headers of the last one that is the main list or found none. *)
Fixpoint sync_lists (lists : list TrustListInfo) (result : TrustListSyncResult) (entries : list PolicyCacheEntry)
    (main_etag main_last_modified : string)
    : (TrustListSyncResult * string) + TrustListSyncResult * list PolicyCacheEntry * string * string :=
  match lists with
  | [] => inr (result, entries, main_etag, main_last_modified)
  | info :: lists' =>
      match sync_list info result with
      | inl failure => inl failure
      | inr (result, entry, headers) =>
          if (li_filename info ==s "TL-UA-EC.xml") || str_empty main_etag then
            sync_lists lists' result (entries ++ [entry]) (ExtractHeaderValue headers "ETag")
              (ExtractHeaderValue headers "Last-Modified")
          else sync_lists lists' result (entries ++ [entry]) main_etag main_last_modified
      end
  end.

Definition issue_month (issue_date : string) : option (list ascii) :=
  match chars issue_date with
  | a :: b :: c :: d :: e :: f :: g :: _ =>
      if isdigit a && isdigit b && isdigit c && isdigit d && Ascii.eqb e "-" && isdigit f && isdigit g
      then Some [a; b; c; d; e; f; g] else None
  | _ => None
  end.

Definition snapshot_name (xml : list ascii) : string :=
  let f := gmtime std_time in
  let yyyy_mm := default (year_text (f_year f) ++ ["-"%char] ++ two_digits (f_month f))
                         (issue_month (ExtractListIssueDateTime (of_chars xml))) in
  "TL-UA-EC-" +s+ of_chars yyyy_mm +s+ ".xml".

Definition history_dir : string := path_append (path_append work_dir "trust-list") "history".

Definition ArchiveMonthlySnapshot (filename : string) (xml_data : list ascii) : Os unit :=
  if negb (filename ==s "TL-UA-EC.xml") then ret tt
  else
    let* _ := create_directories history_dir in
    let* opened := answer in
    if opened then
      let* written := answer in
      put_node (path_append history_dir (snapshot_name xml_data)) (File (if written then xml_data else []))
    else ret tt.

Fixpoint archive_each (entries : list PolicyCacheEntry) : Os unit :=
  match entries with
  | [] => ret tt
  | entry :: entries' => let* _ := ArchiveMonthlySnapshot (ce_filename entry) (ce_xml entry) in archive_each entries'
  end.

Definition combine_parsed (entries : list PolicyCacheEntry) : TrustListParseResult :=
  let parsed := map ce_parsed entries in
  let endpoints (field : TrustListEndpoints -> list string) := concat (map (fun p => field (tl_endpoints p)) parsed) in
  MkTrustListParseResult true "All trust lists synchronized and parsed" (concat (map tl_certificates parsed))
    (MkTrustListEndpoints (endpoints crl_urls) (endpoints ocsp_urls) (endpoints tsp_urls)) (concat (map tl_services parsed)).

Definition Sync : Os TrustListSyncResult :=
  let result := TrustListSyncResult_default <| sr_source_url := ts_url settings |> <| sr_last_sync := UtcNowIsoString |> in
  if str_empty (sr_source_url result) then FailureResult result "Trust list URL is empty"
  else if negb (ts_allow_https_bootstrap settings) then FailureResult result "HTTPS trust list bootstrap is disabled"
  else
    match sync_lists (ResolveTrustLists (ts_url settings)) result [] "" "" with
    | inl (result, message) => FailureResult result message
    | inr (result, entries, main_etag, main_last_modified) =>
        let state := MkPolicyCacheState (sr_source_url result) "fresh" (sr_last_sync result) true main_etag main_last_modified in
        let* written := WriteTrustListsMaterialized metadata_error_text work_dir entries state in
        if negb written then FailureResult result "Failed to write trust lists cache"
        else
          let* _ := archive_each entries in
          ret (result <| sr_parsed := combine_parsed entries |> <| sr_succeeded := true |> <| sr_used_cache := false |>
                      <| sr_cache_status := "fresh" |> <| sr_message := "Trust lists synchronized" |>)
    end.

End Sync.

(** ** What the signature of a list covers *)

Section Coverage.
Context `{Libxml : LibXml, Crypto : XmlCrypto, Digests : DigestApi, World : SyncWorld}.

(** What [VerifyTlXmlSignature] looks at in a result. *)
Definition verdict (result : XmlSignatureVerificationResult) : bool * bool * string :=
  (xr_signature_valid result, xr_signature_algorithm_unsupported result, xr_signature_value_error result).

Definition verdict_of (answer : string + XmlSignatureVerificationResult) : string + bool * bool * string :=
  match answer with inl message => inl message | inr result => inr (verdict result) end.

Lemma references_loop_verdict (xml : string) (root : xmlNode) (ext : gmap string bytes) (cert_der : bytes)
    (refs : list XmlReference) (all : bool) (result : XmlSignatureVerificationResult) :
  verdict (snd (references_loop xml root ext cert_der refs all result)) = verdict result.
Proof.
  revert all result. induction refs as [|ref refs IH]; intros all result; [done|]. cbn [references_loop].
  destruct (check_reference xml root ext cert_der ref) as [[ok detail] props]. rewrite IH. by destruct props.
Qed.

Lemma diagnostics_verdict (root sig : xmlNode) (position : Z) (mode : C14nMode) (comments : bool) (uri : string)
    (cert_der : bytes) (result : XmlSignatureVerificationResult) :
  verdict (signed_properties_diagnostics root sig position mode comments uri cert_der result) = verdict result.
Proof. unfold signed_properties_diagnostics. by repeat case_match. Qed.

Lemma verify_value_verdict (cert_der hash signature : bytes) (alg : option RsaHashAlg) (r r' : XmlSignatureVerificationResult) :
  verdict r = verdict r' ->
  verdict (verify_value cert_der alg hash signature r) = verdict (verify_value cert_der alg hash signature r').
Proof.
  intros E. injection E as E1 E2 E3. unfold verify_value. destruct alg as [alg|].
  - destruct (rv_executed _); [|done]. unfold verdict. cbn. by rewrite E2.
  - destruct (VerifyHash _ _ _) as [?|[? ?]]; unfold verdict; cbn; by rewrite E2.
Qed.

Context (xml xml' : string) (root root' : xmlNode).
Context (Hp : ParseHardened xml = inr (Some root)) (Hp' : ParseHardened xml' = inr (Some root')).
Context (Hroot : IsElementNamed root "Signature" = false) (Hroot' : IsElementNamed root' "Signature" = false).
Context (Hsame : forall part, part ∈ ["Signature"; "SignedInfo"; "SignatureValue"; "SignedProperties"] ->
  named [root] part = named [root'] part).
Context (Hcanonical : forall mode comments, CanonicalizeSubtreeWithinSignature root 1 "SignedInfo" mode comments
  = CanonicalizeSubtreeWithinSignature root' 1 "SignedInfo" mode comments).

Lemma same_references :
  (length (named [root] "Signature") <= 1)%nat ->
  ExtractReferencesForSignature xml 1 = ExtractReferencesForSignature xml' 1.
Proof.
  intros H1. assert (named [root'] "Signature" = named [root] "Signature") as Es by (symmetry; apply Hsame; by left).
  unfold ExtractReferencesForSignature. rewrite Hp, Hp'. cbn [root_list].
  rewrite !Collect_one_signature by (rewrite ?Es; done). unfold one_signature. by rewrite Es.
Qed.

Lemma same_position (sig : xmlNode) (ext : gmap string bytes) :
  (length (named [root] "Signature") <= 1)%nat ->
  verdict_of (VerifySignatureAtPosition root sig 1 xml ext) = verdict_of (VerifySignatureAtPosition root' sig 1 xml' ext).
Proof.
  intros H1. unfold VerifySignatureAtPosition. rewrite (same_references H1).
  destruct (ExtractReferencesForSignature xml' 1) as [?|refs]; [done|].
  match goal with |- context [references_loop xml root ext ?d refs true ?f] =>
    pose proof (references_loop_verdict xml root ext d refs true f) as L1;
    pose proof (references_loop_verdict xml' root' ext d refs true f) as L2;
    destruct (references_loop xml root ext d refs true f) as [all loop], (references_loop xml' root' ext d refs true f) as [all' loop'] end.
  cbn [snd] in L1, L2. rewrite <- L2 in L1. clear L2.
  destruct (ExtractEmbeddedCertificate sig) as [cert_der|]; [|injection L1 as E1 E2 E3; unfold verdict_of, verdict; cbn; by rewrite E1, E2].
  destruct (FindFirstElementInSubtree sig "SignedInfo") as [signed_info|]; [|done].
  destruct (match FindFirstElement (children_of signed_info) "CanonicalizationMethod" with Some _ => _ | None => _ end) as [mode comments].
  rewrite Hcanonical. destruct (CanonicalizeSubtreeWithinSignature root' 1 "SignedInfo" mode comments) as [?|octets]; [done|].
  destruct (FindFirstElement (children_of signed_info) "SignatureMethod") as [sm|]; [|done].
  destruct (MapSignatureMethodUri (GetAttr sm "Algorithm")) as [alg|]; [|done].
  destruct (match MapRsaSignatureMethod (GetAttr sm "Algorithm") with Some _ => _ | None => _ end) as [?|imprint]; [done|].
  destruct (match FindFirstElementInSubtree sig "SignatureValue" with Some sv => _ | None => None end) as [signature|]; [|done].
  cbn [verdict_of]. f_equal. apply verify_value_verdict. rewrite !diagnostics_verdict. exact L1.
Qed.

Lemma same_verdict (ext : gmap string bytes) : verdict_of (Verify xml ext) = verdict_of (Verify xml' ext).
Proof.
  assert (named [root'] "Signature" = named [root] "Signature") as Es by (symmetry; apply Hsame; set_solver).
  assert (named [root'] "SignedInfo" = named [root] "SignedInfo") as Ei by (symmetry; apply Hsame; set_solver).
  assert (named [root'] "SignatureValue" = named [root] "SignatureValue") as Ev by (symmetry; apply Hsame; set_solver).
  assert (named [root'] "SignedProperties" = named [root] "SignedProperties") as Epr by (symmetry; apply Hsame; set_solver).
  unfold Verify. rewrite Hp, Hp'. cbn [root_list].
  rewrite !CountElementsByLocalName_named, !FindFirstDsigElement_named, Es, Ei, Ev, Epr.
  destruct (_ =? 0)%nat; [done|]. destruct (1 <? length (named [root] "Signature"))%nat eqn:E1; [done|].
  destruct (negb (length (named [root] "SignedInfo") =? 1)%nat); [done|].
  destruct (negb (length (named [root] "SignatureValue") =? 1)%nat); [done|].
  destruct (1 <? length (named [root] "SignedProperties"))%nat; [done|].
  destruct (head _) as [sig|]; [|done]. apply same_position. by apply Nat.ltb_ge.
Qed.

Lemma same_embedded : ExtractFirstX509CertDer xml = ExtractFirstX509CertDer xml'.
Proof.
  unfold ExtractFirstX509CertDer. rewrite Hp, Hp', !FindFirstElement_named.
  assert (named [root] "Signature" = named [root'] "Signature") as Es by (apply Hsame; by left).
  rewrite !named_element, Hroot, Hroot' in Es. cbn [app] in Es. by rewrite Es.
Qed.

(** [C25] The check of a list's signature does not look at the list.  Two documents with the same [Signature]
    element (and no other element of the names that the verifier counts), whose [SignedInfo] has the
    same canonical form, get the same answer - whatever else they say, and with or without a pinned
    certificate: the digests of the references, which alone tie the signature to the rest of the
    document, are computed but not asked for. *)
Theorem TlSignature_ignores_content (pinned_cert_der : bytes) :
  VerifyTlXmlSignature xml pinned_cert_der = VerifyTlXmlSignature xml' pinned_cert_der.
Proof.
  assert (str_empty xml = false /\ str_empty xml' = false) as [Ne Ne'].
  { unfold ParseHardened in Hp, Hp'. by destruct (str_empty xml), (str_empty xml'). }
  unfold VerifyTlXmlSignature. rewrite Ne, Ne', same_embedded.
  destruct (negb xml_signatures_enabled); [done|]. destruct (negb (null pinned_cert_der) && null _); [done|].
  destruct (negb (null pinned_cert_der) && _); [done|].
  pose proof (same_verdict ∅) as E. destruct (Verify xml ∅) as [m|r], (Verify xml' ∅) as [m'|r']; cbn [verdict_of] in E; try done.
  { by injection E as ->. }
  assert (verdict r = verdict r') as Ev by congruence. injection Ev as -> -> ->. done.
Qed.

End Coverage.

Module SampleList.
Import XmlDsig.SampleSignature.

#[local] Existing Instances toy_xml toy_crypto toy_digests.

Definition toy_world : SyncWorld := {|
  http_get _ _ _ := MkHttpGetResult false 0 "" "" []; xml_signatures_enabled := true
|}.
#[local] Existing Instance toy_world.

(** A list in which the service of one authority is replaced by that of another is accepted with the
    old signature, although it is checked against the pinned certificate. *)
Lemma TlSignature_ignores_content_witness :
  tc_succeeded (VerifyTlXmlSignature "genuine" [x30; x00]) = true /\
  VerifyTlXmlSignature "genuine" [x30; x00] = VerifyTlXmlSignature "altered" [x30; x00].
Proof.
  split; [vm_compute; reflexivity|].
  apply (TlSignature_ignores_content "genuine" "altered" (document "genuine" "CA of Alice") (document "altered" "CA of Mallory")).
  - vm_compute. reflexivity.
  - vm_compute. reflexivity.
  - reflexivity.
  - reflexivity.
  - intros part Hp. assert (Forall (fun part => named [document "genuine" "CA of Alice"] part
      = named [document "altered" "CA of Mallory"] part) ["Signature"; "SignedInfo"; "SignatureValue"; "SignedProperties"]) as HF
      by (repeat constructor).
    rewrite Forall_forall in HF. exact (HF part Hp).
  - intros mode comments. vm_compute. reflexivity.
Defined.

End SampleList.

(** ** A signature without a value *)

Lemma drop_xml_spaces_none (l : list ascii) :
  Forall (fun c => isspace c = false) l -> drop_xml_spaces l = l.
Proof.
  intros Hl. destruct l as [|c l]; [done|]. apply Forall_cons in Hl as [Hc _]. cbn [drop_xml_spaces].
  destruct (is_xml_space c) eqn:E; [|done]. exfalso. revert E Hc. unfold is_xml_space, char_in. rewrite chars_of_chars. cbn [existsb].
  rewrite !orb_true_iff. intros [E|[E|[E|[E|E]]]]; try done; apply Ascii.eqb_eq in E; subst c; vm_compute; discriminate.
Qed.

Lemma TrimmedText_base64 (name ns : string) (attributes : list (string * string)) (v : bytes) :
  TrimmedText (Element name ns attributes [Text (Base64.Base64Encode v)]) = Base64.Base64Encode v.
Proof.
  unfold TrimmedText. cbn [NodeContent map String.concat]. unfold Base64.Base64Encode.
  destruct (Base64.encode_loop_chars v) as [Hs _]. rewrite chars_of_chars, (drop_xml_spaces_none (Base64.encode_loop v)) by done.
  rewrite drop_xml_spaces_none by (by apply Forall_rev). by rewrite rev_involutive.
Qed.

Section Blank.
Context `{Libxml : LibXml, Crypto : XmlCrypto, Digests : DigestApi, World : SyncWorld}.

(** A signature by the method RSA with SHA-256 whose value is empty. *)
Definition blank_signature (certificate : bytes) (reference : xmlNode) : xmlNode :=
  SampleSignature.ds "Signature" []
    [SampleSignature.ds "SignedInfo" []
       [SampleSignature.ds "SignatureMethod" [("Algorithm", "http://www.w3.org/2001/04/xmldsig-more#rsa-sha256")] []; reference];
     SampleSignature.ds "SignatureValue" [] [];
     SampleSignature.ds "KeyInfo" [] [SampleSignature.ds "X509Certificate" [] [Text (Base64.Base64Encode certificate)]]].

Definition plain_reference : xmlNode := SampleSignature.ds "Reference" [("URI", "")] [].

Context (settings : TrustListSettings) (xml url : string) (root : xmlNode) (certificate : bytes) (octets : string).
Context (Hengine : xml_signatures_enabled = true) (Hpolicy : ts_xml_signature_policy settings = PolicyPreferAvailable)
  (Hpinned : ts_xml_signer_cert_der settings = certificate) (Hsome : certificate <> []).
Context (Hp : ParseHardened xml = inr (Some root)) (Hroot : IsElementNamed root "Signature" = false)
  (Hs : named [root] "Signature" = [blank_signature certificate plain_reference])
  (Hi : length (named [root] "SignedInfo") = 1%nat) (Hv : length (named [root] "SignatureValue") = 1%nat)
  (Hn : named [root] "SignedProperties" = [])
  (Hc : CanonicalizeSubtreeWithinSignature root 1 "SignedInfo" XML_C14N_1_0 false = inr octets).

Lemma blank_references :
  ExtractReferencesForSignature xml 1 = inr [reference_of plain_reference].
Proof.
  unfold ExtractReferencesForSignature. rewrite Hp. cbn [root_list].
  rewrite Collect_one_signature by (rewrite Hs; cbn; lia). unfold one_signature. rewrite Hs. reflexivity.
Qed.

Lemma blank_certificate : ExtractEmbeddedCertificate (blank_signature certificate plain_reference) = Some certificate.
Proof.
  unfold ExtractEmbeddedCertificate.
  change (FindFirstDsigElementInSubtree (blank_signature certificate plain_reference) "X509Certificate")
    with (Some (SampleSignature.ds "X509Certificate" [] [Text (Base64.Base64Encode certificate)])).
  cbv iota. unfold SampleSignature.ds. rewrite TrimmedText_base64, Base64.Base64_decode_encode. by destruct certificate.
Qed.

Lemma blank_verdict :
  match Verify xml ∅ with
  | inr result => xr_signature_valid result = false /\ xr_signature_algorithm_unsupported result = true
  | inl _ => False
  end.
Proof.
  unfold Verify. rewrite Hp. cbn [root_list]. rewrite !CountElementsByLocalName_named, FindFirstDsigElement_named, Hs, Hi, Hv, Hn.
  change (head (List.filter _ [blank_signature certificate plain_reference])) with (Some (blank_signature certificate plain_reference)).
  cbn [length Nat.eqb Nat.ltb Nat.leb negb]. unfold VerifySignatureAtPosition. rewrite blank_references, blank_certificate.
  match goal with |- context [references_loop ?a ?b ?c ?d ?e true ?f] => destruct (references_loop a b c d e true f) as [all loop] end.
  change (FindFirstElementInSubtree (blank_signature certificate plain_reference) "SignedInfo")
    with (Some (SampleSignature.ds "SignedInfo" []
       [SampleSignature.ds "SignatureMethod" [("Algorithm", "http://www.w3.org/2001/04/xmldsig-more#rsa-sha256")] []; plain_reference])).
  change (FindFirstElementInSubtree (blank_signature certificate plain_reference) "SignatureValue")
    with (Some (SampleSignature.ds "SignatureValue" [] [])).
  cbv iota. set (si := SampleSignature.ds "SignedInfo" [] _).
  change (FindFirstElement (children_of si) "CanonicalizationMethod") with (@None xmlNode).
  change (FindFirstElement (children_of si) "SignatureMethod")
    with (Some (SampleSignature.ds "SignatureMethod" [("Algorithm", "http://www.w3.org/2001/04/xmldsig-more#rsa-sha256")] [])).
  cbv iota. rewrite Hc. set (sm := SampleSignature.ds "SignatureMethod" _ _).
  change (MapSignatureMethodUri (GetAttr sm "Algorithm")) with (Some DigestSha256).
  change (MapRsaSignatureMethod (GetAttr sm "Algorithm")) with (Some RsaHashSha256).
  change (Base64.Base64Decode (TrimmedText (SampleSignature.ds "SignatureValue" [] []))) with (Some (@nil byte)).
  cbv iota. unfold ComputeImprint, computed. cbv iota. unfold verify_value, VerifyRsaPkcs1.
  rewrite orb_true_r. cbn [rv_executed negb]. done.
Qed.

Lemma blank_embedded : ExtractFirstX509CertDer xml = certificate.
Proof.
  unfold ExtractFirstX509CertDer. rewrite Hp, FindFirstElement_named.
  assert (named (children_of root) "Signature" = [blank_signature certificate plain_reference]) as ->.
  { rewrite <- Hs, (named_element root), Hroot. done. }
  cbn [head]. change (FindFirstElementInSubtree (blank_signature certificate plain_reference) "KeyInfo")
    with (Some (SampleSignature.ds "KeyInfo" [] [SampleSignature.ds "X509Certificate" [] [Text (Base64.Base64Encode certificate)]])).
  cbv iota. change (FindFirstElementInSubtree (SampleSignature.ds "KeyInfo" [] _) "X509Certificate")
    with (Some (SampleSignature.ds "X509Certificate" [] [Text (Base64.Base64Encode certificate)])). cbv iota.
  cbn [NodeContent SampleSignature.ds map String.concat]. unfold Base64.Base64Encode.
  rewrite chars_of_chars, Base64.filter_spaces_encode. change (of_chars (Base64.encode_loop certificate)) with (Base64.Base64Encode certificate).
  by rewrite Base64.Base64_decode_encode.
Qed.

(** Under the default policy a list whose signature has an empty value is admitted, also when the
    certificate of the signer is pinned and whatever the list says: the RSA check answers that it was
    not executed, which is taken for an algorithm that this build does not support. *)
Theorem blank_signature_admitted : signature_stage settings (chars xml) url = ("not-verified-unsupported", None).
Proof.
  assert (str_empty xml = false) as Ne by (unfold ParseHardened in Hp; by destruct (str_empty xml)).
  unfold signature_stage, VerifyTlXmlSignature. rewrite Hpolicy, of_chars_chars, Hengine, Ne, Hpinned, blank_embedded.
  cbn [negb]. destruct (null certificate) eqn:En; [by destruct certificate|]. rewrite bool_decide_true by done. cbn [negb andb].
  pose proof blank_verdict as Hb. destruct (Verify xml ∅) as [?|result]; [done|]. destruct Hb as [-> ->]. done.
Qed.

End Blank.

Module SampleBlank.
Import XmlDsig.SampleSignature.

Definition blank_document : xmlNode :=
  Element "TrustServiceStatusList" "" []
    [Element "ServiceName" "" [] [Text "CA of Mallory"]; blank_signature [x30; x00] plain_reference].

Definition blank_xml : LibXml := {| xmlReadMemory _ := Some (MkXmlDoc false (Some blank_document)) |}.
#[local] Existing Instances blank_xml toy_crypto toy_digests SampleList.toy_world.

Definition pinned_settings : TrustListSettings := TrustListSettings_default <| ts_xml_signer_cert_der := [x30; x00] |>.

Lemma blank_signature_admitted_witness :
  signature_stage pinned_settings (chars "forged") "https://czo.gov.ua/TL-UA.xml" = ("not-verified-unsupported", None).
Proof.
  refine (blank_signature_admitted pinned_settings "forged" _ blank_document [x30; x00] "" eq_refl eq_refl eq_refl _ _ eq_refl eq_refl eq_refl eq_refl eq_refl eq_refl).
  - discriminate.
  - vm_compute. reflexivity.
Defined.

End SampleBlank.

(** ** A synchronisation is all or nothing *)

Section AllOrNothing.
Context `{Cert : CertApi, Plat : Platform, Meta : !@MetadataApi Cert Plat}.
Context `{Libxml : LibXml, Crypto : XmlCrypto, Digests : DigestApi, World : SyncWorld, Now : Clock}.
Context (metadata_error_text : bytes -> string) (work_dir : string) (settings : TrustListSettings).

(** The policy admits a list: no check is wanted, the check succeeded, or it could not be made and the
    policy does not insist. *)
Definition signature_admitted (xml : list ascii) : Prop :=
  let check := VerifyTlXmlSignature (of_chars xml) (ts_xml_signer_cert_der settings) in
  match ts_xml_signature_policy settings with
  | PolicyDisabled => True
  | PolicyPreferAvailable => tc_not_supported check = true \/ tc_succeeded check = true
  | PolicyRequire => tc_not_supported check = false /\ tc_succeeded check = true
  end.

(** [entry] is the list that the server gave for [info], with the digest it published. *)
Definition accepted (info : TrustListInfo) (entry : PolicyCacheEntry) : Prop :=
  let response := http_get (li_url info) "application/xml" (ts_timeout_ms settings) in
  let sha2_response := http_get (sha2_url_of (li_url info)) "text/plain" (ts_timeout_ms settings) in
  IsHttpSuccess response = true /\ IsHttpSuccess sha2_response = true /\
  ExtractSha256 (body_text sha2_response) = LowerHex (Sha256 (hg_body response)) /\
  signature_admitted (body_text response) /\
  entry = MkPolicyCacheEntry (li_filename info) (body_text response) (Parse (of_chars (body_text response))) (li_is_historical info) /\
  tl_ok (ce_parsed entry) = true /\ HasMaterializableTrustAnchor (ce_parsed entry) = true.

Lemma signature_stage_admitted (xml : list ascii) (url : string) :
  (signature_stage settings xml url).2 = None -> signature_admitted xml.
Proof.
  unfold signature_stage, signature_admitted. destruct (ts_xml_signature_policy settings); [done|..];
    destruct (tc_not_supported _), (tc_succeeded _); cbn; auto; done.
Qed.

Lemma sync_list_accepted (info : TrustListInfo) (result result' : TrustListSyncResult) (entry : PolicyCacheEntry) (headers : string) :
  sync_list settings info result = inr (result', entry, headers) ->
  accepted info entry /\ sr_last_sync result' = sr_last_sync result /\ sr_source_url result' = sr_source_url result.
Proof.
  unfold sync_list, accepted. intros E.
  destruct (IsHttpSuccess (http_get (li_url info) _ _)) eqn:E1; [|done]. cbn [negb] in E.
  destruct (IsHttpSuccess (http_get (sha2_url_of (li_url info)) _ _)) eqn:E2; [|done]. cbn [negb] in E.
  destruct (str_empty _ || _) eqn:E3; [done|]. apply orb_false_iff in E3 as [_ E3%negb_false_iff%String.eqb_eq].
  match type of E with context [signature_stage _ ?x ?u] =>
    pose proof (signature_stage_admitted x u) as Hs; destruct (signature_stage settings x u) as [status [failure|]] end; [done|].
  specialize (Hs eq_refl). destruct (tl_ok _) eqn:E4; [|done]. destruct (HasMaterializableTrustAnchor _) eqn:E5; [|done].
  cbn [negb] in E. injection E as <- <- <-. by split_and!.
Qed.

Lemma sync_lists_accepted (lists : list TrustListInfo) (result : TrustListSyncResult) (entries : list PolicyCacheEntry)
    (etag last_modified : string) (result' : TrustListSyncResult) (entries' : list PolicyCacheEntry) (etag' last_modified' : string) :
  sync_lists settings lists result entries etag last_modified = inr (result', entries', etag', last_modified') ->
  exists news, entries' = entries ++ news /\ Forall2 accepted lists news /\
    sr_last_sync result' = sr_last_sync result /\ sr_source_url result' = sr_source_url result.
Proof.
  revert result entries etag last_modified. induction lists as [|info lists IH]; intros result entries etag last_modified E.
  { injection E as <- <- _ _. exists []. by rewrite app_nil_r. }
  cbn [sync_lists] in E. destruct (sync_list settings info result) as [?|[[result1 entry] headers]] eqn:E1; [done|].
  destruct (sync_list_accepted _ _ _ _ _ E1) as (Ha & H1 & H2).
  assert (exists e l, sync_lists settings lists result1 (entries ++ [entry]) e l = inr (result', entries', etag', last_modified')) as (e & l & E').
  { destruct (_ || _); by eexists _, _. }
  destruct (IH _ _ _ _ E') as (news & -> & Hf & H3 & H4). exists (entry :: news). rewrite <- app_assoc.
  split_and!; [done|by constructor|congruence..].
Qed.

(** The lists of a configuration have the names that the cache knows, each once. *)
Lemma ResolveTrustLists_names (url : string) :
  Forall (fun name => name ∈ list_names) (map li_filename (ResolveTrustLists url)) /\
  NoDup (map li_filename (ResolveTrustLists url)).
Proof.
  unfold ResolveTrustLists. repeat case_match; unfold three_lists; cbn [map li_filename];
    (split; [repeat constructor|]); apply (bool_decide_unpack _); by vm_compute.
Qed.

(** The files and stores that a synchronisation replaces. *)
Definition sync_targets : list Target :=
  map (fun name => MkTarget (TrustListPath work_dir name) false) (map li_filename (ResolveTrustLists (ts_url settings))) ++
  others (state_target work_dir) (metadata_target work_dir) (trust_store_targets work_dir) (tsa_store_targets work_dir).

Lemma sync_targets_entries (entries : list PolicyCacheEntry) :
  map ce_filename entries = map li_filename (ResolveTrustLists (ts_url settings)) ->
  sync_targets = cache_targets work_dir entries.
Proof. intros E. unfold sync_targets, cache_targets, xml_targets. by rewrite <- E, map_map. Qed.

Lemma accepted_names (lists : list TrustListInfo) (entries : list PolicyCacheEntry) :
  Forall2 accepted lists entries -> map ce_filename entries = map li_filename lists.
Proof.
  induction 1 as [|info entry lists entries Ha _ IH]; [done|]. cbn [map]. rewrite IH. f_equal.
  by destruct Ha as (_ & _ & _ & _ & -> & _).
Qed.

(** *** The archive of snapshots is elsewhere *)

Definition in_history (p : string) : Prop := exists rest, p = prefix_of work_dir +s+ "trust-list/history" +s+ rest.

Lemma str_app_empty (s : string) : s +s+ "" = s.
Proof. apply chars_inj. by rewrite chars_app, app_nil_r. Qed.

Lemma history_dir_eq : history_dir work_dir = prefix_of work_dir +s+ "trust-list/history".
Proof. unfold history_dir. by rewrite (path_append_nested work_dir "trust-list" _ "t"%char) by done. Qed.

Lemma history_in (name : string) : in_history (path_append (history_dir work_dir) name).
Proof.
  exists ("/" +s+ name). rewrite history_dir_eq. unfold path_append. rewrite chars_app, last_app.
  change (last (chars "trust-list/history")) with (Some "y"%char). cbv iota.
  change (Ascii.eqb "y" "/") with false. cbv iota. by rewrite !str_app_assoc.
Qed.

Lemma archive_within (entries : list PolicyCacheEntry) : within in_history (archive_each work_dir entries).
Proof.
  induction entries as [|entry entries IH]; cbn [archive_each]; [auto with within|].
  apply within_bind; [|auto with within]. unfold ArchiveMonthlySnapshot. destruct (negb _); [auto with within|].
  apply within_bind; [apply within_create_directories; exists ""; by rewrite history_dir_eq, str_app_empty|].
  intros _. apply within_bind; [auto with within|]. intros [|]; [|auto with within].
  apply within_bind; [auto with within|]. intros written. apply within_put, history_in.
Qed.

Lemma target_not_in_history (entries : list PolicyCacheEntry) (t : Target) :
  Forall (fun e => ce_filename e ∈ list_names) entries -> t ∈ cache_targets work_dir entries -> ~ in_history (tg_path t).
Proof.
  intros Hn Ht [rest E]. destruct (targets_known work_dir entries Hn t Ht) as (k & Hk & ->). cbn [placed_at tg_path] in E.
  apply prefix_inj in E.
  assert (forallb (fun k => negb (bool_decide (take 18 (chars (tg_path k)) = chars "trust-list/history"))) known = true) as Hall
    by (by vm_compute).
  rewrite forallb_forall in Hall. specialize (Hall k (proj1 (list_elem_of_In _ _) Hk)).
  rewrite E, chars_app in Hall. rewrite bool_decide_true in Hall; [done|]. by rewrite take_app_le by (cbn; lia).
Qed.

Lemma FailureResult_disk (base : TrustListSyncResult) (message : string) (d : Disk) :
  exists result d', FailureResult work_dir base message d = (result, d') /\ sr_succeeded result = false /\ dk_nodes d' = dk_nodes d.
Proof.
  assert (within (fun _ => False) (ReadState work_dir)) as Hw.
  { unfold ReadState, ReadTextFileLimited, ExistingFileHasContent.
    repeat first [apply within_bind; [auto with within|intros ?]|case_match; auto with within|auto with within]. }
  unfold FailureResult, bind, ret. destruct (Hw d) as [_ Hn]. destruct (ReadState work_dir d) as [cached d']. cbn [snd] in Hn.
  assert (dk_nodes d' = dk_nodes d) as E by (apply map_eq; intros p; apply Hn; tauto). destruct cached; by eexists _, d'.
Qed.

(** The cache holds lists that were accepted, the state of this synchronisation and the certificates of
    the granted services of the lists. *)
Definition synchronised (d' : Disk) : Prop :=
  exists entries etag last_modified,
    Forall2 accepted (ResolveTrustLists (ts_url settings)) entries /\
    (forall e, e ∈ entries -> dk_nodes d' !! TrustListPath work_dir (ce_filename e) = Some (File (ce_xml e))) /\
    dk_nodes d' !! StatePath work_dir
    = Some (File (BuildStateJson (MkPolicyCacheState (ts_url settings) "fresh" UtcNowIsoString true etag last_modified))) /\
    (forall s, s ∈ stores work_dir -> dk_nodes d' !! s = Some (Dir (files_in s
       (certificate_files work_dir entries (BuildTrustStoreMetadataRecords metadata_error_text entries)) ∅))).

(** [C9] A synchronisation is all or nothing, whatever the servers answer and whichever single call of the
    operating system that changes the disk fails: one that makes a directory, opens, writes or renames, or
    a removal, whose failure goes unnoticed.  It is asked that the questions whether an old file or store
    is there are answered, and that a removal fails only where no filled store was left behind under a
    temporary or a backup name ([unseen_store_is_lost] and [unremoved_leftover_is_installed] show what
    happens otherwise).  When it succeeds, every list was downloaded with the digest that the
    server publishes for it, its signature was admitted by the policy, it could be parsed and names a
    granted authority, and the cache holds exactly these lists, the state of this synchronisation and
    the certificates of their granted services.  When it fails, everything that was in the cache is
    still there, except that an empty file may be gone and a missing store may have become an empty
    directory. *)
Theorem Sync_all_or_nothing (d : Disk) :
  (faults d <= 1)%nat -> answered d ->
  (forall t p n, t ∈ sync_targets -> p = TempPathFor (tg_path t) \/ p = BackupPathFor (tg_path t) -> dk_nodes d !! p = Some n ->
     fitting t n /\ (stuck d = 0%nat \/ cleared t (Some n))) ->
  (forall t n, t ∈ sync_targets -> dk_nodes d !! tg_path t = Some n -> fitting t n) ->
  exists result d', Sync metadata_error_text work_dir settings d = (result, d') /\
    if sr_succeeded result then synchronised d'
    else forall t, t ∈ sync_targets -> kept (dk_nodes d !! tg_path t) (dk_nodes d' !! tg_path t).
Proof.
  intros Hf Hq Hrm Hfit. unfold Sync.
  assert (forall base message, exists result d', FailureResult work_dir base message d = (result, d') /\
    if sr_succeeded result then synchronised d' else forall t, t ∈ sync_targets -> kept (dk_nodes d !! tg_path t) (dk_nodes d' !! tg_path t)) as Hfail.
  { intros base message. destruct (FailureResult_disk base message d) as (result & d' & E & Hr & Hd). exists result, d'.
    rewrite Hr, Hd. split; [done|]. intros t _. by left; left. }
  destruct (str_empty _); [apply Hfail|]. destruct (negb _); [apply Hfail|].
  destruct (sync_lists _ _ _ _ _ _) as [[result message]|[[[result entries] etag] last_modified]] eqn:El; [apply Hfail|].
  destruct (sync_lists_accepted _ _ _ _ _ _ _ _ _ El) as (news & -> & Ha & E1 & E2). cbn [app] in *. cbn in E1, E2.
  pose proof (accepted_names _ _ Ha) as Hnm. destruct (ResolveTrustLists_names (ts_url settings)) as [Hn Hd]. rewrite <- Hnm in Hn, Hd.
  assert (Forall (fun e => ce_filename e ∈ list_names) news) as Hnames by (by apply Forall_map in Hn).
  rewrite (sync_targets_entries _ Hnm) in *. unfold bind.
  destruct (WriteTrustListsMaterialized_atomic metadata_error_text work_dir news
    (MkPolicyCacheState (sr_source_url result) "fresh" (sr_last_sync result) true etag last_modified) Hnames Hd d Hf Hq Hrm Hfit) as (ok & d1 & -> & Hres).
  destruct ok; cbn [negb].
  2:{ destruct (FailureResult_disk result "Failed to write trust lists cache" d1) as (result' & d2 & E & Hr & Hd2). exists result', d2.
      rewrite Hr, Hd2. by split. }
  destruct (archive_within news d1) as [_ Hw]. destruct (archive_each work_dir news d1) as [[] d2] eqn:Ear. cbn [snd] in Hw.
  eexists _, d2. split; [done|]. cbn. exists news, etag, last_modified. destruct Hres as (R1 & R2 & _ & R4).
  assert (forall t, t ∈ cache_targets work_dir news -> dk_nodes d2 !! tg_path t = dk_nodes d1 !! tg_path t) as Hsame.
  { intros t Ht. apply Hw. by apply (target_not_in_history news). }
  split_and!; [done|..].
  - intros e He. rewrite <- (R1 e He). apply (Hsame (MkTarget (TrustListPath work_dir (ce_filename e)) false)).
    apply elem_of_app. left. apply list_elem_of_fmap. by exists e.
  - rewrite <- E1, <- E2, <- R2. apply (Hsame (state_target work_dir)), elem_of_app. right. by left.
  - intros s Hs. rewrite <- (R4 s Hs). by apply (Hsame (MkTarget s true)), store_target.
Qed.

End AllOrNothing.

(** ** A synchronisation *)

Module SampleSync.
Import XmlDsig.SampleSignature.

#[local] Existing Instances lp64 toy_cert_api toy_metadata_api toy_clock toy_crypto toy_digests.

(** A list with one granted service, of a given type, that has the certificate of an end entity or a CA. *)
Definition list_tree (service_type : string) (certificate : bytes) : xmlNode :=
  let el (name content : string) := Element name "" [] [Text content] in
  Element "TrustServiceStatusList" "" []
    [Element "TrustServiceProvider" "" []
       [el "Name" "Provider";
        Element "TSPService" "" []
          [el "ServiceTypeIdentifier" service_type;
           el "ServiceStatus" "http://czo.gov.ua/TrstSvc/TrustedList/Svcstatus/granted";
           el "X509Certificate" (Base64.Base64Encode certificate)]]].

Definition list_xml (service_type : string) (certificate : bytes) : LibXml :=
  {| xmlReadMemory _ := Some (MkXmlDoc false (Some (list_tree service_type certificate))) |}.

Definition served : bytes := map Ascii.byte_of_ascii (chars "<list/>").

Definition server : SyncWorld := {|
  http_get url _ _ :=
    MkHttpGetResult true 200 "" "ETag: v1"
      (if url ==s "https://host/tl.xml" then served else map Ascii.byte_of_ascii (chars (LowerHex (Sha256 served))));
  xml_signatures_enabled := false
|}.

#[local] Existing Instance server.

Definition sample_settings : TrustListSettings := TrustListSettings_default <| ts_url := "https://host/tl.xml" |>.

Definition empty_disk : Disk := MkDisk ∅ [] [] [].

Definition sample_sync (service_type : string) (certificate : bytes) : TrustListSyncResult * Disk :=
  Sync (Libxml := list_xml service_type certificate) (fun _ => "") "w" sample_settings empty_disk.

Definition ca_type : string := "http://czo.gov.ua/TrstSvc/Svctype/CA/QC".

Lemma sample_succeeds : sr_succeeded (sample_sync ca_type toy_ca).1 = true.
Proof. vm_compute. reflexivity. Qed.

Lemma Sync_all_or_nothing_witness :
  synchronised (Libxml := list_xml ca_type toy_ca) (fun _ => "") "w" sample_settings (sample_sync ca_type toy_ca).2.
Proof.
  destruct (Sync_all_or_nothing (Libxml := list_xml ca_type toy_ca) (fun _ => "") "w" sample_settings empty_disk) as (result & d' & E & Hres).
  - vm_compute. lia.
  - constructor.
  - intros t p n _ _ Hn. cbn [empty_disk dk_nodes] in Hn. by rewrite lookup_empty in Hn.
  - intros t n _ Hn. cbn [empty_disk dk_nodes] in Hn. by rewrite lookup_empty in Hn.
  - pose proof sample_succeeds as Hs. unfold sample_sync in *. rewrite E in Hs |- *. cbn [fst snd] in Hs |- *.
    by rewrite Hs in Hres.
Defined.

(** A list whose only granted service is of the type TSA/QTST passes the check for anchors, but none of
    its certificates is put into a store: the synchronisation succeeds and empties the stores. *)
Example tsa_qtst_list :
  let '(result, d) := sample_sync "http://czo.gov.ua/TrstSvc/Svctype/TSA/QTST" toy_leaf in
  sr_succeeded result = true /\
  forallb (fun s => match dk_nodes d !! s with Some (Dir files) => bool_decide (files = ∅) | _ => false end) (stores "w") = true.
Proof. vm_compute. split; reflexivity. Qed.

End SampleSync.
