(* ===== verification/Session.v ===== *)
(** * Session: verifying data, and the ownership of the report

    Models the verification handlers [VerifyData], [VerifyDataBase64],
    [VerifyDataInternal], [VerifyDataInternalBase64] of
    [core/session/SessionCryptoOps.ipp] with the helpers of
    [core/session/SessionStateAndNormalization.ipp], and
    [core/session/VerifyReportOwnership.h].

    A handler takes a snapshot of the settings under the session's mutex, computes
    without it, and commits under it; another thread can commit its own report in
    between and after.  The epochs are the 64-bit counters of the source; the
    interleavings of commits and later refinements are the traces of [run_events].

    The verification of the CMS structure, the extraction of the claimed time and
    the download of missing issuers are the class [SessionApi].  The text of the
    user report, recomputed from the report at every change, is not modelled. *)

From S2P Require Import Prelude CxxString Types Time Der Codec Sha256 Cryptonite Fixture X509Name Chain.
From S2P Require Import PathEngine Crl Ocsp Revocation Resolvers TrustList Evidence Timestamp Validation Report Projection.

Local Open Scope Z_scope.

Record Settings := MkSettings {
  sg_offline_mode : bool;
  sg_work_dir : string;
  sg_trust_mode : string;
  sg_validation_level : string;
  sg_allow_aia_issuer_fetch : bool
}.

#[export] Instance eta_Settings : Eta Settings := fun r =>
  MkSettings (sg_offline_mode r) (sg_work_dir r) (sg_trust_mode r) (sg_validation_level r)
  (sg_allow_aia_issuer_fetch r).

Definition Settings_default : Settings :=
  MkSettings true "" "strict" "standard" false.

Record OcspSettings := MkOcspSettings {
  og_url : string;
  og_use_nonce : bool;
  og_timeout_ms : Z
}.

#[export] Instance eta_OcspSettings : Eta OcspSettings := fun r =>
  MkOcspSettings (og_url r) (og_use_nonce r) (og_timeout_ms r).

Definition OcspSettings_default : OcspSettings :=
  MkOcspSettings "" true 10000.

Record CmsSignerResult := MkCmsSignerResult {
  sr_index : Z;
  sr_signature_valid : bool;
  sr_certificate_der : bytes
}.

#[export] Instance eta_CmsSignerResult : Eta CmsSignerResult := fun r =>
  MkCmsSignerResult (sr_index r) (sr_signature_valid r) (sr_certificate_der r).

Definition CmsSignerResult_default : CmsSignerResult :=
  MkCmsSignerResult 0 false [].

Record VerifyPolicyInfo := MkVerifyPolicyInfo {
  pi_signer_certificate_present : bool;
  pi_certificate_time_valid : bool;
  pi_chain_checked : bool;
  pi_chain_valid : bool;
  pi_trust_checked : bool;
  pi_trust_valid : bool;
  pi_revocation_checked : bool;
  pi_policy : string;
  pi_trust_status : string;
  pi_message : string;
  pi_signer_certificate_der : bytes;
  pi_embedded_certificates_der : list bytes;
  pi_signer_count : Z;
  pi_verified_signer_count : Z;
  pi_signers : list CmsSignerResult
}.

#[export] Instance eta_VerifyPolicyInfo : Eta VerifyPolicyInfo := fun r =>
  MkVerifyPolicyInfo (pi_signer_certificate_present r) (pi_certificate_time_valid r)
  (pi_chain_checked r) (pi_chain_valid r) (pi_trust_checked r) (pi_trust_valid r)
  (pi_revocation_checked r) (pi_policy r) (pi_trust_status r) (pi_message r)
  (pi_signer_certificate_der r) (pi_embedded_certificates_der r) (pi_signer_count r)
  (pi_verified_signer_count r) (pi_signers r).

Definition VerifyPolicyInfo_default : VerifyPolicyInfo :=
  MkVerifyPolicyInfo false false false false false false false "crypto-integrity-only"
  "not-implemented" "" [] [] 0 0 [].

Record LastError := MkLastError {
  le_code : ErrorCode.t;
  le_message : string
}.

#[export] Instance eta_LastError : Eta LastError := fun r =>
  MkLastError (le_code r) (le_message r).

Definition LastError_default : LastError :=
  MkLastError ErrorCode.None "".

Record Session := MkSession {
  ss_is_initialized : bool;
  ss_settings : Settings;
  ss_ocsp_settings : OcspSettings;
  ss_last_error : LastError;
  ss_last_verify_report : VerifyReport;
  ss_last_signer_metadata : CertificateMetadata;
  ss_epoch : Z
}.

#[export] Instance eta_Session : Eta Session := fun r =>
  MkSession (ss_is_initialized r) (ss_settings r) (ss_ocsp_settings r) (ss_last_error r)
  (ss_last_verify_report r) (ss_last_signer_metadata r) (ss_epoch r).

Definition Session_default : Session :=
  MkSession false Settings_default OcspSettings_default LastError_default VerifyReport_default
  CertificateMetadata_default 0.

(** ** Ownership of the report *)

(** The global counter, and the epoch of the last commit of the running thread. *)
Record Epochs := MkEpochs { g_verify_report_epoch : Z; t_last_verify_commit_epoch : Z }.

Definition MarkCommitted (epochs : Epochs) (session : Session) : Epochs * Session :=
  let epoch := wrap 64 (g_verify_report_epoch epochs + 1) in
  (MkEpochs epoch epoch, session <| ss_epoch := epoch |>).

Definition StillOwnedByThisThread (epochs : Epochs) (session : Session) : bool :=
  negb (ss_epoch session =? 0) && (ss_epoch session =? t_last_verify_commit_epoch epochs).

(** ** Reports and errors of the session *)

Definition SetError (code : ErrorCode.t) (message : string) (session : Session) : Session :=
  session <| ss_last_error := MkLastError code message |>.

Definition ClearError (session : Session) : Session := session <| ss_last_error := LastError_default |>.

Definition ClearVerifyReport (session : Session) : Session :=
  session <| ss_last_verify_report := MakeClearedVerifyReport |>
    <| ss_last_signer_metadata := CertificateMetadata_default |>.

Definition SetVerifyReport (operation : string) (execution_succeeded signature_valid : bool)
    (error_code : ErrorCode.t) (message : string) (epochs : Epochs) (session : Session)
    : Epochs * Session :=
  let session := ClearVerifyReport session in
  MarkCommitted epochs (session <| ss_last_verify_report ::= fun report => CommitVerifyOutcome report
    (MkVerifyOutcome operation execution_succeeded signature_valid error_code message) |>).

Definition RecordVerifyFailure (operation : string) (error_code : ErrorCode.t) (message : string)
    (epochs : Epochs) (session : Session) : Epochs * Session :=
  let '(epochs, session) := SetVerifyReport operation false false error_code message epochs session in
  (epochs, SetError error_code message session).

Definition OverrideVerifyReportOperation (operation : string) (epochs : Epochs) (session : Session)
    : Session :=
  if negb (vr_has_result (ss_last_verify_report session)) then session
  else if negb (StillOwnedByThisThread epochs session) then session
  else session <| ss_last_verify_report ::= fun report => report <| vr_operation := operation |> |>.

(** ** The verification handlers *)

Class SessionApi `{TimestampApi} := {
  (** the error text, or the verdict and the facts of the CMS structure *)
  VerifyDetached : bytes -> bytes -> string + bool * VerifyPolicyInfo;
  (** the same with the content of an enveloping signature *)
  VerifyAttached : bytes -> string + bool * bytes * VerifyPolicyInfo;
  ExtractSigningTime : bytes -> option string;
  (** work directory, timeout, network allowed, signer, embedded certificates *)
  EnrichWithAiaIssuersIfNeeded : Disk -> string -> Z -> bool -> bytes -> list bytes -> list bytes * Disk
}.

Definition profile_of (trust_mode : string) : ValidationProfile.t :=
  if trust_mode ==s "strict" then ValidationProfile.Strict
  else if trust_mode ==s "ukraine-legal" then ValidationProfile.UkraineLegal
  else if trust_mode ==s "offline" then ValidationProfile.Offline
  else if trust_mode ==s "forensic" then ValidationProfile.Forensic
  else ValidationProfile.Compatibility.

Definition level_of (validation_level : string) : ValidationLevel.t :=
  if validation_level ==s "basic" then ValidationLevel.Basic
  else if validation_level ==s "extended" then ValidationLevel.Extended
  else if validation_level ==s "forensic" then ValidationLevel.Forensic
  else ValidationLevel.Standard.

Definition signature_entry (signer : CmsSignerResult) : SignatureEntry :=
  SignatureEntry_default <| se_index := sr_index signer |>
    <| se_signature_valid := sr_signature_valid signer |>
    <| se_signer_certificate_present := negb (is_empty (sr_certificate_der signer)) |>.

(** The local report before the engine runs. *)
Definition local_report (operation : string) (is_valid : bool) (info : VerifyPolicyInfo) : VerifyReport :=
  VerifyReport_default <| vr_has_result := true |> <| vr_execution_succeeded := true |>
    <| vr_signature_valid := is_valid |> <| vr_operation := operation |>
    <| vr_error_code := ErrorCode.None |> <| vr_message := BuildVerifyMessage true is_valid "" |>
    <| vr_signer_certificate_present := pi_signer_certificate_present info |>
    <| vr_cms_signer_count := pi_signer_count info |>
    <| vr_cms_verified_signer_count := pi_verified_signer_count info |>
    <| vr_signatures := map signature_entry (pi_signers info) |>.

Section Handlers.
Context `{Clock, !Platform, !CertApi, !Validators, !TimestampApi, !StoreApi, !LibXml, !MetadataApi,
  !SessionApi}.

Definition context_of (settings : Settings) (ocsp : OcspSettings) (signature : bytes) (is_valid : bool)
    : ValidationContext :=
  ValidationContext_default <| vc_profile := profile_of (sg_trust_mode settings) |>
    <| vc_level := level_of (sg_validation_level settings) |>
    <| vc_offline := sg_offline_mode settings |> <| vc_work_dir := sg_work_dir settings |>
    <| vc_cms_der := signature |> <| vc_signature_crypto_valid := is_valid |>
    <| vc_ocsp_url := if sg_offline_mode settings then "" else og_url ocsp |>
    <| vc_claimed_signing_time := default "" (ExtractSigningTime signature) |>.

(** The certificates given to the engine, with the issuers downloaded when that is allowed. *)
Definition engine_certificates (disk : Disk) (settings : Settings) (ocsp : OcspSettings)
    (info : VerifyPolicyInfo) : list bytes * Disk :=
  EnrichWithAiaIssuersIfNeeded disk (sg_work_dir settings)
    (og_timeout_ms ocsp) (negb (sg_offline_mode settings) && sg_allow_aia_issuer_fetch settings)
    (pi_signer_certificate_der info) (pi_embedded_certificates_der info).

(** The call of the engine and the projection, when the signature is valid. *)
Definition apply_engine (disk : Disk) (settings : Settings) (ocsp : OcspSettings) (signature : bytes)
    (info : VerifyPolicyInfo) (report : VerifyReport) : outcome (VerifyReport * Disk) :=
  let '(embedded_certs, disk) := engine_certificates disk settings ocsp info in
  let '(ve_report, disk) := Validation.Validate disk (context_of settings ocsp signature true)
    (pi_signer_certificate_der info) embedded_certs in
  report ← ApplyValidationEngineReport ve_report report;
  Ret (report, disk).

(** The metadata of the signer, kept only when it could be read. *)
Definition signer_metadata (info : VerifyPolicyInfo) : outcome (option CertificateMetadata) :=
  if is_empty (pi_signer_certificate_der info) then Ret None else
  match ExtractCertificateMetadata (pi_signer_certificate_der info) with
  | UB => UB
  | Fails => Ret None
  | Ret metadata => Ret (Some metadata)
  end.

(** Without the mutex: the report, the metadata and the disk. *)
Definition compute_report (operation : string) (disk : Disk) (settings : Settings) (ocsp : OcspSettings)
    (signature : bytes) (is_valid : bool) (info : VerifyPolicyInfo)
    : outcome (VerifyReport * option CertificateMetadata * Disk) :=
  let report := local_report operation is_valid info in
  metadata ← signer_metadata info;
  '(report, disk) ← (if is_valid then apply_engine disk settings ocsp signature info report
                     else Ret (report, disk));
  let report := if is_valid && negb (vr_trust_valid report) && vr_trust_checked report
    then report <| vr_error_code := TrustFailureErrorCode report |> else report in
  Ret (report, metadata, disk).

(** Under the mutex again. *)
Definition commit_report (report : VerifyReport) (metadata : option CertificateMetadata)
    (epochs : Epochs) (session : Session) : Epochs * Session :=
  let '(epochs, session) := MarkCommitted epochs (session <| ss_last_verify_report := report |>) in
  let session := match metadata with
    | Some metadata => session <| ss_last_signer_metadata := metadata |>
    | None => session
    end in
  (epochs, ClearError session).

(** The state a handler works on. *)
Record State := MkState { z_epochs : Epochs; z_session : Session; z_disk : Disk }.

Definition fail_with (operation : string) (code : ErrorCode.t) (message : string) (st : State) : State :=
  let '(epochs, session) := SetVerifyReport operation false false code message (z_epochs st) (z_session st) in
  MkState epochs (SetError code message session) (z_disk st).

(** The returned flag, [is_valid] and the state. *)
Definition VerifyData (data signature : bytes) (st : State) : outcome (bool * bool * State) :=
  let session := z_session st in
  if negb (ss_is_initialized session) then
    Ret (false, false, fail_with "VerifyData" ErrorCode.NotInitialized
                         (ErrorCode_ToString ErrorCode.NotInitialized) st)
  else
  match VerifyDetached data signature with
  | inl error_message =>
      Ret (false, false, fail_with "VerifyData" ErrorCode.InvalidArgument error_message st)
  | inr (is_valid, info) =>
      '(report, metadata, disk) ← compute_report "VerifyData" (z_disk st) (ss_settings session)
                                    (ss_ocsp_settings session) signature is_valid info;
      let '(epochs, session) := commit_report report metadata (z_epochs st) session in
      Ret (true, is_valid, MkState epochs session disk)
  end.

Definition VerifyDataBase64 (data : bytes) (signature_base64 : string) (st : State)
    : outcome (bool * bool * State) :=
  match Base64.Base64Decode signature_base64 with
  | None => Ret (false, false, fail_with "VerifyDataBase64" ErrorCode.InvalidArgument
                                 "Signature Base64 is invalid" st)
  | Some signature =>
      '(result, is_valid, st) ← VerifyData data signature st;
      Ret (result, is_valid, MkState (z_epochs st)
        (OverrideVerifyReportOperation "VerifyDataBase64" (z_epochs st) (z_session st)) (z_disk st))
  end.

(** The returned flag, [is_valid], the content when the check ran, and the state. *)
Definition VerifyDataInternal (signed_data : bytes) (st : State)
    : outcome (bool * bool * option bytes * State) :=
  let session := z_session st in
  if negb (ss_is_initialized session) then
    Ret (false, false, None, fail_with "VerifyDataInternal" ErrorCode.NotInitialized
                             (ErrorCode_ToString ErrorCode.NotInitialized) st)
  else
  match VerifyAttached signed_data with
  | inl error_message =>
      Ret (false, false, None, fail_with "VerifyDataInternal" ErrorCode.InvalidArgument error_message st)
  | inr (is_valid, content, info) =>
      '(report, metadata, disk) ← compute_report "VerifyDataInternal" (z_disk st) (ss_settings session)
                                    (ss_ocsp_settings session) signed_data is_valid info;
      let '(epochs, session) := commit_report report metadata (z_epochs st) session in
      Ret (true, is_valid, Some content, MkState epochs session disk)
  end.

Definition VerifyDataInternalBase64 (signed_data_base64 : string) (st : State)
    : outcome (bool * bool * option bytes * State) :=
  match Base64.Base64Decode signed_data_base64 with
  | None => Ret (false, false, None, fail_with "VerifyDataInternalBase64" ErrorCode.InvalidArgument
                                       "Internal Base64 payload is invalid" st)
  | Some signed_data =>
      '(result, is_valid, content, st) ← VerifyDataInternal signed_data st;
      Ret (result, is_valid, content, MkState (z_epochs st)
        (OverrideVerifyReportOperation "VerifyDataInternalBase64" (z_epochs st) (z_session st)) (z_disk st))
  end.

(** ** Every handler returns, and what its report means *)

Lemma signer_metadata_total (info : VerifyPolicyInfo) : exists m, signer_metadata info = Ret m.
Proof.
  unfold signer_metadata. destruct (is_empty _); [by eexists|].
  pose proof (ExtractCertificateMetadata_safe (pi_signer_certificate_der info)) as Hs.
  destruct (ExtractCertificateMetadata _); [by eexists..|done].
Qed.

(** The verdict fields do not depend on the error code. *)
Lemma error_code_verdicts (r : VerifyReport) (c : ErrorCode.t) :
  let r' := r <| vr_error_code := c |> in
  SummaryCheck r' = SummaryCheck r /\ PolicyCheck r' = PolicyCheck r.
Proof. done. Qed.

Lemma local_report_committed (operation : string) (info : VerifyPolicyInfo) :
  Committed (local_report operation true info).
Proof. by split. Qed.

Lemma compute_report_spec (operation : string) (disk : Disk) (settings : Settings) (ocsp : OcspSettings)
    (signature : bytes) (is_valid : bool) (info : VerifyPolicyInfo) :
  exists report metadata disk'',
    compute_report operation disk settings ocsp signature is_valid info = Ret (report, metadata, disk'') /\
    vr_has_result report = true /\
    (ck_status (SummaryCheck report) = "valid" ->
     is_valid = true /\
     exists disk' embedded, engine_certificates disk settings ocsp info = (embedded, disk') /\
       let ve := (Validation.Validate disk' (context_of settings ocsp signature true)
                    (pi_signer_certificate_der info) embedded).1 in
       vd_overall_status (rpt_decision ve) = OverallStatus.Valid /\
       rr_revocation_status (rpt_signer_revocation ve) = RevocationStatus.Good /\
       timestamp_acceptable ve /\
       (rpt_timestamp_attempted ve = true ->
        tr_valid (rpt_timestamp ve) = true /\ timestamp_entry_status (rpt_timestamp ve) = "timestamp-valid") /\
       (report_path_trusted ve = true -> pr_uses_historical_trust (ps_selected_result (rpt_path_selection ve)) = false)).
Proof.
  unfold compute_report. destruct (signer_metadata_total info) as [m Hm].
  unfold mbind, outcome_bind. rewrite Hm. destruct is_valid.
  2: { eexists _, _, _. split; [done|]. split; [done|]. done. }
  unfold apply_engine.
  destruct (engine_certificates _ _ _ _) as [embedded disk'] eqn:Ee.
  destruct (Validation.Validate disk' _ _ _) as [ve disk''] eqn:Ev.
  destruct (projected_agreement disk' (context_of settings ocsp signature true)
    (pi_signer_certificate_der info) embedded _ (local_report_committed operation info)) as (r & Hr & Hh & Hp).
  rewrite Ev in Hr, Hp. cbn [fst] in Hr, Hp. unfold mbind, outcome_bind. rewrite Hr.
  eexists _, _, _. split; [done|]. split; [by destruct (true && _ && _)|].
  intros Hv. split; [done|].
  exists disk', embedded. split; [done|]. cbn zeta.
  assert (ck_status (SummaryCheck r) = "valid") as Hs.
  { revert Hv. destruct (true && _ && _); [|done]. by rewrite (proj1 (error_code_verdicts _ _)). }
  pose proof (projected_summary disk' (context_of settings ocsp signature true) (pi_signer_certificate_der info) embedded
    (local_report operation true info) r) as Hsum. rewrite Ev in Hsum |- *. cbn [fst] in Hsum |- *.
  destruct (Hsum Hr Hs) as [Hts Hcur]. destruct (proj1 Hp (summary_valid_policy r Hs)) as (? & ? & ?). by split_and!.
Qed.

(** The chain and the timestamp of a run whose summary is "valid": the path that was selected is a chain of valid certificates to a valid
    anchor that the policy admits now, and a timestamp that was looked at is valid in full. *)
Definition trusted_in_full (disk : Disk) (context : ValidationContext) (signer : bytes) (embedded : list bytes) (ve : ValidationReport)
    : Prop :=
  (exists candidate,
     candidate ∈ Build (path_input_of (load_stores disk (vc_work_dir context)) (rp_policy (PolicyResolver_Resolve context)) signer embedded
                          (st_signature_evaluation_time (rpt_signing_time_resolution ve))) /\
     ps_selected_result (rpt_path_selection ve) = PathValidator_Validate candidate /\
     chain_to_anchor (chain_input candidate) /\ pc_uses_historical_trust candidate = false) /\
  (rpt_timestamp_attempted ve = true ->
   tr_valid (rpt_timestamp ve) = true /\ timestamp_entry_status (rpt_timestamp ve) = "timestamp-valid").

Lemma trusted_in_full_intro (disk : Disk) (context : ValidationContext) (signer : bytes) (embedded : list bytes)
    (ve := (Validation.Validate disk context signer embedded).1) :
  vd_overall_status (rpt_decision ve) = OverallStatus.Valid ->
  (rpt_timestamp_attempted ve = true ->
   tr_valid (rpt_timestamp ve) = true /\ timestamp_entry_status (rpt_timestamp ve) = "timestamp-valid") ->
  (report_path_trusted ve = true -> pr_uses_historical_trust (ps_selected_result (rpt_path_selection ve)) = false) ->
  trusted_in_full disk context signer embedded ve.
Proof.
  intros Hv Hts Hh. split; [|done].
  destruct (valid_chain disk context signer embedded Hv) as (c & Hc & _ & Hi & Hs & Ht & Hchain). fold ve in Hi, Hs, Ht.
  exists c. split_and!; [done..|]. rewrite Hs in Hh. cbn in Hh. apply Hh. unfold report_path_trusted, path_selected. rewrite Ht.
  by destruct (ps_selected_index _).
Qed.

Lemma VerifyData_grounds (data signature : bytes) (st : State) :
  exists result is_valid st', VerifyData data signature st = Ret (result, is_valid, st') /\
    vr_has_result (ss_last_verify_report (z_session st')) = true /\
    (ck_status (SummaryCheck (ss_last_verify_report (z_session st'))) = "valid" ->
     let s := z_session st in
     result = true /\ is_valid = true /\ ss_is_initialized s = true /\
     exists info disk embedded,
       VerifyDetached data signature = inr (true, info) /\
       engine_certificates (z_disk st) (ss_settings s) (ss_ocsp_settings s) info = (embedded, disk) /\
       let context := context_of (ss_settings s) (ss_ocsp_settings s) signature true in
       let ve := (Validation.Validate disk context (pi_signer_certificate_der info) embedded).1 in
       ValidGrounds disk context (pi_signer_certificate_der info) embedded ve /\
       rr_revocation_status (rpt_signer_revocation ve) = RevocationStatus.Good /\
       trusted_in_full disk context (pi_signer_certificate_der info) embedded ve).
Proof.
  unfold VerifyData. destruct (ss_is_initialized (z_session st)) eqn:Ei; cbn [negb].
  2: { eexists _, _, _. split; [done|]. split; [done|]. done. }
  destruct (VerifyDetached data signature) as [e|[is_valid info]].
  { eexists _, _, _. split; [done|]. split; [done|]. done. }
  destruct (compute_report_spec "VerifyData" (z_disk st) (ss_settings (z_session st))
    (ss_ocsp_settings (z_session st)) signature is_valid info) as (r & m & d & Hc & Hh & Hs).
  unfold mbind, outcome_bind. rewrite Hc. unfold commit_report. cbn [MarkCommitted].
  eexists _, _, _. split; [done|]. split; [by destruct m|]. intros Hv.
  assert (ck_status (SummaryCheck r) = "valid") as Hr by by destruct m.
  destruct (Hs Hr) as (-> & disk' & embedded & He & Hov & Hg & Ht & Hts & Hcur). split; [done|]. split; [done|].
  split; [done|]. exists info, disk', embedded. split; [done|]. split; [done|]. cbn zeta.
  split; [by apply valid_grounds|]. split; [done|]. by apply trusted_in_full_intro.
Qed.

(** [C1] The verification of a detached signature always returns.  When the summary of the report
    it leaves in the session is "valid", the session was initialised, the CMS check succeeded
    and said the signature is valid, and the engine, run on the certificates of this signature
    with the settings of this session, answered [Valid] on grounds that hold: an admitted anchor; a chain of certificates, each valid at
    the evaluation time and issued by the next one, from the signer's to a valid anchor of a current store; no revocation, with the conclusive
    status [Good]; and a timestamp, if there is one, that is valid in full. *)
Theorem VerifyData_end_to_end (data signature : bytes) (st : State) :
  exists result is_valid st', VerifyData data signature st = Ret (result, is_valid, st') /\
    vr_has_result (ss_last_verify_report (z_session st')) = true /\
    (ck_status (SummaryCheck (ss_last_verify_report (z_session st'))) = "valid" ->
     let s := z_session st in
     result = true /\ is_valid = true /\ ss_is_initialized s = true /\
     exists info disk embedded,
       VerifyDetached data signature = inr (true, info) /\
       engine_certificates (z_disk st) (ss_settings s) (ss_ocsp_settings s) info = (embedded, disk) /\
       let context := context_of (ss_settings s) (ss_ocsp_settings s) signature true in
       let ve := (Validation.Validate disk context (pi_signer_certificate_der info) embedded).1 in
       ValidGrounds disk context (pi_signer_certificate_der info) embedded ve /\
       rr_revocation_status (rpt_signer_revocation ve) = RevocationStatus.Good /\
       trusted_in_full disk context (pi_signer_certificate_der info) embedded ve).
Proof. apply VerifyData_grounds. Qed.
End Handlers.

(** ** Interleavings of commits and refinements *)

(** A thread commits a report to a session, or refines the one it finds there. *)
Inductive event :=
| Commit (thread session : nat) (report : VerifyReport) (metadata : option CertificateMetadata)
| Refine (thread session : nat) (operation : string).

Record World := MkWorld { w_counter : Z; w_threads : gmap nat Z; w_sessions : gmap nat Session }.

Definition initial_world : World := MkWorld 0 ∅ ∅.

Definition session_of (w : World) (s : nat) : Session := default Session_default (w_sessions w !! s).
Definition epochs_of (w : World) (t : nat) : Epochs := MkEpochs (w_counter w) (default 0 (w_threads w !! t)).

Definition step (w : World) (ev : event) : World :=
  match ev with
  | Commit t s report metadata =>
      let '(epochs, session) := commit_report report metadata (epochs_of w t) (session_of w s) in
      MkWorld (g_verify_report_epoch epochs) (<[t := t_last_verify_commit_epoch epochs]> (w_threads w))
        (<[s := session]> (w_sessions w))
  | Refine t s operation =>
      MkWorld (w_counter w) (w_threads w)
        (<[s := OverrideVerifyReportOperation operation (epochs_of w t) (session_of w s)]> (w_sessions w))
  end.

Definition run_events (trace : list event) : World := foldl step initial_world trace.

(** The commits of a trace: who, and where. *)
Definition commits (trace : list event) : list (nat * nat) :=
  omap (fun ev => match ev with Commit t s _ _ => Some (t, s) | Refine _ _ _ => None end) trace.

(** The position of the last element that satisfies [p]. *)
Definition last_index {A} (p : A -> bool) (l : list A) : option nat :=
  (foldl (fun '(i, acc) x => (S i, if p x then Some i else acc)) (O, None) l).2.

Definition last_on (s : nat) (trace : list event) : option nat :=
  last_index (fun c => Nat.eqb c.2 s) (commits trace).
Definition last_by (t : nat) (trace : list event) : option nat :=
  last_index (fun c => Nat.eqb c.1 t) (commits trace).

Lemma last_index_snoc {A} (p : A -> bool) (l : list A) (x : A) :
  last_index p (l ++ [x]) = if p x then Some (length l) else last_index p l.
Proof.
  unfold last_index. rewrite foldl_app. cbn.
  assert (forall i acc, (foldl (fun '(i, acc) x => (S i, if p x then Some i else acc)) (i, acc) l).1
    = (i + length l)%nat) as H.
  { induction l as [|y l IH]; intros i acc; cbn; [lia|]. rewrite IH. lia. }
  specialize (H O None). destruct (foldl _ _ l) as [i acc]. cbn in *. subst. by destruct (p x).
Qed.

(** The epoch of a position: commits are numbered from one. *)
Definition epoch_at (k : option nat) : Z := match k with Some k => Z.of_nat k + 1 | None => 0 end.

Lemma refine_epoch (w : World) (t s : nat) (operation : string) (s' : nat) :
  ss_epoch (session_of (step w (Refine t s operation)) s') = ss_epoch (session_of w s').
Proof.
  unfold session_of. cbn. destruct (decide (s = s')) as [->|Hne].
  - rewrite lookup_insert_eq. cbn. unfold OverrideVerifyReportOperation. repeat case_match; done.
  - by rewrite lookup_insert_ne.
Qed.

Lemma commit_world (w : World) (t s : nat) (report : VerifyReport) (metadata : option CertificateMetadata)
    (w' := step w (Commit t s report metadata)) :
  let epoch := wrap 64 (w_counter w + 1) in
  w_counter w' = epoch /\
  (forall s', ss_epoch (session_of w' s') = if Nat.eqb s s' then epoch else ss_epoch (session_of w s')) /\
  (forall t', default 0 (w_threads w' !! t') = if Nat.eqb t t' then epoch else default 0 (w_threads w !! t')).
Proof.
  subst w'. cbn. split; [done|]. split.
  - intros s'. unfold session_of. cbn. destruct (Nat.eqb_spec s s') as [->|Hne].
    + rewrite lookup_insert_eq. by destruct metadata.
    + by rewrite lookup_insert_ne.
  - intros t'. destruct (Nat.eqb_spec t t') as [->|Hne]; [by rewrite lookup_insert_eq|by rewrite lookup_insert_ne].
Qed.

(** The epochs of every reachable state are the positions of the last commits. *)
Lemma epochs_invariant (trace : list event) :
  Z.of_nat (length (commits trace)) < 2 ^ 64 ->
  w_counter (run_events trace) = Z.of_nat (length (commits trace)) /\
  (forall s, ss_epoch (session_of (run_events trace) s) = epoch_at (last_on s trace)) /\
  (forall t, default 0 (w_threads (run_events trace) !! t) = epoch_at (last_by t trace)).
Proof.
  induction trace as [|ev trace IH] using rev_ind; [done|].
  unfold last_on, last_by, commits, run_events. rewrite foldl_app, omap_app. cbn [foldl].
  fold (run_events trace). fold (commits trace). destruct ev as [t s report metadata|t s operation].
  - cbn [omap list_omap]. rewrite length_app. cbn [length]. intros Hlen.
    destruct IH as (Hc & Hs & Ht); [lia|].
    destruct (commit_world (run_events trace) t s report metadata) as (-> & Hs' & Ht').
    assert (wrap 64 (w_counter (run_events trace) + 1) = Z.of_nat (length (commits trace)) + 1) as E.
    { rewrite Hc. unfold wrap. rewrite Z.mod_small; lia. }
    rewrite E in *. split; [lia|]. split.
    + intros s'. rewrite Hs', Hs, last_index_snoc. cbn. by destruct (Nat.eqb s s').
    + intros t'. rewrite Ht', Ht, last_index_snoc. cbn. by destruct (Nat.eqb t t').
  - cbn [omap list_omap]. rewrite app_nil_r. intros Hlen. destruct (IH Hlen) as (Hc & Hs & Ht).
    split; [done|]. split; [|done]. intros s'. by rewrite refine_epoch.
Qed.

(** In every interleaving of commits and refinements on any number of sessions and threads,
    short of a wrap of the 64-bit counter, a thread finds its report "still owned" exactly when
    the last commit on the session is the last commit the thread made: never another thread's
    report, never its own report of another session.  A refinement of anything else leaves every
    session as it is. *)
Theorem ownership_exact (trace : list event) (t s : nat) (operation : string) :
  Z.of_nat (length (commits trace)) < 2 ^ 64 ->
  let w := run_events trace in
  (StillOwnedByThisThread (epochs_of w t) (session_of w s) = true <->
   exists k, last_on s trace = Some k /\ last_by t trace = Some k) /\
  (~ (exists k, last_on s trace = Some k /\ last_by t trace = Some k) ->
   forall s', session_of (step w (Refine t s operation)) s' = session_of w s').
Proof.
  intros Hlen w. destruct (epochs_invariant trace Hlen) as (_ & Hs & Ht). fold w in Hs, Ht.
  assert (StillOwnedByThisThread (epochs_of w t) (session_of w s) = true <->
    exists k, last_on s trace = Some k /\ last_by t trace = Some k) as Hiff.
  { unfold StillOwnedByThisThread, epochs_of. cbn [t_last_verify_commit_epoch]. rewrite Hs, Ht.
    rewrite andb_true_iff, negb_true_iff, Z.eqb_neq, Z.eqb_eq. unfold epoch_at.
    destruct (last_on s trace) as [k|], (last_by t trace) as [k'|]; split;
      try (intros (? & [= ->] & [= ->])); try (intros (? & ? & ?)); try lia; try done.
    intros [_ E]. exists k. split; [done|]. f_equal. lia. }
  split; [done|]. intros Hno s'. rewrite <- Hiff in Hno. apply not_true_is_false in Hno.
  unfold session_of at 1. cbn. unfold OverrideVerifyReportOperation. rewrite Hno. cbn [negb].
  destruct (decide (s = s')) as [->|Hne].
  - rewrite lookup_insert_eq. by destruct (negb _).
  - by rewrite lookup_insert_ne.
Qed.

(** Two threads on one session: the refinement of the first does not touch the second's report. *)
Definition toy_trace : list event :=
  [Commit 1 7 VerifyReport_default None; Commit 2 7 VerifyReport_default None].

Lemma ownership_exact_witness :
  Z.of_nat (length (commits toy_trace)) < 2 ^ 64 /\
  StillOwnedByThisThread (epochs_of (run_events toy_trace) 2) (session_of (run_events toy_trace) 7) = true /\
  session_of (step (run_events toy_trace) (Refine 1 7 "VerifyFile")) 7 = session_of (run_events toy_trace) 7.
Proof.
  assert (Z.of_nat (length (commits toy_trace)) < 2 ^ 64) as Hlen by by vm_compute.
  split; [exact Hlen|]. split.
  - apply (ownership_exact toy_trace 2 7 "" Hlen). exists 1%nat. split; vm_compute; reflexivity.
  - apply (ownership_exact toy_trace 1 7 "VerifyFile" Hlen).
    intros (k & Hs & Ht). vm_compute in Hs, Ht. congruence.
Defined.

(** ** A concrete run: root in the store, a fresh list that does not name the signer *)

Section Example_.
#[local] Existing Instance toy_clock.
#[local] Existing Instance toy_cert_api.
#[local] Existing Instance toy_crl_api.
#[local] Existing Instance toy_ocsp_api.
#[local] Existing Instance toy_http.
#[local] Existing Instance toy_metadata_api.
#[local] Existing Instance toy_libxml.

Definition toy_disk_api : TimestampApi := {|
  Disk := unit;
  ValidateTimestampToken _ _ _ := TimestampValidationResult_default;
  ExtractTimestampToken _ := TimestampExtractionResult_default <| tx_failure_code := "TIMESTAMP_MISSING" |>;
  GetSignatureValue cms := inr cms;
  cert_aia _ := None;
  registry_ocsp_url _ _ _ := None;
  LoadCrlsFromWorkDir _ _ := [toy_crl_empty];
  DownloadAndCacheCrlsForCert disk _ _ _ := disk
|}.
#[local] Existing Instance toy_disk_api.

Definition toy_session_store : StoreApi := {|
  read_dir _ dir := if dir ==s "w/trust-store" then Some [("root.cer", true, Some toy_root)] else None;
  read_text _ _ := None;
  fs_relative _ _ _ := None
|}.
#[local] Existing Instance toy_session_store.

(** A signature is valid when it equals the data. *)
Definition toy_session_api : SessionApi := {|
  VerifyDetached data signature := inr (bool_decide (data = signature),
    VerifyPolicyInfo_default <| pi_signer_certificate_der := toy_leaf |>
      <| pi_embedded_certificates_der := [toy_ca] |>);
  VerifyAttached _ := inl "";
  ExtractSigningTime _ := None;
  EnrichWithAiaIssuersIfNeeded disk _ _ _ _ embedded := (embedded, disk)
|}.
#[local] Existing Instance toy_session_api.

Definition toy_session : Session :=
  Session_default <| ss_is_initialized := true |>
    <| ss_settings := Settings_default <| sg_work_dir := "w" |> |>.

(** What the session says of a detached signature. *)
Definition summary_of (session : Session) (data signature : bytes) : option (bool * bool * VerifyCheck) :=
  match VerifyData data signature (MkState (MkEpochs 0 0) session tt) with
  | Ret (result, is_valid, st) =>
      Some (result, is_valid, SummaryCheck (ss_last_verify_report (z_session st)))
  | _ => None
  end.

Example VerifyData_runs :
  (summary_of toy_session [x01] [x01], summary_of toy_session [x01] [x02],
   summary_of Session_default [x01] [x01])
  = (Some (true, true, MkVerifyCheck "valid" "SIGNATURE_VALID"),
     Some (true, false, MkVerifyCheck "invalid" "SIGNATURE_INVALID"),
     Some (false, false, MkVerifyCheck "invalid" "VERIFICATION_EXECUTION_FAILED")).
Proof. by vm_compute. Qed.
End Example_.
