(* ===== verification/Cms.v ===== *)
(** * Cms: signed data (src/src/lib/core/cryptonite)

    The operations of [CryptoniteAdapter] on CMS containers: the accessors of
    [CmsAttributeOps.cpp], the verification of [VerifyOps.cpp] and the certificate
    sets of [CertUtil.cpp].  The ASN.1 structures and the primitives of the vendored
    library are the class [CmsApi]; a function of it that returns a code and a value gives
    the code on the left when there is no value, which is [0] when the library says
    success and leaves the pointer null.  A certificate set is a sequence of entries, [None]
    being an entry that is not a certificate; the pointers into it that the source compares are
    positions in the sequence. *)

From stdpp Require Import gmap.
From S2P Require Import Prelude CxxString Types Time Der Cryptonite Fixture X509Name PathEngine Timestamp Session.

Local Open Scope Z_scope.
Local Open Scope tamga_scope.

(** ** Codes *)

Definition RET_OK : Z := 0.
Definition RET_INVALID_PARAM : Z := 2.
Definition RET_VERIFY_FAILED : Z := 3.
Definition PKIX_ERROR_NAME_CODE : Z := 0x0100.
Definition RET_PKIX_VERIFY_FAILED : Z := Z.lor PKIX_ERROR_NAME_CODE 0x0b.
Definition RET_PKIX_NO_CERTIFICATE : Z := Z.lor PKIX_ERROR_NAME_CODE 0x10.
Definition RET_PKIX_SDATA_WRONG_CONTENT_DATA : Z := Z.lor PKIX_ERROR_NAME_CODE 0x35.
Definition RET_PKIX_SDATA_WRONG_EXT_DATA : Z := Z.lor PKIX_ERROR_NAME_CODE 0x36.
Definition RET_PKIX_CINFO_NOT_SIGNED_DATA : Z := Z.lor PKIX_ERROR_NAME_CODE 0x40.
Definition RET_PKIX_SDATA_NO_SIGNERS : Z := Z.lor PKIX_ERROR_NAME_CODE 0x4a.
Definition RET_PKIX_SDATA_NO_CONTENT : Z := Z.lor PKIX_ERROR_NAME_CODE 0x4b.
Definition RET_PKIX_SDATA_VERIFY_CERT_V2_FAILED : Z := Z.lor PKIX_ERROR_NAME_CODE 0x59.

Definition IntegrityFailureRcCodes : list Z :=
  [RET_VERIFY_FAILED; RET_PKIX_VERIFY_FAILED; RET_PKIX_SDATA_WRONG_CONTENT_DATA; RET_PKIX_SDATA_WRONG_EXT_DATA;
   RET_PKIX_SDATA_VERIFY_CERT_V2_FAILED].

Definition IsIntegrityFailureRc (code : Z) : bool := existsb (Z.eqb code) IntegrityFailureRcCodes.

(** [rc == RET_OK ? code : rc]. *)
Definition or_code (rc code : Z) : Z := if rc =? RET_OK then code else rc.

Definition KEY_USAGE_DIGITAL_SIGNATURE : Z := 1.

(** ** The vendored library *)

(** [TSTInfo_t]: the octets of [genTime], the arcs of the algorithm of the imprint and its octets;
    an absent buffer is empty. *)
Record TSTInfo_t := MkTSTInfo { tst_gen_time : bytes; tst_hash_algorithm : list Z; tst_hashed_message : bytes }.

Class CmsApi `{CertApi} := {
  ContentInfo_t : Type;
  SignedData_t : Type;
  SignerInfo_t : Type;
  SignerIdentifier_t : Type;
  CertificateSet_t : Type;
  AlgorithmIdentifier_t : Type;
  AttributeValue_t : Type;
  DigestAdapter : Type;
  cinfo_decode : bytes -> Z + ContentInfo_t;
  cinfo_get_signed_data : ContentInfo_t -> Z + SignedData_t;
  sdata_get_certs : SignedData_t -> Z + CertificateSet_t;
  (** the certificates of a set, [None] for an entry of another kind *)
  set_entries : CertificateSet_t -> list (option Certificate_t);
  get_cert_set_from_cert_array : list bytes -> option CertificateSet_t;
  sdata_get_signer_infos : SignedData_t -> Z + list SignerInfo_t;
  sdata_set_signer_infos : SignedData_t -> list SignerInfo_t -> Z + SignedData_t;
  sdata_get_signer_info_by_idx : SignedData_t -> Z -> Z + SignerInfo_t;
  sinfo_get_signer_id : SignerInfo_t -> Z + SignerIdentifier_t;
  get_cert_by_sid_and_usage : SignerIdentifier_t -> Z -> CertificateSet_t -> Z + Certificate_t;
  (** the code that [cert_decode] returns when it fails *)
  cert_decode_rc : bytes -> Z;
  (** the code that [verify_adapter_init_by_cert] returns when it gives no adapter *)
  verify_adapter_init_rc : Certificate_t -> Z;
  digest_adapter_init_by_cert : Certificate_t -> Z + DigestAdapter;
  digest_adapter_init_by_aid : AlgorithmIdentifier_t -> Z + DigestAdapter;
  (** [set_digest_alg], a null pointer being [None]: the code and the adapter afterwards *)
  set_digest_alg : VerifyAdapter -> option (AlgorithmIdentifier_t -> Z * VerifyAdapter);
  (** [verify_hash], a null pointer being [None] *)
  verify_hash : VerifyAdapter -> option (bytes -> bytes -> Z);
  (** [update] and [final] on one input *)
  digest_run : DigestAdapter -> bytes -> Z + bytes;
  sinfo_digest_algorithm : SignerInfo_t -> AlgorithmIdentifier_t;
  sinfo_signature_algorithm : SignerInfo_t -> AlgorithmIdentifier_t;
  (** the arcs of the algorithm *)
  aid_arcs : AlgorithmIdentifier_t -> list Z;
  (** [pkix_check_oid_equal] with the object identifier of a dotted text *)
  aid_is : AlgorithmIdentifier_t -> string -> bool;
  (** the octets of the signature field; absent is empty *)
  sinfo_signature : SignerInfo_t -> bytes;
  (** the signature as the primitives take it *)
  sign_os_to_ba : SignerInfo_t -> Z + bytes;
  sdata_verify_external_data_by_adapter : SignedData_t -> DigestAdapter -> VerifyAdapter -> bytes -> Z -> Z;
  sdata_verify_internal_data_by_adapter : SignedData_t -> DigestAdapter -> VerifyAdapter -> Z -> Z;
  sdata_get_data : SignedData_t -> Z + bytes;
  sdata_econtent : SignedData_t -> bytes;
  sdata_get_tst_info : SignedData_t -> option TSTInfo_t;
  sdata_get_signing_time : SignedData_t -> Z -> option Z;
  (** the values of the signed attribute [messageDigest] *)
  signed_message_digest : SignerInfo_t -> Z + list AttributeValue_t;
  asn_encode_value : AttributeValue_t -> Z + bytes;
  decode_octet_string : bytes -> option bytes;
  (** the values of the unsigned attribute [id-aa-signatureTimeStampToken]; [None] when it is absent *)
  unsigned_timestamp_tokens : SignerInfo_t -> option (list bytes);
  (** [pkix_set_oid] with that type, [ASN_SET_ADD] of a value and [sinfo_add_unsigned_attr] *)
  pkix_set_timestamp_oid : Z;
  asn_set_add_rc : bytes -> Z;
  sinfo_add_unsigned_timestamp : SignerInfo_t -> bytes -> Z + SignerInfo_t;
  cinfo_init_by_signed_data : SignedData_t -> Z + ContentInfo_t;
  cinfo_encode : ContentInfo_t -> Z + bytes;
  cert_encode : Certificate_t -> option bytes
}.

Section CertificateSets.
Context `{HCms : CmsApi}.

Definition EncodeCertificateDer (certificate : Certificate_t) : option bytes :=
  match cert_encode certificate with Some (b :: der) => Some (b :: der) | _ => None end.

Definition CollectEmbeddedCertificatesDer (certs : CertificateSet_t) : list bytes :=
  omap (fun entry => entry ≫= EncodeCertificateDer) (set_entries certs).

(** The first certificate of the set after position [index], not yet visited, whose key verifies [certificate]. *)
Fixpoint find_issuer (certificate : Certificate_t) (entries : list (option Certificate_t)) (visited : list nat) (index : nat)
    : option (nat * Certificate_t) :=
  match entries with
  | [] => None
  | Some candidate :: entries' =>
      if bool_decide (index ∈ visited) then find_issuer certificate entries' visited (S index)
      else if VerifyCertificateByIssuer certificate candidate then Some (index, candidate)
      else find_issuer certificate entries' visited (S index)
  | None :: entries' => find_issuer certificate entries' visited (S index)
  end.

Definition FindIssuerCertificate (certificate : Certificate_t) (certs : CertificateSet_t) (visited : list nat)
    : option (nat * Certificate_t) := find_issuer certificate (set_entries certs) visited 0.

End CertificateSets.

(** ** [CryptoniteAdapter] *)

Module Adapter.

Section Adapter.
Context `{HCms : CmsApi}.

(** *** [CmsAttributeOps.cpp] *)

(** The code of a stage with the text of the operation. *)
Definition at_stage {A} (stage : string) (result : Z + A) : string + A :=
  match result with inl rc => inl (BuildRcError stage rc) | inr a => inr a end.

(** The signed data and the first signer of a container, or the stage that failed and its code. *)
Definition first_signer (operation : string) (cms_in : bytes) : string + SignedData_t * SignerInfo_t :=
  if is_empty cms_in then inl (operation +s+ ": empty CMS input")
  else
    let? content_info := at_stage (operation +s+ ": ContentInfo decode") (cinfo_decode cms_in) in
    let? signed_data := at_stage (operation +s+ ": cinfo_get_signed_data") (cinfo_get_signed_data content_info) in
    let? sinfo := at_stage (operation +s+ ": sdata_get_signer_info_by_idx") (sdata_get_signer_info_by_idx signed_data 0) in
    inr (signed_data, sinfo).

Definition HasSignatureTimestampToken (cms_in : bytes) : string + bool :=
  let? (_, sinfo) := first_signer "HasSignatureTimestampToken" cms_in in
  inr (match unsigned_timestamp_tokens sinfo with Some _ => true | None => false end).

Definition ExtractSignatureTimestampToken (cms_in : bytes) : string + bytes :=
  let? (_, sinfo) := first_signer "ExtractSignatureTimestampToken" cms_in in
  match unsigned_timestamp_tokens sinfo with
  | Some ((b :: token) :: _) => inr (b :: token)
  | Some ([] :: _) => inl "ExtractSignatureTimestampToken: signature timestamp token value is empty"
  | _ => inl "ExtractSignatureTimestampToken: signature timestamp token is missing"
  end.

(** The token is appended to the first signer; the result is read back before it is handed out. *)
Definition AppendTspToken (cms_in tsp_token_der : bytes) : string + bytes :=
  if is_empty cms_in || is_empty tsp_token_der then inl "AppendTspToken: empty CMS or TSP token"
  else
    let? content_info := at_stage "AppendTspToken: ContentInfo decode" (cinfo_decode cms_in) in
    let? signed_data := at_stage "AppendTspToken: cinfo_get_signed_data" (cinfo_get_signed_data content_info) in
    let no_signers (rc : Z) := BuildRcError "AppendTspToken: sdata_get_signer_infos" (or_code rc RET_PKIX_SDATA_NO_SIGNERS) in
    match sdata_get_signer_infos signed_data with
    | inl rc => inl (no_signers rc)
    | inr [] => inl (no_signers RET_OK)
    | inr (sinfo :: others) =>
        if negb (pkix_set_timestamp_oid =? RET_OK)
        then inl (BuildRcError "AppendTspToken: setting TSP OID" pkix_set_timestamp_oid)
        else if negb (asn_set_add_rc tsp_token_der =? RET_OK)
        then inl (BuildRcError "AppendTspToken: ASN_SET_ADD for TSP ANY" (asn_set_add_rc tsp_token_der))
        else
          let? sinfo := at_stage "AppendTspToken: sinfo_add_unsigned_attr" (sinfo_add_unsigned_timestamp sinfo tsp_token_der) in
          let? signed_data := at_stage "AppendTspToken: sdata_set_signer_infos"
            (sdata_set_signer_infos signed_data (sinfo :: others)) in
          let? content_info := at_stage "AppendTspToken: cinfo_init_by_signed_data" (cinfo_init_by_signed_data signed_data) in
          let? cms_out := at_stage "AppendTspToken: cinfo_encode" (cinfo_encode content_info) in
          let missing := "AppendTspToken: encoded CMS does not contain id-aa-signatureTimeStampToken" in
          match HasSignatureTimestampToken cms_out with
          | inr true => inr cms_out
          | inr false => inl missing
          | inl check_error => inl (missing +s+ ": " +s+ check_error)
          end
    end.

Definition ExtractSigningTime (cms_in : bytes) : option string :=
  match cms_in with
  | [] => None
  | _ =>
      match (let? content_info := cinfo_decode cms_in in cinfo_get_signed_data content_info) with
      | inl _ => None
      | inr signed_data =>
          match sdata_get_signing_time signed_data 0 with
          | Some signing_time => if signing_time <=? 0 then None else Some (iso_text signing_time)
          | None => None
          end
      end
  end.

Definition GetSignatureValue (cms_in : bytes) : string + bytes :=
  let? (_, sinfo) := first_signer "GetSignatureValue" cms_in in
  match sinfo_signature sinfo with
  | [] => inl "GetSignatureValue: signature field is empty"
  | signature_value => inr signature_value
  end.

Definition GetSignerDigestAlgorithmOid (cms_in : bytes) : string + string :=
  let? (_, sinfo) := first_signer "GetSignerDigestAlgorithmOid" cms_in in
  let out_digest_oid := OidFromAsn1 (aid_arcs (sinfo_digest_algorithm sinfo)) in
  if str_empty out_digest_oid then inl "GetSignerDigestAlgorithmOid: sinfo digestAlgorithm OID is empty"
  else inr out_digest_oid.

(** *** [VerifyOps.cpp] *)

(** The certificate that a signer identifier names: with [digitalSignature] first, then with any usage. *)
Definition ResolveSignerFromSet (signer_id : SignerIdentifier_t) (certs : CertificateSet_t) : Z + Certificate_t :=
  match get_cert_by_sid_and_usage signer_id KEY_USAGE_DIGITAL_SIGNATURE certs with
  | inr certificate => inr certificate
  | inl _ => get_cert_by_sid_and_usage signer_id 0 certs
  end.

Definition ExtractSignerCertificate (signed_data : SignedData_t) (signer_index : Z) : Z + Certificate_t :=
  let? signer_info := sdata_get_signer_info_by_idx signed_data signer_index in
  let? signer_id := sinfo_get_signer_id signer_info in
  match sdata_get_certs signed_data with
  | inl rc => inl (or_code rc RET_PKIX_NO_CERTIFICATE)
  | inr certs => ResolveSignerFromSet signer_id certs
  end.

(** The chain from a certificate through the set; [depth] is what is left of the loop. *)
Fixpoint walk_chain (depth : nat) (certs : CertificateSet_t) (current : Certificate_t) (visited : list nat)
    (policy_info : VerifyPolicyInfo) : VerifyPolicyInfo :=
  match depth with
  | O => policy_info <| pi_chain_valid := false |> <| pi_trust_valid := false |>
           <| pi_trust_status := "certificate-chain-cycle" |>
           <| pi_message := "Signature integrity verified, but embedded certificate chain contains a loop or exceeds expected depth." |>
  | S depth =>
      if IsCertificateSelfSigned current then
        policy_info <| pi_chain_valid := true |> <| pi_trust_valid := false |>
          <| pi_trust_status := "no-trust-store-configured" |>
          <| pi_message := "Signature integrity verified. Embedded certificate chain is structurally valid, but trust-store validation is not configured." |>
      else
        match FindIssuerCertificate current certs visited with
        | None =>
            policy_info <| pi_chain_valid := false |> <| pi_trust_valid := false |>
              <| pi_trust_status := "certificate-chain-incomplete" |>
              <| pi_message := "Signature integrity verified, but embedded certificate chain is incomplete or does not end in a self-signed issuer." |>
        | Some (index, issuer) =>
            if negb (cert_check_validity issuer) then
              policy_info <| pi_certificate_time_valid := false |> <| pi_chain_valid := false |> <| pi_trust_valid := false |>
                <| pi_trust_status := "certificate-chain-time-invalid" |>
                <| pi_message := "Signature integrity verified, but one of the embedded issuer certificates is outside its validity period." |>
            else walk_chain depth certs issuer (visited ++ [index]) policy_info
        end
  end.

(** The signer's certificate is a copy, so no position of the set is visited at first. *)
Definition EvaluateEmbeddedChainPolicy (signer_certificate : Certificate_t) (certs : CertificateSet_t) : VerifyPolicyInfo :=
  let policy_info := VerifyPolicyInfo_default <| pi_trust_checked := true |>
    <| pi_policy := "crypto-integrity-plus-embedded-chain" |> <| pi_trust_status := "signer-certificate-missing" |>
    <| pi_signer_certificate_present := true |> <| pi_chain_checked := true |> in
  if negb (cert_check_validity signer_certificate) then
    policy_info <| pi_certificate_time_valid := false |> <| pi_chain_valid := false |>
      <| pi_trust_status := "certificate-time-invalid" |>
      <| pi_message := "Signature integrity verified, but signer certificate is outside its validity period." |>
  else
    walk_chain (S (length (set_entries certs))) certs signer_certificate []
      (policy_info <| pi_certificate_time_valid := true |>).

(** The digest adapter: by the algorithm of the signer, else by the certificate. *)
Definition signer_digest_adapter (signed_data : SignedData_t) (signer_index : Z) (certificate : Certificate_t)
    : Z + DigestAdapter :=
  match sdata_get_signer_info_by_idx signed_data signer_index with
  | inr sinfo =>
      match digest_adapter_init_by_aid (sinfo_digest_algorithm sinfo) with
      | inr adapter => inr adapter
      | inl _ => digest_adapter_init_by_cert certificate
      end
  | inl _ => digest_adapter_init_by_cert certificate
  end.

(** The verification adapter with the digest algorithm of the signer; an error of the setter is ignored. *)
Definition signer_verify_adapter (signed_data : SignedData_t) (signer_index : Z) (adapter : VerifyAdapter) : VerifyAdapter :=
  match sdata_get_signer_info_by_idx signed_data signer_index, set_digest_alg adapter with
  | inr sinfo, Some set => snd (set (sinfo_digest_algorithm sinfo))
  | _, _ => adapter
  end.

(** One signer: the error text of the stage that failed, or the verdict and the certificate. *)
Definition VerifyCmsSignerAt (signed_data : SignedData_t) (signer_index : Z) (external_data : option bytes)
    : string + bool * bytes :=
  match ExtractSignerCertificate signed_data signer_index with
  | inl rc => inl (BuildRcError "signer certificate resolution" (or_code rc RET_PKIX_NO_CERTIFICATE))
  | inr certificate =>
      match verify_adapter_init_by_cert certificate with
      | None => inl (BuildRcError "verify adapter initialization" (verify_adapter_init_rc certificate))
      | Some adapter =>
          match signer_digest_adapter signed_data signer_index certificate with
          | inl rc => inl (BuildRcError "digest adapter initialization" rc)
          | inr digest =>
              let adapter := signer_verify_adapter signed_data signer_index adapter in
              let rc := match external_data with
                        | Some data => sdata_verify_external_data_by_adapter signed_data digest adapter data signer_index
                        | None => sdata_verify_internal_data_by_adapter signed_data digest adapter signer_index
                        end in
              let certificate_der := default [] (EncodeCertificateDer certificate) in
              if rc =? RET_OK then inr (true, certificate_der)
              else if IsIntegrityFailureRc rc then inr (false, certificate_der)
              else inl (BuildRcError (match external_data with
                                      | Some _ => "detached signature verification"
                                      | None => "attached signature verification"
                                      end) rc)
          end
      end
  end.

(** The signers from an index on, [count] of them; the first error ends the check. *)
Fixpoint verify_signers (count : nat) (signed_data : SignedData_t) (idx : Z) (external_data : option bytes)
    : string + list CmsSignerResult :=
  match count with
  | O => inr []
  | S count =>
      let? (signer_valid, certificate_der) := VerifyCmsSignerAt signed_data idx external_data in
      let? results := verify_signers count signed_data (idx + 1) external_data in
      inr (MkCmsSignerResult (idx + 1) signer_valid certificate_der :: results)
  end.

Definition with_signers (total : Z) (signers : list CmsSignerResult) (policy_info : VerifyPolicyInfo)
    : VerifyPolicyInfo :=
  policy_info <| pi_signer_count := total |> <| pi_verified_signer_count := Z.of_nat (length signers) |>
              <| pi_signers := signers |>.

(** The number of signers; one when the list cannot be read. *)
Definition signer_total (signed_data : SignedData_t) : Z :=
  match sdata_get_signer_infos signed_data with inr l => Z.of_nat (length l) | inl _ => 1 end.

(** The verdict, the content of an enveloping container and the facts about the structure. *)
Definition VerifyCms (external_data : option bytes) (signature : bytes) : string + bool * bytes * VerifyPolicyInfo :=
  match cinfo_decode signature with
  | inl rc => inl (BuildRcError "ContentInfo decoding" rc)
  | inr content_info =>
      match cinfo_get_signed_data content_info with
      | inl rc => inl (BuildRcError "SignedData extraction" (or_code rc RET_PKIX_CINFO_NOT_SIGNED_DATA))
      | inr signed_data =>
          match sdata_get_certs signed_data, ExtractSignerCertificate signed_data 0 with
          | inl rc, inl rc' =>
              inl (if rc =? RET_OK
                   then BuildRcError "signer certificate resolution" (or_code rc' RET_PKIX_NO_CERTIFICATE)
                   else BuildRcError "certificate set extraction" rc)
          | inl rc, inr _ => inl (BuildRcError "certificate set extraction" rc)
          | inr _, inl rc => inl (BuildRcError "signer certificate resolution" (or_code rc RET_PKIX_NO_CERTIFICATE))
          | inr certificates, inr signer_certificate =>
              if signer_total signed_data <? 1 then inl (BuildRcError "SignedData has no signers" RET_PKIX_SDATA_NO_SIGNERS)
              else
                let? signers := verify_signers (Z.to_nat (signer_total signed_data)) signed_data 0 external_data in
                if negb (forallb sr_signature_valid signers)
                then inr (false, [], with_signers (signer_total signed_data) signers VerifyPolicyInfo_default)
                else
                  let? content := match external_data with
                                  | Some _ => inr []
                                  | None =>
                                      match sdata_get_data signed_data with
                                      | inr content => inr content
                                      | inl rc => if (rc =? RET_OK) || (rc =? RET_PKIX_SDATA_NO_CONTENT) then inr []
                                                  else inl (BuildRcError "attached payload extraction" rc)
                                      end
                                  end in
                  inr (true, content, with_signers (signer_total signed_data) signers
                    ((EvaluateEmbeddedChainPolicy signer_certificate certificates)
                       <| pi_signer_certificate_der := default [] (EncodeCertificateDer signer_certificate) |>
                       <| pi_embedded_certificates_der := CollectEmbeddedCertificatesDer certificates |>))
          end
      end
  end.

Definition VerifyDetached (data signature : bytes) : string + bool * VerifyPolicyInfo :=
  let? (is_valid, _, policy_info) := VerifyCms (Some data) signature in inr (is_valid, policy_info).

Definition VerifyAttached (signed_data : bytes) : string + bool * bytes * VerifyPolicyInfo := VerifyCms None signed_data.

Definition VerifyHash (certificate_der hash signature : bytes) : string + bool * string :=
  match cert_decode certificate_der with
  | None => inl (BuildRcError "certificate decode" (cert_decode_rc certificate_der))
  | Some cert =>
      match verify_adapter_init_by_cert cert with
      | None => inl (BuildRcError "verify adapter init" (verify_adapter_init_rc cert))
      | Some adapter =>
          match verify_hash adapter with
          | None => inl "Верифікатор не підтримує verify_hash"
          | Some verify => inr (verify hash signature =? RET_OK, "")
          end
      end
  end.

(** *** What a verdict rests on *)

(** The library's answer about the signer at an index: its certificate, the adapters made of it and the code. *)
Definition signer_code (signed_data : SignedData_t) (index : Z) (external_data : option bytes)
    (certificate : Certificate_t) (rc : Z) : Prop :=
  exists adapter digest,
    ExtractSignerCertificate signed_data index = inr certificate /\
    verify_adapter_init_by_cert certificate = Some adapter /\
    signer_digest_adapter signed_data index certificate = inr digest /\
    rc = match external_data with
         | Some data => sdata_verify_external_data_by_adapter signed_data digest
                          (signer_verify_adapter signed_data index adapter) data index
         | None => sdata_verify_internal_data_by_adapter signed_data digest
                     (signer_verify_adapter signed_data index adapter) index
         end.

Lemma VerifyCmsSignerAt_spec (signed_data : SignedData_t) (index : Z) (external_data : option bytes)
    (valid : bool) (certificate_der : bytes) :
  VerifyCmsSignerAt signed_data index external_data = inr (valid, certificate_der) ->
  exists certificate rc, signer_code signed_data index external_data certificate rc /\
    certificate_der = default [] (EncodeCertificateDer certificate) /\
    (valid = true /\ rc = RET_OK \/ valid = false /\ rc <> RET_OK /\ IsIntegrityFailureRc rc = true).
Proof.
  unfold VerifyCmsSignerAt, signer_code. intros E.
  destruct (ExtractSignerCertificate signed_data index) as [?|certificate]; [done|].
  destruct (verify_adapter_init_by_cert certificate) as [adapter|] eqn:Ea; [|done].
  destruct (signer_digest_adapter signed_data index certificate) as [?|digest] eqn:Ed; [done|].
  exists certificate. eexists. split; [by exists adapter, digest|].
  match type of E with (if ?rc =? _ then _ else _) = _ => destruct (Z.eqb_spec rc RET_OK) as [Hrc|Hrc] end.
  { injection E as <- <-. auto. }
  destruct (IsIntegrityFailureRc _) eqn:Ei; [|done]. injection E as <- <-. auto.
Qed.

Lemma verify_signers_spec (count : nat) (signed_data : SignedData_t) (idx : Z) (external_data : option bytes)
    (results : list CmsSignerResult) :
  verify_signers count signed_data idx external_data = inr results ->
  length results = count /\
  forall i r, results !! i = Some r ->
    sr_index r = idx + Z.of_nat i + 1 /\
    VerifyCmsSignerAt signed_data (idx + Z.of_nat i) external_data = inr (sr_signature_valid r, sr_certificate_der r).
Proof.
  revert idx results. induction count as [|count IH]; intros idx results E; cbn [verify_signers] in E.
  { injection E as <-. done. }
  destruct (VerifyCmsSignerAt signed_data idx external_data) as [?|[valid der]] eqn:E1; [done|].
  destruct (verify_signers count signed_data (idx + 1) external_data) as [?|rs] eqn:E2; [done|]. injection E as <-.
  destruct (IH _ _ E2) as [Hl Hi]. split; [cbn; by rewrite Hl|]. intros [|i] r Hr.
  - injection Hr as <-. cbn. rewrite Z.add_0_r. done.
  - cbn in Hr. destruct (Hi i r Hr) as [-> ?]. replace (idx + Z.of_nat (S i)) with (idx + 1 + Z.of_nat i) by lia. done.
Qed.

(** A chain from a certificate through positions of the set to a self-signed certificate. *)
Fixpoint linked (certs : CertificateSet_t) (current : Certificate_t) (path : list (nat * Certificate_t)) : Prop :=
  match path with
  | [] => IsCertificateSelfSigned current = true
  | (index, issuer) :: path' =>
      set_entries certs !! index = Some (Some issuer) /\ VerifyCertificateByIssuer current issuer = true /\
      cert_check_validity issuer = true /\ linked certs issuer path'
  end.

Lemma find_issuer_spec (certificate : Certificate_t) (entries : list (option Certificate_t)) (visited : list nat)
    (start index : nat) (issuer : Certificate_t) :
  find_issuer certificate entries visited start = Some (index, issuer) ->
  exists k, index = (start + k)%nat /\ entries !! k = Some (Some issuer) /\ index ∉ visited /\
    VerifyCertificateByIssuer certificate issuer = true.
Proof.
  revert start. induction entries as [|[candidate|] entries IH]; intros start E; cbn [find_issuer] in E; [done| |].
  - assert (find_issuer certificate entries visited (S start) = Some (index, issuer) ->
      exists k, index = (start + k)%nat /\ (Some candidate :: entries) !! k = Some (Some issuer) /\ index ∉ visited /\
        VerifyCertificateByIssuer certificate issuer = true) as Hrest.
    { intros (k & -> & Hk & ? & ?)%IH. exists (S k). split_and!; [lia|done|by replace (start + S k)%nat with (S start + k)%nat by lia|done]. }
    case_bool_decide as Hv; [by apply Hrest|].
    destruct (VerifyCertificateByIssuer certificate candidate) eqn:Hver; [|by apply Hrest]. injection E as <- <-.
    exists 0%nat. by rewrite Nat.add_0_r.
  - destruct (IH _ E) as (k & -> & Hk & ? & ?). exists (S k). split_and!; [lia|done| |done].
    by replace (start + S k)%nat with (S start + k)%nat by lia.
Qed.

(** Positions that have been visited are distinct and inside the set, so they are not more than its size. *)
Lemma visited_bound (certs : CertificateSet_t) (visited : list nat) :
  NoDup visited -> Forall (fun i => (i < length (set_entries certs))%nat) visited ->
  (length visited <= length (set_entries certs))%nat.
Proof.
  intros Hnd Hb. rewrite <- (length_seq (length (set_entries certs)) 0). apply NoDup_incl_length; [by apply NoDup_ListNoDup|].
  intros i Hi. apply in_seq. rewrite Forall_forall in Hb. apply list_elem_of_In in Hi. specialize (Hb i Hi). lia.
Qed.

Lemma walk_chain_spec (depth : nat) (certs : CertificateSet_t) (current : Certificate_t) (visited : list nat)
    (policy_info : VerifyPolicyInfo) :
  NoDup visited -> Forall (fun i => (i < length (set_entries certs))%nat) visited ->
  (length visited + depth = S (length (set_entries certs)))%nat ->
  pi_chain_valid policy_info = false ->
  let r := walk_chain depth certs current visited policy_info in
  pi_trust_status r <> "certificate-chain-cycle" /\ pi_trust_valid r = false /\
  (pi_chain_valid r = true -> exists path, linked certs current path /\ NoDup (visited ++ map fst path)).
Proof.
  revert current visited. induction depth as [|depth IH]; intros current visited Hnd Hb Hlen Hpi; cbn [walk_chain].
  { pose proof (visited_bound certs visited Hnd Hb). lia. }
  destruct (IsCertificateSelfSigned current) eqn:Eself.
  { cbn. split_and!; [done|done|]. intros _. exists []. cbn. by rewrite app_nil_r. }
  destruct (FindIssuerCertificate current certs visited) as [[index issuer]|] eqn:Ef; [|done].
  destruct (find_issuer_spec _ _ _ _ _ _ Ef) as (k & -> & Hk & Hnew & Hver). cbn [Nat.add] in *.
  destruct (cert_check_validity issuer) eqn:Evalid; cbn [negb]; [|done].
  destruct (IH issuer (visited ++ [k])) as (Hs & Ht & Hc).
  - apply NoDup_app. split_and!; [done| |by apply NoDup_singleton]. intros x Hx ->%list_elem_of_singleton. done.
  - apply Forall_app. split; [done|]. constructor; [|done]. by eapply lookup_lt_Some.
  - rewrite length_app. cbn. lia.
  - done.
  - split_and!; [done|done|]. intros Hv. destruct (Hc Hv) as (path & Hp & Hn). exists ((k, issuer) :: path).
    rewrite <- app_assoc in Hn. by split_and!.
Qed.

(** The look at the embedded chain always ends with an answer other than the one for loops, never says that the
    signer is trusted, and calls the chain valid only when the certificates of the container link the signer,
    which is inside its validity period, to a self-signed certificate: each is verified by the key of the next,
    all are inside their validity periods and no position of the container is used twice. *)
Theorem EvaluateEmbeddedChainPolicy_sound (signer : Certificate_t) (certs : CertificateSet_t) :
  let r := EvaluateEmbeddedChainPolicy signer certs in
  pi_trust_status r <> "certificate-chain-cycle" /\ pi_trust_valid r = false /\
  (pi_chain_valid r = true ->
   cert_check_validity signer = true /\ exists path, linked certs signer path /\ NoDup (map fst path)).
Proof.
  unfold EvaluateEmbeddedChainPolicy. destruct (cert_check_validity signer); cbn [negb]; [|done].
  match goal with |- context [walk_chain ?d ?c ?s ?v ?i] => destruct (walk_chain_spec d c s v i) as (Hs & Ht & Hc) end;
    [constructor|done|done|done|].
  split_and!; [exact Hs|exact Ht|]. intros Hv. split; [done|]. exact (Hc Hv).
Qed.

(** A verdict is the conjunction of the verdicts about the signers, of which there is at least one. *)
Lemma VerifyCms_shape (external_data : option bytes) (signature : bytes) (is_valid : bool) (content : bytes)
    (info : VerifyPolicyInfo) :
  VerifyCms external_data signature = inr (is_valid, content, info) ->
  exists content_info signed_data signers extra,
    cinfo_decode signature = inr content_info /\ cinfo_get_signed_data content_info = inr signed_data /\
    1 <= signer_total signed_data /\
    verify_signers (Z.to_nat (signer_total signed_data)) signed_data 0 external_data = inr signers /\
    info = with_signers (signer_total signed_data) signers extra /\ is_valid = forallb sr_signature_valid signers.
Proof.
  unfold VerifyCms. intros E. destruct (cinfo_decode signature) as [?|content_info]; [done|].
  destruct (cinfo_get_signed_data content_info) as [?|signed_data] eqn:Es; [done|].
  destruct (sdata_get_certs signed_data) as [?|certs], (ExtractSignerCertificate signed_data 0) as [?|signer]; try done.
  destruct (signer_total signed_data <? 1) eqn:Et; [done|]. apply Z.ltb_ge in Et.
  destruct (verify_signers _ signed_data 0 external_data) as [?|signers] eqn:Ev; [done|].
  assert (exists extra, info = with_signers (signer_total signed_data) signers extra /\
    is_valid = forallb sr_signature_valid signers) as (extra & -> & ->).
  { destruct (forallb sr_signature_valid signers); cbn [negb] in E; [|injection E as <- _ <-; by eexists].
    match type of E with match ?m with inl _ => _ | inr _ => _ end = _ => destruct m as [?|c]; [done|] end.
    injection E as <- _ <-. by eexists. }
  by exists content_info, signed_data, signers, extra.
Qed.

(** [C12] The verdict about a container covers every signer in it: one result for each, in their order, and the
    signature is called valid exactly when the library accepted the signature of every one of them with the
    certificate its identifier names and the digest algorithm it states.  A signature that does not match is
    a verdict; any other code of the library is an error, of which no verdict is made. *)
Theorem VerifyCms_covers_every_signer (external_data : option bytes) (signature : bytes) (is_valid : bool)
    (content : bytes) (info : VerifyPolicyInfo) :
  VerifyCms external_data signature = inr (is_valid, content, info) ->
  exists content_info signed_data signers,
    cinfo_decode signature = inr content_info /\ cinfo_get_signed_data content_info = inr signed_data /\
    pi_signers info = signers /\ signers <> [] /\
    pi_signer_count info = Z.of_nat (length signers) /\ pi_verified_signer_count info = Z.of_nat (length signers) /\
    (forall infos, sdata_get_signer_infos signed_data = inr infos -> length signers = length infos) /\
    (is_valid = true <-> forall r, r ∈ signers -> sr_signature_valid r = true) /\
    forall i r, signers !! i = Some r ->
      sr_index r = Z.of_nat i + 1 /\
      exists certificate rc, signer_code signed_data (Z.of_nat i) external_data certificate rc /\
        sr_certificate_der r = default [] (EncodeCertificateDer certificate) /\
        (sr_signature_valid r = true /\ rc = RET_OK \/
         sr_signature_valid r = false /\ rc <> RET_OK /\ IsIntegrityFailureRc rc = true).
Proof.
  intros E. destruct (VerifyCms_shape _ _ _ _ _ E) as (content_info & signed_data & signers & extra & Ed & Es & Et & Ev & -> & ->).
  destruct (verify_signers_spec _ _ _ _ _ Ev) as [Hl Hi].
  exists content_info, signed_data, signers. cbn. split_and!; try done.
  - intros ->. cbn in Hl. lia.
  - lia.
  - intros infos Hinfos. unfold signer_total in Hl. rewrite Hinfos in Hl. lia.
  - rewrite forallb_forall. setoid_rewrite list_elem_of_In. done.
  - intros i r Hr. destruct (Hi i r Hr) as [Hidx Hone]. rewrite Z.add_0_l in Hone. split; [lia|].
    by apply VerifyCmsSignerAt_spec.
Qed.

End Adapter.
End Adapter.

(** ** A small library: a container is the list of the octets that its signers have signed *)

Module SampleCms.

#[local] Existing Instances toy_clock toy_cert_api.

(** A certificate of an issuer that nobody knows. *)
Definition toy_stranger : bytes := [x08; x09; x01; x00; x2b; x00].

(** A signer whose octet occurs in the data is accepted; every identifier but one names [toy_leaf], and the set holds
    its issuer and the root.  An algorithm is an octet, [x01] being Kupyna-256. *)
Definition toy_cms_api : CmsApi := {|
  ContentInfo_t := bytes;
  SignedData_t := bytes;
  SignerInfo_t := byte;
  SignerIdentifier_t := byte;
  CertificateSet_t := list bytes;
  AlgorithmIdentifier_t := byte;
  AttributeValue_t := bytes;
  DigestAdapter := unit;
  cinfo_decode der := inr der;
  cinfo_get_signed_data der := inr der;
  sdata_get_certs _ := inr [toy_leaf; toy_ca; toy_root];
  set_entries certs := map Some certs;
  get_cert_set_from_cert_array certs := Some certs;
  sdata_get_signer_infos der := inr der;
  sdata_set_signer_infos _ infos := inr infos;
  sdata_get_signer_info_by_idx der i := match der !! Z.to_nat i with Some b => inr b | None => inl RET_INVALID_PARAM end;
  sinfo_get_signer_id b := inr b;
  get_cert_by_sid_and_usage b usage certs := match certs with
    | c :: _ => inr (if bool_decide (b = x43) then toy_stranger else c)
    | [] => inl RET_PKIX_NO_CERTIFICATE
    end;
  cert_decode_rc _ := RET_INVALID_PARAM;
  verify_adapter_init_rc _ := RET_INVALID_PARAM;
  digest_adapter_init_by_cert _ := inr tt;
  digest_adapter_init_by_aid _ := inr tt;
  set_digest_alg adapter := Some (fun _ => (RET_OK, adapter));
  verify_hash _ := Some (fun hash sign => if bool_decide (hash = sign) then RET_OK else RET_VERIFY_FAILED);
  digest_run _ octets := inr octets;
  sinfo_digest_algorithm b := b;
  sinfo_signature_algorithm b := b;
  aid_arcs b := [u8 b];
  aid_is b _ := bool_decide (b = x01);
  sinfo_signature b := [b];
  sign_os_to_ba b := inr [b];
  sdata_verify_external_data_by_adapter der _ _ data i :=
    match der !! Z.to_nat i with
    | Some b => if bool_decide (b ∈ data) then RET_OK else RET_VERIFY_FAILED
    | None => RET_INVALID_PARAM
    end;
  sdata_verify_internal_data_by_adapter der _ _ _ := if bool_decide (last der = Some x00) then RET_VERIFY_FAILED else RET_OK;
  sdata_get_data der := inr der;
  sdata_econtent der := der;
  sdata_get_tst_info der := Some (MkTSTInfo [x32] [2; 16; 840; 1; 101; 3; 4; 2; 1] der);
  sdata_get_signing_time der _ := match der with [_] => Some 1709164799 | _ => None end;
  signed_message_digest _ := inr [];
  asn_encode_value value := inr value;
  decode_octet_string octets := Some octets;
  unsigned_timestamp_tokens b := if bool_decide (b = x02) then Some [[b]] else None;
  pkix_set_timestamp_oid := RET_OK;
  asn_set_add_rc _ := RET_OK;
  sinfo_add_unsigned_timestamp _ _ := inr x02;
  cinfo_init_by_signed_data der := inr der;
  cinfo_encode der := inr der;
  cert_encode c := Some c
|}.
#[local] Existing Instance toy_cms_api.

(** Two signers, both over the data; and two signers of which the second one has signed other data. *)
Definition both_valid : bool * bytes * VerifyPolicyInfo :=
  Eval vm_compute in match Adapter.VerifyCms (Some [x0a; x0b]) [x0a; x0b] with inr r => r | inl _ => (false, [], VerifyPolicyInfo_default) end.

Lemma both_valid_verified : Adapter.VerifyCms (Some [x0a; x0b]) [x0a; x0b] = inr (both_valid.1.1, both_valid.1.2, both_valid.2).
Proof. vm_compute. reflexivity. Qed.

Example second_signer_decides :
  match Adapter.VerifyCms (Some [x0a; x0b]) [x0a; x0c] with
  | inr (is_valid, _, info) => is_valid = false /\ map sr_signature_valid (pi_signers info) = [true; false]
  | inl _ => False
  end.
Proof. vm_compute. done. Qed.

Example appended_token : Adapter.AppendTspToken [x0a] [x30] = inr [x02] /\ Adapter.ExtractSigningTime [x0a] = Some "2024-02-28T23:59:59Z".
Proof. vm_compute. done. Qed.

Lemma VerifyCms_covers_every_signer_witness :
  exists content_info signed_data signers,
    cinfo_decode [x0a; x0b] = inr content_info /\ cinfo_get_signed_data content_info = inr signed_data /\
    pi_signers both_valid.2 = signers /\ signers <> [] /\
    (both_valid.1.1 = true <-> forall r, r ∈ signers -> sr_signature_valid r = true).
Proof.
  destruct (Adapter.VerifyCms_covers_every_signer (Some [x0a; x0b]) [x0a; x0b] both_valid.1.1 both_valid.1.2 both_valid.2
    both_valid_verified) as (ci & sd & signers & H1 & H2 & H3 & H4 & _ & _ & _ & H5 & _).
  exists ci, sd, signers. split; [exact H1|]. split; [exact H2|]. split; [exact H3|]. split; [exact H4|exact H5].
Defined.

End SampleCms.
