(* ===== verification/TokenValidator.v ===== *)
(** * TokenValidator: the cryptographic check of a timestamp token

    Models [core/policy/TimestampValidator.cpp]: the extraction of the token from a
    container, the raw encoding of the signed attributes and the validation of a token
    against the octets it is about.  It is built on the interface [CmsApi] and on the
    digests of [Imprint], and it discharges, with [Cms], the interfaces that
    the timestamp engine and the session use ([TimestampApi], [SessionApi]). *)

From stdpp Require Import gmap.
From S2P Require Import Prelude CxxString Types Time Der Imprint Sha256 Cryptonite Fixture X509Name Chain PathEngine Crl Ocsp.
From S2P Require Import Revocation Resolvers TrustList Evidence Timestamp Validation Report Projection Session Cms.

Local Open Scope Z_scope.
Local Open Scope tamga_scope.

(** ** The raw encoding of the signed attributes *)

Section RawAttributes.
Context {HPlat : Platform}.

(** A value of a tag at an offset. *)
Definition ParseTagged (data : bytes) (offset limit : Z) (t : byte) : outcome TlvView :=
  match ParseTlvAt_vec data offset limit with
  | Ret view => if bool_decide (tag view = t) then Ret view else Fails
  | Fails => Fails
  | UB => UB
  end.

(** The offset after some values in a row. *)
Fixpoint skip_values (count : nat) (data : bytes) (cursor limit : Z) : outcome Z :=
  match count with
  | O => Ret cursor
  | S count =>
      match ParseTlvAt_vec data cursor limit with
      | Ret node => skip_values count data (next_offset node) limit
      | Fails => Fails
      | UB => UB
      end
  end.

(** The offset after the optional certificates and revocation lists; [fuel] bounds the loop. *)
Fixpoint skip_optional (fuel : nat) (data : bytes) (cursor limit : Z) : outcome Z :=
  match fuel with
  | O => Ret cursor
  | S fuel =>
      if limit <=? cursor then Ret cursor
      else
        match ParseTlvAt_vec data cursor limit with
        | Ret node =>
            if bool_decide (tag node = xa0 \/ tag node = xa1) then skip_optional fuel data (next_offset node) limit
            else Ret cursor
        | Fails => Ret cursor
        | UB => UB
        end
  end.

Definition ExtractRawSignedAttrs (cms_der : bytes) : outcome bytes :=
  content_info ← ParseTagged cms_der 0 (Z.of_nat (length cms_der)) x30;
  content_type ← ParseTagged cms_der (value_offset content_info) (next_offset content_info) x06;
  explicit_content ← ParseTagged cms_der (next_offset content_type) (next_offset content_info) xa0;
  signed_data ← ParseTagged cms_der (value_offset explicit_content) (next_offset explicit_content) x30;
  cursor ← skip_values 3 cms_der (value_offset signed_data) (next_offset signed_data);
  cursor ← skip_optional (length cms_der) cms_der cursor (next_offset signed_data);
  signer_infos ← ParseTagged cms_der cursor (next_offset signed_data) x31;
  signer_info ← ParseTagged cms_der (value_offset signer_infos) (next_offset signer_infos) x30;
  cursor ← skip_values 3 cms_der (value_offset signer_info) (next_offset signer_info);
  signed_attrs ← ParseTagged cms_der cursor (next_offset signer_info) xa0;
  let encoded_attrs := take (Z.to_nat (next_offset signed_attrs - cursor)) (drop (Z.to_nat cursor) cms_der) in
  if is_empty encoded_attrs then Fails else Ret encoded_attrs.

Lemma ParseTlvAt_vec_inside (data : bytes) (offset limit : Z) :
  limit <= Z.of_nat (length data) -> ParseTlvAt_vec data offset limit = ParseTlvAt data offset limit.
Proof.
  intros Hl. unfold ParseTlvAt_vec. destruct (Z.ltb_spec limit (Z.of_nat (length data))); [done|].
  by replace limit with (Z.of_nat (length data)) by lia.
Qed.

(** Every read stays inside the buffer, and the offsets move forward inside the limit. *)
Lemma ParseTagged_safe (data : bytes) (offset limit : Z) (t : byte) :
  fits data -> 0 <= offset -> limit <= Z.of_nat (length data) ->
  match ParseTagged data offset limit t with
  | Ret v => offset + 1 < value_offset v /\ value_offset v <= next_offset v /\ next_offset v <= limit
  | Fails => True
  | UB => False
  end.
Proof.
  intros Hf Ho Hl. unfold ParseTagged. rewrite ParseTlvAt_vec_inside by done.
  pose proof (ParseTlvAt_safe data offset limit Hf Ho Hl) as S.
  destruct (ParseTlvAt data offset limit) as [v| |]; [|done|done]. case_bool_decide; [lia|done].
Qed.

Lemma skip_values_safe (count : nat) (data : bytes) (cursor limit : Z) :
  fits data -> 0 <= cursor -> limit <= Z.of_nat (length data) ->
  match skip_values count data cursor limit with Ret c => cursor <= c | Fails => True | UB => False end.
Proof.
  intros Hf Hc Hl. revert cursor Hc. induction count as [|count IH]; intros cursor Hc; cbn [skip_values]; [lia|].
  rewrite ParseTlvAt_vec_inside by done. pose proof (ParseTlvAt_safe data cursor limit Hf Hc Hl) as S.
  destruct (ParseTlvAt data cursor limit) as [v| |]; [|done|done].
  specialize (IH (next_offset v) ltac:(lia)). destruct (skip_values count data (next_offset v) limit); [lia|done|done].
Qed.

Lemma skip_optional_safe (fuel : nat) (data : bytes) (cursor limit : Z) :
  fits data -> 0 <= cursor -> limit <= Z.of_nat (length data) ->
  match skip_optional fuel data cursor limit with Ret c => cursor <= c | Fails => False | UB => False end.
Proof.
  intros Hf Hc Hl. revert cursor Hc. induction fuel as [|fuel IH]; intros cursor Hc; cbn [skip_optional]; [lia|].
  destruct (limit <=? cursor); [lia|]. rewrite ParseTlvAt_vec_inside by done.
  pose proof (ParseTlvAt_safe data cursor limit Hf Hc Hl) as S.
  destruct (ParseTlvAt data cursor limit) as [v| |]; [|lia|done]. case_bool_decide; [|lia].
  specialize (IH (next_offset v) ltac:(lia)). destruct (skip_optional fuel data (next_offset v) limit); [lia|done|done].
Qed.

(** One unit of fuel per octet that is left is enough: more changes nothing. *)
Lemma skip_optional_fuel (fuel : nat) (data : bytes) (cursor limit : Z) :
  fits data -> 0 <= cursor -> limit <= Z.of_nat (length data) -> limit - cursor <= Z.of_nat fuel ->
  skip_optional (S fuel) data cursor limit = skip_optional fuel data cursor limit.
Proof.
  intros Hf Hc Hl. revert cursor Hc. induction fuel as [|fuel IH]; intros cursor Hc Hfuel.
  { cbn. by rewrite (proj2 (Z.leb_le limit cursor)) by lia. }
  remember (S fuel) as k. cbn [skip_optional]. subst k. cbn [skip_optional].
  destruct (limit <=? cursor); [done|]. rewrite ParseTlvAt_vec_inside by done.
  pose proof (ParseTlvAt_safe data cursor limit Hf Hc Hl) as S.
  destruct (ParseTlvAt data cursor limit) as [v| |]; [|done|done]. case_bool_decide; [|done]. apply IH; lia.
Qed.

(** A successful step of the extraction, with the bounds it gives. *)
Ltac raw_step :=
  match goal with
  | |- context [mbind _ (ParseTagged ?d ?o ?l ?t)] =>
      pose proof (ParseTagged_safe d o l t ltac:(done) ltac:(lia) ltac:(lia)); destruct (ParseTagged d o l t); [|done|done]
  | |- context [mbind _ (skip_values ?n ?d ?c ?l)] =>
      pose proof (skip_values_safe n d c l ltac:(done) ltac:(lia) ltac:(lia)); destruct (skip_values n d c l); [|done|done]
  | |- context [mbind _ (skip_optional ?n ?d ?c ?l)] =>
      pose proof (skip_optional_safe n d c l ltac:(done) ltac:(lia) ltac:(lia)); destruct (skip_optional n d c l); [|done|done]
  end; cbn [mbind outcome_bind].

(** The extraction reads nothing outside the token; what it gives is a piece of the token. *)
Lemma ExtractRawSignedAttrs_safe (data : bytes) :
  fits data ->
  match ExtractRawSignedAttrs data with
  | Ret attrs => attrs <> [] /\ exists before after, data = before ++ attrs ++ after
  | Fails => True
  | UB => False
  end.
Proof.
  intros Hf. unfold ExtractRawSignedAttrs. cbn [mbind outcome_bind]. do 10 raw_step.
  destruct (is_empty _) eqn:E; [done|]. split; [intros Hn; by rewrite Hn in E|].
  match goal with |- exists before after, data = before ++ take ?n (drop ?m data) ++ after =>
    exists (take m data), (drop n (drop m data)); symmetry; transitivity (take m data ++ drop m data);
    [f_equal; apply take_drop|apply take_drop] end.
Qed.

(** *** The extraction inverts the encoding *)

(** The octets [x] at an offset of the buffer. *)
Definition At (data : bytes) (offset : Z) (x : bytes) : Prop :=
  exists before after, data = before ++ x ++ after /\ offset = Z.of_nat (length before).

Lemma At_app (data : bytes) (offset : Z) (x y : bytes) :
  At data offset (x ++ y) -> At data offset x /\ At data (offset + Z.of_nat (length x)) y.
Proof.
  intros (before & after & -> & ->). split.
  - exists before, (y ++ after). by rewrite <- app_assoc.
  - exists (before ++ x), after. rewrite length_app, <- !app_assoc. split; [done|lia].
Qed.

Lemma At_take (data : bytes) (offset : Z) (x : bytes) :
  At data offset x -> take (length x) (drop (Z.to_nat offset) data) = x.
Proof. intros (before & after & -> & ->). rewrite Nat2Z.id, drop_app_length. apply take_app_length. Qed.

Lemma ParseTlvAt_vec_at (data : bytes) (offset limit : Z) (t : byte) (v : bytes) :
  fits data -> At data offset (der_tlv t v) -> offset + Z.of_nat (length (der_tlv t v)) <= limit ->
  exists view, ParseTlvAt_vec data offset limit = Ret view /\ tag view = t /\ At data (value_offset view) v /\
    next_offset view = offset + Z.of_nat (length (der_tlv t v)) /\
    next_offset view = value_offset view + Z.of_nat (length v) /\ offset <= value_offset view.
Proof.
  intros Hf (before & after & -> & ->) Hl. eexists.
  split; [apply ParseTlvAt_vec_encode; [done|lia]|]. cbn [tag value_offset next_offset]. unfold der_tlv in *. cbn [length] in *.
  rewrite length_app in *. split_and!; [done| |lia|lia|lia].
  exists (before ++ t :: der_length (Z.of_nat (length v))), after. rewrite length_app. cbn [length]. split; [|lia].
  by rewrite <- !app_assoc; cbn; rewrite <- !app_assoc.
Qed.

Lemma ParseTagged_at (data : bytes) (offset limit : Z) (t : byte) (v : bytes) :
  fits data -> At data offset (der_tlv t v) -> offset + Z.of_nat (length (der_tlv t v)) <= limit ->
  exists view, ParseTagged data offset limit t = Ret view /\ At data (value_offset view) v /\
    next_offset view = offset + Z.of_nat (length (der_tlv t v)) /\
    next_offset view = value_offset view + Z.of_nat (length v).
Proof.
  intros Hf Ha Hl. destruct (ParseTlvAt_vec_at _ _ _ _ _ Hf Ha Hl) as (view & E & Ht & Hv & Hn & Hn' & _).
  exists view. unfold ParseTagged. rewrite E, bool_decide_eq_true_2 by done. done.
Qed.

(** Encoded values in a row. *)
Definition encode_values (values : list (byte * bytes)) : bytes := concat (map (fun tv => der_tlv tv.1 tv.2) values).

Lemma der_tlv_longer (t : byte) (v : bytes) : (length v < length (der_tlv t v))%nat.
Proof. unfold der_tlv. cbn [length]. rewrite length_app. lia. Qed.

Lemma encode_values_longer (values : list (byte * bytes)) : (length values <= length (encode_values values))%nat.
Proof.
  induction values as [|[t v] values IH]; [done|]. cbn. rewrite length_app. cbn [length].
  unfold encode_values in IH. lia.
Qed.

Lemma skip_values_at (data : bytes) (values : list (byte * bytes)) (offset limit : Z) :
  fits data -> At data offset (encode_values values) -> offset + Z.of_nat (length (encode_values values)) <= limit ->
  skip_values (length values) data offset limit = Ret (offset + Z.of_nat (length (encode_values values))).
Proof.
  intros Hf. revert offset. induction values as [|[t v] values IH]; intros offset Ha Hl.
  { cbn. by rewrite Z.add_0_r. }
  change (encode_values ((t, v) :: values)) with (der_tlv t v ++ encode_values values) in *.
  rewrite length_app in *. apply At_app in Ha as [Ha Hb]. cbn [length skip_values].
  destruct (ParseTlvAt_vec_at data offset limit t v Hf Ha ltac:(lia)) as (view & -> & _ & _ & -> & _ & _).
  rewrite IH by (done || lia). f_equal. lia.
Qed.

Lemma skip_optional_at (data : bytes) (values : list (byte * bytes)) (t : byte) (v : bytes) (offset limit : Z) (fuel : nat) :
  fits data -> Forall (fun tv => tv.1 = xa0 \/ tv.1 = xa1) values -> t <> xa0 -> t <> xa1 ->
  At data offset (encode_values values ++ der_tlv t v) ->
  offset + Z.of_nat (length (encode_values values ++ der_tlv t v)) <= limit -> (length values < fuel)%nat ->
  skip_optional fuel data offset limit = Ret (offset + Z.of_nat (length (encode_values values))).
Proof.
  intros Hf Hopt Ht0 Ht1. revert offset fuel. induction Hopt as [|[t' v'] values Ht _ IH]; intros offset fuel Ha Hl Hfuel;
    (destruct fuel as [|fuel]; [cbn in Hfuel; lia|]); cbn [skip_optional].
  - cbn [encode_values map concat app length] in *. rewrite Z.add_0_r.
    assert (0 < Z.of_nat (length (der_tlv t v))) by (unfold der_tlv; cbn [length]; lia).
    rewrite (proj2 (Z.leb_gt limit offset)) by lia.
    destruct (ParseTlvAt_vec_at data offset limit t v Hf Ha Hl) as (view & -> & -> & _).
    rewrite bool_decide_eq_false_2 by (intros [?|?]; done). done.
  - change (encode_values ((t', v') :: values)) with (der_tlv t' v' ++ encode_values values) in *.
    rewrite <- app_assoc in Ha, Hl. rewrite length_app in Hl. rewrite length_app. apply At_app in Ha as [Ha Hb].
    assert (0 < Z.of_nat (length (der_tlv t' v'))) by (unfold der_tlv; cbn [length]; lia).
    rewrite (proj2 (Z.leb_gt limit offset)) by lia.
    destruct (ParseTlvAt_vec_at data offset limit t' v' Hf Ha ltac:(lia)) as (view & -> & -> & _ & -> & _ & _).
    rewrite bool_decide_eq_true_2 by done. rewrite IH by (done || cbn in Hfuel; lia). f_equal. lia.
Qed.

(** Signed data as RFC 5652 lays it out: three values, the optional certificates and revocation lists, the signers;
    a signer is three values, the signed attributes under their implicit tag, and the rest. *)
Definition encode_signer (head : list (byte * bytes)) (attrs rest : bytes) : bytes :=
  der_tlv x30 (encode_values head ++ der_tlv xa0 attrs ++ rest).
Definition encode_signed_data (oid : bytes) (head optional : list (byte * bytes)) (signers rest : bytes) : bytes :=
  der_tlv x30 (der_tlv x06 oid
    ++ der_tlv xa0 (der_tlv x30 (encode_values head ++ encode_values optional ++ der_tlv x31 signers ++ rest))).

(** For a container that is encoded in this way, with any content of the attributes - in particular with an
    order of the attributes that a DER encoder would not choose - what is extracted is the exact encoding of the
    signed attributes of the first signer. *)
Theorem ExtractRawSignedAttrs_exact (oid : bytes) (head optional signer_head : list (byte * bytes))
    (attrs signer_rest other_signers rest after : bytes) :
  let token := encode_signed_data oid head optional (encode_signer signer_head attrs signer_rest ++ other_signers) rest ++ after in
  fits token -> length head = 3%nat -> length signer_head = 3%nat ->
  Forall (fun tv => tv.1 = xa0 \/ tv.1 = xa1) optional ->
  ExtractRawSignedAttrs token = Ret (der_tlv xa0 attrs).
Proof.
  intros token Hf Hhead Hsh Hopt. unfold ExtractRawSignedAttrs.
  assert (At token 0 (encode_signed_data oid head optional (encode_signer signer_head attrs signer_rest ++ other_signers) rest))
    as Ha by (exists [], after; done).
  assert (0 + Z.of_nat (length (encode_signed_data oid head optional (encode_signer signer_head attrs signer_rest ++ other_signers) rest))
    <= Z.of_nat (length token)) as Hl by (subst token; rewrite length_app; lia).
  assert (length optional < length token)%nat as Hfuel.
  { subst token. rewrite length_app. apply Nat.lt_lt_add_r. unfold encode_signed_data.
    etransitivity; [|apply der_tlv_longer]. rewrite length_app. apply Nat.lt_lt_add_l.
    do 2 (etransitivity; [|apply der_tlv_longer]). rewrite !length_app. pose proof (encode_values_longer optional).
    pose proof (encode_values_longer head). lia. }
  clearbody token. unfold encode_signed_data in Ha, Hl.
  destruct (ParseTagged_at _ _ _ _ _ Hf Ha Hl) as (ci & -> & Aci & _ & Nci). cbn [mbind outcome_bind].
  apply At_app in Aci as [A1 A2]. rewrite length_app in Nci.
  destruct (ParseTagged_at token _ (next_offset ci) _ _ Hf A1 ltac:(lia)) as (ct & -> & _ & Nct & _). cbn [mbind outcome_bind].
  rewrite <- Nct in A2.
  destruct (ParseTagged_at token _ (next_offset ci) _ _ Hf A2 ltac:(lia)) as (ec & -> & Aec & _ & Nec). cbn [mbind outcome_bind].
  destruct (ParseTagged_at token _ (next_offset ec) _ _ Hf Aec ltac:(lia)) as (sd & -> & Asd & _ & Nsd). cbn [mbind outcome_bind].
  apply At_app in Asd as [A3 A4]. rewrite !length_app in Nsd. rewrite <- Hhead.
  rewrite (skip_values_at token head _ (next_offset sd) Hf A3) by lia. cbn [mbind outcome_bind].
  rewrite (app_assoc (encode_values optional)) in A4. apply At_app in A4 as [A4 _].
  rewrite (skip_optional_at token optional x31 _ _ (next_offset sd) _ Hf Hopt ltac:(done) ltac:(done) A4)
    by (rewrite ?length_app; lia). cbn [mbind outcome_bind].
  apply At_app in A4 as [_ A5].
  destruct (ParseTagged_at token _ (next_offset sd) _ _ Hf A5 ltac:(lia)) as (sis & -> & Asis & _ & Nsis). cbn [mbind outcome_bind].
  apply At_app in Asis as [A6 _]. rewrite length_app in Nsis. unfold encode_signer in A6, Nsis.
  destruct (ParseTagged_at token _ (next_offset sis) _ _ Hf A6 ltac:(lia)) as (si & -> & Asi & _ & Nsi). cbn [mbind outcome_bind].
  apply At_app in Asi as [A7 A8]. rewrite !length_app in Nsi. rewrite Hhead, <- Hsh.
  rewrite (skip_values_at token signer_head _ (next_offset si) Hf A7) by lia. cbn [mbind outcome_bind].
  apply At_app in A8 as [A8 _].
  destruct (ParseTagged_at token _ (next_offset si) _ _ Hf A8 ltac:(lia)) as (sa & -> & _ & Nsa & _). cbn [mbind outcome_bind].
  rewrite Nsa. match goal with |- context [Z.to_nat (?c + Z.of_nat ?n - ?c)] => replace (Z.to_nat (c + Z.of_nat n - c)) with n by lia end.
  by rewrite (At_take _ _ _ A8).
Qed.

End RawAttributes.

(** ** Tokens *)

Module TimestampValidator.

Section Validator.
Context {HPlat : Platform}.
Context `{HCms : CmsApi, HDigest : DigestApi}.

Definition GeneralizedTimeToString (time : bytes) : string := of_chars (map Ascii.ascii_of_byte time).

Definition LocalBuildCertificateSet (ders : list bytes) : option CertificateSet_t :=
  match List.filter (fun der => negb (is_empty der) && bool_decide (is_Some (cert_decode der))) ders with
  | [] => None
  | pool => get_cert_set_from_cert_array pool
  end.

Record SignerCertificate := MkSignerCertificate {
  sg_certificate : Z + Certificate_t;
  sg_external : bool;
  sg_embedded_count : Z
}.

(** The certificate of the first signer: in the token, else in the pool. *)
Definition LocalExtractSignerCertificate (signed_data : SignedData_t) (additional_certificates_der : list bytes)
    : SignerCertificate :=
  match sdata_get_signer_info_by_idx signed_data 0 with
  | inl rc => MkSignerCertificate (inl rc) false 0
  | inr signer_info =>
      match sinfo_get_signer_id signer_info with
      | inl rc => MkSignerCertificate (inl rc) false 0
      | inr signer_id =>
          let '(found, count) := match sdata_get_certs signed_data with
                                 | inl rc => (inl (or_code rc RET_PKIX_NO_CERTIFICATE), 0)
                                 | inr certs => (Adapter.ResolveSignerFromSet signer_id certs, Z.of_nat (length (set_entries certs)))
                                 end in
          match found with
          | inr certificate => MkSignerCertificate (inr certificate) false count
          | inl rc =>
              if is_empty additional_certificates_der then MkSignerCertificate (inl rc) false count
              else
                match LocalBuildCertificateSet additional_certificates_der with
                | None => MkSignerCertificate (inl rc) false count
                | Some external_certs =>
                    let external := Adapter.ResolveSignerFromSet signer_id external_certs in
                    MkSignerCertificate external (match external with inr _ => true | inl _ => false end) count
                end
          end
      end
  end.

(** The signed data and the information of a token. *)
Definition token_content (token_der : bytes) : string + SignedData_t * TSTInfo_t :=
  match cinfo_decode token_der with
  | inl _ => inl "Timestamp token ContentInfo decode failed."
  | inr token_cinfo =>
      match cinfo_get_signed_data token_cinfo with
      | inl _ => inl "Timestamp token is not CMS SignedData."
      | inr token_sdata =>
          match sdata_get_tst_info token_sdata with
          | None => inl "Timestamp token does not contain TSTInfo."
          | Some tst_info => inr (token_sdata, tst_info)
          end
      end
  end.

Definition ExtractTimestampToken (cms_der : bytes) : TimestampExtractionResult :=
  let result := TimestampExtractionResult_default <| tx_failure_code := "TIMESTAMP_FORMAT_INVALID" |> in
  if is_empty cms_der then result <| tx_message := "CMS input is empty." |>
  else
    match Adapter.HasSignatureTimestampToken cms_der with
    | inr false => result <| tx_failure_code := "TIMESTAMP_MISSING" |> <| tx_message := "CMS signature timestamp is missing." |>
    | _ =>
        match Adapter.ExtractSignatureTimestampToken cms_der with
        | inl error_message =>
            result <| tx_message := if str_empty error_message
                                    then "CMS signature does not contain id-aa-signatureTimeStampToken." else error_message |>
        | inr token_der =>
            let result := result <| tx_token_der := token_der |> in
            match token_content token_der with
            | inl message => result <| tx_message := message |>
            | inr (_, tst_info) =>
                result <| tx_gen_time := GeneralizedTimeToString (tst_gen_time tst_info) |>
                       <| tx_success := true |> <| tx_failure_code := "" |>
            end
        end
    end.

(** The digest of the octets by the algorithm that the imprint declares. *)
Definition expected_imprint (declared_alg : ImprintDigest) (octets : bytes) : option bytes :=
  match declared_alg with
  | Kupyna256 => kupyna256 octets
  | Gost34311 => gost34311 octets
  | DigestSha256 => Some (Sha256 octets)
  | _ => None
  end.

Definition declared_algorithm (tst_info : TSTInfo_t) : option ImprintDigest :=
  ImprintFromDigestOid (OidFromAsn1 (tst_hash_algorithm tst_info)).

(** An empty imprint never matches. *)
Definition imprint_equals (tst_info : TSTInfo_t) (expected : bytes) : bool :=
  negb (is_empty (tst_hashed_message tst_info)) && bool_decide (expected = tst_hashed_message tst_info).

(** The failure code and the message when the imprint is not the one of the octets. *)
Definition check_imprint (tst_info : TSTInfo_t) (octets : bytes) : option (string * string) :=
  let imprint_oid := OidFromAsn1 (tst_hash_algorithm tst_info) in
  match declared_algorithm tst_info with
  | None => Some ("TIMESTAMP_IMPRINT_UNSUPPORTED",
                  "Timestamp token message imprint hashAlgorithm OID (" +s+ imprint_oid +s+ ") is not recognized.")
  | Some declared_alg =>
      let message := "Timestamp token message imprint does not match CMS signature value." in
      match expected_imprint declared_alg octets with
      | None => Some ("TIMESTAMP_IMPRINT_UNSUPPORTED", message)
      | Some expected => if imprint_equals tst_info expected then None else Some ("TIMESTAMP_IMPRINT_MISMATCH", message)
      end
  end.

(** The digest of the content that the attribute [messageDigest] must hold. *)
Definition content_digest (is_kupyna256 : bool) (tsa_cert : Certificate_t) (econtent : bytes) : string + bytes :=
  if is_kupyna256 then
    match kupyna256 econtent with Some digest => inr digest | None => inl "Kupyna-256 computation failed." end
  else
    match digest_adapter_init_by_cert tsa_cert with
    | inl rc => inl ("Failed to initialize digest adapter (rc = " +s+ to_string rc +s+ ").")
    | inr digest_adapter =>
        match digest_run digest_adapter econtent with
        | inl _ => inl "Digest computation failed."
        | inr digest => inr digest
        end
    end.

Definition message_digest (sinfo : SignerInfo_t) : string + bytes :=
  let missing (rc : Z) := inl ("TSA SignerInfo is missing message-digest attribute (rc = " +s+ to_string rc +s+ ").") in
  match signed_message_digest sinfo with
  | inl rc => missing rc
  | inr [value] =>
      match asn_encode_value value with
      | inl rc => inl ("Failed to encode message-digest attribute (rc = " +s+ to_string rc +s+ ").")
      | inr encoded =>
          match decode_octet_string encoded with
          | None => inl "Failed to decode message-digest octet string."
          | Some octets => inr octets
          end
      end
  | inr _ => missing RET_OK
  end.

Definition KUPYNA256_OID : string := "1.2.804.2.1.1.1.1.2.2.1".
Definition DSTU_KUPYNA_SIGN_OID : string := "1.2.804.2.1.1.1.1.3.6.1.1".

Definition signature_octets (sinfo : SignerInfo_t) : string + bytes :=
  if aid_is (sinfo_signature_algorithm sinfo) DSTU_KUPYNA_SIGN_OID then inr (sinfo_signature sinfo)
  else
    match sign_os_to_ba sinfo with
    | inl rc => inl ("Failed to convert signature to ByteArray (rc = " +s+ to_string rc +s+ ").")
    | inr sign => inr sign
    end.

(** The signature over the attributes as they are encoded in the token, with the tag of a set;
    the code stays the one of the first check when a step is not possible. *)
Definition verify_raw_attributes (token_der sign : bytes) (adapter : VerifyAdapter) (rc : Z) : outcome Z :=
  match ExtractRawSignedAttrs token_der with
  | UB => UB
  | Fails | Ret [] => Ret rc
  | Ret (_ :: attrs) =>
      match kupyna256 (x31 :: attrs), verify_hash adapter with
      | Some digest, Some verify => Ret (verify digest sign)
      | Some _, None => UB
      | None, _ => Ret rc
      end
  end.

(** The adapter for the digest algorithm of the signer. *)
Definition select_digest (adapter : VerifyAdapter) (sinfo : SignerInfo_t) : string + VerifyAdapter :=
  match set_digest_alg adapter with
  | None => inr adapter
  | Some set =>
      let '(rc, adapter) := set (sinfo_digest_algorithm sinfo) in
      if rc =? RET_OK then inr adapter
      else inl ("Failed to select TSA SignerInfo digest algorithm (rc = " +s+ to_string rc +s+ ").")
  end.

(** The steps up to the verification: the signer, its signature octets and the two adapters. *)
Definition prepare_signature (token_sdata : SignedData_t) (tsa_cert : Certificate_t)
    : string + SignerInfo_t * bytes * DigestAdapter * VerifyAdapter :=
  let econtent := sdata_econtent token_sdata in
  if is_empty econtent then inl "TSA token is missing eContent."
  else
    match sdata_get_signer_info_by_idx token_sdata 0 with
    | inl rc => inl ("Failed to resolve TSA SignerInfo (rc = " +s+ to_string rc +s+ ").")
    | inr sinfo =>
        let? computed_digest := content_digest (aid_is (sinfo_digest_algorithm sinfo) KUPYNA256_OID) tsa_cert econtent in
        let? stated_digest := message_digest sinfo in
        if negb (bool_decide (stated_digest = computed_digest))
        then inl "TSA token message imprint does not match CMS signature value."
        else
          let? sign := signature_octets sinfo in
          match verify_adapter_init_by_cert tsa_cert with
          | None => inl ("Failed to initialize verify adapter for TSA certificate (rc = "
                         +s+ to_string (verify_adapter_init_rc tsa_cert) +s+ ").")
          | Some adapter =>
              let? adapter := select_digest adapter sinfo in
              match digest_adapter_init_by_aid (sinfo_digest_algorithm sinfo) with
              | inl rc => inl ("Failed to initialize TSA SignerInfo digest adapter (rc = " +s+ to_string rc +s+ ").")
              | inr digest => inr (sinfo, sign, digest, adapter)
              end
          end
    end.

(** [None] when the signature is verified, else the error text. *)
Definition verify_token_signature (token_der : bytes) (token_sdata : SignedData_t) (tsa_cert : Certificate_t)
    : outcome (option string) :=
  match prepare_signature token_sdata tsa_cert with
  | inl sig_err => Ret (Some sig_err)
  | inr (sinfo, sign, digest, adapter) =>
      let rc := sdata_verify_internal_data_by_adapter token_sdata digest adapter 0 in
      rc ← (if negb (rc =? RET_OK) && aid_is (sinfo_digest_algorithm sinfo) KUPYNA256_OID
            then verify_raw_attributes token_der sign adapter rc else Ret rc);
      Ret (if rc =? RET_OK then None
           else Some ("TSA signature verification failed (CMS verify rc = " +s+ to_string rc +s+ ")."))
  end.

Definition embedded_certificates (token_sdata : SignedData_t) : list bytes :=
  match sdata_get_certs token_sdata with
  | inl _ => []
  | inr certs => CollectEmbeddedCertificatesDer certs
  end.

Definition ValidateTimestampToken (token_der cms_signature_value : bytes) (additional_certificates_der : list bytes)
    : outcome TimestampValidationResult :=
  let result := TimestampValidationResult_default <| tv_failure_code := "TIMESTAMP_FORMAT_INVALID" |> in
  if is_empty token_der then Ret (result <| tv_message := "Token DER is empty." |>)
  else
    match token_content token_der with
    | inl message => Ret (result <| tv_message := message |>)
    | inr (token_sdata, tst_info) =>
        let result := result <| tv_gen_time := GeneralizedTimeToString (tst_gen_time tst_info) |> in
        match check_imprint tst_info cms_signature_value with
        | Some (code, message) => Ret (result <| tv_failure_code := code |> <| tv_message := message |>)
        | None =>
            let signer := LocalExtractSignerCertificate token_sdata additional_certificates_der in
            match sg_certificate signer with
            | inl rc =>
                Ret (result <| tv_failure_code := "TSA_CERTIFICATE_MISSING" |>
                  <| tv_message := "TSA signer certificate resolution failed (rc = " +s+ to_string rc
                       +s+ ", tokenCerts = " +s+ to_string (sg_embedded_count signer) +s+ ", additionalCerts = "
                       +s+ to_string (Z.of_nat (length additional_certificates_der)) +s+ ")." |>)
            | inr tsa_cert =>
                let result := result
                  <| tv_tsa_certificate_external := sg_external signer |>
                  <| tv_tsa_certificate_der := default [] (EncodeCertificateDer tsa_cert) |>
                  <| tv_embedded_certificates_der := embedded_certificates token_sdata |>
                  <| tv_failure_code := "TIMESTAMP_SIGNATURE_INVALID" |> in
                sig_err ← verify_token_signature token_der token_sdata tsa_cert;
                match sig_err with
                | Some sig_err =>
                    Ret (result <| tv_message := if str_empty sig_err then "TSA signature verification failed." else sig_err |>)
                | None => Ret (result <| tv_valid := true |> <| tv_failure_code := "" |>)
                end
            end
        end
    end.

(** *** What a valid token rests on *)

(** The certificate is the one that the signer identifier of the token names, in the token itself or in the pool. *)
Definition names_certificate (signed_data : SignedData_t) (pool : list bytes) (external : bool) (certificate : Certificate_t)
    : Prop :=
  exists signer_info signer_id certs usage,
    sdata_get_signer_info_by_idx signed_data 0 = inr signer_info /\ sinfo_get_signer_id signer_info = inr signer_id /\
    (if external then LocalBuildCertificateSet pool = Some certs else sdata_get_certs signed_data = inr certs) /\
    get_cert_by_sid_and_usage signer_id usage certs = inr certificate.

Lemma ResolveSignerFromSet_spec (signer_id : SignerIdentifier_t) (certs : CertificateSet_t) (certificate : Certificate_t) :
  Adapter.ResolveSignerFromSet signer_id certs = inr certificate ->
  exists usage, get_cert_by_sid_and_usage signer_id usage certs = inr certificate.
Proof.
  unfold Adapter.ResolveSignerFromSet. destruct (get_cert_by_sid_and_usage signer_id KEY_USAGE_DIGITAL_SIGNATURE certs) eqn:E;
    intros Hr; [by exists 0|]. exists KEY_USAGE_DIGITAL_SIGNATURE. by rewrite E, <- Hr.
Qed.

Lemma LocalExtractSignerCertificate_spec (signed_data : SignedData_t) (pool : list bytes) (certificate : Certificate_t) :
  let signer := LocalExtractSignerCertificate signed_data pool in
  sg_certificate signer = inr certificate -> names_certificate signed_data pool (sg_external signer) certificate.
Proof.
  unfold LocalExtractSignerCertificate, names_certificate. cbv zeta.
  destruct (sdata_get_signer_info_by_idx signed_data 0) as [?|sinfo]; [done|].
  destruct (sinfo_get_signer_id sinfo) as [?|sid] eqn:Eid; [done|].
  assert (forall rc count, sg_certificate
      (if is_empty pool then MkSignerCertificate (inl rc) false count
       else match LocalBuildCertificateSet pool with
            | None => MkSignerCertificate (inl rc) false count
            | Some external_certs =>
                MkSignerCertificate (Adapter.ResolveSignerFromSet sid external_certs)
                  (match Adapter.ResolveSignerFromSet sid external_certs with inr _ => true | inl _ => false end) count
            end) = inr certificate ->
      exists certs, LocalBuildCertificateSet pool = Some certs /\ Adapter.ResolveSignerFromSet sid certs = inr certificate) as Hext.
  { intros rc count. destruct (is_empty pool); [done|]. destruct (LocalBuildCertificateSet pool) as [certs|]; [|done].
    intros E. by exists certs. }
  destruct (sdata_get_certs signed_data) as [rc|certs] eqn:Ec.
  2: destruct (Adapter.ResolveSignerFromSet sid certs) as [rc|found] eqn:Er.
  3: { cbn. intros [= ->]. destruct (ResolveSignerFromSet_spec _ _ _ Er) as [usage Hu]. by exists sinfo, sid, certs, usage. }
  all: intros E; destruct (Hext _ _ E) as (ext & Hset & Hres); destruct (ResolveSignerFromSet_spec _ _ _ Hres) as [usage Hu];
    exists sinfo, sid, ext, usage; rewrite Hset, Hres in *; destruct (is_empty pool); done.
Qed.

(** The attribute [messageDigest] of the signer is the digest of the content of the token, and the signature over the
    signed attributes is verified under the key of the certificate: by the library, or by the primitive over the
    attributes as they are encoded in the token, when the digest is Kupyna. *)
Definition signature_verified (token_der : bytes) (signed_data : SignedData_t) (certificate : Certificate_t) : Prop :=
  exists sinfo digest_value sign digest adapter,
    sdata_get_signer_info_by_idx signed_data 0 = inr sinfo /\ sdata_econtent signed_data <> [] /\
    content_digest (aid_is (sinfo_digest_algorithm sinfo) KUPYNA256_OID) certificate (sdata_econtent signed_data) = inr digest_value /\
    message_digest sinfo = inr digest_value /\ signature_octets sinfo = inr sign /\
    (exists first, verify_adapter_init_by_cert certificate = Some first /\ select_digest first sinfo = inr adapter) /\
    digest_adapter_init_by_aid (sinfo_digest_algorithm sinfo) = inr digest /\
    (sdata_verify_internal_data_by_adapter signed_data digest adapter 0 = RET_OK \/
     aid_is (sinfo_digest_algorithm sinfo) KUPYNA256_OID = true /\
     exists first attrs raw verify, ExtractRawSignedAttrs token_der = Ret (first :: attrs) /\
       kupyna256 (x31 :: attrs) = Some raw /\ verify_hash adapter = Some verify /\ verify raw sign = RET_OK).

Lemma prepare_signature_spec (signed_data : SignedData_t) (certificate : Certificate_t) (sinfo : SignerInfo_t) (sign : bytes)
    (digest : DigestAdapter) (adapter : VerifyAdapter) :
  prepare_signature signed_data certificate = inr (sinfo, sign, digest, adapter) ->
  exists digest_value,
    sdata_get_signer_info_by_idx signed_data 0 = inr sinfo /\ sdata_econtent signed_data <> [] /\
    content_digest (aid_is (sinfo_digest_algorithm sinfo) KUPYNA256_OID) certificate (sdata_econtent signed_data) = inr digest_value /\
    message_digest sinfo = inr digest_value /\ signature_octets sinfo = inr sign /\
    (exists first, verify_adapter_init_by_cert certificate = Some first /\ select_digest first sinfo = inr adapter) /\
    digest_adapter_init_by_aid (sinfo_digest_algorithm sinfo) = inr digest.
Proof.
  unfold prepare_signature. intros E. destruct (is_empty (sdata_econtent signed_data)) eqn:Ee; [done|].
  destruct (sdata_get_signer_info_by_idx signed_data 0) as [?|s]; [done|].
  destruct (content_digest _ _ _) as [?|value] eqn:E1; [done|]. destruct (message_digest s) as [?|stated] eqn:E2; [done|].
  case_bool_decide as Heq; [|done]. subst stated. cbn [negb] in E.
  destruct (signature_octets s) as [?|sign'] eqn:E3; [done|].
  destruct (verify_adapter_init_by_cert certificate) as [first|] eqn:E4; [|done].
  destruct (select_digest first s) as [?|adapter'] eqn:E5; [done|].
  destruct (digest_adapter_init_by_aid _) as [?|digest'] eqn:E6; [done|]. injection E as <- <- <- <-.
  exists value. split_and!; try done; [by intros Hn; rewrite Hn in Ee|]. by exists first.
Qed.

Lemma verify_token_signature_spec (token_der : bytes) (signed_data : SignedData_t) (certificate : Certificate_t) :
  verify_token_signature token_der signed_data certificate = Ret None ->
  signature_verified token_der signed_data certificate.
Proof.
  unfold verify_token_signature. intros E.
  destruct (prepare_signature signed_data certificate) as [?|[[[sinfo sign] digest] adapter]] eqn:Ep; [done|].
  destruct (prepare_signature_spec _ _ _ _ _ _ Ep) as (value & H1 & H2 & H3 & H4 & H5 & H6 & H7).
  exists sinfo, value, sign, digest, adapter. split_and!; try done.
  destruct (Z.eqb_spec (sdata_verify_internal_data_by_adapter signed_data digest adapter 0) RET_OK) as [Hok|Hne]; [by left|].
  right. cbv zeta in E. set (rc := sdata_verify_internal_data_by_adapter signed_data digest adapter 0) in *.
  apply Z.eqb_neq in Hne. cbn [negb andb] in E.
  destruct (aid_is (sinfo_digest_algorithm sinfo) KUPYNA256_OID); cbn [mbind outcome_bind] in E; [|by rewrite Hne in E].
  split; [done|]. unfold verify_raw_attributes in E.
  destruct (ExtractRawSignedAttrs token_der) as [[|first attrs]| |]; cbn in E; [by rewrite Hne in E| |by rewrite Hne in E|done].
  destruct (kupyna256 (x31 :: attrs)) as [raw|] eqn:Ek; cbn in E; [|by rewrite Hne in E].
  destruct (verify_hash adapter) as [verify|]; [|done]. exists first, attrs, raw, verify. split_and!; try done.
  destruct (Z.eqb_spec (verify raw sign) RET_OK); [done|]. cbn [mbind outcome_bind] in E.
  by rewrite (proj2 (Z.eqb_neq _ _)) in E.
Qed.

(** [C13] A token that is called valid is a signed structure with timestamp information whose imprint, by the algorithm it
    declares - Kupyna-256, GOST 34.311 or SHA-256, no other - is the digest of the octets it is checked against; its
    signer identifier names the certificate that is reported, in the token itself or, only when the result says
    so, in the pool of the caller; and the signature over it is verified under that certificate. *)
Theorem ValidateTimestampToken_grounds (token_der octets : bytes) (pool : list bytes) (r : TimestampValidationResult) :
  ValidateTimestampToken token_der octets pool = Ret r -> tv_valid r = true ->
  exists signed_data tst_info alg certificate,
    token_content token_der = inr (signed_data, tst_info) /\
    tv_gen_time r = GeneralizedTimeToString (tst_gen_time tst_info) /\
    declared_algorithm tst_info = Some alg /\ alg ∈ [Kupyna256; Gost34311; DigestSha256] /\
    expected_imprint alg octets = Some (tst_hashed_message tst_info) /\ tst_hashed_message tst_info <> [] /\
    names_certificate signed_data pool (tv_tsa_certificate_external r) certificate /\
    tv_tsa_certificate_der r = default [] (EncodeCertificateDer certificate) /\
    signature_verified token_der signed_data certificate.
Proof.
  unfold ValidateTimestampToken. intros E Hv. destruct (is_empty token_der); [injection E as <-; done|].
  destruct (token_content token_der) as [?|[signed_data tst_info]]; [injection E as <-; done|].
  unfold check_imprint in E. destruct (declared_algorithm tst_info) as [alg|] eqn:Ealg; [|injection E as <-; done].
  destruct (expected_imprint alg octets) as [expected|] eqn:Eexp; [|injection E as <-; done].
  destruct (imprint_equals tst_info expected) eqn:Eimp; [|injection E as <-; done].
  unfold imprint_equals in Eimp. apply andb_true_iff in Eimp as [Hne Heq]. apply bool_decide_eq_true in Heq. subst expected.
  pose proof (LocalExtractSignerCertificate_spec signed_data pool) as Hn.
  destruct (LocalExtractSignerCertificate signed_data pool) as [[?|certificate] external count];
    cbn [sg_certificate sg_external] in *; [injection E as <-; done|].
  destruct (verify_token_signature token_der signed_data certificate) as [[?|]| |] eqn:Es; try done; injection E as <-; [done|].
  exists signed_data, tst_info, alg, certificate. split_and!; try done.
  - destruct alg; try done; rewrite !elem_of_cons; auto.
  - intros Hn'. by rewrite Hn' in Hne.
  - by apply Hn.
  - by apply verify_token_signature_spec.
Qed.

(** The check of a token always ends with a result, without reading outside the token, and the failure code is
    empty exactly when the token is valid. *)
Theorem ValidateTimestampToken_total (token_der octets : bytes) (pool : list bytes) :
  fits token_der -> (forall adapter, is_Some (verify_hash adapter)) ->
  exists r, ValidateTimestampToken token_der octets pool = Ret r /\ (tv_valid r = true <-> tv_failure_code r = "").
Proof.
  intros Hf Hverify. unfold ValidateTimestampToken. destruct (is_empty token_der); [by eexists|].
  destruct (token_content token_der) as [?|[signed_data tst_info]]; [by eexists|].
  unfold check_imprint. destruct (declared_algorithm tst_info) as [alg|]; [|by eexists].
  destruct (expected_imprint alg octets) as [expected|]; [|by eexists].
  destruct (imprint_equals tst_info expected); [|by eexists].
  destruct (LocalExtractSignerCertificate signed_data pool) as [[?|certificate] external count]; [by eexists|].
  cbn [sg_certificate]. assert (exists e, verify_token_signature token_der signed_data certificate = Ret e) as [[?|] ->];
    [|by eexists..].
  unfold verify_token_signature. destruct (prepare_signature _ _) as [?|[[[sinfo sign] digest] adapter]]; [by eexists|].
  destruct (negb _ && _); [|by eexists]. unfold verify_raw_attributes.
  pose proof (ExtractRawSignedAttrs_safe token_der Hf) as Hs.
  destruct (ExtractRawSignedAttrs token_der) as [[|first attrs]| |]; [by eexists| |by eexists|done].
  destruct (kupyna256 (x31 :: attrs)); [|by eexists]. destruct (Hverify adapter) as [verify ->]. by eexists.
Qed.

(** The certificates of the pool are looked at only when the token does not hold the certificate of its signer. *)
Lemma pool_is_a_fallback (token_der octets : bytes) (pool : list bytes) (r : TimestampValidationResult) :
  ValidateTimestampToken token_der octets [] = Ret r -> tv_valid r = true ->
  ValidateTimestampToken token_der octets pool = Ret r.
Proof.
  unfold ValidateTimestampToken. intros E Hv. destruct (is_empty token_der); [done|].
  destruct (token_content token_der) as [?|[signed_data tst_info]]; [done|].
  destruct (check_imprint tst_info octets) as [[code message]|]; [done|].
  assert (forall c, sg_certificate (LocalExtractSignerCertificate signed_data []) = inr c ->
    LocalExtractSignerCertificate signed_data pool = LocalExtractSignerCertificate signed_data []) as Hsame.
  { intros c. unfold LocalExtractSignerCertificate. destruct (sdata_get_signer_info_by_idx signed_data 0); [done|].
    destruct (sinfo_get_signer_id _); [done|].
    destruct (match sdata_get_certs signed_data with inl _ => _ | inr _ => _ end) as [[?|?] ?]; done. }
  destruct (sg_certificate (LocalExtractSignerCertificate signed_data [])) as [?|certificate] eqn:Ec.
  { injection E as <-. done. }
  rewrite (Hsame certificate eq_refl), Ec. exact E.
Qed.

End Validator.
End TimestampValidator.

(** ** The interfaces of the engine and of the session *)

(** What remains outside: the disk and what is read from it or downloaded. *)
Class ExternalApi `{CertApi} := {
  ex_disk : Type;
  ex_cert_aia : Certificate_t -> option (list (bool * option string));
  ex_registry_ocsp_url : ex_disk -> string -> bytes -> option string;
  ex_load_crls : ex_disk -> string -> list bytes;
  ex_download_crls : ex_disk -> bytes -> string -> Z -> ex_disk;
  ex_enrich : ex_disk -> string -> Z -> bool -> bytes -> list bytes -> list bytes * ex_disk
}.

Section Implementation.
Context {HPlat : Platform} {HCert : CertApi} {HCms : CmsApi} {HDigest : DigestApi} {HExternal : ExternalApi}.

(** The check of a token; the third case does not occur ([ValidateTimestampToken_total]). *)
Definition token_result (r : outcome TimestampValidationResult) : TimestampValidationResult :=
  match r with Ret r => r | _ => TimestampValidationResult_default end.

#[local] Instance tamga_timestamps : TimestampApi := {|
  Disk := ex_disk;
  ValidateTimestampToken token octets pool := token_result (TimestampValidator.ValidateTimestampToken token octets pool);
  ExtractTimestampToken := TimestampValidator.ExtractTimestampToken;
  GetSignatureValue := Adapter.GetSignatureValue;
  cert_aia := ex_cert_aia;
  registry_ocsp_url := ex_registry_ocsp_url;
  LoadCrlsFromWorkDir := ex_load_crls;
  DownloadAndCacheCrlsForCert := ex_download_crls
|}.

#[local] Instance tamga_cms : SessionApi := {|
  VerifyDetached := Adapter.VerifyDetached;
  VerifyAttached := Adapter.VerifyAttached;
  ExtractSigningTime := Adapter.ExtractSigningTime;
  EnrichWithAiaIssuersIfNeeded := ex_enrich
|}.

Context `{HClock : Clock, HValidators : !Validators, HStore : !StoreApi, HXml : !LibXml, HMeta : !MetadataApi}.

(** Every signer of a container has been verified over the data. *)
Definition verified_by_every_signer (data signature : bytes) : Prop :=
  exists content_info signed_data,
    cinfo_decode signature = inr content_info /\ cinfo_get_signed_data content_info = inr signed_data /\
    1 <= Adapter.signer_total signed_data /\
    forall i, 0 <= i < Adapter.signer_total signed_data ->
      exists certificate, Adapter.signer_code signed_data i (Some data) certificate RET_OK.

Lemma VerifyDetached_every_signer (data signature : bytes) (info : VerifyPolicyInfo) :
  Adapter.VerifyDetached data signature = inr (true, info) -> verified_by_every_signer data signature.
Proof.
  unfold Adapter.VerifyDetached. intros E. destruct (Adapter.VerifyCms (Some data) signature) as [?|[[v c] i]] eqn:Ec; [done|].
  injection E as -> ->. destruct (Adapter.VerifyCms_shape _ _ _ _ _ Ec) as (ci & sd & signers & extra & Ed & Es & Et & Ev & _ & Hall).
  exists ci, sd. split_and!; try done. intros k Hk. destruct (Adapter.verify_signers_spec _ _ _ _ _ Ev) as [Hl Hi].
  destruct (lookup_lt_is_Some_2 signers (Z.to_nat k)) as [r Hr]; [lia|]. destruct (Hi _ _ Hr) as [_ Hone].
  rewrite Z.add_0_l, Z2Nat.id in Hone by lia.
  symmetry in Hall. rewrite (proj1 (forallb_forall _ _) Hall r) in Hone by (apply list_elem_of_In; by eapply list_elem_of_lookup_2).
  destruct (Adapter.VerifyCmsSignerAt_spec _ _ _ _ _ Hone) as (certificate & rc & Hc & _ & [[_ ->]|[? _]]); [|done].
  by exists certificate.
Qed.

(** [C2] The composition of the session, the engine and the CMS layer: after a verification of a detached signature whose
    summary is "valid", every signer of the container - and there is at least one - has been verified by the library
    over exactly the data that was given, with the certificate that its identifier names. *)
Theorem VerifyData_verifies_every_signer (data signature : bytes) (st st' : State) (result is_valid : bool) :
  VerifyData data signature st = Ret (result, is_valid, st') ->
  ck_status (SummaryCheck (ss_last_verify_report (z_session st'))) = "valid" ->
  verified_by_every_signer data signature.
Proof.
  unfold VerifyData. destruct (ss_is_initialized (z_session st)); cbn [negb]; [|intros [= _ _ <-]; done].
  destruct (VerifyDetached data signature) as [e|[valid info]] eqn:Ev; [intros [= _ _ <-]; done|].
  destruct (compute_report_spec "VerifyData" (z_disk st) (ss_settings (z_session st))
    (ss_ocsp_settings (z_session st)) signature valid info) as (r & m & d & Hc & Hh & Hs).
  unfold mbind, outcome_bind. rewrite Hc. unfold commit_report. cbn [MarkCommitted]. intros [= <- <- <-] Hv.
  assert (ck_status (SummaryCheck r) = "valid") as Hr by by destruct m.
  destruct (Hs Hr) as [-> _]. by apply (VerifyDetached_every_signer data signature info).
Qed.

End Implementation.

(** ** Concrete tokens *)

Module SampleToken.

Import SampleCms.
#[local] Existing Instances toy_clock toy_cert_api toy_cms_api.

(** Kupyna-256 is the identity here, so a digest can be read off. *)
Definition toy_token_digests : DigestApi := {|
  kupyna256 octets := Some octets; gost34311 _ := None; sha384 _ := None; sha512 _ := None;
  certificate_adapter _ _ := inl ""; signer_digest_oid _ := None
|}.
#[local] Existing Instance toy_token_digests.

Definition signer_head : list (byte * bytes) := [(x02, [x01]); (x30, []); (x30, [])].

Lemma ExtractRawSignedAttrs_exact_witness :
  ExtractRawSignedAttrs
    (encode_signed_data [x2a] signer_head [(xa0, [x30; x00]); (xa1, [])]
       (encode_signer signer_head [x31; x01; x30; x00] [x04; x00] ++ [x30]) [] ++ [])
  = Ret (der_tlv xa0 [x31; x01; x30; x00]).
Proof.
  apply (ExtractRawSignedAttrs_exact [x2a] signer_head [(xa0, [x30; x00]); (xa1, [])] signer_head [x31; x01; x30; x00] [x04; x00] [x30] []);
    [vm_compute; done|reflexivity|reflexivity|].
  constructor; [left; reflexivity|]. constructor; [right; reflexivity|constructor].
Defined.

(** The content of a token is the digest of the octets it is about: [messageDigest] is that content again. *)
Definition stamped : bytes := [x50; x44; x46].
Definition token : bytes := Eval vm_compute in Sha256 stamped.

Definition token_cms_api : CmsApi := {|
  ContentInfo_t := bytes;
  SignedData_t := bytes;
  SignerInfo_t := bytes;
  SignerIdentifier_t := unit;
  CertificateSet_t := list bytes;
  AlgorithmIdentifier_t := unit;
  AttributeValue_t := bytes;
  DigestAdapter := unit;
  cinfo_decode der := inr der;
  cinfo_get_signed_data der := inr der;
  sdata_get_certs _ := inr [toy_leaf];
  set_entries certs := map Some certs;
  get_cert_set_from_cert_array certs := Some certs;
  sdata_get_signer_infos der := inr [der];
  sdata_set_signer_infos der _ := inr der;
  sdata_get_signer_info_by_idx der i := if i =? 0 then inr der else inl RET_INVALID_PARAM;
  sinfo_get_signer_id _ := inr tt;
  get_cert_by_sid_and_usage _ usage certs := match certs with c :: _ => inr c | [] => inl RET_PKIX_NO_CERTIFICATE end;
  cert_decode_rc _ := RET_INVALID_PARAM;
  verify_adapter_init_rc _ := RET_INVALID_PARAM;
  digest_adapter_init_by_cert _ := inr tt;
  digest_adapter_init_by_aid _ := inr tt;
  set_digest_alg adapter := Some (fun _ => (RET_OK, adapter));
  verify_hash _ := Some (fun hash sign => if bool_decide (hash = sign) then RET_OK else RET_VERIFY_FAILED);
  digest_run _ octets := inr octets;
  sinfo_digest_algorithm _ := tt;
  sinfo_signature_algorithm _ := tt;
  aid_arcs _ := [];
  aid_is _ _ := false;
  sinfo_signature der := der;
  sign_os_to_ba der := inr der;
  sdata_verify_external_data_by_adapter _ _ _ _ _ := RET_VERIFY_FAILED;
  sdata_verify_internal_data_by_adapter _ _ _ _ := RET_OK;
  sdata_get_data der := inr der;
  sdata_econtent der := der;
  sdata_get_tst_info der := Some (MkTSTInfo (map Ascii.byte_of_ascii (chars "20240229120000Z")) [2; 16; 840; 1; 101; 3; 4; 2; 1] der);
  sdata_get_signing_time _ _ := None;
  signed_message_digest der := inr [der];
  asn_encode_value value := inr value;
  decode_octet_string octets := Some octets;
  unsigned_timestamp_tokens _ := None;
  pkix_set_timestamp_oid := RET_OK;
  asn_set_add_rc _ := RET_OK;
  sinfo_add_unsigned_timestamp der _ := inr der;
  cinfo_init_by_signed_data der := inr der;
  cinfo_encode der := inr der;
  cert_encode c := Some c
|}.
#[local] Existing Instance token_cms_api.

Definition token_verdict : TimestampValidationResult :=
  Eval vm_compute in token_result (TimestampValidator.ValidateTimestampToken token stamped []).

Lemma token_validated : TimestampValidator.ValidateTimestampToken token stamped [] = Ret token_verdict.
Proof. vm_compute. reflexivity. Qed.

(** A token about other octets is refused. *)
Example other_octets :
  tv_failure_code (token_result (TimestampValidator.ValidateTimestampToken token [x50] [])) = "TIMESTAMP_IMPRINT_MISMATCH".
Proof. vm_compute. reflexivity. Qed.

Lemma ValidateTimestampToken_grounds_witness :
  tv_valid token_verdict = true /\
  exists signed_data tst_info alg certificate,
    TimestampValidator.token_content token = inr (signed_data, tst_info) /\
    TimestampValidator.declared_algorithm tst_info = Some alg /\
    TimestampValidator.expected_imprint alg stamped = Some (tst_hashed_message tst_info) /\
    TimestampValidator.signature_verified token signed_data certificate.
Proof.
  split; [reflexivity|].
  destruct (TimestampValidator.ValidateTimestampToken_grounds token stamped [] token_verdict token_validated eq_refl)
    as (sd & tst & alg & c & H1 & _ & H2 & _ & H3 & _ & _ & _ & H4).
  exists sd, tst, alg, c. split; [exact H1|]. split; [exact H2|]. split; [exact H3|exact H4].
Defined.

Lemma ValidateTimestampToken_total_witness :
  exists r, TimestampValidator.ValidateTimestampToken token stamped [] = Ret r /\ (tv_valid r = true <-> tv_failure_code r = "").
Proof.
  apply (TimestampValidator.ValidateTimestampToken_total token stamped []); [vm_compute; done|intros adapter; vm_compute; eauto].
Defined.

End SampleToken.

(** ** A run of the session on top of the CMS layer *)

Module SampleRun.

Import SampleCms SampleToken.
#[local] Existing Instances toy_clock toy_cert_api toy_crl_api toy_ocsp_api toy_http toy_metadata_api toy_libxml toy_cms_api
  toy_token_digests.

Definition toy_external : ExternalApi := {|
  ex_disk := unit;
  ex_cert_aia _ := None;
  ex_registry_ocsp_url _ _ _ := None;
  ex_load_crls _ _ := [toy_crl_empty];
  ex_download_crls disk _ _ _ := disk;
  ex_enrich disk _ _ _ _ embedded := (embedded, disk)
|}.
#[local] Existing Instances toy_external tamga_timestamps tamga_cms.

Definition toy_run_store : StoreApi := {|
  read_dir _ dir := if dir ==s "w/trust-store" then Some [("root.cer", true, Some toy_root)] else None;
  read_text _ _ := None;
  fs_relative _ _ _ := None
|}.
#[local] Existing Instance toy_run_store.

Definition start : State := MkState (MkEpochs 0 0) toy_session tt.

Definition last_state (r : outcome (bool * bool * State)) : State :=
  match r with Ret (_, _, st) => st | _ => start end.

Definition flags (r : outcome (bool * bool * State)) : option (bool * bool) :=
  match r with Ret (result, is_valid, _) => Some (result, is_valid) | _ => None end.

Definition run : outcome (bool * bool * State) := VerifyData [x0a; x0b] [x0a; x0b] start.

Lemma run_flags : flags run = Some (true, true).
Proof. vm_compute. reflexivity. Qed.

Lemma run_verified : VerifyData [x0a; x0b] [x0a; x0b] start = Ret (true, true, last_state run).
Proof. fold run. pose proof run_flags as H. destruct run as [[[result is_valid] st]| |]; [|done|done]. by injection H as -> ->. Qed.

(** The same container over other data: the second signer has not signed them. *)
Example other_data :
  ck_status (SummaryCheck (ss_last_verify_report (z_session (last_state (VerifyData [x0a] [x0a; x0b] start))))) = "invalid".
Proof. vm_compute. reflexivity. Qed.

Lemma VerifyData_verifies_every_signer_witness :
  ck_status (SummaryCheck (ss_last_verify_report (z_session (last_state run)))) = "valid" /\
  verified_by_every_signer [x0a; x0b] [x0a; x0b].
Proof.
  assert (ck_status (SummaryCheck (ss_last_verify_report (z_session (last_state run)))) = "valid") as Hs
    by (vm_compute; reflexivity).
  split; [exact Hs|].
  pose proof (VerifyData_verifies_every_signer [x0a; x0b] [x0a; x0b] start (last_state run) true true) as Ht.
  exact (Ht run_verified Hs).
Defined.

End SampleRun.
