(* ===== verification/Pades.v ===== *)
(** * Pades: signed PDF documents (src/src/lib/pades)

    [pades/PdfByteRange.cpp] (Module [PdfByteRange]), [pades/PdfParser.cpp] (Module
    [PdfParser]) and [pades/PadesVerifier.cpp] (Module [PadesVerifier]).  The object graph of a
    document is what the third-party library qpdf makes of its bytes: class [Qpdf].  The
    CMS check is the one of [Cms], the check of a timestamp token the interface of
    [Timestamp]. *)

From stdpp Require Import gmap sorting.
From S2P Require Import Prelude CxxString Types Der Cryptonite Fixture X509Name PathEngine Timestamp Session Cms TokenValidator.

Local Open Scope Z_scope.
Local Open Scope tamga_scope.

(** ** [PdfTypes.h] *)

Module PadesProfile.
Inductive t := B | T | LT | LTA.
End PadesProfile.

Record ByteRange := MkByteRange {
  br_offset1 : Z;
  br_length1 : Z;
  br_offset2 : Z;
  br_length2 : Z
}.

#[export] Instance eta_ByteRange : Eta ByteRange := fun r =>
  MkByteRange (br_offset1 r) (br_length1 r) (br_offset2 r) (br_length2 r).

Definition ByteRange_default : ByteRange :=
  MkByteRange 0 0 0 0.

Record PdfSignatureDictionary := MkPdfSignatureDictionary {
  sd_profile : PadesProfile.t;
  sd_byte_range : ByteRange;
  sd_signature : bytes;
  sd_sub_filter : string;
  sd_reason : string;
  sd_location : string;
  sd_contact_info : string;
  sd_signing_time : string;
  sd_cert : bytes
}.

#[export] Instance eta_PdfSignatureDictionary : Eta PdfSignatureDictionary := fun r =>
  MkPdfSignatureDictionary (sd_profile r) (sd_byte_range r) (sd_signature r) (sd_sub_filter r)
  (sd_reason r) (sd_location r) (sd_contact_info r) (sd_signing_time r) (sd_cert r).

Definition PdfSignatureDictionary_default : PdfSignatureDictionary :=
  MkPdfSignatureDictionary PadesProfile.B ByteRange_default [] "" "" "" "" "" [].

(** What [ParseDss] answers and leaves in its outputs. *)
Record Dss := MkDss {
  ds_present : bool;
  ds_certificates_der : list bytes;
  ds_ocsp_responses_der : list bytes;
  ds_crls_der : list bytes
}.

#[export] Instance eta_Dss : Eta Dss := fun r =>
  MkDss (ds_present r) (ds_certificates_der r) (ds_ocsp_responses_der r) (ds_crls_der r).

Definition Dss_default : Dss :=
  MkDss false [] [] [].

(** ** qpdf *)

(** What a [catch] sees: an exception of the standard library with its text, or another one. *)
Inductive exception := std_exception (what : string) | other_exception.

Definition exception_text (e : exception) : string :=
  match e with std_exception what => what | other_exception => "невідома помилка qpdf" end.

(** The functions of qpdf that are called.  An object handle may denote any object; an accessor of another
    kind of object gives qpdf's neutral value.  An array is given with its items. *)
Class Qpdf := {
  QPDF : Type;
  QPDFObjectHandle : Type;
  processMemoryFile : bytes -> exception + QPDF;
  getRoot : QPDF -> exception + QPDFObjectHandle;
  getAllObjects : QPDF -> exception + list QPDFObjectHandle;
  getAllPages : QPDF -> exception + list QPDFObjectHandle;
  isDictionary : QPDFObjectHandle -> bool;
  isArray : QPDFObjectHandle -> bool;
  isStream : QPDFObjectHandle -> bool;
  isName : QPDFObjectHandle -> bool;
  isString : QPDFObjectHandle -> bool;
  isIndirect : QPDFObjectHandle -> bool;
  (** [getObjectID] and [getGeneration] *)
  getObjGen : QPDFObjectHandle -> Z * Z;
  hasKey : QPDFObjectHandle -> string -> bool;
  getKey : QPDFObjectHandle -> string -> QPDFObjectHandle;
  getKeys : QPDFObjectHandle -> list string;
  getArrayItems : QPDFObjectHandle -> list QPDFObjectHandle;
  (** the dictionary of a stream *)
  getDict : QPDFObjectHandle -> QPDFObjectHandle;
  getName : QPDFObjectHandle -> string;
  getStringValue : QPDFObjectHandle -> bytes;
  getIntValue : QPDFObjectHandle -> Z;
  unparse : QPDFObjectHandle -> string;
  (** the decoded data of a stream, a missing buffer being empty *)
  getStreamData : QPDFObjectHandle -> exception + bytes;
  getRawStreamData : QPDFObjectHandle -> exception + bytes
}.

(** [std::sort] by [offset2]: some sorted permutation, the order of equal elements being unspecified. *)
Class FieldSort := {
  sort_fields : list PdfSignatureDictionary -> list PdfSignatureDictionary;
  sort_fields_permutation (l : list PdfSignatureDictionary) : sort_fields l ≡ₚ l;
  sort_fields_sorted (l : list PdfSignatureDictionary) :
    Sorted (fun a b => br_offset2 (sd_byte_range a) <= br_offset2 (sd_byte_range b)) (sort_fields l)
}.

(** ** [PdfByteRange.cpp] *)

Module PdfByteRange.

(** [gt + 1] and [file_size - gt - 1] are computed in [std::size_t]. *)
Definition Compute `{Platform} (lt gt file_size : Z) : ByteRange :=
  MkByteRange 0 lt (wrap_size (gt + 1)) (wrap_size (file_size - gt - 1)).

Definition range_in_bounds (offset length size : Z) : bool := (offset <=? size) && (length <=? size - offset).

Definition range_octets (pdf : bytes) (offset length : Z) : bytes :=
  take (Z.to_nat length) (drop (Z.to_nat offset) pdf).

Definition ExtractSignedBytes (pdf : bytes) (br : ByteRange) : bytes :=
  let size := Z.of_nat (length pdf) in
  (if range_in_bounds (br_offset1 br) (br_length1 br) size then range_octets pdf (br_offset1 br) (br_length1 br) else [])
  ++ (if range_in_bounds (br_offset2 br) (br_length2 br) size then range_octets pdf (br_offset2 br) (br_length2 br) else []).

End PdfByteRange.

(** ** [PdfParser.cpp] *)

Module PdfParser.

(** What a fingerprint has written, and the numbers of the objects already visited. *)
Abbreviation Walk := (bytes * gset (Z * Z))%type.

Section Parser.
Context {HQpdf : Qpdf} {HSort : FieldSort}.

(** [None] for a document that qpdf reads, else the text of the error. *)
Definition IsValidPdf (pdf : bytes) : option string :=
  if is_empty pdf then Some "Порожній PDF"
  else match processMemoryFile pdf with
       | inl e => Some (exception_text e)
       | inr _ => None
       end.

(** The data of the streams among the items, and whether an exception ended the loop. *)
Fixpoint stream_items (items : list QPDFObjectHandle) : list bytes * bool :=
  match items with
  | [] => ([], false)
  | item :: items =>
      if negb (isStream item) then stream_items items
      else match getStreamData item with
           | inl _ => ([], true)
           | inr [] => stream_items items
           | inr (b :: data) => let '(out, thrown) := stream_items items in ((b :: data) :: out, thrown)
           end
  end.

Definition ExtractStreamArray (dict : QPDFObjectHandle) (key : string) : list bytes * bool :=
  if negb (hasKey dict key) then ([], false)
  else let arr := getKey dict key in
       if negb (isArray arr) then ([], false) else stream_items (getArrayItems arr).

(** The result of the three lists; after an exception they hold what was read before. *)
Definition read_dss (dss : QPDFObjectHandle) : Dss :=
  let '(certs, thrown) := ExtractStreamArray dss "/Certs" in
  if thrown : bool then MkDss false certs [] []
  else
    let '(ocsps, thrown) := ExtractStreamArray dss "/OCSPs" in
    if thrown : bool then MkDss false certs ocsps []
    else
      let '(crls, thrown) := ExtractStreamArray dss "/CRLs" in
      MkDss (negb thrown) certs ocsps crls.

Definition ParseDss (pdf : bytes) : Dss :=
  if is_empty pdf then Dss_default
  else
    match processMemoryFile pdf with
    | inl _ => Dss_default
    | inr qpdf =>
        match getRoot qpdf with
        | inl _ => Dss_default
        | inr root =>
            if negb (hasKey root "/DSS") then Dss_default
            else let dss := getKey root "/DSS" in
                 if negb (isDictionary dss) then Dss_default else read_dss dss
        end
    end.

(** The name without its slash. *)
Definition sub_filter_of (obj : QPDFObjectHandle) : string :=
  let value := getKey obj "/SubFilter" in
  if negb (isName value) then ""
  else let sf := getName value in
       if (1 <? String.length sf)%nat then substr_from sf 1 else sf.

Definition byte_range_of (br : QPDFObjectHandle) : ByteRange :=
  if negb (isArray br) then ByteRange_default
  else match getArrayItems br with
       | [o1; l1; o2; l2] =>
           MkByteRange (wrap 64 (getIntValue o1)) (wrap 64 (getIntValue l1))
                       (wrap 64 (getIntValue o2)) (wrap 64 (getIntValue l2))
       | _ => ByteRange_default
       end.

Definition signature_field (obj : QPDFObjectHandle) : option PdfSignatureDictionary :=
  if negb (isDictionary obj) then None
  else if negb (hasKey obj "/SubFilter") || negb (hasKey obj "/ByteRange") || negb (hasKey obj "/Contents") then None
  else
    let contents := getKey obj "/Contents" in
    let sd := PdfSignatureDictionary_default
      <| sd_sub_filter := sub_filter_of obj |>
      <| sd_byte_range := byte_range_of (getKey obj "/ByteRange") |>
      <| sd_signature := if isString contents then getStringValue contents else [] |> in
    if negb (is_empty (sd_signature sd)) && (0 <? br_length1 (sd_byte_range sd)) then Some sd else None.

Definition ExtractSignatureFields (pdf : bytes) : list PdfSignatureDictionary :=
  if is_empty pdf then []
  else
    match processMemoryFile pdf with
    | inl _ => []
    | inr qpdf =>
        match getAllObjects qpdf with
        | inl _ => []
        | inr objects => sort_fields (omap signature_field objects)
        end
    end.

(** *** The fingerprint of a page *)

Definition kMaxFingerprintDepth : nat := 12.
Definition kMaxFingerprintBytes : Z := 64 * 1024 * 1024.

Definition octets_of (s : string) : bytes := map Ascii.byte_of_ascii (chars s).

(** A stream whose filter is not supported is taken as it is stored. *)
Definition AppendStreamBytes (obj : QPDFObjectHandle) (out : bytes) : exception + bytes :=
  if negb (isStream obj) then inr out
  else match getStreamData obj with
       | inr data => inr (out ++ data)
       | inl (std_exception _) =>
           match getRawStreamData obj with
           | inr raw => inr (out ++ raw)
           | inl _ => inr (out ++ [xff])
           end
       | inl other_exception => inl other_exception
       end.

(** A loop whose body may throw. *)
Fixpoint for_each {A S : Type} (body : A -> S -> exception + S) (items : list A) (s : S) : exception + S :=
  match items with
  | [] => inr s
  | item :: items => let? s := body item s in for_each body items s
  end.

Definition push (b : bytes) (w : Walk) : Walk := (w.1 ++ b, w.2).

(** [levels] is [kMaxFingerprintDepth + 1 - depth]. *)
Fixpoint AppendObjectFingerprint (levels : nat) (obj : QPDFObjectHandle) (w : Walk) : exception + Walk :=
  if kMaxFingerprintBytes <? Z.of_nat (length w.1) then inr w
  else match levels with
  | O => inr (push [x23] w)
  | S levels =>
      if isIndirect obj && bool_decide (getObjGen obj ∈ w.2) then inr (push [x40] w)
      else
        let w := if isIndirect obj then (w.1, {[getObjGen obj]} ∪ w.2) else w in
        if isStream obj then
          let? w := AppendObjectFingerprint levels (getDict obj) w in
          let? out := AppendStreamBytes obj (w.1 ++ [x7e]) in
          inr (out, w.2)
        else if isDictionary obj then
          let? w := for_each (fun key w =>
            let? w := AppendObjectFingerprint levels (getKey obj key) (push (octets_of key ++ [x3a]) w) in
            inr (push [x3b] w)) (getKeys obj) (push [x3c] w) in
          inr (push [x3e] w)
        else if isArray obj then
          let? w := for_each (fun item w =>
            let? w := AppendObjectFingerprint levels item w in
            inr (push [x2c] w)) (getArrayItems obj) (push [x5b] w) in
          inr (push [x5d] w)
        else inr (push (octets_of (unparse obj)) w)
  end.

Definition AppendKeyFingerprint (dict : QPDFObjectHandle) (key : string) (w : Walk) : exception + Walk :=
  if negb (hasKey dict key) then inr (push [x2d] w)
  else AppendObjectFingerprint (S kMaxFingerprintDepth) (getKey dict key) w.

Definition geometry_keys : list string := ["/MediaBox"; "/CropBox"; "/Rotate"; "/UserUnit"].

Definition AppendContents (page : QPDFObjectHandle) (out : bytes) : exception + bytes :=
  if negb (hasKey page "/Contents") then inr out
  else let contents := getKey page "/Contents" in
       if isArray contents then for_each AppendStreamBytes (getArrayItems contents) out
       else AppendStreamBytes contents out.

(** The subtype and the normal appearance of an annotation. *)
Definition AppendAnnotation (a : QPDFObjectHandle) (out : bytes) : exception + bytes :=
  if negb (isDictionary a) then inr out
  else
    let out := if hasKey a "/Subtype" && isName (getKey a "/Subtype")
               then out ++ octets_of (getName (getKey a "/Subtype")) else out in
    let ap := getKey a "/AP" in
    let? out := (if hasKey a "/AP" && isDictionary ap && hasKey ap "/N"
                 then AppendStreamBytes (getKey ap "/N") out else inr out) in
    inr (out ++ [x3b]).

Definition AppendAnnotations (page : QPDFObjectHandle) (out : bytes) : exception + bytes :=
  if negb (hasKey page "/Annots") then inr out
  else let annots := getKey page "/Annots" in
       if isArray annots then for_each AppendAnnotation (getArrayItems annots) out else inr out.

Definition AppendPageFingerprint (page : QPDFObjectHandle) (out : bytes) : exception + bytes :=
  if negb (isDictionary page) then inr out
  else
    let? w := for_each (fun key w => let? w := AppendKeyFingerprint page key w in inr (push [x3b] w))
                geometry_keys (out, ∅) in
    let? out := AppendContents page (w.1 ++ [x7c]) in
    let? w := AppendKeyFingerprint page "/Resources" (out ++ [x7c], ∅) in
    let? out := AppendAnnotations page (w.1 ++ [x7c]) in
    inr (out ++ [x0a]).

Definition AppendDocumentFingerprint (qpdf : QPDF) (out : bytes) : exception + bytes :=
  let? root := getRoot qpdf in
  let? w := AppendKeyFingerprint root "/OCProperties" (out, ∅) in
  inr (w.1 ++ [x0a]).

Definition page_fingerprints (pages : list QPDFObjectHandle) : exception + list bytes :=
  for_each (fun page fps => let? fp := AppendPageFingerprint page [] in inr (fps ++ [fp])) pages [].

(** The fingerprints of the pages and of the document, or the text of the error. *)
Definition CollectPageFingerprints (pdf : bytes) : string + list bytes * bytes :=
  match (let? qpdf := processMemoryFile pdf in
         let? pages := getAllPages qpdf in
         let? fps := page_fingerprints pages in
         let? document := AppendDocumentFingerprint qpdf [] in
         inr (fps, document)) with
  | inl e => inl (exception_text e)
  | inr fingerprints => inr fingerprints
  end.

(** The number of the first page that differs, from one. *)
Fixpoint first_changed (index : nat) (signed current : list bytes) : option nat :=
  match signed, current with
  | fp :: signed, fp' :: current => if bool_decide (fp = fp') then first_changed (S index) signed current else Some (S index)
  | _, _ => None
  end.

(** [None] when the two revisions could not be compared; whether the content changed; and an explanation. *)
Definition ComparePageContentWithSignedRevision (pdf : bytes) (signed_prefix_size : Z) : option bool * string :=
  if (signed_prefix_size =? 0) || (Z.of_nat (length pdf) <? signed_prefix_size)
  then (None, "некоректний розмір підписаної ревізії")
  else
    match CollectPageFingerprints (take (Z.to_nat signed_prefix_size) pdf) with
    | inl signed_error => (None, "підписана ревізія не розбирається окремо: " +s+ signed_error)
    | inr (signed_pages, signed_document) =>
        match CollectPageFingerprints pdf with
        | inl current_error => (None, "поточний документ не розбирається: " +s+ current_error)
        | inr (current_pages, current_document) =>
            if negb (bool_decide (signed_document = current_document))
            then (Some true, "документні властивості видимості (/OCProperties) змінено після підписання")
            else if negb (length signed_pages =? length current_pages)%nat
            then (Some true, "кількість сторінок змінено після підписання: було "
                    +s+ to_string (Z.of_nat (length signed_pages)) +s+ ", стало "
                    +s+ to_string (Z.of_nat (length current_pages)))
            else match first_changed 0 signed_pages current_pages with
                 | Some i => (Some true, "вміст сторінки " +s+ to_string (Z.of_nat i) +s+ " змінено після підписання")
                 | None => (Some false, "вміст сторінок не змінювався")
                 end
        end
    end.

End Parser.
End PdfParser.

(** ** [PadesVerifier.cpp] *)

Record PadesSignatureEvidence := MkPadesSignatureEvidence {
  ev_cms_der : bytes;
  ev_signer_certificate_der : bytes;
  ev_signature_valid : bool;
  ev_signature_timestamp_present : bool;
  ev_signed_revision_end : Z
}.

#[export] Instance eta_PadesSignatureEvidence : Eta PadesSignatureEvidence := fun r =>
  MkPadesSignatureEvidence (ev_cms_der r) (ev_signer_certificate_der r) (ev_signature_valid r)
  (ev_signature_timestamp_present r) (ev_signed_revision_end r).

Definition PadesSignatureEvidence_default : PadesSignatureEvidence :=
  MkPadesSignatureEvidence [] [] false false 0.

Record PadesVerificationResult := MkPadesVerificationResult {
  pv_detected_profile : PadesProfile.t;
  pv_signature_valid : bool;
  pv_byte_range_valid : bool;
  pv_pdf_well_formed : bool;
  pv_timestamps_valid : bool;
  pv_ltv_valid : bool;
  pv_document_size : Z;
  pv_signed_coverage_end : Z;
  pv_unsigned_trailing_bytes : Z;
  pv_coverage_status : string;
  pv_coverage_complete : bool;
  pv_signature_count : Z;
  pv_signer_certificate_der : bytes;
  pv_signer_cms_der : bytes;
  pv_main_signatures : list PadesSignatureEvidence;
  pv_signature_timestamp_present : bool;
  pv_document_timestamp_tokens_der : list bytes;
  pv_document_timestamp_imprint_sources : list bytes;
  pv_document_timestamp_revision_ends : list Z;
  pv_dss_certificates_der : list bytes;
  pv_dss_ocsp_responses_der : list bytes;
  pv_dss_crls_der : list bytes;
  pv_notes : list string
}.

#[export] Instance eta_PadesVerificationResult : Eta PadesVerificationResult := fun r =>
  MkPadesVerificationResult (pv_detected_profile r) (pv_signature_valid r)
  (pv_byte_range_valid r) (pv_pdf_well_formed r) (pv_timestamps_valid r) (pv_ltv_valid r)
  (pv_document_size r) (pv_signed_coverage_end r) (pv_unsigned_trailing_bytes r)
  (pv_coverage_status r) (pv_coverage_complete r) (pv_signature_count r)
  (pv_signer_certificate_der r) (pv_signer_cms_der r) (pv_main_signatures r)
  (pv_signature_timestamp_present r) (pv_document_timestamp_tokens_der r)
  (pv_document_timestamp_imprint_sources r) (pv_document_timestamp_revision_ends r)
  (pv_dss_certificates_der r) (pv_dss_ocsp_responses_der r) (pv_dss_crls_der r) (pv_notes r).

Definition PadesVerificationResult_default : PadesVerificationResult :=
  MkPadesVerificationResult PadesProfile.B false false false false false 0 0 0 "complete" false
  0 [] [] [] false [] [] [] [] [] [] [].

(** The locals of the loop over the main signatures. *)
Record MainState := MkMainState {
  ms_result : PadesVerificationResult;
  ms_all_sigs_valid : bool;
  ms_signer_cert_set : bool;
  ms_has_embedded_ts : bool;
  ms_embedded_ts_valid : bool
}.

#[export] Instance eta_MainState : Eta MainState := fun r =>
  MkMainState (ms_result r) (ms_all_sigs_valid r) (ms_signer_cert_set r) (ms_has_embedded_ts r)
  (ms_embedded_ts_valid r).

Module PadesVerifier.

Import PdfByteRange PdfParser.

(** *** The end of the DER value in the padded octets of [/Contents] *)

Section Trim.
Context {HPlat : Platform}.

Definition DerLength (der : bytes) : outcome Z :=
  let size := Z.of_nat (length der) in
  match der with
  | first :: _ :: _ =>
      if negb (bool_decide (first = x30)) then Ret size
      else match ParseTlvAt_vec der 0 size with
           | UB => UB
           | Fails => Ret size
           | Ret tlv => Ret (next_offset tlv)
           end
  | _ => Ret size
  end.

Definition TrimDer (data : bytes) : outcome bytes :=
  n ← DerLength data;
  Ret (if n <? Z.of_nat (length data) then take (Z.to_nat n) data else data).

End Trim.

(** White space after the last marker of a revision. *)
Definition is_pdf_space (c : byte) : bool := bool_decide (c ∈ [x0d; x0a; x20; x09; x0c; x00]).

Definition kEof : bytes := [x25; x25; x45; x4f; x46].

Fixpoint drop_spaces (reversed : bytes) : bytes :=
  match reversed with
  | c :: rest => if is_pdf_space c then drop_spaces rest else reversed
  | [] => []
  end.

Definition EndsWithPdfEof (pdf : bytes) : bool := bool_decide (take 5 (drop_spaces (rev pdf)) = rev kEof).

Section Verifier.
Context {HPlat : Platform} {HCert : CertApi} {HCms : CmsApi} {HTs : TimestampApi} {HQpdf : Qpdf} {HSort : FieldSort}.

Definition add_note (text : string) (result : PadesVerificationResult) : PadesVerificationResult :=
  result <| pv_notes ::= fun notes => notes ++ [text] |>.

Definition is_doctimestamp (f : PdfSignatureDictionary) : bool := sd_sub_filter f ==s "ETSI.RFC3161".

(** *** What the signatures cover *)

Definition extend_coverage (pdf_size coverage_end : Z) (f : PdfSignatureDictionary) : Z :=
  let br := sd_byte_range f in
  if range_in_bounds (br_offset2 br) (br_length2 br) pdf_size
  then let e := br_offset2 br + br_length2 br in if coverage_end <? e then e else coverage_end
  else coverage_end.

Definition coverage_end_of (pdf_size : Z) (fields : list PdfSignatureDictionary) : Z :=
  foldl (extend_coverage pdf_size) 0 fields.

Definition classify_coverage (pdf : bytes) (fields : list PdfSignatureDictionary) (result : PadesVerificationResult)
    : PadesVerificationResult :=
  let pdf_size := Z.of_nat (length pdf) in
  let coverage_end := coverage_end_of pdf_size fields in
  let trailing := if coverage_end <? pdf_size then pdf_size - coverage_end else 0 in
  let result := result <| pv_document_size := pdf_size |> <| pv_signed_coverage_end := coverage_end |>
                       <| pv_unsigned_trailing_bytes := trailing |> in
  let set (status : string) (complete : bool) :=
    result <| pv_coverage_status := status |> <| pv_coverage_complete := complete |> in
  if coverage_end =? pdf_size then set "complete" true
  else if negb (EndsWithPdfEof pdf) then
    add_note ("Після підписаної ревізії дописано " +s+ to_string trailing
              +s+ " байт(ів), які не утворюють коректного інкрементального оновлення PDF"
              +s+ " (файл не завершується маркером %%EOF)") (set "unsigned-data-appended" false)
  else
    let '(content_changed, detail) := ComparePageContentWithSignedRevision pdf coverage_end in
    match content_changed with
    | None =>
        add_note ("Не вдалося перевірити, чи змінює документ " +s+ to_string trailing
                  +s+ " байт(ів), дописаних після підписаної ревізії: " +s+ detail) (set "coverage-unverifiable" false)
    | Some true =>
        add_note ("Документ змінено після підписання: " +s+ detail
                  +s+ " (непокрито " +s+ to_string trailing +s+ " байт(ів))") (set "modified-after-signing" false)
    | Some false =>
        add_note ("Після підписаної ревізії додано " +s+ to_string trailing
                  +s+ " байт(ів) інкрементальних оновлень (типово /DSS для PAdES-LT);"
                  +s+ " вміст сторінок не змінено") (set "extended-by-unsigned-revisions" true)
    end.

(** *** The main signatures *)

Definition byte_range_ok (br : ByteRange) (pdf_size : Z) : bool :=
  (br_offset1 br =? 0) && (br_length1 br <? br_offset2 br)
  && range_in_bounds (br_offset1 br) (br_length1 br) pdf_size
  && range_in_bounds (br_offset2 br) (br_length2 br) pdf_size.

Definition revision_end (br : ByteRange) (valid : bool) : Z := if valid then br_offset2 br + br_length2 br else 0.

Definition integrity_note (index : Z) (br : ByteRange) (signed_bytes cms : bytes) (policy_info : VerifyPolicyInfo) : string :=
  let flag (b : bool) := if b then "true" else "false" in
  "CMS integrity failed for signature #" +s+ to_string index
  +s+ ": byteRange=[" +s+ to_string (br_offset1 br) +s+ " " +s+ to_string (br_length1 br)
  +s+ " " +s+ to_string (br_offset2 br) +s+ " " +s+ to_string (br_length2 br) +s+ "]"
  +s+ ", signedBytes=" +s+ to_string (Z.of_nat (length signed_bytes))
  +s+ ", cms=" +s+ to_string (Z.of_nat (length cms))
  +s+ ", signerCertPresent=" +s+ flag (pi_signer_certificate_present policy_info)
  +s+ ", signers=" +s+ to_string (pi_signer_count policy_info).

(** The check of the CMS; the facts are the default ones when it did not run to its end. *)
Definition check_cms (index : Z) (br : ByteRange) (signed_bytes cms : bytes) (s : MainState)
    : bool * VerifyPolicyInfo * MainState :=
  match Adapter.VerifyDetached signed_bytes cms with
  | inl verify_error =>
      (false, VerifyPolicyInfo_default,
       s <| ms_all_sigs_valid := false |> <| ms_result ::= add_note ("VerifyDetached: " +s+ verify_error) |>)
  | inr (sig_valid, policy_info) =>
      let s := if sig_valid then s
               else s <| ms_all_sigs_valid := false |>
                      <| ms_result ::= add_note (integrity_note index br signed_bytes cms policy_info) |> in
      let s := if ms_signer_cert_set s then s
               else s <| ms_result ::= fun r => r <| pv_signer_certificate_der := pi_signer_certificate_der policy_info |>
                                                 <| pv_signer_cms_der := cms |> |>
                      <| ms_signer_cert_set := true |> in
      (sig_valid, policy_info, s)
  end.

Definition has_timestamp (cms : bytes) : bool :=
  match Adapter.HasSignatureTimestampToken cms with inr has => has | inl _ => false end.

(** The timestamp inside the CMS. *)
Definition check_embedded_timestamp (cms : bytes) (s : MainState) : MainState :=
  if negb (has_timestamp cms) then s
  else
    let s := s <| ms_has_embedded_ts := true |> in
    match Adapter.ExtractSignatureTimestampToken cms, Adapter.GetSignatureValue cms with
    | inr token, inr sigval =>
        let vr := ValidateTimestampToken token sigval (pv_dss_certificates_der (ms_result s)) in
        if negb (tv_valid vr) then
          s <| ms_embedded_ts_valid := false |> <| ms_result ::= add_note ("signature-timestamp: " +s+ tv_message vr) |>
        else if tv_tsa_certificate_external vr then
          s <| ms_result ::= add_note "signature-timestamp: TSA certificate resolved from /DSS" |>
        else s
    | _, _ => s <| ms_embedded_ts_valid := false |> <| ms_result ::= add_note "signature-timestamp: extract failed" |>
    end.

(** One pass of the loop; [index] counts from one. *)
Definition verify_main (pdf : bytes) (index : Z) (sig : PdfSignatureDictionary) (s : MainState) : outcome MainState :=
  let br := sd_byte_range sig in
  let br_valid := byte_range_ok br (Z.of_nat (length pdf)) in
  let s := if ms_signer_cert_set s then s else s <| ms_result ::= fun r => r <| pv_byte_range_valid := br_valid |> |> in
  let s := if br_valid then s
           else s <| ms_all_sigs_valid := false |> <| ms_result ::= add_note "ByteRange не покриває файл повністю" |> in
  cms ← TrimDer (sd_signature sig);
  let '(sig_valid, policy_info, s) := check_cms index br (ExtractSignedBytes pdf br) cms s in
  let s := check_embedded_timestamp cms s in
  Ret (s <| ms_result ::= fun r => r <| pv_main_signatures ::= fun l => l ++
    [MkPadesSignatureEvidence cms (pi_signer_certificate_der policy_info) (sig_valid && br_valid) (has_timestamp cms)
       (revision_end br br_valid)] |> |>).

Fixpoint verify_mains (pdf : bytes) (index : Z) (sigs : list PdfSignatureDictionary) (s : MainState) : outcome MainState :=
  match sigs with
  | [] => Ret s
  | sig :: sigs => s ← verify_main pdf index sig s; verify_mains pdf (index + 1) sigs s
  end.

(** *** The document timestamps *)

Definition doctimestamp_range_ok (br : ByteRange) (pdf_size : Z) : bool :=
  (br_offset1 br =? 0) && (br_length1 br <? br_offset2 br) && range_in_bounds (br_offset2 br) (br_length2 br) pdf_size.

(** The result and [doctimestamp_valid]. *)
Definition verify_doctimestamp (pdf : bytes) (dts : PdfSignatureDictionary) (s : PadesVerificationResult * bool)
    : outcome (PadesVerificationResult * bool) :=
  let '(result, doctimestamp_valid) := s in
  let br := sd_byte_range dts in
  token ← TrimDer (sd_signature dts);
  let signed_bytes := ExtractSignedBytes pdf br in
  let range_valid := doctimestamp_range_ok br (Z.of_nat (length pdf)) in
  let result := result
    <| pv_document_timestamp_tokens_der ::= fun l => l ++ [token] |>
    <| pv_document_timestamp_imprint_sources ::= fun l => l ++ [signed_bytes] |>
    <| pv_document_timestamp_revision_ends ::= fun l => l ++ [revision_end br range_valid] |> in
  let vr := ValidateTimestampToken token signed_bytes (pv_dss_certificates_der result) in
  let doctimestamp_valid := doctimestamp_valid && range_valid && tv_valid vr in
  let result := if negb (tv_valid vr) then add_note ("DocTimeStamp: " +s+ tv_message vr) result
                else if tv_tsa_certificate_external vr
                then add_note "DocTimeStamp: TSA certificate resolved from /DSS" result
                else result in
  Ret (result, doctimestamp_valid).

Fixpoint verify_doctimestamps (pdf : bytes) (fields : list PdfSignatureDictionary) (s : PadesVerificationResult * bool)
    : outcome (PadesVerificationResult * bool) :=
  match fields with
  | [] => Ret s
  | dts :: fields => s ← verify_doctimestamp pdf dts s; verify_doctimestamps pdf fields s
  end.

(** *** The verifier *)

(** Before the signatures are looked at: the form of the document, what is covered, the security store. *)
Definition opened (pdf : bytes) (fields main_sigs : list PdfSignatureDictionary) : PadesVerificationResult * bool :=
  let pdf_error := IsValidPdf pdf in
  let result := PadesVerificationResult_default
    <| pv_pdf_well_formed := match pdf_error with None => true | Some _ => false end |> in
  let result := match pdf_error with Some text => add_note ("qpdf: " +s+ text) result | None => result end in
  let result := result <| pv_signature_count := Z.of_nat (length main_sigs) |> in
  let result := classify_coverage pdf fields result in
  let dss := ParseDss pdf in
  let result := result <| pv_dss_certificates_der := ds_certificates_der dss |>
    <| pv_dss_ocsp_responses_der := ds_ocsp_responses_der dss |> <| pv_dss_crls_der := ds_crls_der dss |>
    <| pv_ltv_valid := ds_present dss && negb (is_empty (ds_certificates_der dss)) |> in
  (result, ds_present dss).

Definition profile_found (has_doctimestamp has_dss has_embedded_ts : bool) : PadesProfile.t :=
  if has_doctimestamp then PadesProfile.LTA
  else if has_dss then PadesProfile.LT
  else if has_embedded_ts then PadesProfile.T
  else PadesProfile.B.

Definition VerifyPdf (pdf : bytes) : outcome (string + PadesVerificationResult) :=
  let sig_fields := ExtractSignatureFields pdf in
  let doctimestamps := List.filter is_doctimestamp sig_fields in
  let main_sigs := List.filter (fun f => negb (is_doctimestamp f)) sig_fields in
  if is_empty sig_fields then Ret (inl "Не знайдено полів підпису (AcroForm/Sig)")
  else if is_empty main_sigs then Ret (inl "Не знайдено основного підпису (всі поля мають SubFilter ETSI.RFC3161)")
  else
    let '(result, has_dss) := opened pdf sig_fields main_sigs in
    s ← verify_mains pdf 1 main_sigs (MkMainState result true false false true);
    let result := (ms_result s) <| pv_signature_valid := ms_all_sigs_valid s |>
                              <| pv_signature_timestamp_present := ms_has_embedded_ts s |> in
    '(result, doctimestamp_valid) ← verify_doctimestamps pdf doctimestamps (result, true);
    let has_doctimestamp := negb (is_empty doctimestamps) in
    let has_embedded_ts := ms_has_embedded_ts s in
    Ret (inr (result
      <| pv_timestamps_valid := (has_embedded_ts || has_doctimestamp)
           && (negb has_embedded_ts || ms_embedded_ts_valid s) && (negb has_doctimestamp || doctimestamp_valid) |>
      <| pv_detected_profile := profile_found has_doctimestamp has_dss has_embedded_ts |>)).

End Verifier.
End PadesVerifier.

(** ** What the verifier says *)

Module PadesProofs.

Import PdfByteRange PdfParser PadesVerifier.

Section Trimming.
Context {HPlat : Platform}.

(** Cutting the padding never fails, whatever the octets are. *)
Lemma TrimDer_total (data : bytes) : fits data -> exists n, TrimDer data = Ret (take n data).
Proof.
  intros Hf. assert (exists n, DerLength data = Ret n) as [n Hn].
  { unfold DerLength. destruct data as [|a [|b rest]]; [by eexists..|]. destruct (negb _); [by eexists|].
    rewrite ParseTlvAt_vec_inside by lia.
    pose proof (ParseTlvAt_safe (a :: b :: rest) 0 _ Hf ltac:(lia) (Z.le_refl _)) as Hs.
    destruct (ParseTlvAt _ _ _); [by eexists..|done]. }
  unfold TrimDer. rewrite Hn. unfold mbind, outcome_bind. destruct (n <? _); eexists; [done|].
  by rewrite <- (firstn_all data) at 1.
Qed.

End Trimming.

Section Coverage.
Context {HPlat : Platform} {HCert : CertApi} {HCms : CmsApi} {HTs : TimestampApi} {HQpdf : Qpdf} {HSort : FieldSort}.

(** The fields that are looked at. *)
Definition main_fields (pdf : bytes) : list PdfSignatureDictionary :=
  List.filter (fun f => negb (is_doctimestamp f)) (ExtractSignatureFields pdf).
Definition timestamp_fields (pdf : bytes) : list PdfSignatureDictionary :=
  List.filter is_doctimestamp (ExtractSignatureFields pdf).

Definition trimmed (f : PdfSignatureDictionary) : bytes :=
  match TrimDer (sd_signature f) with Ret data => data | _ => [] end.

Definition detached_ok (pdf : bytes) (sig : PdfSignatureDictionary) : bool :=
  match Adapter.VerifyDetached (ExtractSignedBytes pdf (sd_byte_range sig)) (trimmed sig) with
  | inr (true, _) => true
  | _ => false
  end.

Definition main_ok (pdf : bytes) (sig : PdfSignatureDictionary) : bool :=
  byte_range_ok (sd_byte_range sig) (Z.of_nat (length pdf)) && detached_ok pdf sig.

Definition embedded_ok (certs : list bytes) (cms : bytes) : bool :=
  negb (has_timestamp cms) ||
  match Adapter.ExtractSignatureTimestampToken cms, Adapter.GetSignatureValue cms with
  | inr token, inr sigval => tv_valid (ValidateTimestampToken token sigval certs)
  | _, _ => false
  end.

Definition document_ok (certs : list bytes) (pdf : bytes) (dts : PdfSignatureDictionary) : bool :=
  doctimestamp_range_ok (sd_byte_range dts) (Z.of_nat (length pdf))
  && tv_valid (ValidateTimestampToken (trimmed dts) (ExtractSignedBytes pdf (sd_byte_range dts)) certs).

(** The fields of the result that the loops leave alone. *)
Definition before_loops (r : PadesVerificationResult) :=
  (pv_coverage_status r, pv_coverage_complete r, pv_signed_coverage_end r, pv_document_size r,
   (pv_dss_certificates_der r, pv_ltv_valid r, pv_signature_count r)).

Definition evidence_of (pdf : bytes) (sig : PdfSignatureDictionary) : PadesSignatureEvidence :=
  let br := sd_byte_range sig in
  let valid := byte_range_ok br (Z.of_nat (length pdf)) in
  MkPadesSignatureEvidence (trimmed sig)
    (match Adapter.VerifyDetached (ExtractSignedBytes pdf br) (trimmed sig) with
     | inr (_, info) => pi_signer_certificate_der info | inl _ => [] end)
    (detached_ok pdf sig && valid) (has_timestamp (trimmed sig)) (revision_end br valid).

(** The locals of the loop without the texts. *)
Definition ms_view (s : MainState) :=
  (ms_all_sigs_valid s, ms_has_embedded_ts s, ms_embedded_ts_valid s, before_loops (ms_result s), pv_main_signatures (ms_result s)).

Lemma check_cms_view (index : Z) (br : ByteRange) (signed_bytes cms : bytes) (s : MainState) :
  let '(sig_valid, info, s') := check_cms index br signed_bytes cms s in
  (sig_valid = match Adapter.VerifyDetached signed_bytes cms with inr (true, _) => true | _ => false end) /\
  (pi_signer_certificate_der info = match Adapter.VerifyDetached signed_bytes cms with
    | inr (_, info) => pi_signer_certificate_der info | inl _ => [] end) /\
  ms_view s' = (ms_all_sigs_valid s && sig_valid, ms_has_embedded_ts s, ms_embedded_ts_valid s,
                before_loops (ms_result s), pv_main_signatures (ms_result s)).
Proof.
  unfold check_cms. destruct (Adapter.VerifyDetached signed_bytes cms) as [e|[[] info]].
  - split_and!; [done..|]. unfold ms_view. cbn. by rewrite andb_false_r.
  - split_and!; [done..|]. destruct (ms_signer_cert_set s); unfold ms_view; cbn; by rewrite andb_true_r.
  - split_and!; [done..|]. destruct (ms_signer_cert_set _); unfold ms_view; cbn; by rewrite andb_false_r.
Qed.

Lemma check_embedded_timestamp_view (cms : bytes) (s : MainState) :
  ms_view (check_embedded_timestamp cms s) =
  (ms_all_sigs_valid s, ms_has_embedded_ts s || has_timestamp cms,
   ms_embedded_ts_valid s && embedded_ok (pv_dss_certificates_der (ms_result s)) cms,
   before_loops (ms_result s), pv_main_signatures (ms_result s)).
Proof.
  unfold check_embedded_timestamp, embedded_ok. destruct (has_timestamp cms) eqn:Eh; cbn [negb orb].
  2: { unfold ms_view. by rewrite orb_false_r, andb_true_r. }
  destruct (Adapter.ExtractSignatureTimestampToken cms) as [?|token], (Adapter.GetSignatureValue cms) as [?|sigval];
    try (unfold ms_view; cbn; by rewrite orb_true_r, andb_false_r).
  cbn [ms_result]. destruct (tv_valid _) eqn:Ev; cbn [negb].
  - destruct (tv_tsa_certificate_external _); unfold ms_view; cbn; by rewrite orb_true_r, andb_true_r.
  - unfold ms_view; cbn; by rewrite orb_true_r, andb_false_r.
Qed.

Lemma verify_main_view (pdf : bytes) (index : Z) (sig : PdfSignatureDictionary) (s s' : MainState) :
  verify_main pdf index sig s = Ret s' ->
  TrimDer (sd_signature sig) = Ret (trimmed sig) /\
  ms_view s' = (ms_all_sigs_valid s && main_ok pdf sig, ms_has_embedded_ts s || has_timestamp (trimmed sig),
    ms_embedded_ts_valid s && embedded_ok (pv_dss_certificates_der (ms_result s)) (trimmed sig),
    before_loops (ms_result s), pv_main_signatures (ms_result s) ++ [evidence_of pdf sig]).
Proof.
  unfold verify_main, main_ok, evidence_of, detached_ok, trimmed.
  destruct (TrimDer (sd_signature sig)) as [cms| |]; [|done..]. unfold mbind, outcome_bind. intros E. split; [done|].
  revert E. set (valid := byte_range_ok _ _). clearbody valid.
  match goal with |- context [check_cms ?i ?b ?d ?c ?s0] =>
    assert (ms_view s0 = (ms_all_sigs_valid s && valid, ms_has_embedded_ts s, ms_embedded_ts_valid s,
      before_loops (ms_result s), pv_main_signatures (ms_result s))) as V0;
    [unfold ms_view; destruct (ms_signer_cert_set s), valid; cbn; by rewrite ?andb_true_r, ?andb_false_r|];
    pose proof (check_cms_view i b d c s0) as V1; generalize dependent s0
  end.
  intros s0 V0 V1. destruct (check_cms _ _ _ _ s0) as [[sig_valid info] s1]. destruct V1 as (-> & Hder & V1).
  set (accepted := match Adapter.VerifyDetached _ _ with inr (true, _) => true | _ => false end) in *.
  pose proof (check_embedded_timestamp_view cms s1) as V2.
  set (s2 := check_embedded_timestamp cms s1) in *. clearbody s2. intros [= <-].
  rewrite Hder, andb_assoc. unfold ms_view, before_loops in *. cbn. injection V0; injection V1; injection V2. intros.
  congruence.
Qed.

Lemma verify_mains_view (pdf : bytes) (sigs : list PdfSignatureDictionary) (index : Z) (s s' : MainState) :
  verify_mains pdf index sigs s = Ret s' ->
  Forall (fun sig => TrimDer (sd_signature sig) = Ret (trimmed sig)) sigs /\
  ms_view s' = (ms_all_sigs_valid s && forallb (main_ok pdf) sigs,
    ms_has_embedded_ts s || existsb (fun sig => has_timestamp (trimmed sig)) sigs,
    ms_embedded_ts_valid s && forallb (fun sig => embedded_ok (pv_dss_certificates_der (ms_result s)) (trimmed sig)) sigs,
    before_loops (ms_result s), pv_main_signatures (ms_result s) ++ map (evidence_of pdf) sigs).
Proof.
  revert index s. induction sigs as [|sig sigs IH]; intros index s E.
  { injection E as <-. split; [done|]. unfold ms_view. cbn. by rewrite !andb_true_r, orb_false_r, app_nil_r. }
  cbn [verify_mains] in E. destruct (verify_main pdf index sig s) as [s1| |] eqn:E1; [|done..].
  destruct (verify_main_view _ _ _ _ _ E1) as [Ht V1]. destruct (IH _ _ E) as [Hts V2]. split; [by constructor|].
  rewrite V2. clear V2 IH E E1 Hts Ht. unfold ms_view, before_loops in *. injection V1. intros.
  assert (pv_dss_certificates_der (ms_result s1) = pv_dss_certificates_der (ms_result s)) as Hd by congruence.
  rewrite Hd. cbn [forallb existsb map]. rewrite !andb_assoc, orb_assoc, cons_middle, app_assoc. congruence.
Qed.

Lemma verify_doctimestamps_view (pdf : bytes) (fields : list PdfSignatureDictionary) (r r' : PadesVerificationResult)
    (valid valid' : bool) :
  verify_doctimestamps pdf fields (r, valid) = Ret (r', valid') ->
  Forall (fun f => TrimDer (sd_signature f) = Ret (trimmed f)) fields /\
  valid' = valid && forallb (document_ok (pv_dss_certificates_der r) pdf) fields /\
  (before_loops r', pv_main_signatures r', pv_signature_valid r', pv_signature_timestamp_present r') =
  (before_loops r, pv_main_signatures r, pv_signature_valid r, pv_signature_timestamp_present r) /\
  pv_document_timestamp_tokens_der r' = pv_document_timestamp_tokens_der r ++ map trimmed fields /\
  pv_document_timestamp_imprint_sources r' = pv_document_timestamp_imprint_sources r
    ++ map (fun f => ExtractSignedBytes pdf (sd_byte_range f)) fields /\
  pv_document_timestamp_revision_ends r' = pv_document_timestamp_revision_ends r
    ++ map (fun f => revision_end (sd_byte_range f) (doctimestamp_range_ok (sd_byte_range f) (Z.of_nat (length pdf)))) fields.
Proof.
  revert r valid. induction fields as [|f fields IH]; intros r valid E.
  { injection E as <- <-. cbn. by rewrite andb_true_r, !app_nil_r. }
  cbn [verify_doctimestamps verify_doctimestamp] in E. unfold verify_doctimestamp, mbind, outcome_bind in E.
  unfold trimmed at 1. destruct (TrimDer (sd_signature f)) as [token| |] eqn:Et; [|done..]. cbn zeta in E.
  match type of E with verify_doctimestamps _ _ (?r1, ?v1) = _ =>
    destruct (IH r1 v1 E) as (H1 & H2 & H3 & H4 & H5 & H6);
    assert (before_loops r1 = before_loops r /\ pv_main_signatures r1 = pv_main_signatures r /\
      pv_signature_valid r1 = pv_signature_valid r /\ pv_signature_timestamp_present r1 = pv_signature_timestamp_present r /\
      pv_document_timestamp_tokens_der r1 = pv_document_timestamp_tokens_der r ++ [trimmed f] /\
      pv_document_timestamp_imprint_sources r1 = pv_document_timestamp_imprint_sources r
        ++ [ExtractSignedBytes pdf (sd_byte_range f)] /\
      pv_document_timestamp_revision_ends r1 = pv_document_timestamp_revision_ends r
        ++ [revision_end (sd_byte_range f) (doctimestamp_range_ok (sd_byte_range f) (Z.of_nat (length pdf)))]) as V
      by (unfold trimmed; rewrite Et; destruct (negb _); [done|by destruct (tv_tsa_certificate_external _)]);
    generalize dependent r1
  end.
  intros r1 E H2 H3 H4 H5 H6 (V1 & V2 & V3 & V4 & V5 & V6 & V7).
  rewrite V1, V2, V3, V4 in H3. rewrite V5 in H4. rewrite V6 in H5. rewrite V7 in H6.
  assert (pv_dss_certificates_der r1 = pv_dss_certificates_der r) as Vd by (unfold before_loops in V1; congruence).
  rewrite Vd in H2. split; [constructor; [by unfold trimmed; rewrite Et|done]|]. split.
  - rewrite H2. cbn [forallb]. assert (trimmed f = token) as Etf by (unfold trimmed; by rewrite Et).
    change (document_ok (pv_dss_certificates_der r) pdf f) with (doctimestamp_range_ok (sd_byte_range f) (Z.of_nat (length pdf))
      && tv_valid (ValidateTimestampToken (trimmed f) (ExtractSignedBytes pdf (sd_byte_range f)) (pv_dss_certificates_der r))).
    by rewrite Etf, !andb_assoc.
  - rewrite H3, H4, H5, H6, <- !app_assoc. done.
Qed.

(** *** The verdict *)

Definition initial (pdf : bytes) : PadesVerificationResult := (opened pdf (ExtractSignatureFields pdf) (main_fields pdf)).1.

Definition dss_certs (pdf : bytes) : list bytes := ds_certificates_der (ParseDss pdf).

Definition any_embedded (pdf : bytes) : bool := existsb (fun sig => has_timestamp (trimmed sig)) (main_fields pdf).

Lemma opened_certs (pdf : bytes) (fields mains : list PdfSignatureDictionary) :
  pv_dss_certificates_der (opened pdf fields mains).1 = ds_certificates_der (ParseDss pdf) /\
  pv_main_signatures (opened pdf fields mains).1 = [] /\
  pv_document_timestamp_tokens_der (opened pdf fields mains).1 = [].
Proof.
  unfold opened. set (r0 := match IsValidPdf pdf with Some _ => _ | None => _ end). cbn.
  assert (pv_main_signatures r0 = [] /\ pv_document_timestamp_tokens_der r0 = []) as [H1 H2]
    by (unfold r0; destruct (IsValidPdf pdf); done).
  clearbody r0. unfold classify_coverage. set (r1 := r0 <| pv_signature_count := _ |>).
  assert (pv_main_signatures r1 = [] /\ pv_document_timestamp_tokens_der r1 = []) as [H3 H4] by done. clearbody r1.
  destruct (_ =? _); [done|]. destruct (negb _); [done|].
  destruct (ComparePageContentWithSignedRevision _ _) as [[[]|] detail]; done.
Qed.

Lemma VerifyPdf_view (pdf : bytes) (r : PadesVerificationResult) :
  VerifyPdf pdf = Ret (inr r) ->
  main_fields pdf <> [] /\
  Forall (fun f => TrimDer (sd_signature f) = Ret (trimmed f)) (main_fields pdf) /\
  Forall (fun f => TrimDer (sd_signature f) = Ret (trimmed f)) (timestamp_fields pdf) /\
  before_loops r = before_loops (initial pdf) /\
  pv_signature_valid r = forallb (main_ok pdf) (main_fields pdf) /\
  pv_main_signatures r = map (evidence_of pdf) (main_fields pdf) /\
  pv_timestamps_valid r = (any_embedded pdf || negb (is_empty (timestamp_fields pdf)))
    && (negb (any_embedded pdf) || forallb (fun sig => embedded_ok (dss_certs pdf) (trimmed sig)) (main_fields pdf))
    && (negb (negb (is_empty (timestamp_fields pdf))) || forallb (document_ok (dss_certs pdf) pdf) (timestamp_fields pdf)) /\
  pv_detected_profile r =
    profile_found (negb (is_empty (timestamp_fields pdf))) (ds_present (ParseDss pdf)) (any_embedded pdf).
Proof.
  unfold VerifyPdf. fold (main_fields pdf) (timestamp_fields pdf). intros E.
  destruct (is_empty (ExtractSignatureFields pdf)); [done|].
  destruct (main_fields pdf) as [|m ms] eqn:Em; [done|]. rewrite <- Em in *. cbn [is_empty] in E.
  assert (is_empty (main_fields pdf) = false) as Hne by by rewrite Em. rewrite Hne in E.
  assert (opened pdf (ExtractSignatureFields pdf) (main_fields pdf) = (initial pdf, ds_present (ParseDss pdf))) as Eo.
  { unfold initial. destruct (opened _ _ _) eqn:Eo. unfold opened in Eo. injection Eo as <- <-. done. }
  rewrite Eo in E. destruct (opened_certs pdf (ExtractSignatureFields pdf) (main_fields pdf)) as (Hc & Hm0 & Ht0).
  fold (initial pdf) in Hc, Hm0, Ht0. fold (dss_certs pdf) in Hc.
  set (r0 := initial pdf) in *. clearbody r0.
  destruct (verify_mains _ _ _ _) as [s| |] eqn:E1; [|done..]. cbn [mbind outcome_bind] in E.
  destruct (verify_mains_view _ _ _ _ _ E1) as [Hts V1]. cbn in V1. rewrite Hc, Hm0 in V1.
  fold (any_embedded pdf) in V1.
  match type of E with context [verify_doctimestamps _ _ (?x, _)] => set (r1 := x) in E end.
  destruct (verify_doctimestamps _ _ _) as [[r2 dv]| |] eqn:E2; [|done..].
  destruct (verify_doctimestamps_view _ _ _ _ _ _ E2) as (Hdts & Hv & V2 & Htok & _). cbn in E. injection E as <-.
  unfold ms_view in V1.
  assert (before_loops (ms_result s) = before_loops r0) as Hb by congruence.
  rewrite app_nil_l in V1. assert (ms_all_sigs_valid s = forallb (main_ok pdf) (main_fields pdf)) as Ha by congruence.
  assert (pv_main_signatures (ms_result s) = map (evidence_of pdf) (main_fields pdf)) as Hm by congruence.
  assert (ms_has_embedded_ts s = any_embedded pdf) as Hh by congruence.
  assert (ms_embedded_ts_valid s = forallb (fun sig => embedded_ok (dss_certs pdf) (trimmed sig)) (main_fields pdf)) as He
    by congruence.
  assert (pv_dss_certificates_der r1 = dss_certs pdf) as Hc1.
  { change (pv_dss_certificates_der r1) with (pv_dss_certificates_der (ms_result s)). unfold before_loops in Hb. congruence. }
  rewrite Hc1 in Hv.
  split_and!; try done.
  - by rewrite Em.
  - change (before_loops (?x <| pv_timestamps_valid := _ |> <| pv_detected_profile := _ |>)) with (before_loops x).
    change (before_loops r1) with (before_loops (ms_result s)) in V2. congruence.
  - cbn. transitivity (pv_signature_valid r1); [congruence|exact Ha].
  - cbn. transitivity (pv_main_signatures r1); [congruence|exact Hm].
  - cbn. rewrite Hv, Hh, He. done.
  - cbn. by rewrite Hh.
Qed.

(** *** What is covered *)

Definition ends_at (size : Z) (f : PdfSignatureDictionary) : Prop :=
  range_in_bounds (br_offset2 (sd_byte_range f)) (br_length2 (sd_byte_range f)) size = true /\
  br_offset2 (sd_byte_range f) + br_length2 (sd_byte_range f) = size.

Lemma coverage_end_spec (size : Z) (fields : list PdfSignatureDictionary) (e0 : Z) :
  0 <= e0 <= size ->
  let e := foldl (extend_coverage size) e0 fields in
  e0 <= e <= size /\
  (forall f, f ∈ fields -> range_in_bounds (br_offset2 (sd_byte_range f)) (br_length2 (sd_byte_range f)) size = true ->
     br_offset2 (sd_byte_range f) + br_length2 (sd_byte_range f) <= e) /\
  (e = e0 \/ exists f, f ∈ fields /\
     range_in_bounds (br_offset2 (sd_byte_range f)) (br_length2 (sd_byte_range f)) size = true /\
     br_offset2 (sd_byte_range f) + br_length2 (sd_byte_range f) = e).
Proof.
  revert e0. induction fields as [|f fields IH]; intros e0 H0; cbn [foldl].
  { split; [lia|]. split; [|by left]. intros f Hf. by apply elem_of_nil in Hf. }
  assert (e0 <= extend_coverage size e0 f <= size /\
    (range_in_bounds (br_offset2 (sd_byte_range f)) (br_length2 (sd_byte_range f)) size = true ->
     br_offset2 (sd_byte_range f) + br_length2 (sd_byte_range f) <= extend_coverage size e0 f) /\
    (extend_coverage size e0 f = e0 \/
     range_in_bounds (br_offset2 (sd_byte_range f)) (br_length2 (sd_byte_range f)) size = true /\
     br_offset2 (sd_byte_range f) + br_length2 (sd_byte_range f) = extend_coverage size e0 f)) as (H1 & H2 & H3).
  { unfold extend_coverage, range_in_bounds.
    destruct (Z.leb_spec (br_offset2 (sd_byte_range f)) size), (Z.leb_spec (br_length2 (sd_byte_range f)) (size - br_offset2 (sd_byte_range f)));
      cbn; try (split_and!; [lia..|done|by left]).
    destruct (Z.ltb_spec e0 (br_offset2 (sd_byte_range f) + br_length2 (sd_byte_range f))); split_and!; auto; lia. }
  set (e1 := extend_coverage size e0 f) in *. clearbody e1.
  destruct (IH e1 ltac:(lia)) as (I1 & I2 & I3). cbn zeta in *. split; [lia|]. split.
  - intros g [->|Hg]%elem_of_cons Hb; [specialize (H2 Hb); lia|by apply I2].
  - destruct I3 as [->|(g & Hg & Hb)].
    + destruct H3 as [->|[Hb Hs]]; [by left|]. right. exists f. split; [by left|done].
    + right. exists g. split; [by right|done].
Qed.

Lemma classify_coverage_spec (pdf : bytes) (fields : list PdfSignatureDictionary) (r : PadesVerificationResult) :
  let out := classify_coverage pdf fields r in
  let e := coverage_end_of (Z.of_nat (length pdf)) fields in
  pv_signed_coverage_end out = e /\ pv_document_size out = Z.of_nat (length pdf) /\
  (pv_coverage_complete out = true <->
   e = Z.of_nat (length pdf) \/
   EndsWithPdfEof pdf = true /\ (ComparePageContentWithSignedRevision pdf e).1 = Some false) /\
  (pv_coverage_status out = "complete" <-> e = Z.of_nat (length pdf)).
Proof.
  unfold classify_coverage. destruct (Z.eqb_spec (coverage_end_of (Z.of_nat (length pdf)) fields) (Z.of_nat (length pdf))) as [He|He].
  { cbn. split_and!; auto; split; auto. }
  destruct (EndsWithPdfEof pdf); cbn [negb].
  2: { cbn. split_and!; auto; split; [done|intros [?|[? _]]; done|done|done]. }
  destruct (ComparePageContentWithSignedRevision _ _) as [[[]|] detail]; cbn; split_and!; auto; split; try done; intros; try tauto;
    destruct_or?; destruct_and?; done.
Qed.

Lemma initial_coverage (pdf : bytes) :
  let out := initial pdf in
  let e := coverage_end_of (Z.of_nat (length pdf)) (ExtractSignatureFields pdf) in
  pv_signed_coverage_end out = e /\ pv_document_size out = Z.of_nat (length pdf) /\
  (pv_coverage_complete out = true <->
   e = Z.of_nat (length pdf) \/
   EndsWithPdfEof pdf = true /\ (ComparePageContentWithSignedRevision pdf e).1 = Some false) /\
  (pv_coverage_status out = "complete" <-> e = Z.of_nat (length pdf)).
Proof.
  unfold initial, opened. match goal with |- context [classify_coverage pdf ?fs ?r] => exact (classify_coverage_spec pdf fs r) end.
Qed.

(** The numbers of a field are unsigned. *)
Definition unsigned (br : ByteRange) : Prop := 0 <= br_offset1 br /\ 0 <= br_length1 br /\ 0 <= br_offset2 br /\ 0 <= br_length2 br.

Lemma fields_unsigned (pdf : bytes) (f : PdfSignatureDictionary) : f ∈ ExtractSignatureFields pdf -> unsigned (sd_byte_range f).
Proof.
  unfold ExtractSignatureFields. destruct (is_empty pdf); [by intros ?%elem_of_nil|].
  destruct (processMemoryFile pdf) as [?|qpdf]; [by intros ?%elem_of_nil|].
  destruct (getAllObjects qpdf) as [?|objects]; [by intros ?%elem_of_nil|].
  rewrite sort_fields_permutation, list_elem_of_omap. intros (obj & _ & E). revert E. unfold signature_field.
  destruct (negb _); [done|]. destruct (_ || _); [done|]. cbn zeta. destruct (_ && _); [|done]. intros [= <-]. cbn.
  unfold byte_range_of. destruct (negb _); [done|].
  assert (forall z, 0 <= wrap 64 z) as Hw by (intros; by apply wrap_range).
  destruct (getArrayItems _) as [|a [|b [|c [|d [|]]]]]; by split_and!; cbn.
Qed.

(** The octets that are signed are those of the document around one gap, up to the end of a revision. *)
Lemma signed_octets (pdf : bytes) (br : ByteRange) :
  unsigned br -> byte_range_ok br (Z.of_nat (length pdf)) = true ->
  exists before gap after rest,
    pdf = before ++ gap ++ after ++ rest /\ gap <> [] /\
    Z.of_nat (length before) = br_length1 br /\ Z.of_nat (length (before ++ gap)) = br_offset2 br /\
    Z.of_nat (length (before ++ gap ++ after)) = br_offset2 br + br_length2 br /\
    ExtractSignedBytes pdf br = before ++ after.
Proof.
  intros (U1 & U2 & U3 & U4) Hok. unfold byte_range_ok in Hok. apply andb_true_iff in Hok as [Hok R2].
  apply andb_true_iff in Hok as [Hok R1]. apply andb_true_iff in Hok as [O1 Hgap].
  apply Z.eqb_eq in O1. apply Z.ltb_lt in Hgap.
  unfold ExtractSignedBytes. rewrite R1, R2. unfold range_octets. rewrite O1.
  unfold range_in_bounds in R1, R2. rewrite O1 in R1.
  apply andb_true_iff in R1 as [_ R1%Z.leb_le]. apply andb_true_iff in R2 as [R2%Z.leb_le R3%Z.leb_le].
  set (l1 := br_length1 br) in *. set (o2 := br_offset2 br) in *. set (l2 := br_length2 br) in *.
  exists (take (Z.to_nat l1) pdf), (take (Z.to_nat (o2 - l1)) (drop (Z.to_nat l1) pdf)),
    (take (Z.to_nat l2) (drop (Z.to_nat o2) pdf)), (drop (Z.to_nat l2) (drop (Z.to_nat o2) pdf)).
  assert (drop (Z.to_nat o2) pdf = drop (Z.to_nat (o2 - l1)) (drop (Z.to_nat l1) pdf)) as Hd
    by (rewrite drop_drop; f_equal; lia).
  assert (length (take (Z.to_nat (o2 - l1)) (drop (Z.to_nat l1) pdf)) = Z.to_nat (o2 - l1)) as Hg
    by (rewrite length_take, length_drop; lia).
  split_and!.
  - by rewrite take_drop, Hd, take_drop, take_drop.
  - intros Hn. rewrite Hn in Hg. cbn in Hg. lia.
  - rewrite length_take. lia.
  - rewrite length_app, Hg, length_take. lia.
  - rewrite !length_app, Hg, !length_take, length_drop. lia.
  - by rewrite drop_0.
Qed.

Lemma main_field_elem (pdf : bytes) (f : PdfSignatureDictionary) :
  f ∈ main_fields pdf <-> f ∈ ExtractSignatureFields pdf /\ is_doctimestamp f = false.
Proof. unfold main_fields. by rewrite !list_elem_of_In, filter_In, negb_true_iff. Qed.

Lemma timestamp_field_elem (pdf : bytes) (f : PdfSignatureDictionary) :
  f ∈ timestamp_fields pdf <-> f ∈ ExtractSignatureFields pdf /\ is_doctimestamp f = true.
Proof. unfold timestamp_fields. by rewrite !list_elem_of_In, filter_In. Qed.

Definition PdfGrounds (pdf : bytes) (r : PadesVerificationResult) : Prop :=
  main_fields pdf <> [] /\ length (pv_main_signatures r) = length (main_fields pdf) /\
  forall i sig e, main_fields pdf !! i = Some sig -> pv_main_signatures r !! i = Some e ->
    TrimDer (sd_signature sig) = Ret (ev_cms_der e) /\ ev_signature_valid e = true /\
    exists before gap after rest,
      pdf = before ++ gap ++ after ++ rest /\ gap <> [] /\
      Z.of_nat (length before) = br_length1 (sd_byte_range sig) /\
      Z.of_nat (length (before ++ gap)) = br_offset2 (sd_byte_range sig) /\
      Z.of_nat (length (before ++ gap ++ after)) = ev_signed_revision_end e /\
      verified_by_every_signer (before ++ after) (ev_cms_der e).

Lemma VerifyPdf_grounds (pdf : bytes) (r : PadesVerificationResult) :
  VerifyPdf pdf = Ret (inr r) -> pv_signature_valid r = true -> PdfGrounds pdf r.
Proof.
  intros E Hv. destruct (VerifyPdf_view pdf r E) as (Hne & Ht & _ & _ & Hs & Hm & _). rewrite Hs in Hv.
  unfold PdfGrounds. rewrite Hm. split; [done|]. split; [by rewrite length_map|]. intros i sig e Hi He.
  rewrite list_lookup_fmap, Hi in He. injection He as <-. cbn.
  assert (main_ok pdf sig = true) as Hok.
  { apply (proj1 (forallb_forall _ _) Hv). apply list_elem_of_In. by eapply list_elem_of_lookup_2. }
  apply andb_true_iff in Hok as [Hb Hd]. rewrite Hb, Hd. split.
  { apply (proj1 (Forall_lookup _ _) Ht i sig Hi). }
  split; [done|].
  assert (sig ∈ ExtractSignatureFields pdf) as Hin
    by (apply (main_field_elem pdf sig); by eapply list_elem_of_lookup_2).
  destruct (signed_octets pdf _ (fields_unsigned pdf sig Hin) Hb) as (before & gap & after & rest & H1 & H2 & H3 & H4 & H5 & H6).
  exists before, gap, after, rest. split_and!; try done. unfold detached_ok in Hd. rewrite H6 in Hd.
  destruct (Adapter.VerifyDetached (before ++ after) (trimmed sig)) as [?|[[] info]] eqn:Ev; [done| |done].
  by apply (VerifyDetached_every_signer _ _ info).
Qed.

(** [C7] A PDF that is called validly signed has signatures that are not timestamps, and each of them is a CMS structure
    of which every signer has been verified over exactly the octets of the document around one gap: the
    octets before the gap are the beginning of the file and those after it end where the signed revision
    is said to end.  What the gap holds is not looked at. *)
Theorem VerifyPdf_valid_grounds (pdf : bytes) (r : PadesVerificationResult) :
  VerifyPdf pdf = Ret (inr r) -> pv_signature_valid r = true ->
  main_fields pdf <> [] /\ length (pv_main_signatures r) = length (main_fields pdf) /\
  forall i sig e, main_fields pdf !! i = Some sig -> pv_main_signatures r !! i = Some e ->
    TrimDer (sd_signature sig) = Ret (ev_cms_der e) /\ ev_signature_valid e = true /\
    exists before gap after rest,
      pdf = before ++ gap ++ after ++ rest /\ gap <> [] /\
      Z.of_nat (length before) = br_length1 (sd_byte_range sig) /\
      Z.of_nat (length (before ++ gap)) = br_offset2 (sd_byte_range sig) /\
      Z.of_nat (length (before ++ gap ++ after)) = ev_signed_revision_end e /\
      verified_by_every_signer (before ++ after) (ev_cms_der e).
Proof. apply VerifyPdf_grounds. Qed.

(** The document is called covered exactly when the second range of some field - of any kind, whether its signature
    verifies or not - ends at the end of the file, or the file ends with the marker of a revision and the comparison with the
    revision that ends where the farthest range ends finds the pages unchanged. *)
Theorem VerifyPdf_coverage_exact (pdf : bytes) (r : PadesVerificationResult) :
  VerifyPdf pdf = Ret (inr r) ->
  (pv_coverage_complete r = true <->
   (exists f, f ∈ ExtractSignatureFields pdf /\ ends_at (Z.of_nat (length pdf)) f) \/
   EndsWithPdfEof pdf = true /\
   (ComparePageContentWithSignedRevision pdf (pv_signed_coverage_end r)).1 = Some false) /\
  (pv_coverage_status r = "complete" <-> exists f, f ∈ ExtractSignatureFields pdf /\ ends_at (Z.of_nat (length pdf)) f) /\
  (forall f, f ∈ ExtractSignatureFields pdf ->
     range_in_bounds (br_offset2 (sd_byte_range f)) (br_length2 (sd_byte_range f)) (Z.of_nat (length pdf)) = true ->
     br_offset2 (sd_byte_range f) + br_length2 (sd_byte_range f) <= pv_signed_coverage_end r).
Proof.
  intros E. destruct (VerifyPdf_view pdf r E) as (Hne & _ & _ & Hb & _).
  destruct (initial_coverage pdf) as (C1 & C2 & C3 & C4).
  set (size := Z.of_nat (length pdf)) in *. unfold before_loops in Hb.
  assert (pv_coverage_complete r = pv_coverage_complete (initial pdf)) as -> by congruence.
  assert (pv_coverage_status r = pv_coverage_status (initial pdf)) as -> by congruence.
  assert (pv_signed_coverage_end r = pv_signed_coverage_end (initial pdf)) as -> by congruence.
  rewrite C3, C4, C1.
  assert (0 < size) as Hsize.
  { destruct pdf; [|subst size; cbn; lia]. destruct Hne. done. }
  destruct (coverage_end_spec size (ExtractSignatureFields pdf) 0 ltac:(lia)) as (Hr & Hall & Hex). cbn zeta in *.
  fold (coverage_end_of size (ExtractSignatureFields pdf)) in *. set (e := coverage_end_of _ _) in *.
  assert (e = size <-> exists f, f ∈ ExtractSignatureFields pdf /\ ends_at size f) as Heq.
  { split.
    - intros ->. destruct Hex as [?|(f & Hf & Hin & Hs)]; [lia|]. by exists f.
    - intros (f & Hf & Hin & Hs). specialize (Hall f Hf Hin). lia. }
  rewrite Heq. split_and!; [tauto|tauto|exact Hall].
Qed.

Lemma verify_mains_total (pdf : bytes) (sigs : list PdfSignatureDictionary) (index : Z) (s : MainState) :
  (forall f, f ∈ sigs -> fits (sd_signature f)) -> exists s', verify_mains pdf index sigs s = Ret s'.
Proof.
  revert index s. induction sigs as [|sig sigs IH]; intros index s Hf; [by eexists|]. cbn [verify_mains].
  destruct (TrimDer_total (sd_signature sig) (Hf sig ltac:(by left))) as [n Hn].
  assert (exists s1, verify_main pdf index sig s = Ret s1) as [s1 E1].
  { unfold verify_main. rewrite Hn. cbn [mbind outcome_bind]. unfold mbind, outcome_bind.
    destruct (check_cms _ _ _ _ _) as [[? ?] ?]. by eexists. }
  rewrite E1. cbn. apply IH. intros f Hin. apply Hf. by right.
Qed.

Lemma verify_doctimestamps_total (pdf : bytes) (fields : list PdfSignatureDictionary) (s : PadesVerificationResult * bool) :
  (forall f, f ∈ fields -> fits (sd_signature f)) -> exists s', verify_doctimestamps pdf fields s = Ret s'.
Proof.
  revert s. induction fields as [|f fields IH]; intros [r v] Hf; [by eexists|]. cbn [verify_doctimestamps].
  destruct (TrimDer_total (sd_signature f) (Hf f ltac:(by left))) as [n Hn]. unfold verify_doctimestamp. rewrite Hn. cbn.
  apply IH. intros g Hin. apply Hf. by right.
Qed.

Lemma VerifyPdf_total (pdf : bytes) :
  (forall f, f ∈ ExtractSignatureFields pdf -> fits (sd_signature f)) -> main_fields pdf <> [] ->
  exists r, VerifyPdf pdf = Ret (inr r).
Proof.
  intros Hf Hne. unfold VerifyPdf. fold (main_fields pdf) (timestamp_fields pdf).
  assert (is_empty (main_fields pdf) = false) as Em by by destruct (main_fields pdf).
  destruct (is_empty (ExtractSignatureFields pdf)) eqn:Ee.
  { destruct (ExtractSignatureFields pdf) eqn:Ex; [|done]. destruct Hne. unfold main_fields. by rewrite Ex. }
  rewrite Em. destruct (opened _ _ _) as [r0 has_dss].
  destruct (verify_mains_total pdf (main_fields pdf) 1 (MkMainState r0 true false false true)) as [s E1].
  { intros f Hin. apply Hf. by apply main_field_elem. }
  rewrite E1. cbn.
  match goal with |- context [verify_doctimestamps pdf _ ?x] =>
    destruct (verify_doctimestamps_total pdf (timestamp_fields pdf) x) as [[r v] E2] end.
  { intros f Hin. apply Hf. by apply timestamp_field_elem. }
  rewrite E2. by eexists.
Qed.

Lemma VerifyPdf_returns (pdf : bytes) :
  (forall f, f ∈ ExtractSignatureFields pdf -> fits (sd_signature f)) -> exists v, VerifyPdf pdf = Ret v.
Proof.
  intros Hf. destruct (main_fields pdf) as [|f fs] eqn:Em.
  - unfold VerifyPdf. fold (main_fields pdf) (timestamp_fields pdf). rewrite Em. cbn [is_empty].
    destruct (is_empty (ExtractSignatureFields pdf)); by eexists.
  - destruct (VerifyPdf_total pdf Hf) as [r Hr]; [by rewrite Em|]. by exists (inr r).
Qed.


(** [C22] Whoever can append to a signed document can make any change to it pass: a field of the kind of a document timestamp whose
    range ends at the end of the file is enough for the document to be called completely covered and its signatures valid.
    This holds for any answer of the check of timestamp tokens and whatever the comparison of the pages would find, which
    is not asked for. *)
Theorem document_timestamp_hides_changes (pdf : bytes) (f : PdfSignatureDictionary) :
  (forall g, g ∈ ExtractSignatureFields pdf -> fits (sd_signature g)) ->
  main_fields pdf <> [] -> (forall sig, sig ∈ main_fields pdf -> main_ok pdf sig = true) ->
  f ∈ timestamp_fields pdf -> ends_at (Z.of_nat (length pdf)) f ->
  exists r, VerifyPdf pdf = Ret (inr r) /\ pv_signature_valid r = true /\
    pv_coverage_complete r = true /\ pv_coverage_status r = "complete" /\ pv_unsigned_trailing_bytes (initial pdf) = 0.
Proof.
  intros Hf Hne Hok Hin Hend. destruct (VerifyPdf_total pdf Hf Hne) as [r E]. exists r. split; [done|].
  destruct (VerifyPdf_view pdf r E) as (_ & _ & _ & Hb & Hs & _).
  apply timestamp_field_elem in Hin as [Hin _].
  destruct (coverage_end_spec (Z.of_nat (length pdf)) (ExtractSignatureFields pdf) 0 ltac:(lia)) as (Hr & Hall & _).
  cbn zeta in *. fold (coverage_end_of (Z.of_nat (length pdf)) (ExtractSignatureFields pdf)) in *.
  destruct Hend as [Hb2 Hs2]. specialize (Hall f Hin Hb2). rewrite Hs2 in Hall.
  assert (coverage_end_of (Z.of_nat (length pdf)) (ExtractSignatureFields pdf) = Z.of_nat (length pdf)) as Hc by lia.
  destruct (initial_coverage pdf) as (_ & _ & C3 & C4). unfold before_loops in Hb.
  split.
  { rewrite Hs. apply forallb_forall. intros sig Hsig. apply Hok. by apply list_elem_of_In. }
  split; [transitivity (pv_coverage_complete (initial pdf)); [congruence|apply C3; by left]|].
  split; [transitivity (pv_coverage_status (initial pdf)); [congruence|by apply C4]|].
  unfold initial, opened, classify_coverage. rewrite Hc, Z.eqb_refl. cbn. by rewrite Z.ltb_irrefl.
Qed.

(** The timestamps of a document are called valid exactly when it has one, every timestamp inside a signature is valid for
    the value of that signature, and every document timestamp has a range that starts at the beginning of the file and a
    token that is valid for the octets of its range; missing certificates of the authority may come from the
    security store of the document. *)
Theorem VerifyPdf_timestamps_exact (pdf : bytes) (r : PadesVerificationResult) :
  VerifyPdf pdf = Ret (inr r) ->
  pv_timestamps_valid r = true <->
    ((exists sig, sig ∈ main_fields pdf /\ has_timestamp (trimmed sig) = true) \/ timestamp_fields pdf <> []) /\
    (forall sig, sig ∈ main_fields pdf -> has_timestamp (trimmed sig) = true ->
      exists token value, Adapter.ExtractSignatureTimestampToken (trimmed sig) = inr token /\
        Adapter.GetSignatureValue (trimmed sig) = inr value /\
        tv_valid (ValidateTimestampToken token value (dss_certs pdf)) = true) /\
    (forall dts, dts ∈ timestamp_fields pdf ->
      doctimestamp_range_ok (sd_byte_range dts) (Z.of_nat (length pdf)) = true /\
      tv_valid (ValidateTimestampToken (trimmed dts) (ExtractSignedBytes pdf (sd_byte_range dts)) (dss_certs pdf)) = true).
Proof.
  intros E. destruct (VerifyPdf_view pdf r E) as (_ & _ & _ & _ & _ & _ & -> & _).
  assert (any_embedded pdf = true <-> exists sig, sig ∈ main_fields pdf /\ has_timestamp (trimmed sig) = true) as Hany.
  { unfold any_embedded. rewrite existsb_exists. by setoid_rewrite list_elem_of_In. }
  assert (negb (is_empty (timestamp_fields pdf)) = true <-> timestamp_fields pdf <> []) as Hts
    by (destruct (timestamp_fields pdf); done).
  rewrite !andb_true_iff, orb_true_iff, Hany, Hts, !orb_true_iff, !negb_true_iff.
  assert (forallb (fun sig => embedded_ok (dss_certs pdf) (trimmed sig)) (main_fields pdf) = true <->
    forall sig, sig ∈ main_fields pdf -> has_timestamp (trimmed sig) = true ->
      exists token value, Adapter.ExtractSignatureTimestampToken (trimmed sig) = inr token /\
        Adapter.GetSignatureValue (trimmed sig) = inr value /\
        tv_valid (ValidateTimestampToken token value (dss_certs pdf)) = true) as ->.
  { rewrite forallb_forall. setoid_rewrite <- list_elem_of_In. apply forall_proper. intros sig. unfold embedded_ok.
    destruct (has_timestamp (trimmed sig)); cbn; [|split; [by intros _ _ ?|done]].
    destruct (Adapter.ExtractSignatureTimestampToken _) as [?|token], (Adapter.GetSignatureValue _) as [?|value];
      (split; intros H Hin; specialize (H Hin)); try done; try (destruct (H eq_refl) as (? & ? & ? & ? & ?); by simplify_eq).
    intros _. by exists token, value. }
  assert (forallb (document_ok (dss_certs pdf) pdf) (timestamp_fields pdf) = true <-> forall dts, dts ∈ timestamp_fields pdf ->
      doctimestamp_range_ok (sd_byte_range dts) (Z.of_nat (length pdf)) = true /\
      tv_valid (ValidateTimestampToken (trimmed dts) (ExtractSignedBytes pdf (sd_byte_range dts)) (dss_certs pdf)) = true) as ->.
  { rewrite forallb_forall. setoid_rewrite <- list_elem_of_In. unfold document_ok.
    split; intros H dts Hin; apply andb_true_iff; by apply H. }
  assert (any_embedded pdf = false <-> ~ exists sig, sig ∈ main_fields pdf /\ has_timestamp (trimmed sig) = true) as ->
    by (rewrite <- Hany; by destruct (any_embedded pdf)).
  destruct (timestamp_fields pdf) as [|t ts]; cbn [is_empty].
  - split; [intros ((H1 & H2) & _)|intros (H1 & H2 & H3)]; split_and!; auto.
    + intros sig Hin Hhas. destruct H2 as [H2|H2]; [|by apply H2]. destruct H2. by exists sig.
    + intros dts Hin. by apply elem_of_nil in Hin.
  - split; [intros ((H1 & H2) & H3)|intros (H1 & H2 & H3)]; split_and!; auto.
    + intros sig Hin Hhas. destruct H2 as [H2|H2]; [|by apply H2]. destruct H2. by exists sig.
    + destruct H3 as [?|H3]; [done|exact H3].
Qed.

End Coverage.

(** *** What the fingerprint of a page sees *)

Section Fingerprint.
Context {HQpdf : Qpdf}.

(** The reference: the traversal as a list of pieces that does not depend on the data of the streams, without
    a limit on the size. *)
Inductive piece := Lit (b : bytes) | Data (obj : QPDFObjectHandle).

Definition stream_pieces (obj : QPDFObjectHandle) : list piece := if isStream obj then [Data obj] else [].

Fixpoint each_pieces {A : Type} (body : A -> gset (Z * Z) -> list piece * gset (Z * Z)) (items : list A)
    (visited : gset (Z * Z)) : list piece * gset (Z * Z) :=
  match items with
  | [] => ([], visited)
  | item :: items =>
      let r := body item visited in
      let rest := each_pieces body items r.2 in
      (r.1 ++ rest.1, rest.2)
  end.

Fixpoint object_pieces (levels : nat) (obj : QPDFObjectHandle) (visited : gset (Z * Z)) : list piece * gset (Z * Z) :=
  match levels with
  | O => ([Lit [x23]], visited)
  | S levels =>
      if isIndirect obj && bool_decide (getObjGen obj ∈ visited) then ([Lit [x40]], visited)
      else
        let visited := if isIndirect obj then {[getObjGen obj]} ∪ visited else visited in
        if isStream obj then
          let r := object_pieces levels (getDict obj) visited in (r.1 ++ [Lit [x7e]; Data obj], r.2)
        else if isDictionary obj then
          let r := each_pieces (fun key visited =>
            let r := object_pieces levels (getKey obj key) visited in
            (Lit (octets_of key ++ [x3a]) :: r.1 ++ [Lit [x3b]], r.2)) (getKeys obj) visited in
          (Lit [x3c] :: r.1 ++ [Lit [x3e]], r.2)
        else if isArray obj then
          let r := each_pieces (fun item visited =>
            let r := object_pieces levels item visited in (r.1 ++ [Lit [x2c]], r.2)) (getArrayItems obj) visited in
          (Lit [x5b] :: r.1 ++ [Lit [x5d]], r.2)
        else ([Lit (octets_of (unparse obj))], visited)
  end.

Definition key_pieces (dict : QPDFObjectHandle) (key : string) (visited : gset (Z * Z)) : list piece * gset (Z * Z) :=
  if negb (hasKey dict key) then ([Lit [x2d]], visited)
  else object_pieces (S kMaxFingerprintDepth) (getKey dict key) visited.

Definition contents_pieces (page : QPDFObjectHandle) : list piece :=
  if negb (hasKey page "/Contents") then []
  else let contents := getKey page "/Contents" in
       if isArray contents then concat (map stream_pieces (getArrayItems contents)) else stream_pieces contents.

Definition annotation_pieces (a : QPDFObjectHandle) : list piece :=
  if negb (isDictionary a) then []
  else
    (if hasKey a "/Subtype" && isName (getKey a "/Subtype") then [Lit (octets_of (getName (getKey a "/Subtype")))] else [])
    ++ (if hasKey a "/AP" && isDictionary (getKey a "/AP") && hasKey (getKey a "/AP") "/N"
        then stream_pieces (getKey (getKey a "/AP") "/N") else [])
    ++ [Lit [x3b]].

Definition annotations_pieces (page : QPDFObjectHandle) : list piece :=
  if negb (hasKey page "/Annots") then []
  else let annots := getKey page "/Annots" in
       if isArray annots then concat (map annotation_pieces (getArrayItems annots)) else [].

Definition page_pieces (page : QPDFObjectHandle) : list piece :=
  if negb (isDictionary page) then []
  else
    (each_pieces (fun key visited => let r := key_pieces page key visited in (r.1 ++ [Lit [x3b]], r.2)) geometry_keys ∅).1
    ++ [Lit [x7c]] ++ contents_pieces page ++ [Lit [x7c]] ++ (key_pieces page "/Resources" ∅).1 ++ [Lit [x7c]]
    ++ annotations_pieces page ++ [Lit [x0a]].

(** The octets of a piece. *)
Definition piece_octets (p : piece) : exception + bytes :=
  match p with Lit b => inr b | Data obj => AppendStreamBytes obj [] end.

Fixpoint render (ps : list piece) : exception + bytes :=
  match ps with
  | [] => inr []
  | p :: ps => let? b := piece_octets p in let? rest := render ps in inr (b ++ rest)
  end.

Lemma render_app (ps qs : list piece) (a b : bytes) : render ps = inr a -> render qs = inr b -> render (ps ++ qs) = inr (a ++ b).
Proof.
  revert a. induction ps as [|p ps IH]; intros a; cbn [render app]; [by intros [= <-]|].
  destruct (piece_octets p) as [?|x]; [done|]. destruct (render ps) as [?|y]; [done|]. intros [= <-] Hb.
  by rewrite (IH y eq_refl Hb), app_assoc.
Qed.

Lemma AppendStreamBytes_pieces (obj : QPDFObjectHandle) (out out' : bytes) :
  AppendStreamBytes obj out = inr out' -> exists s, render (stream_pieces obj) = inr s /\ out' = out ++ s.
Proof.
  unfold AppendStreamBytes, stream_pieces. destruct (isStream obj) eqn:Es; cbn [negb].
  2: { intros [= <-]. exists []. by rewrite app_nil_r. }
  cbn [render piece_octets]. unfold AppendStreamBytes. rewrite Es. cbn [negb].
  destruct (getStreamData obj) as [[what|]|data]; [|done|].
  - destruct (getRawStreamData obj); intros [= <-]; eexists; by rewrite app_nil_r.
  - intros [= <-]. eexists. by rewrite app_nil_r.
Qed.

(** A step of the traversal appends, and as long as it stays below the limit it appends the rendering of its pieces. *)
Definition traces (k : Walk -> exception + Walk) (g : gset (Z * Z) -> list piece * gset (Z * Z)) : Prop :=
  forall w w', k w = inr w' ->
    (exists s, w'.1 = w.1 ++ s) /\
    (Z.of_nat (length w'.1) <= kMaxFingerprintBytes ->
     w'.2 = (g w.2).2 /\ exists s, render (g w.2).1 = inr s /\ w'.1 = w.1 ++ s).

Definition then_pieces (g1 g2 : gset (Z * Z) -> list piece * gset (Z * Z)) (v : gset (Z * Z)) :=
  let r1 := g1 v in let r2 := g2 r1.2 in (r1.1 ++ r2.1, r2.2).

Lemma traces_ext (k k' : Walk -> exception + Walk) (g g' : gset (Z * Z) -> list piece * gset (Z * Z)) :
  traces k g -> (forall w, k w = k' w) -> (forall v, g v = g' v) -> traces k' g'.
Proof. intros H Hk Hg w w' E. rewrite <- Hk in E. destruct (H w w' E) as [H1 H2]. rewrite <- Hg. by split. Qed.

Lemma traces_push (b : bytes) : traces (fun w => inr (push b w)) (fun v => ([Lit b], v)).
Proof.
  intros w w' [= <-]. split; [by eexists|]. intros _. split; [done|]. exists b. cbn. by rewrite app_nil_r.
Qed.

Lemma traces_stream (obj : QPDFObjectHandle) :
  traces (fun w => let? out := AppendStreamBytes obj w.1 in inr (out, w.2)) (fun v => (stream_pieces obj, v)).
Proof.
  intros w w' E. destruct (AppendStreamBytes obj w.1) as [?|out] eqn:Eo; [done|]. injection E as <-.
  destruct (AppendStreamBytes_pieces _ _ _ Eo) as (s & Hs & ->). split; [by eexists|]. intros _. split; [done|]. by exists s.
Qed.

Lemma traces_then (k1 k2 : Walk -> exception + Walk) (g1 g2 : gset (Z * Z) -> list piece * gset (Z * Z)) :
  traces k1 g1 -> traces k2 g2 -> traces (fun w => let? w := k1 w in k2 w) (then_pieces g1 g2).
Proof.
  intros H1 H2 w w' E. destruct (k1 w) as [?|w1] eqn:E1; [done|].
  destruct (H1 w w1 E1) as [[s1 Hs1] H1']. destruct (H2 w1 w' E) as [[s2 Hs2] H2'].
  split; [exists (s1 ++ s2); by rewrite Hs2, Hs1, app_assoc|]. intros Hl.
  destruct (H2' Hl) as [Hv2 (t2 & Ht2 & Hw2)].
  destruct H1' as [Hv1 (t1 & Ht1 & Hw1)]; [rewrite Hs2, length_app in Hl; lia|].
  unfold then_pieces. cbn. rewrite <- Hv1. split; [done|]. exists (t1 ++ t2). split; [by apply render_app|].
  by rewrite Hw2, Hw1, app_assoc.
Qed.

Lemma traces_each {A : Type} (body : A -> Walk -> exception + Walk) (g : A -> gset (Z * Z) -> list piece * gset (Z * Z))
    (items : list A) :
  (forall item, traces (body item) (g item)) -> traces (for_each body items) (each_pieces g items).
Proof.
  intros Hb. induction items as [|item items IH].
  - intros w w' [= <-]. split; [exists []; by rewrite app_nil_r|]. intros _. split; [done|]. exists []. by rewrite app_nil_r.
  - exact (traces_then _ _ _ _ (Hb item) IH).
Qed.

Lemma then_pieces_cons (b : bytes) (g : gset (Z * Z) -> list piece * gset (Z * Z)) (v : gset (Z * Z)) :
  then_pieces (fun v => ([Lit b], v)) g v = (Lit b :: (g v).1, (g v).2).
Proof. done. Qed.

(** A body between two marks. *)
Lemma traces_between (a b : bytes) (k : Walk -> exception + Walk) (g : gset (Z * Z) -> list piece * gset (Z * Z)) :
  traces k g ->
  traces (fun w => let? w := k (push a w) in inr (push b w)) (fun v => (Lit a :: (g v).1 ++ [Lit b], (g v).2)).
Proof.
  intros H. apply (traces_ext (fun w => let? w := (fun w => let? w := inr (push a w) in k w) w in inr (push b w))
    _ (then_pieces (then_pieces (fun v => ([Lit a], v)) g) (fun v => ([Lit b], v)))); [|done|done].
  apply (traces_then (fun w => let? w := inr (push a w) in k w)); [|apply traces_push].
  by apply (traces_then (fun w => inr (push a w))); [apply traces_push|].
Qed.

Lemma traces_before (b : bytes) (k : Walk -> exception + Walk) (g : gset (Z * Z) -> list piece * gset (Z * Z)) :
  traces k g -> traces (fun w => let? w := k w in inr (push b w)) (fun v => ((g v).1 ++ [Lit b], (g v).2)).
Proof. intros H. exact (traces_then _ _ _ _ H (traces_push b)). Qed.

(** The traversal refines the reference. *)
Lemma object_traces (levels : nat) (obj : QPDFObjectHandle) :
  traces (AppendObjectFingerprint levels obj) (object_pieces levels obj).
Proof.
  revert obj. induction levels as [|levels IH]; intros obj w w' E.
  all: cbn [AppendObjectFingerprint object_pieces] in *.
  all: destruct (Z.ltb_spec kMaxFingerprintBytes (Z.of_nat (length w.1)));
    [injection E as <-; split; [exists []; by rewrite app_nil_r|lia]|].
  { by apply (traces_push [x23]). }
  destruct (isIndirect obj && bool_decide (getObjGen obj ∈ w.2)); [by apply (traces_push [x40])|].
  revert E. set (w0 := if isIndirect obj then _ else w). intros E.
  assert (w.1 = w0.1 /\ (if isIndirect obj then {[getObjGen obj]} ∪ w.2 else w.2) = w0.2) as [-> ->]
    by (unfold w0; by destruct (isIndirect obj)). clearbody w0.
  destruct (isStream obj) eqn:Es.
  { enough (traces (fun w => let? w := AppendObjectFingerprint levels (getDict obj) w in
      (fun w => let? w := inr (push [x7e] w) in let? out := AppendStreamBytes obj w.1 in inr (out, w.2)) w)
      (then_pieces (object_pieces levels (getDict obj)) (fun v => ([Lit [x7e]; Data obj], v)))) as H1 by exact (H1 w0 w' E).
    apply traces_then; [apply IH|].
    apply (traces_ext (fun w => let? w := inr (push [x7e] w) in (fun w => let? out := AppendStreamBytes obj w.1 in inr (out, w.2)) w) _
      (then_pieces (fun v => ([Lit [x7e]], v)) (fun v => (stream_pieces obj, v))));
      [|done|by intros v; unfold then_pieces, stream_pieces; rewrite Es].
    exact (traces_then (fun w => inr (push [x7e] w)) (fun w => let? out := AppendStreamBytes obj w.1 in inr (out, w.2))
      _ _ (traces_push _) (traces_stream _)). }
  destruct (isDictionary obj).
  { exact (traces_between [x3c] [x3e] _ _ (traces_each _ _ _ (fun key => traces_between _ [x3b] _ _ (IH (getKey obj key)))) w0 w' E). }
  destruct (isArray obj).
  { exact (traces_between [x5b] [x5d] _ _ (traces_each _ _ _ (fun item => traces_before [x2c] _ _ (IH item))) w0 w' E). }
  exact (traces_push _ w0 w' E).
Qed.

Lemma key_traces (dict : QPDFObjectHandle) (key : string) : traces (AppendKeyFingerprint dict key) (key_pieces dict key).
Proof.
  unfold AppendKeyFingerprint, key_pieces. intros w w'. destruct (negb (hasKey dict key)); [apply (traces_push [x2d])|apply object_traces].
Qed.

(** The loops that do not look at the visited objects. *)
Definition appends (k : bytes -> exception + bytes) (ps : list piece) : Prop :=
  forall out out', k out = inr out' -> exists s, render ps = inr s /\ out' = out ++ s.

Lemma appends_nil : appends (fun out => inr out) [].
Proof. intros out out' [= <-]. exists []. by rewrite app_nil_r. Qed.

Lemma appends_lit (b : bytes) : appends (fun out => inr (out ++ b)) [Lit b].
Proof. intros out out' [= <-]. exists b. cbn. by rewrite app_nil_r. Qed.

Lemma appends_then (k1 k2 : bytes -> exception + bytes) (ps1 ps2 : list piece) :
  appends k1 ps1 -> appends k2 ps2 -> appends (fun out => let? out := k1 out in k2 out) (ps1 ++ ps2).
Proof.
  intros H1 H2 out out' E. destruct (k1 out) as [?|out1] eqn:E1; [done|].
  destruct (H1 _ _ E1) as (s1 & Hs1 & ->). destruct (H2 _ _ E) as (s2 & Hs2 & ->).
  exists (s1 ++ s2). split; [by apply render_app|by rewrite app_assoc].
Qed.

Lemma appends_each {A : Type} (body : A -> bytes -> exception + bytes) (g : A -> list piece) (items : list A) :
  (forall item, appends (body item) (g item)) -> appends (for_each body items) (concat (map g items)).
Proof.
  intros Hb. induction items as [|item items IH]; [exact appends_nil|]. exact (appends_then _ _ _ _ (Hb item) IH).
Qed.

Lemma contents_appends (page : QPDFObjectHandle) : appends (AppendContents page) (contents_pieces page).
Proof.
  unfold appends, AppendContents, contents_pieces. intros out out'. destruct (negb _); [apply appends_nil|].
  destruct (isArray _); [|apply AppendStreamBytes_pieces]. apply (appends_each AppendStreamBytes stream_pieces).
  intros item. exact (AppendStreamBytes_pieces item).
Qed.

Lemma annotation_appends (a : QPDFObjectHandle) : appends (AppendAnnotation a) (annotation_pieces a).
Proof.
  intros out out'. unfold AppendAnnotation, annotation_pieces. destruct (negb (isDictionary a)); [apply appends_nil|].
  set (ps2 := if hasKey a "/AP" && _ && _ then _ else []). set (name := octets_of (getName (getKey a "/Subtype"))).
  assert (appends (fun out => if hasKey a "/AP" && isDictionary (getKey a "/AP") && hasKey (getKey a "/AP") "/N"
    then AppendStreamBytes (getKey (getKey a "/AP") "/N") out else inr out) ps2) as H2.
  { unfold ps2. destruct (hasKey a "/AP" && _ && _); [exact (AppendStreamBytes_pieces _)|exact appends_nil]. }
  clearbody ps2 name. destruct (hasKey a "/Subtype" && _).
  - exact (appends_then _ _ _ _ (appends_lit name) (appends_then _ _ _ _ H2 (appends_lit [x3b])) out out').
  - exact (appends_then _ _ _ _ H2 (appends_lit [x3b]) out out').
Qed.

Lemma annotations_appends (page : QPDFObjectHandle) : appends (AppendAnnotations page) (annotations_pieces page).
Proof.
  unfold appends, AppendAnnotations, annotations_pieces. intros out out'. destruct (negb _); [apply appends_nil|].
  destruct (isArray _); [|apply appends_nil]. apply (appends_each AppendAnnotation annotation_pieces), annotation_appends.
Qed.

(** The fingerprint of a page that stays within the limit is the rendering of its pieces. *)
Lemma page_fingerprint_refines (page : QPDFObjectHandle) (fp : bytes) :
  AppendPageFingerprint page [] = inr fp -> Z.of_nat (length fp) <= kMaxFingerprintBytes ->
  render (page_pieces page) = inr fp.
Proof.
  unfold AppendPageFingerprint, page_pieces. destruct (negb (isDictionary page)); [by intros [= <-]|].
  set (geometry := for_each _ geometry_keys ([], ∅)).
  destruct geometry as [?|w1] eqn:E1; [done|].
  destruct (AppendContents page (w1.1 ++ [x7c])) as [?|out2] eqn:E2; [done|].
  destruct (AppendKeyFingerprint page "/Resources" (out2 ++ [x7c], ∅)) as [?|w3] eqn:E3; [done|].
  destruct (AppendAnnotations page (w3.1 ++ [x7c])) as [?|out4] eqn:E4; [done|]. intros [= <-] Hl.
  destruct (annotations_appends _ _ _ E4) as (s4 & R4 & ->).
  destruct (key_traces _ _ _ _ E3) as [[s3 Hs3] H3].
  destruct (contents_appends _ _ _ E2) as (s2 & R2 & ->). cbn [fst snd] in Hs3, H3.
  assert (traces (for_each (fun key w => let? w := AppendKeyFingerprint page key w in inr (push [x3b] w)) geometry_keys)
    (each_pieces (fun key visited => let r := key_pieces page key visited in (r.1 ++ [Lit [x3b]], r.2)) geometry_keys)) as H1.
  { apply traces_each. intros key. apply (traces_before [x3b]), key_traces. }
  destruct (H1 _ _ E1) as [_ H1']. cbn [fst snd] in H1'.
  assert (length w1.1 <= length w3.1)%nat as Hl3 by (rewrite Hs3; repeat rewrite length_app; lia).
  rewrite !length_app in Hl.
    destruct H1' as [_ (t1 & R1 & Ht1)]; [lia|]. destruct H3 as [_ (t3 & R3 & Ht3)]; [lia|].
  rewrite Ht1 in Ht3. rewrite Ht3. clear Hs3 Hl3 Ht1 Ht3.
  assert (forall b, render [Lit b] = inr b) as Rl by (intros b; cbn; by rewrite app_nil_r).
  rewrite (render_app _ _ _ _ R1 (render_app _ _ _ _ (Rl _) (render_app _ _ _ _ R2 (render_app _ _ _ _ (Rl _)
    (render_app _ _ _ _ R3 (render_app _ _ _ _ (Rl _) (render_app _ _ _ _ R4 (Rl [x0a])))))))).
  by rewrite <- !app_assoc.
Qed.

(** *** A replaced stream *)

(** Two revisions of a document whose objects are the same except for the data of some streams, [before] in the first
    one and [after] in the second; [move] gives the handle of an object in the second revision. *)
Record Replaced (move : QPDFObjectHandle -> QPDFObjectHandle) (changed : QPDFObjectHandle -> bool) (before after : bytes) := {
  rp_dictionary o : isDictionary (move o) = isDictionary o;
  rp_array o : isArray (move o) = isArray o;
  rp_stream o : isStream (move o) = isStream o;
  rp_name o : isName (move o) = isName o;
  rp_indirect o : isIndirect (move o) = isIndirect o;
  rp_objgen o : getObjGen (move o) = getObjGen o;
  rp_has_key o key : hasKey (move o) key = hasKey o key;
  rp_key o key : getKey (move o) key = move (getKey o key);
  rp_keys o : getKeys (move o) = getKeys o;
  rp_items o : getArrayItems (move o) = map move (getArrayItems o);
  rp_dict o : getDict (move o) = move (getDict o);
  rp_get_name o : getName (move o) = getName o;
  rp_unparse o : unparse (move o) = unparse o;
  rp_same o : changed o = false -> getStreamData (move o) = getStreamData o /\ getRawStreamData (move o) = getRawStreamData o;
  rp_changed o : changed o = true -> getStreamData o = inr before /\ getStreamData (move o) = inr after
}.

Section Replacement.
Context (move : QPDFObjectHandle -> QPDFObjectHandle) (changed : QPDFObjectHandle -> bool) (before after : bytes).
Context (HR : Replaced move changed before after).

Definition move_piece (p : piece) : piece := match p with Lit b => Lit b | Data o => Data (move o) end.

Lemma each_pieces_move {A : Type} (f : A -> A) (body body' : A -> gset (Z * Z) -> list piece * gset (Z * Z)) (items : list A)
    (v : gset (Z * Z)) :
  (forall a v, body' (f a) v = (map move_piece (body a v).1, (body a v).2)) ->
  each_pieces body' (map f items) v = (map move_piece (each_pieces body items v).1, (each_pieces body items v).2).
Proof.
  intros Hb. revert v. induction items as [|a items IH]; intros v; [done|].
  cbn [map each_pieces]. rewrite Hb. cbn zeta. cbn [fst snd]. rewrite IH. cbn. by rewrite map_app.
Qed.

Lemma each_pieces_same {A : Type} (body body' : A -> gset (Z * Z) -> list piece * gset (Z * Z)) (items : list A)
    (v : gset (Z * Z)) :
  (forall a v, body' a v = (map move_piece (body a v).1, (body a v).2)) ->
  each_pieces body' items v = (map move_piece (each_pieces body items v).1, (each_pieces body items v).2).
Proof. intros Hb. rewrite <- (map_id items) at 1. by apply each_pieces_move. Qed.

Lemma object_pieces_move (levels : nat) (o : QPDFObjectHandle) (v : gset (Z * Z)) :
  object_pieces levels (move o) v = (map move_piece (object_pieces levels o v).1, (object_pieces levels o v).2).
Proof.
  revert o v. induction levels as [|levels IH]; intros o v; [done|]. cbn [object_pieces].
  rewrite (rp_indirect _ _ _ _ HR), (rp_objgen _ _ _ _ HR), (rp_stream _ _ _ _ HR), (rp_dictionary _ _ _ _ HR), (rp_array _ _ _ _ HR),
    (rp_dict _ _ _ _ HR), (rp_keys _ _ _ _ HR), (rp_items _ _ _ _ HR), (rp_unparse _ _ _ _ HR).
  destruct (_ && _); [done|]. set (v0 := if isIndirect o then _ else v). clearbody v0.
  destruct (isStream o). { rewrite IH. cbn. by rewrite map_app. }
  destruct (isDictionary o).
  { rewrite (each_pieces_same (fun key v => let r := object_pieces levels (getKey o key) v in
      (Lit (octets_of key ++ [x3a]) :: r.1 ++ [Lit [x3b]], r.2))); [cbn; by rewrite map_app|]. intros key w. cbn. rewrite (rp_key _ _ _ _ HR), IH. cbn. by rewrite map_app. }
  destruct (isArray o); [|done].
  rewrite (each_pieces_move move (fun item v => let r := object_pieces levels item v in (r.1 ++ [Lit [x2c]], r.2)));
    [cbn; by rewrite map_app|]. intros item w. cbn. rewrite IH. cbn. by rewrite map_app.
Qed.

Lemma key_pieces_move (dict : QPDFObjectHandle) (key : string) (v : gset (Z * Z)) :
  key_pieces (move dict) key v = (map move_piece (key_pieces dict key v).1, (key_pieces dict key v).2).
Proof.
  unfold key_pieces. rewrite (rp_has_key _ _ _ _ HR), (rp_key _ _ _ _ HR). destruct (negb _); [done|]. apply object_pieces_move.
Qed.

Lemma stream_pieces_move (o : QPDFObjectHandle) : stream_pieces (move o) = map move_piece (stream_pieces o).
Proof. unfold stream_pieces. rewrite (rp_stream _ _ _ _ HR). by destruct (isStream o). Qed.

Lemma concat_pieces_move (f : QPDFObjectHandle -> list piece) (items : list QPDFObjectHandle) :
  (forall o, f (move o) = map move_piece (f o)) -> concat (map f (map move items)) = map move_piece (concat (map f items)).
Proof. intros Hf. induction items as [|o items IH]; [done|]. cbn. by rewrite Hf, IH, map_app. Qed.

Lemma page_pieces_move (page : QPDFObjectHandle) : page_pieces (move page) = map move_piece (page_pieces page).
Proof.
  unfold page_pieces. rewrite (rp_dictionary _ _ _ _ HR). destruct (negb _); [done|].
  rewrite (each_pieces_same (fun key v => let r := key_pieces page key v in (r.1 ++ [Lit [x3b]], r.2))).
  2: { intros key w. cbn. rewrite key_pieces_move. cbn. by rewrite map_app. }
  rewrite key_pieces_move, !map_app. cbn [fst map move_piece]. repeat f_equal.
  - unfold contents_pieces. rewrite (rp_has_key _ _ _ _ HR), (rp_key _ _ _ _ HR), (rp_array _ _ _ _ HR), (rp_items _ _ _ _ HR).
    destruct (negb _); [done|]. destruct (isArray _); [|apply stream_pieces_move]. apply concat_pieces_move, stream_pieces_move.
  - unfold annotations_pieces. rewrite (rp_has_key _ _ _ _ HR), (rp_key _ _ _ _ HR), (rp_array _ _ _ _ HR), (rp_items _ _ _ _ HR).
    destruct (negb _); [done|]. destruct (isArray _); [|done]. apply concat_pieces_move. intros a. unfold annotation_pieces.
    rewrite !(rp_key _ _ _ _ HR), !(rp_has_key _ _ _ _ HR), !(rp_dictionary _ _ _ _ HR), (rp_name _ _ _ _ HR), (rp_get_name _ _ _ _ HR).
    destruct (negb _); [done|]. rewrite !map_app, stream_pieces_move. by destruct (_ && _), (_ && _ && _).
Qed.

Definition is_changed (p : piece) : bool := match p with Lit _ => false | Data o => isStream o && changed o end.

(** The octets of a piece and of its image: the same, or the old data and the new one. *)
Lemma piece_octets_move (p : piece) (a b : bytes) :
  piece_octets p = inr a -> piece_octets (move_piece p) = inr b ->
  if is_changed p then a = before /\ b = after else a = b.
Proof.
  destruct p as [l|o]; cbn; [by intros [= ->] [= ->]|]. unfold AppendStreamBytes. rewrite (rp_stream _ _ _ _ HR).
  destruct (isStream o); cbn; [|by intros [= <-] [= <-]].
  destruct (changed o) eqn:Ec.
  - destruct (rp_changed _ _ _ _ HR o Ec) as [-> ->]. by intros [= <-] [= <-].
  - destruct (rp_same _ _ _ _ HR o Ec) as [-> ->]. intros E1 E2. rewrite E1 in E2. by injection E2.
Qed.

Definition count_changed (ps : list piece) : nat := length (List.filter is_changed ps).

Lemma render_move_length (ps : list piece) (a b : bytes) :
  render ps = inr a -> render (map move_piece ps) = inr b ->
  (length a + count_changed ps * length after = length b + count_changed ps * length before)%nat.
Proof.
  revert a b. induction ps as [|p ps IH]; intros a b; cbn [render map]; [by intros [= <-] [= <-]|].
  destruct (piece_octets p) as [?|x] eqn:Ex; [done|]. destruct (render ps) as [?|xs]; [done|]. intros [= <-].
  destruct (piece_octets (move_piece p)) as [?|y] eqn:Ey; [done|]. destruct (render (map move_piece ps)) as [?|ys]; [done|].
  intros [= <-]. specialize (IH xs ys eq_refl eq_refl). pose proof (piece_octets_move p x y Ex Ey) as Hp.
  unfold count_changed in *. cbn [List.filter]. rewrite !length_app. destruct (is_changed p); cbn [length]; [destruct Hp as [-> ->]|subst y]; nia.
Qed.

Lemma render_move_same_length (ps : list piece) (a : bytes) :
  length before = length after -> render ps = inr a -> render (map move_piece ps) = inr a ->
  (0 < count_changed ps)%nat -> before = after.
Proof.
  intros Hl. revert a. induction ps as [|p ps IH]; intros a; cbn [render map]; [intros _ _ Hc; cbn in Hc; lia|].
  destruct (piece_octets p) as [?|x] eqn:Ex; [done|]. destruct (render ps) as [?|xs]; [done|]. intros [= <-].
  destruct (piece_octets (move_piece p)) as [?|y] eqn:Ey; [done|]. destruct (render (map move_piece ps)) as [?|ys]; [done|].
  intros [= E]. pose proof (piece_octets_move p x y Ex Ey) as Hp. unfold count_changed. cbn [List.filter].
  destruct (is_changed p).
  - destruct Hp as [-> ->]. intros _. symmetry. by apply app_inj_1 in E as [? _].
  - subst y. apply app_inv_head in E as ->. by apply (IH xs).
Qed.

(** Replacing the data of a stream that the traversal reaches changes the fingerprint. *)
Lemma fingerprint_changes (page : QPDFObjectHandle) (fp : bytes) :
  AppendPageFingerprint page [] = inr fp -> AppendPageFingerprint (move page) [] = inr fp ->
  Z.of_nat (length fp) <= kMaxFingerprintBytes ->
  (exists o, Data o ∈ page_pieces page /\ isStream o && changed o = true) -> before = after.
Proof.
  intros E1 E2 Hl (o & Hin & Hc).
  pose proof (page_fingerprint_refines _ _ E1 Hl) as R1. pose proof (page_fingerprint_refines _ _ E2 Hl) as R2.
  rewrite page_pieces_move in R2.
  assert (0 < count_changed (page_pieces page))%nat as Hpos.
  { unfold count_changed. destruct (List.filter is_changed (page_pieces page)) eqn:Ef; [|cbn; lia]. exfalso.
    assert (In (Data o) (List.filter is_changed (page_pieces page))) as Hf by (apply filter_In; split; [by apply list_elem_of_In|done]).
    by rewrite Ef in Hf. }
  apply (render_move_same_length _ _ ltac:(pose proof (render_move_length _ _ _ R1 R2); nia) R1 R2 Hpos).
Qed.

End Replacement.

Lemma first_changed_None (index : nat) (signed current : list bytes) :
  length signed = length current -> first_changed index signed current = None -> signed = current.
Proof.
  revert index current. induction signed as [|fp signed IH]; intros index [|fp' current] Hl; cbn; try done.
  case_bool_decide as Hfp; [|done]. subst fp'. intros E. by rewrite (IH (S index) current) by (cbn in Hl; lia || done).
Qed.

Lemma page_fingerprints_spec (pages : list QPDFObjectHandle) (fps0 fps : list bytes) :
  for_each (fun page fps => let? fp := AppendPageFingerprint page [] in inr (fps ++ [fp])) pages fps0 = inr fps ->
  exists new, fps = fps0 ++ new /\ Forall2 (fun page fp => AppendPageFingerprint page [] = inr fp) pages new.
Proof.
  revert fps0. induction pages as [|page pages IH]; intros fps0 E; cbn [for_each] in E.
  { injection E as <-. exists []. by rewrite app_nil_r. }
  destruct (AppendPageFingerprint page []) as [?|fp] eqn:Ef; [done|].
  destruct (IH _ E) as (new & -> & Hn). exists (fp :: new). split; [by rewrite <- app_assoc|by constructor].
Qed.

(** [C23] A revision of a document in which the data of a stream has been replaced is told from the signed one, when the
    traversal of some page reaches the stream - as the contents of the page, through its resources or as the appearance of
    an annotation - and the fingerprints stay within the limit of 64 MiB. *)
Theorem replaced_stream_is_detected (pdf : bytes) (signed_size : Z) (signed current : QPDF)
    (pages : list QPDFObjectHandle) (move : QPDFObjectHandle -> QPDFObjectHandle) (changed : QPDFObjectHandle -> bool)
    (before after : bytes) (fps fps' : list bytes) (document document' : bytes) :
  Replaced move changed before after -> before <> after -> 0 < signed_size <= Z.of_nat (length pdf) ->
  processMemoryFile (take (Z.to_nat signed_size) pdf) = inr signed -> processMemoryFile pdf = inr current ->
  getAllPages signed = inr pages -> getAllPages current = inr (map move pages) ->
  CollectPageFingerprints (take (Z.to_nat signed_size) pdf) = inr (fps, document) ->
  CollectPageFingerprints pdf = inr (fps', document') ->
  Forall (fun fp => Z.of_nat (length fp) <= kMaxFingerprintBytes) fps ->
  (exists page o, page ∈ pages /\ Data o ∈ page_pieces page /\ isStream o && changed o = true) ->
  (ComparePageContentWithSignedRevision pdf signed_size).1 = Some true.
Proof.
  intros HR Hne Hs Ep Ec Gp Gc Cp Cc Hl (page & o & Hpage & Hdata & Hch).
  unfold ComparePageContentWithSignedRevision. rewrite Cp, Cc.
  rewrite (proj2 (Z.eqb_neq _ _)) by lia. rewrite (proj2 (Z.ltb_ge _ _)) by lia. cbn [orb].
  destruct (negb (bool_decide (document = document'))); [done|].
  destruct (length fps =? length fps')%nat eqn:El; [|done]. apply Nat.eqb_eq in El. cbn [negb].
  destruct (first_changed 0 fps fps') as [i|] eqn:Ef; [done|]. exfalso. apply Hne.
  pose proof (first_changed_None _ _ _ El Ef) as <-.
  unfold CollectPageFingerprints, page_fingerprints in Cp, Cc. rewrite Ep, Gp in Cp. rewrite Ec, Gc in Cc.
  destruct (for_each _ pages []) as [?|x] eqn:E1; [done|]. destruct (AppendDocumentFingerprint signed []); [done|].
  destruct (for_each _ (map move pages) []) as [?|x'] eqn:E2; [done|]. destruct (AppendDocumentFingerprint current []); [done|].
  injection Cp as -> _. injection Cc as -> _.
  destruct (page_fingerprints_spec _ _ _ E1) as (new & -> & F1). destruct (page_fingerprints_spec _ _ _ E2) as (new' & Hn & F2).
  rewrite !app_nil_l in *. subst new'.
  apply list_elem_of_lookup_1 in Hpage as [k Hk]. destruct (Forall2_lookup_l _ _ _ _ _ F1 Hk) as (fp & Hfp & A1).
  assert (map move pages !! k = Some (move page)) as Hk' by by rewrite list_lookup_fmap, Hk.
  destruct (Forall2_lookup_l _ _ _ _ _ F2 Hk') as (fp2 & Hfp2 & A2). rewrite Hfp in Hfp2. injection Hfp2 as <-.
  apply (fingerprint_changes move changed before after HR page fp A1 A2); [|by exists o].
  by apply (proj1 (Forall_lookup _ _) Hl k).
Qed.

End Fingerprint.
End PadesProofs.

(** ** Concrete documents *)

Module SamplePdf.

Import PdfByteRange PdfParser PadesVerifier PadesProofs SampleCms.
#[local] Existing Instances toy_clock toy_cert_api toy_cms_api.

(** A handle is a revision and the number of an object, of which [stored] is the kind; a number from 100 on is an integer. *)
Inductive stored := Null | Name (s : string) | Text (b : bytes) | Dict (entries : list (string * nat)) | Arr (items : list nat)
  | Stream (old new : bytes).

Definition chain : list stored := map (fun n => Dict [("/K", S n)]) (seq 30 13).

(** 1 and 2 are pages, 4 an image in the resources of the first one, 10 a signature and 20 a document timestamp; the
    resources of the second page hold a stream thirteen levels down. *)
Definition objects : list stored :=
  [Dict []; Dict [("/Contents", 3); ("/Resources", 5)]; Dict [("/Contents", 3); ("/Resources", 30)]; Stream [x71] [x71];
   Stream [x61] [x62]; Dict [("/XObject", 4)]; Null; Null; Null; Null;
   Dict [("/SubFilter", 11); ("/ByteRange", 12); ("/Contents", 13)]; Name "/ETSI.CAdES.detached"; Arr [100; 102; 105; 106];
   Text [x41]; Null; Null; Null; Null; Null; Null;
   Dict [("/SubFilter", 21); ("/ByteRange", 22); ("/Contents", 23)]; Name "/ETSI.RFC3161"; Arr [100; 112; 115; 105];
   Text [x00]; Dict [("/SubFilter", 11); ("/ByteRange", 12); ("/Contents", 25)]; Text [x02];
   Dict [("/SubFilter", 11); ("/ByteRange", 28); ("/Contents", 27)]; Text [x43]; Arr [100; 102; 105; 108]; Null]%nat
  ++ chain ++ [Stream [x61] [x62]].

Definition stored_at (o : bool * nat) : stored := default Null (objects !! o.2).

Definition entry_of (o : bool * nat) (key : string) : option nat :=
  match stored_at o with
  | Dict entries => snd <$> List.find (fun e => e.1 ==s key) entries
  | _ => None
  end.

(** The documents are told by their length. *)
Definition toy_document (pdf : bytes) : exception + bool * (list nat * list nat) :=
  let n := length pdf in
  if (n =? 11)%nat then inr (false, ([1%nat], [10%nat]))
  else if (n =? 20)%nat then inr (true, ([1%nat], [10%nat; 20%nat]))
  else if (n =? 12)%nat then inr (false, ([2%nat], [24%nat]))
  else if (n =? 13)%nat then inr (false, ([1%nat], [10%nat; 26%nat]))
  else if (n =? 21)%nat then inr (true, ([2%nat], [24%nat]))
  else inl (std_exception "not a document").

Definition toy_qpdf : Qpdf := {|
  QPDF := bool * (list nat * list nat);
  QPDFObjectHandle := bool * nat;
  processMemoryFile := toy_document;
  getRoot q := inr (q.1, 0%nat);
  getAllObjects q := inr (map (pair q.1) q.2.2);
  getAllPages q := inr (map (pair q.1) q.2.1);
  isDictionary o := match stored_at o with Dict _ => true | _ => false end;
  isArray o := match stored_at o with Arr _ => true | _ => false end;
  isStream o := match stored_at o with Stream _ _ => true | _ => false end;
  isName o := match stored_at o with Name _ => true | _ => false end;
  isString o := match stored_at o with Text _ => true | _ => false end;
  isIndirect o := match stored_at o with Stream _ _ => true | _ => false end;
  getObjGen o := (Z.of_nat o.2, 0);
  hasKey o key := match entry_of o key with Some _ => true | None => false end;
  getKey o key := (o.1, default 0%nat (entry_of o key));
  getKeys o := match stored_at o with Dict entries => map fst entries | _ => [] end;
  getArrayItems o := match stored_at o with Arr items => map (pair o.1) items | _ => [] end;
  getDict o := (o.1, 0%nat);
  getName o := match stored_at o with Name s => s | _ => "" end;
  getStringValue o := match stored_at o with Text b => b | _ => [] end;
  getIntValue o := Z.of_nat o.2 - 100;
  unparse o := "null";
  getStreamData o := match stored_at o with Stream old new => inr (if o.1 : bool then new else old) | _ => inr [] end;
  getRawStreamData o := inl other_exception
|}.
#[local] Existing Instance toy_qpdf.

Definition le_offset2 (a b : PdfSignatureDictionary) : Prop := br_offset2 (sd_byte_range a) <= br_offset2 (sd_byte_range b).
#[local] Instance le_offset2_decision : RelDecision le_offset2 := fun a b => Z_le_dec _ _.
#[local] Instance le_offset2_total : Total le_offset2.
Proof. intros a b. unfold le_offset2. lia. Qed.

#[local] Program Instance toy_sort : FieldSort := {| sort_fields := merge_sort le_offset2 |}.
Next Obligation. intros. apply merge_sort_Permutation. Qed.
Next Obligation. intros. apply (Sorted_merge_sort le_offset2). Qed.

Definition toy_pades_timestamps : TimestampApi := {|
  Disk := unit;
  ValidateTimestampToken token imprint pool := TimestampValidationResult_default <| tv_valid := bool_decide (token = imprint) |>;
  ExtractTimestampToken cms := TimestampExtractionResult_default;
  GetSignatureValue cms := inr cms;
  cert_aia c := None;
  registry_ocsp_url _ _ _ := None;
  LoadCrlsFromWorkDir _ _ := [];
  DownloadAndCacheCrlsForCert disk _ _ _ := disk
|}.
#[local] Existing Instance toy_pades_timestamps.

(** A signed document, and the same with a revision behind it: it replaces the image and adds a field whose token is no token. *)
Definition signed_revision : bytes := [x41; x42; x3c; x30; x3e; x43] ++ kEof.
Definition forged : bytes := signed_revision ++ [x44; x3c; x30; x3e] ++ kEof.

Definition result_of (pdf : bytes) : PadesVerificationResult :=
  match VerifyPdf pdf with Ret (inr r) => r | _ => PadesVerificationResult_default end.

Lemma signed_result : VerifyPdf signed_revision = Ret (inr (result_of signed_revision)).
Proof. vm_compute. reflexivity. Qed.

Lemma VerifyPdf_valid_grounds_witness :
  main_fields signed_revision <> [] /\
  exists sig e before gap after rest, main_fields signed_revision !! 0%nat = Some sig /\
    signed_revision = before ++ gap ++ after ++ rest /\ verified_by_every_signer (before ++ after) (ev_cms_der e).
Proof.
  destruct (VerifyPdf_valid_grounds signed_revision (result_of signed_revision) signed_result ltac:(vm_compute; reflexivity))
    as (H1 & _ & H3).
  split; [exact H1|].
  destruct (main_fields signed_revision) as [|sig rest0] eqn:Em; [done|].
  destruct (pv_main_signatures (result_of signed_revision)) as [|e es] eqn:Ee; [vm_compute in Ee; done|].
  destruct (H3 0%nat sig e eq_refl eq_refl) as (_ & _ & before & gap & after & rest & E & _ & _ & _ & _ & Hv).
  exists sig, e, before, gap, after, rest. split; [reflexivity|]. split; [exact E|exact Hv].
Defined.

Lemma forged_result : VerifyPdf forged = Ret (inr (result_of forged)).
Proof. vm_compute. reflexivity. Qed.

Lemma VerifyPdf_coverage_exact_witness :
  pv_coverage_complete (result_of forged) = true /\ pv_coverage_status (result_of forged) = "complete" /\
  exists f, f ∈ ExtractSignatureFields forged /\ ends_at (Z.of_nat (length forged)) f.
Proof.
  destruct (VerifyPdf_coverage_exact forged (result_of forged) forged_result) as (_ & H2 & _).
  split; [vm_compute; reflexivity|]. split; [vm_compute; reflexivity|]. apply H2. vm_compute. reflexivity.
Defined.

Lemma VerifyPdf_timestamps_exact_witness :
  pv_timestamps_valid (result_of forged) = true <-> False.
Proof.
  pose proof (VerifyPdf_timestamps_exact forged (result_of forged) forged_result) as H.
  split; [|intros []]. intros Hv. apply H in Hv as (_ & _ & H3).
  assert (timestamp_fields forged = [nth 0 (timestamp_fields forged) PdfSignatureDictionary_default]) as E by (vm_compute; reflexivity).
  destruct (H3 (nth 0 (timestamp_fields forged) PdfSignatureDictionary_default)) as [_ Ht]; [rewrite E at 2; left|].
  vm_compute in Ht. discriminate Ht.
Defined.

(** The comparison of the pages would have found the change, and the token of the added field is not valid. *)
Lemma document_timestamp_hides_changes_witness :
  (ComparePageContentWithSignedRevision forged 11).1 = Some true /\
  pv_timestamps_valid (result_of forged) = false /\
  exists r, VerifyPdf forged = Ret (inr r) /\ pv_signature_valid r = true /\ pv_coverage_complete r = true /\
    pv_coverage_status r = "complete".
Proof.
  split; [vm_compute; reflexivity|]. split; [vm_compute; reflexivity|].
  destruct (document_timestamp_hides_changes forged (nth 0 (timestamp_fields forged) PdfSignatureDictionary_default))
    as (r & H1 & H2 & H3 & H4 & _).
  - assert (ExtractSignatureFields forged = [nth 0 (main_fields forged) PdfSignatureDictionary_default;
      nth 0 (timestamp_fields forged) PdfSignatureDictionary_default]) as -> by (vm_compute; reflexivity).
    intros g [->|[->|[]%elem_of_nil]%elem_of_cons]%elem_of_cons; vm_compute; discriminate.
  - vm_compute. discriminate.
  - assert (main_fields forged = [nth 0 (main_fields forged) PdfSignatureDictionary_default]) as -> by (vm_compute; reflexivity).
    intros g [->|[]%elem_of_nil]%elem_of_cons. vm_compute. reflexivity.
  - assert (timestamp_fields forged = [nth 0 (timestamp_fields forged) PdfSignatureDictionary_default]) as E by (vm_compute; reflexivity).
    rewrite E at 2. left.
  - split; vm_compute; reflexivity.
  - exists r. split; [exact H1|]. split; [exact H2|]. split; [exact H3|exact H4].
Defined.

Definition moved (o : bool * nat) : bool * nat := (true, o.2).
Definition image (o : bool * nat) : bool := negb o.1 && ((o.2 =? 4)%nat || (o.2 =? 43)%nat).

Lemma image_replaced : Replaced moved image [x61] [x62].
Proof.
  split; try done.
  - intros [[] n]; cbn; destruct (stored_at _); try done; by rewrite map_map.
  - intros [[] n] Hc; [done|]. split; [|done].
    do 44 (destruct n as [|n]; [done|]). done.
  - intros [[] n] Hc; [done|]. do 44 (destruct n as [|n]; [done|]). done.
Qed.

Definition fingerprints (pdf : bytes) : list bytes * bytes :=
  match CollectPageFingerprints pdf with inr r => r | inl _ => ([], []) end.

Lemma replaced_stream_is_detected_witness :
  [x61] <> [x62] /\ (ComparePageContentWithSignedRevision forged 11).1 = Some true.
Proof.
  split; [discriminate|].
  apply (replaced_stream_is_detected (HQpdf := toy_qpdf) forged 11 (false, ([1%nat], [10%nat])) (true, ([1%nat], [10%nat; 20%nat])) [(false, 1%nat)]
    moved image [x61] [x62] (fingerprints signed_revision).1 (fingerprints forged).1 (fingerprints signed_revision).2
    (fingerprints forged).2 image_replaced).
  - discriminate.
  - vm_compute. split; [reflexivity|discriminate].
  - vm_compute. reflexivity.
  - vm_compute. reflexivity.
  - vm_compute. reflexivity.
  - vm_compute. reflexivity.
  - vm_compute. reflexivity.
  - vm_compute. reflexivity.
  - repeat constructor; vm_compute; discriminate.
  - exists (false, 1%nat), (false, 4%nat). split; [left|]. split; [|vm_compute; reflexivity].
    apply (list_elem_of_lookup_2 _ 16%nat). vm_compute. reflexivity.
Defined.

(** Below the thirteenth level the mark of the cut stands for whatever is there: the replaced stream is not seen. *)
Definition deep_revision : bytes := signed_revision ++ [x0a].
Definition deep_forged : bytes := deep_revision ++ [x44; x3c; x30; x3e] ++ kEof.

Example deep_change_is_not_seen :
  getStreamData (Qpdf := toy_qpdf) (false, 43%nat) <> getStreamData (Qpdf := toy_qpdf) (true, 43%nat) /\
  (ComparePageContentWithSignedRevision deep_forged 12).1 = Some false.
Proof. split; [vm_compute; discriminate|vm_compute; reflexivity]. Qed.

(** A timestamp inside a signature. *)
Example embedded_timestamp : check_embedded_timestamp [x02]
  (MkMainState PadesVerificationResult_default true false false true) = MkMainState PadesVerificationResult_default true false true true.
Proof. vm_compute. reflexivity. Qed.

End SamplePdf.
