(* ===== verification/SessionFormats.v ===== *)
(** * SessionFormats: what the handlers of signed documents share

    The helpers of [core/session/SessionHelpers.ipp] that collect certificates from the
    work directory, [RunFormatTrustValidationOn], [ApplyPerSignerTrustValidation] and
    [ApplyPerSignerTrustAggregation] of [core/session/SessionStateAndNormalization.ipp], and
    [TryCanonicalTimestampVerdict] with [AggregatePerSignerTimestamps] of
    [core/session/SessionAsicOps.ipp].  [SessionPdf] and [SessionXml] hold the handlers. *)

From S2P Require Import Prelude CxxString Types Time Der Codec Sha256 Cryptonite Fixture X509Name Chain Pem KeyNormalize.
From S2P Require Import PathEngine Crl Ocsp Revocation Resolvers TrustList Evidence Timestamp Validation Report Projection Session.

Local Open Scope Z_scope.
Local Open Scope tamga_scope.

(** ** Certificates of the work directory *)

Definition certificate_blocks (blocks : list PemBlock) : list bytes :=
  omap (fun block => if str_contains (of_chars (pb_type block)) "CERTIFICATE" && negb (is_empty (pb_der_payload block))
                     then Some (pb_der_payload block) else None) blocks.

(** What one entry of the directory adds: its name is not looked at. *)
Definition collect_entry (entry : string * bool * option bytes) : list bytes :=
  let '(_, regular, content) := entry in
  if negb regular then [] else
  match content with
  | None | Some [] => []
  | Some file_data =>
      if IsLikelyPem file_data then
        match LoadAll file_data false with
        | inr blocks => certificate_blocks blocks
        | inl _ => []
        end
      else [file_data]
  end.

(** The entries of a directory, [None] when it is not one. *)
Definition directory_certificates (entries : option (list (string * bool * option bytes))) : list bytes :=
  match entries with None => [] | Some entries => concat (map collect_entry entries) end.

Section Collect.
Context `{!CertApi, !TimestampApi, !StoreApi}.

Definition CollectCertificatesFromDirectory (disk : Disk) (dir_path : string) : list bytes :=
  directory_certificates (read_dir disk dir_path).

Definition collect_store (disk : Disk) (work_dir name : string) : list bytes :=
  if str_empty work_dir then [] else CollectCertificatesFromDirectory disk (path_append work_dir name).

Definition CollectTrustAnchors (disk : Disk) (work_dir : string) : list bytes := collect_store disk work_dir "trust-store".
Definition CollectHistoricalTrustAnchors (disk : Disk) (work_dir : string) : list bytes :=
  collect_store disk work_dir "historical-trust-store".
Definition CollectIntermediateCertificates (disk : Disk) (work_dir : string) : list bytes :=
  collect_store disk work_dir "intermediate-store".
Definition CollectTsaAnchors (disk : Disk) (work_dir : string) : list bytes := collect_store disk work_dir "tsa-store".
Definition CollectHistoricalTsaAnchors (disk : Disk) (work_dir : string) : list bytes :=
  collect_store disk work_dir "historical-tsa-store".

End Collect.

(** ** The verdict of one signer *)

(** The fields that both the handler for several signers and the one of PDF documents take from the
    report of a signer. *)
Definition copy_signer_verdict (temp : VerifyReport) (entry : SignatureEntry) : SignatureEntry :=
  entry <| se_certificate_time_valid := vr_certificate_time_valid temp |>
    <| se_validation_time_source := vr_validation_time_source temp |>
    <| se_chain_checked := vr_chain_checked temp |> <| se_chain_valid := vr_chain_valid temp |>
    <| se_chain_debug := vr_chain_debug temp |>
    <| se_trust_checked := vr_trust_checked temp |> <| se_trust_valid := vr_trust_valid temp |>
    <| se_trust_status := vr_trust_status temp |> <| se_trust_mode := vr_trust_mode temp |>
    <| se_trust_reason := vr_trust_reason temp |>
    <| se_historical_trust_used := vr_historical_trust_used temp |>
    <| se_historical_anchor_subject := vr_historical_anchor_subject temp |>
    <| se_historical_anchor_serial := vr_historical_anchor_serial temp |>
    <| se_revocation_checked := vr_revocation_checked temp |> <| se_ocsp_checked := vr_ocsp_checked temp |>
    <| se_revocation_status := vr_revocation_status temp |>
    <| se_error_code := vr_error_code temp |> <| se_message := vr_message temp |>.

Definition revocation_confirmed (status : string) : bool := (status ==s "valid") || (status ==s "good").

(** The loops that look for the representative: the first signer without trust, else the first whose
    revocation is not confirmed, else the first. *)
Fixpoint first_where {A} (p : A -> bool) (l : list A) : option A :=
  match l with
  | [] => None
  | a :: l => if p a then Some a else first_where p l
  end.

Definition representative_entry (entries : list SignatureEntry) (first : SignatureEntry) : SignatureEntry :=
  match first_where (fun e => negb (se_trust_valid e)) entries with
  | Some e => e
  | None => default first (first_where (fun e => negb (revocation_confirmed (se_revocation_status e))) entries)
  end.

Definition ApplyPerSignerTrustAggregation (report : VerifyReport) : VerifyReport :=
  match vr_signatures report with
  | [] => report
  | first :: _ =>
      let all (f : SignatureEntry -> bool) := forallb f (vr_signatures report) in
      let rep := representative_entry (vr_signatures report) first in
      let report := report
        <| vr_trust_checked := all se_trust_checked |> <| vr_trust_valid := all se_trust_valid |>
        <| vr_chain_checked := all se_chain_checked |> <| vr_chain_valid := all se_chain_valid |>
        <| vr_certificate_time_valid := all se_certificate_time_valid |>
        <| vr_revocation_checked := all se_revocation_checked |> <| vr_ocsp_checked := all se_ocsp_checked |>
        <| vr_validation_time_source := se_validation_time_source rep |>
        <| vr_trust_status := se_trust_status rep |> <| vr_trust_mode := se_trust_mode rep |>
        <| vr_trust_reason := se_trust_reason rep |>
        <| vr_historical_trust_used := se_historical_trust_used rep |>
        <| vr_historical_anchor_subject := se_historical_anchor_subject rep |>
        <| vr_historical_anchor_serial := se_historical_anchor_serial rep |>
        <| vr_revocation_status := se_revocation_status rep |> <| vr_chain_debug := se_chain_debug rep |>
        <| vr_error_code := se_error_code rep |> in
      if str_empty (se_message rep) then report else report <| vr_message := se_message rep |>
  end.

Definition AggregatePerSignerTimestamps (report : VerifyReport) : VerifyReport :=
  let report := ApplyTimestampDetailsVerdict
    (report <| vr_timestamp_details := concat (map se_timestamp_details (vr_signatures report)) |>) in
  if vr_timestamp_status report ==s "timestamp-invalid" then ApplyTimestampFailureToTrust report else report.

Section Engine.
Context `{Clock, !Platform, !CertApi, !Validators, !TimestampApi, !StoreApi, !LibXml, !MetadataApi}.

(** ** The engine on the evidence of a document *)

Definition format_context (settings : Settings) (cms : bytes) (ocsp crl : list bytes) (signature_crypto_valid : bool)
    : ValidationContext :=
  ValidationContext_default <| vc_profile := profile_of (sg_trust_mode settings) |>
    <| vc_level := level_of (sg_validation_level settings) |>
    <| vc_offline := sg_offline_mode settings |> <| vc_work_dir := sg_work_dir settings |>
    <| vc_cms_der := cms |> <| vc_embedded_revocation_ocsp_der := ocsp |>
    <| vc_embedded_revocation_crl_der := crl |> <| vc_signature_crypto_valid := signature_crypto_valid |>.

Definition RunFormatTrustValidationOn (disk : Disk) (settings : Settings) (signer cms : bytes)
    (embedded ocsp crl : list bytes) (signature_crypto_valid : bool) (report : VerifyReport)
    : outcome (VerifyReport * Disk) :=
  if is_empty signer then Ret (report, disk) else
  let '(ve_report, disk) :=
    Validation.Validate disk (format_context settings cms ocsp crl signature_crypto_valid) signer embedded in
  report ← ApplyValidationEngineReport ve_report report;
  Ret (report, disk).

Definition ApplyPerSignerTrustValidation (disk : Disk) (settings : Settings) (signer : bytes)
    (certificate_values ocsp crl : list bytes) (entry : SignatureEntry) : outcome (SignatureEntry * Disk) :=
  '(temp, disk) ← RunFormatTrustValidationOn disk settings signer [] certificate_values ocsp crl
                    (se_signature_valid entry) VerifyReport_default;
  Ret (copy_signer_verdict temp entry, disk).

(** ** The engine on a token *)

Definition BuildXadesValidationContext (settings : Settings) : ValidationContext :=
  ValidationContext_default <| vc_profile := profile_of (sg_trust_mode settings) |>
    <| vc_level := level_of (sg_validation_level settings) |>
    <| vc_offline := sg_offline_mode settings |> <| vc_work_dir := sg_work_dir settings |>.

Definition token_input (disk : Disk) (settings : Settings) (token imprint_source : bytes) (validation_time : string)
    (certificates ocsp crls : list bytes) : TimestampEngineInput :=
  let work_dir := sg_work_dir settings in
  let context := BuildXadesValidationContext settings in
  let resolved := PolicyResolver_Resolve context in
  TimestampEngineInput_default
    <| ti_explicit_timestamp_token_der := token |> <| ti_explicit_timestamp_imprint_source := imprint_source |>
    <| ti_validation_time := validation_time |>
    <| ti_policy := rp_policy resolved |> <| ti_plan := rp_plan resolved |>
    <| ti_current_trust_anchors_der := CollectTrustAnchors disk work_dir |>
    <| ti_tsa_trust_anchors_der := CollectTsaAnchors disk work_dir |>
    <| ti_historical_trust_anchors_der := CollectHistoricalTrustAnchors disk work_dir |>
    <| ti_historical_tsa_trust_anchors_der := CollectHistoricalTsaAnchors disk work_dir |>
    <| ti_intermediate_store_certificates_der := CollectIntermediateCertificates disk work_dir |>
    <| ti_additional_tsa_candidate_certificates_der := certificates |>
    <| ti_embedded_ocsp_responses_der := ocsp |> <| ti_embedded_crls_der := crls |>
    <| ti_profile := vc_profile context |> <| ti_level := vc_level context |>.

(** The reason is the last one: the earlier entries are steps that were taken. *)
Definition refusal_reason (result : TimestampEngineResult) : string :=
  if tr_valid result then ""
  else default "TSA signature, chain, EKU or revocation validation failed" (last (tr_because result)).

(** [None] when there is no token or nothing that it stamps; else [out_valid], [out_reason] and the detail. *)
Definition TryCanonicalTimestampVerdict (disk : Disk) (settings : Settings) (token imprint_source : bytes)
    (validation_time : string) (certificates ocsp crls : list bytes)
    : outcome (option (bool * string * TimestampEntry) * Disk) :=
  if is_empty token || is_empty imprint_source then Ret (None, disk) else
  let '(result, disk) :=
    Timestamp.Validate disk (token_input disk settings token imprint_source validation_time certificates ocsp crls) in
  detail ← ProjectTimestampResult result;
  Ret (Some (tr_valid result, refusal_reason result, detail), disk).

(** ** What the report of a signer says *)

(** The fields that no run of the engine changes. *)
Definition kept (r : VerifyReport) : bool * bool * bool * bool * bool :=
  (vr_has_result r, vr_execution_succeeded r, vr_signature_valid r, vr_container_malformed r,
   vr_container_coverage_complete r).

Lemma RunFormatTrust_spec (disk : Disk) (settings : Settings) (signer cms : bytes) (embedded ocsp crl : list bytes)
    (valid : bool) (base : VerifyReport) :
  exists r disk', RunFormatTrustValidationOn disk settings signer cms embedded ocsp crl valid base = Ret (r, disk') /\
    kept r = kept base /\
    (signer = [] /\ r = base \/
     signer <> [] /\ ApplyValidationEngineReport
       (Validation.Validate disk (format_context settings cms ocsp crl valid) signer embedded).1 base = Ret r).
Proof.
  unfold RunFormatTrustValidationOn. destruct signer as [|b signer]; cbn [is_empty].
  { exists base, disk. by repeat split; [..|left]. }
  destruct (Validation.Validate disk _ _ _) as [ve disk'].
  destruct (Apply_verdict ve base) as (r & Hr & (E1 & E2 & E3 & E4 & E5) & _). cbn [fst].
  unfold mbind, outcome_bind. rewrite Hr. exists r, disk'. split; [done|].
  split; [unfold kept; congruence|]. by right.
Qed.

(** A report of a signer that claims trust and a good revocation status. *)
Definition good_verdict (r : VerifyReport) : bool := vr_trust_valid r && revocation_confirmed (vr_revocation_status r).

Lemma revocation_confirmed_spec (status : string) :
  revocation_confirmed status = true <-> status = "good" \/ status = "valid".
Proof. unfold revocation_confirmed. rewrite orb_true_iff, !String.eqb_eq. tauto. Qed.

(** The grounds of one signer: the engine, run on its certificate and on its own signature verdict. *)
Record SignerGrounds (disk : Disk) (context : ValidationContext) (signer : bytes) (embedded : list bytes) : Prop := {
  sgr_signer : signer <> [];
  sgr_valid : ValidGrounds disk context signer embedded (Validation.Validate disk context signer embedded).1;
  sgr_revocation : rr_revocation_status (rpt_signer_revocation
    (Validation.Validate disk context signer embedded).1) = RevocationStatus.Good
}.

Lemma good_verdict_grounds (disk : Disk) (context : ValidationContext) (signer : bytes) (embedded : list bytes)
    (base r : VerifyReport) :
  signer <> [] ->
  ApplyValidationEngineReport (Validation.Validate disk context signer embedded).1 base = Ret r ->
  good_verdict r = true -> SignerGrounds disk context signer embedded.
Proof.
  intros Hne Hr [Ht Hc%revocation_confirmed_spec]%andb_true_iff. set (ve := (Validation.Validate _ _ _ _).1) in *.
  destruct (Apply_verdict ve base) as (r' & Hr' & _ & Hv & _). rewrite Hr in Hr'. injection Hr' as <-.
  unfold verdict in Hv. injection Hv as _ Ht' _ _ Hs _ _. rewrite Hs, revocation_text_good in Hc.
  destruct (good_revocation disk context signer embedded Hc) as [Ho _]. unfold denied_by in Ht'.
  fold ve in Ho. rewrite Ho in Ht'. cbn in Ht'. rewrite Ht in Ht'. split; [done| |done].
  destruct (Validate_findings disk context signer embedded) as ([[= _ Htv _ _ _] _] & _). fold ve in Htv.
  rewrite Htv in Ht'. apply trusted_grounds; [done|].
  unfold hard_fail_hit, run_findings. cbn. fold ve. by rewrite Ho.
Qed.

(** ** What the engine says of a token *)

Lemma TryCanonical_spec (disk : Disk) (settings : Settings) (token imprint_source : bytes) (validation_time : string)
    (certificates ocsp crls : list bytes) :
  let input := token_input disk settings token imprint_source validation_time certificates ocsp crls in
  let result := (Timestamp.Validate disk input).1 in
  exists v disk',
    TryCanonicalTimestampVerdict disk settings token imprint_source validation_time certificates ocsp crls = Ret (v, disk') /\
    match v with
    | None => token = [] \/ imprint_source = []
    | Some (valid, reason, detail) =>
        token <> [] /\ imprint_source <> [] /\ valid = tr_valid result /\ te_valid detail = valid /\
        te_policy_acceptable detail = tr_policy_acceptable result
    end.
Proof.
  intros input result. unfold TryCanonicalTimestampVerdict.
  destruct token as [|t token]; [exists None, disk; split; [done|by left]|].
  destruct imprint_source as [|i imprint]; [exists None, disk; split; [done|by right]|].
  cbn [is_empty orb]. fold input. unfold result. destruct (Timestamp.Validate disk input) as [res disk'].
  destruct (ProjectTimestampResult_spec res) as (e & He & Hv & Ha & _).
  unfold mbind, outcome_bind. rewrite He. by exists (Some (tr_valid res, refusal_reason res, e)), disk'.
Qed.

End Engine.

(** ** The aggregation over the signers *)

Lemma first_where_None {A} (p : A -> bool) (l : list A) : first_where p l = None <-> forall a, a ∈ l -> p a = false.
Proof.
  induction l as [|b l IH]; cbn; [split; [by intros _ a []%elem_of_nil|done]|].
  destruct (p b) eqn:E.
  - split; [done|]. intros H. by rewrite (H b (list_elem_of_here _ _)) in E.
  - rewrite IH. split; intros H a.
    + intros [->|Ha]%elem_of_cons; [done|by apply H].
    + intros Ha. apply H. by right.
Qed.

Lemma first_where_Some {A} (p : A -> bool) (l : list A) (a : A) : first_where p l = Some a -> a ∈ l /\ p a = true.
Proof.
  induction l as [|b l IH]; cbn; [done|]. destruct (p b) eqn:E; [intros [= ->]; by split; [left|]|].
  intros [??]%IH. by split; [right|].
Qed.

Definition good_entry (e : SignatureEntry) : bool := se_trust_valid e && revocation_confirmed (se_revocation_status e).

(** The aggregated report claims trust and a good revocation status exactly when every signer has them. *)
Lemma aggregation_good (report : VerifyReport) :
  vr_signatures report <> [] ->
  good_verdict (ApplyPerSignerTrustAggregation report) = forallb good_entry (vr_signatures report).
Proof.
  unfold ApplyPerSignerTrustAggregation, good_verdict. destruct (vr_signatures report) as [|first rest] eqn:Es; [done|].
  intros _. set (l := first :: rest). set (rep := representative_entry l first).
  transitivity (forallb se_trust_valid l && revocation_confirmed (se_revocation_status rep)).
  { by destruct (str_empty (se_message rep)). }
  apply eq_true_iff_eq. rewrite andb_true_iff, !forallb_forall. unfold good_entry. split.
  - intros [Ht Hr] e He. rewrite (Ht e He). cbn. unfold rep, representative_entry in Hr.
    assert (first_where (fun e => negb (se_trust_valid e)) l = None) as E.
    { apply first_where_None. intros a Ha%list_elem_of_In. by rewrite (Ht a Ha). }
    rewrite E in Hr. destruct (first_where (fun e => negb (revocation_confirmed _)) l) as [bad|] eqn:Eb.
    + apply first_where_Some in Eb as [_ Eb]. cbn in Hr. by rewrite Hr in Eb.
    + apply first_where_None with (a := e) in Eb; [|by apply list_elem_of_In]. by apply negb_false_iff in Eb.
  - intros H. assert (rep ∈ l) as Hin.
    { unfold rep, representative_entry. destruct (first_where _ l) as [e|] eqn:E; [by apply first_where_Some in E as []|].
      destruct (first_where (fun e => negb (revocation_confirmed _)) l) as [e|] eqn:E'; [by apply first_where_Some in E' as []|].
      left. }
    split; [intros e He; by apply H, andb_true_iff in He as [? _]|].
    apply list_elem_of_In, H, andb_true_iff in Hin. tauto.
Qed.

(** ** The two ways to read the stores *)

(** A store whose files are DER certificates with the usual names is read alike by the engine and by the
    check of a token. *)
Definition plain_entry (entry : string * bool * option bytes) : bool :=
  let '(name, regular, content) := entry in
  negb regular || match content with
                  | None | Some [] => true
                  | Some data => ((extension name ==s ".cer") || (extension name ==s ".crt") || (extension name ==s ".der"))
                                 && negb (IsLikelyPem data)
                  end.

Lemma collectors_agree `{!CertApi, !TimestampApi, !StoreApi} (disk : Disk) (dir_path : string) :
  (forall entries, read_dir disk dir_path = Some entries -> forallb plain_entry entries = true) ->
  CollectCertificatesFromDirectory disk dir_path = LoadCertificatesFromDir disk dir_path.
Proof.
  unfold CollectCertificatesFromDirectory, directory_certificates, LoadCertificatesFromDir.
  destruct (read_dir disk dir_path) as [entries|]; [|done].
  intros Hall. specialize (Hall entries eq_refl). clear -Hall. induction entries as [|[[name regular] content] entries IH]; [done|].
  cbn in Hall. apply andb_true_iff in Hall as [Hp Hs]. cbn [map concat omap list_omap]. rewrite (IH Hs). clear IH Hs.
  unfold collect_entry, load_entry. destruct regular; cbn in Hp |- *; [|done].
  destruct content as [[|b data]|]; [by destruct (negb _)| |by destruct (negb _)].
  apply andb_true_iff in Hp as [-> Hp%negb_true_iff]. cbn [negb]. by rewrite Hp.
Qed.

(** A certificate in PEM is an anchor for the check of a token only. *)
Example pem_is_an_anchor_of_tokens_only :
  let pem := map (fun c => default x00 (Byte.of_nat (Ascii.nat_of_ascii c)))
    (chars "-----BEGIN CERTIFICATE-----" ++ [to_char 10] ++ chars "MAA=" ++ [to_char 10] ++ chars "-----END CERTIFICATE-----") in
  collect_entry ("root.pem", true, Some pem) = [[x30; x00]] /\ load_entry ("root.pem", true, Some pem) = None.
Proof. vm_compute. done. Qed.
