(* ===== verification/Asic.v ===== *)
(** * Asic: containers of signed documents (src/src/lib/asic)

    [asic/AsicReader.cpp] (Module [AsicReader]), [asic/AsicWriter.cpp] (Module [AsicWriter]) and
    [asic/AsicContainers.cpp].  A container is a ZIP archive; the archive format itself is the
    third-party library miniz, class [Miniz].  The manifest is an XML document: it is generated as
    text and read through libxml2. *)

From S2P Require Import Prelude CxxString Codec TrustList PathEngine.

Local Open Scope Z_scope.
Local Open Scope tamga_scope.

(** ** The archive library *)

(** [mz_zip_archive_file_stat]; the sizes are unsigned 64-bit numbers. *)
Record file_stat := MkFileStat {
  m_filename : string;
  m_is_directory : bool;
  m_uncomp_size : N;
  m_comp_size : N
}.

Class Miniz := {
  ZipReader : Type;
  zip_reader_init_mem : bytes -> option ZipReader;
  zip_reader_get_num_files : ZipReader -> nat;
  zip_reader_file_stat : ZipReader -> nat -> option file_stat;
  (** the search ignores case; [None] is a negative index *)
  zip_reader_locate_file : ZipReader -> string -> option nat;
  zip_reader_extract_to_heap : ZipReader -> nat -> option bytes;
  ZipWriter : Type;
  zip_writer_init_heap : option ZipWriter;
  (** the name, the octets and whether they are compressed *)
  zip_writer_add : ZipWriter -> string -> bytes -> bool -> option ZipWriter;
  zip_writer_finalize_heap_archive : ZipWriter -> option bytes
}.

Definition c_str (s : string) : string := of_chars (cstr (chars s)).

(** [std::vector<std::uint8_t>(text.begin(), text.end())] and back. *)
Definition ToBytes (text : string) : bytes := map Ascii.byte_of_ascii (chars text).
Definition text_of (data : bytes) : string := of_chars (map Ascii.ascii_of_byte data).

Lemma ToBytes_text_of (data : bytes) : ToBytes (text_of data) = data.
Proof.
  unfold ToBytes, text_of. rewrite chars_of_chars, map_map. rewrite <- (map_id data) at 2.
  apply map_ext. apply Ascii.byte_of_ascii_of_byte.
Qed.

Lemma text_of_ToBytes (text : string) : text_of (ToBytes text) = text.
Proof.
  unfold ToBytes, text_of. rewrite map_map. rewrite <- (of_chars_chars text) at 2. f_equal.
  rewrite <- (map_id (chars text)) at 2. apply map_ext. apply Ascii.ascii_of_byte_of_ascii.
Qed.

(** ** The reader *)

Module AsicReader.

Definition kMaxAsicEntries : Z := 4096.
Definition kMaxEntryUncompressedSize : Z := 64 * 1024 * 1024.
Definition kMaxTotalUncompressedSize : Z := 256 * 1024 * 1024.
Definition kCompressionRatioFloor : Z := 1024 * 1024.
Definition kMaxCompressionRatio : Z := 100.
Definition kMaxCompressedContainerSize : Z := 300 * 1024 * 1024.

(** The segments of a name between its slashes. *)
Fixpoint segments (name : list ascii) : list (list ascii) :=
  match name with
  | [] => [[]]
  | c :: rest =>
      if Ascii.eqb c "/" then [] :: segments rest
      else match segments rest with
           | [] => [[c]]
           | segment :: more => (c :: segment) :: more
           end
  end.

Definition IsUnsafeEntryName (name : string) : bool :=
  match chars name with
  | [] => true
  | first :: rest =>
      Ascii.eqb first "/" || Ascii.eqb first "\"
      || match rest with second :: _ => Ascii.eqb second ":" | [] => false end
      || existsb (Ascii.eqb "\") (first :: rest)
      || existsb (fun segment => bool_decide (segment = chars "..")) (segments (first :: rest))
  end.

Section Reader.
Context `{Miniz}.

(** The loop over the directory of the archive; the error text is the left summand. *)
Fixpoint validate_entries (zip : ZipReader) (indices : list nat) (seen_names : gset string) (total_uncompressed : Z)
    : string + unit :=
  match indices with
  | [] => inr tt
  | i :: indices =>
      match zip_reader_file_stat zip i with
      | None => inl "ASiC container rejected: unreadable entry metadata"
      | Some stat =>
          let name := m_filename stat in
          if IsUnsafeEntryName name then inl ("ASiC container rejected: unsafe entry name '" +s+ name +s+ "'")
          else if bool_decide (name ∈ seen_names) then inl ("ASiC container rejected: duplicate entry name '" +s+ name +s+ "'")
          else
          let seen_names := {[ name ]} ∪ seen_names in
          if m_is_directory stat then validate_entries zip indices seen_names total_uncompressed
          else
          let uncomp := Z.of_N (m_uncomp_size stat) in
          let comp := Z.of_N (m_comp_size stat) in
          if kMaxEntryUncompressedSize <? uncomp then
            inl ("ASiC container rejected: entry '" +s+ name +s+ "' exceeds the per-entry size limit")
          else
          let total_uncompressed := wrap 64 (total_uncompressed + uncomp) in
          if kMaxTotalUncompressedSize <? total_uncompressed then
            inl "ASiC container rejected: total uncompressed size exceeds the limit"
          else if (kCompressionRatioFloor <? uncomp) && (0 <? comp) && (kMaxCompressionRatio <? uncomp / comp) then
            inl ("ASiC container rejected: entry '" +s+ name +s+ "' has a suspicious compression ratio (zip bomb)")
          else validate_entries zip indices seen_names total_uncompressed
      end
  end.

Definition ValidateArchiveSafety (zip : ZipReader) : string + unit :=
  let num_files := zip_reader_get_num_files zip in
  if kMaxAsicEntries <? Z.of_nat num_files then
    inl ("ASiC container rejected: too many entries (" +s+ to_string (Z.of_nat num_files)
         +s+ " > " +s+ to_string kMaxAsicEntries +s+ ")")
  else validate_entries zip (seq 0 num_files) ∅ 0.

(** The open archive of the reader, or the error text. *)
Definition LoadFromBuffer (data : bytes) : string + ZipReader :=
  if kMaxCompressedContainerSize <? Z.of_nat (length data) then
    inl ("ASiC container rejected: buffer too large (" +s+ to_string (Z.of_nat (length data)) +s+ " > "
         +s+ to_string kMaxCompressedContainerSize +s+ " bytes)")
  else
  match zip_reader_init_mem data with
  | None => inl "Failed to initialize ZIP reader from memory buffer"
  | Some zip => let? _ := ValidateArchiveSafety zip in inr zip
  end.

(** What the stream on a file answers: an exception with its text, no stream, or the position of the end
    and the octets that can be read. *)
Inductive StreamCalls :=
| Throws (what : option string)
| NotOpened
| Stream (tellg : Z) (content : bytes).

Definition LoadFromFile (calls : StreamCalls) (filepath : string) : string + ZipReader :=
  match calls with
  | Throws what =>
      inl ("Unable to load ASiC file: " +s+ filepath +s+ " (" +s+ default "unknown C++ exception" what +s+ ")")
  | NotOpened => inl ("Unable to open file: " +s+ filepath)
  | Stream size content =>
      if size <? 0 then inl ("Invalid file size for: " +s+ filepath)
      else if kMaxCompressedContainerSize <? size then
        inl ("ASiC container rejected: file too large (" +s+ to_string size +s+ " > "
             +s+ to_string kMaxCompressedContainerSize +s+ " bytes)")
      else if (0 <? size) && (Z.of_nat (length content) <? size) then inl ("Unable to read file: " +s+ filepath)
      else LoadFromBuffer (take (Z.to_nat size) content)
  end.

Definition ExtractFile (zip : ZipReader) (name : string) : string + bytes :=
  match zip_reader_locate_file zip (c_str name) with
  | None => inl ("File not found in archive: " +s+ name)
  | Some file_index =>
      match zip_reader_extract_to_heap zip file_index with
      | None => inl ("Failed to extract file: " +s+ name)
      | Some data => inr data
      end
  end.

Definition GetMimetype (zip : ZipReader) : option string :=
  match ExtractFile zip "mimetype" with inl _ => None | inr data => Some (text_of data) end.

Record AsicFileEntry := MkAsicFileEntry { af_name : string; af_data : bytes }.

Fixpoint get_files (zip : ZipReader) (indices : list nat) : string + list AsicFileEntry :=
  match indices with
  | [] => inr []
  | i :: indices =>
      match zip_reader_file_stat zip i with
      | None => inl "Failed to read file stat"
      | Some file_stat =>
          if m_is_directory file_stat then get_files zip indices
          else
          let? data := ExtractFile zip (m_filename file_stat) in
          let? out_files := get_files zip indices in
          inr (MkAsicFileEntry (m_filename file_stat) data :: out_files)
      end
  end.

Definition GetFiles (zip : ZipReader) : string + list AsicFileEntry :=
  get_files zip (seq 0 (zip_reader_get_num_files zip)).

End Reader.
End AsicReader.

(** ** The writer *)

Module AsicWriter.

Inductive AsicType := AsicS | AsicE.

Section Writer.
Context `{Miniz}.

(** The members of the implementation: [None] before it is initialised.  A writer whose [AddFile] failed is not used
    again by any caller. *)
Record Writer := MkWriter { type_ : AsicType; zip : option ZipWriter; finalized : bool }.

Definition new (type : AsicType) : Writer := MkWriter type None false.

Definition mimetype (type : AsicType) : string :=
  match type with
  | AsicS => "application/vnd.etsi.asic-s+zip"
  | AsicE => "application/vnd.etsi.asic-e+zip"
  end.

Definition AddMemoryEntry (zip : ZipWriter) (name : string) (data : bytes) (compress : bool) : option ZipWriter :=
  zip_writer_add zip (c_str name) data compress.

(** The archive with its first entry, in which the type is told. *)
Definition initialized (w : Writer) : option ZipWriter :=
  match zip w with
  | Some zip => Some zip
  | None =>
      match zip_writer_init_heap with
      | None => None
      | Some zip => AddMemoryEntry zip "mimetype" (ToBytes (mimetype (type_ w))) false
      end
  end.

Definition AddFile (w : Writer) (name : string) (data : bytes) (compress : bool) : option Writer :=
  match initialized w with
  | None => None
  | Some zip =>
      if finalized w then None else
      match AddMemoryEntry zip name data compress with
      | None => None
      | Some zip => Some (MkWriter (type_ w) (Some zip) false)
      end
  end.

Definition Finalize (w : Writer) : string + bytes :=
  let! w := match zip w with Some _ => Some w | None => AddFile w "" [] false end else "Failed to initialize archive" in
  if finalized w then inl "Archive already finalized" else
  let! out := match zip w with Some zip => zip_writer_finalize_heap_archive zip | None => None end
    else "Failed to finalize heap archive" in
  inr out.

End Writer.
End AsicWriter.

(** ** Manifests *)

Definition kAsicManifestNamespace : string := "http://uri.etsi.org/02918/v1.2.1#".
Definition kXmlDsigNamespace : string := "http://www.w3.org/2000/09/xmldsig#".

(** The double quote, which is written as [']  in the texts below. *)
Definition dquote : ascii := Ascii.ascii_of_nat 34.
Definition xml_text (s : string) : string :=
  of_chars (map (fun c => if Ascii.eqb c "'" then dquote else c) (chars s)).

Definition escape_char (ch : ascii) : string :=
  if Ascii.eqb ch "&" then "&amp;"
  else if Ascii.eqb ch "<" then "&lt;"
  else if Ascii.eqb ch ">" then "&gt;"
  else if Ascii.eqb ch dquote then "&quot;"
  else if Ascii.eqb ch "'" then "&apos;"
  else String ch EmptyString.

Definition EscapeXmlAttribute (text : string) : string := String.concat "" (map escape_char (chars text)).

Definition newline : string := String (Ascii.ascii_of_nat 10) EmptyString.

(** The text behind the last dot, in lower case; [None] when there is no dot. *)
Fixpoint last_extension (l : list ascii) : option (list ascii) :=
  match l with
  | [] => None
  | c :: rest =>
      match last_extension rest with
      | Some ext => Some ext
      | None => if Ascii.eqb c "." then Some rest else None
      end
  end.

Definition GetMimeTypeFromFilename (filename : string) : string :=
  match last_extension (chars filename) with
  | None => "application/octet-stream"
  | Some ext =>
      let ext := of_chars (map tolower ext) in
      if ext ==s "pdf" then "application/pdf"
      else if ext ==s "xml" then "text/xml"
      else if ext ==s "txt" then "text/plain"
      else if ext ==s "png" then "image/png"
      else if (ext ==s "jpg") || (ext ==s "jpeg") then "image/jpeg"
      else if ext ==s "zip" then "application/zip"
      else "application/octet-stream"
  end.

Record AsicDataObjectRef := MkAsicDataObjectRef {
  ar_uri : string;
  ar_mime_type : string;
  ar_digest_uri : string;
  ar_digest_base64 : string
}.

Definition reference_text (ref : AsicDataObjectRef) : string :=
  xml_text "  <asic:DataObjectReference URI='" +s+ EscapeXmlAttribute (ar_uri ref) +s+ xml_text "'"
  +s+ (if str_empty (ar_mime_type ref) then ""
       else xml_text " MimeType='" +s+ EscapeXmlAttribute (ar_mime_type ref) +s+ xml_text "'")
  +s+ ">" +s+ newline
  +s+ xml_text "    <ds:DigestMethod Algorithm='" +s+ EscapeXmlAttribute (ar_digest_uri ref) +s+ xml_text "'/>" +s+ newline
  +s+ "    <ds:DigestValue>" +s+ EscapeXmlAttribute (ar_digest_base64 ref) +s+ "</ds:DigestValue>" +s+ newline
  +s+ "  </asic:DataObjectReference>" +s+ newline.

Definition GenerateAsicManifestXml (sig_uri : string) (data_refs : list AsicDataObjectRef) : string :=
  xml_text "<?xml version='1.0' encoding='UTF-8'?>" +s+ newline
  +s+ xml_text "<asic:ASiCManifest xmlns:asic='http://uri.etsi.org/02918/v1.2.1#'"
  +s+ xml_text " xmlns:ds='http://www.w3.org/2000/09/xmldsig#'"
  +s+ xml_text " xmlns:xsi='http://www.w3.org/2001/XMLSchema-instance'>" +s+ newline
  +s+ xml_text "  <asic:SigReference URI='" +s+ EscapeXmlAttribute sig_uri
  +s+ xml_text "' MimeType='application/x-pkcs7-signature'/>" +s+ newline
  +s+ String.concat "" (map reference_text data_refs)
  +s+ "</asic:ASiCManifest>".

Definition GenerateOdfManifestXml (entries : list (string * string)) : string :=
  xml_text "<?xml version='1.0' encoding='utf-8' standalone='no' ?>"
  +s+ xml_text "<manifest:manifest xmlns:manifest='urn:oasis:names:tc:opendocument:xmlns:manifest:1.0'>"
  +s+ xml_text "<manifest:file-entry manifest:full-path='/'"
  +s+ xml_text " manifest:media-type='application/vnd.etsi.asic-e+zip'/>"
  +s+ String.concat "" (map (fun entry =>
        xml_text "<manifest:file-entry manifest:full-path='" +s+ EscapeXmlAttribute (fst entry)
        +s+ xml_text "' manifest:media-type='" +s+ EscapeXmlAttribute (snd entry) +s+ xml_text "'/>") entries)
  +s+ "</manifest:manifest>".

(** [xmlGetNoNsProp] of libxml2: the value of an attribute without a namespace. *)
Class XmlProps := { xmlGetNoNsProp : xmlNode -> string -> option string }.

Section Manifest.
Context `{!LibXml, !XmlProps}.

Definition GetAttribute (node : xmlNode) (name : string) : option string :=
  if is_element node then xmlGetNoNsProp node name else None.

(** The first [SigReference] of any namespace and the elements visited after it. *)
Fixpoint after_sig_reference (nodes : list xmlNode) : option (xmlNode * list xmlNode) :=
  match nodes with
  | [] => None
  | node :: nodes => if MatchesElement node "SigReference" None then Some (node, nodes) else after_sig_reference nodes
  end.

(** The digest of a reference: every [DigestMethod] with the attribute and every [DigestValue] replaces the one before. *)
Definition digest_step (found : string * string) (child : xmlNode) : string * string :=
  let '(digest_uri, digest_value) := found in
  if MatchesElement child "DigestMethod" (Some kXmlDsigNamespace) then
    (default digest_uri (GetAttribute child "Algorithm"), digest_value)
  else if MatchesElement child "DigestValue" (Some kXmlDsigNamespace) then (digest_uri, NodeContent child)
  else found.

(** A reference without the attribute [URI] ends the list. *)
Fixpoint read_references (nodes : list xmlNode) : list AsicDataObjectRef :=
  match nodes with
  | [] => []
  | node :: nodes =>
      match GetAttribute node "URI" with
      | None => []
      | Some d_uri =>
          let d_mime := default "" (GetAttribute node "MimeType") in
          let '(digest_uri, digest_value) := foldl digest_step ("", "") (tl (ForEachElement node)) in
          MkAsicDataObjectRef d_uri d_mime digest_uri digest_value :: read_references nodes
      end
  end.

(** The returned flag, [out_sig_uri] and [out_data_refs]. *)
Definition ParseAsicManifestXml (xml : string) : bool * string * list AsicDataObjectRef :=
  match ParseHardened xml with
  | inl _ | inr None => (false, "", [])
  | inr (Some root) =>
      match after_sig_reference (ForEachElement root) with
      | None => (false, "", [])
      | Some (sig_node, visited) =>
          if negb (MatchesElement sig_node "SigReference" (Some kAsicManifestNamespace)) then (false, "", []) else
          match GetAttribute sig_node "URI" with
          | None => (false, "", [])
          | Some sig_uri =>
              let data_refs := read_references
                (List.filter (fun node => MatchesElement node "DataObjectReference" (Some kAsicManifestNamespace)) visited) in
              (negb (str_empty sig_uri) && negb (match data_refs with [] => true | _ => false end), sig_uri, data_refs)
          end
      end
  end.

End Manifest.

(** ** Containers *)

Import AsicReader AsicWriter.

Record AsicSContent := MkAsicSContent {
  sc_filename : string;
  sc_file_data : bytes;
  sc_signature_data : bytes;
  sc_timestamp_data : bytes
}.

(** [AsicEContent::FileEntry] and [AsicEContent::SignatureEntry]. *)
Record FileEntry := MkFileEntry { fe_filename : string; fe_data : bytes }.

Record AsicESignature := MkAsicESignature {
  es_sig_filename : string;
  es_signature_data : bytes;
  es_manifest_filename : string;
  es_manifest_xml : string
}.

Record AsicEContent := MkAsicEContent {
  ec_files : list FileEntry;
  ec_signatures : list AsicESignature;
  ec_timestamp_data : bytes
}.

Record AsicXadesContent := MkAsicXadesContent {
  xc_filename : string;
  xc_file_data : bytes;
  xc_signature_documents : list string
}.

Definition in_meta_inf (name : string) : bool := starts_with name "META-INF/".

Section Containers.
Context `{!Miniz, !LibXml, !XmlProps}.

(** A sequence of additions, each with its own text for a failure. *)
Fixpoint add_files (w : Writer) (entries : list (string * bytes * bool * string)) : string + Writer :=
  match entries with
  | [] => inr w
  | (name, data, compress, error_message) :: entries =>
      let! w := AddFile w name data compress else error_message in
      add_files w entries
  end.

(** *** XAdES containers *)

Definition ValidateXadesContent (content : AsicXadesContent) (profile : string) : string + unit :=
  if str_empty (xc_filename content) || is_empty (xc_file_data content) then
    inl (profile +s+ " requires a non-empty document name and data")
  else if is_empty (xc_signature_documents content) then inl (profile +s+ " requires at least one XAdES signature")
  else if existsb str_empty (xc_signature_documents content) then
    inl (profile +s+ " received an empty XAdES signature document")
  else inr tt.

Definition PackS (content : AsicXadesContent) : string + bytes :=
  let? _ := ValidateXadesContent content "ASiC-S" in
  match xc_signature_documents content with
  | [document] =>
      let? w := add_files (AsicWriter.new AsicWriter.AsicS)
        [(xc_filename content, xc_file_data content, true, "Failed to add document to ASiC-S container");
         ("META-INF/signatures.xml", ToBytes document, true, "Failed to add XAdES signature to ASiC-S container")] in
      Finalize w
  | documents => inl ("ASiC-S allows exactly one signature, got " +s+ to_string (Z.of_nat (length documents)))
  end.

(** [std::setfill('0') << std::setw(3)]. *)
Definition numbered (i : Z) : string :=
  let text := to_string i in
  String.concat "" (repeat "0" (3 - String.length text)) +s+ text.

Fixpoint xades_entries (i : Z) (documents : list string) : list (string * bytes * bool * string) :=
  match documents with
  | [] => []
  | document :: documents =>
      let name := "META-INF/signatures" +s+ numbered i +s+ ".xml" in
      (name, ToBytes document, true, "Failed to add XAdES signature to ASiC-E container: " +s+ name)
      :: xades_entries (i + 1) documents
  end.

Definition PackE (content : AsicXadesContent) : string + bytes :=
  let? _ := ValidateXadesContent content "ASiC-E" in
  let manifest_xml :=
    GenerateOdfManifestXml [(xc_filename content, GetMimeTypeFromFilename (xc_filename content))] in
  let? w := add_files (AsicWriter.new AsicWriter.AsicE)
    ((xc_filename content, xc_file_data content, true, "Failed to add document to ASiC-E container")
     :: ("META-INF/manifest.xml", ToBytes manifest_xml, true, "Failed to add ODF manifest to ASiC-E container")
     :: xades_entries 1 (xc_signature_documents content)) in
  Finalize w.

(** *** ASiC-S *)

Definition AsicS_Pack (content : AsicSContent) : string + bytes :=
  if str_empty (sc_filename content) || is_empty (sc_file_data content) then
    inl "ASiC-S requires a non-empty document name and data"
  else if is_empty (sc_signature_data content) then inl "ASiC-S requires a non-empty CAdES signature"
  else if negb (is_empty (sc_timestamp_data content)) then
    inl ("ASiC-S CAdES must not carry META-INF/timestamp.tst beside "
         +s+ "META-INF/signature.p7s; the timestamp belongs inside CAdES")
  else
  let? w := add_files (AsicWriter.new AsicWriter.AsicS)
    [(sc_filename content, sc_file_data content, true, "Failed to add document to ASiC-S container");
     ("META-INF/signature.p7s", sc_signature_data content, false, "Failed to add signature to ASiC-S container")] in
  Finalize w.

(** The state of the loop over the entries. *)
Record SLoop := MkSLoop { sl_content : AsicSContent; sl_data_object_count : nat; sl_extra_data_object : string }.

Definition s_step (s : SLoop) (entry : AsicFileEntry) : SLoop :=
  let c := sl_content s in
  let name := af_name entry in
  if name ==s "mimetype" then s
  else if (name ==s "META-INF/signatures.p7s") || (name ==s "META-INF/signature.p7s") then
    MkSLoop (MkAsicSContent (sc_filename c) (sc_file_data c) (af_data entry) (sc_timestamp_data c))
      (sl_data_object_count s) (sl_extra_data_object s)
  else if name ==s "META-INF/timestamp.tst" then
    MkSLoop (MkAsicSContent (sc_filename c) (sc_file_data c) (sc_signature_data c) (af_data entry))
      (sl_data_object_count s) (sl_extra_data_object s)
  else if in_meta_inf name then s
  else
    match sl_data_object_count s with
    | O => MkSLoop (MkAsicSContent name (af_data entry) (sc_signature_data c) (sc_timestamp_data c)) 1 (sl_extra_data_object s)
    | S _ as count => MkSLoop c (S count) (if str_empty (sl_extra_data_object s) then name else sl_extra_data_object s)
    end.

(** The entries of an archive whose type is the expected one. *)
Definition container_entries (container : bytes) (type : AsicType) (format : string) : string + list AsicFileEntry :=
  let? zip := LoadFromBuffer container in
  let mimetype := GetMimetype zip in
  if negb (bool_decide (mimetype = Some (AsicWriter.mimetype type))) then
    inl ("Invalid or missing mimetype in " +s+ format +s+ " container: " +s+ default "" mimetype)
  else GetFiles zip.

Definition AsicS_Unpack (container : bytes) : string + AsicSContent :=
  let? entries := container_entries container AsicWriter.AsicS "ASiC-S" in
  let s := foldl s_step (MkSLoop (MkAsicSContent "" [] [] []) 0 "") entries in
  let content := sl_content s in
  if (1 <? sl_data_object_count s)%nat then
    inl ("ASiC-S container must contain exactly one data object (ETSI TS 102 918), found "
         +s+ to_string (Z.of_nat (sl_data_object_count s)) +s+ ": '" +s+ sc_filename content +s+ "', '"
         +s+ sl_extra_data_object s +s+ "'")
  else if negb (is_empty (sc_signature_data content)) && negb (is_empty (sc_timestamp_data content)) then
    inl ("ASiC-S container carries both META-INF/signature.p7s and "
         +s+ "META-INF/timestamp.tst; ETSI EN 319 162-1 clause 4.3.3.2 allows only one "
         +s+ "of them (a CAdES-T timestamp belongs inside the signature)")
  else if str_empty (sc_filename content) || is_empty (sc_file_data content) then
    inl "ASiC-S container does not contain original document"
  else if is_empty (sc_signature_data content) then inl "ASiC-S container does not contain signature"
  else inr content.

(** *** ASiC-E *)

(** The manifest goes before the signature that is made over it. *)
Fixpoint pack_signatures (w : Writer) (signatures : list AsicESignature) : string + Writer :=
  match signatures with
  | [] => inr w
  | s :: signatures =>
      if str_empty (es_manifest_xml s) then
        inl ("ASiC-E signature entry has no manifest: the manifest must be built "
             +s+ "and signed before packing (" +s+ es_sig_filename s +s+ ")")
      else
      let? w := add_files w
        [(es_manifest_filename s, ToBytes (es_manifest_xml s), true,
            "Failed to add manifest to ASiC-E: " +s+ es_manifest_filename s);
         (es_sig_filename s, es_signature_data s, true, "Failed to add signature to ASiC-E: " +s+ es_sig_filename s)] in
      pack_signatures w signatures
  end.

Definition AsicE_Pack (content : AsicEContent) : string + bytes :=
  if is_empty (ec_files content) then inl "ASiC-E requires at least one document"
  else if is_empty (ec_signatures content) then inl "ASiC-E requires at least one signature"
  else
  let? w := add_files (AsicWriter.new AsicWriter.AsicE)
    (map (fun f => (fe_filename f, fe_data f, true, "Failed to add file to ASiC-E: " +s+ fe_filename f)) (ec_files content)) in
  let? w := pack_signatures w (ec_signatures content) in
  let? w := add_files w
    (if is_empty (ec_timestamp_data content) then []
     else [("META-INF/timestamp.tst", ec_timestamp_data content, false, "Failed to add timestamp to ASiC-E container")]) in
  Finalize w.

(** The four kinds of entries. *)
Definition is_manifest_entry (name : string) : bool := starts_with name "META-INF/ASiCManifest".

Record ELoop := MkELoop {
  el_timestamp_data : bytes;
  el_manifests : list AsicFileEntry;
  el_sigs : list AsicFileEntry;
  el_files : list AsicFileEntry
}.

Definition e_step (s : ELoop) (entry : AsicFileEntry) : ELoop :=
  let name := af_name entry in
  if name ==s "mimetype" then s
  else if name ==s "META-INF/timestamp.tst" then MkELoop (af_data entry) (el_manifests s) (el_sigs s) (el_files s)
  else if is_manifest_entry name then MkELoop (el_timestamp_data s) (el_manifests s ++ [entry]) (el_sigs s) (el_files s)
  else if in_meta_inf name then MkELoop (el_timestamp_data s) (el_manifests s) (el_sigs s ++ [entry]) (el_files s)
  else MkELoop (el_timestamp_data s) (el_manifests s) (el_sigs s) (el_files s ++ [entry]).

Definition named_data (sigs : list AsicFileEntry) (name : string) : bytes :=
  match List.find (fun s => af_name s ==s name) sigs with Some s => af_data s | None => [] end.

Definition meta_inf (name : string) : string := if in_meta_inf name then name else "META-INF/" +s+ name.

(** A manifest that cannot be read adds nothing. *)
Definition manifest_signature (sigs : list AsicFileEntry) (manifest : AsicFileEntry) : option AsicESignature :=
  let xml := text_of (af_data manifest) in
  match ParseAsicManifestXml xml with
  | (false, _, _) => None
  | (true, sig_uri, _) =>
      let sig_data := named_data sigs sig_uri in
      let sig_data := if is_empty sig_data then named_data sigs (meta_inf sig_uri) else sig_data in
      Some (MkAsicESignature sig_uri sig_data (af_name manifest) xml)
  end.

Definition AsicE_Unpack (container : bytes) : string + AsicEContent :=
  let? entries := container_entries container AsicWriter.AsicE "ASiC-E" in
  let s := foldl e_step (MkELoop [] [] [] []) entries in
  let signatures := omap (manifest_signature (el_sigs s)) (el_manifests s) in
  let signatures :=
    if is_empty signatures then map (fun e => MkAsicESignature (af_name e) (af_data e) "" "") (el_sigs s) else signatures in
  let files := map (fun e => MkFileEntry (af_name e) (af_data e)) (el_files s) in
  if is_empty files then inl "ASiC-E container does not contain any document files"
  else if is_empty signatures then inl "ASiC-E container does not contain any signatures"
  else inr (MkAsicEContent files signatures (el_timestamp_data s)).

Definition AddSignature (container signature_data : bytes) (sig_filename manifest_filename manifest_xml : string)
    : string + bytes :=
  let? content := AsicE_Unpack container in
  if existsb (fun s => (es_sig_filename s ==s sig_filename) || (es_sig_filename s ==s ("META-INF/" +s+ sig_filename)))
       (ec_signatures content)
  then inl ("Signature with name " +s+ sig_filename +s+ " already exists in container")
  else
  let se := MkAsicESignature (meta_inf sig_filename) signature_data (meta_inf manifest_filename) manifest_xml in
  AsicE_Pack (MkAsicEContent (ec_files content) (ec_signatures content ++ [se]) (ec_timestamp_data content)).

End Containers.

(** ** Which archives are accepted *)

Section Safety.
Context `{Miniz}.

Definition entry_size (stat : file_stat) : Z := if m_is_directory stat then 0 else Z.of_N (m_uncomp_size stat).

(** The sizes of one entry: 64 MiB at most and, above 1 MiB, less than 101 times what is stored. *)
Definition entry_within_limits (stat : file_stat) : Prop :=
  m_is_directory stat = false ->
  Z.of_N (m_uncomp_size stat) <= 64 * 2 ^ 20 /\
  (2 ^ 20 < Z.of_N (m_uncomp_size stat) -> (0 < m_comp_size stat)%N ->
   Z.of_N (m_uncomp_size stat) < 101 * Z.of_N (m_comp_size stat)).

Record SafeEntries (stats : list file_stat) : Prop := {
  ok_names_distinct : NoDup (map m_filename stats);
  ok_names_safe : Forall (fun stat => IsUnsafeEntryName (m_filename stat) = false) stats;
  ok_entries : Forall entry_within_limits stats;
  ok_total : foldr (fun stat total => entry_size stat + total) 0 stats <= 256 * 2 ^ 20
}.

Lemma entry_checks (stat : file_stat) :
  entry_within_limits stat <->
  (m_is_directory stat = true \/
   (kMaxEntryUncompressedSize <? Z.of_N (m_uncomp_size stat)) = false /\
   (kCompressionRatioFloor <? Z.of_N (m_uncomp_size stat)) && (0 <? Z.of_N (m_comp_size stat))
     && (kMaxCompressionRatio <? Z.of_N (m_uncomp_size stat) / Z.of_N (m_comp_size stat)) = false).
Proof.
  unfold entry_within_limits, kMaxEntryUncompressedSize, kCompressionRatioFloor, kMaxCompressionRatio.
  destruct (m_is_directory stat); [split; [by left|done]|].
  set (u := Z.of_N (m_uncomp_size stat)). set (c := Z.of_N (m_comp_size stat)).
  assert ((0 < m_comp_size stat)%N <-> 0 < c) as -> by (unfold c; lia).
  assert (0 < c -> (100 < u / c <-> 101 * c <= u)) as Hdiv.
  { intros Hc. split; intros Hq.
    - pose proof (Z.mul_div_le u c Hc). nia.
    - apply Z.lt_le_trans with 101; [lia|]. apply Z.div_le_lower_bound; lia. }
  rewrite !andb_false_iff, !Z.ltb_ge. split.
  - intros H1. destruct (H1 eq_refl) as [Hu Hr]. right. split; [lia|].
    destruct (Z_lt_le_dec (1024 * 1024) u); [|left; left; lia].
    destruct (Z_lt_le_dec 0 c); [|left; right; lia]. right. specialize (Hr ltac:(lia) ltac:(done)).
    specialize (Hdiv ltac:(done)). lia.
  - intros [?|[Hu Hr]] _; [done|]. split; [lia|]. intros Hl Hc. specialize (Hdiv Hc). lia.
Qed.

Lemma entry_size_nonneg (stat : file_stat) : 0 <= entry_size stat.
Proof. unfold entry_size. destruct (m_is_directory stat); lia. Qed.

Lemma sizes_nonneg (stats : list file_stat) : 0 <= foldr (fun stat total => entry_size stat + total) 0 stats.
Proof. induction stats as [|stat stats IH]; cbn; [lia|]. pose proof (entry_size_nonneg stat). lia. Qed.

Definition SafeFrom (seen : gset string) (total : Z) (stats : list file_stat) : Prop :=
  NoDup (map m_filename stats) /\ Forall (fun stat => m_filename stat ∉ seen) stats /\
  Forall (fun stat => IsUnsafeEntryName (m_filename stat) = false) stats /\ Forall entry_within_limits stats /\
  total + foldr (fun stat total => entry_size stat + total) 0 stats <= 256 * 2 ^ 20.

Lemma SafeFrom_cons (seen : gset string) (total : Z) (stat : file_stat) (stats : list file_stat) :
  SafeFrom seen total (stat :: stats) <->
  IsUnsafeEntryName (m_filename stat) = false /\ m_filename stat ∉ seen /\ entry_within_limits stat /\
  SafeFrom ({[ m_filename stat ]} ∪ seen) (total + entry_size stat) stats.
Proof.
  unfold SafeFrom. cbn [map foldr]. rewrite !Forall_cons, NoDup_cons.
  assert (Forall (fun s => m_filename s ∉ {[ m_filename stat ]} ∪ seen) stats <->
          m_filename stat ∉ map m_filename stats /\ Forall (fun s => m_filename s ∉ seen) stats) as ->.
  { rewrite !Forall_forall, list_elem_of_fmap. split.
    - intros Hs. split; [intros (s & E & Hin); apply Hs in Hin; set_solver|]. intros s Hin. apply Hs in Hin. set_solver.
    - intros [Hn Hs] s Hin [E%elem_of_singleton|E]%elem_of_union; [apply Hn; by exists s|by apply (Hs s)]. }
  rewrite Z.add_assoc. tauto.
Qed.

Lemma validate_entries_spec (zip : ZipReader) (indices : list nat) (seen : gset string) (total : Z) :
  0 <= total <= 256 * 2 ^ 20 ->
  validate_entries zip indices seen total = inr tt <->
  exists stats, map (zip_reader_file_stat zip) indices = map Some stats /\ SafeFrom seen total stats.
Proof.
  revert seen total. induction indices as [|i indices IH]; intros seen total Ht.
  { cbn. split; [|done]. intros _. exists []. split; [done|]. unfold SafeFrom. cbn. repeat split; try constructor. lia. }
  cbn [validate_entries map]. destruct (zip_reader_file_stat zip i) as [stat|].
  2: { split; [done|]. by intros ([|??] & [=] & _). }
  assert (forall P, (exists stats, Some stat :: map (zip_reader_file_stat zip) indices = map Some stats /\ P stats) <->
    exists stats, map (zip_reader_file_stat zip) indices = map Some stats /\ P (stat :: stats)) as Hex.
  { intros P. split; [intros ([|? stats] & [= <-] & HP); by exists stats|]. intros (stats & E & HP).
    exists (stat :: stats). cbn. by rewrite E. }
  rewrite Hex. setoid_rewrite SafeFrom_cons. pose proof (entry_checks stat) as Hc.
  destruct (IsUnsafeEntryName (m_filename stat)); [split; [done|]; by intros (? & _ & ? & _)|].
  destruct (bool_decide_reflect (m_filename stat ∈ seen)) as [Hin|Hin]; [split; [done|]; by intros (? & _ & _ & ? & _)|].
  assert (m_is_directory stat = false -> entry_size stat = Z.of_N (m_uncomp_size stat)) as Hs
    by (unfold entry_size; by intros ->).
  destruct (m_is_directory stat) eqn:Ed.
  { assert (entry_size stat = 0) as -> by (unfold entry_size; by rewrite Ed). rewrite Z.add_0_r, IH by done.
    split; [intros (stats & ? & ?); exists stats; split_and!; try done; apply Hc; by left|].
    intros (stats & ? & _ & _ & _ & ?). by exists stats. }
  specialize (Hs eq_refl). rewrite Hs. unfold kMaxTotalUncompressedSize.
  destruct (kMaxEntryUncompressedSize <? Z.of_N (m_uncomp_size stat)) eqn:E1.
  { split; [done|]. intros (? & _ & _ & _ & [?|[? _]]%Hc & _); done. }
  assert (Z.of_N (m_uncomp_size stat) <= 64 * 2 ^ 20) as Hu by (unfold kMaxEntryUncompressedSize in E1; lia).
  rewrite wrap_small by lia.
  destruct (256 * 1024 * 1024 <? total + Z.of_N (m_uncomp_size stat)) eqn:E2.
  { split; [done|]. intros (stats & _ & _ & _ & _ & (_ & _ & _ & _ & Hl)). pose proof (sizes_nonneg stats). lia. }
  destruct (_ && _ && _) eqn:E3; [split; [done|]; by intros (? & _ & _ & _ & [?|[_ ?]]%Hc & _)|].
  rewrite IH by lia. split; [intros (stats & ? & ?); exists stats; split_and!; try done; apply Hc; by right|].
  intros (stats & ? & _ & _ & _ & ?). by exists stats.
Qed.

Lemma archive_accepted (zip : ZipReader) :
  ValidateArchiveSafety zip = inr tt <->
  (zip_reader_get_num_files zip <= 4096)%nat /\
  exists stats, map (zip_reader_file_stat zip) (seq 0 (zip_reader_get_num_files zip)) = map Some stats /\ SafeEntries stats.
Proof.
  unfold ValidateArchiveSafety, kMaxAsicEntries. destruct (4096 <? Z.of_nat (zip_reader_get_num_files zip)) eqn:E.
  { split; [done|]. intros [? _]. lia. }
  rewrite validate_entries_spec by lia. split.
  - intros (stats & Hs & (? & _ & ? & ? & ?)). split; [lia|]. exists stats. split; [done|]. by split.
  - intros (_ & stats & Hs & [? ? ? ?]). exists stats. split; [done|]. split_and!; try done.
    apply Forall_forall. intros. apply not_elem_of_empty.
Qed.

(** [C19] An archive is accepted exactly when it has at most 4096 entries, each of which can be read, the names are distinct
    and do not lead out of the container, every file has at most 64 MiB, above 1 MiB less than 101 times its stored size, and
    all files together at most 256 MiB; the sum that the code keeps in 64 bits never wraps. *)
Theorem ValidateArchiveSafety_iff (zip : ZipReader) :
  ValidateArchiveSafety zip = inr tt <->
  (zip_reader_get_num_files zip <= 4096)%nat /\
  exists stats, map (zip_reader_file_stat zip) (seq 0 (zip_reader_get_num_files zip)) = map Some stats /\ SafeEntries stats.
Proof. apply archive_accepted. Qed.

(** What the check of a name excludes: no segment of it leads upwards. *)
Lemma safe_name (name : string) :
  IsUnsafeEntryName name = false -> name <> "" /\ chars ".." ∉ segments (chars name) /\ "\"%char ∉ chars name.
Proof.
  unfold IsUnsafeEntryName. destruct (chars name) as [|c l] eqn:E; [done|]. rewrite !orb_false_iff.
  intros ((((_ & _) & _) & Hb) & Hs). split; [intros ->; done|]. split.
  - intros Hin%list_elem_of_In. assert (existsb (fun s => bool_decide (s = chars "..")) (segments (c :: l)) = true); [|congruence].
    apply existsb_exists. exists (chars ".."). split; [done|]. by apply bool_decide_eq_true.
  - intros Hin%list_elem_of_In. assert (existsb (Ascii.eqb "\") (c :: l) = true); [|congruence].
    apply existsb_exists. exists "\"%char. split; [done|]. apply Ascii.eqb_refl.
Qed.

End Safety.

(** ** The one document of ASiC-S *)

Section Documents.
Context `{!Miniz, !LibXml, !XmlProps}.

(** An entry that is neither the type of the container nor in its directory of metadata. *)
Definition is_document (name : string) : bool := negb (name ==s "mimetype") && negb (in_meta_inf name).

Definition documents (entries : list AsicFileEntry) : list AsicFileEntry :=
  List.filter (fun e => is_document (af_name e)) entries.

Definition is_s_signature (name : string) : bool :=
  (name ==s "META-INF/signatures.p7s") || (name ==s "META-INF/signature.p7s").

(** What the loop keeps: the number of documents, the first of them, and the last signature and timestamp. *)
Lemma s_step_spec (entries : list AsicFileEntry) (s : SLoop) :
  let s' := foldl s_step s entries in
  sl_data_object_count s' = (sl_data_object_count s + length (documents entries))%nat /\
  (sl_data_object_count s = O ->
   (sc_filename (sl_content s'), sc_file_data (sl_content s')) =
   match documents entries with
   | [] => (sc_filename (sl_content s), sc_file_data (sl_content s))
   | e :: _ => (af_name e, af_data e)
   end) /\
  (sl_data_object_count s <> O ->
   (sc_filename (sl_content s'), sc_file_data (sl_content s')) = (sc_filename (sl_content s), sc_file_data (sl_content s))) /\
  sc_signature_data (sl_content s') =
    default (sc_signature_data (sl_content s))
      (last (map af_data (List.filter (fun e => is_s_signature (af_name e)) entries))) /\
  sc_timestamp_data (sl_content s') =
    default (sc_timestamp_data (sl_content s))
      (last (map af_data (List.filter (fun e => af_name e ==s "META-INF/timestamp.tst") entries))).
Proof.
  cbv zeta. revert s. induction entries as [|e entries IH]; intros s; [cbn; split_and!; auto|].
  cbn [foldl]. specialize (IH (s_step s e)). destruct IH as (I1 & I2 & I3 & I4 & I5). unfold documents in *. cbn [List.filter].
  unfold s_step in *. unfold is_document, is_s_signature in *.
  assert (forall (d : bytes) l, default d (last (af_data e :: l)) = default (af_data e) (last l)) as Hlast
    by (intros d l; rewrite last_cons; by destruct (last l)).
  destruct (af_name e ==s "mimetype") eqn:E1; cbn [negb andb].
  { apply String.eqb_eq in E1. rewrite !E1. cbn. by split_and!. }
  destruct ((af_name e ==s "META-INF/signatures.p7s") || (af_name e ==s "META-INF/signature.p7s")) eqn:E2.
  { assert (in_meta_inf (af_name e) = true /\ (af_name e ==s "META-INF/timestamp.tst") = false) as [-> ->].
    { apply orb_true_iff in E2 as [E2%String.eqb_eq|E2%String.eqb_eq]; by rewrite E2. }
    cbn [negb map]. rewrite Hlast. by split_and!. }
  destruct (af_name e ==s "META-INF/timestamp.tst") eqn:E3.
  { apply String.eqb_eq in E3. rewrite !E3. cbn [negb map]. rewrite Hlast. by split_and!. }
  destruct (in_meta_inf (af_name e)) eqn:E4; cbn [negb length]; [by split_and!|].
  destruct (sl_data_object_count s) as [|n] eqn:En; cbn [sl_data_object_count sl_content] in *.
  - split; [lia|]. split; [intros _; by rewrite I3|]. split; [done|]. by split.
  - split; [lia|]. split; [done|]. split; [intros _; by rewrite I3|]. by split.
Qed.

Lemma container_entries_spec (container : bytes) (type : AsicType) (format : string) (entries : list AsicFileEntry) :
  container_entries container type format = inr entries ->
  exists zip, LoadFromBuffer container = inr zip /\ GetMimetype zip = Some (AsicWriter.mimetype type) /\
    GetFiles zip = inr entries.
Proof.
  unfold container_entries. destruct (LoadFromBuffer container) as [?|zip]; [done|].
  destruct (bool_decide_reflect (GetMimetype zip = Some (AsicWriter.mimetype type))) as [Em|]; cbn [negb]; [|done].
  intros E. by exists zip.
Qed.

Lemma unpacked_single (container : bytes) (content : AsicSContent) :
  AsicS_Unpack container = inr content ->
  exists zip entries, LoadFromBuffer container = inr zip /\ GetFiles zip = inr entries /\
    documents entries = [MkAsicFileEntry (sc_filename content) (sc_file_data content)] /\
    sc_file_data content <> [] /\
    last (map af_data (List.filter (fun e => is_s_signature (af_name e)) entries)) = Some (sc_signature_data content) /\
    sc_signature_data content <> [] /\ sc_timestamp_data content = [].
Proof.
  unfold AsicS_Unpack. destruct (container_entries container AsicWriter.AsicS "ASiC-S") as [?|entries] eqn:E; [done|].
  destruct (container_entries_spec _ _ _ _ E) as (zip & El & _ & Eg).
  destruct (s_step_spec entries (MkSLoop (MkAsicSContent "" [] [] []) 0 "")) as (S1 & S2 & _ & S4 & S5).
  set (s := foldl s_step _ entries) in *. cbn [sl_data_object_count sl_content sc_signature_data sc_timestamp_data] in *.
  specialize (S2 eq_refl). destruct (1 <? sl_data_object_count s)%nat eqn:E1; [done|]. apply Nat.ltb_ge in E1.
  destruct (negb _ && negb _) eqn:E2; [done|]. destruct (str_empty _ || _) eqn:E3; [done|].
  destruct (is_empty (sc_signature_data _)) eqn:E4; [done|]. intros [= <-]. exists zip, entries.
  split; [done|]. split; [done|]. apply orb_false_iff in E3 as [E3 E5].
  destruct (documents entries) as [|[n d] [|? ?]] eqn:Ed; [injection S2 as S2 _; by rewrite S2 in E3| |cbn in S1; lia].
  injection S2 as S2 S3. cbn in S2, S3. rewrite S2, S3. split; [done|].
  rewrite S2, S3 in *. split; [by destruct d|].
  destruct (last _) as [sig|]; cbn in S4; [|by rewrite S4 in E4]. rewrite S4 in *. split; [done|]. split; [by destruct sig|].
  cbn in E2. by destruct (sc_timestamp_data (sl_content s)).
Qed.

(** A container taken for ASiC-S has exactly one document beside its metadata, whatever the order of its entries, and it is the one that is
    given to the check of the signature; it has a signature and no timestamp of its own. *)
Theorem AsicS_Unpack_single (container : bytes) (content : AsicSContent) :
  AsicS_Unpack container = inr content ->
  exists zip entries, LoadFromBuffer container = inr zip /\ GetFiles zip = inr entries /\
    documents entries = [MkAsicFileEntry (sc_filename content) (sc_file_data content)] /\
    sc_file_data content <> [] /\
    last (map af_data (List.filter (fun e => is_s_signature (af_name e)) entries)) = Some (sc_signature_data content) /\
    sc_signature_data content <> [] /\ sc_timestamp_data content = [].
Proof. apply unpacked_single. Qed.

End Documents.

(** ** What is written is read back *)

(** ASCII letters without their case, as the library compares names. *)
Definition folded (name : string) : list ascii := map tolower (chars name).

(** The names that the format can hold: no NUL, no trailing slash - which makes a directory - and less than 512 octets. *)
Definition storable_name (name : string) : Prop :=
  c_str name = name /\ last (chars name) <> Some "/"%char /\ (String.length name < 512)%nat.

Section Laws.
Context `{!Miniz}.

Fixpoint add_all (zip : ZipWriter) (entries : list (string * bytes * bool)) : option ZipWriter :=
  match entries with
  | [] => Some zip
  | (name, data, compress) :: entries =>
      match zip_writer_add zip name data compress with
      | None => None
      | Some zip => add_all zip entries
      end
  end.

(** An open archive with these entries: the size of a compressed entry is not known. *)
Record Holds (zip : ZipReader) (entries : list (string * bytes * bool)) : Prop := {
  holds_count : zip_reader_get_num_files zip = length entries;
  holds_entry : forall i name data compress, entries !! i = Some (name, data, compress) ->
    (exists stored, zip_reader_file_stat zip i = Some (MkFileStat name false (N.of_nat (length data)) stored)) /\
    zip_reader_locate_file zip name = Some i /\ zip_reader_extract_to_heap zip i = Some data
}.

(** The documented behaviour of the library: the archive that it wrote has the entries that were added, when their names
    can be stored and differ in more than case. *)
Class MinizLaws := archive_reads_back : forall zip0 entries zip container,
  zip_writer_init_heap = Some zip0 -> add_all zip0 entries = Some zip ->
  zip_writer_finalize_heap_archive zip = Some container ->
  NoDup (map (fun e => folded e.1.1) entries) -> Forall (fun e => storable_name e.1.1) entries ->
  exists r, zip_reader_init_mem container = Some r /\ Holds r entries.

Definition entry_of (e : string * bytes * bool) : AsicFileEntry := MkAsicFileEntry e.1.1 e.1.2.

Lemma get_files_holds (zip : ZipReader) (all entries : list (string * bytes * bool)) (k : nat) :
  Holds zip all -> Forall (fun e => storable_name e.1.1) all ->
  (forall i e, entries !! i = Some e -> all !! (k + i)%nat = Some e) ->
  get_files zip (seq k (length entries)) = inr (map entry_of entries).
Proof.
  intros Hz Hn. revert k. induction entries as [|[[name data] compress] entries IH]; intros k Hk; [done|].
  cbn [length seq get_files]. pose proof (Hk 0%nat _ eq_refl) as H0. rewrite Nat.add_0_r in H0.
  destruct (holds_entry zip all Hz k name data compress H0) as ((stored & ->) & Hl & Hx). cbn [m_is_directory m_filename].
  apply (Forall_lookup_1 _ _ _ _ Hn) in H0 as (Hc & _). change (c_str name = name) in Hc. unfold ExtractFile. rewrite Hc, Hl, Hx.
  rewrite (IH (S k)); [done|]. intros i e Hi. replace (S k + i)%nat with (k + S i)%nat by lia. by apply Hk.
Qed.

Lemma GetFiles_holds (zip : ZipReader) (entries : list (string * bytes * bool)) :
  Holds zip entries -> Forall (fun e => storable_name e.1.1) entries -> GetFiles zip = inr (map entry_of entries).
Proof. intros Hz Hn. unfold GetFiles. rewrite (holds_count _ _ Hz). by apply (get_files_holds zip entries). Qed.

(** The entries that pass the checks of the reader whatever their compression. *)
Record Modest (entries : list (string * bytes * bool)) : Prop := {
  modest_count : (length entries <= 4096)%nat;
  modest_names : NoDup (map (fun e => folded e.1.1) entries);
  modest_storable : Forall (fun e => storable_name e.1.1 /\ IsUnsafeEntryName e.1.1 = false) entries;
  modest_sizes : Forall (fun e => Z.of_nat (length e.1.2) <= 2 ^ 20) entries;
  modest_total : foldr (fun e total => Z.of_nat (length e.1.2) + total) 0 entries <= 256 * 2 ^ 20
}.

Lemma folded_nodup (entries : list (string * bytes * bool)) :
  NoDup (map (fun e => folded e.1.1) entries) -> NoDup (map (fun e => e.1.1) entries).
Proof.
  intros Hn. apply (NoDup_fmap_1 folded). by rewrite <- list_fmap_compose.
Qed.

Lemma accepted_holds (zip : ZipReader) (entries : list (string * bytes * bool)) :
  Holds zip entries -> Modest entries -> ValidateArchiveSafety zip = inr tt.
Proof.
  intros Hz Hm. apply archive_accepted. rewrite (holds_count _ _ Hz). split; [apply (modest_count _ Hm)|].
  assert (forall k rest, (forall i e, rest !! i = Some e -> entries !! (k + i)%nat = Some e) ->
    exists stats, map (zip_reader_file_stat zip) (seq k (length rest)) = map Some stats /\
      Forall2 (fun (e : string * bytes * bool) stat => m_filename stat = e.1.1 /\ m_is_directory stat = false /\
        m_uncomp_size stat = N.of_nat (length e.1.2)) rest stats) as Hstats.
  { intros k rest. revert k. induction rest as [|[[name data] compress] rest IH]; intros k Hk; [by exists []|].
    pose proof (Hk 0%nat _ eq_refl) as H0. rewrite Nat.add_0_r in H0.
    destruct (holds_entry zip entries Hz k name data compress H0) as ((stored & Hs) & _).
    destruct (IH (S k)) as (stats & Es & Hf).
    { intros i e Hi. replace (S k + i)%nat with (k + S i)%nat by lia. by apply Hk. }
    eexists (_ :: stats). cbn [length seq map]. rewrite Hs, Es. split; [done|]. by constructor. }
  destruct (Hstats 0%nat entries ltac:(done)) as (stats & Es & Hf). clear Hstats. exists stats. split; [done|].
  destruct Hm as [_ Hn Hst Hsz Ht]. apply folded_nodup in Hn.
  assert (map m_filename stats = map (fun e => e.1.1) entries) as Hnames.
  { clear -Hf. induction Hf as [|e stat es stats (E & _) _ IH]; [done|]. cbn. by rewrite E, IH. }
  split.
  - by rewrite Hnames.
  - clear -Hf Hst. induction Hf as [|e stat es stats (E & _) _ IH]; [constructor|].
    apply Forall_cons in Hst as [[_ Hs] Hst]. constructor; [by rewrite E|by apply IH].
  - clear -Hf Hsz. induction Hf as [|e stat es stats (_ & _ & E) _ IH]; [constructor|].
    apply Forall_cons in Hsz as [Hs Hsz]. constructor; [|by apply IH]. intros _. rewrite E. split; lia.
  - assert (foldr (fun stat total => entry_size stat + total) 0 stats =
            foldr (fun (e : string * bytes * bool) total => Z.of_nat (length e.1.2) + total) 0 entries) as ->; [|done].
    clear -Hf. induction Hf as [|e stat es stats (_ & D & E) _ IH]; [done|]. cbn. rewrite IH. unfold entry_size. rewrite D, E. lia.
Qed.

(** The container that [Finalize] gives after the entries were added. *)
Definition written (type : AsicType) (entries : list (string * bytes * bool)) (container : bytes) : Prop :=
  exists zip0 zip, zip_writer_init_heap = Some zip0 /\
    add_all zip0 (("mimetype", ToBytes (AsicWriter.mimetype type), false) :: entries) = Some zip /\
    zip_writer_finalize_heap_archive zip = Some container.

Lemma written_reads `{!MinizLaws} (type : AsicType) (format : string) (entries : list (string * bytes * bool)) (container : bytes) :
  written type entries container -> Z.of_nat (length container) <= kMaxCompressedContainerSize ->
  let all := ("mimetype", ToBytes (AsicWriter.mimetype type), false) :: entries in
  Modest all -> container_entries container type format = inr (map entry_of all).
Proof.
  intros (zip0 & zip & Ei & Ea & Ef) Hlen all Hm.
  assert (Forall (fun e => storable_name e.1.1) all) as Hst
    by (eapply Forall_impl; [apply (modest_storable _ Hm)|by intros ? []]).
  destruct (archive_reads_back zip0 all zip container Ei Ea Ef (modest_names _ Hm) Hst) as (r & Er & Hr).
  unfold container_entries, LoadFromBuffer. rewrite (proj2 (Z.ltb_ge _ _)) by lia.
  rewrite Er, (accepted_holds r all Hr Hm).
  assert (GetMimetype r = Some (AsicWriter.mimetype type)) as ->.
  { unfold GetMimetype, ExtractFile. change (c_str "mimetype") with "mimetype".
    destruct (holds_entry r all Hr 0 _ _ _ eq_refl) as (_ & -> & ->). by rewrite text_of_ToBytes. }
  rewrite bool_decide_eq_true_2 by done. by apply GetFiles_holds.
Qed.

(** The writer adds what it is given. *)
Definition added (e : string * bytes * bool * string) : string * bytes * bool := (c_str e.1.1.1, e.1.1.2, e.1.2).

Lemma add_all_app (zip : ZipWriter) (a b : list (string * bytes * bool)) :
  add_all zip (a ++ b) = match add_all zip a with Some zip => add_all zip b | None => None end.
Proof.
  revert zip. induction a as [|[[name data] compress] a IH]; intros zip; [done|].
  cbn [add_all app]. destruct (zip_writer_add _ _ _ _); [apply IH|done].
Qed.

(** A writer that has the type and the given entries. *)
Definition Wrote (type : AsicType) (entries : list (string * bytes * bool)) (w : Writer) : Prop :=
  type_ w = type /\ finalized w = false /\
  match zip w with
  | None => entries = []
  | Some z => exists zip0, zip_writer_init_heap = Some zip0 /\
      add_all zip0 (("mimetype", ToBytes (AsicWriter.mimetype type), false) :: entries) = Some z
  end.

Lemma add_files_wrote (type : AsicType) (before : list (string * bytes * bool)) (w w' : Writer)
    (entries : list (string * bytes * bool * string)) :
  Wrote type before w -> add_files w entries = inr w' -> Wrote type (before ++ map added entries) w'.
Proof.
  revert before w. induction entries as [|[[[name data] compress] message] entries IH]; intros before w Hw.
  { intros [= <-]. cbn. by rewrite app_nil_r. }
  cbn [add_files]. unfold AddFile. destruct (initialized w) as [z|] eqn:Ei; [|done].
  destruct Hw as (Ht & Hf & Hz). rewrite Hf. unfold AddMemoryEntry.
  destruct (zip_writer_add z (c_str name) data compress) as [z'|] eqn:Ea; [|done]. intros Hadd.
  replace (before ++ map added ((name, data, compress, message) :: entries))
    with ((before ++ [added (name, data, compress, message)]) ++ map added entries) by (by rewrite <- app_assoc).
  eapply IH; [|exact Hadd]. split; [done|]. split; [done|]. cbn [AsicWriter.zip].
  unfold initialized in Ei. destruct (AsicWriter.zip w) as [z0|].
  - injection Ei as ->. destruct Hz as (zip0 & E0 & Hall). exists zip0. split; [done|].
    rewrite app_comm_cons, add_all_app, Hall. cbn [add_all added fst snd]. by rewrite Ea.
  - destruct zip_writer_init_heap as [zip0|]; [|done]. exists zip0. split; [done|]. subst before.
    unfold AddMemoryEntry in Ei. change (c_str "mimetype") with "mimetype" in Ei. rewrite Ht in Ei. cbn [app add_all added fst snd].
    rewrite Ei. by rewrite Ea.
Qed.

Lemma new_wrote (type : AsicType) : Wrote type [] (AsicWriter.new type).
Proof. done. Qed.

Lemma Finalize_written (type : AsicType) (entries : list (string * bytes * bool)) (w : Writer) (container : bytes) :
  Wrote type entries w -> entries <> [] -> Finalize w = inr container -> written type entries container.
Proof.
  intros (Ht & Hf & Hz) Hne. unfold Finalize. destruct (zip w) as [z|] eqn:Ez; [|done]. rewrite Hf, Ez.
  destruct Hz as (zip0 & E0 & Hall). destruct (zip_writer_finalize_heap_archive z) as [out|] eqn:Eo; [|done].
  intros [= <-]. by exists zip0, z.
Qed.

End Laws.

(** ** Packing and unpacking *)

Section RoundTrip.
Context `{!Miniz, !LibXml, !XmlProps, !MinizLaws}.

(** The entries of a container in the order they are written. *)
Definition signature_pair (s : AsicESignature) : list (string * bytes * bool) :=
  [(es_manifest_filename s, ToBytes (es_manifest_xml s), true); (es_sig_filename s, es_signature_data s, true)].

Definition timestamp_part (content : AsicEContent) : list (string * bytes * bool) :=
  if is_empty (ec_timestamp_data content) then [] else [("META-INF/timestamp.tst", ec_timestamp_data content, false)].

Definition container_parts (content : AsicEContent) : list (string * bytes * bool) :=
  map (fun f => (fe_filename f, fe_data f, true)) (ec_files content)
  ++ concat (map signature_pair (ec_signatures content)) ++ timestamp_part content.

Record PackableSignature (s : AsicESignature) : Prop := {
  ps_manifest_name : is_manifest_entry (es_manifest_filename s) = true;
  ps_sig_name : in_meta_inf (es_sig_filename s) = true;
  ps_no_manifest : is_manifest_entry (es_sig_filename s) = false;
  ps_no_timestamp : es_sig_filename s <> "META-INF/timestamp.tst";
  ps_manifest : exists refs, ParseAsicManifestXml (es_manifest_xml s) = (true, es_sig_filename s, refs);
  ps_data : es_signature_data s <> []
}.

(** The documents lie outside the metadata, and each manifest names its signature by the name of the entry. *)
Record Packable (content : AsicEContent) : Prop := {
  pk_documents : Forall (fun f => is_document (fe_filename f) = true) (ec_files content);
  pk_signatures : Forall PackableSignature (ec_signatures content);
  pk_modest : Modest (("mimetype", ToBytes (AsicWriter.mimetype AsicWriter.AsicE), false) :: container_parts content)
}.

Lemma pack_signatures_wrote (type : AsicType) (before : list (string * bytes * bool)) (w w' : Writer) (signatures : list AsicESignature) :
  Wrote type before w -> pack_signatures w signatures = inr w' ->
  Forall (fun e => c_str e.1.1 = e.1.1) (concat (map signature_pair signatures)) ->
  Wrote type (before ++ concat (map signature_pair signatures)) w'.
Proof.
  revert before w. induction signatures as [|s signatures IH]; intros before w Hw.
  { intros [= <-] _. cbn. by rewrite app_nil_r. }
  cbn [pack_signatures map concat]. destruct (str_empty _); [done|].
  destruct (add_files w _) as [?|w1] eqn:E1; [done|]. intros E2 Hc.
  apply Forall_app in Hc as [Hc1 Hc2]. rewrite app_assoc. eapply IH; [|exact E2|exact Hc2].
  pose proof (add_files_wrote _ _ _ _ _ Hw E1) as W. unfold signature_pair in *.
  apply Forall_cons in Hc1 as [C1 Hc1]. apply Forall_cons in Hc1 as [C2 _].
  change (c_str (es_manifest_filename s) = es_manifest_filename s) in C1.
  change (c_str (es_sig_filename s) = es_sig_filename s) in C2. unfold added in W. cbn [map fst snd] in W. by rewrite C1, C2 in W.
Qed.

Lemma added_same (entries : list (string * bytes * bool * string)) :
  Forall (fun e => c_str e.1.1 = e.1.1) (map fst entries) -> map added entries = map fst entries.
Proof.
  induction entries as [|[[[n d] c] m] entries IH]; [done|]. cbn [map]. intros [Hc Hr]%Forall_cons.
  rewrite (IH Hr). unfold added. cbn [fst snd] in *. change (c_str n = n) in Hc. by rewrite Hc.
Qed.

Lemma AsicE_Pack_written (content : AsicEContent) (container : bytes) :
  Packable content -> AsicE_Pack content = inr container -> written AsicWriter.AsicE (container_parts content) container.
Proof.
  intros [_ _ Hm] Hp. unfold AsicE_Pack in Hp. destruct (is_empty (ec_files content)) eqn:Ef; [done|].
  destruct (is_empty (ec_signatures content)); [done|].
  assert (Forall (fun e => c_str e.1.1 = e.1.1) (container_parts content)) as Hc.
  { pose proof (modest_storable _ Hm) as Hs. apply Forall_cons in Hs as [_ Hs]. eapply Forall_impl; [exact Hs|]. intros e [[Hc _] _]. exact Hc. }
  unfold container_parts in Hc. apply Forall_app in Hc as [Hc1 Hc]. apply Forall_app in Hc as [Hc2 Hc3].
  destruct (add_files _ _) as [?|w1] eqn:E1 in Hp; [done|]. destruct (pack_signatures w1 _) as [?|w2] eqn:E2; [done|].
  destruct (add_files w2 _) as [?|w3] eqn:E3; [done|].
  pose proof (add_files_wrote _ _ _ _ _ (new_wrote AsicWriter.AsicE) E1) as W1. rewrite app_nil_l, added_same in W1.
  2: { by rewrite map_map. }
  rewrite map_map in W1. pose proof (pack_signatures_wrote _ _ _ _ _ W1 E2 Hc2) as W2.
  pose proof (add_files_wrote _ _ _ _ _ W2 E3) as W3.
  assert (map added (if is_empty (ec_timestamp_data content) then []
     else [("META-INF/timestamp.tst", ec_timestamp_data content, false, "Failed to add timestamp to ASiC-E container")])
    = timestamp_part content) as Et by (unfold timestamp_part; destruct (is_empty (ec_timestamp_data content)); reflexivity).
  rewrite Et, <- app_assoc in W3. eapply Finalize_written; [exact W3| |done].
  unfold container_parts. by destruct (ec_files content).
Qed.

(** *** The loop over what was written *)

Lemma fold_documents (files : list FileEntry) (s : ELoop) :
  Forall (fun f => is_document (fe_filename f) = true) files ->
  foldl e_step s (map entry_of (map (fun f => (fe_filename f, fe_data f, true)) files)) =
  MkELoop (el_timestamp_data s) (el_manifests s) (el_sigs s)
    (el_files s ++ map (fun f => MkAsicFileEntry (fe_filename f) (fe_data f)) files).
Proof.
  revert s. induction files as [|f files IH]; intros s Hd; [cbn; rewrite app_nil_r; by destruct s|].
  apply Forall_cons in Hd as [[Hm Hi]%andb_true_iff Hd]. apply negb_true_iff in Hm, Hi.
  cbn [map foldl]. rewrite IH by done. unfold e_step, entry_of. cbn [af_name fst]. rewrite Hm.
  assert ((fe_filename f ==s "META-INF/timestamp.tst") = false) as -> by (apply String.eqb_neq; intros E; by rewrite E in Hi).
  assert (is_manifest_entry (fe_filename f) = false) as ->.
  { apply not_true_iff_false. intros E. unfold is_manifest_entry, in_meta_inf, starts_with in *.
    enough (String.prefix "META-INF/" (fe_filename f) = true) by congruence.
    apply String.prefix_correct in E. apply String.prefix_correct.
    destruct (fe_filename f) as [|? n]; [done|]. do 8 (destruct n as [|? n]; [done|]). cbn in E |- *.
    injection E. intros. subst. by destruct n. }
  rewrite Hi. cbn. by rewrite <- app_assoc.
Qed.

Lemma fold_signatures (signatures : list AsicESignature) (s : ELoop) :
  Forall PackableSignature signatures ->
  foldl e_step s (map entry_of (concat (map signature_pair signatures))) =
  MkELoop (el_timestamp_data s)
    (el_manifests s ++ map (fun g => MkAsicFileEntry (es_manifest_filename g) (ToBytes (es_manifest_xml g))) signatures)
    (el_sigs s ++ map (fun g => MkAsicFileEntry (es_sig_filename g) (es_signature_data g)) signatures) (el_files s).
Proof.
  revert s. induction signatures as [|g signatures IH]; intros s Hp; [cbn; rewrite !app_nil_r; by destruct s|].
  apply Forall_cons in Hp as [[M1 S1 S2 S3 _ _] Hp]. unfold signature_pair. cbn [map concat app foldl]. rewrite IH by done.
  unfold e_step at 1 2 3 4. unfold entry_of. cbn [af_name fst].
  assert ((es_manifest_filename g ==s "mimetype") = false) as E1 by (apply String.eqb_neq; intros E; by rewrite E in M1).
  assert ((es_manifest_filename g ==s "META-INF/timestamp.tst") = false) as E2 by (apply String.eqb_neq; intros E; by rewrite E in M1).
  assert ((es_sig_filename g ==s "mimetype") = false) as E3 by (apply String.eqb_neq; intros E; by rewrite E in S1).
  apply String.eqb_neq in S3. unfold e_step. cbn [af_name]. rewrite ?E1, ?E2, ?M1, ?E3, ?S3, ?S2, ?S1. cbn. by rewrite <- !app_assoc.
Qed.

Lemma fold_timestamp (content : AsicEContent) (s : ELoop) :
  el_timestamp_data s = [] ->
  foldl e_step s (map entry_of (timestamp_part content)) =
  MkELoop (ec_timestamp_data content) (el_manifests s) (el_sigs s) (el_files s).
Proof. intros Hs. unfold timestamp_part. destruct (ec_timestamp_data content); [|done]. destruct s. cbn in *. by subst. Qed.

Lemma find_named (signatures : list AsicESignature) (s : AsicESignature) :
  NoDup (map es_sig_filename signatures) -> s ∈ signatures ->
  named_data (map (fun g => MkAsicFileEntry (es_sig_filename g) (es_signature_data g)) signatures) (es_sig_filename s)
  = es_signature_data s.
Proof.
  intros Hn Hs. unfold named_data. induction signatures as [|g signatures IH]; [by apply elem_of_nil in Hs|].
  cbn [map List.find af_name] in *. apply NoDup_cons in Hn as [Hg Hn].
  destruct (String.eqb_spec (es_sig_filename g) (es_sig_filename s)) as [E|E].
  - apply elem_of_cons in Hs as [->|Hs]; [done|]. destruct Hg. rewrite E. apply list_elem_of_fmap. by exists s.
  - apply elem_of_cons in Hs as [->|Hs]; [done|]. by apply IH.
Qed.

Lemma signatures_read (signatures : list AsicESignature) :
  Forall PackableSignature signatures -> NoDup (map es_sig_filename signatures) ->
  omap (manifest_signature (map (fun g => MkAsicFileEntry (es_sig_filename g) (es_signature_data g)) signatures))
    (map (fun g => MkAsicFileEntry (es_manifest_filename g) (ToBytes (es_manifest_xml g))) signatures) = signatures.
Proof.
  intros Hp Hn. set (sigs := map (fun g => MkAsicFileEntry (es_sig_filename g) (es_signature_data g)) signatures).
  assert (forall rest, (forall s, s ∈ rest -> s ∈ signatures) ->
    omap (manifest_signature sigs)
      (map (fun g => MkAsicFileEntry (es_manifest_filename g) (ToBytes (es_manifest_xml g))) rest) = rest) as Hall; [|by apply Hall].
  induction rest as [|s rest IH]; intros Hin; [done|]. cbn.
  pose proof (proj1 (Forall_forall _ _) Hp s (Hin s (list_elem_of_here _ _))) as [_ _ _ _ (refs & Hm) Hd].
  unfold manifest_signature at 1. cbn [af_data af_name]. rewrite text_of_ToBytes, Hm.
  assert (named_data sigs (es_sig_filename s) = es_signature_data s) as -> by (apply find_named; [done|]; apply Hin; left).
  destruct (es_signature_data s) eqn:Es; [done|]. cbn [is_empty]. rewrite <- Es. destruct s; cbn in *. f_equal.
  apply IH. intros s' Hs'. apply Hin. by right.
Qed.

Lemma sig_names_distinct (content : AsicEContent) : Packable content -> NoDup (map es_sig_filename (ec_signatures content)).
Proof.
  intros [_ _ Hm]. apply modest_names, folded_nodup in Hm. cbn [map fst] in Hm. apply NoDup_cons in Hm as [_ Hm].
  unfold container_parts in Hm. rewrite !map_app in Hm. apply NoDup_app in Hm as (_ & _ & Hm). apply NoDup_app in Hm as (Hm & _ & _).
  induction (ec_signatures content) as [|s l IH]; [constructor|]. cbn [map concat signature_pair app fst] in *.
  apply NoDup_cons in Hm as [_ Hm]. apply NoDup_cons in Hm as [Hs Hm]. constructor; [|by apply IH].
  intros (g & E & Hg)%list_elem_of_fmap. apply Hs. rewrite E. apply list_elem_of_fmap.
  exists (es_sig_filename g, es_signature_data g, true). split; [done|]. apply list_elem_of_In, in_concat.
  exists (signature_pair g). split; [by apply in_map, list_elem_of_In|]. cbn. tauto.
Qed.

Lemma packed_reads_back (content : AsicEContent) (container : bytes) :
  Packable content -> AsicE_Pack content = inr container ->
  Z.of_nat (length container) <= 300 * 2 ^ 20 -> AsicE_Unpack container = inr content.
Proof.
  intros Hk Hp Hlen. pose proof (AsicE_Pack_written content container Hk Hp) as Hw.
  unfold AsicE_Unpack. rewrite (written_reads AsicWriter.AsicE "ASiC-E" _ _ Hw Hlen (pk_modest _ Hk)).
  cbn [map foldl]. unfold container_parts. rewrite !map_app, !foldl_app.
  change (e_step (MkELoop [] [] [] []) (entry_of ("mimetype", _, false))) with (MkELoop [] [] [] []).
  rewrite fold_documents, fold_signatures, fold_timestamp by (apply Hk || done). cbn [el_timestamp_data el_manifests el_sigs el_files app].
  rewrite signatures_read by (apply Hk || by apply sig_names_distinct).
  rewrite map_map. cbn [af_name af_data]. assert (map (fun f => MkFileEntry (fe_filename f) (fe_data f)) (ec_files content) = ec_files content) as ->.
  { rewrite <- (map_id (ec_files content)) at 2. apply map_ext. by intros []. }
  unfold AsicE_Pack in Hp. destruct (is_empty (ec_files content)); [done|]. destruct (is_empty (ec_signatures content)) eqn:E; [done|].
  cbn. rewrite E. by destruct content.
Qed.

(** [C20] A container that was packed is unpacked as the documents, signatures, manifests and timestamp that it was packed from, for
    contents of this shape ([Packable], [Modest]): the documents lie outside META-INF/ and are not called mimetype; each manifest is an entry
    META-INF/ASiCManifest..., can be parsed and names its signature by the full name of an entry below META-INF/ that is neither a
    manifest nor the timestamp; no signature is empty; there are at most 4096 entries, whose names are safe, shorter than 512 octets
    and different even without regard to case, as the reader finds entries; no entry is longer than 1 MiB - above that the reader also limits
    the rate of compression, which the compressor decides - and all together have at most 256 MiB; and the container has at most
    300 MiB. *)
Theorem AsicE_roundtrip (content : AsicEContent) (container : bytes) :
  Packable content -> AsicE_Pack content = inr container ->
  Z.of_nat (length container) <= 300 * 2 ^ 20 -> AsicE_Unpack container = inr content.
Proof. apply packed_reads_back. Qed.

End RoundTrip.

(** *** Adding a signature *)

Section Adding.
Context `{!Miniz, !LibXml, !XmlProps, !MinizLaws}.

Definition with_signature (content : AsicEContent) (se : AsicESignature) : AsicEContent :=
  MkAsicEContent (ec_files content) (ec_signatures content ++ [se]) (ec_timestamp_data content).

(** The container with one more signature has the old documents and signatures and the new signature behind them - provided that
    its entries can be packed, which they cannot when an old manifest names its signature without the directory. *)
Theorem AddSignature_appends (container signature_data container' : bytes) (sig_filename manifest_filename manifest_xml : string)
    (content : AsicEContent) (se : AsicESignature) :
  AsicE_Unpack container = inr content ->
  se = MkAsicESignature (meta_inf sig_filename) signature_data (meta_inf manifest_filename) manifest_xml ->
  AddSignature container signature_data sig_filename manifest_filename manifest_xml = inr container' ->
  Packable (with_signature content se) -> Z.of_nat (length container') <= 300 * 2 ^ 20 ->
  AsicE_Unpack container' = inr (with_signature content se).
Proof.
  intros Hu -> Ha Hk Hlen. unfold AddSignature in Ha. rewrite Hu in Ha. destruct (existsb _ _); [done|]. by apply packed_reads_back.
Qed.

End Adding.

(** ** The manifest that was generated is read back *)

Section ManifestReading.
Context `{!LibXml, !XmlProps}.

Definition reference_node (ref : AsicDataObjectRef) : xmlNode :=
  Element "DataObjectReference" kAsicManifestNamespace
    (("URI", ar_uri ref) :: if str_empty (ar_mime_type ref) then [] else [("MimeType", ar_mime_type ref)])
    [Text (newline +s+ "    "); Element "DigestMethod" kXmlDsigNamespace [("Algorithm", ar_digest_uri ref)] [];
     Text (newline +s+ "    "); Element "DigestValue" kXmlDsigNamespace [] [Text (ar_digest_base64 ref)]; Text (newline +s+ "  ")].

(** The document whose text [GenerateAsicManifestXml] writes. *)
Definition manifest_tree (sig_uri : string) (data_refs : list AsicDataObjectRef) : xmlNode :=
  Element "ASiCManifest" kAsicManifestNamespace []
    (Text (newline +s+ "  ")
     :: Element "SigReference" kAsicManifestNamespace [("URI", sig_uri); ("MimeType", "application/x-pkcs7-signature")] []
     :: concat (map (fun ref => [Text (newline +s+ "  "); reference_node ref]) data_refs) ++ [Text newline]).

Lemma ForEachElement_preorder (root : xmlNode) : ForEachElement root = preorder root.
Proof. unfold ForEachElement. rewrite walk_preorder by (cbn; lia). cbn. apply app_nil_r. Qed.

Lemma reference_elements (data_refs : list AsicDataObjectRef) (space last : string) :
  List.filter (fun node => MatchesElement node "DataObjectReference" (Some kAsicManifestNamespace))
    (concat (map preorder (concat (map (fun ref => [Text space; reference_node ref]) data_refs) ++ [Text last])))
  = map reference_node data_refs.
Proof. induction data_refs as [|ref data_refs IH]; [done|]. cbn in IH |- *. f_equal. exact IH. Qed.

(** [xmlGetNoNsProp] on elements without qualified attributes. *)
Definition plain_attributes : Prop := forall name ns attributes children key,
  xmlGetNoNsProp (Element name ns attributes children) key = snd <$> List.find (fun a => fst a ==s key) attributes.

Lemma read_reference_nodes (data_refs : list AsicDataObjectRef) :
  plain_attributes -> read_references (map reference_node data_refs) = data_refs.
Proof.
  intros Ha. induction data_refs as [|ref data_refs IH]; [done|]. cbn [map read_references]. rewrite IH.
  assert (GetAttribute (reference_node ref) "URI" = Some (ar_uri ref)) as -> by (unfold GetAttribute, reference_node; cbn [is_element]; by rewrite Ha).
  assert (default "" (GetAttribute (reference_node ref) "MimeType") = ar_mime_type ref) as ->.
  { unfold GetAttribute, reference_node. cbn [is_element]. rewrite Ha. by destruct (ar_mime_type ref). }
  rewrite ForEachElement_preorder. cbn. unfold GetAttribute. cbn [is_element]. rewrite Ha. by destruct ref.
Qed.

(** The reader of manifests finds in a generated manifest exactly the name of the signature and the references that it was
    generated from, when the parser gives the document that the text spells. *)
Theorem manifest_reads_back (sig_uri : string) (data_refs : list AsicDataObjectRef) :
  plain_attributes -> Z.of_nat (String.length (GenerateAsicManifestXml sig_uri data_refs)) <= kMaxXmlBytes ->
  xmlReadMemory (GenerateAsicManifestXml sig_uri data_refs) = Some (MkXmlDoc false (Some (manifest_tree sig_uri data_refs))) ->
  ParseAsicManifestXml (GenerateAsicManifestXml sig_uri data_refs) =
  (negb (str_empty sig_uri) && negb (match data_refs with [] => true | _ => false end), sig_uri, data_refs).
Proof.
  intros Ha Hlen Hx. unfold ParseAsicManifestXml, ParseHardened. rewrite Hx.
  assert (str_empty (GenerateAsicManifestXml sig_uri data_refs) = false) as -> by done.
  rewrite (proj2 (Z.ltb_ge _ _)) by done. cbn [doc_has_dtd doc_root]. rewrite ForEachElement_preorder.
  unfold manifest_tree. cbn [preorder map concat app].
  set (rest := concat (map preorder (concat _ ++ [Text newline]))).
  cbn [after_sig_reference]. unfold MatchesElement at 1 2. cbn [String.eqb Ascii.eqb Bool.eqb andb].
  cbn. unfold GetAttribute. cbn [is_element]. rewrite Ha. cbn.
  unfold rest. rewrite reference_elements, read_reference_nodes by done. done.
Qed.

End ManifestReading.

(** ** A toy archive format *)

Module SampleArchive.

(** A block is its length in unary and its octets; an archive is a sequence of names and data. *)
Definition block (data : bytes) : bytes := repeat x01 (length data) ++ x00 :: data.

Fixpoint read_length (l : bytes) : option (nat * bytes) :=
  match l with
  | x01 :: l => match read_length l with Some (n, l) => Some (S n, l) | None => None end
  | x00 :: l => Some (O, l)
  | _ => None
  end.

Definition read_block (l : bytes) : option (bytes * bytes) :=
  match read_length l with Some (n, l) => Some (take n l, drop n l) | None => None end.

Definition encode (entries : list (string * bytes * bool)) : bytes :=
  concat (map (fun e => x03 :: block (ToBytes e.1.1) ++ block e.1.2) entries) ++ [x02].

Fixpoint decode (fuel : nat) (l : bytes) : option (list (string * bytes)) :=
  match fuel, l with
  | S fuel, x03 :: l =>
      match read_block l with
      | Some (name, l) =>
          match read_block l with
          | Some (data, l) => match decode fuel l with Some entries => Some ((text_of name, data) :: entries) | None => None end
          | None => None
          end
      | None => None
      end
  | S _, [x02] => Some []
  | _, _ => None
  end.

Lemma read_block_app (data rest : bytes) : read_block (block data ++ rest) = Some (data, rest).
Proof.
  assert (forall n (l : bytes), read_length (repeat x01 n ++ x00 :: l) = Some (n, l)) as Hlen
    by (intros n l; induction n as [|n IH]; [done|]; cbn; by rewrite IH).
  unfold read_block, block. rewrite <- app_assoc. cbn [app]. rewrite Hlen.
  by rewrite take_app_length, drop_app_length.
Qed.

Lemma decode_encode (entries : list (string * bytes * bool)) (fuel : nat) :
  (length entries < fuel)%nat -> decode fuel (encode entries) = Some (map fst entries).
Proof.
  unfold encode. revert fuel. induction entries as [|[[name data] compress] entries IH]; intros [|fuel] Hf; cbn in Hf; try lia; [done|].
  cbn [map concat fst]. rewrite <- !app_comm_cons, <- !app_assoc. cbn [decode]. rewrite !read_block_app, IH by lia.
  by rewrite text_of_ToBytes.
Qed.

Definition toy_stat (e : string * bytes) : file_stat :=
  MkFileStat e.1 (bool_decide (last (chars e.1) = Some "/"%char)) (N.of_nat (length e.2)) (N.of_nat (length e.2)).

Definition toy_miniz : Miniz := {|
  ZipReader := list (string * bytes);
  zip_reader_init_mem data := decode (length data) data;
  zip_reader_get_num_files := length;
  zip_reader_file_stat zip i := toy_stat <$> zip !! i;
  zip_reader_locate_file zip name := fst <$> list_find (fun e => folded e.1 = folded name) zip;
  zip_reader_extract_to_heap zip i := snd <$> zip !! i;
  ZipWriter := list (string * bytes * bool);
  zip_writer_init_heap := Some [];
  zip_writer_add zip name data compress := Some (zip ++ [(name, data, compress)]);
  zip_writer_finalize_heap_archive zip := Some (encode zip)
|}.
#[local] Existing Instance toy_miniz.

Lemma toy_add_all (zip entries : list (string * bytes * bool)) : add_all zip entries = Some (zip ++ entries).
Proof.
  revert zip. induction entries as [|[[name data] compress] entries IH]; intros zip; [by rewrite app_nil_r|].
  cbn. rewrite IH. by rewrite <- app_assoc.
Qed.

Lemma encode_length (entries : list (string * bytes * bool)) : (length entries < length (encode entries))%nat.
Proof.
  unfold encode. rewrite length_app. cbn. induction entries as [|e entries IH]; cbn; [lia|]. rewrite !length_app. lia.
Qed.

Definition toy_laws : MinizLaws.
Proof.
  intros zip0 entries zip container Ei Ea Ef Hn Hs. cbn in Ei, Ef. injection Ei as <-. rewrite toy_add_all in Ea.
  injection Ea as <-. injection Ef as <-. cbn [app]. exists (map fst entries). split; [apply decode_encode, encode_length|].
  split; [apply length_map|]. intros i name data compress Hi.
  assert (map fst entries !! i = Some (name, data)) as Hm by (rewrite list_lookup_fmap; by rewrite Hi).
  cbn. rewrite Hm. cbn. split; [|split; [|done]].
  - apply (Forall_lookup_1 _ _ _ _ Hs) in Hi as (_ & Hd & _). eexists. unfold toy_stat. cbn in Hd |- *.
    by rewrite bool_decide_eq_false_2.
  - assert (list_find (fun e => folded e.1 = folded name) (map fst entries) = Some (i, (name, data))) as ->; [|done].
    apply list_find_Some. split; [done|]. split; [done|]. intros j [n d] Hj Hlt Heq. cbn in Heq.
    assert (forall k e, map fst entries !! k = Some e -> map (fun e => folded e.1.1) entries !! k = Some (folded e.1)) as Hk.
    { intros k e Hl. pose proof (list_lookup_fmap fst entries k) as Hf. change (fst <$> entries) with (map fst entries) in Hf. rewrite Hl in Hf.
      rewrite list_lookup_fmap. destruct (entries !! k) as [e'|]; [|done]. by injection Hf as ->. }
    pose proof (NoDup_lookup _ _ _ _ Hn (Hk _ _ Hj) ltac:(rewrite (Hk _ _ Hm); cbn; by rewrite Heq)). lia.
Qed.
#[local] Existing Instance toy_laws.

(** A document, a manifest and a signature over it. *)
Definition toy_refs : list AsicDataObjectRef :=
  [MkAsicDataObjectRef "letter & reply.txt" "text/plain" "http://www.w3.org/2001/04/xmlenc#sha256" "qg=="].

Definition toy_sig : string := "META-INF/signature001.p7s".

(** A parser that knows two documents: the manifest above and one that names the signature without its directory. *)
Definition toy_parser : LibXml := {|
  xmlReadMemory text :=
    if text ==s GenerateAsicManifestXml toy_sig toy_refs then Some (MkXmlDoc false (Some (manifest_tree toy_sig toy_refs)))
    else if text ==s GenerateAsicManifestXml "signature001.p7s" toy_refs
    then Some (MkXmlDoc false (Some (manifest_tree "signature001.p7s" toy_refs)))
    else if text ==s GenerateAsicManifestXml "META-INF/signature002.p7s" toy_refs
    then Some (MkXmlDoc false (Some (manifest_tree "META-INF/signature002.p7s" toy_refs)))
    else None
|}.
#[local] Existing Instance toy_parser.

Definition toy_props : XmlProps := {|
  xmlGetNoNsProp node key :=
    match node with
    | Element _ _ attributes _ => snd <$> List.find (fun a => fst a ==s key) attributes
    | Text _ => None
    end
|}.
#[local] Existing Instance toy_props.

Definition toy_content (sig_uri : string) : AsicEContent := MkAsicEContent
  [MkFileEntry "letter & reply.txt" [x68; x69]]
  [MkAsicESignature sig_uri [x30; x00] "META-INF/ASiCManifest001.xml" (GenerateAsicManifestXml sig_uri toy_refs)] [].

Lemma toy_packable : Packable (toy_content toy_sig).
Proof.
  split.
  - by repeat constructor.
  - constructor; [|done]. split; try done. by exists toy_refs.
  - split.
    + vm_compute. lia.
    + apply (bool_decide_eq_true_1 _). by vm_compute.
    + repeat constructor; vm_compute; (done || lia).
    + repeat constructor; by vm_compute.
    + by vm_compute.
Qed.

Lemma AsicE_roundtrip_witness : exists container,
  AsicE_Pack (toy_content toy_sig) = inr container /\ AsicE_Unpack container = inr (toy_content toy_sig).
Proof.
  eexists. split; [reflexivity|]. apply (AsicE_roundtrip (toy_content toy_sig)); [exact toy_packable|reflexivity|by vm_compute].
Defined.

Lemma manifest_reads_back_witness :
  ParseAsicManifestXml (GenerateAsicManifestXml toy_sig toy_refs) = (true, toy_sig, toy_refs).
Proof. apply (manifest_reads_back toy_sig toy_refs); [by intros ?????|by vm_compute|by vm_compute]. Defined.

(** A manifest may name its signature without the directory: the signature is found when the container is read.  But
    when a signature is added, the old one is written under the name in the manifest, outside of the metadata: in the new
    container it is a document, and the old entry of the signature is empty. *)
Definition relative_container : bytes :=
  encode [("mimetype", ToBytes (AsicWriter.mimetype AsicWriter.AsicE), false);
          ("letter & reply.txt", [x68; x69], true);
          ("META-INF/ASiCManifest001.xml", ToBytes (GenerateAsicManifestXml "signature001.p7s" toy_refs), true);
          ("META-INF/signature001.p7s", [x30; x00], true)].

Example relative_signature_is_read :
  AsicE_Unpack relative_container = inr (toy_content "signature001.p7s").
Proof. by vm_compute. Qed.

Example adding_loses_the_relative_signature :
  exists container content,
    AddSignature relative_container [x30; x01; x00] "signature002.p7s" "ASiCManifest002.xml"
      (GenerateAsicManifestXml "META-INF/signature002.p7s" toy_refs) = inr container /\
    AsicE_Unpack container = inr content /\
    map fe_filename (ec_files content) = ["letter & reply.txt"; "signature001.p7s"] /\
    map es_signature_data (ec_signatures content) = [[]; [x30; x01; x00]].
Proof. eexists _, _. split; [reflexivity|]. split; [vm_compute; reflexivity|]. by vm_compute. Qed.

Lemma AsicS_Unpack_single_witness : exists zip entries,
  LoadFromBuffer (encode [("mimetype", ToBytes (AsicWriter.mimetype AsicWriter.AsicS), false);
    ("META-INF/signature.p7s", [x30; x00], false); ("a.txt", [x61], true)]) = inr zip /\
  GetFiles zip = inr entries /\ documents entries = [MkAsicFileEntry "a.txt" [x61]].
Proof.
  edestruct (AsicS_Unpack_single (encode [("mimetype", ToBytes (AsicWriter.mimetype AsicWriter.AsicS), false);
    ("META-INF/signature.p7s", [x30; x00], false); ("a.txt", [x61], true)])
    (MkAsicSContent "a.txt" [x61] [x30; x00] [])) as (zip & entries & E1 & E2 & E3 & _); [by vm_compute|].
  exists zip, entries. split; [exact E1|]. split; [exact E2|exact E3].
Defined.

(** A document that compresses well is packed and then refused: above 1 MiB the reader does not accept a ratio of more than one hundred. *)
Example well_compressed_is_refused :
  entry_within_limits (MkFileStat "zeros.bin" false (2 * 2 ^ 20) 2100) -> False.
Proof. intros H. destruct (H eq_refl) as [_ Hr]. cbn in Hr. specialize (Hr ltac:(lia) ltac:(lia)). lia. Qed.

End SampleArchive.
