(* ===== verification/SessionPdf.v ===== *)
(** * SessionPdf: the handler that verifies a PDF document

    [Session::VerifyPdf] of [core/session/SessionPdfOps.ipp]: the verifier of [Pades], the engine of
    [Validation] once for every main signature, the engine of [Timestamp] for every document
    timestamp, and the commit of the report with the text for the user. *)

From S2P Require Import Prelude CxxString Types Time Der Codec Sha256 Cryptonite Fixture X509Name Chain.
From S2P Require Import PathEngine Crl Ocsp Revocation Resolvers TrustList Evidence Timestamp Validation Report Projection ReportJson Session.
From S2P Require Import Cms TokenValidator Pades SessionFormats.

Local Open Scope Z_scope.
Local Open Scope tamga_scope.

(** A session with the text of the user report that it keeps. *)
Section HandlerState.
Context `{!CertApi, !TimestampApi}.

Record HandlerState := MkHandlerState { hs_state : State; hs_user_report : string }.

Definition hs_session (h : HandlerState) : Session := z_session (hs_state h).

Definition with_error (code : ErrorCode.t) (message : string) (h : HandlerState) : HandlerState :=
  let st := hs_state h in
  MkHandlerState (MkState (z_epochs st) (SetError code message (z_session st)) (z_disk st)) (hs_user_report h).

(** The commit of the handlers of documents: the metadata of the signer are left as they are. *)
Definition commit_format_report (report : VerifyReport) (container_type signature_format : string) (disk : Disk)
    (h : HandlerState) : HandlerState :=
  let st := hs_state h in
  let '(epochs, session) := MarkCommitted (z_epochs st) ((z_session st) <| ss_last_verify_report := report |>) in
  let user_report := Build (MkUserReportInput (ss_last_verify_report session) container_type signature_format
                              (ss_last_signer_metadata session)) in
  MkHandlerState (MkState epochs (ClearError session) disk) user_report.

End HandlerState.

(** ** The report before trust is decided *)

Definition profile_name (p : PadesProfile.t) : string :=
  match p with
  | PadesProfile.B => "PAdES-B"
  | PadesProfile.T => "PAdES-T"
  | PadesProfile.LT => "PAdES-LT"
  | PadesProfile.LTA => "PAdES-LTA"
  end.

Definition profile_level (p : PadesProfile.t) : Z :=
  match p with PadesProfile.B => 0 | PadesProfile.T => 1 | PadesProfile.LT => 2 | PadesProfile.LTA => 3 end.

Definition at_least_T (result : PadesVerificationResult) : bool := 1 <=? profile_level (pv_detected_profile result).

Definition bool_text (b : bool) : string := if b then "true" else "false".

Definition pdf_diagnostics (result : PadesVerificationResult) (format_profile : string) : string :=
  let count {A} (l : list A) := to_string (Z.of_nat (length l)) in
  "PAdES diagnostics: pdfWellFormed=" +s+ bool_text (pv_pdf_well_formed result)
  +s+ "; byteRangeValid=" +s+ bool_text (pv_byte_range_valid result)
  +s+ "; signatureCount=" +s+ to_string (pv_signature_count result)
  +s+ "; profile=" +s+ format_profile
  +s+ "; timestampsValid=" +s+ bool_text (pv_timestamps_valid result)
  +s+ "; ltvStructural=" +s+ bool_text (pv_ltv_valid result)
  +s+ "; dssCerts=" +s+ count (pv_dss_certificates_der result)
  +s+ "; dssOcsp=" +s+ count (pv_dss_ocsp_responses_der result)
  +s+ "; dssCrls=" +s+ count (pv_dss_crls_der result)
  +s+ "; containerCoverageComplete=" +s+ bool_text (pv_coverage_complete result)
  +s+ "; coverageStatus=" +s+ pv_coverage_status result
  +s+ "; signedCoverageEnd=" +s+ to_string (pv_signed_coverage_end result)
  +s+ "; documentSize=" +s+ to_string (pv_document_size result)
  +s+ foldr (fun note text => "; " +s+ note +s+ text) "" (pv_notes result).

Definition format_report (result : PadesVerificationResult) : VerifyReport :=
  let format_profile := profile_name (pv_detected_profile result) in
  let report := VerifyReport_default <| vr_has_result := true |> <| vr_execution_succeeded := true |>
    <| vr_signature_valid := pv_signature_valid result |> <| vr_signature_format := "PAdES" |>
    <| vr_format_profile := format_profile |>
    <| vr_signer_certificate_present := 0 <? pv_signature_count result |> in
  let report := if at_least_T result
    then ApplyFormatTimestampVerdict (report <| vr_timestamp_checked := true |>) (pv_timestamps_valid result) false
    else report in
  report <| vr_ltv_valid := pv_ltv_valid result |> <| vr_ltv_evidence_bound := pv_ltv_valid result |>
    <| vr_container_coverage_complete := pv_coverage_complete result |>
    <| vr_coverage_status := pv_coverage_status result |>
    <| vr_operation := "VerifyPdf" |> <| vr_policy := "pades-format" |>
    <| vr_message := pdf_diagnostics result format_profile |>.

(** ** One main signature *)

Definition missing_timestamp_detail : TimestampEntry :=
  TimestampEntry_default <| te_status := "timestamp-partial" |>
    <| te_reason_code := "timestamp-validation-unavailable" |>
    <| te_limitations := ["Канонічний рушій не повернув результат мітки CMS"] |>.

(** The details of the timestamp in a signature, labelled in place; at least one when it has a timestamp. *)
Definition label_details (index : Z) (evidence : PadesSignatureEvidence) (signer_report : VerifyReport) : VerifyReport :=
  if negb (ev_signature_timestamp_present evidence) then signer_report else
  let details := match vr_timestamp_details signer_report with [] => [missing_timestamp_detail] | details => details end in
  signer_report <| vr_timestamp_details := map (fun d =>
    d <| te_signature_index := index |> <| te_kind := "signature" |>
      <| te_signed_revision_end := ev_signed_revision_end evidence |>) details |>.

Definition signer_entry (result : PadesVerificationResult) (index : Z) (evidence : PadesSignatureEvidence)
    (signer_report : VerifyReport) : SignatureEntry :=
  copy_signer_verdict signer_report
    (SignatureEntry_default <| se_index := index |> <| se_signature_valid := ev_signature_valid evidence |>
      <| se_signer_certificate_present := negb (is_empty (ev_signer_certificate_der evidence)) |>
      <| se_format_profile := profile_name (pv_detected_profile result) |>
      <| se_timestamp_checked := vr_timestamp_checked signer_report |>
      <| se_timestamp_valid := vr_timestamp_valid signer_report |>
      <| se_timestamp_status := vr_timestamp_status signer_report |>
      <| se_timestamp_details := vr_timestamp_details signer_report |>
      <| se_ltv_valid := pv_ltv_valid result |> <| se_ltv_evidence_bound := pv_ltv_valid result |>
      <| se_ltv_evidence_validated := pv_ltv_valid result && vr_trust_valid signer_report
           && revocation_confirmed (vr_revocation_status signer_report) |>).

Section VerifyPdf.
Context `{Clock, !Platform, !CertApi, !CmsApi, !Validators, !TimestampApi, !StoreApi, !LibXml, !MetadataApi, !Qpdf, !FieldSort}.

Definition signer_report_of (settings : Settings) (result : PadesVerificationResult) (evidence : PadesSignatureEvidence)
    (disk : Disk) : outcome (VerifyReport * Disk) :=
  RunFormatTrustValidationOn disk settings (ev_signer_certificate_der evidence) (ev_cms_der evidence)
    (pv_dss_certificates_der result) (pv_dss_ocsp_responses_der result) (pv_dss_crls_der result)
    (ev_signature_valid evidence) VerifyReport_default.

(** The locals of the loop over the main signatures. *)
Record SignerLoop := MkSignerLoop {
  sl_timestamp_full : bool;
  sl_details : list TimestampEntry;
  sl_entries : list SignatureEntry;
  sl_report : VerifyReport;
  sl_disk : Disk
}.

Definition signer_step (settings : Settings) (result : PadesVerificationResult) (index : Z)
    (evidence : PadesSignatureEvidence) (s : SignerLoop) : outcome SignerLoop :=
  '(signer_report, disk) ← signer_report_of settings result evidence (sl_disk s);
  let present := ev_signature_timestamp_present evidence in
  let timestamp_full := sl_timestamp_full s
    && (negb present || (vr_timestamp_status signer_report ==s "timestamp-valid")) in
  let signer_report := label_details index evidence signer_report in
  let details := if present then sl_details s ++ vr_timestamp_details signer_report else sl_details s in
  let entries := sl_entries s ++ [signer_entry result index evidence signer_report] in
  let report :=
    if index =? 1 then
      let diagnostics := vr_message (sl_report s) in
      if str_empty diagnostics then signer_report
      else signer_report <| vr_message ::= fun m => diagnostics +s+ "; " +s+ m |>
    else sl_report s in
  Ret (MkSignerLoop timestamp_full details entries report disk).

Fixpoint signer_loop (settings : Settings) (result : PadesVerificationResult) (index : Z)
    (signatures : list PadesSignatureEvidence) (s : SignerLoop) : outcome SignerLoop :=
  match signatures with
  | [] => Ret s
  | evidence :: signatures =>
      s ← signer_step settings result index evidence s;
      signer_loop settings result (index + 1) signatures s
  end.

(** The report after the loop. *)
Definition signers_report (result : PadesVerificationResult) (s : SignerLoop) : VerifyReport :=
  (sl_report s) <| vr_timestamp_details := sl_details s |> <| vr_signatures := sl_entries s |>
    <| vr_has_result := true |> <| vr_execution_succeeded := true |>
    <| vr_signature_valid := pv_signature_valid result |> <| vr_operation := "VerifyPdf" |>.

(** ** The document timestamps *)

(** The detail, [canonical_available], [dts_valid] and [dts_reason]. *)
Definition document_timestamp (settings : Settings) (result : PadesVerificationResult) (i : nat) (token : bytes)
    (disk : Disk) : outcome (TimestampEntry * bool * bool * string * Disk) :=
  let imprint_source := default [] (pv_document_timestamp_imprint_sources result !! i) in
  '(verdict, disk) ← TryCanonicalTimestampVerdict disk settings token imprint_source ""
      (pv_dss_certificates_der result) (pv_dss_ocsp_responses_der result) (pv_dss_crls_der result);
  let '(dts_valid, dts_reason, detail) := default (false, "", TimestampEntry_default) verdict in
  let revision_end := default 0 (pv_document_timestamp_revision_ends result !! i) in
  let detail := detail <| te_kind := "document" |>
    <| te_signature_index := Z.of_nat (length (pv_main_signatures result) + i + 1) |>
    <| te_signed_revision_end := revision_end |> in
  let canonical_available := match verdict with Some _ => true | None => false end in
  let detail := if canonical_available then detail
    else detail <| te_status := "timestamp-partial" |> <| te_reason_code := "timestamp-validation-unavailable" |>
                <| te_limitations ::= fun l => l ++ ["Відсутній придатний токен або джерело imprint DocTimeStamp"] |> in
  if revision_end =? 0
  then Ret (detail <| te_valid := false |> <| te_crypto_valid := false |> <| te_status := "timestamp-invalid" |>
                   <| te_reason_code := "timestamp-byte-range-invalid" |>, canonical_available, false, dts_reason, disk)
  else Ret (detail, canonical_available, dts_valid, dts_reason, disk).

(** The locals of the loop over the document timestamps. *)
Record DocumentLoop := MkDocumentLoop {
  dl_timestamp_full : bool;
  dl_reason : string;
  dl_details : list TimestampEntry;
  dl_disk : Disk
}.

Fixpoint document_loop (settings : Settings) (result : PadesVerificationResult) (i : nat) (tokens : list bytes)
    (s : DocumentLoop) : outcome DocumentLoop :=
  match tokens with
  | [] => Ret s
  | token :: tokens =>
      '(detail, canonical_available, dts_valid, dts_reason, disk) ← document_timestamp settings result i token (dl_disk s);
      let ok := canonical_available && dts_valid in
      document_loop settings result (S i) tokens
        (MkDocumentLoop (dl_timestamp_full s && ok)
           (if negb ok && str_empty (dl_reason s) then dts_reason else dl_reason s)
           (dl_details s ++ [detail]) disk)
  end.

(** ** The final report *)

Definition final_report (result : PadesVerificationResult) (signers : SignerLoop) (documents : DocumentLoop) : VerifyReport :=
  let report := (signers_report result signers) <| vr_timestamp_details := dl_details documents |> in
  let has_document_timestamp := negb (is_empty (pv_document_timestamp_tokens_der result)) in
  let in_signature := pv_signature_timestamp_present result in
  let canonical_timestamp_full := (in_signature || has_document_timestamp)
    && (negb in_signature || sl_timestamp_full signers)
    && (negb has_document_timestamp || dl_timestamp_full documents) in
  let report := if negb canonical_timestamp_full && negb (str_empty (dl_reason documents))
    then report <| vr_message ::= fun m =>
           (if str_empty m then m else m +s+ "; ") +s+ "PAdES document timestamp: " +s+ dl_reason documents |>
    else report in
  let report := report <| vr_signature_format := "PAdES" |>
    <| vr_format_profile := profile_name (pv_detected_profile result) |> in
  let report := if at_least_T result
    then ApplyFormatTimestampVerdict (report <| vr_timestamp_checked := true |> <| vr_tsp_checked := true |>)
           (pv_timestamps_valid result) canonical_timestamp_full
    else report in
  report <| vr_ltv_valid := pv_ltv_valid result |> <| vr_ltv_evidence_bound := pv_ltv_valid result |>
    <| vr_container_coverage_complete := pv_coverage_complete result |>
    <| vr_coverage_status := pv_coverage_status result |>
    <| vr_ltv_evidence_validated := pv_ltv_valid result && vr_trust_valid report
         && revocation_confirmed (vr_revocation_status report) |>.

(** The report about what the verifier found, without the mutex. *)
Definition pdf_report (settings : Settings) (result : PadesVerificationResult) (disk : Disk) : outcome (VerifyReport * Disk) :=
  signers ← signer_loop settings result 1 (pv_main_signatures result)
              (MkSignerLoop true [] [] (format_report result) disk);
  documents ← document_loop settings result 0 (pv_document_timestamp_tokens_der result)
                (MkDocumentLoop true "" (sl_details signers) (sl_disk signers));
  Ret (final_report result signers documents, dl_disk documents).

(** The returned flag, [is_valid] and the session. *)
Definition VerifyPdf (pdf : bytes) (h : HandlerState) : outcome (bool * bool * HandlerState) :=
  let session := hs_session h in
  if negb (ss_is_initialized session) then
    Ret (false, false, with_error ErrorCode.NotInitialized (ErrorCode_ToString ErrorCode.NotInitialized) h)
  else
  verified ← PadesVerifier.VerifyPdf pdf;
  match verified with
  | inl error_message => Ret (false, false, with_error ErrorCode.InternalError error_message h)
  | inr result =>
      '(report, disk) ← pdf_report (ss_settings session) result (z_disk (hs_state h));
      Ret (true, pv_signature_valid result && pv_coverage_complete result,
           commit_format_report report "PDF" "PAdES" disk h)
  end.

(** ** One pass of the loops *)

(** The verdict about the signer in a report, with the chain. *)
Definition signer_view (r : VerifyReport) :=
  (verdict r, vr_chain_checked r, vr_chain_valid r, vr_trust_reason r, vr_error_code r).

Definition entry_view (e : SignatureEntry) :=
  ((se_trust_checked e, se_trust_valid e, se_trust_status e, se_revocation_checked e, se_revocation_status e,
    se_historical_trust_used e, se_certificate_time_valid e), se_chain_checked e, se_chain_valid e, se_trust_reason e,
   se_error_code e).

Lemma label_view (index : Z) (e : PadesSignatureEvidence) (r : VerifyReport) :
  signer_view (label_details index e r) = signer_view r.
Proof. unfold label_details. by destruct (negb _). Qed.

Lemma signer_entry_view (result : PadesVerificationResult) (index : Z) (e : PadesSignatureEvidence) (r : VerifyReport) :
  entry_view (signer_entry result index e r) = signer_view r.
Proof. done. Qed.

Lemma signer_report_total (settings : Settings) (result : PadesVerificationResult) (e : PadesSignatureEvidence) (disk : Disk) :
  exists r disk', signer_report_of settings result e disk = Ret (r, disk').
Proof.
  destruct (RunFormatTrust_spec disk settings (ev_signer_certificate_der e) (ev_cms_der e) (pv_dss_certificates_der result)
    (pv_dss_ocsp_responses_der result) (pv_dss_crls_der result) (ev_signature_valid e) VerifyReport_default)
    as (r & disk' & E & _). by exists r, disk'.
Qed.

(** What one pass leaves behind; [first] is the report when it is the first pass. *)
Lemma signer_step_spec (settings : Settings) (result : PadesVerificationResult) (index : Z) (e : PadesSignatureEvidence)
    (s : SignerLoop) :
  exists r disk' s', signer_step settings result index e s = Ret s' /\
    signer_report_of settings result e (sl_disk s) = Ret (r, disk') /\
    sl_entries s' = sl_entries s ++ [signer_entry result index e (label_details index e r)] /\
    sl_details s' = sl_details s ++
      (if ev_signature_timestamp_present e then vr_timestamp_details (label_details index e r) else []) /\
    (index <> 1 -> sl_report s' = sl_report s) /\
    (index = 1 -> signer_view (sl_report s') = signer_view r /\ kept (sl_report s') = kept r).
Proof.
  destruct (signer_report_total settings result e (sl_disk s)) as (r & disk' & E).
  unfold signer_step. unfold mbind, outcome_bind. rewrite E. eexists r, disk', _. split; [done|]. split; [done|].
  cbn [sl_entries sl_details sl_report]. split; [done|]. split; [by destruct (ev_signature_timestamp_present e); [|rewrite app_nil_r]|].
  split.
  - intros Hi. apply Z.eqb_neq in Hi. by rewrite Hi.
  - intros ->. cbn. rewrite <- (label_view 1 e r).
    assert (kept r = kept (label_details 1 e r)) as -> by (unfold label_details; by destruct (negb _)).
    by destruct (str_empty _).
Qed.

Lemma signer_loop_spec (settings : Settings) (result : PadesVerificationResult) (index : Z)
    (sigs : list PadesSignatureEvidence) (s : SignerLoop) :
  1 <= index ->
  exists s', signer_loop settings result index sigs s = Ret s' /\
    (forall d, d ∈ sl_details s -> d ∈ sl_details s') /\
    (exists entries, sl_entries s' = sl_entries s ++ entries /\ length entries = length sigs) /\
    (1 < index -> sl_report s' = sl_report s) /\
    (forall e, e ∈ sigs -> ev_signature_timestamp_present e = true ->
       exists i disk r disk', signer_report_of settings result e disk = Ret (r, disk') /\
         forall d, d ∈ vr_timestamp_details (label_details i e r) -> d ∈ sl_details s').
Proof.
  revert index s. induction sigs as [|e sigs IH]; intros index s Hi.
  { exists s. split; [done|]. split; [done|]. split; [exists []; by rewrite app_nil_r|]. split; [done|].
    by intros e []%elem_of_nil. }
  destruct (signer_step_spec settings result index e s) as (r & disk' & s1 & E1 & Er & He & Hd & Hrep & _).
  destruct (IH (index + 1) s1 ltac:(lia)) as (s' & E2 & Hmono & (entries & Hent & Hlen) & Hkeep & Hts).
  exists s'. cbn [signer_loop]. unfold mbind, outcome_bind. rewrite E1. split; [done|].
  split. { intros d Hin. apply Hmono. rewrite Hd. apply elem_of_app. by left. }
  split. { exists (signer_entry result index e (label_details index e r) :: entries). rewrite Hent, He, <- app_assoc. cbn. by rewrite Hlen. }
  split. { intros Hlt. rewrite Hkeep, Hrep by lia. done. }
  intros e' [->|Hin]%elem_of_cons Hp; [|by apply Hts].
  exists index, (sl_disk s), r, disk'. split; [done|]. intros d Hin. apply Hmono. rewrite Hd, Hp. apply elem_of_app. by right.
Qed.

(** The first signer decides the report. *)
Lemma signer_loop_first (settings : Settings) (result : PadesVerificationResult) (e : PadesSignatureEvidence)
    (sigs : list PadesSignatureEvidence) (s s' : SignerLoop) :
  signer_loop settings result 1 (e :: sigs) s = Ret s' -> sl_entries s = [] ->
  exists r disk' first others, signer_report_of settings result e (sl_disk s) = Ret (r, disk') /\
    signer_view (sl_report s') = signer_view r /\ kept (sl_report s') = kept r /\
    sl_entries s' = first :: others /\ entry_view first = signer_view r /\ length others = length sigs.
Proof.
  cbn [signer_loop]. unfold mbind, outcome_bind.
  destruct (signer_step_spec settings result 1 e s) as (r & disk' & s1 & E1 & Er & He & _ & _ & Hv).
  destruct (signer_loop_spec settings result (1 + 1) sigs s1 ltac:(lia)) as (s2 & E2 & _ & (entries & Hent & Hlen) & Hkeep & _).
  rewrite E1, E2. intros [= <-] Hnil. rewrite Hkeep by lia. destruct (Hv eq_refl) as [Hv1 Hv2].
  exists r, disk', (signer_entry result 1 e (label_details 1 e r)), entries. split; [done|]. split; [done|]. split; [done|].
  split; [by rewrite Hent, He, Hnil|]. split; [by rewrite signer_entry_view, label_view|done].
Qed.

(** ** The timestamps *)

(** The engine accepted the document timestamp [i] for the octets that its field covers. *)
Definition document_timestamp_accepted (settings : Settings) (result : PadesVerificationResult) (i : nat) (token : bytes) : Prop :=
  let imprint_source := default [] (pv_document_timestamp_imprint_sources result !! i) in
  token <> [] /\ imprint_source <> [] /\ default 0 (pv_document_timestamp_revision_ends result !! i) <> 0 /\
  exists disk, tr_valid (Timestamp.Validate disk (token_input disk settings token imprint_source ""
    (pv_dss_certificates_der result) (pv_dss_ocsp_responses_der result) (pv_dss_crls_der result))).1 = true.

Lemma document_timestamp_spec (settings : Settings) (result : PadesVerificationResult) (i : nat) (token : bytes) (disk : Disk) :
  exists detail available valid reason disk',
    document_timestamp settings result i token disk = Ret (detail, available, valid, reason, disk') /\
    (te_valid detail = true -> document_timestamp_accepted settings result i token).
Proof.
  unfold document_timestamp, document_timestamp_accepted. set (imprint := default [] _).
  destruct (TryCanonical_spec disk settings token imprint "" (pv_dss_certificates_der result)
    (pv_dss_ocsp_responses_der result) (pv_dss_crls_der result)) as (v & disk' & E & Hv).
  unfold mbind, outcome_bind. rewrite E. clear E. set (revision_end := default 0 _).
  destruct v as [[[valid reason] d]|]; cbn [default]; destruct (revision_end =? 0) eqn:Er;
    eexists _, _, _, _, _; (split; [done|]); cbn; try done.
  destruct Hv as (Ht & Hi & Hval & Hte & _). intros Hd. apply Z.eqb_neq in Er.
  split; [done|]. split; [done|]. split; [done|]. exists disk. congruence.
Qed.

Lemma document_loop_spec (settings : Settings) (result : PadesVerificationResult) (i : nat) (tokens : list bytes)
    (s : DocumentLoop) :
  exists s', document_loop settings result i tokens s = Ret s' /\
    (forall d, d ∈ dl_details s -> d ∈ dl_details s') /\
    (forall j token, tokens !! j = Some token ->
       exists d, d ∈ dl_details s' /\
         (te_valid d = true -> document_timestamp_accepted settings result (i + j) token)).
Proof.
  revert i s. induction tokens as [|token tokens IH]; intros i s; [by exists s|].
  cbn [document_loop]. unfold mbind, outcome_bind.
  destruct (document_timestamp_spec settings result i token (dl_disk s)) as (d & av & v & reason & disk' & E & Hd).
  rewrite E. match goal with |- context [document_loop _ _ (S i) tokens ?x] => destruct (IH (S i) x) as (s' & E' & Hm & Ht) end.
  exists s'. split; [done|]. cbn in Hm. split; [intros d' Hin; apply Hm, elem_of_app; by left|].
  intros [|j] token' Hj.
  - injection Hj as <-. exists d. split; [apply Hm, elem_of_app; right; left|]. by rewrite Nat.add_0_r.
  - replace (i + S j)%nat with (S i + j)%nat by lia. by apply Ht.
Qed.

(** The engine, run on one main signature, checked a timestamp in it and accepted it. *)
Definition signature_timestamp_accepted (settings : Settings) (result : PadesVerificationResult) (e : PadesSignatureEvidence) : Prop :=
  exists disk, let ve := (Validation.Validate disk (format_context settings (ev_cms_der e) (pv_dss_ocsp_responses_der result)
      (pv_dss_crls_der result) (ev_signature_valid e)) (ev_signer_certificate_der e) (pv_dss_certificates_der result)).1 in
    rpt_timestamp_attempted ve = true /\ tr_valid (rpt_timestamp ve) = true.

Lemma valid_details_accepted (settings : Settings) (result : PadesVerificationResult) (e : PadesSignatureEvidence)
    (i : Z) (disk disk' : Disk) (r : VerifyReport) :
  signer_report_of settings result e disk = Ret (r, disk') -> ev_signature_timestamp_present e = true ->
  (forall d, d ∈ vr_timestamp_details (label_details i e r) -> te_valid d = true) ->
  signature_timestamp_accepted settings result e.
Proof.
  intros E Hp Hall. unfold label_details in Hall. rewrite Hp in Hall. cbn [negb] in Hall.
  set (details := match vr_timestamp_details r with [] => _ | _ => _ end) in Hall.
  assert (forall d, d ∈ details -> te_valid d = true) as Hd.
  { intros d Hin. change (te_valid (d <| te_signature_index := i |> <| te_kind := "signature" |>
      <| te_signed_revision_end := ev_signed_revision_end e |>) = true).
    apply Hall. cbn. apply list_elem_of_In, in_map_iff. exists d. by rewrite <- list_elem_of_In. }
  clear Hall. unfold signer_report_of in E.
  destruct (RunFormatTrust_spec disk settings (ev_signer_certificate_der e) (ev_cms_der e) (pv_dss_certificates_der result)
    (pv_dss_ocsp_responses_der result) (pv_dss_crls_der result) (ev_signature_valid e) VerifyReport_default)
    as (r' & disk'' & E' & _ & Hr). rewrite E in E'. injection E' as <- _.
  destruct Hr as [[_ ->]|[_ Hr]].
  { specialize (Hd missing_timestamp_detail ltac:(left)). done. }
  exists disk. set (ve := (Validation.Validate _ _ _ _).1) in *. cbn zeta.
  destruct (Apply_verdict ve VerifyReport_default) as (r'' & E'' & _ & _ & Hts). rewrite Hr in E''. injection E'' as <-.
  destruct (rpt_timestamp_attempted ve).
  - destruct Hts as (d & Hv & _ & Hts). unfold timestamp_verdict in Hts.
    assert (vr_timestamp_details r = [d]) as Ed by congruence. unfold details in Hd. rewrite Ed in Hd.
    split; [done|]. rewrite <- Hv. apply Hd. left.
  - assert (vr_timestamp_details r = []) as Ed by (unfold timestamp_verdict in Hts; congruence).
    unfold details in Hd. rewrite Ed in Hd. specialize (Hd missing_timestamp_detail ltac:(left)). done.
Qed.

(** ** The final report *)

Lemma format_verdict_view (r : VerifyReport) (c full : bool) :
  let r' := ApplyFormatTimestampVerdict r c full in
  signer_view r' = signer_view r /\ kept r' = kept r /\ vr_signatures r' = vr_signatures r /\
  (vr_timestamp_status r' <> "timestamp-invalid" -> vr_timestamp_status r' <> "timestamp-partial" ->
   c = true /\ forall d, d ∈ vr_timestamp_details r -> te_valid d = true).
Proof.
  unfold ApplyFormatTimestampVerdict. destruct c; cbn [negb]; [|done].
  destruct (vr_timestamp_details r) as [|d0 l] eqn:Ed.
  { destruct full; (split; [done|]; split; [done|]; split; [done|]); intros _ _; (split; [done|]); by intros d []%elem_of_nil. }
  unfold ApplyTimestampDetailsVerdict. rewrite Ed, details_verdict_spec. set (l' := d0 :: l).
  split; [done|]. split; [done|]. split; [done|]. cbn [vr_timestamp_status vr_timestamp_valid setter].
  destruct (existsb _ l'); [done|]. destruct (forallb _ l') eqn:E; cbn; [|done].
  intros _ _. split; [done|]. intros d Hd%list_elem_of_In. apply (proj1 (forallb_forall _ _) E) in Hd.
  by apply andb_true_iff in Hd as [? _].
Qed.

Lemma final_report_view (result : PadesVerificationResult) (signers : SignerLoop) (documents : DocumentLoop) :
  let r := final_report result signers documents in
  signer_view r = signer_view (sl_report signers) /\
  kept r = (true, true, pv_signature_valid result, vr_container_malformed (sl_report signers), pv_coverage_complete result) /\
  vr_signatures r = sl_entries signers /\
  (at_least_T result = true ->
   vr_timestamp_status r <> "timestamp-invalid" -> vr_timestamp_status r <> "timestamp-partial" ->
   pv_timestamps_valid result = true /\ forall d, d ∈ dl_details documents -> te_valid d = true).
Proof.
  cbv zeta. unfold final_report. set (full := (_ || _) && _ && _). set (base := (signers_report result signers) <| vr_timestamp_details := _ |>).
  set (noted := if negb full && _ then _ else base).
  assert (signer_view noted = signer_view (sl_report signers) /\ vr_signatures noted = sl_entries signers /\
    vr_timestamp_details noted = dl_details documents /\
    kept noted = (true, true, pv_signature_valid result, vr_container_malformed (sl_report signers),
      vr_container_coverage_complete (sl_report signers))) as (B1 & B2 & B3 & B4).
  { unfold noted. destruct (negb full && _); split_and!; done. }
  clearbody noted. clear base. set (named := noted <| vr_signature_format := _ |> <| vr_format_profile := _ |>).
  destruct (at_least_T result); cbv beta iota.
  - destruct (format_verdict_view (named <| vr_timestamp_checked := true |> <| vr_tsp_checked := true |>)
      (pv_timestamps_valid result) full) as (V1 & V2 & V3 & V4).
    set (stamped := ApplyFormatTimestampVerdict _ _ _) in *. clearbody stamped.
    split; [by rewrite <- B1; etransitivity; [|exact V1]|].
    split. { unfold kept in *. cbn in V2 |- *. congruence. }
    split; [by cbn; rewrite V3|]. intros _ N1 N2. destruct (V4 N1 N2) as [V5 V6]. split; [done|]. intros d Hd. apply V6.
    cbn. by rewrite B3.
  - split; [done|]. split; [unfold kept in *; cbn; congruence|]. by split; [|].
Qed.

Lemma pdf_report_spec (settings : Settings) (result : PadesVerificationResult) (disk : Disk) :
  exists signers documents,
    signer_loop settings result 1 (pv_main_signatures result)
      (MkSignerLoop true [] [] (format_report result) disk) = Ret signers /\
    document_loop settings result 0 (pv_document_timestamp_tokens_der result)
      (MkDocumentLoop true "" (sl_details signers) (sl_disk signers)) = Ret documents /\
    pdf_report settings result disk = Ret (final_report result signers documents, dl_disk documents).
Proof.
  destruct (signer_loop_spec settings result 1 (pv_main_signatures result)
    (MkSignerLoop true [] [] (format_report result) disk) ltac:(lia)) as (s & E1 & _).
  destruct (document_loop_spec settings result 0 (pv_document_timestamp_tokens_der result)
    (MkDocumentLoop true "" (sl_details s) (sl_disk s))) as (d & E2 & _).
  exists s, d. split; [done|]. split; [done|]. unfold pdf_report. unfold mbind, outcome_bind. by rewrite E1, E2.
Qed.

Definition last_report (h : HandlerState) : VerifyReport := ss_last_verify_report (hs_session h).

Lemma commit_format_report_spec (report : VerifyReport) (ct sf : string) (disk : Disk) (h : HandlerState) :
  let h' := commit_format_report report ct sf disk h in
  last_report h' = report /\ ss_last_error (hs_session h') = LastError_default /\
  ss_last_signer_metadata (hs_session h') = ss_last_signer_metadata (hs_session h) /\
  hs_user_report h' = Build (MkUserReportInput report ct sf (ss_last_signer_metadata (hs_session h))).
Proof. done. Qed.

(** What a report whose summary is "valid" rests on. *)
Record PdfReportGrounds (pdf : bytes) (settings : Settings) (result : PadesVerificationResult) : Prop := {
  prg_signatures : PadesProofs.PdfGrounds pdf result;
  prg_coverage : pv_coverage_complete result = true;
  prg_first : exists first others disk, pv_main_signatures result = first :: others /\
    SignerGrounds disk (format_context settings (ev_cms_der first) (pv_dss_ocsp_responses_der result)
      (pv_dss_crls_der result) true) (ev_signer_certificate_der first) (pv_dss_certificates_der result);
  prg_timestamps : at_least_T result = true -> pv_timestamps_valid result = true /\
    (forall e, e ∈ pv_main_signatures result -> ev_signature_timestamp_present e = true ->
       signature_timestamp_accepted settings result e) /\
    (forall i token, pv_document_timestamp_tokens_der result !! i = Some token ->
       document_timestamp_accepted settings result i token)
}.

Lemma pdf_report_first (settings : Settings) (result : PadesVerificationResult) (disk disk' : Disk)
    (report : VerifyReport) :
  pv_main_signatures result <> [] -> pdf_report settings result disk = Ret (report, disk') ->
  exists e others r d fe entries, pv_main_signatures result = e :: others /\
    signer_report_of settings result e disk = Ret (r, d) /\ signer_view report = signer_view r /\
    vr_signatures report = fe :: entries /\ entry_view fe = signer_view r /\ length entries = length others.
Proof.
  intros Hne Er. destruct (pdf_report_spec settings result disk) as (signers & documents & E1 & E2 & E3).
  rewrite Er in E3. injection E3 as -> _.
  destruct (final_report_view result signers documents) as (V1 & _ & V3 & _).
  destruct (pv_main_signatures result) as [|e others]; [done|].
  destruct (signer_loop_first settings result e others _ _ E1 eq_refl) as (r & d & fe & entries & Hr & Hview & _ & He & Hev & Hl).
  exists e, others, r, d, fe, entries. split; [done|]. split; [exact Hr|]. by rewrite V1, V3, Hview.
Qed.

Lemma first_signer_grounds (settings : Settings) (result : PadesVerificationResult) (e : PadesSignatureEvidence)
    (disk disk' : Disk) (r : VerifyReport) :
  signer_report_of settings result e disk = Ret (r, disk') -> ev_signature_valid e = true -> good_verdict r = true ->
  SignerGrounds disk (format_context settings (ev_cms_der e) (pv_dss_ocsp_responses_der result)
    (pv_dss_crls_der result) true) (ev_signer_certificate_der e) (pv_dss_certificates_der result).
Proof.
  unfold signer_report_of. intros Hr Hv Hg. rewrite Hv in Hr.
  destruct (RunFormatTrust_spec disk settings (ev_signer_certificate_der e) (ev_cms_der e) (pv_dss_certificates_der result)
    (pv_dss_ocsp_responses_der result) (pv_dss_crls_der result) true VerifyReport_default)
    as (r' & d' & Hr' & _ & Hcase). rewrite Hr in Hr'. injection Hr' as <- _.
  destruct Hcase as [[_ ->]|[Hne Happly]]; [done|]. exact (good_verdict_grounds disk _ _ _ _ r Hne Happly Hg).
Qed.

Lemma pdf_report_timestamps (settings : Settings) (result : PadesVerificationResult) (disk disk' : Disk) (report : VerifyReport) :
  pdf_report settings result disk = Ret (report, disk') -> at_least_T result = true ->
  vr_timestamp_status report <> "timestamp-invalid" -> vr_timestamp_status report <> "timestamp-partial" ->
  pv_timestamps_valid result = true /\
  (forall e, e ∈ pv_main_signatures result -> ev_signature_timestamp_present e = true ->
     signature_timestamp_accepted settings result e) /\
  (forall i token, pv_document_timestamp_tokens_der result !! i = Some token ->
     document_timestamp_accepted settings result i token).
Proof.
  intros Er Ht N1 N2. destruct (pdf_report_spec settings result disk) as (signers & documents & E1 & E2 & E3).
  rewrite Er in E3. injection E3 as -> _.
  destruct (final_report_view result signers documents) as (_ & _ & _ & V4).
  destruct (V4 Ht N1 N2) as [Hts Hd]. split; [done|].
  destruct (signer_loop_spec settings result 1 (pv_main_signatures result)
    (MkSignerLoop true [] [] (format_report result) disk) ltac:(lia)) as (s & E1' & _ & _ & _ & Hsig').
  rewrite E1 in E1'. injection E1' as <-.
  destruct (document_loop_spec settings result 0 (pv_document_timestamp_tokens_der result)
    (MkDocumentLoop true "" (sl_details signers) (sl_disk signers))) as (d & E2' & Hmono & Hdoc).
  rewrite E2 in E2'. injection E2' as <-. cbn [dl_details] in Hmono. split.
  - intros e He Hp. destruct (Hsig' e He Hp) as (i & disk1 & r & disk2 & Hr & Hin).
    apply (valid_details_accepted settings result e i disk1 disk2 r Hr Hp). auto.
  - intros i token Hi. destruct (Hdoc i token Hi) as (d & Hin & Hacc). apply Hacc. auto.
Qed.

Lemma pdf_report_kept (settings : Settings) (result : PadesVerificationResult) (disk disk' : Disk) (report : VerifyReport) :
  pdf_report settings result disk = Ret (report, disk') ->
  vr_signature_valid report = pv_signature_valid result /\ vr_container_coverage_complete report = pv_coverage_complete result.
Proof.
  intros Er. destruct (pdf_report_spec settings result disk) as (signers & documents & _ & _ & E3).
  rewrite Er in E3. injection E3 as -> _.
  destruct (final_report_view result signers documents) as (_ & V2 & _). unfold kept in V2. split; congruence.
Qed.

Lemma pdf_report_grounds (pdf : bytes) (settings : Settings) (result : PadesVerificationResult) (disk disk' : Disk)
    (report : VerifyReport) :
  PadesVerifier.VerifyPdf pdf = Ret (inr result) -> pdf_report settings result disk = Ret (report, disk') ->
  ck_status (SummaryCheck report) = "valid" -> PdfReportGrounds pdf settings result.
Proof.
  intros Ev Er (Hg & _ & Hcov & _ & Hpartial)%SummaryCheck_valid_iff.
  destruct (pdf_report_kept settings result disk disk' report Er) as [K1 K2].
  pose proof (pg_signature _ Hg) as Hsig. rewrite K1 in Hsig. rewrite K2 in Hcov.
  pose proof (PadesProofs.VerifyPdf_grounds pdf result Ev Hsig) as Hpdf. pose proof Hpdf as (Hne & Hlen & Hall).
  split; [done|done| |].
  - destruct (pdf_report_first settings result disk disk' report) as (e & others & r & d & fe & entries & Em & Hr & Hview & _).
    + intros Hm. rewrite Hm in Hlen. by destruct (PadesProofs.main_fields pdf).
    + done.
    + exists e, others, disk. split; [done|]. apply (first_signer_grounds settings result e disk d r Hr).
      * destruct (PadesProofs.main_fields pdf) as [|f0 fs]; [done|]. rewrite Em in Hall.
        by destruct (Hall 0%nat f0 e eq_refl eq_refl) as (_ & ? & _).
      * pose proof (proj2 (pg_trust _ Hg)). pose proof (proj2 (pg_revocation _ Hg)) as Hrev.
        assert (vr_trust_valid r = true /\ vr_revocation_status r = vr_revocation_status report) as [Htr Hrs]
          by (unfold signer_view, verdict in Hview; split; congruence).
        unfold good_verdict. rewrite Htr, Hrs. by apply revocation_confirmed_spec.
  - intros Ht. by apply (pdf_report_timestamps settings result disk disk' report Er Ht (pg_timestamp _ Hg)).
Qed.

(** ** The handler *)

(** [C3] The verification of a PDF document always returns.  When it says that it could verify the document and the summary of
    the report it leaves is "valid", then [is_valid] is true, every main signature is a CMS structure of which every
    signer has been verified over exactly the octets around its gap, the document is covered, the engine found the
    certificate of the first signature trusted and not revoked, on grounds that hold; and where the profile calls
    for timestamps, the engine accepted every one of them, those in the signatures and those of the document. *)
Theorem VerifyPdf_end_to_end (pdf : bytes) (h : HandlerState) :
  (forall g, g ∈ PdfParser.ExtractSignatureFields pdf -> fits (sd_signature g)) ->
  exists returned is_valid h', VerifyPdf pdf h = Ret (returned, is_valid, h') /\
    (returned = true -> ck_status (SummaryCheck (last_report h')) = "valid" ->
     is_valid = true /\ ss_is_initialized (hs_session h) = true /\
     exists result, PadesVerifier.VerifyPdf pdf = Ret (inr result) /\
       PdfReportGrounds pdf (ss_settings (hs_session h)) result).
Proof.
  intros Hf. unfold VerifyPdf. destruct (ss_is_initialized (hs_session h)); cbn [negb]; [|by eexists _, _, _].
  destruct (PadesProofs.VerifyPdf_returns pdf Hf) as [[e|result] Ev]; unfold mbind, outcome_bind; rewrite Ev; [by eexists _, _, _|].
  destruct (pdf_report_spec (ss_settings (hs_session h)) result (z_disk (hs_state h))) as (s & d & _ & _ & Er). rewrite Er.
  eexists _, _, _. split; [done|]. intros _ Hs.
  pose proof (pdf_report_grounds pdf _ result _ _ _ Ev Er Hs) as Hg. destruct (Hg) as [(_ & _ & _) Hc _ _].
  split; [|split; [done|by exists result]].
  destruct (pdf_report_kept _ result _ _ _ Er) as [K1 _].
  apply SummaryCheck_valid_iff in Hs as [Hp _]. pose proof (pg_signature _ Hp) as Hsig.
  change (vr_signature_valid (final_report result s d) = true) in Hsig. by rewrite <- K1, Hsig, Hc.
Qed.

(** [C21] What the report says of trust, of revocation and of the chain is what the engine says of the first signature, however many
    there are: the entries of the others are in the report, but nothing at its top depends on them, although the handlers of
    XML documents and containers take the worst of them. *)
Theorem report_is_of_first_signer (pdf : bytes) (h h' : HandlerState) (is_valid : bool) :
  VerifyPdf pdf h = Ret (true, is_valid, h') ->
  exists result e others r d first entries,
    PadesVerifier.VerifyPdf pdf = Ret (inr result) /\ pv_main_signatures result = e :: others /\
    signer_report_of (ss_settings (hs_session h)) result e (z_disk (hs_state h)) = Ret (r, d) /\
    signer_view (last_report h') = signer_view r /\
    vr_signatures (last_report h') = first :: entries /\ entry_view first = signer_view r /\ length entries = length others.
Proof.
  unfold VerifyPdf. destruct (ss_is_initialized (hs_session h)); cbn [negb]; [|done]. unfold mbind, outcome_bind.
  destruct (PadesVerifier.VerifyPdf pdf) as [[?|result]| |] eqn:Ev; [done| |done|done].
  destruct (pdf_report (ss_settings (hs_session h)) result (z_disk (hs_state h))) as [[report disk]| |] eqn:Er; [|done|done].
  intros [= _ <-]. destruct (PadesProofs.VerifyPdf_view pdf result Ev) as (Hne & _ & _ & _ & _ & Hm & _).
  destruct (pdf_report_first (ss_settings (hs_session h)) result (z_disk (hs_state h)) disk report)
    as (e & others & r & d & fe & entries & Em & Hrest); [rewrite Hm; by destruct (PadesProofs.main_fields pdf)|done|].
  exists result, e, others, r, d, fe, entries. split; [done|]. split; [done|]. exact Hrest.
Qed.

(** A call that could not verify the document says so in the error of the session and leaves everything else as it was, the last report
    included.  One that could clears the error and makes the report its own; the text for the user is made of the new
    report and of the metadata of the signer of an earlier operation, which are neither replaced nor cleared. *)
Theorem VerifyPdf_contract (pdf : bytes) (h h' : HandlerState) (returned is_valid : bool) :
  VerifyPdf pdf h = Ret (returned, is_valid, h') ->
  if returned then
    (exists result, PadesVerifier.VerifyPdf pdf = Ret (inr result) /\
       is_valid = pv_signature_valid result && pv_coverage_complete result) /\
    ss_last_error (hs_session h') = LastError_default /\
    ss_epoch (hs_session h') = t_last_verify_commit_epoch (z_epochs (hs_state h')) /\
    ss_last_signer_metadata (hs_session h') = ss_last_signer_metadata (hs_session h) /\
    hs_user_report h' = Build (MkUserReportInput (last_report h') "PDF" "PAdES" (ss_last_signer_metadata (hs_session h)))
  else is_valid = false /\ exists code message, code <> ErrorCode.None /\ h' = with_error code message h.
Proof.
  unfold VerifyPdf. destruct (ss_is_initialized (hs_session h)); cbn [negb].
  2: { intros [= <- <- <-]. split; [done|]. eexists _, _. split; [|reflexivity]. done. }
  unfold mbind, outcome_bind. destruct (PadesVerifier.VerifyPdf pdf) as [[e|result]| |]; [|idtac|done|done].
  { intros [= <- <- <-]. split; [done|]. eexists _, _. split; [|reflexivity]. done. }
  destruct (pdf_report _ _ _) as [[report disk]| |]; [|done|done]. intros [= <- <- <-]. split; [by exists result|]. done.
Qed.

End VerifyPdf.

(** ** A document with two signatures *)

Module SampleHandler.

Import SampleCms SampleToken SamplePdf.

#[local] Existing Instances toy_clock toy_cert_api toy_crl_api toy_ocsp_api toy_http toy_metadata_api toy_libxml toy_cms_api
  toy_token_digests toy_qpdf toy_sort SampleRun.toy_external tamga_timestamps.

Definition toy_pdf_store : StoreApi := {|
  read_dir _ dir := if dir ==s "w/trust-store" then Some [("root.cer", true, Some toy_root)]
                    else if dir ==s "w/intermediate-store" then Some [("ca.cer", true, Some toy_ca)] else None;
  read_text _ _ := None;
  fs_relative _ _ _ := None
|}.
#[local] Existing Instance toy_pdf_store.

Definition earlier_signer : CertificateMetadata := CertificateMetadata_default <| cm_common_name := "signer of another file" |>.

Definition start : HandlerState :=
  MkHandlerState (MkState (MkEpochs 0 0) (toy_session <| ss_last_signer_metadata := earlier_signer |>) tt) "".

(** Two octets more than [signed_revision], which the second signature covers too. *)
Definition two_signatures : bytes := signed_revision ++ [x0d; x0a].

Definition last_state (r : outcome (bool * bool * HandlerState)) : HandlerState :=
  match r with Ret (_, _, h) => h | _ => start end.
Definition flags (r : outcome (bool * bool * HandlerState)) : option (bool * bool) :=
  match r with Ret (returned, is_valid, _) => Some (returned, is_valid) | _ => None end.

Abbreviation one_run := (VerifyPdf signed_revision start).
Abbreviation two_run := (VerifyPdf two_signatures start).

(** The certificate of the second signer leads to no anchor; the report is "valid" all the same. *)
Example stranger_signs_second :
  flags two_run = Some (true, true) /\
  SummaryCheck (last_report (last_state two_run)) = MkVerifyCheck "valid" "SIGNATURE_VALID" /\
  map se_trust_valid (vr_signatures (last_report (last_state two_run))) = [true; false].
Proof. split; [|split]; vm_compute; reflexivity. Qed.

Lemma run_result (r : outcome (bool * bool * HandlerState)) : flags r = Some (true, true) -> r = Ret (true, true, last_state r).
Proof. destruct r as [[[returned is_valid] h]| |]; [|done|done]. by intros [= -> ->]. Qed.

Lemma run_elim (r : outcome (bool * bool * HandlerState)) (P : bool -> bool -> HandlerState -> Prop) :
  flags r = Some (true, true) -> (exists returned is_valid h, r = Ret (returned, is_valid, h) /\ P returned is_valid h) ->
  P true true (last_state r).
Proof. intros Hf (returned & is_valid & h & -> & HP). cbn in Hf. by injection Hf as -> ->. Qed.

Lemma one_run_flags : flags one_run = Some (true, true).
Proof. vm_compute. reflexivity. Qed.

Lemma two_run_result : two_run = Ret (true, true, last_state two_run).
Proof. apply run_result. vm_compute. reflexivity. Qed.

Lemma sample_fits : forall g, g ∈ PdfParser.ExtractSignatureFields signed_revision -> fits (sd_signature g).
Proof.
  assert (PdfParser.ExtractSignatureFields signed_revision =
    [nth 0 (PadesProofs.main_fields signed_revision) PdfSignatureDictionary_default]) as -> by (vm_compute; reflexivity).
  intros g [->|[]%elem_of_nil]%elem_of_cons. vm_compute. discriminate.
Qed.

Lemma VerifyPdf_end_to_end_witness :
  ck_status (SummaryCheck (last_report (last_state one_run))) = "valid" /\
  exists result, PadesVerifier.VerifyPdf signed_revision = Ret (inr result) /\
    PdfReportGrounds signed_revision (ss_settings (hs_session start)) result.
Proof.
  assert (ck_status (SummaryCheck (last_report (last_state one_run))) = "valid") as Hs by (vm_compute; reflexivity).
  split; [exact Hs|].
  destruct (run_elim one_run _ one_run_flags (VerifyPdf_end_to_end signed_revision start sample_fits) eq_refl Hs)
    as (_ & _ & Hg). exact Hg.
Defined.

Lemma report_is_of_first_signer_witness :
  exists result e others r d, PadesVerifier.VerifyPdf two_signatures = Ret (inr result) /\
    pv_main_signatures result = e :: others /\
    signer_report_of (ss_settings (hs_session start)) result e tt = Ret (r, d) /\
    signer_view (last_report (last_state two_run)) = signer_view r.
Proof.
  destruct (report_is_of_first_signer two_signatures start (last_state two_run) true two_run_result)
    as (result & e & others & r & d & first & entries & H1 & H2 & H3 & H4 & _).
  exists result, e, others, r, d. split; [exact H1|]. split; [exact H2|]. split; [exact H3|exact H4].
Defined.

(** The text for the user names the signer of another file. *)
Lemma VerifyPdf_contract_witness :
  hs_user_report (last_state two_run) =
    Build (MkUserReportInput (last_report (last_state two_run)) "PDF" "PAdES" earlier_signer).
Proof.
  destruct (VerifyPdf_contract two_signatures start (last_state two_run) true true two_run_result) as (_ & _ & _ & _ & Hu).
  exact Hu.
Defined.

End SampleHandler.
