(* ===== verification/SessionXml.v ===== *)
(** * SessionXml: the handler that verifies an XML document

    [Session::VerifyXml] of [core/session/SessionXmlOps.ipp]: the verifier of [Xades], the engine of
    [Validation] for every signature, the engine of [Timestamp] for the timestamp of every
    signature ([ApplyXadesTimestampPolicyValidation] of [core/session/SessionAsicOps.ipp]), and the
    aggregation of [SessionFormats]. *)

From S2P Require Import Prelude CxxString Types Time Der Codec Sha256 Cryptonite Fixture X509Name Chain Imprint.
From S2P Require Import PathEngine Crl Ocsp Revocation Resolvers TrustList XmlDsig Evidence Timestamp Xades Validation Report Projection ReportJson.
From S2P Require Import Session Cms TokenValidator Pades SessionFormats SessionPdf.

Local Open Scope Z_scope.
Local Open Scope tamga_scope.

(** ** Names and copies *)

Definition XadesProfileName (p : XadesProfile) : string :=
  match p with
  | BES => "XAdES-BES"
  | T => "XAdES-T"
  | C => "XAdES-C"
  | X => "XAdES-X"
  | X_L => "XAdES-X-L"
  | A => "XAdES-A"
  end.

Definition SessionXadesProfileName (result : XadesVerificationResult) : string :=
  let profile := if str_empty (xv_format_profile result) then XadesProfileName (xv_detected_profile result)
                 else xv_format_profile result in
  if profile ==s "XAdES-B-T" then "XAdES-T" else profile.

Definition ToSessionDataObjectFormats (formats : list DataObjectFormat) : list DataObjectFormatEntry :=
  map (fun dof => MkDataObjectFormatEntry (Xades.df_object_reference dof) (Xades.df_mime_type dof)
                    (Xades.df_description dof)) formats.

Section VerifyXml.
Context `{Clock, !Platform, !CertApi, !Validators, !TimestampApi, !StoreApi, !LibXml, !MetadataApi, !XmlCrypto, !DigestApi}.

(** ** The timestamp of one signature *)

Definition ApplyXadesTimestampPolicyValidation (settings : Settings) (result : XadesVerificationResult) (report : VerifyReport)
    (disk : Disk) : outcome (VerifyReport * Disk) :=
  if negb (xv_signature_timestamp_present result) then Ret (report <| vr_ltv_valid := false |>, disk) else
  let report := report <| vr_timestamp_checked := true |> <| vr_tsp_checked := xv_tsp_checked result |> in
  let report := ApplyFormatTimestampVerdict report (xv_signature_timestamp_valid result) false in
  let structural := xv_signature_valid result && xv_ltv_data_present result in
  let report := report <| vr_ltv_valid := structural && xv_signature_timestamp_valid result |> in
  if is_empty (xv_signature_timestamp_token_der result) || is_empty (xv_signature_timestamp_canonicalized_data result)
  then Ret (AppendXadesTimestampMessage
         (report <| vr_timestamp_valid := false |> <| vr_timestamp_status := "timestamp-invalid" |> <| vr_ltv_valid := false |>)
         "missing token or canonicalized SignatureValue evidence", disk)
  else
  '(verdict, disk) ← TryCanonicalTimestampVerdict disk settings (xv_signature_timestamp_token_der result)
      (xv_signature_timestamp_canonicalized_data result) (xv_signing_time result) (xv_certificate_values_der result)
      (xv_revocation_values_ocsp_der result) (xv_revocation_values_crl_der result);
  match verdict with
  | None => Ret (report, disk)
  | Some (canonical_valid, reason, detail) =>
      let report := ApplyTimestampDetailsVerdict (report <| vr_tsp_checked := true |> <| vr_timestamp_checked := true |>
        <| vr_timestamp_details ::= fun l => l ++ [detail] |>) in
      let report := report <| vr_ltv_valid := structural && canonical_valid |> in
      if canonical_valid then Ret (report, disk) else
      let report := AppendXadesTimestampMessage report reason in
      Ret (if vr_timestamp_status report ==s "timestamp-invalid" then ApplyTimestampFailureToTrust report else report, disk)
  end.

Definition ApplyPerSignerXadesTimestampValidation (settings : Settings) (result : XadesVerificationResult)
    (entry : SignatureEntry) (disk : Disk) : outcome (SignatureEntry * Disk) :=
  if negb (xv_signature_timestamp_present result) then Ret (entry, disk) else
  '(timestamp_report, disk) ← ApplyXadesTimestampPolicyValidation settings result VerifyReport_default disk;
  let details := match vr_timestamp_details timestamp_report with
    | [] => [TimestampEntry_default <| te_status := vr_timestamp_status timestamp_report |>
               <| te_reason_code := "TIMESTAMP_EVIDENCE_MISSING" |>]
    | details => details
    end in
  Ret (entry <| se_timestamp_checked := vr_timestamp_checked timestamp_report |>
         <| se_timestamp_valid := vr_timestamp_valid timestamp_report |>
         <| se_timestamp_status := vr_timestamp_status timestamp_report |>
         <| se_timestamp_details := map (fun d => d <| te_signature_index := se_index entry |>) details |>, disk).

(** ** One signature *)

(** The entry before the engines run; the handlers of documents and of containers name the profile differently. *)
Definition format_entry (name_profile : XadesVerificationResult -> string) (index : Z) (one : XadesVerificationResult) : SignatureEntry :=
  let entry := SignatureEntry_default <| se_index := index |> <| se_signature_valid := xv_signature_valid one |>
    <| se_signer_certificate_present := negb (is_empty (xv_signer_certificate_der one)) |>
    <| se_qualifying_properties_present := xv_qualifying_properties_present one |>
    <| se_signing_certificate_digest_valid := xv_signing_certificate_digest_valid one |>
    <| se_format_profile := name_profile one |>
    <| se_timestamp_checked := xv_signature_timestamp_checked one |> in
  let entry := if xv_signature_timestamp_checked one
    then ApplyEntryTimestampVerdict entry (xv_signature_timestamp_valid one) else entry in
  entry <| se_ltv_valid := xv_ltv_valid one |> <| se_ltv_evidence_bound := xv_ltv_evidence_bound one |>.

(** What is written after them. *)
Definition finish_entry (one : XadesVerificationResult) (entry : SignatureEntry) : SignatureEntry :=
  entry <| se_ltv_evidence_validated := se_ltv_evidence_bound entry && se_trust_valid entry
             && revocation_confirmed (se_revocation_status entry) |>
    <| se_signature_policy_present := xv_signature_policy_present one |>
    <| se_signature_policy_id := xv_signature_policy_id one |>
    <| se_signature_policy_hash_algo_uri := xv_signature_policy_hash_algo_uri one |>
    <| se_data_object_formats := ToSessionDataObjectFormats (xv_data_object_formats one) |>.

Definition signature_step (settings : Settings) (name_profile : XadesVerificationResult -> string) (index : Z) (one : XadesVerificationResult) (disk : Disk)
    : outcome (SignatureEntry * Disk) :=
  '(entry, disk) ← ApplyPerSignerTrustValidation disk settings (xv_signer_certificate_der one)
      (xv_certificate_values_der one) (xv_revocation_values_ocsp_der one) (xv_revocation_values_crl_der one)
      (format_entry name_profile index one);
  '(entry, disk) ← ApplyPerSignerXadesTimestampValidation settings one entry disk;
  Ret (finish_entry one entry, disk).

Fixpoint signature_entries (settings : Settings) (name_profile : XadesVerificationResult -> string) (index : Z)
    (signatures : list XadesVerificationResult) (disk : Disk) : outcome (list SignatureEntry * Disk) :=
  match signatures with
  | [] => Ret ([], disk)
  | one :: signatures =>
      '(entry, disk) ← signature_step settings name_profile index one disk;
      '(entries, disk) ← signature_entries settings name_profile (index + 1) signatures disk;
      Ret (entry :: entries, disk)
  end.

(** ** The report *)

(** The first signature that is not valid, else the first one; reading past the end of an empty set is undefined. *)
Definition representative_result (set : XadesSignatureSet) : outcome XadesVerificationResult :=
  match first_where (fun r => negb (xv_signature_valid r)) (xs_signatures set), xs_signatures set with
  | Some r, _ | None, r :: _ => Ret r
  | None, [] => UB
  end.

(** The fields of the representative that are written before the trust of the signers is known. *)
Definition xml_format_report (all_valid : bool) (result : XadesVerificationResult) : VerifyReport :=
  let report := VerifyReport_default <| vr_has_result := true |> <| vr_execution_succeeded := true |>
    <| vr_signature_valid := all_valid |> <| vr_signature_format := "XAdES" |>
    <| vr_format_profile := SessionXadesProfileName result |>
    <| vr_signer_certificate_present := negb (is_empty (xv_signer_certificate_der result)) |>
    <| vr_qualifying_properties_present := xv_qualifying_properties_present result |>
    <| vr_timestamp_checked := xv_signature_timestamp_checked result |>
    <| vr_tsp_checked := xv_tsp_checked result |> in
  let report := if vr_timestamp_checked report
    then ApplyFormatTimestampVerdict report (xv_signature_timestamp_valid result) false else report in
  report <| vr_ltv_valid := xv_ltv_valid result |> <| vr_ltv_evidence_bound := xv_ltv_evidence_bound result |>
    <| vr_revocation_evidence_present := xv_revocation_values_present result |>
    <| vr_operation := "VerifyXml" |> <| vr_policy := "xades-format" |>.

(** The fields of the representative that are written again after the trust of the signers is known. *)
Definition restore_format (result : XadesVerificationResult) (report : VerifyReport) : VerifyReport :=
  let canonical_timestamp_full := vr_timestamp_status report ==s "timestamp-valid" in
  let report := report <| vr_signature_format := "XAdES" |> <| vr_format_profile := SessionXadesProfileName result |>
    <| vr_timestamp_checked := xv_signature_timestamp_checked result |> <| vr_tsp_checked := xv_tsp_checked result |> in
  let report := if vr_timestamp_checked report
    then ApplyFormatTimestampVerdict report (xv_signature_timestamp_valid result) canonical_timestamp_full else report in
  report <| vr_ltv_valid := xv_ltv_valid result |> <| vr_ltv_evidence_bound := xv_ltv_evidence_bound result |>
    <| vr_signature_policy_present := xv_signature_policy_present result |>
    <| vr_signature_policy_id := xv_signature_policy_id result |>
    <| vr_signature_policy_hash_algo_uri := xv_signature_policy_hash_algo_uri result |>
    <| vr_data_object_formats := ToSessionDataObjectFormats (xv_data_object_formats result) |>.

(** The profile is confirmed by the trust of all the signers. *)
Definition record_profile (result : XadesVerificationResult) (agg report : VerifyReport) : VerifyReport :=
  let xades_evidence_confirmed := xv_ltv_evidence_bound result && vr_trust_valid agg
    && revocation_confirmed (vr_revocation_status agg) in
  report <| vr_validated_profile := if xades_evidence_confirmed then SessionXadesProfileName result else "" |>
    <| vr_ltv_evidence_validated := xades_evidence_confirmed |>.

Definition xml_final_report (result : XadesVerificationResult) (report : VerifyReport) : VerifyReport :=
  let agg := ApplyPerSignerTrustAggregation report in
  record_profile result agg (AggregatePerSignerTimestamps (restore_format result agg)).

Definition xml_report (settings : Settings) (set : XadesSignatureSet) (disk : Disk) : outcome (VerifyReport * Disk) :=
  result ← representative_result set;
  '(entries, disk) ← signature_entries settings SessionXadesProfileName 1 (xs_signatures set) disk;
  Ret (xml_final_report result ((xml_format_report (xs_all_valid set) result) <| vr_signatures := entries |>), disk).

(** The returned flag, [is_valid] and the session. *)
Definition VerifyXml (signed_xml : string) (h : HandlerState) : outcome (bool * bool * HandlerState) :=
  let session := hs_session h in
  if negb (ss_is_initialized session) then
    Ret (false, false, with_error ErrorCode.NotInitialized (ErrorCode_ToString ErrorCode.NotInitialized) h)
  else
  match VerifyAllXades signed_xml ∅ with
  | inl error_message => Ret (false, false, with_error ErrorCode.InternalError error_message h)
  | inr set =>
      '(report, disk) ← xml_report (ss_settings session) set (z_disk (hs_state h));
      Ret (true, xs_all_valid set, commit_format_report report "" "XAdES" disk h)
  end.

(** ** What one signature contributes *)

(** The engine accepted the timestamp of the signature for the octets that the profile prescribes. *)
Definition xml_timestamp_accepted (settings : Settings) (one : XadesVerificationResult) : Prop :=
  xv_signature_timestamp_token_der one <> [] /\ xv_signature_timestamp_canonicalized_data one <> [] /\
  exists disk, tr_valid (Timestamp.Validate disk (token_input disk settings (xv_signature_timestamp_token_der one)
    (xv_signature_timestamp_canonicalized_data one) (xv_signing_time one) (xv_certificate_values_der one)
    (xv_revocation_values_ocsp_der one) (xv_revocation_values_crl_der one))).1 = true.

Lemma details_kept (r : VerifyReport) :
  vr_timestamp_details (ApplyTimestampDetailsVerdict r) = vr_timestamp_details r.
Proof. unfold ApplyTimestampDetailsVerdict. destruct (vr_timestamp_details r) eqn:E; [done|]. destruct (details_verdict _). by rewrite <- E. Qed.

Lemma policy_validation_spec (settings : Settings) (one : XadesVerificationResult) (disk : Disk) :
  exists r disk', ApplyXadesTimestampPolicyValidation settings one VerifyReport_default disk = Ret (r, disk') /\
    (vr_timestamp_details r = [] \/
     exists d, vr_timestamp_details r = [d] /\ (te_valid d = true -> xml_timestamp_accepted settings one)).
Proof.
  unfold ApplyXadesTimestampPolicyValidation. destruct (negb (xv_signature_timestamp_present one)); [by eexists _, _; split; [|left]|].
  set (report := (ApplyFormatTimestampVerdict _ _ _) <| vr_ltv_valid := _ |>).
  assert (vr_timestamp_details report = []) as Hnil.
  { unfold report, ApplyFormatTimestampVerdict. by destruct (xv_signature_timestamp_valid one). }
  clearbody report. cbv zeta. destruct (is_empty _ || is_empty _).
  { eexists _, _. split; [done|]. left. unfold AppendXadesTimestampMessage, AppendVerifyReportNote. exact Hnil. }
  match goal with |- context [TryCanonicalTimestampVerdict ?d ?st ?t ?im ?vt ?c ?o ?cr] =>
    destruct (TryCanonical_spec d st t im vt c o cr) as (v & disk' & E & Hv) end.
  unfold mbind, outcome_bind. rewrite E. clear E. destruct v as [[[valid reason] d]|]; [|by eexists _, _; split; [|left]].
  destruct Hv as (N1 & N2 & Hval & Hte & _).
  set (stamped := ApplyTimestampDetailsVerdict _).
  assert (vr_timestamp_details stamped = [d]) as Hd by (unfold stamped; rewrite details_kept; cbn; by rewrite Hnil).
  clearbody stamped. assert (te_valid d = true -> xml_timestamp_accepted settings one) as Hacc.
  { intros Hd'. split; [done|]. split; [done|]. exists disk. congruence. }
  destruct valid; [eexists _, _; split; [done|]; right; by exists d|].
  eexists _, _. split; [done|]. right. exists d. split; [|done].
  unfold ApplyTimestampFailureToTrust, AppendXadesTimestampMessage, AppendVerifyReportNote.
  destruct (str_empty reason); cbn; (destruct (_ ==s _); [|done]); by destruct (negb _).
Qed.

Lemma per_signer_timestamp_spec (settings : Settings) (one : XadesVerificationResult) (entry : SignatureEntry) (disk : Disk) :
  exists e disk', ApplyPerSignerXadesTimestampValidation settings one entry disk = Ret (e, disk') /\
    se_trust_valid e = se_trust_valid entry /\ se_revocation_status e = se_revocation_status entry /\
    (xv_signature_timestamp_present one = true ->
     exists d, d ∈ se_timestamp_details e /\ (te_valid d = true -> xml_timestamp_accepted settings one)).
Proof.
  unfold ApplyPerSignerXadesTimestampValidation. destruct (xv_signature_timestamp_present one); cbn [negb]; [|by eexists _, _].
  destruct (policy_validation_spec settings one disk) as (r & disk' & E & Hr). unfold mbind, outcome_bind. rewrite E.
  eexists _, _. split; [done|]. split; [done|]. split; [done|]. intros _.
  destruct Hr as [Hr|(d & Hr & Hacc)]; rewrite Hr; eexists; (split; [left|]); [done|exact Hacc].
Qed.

Lemma signature_step_spec (settings : Settings) (name_profile : XadesVerificationResult -> string) (index : Z)
    (one : XadesVerificationResult) (disk : Disk) :
  exists e disk', signature_step settings name_profile index one disk = Ret (e, disk') /\
    (good_entry e = true ->
     SignerGrounds disk (format_context settings [] (xv_revocation_values_ocsp_der one) (xv_revocation_values_crl_der one)
       (xv_signature_valid one)) (xv_signer_certificate_der one) (xv_certificate_values_der one)) /\
    (xv_signature_timestamp_present one = true ->
     exists d, d ∈ se_timestamp_details e /\ (te_valid d = true -> xml_timestamp_accepted settings one)).
Proof.
  unfold signature_step, ApplyPerSignerTrustValidation.
  assert (se_signature_valid (format_entry name_profile index one) = xv_signature_valid one) as ->.
  { unfold format_entry, ApplyEntryTimestampVerdict. by destruct (xv_signature_timestamp_checked one), (xv_signature_timestamp_valid one). }
  destruct (RunFormatTrust_spec disk settings (xv_signer_certificate_der one) [] (xv_certificate_values_der one)
    (xv_revocation_values_ocsp_der one) (xv_revocation_values_crl_der one) (xv_signature_valid one) VerifyReport_default)
    as (r & disk1 & E & _ & Hr). unfold mbind, outcome_bind. rewrite E. clear E.
  set (entry := copy_signer_verdict r _).
  assert (good_entry entry = good_verdict r) as Hgood by done. clearbody entry.
  destruct (per_signer_timestamp_spec settings one entry disk1) as (e & disk2 & E & Ht & Hs & Hd). rewrite E.
  eexists _, _. split; [done|]. split; [|exact Hd]. intros Hg.
  assert (good_verdict r = true) as Hgr by (rewrite <- Hgood; unfold good_entry in *; cbn in Hg; by rewrite <- Ht, <- Hs).
  destruct Hr as [[_ ->]|[Hne Happly]]; [done|]. exact (good_verdict_grounds disk _ _ _ _ r Hne Happly Hgr).
Qed.

Lemma signature_entries_spec (settings : Settings) (name_profile : XadesVerificationResult -> string) (index : Z)
    (sigs : list XadesVerificationResult) (disk : Disk) :
  exists entries disk', signature_entries settings name_profile index sigs disk = Ret (entries, disk') /\ length entries = length sigs /\
    forall i one, sigs !! i = Some one -> exists e disk1, entries !! i = Some e /\
      (good_entry e = true ->
       SignerGrounds disk1 (format_context settings [] (xv_revocation_values_ocsp_der one) (xv_revocation_values_crl_der one)
         (xv_signature_valid one)) (xv_signer_certificate_der one) (xv_certificate_values_der one)) /\
      (xv_signature_timestamp_present one = true ->
       exists d, d ∈ se_timestamp_details e /\ (te_valid d = true -> xml_timestamp_accepted settings one)).
Proof.
  revert index disk. induction sigs as [|one sigs IH]; intros index disk; [by exists [], disk|].
  cbn [signature_entries]. unfold mbind, outcome_bind.
  destruct (signature_step_spec settings name_profile index one disk) as (e & disk1 & E1 & Hg & Ht). rewrite E1.
  destruct (IH (index + 1) disk1) as (entries & disk2 & E2 & Hl & Hall). rewrite E2.
  eexists _, _. split; [done|]. split; [by cbn; rewrite Hl|].
  intros [|i] one'; [|apply Hall]. intros [= <-]. exists e, disk. by split.
Qed.

(** ** The final report *)

Lemma aggregate_timestamps_spec (r : VerifyReport) :
  let r' := AggregatePerSignerTimestamps r in
  kept r' = kept r /\ vr_signatures r' = vr_signatures r /\ vr_revocation_status r' = vr_revocation_status r /\
  (vr_trust_valid r' = true -> vr_trust_valid r = true) /\
  (vr_timestamp_status r' <> "timestamp-invalid" -> vr_timestamp_status r' <> "timestamp-partial" ->
   forall d, d ∈ concat (map se_timestamp_details (vr_signatures r)) -> te_valid d = true).
Proof.
  cbv zeta. unfold AggregatePerSignerTimestamps. set (details := concat _).
  set (stamped := ApplyTimestampDetailsVerdict _).
  assert (kept stamped = kept r /\ vr_signatures stamped = vr_signatures r /\
    vr_revocation_status stamped = vr_revocation_status r /\ vr_trust_valid stamped = vr_trust_valid r /\
    (vr_timestamp_status stamped <> "timestamp-invalid" -> vr_timestamp_status stamped <> "timestamp-partial" ->
     forall d, d ∈ details -> te_valid d = true)) as (B1 & B2 & B3 & B4 & B5).
  { unfold stamped, ApplyTimestampDetailsVerdict. cbn [vr_timestamp_details setter].
    destruct details as [|d0 l] eqn:Ed; [split_and!; try done; intros _ _; by intros d []%elem_of_nil|].
    rewrite details_verdict_spec. set (l' := d0 :: l). split_and!; try done. cbn [vr_timestamp_status vr_timestamp_valid setter].
    destruct (existsb _ l'); [done|]. destruct (forallb _ l') eqn:E; cbn; [|done].
    intros _ _ d Hd%list_elem_of_In. apply (proj1 (forallb_forall _ _) E) in Hd. by apply andb_true_iff in Hd as [? _]. }
  clearbody stamped. destruct (vr_timestamp_status stamped ==s "timestamp-invalid") eqn:Es; [|by rewrite B4].
  apply String.eqb_eq in Es. unfold ApplyTimestampFailureToTrust. destruct (negb (vr_trust_valid stamped)); [by rewrite B4|].
  by split_and!.
Qed.

Lemma aggregation_kept (r : VerifyReport) :
  kept (ApplyPerSignerTrustAggregation r) = kept r /\ vr_signatures (ApplyPerSignerTrustAggregation r) = vr_signatures r.
Proof.
  unfold ApplyPerSignerTrustAggregation. destruct (vr_signatures r) eqn:E; [done|]. by destruct (str_empty _).
Qed.

(** The verdicts that matter for the summary. *)
Definition core_view (r : VerifyReport) := (kept r, vr_signatures r, vr_revocation_status r, vr_trust_valid r).

Lemma restore_view (result : XadesVerificationResult) (r : VerifyReport) : core_view (restore_format result r) = core_view r.
Proof.
  unfold restore_format. set (named := r <| vr_signature_format := _ |> <| vr_format_profile := _ |>
    <| vr_timestamp_checked := _ |> <| vr_tsp_checked := _ |>).
  transitivity (core_view named); [|done]. set (stamped := if vr_timestamp_checked named then _ else named).
  transitivity (core_view stamped); [by destruct stamped|]. unfold stamped.
  destruct (vr_timestamp_checked named); [|done].
  match goal with |- context [ApplyFormatTimestampVerdict named ?c ?f] =>
    destruct (format_verdict_view named c f) as (V1 & V2 & V3 & _) end.
  unfold signer_view, verdict in V1. unfold core_view. rewrite V2, V3. f_equal; [f_equal|]; congruence.
Qed.

Lemma record_view (result : XadesVerificationResult) (agg r : VerifyReport) :
  core_view (record_profile result agg r) = core_view r /\
  vr_timestamp_status (record_profile result agg r) = vr_timestamp_status r.
Proof. done. Qed.

(** What the summary "valid" says in these terms. *)
Lemma summary_valid_core (r : VerifyReport) :
  ck_status (SummaryCheck r) = "valid" ->
  vr_signature_valid r = true /\ good_verdict r = true /\
  vr_timestamp_status r <> "timestamp-invalid" /\ vr_timestamp_status r <> "timestamp-partial".
Proof.
  intros (Hg & _ & _ & _ & Hpartial)%SummaryCheck_valid_iff. split; [apply Hg|]. split; [|split; [apply Hg|done]].
  unfold good_verdict. rewrite (proj2 (pg_trust _ Hg)). apply revocation_confirmed_spec, Hg.
Qed.

(** The summary "valid" asks every signer for trust, for a good revocation status and for accepted timestamps. *)
Lemma valid_through_stages (report agg before last final : VerifyReport) (details : list TimestampEntry) :
  kept agg = kept report -> core_view before = core_view agg -> kept last = kept before ->
  vr_revocation_status last = vr_revocation_status before ->
  (vr_trust_valid last = true -> vr_trust_valid before = true) ->
  (vr_timestamp_status last <> "timestamp-invalid" -> vr_timestamp_status last <> "timestamp-partial" ->
   forall d, d ∈ details -> te_valid d = true) ->
  core_view final = core_view last -> vr_timestamp_status final = vr_timestamp_status last ->
  ck_status (SummaryCheck final) = "valid" ->
  vr_signature_valid report = true /\ good_verdict agg = true /\ forall d, d ∈ details -> te_valid d = true.
Proof.
  intros K1 Hv A1 A3 A4 A5 R1 R2 (Hs & Hgood & N1 & N2)%summary_valid_core. rewrite R2 in N1, N2.
  unfold core_view in R1, Hv. unfold good_verdict in *. apply andb_true_iff in Hgood as [Ht Hr].
  assert (vr_signature_valid report = vr_signature_valid final) as E1 by (unfold kept in *; congruence).
  assert (vr_trust_valid final = vr_trust_valid last) as E2 by congruence.
  assert (vr_revocation_status agg = vr_revocation_status final) as E3 by congruence.
  assert (vr_trust_valid before = vr_trust_valid agg) as E4 by congruence.
  rewrite E2 in Ht. apply A4 in Ht. rewrite E4 in Ht.
  split; [congruence|]. rewrite Ht, E3. split; [done|]. by apply A5.
Qed.

Lemma xml_final_report_valid (result : XadesVerificationResult) (report : VerifyReport) :
  vr_signatures report <> [] -> ck_status (SummaryCheck (xml_final_report result report)) = "valid" ->
  vr_signature_valid report = true /\ forallb good_entry (vr_signatures report) = true /\
  (forall d, d ∈ concat (map se_timestamp_details (vr_signatures report)) -> te_valid d = true).
Proof.
  intros Hne Hs. rewrite <- (aggregation_good _ Hne). set (agg := ApplyPerSignerTrustAggregation report).
  destruct (aggregation_kept report) as [K1 K2].
  destruct (aggregate_timestamps_spec (restore_format result agg)) as (A1 & _ & A3 & A4 & A5).
  assert (vr_signatures (restore_format result agg) = vr_signatures report) as E.
  { pose proof (restore_view result agg) as Hv. unfold core_view in Hv.
    transitivity (vr_signatures agg); [congruence|exact K2]. }
  rewrite E in A5.
  exact (valid_through_stages report agg (restore_format result agg) (AggregatePerSignerTimestamps (restore_format result agg))
    (xml_final_report result report) _ K1 (restore_view result agg) A1 A3 A4 A5
    (proj1 (record_view result agg _)) (proj2 (record_view result agg _)) Hs).
Qed.

(** What a report on an XML document whose summary is "valid" rests on. *)
Record XmlReportGrounds (signed_xml : string) (settings : Settings) (set : XadesSignatureSet) : Prop := {
  xrg_signatures : XadesGrounds signed_xml ∅ set;
  xrg_signers : forall i one, xs_signatures set !! i = Some one -> exists disk,
    SignerGrounds disk (format_context settings [] (xv_revocation_values_ocsp_der one) (xv_revocation_values_crl_der one) true)
      (xv_signer_certificate_der one) (xv_certificate_values_der one);
  xrg_timestamps : forall i one, xs_signatures set !! i = Some one -> xv_signature_timestamp_present one = true ->
    xml_timestamp_accepted settings one
}.

Lemma xml_report_total (settings : Settings) (set : XadesSignatureSet) (disk : Disk) :
  xs_signatures set <> [] ->
  exists result entries disk', signature_entries settings SessionXadesProfileName 1 (xs_signatures set) disk = Ret (entries, disk') /\
    xml_report settings set disk =
      Ret (xml_final_report result ((xml_format_report (xs_all_valid set) result) <| vr_signatures := entries |>), disk').
Proof.
  intros Hne. unfold xml_report, representative_result.
  destruct (signature_entries_spec settings SessionXadesProfileName 1 (xs_signatures set) disk) as (entries & disk' & E & _).
  unfold mbind, outcome_bind. destruct (first_where _ _) as [r|].
  - exists r, entries, disk'. by rewrite E.
  - destruct (xs_signatures set) as [|r rest]; [done|]. exists r, entries, disk'. by rewrite E.
Qed.

Lemma xml_report_grounds (signed_xml : string) (settings : Settings) (set : XadesSignatureSet) (disk disk' : Disk)
    (report : VerifyReport) :
  VerifyAllXades signed_xml ∅ = inr set -> xml_report settings set disk = Ret (report, disk') ->
  ck_status (SummaryCheck report) = "valid" -> xs_all_valid set = true /\ XmlReportGrounds signed_xml settings set.
Proof.
  intros Ev Er Hs. destruct (VerifyAllXades_nonempty signed_xml ∅ set Ev) as [Hne Hall].
  destruct (xml_report_total settings set disk Hne) as (result & entries & disk2 & E & Er').
  rewrite Er in Er'. injection Er' as -> _.
  destruct (signature_entries_spec settings SessionXadesProfileName 1 (xs_signatures set) disk) as (entries' & disk3 & E' & Hl & Hi).
  rewrite E in E'. injection E' as <- _.
  apply xml_final_report_valid in Hs as (Hv & Hgood & Hts).
  2: { cbn. intros ->. by destruct (xs_signatures set). }
  assert (xs_all_valid set = true) as Hset.
  { rewrite <- Hv. unfold xml_format_report, ApplyFormatTimestampVerdict. cbn.
    by destruct (xv_signature_timestamp_checked result), (xv_signature_timestamp_valid result). }
  split; [done|]. cbn in Hgood, Hts. split; [by apply all_valid_grounds| |].
  - intros i one Ho. destruct (Hi i one Ho) as (e & disk1 & He & Hsg & _). exists disk1.
    assert (xv_signature_valid one = true) as Hone.
    { rewrite Hall in Hset. apply (proj1 (forallb_forall _ _) Hset). apply list_elem_of_In. by eapply list_elem_of_lookup_2. }
    rewrite <- Hone. apply Hsg. apply (proj1 (forallb_forall _ _) Hgood). apply list_elem_of_In. by eapply list_elem_of_lookup_2.
  - intros i one Ho Hp. destruct (Hi i one Ho) as (e & disk1 & He & _ & Ht). destruct (Ht Hp) as (d & Hd & Hacc).
    apply Hacc, Hts. apply list_elem_of_In, in_concat. exists (se_timestamp_details e).
    split; [|by apply list_elem_of_In]. apply in_map, list_elem_of_In. by eapply list_elem_of_lookup_2.
Qed.

(** ** The handler *)

(** [C4] The verification of an XML document always returns.  When it says that it could verify the document and the summary of
    the report it leaves is "valid", then [is_valid] is true and the document has no signature but those that the verifier
    of several signatures holds for, and of each of them - not only of one - the engine found the certificate trusted and not
    revoked, on grounds that hold, and accepted the timestamp, where there is one, for the octets that it
    stamps. *)
Theorem VerifyXml_end_to_end (signed_xml : string) (h : HandlerState) :
  exists returned is_valid h', VerifyXml signed_xml h = Ret (returned, is_valid, h') /\
    (returned = true -> ck_status (SummaryCheck (last_report h')) = "valid" ->
     is_valid = true /\ ss_is_initialized (hs_session h) = true /\
     exists set, VerifyAllXades signed_xml ∅ = inr set /\ XmlReportGrounds signed_xml (ss_settings (hs_session h)) set).
Proof.
  unfold VerifyXml. destruct (ss_is_initialized (hs_session h)); cbn [negb]; [|by eexists _, _, _].
  destruct (VerifyAllXades signed_xml ∅) as [e|set] eqn:Ev; [by eexists _, _, _|].
  destruct (VerifyAllXades_nonempty signed_xml ∅ set Ev) as [Hne _].
  destruct (xml_report_total (ss_settings (hs_session h)) set (z_disk (hs_state h)) Hne) as (result & entries & disk & _ & Er).
  unfold mbind, outcome_bind. rewrite Er. eexists _, _, _. split; [done|]. intros _ Hs.
  destruct (xml_report_grounds signed_xml _ set _ _ _ Ev Er Hs) as [Hv Hg]. split; [done|]. split; [done|]. by exists set.
Qed.

End VerifyXml.

(** ** A signed document *)

Module SampleXml.

Import SampleSignature SampleXades SampleCms SampleToken SessionPdf.SampleHandler.

Definition qualified : xmlNode :=
  ds "Signature" []
    [signed_info_of genuine_digest; ds "SignatureValue" [] [Text genuine_value];
     ds "KeyInfo" [] [ds "X509Data" [] [ds "X509Certificate" [] [Text (Base64.Base64Encode toy_leaf)]]];
     ds "Object" [] [xa "QualifyingProperties" []
       [xa "SignedProperties" [] [xa "SigningTime" [] [Text morning]; xa "CertDigest" [] (sha256_of toy_leaf)];
        xa "UnsignedProperties" [] [xa "CertificateValues" [] [xa "EncapsulatedX509Certificate" [] [Text (Base64.Base64Encode toy_ca)]]]]]].

Definition qualified_document : xmlNode :=
  Element "TrustServiceStatusList" "" []
    [Element "SchemeName" "" [] [Text "genuine"]; Element "ServiceName" "" [] [Text "CA of Alice"]; qualified].

Definition one_document : LibXml := {| xmlReadMemory text := Some (MkXmlDoc false (Some qualified_document)) |}.

#[local] Existing Instances toy_clock toy_cert_api toy_crl_api toy_ocsp_api toy_http toy_metadata_api toy_cms_api
  toy_token_digests SampleRun.toy_external tamga_timestamps SampleRun.toy_run_store one_document toy_crypto.

Abbreviation xml_run := (VerifyXml morning start).

Lemma xml_run_flags : flags xml_run = Some (true, true).
Proof. vm_compute. reflexivity. Qed.

Lemma VerifyXml_end_to_end_witness :
  ck_status (SummaryCheck (last_report (last_state xml_run))) = "valid" /\
  exists set, VerifyAllXades morning ∅ = inr set /\ XmlReportGrounds morning (ss_settings (hs_session start)) set.
Proof.
  assert (ck_status (SummaryCheck (last_report (last_state xml_run))) = "valid") as Hs by (vm_compute; reflexivity).
  split; [exact Hs|].
  destruct (run_elim xml_run _ xml_run_flags (VerifyXml_end_to_end morning start) eq_refl Hs) as (_ & _ & Hg). exact Hg.
Defined.

End SampleXml.
