(* ===== verification/SessionAsic.v ===== *)
(** * SessionAsic: the handlers that verify containers

    [Session::VerifyFileAsicS], [VerifyFileAsicE] and [VerifyFileAsicEXades] of
    [core/session/SessionAsicOps.ipp] with their helpers.  A container with CAdES signatures is
    unpacked by [Asic] and each signature goes through [Session.VerifyData]; one with XAdES
    signatures goes through [Xades], with its entries as the external references, and the engines
    as in [SessionXml]. *)

From stdpp Require Import sorting.
From S2P Require Import Prelude CxxString Types Time Der Codec FileSystem Paths Sha256 Cryptonite Fixture X509Name Chain Imprint AsicUri KeyNormalize CertResolve.
From S2P Require Import PathEngine Crl Ocsp Revocation Resolvers TrustList XmlDsig Evidence Timestamp Xades Validation Report Projection ReportJson.
From S2P Require Import Session Cms TokenValidator Pades Asic SessionFormats SessionPdf SessionXml.

Local Open Scope Z_scope.
Local Open Scope tamga_scope.

Import AsicReader.

(** ** Digests and references of a manifest *)

Definition DigestOidToXmlDsigUri (digest_oid : string) : string :=
  if digest_oid ==s "1.2.804.2.1.1.1.1.2.2.1" then "http://www.w3.org/2001/04/xmlenc#dstu7564-256"
  else if digest_oid ==s "1.2.804.2.1.1.1.1.2.1" then "http://www.w3.org/2001/04/xmldsig-more#gost34311"
  else if digest_oid ==s "2.16.840.1.101.3.4.2.1" then "http://www.w3.org/2001/04/xmlenc#sha256"
  else if digest_oid ==s "2.16.840.1.101.3.4.2.2" then "http://www.w3.org/2001/04/xmldsig-more#sha384"
  else if digest_oid ==s "2.16.840.1.101.3.4.2.3" then "http://www.w3.org/2001/04/xmlenc#sha512"
  else "".

Definition XmlDsigUriToDigest (uri : string) : option ImprintDigest :=
  if str_contains uri "kupyna256" || str_contains uri "kupyna-256" || str_contains uri "dstu7564" then Some Kupyna256
  else if str_contains uri "gost34311" then Some Gost34311
  else if str_contains uri "sha256" then Some DigestSha256
  else None.

(** The raw string when its escapes are malformed; then the leading slashes are dropped. *)
Fixpoint drop_slashes (l : list ascii) : list ascii :=
  match l with
  | c :: rest => if Ascii.eqb c "/" then drop_slashes rest else l
  | [] => []
  end.

Definition NormalizeCoverageUri (uri : string) : string :=
  match NormalizeAsicEntryUri uri with inr out => out | inl _ => uri end.

Definition NormalizeAsicReference (value : string) : string :=
  of_chars (drop_slashes (chars (NormalizeCoverageUri value))).

(** The map from normalized names to names, or the two names that become one. *)
Fixpoint normalize_names (normalize : string -> string) (names : list string) (normalized_to_raw : gmap string string)
    : (string * string * string) + gmap string string :=
  match names with
  | [] => inr normalized_to_raw
  | name :: names =>
      let normalized := normalize name in
      match normalized_to_raw !! normalized with
      | Some existing =>
          if negb (existing ==s name) then inl (existing, name, normalized)
          else normalize_names normalize names (<[normalized := name]> normalized_to_raw)
      | None => normalize_names normalize names (<[normalized := name]> normalized_to_raw)
      end
  end.

Definition ambiguous_names (clash : string * string * string) : string :=
  let '(existing, name, normalized) := clash in
  "ASiC-E контейнер містить неоднозначні entry-імена: '" +s+ existing +s+ "' і '" +s+ name
  +s+ "' нормалізуються до однакового URI '" +s+ normalized +s+ "'".

(** The files that the references name, each once. *)
Fixpoint find_referenced (files : list FileEntry) (normalized_to_raw : gmap string string) (data_refs : list AsicDataObjectRef)
    (referenced_names : gset string) : string + list FileEntry :=
  match data_refs with
  | [] => inr []
  | data_ref :: data_refs =>
      let data_uri := NormalizeAsicReference (ar_uri data_ref) in
      let! raw := normalized_to_raw !! data_uri else ("ASiC-E manifest references a missing data object: " +s+ data_uri) in
      if bool_decide (raw ∈ referenced_names)
      then inl ("ASiC-E manifest references the same data object more than once: " +s+ data_uri)
      else
      let! file := List.find (fun candidate => fe_filename candidate ==s raw) files
        else ("ASiC-E manifest references a missing data object: " +s+ data_uri) in
      let? referenced_files := find_referenced files normalized_to_raw data_refs ({[ raw ]} ∪ referenced_names) in
      inr (file :: referenced_files)
  end.

Section Manifests.
Context `{!LibXml, !XmlProps, !DigestApi}.

Definition AsicManifestDigestMatches (ref : AsicDataObjectRef) (data : bytes) : string + unit :=
  let! alg := XmlDsigUriToDigest (ar_digest_uri ref) else ("непідтримуваний DigestMethod: " +s+ ar_digest_uri ref) in
  match Base64.Base64Decode (ar_digest_base64 ref) with
  | None | Some [] => inl "DigestValue не є коректним base64"
  | Some expected =>
      let? actual := ComputeImprint alg data in
      if bool_decide (im_hash actual = expected) then inr tt
      else inl "обчислений геш не збігається зі значенням у маніфесті"
  end.

Definition FindAsicEReferencedFiles (content : AsicEContent) (signature : AsicESignature) : string + list FileEntry :=
  if is_empty (es_signature_data signature) then inl "ASiC-E signature entry is empty"
  else if str_empty (es_manifest_xml signature) then
    match ec_files content with
    | [file] => inr [file]
    | _ => inl "ASiC-E signature has no manifest for multi-file container"
    end
  else
  match ParseAsicManifestXml (es_manifest_xml signature) with
  | (false, _, _) => inl "ASiC-E signature manifest cannot be parsed"
  | (true, sig_uri, data_refs) =>
      let normalized_sig_uri := NormalizeAsicReference sig_uri in
      let normalized_sig_name := NormalizeAsicReference (es_sig_filename signature) in
      if negb (str_empty normalized_sig_uri) && negb (normalized_sig_uri ==s normalized_sig_name)
         && negb (NormalizeAsicReference ("META-INF/" +s+ normalized_sig_uri) ==s normalized_sig_name)
      then inl "ASiC-E manifest signature reference does not match signature entry"
      else if is_empty data_refs then inl "ASiC-E signature manifest must reference at least one signed data object"
      else
      match normalize_names NormalizeAsicReference (map fe_filename (ec_files content)) ∅ with
      | inl clash => inl (ambiguous_names clash)
      | inr normalized_to_raw => find_referenced (ec_files content) normalized_to_raw data_refs ∅
      end
  end.

(** The loop over the references and the files they name; reading past the end of the files is undefined.  The answer is the
    first name whose digest does not match. *)
Fixpoint mismatched_digest (refs : list AsicDataObjectRef) (files : list FileEntry) : outcome (option (string * string)) :=
  match refs, files with
  | [], _ => Ret None
  | _ :: _, [] => UB
  | ref :: refs, file :: files =>
      match AsicManifestDigestMatches ref (fe_data file) with
      | inl digest_error => Ret (Some (fe_filename file, digest_error))
      | inr _ => mismatched_digest refs files
      end
  end.

End Manifests.

(** ** The layout of a container *)

Definition is_xades_entry (name : string) : bool :=
  starts_with name "META-INF/signatures" && (4 <=? String.length name)%nat
  && (substr_from name (String.length name - 4) ==s ".xml").

Section Layout.
Context `{!Miniz}.

Definition ContainerHasXadesSignature (container : bytes) : bool :=
  match LoadFromBuffer container with
  | inl _ => false
  | inr zip =>
      match GetFiles zip with
      | inl _ => false
      | inr entries => existsb (fun entry => is_xades_entry (af_name entry)) entries
      end
  end.

Definition detected_container_type (zip : ZipReader) : string :=
  match GetMimetype zip with
  | Some mimetype => if str_contains mimetype "asic-s" then "ASiC-S" else "ASiC-E"
  | None => "ASiC-E"
  end.

End Layout.

(** ** The text about an XML signature *)

Definition reference_diagnostics (ref : XmlReferenceVerificationDetail) : string :=
  "uri='" +s+ rd_uri ref +s+ "' type='" +s+ rd_type ref +s+ "' digestMethod='" +s+ rd_digest_method ref
  +s+ "' status=" +s+ rd_status ref
  +s+ " expectedBase64='" +s+ rd_expected_base64 ref +s+ "' expectedHex='" +s+ rd_expected_hex ref
  +s+ "' computedBase64='" +s+ rd_computed_base64 ref +s+ "' computedHex='" +s+ rd_computed_hex ref +s+ "'"
  +s+ (if str_empty (rd_error ref) then "" else " error='" +s+ rd_error ref +s+ "'").

Definition BuildXadesXmlDiagnostics (result : XadesVerificationResult) : string :=
  let xml := xv_xml_signature result in
  let number (n : nat) := to_string (Z.of_nat n) in
  "XMLDSig diagnostics: digestValid=" +s+ bool_text (xr_digest_valid xml)
  +s+ "; signatureValid=" +s+ bool_text (xr_signature_valid xml)
  +s+ "; signatureValue=" +s+ (if xr_signature_value_valid xml then "ok" else "failed")
  +s+ (if str_empty (xr_signature_value_error xml) then "" else " error='" +s+ xr_signature_value_error xml +s+ "'")
  +s+ "; xadesProfile=" +s+ xv_format_profile result
  +s+ "; signatureTimeStampPresent=" +s+ bool_text (xv_signature_timestamp_present result)
  +s+ "; timestampChecked=" +s+ bool_text (xv_signature_timestamp_checked result)
  +s+ "; timestampValid=" +s+ bool_text (xv_signature_timestamp_valid result)
  +s+ "; tspChecked=" +s+ bool_text (xv_tsp_checked result)
  +s+ "; certificateValues=" +s+ number (xv_certificate_values_count result)
  +s+ "; revocationValues=" +s+ number (xv_revocation_values_count result)
  +s+ "; ltvValid=" +s+ bool_text (xv_ltv_valid result)
  +s+ "; signedInfoLen=" +s+ number (xr_signed_info_canonicalized_length xml)
  +s+ "; signedInfoHashHex=" +s+ xr_signed_info_hash_hex xml
  +s+ "; signedInfoHashBase64=" +s+ xr_signed_info_hash_base64 xml
  +s+ "; signedPropertiesLen=" +s+ number (xr_signed_properties_canonicalized_length xml)
  +s+ "; signedPropertiesHashHex=" +s+ xr_signed_properties_hash_hex xml
  +s+ "; signedPropertiesHashBase64=" +s+ xr_signed_properties_hash_base64 xml
  +s+ "; references=[" +s+ String.concat "; " (map reference_diagnostics (xr_reference_details xml)) +s+ "]".

(** ** The session as the handlers of files see it *)

Section VerifyAsic.
Context `{Clock, !Platform, !CertApi, !Validators, !TimestampApi, !StoreApi, !LibXml, !MetadataApi, !SessionApi}.
Context `{!XmlCrypto, !DigestApi, !Miniz, !XmlProps, !FileApi}.

(** What a handler is given besides the path: the settings of the files, the file system at the first reading and the stream on the file
    at the second. *)
Record Files := MkFiles { fl_settings : FileStoreSettings; fl_fs : Fs; fl_stream : string -> StreamCalls }.

(** [RefreshUserReportForCurrentOperation] on the session. *)
Definition refresh_user_report (h : HandlerState) : HandlerState :=
  MkHandlerState (hs_state h)
    (RefreshUserReportForCurrentOperation (last_report h) (ss_last_signer_metadata (hs_session h))).

(** [SetVerifyReport] of the session. *)
Definition set_report (operation : string) (execution_succeeded : bool) (code : ErrorCode.t) (message : string) (h : HandlerState)
    : HandlerState :=
  let st := hs_state h in
  let '(epochs, session) := SetVerifyReport operation execution_succeeded false code message (z_epochs st) (z_session st) in
  refresh_user_report (MkHandlerState (MkState epochs session (z_disk st)) (hs_user_report h)).

(** A call that could not verify: the report and the error. *)
Definition report_failure (operation : string) (code : ErrorCode.t) (message : string) (h : HandlerState) : HandlerState :=
  with_error code message (set_report operation false code message h).

Definition owned (h : HandlerState) : bool := StillOwnedByThisThread (z_epochs (hs_state h)) (hs_session h).

Definition update_report (f : VerifyReport -> VerifyReport) (h : HandlerState) : HandlerState :=
  let st := hs_state h in
  refresh_user_report
    (MkHandlerState (MkState (z_epochs st) ((z_session st) <| ss_last_verify_report ::= f |>) (z_disk st)) (hs_user_report h)).

Definition override_operation (operation : string) (h : HandlerState) : HandlerState :=
  if vr_has_result (last_report h) && owned h then update_report (fun r => r <| vr_operation := operation |>) h else h.

(** [Session::VerifyData] with the text for the user that it leaves. *)
Definition verify_data (data signature : bytes) (h : HandlerState) : outcome (bool * bool * HandlerState) :=
  '(executed, is_valid, st) ← VerifyData data signature (hs_state h);
  Ret (executed, is_valid, refresh_user_report (MkHandlerState st (hs_user_report h))).

Definition on_disk (disk : Disk) (h : HandlerState) : HandlerState :=
  let st := hs_state h in MkHandlerState (MkState (z_epochs st) (z_session st) disk) (hs_user_report h).

(** The timestamp of the container, over a signature. *)
Definition container_timestamp (settings : Settings) (token signature : bytes) (h : HandlerState) : outcome HandlerState :=
  '(verdict, disk) ← TryCanonicalTimestampVerdict (z_disk (hs_state h)) settings token signature "" [] [] [];
  let '(canonical_full, canonical_reason, detail) :=
    match verdict with
    | Some (canonical_valid, reason, detail) => (canonical_valid, reason, detail)
    | None => (false, "", TimestampEntry_default)
    end in
  let detail := detail <| te_kind := "container" |> in
  let ts := ValidateTimestampToken token signature [] in
  let h := on_disk disk h in
  if negb (owned h) then Ret h else
  Ret (update_report (fun report =>
    let report := ApplyFormatTimestampVerdict (report <| vr_timestamp_checked := true |> <| vr_tsp_checked := true |>
      <| vr_timestamp_details ::= fun l => l ++ [detail] |>) (tv_valid ts) canonical_full in
    if str_empty canonical_reason then report else AppendContainerTimestampMessage report canonical_reason) h).

(** ** Containers with XAdES signatures *)

Definition AsicXadesProfileName (result : XadesVerificationResult) : string :=
  if str_empty (xv_format_profile result) then "XAdES" else xv_format_profile result.

(** The documents of signatures and the documents they may refer to, in the order of the entries. *)
Definition signature_xmls (entries : list AsicFileEntry) : list string :=
  map (fun e => text_of (af_data e)) (List.filter (fun e => is_xades_entry (af_name e)) entries).

Definition data_entries (entries : list AsicFileEntry) : list AsicFileEntry :=
  List.filter (fun e => negb (is_xades_entry (af_name e)) && is_document (af_name e)) entries.

Definition external_of (entries : list AsicFileEntry) : gmap string bytes :=
  foldl (fun external e => <[NormalizeCoverageUri (af_name e) := af_data e]> external) ∅ (data_entries entries).

(** The results of all signatures, their entries in the report and the disk; an error of the verifier ends the loop. *)
Fixpoint verify_documents (settings : Settings) (external : gmap string bytes) (documents : list string) (total_count : Z) (disk : Disk)
    : outcome (string * Disk + list XadesVerificationResult * list SignatureEntry * Disk) :=
  match documents with
  | [] => Ret (inr ([], [], disk))
  | sig_xml :: documents =>
      match VerifyAllXades sig_xml external with
      | inl err => Ret (inl (err, disk))
      | inr one_set =>
          '(entries, disk) ← signature_entries settings AsicXadesProfileName (total_count + 1) (xs_signatures one_set) disk;
          rest ← verify_documents settings external documents (total_count + Z.of_nat (length (xs_signatures one_set))) disk;
          Ret (match rest with
               | inl failure => inl failure
               | inr (results, more, disk) => inr (xs_signatures one_set ++ results, entries ++ more, disk)
               end)
      end
  end.

(** The detached references of a signature, normalized. *)
Definition covered_by (r : XadesVerificationResult) : list string :=
  omap (fun rd => if is_external (rd_uri rd) then Some (NormalizeCoverageUri (rd_uri rd)) else None)
    (xr_reference_details (xv_xml_signature r)).

Definition covered_uris (results : list XadesVerificationResult) : list string := concat (map covered_by results).

(** [std::map] keeps its keys in order. *)
Definition key_le (a b : string) : Prop := str_leb a b = true.
#[local] Instance key_le_decision (a b : string) : Decision (key_le a b).
Proof. unfold key_le. apply _. Defined.

Definition sorted_keys (external : gmap string bytes) : list string :=
  merge_sort key_le (map fst (map_to_list external)).

Definition uncovered (external : gmap string bytes) (results : list XadesVerificationResult) : list string :=
  List.filter (fun key => negb (existsb (String.eqb key) (covered_uris results))) (sorted_keys external).

(** The first signature that is not valid, else the first; without any signature a default result is left. *)
Definition asic_representative (results : list XadesVerificationResult) : XadesVerificationResult :=
  match first_where (fun r => negb (xv_signature_valid r)) results with
  | Some r => r
  | None => default XadesVerificationResult_default (head results)
  end.

(** The names with a separator before each one but the first, as a loop writes them. *)
Definition listed (separator : string) (names : list string) : string :=
  foldl (fun out name => (if str_empty out then out else out +s+ separator) +s+ name) "" names.

Definition coverage_note (total_count valid_count : nat) (complete : bool) (uncovered_list : string) : string :=
  "; signaturesTotal=" +s+ to_string (Z.of_nat total_count) +s+ "; signaturesValid=" +s+ to_string (Z.of_nat valid_count)
  +s+ "; containerCoverageComplete=" +s+ bool_text complete
  +s+ (if complete then "" else "; uncovered=[" +s+ uncovered_list +s+ "]").

(** The report before the trust of the signers is known. *)
Definition asic_format_report (all_valid : bool) (container_type : string) (uncovered_keys : list string)
    (results : list XadesVerificationResult) (result : XadesVerificationResult) : VerifyReport :=
  let report := VerifyReport_default <| vr_has_result := true |> <| vr_execution_succeeded := true |>
    <| vr_signature_valid := all_valid |> <| vr_signature_format := "XAdES" |>
    <| vr_format_profile := AsicXadesProfileName result |> <| vr_container_type := container_type |>
    <| vr_signer_certificate_present := negb (is_empty (xv_signer_certificate_der result)) |>
    <| vr_qualifying_properties_present := xv_qualifying_properties_present result |>
    <| vr_timestamp_checked := xv_signature_timestamp_checked result |> <| vr_tsp_checked := xv_tsp_checked result |> in
  let report := if vr_timestamp_checked report
    then ApplyFormatTimestampVerdict report (xv_signature_timestamp_valid result) false else report in
  let coverage_complete := is_empty uncovered_keys in
  report <| vr_ltv_valid := xv_ltv_valid result |> <| vr_ltv_evidence_bound := xv_ltv_evidence_bound result |>
    <| vr_revocation_evidence_present := xv_revocation_values_present result |>
    <| vr_signature_policy_present := xv_signature_policy_present result |>
    <| vr_signature_policy_id := xv_signature_policy_id result |>
    <| vr_signature_policy_hash_algo_uri := xv_signature_policy_hash_algo_uri result |>
    <| vr_data_object_formats := ToSessionDataObjectFormats (xv_data_object_formats result) |>
    <| vr_container_coverage_complete := coverage_complete |>
    <| vr_coverage_status := if coverage_complete then "complete" else "container-object-not-signed" |>
    <| vr_operation := "VerifyFileAsicEXades" |> <| vr_policy := "xades-format" |>
    <| vr_message := BuildXadesXmlDiagnostics result
         +s+ coverage_note (length results) (length (List.filter xv_signature_valid results))
              coverage_complete (listed "," uncovered_keys) |>.

(** The kind of the container and of its signatures, written again after the aggregation. *)
Definition name_container (container_type : string) (result : XadesVerificationResult) (report : VerifyReport) : VerifyReport :=
  report <| vr_container_type := container_type |> <| vr_signature_format := "XAdES" |>
    <| vr_format_profile := AsicXadesProfileName result |>.

(** The profile is confirmed by the trust of all the signers. *)
Definition record_asic_profile (result : XadesVerificationResult) (agg report : VerifyReport) : VerifyReport :=
  let xades_evidence_confirmed := xv_ltv_evidence_bound result && vr_trust_valid agg
    && revocation_confirmed (vr_revocation_status agg) in
  report <| vr_validated_profile := if xades_evidence_confirmed then AsicXadesProfileName result else "" |>
    <| vr_ltv_evidence_validated := xades_evidence_confirmed |>.

Definition asic_final_report (container_type : string) (result : XadesVerificationResult) (report : VerifyReport) : VerifyReport :=
  let agg := ApplyPerSignerTrustAggregation report in
  record_asic_profile result agg (AggregatePerSignerTimestamps (name_container container_type result agg)).

(** The report on a container whose signatures were all examined, and whether everything is covered. *)
Definition asic_report (container_type : string) (external : gmap string bytes) (results : list XadesVerificationResult)
    (entries : list SignatureEntry) : VerifyReport * bool :=
  let result := asic_representative results in
  let all_valid := forallb xv_signature_valid results in
  let uncovered_keys := uncovered external results in
  (asic_final_report container_type result
     ((asic_format_report all_valid container_type uncovered_keys results result) <| vr_signatures := entries |>),
   all_valid && is_empty uncovered_keys).

(** The container itself is at fault, while the call did its work. *)
Definition report_malformed (operation message : string) (h : HandlerState) : HandlerState :=
  with_error ErrorCode.InvalidArgument message
    (update_report (fun r => r <| vr_container_malformed := true |>)
       (set_report operation true ErrorCode.InvalidArgument message h)).

Definition clear_error (h : HandlerState) : HandlerState :=
  let st := hs_state h in
  MkHandlerState (MkState (z_epochs st) (ClearError (z_session st)) (z_disk st)) (hs_user_report h).

(** The returned flag, [is_valid] and the session.  The code writes the caller's [is_valid] only once the session is known to be
    initialised; the flag is modelled as [false] there, which is what the C API passes in (TamgaCApi.cpp). *)
Definition VerifyFileAsicEXades (files : Files) (asice_path : string) (h : HandlerState) : outcome (bool * bool * HandlerState) :=
  let operation := "VerifyFileAsicEXades" in
  let failed (message : string) (h : HandlerState) := Ret (false, false, report_failure operation ErrorCode.InvalidArgument message h) in
  let session := hs_session h in
  if negb (ss_is_initialized session) then
    Ret (false, false, report_failure operation ErrorCode.NotInitialized (ErrorCode_ToString ErrorCode.NotInitialized) h)
  else
  let path := ResolveFilePath asice_path (fl_settings files) in
  match LoadFromFile (fl_stream files path) path with
  | inl error_message => failed error_message h
  | inr zip =>
      match GetFiles zip with
      | inl error_message => failed error_message h
      | inr entries =>
          match normalize_names NormalizeCoverageUri (map af_name (data_entries entries)) ∅ with
          | inl clash => Ret (true, false, report_malformed operation (ambiguous_names clash) h)
          | inr _ =>
              let documents := signature_xmls entries in
              let external := external_of entries in
              if is_empty documents || bool_decide (external = ∅) then
                let message := if is_empty documents then "ASiC-E XAdES signature entry not found"
                               else "ASiC-E document entry not found" in
                Ret (true, false, clear_error (set_report operation true ErrorCode.InvalidArgument message h))
              else
              verified ← verify_documents (ss_settings session) external documents 0 (z_disk (hs_state h));
              match verified with
              | inl (err, disk) => failed err (on_disk disk h)
              | inr (results, entries, disk) =>
                  let '(report, is_valid) := asic_report (detected_container_type zip) external results entries in
                  Ret (true, is_valid, commit_format_report report "ASiC-E" "XAdES" disk h)
              end
          end
      end
  end.

(** ** ASiC-S *)

(** The one document is what the signature is over. *)
Definition whole_asics (r : VerifyReport) : VerifyReport :=
  r <| vr_container_type := "ASiC-S" |> <| vr_container_coverage_complete := true |> <| vr_coverage_status := "complete" |>.

(** As there, an uninitialised session leaves [is_valid] at the [false] of the caller. *)
Definition VerifyFileAsicS (files : Files) (asics_path : string) (h : HandlerState) : outcome (bool * bool * HandlerState) :=
  let operation := "VerifyFileAsicS" in
  let session := hs_session h in
  if negb (ss_is_initialized session) then
    Ret (false, false, report_failure operation ErrorCode.NotInitialized (ErrorCode_ToString ErrorCode.NotInitialized) h)
  else
  match ReadBinaryFile (fl_fs files) (ResolveFilePath asics_path (fl_settings files)) "ASiC-S file" with
  | inl error_message => Ret (false, false, report_failure operation ErrorCode.InvalidArgument error_message h)
  | inr container =>
      if ContainerHasXadesSignature container then VerifyFileAsicEXades files asics_path h
      else
      match AsicS_Unpack container with
      | inl error_message =>
          Ret (false, false, report_failure operation ErrorCode.InvalidArgument ("ASiC-S unpack failed: " +s+ error_message) h)
      | inr content =>
          '(result, is_valid, h) ← verify_data (sc_file_data content) (sc_signature_data content) h;
          let h := override_operation operation h in
          let h := if owned h
            then update_report whole_asics h
            else h in
          if result && negb (is_empty (sc_timestamp_data content)) then
            h ← container_timestamp (ss_settings session) (sc_timestamp_data content) (sc_signature_data content) h;
            Ret (true, is_valid, h)
          else Ret (result, is_valid, h)
      end
  end.

(** ** ASiC-E with CAdES signatures *)

(** The state of the loop over the signatures. *)
Record AsicELoop := MkAsicELoop {
  ae_all_valid : bool;
  ae_structural_error : string;
  ae_entries : list SignatureEntry;
  ae_valid_count : nat;
  ae_covered_files : gset string;
  ae_session : HandlerState
}.

Definition next_index (s : AsicELoop) : Z := Z.of_nat (length (ae_entries s)) + 1.

(** The first of the errors is kept. *)
Definition note_error (message : string) (s : AsicELoop) : AsicELoop :=
  MkAsicELoop (ae_all_valid s) (if str_empty (ae_structural_error s) then message else ae_structural_error s)
    (ae_entries s) (ae_valid_count s) (ae_covered_files s) (ae_session s).

(** A signature that is not examined. *)
Definition reject_signature (message : string) (s : AsicELoop) : AsicELoop :=
  let s' := note_error message s in
  MkAsicELoop false (ae_structural_error s')
    (ae_entries s ++ [SignatureEntry_default <| se_index := next_index s |> <| se_signature_valid := false |>])
    (ae_valid_count s) (ae_covered_files s) (ae_session s).

Definition has_any_digest (refs : list AsicDataObjectRef) : bool :=
  existsb (fun ref => negb (str_empty (ar_digest_uri ref)) || negb (str_empty (ar_digest_base64 ref))) refs.
Definition has_all_digests (refs : list AsicDataObjectRef) : bool :=
  forallb (fun ref => negb (str_empty (ar_digest_uri ref)) && negb (str_empty (ar_digest_base64 ref))) refs.

(** The entry takes the timestamp of the report that [VerifyData] left. *)
Definition with_timestamp (executed : bool) (h : HandlerState) (entry : SignatureEntry) : SignatureEntry :=
  if executed && owned h then
    let report := last_report h in
    entry <| se_timestamp_checked := vr_timestamp_checked report |> <| se_timestamp_valid := vr_timestamp_valid report |>
      <| se_timestamp_status := vr_timestamp_status report |>
      <| se_timestamp_details := map (fun d => d <| te_signature_index := se_index entry |>) (vr_timestamp_details report) |>
  else entry.

(** After [VerifyData] and the digests. *)
Definition record_signature (executed sig_valid : bool) (referenced_files : list FileEntry) (h : HandlerState) (s : AsicELoop)
    : AsicELoop :=
  let valid := executed && sig_valid in
  let entry := with_timestamp executed h
    (SignatureEntry_default <| se_index := next_index s |> <| se_signature_valid := valid |>) in
  MkAsicELoop (ae_all_valid s && valid) (ae_structural_error s) (ae_entries s ++ [entry])
    (if valid then S (ae_valid_count s) else ae_valid_count s)
    (if valid then list_to_set (map fe_filename referenced_files) ∪ ae_covered_files s else ae_covered_files s) h.

Definition verify_entry (content : AsicEContent) (sig : AsicESignature) (s : AsicELoop) : outcome AsicELoop :=
  match FindAsicEReferencedFiles content sig with
  | inl reference_error => Ret (reject_signature reference_error s)
  | inr referenced_files =>
      let '(manifest_parsed, _, manifest_refs) :=
        if str_empty (es_manifest_xml sig) then (false, "", []) else ParseAsicManifestXml (es_manifest_xml sig) in
      let any := has_any_digest manifest_refs in
      let all := manifest_parsed && negb (is_empty manifest_refs) && has_all_digests manifest_refs in
      if any && negb all then
        Ret (reject_signature "ASiC-E manifest must provide DigestMethod and DigestValue for every data object" s)
      else if negb all && negb (length referenced_files =? 1)%nat then
        Ret (reject_signature "Legacy ASiC-E direct signature must reference exactly one data object" s)
      else if all then
        '(executed, sig_valid, h) ← verify_data (ToBytes (es_manifest_xml sig)) (es_signature_data sig) (ae_session s);
        if executed && sig_valid then
          mismatch ← mismatched_digest manifest_refs referenced_files;
          match mismatch with
          | None => Ret (record_signature executed true referenced_files h s)
          | Some (filename, digest_error) =>
              Ret (record_signature executed false referenced_files h
                     (note_error ("ASiC-E manifest digest does not match the data object '" +s+ filename +s+ "': " +s+ digest_error) s))
          end
        else Ret (record_signature executed sig_valid referenced_files h s)
      else
        match referenced_files with
        | [] => UB
        | file :: _ =>
            '(executed, sig_valid, h) ← verify_data (fe_data file) (es_signature_data sig) (ae_session s);
            Ret (record_signature executed sig_valid referenced_files h s)
        end
  end.

Fixpoint verify_entries (content : AsicEContent) (signatures : list AsicESignature) (s : AsicELoop) : outcome AsicELoop :=
  match signatures with
  | [] => Ret s
  | sig :: signatures => s ← verify_entry content sig s; verify_entries content signatures s
  end.

(** What is written into the report after the loop. *)
Definition asice_report (content : AsicEContent) (s : AsicELoop) (uncovered_list : string) (report : VerifyReport) : VerifyReport :=
  let coverage_complete := str_empty uncovered_list in
  let report := AggregatePerSignerTimestamps (report <| vr_signatures := ae_entries s |>) in
  report <| vr_container_type := "ASiC-E" |> <| vr_container_coverage_complete := coverage_complete |>
    <| vr_coverage_status := if coverage_complete then "complete" else "container-object-not-signed" |>
    <| vr_message ::= fun m => m +s+ coverage_note (length (ec_signatures content)) (ae_valid_count s)
                                       coverage_complete uncovered_list |>.

Definition uncovered_files (content : AsicEContent) (s : AsicELoop) : string :=
  listed ", " (List.filter (fun name => negb (bool_decide (name ∈ ae_covered_files s)))
                        (map fe_filename (ec_files content))).

(** The session after the loop: the structural error, or the name of the operation. *)
Definition asice_session (operation : string) (s : AsicELoop) : HandlerState :=
  if str_empty (ae_structural_error s) then override_operation operation (ae_session s)
  else
    let h := set_report operation true ErrorCode.InvalidArgument (ae_structural_error s) (ae_session s) in
    let st := hs_state h in
    with_error ErrorCode.InvalidArgument (ae_structural_error s)
      (MkHandlerState (MkState (z_epochs st)
         ((z_session st) <| ss_last_verify_report ::= fun r => r <| vr_container_malformed := true |> |>) (z_disk st))
         (hs_user_report h)).

(** As there, an uninitialised session leaves [is_valid] at the [false] of the caller. *)
Definition VerifyFileAsicE (files : Files) (asice_path : string) (h : HandlerState) : outcome (bool * bool * HandlerState) :=
  let operation := "VerifyFileAsicE" in
  let session := hs_session h in
  if negb (ss_is_initialized session) then
    Ret (false, false, report_failure operation ErrorCode.NotInitialized (ErrorCode_ToString ErrorCode.NotInitialized) h)
  else
  match ReadBinaryFile (fl_fs files) (ResolveFilePath asice_path (fl_settings files)) "ASiC-E file" with
  | inl error_message => Ret (false, false, report_failure operation ErrorCode.InvalidArgument error_message h)
  | inr container =>
      if ContainerHasXadesSignature container then VerifyFileAsicEXades files asice_path h
      else
      match AsicE_Unpack container with
      | inl error_message =>
          Ret (false, false, report_failure operation ErrorCode.InvalidArgument ("ASiC-E unpack failed: " +s+ error_message) h)
      | inr content =>
          if is_empty (ec_files content) || is_empty (ec_signatures content) then
            let message := if is_empty (ec_files content) then "ASiC-E container has no files to verify"
                           else "ASiC-E container has no signatures to verify" in
            Ret (true, false, clear_error (set_report operation true ErrorCode.None message h))
          else
          s ← verify_entries content (ec_signatures content) (MkAsicELoop true "" [] 0 ∅ h);
          let uncovered_list := uncovered_files content s in
          let is_valid := ae_all_valid s && str_empty uncovered_list in
          let h := asice_session operation s in
          let h := if owned h then update_report (asice_report content s uncovered_list) h else h in
          match ec_signatures content with
          | first :: _ =>
              if is_valid && negb (is_empty (ec_timestamp_data content)) then
                h ← container_timestamp (ss_settings session) (ec_timestamp_data content) (es_signature_data first) h;
                Ret (true, is_valid, h)
              else Ret (true, is_valid, h)
          | [] => UB
          end
      end
  end.

(** ** The references that count for the coverage *)

Lemma loop_details (xml : string) (root : xmlNode) (external : gmap string bytes) (cert : bytes) (refs : list XmlReference)
    (all : bool) (r : XmlSignatureVerificationResult) :
  map rd_uri (xr_reference_details (references_loop xml root external cert refs all r).2) =
  map rd_uri (xr_reference_details r) ++ map xf_uri refs.
Proof.
  revert all r. induction refs as [|ref refs IH]; intros all r; [by rewrite app_nil_r|]. cbn [references_loop map].
  destruct (check_reference xml root external cert ref) as [[ok detail] props] eqn:E.
  assert (rd_uri detail = xf_uri ref) as Hu.
  { unfold check_reference in E. repeat case_match; simplify_eq; done. }
  rewrite IH. cbn. rewrite map_app, <- app_assoc. cbn. rewrite Hu. by destruct props.
Qed.

Lemma verify_value_details (cert : bytes) (alg : option RsaHashAlg) (hash signature : bytes) (r : XmlSignatureVerificationResult) :
  xr_reference_details (verify_value cert alg hash signature r) = xr_reference_details r.
Proof. unfold verify_value. by repeat case_match. Qed.

Lemma diagnostics_details (root node : xmlNode) (position : Z) (mode : C14nMode) (comments : bool) (uri : string) (cert : bytes)
    (r : XmlSignatureVerificationResult) :
  xr_reference_details (signed_properties_diagnostics root node position mode comments uri cert r) = xr_reference_details r.
Proof. unfold signed_properties_diagnostics. by repeat case_match. Qed.

(** The details of a result name the references of its own [SignedInfo], in order. *)
Lemma verified_details (root node : xmlNode) (position : Z) (xml : string) (external : gmap string bytes)
    (r : XmlSignatureVerificationResult) :
  VerifySignatureAtPosition root node position xml external = inr r ->
  exists refs, ExtractReferencesForSignature xml position = inr refs /\ map rd_uri (xr_reference_details r) = map xf_uri refs.
Proof.
  unfold VerifySignatureAtPosition. destruct (ExtractReferencesForSignature xml position) as [?|refs]; [done|].
  pose proof (loop_details xml root external (default [] (ExtractEmbeddedCertificate node)) refs true) as Hl.
  destruct (references_loop _ _ _ _ _ _ _) as [all result] eqn:El. intros E. exists refs. split; [done|].
  specialize (Hl (XmlSignatureVerificationResult_default
    <| xr_signing_cert_id := match ExtractEmbeddedCertificate node with Some _ => "embedded-x509" | None => "(no certificate in KeyInfo)" end |>)).
  rewrite El in Hl.
  assert (map rd_uri (xr_reference_details result) = map xf_uri refs) as <- by exact Hl. clear Hl El.
  destruct (ExtractEmbeddedCertificate node) as [cert|]; [|by injection E as <-].
  repeat (case_match; try done).
  all: apply (f_equal (fun o => match o with inr v => xr_reference_details v | inl _ => [] end)) in E; cbv beta iota in E;
    rewrite verify_value_details, diagnostics_details in E; by rewrite <- E.
Qed.

(** *** The verifier of XAdES keeps the result of the XML signature *)

Abbreviation xml_of := xv_xml_signature.

Lemma read_properties_xml (node props : xmlNode) (r : XadesVerificationResult) :
  xml_of (read_signed_properties node props r) = xml_of r.
Proof.
  unfold read_signed_properties. cbn [xv_xml_signature setter].
  assert (forall r, xml_of (read_signature_policy props r) = xml_of r) as X1 by (intros r0; unfold read_signature_policy; by repeat case_match).
  assert (forall r, xml_of (check_signing_certificate node props r) = xml_of r) as X2
    by (intros r0; unfold check_signing_certificate; by repeat case_match).
  rewrite X1, X2. by case_match.
Qed.

Lemma check_token_xml (label : string) (token tbs : bytes) (r : XadesVerificationResult) :
  xml_of (check_token label token tbs r).2 = xml_of r.
Proof. unfold check_token. cbn [snd]. by case_match. Qed.

Lemma validate_timestamps_xml (root node : xmlNode) (position : Z) (r : XadesVerificationResult) :
  xml_of (validate_timestamps root node position r).2 = xml_of r.
Proof.
  assert (forall name names r, xml_of (validate_ts root node position name names r).2 = xml_of r) as X1.
  { intros name names r0. unfold validate_ts. repeat case_match; try done; by rewrite check_token_xml. }
  assert (forall r, xml_of (validate_archive_ts root node position r).2 = xml_of r) as X2.
  { intros r0. unfold validate_archive_ts. repeat case_match; try done; by rewrite check_token_xml. }
  unfold validate_timestamps.
  match goal with |- context [validate_ts root node position ?a ?b r] =>
    pose proof (X1 a b r) as E1; destruct (validate_ts root node position a b r) as [? r1] end.
  match goal with |- context [validate_ts root node position ?a ?b r1] =>
    pose proof (X1 a b r1) as E2; destruct (validate_ts root node position a b r1) as [? r2] end.
  pose proof (X2 r2) as E3. destruct (validate_archive_ts root node position r2) as [? r3]. cbn [snd] in *. congruence.
Qed.

Lemma bind_refs_xml (refs : list xmlNode) (name : string) (values : list bytes) (cert : bool) (text : string) (bound : bool)
    (r : XadesVerificationResult) : xml_of (bind_refs refs name values cert text bound r).2 = xml_of r.
Proof.
  revert bound r. induction refs as [|ref refs IH]; intros bound r; [done|]. cbn [bind_refs]. case_match; [apply IH|by rewrite IH].
Qed.

Lemma bind_evidence_xml (node : xmlNode) (r : XadesVerificationResult) : xml_of (bind_evidence node r) = xml_of r.
Proof.
  unfold bind_evidence.
  assert (forall (x : bool * XadesVerificationResult) (f : bool -> XadesVerificationResult -> XadesVerificationResult),
    (forall b r, xml_of (f b r) = xml_of r) -> xml_of (let '(b, r) := x in f b r) = xml_of x.2) as Hlet by (intros [b r0] f Hf; apply Hf).
  rewrite Hlet.
  { destruct (FindFirstXadesElementInSubtree node "CompleteCertificateRefs"); [apply bind_refs_xml|done]. }
  intros b r0. rewrite Hlet by done.
  destruct (FindFirstXadesElementInSubtree node "CompleteRevocationRefs"); [|done].
  match goal with |- context [bind_refs ?a ?b ?c ?d ?e ?f r0] =>
    pose proof (bind_refs_xml a b c d e f r0) as E; destruct (bind_refs a b c d e f r0) as [b' r1] end.
  by rewrite bind_refs_xml.
Qed.

Lemma VerifyOne_xml (root node : xmlNode) (position : Z) (x : XmlSignatureVerificationResult) :
  xml_of (VerifyOneXadesSignature root node position x) = x.
Proof.
  unfold VerifyOneXadesSignature. destruct (FindFirstXadesElementInSubtree node "SignedProperties") as [props|]; [|done].
  set (start := XadesVerificationResult_default <| xv_xml_signature := x |> <| xv_signature_valid := _ |>).
  assert (xml_of start = x) as Hx by done. clearbody start.
  pose proof (read_properties_xml node props start) as X1. set (r1 := read_signed_properties node props start) in *. clearbody r1.
  pose proof (validate_timestamps_xml root node position r1) as X2.
  destruct (validate_timestamps root node position r1) as [[[a b] c] r2]. cbn [snd] in X2.
  set (r3 := record_timestamps node a b c r2). assert (xml_of r3 = xml_of r2) as X3 by done. clearbody r3.
  set (r4 := record_evidence node r3). assert (xml_of r4 = xml_of r3) as X4 by done. clearbody r4.
  pose proof (bind_evidence_xml node r4) as X5. set (r5 := bind_evidence node r4) in *. clearbody r5.
  assert (xml_of (detect_profile node a c r5) = xml_of r5) as X6
    by (unfold detect_profile; match goal with |- context [let '(_, _) := ?p in _] => destruct p end; done).
  congruence.
Qed.

(** A reference names another entry of the container and states the digest of its content. *)
Definition digest_of_entry (external : gmap string bytes) (cert : bytes) (ref : XmlReference) (name : string) : Prop :=
  exists octets content digest,
    is_external (xf_uri ref) = true /\ NormalizeAsicEntryUri (xf_uri ref) = inr name /\ external !! name = Some content /\
    ApplyTransforms (text_of content) ref = inr octets /\
    Base64.Base64Decode (xf_digest_value_base64 ref) = Some digest /\
    ComputeDigestByCertificate (XmlDsig.octets_of octets) (xf_digest_method ref) cert = inr digest.

(** An entry is covered: one of the [documents] of signatures contains a signature that holds under the certificate it embeds, and
    one of the references in the [SignedInfo] of that very signature states the digest of the entry. *)
Definition entry_reference (external : gmap string bytes) (documents : list string) (name : string) : Prop :=
  exists xml root nodes i node cert signed_info ref,
    xml ∈ documents /\ ParseHardened xml = inr (Some root) /\ CollectTopLevelSignatureNodes [root] = (nodes, false) /\
    nodes !! i = Some node /\ signature_holds xml external root node (1 + Z.of_nat i) cert /\
    named [node] "SignedInfo" = [signed_info] /\
    ref ∈ map reference_of (List.filter (fun n => IsElementNamed n "Reference") (children_of signed_info)) /\
    digest_of_entry external cert ref name.

Lemma external_reference (xml : string) (root : xmlNode) (external : gmap string bytes) (cert : bytes) (ref : XmlReference) :
  reference_holds xml external root cert ref -> is_external (xf_uri ref) = true ->
  digest_of_entry external cert ref (NormalizeCoverageUri (xf_uri ref)).
Proof.
  intros (octets & digest & Ed & _ & Eo & Ec) He. unfold reference_octets in Eo.
  assert (IsIdFragmentUri (xf_uri ref) = None) as Hf.
  { unfold is_external in He. unfold IsIdFragmentUri. destruct (chars (xf_uri ref)) as [|c [|c2 l]]; [done|done|].
    apply negb_true_iff in He. by rewrite He. }
  rewrite Hf in Eo. unfold ResolveReference in Eo. rewrite He in Eo.
  destruct (NormalizeAsicEntryUri (xf_uri ref)) as [?|name] eqn:En; [done|].
  destruct (IsUnsafeExternalUri name); [done|]. destruct (external !! name) as [content|] eqn:Ex; [|done].
  destruct (ApplyTransforms _ ref) as [?|out] eqn:Ea; [done|]. injection Eo as <-.
  unfold NormalizeCoverageUri. rewrite En. exists out, content, digest. by split_and!.
Qed.

(** In a document whose signatures are all valid, whatever counts as covered is referred to by a digest that holds. *)
Lemma covered_uri_holds (xml : string) (external : gmap string bytes) (set : XadesSignatureSet) (one : XadesVerificationResult)
    (name : string) :
  VerifyAllXades xml external = inr set -> xs_all_valid set = true -> one ∈ xs_signatures set -> name ∈ covered_by one ->
  entry_reference external [xml] name.
Proof.
  intros E Hall Ho Hn. destruct (VerifyAllXades_shape xml external set E) as (root & nodes & results & Ep & Ec & _ & Ev & Es & Ea).
  destruct (verify_each_spec _ _ _ _ _ _ Ev) as [Hl Hi].
  rewrite Es in Ho. apply list_elem_of_lookup_1 in Ho as [i Ho].
  assert (exists node, nodes !! i = Some node) as [node Hnode].
  { apply lookup_lt_is_Some. rewrite <- (verify_signatures_length root 1 nodes results Hl). by eapply lookup_lt_Some. }
  destruct (Hi i node Hnode) as (x & Hx & Hone).
  rewrite (verify_signatures_lookup root 1 _ _ _ _ _ Hnode Hx) in Ho. injection Ho as Hr.
  assert (xv_signature_valid one = true) as Hv.
  { rewrite Ea in Hall. apply (forallb_elem xv_signature_valid _ Hall). rewrite <- Hr.
    eapply list_elem_of_lookup_2. by apply verify_signatures_lookup. }
  destruct (VerifyOne_spec root node (1 + Z.of_nat i) x) as (V1 & _ & _). rewrite Hr in V1.
  assert (xv_xml_signature one = x) as Hxml.
  { rewrite <- Hr. apply VerifyOne_xml. }
  destruct (verify_one_holds _ _ _ _ _ _ _ Ep Ec Hnode Hone (V1 Hv)) as (cert & Hholds). pose proof Hholds as Hh.
  destruct Hh as (signed_info & refs & Hn1 & _ & Er & _ & Hrefs & _).
  assert (VerifySignatureAtPosition root node (1 + Z.of_nat i) xml external = inr x) as Hver
    by (unfold verify_one in Hone; repeat (case_match; [done|]); exact Hone).
  destruct (verified_details _ _ _ _ _ _ Hver) as (refs' & Er' & Hd).
  destruct (ExtractReferences_at _ _ _ _ _ _ Ep Ec Hnode Er') as (signed_info' & Hn2 & _ & Eq).
  assert (signed_info' = signed_info) as -> by (rewrite Hn1 in Hn2; by injection Hn2).
  assert (refs' = refs) as -> by congruence.
  unfold covered_by in Hn. apply list_elem_of_omap in Hn as (rd & Hrd & Hcov). rewrite Hxml in Hrd.
  destruct (is_external (rd_uri rd)) eqn:Ext; [|done]. injection Hcov as <-.
  assert (rd_uri rd ∈ map rd_uri (xr_reference_details x)) as Hin by (apply list_elem_of_fmap; by exists rd).
  rewrite Hd in Hin. apply list_elem_of_fmap in Hin as (ref & Eu & Href). rewrite Eu in Ext |- *.
  exists xml, root, nodes, i, node, cert, signed_info, ref. split_and!; try done; [by left|by rewrite <- Er|].
  apply (external_reference xml root); [|done]. by apply (proj1 (Forall_forall _ _) Hrefs).
Qed.

Lemma entry_reference_mono (external : gmap string bytes) (documents documents' : list string) (name : string) :
  documents ⊆ documents' -> entry_reference external documents name -> entry_reference external documents' name.
Proof.
  intros Hs (xml & root & nodes & i & node & cert & si & ref & Hx & Hr). exists xml, root, nodes, i, node, cert, si, ref.
  split; [by apply Hs|done].
Qed.

(** ** Names that are told apart *)

Lemma normalize_names_spec (normalize : string -> string) (names : list string) (m m' : gmap string string) :
  normalize_names normalize names m = inr m' ->
  (forall k v, m !! k = Some v -> m' !! k = Some v) /\
  (forall name, name ∈ names -> m' !! normalize name = Some name) /\
  (forall k v, m' !! k = Some v -> m !! k = Some v \/ (v ∈ names /\ k = normalize v)).
Proof.
  revert m. induction names as [|name names IH]; intros m; cbn [normalize_names].
  { intros [= <-]. split; [done|]. split; [by intros ? ?%elem_of_nil|by left]. }
  assert (normalize_names normalize names (<[normalize name := name]> m) = inr m' ->
    (forall v, m !! normalize name = Some v -> v = name) ->
    (forall k v, m !! k = Some v -> m' !! k = Some v) /\
    (forall n, n ∈ name :: names -> m' !! normalize n = Some n) /\
    (forall k v, m' !! k = Some v -> m !! k = Some v \/ (v ∈ name :: names /\ k = normalize v))) as Hstep.
  { intros E Hsame. destruct (IH _ E) as (I1 & I2 & I3).
    assert (m' !! normalize name = Some name) as Hname by (apply I1; by rewrite lookup_insert_eq).
    split; [|split].
    - intros k v Hk. destruct (decide (k = normalize name)) as [->|Hne].
      + by rewrite (Hsame v Hk).
      + apply I1. by rewrite lookup_insert_ne.
    - intros n [->|Hn]%elem_of_cons; [done|by apply I2].
    - intros k v Hk. apply I3 in Hk as [Hk|[Hv ->]]; [|right; split; [by right|done]].
      destruct (decide (k = normalize name)) as [->|Hne].
      + rewrite lookup_insert_eq in Hk. injection Hk as <-. right. split; [by left|done].
      + rewrite lookup_insert_ne in Hk by done. by left. }
  destruct (m !! normalize name) as [existing|] eqn:Em.
  - destruct (String.eqb_spec existing name) as [->|]; cbn [negb]; [|done]. intros E. apply Hstep; [done|]. by intros v [= <-].
  - intros E. by apply Hstep.
Qed.

(** Two names that are told apart have different normal forms. *)
Lemma normalize_injective (normalize : string -> string) (names : list string) (m : gmap string string) (a b : string) :
  normalize_names normalize names ∅ = inr m -> a ∈ names -> b ∈ names -> normalize a = normalize b -> a = b.
Proof.
  intros E Ha Hb Hab. destruct (normalize_names_spec _ _ _ _ E) as (_ & Hn & _).
  pose proof (Hn a Ha) as Ea. pose proof (Hn b Hb) as Eb. rewrite Hab, Eb in Ea. by injection Ea.
Qed.

(** The archive was accepted, so the names of its files differ. *)
Lemma get_files_names (zip : ZipReader) (indices : list nat) (stats : list file_stat) (entries : list AsicFileEntry) :
  map (zip_reader_file_stat zip) indices = map Some stats -> get_files zip indices = inr entries ->
  map af_name entries = map m_filename (List.filter (fun s => negb (m_is_directory s)) stats).
Proof.
  revert stats entries. induction indices as [|i indices IH]; intros [|stat stats] entries Hs E; try done.
  { by injection E as <-. }
  cbn [map get_files List.filter] in *. injection Hs as Hi Hs. rewrite Hi in E. destruct (m_is_directory stat); cbn [negb].
  { by apply IH. }
  destruct (ExtractFile zip (m_filename stat)) as [?|data]; [done|]. destruct (get_files zip indices) as [?|rest] eqn:Er; [done|].
  injection E as <-. cbn [map af_name]. f_equal. by apply IH.
Qed.

Lemma NoDup_map_filter {A B} (f : A -> B) (p : A -> bool) (l : list A) : NoDup (map f l) -> NoDup (map f (List.filter p l)).
Proof.
  induction l as [|a l IH]; [done|]. cbn. intros [Ha Hl]%NoDup_cons. destruct (p a); [|by apply IH]. cbn. apply NoDup_cons.
  split; [|by apply IH]. intros Hin. apply Ha. apply list_elem_of_fmap in Hin as (b & -> & Hb). apply list_elem_of_fmap.
  exists b. split; [done|]. apply list_elem_of_In in Hb. apply filter_In in Hb as [Hb _]. by apply list_elem_of_In.
Qed.

Lemma loaded_names (data : bytes) (zip : ZipReader) (entries : list AsicFileEntry) :
  LoadFromBuffer data = inr zip -> GetFiles zip = inr entries -> NoDup (map af_name entries).
Proof.
  unfold LoadFromBuffer. destruct (_ <? _); [done|]. destruct (zip_reader_init_mem data) as [z|]; [|done].
  destruct (ValidateArchiveSafety z) as [?|[]] eqn:Ev; [done|]. intros [= ->] Eg.
  apply archive_accepted in Ev as (_ & stats & Hs & Hsafe).
  rewrite (get_files_names zip _ stats entries Hs Eg). apply NoDup_map_filter, Hsafe.
Qed.

(** ** What a container with XAdES signatures rests on *)

Lemma fold_insert_other (f : AsicFileEntry -> string) (l : list AsicFileEntry) (m : gmap string bytes) (k : string) :
  k ∉ map f l -> foldl (fun m e => <[f e := af_data e]> m) m l !! k = m !! k.
Proof.
  revert m. induction l as [|e l IH]; intros m Hk; [done|]. cbn in *. apply not_elem_of_cons in Hk as [Hne Hk].
  rewrite IH by done. by apply lookup_insert_ne.
Qed.

Lemma fold_insert_lookup (f : AsicFileEntry -> string) (l : list AsicFileEntry) (m : gmap string bytes) (e : AsicFileEntry) :
  NoDup (map f l) -> e ∈ l -> foldl (fun m e => <[f e := af_data e]> m) m l !! f e = Some (af_data e).
Proof.
  revert m. induction l as [|a l IH]; intros m; [by intros _ ?%elem_of_nil|]. cbn. intros [Ha Hl]%NoDup_cons [->|He]%elem_of_cons.
  - rewrite fold_insert_other by done. by rewrite lookup_insert_eq.
  - by apply IH.
Qed.

Lemma external_lookup (entries : list AsicFileEntry) (m : gmap string string) (e : AsicFileEntry) :
  normalize_names NormalizeCoverageUri (map af_name (data_entries entries)) ∅ = inr m ->
  NoDup (map af_name entries) -> e ∈ data_entries entries ->
  external_of entries !! NormalizeCoverageUri (af_name e) = Some (af_data e).
Proof.
  intros En Hnd He. unfold external_of. apply (fold_insert_lookup (fun e => NormalizeCoverageUri (af_name e))); [|done].
  assert (NoDup (map af_name (data_entries entries))) as Hd by by apply NoDup_map_filter.
  pose proof (normalize_injective NormalizeCoverageUri (map af_name (data_entries entries)) m) as Hinj. set (l := data_entries entries) in *. clearbody l. clear He.
  assert (forall a b, a ∈ map af_name l -> b ∈ map af_name l -> NormalizeCoverageUri a = NormalizeCoverageUri b -> a = b) as Hi
    by (intros a b Ha Hb; by apply (Hinj a b En)). clear En Hinj.
  induction l as [|a l IH]; [constructor|]. cbn in *. apply NoDup_cons in Hd as [Ha Hd]. apply NoDup_cons. split.
  - intros (b & E & Hb)%list_elem_of_fmap. apply Ha. rewrite (Hi (af_name a) (af_name b)); [by apply list_elem_of_fmap; exists b| | |done].
    + by left.
    + right. apply list_elem_of_fmap. by exists b.
  - apply IH; [done|]. intros x y Hx Hy. apply Hi; by right.
Qed.

(** The signatures: every document of signatures was verified with the entries as external references, and all its signatures are
    valid. *)
Definition documents_verified (external : gmap string bytes) (documents : list string) : Prop :=
  documents <> [] /\ forall doc, doc ∈ documents ->
    exists set, VerifyAllXades doc external = inr set /\ XadesGrounds doc external set.

(** Every document of the container is what some reference of a valid signature of the container's own documents of signatures
    states the digest of. *)
Definition documents_covered (entries : list AsicFileEntry) : Prop :=
  forall e, e ∈ data_entries entries ->
    external_of entries !! NormalizeCoverageUri (af_name e) = Some (af_data e) /\
    entry_reference (external_of entries) (signature_xmls entries) (NormalizeCoverageUri (af_name e)).

(** The engine accepted the signer of every signature, and its timestamp where there is one. *)
Definition signers_accepted (settings : Settings) (external : gmap string bytes) (documents : list string) : Prop :=
  forall doc set one, doc ∈ documents -> VerifyAllXades doc external = inr set -> one ∈ xs_signatures set ->
    (exists disk, SignerGrounds disk (format_context settings [] (xv_revocation_values_ocsp_der one)
       (xv_revocation_values_crl_der one) true) (xv_signer_certificate_der one) (xv_certificate_values_der one)) /\
    (xv_signature_timestamp_present one = true -> xml_timestamp_accepted settings one).

(** What the loop over the documents of signatures gives. *)
Lemma verify_documents_spec (settings : Settings) (external : gmap string bytes) (documents : list string) (count : Z) (disk : Disk) :
  exists v, verify_documents settings external documents count disk = Ret v /\
    match v with
    | inl _ => True
    | inr (results, entries, _) =>
        length entries = length results /\
        (forall doc, doc ∈ documents -> exists set, VerifyAllXades doc external = inr set /\
           forall one, one ∈ xs_signatures set -> one ∈ results) /\
        (forall one, one ∈ results -> exists doc set, doc ∈ documents /\ VerifyAllXades doc external = inr set /\
           one ∈ xs_signatures set) /\
        (forall i one, results !! i = Some one -> exists e disk1, entries !! i = Some e /\
           (good_entry e = true ->
            SignerGrounds disk1 (format_context settings [] (xv_revocation_values_ocsp_der one) (xv_revocation_values_crl_der one)
              (xv_signature_valid one)) (xv_signer_certificate_der one) (xv_certificate_values_der one)) /\
           (xv_signature_timestamp_present one = true ->
            exists d, d ∈ se_timestamp_details e /\ (te_valid d = true -> xml_timestamp_accepted settings one)))
    end.
Proof.
  revert count disk. induction documents as [|doc documents IH]; intros count disk.
  { eexists. split; [done|]. split; [done|]. split; [by intros ? ?%elem_of_nil|]. split; [by intros ? ?%elem_of_nil|done]. }
  cbn [verify_documents]. destruct (VerifyAllXades doc external) as [err|set] eqn:Ev; [by eexists|].
  destruct (signature_entries_spec settings AsicXadesProfileName (count + 1) (xs_signatures set) disk)
    as (entries & disk1 & E1 & L1 & S1). unfold mbind, outcome_bind. rewrite E1.
  match goal with |- context [verify_documents settings external documents ?c disk1] =>
    destruct (IH c disk1) as (v & E2 & Hv) end. rewrite E2.
  destruct v as [failure|[[results more] disk2]]; [by eexists|]. destruct Hv as (L2 & D2 & R2 & S2).
  eexists. split; [done|]. cbv iota. split; [by rewrite !length_app, L1, L2|]. split; [|split].
  - intros d [->|Hd]%elem_of_cons.
    + exists set. split; [done|]. intros one Ho. apply elem_of_app. by left.
    + destruct (D2 d Hd) as (set' & ? & Hin). exists set'. split; [done|]. intros one Ho. apply elem_of_app. right. by apply Hin.
  - intros one [Ho|Ho]%elem_of_app.
    + exists doc, set. split; [by left|]. by split.
    + destruct (R2 one Ho) as (d & set' & ? & ?). exists d, set'. split; [by right|]. done.
  - intros i one Hi. destruct (decide (i < length (xs_signatures set))%nat) as [Hlt|Hge].
    + rewrite lookup_app_l in Hi by done. destruct (S1 i one Hi) as (e & d & He & Hrest). exists e, d.
      split; [|exact Hrest]. rewrite lookup_app_l; [done|]. by rewrite L1.
    + rewrite lookup_app_r in Hi by lia. destruct (S2 _ one Hi) as (e & d & He & Hrest). exists e, d.
      split; [|exact Hrest]. rewrite lookup_app_r by lia. by rewrite L1.
Qed.

(** ** The report on XAdES signatures *)

Lemma asic_format_kept (all_valid : bool) (container_type : string) (keys : list string) (results : list XadesVerificationResult)
    (result : XadesVerificationResult) :
  kept (asic_format_report all_valid container_type keys results result) = (true, true, all_valid, false, is_empty keys).
Proof.
  unfold asic_format_report.
  set (base := VerifyReport_default <| vr_has_result := true |> <| vr_execution_succeeded := true |>
    <| vr_signature_valid := all_valid |> <| vr_signature_format := _ |> <| vr_format_profile := _ |> <| vr_container_type := _ |>
    <| vr_signer_certificate_present := _ |> <| vr_qualifying_properties_present := _ |> <| vr_timestamp_checked := _ |>
    <| vr_tsp_checked := _ |>).
  assert (vr_has_result base = true /\ vr_execution_succeeded base = true /\ vr_signature_valid base = all_valid /\
    vr_container_malformed base = false) as Hb by done. clearbody base.
  set (stamped := if vr_timestamp_checked base then _ else base).
  assert (vr_has_result stamped = true /\ vr_execution_succeeded stamped = true /\ vr_signature_valid stamped = all_valid /\
    vr_container_malformed stamped = false) as (E1 & E2 & E3 & E4).
  { unfold stamped. destruct (vr_timestamp_checked base); [|done].
    destruct (format_verdict_view base (xv_signature_timestamp_valid result) false) as (_ & V & _). unfold kept in V.
    destruct Hb as (? & ? & ? & ?). split_and!; congruence. }
  clearbody stamped. unfold kept. cbn. by rewrite E1, E2, E3, E4.
Qed.

Lemma name_container_view (container_type : string) (result : XadesVerificationResult) (r : VerifyReport) :
  core_view (name_container container_type result r) = core_view r.
Proof. done. Qed.

Lemma record_asic_view (result : XadesVerificationResult) (agg r : VerifyReport) :
  core_view (record_asic_profile result agg r) = core_view r /\
  vr_timestamp_status (record_asic_profile result agg r) = vr_timestamp_status r.
Proof. done. Qed.

Lemma asic_final_report_valid (container_type : string) (result : XadesVerificationResult) (report : VerifyReport) :
  vr_signatures report <> [] -> ck_status (SummaryCheck (asic_final_report container_type result report)) = "valid" ->
  vr_signature_valid report = true /\ vr_container_coverage_complete report = true /\
  forallb good_entry (vr_signatures report) = true /\
  (forall d, d ∈ concat (map se_timestamp_details (vr_signatures report)) -> te_valid d = true).
Proof.
  intros Hne Hs. rewrite <- (aggregation_good _ Hne). set (agg := ApplyPerSignerTrustAggregation report).
  destruct (aggregation_kept report) as [K1 K2]. fold agg in K1, K2.
  set (named := name_container container_type result agg).
  pose proof (name_container_view container_type result agg) as Hv. fold named in Hv.
  destruct (aggregate_timestamps_spec named) as (A1 & _ & A3 & A4 & A5).
  assert (vr_signatures named = vr_signatures report) as E.
  { unfold core_view in Hv. transitivity (vr_signatures agg); [congruence|exact K2]. }
  rewrite E in A5.
  destruct (record_asic_view result agg (AggregatePerSignerTimestamps named)) as [F1 F2].
  destruct (valid_through_stages report agg named (AggregatePerSignerTimestamps named)
    (record_asic_profile result agg (AggregatePerSignerTimestamps named)) _ K1 Hv A1 A3 A4 A5 F1 F2 Hs) as (R1 & R2 & R3).
  split; [done|]. split; [|by split].
  apply SummaryCheck_valid_iff in Hs as (_ & _ & Hc & _). unfold core_view in F1, Hv.
  set (final := asic_final_report container_type result report) in *.
  change (record_asic_profile result agg (AggregatePerSignerTimestamps named)) with final in F1.
  assert (kept final = kept report) as Hk by congruence. unfold kept in Hk. congruence.
Qed.

Lemma asic_summary_valid (container_type : string) (result : XadesVerificationResult) (base : VerifyReport)
    (entries : list SignatureEntry) (all_valid covered : bool) :
  kept base = (true, true, all_valid, false, covered) -> entries <> [] ->
  ck_status (SummaryCheck (asic_final_report container_type result (base <| vr_signatures := entries |>))) = "valid" ->
  all_valid = true /\ covered = true /\ forallb good_entry entries = true /\
  (forall d, d ∈ concat (map se_timestamp_details entries) -> te_valid d = true).
Proof.
  intros Hk Hne Hs. apply asic_final_report_valid in Hs as (Hsig & Hcov & Hgood & Hts); [|done].
  unfold kept in Hk. injection Hk as _ _ E3 _ E5. split; [by rewrite <- E3|]. split; [by rewrite <- E5|]. by split.
Qed.

Lemma summary_needs_signature (r : VerifyReport) :
  vr_signature_valid r = false -> ck_status (SummaryCheck r) <> "valid".
Proof. intros Hf [Hg _]%SummaryCheck_valid_iff. by rewrite (pg_signature _ Hg) in Hf. Qed.

Lemma first_where_results (results : list XadesVerificationResult) : results <> [] -> asic_representative results ∈ results.
Proof.
  unfold asic_representative. destruct (first_where _ results) as [r|] eqn:E; [by apply first_where_Some in E as []|].
  destruct results; [done|]. by left.
Qed.

(** What the answer [true] and a summary "valid" say about a container with XAdES signatures. *)
Lemma asic_report_grounds (settings : Settings) (entries : list AsicFileEntry) (m : gmap string string)
    (container_type : string) (disk disk' : Disk) (results : list XadesVerificationResult) (signers : list SignatureEntry)
    (report : VerifyReport) (is_valid : bool) :
  normalize_names NormalizeCoverageUri (map af_name (data_entries entries)) ∅ = inr m -> NoDup (map af_name entries) ->
  signature_xmls entries <> [] ->
  verify_documents settings (external_of entries) (signature_xmls entries) 0 disk = Ret (inr (results, signers, disk')) ->
  asic_report container_type (external_of entries) results signers = (report, is_valid) ->
  (is_valid = true -> documents_verified (external_of entries) (signature_xmls entries) /\ documents_covered entries) /\
  (ck_status (SummaryCheck report) = "valid" ->
   is_valid = true /\ signers_accepted settings (external_of entries) (signature_xmls entries)).
Proof.
  intros En Hnd Hne Ev Er.
  destruct (verify_documents_spec settings (external_of entries) (signature_xmls entries) 0 disk) as (v & Ev' & Hv).
  rewrite Ev in Ev'. injection Ev' as <-. destruct Hv as (Hlen & Hdocs & Hres & Hi).
  unfold asic_report in Er. injection Er as Er Eb.
  assert (forall doc set, doc ∈ signature_xmls entries -> VerifyAllXades doc (external_of entries) = inr set ->
    forallb xv_signature_valid results = true -> xs_all_valid set = true) as Hall.
  { intros doc set Hd Es Hr. destruct (VerifyAllXades_nonempty _ _ _ Es) as [_ ->]. apply forallb_forall. intros one Ho.
    destruct (Hdocs doc Hd) as (set' & Es' & Hin). rewrite Es in Es'. injection Es' as <-.
    apply (forallb_elem xv_signature_valid _ Hr), Hin. by apply list_elem_of_In. }
  split.
  - intros ->. apply andb_true_iff in Eb as [Hvalid Hcov]. split.
    + split; [done|]. intros doc Hd. destruct (Hdocs doc Hd) as (set & Es & _). exists set. split; [done|].
      apply all_valid_grounds; [done|]. by apply (Hall doc set).
    + intros e He. pose proof (external_lookup entries m e En Hnd He) as Hl. split; [done|].
      assert (NormalizeCoverageUri (af_name e) ∈ covered_uris results) as Hc.
      { destruct (existsb (String.eqb (NormalizeCoverageUri (af_name e))) (covered_uris results)) eqn:Ex.
        - apply existsb_exists in Ex as (u & Hu & E). apply String.eqb_eq in E. rewrite E. by apply list_elem_of_In.
        - exfalso. assert (NormalizeCoverageUri (af_name e) ∈ uncovered (external_of entries) results) as Hu.
          { unfold uncovered. apply list_elem_of_In, filter_In. split; [|by rewrite Ex].
            apply list_elem_of_In. unfold sorted_keys. rewrite merge_sort_Permutation. apply list_elem_of_fmap.
            exists (NormalizeCoverageUri (af_name e), af_data e). split; [done|]. by apply elem_of_map_to_list. }
          destruct (uncovered (external_of entries) results); [by apply elem_of_nil in Hu|done]. }
      unfold covered_uris in Hc. apply list_elem_of_In, in_concat in Hc as (uris & Hu & Hc%list_elem_of_In).
      apply in_map_iff in Hu as (one & <- & Ho%list_elem_of_In).
      destruct (Hres one Ho) as (doc & set & Hd & Es & Hin).
      apply (entry_reference_mono _ [doc]); [by intros ? ->%list_elem_of_singleton|].
      apply (covered_uri_holds doc (external_of entries) set one); try done. by apply (Hall doc set).
  - intros Hs. rewrite <- Er in Hs.
    assert (results <> []) as Hrne.
    { destruct (signature_xmls entries) as [|doc docs]; [done|]. destruct (Hdocs doc ltac:(by left)) as (set & Es & Hin).
      destruct (VerifyAllXades_nonempty _ _ _ Es) as [Hs0 _]. destruct (xs_signatures set) as [|one l]; [done|].
      intros Hr. rewrite Hr in Hin. specialize (Hin one ltac:(by left)). by apply elem_of_nil in Hin. }
    destruct (asic_summary_valid container_type (asic_representative results) _ signers _ _
      (asic_format_kept (forallb xv_signature_valid results) container_type (uncovered (external_of entries) results) results
        (asic_representative results)) ltac:(intros ->; by destruct results) Hs) as (Hsig & Hcov & Hgood & Hts).
    split; [by rewrite <- Eb, Hsig, Hcov|]. intros doc set one Hd Es Ho.
    destruct (Hdocs doc Hd) as (set' & Es' & Hin). rewrite Es in Es'. injection Es' as <-.
    apply Hin, list_elem_of_lookup_1 in Ho as [i Ho]. destruct (Hi i one Ho) as (e & d & He & Hg & Ht).
    assert (xv_signature_valid one = true) as Hone
      by (apply (forallb_elem xv_signature_valid _ Hsig); by eapply list_elem_of_lookup_2).
    assert (e ∈ signers) as Hein by by eapply list_elem_of_lookup_2. split.
    + exists d. rewrite <- Hone. apply Hg. apply (proj1 (forallb_forall _ _) Hgood). by apply list_elem_of_In.
    + intros Hp. destruct (Ht Hp) as (dt & Hdt & Hacc). apply Hacc, Hts. apply list_elem_of_In, in_concat.
      exists (se_timestamp_details e). split; [|by apply list_elem_of_In]. by apply in_map, list_elem_of_In.
Qed.

(** The reader of a file has read an archive that was accepted. *)
Lemma LoadFromFile_accepted (calls : StreamCalls) (path : string) (zip : ZipReader) :
  LoadFromFile calls path = inr zip -> exists data, LoadFromBuffer data = inr zip.
Proof. unfold LoadFromFile. destruct calls; try done. repeat (case_match; [done|]). intros E. by eexists. Qed.


(** ** CAdES containers: what a signature covers *)

(** The file entries of an unpacked container are its documents. *)
Lemma unpacked_files (entries : list AsicFileEntry) (s : ELoop) :
  el_files (foldl e_step s entries) = el_files s ++ documents entries.
Proof.
  revert s. induction entries as [|e entries IH]; intros s; [by rewrite app_nil_r|]. cbn [foldl]. rewrite IH. clear IH.
  unfold documents. cbn [List.filter]. unfold e_step, is_document.
  destruct (af_name e ==s "mimetype") eqn:E1; [done|]. cbn [negb andb].
  destruct (af_name e ==s "META-INF/timestamp.tst") eqn:E2.
  { apply String.eqb_eq in E2. rewrite E2. done. }
  destruct (is_manifest_entry (af_name e)) eqn:E3.
  { assert (in_meta_inf (af_name e) = true) as ->; [|done].
    unfold is_manifest_entry, in_meta_inf, starts_with in *. apply String.prefix_correct in E3. apply String.prefix_correct.
    destruct (af_name e) as [|? n]; [done|]. do 8 (destruct n as [|? n]; [done|]). cbn in E3 |- *.
    injection E3. intros. subst. by destruct n. }
  destruct (in_meta_inf (af_name e)); [done|]. cbn. by rewrite <- app_assoc.
Qed.

Lemma unpacked_content (container : bytes) (content : AsicEContent) :
  AsicE_Unpack container = inr content ->
  exists zip entries, LoadFromBuffer container = inr zip /\ GetFiles zip = inr entries /\
    ec_files content = map (fun e => MkFileEntry (af_name e) (af_data e)) (documents entries).
Proof.
  unfold AsicE_Unpack. destruct (container_entries container AsicWriter.AsicE "ASiC-E") as [?|entries] eqn:E; [done|].
  destruct (container_entries_spec _ _ _ _ E) as (zip & El & _ & Eg).
  pose proof (unpacked_files entries (MkELoop [] [] [] [])) as Hf. cbn [el_files app] in Hf. rewrite Hf.
  intros Hc. exists zip, entries. split; [done|]. split; [done|].
  repeat (case_match; [done|]). by injection Hc as <-.
Qed.

(** The names of accepted entries are not empty. *)
Lemma loaded_names_safe (data : bytes) (zip : ZipReader) (entries : list AsicFileEntry) (e : AsicFileEntry) :
  LoadFromBuffer data = inr zip -> GetFiles zip = inr entries -> e ∈ entries -> IsUnsafeEntryName (af_name e) = false.
Proof.
  unfold LoadFromBuffer. destruct (_ <? _); [done|]. destruct (zip_reader_init_mem data) as [z|]; [|done].
  destruct (ValidateArchiveSafety z) as [?|[]] eqn:Ev; [done|]. intros [= ->] Eg He.
  apply archive_accepted in Ev as (_ & stats & Hs & Hsafe).
  assert (af_name e ∈ map af_name entries) as Hn by (apply list_elem_of_fmap; by exists e).
  rewrite (get_files_names zip _ stats entries Hs Eg) in Hn. apply list_elem_of_fmap in Hn as (stat & -> & Hin%list_elem_of_In).
  apply filter_In in Hin as [Hin _]. apply (proj1 (Forall_forall _ _) (ok_names_safe _ Hsafe)). by apply list_elem_of_In.
Qed.

(** The digest that a manifest states is the digest of the data. *)
Definition digest_holds (ref : AsicDataObjectRef) (data : bytes) : Prop :=
  exists alg expected actual, XmlDsigUriToDigest (ar_digest_uri ref) = Some alg /\
    Base64.Base64Decode (ar_digest_base64 ref) = Some expected /\ expected <> [] /\
    ComputeImprint alg data = inr actual /\ im_hash actual = expected.

Lemma digest_matches (ref : AsicDataObjectRef) (data : bytes) :
  AsicManifestDigestMatches ref data = inr tt -> digest_holds ref data.
Proof.
  unfold AsicManifestDigestMatches. destruct (XmlDsigUriToDigest _) as [alg|] eqn:E1; [|done].
  destruct (Base64.Base64Decode _) as [[|b expected]|] eqn:E2; [done| |done].
  destruct (ComputeImprint alg data) as [?|actual] eqn:E3; [done|]. destruct (bool_decide_reflect (im_hash actual = b :: expected)); [|done].
  intros _. by exists alg, (b :: expected), actual.
Qed.

Lemma mismatched_digest_spec (refs : list AsicDataObjectRef) (files : list FileEntry) :
  length files = length refs ->
  exists mismatch, mismatched_digest refs files = Ret mismatch /\
    (mismatch = None -> Forall2 (fun ref f => digest_holds ref (fe_data f)) refs files).
Proof.
  revert files. induction refs as [|ref refs IH]; intros [|f files] Hl; try done; [by eexists|]. cbn [mismatched_digest].
  destruct (AsicManifestDigestMatches ref (fe_data f)) as [err|[]] eqn:E; [by eexists|].
  destruct (IH files ltac:(by injection Hl)) as (m & -> & Hm). exists m. split; [done|]. intros ->.
  constructor; [by apply digest_matches|by apply Hm].
Qed.

Lemma find_referenced_spec (files : list FileEntry) (m : gmap string string) (refs : list AsicDataObjectRef) (seen : gset string)
    (out : list FileEntry) :
  find_referenced files m refs seen = inr out ->
  Forall2 (fun ref f => f ∈ files /\ m !! NormalizeAsicReference (ar_uri ref) = Some (fe_filename f)) refs out.
Proof.
  revert seen out. induction refs as [|ref refs IH]; intros seen out; cbn [find_referenced]; [by intros [= <-]|].
  destruct (m !! NormalizeAsicReference (ar_uri ref)) as [raw|] eqn:Em; [|done]. destruct (bool_decide _); [done|].
  destruct (List.find _ files) as [f|] eqn:Ef; [|done]. apply find_some in Ef as [Hin Hn]. apply String.eqb_eq in Hn.
  destruct (find_referenced _ _ refs _) as [?|rest] eqn:Er; [done|]. intros [= <-]. constructor; [|by apply (IH _ _ Er)].
  split; [by apply list_elem_of_In|]. by rewrite Hn.
Qed.

(** The files that a signature is about, by its manifest or as the only one. *)
Lemma FindReferenced_spec (content : AsicEContent) (sig : AsicESignature) (files : list FileEntry) :
  FindAsicEReferencedFiles content sig = inr files ->
  files <> [] /\ (forall f, f ∈ files -> f ∈ ec_files content) /\
  (str_empty (es_manifest_xml sig) = false ->
   exists sig_uri refs, ParseAsicManifestXml (es_manifest_xml sig) = (true, sig_uri, refs) /\
     Forall2 (fun ref f => f ∈ ec_files content /\ NormalizeAsicReference (ar_uri ref) = NormalizeAsicReference (fe_filename f)) refs files).
Proof.
  unfold FindAsicEReferencedFiles. destruct (is_empty (es_signature_data sig)); [done|].
  destruct (str_empty (es_manifest_xml sig)).
  { destruct (ec_files content) as [|f [|? ?]]; [done| |done]. intros [= <-]. split; [done|]. split; [done|]. done. }
  destruct (ParseAsicManifestXml (es_manifest_xml sig)) as [[[|] sig_uri] refs]; [|done].
  destruct (_ && _ && _); [done|]. destruct (is_empty refs) eqn:Er; [done|].
  destruct (normalize_names _ _ _) as [?|m] eqn:En; [done|]. intros E. apply find_referenced_spec in E.
  destruct (normalize_names_spec _ _ _ _ En) as (_ & _ & Hm).
  assert (Forall2 (fun ref f => f ∈ ec_files content /\ NormalizeAsicReference (ar_uri ref) = NormalizeAsicReference (fe_filename f)) refs files)
    as Hf.
  { eapply Forall2_impl; [exact E|]. intros ref f [Hf Hl]. split; [done|]. by apply Hm in Hl as [?|[_ ?]]. }
  split; [|split].
  - intros ->. inversion E. by subst refs.
  - intros f Hin. apply list_elem_of_lookup_1 in Hin as [i Hi]. by destruct (Forall2_lookup_r _ _ _ _ _ Hf Hi) as (ref & _ & ? & _).
  - intros _. by exists sig_uri, refs.
Qed.

(** A signature covers a document: it is a signature of its octets, or of a manifest that states their digest. *)
Definition covers (sig : AsicESignature) (f : FileEntry) : Prop :=
  (exists info, VerifyDetached (fe_data f) (es_signature_data sig) = inr (true, info)) \/
  (exists info sig_uri refs ref,
     VerifyDetached (ToBytes (es_manifest_xml sig)) (es_signature_data sig) = inr (true, info) /\
     ParseAsicManifestXml (es_manifest_xml sig) = (true, sig_uri, refs) /\ ref ∈ refs /\
     NormalizeAsicReference (ar_uri ref) = NormalizeAsicReference (fe_filename f) /\ digest_holds ref (fe_data f)).

(** [VerifyData] always returns; its answer is that of the CMS layer. *)
Lemma verify_data_spec (data signature : bytes) (h : HandlerState) :
  exists executed is_valid h', verify_data data signature h = Ret (executed, is_valid, h') /\
    (executed && is_valid = true -> exists info, VerifyDetached data signature = inr (true, info)).
Proof.
  unfold verify_data. destruct (VerifyData_grounds data signature (hs_state h)) as (e & v & st & E & _).
  unfold mbind, outcome_bind. rewrite E. eexists _, _, _. split; [done|]. intros [-> ->]%andb_true_iff.
  unfold VerifyData in E. destruct (negb _); [done|]. destruct (VerifyDetached data signature) as [?|[valid info]]; [done|].
  unfold mbind, outcome_bind in E. destruct (compute_report _ _ _ _ _ _ _) as [[[r m] d]| |]; [|done|done].
  destruct (commit_report r m _ _). injection E as -> _. by exists info.
Qed.

Definition covered_so_far (content : AsicEContent) (signatures : list AsicESignature) (s : AsicELoop) : Prop :=
  forall name, name ∈ ae_covered_files s ->
    exists sig f, sig ∈ signatures /\ f ∈ ec_files content /\ fe_filename f = name /\ covers sig f.

(** A signature that has been accepted: over its manifest or over a document. *)
Definition accepted (content : AsicEContent) (sig : AsicESignature) : Prop :=
  exists octets info, VerifyDetached octets (es_signature_data sig) = inr (true, info) /\
    (octets = ToBytes (es_manifest_xml sig) \/ exists f, f ∈ ec_files content /\ octets = fe_data f).

Lemma record_spec (content : AsicEContent) (signatures : list AsicESignature) (sig : AsicESignature) (executed valid : bool)
    (files : list FileEntry) (h : HandlerState) (s : AsicELoop) :
  sig ∈ signatures -> covered_so_far content signatures s ->
  (executed && valid = true -> forall f, f ∈ files -> f ∈ ec_files content /\ covers sig f) ->
  covered_so_far content signatures (record_signature executed valid files h s) /\
  (ae_all_valid (record_signature executed valid files h s) = true -> ae_all_valid s = true /\ executed && valid = true).
Proof.
  intros Hs Hc Hv. split; [|by intros [? ?]%andb_true_iff]. intros name. cbn [ae_covered_files record_signature].
  destruct (executed && valid) eqn:E; [|apply Hc]. intros [Hn|Hn]%elem_of_union; [|by apply Hc].
  apply elem_of_list_to_set, list_elem_of_fmap in Hn as (f & -> & Hf). destruct (Hv eq_refl f Hf). by exists sig, f.
Qed.

Lemma verify_entry_spec (content : AsicEContent) (signatures : list AsicESignature) (sig : AsicESignature) (s : AsicELoop) :
  sig ∈ signatures -> covered_so_far content signatures s ->
  exists s', verify_entry content sig s = Ret s' /\ covered_so_far content signatures s' /\
    (ae_all_valid s' = true -> ae_all_valid s = true /\ accepted content sig).
Proof.
  intros Hs Hc. unfold verify_entry.
  destruct (FindAsicEReferencedFiles content sig) as [err|files] eqn:Ef; [by eexists|].
  destruct (FindReferenced_spec content sig files Ef) as (Hne & Hin & Hman).
  destruct (if str_empty (es_manifest_xml sig) then _ else _) as [[parsed uri] refs] eqn:Ep.
  destruct (has_any_digest refs && negb (parsed && negb (is_empty refs) && has_all_digests refs)); [by eexists|].
  destruct (parsed && negb (is_empty refs) && has_all_digests refs) eqn:Eall; cbn [negb andb].
  - assert (str_empty (es_manifest_xml sig) = false) as Em by (destruct (str_empty (es_manifest_xml sig)); [by injection Ep as <- <- <-|done]).
    rewrite Em in Ep. destruct (Hman Em) as (uri' & refs' & Ep' & Hf). rewrite Ep in Ep'. injection Ep' as -> -> ->.
    destruct (verify_data_spec (ToBytes (es_manifest_xml sig)) (es_signature_data sig) (ae_session s)) as (e & v & h & E & Hv).
    unfold mbind, outcome_bind. rewrite E. destruct (e && v) eqn:Eev.
    + destruct (Hv eq_refl) as (info & Hdet).
      destruct (mismatched_digest_spec refs' files) as (mm & Em2 & Hmm); [by rewrite (Forall2_length _ _ _ Hf)|]. rewrite Em2.
      destruct mm as [[n err]|].
      * eexists. split; [done|]. destruct (record_spec content signatures sig e false files h
          (note_error ("ASiC-E manifest digest does not match the data object '" +s+ n +s+ "': " +s+ err) s) Hs Hc) as [R1 R2].
        { by rewrite andb_false_r. }
        split; [exact R1|]. intros Ha. destruct (R2 Ha) as [_ Hb]. by rewrite andb_false_r in Hb.
      * eexists. split; [done|]. destruct (record_spec content signatures sig e true files h s Hs Hc) as [R1 R2].
        { intros _ f Hfile. split; [by apply Hin|]. right. apply list_elem_of_lookup_1 in Hfile as [i Hi].
          destruct (Forall2_lookup_r _ _ _ _ _ Hf Hi) as (ref & Hr & _ & Hnorm).
          destruct (Forall2_lookup_r _ _ _ _ _ (Hmm eq_refl) Hi) as (ref2 & Hr2 & Hdig). rewrite Hr in Hr2. injection Hr2 as <-.
          exists info, uri', refs', ref. split_and!; try done. by eapply list_elem_of_lookup_2. }
        split; [exact R1|]. intros Ha. destruct (R2 Ha) as [? _]. split; [done|]. exists (ToBytes (es_manifest_xml sig)), info.
        split; [done|]. by left.
    + eexists. split; [done|]. destruct (record_spec content signatures sig e v files h s Hs Hc) as [R1 R2]; [by rewrite Eev|].
      split; [exact R1|]. intros Ha. destruct (R2 Ha) as [_ Hb]. by rewrite Eev in Hb.
  - destruct (negb (length files =? 1)%nat) eqn:El; [by eexists|]. destruct files as [|f [|? ?]]; [done| |done].
    destruct (verify_data_spec (fe_data f) (es_signature_data sig) (ae_session s)) as (e & v & h & E & Hv).
    unfold mbind, outcome_bind. rewrite E. eexists. split; [done|].
    destruct (record_spec content signatures sig e v [f] h s Hs Hc) as [R1 R2].
    { intros Hev g ->%list_elem_of_singleton. split; [apply Hin; by left|]. left. by apply Hv. }
    split; [exact R1|]. intros Ha. destruct (R2 Ha) as [? Hb]. split; [done|]. destruct (Hv Hb) as (info & Hdet).
    exists (fe_data f), info. split; [done|]. right. exists f. split; [apply Hin; by left|done].
Qed.

Lemma verify_entries_spec (content : AsicEContent) (all rest : list AsicESignature) (s : AsicELoop) :
  (forall sig, sig ∈ rest -> sig ∈ all) -> covered_so_far content all s ->
  exists s', verify_entries content rest s = Ret s' /\ covered_so_far content all s' /\
    (ae_all_valid s' = true -> ae_all_valid s = true /\ forall sig, sig ∈ rest -> accepted content sig).
Proof.
  revert s. induction rest as [|sig rest IH]; intros s Hin Hc.
  { eexists. split; [done|]. split; [done|]. intros ?. split; [done|]. by intros ? ?%elem_of_nil. }
  cbn [verify_entries]. destruct (verify_entry_spec content all sig s (Hin sig (list_elem_of_here _ _)) Hc) as (s1 & E1 & C1 & A1).
  unfold mbind, outcome_bind. rewrite E1. destruct (IH s1) as (s2 & E2 & C2 & A2); [intros g Hg; apply Hin; by right|done|].
  exists s2. split; [done|]. split; [done|]. intros Ha. destruct (A2 Ha) as [Ha1 Hr]. destruct (A1 Ha1) as [Ha0 Hs].
  split; [done|]. by intros g [->|Hg]%elem_of_cons; [|apply Hr].
Qed.

(** ** What a container with CAdES signatures rests on *)

Lemma listed_empty (separator : string) (l : list string) : listed separator l = "" -> "" ∉ l -> l = [].
Proof.
  assert (forall l out, out <> "" ->
    foldl (fun out name => (if str_empty out then out else out +s+ separator) +s+ name) out l <> "") as Hkeep.
  { clear. induction l as [|x l IH]; intros out Ho; [done|]. cbn [foldl]. apply IH. by destruct out. }
  destruct l as [|x l]; [done|]. intros Hl Hx. exfalso. apply (Hkeep l x); [|exact Hl]. intros ->. apply Hx. by left.
Qed.

Lemma covered_names (content : AsicEContent) (s : AsicELoop) :
  "" ∉ map fe_filename (ec_files content) -> uncovered_files content s = "" ->
  forall f, f ∈ ec_files content -> fe_filename f ∈ ae_covered_files s.
Proof.
  intros Hne Hu f Hf. apply listed_empty in Hu.
  - destruct (decide (fe_filename f ∈ ae_covered_files s)) as [|Hn]; [done|]. exfalso.
    assert (fe_filename f ∈ List.filter (fun name => negb (bool_decide (name ∈ ae_covered_files s))) (map fe_filename (ec_files content)))
      as Hin.
    { apply list_elem_of_In, filter_In. split; [apply in_map; by apply list_elem_of_In|].
      apply negb_true_iff. by apply bool_decide_eq_false. }
    rewrite Hu in Hin. by apply elem_of_nil in Hin.
  - intros Hin. apply Hne. apply list_elem_of_In in Hin. apply filter_In in Hin as [Hin _]. by apply list_elem_of_In.
Qed.

Lemma same_file (files : list FileEntry) (f g : FileEntry) :
  NoDup (map fe_filename files) -> f ∈ files -> g ∈ files -> fe_filename f = fe_filename g -> f = g.
Proof.
  induction files as [|a files IH]; cbn; [by intros _ ?%elem_of_nil|].
  intros [Ha Hd]%NoDup_cons [->|Hf]%elem_of_cons [->|Hg]%elem_of_cons E; [done| | |by apply IH].
  - destruct Ha. rewrite E. apply list_elem_of_fmap. by exists g.
  - destruct Ha. rewrite <- E. apply list_elem_of_fmap. by exists f.
Qed.

(** The names of the documents of an unpacked container are not empty and differ. *)
Lemma unpacked_names (container : bytes) (content : AsicEContent) :
  AsicE_Unpack container = inr content ->
  NoDup (map fe_filename (ec_files content)) /\ "" ∉ map fe_filename (ec_files content).
Proof.
  intros E. destruct (unpacked_content container content E) as (zip & entries & El & Eg & Ef).
  assert (map fe_filename (ec_files content) = map af_name (documents entries)) as En by (rewrite Ef, map_map; done).
  rewrite En. split.
  - apply NoDup_map_filter. by apply (loaded_names container zip).
  - intros (e & E0 & He)%list_elem_of_fmap. apply list_elem_of_In, filter_In in He as [He _].
    apply list_elem_of_In in He. pose proof (loaded_names_safe container zip entries e El Eg He) as Hs. by rewrite <- E0 in Hs.
Qed.

Lemma container_timestamp_returns (settings : Settings) (token signature : bytes) (h : HandlerState) :
  exists h', container_timestamp settings token signature h = Ret h'.
Proof.
  unfold container_timestamp, mbind, outcome_bind.
  destruct (TryCanonical_spec (z_disk (hs_state h)) settings token signature "" [] [] []) as (v & d & E & _).
  rewrite E. destruct v as [[[? ?] ?]|]; case_match; by eexists.
Qed.

(** [C6] The check of a container with CAdES signatures, once its bytes have been read, always returns.  When it says [true], every
    signature of the container was accepted by the CMS layer over its manifest or over one document, and every document of the
    archive is covered: some signature of the container is over it, or over a manifest that states a digest which is its own. *)
Theorem VerifyFileAsicE_valid_grounds (files : Files) (asice_path : string) (h : HandlerState) (container : bytes)
    (Hread : ReadBinaryFile (fl_fs files) (ResolveFilePath asice_path (fl_settings files)) "ASiC-E file" = inr container)
    (Hcades : ContainerHasXadesSignature container = false) :
  exists returned is_valid h', VerifyFileAsicE files asice_path h = Ret (returned, is_valid, h') /\
    (is_valid = true ->
     returned = true /\ ss_is_initialized (hs_session h) = true /\
     exists content, AsicE_Unpack container = inr content /\ ec_files content <> [] /\ ec_signatures content <> [] /\
       (forall sig, sig ∈ ec_signatures content -> accepted content sig) /\
       forall f, f ∈ ec_files content -> exists sig, sig ∈ ec_signatures content /\ covers sig f).
Proof.
  unfold VerifyFileAsicE. destruct (ss_is_initialized (hs_session h)); cbn [negb]; [|by eexists _, _, _].
  rewrite Hread, Hcades. destruct (AsicE_Unpack container) as [?|content] eqn:Eu; [by eexists _, _, _|].
  destruct (is_empty (ec_files content) || is_empty (ec_signatures content)) eqn:Ee; [by eexists _, _, _|].
  apply orb_false_iff in Ee as [Ef Es].
  destruct (unpacked_names container content Eu) as [Hnd Hne].
  destruct (verify_entries_spec content (ec_signatures content) (ec_signatures content) (MkAsicELoop true "" [] 0 ∅ h))
    as (s & Ev & Hc & Ha); [done|by intros name ?%elem_of_empty|].
  unfold mbind, outcome_bind. rewrite Ev. destruct (ec_signatures content) as [|first rest] eqn:Esig; [done|].
  assert (ae_all_valid s && str_empty (uncovered_files content s) = true ->
    exists content', inr content = (inr content' : string + AsicEContent) /\ ec_files content' <> [] /\ ec_signatures content' <> [] /\
      (forall sig, sig ∈ ec_signatures content' -> accepted content' sig) /\
      forall f, f ∈ ec_files content' -> exists sig, sig ∈ ec_signatures content' /\ covers sig f) as Hgrounds.
  { intros [Hv Hu]%andb_true_iff. exists content. rewrite Esig. split; [done|].
    split; [by destruct (ec_files content)|]. split; [done|]. split; [by apply Ha|]. intros f Hf.
    assert (uncovered_files content s = "") as Hu' by (by destruct (uncovered_files content s)).
    destruct (Hc _ (covered_names content s Hne Hu' f Hf)) as (sig & g & Hs & Hg & En & Hcov).
    exists sig. split; [done|]. by rewrite (same_file _ _ _ Hnd Hf Hg (eq_sym En)). }
  match goal with |- context [container_timestamp ?st ?tok ?sg ?hh] => destruct (container_timestamp_returns st tok sg hh) as (h2 & E2) end.
  destruct (ae_all_valid s && str_empty (uncovered_files content s) && negb (is_empty (ec_timestamp_data content))).
  - rewrite E2. eexists _, _, _. split; [done|]. intros Hv. split; [done|]. split; [done|]. by apply Hgrounds.
  - eexists _, _, _. split; [done|]. intros Hv. split; [done|]. split; [done|]. by apply Hgrounds.
Qed.

(** ** What an ASiC-S container with a CAdES signature rests on *)

Lemma VerifyData_coverage (data signature : bytes) (st st' : State) (result is_valid : bool) :
  VerifyData data signature st = Ret (result, is_valid, st') ->
  vr_container_coverage_complete (ss_last_verify_report (z_session st')) = true.
Proof.
  unfold VerifyData. destruct (negb _); [by intros [= _ _ <-]|]. destruct (VerifyDetached data signature) as [?|[valid info]].
  { by intros [= _ _ <-]. }
  unfold compute_report. destruct (signer_metadata_total info) as [m Hm].
  unfold mbind, outcome_bind. rewrite Hm. destruct valid; cbn [andb].
  2: { intros [= _ _ <-]. by destruct m. }
  unfold apply_engine. destruct (engine_certificates _ _ _ _) as [embedded disk'].
  destruct (Validation.Validate disk' _ _ _) as [ve disk''].
  destruct (Apply_verdict ve (local_report "VerifyData" true info)) as (r & Hr & (_ & _ & _ & _ & Hc) & _).
  unfold mbind, outcome_bind. rewrite Hr. intros [= _ _ <-].
  destruct (negb (vr_trust_valid r) && vr_trust_checked r); by destruct m.
Qed.

Lemma updated_report (f : VerifyReport -> VerifyReport) (h : HandlerState) : last_report (update_report f h) = f (last_report h).
Proof. by destruct h as [[? ? ?] ?]. Qed.

Lemma named_report_summary (operation : string) (h : HandlerState) :
  vr_container_coverage_complete (last_report h) = true ->
  ck_status (SummaryCheck (last_report (let h := override_operation operation h in
    if owned h then update_report whole_asics h else h))) = "valid" ->
  ck_status (SummaryCheck (last_report h)) = "valid".
Proof.
  intros Hc. cbv zeta.
  assert (ck_status (SummaryCheck (last_report (override_operation operation h))) = "valid" ->
    ck_status (SummaryCheck (last_report h)) = "valid") as E1.
  { unfold override_operation. destruct (vr_has_result (last_report h) && owned h); [|done].
    rewrite updated_report. done. }
  assert (vr_container_coverage_complete (last_report (override_operation operation h)) = true) as E2.
  { unfold override_operation. destruct (vr_has_result (last_report h) && owned h); [|done]. by rewrite updated_report. }
  destruct (owned (override_operation operation h)); [|done]. rewrite updated_report. intros Hv. apply E1. revert Hv.
  set (r := last_report _) in *. clearbody r. rewrite !SummaryCheck_valid_iff. intros (G & M & _ & Ht & Hts).
  split; [|by split_and!]. destruct G; by split.
Qed.

(** [C18] The check of an ASiC-S container with a CAdES signature, once its bytes have been read, always returns.  When it says [true], the
    container has exactly one document, and the CMS layer accepted the signature of the container over its octets; when the summary of the
    report is "valid" as well, the answer is [true] and the engine found the signer trusted and not revoked. *)
Theorem VerifyFileAsicS_valid_grounds (files : Files) (asics_path : string) (h : HandlerState) (container : bytes)
    (Hread : ReadBinaryFile (fl_fs files) (ResolveFilePath asics_path (fl_settings files)) "ASiC-S file" = inr container)
    (Hcades : ContainerHasXadesSignature container = false) :
  exists returned is_valid h', VerifyFileAsicS files asics_path h = Ret (returned, is_valid, h') /\
    (ck_status (SummaryCheck (last_report h')) = "valid" -> is_valid = true) /\
    (is_valid = true ->
     exists content zip entries info, AsicS_Unpack container = inr content /\
       LoadFromBuffer container = inr zip /\ GetFiles zip = inr entries /\
       documents entries = [MkAsicFileEntry (sc_filename content) (sc_file_data content)] /\
       VerifyDetached (sc_file_data content) (sc_signature_data content) = inr (true, info) /\
       (ck_status (SummaryCheck (last_report h')) = "valid" ->
        exists disk embedded,
          let settings := ss_settings (hs_session h) in
          let context := context_of settings (ss_ocsp_settings (hs_session h)) (sc_signature_data content) true in
          let ve := (Validation.Validate disk context (pi_signer_certificate_der info) embedded).1 in
          ValidGrounds disk context (pi_signer_certificate_der info) embedded ve /\
          rr_revocation_status (rpt_signer_revocation ve) = RevocationStatus.Good)).
Proof.
  unfold VerifyFileAsicS. destruct (ss_is_initialized (hs_session h)); cbn [negb]; [|by eexists _, _, _].
  rewrite Hread, Hcades. destruct (AsicS_Unpack container) as [?|content] eqn:Eu; [by eexists _, _, _|].
  destruct (unpacked_single container content Eu) as (zip & entries & El & Eg & Ed & _ & _ & _ & Et).
  rewrite Et. cbn [is_empty negb]. unfold verify_data, mbind, outcome_bind.
  destruct (VerifyData_grounds (sc_file_data content) (sc_signature_data content) (hs_state h)) as (e & v & st & E & _ & Hg).
  rewrite E, andb_false_r. eexists _, _, _. split; [done|].
  set (h1 := refresh_user_report _).
  pose proof (named_report_summary "VerifyFileAsicS" h1 (VerifyData_coverage _ _ _ _ _ _ E)) as Hsum. cbv zeta in Hsum.
  set (report := last_report (if owned _ then _ else _)) in *. clearbody report.
  split; [by intros Hv; destruct (Hg (Hsum Hv)) as (_ & ? & _)|]. intros ->.
  assert (exists info, VerifyDetached (sc_file_data content) (sc_signature_data content) = inr (true, info)) as [info Hdet].
  { clear -E. unfold VerifyData in E. destruct (negb _); [done|]. destruct (VerifyDetached _ _) as [?|[valid info]]; [done|].
    unfold mbind, outcome_bind in E. destruct (compute_report _ _ _ _ _ _ _) as [[[r m] d]| |]; [|done|done].
    destruct (commit_report r m _ _). injection E as _ -> _. by exists info. }
  exists content, zip, entries, info. split_and!; try done. intros Hv.
  destruct (Hg (Hsum Hv)) as (_ & _ & _ & info' & disk & embedded & Hdet' & _ & Hvg & Hrev & _). rewrite Hdet in Hdet'.
  injection Hdet' as <-. by exists disk, embedded.
Qed.

End VerifyAsic.

(** ** Two containers *)

Module SampleContainers.

Import SampleSignature SampleCms SampleToken SampleArchive SessionPdf.SampleHandler.

#[local] Existing Instances toy_clock toy_cert_api toy_crl_api toy_ocsp_api toy_http toy_metadata_api toy_cms_api
  toy_token_digests SampleRun.toy_external tamga_timestamps tamga_cms SampleRun.toy_run_store toy_parser toy_crypto toy_props toy_miniz memory.

(** A container with a document and signatures over it, without manifests. *)
Definition container_of (signatures : list bytes) : bytes :=
  encode (("mimetype", ToBytes "application/vnd.etsi.asic-e+zip", false) :: ("letter.txt", [x0a; x0b], false)
    :: imap (fun i s => ("META-INF/signature" +s+ to_string (Z.of_nat i) +s+ ".p7s", s, false)) signatures).

Definition store (signatures : list bytes) : Files :=
  MkFiles FileStoreSettings_default (<["box.asice" := map Ascii.ascii_of_byte (container_of signatures)]> ∅) (fun _ => NotOpened).

Definition run (signatures : list bytes) := VerifyFileAsicE (store signatures) "box.asice" start.

Abbreviation one_run := (run [[x0a; x0b]]).
Abbreviation two_run := (run [[x0c]; [x0a; x0b]]).

(** The first of two signatures is of other data.  The answer is [false], and the report is that of the second signature: its summary
    is "valid", although one of its entries is not. *)
Example summary_of_the_last_signature :
  flags two_run = Some (true, false) /\
  SummaryCheck (last_report (last_state two_run)) = MkVerifyCheck "valid" "SIGNATURE_VALID" /\
  map se_signature_valid (vr_signatures (last_report (last_state two_run))) = [false; true].
Proof. split; [|split]; vm_compute; reflexivity. Qed.

(** The URIs that the writer of manifests uses and the reader does not know. *)
Example sha384_is_not_read_back :
  XmlDsigUriToDigest (DigestOidToXmlDsigUri "2.16.840.1.101.3.4.2.2") = None /\
  XmlDsigUriToDigest (DigestOidToXmlDsigUri "2.16.840.1.101.3.4.2.3") = None /\
  XmlDsigUriToDigest (DigestOidToXmlDsigUri "2.16.840.1.101.3.4.2.1") = Some DigestSha256.
Proof. done. Qed.

Lemma one_container_read :
  ReadBinaryFile (fl_fs (store [[x0a; x0b]])) (ResolveFilePath "box.asice" (fl_settings (store [[x0a; x0b]]))) "ASiC-E file"
    = inr (container_of [[x0a; x0b]]) /\ ContainerHasXadesSignature (container_of [[x0a; x0b]]) = false.
Proof. split; vm_compute; reflexivity. Qed.

Lemma container_run_flags : flags one_run = Some (true, true).
Proof. vm_compute. reflexivity. Qed.

Lemma VerifyFileAsicE_valid_grounds_witness :
  exists content, AsicE_Unpack (container_of [[x0a; x0b]]) = inr content /\
    forall f, f ∈ ec_files content -> exists sig, sig ∈ ec_signatures content /\ covers sig f.
Proof.
  destruct one_container_read as [Hread Hcades].
  destruct (run_elim one_run _ container_run_flags
    (VerifyFileAsicE_valid_grounds (store [[x0a; x0b]]) "box.asice" start (container_of [[x0a; x0b]]) Hread Hcades) eq_refl)
    as (_ & _ & content & Hu & _ & _ & _ & Hc).
  exists content. split; [exact Hu|exact Hc].
Defined.

(** An ASiC-S container. *)
Definition simple_container : bytes :=
  encode [("mimetype", ToBytes "application/vnd.etsi.asic-s+zip", false); ("letter.txt", [x0a; x0b], false);
          ("META-INF/signature.p7s", [x0a; x0b], false)].

Definition simple_store : Files :=
  MkFiles FileStoreSettings_default (<["box.asics" := map Ascii.ascii_of_byte simple_container]> ∅) (fun _ => NotOpened).

Abbreviation simple_run := (VerifyFileAsicS simple_store "box.asics" start).

Lemma simple_container_read :
  ReadBinaryFile (fl_fs simple_store) (ResolveFilePath "box.asics" (fl_settings simple_store)) "ASiC-S file" = inr simple_container /\
  ContainerHasXadesSignature simple_container = false.
Proof. split; vm_compute; reflexivity. Qed.

Lemma simple_run_flags : flags simple_run = Some (true, true).
Proof. vm_compute. reflexivity. Qed.

Lemma VerifyFileAsicS_valid_grounds_witness :
  ck_status (SummaryCheck (last_report (last_state simple_run))) = "valid" /\
  exists content info, AsicS_Unpack simple_container = inr content /\
    VerifyDetached (sc_file_data content) (sc_signature_data content) = inr (true, info).
Proof.
  split; [vm_compute; reflexivity|]. destruct simple_container_read as [Hread Hcades].
  destruct (run_elim simple_run _ simple_run_flags
    (VerifyFileAsicS_valid_grounds simple_store "box.asics" start simple_container Hread Hcades)) as [_ Hv].
  destruct (Hv eq_refl) as (content & zip & entries & info & Hu & _ & _ & _ & Hd & _).
  exists content, info. split; [exact Hu|exact Hd].
Defined.

End SampleContainers.
