(* ===== verification/KeySession.v ===== *)
(** * KeySession: the life of a session and of its private key

    The handlers of [core/session/SessionLifecycle.ipp] (initialisation, settings,
    synchronisation of the trusted lists) and [SessionKeyLoading.ipp] (loading and
    forgetting a private key), with the loading itself from
    [SessionStateAndNormalization.ipp].  The part of the session that the
    verification handlers use is the record [Session.Session]; [KeySession] adds the
    rest of the members.  Every handler gives the [bool] of the C++ method and the
    state after it; the files of keys and certificates are the store [Fs], the
    directory of the trusted lists the [Disk] of the policy cache.  Mutexes are not
    modelled: each handler is one step. *)

From stdpp Require Import gmap.
From S2P Require Import Prelude CxxString Types Time Der Codec Utf Json FileSystem Paths Sha256 Sha1 Jks Pem KeyContainers.
From S2P Require Import Imprint CaRegistry Cryptonite Fixture CertResolve KeyNormalize TrustList XmlDsig Report Projection.
From S2P Require Import ReportJson PolicyCache PolicyAtomic TrustSync Session.

Local Open Scope Z_scope.
Local Open Scope tamga_scope.

(** ** The rest of the session's members ([Session.h]) *)

Record TspSettings := MkTspSettings {
  tg_url : string;
  tg_policy_oid : string;
  tg_timeout_ms : Z;
  tg_imprint_digest_oid : string
}.

#[export] Instance eta_TspSettings : Eta TspSettings := fun r =>
  MkTspSettings (tg_url r) (tg_policy_oid r) (tg_timeout_ms r) (tg_imprint_digest_oid r).

Definition TspSettings_default : TspSettings :=
  MkTspSettings "" "" 10000 "".

Record LdapSettings := MkLdapSettings {
  lg_url : string;
  lg_base_dn : string;
  lg_timeout_ms : Z
}.

#[export] Instance eta_LdapSettings : Eta LdapSettings := fun r =>
  MkLdapSettings (lg_url r) (lg_base_dn r) (lg_timeout_ms r).

Definition LdapSettings_default : LdapSettings :=
  MkLdapSettings "" "" 10000.

Record CmpSettings := MkCmpSettings {
  cg_url : string;
  cg_profile : string;
  cg_timeout_ms : Z
}.

#[export] Instance eta_CmpSettings : Eta CmpSettings := fun r =>
  MkCmpSettings (cg_url r) (cg_profile r) (cg_timeout_ms r).

Definition CmpSettings_default : CmpSettings :=
  MkCmpSettings "" "" 10000.

Record TrustListSyncReport := MkTrustListSyncReport {
  ty_checked : bool;
  ty_update_succeeded : bool;
  ty_source : string;
  ty_cache_status : string;
  ty_last_sync : string;
  ty_xml_signature_status : string
}.

#[export] Instance eta_TrustListSyncReport : Eta TrustListSyncReport := fun r =>
  MkTrustListSyncReport (ty_checked r) (ty_update_succeeded r) (ty_source r) (ty_cache_status r)
  (ty_last_sync r) (ty_xml_signature_status r).

Definition TrustListSyncReport_default : TrustListSyncReport :=
  MkTrustListSyncReport false false "https://czo.gov.ua/download/tl/TL-UA-EC.xml" "not-checked"
  "" "not-checked".

Record CertificateHints := MkCertificateHints {
  ch_certificate_path : string;
  ch_certificate_base64 : string;
  ch_key_file_path : string;
  ch_ca_hint : string;
  ch_subject_identifier : string
}.

#[export] Instance eta_CertificateHints : Eta CertificateHints := fun r =>
  MkCertificateHints (ch_certificate_path r) (ch_certificate_base64 r) (ch_key_file_path r)
  (ch_ca_hint r) (ch_subject_identifier r).

Definition CertificateHints_default : CertificateHints :=
  MkCertificateHints "" "" "" "" "".

Record KeySession := MkKeySession {
  ks_session : Session;
  ks_is_private_key_loaded : bool;
  ks_need_set_settings : bool;
  ks_file_store_settings : FileStoreSettings;
  ks_tsp_settings : TspSettings;
  ks_ldap_settings : LdapSettings;
  ks_cmp_settings : CmpSettings;
  ks_trust_list_settings : TrustListSettings;
  ks_loaded_key : bytes;
  ks_loaded_key_material : bytes;
  ks_loaded_certificate : bytes;
  ks_loaded_key_password : string;
  ks_loaded_key_format : KeyFormat.t;
  ks_last_trust_list_sync_report : TrustListSyncReport
}.

#[export] Instance eta_KeySession : Eta KeySession := fun r =>
  MkKeySession (ks_session r) (ks_is_private_key_loaded r) (ks_need_set_settings r)
  (ks_file_store_settings r) (ks_tsp_settings r) (ks_ldap_settings r) (ks_cmp_settings r)
  (ks_trust_list_settings r) (ks_loaded_key r) (ks_loaded_key_material r)
  (ks_loaded_certificate r) (ks_loaded_key_password r) (ks_loaded_key_format r)
  (ks_last_trust_list_sync_report r).

Definition KeySession_default : KeySession :=
  MkKeySession Session_default false true FileStoreSettings_default TspSettings_default
  LdapSettings_default CmpSettings_default TrustListSettings_default [] [] [] ""
  KeyFormat.Unknown TrustListSyncReport_default.

(** [SetError(code, message); return false;] and [ClearError(); return true;]. *)
Definition fail (code : ErrorCode.t) (message : string) (s : KeySession) : bool * KeySession :=
  (false, s <| ks_session ::= SetError code message |>).

Definition succeed (s : KeySession) : bool * KeySession := (true, s <| ks_session ::= ClearError |>).

(** ** Lifecycle *)

(** The constructor. *)
Definition Session_new : KeySession := KeySession_default <| ks_session ::= ClearVerifyReport |>.

Definition SecureClearLoadedKey (s : KeySession) : KeySession :=
  s <| ks_loaded_key := [] |> <| ks_loaded_key_material := [] |> <| ks_loaded_certificate := [] |>
    <| ks_loaded_key_password := "" |> <| ks_loaded_key_format := KeyFormat.Unknown |>.

(** [temp_work_dir]: the directory made under the temporary directory, [None] when this throws. *)
Definition Initialize (temp_work_dir : option string) (s : KeySession) : bool * KeySession :=
  let s :=
    if ks_need_set_settings s then
      let s :=
        if str_empty (sg_work_dir (ss_settings (ks_session s))) then
          match temp_work_dir with
          | Some dir => s <| ks_session ::= fun ss => ss <| ss_settings ::= fun g => g <| sg_work_dir := dir |> |> |>
          | None => s
          end
        else s in
      s <| ks_need_set_settings := false |>
    else s in
  succeed (s <| ks_session ::= fun ss => ClearVerifyReport (ss <| ss_is_initialized := true |>) |>).

Definition Finalize (s : KeySession) : bool * KeySession :=
  let s := (SecureClearLoadedKey s) <| ks_is_private_key_loaded := false |> in
  succeed (s <| ks_session ::= fun ss => ClearVerifyReport (ss <| ss_is_initialized := false |>) |>).

Definition ResetPrivateKey (s : KeySession) : bool * KeySession :=
  succeed ((SecureClearLoadedKey s) <| ks_is_private_key_loaded := false |>).

(** ** Settings *)

Definition trust_modes : list string := ["strict"; "compatibility"; "ukraine-legal"; "offline"; "forensic"].
Definition validation_levels : list string := ["basic"; "standard"; "extended"; "forensic"].

Definition or_default (value fallback : string) : string := if str_empty value then fallback else value.

Definition SetSettings (settings : Settings) (s : KeySession) : bool * KeySession :=
  let normalized := settings <| sg_trust_mode ::= fun v => or_default v "strict" |> in
  if negb (existsb (String.eqb (sg_trust_mode normalized)) trust_modes)
  then fail ErrorCode.InvalidArgument
         "Invalid trust mode; expected strict, compatibility, ukraine-legal, offline or forensic" s else
  let normalized := normalized <| sg_validation_level ::= fun v => or_default v "standard" |> in
  if negb (existsb (String.eqb (sg_validation_level normalized)) validation_levels)
  then fail ErrorCode.InvalidArgument
         "Invalid validation level; expected basic, standard, extended or forensic" s else
  succeed (s <| ks_session ::= fun ss => ss <| ss_settings := normalized |> |> <| ks_need_set_settings := false |>).

Definition SetFileStoreSettings (settings : FileStoreSettings) (s : KeySession) : bool * KeySession :=
  succeed (s <| ks_file_store_settings := settings |>).

Definition IsValidTimeout (timeout_ms : Z) : bool := (0 <? timeout_ms) && (timeout_ms <=? 300000).

Definition IsLikelyUrl (value : string) : bool :=
  starts_with value "http://" || starts_with value "https://" || starts_with value "ldap://".

(** The guard that the four network settings share. *)
Definition bad_endpoint (url : string) (timeout_ms : Z) : bool :=
  (negb (str_empty url) && negb (IsLikelyUrl url)) || negb (IsValidTimeout timeout_ms).

Definition SetOcspSettings (settings : OcspSettings) (s : KeySession) : bool * KeySession :=
  if bad_endpoint (og_url settings) (og_timeout_ms settings)
  then fail ErrorCode.InvalidArgument "Invalid OCSP settings" s
  else succeed (s <| ks_session ::= fun ss => ss <| ss_ocsp_settings := settings |> |>).

Definition SetTspSettings (settings : TspSettings) (s : KeySession) : bool * KeySession :=
  if bad_endpoint (tg_url settings) (tg_timeout_ms settings)
  then fail ErrorCode.InvalidArgument "Invalid TSP settings" s else
  let normalized := settings <| tg_imprint_digest_oid ::= lower |> in
  let oid := tg_imprint_digest_oid normalized in
  if negb (str_empty oid) && negb (oid ==s "auto")
     && match ImprintFromDigestOid oid with Some _ => false | None => true end
  then fail ErrorCode.InvalidArgument "Invalid TSP imprint digest OID" s
  else succeed (s <| ks_tsp_settings := normalized |>).

Definition SetLdapSettings (settings : LdapSettings) (s : KeySession) : bool * KeySession :=
  if bad_endpoint (lg_url settings) (lg_timeout_ms settings)
  then fail ErrorCode.InvalidArgument "Invalid LDAP settings" s
  else if str_empty (lg_url settings) then succeed (s <| ks_ldap_settings := settings |>)
  else fail ErrorCode.NotSupported (ErrorCode_ToString ErrorCode.NotSupported) s.

Definition SetCmpSettings (settings : CmpSettings) (s : KeySession) : bool * KeySession :=
  if bad_endpoint (cg_url settings) (cg_timeout_ms settings)
  then fail ErrorCode.InvalidArgument "Invalid CMP settings" s
  else if str_empty (cg_url settings) then succeed (s <| ks_cmp_settings := settings |>)
  else fail ErrorCode.NotSupported (ErrorCode_ToString ErrorCode.NotSupported) s.

Definition SetTrustListSettings (settings : TrustListSettings) (s : KeySession) : bool * KeySession :=
  let normalized := settings <| ts_url ::= fun v => or_default v (ts_url TrustListSettings_default) |> in
  if negb (IsLikelyUrl (ts_url normalized)) || negb (IsValidTimeout (ts_timeout_ms normalized))
     || (ts_cache_ttl_hours normalized <=? 0)
  then fail ErrorCode.InvalidArgument "Invalid trust list settings" s
  else succeed (s <| ks_trust_list_settings := normalized |>).

(** ** Synchronisation of the trusted lists *)

Definition sync_report_of (result : TrustListSyncResult) : TrustListSyncReport :=
  MkTrustListSyncReport true (sr_succeeded result) (sr_source_url result) (sr_cache_status result)
    (sr_last_sync result) (sr_xml_signature_status result).

(** The handler over a synchronisation [sync]; [SyncTrustList] below is the handler itself. *)
Definition sync_handler (sync : string -> TrustListSettings -> Os TrustListSyncResult) (s : KeySession)
    : Os (bool * KeySession) :=
  let settings := ss_settings (ks_session s) in
  if negb (ss_is_initialized (ks_session s))
  then ret (fail ErrorCode.NotInitialized (ErrorCode_ToString ErrorCode.NotInitialized) s)
  else if sg_offline_mode settings then
    ret (fail ErrorCode.OnlineServiceUnavailable "Trust list synchronization is disabled in offline mode"
           (s <| ks_last_trust_list_sync_report :=
                   MkTrustListSyncReport true false (ts_url (ks_trust_list_settings s)) "blocked-offline" ""
                     "not-checked-offline" |>))
  else
    let* result := sync (sg_work_dir settings) (ks_trust_list_settings s) in
    let s := s <| ks_last_trust_list_sync_report := sync_report_of result |> in
    ret (if negb (sr_succeeded result)
         then fail ErrorCode.OnlineServiceUnavailable (sr_message result) s else succeed s).

Section Synchronise.
Context `{Cert : CertApi, Plat : Platform, Meta : !@MetadataApi Cert Plat}.
Context `{Libxml : LibXml, Crypto : XmlCrypto, Digests : DigestApi, World : SyncWorld, Now : Clock}.

Definition SyncTrustList (metadata_error_text : bytes -> string) : KeySession -> Os (bool * KeySession) :=
  sync_handler (Sync metadata_error_text).
End Synchronise.

(** ** The private key *)

(** [std::string] arguments that a JSON descriptor gives; absent members leave the argument alone. *)
Definition string_member (json key : string) (old : string) : string := default old (ExtractJsonString json key).

(** The first of the keys that the descriptor has. *)
Fixpoint first_member (json : string) (keys : list string) : option string :=
  match keys with
  | [] => None
  | key :: keys' =>
      match ExtractJsonString json key with Some value => Some value | None => first_member json keys' end
  end.

Definition hints_of (json : string) : CertificateHints :=
  MkCertificateHints
    (default "" (first_member json ["certificatePath"; "certPath"]))
    (default "" (first_member json ["certificateBase64"; "certBase64"]))
    ""
    (default "" (first_member json ["ca"; "provider"]))
    (default "" (first_member json ["edrpou"; "drfo"; "subject"])).

Section Keys.
Context `{HFile : FileApi} `{HPlat : Platform} `{HCert : CertApi} `{HKeys : !KeyStoreApi} `{HCrypto : KeyCrypto}.
Context `{HCa : CaWorld} `{HFetch : FetchApi}.

(** The request that [ResolveMissingCertificate] makes, but for the explicit certificate. *)
Definition resolve_request (s : KeySession) (key_material : bytes) (password : string) (hints : CertificateHints)
    : CertificateResolveRequest :=
  let settings := ss_settings (ks_session s) in
  let ldap := ks_ldap_settings s in
  CertificateResolveRequest_default
    <| rq_key_material := key_material |> <| rq_password := password |>
    <| rq_explicit_certificate_path := ch_certificate_path hints |>
    <| rq_key_file_path := ch_key_file_path hints |>
    <| rq_preferred_ca_hint := ch_ca_hint hints |>
    <| rq_work_dir := sg_work_dir settings |>
    <| rq_offline_mode := sg_offline_mode settings |>
    <| rq_network_timeout_ms :=
         if 0 <? lg_timeout_ms ldap then lg_timeout_ms ldap else og_timeout_ms (ss_ocsp_settings (ks_session s)) |>
    <| rq_ldap_url := lg_url ldap |> <| rq_ldap_base_dn := lg_base_dn ldap |>
    <| rq_subject_identifier := ch_subject_identifier hints |>.

(** The certificate, or the text of the error. *)
Definition ResolveMissingCertificate (s : KeySession) (key_material : bytes) (password : string)
    (hints : CertificateHints) (fs : Fs) : (string + bytes) * Fs :=
  let request := resolve_request s key_material password hints in
  match (if str_empty (ch_certificate_base64 hints) then Some [] else Base64.Base64Decode (ch_certificate_base64 hints)) with
  | None => (inl "Descriptor certificateBase64 is invalid", fs)
  | Some der =>
      let '(resolved, fs) := Resolve (request <| rq_explicit_certificate_der := der |>) fs in
      (if negb (rs_succeeded resolved) then inl (rs_message resolved) else inr (rs_certificate_der resolved), fs)
  end.

Definition CommitLoadedKey (normalized key_material certificate : bytes) (store_password : string)
    (format : KeyFormat.t) (s : KeySession) : KeySession :=
  (SecureClearLoadedKey s)
    <| ks_loaded_key := normalized |> <| ks_loaded_key_material := key_material |>
    <| ks_loaded_certificate := certificate |> <| ks_loaded_key_password := store_password |>
    <| ks_loaded_key_format := format |> <| ks_is_private_key_loaded := true |>
    <| ks_session ::= ClearError |>.

Definition explicit_certificate (hints : CertificateHints) : bool :=
  negb (str_empty (ch_certificate_path hints)) || negb (str_empty (ch_certificate_base64 hints)).

Definition LoadPrivateKeyPayload (key_data : bytes) (store_password key_password jks_alias : string)
    (strict_pem : bool) (hints : CertificateHints) (s : KeySession) (fs : Fs) : bool * KeySession * Fs :=
  match key_data with
  | [] => (fail ErrorCode.InvalidArgument "Key container is empty" s, fs)
  | _ =>
      let key_password := or_default key_password store_password in
      let effective_key_password := or_default store_password key_password in
      match NormalizeKeyContainer key_data store_password key_password jks_alias strict_pem with
      | inl error_message => (fail ErrorCode.InvalidArgument error_message s, fs)
      | inr k =>
          let commit (certificate : bytes) :=
            (true, CommitLoadedKey (nk_normalized k) (nk_key_material k) certificate effective_key_password
                     (nk_format k) s) in
          match nk_certificate k with
          | [] =>
              match ResolveMissingCertificate s (nk_key_material k) effective_key_password hints fs with
              | (inr certificate, fs) => (commit certificate, fs)
              | (inl resolve_error, fs) =>
                  if explicit_certificate hints
                  then (fail ErrorCode.InvalidArgument resolve_error s, fs) else (commit [], fs)
              end
          | certificate => (commit certificate, fs)
          end
      end
  end.

Definition LoadKeyFromBytes := LoadPrivateKeyPayload.

Definition ReadPrivateKeyBinary (key_data : bytes) (store_password key_password jks_alias : string)
    (s : KeySession) (fs : Fs) : bool * KeySession * Fs :=
  LoadKeyFromBytes key_data store_password key_password jks_alias false CertificateHints_default s fs.

(** A key file: resolved, read whole, not empty. *)
Definition load_file (path store_password key_password jks_alias : string) (strict_pem : bool)
    (hints : CertificateHints) (s : KeySession) (fs : Fs) : bool * KeySession * Fs :=
  if str_empty path then (fail ErrorCode.InvalidArgument "Path is empty" s, fs) else
  let resolved_key_path := ResolveFilePath path (ks_file_store_settings s) in
  let hints := hints <| ch_key_file_path := resolved_key_path |> in
  match ReadBinaryFile fs resolved_key_path "key file" with
  | inl error_message => (fail ErrorCode.InvalidArgument error_message s, fs)
  | inr [] => (fail ErrorCode.InvalidArgument "Key file is empty" s, fs)
  | inr key_data => LoadKeyFromBytes key_data store_password key_password jks_alias strict_pem hints s fs
  end.

Definition ReadPrivateKeyFile (path store_password key_password jks_alias : string) (s : KeySession) (fs : Fs)
    : bool * KeySession * Fs :=
  load_file path store_password key_password jks_alias false CertificateHints_default s fs.

Definition ReadPrivateKey (media_descriptor_json password : string) (s : KeySession) (fs : Fs)
    : bool * KeySession * Fs :=
  let json := media_descriptor_json in
  let password := if str_empty password then string_member json "password" password else password in
  let key_password := default password (first_member json ["keyPassword"; "entryPassword"]) in
  let jks_alias := string_member json "alias" "" in
  let strict_pem := default false (ExtractJsonBool json "strictPem") in
  let hints := hints_of json in
  match ExtractJsonString json "base64" with
  | Some base64_payload =>
      match Base64.Base64Decode base64_payload with
      | None => (fail ErrorCode.InvalidArgument "Descriptor base64 is invalid" s, fs)
      | Some payload => LoadKeyFromBytes payload password key_password jks_alias strict_pem hints s fs
      end
  | None =>
      match first_member json ["path"; "filePath"] with
      | Some path => load_file path password key_password jks_alias strict_pem hints s fs
      | None => (fail ErrorCode.InvalidArgument "Unsupported key media descriptor" s, fs)
      end
  end.
End Keys.

(** ** Texts *)

Definition Base64Encode (input : bytes) (s : KeySession) : bool * KeySession * string :=
  (true, s, Base64.Base64Encode input).

Definition Base64Decode (input : string) (s : KeySession) : bool * KeySession * option bytes :=
  match Base64.Base64Decode input with
  | Some out => (succeed s, Some out)
  | None => (fail ErrorCode.InvalidArgument "Base64 input is not valid" s, None)
  end.

(** The two flags of the build: the vendored library, an HTTP client. *)
Definition DescribeSupportedMedia (cryptonite http : bool) : list ascii :=
  raw "{'version':2,'media':['pkcs12','pkcs8','jks','pem','der'],'gui':false,'cryptoniteEnabled':" ++ boolj cryptonite
  ++ raw ",'signing':{'detached':" ++ boolj cryptonite ++ raw ",'attached':" ++ boolj cryptonite
  ++ raw ",'requiresCryptonite':true},'verificationPolicy':{'detached':'crypto-integrity-plus-embedded-chain','attached':'crypto-integrity-plus-embedded-chain','embeddedChainValidation':true,'certificateTimeValidation':true,'trustValidation':"
  ++ boolj cryptonite ++ raw ",'revocationValidation':" ++ boolj cryptonite
  ++ raw ",'trustStoreTransport':true},'networkProviders':{'ocsp':" ++ boolj http ++ raw ",'tsp':" ++ boolj http
  ++ raw ",'ldap':false,'cmp':false}}".

(** ** Commands *)

Section Run.
Context `{HFile : FileApi} `{HPlat : Platform} `{HCert : CertApi} `{HKeys : !KeyStoreApi} `{HCrypto : KeyCrypto}.
Context `{HCa : CaWorld} `{HFetch : FetchApi}.
Context (sync : string -> TrustListSettings -> Os TrustListSyncResult).

(** The handlers with their arguments. *)
Inductive command :=
| CInitialize (temp_work_dir : option string)
| CFinalize
| CSetSettings (settings : Settings)
| CSetFileStoreSettings (settings : FileStoreSettings)
| CSetOcspSettings (settings : OcspSettings)
| CSetTspSettings (settings : TspSettings)
| CSetLdapSettings (settings : LdapSettings)
| CSetCmpSettings (settings : CmpSettings)
| CSetTrustListSettings (settings : TrustListSettings)
| CSyncTrustList
| CReadPrivateKey (media_descriptor_json password : string)
| CReadPrivateKeyBinary (key_data : bytes) (store_password key_password jks_alias : string)
| CReadPrivateKeyFile (path store_password key_password jks_alias : string)
| CResetPrivateKey
| CBase64Encode (input : bytes)
| CBase64Decode (input : string)
| CDescribeSupportedMedia (cryptonite http : bool).

(** The session, the files and the directory of the lists. *)
Definition World : Type := KeySession * Fs * Disk.
Definition session_in (w : World) : KeySession := w.1.1.
Definition fs_in (w : World) : Fs := w.1.2.
Definition disk_in (w : World) : Disk := w.2.

Definition on_session (f : KeySession -> bool * KeySession) (w : World) : bool * World :=
  let '(s, fs, d) := w in let '(ok, s) := f s in (ok, (s, fs, d)).

Definition on_files (f : KeySession -> Fs -> bool * KeySession * Fs) (w : World) : bool * World :=
  let '(s, fs, d) := w in let '(ok, s, fs) := f s fs in (ok, (s, fs, d)).

Definition exec (c : command) : World -> bool * World :=
  match c with
  | CInitialize temp => on_session (Initialize temp)
  | CFinalize => on_session Finalize
  | CSetSettings g => on_session (SetSettings g)
  | CSetFileStoreSettings g => on_session (SetFileStoreSettings g)
  | CSetOcspSettings g => on_session (SetOcspSettings g)
  | CSetTspSettings g => on_session (SetTspSettings g)
  | CSetLdapSettings g => on_session (SetLdapSettings g)
  | CSetCmpSettings g => on_session (SetCmpSettings g)
  | CSetTrustListSettings g => on_session (SetTrustListSettings g)
  | CSyncTrustList => fun w => let '(s, fs, d) := w in let '(ok, s, d) := sync_handler sync s d in (ok, (s, fs, d))
  | CReadPrivateKey json password => on_files (ReadPrivateKey json password)
  | CReadPrivateKeyBinary data store key alias => on_files (ReadPrivateKeyBinary data store key alias)
  | CReadPrivateKeyFile path store key alias => on_files (ReadPrivateKeyFile path store key alias)
  | CResetPrivateKey => on_session ResetPrivateKey
  | CBase64Encode input => on_session (fun s => (Base64Encode input s).1)
  | CBase64Decode input => on_session (fun s => (Base64Decode input s).1)
  | CDescribeSupportedMedia _ _ => fun w => (true, w)
  end.

Definition run (commands : list command) (w : World) : World := foldl (fun w c => (exec c w).2) w commands.

(** *** What every reachable session satisfies *)

Definition endpoint_ok (url : string) (timeout_ms : Z) : Prop :=
  (url = "" \/ IsLikelyUrl url = true) /\ 0 < timeout_ms <= 300000.

Definition general_ok (g : Settings) : Prop :=
  sg_trust_mode g ∈ trust_modes /\ sg_validation_level g ∈ validation_levels.
Definition ocsp_ok (g : OcspSettings) : Prop := endpoint_ok (og_url g) (og_timeout_ms g).
Definition tsp_ok (g : TspSettings) : Prop := endpoint_ok (tg_url g) (tg_timeout_ms g).
Definition trust_list_ok (g : TrustListSettings) : Prop :=
  endpoint_ok (ts_url g) (ts_timeout_ms g) /\ ts_url g <> "" /\ 0 < ts_cache_ttl_hours g.
Definition ldap_ok (g : LdapSettings) : Prop := lg_url g = "" /\ 0 < lg_timeout_ms g <= 300000.
Definition cmp_ok (g : CmpSettings) : Prop := cg_url g = "" /\ 0 < cg_timeout_ms g <= 300000.

(** The settings of a session, and its key. *)
Record AllSettings := MkAllSettings {
  a_general : Settings;
  a_ocsp : OcspSettings;
  a_tsp : TspSettings;
  a_trust_list : TrustListSettings;
  a_ldap : LdapSettings;
  a_cmp : CmpSettings
}.

Record KeyState := MkKeyState {
  k_is_loaded : bool;
  k_key : bytes;
  k_material : bytes;
  k_certificate : bytes;
  k_password : string;
  k_format : KeyFormat.t
}.

Definition settings_of (s : KeySession) : AllSettings :=
  MkAllSettings (ss_settings (ks_session s)) (ss_ocsp_settings (ks_session s)) (ks_tsp_settings s)
    (ks_trust_list_settings s) (ks_ldap_settings s) (ks_cmp_settings s).

Definition key_of (s : KeySession) : KeyState :=
  MkKeyState (ks_is_private_key_loaded s) (ks_loaded_key s) (ks_loaded_key_material s) (ks_loaded_certificate s)
    (ks_loaded_key_password s) (ks_loaded_key_format s).

Definition settings_ok (g : AllSettings) : Prop :=
  general_ok (a_general g) /\ ocsp_ok (a_ocsp g) /\ tsp_ok (a_tsp g) /\ trust_list_ok (a_trust_list g) /\
  ldap_ok (a_ldap g) /\ cmp_ok (a_cmp g).

(** The certificate was found by the resolver: it certifies the key and may sign. *)
Definition certified (k : KeyState) : Prop :=
  belongs (k_material k) (k_password k) (k_certificate k) /\ CertificateAllowsSigningUsage (k_certificate k) = true.

(** A loaded key is what a container gave. *)
Definition loaded_from (k : KeyState) : Prop :=
  exists key_data store_password key_password jks_alias strict_pem n,
    NormalizeKeyContainer key_data store_password key_password jks_alias strict_pem = inr n /\
    k_key k = nk_normalized n /\ k_material k = nk_key_material n /\ k_format k = nk_format n /\
    (k_certificate k = nk_certificate n \/ (nk_certificate n = [] /\ certified k)).

(** Without a key nothing of one is left. *)
Definition key_ok (k : KeyState) : Prop :=
  if k_is_loaded k then loaded_from k else k = MkKeyState false [] [] [] "" KeyFormat.Unknown.

(** The members other than the last error. *)
Definition but_error (s : KeySession) : KeySession := s <| ks_session ::= ClearError |>.

Definition error_code (s : KeySession) : ErrorCode.t := le_code (ss_last_error (ks_session s)).

(** What a failed command may not touch: everything but the error, and the report of synchronisations
    for the synchronisation itself. *)
Definition kept (c : command) (s : KeySession) : KeySession :=
  match c with
  | CSyncTrustList => but_error (s <| ks_last_trust_list_sync_report := TrustListSyncReport_default |>)
  | _ => but_error s
  end.

(** The answer of a handler: a failure that only sets the error, or a success that clears it and
    leaves a state with [P]. *)
Definition answers (s : KeySession) (P : KeySession -> Prop) (r : bool * KeySession) : Prop :=
  (exists code message, code <> ErrorCode.None /\ r = fail code message s) \/ (exists s', r = succeed s' /\ P s').

Definition invariant (s : KeySession) : Prop := settings_ok (settings_of s) /\ key_ok (key_of s).

Lemma invariant_same (s s' : KeySession) :
  settings_of s' = settings_of s -> key_of s' = key_of s -> invariant s -> invariant s'.
Proof. unfold invariant. by intros -> ->. Qed.

(** A change of settings, the key untouched. *)
Lemma invariant_settings (s s' : KeySession) :
  key_of s' = key_of s -> settings_ok (settings_of s') -> key_ok (key_of s) -> invariant s'.
Proof. unfold invariant. by intros ->. Qed.

Lemma answers_fail (s : KeySession) (P : KeySession -> Prop) (code : ErrorCode.t) (message : string) :
  code <> ErrorCode.None -> answers s P (fail code message s).
Proof. left. by eexists _, _. Qed.

Lemma answers_succeed (s s' : KeySession) (P : KeySession -> Prop) : P s' -> answers s P (succeed s').
Proof. right. by eexists. Qed.

(** Both invariants are blind to the error and to the report of synchronisations. *)
Lemma invariant_error (s : KeySession) (e : LastError) (r : TrustListSyncReport) :
  invariant s -> invariant (s <| ks_session ::= fun ss => ss <| ss_last_error := e |> |>
                              <| ks_last_trust_list_sync_report := r |>).
Proof. by apply invariant_same. Qed.

Lemma invariant_set_error (s : KeySession) (e : LastError) :
  invariant s -> invariant (s <| ks_session ::= fun ss => ss <| ss_last_error := e |> |>).
Proof. by apply invariant_same. Qed.

Lemma answers_invariant (s : KeySession) (r : bool * KeySession) :
  invariant s -> answers s invariant r -> invariant r.2.
Proof.
  intros Hs [(code & message & _ & ->)|(s' & -> & Hs')].
  - exact (invariant_set_error s (MkLastError code message) Hs).
  - exact (invariant_set_error s' LastError_default Hs').
Qed.

Lemma bad_endpoint_ok (url : string) (timeout_ms : Z) :
  bad_endpoint url timeout_ms = false -> endpoint_ok url timeout_ms.
Proof.
  unfold bad_endpoint, endpoint_ok, IsValidTimeout. rewrite orb_false_iff, negb_false_iff, !andb_true_iff, andb_false_iff.
  rewrite !negb_false_iff, str_empty_spec. intros [[Hu|Hu] [H1 H2]]; split; auto; lia.
Qed.

Lemma listed_In (v : string) (l : list string) : existsb (String.eqb v) l = true -> v ∈ l.
Proof.
  intros (x & Hx & Hv)%existsb_exists. apply list_elem_of_In. by apply String.eqb_eq in Hv as ->.
Qed.

Lemma SecureClear_key_ok (s : KeySession) : key_ok (key_of ((SecureClearLoadedKey s) <| ks_is_private_key_loaded := false |>)).
Proof. done. Qed.

Lemma Initialize_answers (temp : option string) (s : KeySession) :
  invariant s -> answers s invariant (Initialize temp s).
Proof.
  intros Hs. unfold Initialize. apply answers_succeed. pose proof Hs as [(H1 & H2) Hk].
  destruct (ks_need_set_settings s); [destruct (str_empty _); [destruct temp|]|]; try by apply (invariant_same s).
  apply (invariant_settings s); [done| |done]. exact (conj H1 H2).
Qed.

Lemma Finalize_answers (s : KeySession) : invariant s -> answers s invariant (Finalize s).
Proof. intros [Hg _]. apply answers_succeed. by split. Qed.

Lemma ResetPrivateKey_answers (s : KeySession) : invariant s -> answers s invariant (ResetPrivateKey s).
Proof. intros [Hg _]. apply answers_succeed. by split. Qed.

Lemma SetSettings_answers (g : Settings) (s : KeySession) : invariant s -> answers s invariant (SetSettings g s).
Proof.
  intros [(_ & H2 & H3 & H4 & H5 & H6) Hk]. unfold SetSettings. cbv zeta.
  destruct (negb (existsb _ trust_modes)) eqn:E1; [by apply answers_fail|]. apply negb_false_iff, listed_In in E1.
  destruct (negb (existsb _ validation_levels)) eqn:E2; [by apply answers_fail|]. apply negb_false_iff, listed_In in E2.
  apply answers_succeed. apply (invariant_settings s); [done| |done]. exact (conj (conj E1 E2) (conj H2 (conj H3 (conj H4 (conj H5 H6))))).
Qed.

Lemma SetOcspSettings_answers (g : OcspSettings) (s : KeySession) :
  invariant s -> answers s invariant (SetOcspSettings g s).
Proof.
  intros [(H1 & _ & H3 & H4 & H5 & H6) Hk]. unfold SetOcspSettings.
  destruct (bad_endpoint _ _) eqn:E; [by apply answers_fail|]. apply bad_endpoint_ok in E.
  apply answers_succeed. apply (invariant_settings s); [done| |done]. exact (conj H1 (conj E (conj H3 (conj H4 (conj H5 H6))))).
Qed.

Lemma SetTspSettings_answers (g : TspSettings) (s : KeySession) :
  invariant s -> answers s invariant (SetTspSettings g s).
Proof.
  intros [(H1 & H2 & _ & H4 & H5 & H6) Hk]. unfold SetTspSettings.
  destruct (bad_endpoint _ _) eqn:E; [by apply answers_fail|]. apply bad_endpoint_ok in E. cbv zeta.
  destruct (_ && _); [by apply answers_fail|].
  apply answers_succeed. apply (invariant_settings s); [done| |done]. exact (conj H1 (conj H2 (conj E (conj H4 (conj H5 H6))))).
Qed.

Lemma SetLdapSettings_answers (g : LdapSettings) (s : KeySession) :
  invariant s -> answers s invariant (SetLdapSettings g s).
Proof.
  intros [(H1 & H2 & H3 & H4 & _ & H6) Hk]. unfold SetLdapSettings.
  destruct (bad_endpoint _ _) eqn:E; [by apply answers_fail|].
  destruct (str_empty _) eqn:Eu; [|by apply answers_fail]. apply str_empty_spec in Eu.
  apply bad_endpoint_ok in E as [_ Ht]. apply answers_succeed.
  apply (invariant_settings s); [done| |done]. exact (conj H1 (conj H2 (conj H3 (conj H4 (conj (conj Eu Ht) H6))))).
Qed.

Lemma SetCmpSettings_answers (g : CmpSettings) (s : KeySession) :
  invariant s -> answers s invariant (SetCmpSettings g s).
Proof.
  intros [(H1 & H2 & H3 & H4 & H5 & _) Hk]. unfold SetCmpSettings.
  destruct (bad_endpoint _ _) eqn:E; [by apply answers_fail|].
  destruct (str_empty _) eqn:Eu; [|by apply answers_fail]. apply str_empty_spec in Eu.
  apply bad_endpoint_ok in E as [_ Ht]. apply answers_succeed.
  apply (invariant_settings s); [done| |done]. exact (conj H1 (conj H2 (conj H3 (conj H4 (conj H5 (conj Eu Ht)))))).
Qed.

Lemma SetTrustListSettings_answers (g : TrustListSettings) (s : KeySession) :
  invariant s -> answers s invariant (SetTrustListSettings g s).
Proof.
  intros [(H1 & H2 & H3 & _ & H5 & H6) Hk]. unfold SetTrustListSettings. cbv zeta.
  set (g' := g <| ts_url ::= _ |>).
  destruct (_ || _) eqn:E; [by apply answers_fail|]. rewrite !orb_false_iff, !negb_false_iff in E.
  destruct E as [[E1 E2] E3%Z.leb_gt]. unfold IsValidTimeout in E2. apply andb_true_iff in E2 as [E2 E2'].
  assert (trust_list_ok g') as H4.
  { split; [split; [by right|lia]|]. split; [|done]. intros Hu. by rewrite Hu in E1. }
  apply answers_succeed. apply (invariant_settings s); [done| |done]. exact (conj H1 (conj H2 (conj H3 (conj H4 (conj H5 H6))))).
Qed.

(** *** Loading *)

Lemma ResolveMissing_certified (s : KeySession) (key_material : bytes) (password : string) (hints : CertificateHints)
    (fs fs' : Fs) (certificate : bytes) :
  ResolveMissingCertificate s key_material password hints fs = (inr certificate, fs') ->
  belongs key_material password certificate /\ CertificateAllowsSigningUsage certificate = true.
Proof.
  unfold ResolveMissingCertificate. destruct (if str_empty _ then _ else _) as [der|]; [|done].
  set (request := _ <| rq_explicit_certificate_der := der |>).
  destruct (Resolve request fs) as [resolved fs1] eqn:E. destruct (rs_succeeded resolved) eqn:Hs; [|done].
  intros [= <- <-]. destruct (Resolve_sound request fs) as (keys & Hk & S); [by rewrite E|]. rewrite E in S.
  destruct (S Hs) as [Hm Ha]. split; [|done]. by eapply (Matches_belongs key_material password).
Qed.

Lemma succeed_commit (normalized material certificate : bytes) (password : string) (format : KeyFormat.t) (s : KeySession) :
  (true, CommitLoadedKey normalized material certificate password format s)
  = succeed (CommitLoadedKey normalized material certificate password format s).
Proof. by destruct s as [[]]. Qed.

Lemma commit_invariant (key_data certificate : bytes) (store_password key_password alias password : string) (strict : bool)
    (k : NormalizedKey) (s : KeySession) :
  settings_ok (settings_of s) -> NormalizeKeyContainer key_data store_password key_password alias strict = inr k ->
  (certificate = nk_certificate k \/ (nk_certificate k = [] /\ belongs (nk_key_material k) password certificate /\
     CertificateAllowsSigningUsage certificate = true)) ->
  invariant (CommitLoadedKey (nk_normalized k) (nk_key_material k) certificate password (nk_format k) s).
Proof.
  intros Hg Hn Hc. split; [exact Hg|]. exists key_data, store_password, key_password, alias, strict, k.
  split; [exact Hn|]. split; [reflexivity|]. split; [reflexivity|]. split; [reflexivity|]. exact Hc.
Qed.

Lemma LoadPrivateKeyPayload_answers (key_data : bytes) (store_password key_password alias : string) (strict : bool)
    (hints : CertificateHints) (s : KeySession) (fs : Fs) :
  invariant s ->
  answers s invariant (LoadPrivateKeyPayload key_data store_password key_password alias strict hints s fs).1.
Proof.
  intros [Hg _]. unfold LoadPrivateKeyPayload. destruct key_data as [|b0 l]; [by apply answers_fail|].
  set (key_data := b0 :: l). set (password := or_default store_password _).
  destruct (NormalizeKeyContainer _ _ _ _ _) as [message|k] eqn:En; [by apply answers_fail|].
  destruct (nk_certificate k) as [|c0 cs] eqn:Ec.
  - destruct (ResolveMissingCertificate _ _ _ _ _) as [[message|certificate] fs1] eqn:Er.
    + destruct (explicit_certificate hints); [by apply answers_fail|]. cbn [fst]. rewrite succeed_commit.
      apply answers_succeed. eapply commit_invariant; [done..|]. by left.
    + cbn [fst]. rewrite succeed_commit. apply answers_succeed. eapply commit_invariant; [done..|]. right.
      by apply ResolveMissing_certified in Er.
  - cbn [fst]. rewrite succeed_commit. apply answers_succeed. eapply commit_invariant; [done..|]. by left.
Qed.

Lemma load_file_answers (path store_password key_password alias : string) (strict : bool) (hints : CertificateHints)
    (s : KeySession) (fs : Fs) :
  invariant s -> answers s invariant (load_file path store_password key_password alias strict hints s fs).1.
Proof.
  intros Hs. unfold load_file. destruct (str_empty path); [by apply answers_fail|]. cbv zeta.
  destruct (ReadBinaryFile _ _ _) as [message|[|b data]]; [by apply answers_fail..|].
  by apply LoadPrivateKeyPayload_answers.
Qed.

Lemma ReadPrivateKey_answers (json password : string) (s : KeySession) (fs : Fs) :
  invariant s -> answers s invariant (ReadPrivateKey json password s fs).1.
Proof.
  intros Hs. unfold ReadPrivateKey. cbv zeta. destruct (ExtractJsonString json "base64") as [payload|].
  - destruct (Codec.Base64.Base64Decode payload); [by apply LoadPrivateKeyPayload_answers|by apply answers_fail].
  - destruct (first_member json ["path"; "filePath"]); [by apply load_file_answers|by apply answers_fail].
Qed.

(** *** Every command *)

Definition is_sync (c : command) : bool := match c with CSyncTrustList => true | _ => false end.

(** The two commands that leave the session alone, the error of an earlier command included. *)
Definition is_silent (c : command) : bool :=
  match c with CBase64Encode _ | CDescribeSupportedMedia _ _ => true | _ => false end.

Definition loads_key (c : command) : bool :=
  match c with CReadPrivateKey _ _ | CReadPrivateKeyBinary _ _ _ _ | CReadPrivateKeyFile _ _ _ _ => true | _ => false end.

Lemma exec_silent (c : command) (w : World) : is_silent c = true -> exec c w = (true, w).
Proof. destruct w as [[s fs] d]. by destruct c. Qed.

(** The files after a key was loaded, or not: those of before, or what the search for a certificate made of them. *)
Definition searched (fs fs' : Fs) : Prop := fs' = fs \/ exists request, fs' = (Resolve request fs).2.

Lemma LoadPrivateKeyPayload_files (key_data : bytes) (store_password key_password alias : string) (strict : bool)
    (hints : CertificateHints) (s : KeySession) (fs : Fs) :
  searched fs (LoadPrivateKeyPayload key_data store_password key_password alias strict hints s fs).2.
Proof.
  unfold LoadPrivateKeyPayload. destruct key_data as [|b0 l]; [by left|].
  destruct (NormalizeKeyContainer _ _ _ _ _) as [message|k]; [by left|]. destruct (nk_certificate k); [|by left].
  destruct (ResolveMissingCertificate _ _ _ _ _) as [r fs1] eqn:Er.
  assert (searched fs fs1) as Hs.
  { unfold ResolveMissingCertificate in Er. destruct (if str_empty _ then _ else _) as [der|]; [|injection Er as _ <-; by left].
    match type of Er with context [Resolve ?req fs] => right; exists req; destruct (Resolve req fs) as [resolved fs2] end.
    by injection Er as _ <-. }
  destruct r as [message|certificate]; [by destruct (explicit_certificate hints)|done].
Qed.

Lemma load_file_files (path store_password key_password alias : string) (strict : bool) (hints : CertificateHints)
    (s : KeySession) (fs : Fs) : searched fs (load_file path store_password key_password alias strict hints s fs).2.
Proof.
  unfold load_file. destruct (str_empty path); [by left|]. cbv zeta.
  destruct (ReadBinaryFile _ _ _) as [message|[|b data]]; [by left..|]. apply LoadPrivateKeyPayload_files.
Qed.

Lemma ReadPrivateKey_files (json password : string) (s : KeySession) (fs : Fs) :
  searched fs (ReadPrivateKey json password s fs).2.
Proof.
  unfold ReadPrivateKey. cbv zeta. destruct (ExtractJsonString json "base64") as [payload|].
  - destruct (Codec.Base64.Base64Decode payload); [apply LoadPrivateKeyPayload_files|by left].
  - destruct (first_member json ["path"; "filePath"]); [apply load_file_files|by left].
Qed.

(** What a command may write: the directory of the lists is the synchronisation's alone, and only the commands that load a key
    touch other files, by the search for its certificate. *)
Lemma exec_writes (c : command) (w : World) :
  (is_sync c = false -> disk_in (exec c w).2 = disk_in w) /\
  (if loads_key c then searched (fs_in w) (fs_in (exec c w).2) else fs_in (exec c w).2 = fs_in w).
Proof.
  destruct w as [[s fs] d]. unfold fs_in, disk_in. destruct c; cbn; unfold on_session, on_files, ReadPrivateKeyBinary,
    ReadPrivateKeyFile, LoadKeyFromBytes; try (match goal with |- context [let '(_, _) := ?f in _] => by destruct f end); try done.
  - by destruct (sync_handler sync s d) as [[ok s'] d'].
  - pose proof (ReadPrivateKey_files media_descriptor_json password s fs) as H.
    by destruct (ReadPrivateKey media_descriptor_json password s fs) as [[ok s'] fs'].
  - pose proof (LoadPrivateKeyPayload_files key_data store_password key_password jks_alias false CertificateHints_default s fs) as H.
    by destruct (LoadPrivateKeyPayload _ _ _ _ _ _ s fs) as [[ok s'] fs'].
  - pose proof (load_file_files path store_password key_password jks_alias false CertificateHints_default s fs) as H.
    by destruct (load_file _ _ _ _ _ _ s fs) as [[ok s'] fs'].
Qed.

Lemma exec_answers (c : command) (w : World) :
  is_sync c = false -> is_silent c = false -> invariant (session_in w) ->
  answers (session_in w) invariant ((exec c w).1, session_in (exec c w).2).
Proof.
  destruct w as [[s fs] d]. cbn. intros Hc Hsil Hs. unfold session_in in *. cbn in Hs.
  destruct c; cbn; try done.
  all: unfold on_session, on_files.
  - by apply Initialize_answers.
  - by apply Finalize_answers.
  - pose proof (SetSettings_answers settings s Hs). by destruct (SetSettings settings s).
  - apply answers_succeed. by destruct s as [[]].
  - pose proof (SetOcspSettings_answers settings s Hs). by destruct (SetOcspSettings settings s).
  - pose proof (SetTspSettings_answers settings s Hs). by destruct (SetTspSettings settings s).
  - pose proof (SetLdapSettings_answers settings s Hs). by destruct (SetLdapSettings settings s).
  - pose proof (SetCmpSettings_answers settings s Hs). by destruct (SetCmpSettings settings s).
  - pose proof (SetTrustListSettings_answers settings s Hs). by destruct (SetTrustListSettings settings s).
  - pose proof (ReadPrivateKey_answers media_descriptor_json password s fs Hs).
    by destruct (ReadPrivateKey media_descriptor_json password s fs) as [[ok s'] fs'].
  - pose proof (LoadPrivateKeyPayload_answers key_data store_password key_password jks_alias false
                  CertificateHints_default s fs Hs) as Ha.
    unfold ReadPrivateKeyBinary, LoadKeyFromBytes. by destruct (LoadPrivateKeyPayload _ _ _ _ _ _ s fs) as [[ok s'] fs'].
  - pose proof (load_file_answers path store_password key_password jks_alias false CertificateHints_default s fs Hs).
    unfold ReadPrivateKeyFile. by destruct (load_file _ _ _ _ _ _ s fs) as [[ok s'] fs'].
  - by apply ResetPrivateKey_answers.
  - unfold Base64Decode. destruct (Codec.Base64.Base64Decode input); [by apply answers_succeed|by apply answers_fail].
Qed.

(** A synchronisation gives the report of what happened, and the answer on top of it. *)
Lemma sync_answers (s : KeySession) (d : Disk) :
  exists report, answers (s <| ks_last_trust_list_sync_report := report |>)
    (fun s' => s' = s <| ks_last_trust_list_sync_report := report |>) (sync_handler sync s d).1.
Proof.
  unfold sync_handler. destruct (negb (ss_is_initialized _)).
  { exists (ks_last_trust_list_sync_report s). left. eexists _, _. split; [|by destruct s]. done. }
  destruct (sg_offline_mode _); [eexists; by apply answers_fail|].
  unfold bind, ret. destruct (sync _ _ d) as [result d']. exists (sync_report_of result). cbn [fst].
  destruct (negb _); [by apply answers_fail|by apply answers_succeed].
Qed.

Lemma exec_sync (c : command) (w : World) : is_sync c = true ->
  exists report, answers ((session_in w) <| ks_last_trust_list_sync_report := report |>)
    (fun s' => s' = (session_in w) <| ks_last_trust_list_sync_report := report |>)
    ((exec c w).1, session_in (exec c w).2).
Proof.
  destruct c; try done. intros _. destruct w as [[s fs] d]. destruct (sync_answers s d) as [report Ha].
  exists report. unfold session_in. cbn. by destruct (sync_handler sync s d) as [[ok s'] d'].
Qed.

Lemma invariant_report (s : KeySession) (r : TrustListSyncReport) :
  invariant s -> invariant (s <| ks_last_trust_list_sync_report := r |>).
Proof. by apply invariant_same. Qed.

Lemma exec_invariant (c : command) (w : World) : invariant (session_in w) -> invariant (session_in (exec c w).2).
Proof.
  intros Hs. destruct (is_sync c) eqn:Ec.
  - destruct (exec_sync c w Ec) as (report & Ha). apply (invariant_report _ report) in Hs.
    destruct Ha as [(code & message & _ & [= _ ->])|(s' & [= _ ->] & ->)]; by apply invariant_set_error.
  - destruct (is_silent c) eqn:Esil; [by rewrite exec_silent|].
    apply (answers_invariant (session_in w) ((exec c w).1, session_in (exec c w).2)); [done|by apply exec_answers].
Qed.

Lemma initial_invariant : invariant Session_new.
Proof.
  split; [|done]. split; [split; repeat constructor|]. split; [split; [by left|done]|].
  split; [split; [by left|done]|]. split; [split; [split; [by right|done]|done]|]. done.
Qed.

Lemma reachable_invariant (commands : list command) (fs : Fs) (d : Disk) :
  invariant (session_in (run commands (Session_new, fs, d))).
Proof.
  unfold run. induction commands as [|c commands IH] using rev_ind; [apply initial_invariant|].
  rewrite foldl_app. by apply exec_invariant.
Qed.

(** [C34] After any sequence of commands the settings are valid, and the key is either one that a container
    gave, one whole DER sequence, or absent without a trace.  The certificate beside a key is the one that
    the container itself gave, taken as it is, or none, or one that the search found; only of the last it is
    known that it certifies this very key and may sign. *)
Theorem reachable_session (commands : list command) (fs : Fs) (d : Disk) :
  let s := session_in (run commands (Session_new, fs, d)) in
  settings_ok (settings_of s) /\ key_ok (key_of s) /\
  (ks_is_private_key_loaded s = true ->
   whole_sequence (ks_loaded_key s) /\ ks_loaded_key_format s <> KeyFormat.Unknown /\
   (ks_loaded_key_format s = KeyFormat.Pkcs12 -> ks_loaded_certificate s = [] \/ certified (key_of s))).
Proof.
  cbn zeta. set (s := session_in _). assert (invariant s) as [Hg Hk] by apply reachable_invariant.
  split_and!; [done..|]. intros Hl. unfold key_ok in Hk. change (k_is_loaded (key_of s)) with (ks_is_private_key_loaded s) in Hk.
  rewrite Hl in Hk.
  destruct Hk as (data & pw & kpw & alias & strict & k & Hn & E1 & E2 & E3 & Hc).
  apply NormalizeKeyContainer_spec in Hn as (W1 & _ & W3). cbn in E1, E3, Hc. rewrite E1, E3. split_and!; [done| |].
  - by destruct (nk_format k).
  - intros Hf. rewrite Hf in W3. rewrite W3 in Hc. destruct Hc as [Hc|[_ Hc]]; [by left|by right].
Qed.


(** What the search for a certificate is told in a reachable session: never an LDAP directory, and
    always the timeout of the LDAP settings, whatever [SetOcspSettings] was given. *)
Theorem resolver_never_asks_ldap (commands : list command) (fs : Fs) (d : Disk) (key_material : bytes)
    (password : string) (hints : CertificateHints) :
  let s := session_in (run commands (Session_new, fs, d)) in
  let request := resolve_request s key_material password hints in
  rq_ldap_url request = "" /\ rq_network_timeout_ms request = lg_timeout_ms (ks_ldap_settings s).
Proof.
  cbn zeta. set (s := session_in _). assert (invariant s) as [Hg _] by apply reachable_invariant.
  destruct Hg as (_ & _ & _ & _ & (Hu & Ht) & _). cbn in Hu, Ht. unfold resolve_request. cbn.
  split; [done|]. by replace (0 <? lg_timeout_ms (ks_ldap_settings s)) with true by (symmetry; apply Z.ltb_lt; lia).
Qed.
End Run.

(** ** A session that loads a key and forgets it *)

Module SampleKeySession.

#[local] Existing Instance memory.
#[local] Existing Instance lp64.
#[local] Existing Instance toy_cert_api.
#[local] Existing Instance toy_key_store.
#[local] Existing Instance KeyContainers.SampleContainers.toy.
#[local] Existing Instance toy_fetch.
#[local] Instance no_world : CaWorld := sample_world 0 [].

Definition no_sync : string -> TrustListSettings -> Os TrustListSyncResult :=
  fun _ _ => ret TrustListSyncResult_default.

(** A PKCS#8 key with its certificate next to it. *)
Definition certificate : bytes := [x30; x02; x01; x00; x30; x00].
Definition key_files : Fs :=
  (<["/k/key.dat" := map byte_char (write_pkcs8 SampleKey.key)]> (<["/k/key.cer" := map byte_char certificate]> ∅) : files).
Definition no_disk : Disk := MkDisk ∅ [] [] [].

Definition load : list command :=
  [CInitialize (Some "/w"); CSetLdapSettings (MkLdapSettings "ldap://directory" "" 10000);
   CReadPrivateKeyFile "/k/key.dat" "pw" "" ""].

Definition loaded : KeySession := Eval vm_compute in session_in (run no_sync load (Session_new, key_files, no_disk)).

Lemma loaded_is : session_in (run no_sync load (Session_new, key_files, no_disk)) = loaded.
Proof. vm_compute. reflexivity. Qed.

Lemma reachable_session_witness :
  ks_loaded_key_format loaded = KeyFormat.Pkcs12 /\ ks_loaded_certificate loaded = certificate /\
  whole_sequence (ks_loaded_key loaded) /\ certified (key_of loaded).
Proof.
  pose proof (reachable_session no_sync load key_files no_disk) as T. cbv zeta in T. rewrite loaded_is in T.
  destruct T as (_ & _ & T). destruct (T eq_refl) as (W & _ & C). split; [reflexivity|]. split; [reflexivity|].
  split; [exact W|]. destruct (C eq_refl) as [E|E]; [discriminate E|exact E].
Defined.

(** A container of another kind is refused and the key that was loaded stays. *)
Example refused_load_keeps_key :
  let '(ok, w) := exec no_sync (CReadPrivateKeyBinary [x00] "pw" "" "")
                    (run no_sync load (Session_new, key_files, no_disk)) in
  ok = false /\ ks_loaded_certificate (session_in w) = certificate /\
  le_message (ss_last_error (ks_session (session_in w))) = "Unsupported key format".
Proof. vm_compute. done. Qed.

(** An error stays behind a command that succeeds and does not clear it. *)
Example encode_keeps_error :
  let w := (exec no_sync (CBase64Decode "*") (run no_sync load (Session_new, key_files, no_disk))).2 in
  (exec no_sync (CBase64Encode [x00]) w).1 = true /\
  error_code (session_in (exec no_sync (CBase64Encode [x00]) w).2) = ErrorCode.InvalidArgument.
Proof. vm_compute. done. Qed.

(** The key is forgotten without a trace. *)
Example forgotten :
  key_of (session_in (run no_sync (load ++ [CResetPrivateKey]) (Session_new, key_files, no_disk)))
  = MkKeyState false [] [] [] "" KeyFormat.Unknown.
Proof. vm_compute. reflexivity. Qed.
End SampleKeySession.
