(* ===== verification/Fetchers.v ===== *)
(** * Fetchers: the caches of revocation lists and of issuers, and the disk of the verification

    [core/policy/CrlCache.cpp] (Module [CrlCache]), [core/policy/AiaIssuerFetcher.cpp] (Module [AiaIssuerFetcher]) and
    [EnrichWithAiaIssuersIfNeeded] of [core/session/SessionHelpers.ipp], over the file system [FileApi] and the
    client of [HttpClient].  They discharge the interface [ExternalApi] of [TokenValidator], so that the theorems at the end
    tell what a whole verification sends and writes. *)

From S2P Require Import Prelude CxxString Types Time Der Codec FileSystem Paths Sha256 Pem Cryptonite Fixture CertResolve KeyNormalize X509Name Chain Imprint.
From S2P Require Import PathEngine Crl Ocsp Revocation Resolvers TrustList XmlDsig Evidence Timestamp Validation Report Projection.
From S2P Require Import Session Cms TokenValidator SessionFormats HttpPolicy HttpClient.

Local Open Scope Z_scope.
Local Open Scope tamga_scope.

(** ** The extensions of a certificate that name addresses *)

(** The decoders of the vendored library.  Of a distribution point the names of its [fullName], [None] for one of another form; of a
    name the octets of a URI, [None] for a name of another kind.  Of an authority information access the method and the URI of
    each description.  An absent buffer is empty. *)
Class CertExtensions `{CertApi} := {
  crl_distribution_points : Certificate_t -> option (list (option (list (option bytes))));
  tbs_extensions : Certificate_t -> option (list (list Z * bytes));
  decode_authority_info_access : bytes -> option (list (list Z * option bytes))
}.

(** What the fetchers act on: the requests sent so far and the file system. *)
Record World `{FileApi} := MkWorld { w_history : history; w_fs : Fs }.
Arguments MkWorld {_} _ _.

Section Transport.
Context `{HFiles : FileApi, HInet : InetApi, HNet : WinHttp}.

(** [HttpClient::Get] of the program, without the substitutes of the tests. *)
Definition http_get (url accept : string) (timeout_ms : Z) (w : World) : HttpPostResult * World :=
  let '(response, h) := Get Mocks_default (w_history w) url accept timeout_ms in (response, MkWorld h (w_fs w)).

Definition IsHttpSuccess (response : HttpPostResult) : bool :=
  hp_succeeded response && (200 <=? hp_status_code response) && (hp_status_code response <? 300).

(** [WriteBinaryFileAtomic]: whether it succeeded. *)
Definition write_file (path : string) (data : bytes) (w : World) : bool * World :=
  let '(written, fs) := fs_write (w_fs w) path (map Ascii.ascii_of_byte data) in (written, MkWorld (w_history w) fs).

Definition ReadFileBytes (w : World) (path : string) : bytes :=
  match ReadLimited (fs_read (w_fs w) path) kMaxCachedArtifactSize with inr data => text_bytes data | inl _ => [] end.

End Transport.

(** ** Revocation lists *)

Module CrlCache.

(** The same fold as [StableDerHash], over the octets of the text. *)
Definition StableStringHash (str : string) : string := Hex.StableDerHash (text_bytes (chars str)).

Section CrlCache.
Context `{HFiles : FileApi, HInet : InetApi, HNet : WinHttp, HPlat : Platform, HCert : CertApi, HCrl : !CrlApi, HExt : !CertExtensions}.

Definition add_unique (urls : list string) (url : string) : list string :=
  if str_empty url || existsb (String.eqb url) urls then urls else urls ++ [url].

Definition ExtractCrlDistributionUrls (cert_der : bytes) : list string :=
  match DecodeCertificateDer cert_der with
  | None => []
  | Some cert =>
      match crl_distribution_points cert with
      | None => []
      | Some points =>
          foldl add_unique [] (map (fun uri => of_chars (map Ascii.ascii_of_byte uri))
            (concat (map (fun point => omap id (default [] point)) points)))
      end
  end.

Definition IsValidCrlDer (crl_der : bytes) : bool :=
  if is_empty crl_der then false else
  match tlv_all crl_der 0 with
  | None => false
  | Some tlv =>
      if negb (u8 (tag tlv) =? 0x30) || negb (next_offset tlv =? Z.of_nat (length crl_der)) then false
      else bool_decide (is_Some (GetCrlValidityWindow crl_der))
  end.

Definition CrlMatchesCertificate (crl_der cert_der : bytes) : bool :=
  if is_empty crl_der || is_empty cert_der then false
  else if negb (IsValidCrlDer crl_der) then false
  else match crl_decode crl_der, DecodeCertificateDer cert_der with
       | Some crl, Some cert => asn_equals_name (crl_issuer crl) (tbs_issuer cert)
       | _, _ => false
       end.

Definition IsCachedCrlFresh (crl_der : bytes) (now : Z) : bool :=
  if negb (IsValidCrlDer crl_der) then false else
  match GetCrlNextUpdate crl_der with Some next_update => now <? next_update | None => false end.

Definition crl_path (work_dir url : string) : string :=
  path_append (path_append work_dir "crl-store") ("crl-" +s+ StableStringHash url +s+ ".crl").

(** One address: a list that is still current is kept without asking. *)
Definition refresh_crl (work_dir : string) (timeout_ms now : Z) (w : World) (url : string) : World :=
  let dest_path := crl_path work_dir url in
  if fs_exists (w_fs w) dest_path && IsCachedCrlFresh (ReadFileBytes w dest_path) now then w else
  let '(get_res, w) := http_get url "application/pkix-crl, */*" timeout_ms w in
  if hp_succeeded get_res && negb (is_empty (hp_body get_res)) && IsValidCrlDer (hp_body get_res)
  then (write_file dest_path (hp_body get_res) w).2 else w.

Definition DownloadAndCacheCrlsForCert `{Clock} (w : World) (cert_der : bytes) (work_dir : string) (timeout_ms : Z) : World :=
  if is_empty cert_der || str_empty work_dir then w else
  foldl (refresh_crl work_dir timeout_ms std_time) w (ExtractCrlDistributionUrls cert_der).

(** The lists of one directory; files that cannot be read or are empty are left out. *)
Definition load_crl (w : World) (path : string) : option bytes :=
  if negb (fs_is_regular_file (w_fs w) path) then None else
  match ReadLimited (fs_read (w_fs w) path) kMaxCachedArtifactSize with
  | inl _ => None
  | inr data => if is_empty data then None else Some (text_bytes data)
  end.

Definition load_crls (w : World) (dir_path : string) : list bytes :=
  if negb (fs_exists (w_fs w) dir_path) || negb (fs_is_directory (w_fs w) dir_path) then []
  else omap (load_crl w) (fs_entries (w_fs w) dir_path).

Definition LoadCrlsFromWorkDir (w : World) (work_dir : string) : list bytes :=
  if str_empty work_dir then [] else
  concat (map (fun dir_name => load_crls w (path_append work_dir dir_name)) ["crl-store"; "crls"]).

Definition LoadMatchingCrlsFromWorkDir (w : World) (work_dir : string) (certs : list bytes) : list bytes :=
  if str_empty work_dir || is_empty certs then [] else
  List.filter (fun crl => IsValidCrlDer crl && existsb (CrlMatchesCertificate crl) certs) (LoadCrlsFromWorkDir w work_dir).

End CrlCache.
End CrlCache.

(** ** Certificates of issuers *)

Module AiaIssuerFetcher.

Record AiaIssuerFetchInput := MkAiaIssuerFetchInput {
  fi_network_enabled : bool;
  fi_work_dir : string;
  fi_timeout_ms : Z;
  fi_max_depth : nat;
  fi_max_urls : nat;
  fi_max_retries : nat;
  fi_seed_certificates_der : list bytes
}.

Definition AiaIssuerFetchInput_default : AiaIssuerFetchInput := MkAiaIssuerFetchInput false "" 10000 6 16 2 [].

Record AiaIssuerFetchResult := MkAiaIssuerFetchResult {
  fr_attempted : bool;
  fr_downloaded_count : nat;
  fr_cached_count : nat;
  fr_message : string;
  fr_debug_log : string;
  fr_certificates_der : list bytes
}.

Definition AiaIssuerFetchResult_default : AiaIssuerFetchResult := MkAiaIssuerFetchResult false 0 0 "" "" [].

Definition IsLikelyHttpUrl (url : string) : bool := starts_with url "http://" || starts_with url "https://".

Definition AddUniqueUrl (urls : list string) (url : string) : list string :=
  if str_empty url || negb (IsLikelyHttpUrl url) then urls
  else if existsb (String.eqb url) urls then urls else urls ++ [url].

Definition url_of (octets : bytes) : string := of_chars (map Ascii.ascii_of_byte octets).

(** *** The addresses by their octets alone *)

Definition kAiaOid : bytes := [x06; x08; x2b; x06; x01; x05; x05; x07; x01; x01].
Definition kCaIssuersOid : bytes := [x06; x08; x2b; x06; x01; x05; x05; x07; x30; x02].

(** The places of a pattern that repeated calls of [std::search], each one octet after the last hit, find in a text that starts at
    position [at]. *)
Fixpoint occurrences (pattern text : bytes) (position : nat) : list nat :=
  match text with
  | [] => []
  | _ :: rest =>
      (if bool_decide (take (length pattern) text = pattern) then [position] else []) ++ occurrences pattern rest (S position)
  end.

(** The text between two positions. *)
Definition slice (der : bytes) (first last : nat) : bytes := take (last - first) (drop first der).

(** A short address behind the method: one octet of length. *)
Definition scanned_url (der : bytes) (ca_pos : nat) : option string :=
  match drop (ca_pos + length kCaIssuersOid) der with
  | uri_tag :: uri_len :: rest =>
      if (u8 uri_tag =? 0x86) && (u8 uri_len <=? Z.of_nat (length rest)) then Some (url_of (take (Z.to_nat (u8 uri_len)) rest)) else None
  | _ => None
  end.

(** From each mark of the extension to the next one. *)
Fixpoint scan_sections (der : bytes) (marks : list nat) (urls : list string) : list string :=
  match marks with
  | [] => urls
  | search_start :: marks =>
      let search_end := default (length der) (head marks) in
      scan_sections der marks
        (foldl AddUniqueUrl urls (omap (scanned_url der) (occurrences kCaIssuersOid (slice der search_start search_end) search_start)))
  end.

Definition AppendRawScannedAiaUrls (der : bytes) (urls : list string) : list string :=
  scan_sections der (occurrences kAiaOid der 0) urls.

Section Fetcher.
Context `{HFiles : FileApi, HInet : InetApi, HNet : WinHttp, HCert : CertApi, HCms : !CmsApi, HExt : !CertExtensions}.

(** *** The addresses in the extension *)

Definition kCaIssuers : list Z := [1; 3; 6; 1; 5; 5; 7; 48; 2].
Definition kAia : list Z := [1; 3; 6; 1; 5; 5; 7; 1; 1].

Definition AppendAiaUrlsFromDer (aia_der : bytes) (urls : list string) : list string :=
  match decode_authority_info_access aia_der with
  | None => urls
  | Some descriptions =>
      foldl (fun urls d => match d with
        | (method, Some uri) => if bool_decide (method = kCaIssuers) && negb (is_empty uri) then AddUniqueUrl urls (url_of uri) else urls
        | (_, None) => urls
        end) urls descriptions
  end.

Definition AppendAiaUrlsFromCertificate (certificate_der : bytes) (urls : list string) : list string :=
  match DecodeCertificateDer certificate_der with
  | None => urls
  | Some certificate =>
      foldl (fun urls e => if bool_decide (e.1 = kAia) && negb (is_empty e.2) then AppendAiaUrlsFromDer e.2 urls else urls)
        urls (default [] (tbs_extensions certificate))
  end.

Definition ExtractCaIssuersUrls (certificate_der : bytes) : list string :=
  AppendRawScannedAiaUrls certificate_der (AppendAiaUrlsFromCertificate certificate_der []).

(** *** The certificates in a response *)

Definition IsDecodableCertificate (der : bytes) : bool := bool_decide (is_Some (DecodeCertificateDer der)).

Definition AppendPkcs7Certificates (der : bytes) (certificates : list bytes) : list bytes :=
  if is_empty der then certificates else
  match cinfo_decode der with
  | inl _ => certificates
  | inr content_info =>
      match cinfo_get_signed_data content_info with
      | inl _ => certificates
      | inr signed_data =>
          match sdata_get_certs signed_data with
          | inl _ => certificates
          | inr certs => certificates ++ CollectEmbeddedCertificatesDer certs
          end
      end
  end.

Definition type_contains (block_type : list ascii) (word : string) : bool := bool_decide (is_Some (find_text (chars word) block_type)).

Definition append_block (certificates : list bytes) (block : PemBlock) : list bytes :=
  if type_contains (pb_type block) "CERTIFICATE" then
    if IsDecodableCertificate (pb_der_payload block) then certificates ++ [pb_der_payload block] else certificates
  else if type_contains (pb_type block) "PKCS7" || type_contains (pb_type block) "PKCS #7" || type_contains (pb_type block) "CMS"
  then AppendPkcs7Certificates (pb_der_payload block) certificates
  else certificates.

(** The certificates and the text of the error. *)
Definition ParseDownloadedCertificates (body : bytes) : list bytes * string :=
  match body with
  | [] => ([], "AIA issuer response is empty")
  | first :: _ =>
      if u8 first =? 0x30 then
        if IsDecodableCertificate body then ([body], "") else
        let certificates := AppendPkcs7Certificates body [] in
        (certificates, if is_empty certificates then "AIA issuer response is neither DER certificate nor supported PKCS#7" else "")
      else
      match LoadAll body false with
      | inl error_message => ([], error_message)
      | inr blocks =>
          let certificates := foldl append_block [] blocks in
          (certificates, if is_empty certificates then "AIA issuer PEM response does not contain certificates" else "")
      end
  end.

(** *** The search *)

(** The variables of the search: the queue, what has been seen and asked, the result, the world. *)
Record Fetch := MkFetch {
  ft_queue : list bytes;
  ft_seen_cert_hashes : gset string;
  ft_attempted_urls : gset string;
  ft_result : AiaIssuerFetchResult;
  ft_debug : string;
  ft_world : World
}.

Definition with_debug (text : string) (s : Fetch) : Fetch :=
  MkFetch (ft_queue s) (ft_seen_cert_hashes s) (ft_attempted_urls s) (ft_result s) (ft_debug s +s+ text) (ft_world s).

Definition newline : string := of_chars [Ascii.ascii_of_nat 10].
Definition line (text : string) (s : Fetch) : Fetch := with_debug (text +s+ newline) s.
Definition number (n : nat) : string := to_string (Z.of_nat n).

(** The attempts at one address, at least one. *)
Fixpoint try_get (attempts : nat) (url : string) (timeout_ms : Z) (w : World) : HttpPostResult * World :=
  let '(response, w) :=
    http_get url "application/pkix-cert, application/pkcs7-mime, application/x-pkcs7-certificates, */*" timeout_ms w in
  match attempts with
  | S (S _ as attempts) => if IsHttpSuccess response then (response, w) else try_get attempts url timeout_ms w
  | _ => (response, w)
  end.

Definition aia_path (work_dir hash : string) : string :=
  path_append (path_append work_dir "intermediate-store") ("aia-" +s+ hash +s+ ".cer").

(** One downloaded certificate. *)
Definition add_certificate (work_dir : string) (s : Fetch) (certificate : bytes) : Fetch :=
  let hash := Hex.StableDerHash certificate in
  if bool_decide (hash ∈ ft_seen_cert_hashes s) then line ("    duplicateCertificateHash=" +s+ hash) s
  else
  let cache_path := aia_path work_dir hash in
  let '(written, w) := write_file cache_path certificate (ft_world s) in
  let r := ft_result s in
  line ((if written then "    cached=" else "    cacheFailed=") +s+ cache_path)
    (MkFetch (ft_queue s ++ [certificate]) ({[ hash ]} ∪ ft_seen_cert_hashes s) (ft_attempted_urls s)
       (MkAiaIssuerFetchResult (fr_attempted r) (S (fr_downloaded_count r))
          (if written then S (fr_cached_count r) else fr_cached_count r)
          (fr_message r) (fr_debug_log r) (fr_certificates_der r ++ [certificate]))
       (ft_debug s) w).

(** One address. *)
Definition fetch_url (input : AiaIssuerFetchInput) (s : Fetch) (url : string) : Fetch :=
  if (fi_max_urls input <=? size (ft_attempted_urls s))%nat || bool_decide (url ∈ ft_attempted_urls s) then s else
  let r := ft_result s in
  let s := line ("  fetch=" +s+ url)
    (MkFetch (ft_queue s) (ft_seen_cert_hashes s) ({[ url ]} ∪ ft_attempted_urls s)
       (MkAiaIssuerFetchResult true (fr_downloaded_count r) (fr_cached_count r) (fr_message r) (fr_debug_log r) (fr_certificates_der r))
       (ft_debug s) (ft_world s)) in
  let '(response, w) := try_get (Nat.max 1 (fi_max_retries input)) url (fi_timeout_ms input) (ft_world s) in
  let s := MkFetch (ft_queue s) (ft_seen_cert_hashes s) (ft_attempted_urls s) (ft_result s) (ft_debug s) w in
  if negb (IsHttpSuccess response) then
    line ("    status=" +s+ to_string (hp_status_code response) +s+ " succeeded="
          +s+ (if hp_succeeded response then "true" else "false") +s+ " message=" +s+ hp_message response) s
  else
  let s := line ("    status=" +s+ to_string (hp_status_code response) +s+ " bodyBytes=" +s+ number (length (hp_body response))) s in
  let '(downloaded, parse_error) := ParseDownloadedCertificates (hp_body response) in
  let s := line ("    parsedCertificates=" +s+ number (length downloaded)
                 +s+ (if str_empty parse_error then "" else " parseError=" +s+ parse_error)) s in
  foldl (add_certificate (fi_work_dir input)) s downloaded.

(** One certificate of the queue. *)
Definition fetch_certificate (input : AiaIssuerFetchInput) (s : Fetch) (processed : nat) (certificate : bytes) : Fetch :=
  let urls := ExtractCaIssuersUrls certificate in
  let s := line ("  seed[" +s+ number processed +s+ "] caIssuersUrls=" +s+ number (length urls)) s in
  let s := foldl (fun s url => line ("    url=" +s+ url) s) s urls in
  foldl (fetch_url input) s urls.

(** The certificates of one level, until enough addresses have been tried. *)
Fixpoint fetch_level (input : AiaIssuerFetchInput) (processed : nat) (certificates : list bytes) (s : Fetch) : Fetch :=
  match certificates with
  | [] => s
  | certificate :: certificates =>
      if (fi_max_urls input <=? size (ft_attempted_urls s))%nat then s
      else fetch_level input (S processed) certificates (fetch_certificate input s processed certificate)
  end.

(** The levels that are left: each takes what the queue holds at its beginning behind the certificates already processed.  A level that
    stops early has used up the addresses, which ends the search. *)
Fixpoint fetch_levels (input : AiaIssuerFetchInput) (levels processed : nat) (s : Fetch) : Fetch :=
  match levels with
  | O => s
  | S levels =>
      let level_end := length (ft_queue s) in
      if (processed <? level_end)%nat && (size (ft_attempted_urls s) <? fi_max_urls input)%nat
      then fetch_levels input levels level_end (fetch_level input processed (drop processed (ft_queue s)) s)
      else s
  end.

Definition skipped (reason debug : string) : AiaIssuerFetchResult :=
  MkAiaIssuerFetchResult false 0 0 reason
    (debug +s+ "  attempted=false" +s+ newline +s+ "  reason=" +s+ reason +s+ newline) [].

Definition FetchMissingIssuers (input : AiaIssuerFetchInput) (w : World) : AiaIssuerFetchResult * World :=
  let seeds := fi_seed_certificates_der input in
  let debug := "AIA:" +s+ newline
    +s+ "  networkEnabled=" +s+ (if fi_network_enabled input then "true" else "false") +s+ newline
    +s+ "  workDir=" +s+ fi_work_dir input +s+ newline
    +s+ "  seedCertificates=" +s+ number (length seeds) +s+ newline in
  if negb (fi_network_enabled input) then
    (skipped "AIA issuer fetch skipped: network access was not explicitly enabled" debug, w)
  else if str_empty (fi_work_dir input) || is_empty seeds || (fi_max_depth input =? 0)%nat || (fi_max_urls input =? 0)%nat
  then (skipped "AIA issuer fetch skipped: empty input" debug, w)
  else
  let s := fetch_levels input (fi_max_depth input) 0
    (MkFetch seeds (list_to_set (map Hex.StableDerHash seeds)) ∅ AiaIssuerFetchResult_default debug w) in
  let r := ft_result s in
  (MkAiaIssuerFetchResult (fr_attempted r) (fr_downloaded_count r) (fr_cached_count r)
     ("AIA issuer fallback downloaded " +s+ number (fr_downloaded_count r) +s+ " certificate(s), cached "
      +s+ number (fr_cached_count r) +s+ ".")
     (ft_debug s +s+ "  downloaded=" +s+ number (fr_downloaded_count r) +s+ newline
      +s+ "  cached=" +s+ number (fr_cached_count r) +s+ newline)
     (fr_certificates_der r),
   ft_world s).

End Fetcher.
End AiaIssuerFetcher.

(** ** What a run sends and writes *)

Section Effects.
Context `{HFiles : FileApi, HInet : InetApi, HNet : WinHttp}.

(** A run with at most [calls] calls of the client, each of which sends at most six requests to destinations that the access policy admits
    at that moment, and whose writes are all allowed. *)
Inductive Effects (allowed : string -> bytes -> Prop) : nat -> World -> World -> Prop :=
| effects_none (w : World) : Effects allowed 0 w w
| effects_get (calls : nat) (w w' : World) (https : bool) (sent : list HttpRequest) :
    admitted Mocks_default https (w_history w) sent -> (length sent <= 6)%nat ->
    Effects allowed calls (MkWorld (w_history w ++ sent) (w_fs w)) w' -> Effects allowed (S calls) w w'
| effects_write (calls : nat) (w w' : World) (path : string) (data : bytes) :
    allowed path data -> Effects allowed calls (write_file path data w).2 w' -> Effects allowed calls w w'.

Lemma effects_trans (allowed : string -> bytes -> Prop) (n m : nat) (w1 w2 w3 : World) :
  Effects allowed n w1 w2 -> Effects allowed m w2 w3 -> Effects allowed (n + m) w1 w3.
Proof.
  intros H1 H2. induction H1 as [|calls w w' https sent Ha Hl _ IH|calls w w' path data Hd _ IH]; [done| |].
  - cbn. econstructor; [done|done|]. by apply IH.
  - econstructor; [done|]. by apply IH.
Qed.

Lemma effects_weaken (allowed allowed' : string -> bytes -> Prop) (n : nat) (w w' : World) :
  (forall path data, allowed path data -> allowed' path data) -> Effects allowed n w w' -> Effects allowed' n w w'.
Proof. intros Hw. induction 1; [constructor|by econstructor|by econstructor; [apply Hw|]]. Qed.

(** The history only grows, by at most six requests for each call. *)
Lemma effects_history (allowed : string -> bytes -> Prop) (n : nat) (w w' : World) :
  Effects allowed n w w' -> exists sent, w_history w' = w_history w ++ sent /\ (length sent <= 6 * n)%nat.
Proof.
  induction 1 as [w|calls w w' https sent Ha Hl _ (more & E & Hm)|calls w w' path data Hd _ (more & E & Hm)].
  - exists []. by rewrite app_nil_r.
  - exists (sent ++ more). cbn [w_history] in E. rewrite E, app_assoc. split; [done|]. rewrite length_app. lia.
  - exists more. split; [|done]. rewrite E. f_equal. unfold write_file. by destruct (fs_write _ _ _).
Qed.

Lemma effects_single_write (allowed : string -> bytes -> Prop) (w : World) (path : string) (data : bytes) :
  allowed path data -> Effects allowed 0 w (write_file path data w).2.
Proof. intros Ha. econstructor; [done|constructor]. Qed.

Lemma http_get_effects (allowed : string -> bytes -> Prop) (url accept : string) (timeout_ms : Z) (w : World) :
  Effects allowed 1 w (http_get url accept timeout_ms w).2.
Proof.
  unfold http_get, Get.
  destruct (sent_are_admitted Mocks_default (w_history w) (MkHttpRequest "GET" url [] "" accept timeout_ms) eq_refl) as (sent & E & Hl & Ha).
  destruct (send _ _ _) as [response h]. cbn [snd] in E |- *. subst h. by econstructor; [| |constructor].
Qed.

End Effects.

(** ** The search for issuers is bounded *)

Module AiaProofs.

Import AiaIssuerFetcher.

Section Proofs.
Context `{HFiles : FileApi, HInet : InetApi, HNet : WinHttp, HCert : CertApi, HCms : !CmsApi, HExt : !CertExtensions}.

Definition hash_of (certificate : bytes) : string := Hex.StableDerHash certificate.

(** A file of the cache is named after the fingerprint of its content. *)
Definition issuer_file (work_dir path : string) (data : bytes) : Prop := path = aia_path work_dir (hash_of data).

(** A certificate that the search received: between the worlds [w] and [w'] the client was asked for an address that one of the
    [sources] names as its issuer's, the network answered that call with success, and the body of this answer contains the
    certificate. *)
Definition received (timeout_ms : Z) (sources : list bytes) (w w' : World) (certificate : bytes) : Prop :=
  exists source url h sent response,
    source ∈ sources /\ url ∈ ExtractCaIssuersUrls source /\
    w_history w `prefix_of` h /\
    Get Mocks_default h url "application/pkix-cert, application/pkcs7-mime, application/x-pkcs7-certificates, */*" timeout_ms
      = (response, h ++ sent) /\
    h ++ sent `prefix_of` w_history w' /\
    IsHttpSuccess response = true /\ certificate ∈ (ParseDownloadedCertificates (hp_body response)).1.

Lemma received_later (timeout_ms : Z) (sources sources' : list bytes) (w w1 w2 : World) (certificate : bytes) :
  sources ⊆ sources' -> w_history w1 `prefix_of` w_history w2 ->
  received timeout_ms sources w w1 certificate -> received timeout_ms sources' w w2 certificate.
Proof.
  intros Hs Hp (source & url & h & sent & response & H1 & H2 & H3 & H4 & H5 & H6).
  exists source, url, h, sent, response. 
  split; [by apply Hs|]. split; [done|]. split; [done|]. split; [done|]. split; [by etransitivity|done].
Qed.

Definition attempts (input : AiaIssuerFetchInput) : nat := Nat.max 1 (fi_max_retries input).

(** What holds throughout the search. *)
Record Searching (input : AiaIssuerFetchInput) (w : World) (known : list bytes) (s : Fetch) : Prop := {
  se_known : known ⊆ ft_queue s;
  se_queue : ft_queue s = fi_seed_certificates_der input ++ fr_certificates_der (ft_result s);
  se_seen : ft_seen_cert_hashes s = list_to_set (map hash_of (ft_queue s));
  se_new : Forall (fun c => hash_of c ∉ map hash_of (fi_seed_certificates_der input)) (fr_certificates_der (ft_result s));
  se_distinct : NoDup (map hash_of (fr_certificates_der (ft_result s)));
  se_received : Forall (received (fi_timeout_ms input) (ft_queue s) w (ft_world s)) (fr_certificates_der (ft_result s));
  se_downloaded : fr_downloaded_count (ft_result s) = length (fr_certificates_der (ft_result s));
  se_cached : (fr_cached_count (ft_result s) <= fr_downloaded_count (ft_result s))%nat;
  se_urls : (size (ft_attempted_urls s) <= fi_max_urls input)%nat;
  se_effects : exists calls, (calls <= size (ft_attempted_urls s) * attempts input)%nat /\
    Effects (issuer_file (fi_work_dir input)) calls w (ft_world s)
}.

Lemma searching_line (input : AiaIssuerFetchInput) (w : World) (known : list bytes) (text : string) (s : Fetch) :
  Searching input w known s -> Searching input w known (line text s).
Proof. intros []. by split. Qed.

Lemma searching_fold {A} (input : AiaIssuerFetchInput) (w : World) (known : list bytes) (f : Fetch -> A -> Fetch) (l : list A)
    (s : Fetch) (P : Fetch -> Prop) :
  (forall s a, a ∈ l -> Searching input w known s -> P s -> Searching input w known (f s a) /\ P (f s a)) ->
  Searching input w known s -> P s -> Searching input w known (foldl f s l) /\ P (foldl f s l).
Proof.
  revert s. induction l as [|a l IH]; intros s Hf Hs HP; [done|]. cbn.
  destruct (Hf s a ltac:(by left) Hs HP) as [H1 H2]. apply IH; [|done|done]. intros s' b Hb. apply Hf. by right.
Qed.

Lemma try_get_effects (allowed : string -> bytes -> Prop) (n : nat) (url : string) (timeout_ms : Z) (w : World) :
  exists calls, (calls <= Nat.max 1 n)%nat /\ Effects allowed calls w (try_get n url timeout_ms w).2.
Proof.
  revert w. induction n as [|n IH]; intros w.
  { exists 1%nat. split; [lia|]. cbn [try_get].
    pose proof (http_get_effects allowed url "application/pkix-cert, application/pkcs7-mime, application/x-pkcs7-certificates, */*"
      timeout_ms w) as He. by destruct (http_get _ _ _ w) as [r w1]. }
  cbn [try_get].
  pose proof (http_get_effects allowed url "application/pkix-cert, application/pkcs7-mime, application/x-pkcs7-certificates, */*"
    timeout_ms w) as He. destruct (http_get _ _ _ w) as [r w1]. cbn [snd] in He.
  destruct n as [|n]; [exists 1%nat; split; [lia|done]|]. destruct (IsHttpSuccess r); [exists 1%nat; split; [lia|done]|].
  destruct (IH w1) as (calls & Hc & Hw). exists (1 + calls)%nat. split; [lia|]. by apply (effects_trans _ 1 calls w w1).
Qed.

Notation accepted_types := "application/pkix-cert, application/pkcs7-mime, application/x-pkcs7-certificates, */*".

(** What the attempts end with is the answer to one call of the client, the last one. *)
Lemma try_get_call (n : nat) (url : string) (timeout_ms : Z) (w : World) :
  exists h sent, w_history w `prefix_of` h /\
    Get Mocks_default h url accepted_types timeout_ms = ((try_get n url timeout_ms w).1, h ++ sent) /\
    w_history (try_get n url timeout_ms w).2 = h ++ sent.
Proof.
  assert (forall w, exists response sent,
    http_get url accepted_types timeout_ms w = (response, MkWorld (w_history w ++ sent) (w_fs w)) /\
    Get Mocks_default (w_history w) url accepted_types timeout_ms = (response, w_history w ++ sent)) as Hone.
  { intros w0. unfold http_get, Get.
    destruct (sent_are_admitted Mocks_default (w_history w0) (MkHttpRequest "GET" url [] "" accepted_types timeout_ms) eq_refl)
      as (sent & E & _). destruct (send _ _ _) as [response h]. cbn [snd] in E. subst h. by exists response, sent. }
  revert w. induction n as [|n IH]; intros w; cbn [try_get]; destruct (Hone w) as (response & sent & -> & Eg).
  - by exists (w_history w), sent.
  - destruct n as [|n]; [by exists (w_history w), sent|]. destruct (IsHttpSuccess response); [by exists (w_history w), sent|].
    destruct (IH (MkWorld (w_history w ++ sent) (w_fs w))) as (h & more & Hp & E1 & E2). exists h, more. split_and!; [|done|done].
    etransitivity; [|exact Hp]. cbn. by apply prefix_app_r.
Qed.

Lemma write_file_history (path : string) (data : bytes) (w : World) : w_history (write_file path data w).2 = w_history w.
Proof. unfold write_file. by destruct (fs_write _ _ _). Qed.

(** The search goes on from [s] to [s']. *)
Definition onward (s s' : Fetch) : Prop :=
  ft_queue s ⊆ ft_queue s' /\ w_history (ft_world s) `prefix_of` w_history (ft_world s').

Lemma add_certificate_searching (input : AiaIssuerFetchInput) (w : World) (known : list bytes) (s : Fetch) (certificate : bytes) :
  received (fi_timeout_ms input) (ft_queue s) w (ft_world s) certificate -> Searching input w known s ->
  Searching input w known (add_certificate (fi_work_dir input) s certificate) /\
  onward s (add_certificate (fi_work_dir input) s certificate).
Proof.
  intros Hr Hs. unfold add_certificate. fold (hash_of certificate).
  destruct (bool_decide_reflect (hash_of certificate ∈ ft_seen_cert_hashes s)) as [|Hn]; [split; [by apply searching_line|done]|].
  pose proof (effects_single_write (issuer_file (fi_work_dir input)) (ft_world s) (aia_path (fi_work_dir input) (hash_of certificate))
    certificate eq_refl) as Hw.
  pose proof (write_file_history (aia_path (fi_work_dir input) (hash_of certificate)) certificate (ft_world s)) as Hh.
  destruct (write_file _ certificate (ft_world s)) as [written w'] eqn:Ew. cbn [snd] in Hw, Hh.
  split; [apply searching_line|split; cbn; [set_solver|by rewrite Hh]].
  destruct Hs as [K Q S New D R Dl C U (calls & Hc & He)]. rewrite S, elem_of_list_to_set, Q, map_app, elem_of_app in Hn.
  apply Decidable.not_or in Hn as [Hn1 Hn2].
  assert (forall c, received (fi_timeout_ms input) (ft_queue s) w (ft_world s) c ->
    received (fi_timeout_ms input) (ft_queue s ++ [certificate]) w w' c) as Hlater
    by (intros c; apply received_later; [set_solver|by rewrite Hh]).
  split; cbn.
  - set_solver.
  - by rewrite Q, app_assoc.
  - rewrite S, map_app, list_to_set_app_L. cbn [map list_to_set]. by rewrite union_empty_r_L, (comm_L (∪)).
  - apply Forall_app. split; [done|]. by constructor.
  - rewrite map_app. apply NoDup_app. split; [done|]. split; [|apply NoDup_singleton].
    intros h Hh' ->%list_elem_of_singleton. done.
  - apply Forall_app. split; [by eapply Forall_impl|]. constructor; [by apply Hlater|constructor].
  - rewrite length_app, Dl. cbn. lia.
  - destruct written; lia.
  - done.
  - exists (calls + 0)%nat. split; [lia|]. by eapply effects_trans.
Qed.

Lemma fetch_url_searching (input : AiaIssuerFetchInput) (w : World) (known : list bytes) (s : Fetch) (source : bytes) (url : string) :
  source ∈ known -> url ∈ ExtractCaIssuersUrls source -> Searching input w known s -> Searching input w known (fetch_url input s url).
Proof.
  intros Hsrc Hurl Hs. unfold fetch_url. destruct (Nat.leb_spec (fi_max_urls input) (size (ft_attempted_urls s))) as [|Hlt]; [done|].
  destruct (bool_decide_reflect (url ∈ ft_attempted_urls s)) as [|Hn]; [done|]. cbn [orb].
  destruct (try_get_effects (issuer_file (fi_work_dir input)) (attempts input) url (fi_timeout_ms input) (ft_world s)) as (n & Hn1 & Hw).
  destruct (try_get_call (attempts input) url (fi_timeout_ms input) (ft_world s)) as (h & sent & Hh & Eget & Ehist).
  unfold line, with_debug. cbn [ft_world ft_queue ft_seen_cert_hashes ft_attempted_urls ft_result ft_debug]. unfold attempts in Hw, Eget, Ehist.
  destruct (try_get _ url (fi_timeout_ms input) (ft_world s)) as [response w'] eqn:Eg. cbn [fst snd] in Hw, Eget, Ehist.
  assert (w_history (ft_world s) `prefix_of` w_history w') as Hgrow by (rewrite Ehist; by apply prefix_app_r).
  assert (exists sent0, w_history (ft_world s) = w_history w ++ sent0) as [sent0 Esent].
  { destruct (se_effects _ _ _ _ Hs) as (calls & _ & He). destruct (effects_history _ _ _ _ He) as (sent0 & E & _). by exists sent0. }
  assert (forall text, Searching input w known (MkFetch (ft_queue s) (ft_seen_cert_hashes s) ({[url]} ∪ ft_attempted_urls s)
    (MkAiaIssuerFetchResult true (fr_downloaded_count (ft_result s)) (fr_cached_count (ft_result s)) (fr_message (ft_result s))
      (fr_debug_log (ft_result s)) (fr_certificates_der (ft_result s))) text w')) as Hstep.
  { intros text. destruct Hs as [K Q S New D R Dl C U (calls & Hc & He)].
    assert (size ({[url]} ∪ ft_attempted_urls s) = (1 + size (ft_attempted_urls s))%nat) as Hsize
      by (rewrite size_union by (by apply disjoint_singleton_l); by rewrite size_singleton).
    split; cbn; try done; [|lia|].
    - eapply Forall_impl; [exact R|]. intros c. by apply received_later.
    - exists (calls + n)%nat. split; [|by eapply effects_trans]. unfold attempts in *. rewrite Hsize. lia. }
  destruct (negb (IsHttpSuccess response)) eqn:Eok; [apply Hstep|]. apply negb_false_iff in Eok.
  destruct (ParseDownloadedCertificates (hp_body response)) as [downloaded parse_error] eqn:Ep.
  match goal with |- Searching _ _ _ (foldl _ ?s0 _) => apply (searching_fold input w known _ downloaded s0 (onward s0)) end;
    [|apply Hstep|done].
  intros s' c Hc Hs' [On1 On2]. cbn in On1, On2.
  destruct (add_certificate_searching input w known s' c) as [A1 [A2 A3]]; [|done|].
  - exists source, url, h, sent, response. split_and!; [|done| |done| |done|by rewrite Ep].
    + by apply On1, (se_known _ _ _ _ Hs).
    + etransitivity; [|exact Hh]. rewrite Esent. by apply prefix_app_r.
    + by rewrite <- Ehist.
  - split; [done|]. split; [set_solver|by etransitivity].
Qed.

Lemma fetch_certificate_searching (input : AiaIssuerFetchInput) (w : World) (known : list bytes) (s : Fetch) (processed : nat)
    (certificate : bytes) :
  certificate ∈ known -> Searching input w known s -> Searching input w known (fetch_certificate input s processed certificate).
Proof.
  intros Hk Hs. unfold fetch_certificate.
  apply (searching_fold input w known _ _ _ (fun _ => True)); [|apply (searching_fold input w known _ _ _ (fun _ => True))|done].
  - intros s' url Hu Hs' _. split; [|done]. by apply (fetch_url_searching _ _ _ _ certificate).
  - intros s' url _ Hs' _. split; [|done]. by apply searching_line.
  - by apply searching_line.
  - done.
Qed.

Lemma fetch_level_searching (input : AiaIssuerFetchInput) (w : World) (known l : list bytes) (processed : nat) (s : Fetch) :
  l ⊆ known -> Searching input w known s -> Searching input w known (fetch_level input processed l s).
Proof.
  revert processed s. induction l as [|c l IH]; intros processed s Hl Hs; [done|]. cbn [fetch_level].
  destruct (_ <=? _)%nat; [done|]. apply IH; [set_solver|]. apply fetch_certificate_searching; [set_solver|done].
Qed.

Lemma fetch_levels_searching (input : AiaIssuerFetchInput) (w : World) (levels processed : nat) (s : Fetch) :
  Searching input w [] s -> Searching input w [] (fetch_levels input levels processed s).
Proof.
  revert processed s. induction levels as [|levels IH]; intros processed s Hs; [done|]. cbn [fetch_levels].
  destruct (_ && _); [|done]. apply IH.
  destruct (fetch_level_searching input w (ft_queue s) (drop processed (ft_queue s)) processed s) as [K ? ? ? ? ? ? ? ? ?];
    [apply subseteq_drop|by destruct Hs; split|]. split; try done. apply list_subseteq_nil.
Qed.

(** What a search leaves. *)
Record Fetched (input : AiaIssuerFetchInput) (w w' : World) (r : AiaIssuerFetchResult) : Prop := {
  fd_received : Forall (received (fi_timeout_ms input) (fi_seed_certificates_der input ++ fr_certificates_der r) w w')
    (fr_certificates_der r);
  fd_distinct : NoDup (map hash_of (fr_certificates_der r));
  fd_new : Forall (fun c => hash_of c ∉ map hash_of (fi_seed_certificates_der input)) (fr_certificates_der r);
  fd_counts : fr_downloaded_count r = length (fr_certificates_der r) /\ (fr_cached_count r <= fr_downloaded_count r)%nat;
  fd_effects : exists calls, (calls <= fi_max_urls input * attempts input)%nat /\
    Effects (issuer_file (fi_work_dir input)) calls w w'
}.

Lemma fetched_nothing (input : AiaIssuerFetchInput) (w : World) (reason debug : string) : Fetched input w w (skipped reason debug).
Proof. split; cbn; [constructor|apply NoDup_nil_2|constructor|done|]. exists 0%nat. split; [lia|constructor]. Qed.

Lemma FetchMissingIssuers_spec (input : AiaIssuerFetchInput) (w : World) :
  Fetched input w (FetchMissingIssuers input w).2 (FetchMissingIssuers input w).1 /\
  (fi_network_enabled input = false -> (FetchMissingIssuers input w).2 = w).
Proof.
  unfold FetchMissingIssuers. destruct (fi_network_enabled input); cbn [negb]; [|split; [apply fetched_nothing|done]].
  destruct (_ || _); [split; [apply fetched_nothing|done]|]. cbn [fst snd].
  match goal with |- context [fetch_levels input (fi_max_depth input) 0 ?s0] =>
    destruct (fetch_levels_searching input w (fi_max_depth input) 0 s0) as [_ Q S New D R Dl C U (calls & Hc & He)] end.
  { split; cbn; [set_solver|by rewrite app_nil_r|done|constructor|apply NoDup_nil_2|constructor|done|done|by apply Nat.le_0_l|].
    exists 0%nat. split; [apply Nat.le_0_l|constructor]. }
  split; [|done]. rewrite Q in R. split; cbn; try done. exists calls. split; [nia|done].
Qed.

(** [C17] The search for missing issuers ends after at most [max_urls] addresses with at most [max_retries] attempts each, six requests at
    most for one attempt, every one admitted by the access policy; it writes nothing but files of the cache of issuers named after the
    fingerprint of their content; and what it returns are certificates that it received: each is in the body of an answer with success
    that the network gave, during this search, to a call of the client for an address which one of the known or found certificates names
    as its issuer's; none is returned twice and none that was known.  Without permission it does nothing at all. *)
Theorem FetchMissingIssuers_bounded (input : AiaIssuerFetchInput) (w : World) :
  Fetched input w (FetchMissingIssuers input w).2 (FetchMissingIssuers input w).1 /\
  (fi_network_enabled input = false -> (FetchMissingIssuers input w).2 = w).
Proof. apply FetchMissingIssuers_spec. Qed.

End Proofs.
End AiaProofs.

(** ** The cache of revocation lists *)

Module CrlProofs.

Import CrlCache.

Section Proofs.
Context `{HFiles : FileApi, HInet : InetApi, HNet : WinHttp, HPlat : Platform, HCert : CertApi, HCrl : !CrlApi, HExt : !CertExtensions}.

(** A file of the cache is a list in the place of an address. *)
Definition crl_file (work_dir path : string) (data : bytes) : Prop :=
  IsValidCrlDer data = true /\ exists url, path = crl_path work_dir url.

(** The list in the place of an address is current. *)
Definition current (w : World) (work_dir url : string) (now : Z) : Prop :=
  fs_exists (w_fs w) (crl_path work_dir url) = true /\ IsCachedCrlFresh (ReadFileBytes w (crl_path work_dir url)) now = true.

Lemma refresh_crl_current (work_dir url : string) (timeout_ms now : Z) (w : World) :
  current w work_dir url now -> refresh_crl work_dir timeout_ms now w url = w.
Proof. intros [He Hf]. unfold refresh_crl. by rewrite He, Hf. Qed.

Lemma refresh_crl_effects (work_dir url : string) (timeout_ms now : Z) (w : World) :
  exists calls, (calls <= 1)%nat /\ Effects (crl_file work_dir) calls w (refresh_crl work_dir timeout_ms now w url).
Proof.
  unfold refresh_crl. destruct (_ && _); [exists 0%nat; split; [lia|constructor]|]. exists 1%nat. split; [done|].
  pose proof (http_get_effects (crl_file work_dir) url "application/pkix-crl, */*" timeout_ms w) as He.
  destruct (http_get _ _ _ w) as [r w1]. cbn [snd] in He. destruct (hp_succeeded r && _); [|done]. cbn [andb].
  destruct (IsValidCrlDer (hp_body r)) eqn:Ev; [|done]. change 1%nat with (1 + 0)%nat. apply (effects_trans _ 1 0 w w1 _ He).
  apply effects_single_write. split; [done|]. by exists url.
Qed.

Lemma download_effects `{HClock : Clock} (w : World) (cert_der : bytes) (work_dir : string) (timeout_ms : Z) :
  (exists calls, (calls <= length (ExtractCrlDistributionUrls cert_der))%nat /\
     Effects (crl_file work_dir) calls w (DownloadAndCacheCrlsForCert w cert_der work_dir timeout_ms)) /\
  ((forall url, url ∈ ExtractCrlDistributionUrls cert_der -> current w work_dir url std_time) ->
   DownloadAndCacheCrlsForCert w cert_der work_dir timeout_ms = w).
Proof.
  unfold DownloadAndCacheCrlsForCert. destruct (is_empty cert_der || str_empty work_dir).
  { split; [exists 0%nat; split; [lia|constructor]|done]. }
  generalize (ExtractCrlDistributionUrls cert_der). intros urls. split.
  - revert w. induction urls as [|url urls IH]; intros w; [exists 0%nat; split; [lia|constructor]|]. cbn [foldl length].
    destruct (refresh_crl_effects work_dir url timeout_ms std_time w) as (n & Hn & He).
    destruct (IH (refresh_crl work_dir timeout_ms std_time w url)) as (m & Hm & He2).
    exists (n + m)%nat. split; [lia|]. by eapply effects_trans.
  - intros Hc. induction urls as [|url urls IH]; [done|]. cbn [foldl]. rewrite refresh_crl_current by (apply Hc; by left).
    apply IH. intros u Hu. apply Hc. by right.
Qed.

(** The download for a certificate asks each of its addresses at most once and each one whose list is current not at all; it
    writes nothing but well-formed lists, each to the place of its address. *)
Theorem DownloadAndCacheCrlsForCert_effects `{HClock : Clock} (w : World) (cert_der : bytes) (work_dir : string) (timeout_ms : Z) :
  (exists calls, (calls <= length (ExtractCrlDistributionUrls cert_der))%nat /\
     Effects (crl_file work_dir) calls w (DownloadAndCacheCrlsForCert w cert_der work_dir timeout_ms)) /\
  ((forall url, url ∈ ExtractCrlDistributionUrls cert_der -> current w work_dir url std_time) ->
   DownloadAndCacheCrlsForCert w cert_der work_dir timeout_ms = w).
Proof. apply download_effects. Qed.

(** A list that is current has a date of the next one in the future; nothing is asked of its issuer. *)
Lemma fresh_iff (crl_der : bytes) (now : Z) :
  IsCachedCrlFresh crl_der now = true <->
  IsValidCrlDer crl_der = true /\ exists next_update, GetCrlNextUpdate crl_der = Some next_update /\ now < next_update.
Proof.
  unfold IsCachedCrlFresh. destruct (IsValidCrlDer crl_der); cbn [negb]; [|split; [done|by intros []]].
  destruct (GetCrlNextUpdate crl_der) as [next|]; [|split; [done|by intros (_ & ? & [=] & _)]].
  rewrite Z.ltb_lt. split; [intros Hn; split; [done|]; by exists next|]. by intros (_ & ? & [= <-] & ?).
Qed.

(** The lists for some certificates are the well-formed ones of the working directory that the issuer of one of them has issued. *)
Theorem LoadMatching_iff (w : World) (work_dir : string) (certs : list bytes) (crl_der : bytes) :
  crl_der ∈ LoadMatchingCrlsFromWorkDir w work_dir certs <->
  crl_der ∈ LoadCrlsFromWorkDir w work_dir /\ IsValidCrlDer crl_der = true /\
  exists cert_der crl cert, cert_der ∈ certs /\ crl_decode crl_der = Some crl /\ DecodeCertificateDer cert_der = Some cert /\
    asn_equals_name (crl_issuer crl) (tbs_issuer cert) = true.
Proof.
  assert (forall cert_der, CrlMatchesCertificate crl_der cert_der = true <-> IsValidCrlDer crl_der = true /\
    exists crl cert, crl_decode crl_der = Some crl /\ DecodeCertificateDer cert_der = Some cert /\
      asn_equals_name (crl_issuer crl) (tbs_issuer cert) = true) as Hm.
  { intros cert_der. unfold CrlMatchesCertificate. destruct crl_der as [|b l].
    { split; [done|]. by intros [? _]. }
    destruct cert_der as [|c k]. { split; [done|]. by intros (_ & ? & ? & _ & [=] & _). }
    cbn [is_empty orb]. destruct (IsValidCrlDer (b :: l)); cbn [negb]; [|split; [done|by intros []]].
    destruct (crl_decode (b :: l)) as [crl|]; [|split; [done|by intros (_ & ? & ? & [=] & _)]].
    destruct (DecodeCertificateDer (c :: k)) as [cert|]; [|split; [done|by intros (_ & ? & ? & _ & [=] & _)]].
    split; [intros ?; split; [done|]; by exists crl, cert|]. by intros (_ & ? & ? & [= <-] & [= <-] & ?). }
  unfold LoadMatchingCrlsFromWorkDir. destruct (str_empty work_dir || is_empty certs) eqn:Ee.
  - split; [by intros ?%elem_of_nil|]. intros (Hl & _ & cert_der & _ & _ & Hc & _). apply orb_true_iff in Ee as [Ee|Ee].
    + unfold LoadCrlsFromWorkDir in Hl. rewrite Ee in Hl. by apply elem_of_nil in Hl.
    + destruct certs; [by apply elem_of_nil in Hc|done].
  - rewrite list_elem_of_In, filter_In, <- list_elem_of_In, andb_true_iff, existsb_exists. split.
    + intros (Hl & Hv & cert_der & Hc%list_elem_of_In & (_ & crl & cert & ? & ? & ?)%Hm). split; [done|]. split; [done|].
      by exists cert_der, crl, cert.
    + intros (Hl & Hv & cert_der & crl & cert & Hc & ? & ? & ?). split; [done|]. split; [done|]. exists cert_der.
      split; [by apply list_elem_of_In|]. apply Hm. split; [done|]. by exists crl, cert.
Qed.

End Proofs.
End CrlProofs.

(** ** The candidates for the engine ([SessionHelpers.ipp]) *)

Section Enrich.
Context `{HFiles : FileApi, HInet : InetApi, HNet : WinHttp, HPlat : Platform, HCert : CertApi, HCms : !CmsApi, HExt : !CertExtensions}.

(** The entries of a directory as the collector of certificates sees them. *)
Definition directory (w : World) (dir_path : string) : option (list (string * bool * option bytes)) :=
  if negb (fs_exists (w_fs w) dir_path) || negb (fs_is_directory (w_fs w) dir_path) then None else
  Some (map (fun path => (filename path, fs_is_regular_file (w_fs w) path,
    match ReadLimited (fs_read (w_fs w) path) kMaxCertificateFileSize with inr data => Some (text_bytes data) | inl _ => None end))
    (fs_entries (w_fs w) dir_path)).

Definition store_certificates (w : World) (work_dir name : string) : list bytes :=
  directory_certificates (directory w (path_append work_dir name)).

Definition EnrichWithAiaIssuersIfNeeded (w : World) (work_dir : string) (timeout_ms : Z) (network_enabled : bool)
    (signer_certificate_der : bytes) (embedded_certificates_der : list bytes) : list bytes * World :=
  if negb network_enabled || str_empty work_dir || is_empty signer_certificate_der then (embedded_certificates_der, w) else
  let current_trust_anchors := store_certificates w work_dir "trust-store" in
  if is_empty current_trust_anchors then (embedded_certificates_der, w) else
  let intermediate_certs := store_certificates w work_dir "intermediate-store" in
  let probe := CertificateChainInput_default <| ci_signer_certificate_der := signer_certificate_der |>
    <| ci_embedded_certificates_der := embedded_certificates_der |>
    <| ci_intermediate_certificates_der := intermediate_certs |> <| ci_trust_anchors_der := current_trust_anchors |> in
  let probe_status := cr_status (Chain.Validate probe) in
  if negb (bool_decide (probe_status = ChainStatus.Untrusted)) && negb (bool_decide (probe_status = ChainStatus.Incomplete))
  then (embedded_certificates_der, w)
  else
  let '(aia_result, w) := AiaIssuerFetcher.FetchMissingIssuers
    (AiaIssuerFetcher.MkAiaIssuerFetchInput network_enabled work_dir (if 0 <? timeout_ms then timeout_ms else 10000) 6 16 2
       (signer_certificate_der :: embedded_certificates_der ++ intermediate_certs)) w in
  (embedded_certificates_der ++ AiaIssuerFetcher.fr_certificates_der aia_result, w).

(** A chain that already leads to an anchor is not looked for in the network; otherwise the candidates only grow, by certificates that
    successful responses contained, after at most 32 calls of the client. *)
Lemma Enrich_effects (w : World) (work_dir : string) (timeout_ms : Z) (network_enabled : bool) (signer : bytes) (embedded : list bytes) :
  let '(candidates, w') := EnrichWithAiaIssuersIfNeeded w work_dir timeout_ms network_enabled signer embedded in
  (exists more timeout sources, candidates = embedded ++ more /\ Forall (AiaProofs.received timeout sources w w') more) /\
  (exists calls, (calls <= 32)%nat /\ Effects (AiaProofs.issuer_file work_dir) calls w w') /\
  (network_enabled = false -> w' = w /\ candidates = embedded).
Proof.
  assert ((exists more timeout sources, embedded = embedded ++ more /\ Forall (AiaProofs.received timeout sources w w) more) /\
    (exists calls, (calls <= 32)%nat /\ Effects (AiaProofs.issuer_file work_dir) calls w w) /\
    (network_enabled = false -> w = w /\ embedded = embedded)) as Hsame.
  { split; [exists [], 0, []; by rewrite app_nil_r|]. split; [|done]. exists 0%nat. split; [lia|constructor]. }
  unfold EnrichWithAiaIssuersIfNeeded. destruct network_enabled; cbn [negb orb]; [|done].
  destruct (_ || _); [done|]. destruct (is_empty _); [done|]. destruct (_ && _); [done|].
  match goal with |- context [AiaIssuerFetcher.FetchMissingIssuers ?i w] => destruct (AiaProofs.FetchMissingIssuers_spec i w) as [F _];
    destruct (AiaIssuerFetcher.FetchMissingIssuers i w) as [r w'] end.
  destruct F as [Hr _ _ _ (calls & Hc & He)]. split; [by eexists (AiaIssuerFetcher.fr_certificates_der r), _, _|]. split; [|done].
  exists calls. by split.
Qed.

End Enrich.

(** ** What the engine does to the disk *)

Section EngineDisk.
Context `{Clock, !Platform, !CertApi, !Validators, !TimestampApi, !StoreApi, !LibXml}.

Lemma timestamp_disk (disk : Disk) (input : TimestampEngineInput) :
  (Timestamp.Validate disk input).2 = disk \/
  exists der, (Timestamp.Validate disk input).2 =
    DownloadAndCacheCrlsForCert disk der (tsa_work_dir input) (pl_timeout_ms (ti_plan input)) /\
    pl_network_allowed (ti_plan input) = true /\ tsa_work_dir input <> "".
Proof.
  unfold Timestamp.Validate, run, mbind, sum_bind.
  destruct (token_stage input) as [?|val_res]; [by left|]. destruct (time_stage val_res) as [?|r1]; [by left|].
  destruct (direct_stage input _ r1) as [direct r2]. destruct (trust_stage input _ direct r2) as [?|[r3 selection]]; [by left|].
  destruct (eku_stage _ r3) as [?|r4]; [by left|]. destruct (issuer_stage input val_res selection r4) as [?|r5]; [by left|].
  unfold tsa_revocation. destruct (bool_decide _); [|by left]. destruct (pl_network_allowed (ti_plan input)); [|by left].
  cbn [andb]. destruct (tsa_work_dir input) as [|c l] eqn:Ew; [by left|]. right. exists (tv_tsa_certificate_der val_res). done.
Qed.

Lemma network_not_offline (context : ValidationContext) :
  pl_network_allowed (rp_plan (PolicyResolver_Resolve context)) = true -> vc_offline context = false.
Proof.
  unfold PolicyResolver_Resolve. destruct (_ || _); [done|]. destruct (vc_profile context); cbn; try done; by destruct (vc_offline context).
Qed.

Lemma store_path_of (context : ValidationContext) :
  pl_trust_store_path (rp_plan (PolicyResolver_Resolve context)) =
    if str_empty (vc_work_dir context) then "" else path_append (vc_work_dir context) "trust-store".
Proof.
  unfold PolicyResolver_Resolve, ResolveWorkDirPaths. destruct (str_empty (vc_work_dir context)); destruct (_ || _); try done; by destruct (vc_profile context).
Qed.

(** The directories whose cache of lists the engine may refresh: the working directory, once as it is given and once as what precedes the
    name of the store. *)
Definition engine_directory (work_dir dir : string) : Prop := dir = work_dir \/ dir = parent_path (path_append work_dir "trust-store").

(** A run of the engine does to the disk what the downloads for some certificates do, and nothing offline. *)
Lemma Validate_disk (R : Disk -> Disk -> Prop) (context : ValidationContext) :
  (forall d, R d d) -> (forall d1 d2 d3, R d1 d2 -> R d2 d3 -> R d1 d3) ->
  (forall d der dir timeout_ms, vc_offline context = false -> engine_directory (vc_work_dir context) dir ->
     R d (DownloadAndCacheCrlsForCert d der dir timeout_ms)) ->
  forall disk signer embedded,
    R disk (Validation.Validate disk context signer embedded).2 /\
    (vc_offline context = true -> (Validation.Validate disk context signer embedded).2 = disk).
Proof.
  intros Hrefl Htrans Hdown disk signer embedded. unfold Validation.Validate.
  destruct (timestamp_step _ _ _ _ _ _) as [[ts attempted] disk1] eqn:Ets.
  assert (R disk disk1 /\ (vc_offline context = true -> disk1 = disk)) as [R1 O1].
  { unfold timestamp_step in Ets. destruct (vc_cms_der context); [by injection Ets as _ _ <-|].
    match type of Ets with context [Timestamp.Validate disk ?i] => pose proof (timestamp_disk disk i) as Hd;
      set (input := i) in * end.
    destruct (Timestamp.Validate disk input) as [r d]. injection Ets as _ _ <-. cbn [snd] in Hd.
    destruct Hd as [->|(der & -> & Hn & Hw)]; [done|].
    assert (ti_plan input = rp_plan (PolicyResolver_Resolve context)) as Ep by done. rewrite Ep in Hn. apply network_not_offline in Hn.
    split; [|by rewrite Hn]. apply Hdown; [done|]. right. unfold tsa_work_dir in *. rewrite Ep, store_path_of in Hw |- *.
    destruct (str_empty (vc_work_dir context)); [done|]. by destruct (str_empty (path_append _ _)). }
  match goal with |- context [signer_revocation_input ?d ?c ?r ?s ?i ?t] =>
    destruct (signer_revocation_input d c r s i t) as [rev_input disk2] eqn:Er end.
  destruct (revocation_step _ _) as [revocation evidence]. cbn [snd].
  assert (R disk1 disk2 /\ (vc_offline context = true -> disk2 = disk1)) as [R2 O2].
  { unfold signer_revocation_input in Er. injection Er as _ <-.
    destruct (pl_network_allowed _) eqn:En; [|done]. apply network_not_offline in En. destruct (negb (str_empty (vc_work_dir context))); [|done].
    cbn [andb]. split; [|by rewrite En].
    match goal with |- context [negb (is_empty ?i)] => destruct (negb (is_empty i)) end.
    - eapply Htrans; apply Hdown; by try left.
    - apply Hdown; [done|by left]. }
  split; [by eapply Htrans|]. intros Ho. by rewrite O2, O1.
Qed.

End EngineDisk.

(** ** The program on its disk *)

(** What is still left to the vendored library and to the registry of certification authorities. *)
Class RegistryApi `{CertApi, FileApi} := {
  authority_info_access : Certificate_t -> option (list (bool * option string));
  cached_registry_ocsp_url : World -> string -> bytes -> option string
}.

Section Program.
Context {HFiles : FileApi} {HInet : InetApi} {HNet : WinHttp} {HClock : Clock} {HPlat : Platform} {HCert : CertApi} {HCrl : CrlApi}
  {HCms : CmsApi} {HDigest : DigestApi} {HExt : CertExtensions} {HRegistry : RegistryApi}.

(** The caches discharge what [TokenValidator] leaves open. *)
#[local] Instance tamga_external : ExternalApi := {|
  ex_disk := World;
  ex_cert_aia := authority_info_access;
  ex_registry_ocsp_url := cached_registry_ocsp_url;
  ex_load_crls := CrlCache.LoadCrlsFromWorkDir;
  ex_download_crls w der work_dir timeout_ms := CrlCache.DownloadAndCacheCrlsForCert w der work_dir timeout_ms;
  ex_enrich := EnrichWithAiaIssuersIfNeeded
|}.
#[local] Existing Instances tamga_timestamps tamga_cms.

Context {HValidators : Validators} {HStore : StoreApi} {HXml : LibXml} {HMeta : MetadataApi}.

(** The files a verification may write: lists and issuers, each in its place below the working directory. *)
Definition cached_file (work_dir path : string) (data : bytes) : Prop :=
  exists dir, engine_directory work_dir dir /\ (CrlProofs.crl_file dir path data \/ AiaProofs.issuer_file dir path data).

Definition Verified (work_dir : string) (w w' : World) : Prop := exists calls, Effects (cached_file work_dir) calls w w'.

Lemma verified_trans (work_dir : string) (w1 w2 w3 : World) :
  Verified work_dir w1 w2 -> Verified work_dir w2 w3 -> Verified work_dir w1 w3.
Proof. intros [n Hn] [m Hm]. exists (n + m)%nat. by eapply effects_trans. Qed.

Lemma engine_effects (context : ValidationContext) (w : World) (signer : bytes) (embedded : list bytes) :
  Verified (vc_work_dir context) w (Validation.Validate w context signer embedded).2 /\
  (vc_offline context = true -> (Validation.Validate w context signer embedded).2 = w).
Proof.
  apply (Validate_disk (H3 := tamga_timestamps (HExternal := tamga_external)) (Verified (vc_work_dir context)) context).
  - intros d. exists 0%nat. constructor.
  - intros d1 d2 d3. apply verified_trans.
  - intros d der dir timeout_ms _ Hdir. destruct (CrlProofs.download_effects d der dir timeout_ms) as [(calls & _ & He) _].
    exists calls. eapply effects_weaken; [|exact He]. intros path data Hf. exists dir. split; [done|by left].
Qed.

Lemma report_effects (operation : string) (w : World) (settings : Settings) (ocsp : OcspSettings) (signature : bytes)
    (is_valid : bool) (info : VerifyPolicyInfo) :
  exists report metadata w', compute_report operation w settings ocsp signature is_valid info = Ret (report, metadata, w') /\
    Verified (sg_work_dir settings) w w' /\ (is_valid = false \/ sg_offline_mode settings = true -> w' = w).
Proof.
  unfold compute_report. destruct (signer_metadata_total info) as [m Hm]. unfold mbind, outcome_bind. rewrite Hm.
  destruct is_valid.
  2: { eexists _, _, _. split; [done|]. split; [exists 0%nat; constructor|done]. }
  unfold apply_engine, engine_certificates. cbn [Session.EnrichWithAiaIssuersIfNeeded tamga_cms ex_enrich tamga_external].
  match goal with |- context [EnrichWithAiaIssuersIfNeeded w ?wd ?t ?n ?s ?e] => pose proof (Enrich_effects w wd t n s e) as He;
    destruct (EnrichWithAiaIssuersIfNeeded w wd t n s e) as [candidates w1] end.
  destruct He as (_ & (calls & _ & He) & Hoff).
  destruct (engine_effects (context_of settings ocsp signature true) w1 (pi_signer_certificate_der info) candidates) as [Hv Ho].
  match type of Hv with context [snd ?p] => destruct p as [ve w2] end.
  cbn [snd] in Hv, Ho.
  destruct (Apply_verdict ve (local_report operation true info)) as (r & Hr & _). unfold mbind, outcome_bind. rewrite Hr.
  eexists _, _, _. split; [done|]. split.
  - apply verified_trans with w1; [|exact Hv]. exists calls. eapply effects_weaken; [|exact He].
    intros path data Hf. exists (sg_work_dir settings). split; [by left|by right].
  - intros [?|Hoffline]; [done|]. rewrite Ho by done. apply Hoff. by rewrite Hoffline.
Qed.

(** [C16] The verification of a detached signature, with the caches, the client and the engine of the program: whatever the network answers,
    every request that the caches send goes where the access policy admits it at that moment, and nothing is written but lists and
    certificates of issuers in their places below the working directory.  A signature that the CMS layer does not accept, and any
    signature in offline mode, is verified without a request of the caches and without a write. *)
Theorem VerifyData_effects (data signature : bytes) (st : State) :
  let settings := ss_settings (z_session st) in
  exists result is_valid st', VerifyData data signature st = Ret (result, is_valid, st') /\
    Verified (sg_work_dir settings) (z_disk st) (z_disk st') /\
    (is_valid = false \/ sg_offline_mode settings = true -> z_disk st' = z_disk st).
Proof.
  cbv zeta. unfold VerifyData. destruct (ss_is_initialized (z_session st)); cbn [negb].
  2: { eexists _, _, _. split; [done|]. split; [exists 0%nat; constructor|done]. }
  destruct (VerifyDetached data signature) as [?|[valid info]].
  { eexists _, _, _. split; [done|]. split; [exists 0%nat; constructor|done]. }
  destruct (report_effects "VerifyData" (z_disk st) (ss_settings (z_session st)) (ss_ocsp_settings (z_session st)) signature valid info)
    as (r & m & w' & Hc & Hv & Hoff). unfold mbind, outcome_bind. rewrite Hc.
  destruct (commit_report r m _ _) as [epochs session]. eexists _, _, _. split; [done|]. by split.
Qed.

End Program.

(** ** A small network *)

Module SampleFetch.

Import SampleCms AiaIssuerFetcher.

(** Files in memory; a path with an entry below it is a directory. *)
Definition memory_tree : FileApi := {|
  Fs := gmap string (list ascii);
  fs_read := memory_read;
  fs_exists fs path := bool_decide (is_Some (fs !! path)) || existsb (fun p => parent_path p ==s path) (map fst (map_to_list fs));
  fs_is_regular_file fs path := bool_decide (is_Some (fs !! path));
  fs_is_directory fs path := existsb (fun p => parent_path p ==s path) (map fst (map_to_list fs));
  fs_entries fs path := List.filter (fun p => parent_path p ==s path) (map fst (map_to_list fs));
  fs_absolute _ path := Some path;
  fs_create_directories fs _ := fs;
  fs_write fs path content := (true, <[path := content]> fs)
|}.

Definition list_url : string := "http://ca.example/full.crl".
Definition issuer_url : string := "http://ca.example/ca.cer".

(** The issuer of [leaf], issued by [toy_root]. *)
Definition issuer : bytes := [x30; x01; x01; x01; x07; x00].
Definition leaf : bytes := [x03; x30; x01; x00; x2a; x00].

(** A current list of the issuer with the name 48, which is not the one of [toy_leaf]. *)
Definition foreign_list : bytes := [x30; x03; x10; x40; x00].

Definition toy_network : WinHttp := {|
  WinHttpCrackUrl url := Some (false, "ca.example", 80, "/");
  exchange _ request :=
    if rq_url request ==s list_url then SampleRedirect.answer 200 "HTTP/1.1 200 OK" foreign_list
    else if rq_url request ==s issuer_url then SampleRedirect.answer 200 "HTTP/1.1 200 OK" issuer
    else SampleRedirect.answer 404 "HTTP/1.1 404 Not Found" [];
  ResolveSystemHost _ _ := ["93.184.216.34"]
|}.

Definition octets (text : string) : bytes := text_bytes (chars text).

Definition toy_extensions : @CertExtensions toy_cert_api := {|
  crl_distribution_points _ := Some [Some [Some (octets list_url)]];
  tbs_extensions _ := Some [([1; 3; 6; 1; 5; 5; 7; 1; 1], [x01])];
  decode_authority_info_access _ := Some [([1; 3; 6; 1; 5; 5; 7; 48; 1], Some (octets "http://ca.example/ocsp"));
                                          ([1; 3; 6; 1; 5; 5; 7; 48; 2], Some (octets issuer_url))]
|}.

#[local] Existing Instances memory_tree SampleRedirect.inet toy_network toy_extensions toy_clock toy_cert_api toy_crl_api toy_cms_api.

Definition empty_world : World := MkWorld [] ∅.
Definition with_root : World := MkWorld [] (<["w/trust-store/root.cer" := map Ascii.ascii_of_byte toy_root]> ∅).

(** A list is cached for a certificate whatever its issuer is, and while it is current nothing is asked any more. *)
Example foreign_list_is_cached :
  let w := CrlCache.DownloadAndCacheCrlsForCert empty_world toy_leaf "w" 1000 in
  map rq_url (w_history w) = [list_url] /\
  CrlCache.LoadCrlsFromWorkDir w "w" = [foreign_list] /\
  CrlCache.CrlMatchesCertificate foreign_list toy_leaf = false /\
  CrlCache.LoadMatchingCrlsFromWorkDir w "w" [toy_leaf] = [] /\
  map rq_url (w_history (CrlCache.DownloadAndCacheCrlsForCert w toy_leaf "w" 1000)) = [list_url].
Proof. split_and!; vm_compute; reflexivity. Qed.

(** The issuer that a certificate points to is found and cached; with it the chain is trusted. *)
Abbreviation found := (EnrichWithAiaIssuersIfNeeded with_root "w" 0 true leaf []).

Example missing_issuer_is_found :
  found.1 = [issuer] /\ map rq_url (w_history found.2) = [issuer_url] /\
  store_certificates found.2 "w" "intermediate-store" = [issuer] /\
  (EnrichWithAiaIssuersIfNeeded found.2 "w" 0 true leaf []).1 = [] /\
  length (w_history (EnrichWithAiaIssuersIfNeeded found.2 "w" 0 true leaf []).2) = 1%nat.
Proof. split; [|split; [|split; [|split]]]; vm_compute; reflexivity. Qed.

(** An address in the octets of a certificate that is no structure. *)
Example scanned_octets :
  AppendRawScannedAiaUrls ([x00] ++ kAiaOid ++ [x04; x20] ++ kCaIssuersOid ++ [x86; x18] ++ octets issuer_url ++ [x00]) [] = [issuer_url].
Proof. vm_compute. reflexivity. Qed.

End SampleFetch.
